(* ===== verification/_CoqProject ===== *)
-Q . S2P
Prelude.v
Errors.v
Values.v
Text.v
Random.v
Identity.v
Wifi.v
Qr.v
Reasons.v
Network.v
Variant.v
Credentials.v
IpSettings.v
WifiSettings.v
Profiles.v
ProfileWriter.v
Wire.v
Selection.v
Cache.v
Admission.v
Ledger.v
Scan.v
Activation.v
Bus.v
Events.v
Inventory.v
Devices.v
Migration.v
Saved.v
IpStatus.v
Status.v
WifiStatus.v
CacheHost.v
Health.v
Hotspot.v
Vpn.v
SecretRequest.v
SecretSession.v
SecretConfirm.v
SecretAgent.v
SecretWatch.v
ConnectWait.v
CastPolicy.v
Activate.v
Await.v
Band.v
Connect.v
ScanRun.v
Application.v
Deltas.v
Observation.v
Protocol.v
Runtime.v
Portal.v
Subscriptions.v
Forget.v
