(* ===== verification/Prelude.v ===== *)
(** * nm-daemon: a verification development (root file)

    ** The program

    nm-daemon is a session daemon in front of NetworkManager. A desktop frontend
    talks to it over D-Bus or a socket; it lists Wi-Fi networks, scans, connects,
    keeps a cache and a history, answers NetworkManager's requests for secrets,
    launches captive-portal browsers once per episode, and pushes status to
    subscribers. Its parts, bottom up:

    - the data model ([src/model.rs], [src/model/], [src/auth.rs], [src/qr.rs]),
      typed errors ([src/error.rs]) and the wire shapes ([src/model/wire_v1.rs]);
    - adapters to NetworkManager ([src/nm/]), of which the scan scheduler
      ([src/nm/scan_schedule.rs]) is shared by all callers;
    - the cache and history files ([src/cache.rs], [src/cache/]);
    - one connection attempt ([src/connect.rs], [src/connect_wait.rs],
      [src/activation.rs]) and the requests made of attempts, scans and listings
      ([src/application.rs]);
    - the daemon runtime: admission of attempts ([src/daemon_runtime/admission.rs]),
      the task table and retained results ([src/daemon_runtime.rs]), subscriptions
      ([src/daemon_runtime/subscriptions.rs], [src/daemon_status.rs]), the portal
      ledger ([src/portal/ledger.rs]) and the secret agent ([src/daemon_secret.rs]).

    ** The files

    Rust paths are relative to the crate root. A Rust [Result] is [result], [?] is
    [let?]; a [BTreeMap] is a sorted association list; a [HashMap] or [HashSet] is a
    [gmap] or [gset]; strings are byte strings and [char]-level operations decode
    them; instants and durations are nanoseconds in [N]. A mutex-protected operation
    is one atomic function; concurrency is a step relation that interleaves them.

    - [Prelude]: results, ordered keys and [BTreeMap]s, JSON values, the tactics
      [crush], [bool_prop], [unbind] and the hint database [nm].
    - [Errors]: [src/error.rs], [src/connect_error.rs]: error codes, causes, reports.
    - [Text], [Identity], [Wifi], [Reasons], [Qr]: byte strings and UTF-8, validated
      identifiers, security classification and channels, reason codes, QR codes.
    - [Network]: access points, grouping into network entries, readiness, prompts,
      sharing, network keys, connect targets and results.
    - [Wire], [Selection]: protocol-v1 records and connection selectors.
    - [Cache]: cache files as a repository whose reads and writes may fail, and the
      rotated history log.
    - [Admission]: at most one attempt per network, wrong-password back-off.
    - [Ledger]: captive-portal launches on a disk whose writes may fail.
    - [Scan]: the scan scheduler as a step relation of callers, and deadlines.
    - [Activation]: credential scopes with strong and weak references.
    - [ConnectWait]: the wait for an activation, on the list of its rounds.
    - [Connect]: [ConnectionMachine] over the class [NetworkManager] of adapter
      operations, in a monad that threads the world, the cache files, the machine's
      fields and a trace; weakest preconditions give total correctness.
    - [Application]: candidates, the retry loop and the events of a connect request.

    ** What the theorems show

    - Safety of connecting ([Connect], [Application], [Admission], [Activation],
      [ConnectWait]): a profile is deleted exactly when its activation was not
      verified; a reported connection has evidence; attempts on a network exclude
      each other; a credential outcome is decided once; an activation is given up
      only after its grace period; a frontend hears exactly one outcome.
    - Sharing ([Scan], [Ledger]): one scan per device, every waiter served with the
      outcome of its scan; a portal launch is claimed at most once and an automatic
      one happens once per episode, across crashes and failed writes.
    - Data ([Network], [Wifi], [Qr], [Wire], [Identity], [Selection], [Cache]): grouping
      is a partition with distinct keys, keys and QR codes read back, security
      classes follow the flags, wire records are stable, the cache stays consistent.

    ** Bounds and fuel

    [Connect.run_states] runs with fuel [MAX_STATES] = 7 and [Application.connect_loop]
    with fuel 2; the theorems show that they always end within it. Waits run on the
    list of their rounds, and the class [NetworkManagerClock] says that the rounds
    reach the deadline. Recursive parsers run on structurally smaller input.

    ** Not modelled

    D-Bus input and output (the adapters of [src/nm/], the transport in [src/daemon.rs],
    [src/client.rs]), the command line ([src/cli.rs], [src/command.rs], [src/actions.rs]),
    logging, random numbers and netlink telemetry: they are parameters where a
    modelled part uses them. serde's field names and the protocol tables
    ([src/protocol.rs], [src/contract.rs]) are data for the serialisation library. *)
From Stdlib Require Import ZArith Lia Ascii.
From stdpp Require Import prelude gmap strings list sorting.

(** ** Results and the [?] operator *)

(** Rust's [Result]: the value types are kept apart from the error type, as in
    the source ([anyhow::Result], [std::result::Result]). *)
Inductive result (A E : Type) : Type :=
| Ok (a : A)
| Err (e : E).
Arguments Ok {A E} a.
Arguments Err {A E} e.

Declare Scope nm_scope.
Delimit Scope nm_scope with nm.
Open Scope nm_scope.

Notation "'let?' x ':=' c 'in' k" :=
  (match c with Ok x => k | Err err => Err err end)
  (at level 10, x pattern, c at level 200, k at level 200) : nm_scope.

Definition is_ok {A E} (r : result A E) : bool :=
  match r with Ok _ => true | Err _ => false end.

Definition result_map {A B E} (f : A → B) (r : result A E) : result B E :=
  match r with Ok a => Ok (f a) | Err e => Err e end.

Definition result_map_err {A E F} (f : E → F) (r : result A E) : result A F :=
  match r with Ok a => Ok a | Err e => Err (f e) end.

(** [Option::ok_or_else] and [anyhow::ensure!]. *)
Definition ok_or {A E} (o : option A) (e : E) : result A E :=
  match o with Some a => Ok a | None => Err e end.

Definition ensure {E} (b : bool) (e : E) : result unit E :=
  if b then Ok tt else Err e.

(** [Option<Result<T>>::transpose]. *)
Definition transpose {A E} (o : option (result A E)) : result (option A) E :=
  match o with
  | None => Ok None
  | Some r => result_map Some r
  end.

Definition unwrap_or {A} (o : option A) (d : A) : A :=
  match o with Some a => a | None => d end.

Definition ok_value {A E} (d : A) (r : result A E) : A :=
  match r with Ok a => a | Err _ => d end.
Lemma is_ok_value {A E} (d : A) (r : result A E) : is_ok r = true → r = Ok (ok_value d r).
Proof. by destruct r. Qed.

#[export] Instance result_eq_dec {A E} `{EqDecision A, EqDecision E} :
  EqDecision (result A E).
Proof. solve_decision. Defined.

(** ** Durations and instants

    [std::time::Instant] and [Duration] are natural numbers of nanoseconds.
    Truncated subtraction of [N] is [saturating_sub] and
    [saturating_duration_since]. *)
Abbreviation instant := N (only parsing).
Abbreviation duration := N (only parsing).

Definition from_millis (n : N) : duration := (n * 1000000)%N.
Definition from_secs (n : N) : duration := (n * 1000000000)%N.
Definition as_millis (d : duration) : N := (d / 1000000)%N.

(** ** Machine integers *)
Definition u64_max : N := (2 ^ 64 - 1)%N.
Definition u64_wrapping_add (a b : N) : N := ((a + b) mod 2 ^ 64)%N.
Definition u64_saturating_add (a b : N) : N := N.min (a + b) u64_max.

(** ** Total orders, as Rust's [Ord] *)
Class Ord (K : Type) := {
  cmp : K → K → comparison;
  cmp_eq : ∀ a b, cmp a b = Eq ↔ a = b;
  cmp_antisym : ∀ a b, cmp b a = CompOpp (cmp a b);
  cmp_lt_trans : ∀ a b c, cmp a b = Lt → cmp b c = Lt → cmp a c = Lt;
}.

Section Ord_facts.
Context `{Ord K}.

Lemma cmp_refl a : cmp a a = Eq.
Proof. by apply cmp_eq. Qed.

Lemma cmp_gt_lt a b : cmp a b = Gt → cmp b a = Lt.
Proof. intros E. by rewrite cmp_antisym, E. Qed.

Lemma cmp_lt_gt a b : cmp a b = Lt → cmp b a = Gt.
Proof. intros E. by rewrite cmp_antisym, E. Qed.

Lemma cmp_gt_trans a b c : cmp a b = Gt → cmp b c = Gt → cmp a c = Gt.
Proof.
  intros E1%cmp_gt_lt E2%cmp_gt_lt. apply cmp_lt_gt. by eapply cmp_lt_trans.
Qed.

Lemma cmp_eq_dec (a b : K) : {a = b} + {a ≠ b}.
Proof.
  destruct (cmp a b) eqn:E; [left; by apply cmp_eq | right | right];
    intros ->; by rewrite cmp_refl in E.
Defined.
End Ord_facts.

#[export, refine] Instance N_ord : Ord N := {| cmp := N.compare |}.
Proof.
  - apply N.compare_eq_iff.
  - apply N.compare_antisym.
  - intros a b c. rewrite !N.compare_lt_iff. lia.
Defined.

(** [bool]: [false < true]. *)
Definition bool_cmp (a b : bool) : comparison :=
  match a, b with
  | false, true => Lt
  | true, false => Gt
  | _, _ => Eq
  end.

#[export, refine] Instance bool_ord : Ord bool := {| cmp := bool_cmp |}.
Proof.
  - intros [] []; by split.
  - by intros [] [].
  - by intros [] [] [].
Defined.

(** An order transported along an injection into an ordered type. *)
Definition ord_via {A K} `{Ord K} (f : A → K) (f_inj : ∀ a b, f a = f b → a = b) :
  Ord A.
Proof.
  refine {| cmp a b := cmp (f a) (f b) |}.
  - intros a b. rewrite cmp_eq. split; [apply f_inj | by intros ->].
  - intros a b. apply cmp_antisym.
  - intros a b c. apply cmp_lt_trans.
Defined.

#[export, refine] Instance ascii_ord : Ord ascii := ord_via N_of_ascii _.
Proof.
  intros a b E. by rewrite <-(ascii_N_embedding a), E, ascii_N_embedding.
Defined.

(** Lexicographic order on sequences: a proper prefix is smaller. *)
Fixpoint list_cmp {K} `{Ord K} (l k : list K) : comparison :=
  match l, k with
  | [], [] => Eq
  | [], _ => Lt
  | _, [] => Gt
  | a :: l', b :: k' =>
    match cmp a b with Eq => list_cmp l' k' | c => c end
  end.

#[export, refine] Instance list_ord {K} `{Ord K} : Ord (list K) := {| cmp := list_cmp |}.
Proof.
  - induction a as [|a l IH]; intros [|b k]; simpl; try done.
    destruct (cmp a b) eqn:E.
    + apply cmp_eq in E as ->. rewrite IH. naive_solver.
    + split; [done|]. intros [= -> ->]. by rewrite cmp_refl in E.
    + split; [done|]. intros [= -> ->]. by rewrite cmp_refl in E.
  - induction a as [|a l IH]; intros [|b k]; simpl; [done..|].
    rewrite (cmp_antisym a b). destruct (cmp a b); simpl; auto.
  - induction a as [|a l IH]; intros [|b k] [|c m]; simpl; try done.
    destruct (cmp a b) eqn:E1; destruct (cmp b c) eqn:E2; try done.
    + apply cmp_eq in E1 as ->. rewrite E2. apply IH.
    + apply cmp_eq in E1 as ->. by rewrite E2.
    + apply cmp_eq in E2 as ->. by rewrite E1.
    + by rewrite (cmp_lt_trans _ _ _ E1 E2).
Defined.

#[export, refine] Instance string_ord : Ord string := ord_via String.list_ascii_of_string _.
Proof.
  intros a b E.
  by rewrite <-(String.string_of_list_ascii_of_string a), E, String.string_of_list_ascii_of_string.
Defined.

#[export, refine] Instance prod_ord {A B} `{Ord A, Ord B} : Ord (A * B) :=
  {| cmp p q := match cmp p.1 q.1 with Eq => cmp p.2 q.2 | c => c end |}.
Proof.
  - intros [a b] [a' b']; simpl. destruct (cmp a a') eqn:E.
    + apply cmp_eq in E as ->. rewrite cmp_eq. naive_solver.
    + split; [done|]. intros [= -> ->]. by rewrite cmp_refl in E.
    + split; [done|]. intros [= -> ->]. by rewrite cmp_refl in E.
  - intros [a b] [a' b']; simpl. rewrite (cmp_antisym a a').
    destruct (cmp a a'); simpl; auto using cmp_antisym.
  - intros [a b] [a' b'] [a'' b'']; simpl.
    destruct (cmp a a') eqn:E1; destruct (cmp a' a'') eqn:E2; try done.
    + apply cmp_eq in E1 as ->. rewrite E2. apply cmp_lt_trans.
    + apply cmp_eq in E1 as ->. by rewrite E2.
    + apply cmp_eq in E2 as ->. by rewrite E1.
    + by rewrite (cmp_lt_trans _ _ _ E1 E2).
Defined.

(** ** [BTreeMap]: association lists in strictly increasing key order

    [bt_update k f m] is the entry API: the value under [k] becomes [f] of the
    old value, an absent key being inserted at its place. *)
Section BTreeMap.
Context {K V : Type} `{Ord K}.
Implicit Types (m : list (K * V)) (k : K).

Fixpoint bt_get k m : option V :=
  match m with
  | [] => None
  | (k', v) :: m' =>
    match cmp k k' with Lt => None | Eq => Some v | Gt => bt_get k m' end
  end.

Fixpoint bt_update k (f : option V → V) m : list (K * V) :=
  match m with
  | [] => [(k, f None)]
  | (k', v) :: m' =>
    match cmp k k' with
    | Lt => (k, f None) :: (k', v) :: m'
    | Eq => (k', f (Some v)) :: m'
    | Gt => (k', v) :: bt_update k f m'
    end
  end.

Definition bt_insert k (v : V) m : list (K * V) := bt_update k (λ _, v) m.

Definition key_lt (p q : K * V) : Prop := cmp p.1 q.1 = Lt.
Definition bt_sorted m : Prop := StronglySorted key_lt m.

Lemma bt_get_update_eq k f m : bt_get k (bt_update k f m) = Some (f (bt_get k m)).
Proof.
  induction m as [|[k' v] m IH]; simpl; [by rewrite cmp_refl|].
  destruct (cmp k k') eqn:E; simpl; rewrite ?cmp_refl, ?E; done.
Qed.

Lemma bt_get_update_ne k j f m : j ≠ k → bt_get j (bt_update k f m) = bt_get j m.
Proof.
  intros Hne. assert (cmp j k ≠ Eq) as Hjk by (rewrite cmp_eq; done).
  induction m as [|[k' v] m IH]; simpl; [by destruct (cmp j k)|].
  destruct (cmp k k') eqn:E; simpl.
  - apply cmp_eq in E as <-. by destruct (cmp j k).
  - destruct (cmp j k) eqn:E'; [done| |done].
    by rewrite (cmp_lt_trans _ _ _ E' E).
  - by rewrite IH.
Qed.

Lemma bt_get_insert_eq k v m : bt_get k (bt_insert k v m) = Some v.
Proof. apply bt_get_update_eq. Qed.

Lemma bt_get_insert_ne k j v m : j ≠ k → bt_get j (bt_insert k v m) = bt_get j m.
Proof. apply bt_get_update_ne. Qed.

Lemma bt_update_elem k f m p :
  p ∈ bt_update k f m → p = (k, f (bt_get k m)) ∨ p ∈ m.
Proof.
  induction m as [|[k' v] m IH]; simpl; [set_solver|].
  destruct (cmp k k') eqn:E; [apply cmp_eq in E as ->| |];
    rewrite !elem_of_cons; naive_solver.
Qed.

Lemma bt_sorted_update k f m : bt_sorted m → bt_sorted (bt_update k f m).
Proof.
  unfold bt_sorted.
  induction m as [|[k' v] m IH]; simpl; [by repeat constructor|].
  intros [Hm Hall]%StronglySorted_inv.
  destruct (cmp k k') eqn:E.
  - by constructor.
  - constructor; [by constructor|]. constructor; [done|].
    eapply Forall_impl; [done|]. intros p Hp. by eapply cmp_lt_trans.
  - constructor; [by apply IH|]. apply Forall_forall.
    intros p [->|Hp]%bt_update_elem.
    + unfold key_lt; simpl. by apply cmp_gt_lt.
    + by eapply Forall_forall in Hall.
Qed.

Lemma bt_sorted_keys_NoDup m : bt_sorted m → NoDup m.*1.
Proof.
  induction 1 as [|[k v] m Hm IH Hall]; simpl; constructor; [|done].
  intros ([k' v'] & -> & Hin)%list_elem_of_fmap.
  eapply Forall_forall in Hall; [|done]. unfold key_lt in Hall; simpl in Hall.
  by rewrite cmp_refl in Hall.
Qed.

Lemma bt_get_elem k v m : bt_get k m = Some v → (k, v) ∈ m.
Proof.
  induction m as [|[k' v'] m IH]; simpl; [done|].
  destruct (cmp k k') eqn:E; [apply cmp_eq in E as ->| |]; [|done|].
  - intros [= ->]. by left.
  - intros ?. right. auto.
Qed.

Lemma bt_elem_get k v m : bt_sorted m → (k, v) ∈ m → bt_get k m = Some v.
Proof.
  induction 1 as [|[k' v'] m Hm IH Hall]; [by intros ?%elem_of_nil|].
  intros [[= -> ->]|Hin]%elem_of_cons; simpl; [by rewrite cmp_refl|].
  eapply Forall_forall in Hall; [|done]. unfold key_lt in Hall; simpl in Hall.
  rewrite (cmp_lt_gt _ _ Hall). auto.
Qed.

Lemma bt_update_idem k f m :
  (∀ o, f (Some (f o)) = f o) → bt_update k f (bt_update k f m) = bt_update k f m.
Proof.
  intros Hf. induction m as [|[k' v] m IH]; simpl; [by rewrite cmp_refl, Hf|].
  destruct (cmp k k') eqn:E; simpl; rewrite ?cmp_refl, ?E, ?Hf, ?IH; done.
Qed.

Lemma bt_update_keys k f m j : j ∈ (bt_update k f m).*1 ↔ j = k ∨ j ∈ m.*1.
Proof.
  induction m as [|[k' v] m IH]; simpl; [set_solver|].
  destruct (cmp k k') eqn:E; [apply cmp_eq in E as ->| |]; simpl;
    rewrite !elem_of_cons; naive_solver.
Qed.

Lemma bt_update_length k f m :
  length (bt_update k f m) =
  match bt_get k m with Some _ => length m | None => S (length m) end.
Proof.
  induction m as [|[k' v] m IH]; simpl; [done|].
  destruct (cmp k k') eqn:E; simpl; [done|done|].
  rewrite IH. by destruct (bt_get k m).
Qed.
End BTreeMap.

(** ** Iterators *)

(** [Iterator::max_by]: among equal maxima the last one is returned. *)
Definition max_by {A} (c : A → A → comparison) (l : list A) : option A :=
  match l with
  | [] => None
  | a :: l' =>
    Some (foldl (λ acc x, match c acc x with Gt => acc | _ => x end) a l')
  end.

(** [Iterator::find]. *)
Fixpoint find_first {A} (p : A → bool) (l : list A) : option A :=
  match l with
  | [] => None
  | a :: l' => if p a then Some a else find_first p l'
  end.

Lemma find_first_Some {A} (p : A → bool) l a :
  find_first p l = Some a →
  ∃ l1 l2, l = l1 ++ a :: l2 ∧ p a = true ∧ ∀ x, x ∈ l1 → p x = false.
Proof.
  induction l as [|b l IH]; simpl; [done|].
  destruct (p b) eqn:E.
  - intros [= ->]. exists [], l. split_and!; [done..|]. by intros ? ?%elem_of_nil.
  - intros (l1 & l2 & -> & Ha & Hl1)%IH. exists (b :: l1), l2.
    split_and!; [done..|]. intros x [->|?]%elem_of_cons; auto.
Qed.

Lemma find_first_None {A} (p : A → bool) l :
  find_first p l = None ↔ ∀ x, x ∈ l → p x = false.
Proof.
  induction l as [|b l IH]; simpl; [split; [by intros _ ? ?%elem_of_nil|done]|].
  destruct (p b) eqn:E.
  - split; [done|]. intros Hall. rewrite (Hall b) in E; [done|by left].
  - rewrite IH. setoid_rewrite elem_of_cons. naive_solver.
Qed.

Lemma foldl_max_elem {A} (c : A → A → comparison) l a :
  foldl (λ acc x, match c acc x with Gt => acc | _ => x end) a l ∈ a :: l.
Proof.
  revert a; induction l as [|b l IH]; intros a; simpl; [by left|].
  destruct (c a b); specialize (IH b) as Hb; specialize (IH a) as Ha; set_solver.
Qed.

Lemma max_by_elem {A} (c : A → A → comparison) l a : max_by c l = Some a → a ∈ l.
Proof. destruct l as [|b l]; simpl; [done|]. intros [= <-]. apply foldl_max_elem. Qed.

(** The key returned by [max_by] dominates every element, for an order read
    through a key function. *)
Lemma foldl_max_by_max {A K} `{Ord K} (key : A → K) l a x :
  x ∈ a :: l →
  cmp (key x)
    (key (foldl (λ acc x, match cmp (key acc) (key x) with Gt => acc | _ => x end) a l))
  ≠ Gt.
Proof.
  revert a x. induction l as [|b l IH]; intros a x Hx; simpl.
  - apply list_elem_of_singleton in Hx as ->. by rewrite cmp_refl.
  - destruct (cmp (key a) (key b)) eqn:E.
    + apply cmp_eq in E. apply elem_of_cons in Hx as [->|Hx]; [|by apply IH].
      rewrite E. apply IH. by left.
    + apply elem_of_cons in Hx as [->|Hx]; [|by apply IH].
      intros Hgt. apply (IH b b); [by left|].
      eapply cmp_gt_trans; [by apply cmp_lt_gt|done].
    + apply elem_of_cons in Hx as [->|[->|Hx]%elem_of_cons].
      * apply IH. by left.
      * intros Hgt. apply (IH a a); [by left|]. by eapply cmp_gt_trans.
      * apply IH. by right.
Qed.

(** Replacing the value a search by value stopped at, by one that it accepts,
    makes the search stop at the same key. *)
Lemma find_first_bt_update {K V} `{Ord K} (q : V → bool) k e f (m : list (K * V)) :
  bt_sorted m → find_first (λ kv, q kv.2) m = Some (k, e) → q (f (Some e)) = true →
  find_first (λ kv, q kv.2) (bt_update k f m) = Some (k, f (Some e)).
Proof.
  intros Hs. induction Hs as [|[k' v] m Hs IH Hall]; simpl; [done|].
  destruct (q v) eqn:Hq; intros Hf Hqe.
  - simplify_eq. rewrite cmp_refl. simpl. by rewrite Hqe.
  - pose proof (find_first_Some _ _ _ Hf) as (l1 & l2 & -> & _).
    rewrite Forall_app, Forall_cons in Hall. destruct Hall as (_ & Hlt & _).
    unfold key_lt in Hlt; simpl in Hlt.
    rewrite (cmp_lt_gt _ _ Hlt). simpl. rewrite Hq. by apply IH.
Qed.

(** ** Automation *)

Create HintDb nm discriminated.
#[export] Hint Resolve bt_sorted_update bt_get_insert_eq max_by_elem : nm.

(** Case analysis on the scrutinee of some [match] or [if] of the goal or of a
    hypothesis, keeping the equation. *)
Ltac split_match :=
  match goal with
  | |- context [ match ?x with _ => _ end ] => destruct x eqn:?
  | H : context [ match ?x with _ => _ end ] |- _ => destruct x eqn:?
  end.

Ltac crush := repeat (simplify_eq/=; try split_match); try done; eauto with nm.

(** Boolean guards of the source as propositions. *)
Ltac bool_prop :=
  repeat match goal with
  | H : _ && _ = true |- _ => apply andb_true_iff in H as [? ?]
  | H : _ || _ = false |- _ => apply orb_false_iff in H as [? ?]
  | H : negb _ = true |- _ => apply negb_true_iff in H
  | H : negb _ = false |- _ => apply negb_false_iff in H
  | H : bool_decide _ = true |- _ => apply bool_decide_eq_true in H
  | H : bool_decide _ = false |- _ => apply bool_decide_eq_false in H
  | H : (_ <? _)%N = true |- _ => apply N.ltb_lt in H
  | H : (_ <? _)%N = false |- _ => apply N.ltb_ge in H
  | H : (_ <=? _)%N = true |- _ => apply N.leb_le in H
  | H : (_ <=? _)%N = false |- _ => apply N.leb_gt in H
  | H : (_ =? _)%N = true |- _ => apply N.eqb_eq in H
  | H : (_ =? _)%N = false |- _ => apply N.eqb_neq in H
  end.

(** Step through the [let?]s of a computation that returned [Ok]. *)
Ltac unbind :=
  repeat match goal with
  | |- match ?x with Ok _ => _ | Err _ => _ end = Ok _ → _ => destruct x eqn:?; [|done]
  end.

(** The same for hypotheses, with the options and guards turned into errors. *)
Ltac unbind_all :=
  repeat match goal with
  | H : match ?x with Ok _ => _ | Err _ => _ end = Ok _ |- _ => destruct x eqn:?; [|discriminate H]
  | H : ok_or ?o _ = Ok _ |- _ => destruct o eqn:?; cbn [ok_or] in H; [injection H as H|discriminate H]
  | H : ensure ?b _ = Ok _ |- _ => destruct b eqn:?; cbn [ensure] in H; [clear H|discriminate H]
  end.

(** Rewrite the goal with the boolean facts at hand. *)
Ltac bool_rewrite :=
  repeat match goal with
  | H : ?x = true |- context [?x] => rewrite H
  | H : ?x = false |- context [?x] => rewrite H
  end.

(** ** [serde_json::Value]

    Objects are [BTreeMap]s, as serde_json has them without its
    [preserve_order] feature. *)
Inductive json : Type :=
| JNull
| JBool (b : bool)
| JNum (z : Z)
| JStr (s : string)
| JArr (l : list json)
| JObj (m : list (string * json)).

(** Shared indexing [v["k"]]: [Null] for a missing key and for any value that
    is not an object. *)
Definition jget (v : json) (k : string) : json :=
  match v with
  | JObj m => unwrap_or (bt_get k m) JNull
  | _ => JNull
  end.

Definition jstr (v : json) : option string :=
  match v with JStr s => Some s | _ => None end.

Fixpoint json_eqb (a b : json) {struct a} : bool :=
  let fix arr (l k : list json) : bool :=
    match l, k with
    | [], [] => true
    | x :: l', y :: k' => json_eqb x y && arr l' k'
    | _, _ => false
    end in
  let fix obj (l k : list (string * json)) : bool :=
    match l, k with
    | [], [] => true
    | (i, x) :: l', (j, y) :: k' => bool_decide (i = j) && json_eqb x y && obj l' k'
    | _, _ => false
    end in
  match a, b with
  | JNull, JNull => true
  | JBool x, JBool y => Bool.eqb x y
  | JNum x, JNum y => Z.eqb x y
  | JStr x, JStr y => bool_decide (x = y)
  | JArr l, JArr k => arr l k
  | JObj l, JObj k => obj l k
  | _, _ => false
  end.

(** Structural induction on values, through arrays and objects. *)
Section JsonInd.
Context (P : json → Prop).
Hypothesis Pnull : P JNull.
Hypothesis Pbool : ∀ b, P (JBool b).
Hypothesis Pnum : ∀ z, P (JNum z).
Hypothesis Pstr : ∀ s, P (JStr s).
Hypothesis Parr : ∀ l, Forall P l → P (JArr l).
Hypothesis Pobj : ∀ m, Forall (λ kv, P kv.2) m → P (JObj m).

Fixpoint json_ind' (v : json) : P v :=
  match v with
  | JNull => Pnull
  | JBool b => Pbool b
  | JNum z => Pnum z
  | JStr s => Pstr s
  | JArr l =>
    Parr l ((fix go l : Forall P l :=
      match l with [] => Forall_nil_2 _ | x :: l' => Forall_cons_2 _ x l' (json_ind' x) (go l') end) l)
  | JObj m =>
    Pobj m ((fix go m : Forall (λ kv, P kv.2) m :=
      match m with
      | [] => Forall_nil_2 _
      | kv :: m' => Forall_cons_2 _ kv m' (json_ind' kv.2) (go m')
      end) m)
  end.
End JsonInd.

(** Equality of values decides equality. *)
Lemma json_eqb_eq a b : json_eqb a b = true ↔ a = b.
Proof.
  revert b. induction a as [|x|x|x|l IH|m IH] using json_ind'; intros b; destruct b; cbn; try done.
  - rewrite Bool.eqb_true_iff. split; congruence.
  - rewrite Z.eqb_eq. split; congruence.
  - rewrite bool_decide_eq_true. split; congruence.
  - revert l0. induction IH as [|y l Hy _ IHl]; intros [|z l0]; try done.
    rewrite andb_true_iff, Hy, IHl. split; [by intros [-> [= ->]]|by intros [= -> ->]].
  - revert m0. induction IH as [|[i y] m Hy _ IHm]; intros [|[j z] m0]; try done.
    cbn [snd] in Hy. rewrite !andb_true_iff, bool_decide_eq_true, Hy, IHm.
    split; [by intros [[-> ->] [= ->]]|by intros [= -> -> ->]].
Qed.

#[export] Instance json_eq_dec : EqDecision json.
Proof.
  refine (λ a b, match json_eqb a b as x return json_eqb a b = x → Decision (a = b) with
                 | true => λ E, left _
                 | false => λ E, right _
                 end eq_refl).
  - by apply json_eqb_eq.
  - intros ->. assert (json_eqb b b = true) by (by apply json_eqb_eq). congruence.
Defined.
