(* ===== verification/Errors.v ===== *)
(** * Typed errors ([src/error.rs], [src/connect_error.rs])

    [DomainError] and its constructors, the cause chain of an [anyhow::Error],
    the classification of foreign causes (zbus, I/O, serde_json), and the
    frontend view [ErrorReport].  An [Error] is an [anyhow::Error]: a head with
    an optional source, whose chain is walked from the outermost cause. *)
From S2P Require Import Prelude.
From Stdlib Require Import ZArith Lia.
From stdpp Require Import prelude strings list.

(** ** Enumerations *)

(** [model.rs]: why a connection attempt failed. *)
Module Reason.
Inductive ConnectFailureReason :=
| SecretRequired | WrongPassword | PasswordUnavailable | AuthorizationRequired
| UnsupportedAuth | ValidationError | NotFound | Timeout | DhcpFailed
| ActivationFailed | Unknown.
#[global] Instance eq_dec : EqDecision ConnectFailureReason.
Proof. solve_decision. Defined.
End Reason.
Export Reason (ConnectFailureReason).

Module Code.
Inductive ErrorCode :=
| ValidationError | NetworkmanagerUnavailable | Conflict | AuthorizationRequired
| NotFound | Timeout | OutcomeUnknown | Cancelled | SecretRequired | WrongPassword
| PasswordUnavailable | UnsupportedAuth | DhcpFailed | ActivationFailed
| SubprocessFailed | InternalError | Unknown.
#[global] Instance eq_dec : EqDecision ErrorCode.
Proof. solve_decision. Defined.

(** [impl From<ConnectFailureReason> for ErrorCode]. *)
Definition from_reason (r : ConnectFailureReason) : ErrorCode :=
  match r with
  | Reason.SecretRequired => SecretRequired
  | Reason.WrongPassword => WrongPassword
  | Reason.PasswordUnavailable => PasswordUnavailable
  | Reason.AuthorizationRequired => AuthorizationRequired
  | Reason.UnsupportedAuth => UnsupportedAuth
  | Reason.ValidationError => ValidationError
  | Reason.NotFound => NotFound
  | Reason.Timeout => Timeout
  | Reason.DhcpFailed => DhcpFailed
  | Reason.ActivationFailed => ActivationFailed
  | Reason.Unknown => Unknown
  end.

Definition connect_reason (c : ErrorCode) : option ConnectFailureReason :=
  match c with
  | ValidationError => Some Reason.ValidationError
  | AuthorizationRequired => Some Reason.AuthorizationRequired
  | NotFound => Some Reason.NotFound
  | Timeout => Some Reason.Timeout
  | Cancelled | ActivationFailed | SubprocessFailed => Some Reason.ActivationFailed
  | SecretRequired => Some Reason.SecretRequired
  | WrongPassword => Some Reason.WrongPassword
  | PasswordUnavailable => Some Reason.PasswordUnavailable
  | UnsupportedAuth => Some Reason.UnsupportedAuth
  | DhcpFailed => Some Reason.DhcpFailed
  | Conflict | OutcomeUnknown | NetworkmanagerUnavailable | InternalError | Unknown =>
    None
  end.
End Code.
Export Code (ErrorCode).

Module Op.
Inductive ErrorOperation :=
| Initialize | ParseRequest | ConnectSystemBus | CreateDbusProxy | Status
| Connectivity | Discovery | Inventory | Statistics | HotspotOperation
| VpnOperation | QrOperation | Networks | BandOperation | Scan | Connect
| Disconnect | ProfileOperation | Subscribe | SecretOperation
| SerializeResponse | EmitEvent | Unknown.
#[global] Instance eq_dec : EqDecision ErrorOperation.
Proof. solve_decision. Defined.

(** [#[serde(rename_all = "kebab-case")]]. *)
Definition name (o : ErrorOperation) : string :=
  match o with
  | Initialize => "initialize" | ParseRequest => "parse-request"
  | ConnectSystemBus => "connect-system-bus" | CreateDbusProxy => "create-dbus-proxy"
  | Status => "status" | Connectivity => "connectivity" | Discovery => "discovery"
  | Inventory => "inventory" | Statistics => "statistics"
  | HotspotOperation => "hotspot-operation" | VpnOperation => "vpn-operation"
  | QrOperation => "qr-operation" | Networks => "networks"
  | BandOperation => "band-operation" | Scan => "scan" | Connect => "connect"
  | Disconnect => "disconnect" | ProfileOperation => "profile-operation"
  | Subscribe => "subscribe" | SecretOperation => "secret-operation"
  | SerializeResponse => "serialize-response" | EmitEvent => "emit-event"
  | Unknown => "unknown"
  end.
End Op.
Export Op (ErrorOperation).

Module Src.
Inductive ErrorSource :=
| Validation | Dbus | Io | Subprocess | Serialization | NetworkManager
| Cancellation | Internal.
#[global] Instance eq_dec : EqDecision ErrorSource.
Proof. solve_decision. Defined.

Definition name (s : ErrorSource) : string :=
  match s with
  | Validation => "validation" | Dbus => "dbus" | Io => "io"
  | Subprocess => "subprocess" | Serialization => "serialization"
  | NetworkManager => "network-manager" | Cancellation => "cancellation"
  | Internal => "internal"
  end.
End Src.
Export Src (ErrorSource).

(** ** Foreign causes, as far as the source looks into them *)

Inductive IoErrorKind := TimedOut | OtherIoKind (debug : string).
#[export] Instance io_kind_eq_dec : EqDecision IoErrorKind.
Proof. solve_decision. Defined.

Record IoError := { io_kind : IoErrorKind; raw_os_error : option Z }.

Inductive ZbusError :=
| MethodError (name : string)
| InputOutput (e : IoError)
| Unsupported
| OtherZbus (debug : string).

(** [serde_json::error::Category], by its lower-cased debug name. *)
Record JsonError := { line : Z; column : Z; category : string }.

(** What an entry of the chain downcasts to; [NoDowncast] is every other type,
    an [anyhow] context message included. *)
Inductive ForeignError :=
| FZbus (e : ZbusError)
| FIo (e : IoError)
| FJson (e : JsonError)
| NoDowncast.

Definition Details := list (string * json).

Inductive Error :=
| EDomain (d : DomainError)
| EForeign (k : ForeignError) (display : string) (source : option Error)
with DomainError :=
| Validation (c : DomainErrorContext)
| Dbus (c : DomainErrorContext)
| Io (c : DomainErrorContext)
| Subprocess (c : DomainErrorContext)
| Serialization (c : DomainErrorContext)
| NetworkManager (c : DomainErrorContext)
| Cancellation (c : DomainErrorContext)
| Internal (c : DomainErrorContext)
with DomainErrorContext :=
| Context (code : ErrorCode) (operation : ErrorOperation) (message : string)
    (details : Details) (cause : option Error).

Definition ctx_code (c : DomainErrorContext) := let 'Context x _ _ _ _ := c in x.
Definition ctx_operation (c : DomainErrorContext) := let 'Context _ x _ _ _ := c in x.
Definition ctx_message (c : DomainErrorContext) := let 'Context _ _ x _ _ := c in x.
Definition ctx_details (c : DomainErrorContext) := let 'Context _ _ _ x _ := c in x.
Definition ctx_cause (c : DomainErrorContext) := let 'Context _ _ _ _ x := c in x.

Definition context (d : DomainError) : DomainErrorContext :=
  match d with
  | Validation c | Dbus c | Io c | Subprocess c | Serialization c
  | NetworkManager c | Cancellation c | Internal c => c
  end.

(** [context_mut]: the update a mutable borrow of the context performs. *)
Definition context_mut (f : DomainErrorContext → DomainErrorContext) (d : DomainError) :
    DomainError :=
  match d with
  | Validation c => Validation (f c)
  | Dbus c => Dbus (f c)
  | Io c => Io (f c)
  | Subprocess c => Subprocess (f c)
  | Serialization c => Serialization (f c)
  | NetworkManager c => NetworkManager (f c)
  | Cancellation c => Cancellation (f c)
  | Internal c => Internal (f c)
  end.

Definition source_kind (d : DomainError) : ErrorSource :=
  match d with
  | Validation _ => Src.Validation
  | Dbus _ => Src.Dbus
  | Io _ => Src.Io
  | Subprocess _ => Src.Subprocess
  | Serialization _ => Src.Serialization
  | NetworkManager _ => Src.NetworkManager
  | Cancellation _ => Src.Cancellation
  | Internal _ => Src.Internal
  end.

Definition code (d : DomainError) := ctx_code (context d).
Definition operation (d : DomainError) := ctx_operation (context d).
Definition message (d : DomainError) := ctx_message (context d).
Definition details (d : DomainError) := ctx_details (context d).

(** ** Constructors *)

Definition new (c : ErrorCode) (o : ErrorOperation) (s : ErrorSource) (m : string) :
    DomainError :=
  let ctx := Context c o m [] None in
  match s with
  | Src.Validation => Validation ctx
  | Src.Dbus => Dbus ctx
  | Src.Io => Io ctx
  | Src.Subprocess => Subprocess ctx
  | Src.Serialization => Serialization ctx
  | Src.NetworkManager => NetworkManager ctx
  | Src.Cancellation => Cancellation ctx
  | Src.Internal => Internal ctx
  end.

Definition with_detail (k : string) (v : json) : DomainError → DomainError :=
  context_mut (λ '(Context c o m ds cause), Context c o m (bt_insert k v ds) cause).

Definition set_details (ds : Details) : DomainError → DomainError :=
  context_mut (λ '(Context c o m _ cause), Context c o m ds cause).

Definition with_cause (e : Error) : DomainError → DomainError :=
  context_mut (λ '(Context c o m ds _), Context c o m ds (Some e)).

Definition validation (o : ErrorOperation) (m : string) : DomainError :=
  new Code.ValidationError o Src.Validation m.
Definition connect (r : ConnectFailureReason) (m : string) : DomainError :=
  new (Code.from_reason r) Op.Connect Src.NetworkManager m.
Definition internal (o : ErrorOperation) (m : string) : DomainError :=
  new Code.InternalError o Src.Internal m.
Definition cancelled_operation (o : ErrorOperation) (m : string) : DomainError :=
  new Code.Cancelled o Src.Cancellation m.
Definition cancelled (m : string) : DomainError := cancelled_operation Op.Connect m.
Definition timeout (o : ErrorOperation) (m : string) : DomainError :=
  new Code.Timeout o Src.NetworkManager m.
Definition conflict (o : ErrorOperation) (m : string) : DomainError :=
  new Code.Conflict o Src.Validation m.
Definition not_found (o : ErrorOperation) (m : string) : DomainError :=
  new Code.NotFound o Src.NetworkManager m.

(** [anyhow::anyhow!], [bail!] and [ensure!]: an error without a typed cause. *)
Definition plain (m : string) : Error := EForeign NoDowncast m None.

(** ** Chains *)

(** [anyhow::Error::chain]: the error, its source, the source's source, ... *)
Fixpoint chain (e : Error) : list Error :=
  e :: match e with
       | EDomain d =>
         match d with
         | Validation c | Dbus c | Io c | Subprocess c | Serialization c
         | NetworkManager c | Cancellation c | Internal c =>
           match c with
           | Context _ _ _ _ (Some e') => chain e'
           | Context _ _ _ _ None => []
           end
         end
       | EForeign _ _ (Some e') => chain e'
       | EForeign _ _ None => []
       end.

(** [Display] of one entry, and ["{:#}"] of the whole chain. *)
Definition display (e : Error) : string :=
  match e with EDomain d => message d | EForeign _ s _ => s end.

Fixpoint str_join (sep : string) (l : list string) : string :=
  match l with
  | [] => ""
  | [s] => s
  | s :: l' => s +:+ sep +:+ str_join sep l'
  end.

Definition err_chain (e : Error) : string := str_join ": " (display <$> chain e).

Definition as_domain (e : Error) : option DomainError :=
  match e with EDomain d => Some d | _ => None end.
Definition as_zbus (e : Error) : option ZbusError :=
  match e with EForeign (FZbus z) _ _ => Some z | _ => None end.
Definition as_io (e : Error) : option IoError :=
  match e with EForeign (FIo i) _ _ => Some i | _ => None end.
Definition as_json (e : Error) : option JsonError :=
  match e with EForeign (FJson j) _ _ => Some j | _ => None end.

(** [find_cause::<E>]: the outermost entry that downcasts. *)
Definition find_cause {A} (downcast : Error → option A) (e : Error) : option A :=
  head (omap downcast (chain e)).

Definition find_domain_error : Error → option DomainError := find_cause as_domain.

(** ** Classification of foreign causes *)

Definition networkmanager_operation (o : ErrorOperation) : bool :=
  match o with
  | Op.ConnectSystemBus | Op.CreateDbusProxy | Op.Status | Op.Connectivity
  | Op.Inventory | Op.Statistics | Op.HotspotOperation | Op.VpnOperation
  | Op.Networks | Op.Scan | Op.Connect | Op.Disconnect | Op.ProfileOperation => true
  | _ => false
  end.

Definition dbus_name_is_authorization (name : string) : bool :=
  bool_decide (name ∈
    [ "org.freedesktop.NetworkManager.Settings.PermissionDenied"
    ; "org.freedesktop.NetworkManager.PermissionDenied"
    ; "org.freedesktop.DBus.Error.AccessDenied"
    ; "org.freedesktop.PolicyKit1.Error.Failed" ]).

Definition dbus_name_is_not_found (name : string) : bool :=
  bool_decide (name ∈
    [ "org.freedesktop.DBus.Error.NameHasNoOwner"
    ; "org.freedesktop.DBus.Error.ServiceUnknown"
    ; "org.freedesktop.DBus.Error.UnknownObject"
    ; "org.freedesktop.NetworkManager.UnknownConnection"
    ; "org.freedesktop.NetworkManager.UnknownDevice" ]).

Definition zbus_fallback_code (o : ErrorOperation) : ErrorCode :=
  if networkmanager_operation o then Code.NetworkmanagerUnavailable
  else Code.InternalError.

Definition zbus_error_code (e : ZbusError) (o : ErrorOperation) : ErrorCode :=
  match e with
  | MethodError name =>
    if dbus_name_is_authorization name then Code.AuthorizationRequired
    else if dbus_name_is_not_found name then Code.NotFound
    else zbus_fallback_code o
  | InputOutput io =>
    if bool_decide (io_kind io = TimedOut) then Code.Timeout else zbus_fallback_code o
  | Unsupported =>
    if bool_decide (o = Op.Connect) then Code.UnsupportedAuth else zbus_fallback_code o
  | OtherZbus _ => zbus_fallback_code o
  end.

Definition classify_zbus_source (e : Error) (o : ErrorOperation) :
    option (ErrorCode * ErrorSource) :=
  (λ z, (zbus_error_code z o, Src.Dbus)) <$> find_cause as_zbus e.

Definition classify_io_source (e : Error) : option (ErrorCode * ErrorSource) :=
  (λ io, (if bool_decide (io_kind io = TimedOut) then Code.Timeout
          else Code.InternalError, Src.Io)) <$> find_cause as_io e.

Definition contains_json_error (e : Error) : bool :=
  bool_decide (is_Some (find_cause as_json e)).

Definition json_source_classification (o : ErrorOperation) : ErrorCode * ErrorSource :=
  if bool_decide (o = Op.ParseRequest) then (Code.ValidationError, Src.Validation)
  else (Code.InternalError, Src.Serialization).

Definition classify_concrete_source (e : Error) (o : ErrorOperation) :
    ErrorCode * ErrorSource :=
  match classify_zbus_source e o with
  | Some c => c
  | None =>
    match classify_io_source e with
    | Some c => c
    | None =>
      if contains_json_error e then json_source_classification o
      else (Code.InternalError, Src.Internal)
    end
  end.

Definition io_kind_debug (k : IoErrorKind) : string :=
  match k with TimedOut => "TimedOut" | OtherIoKind s => s end.

Definition io_source_details (e : IoError) : Details :=
  let ds := [("io_kind", JStr (io_kind_debug (io_kind e)))] in
  match raw_os_error e with
  | Some c => bt_insert "os_error" (JNum c) ds
  | None => ds
  end.

Definition zbus_source_details (e : ZbusError) : Details :=
  match e with
  | MethodError name => [("dbus_error_name", JStr name)]
  | InputOutput io => io_source_details io
  | Unsupported => [("dbus_error_kind", JStr "Unsupported")]
  | OtherZbus debug => [("dbus_error_kind", JStr debug)]
  end.

Definition json_source_details (e : JsonError) : Details :=
  bt_insert "json_error_category" (JStr (category e))
    (bt_insert "column" (JNum (column e))
      (bt_insert "line" (JNum (line e)) [])).

Definition concrete_source_details (e : Error) : Details :=
  match find_cause as_zbus e with
  | Some z => zbus_source_details z
  | None =>
    match find_cause as_io e with
    | Some io => io_source_details io
    | None => unwrap_or (json_source_details <$> find_cause as_json e) []
    end
  end.

(** ** The frontend view *)

Record ErrorReport := {
  r_code : ErrorCode;
  r_operation : ErrorOperation;
  r_source : ErrorSource;
  r_message : string;
  r_details : Details;
}.

Definition from_error (e : Error) (fallback : ErrorOperation) : ErrorReport :=
  match find_domain_error e with
  | Some d =>
    {| r_code := code d; r_operation := operation d; r_source := source_kind d;
       r_message := message d; r_details := details d |}
  | None =>
    let '(c, s) := classify_concrete_source e fallback in
    {| r_code := c; r_operation := fallback; r_source := s;
       r_message := err_chain e; r_details := concrete_source_details e |}
  end.

Definition api_details (r : ErrorReport) : json :=
  JObj (bt_insert "source" (JStr (Src.name (r_source r)))
         (bt_insert "operation" (JStr (Op.name (r_operation r))) (r_details r))).

(** [ensure_domain]: wrap an error without a typed cause, keep one that has it. *)
Definition ensure_domain (o : ErrorOperation) (e : Error) : Error :=
  match find_domain_error e with
  | Some _ => e
  | None =>
    let '(c, s) := classify_concrete_source e o in
    EDomain (with_cause e (set_details (concrete_source_details e)
              (new c o s (err_chain e))))
  end.

Definition operation_result {A} (o : ErrorOperation) (r : result A Error) :
    result A Error :=
  result_map_err (ensure_domain o) r.

Definition connect_from_error (r : ConnectFailureReason) (m : string) (cause : Error) :
    DomainError :=
  let report := from_error cause Op.Connect in
  with_cause cause (set_details (r_details report)
    (new (Code.from_reason r) Op.Connect (r_source report) m)).

(** ** Cancellation and best effort *)

Definition cancellation_requested (c : option bool) : bool :=
  match c with Some flag => flag | None => false end.

Definition check_cancellation (c : option bool) (o : ErrorOperation) (m : string) :
    result unit Error :=
  if cancellation_requested c then Err (EDomain (cancelled_operation o m)) else Ok tt.

Definition best_effort {A} (r : result A Error) : option A :=
  match r with Ok a => Some a | Err _ => None end.

(** ** [src/connect_error.rs] *)

Definition connect_failure_reason (e : Error) : ConnectFailureReason :=
  unwrap_or (Code.connect_reason (r_code (from_error e Op.Connect))) Reason.Unknown.

Definition connect_failure (r : ConnectFailureReason) (m : string) : Error :=
  EDomain (connect r m).

Definition connect_failure_from_error (r : ConnectFailureReason) (e : Error) : Error :=
  EDomain (connect_from_error r (err_chain e) e).

(** ** Lemmas *)

Lemma chain_head e : ∃ l, chain e = e :: l.
Proof. destruct e; simpl; eauto. Qed.

Lemma find_domain_error_EDomain d : find_domain_error (EDomain d) = Some d.
Proof. unfold find_domain_error, find_cause. by destruct (chain_head (EDomain d)) as [l ->]. Qed.

Lemma new_fields c o s m :
  code (new c o s m) = c ∧ operation (new c o s m) = o ∧
  source_kind (new c o s m) = s ∧ message (new c o s m) = m ∧
  details (new c o s m) = [].
Proof. by destruct s. Qed.

(** Updating a context through [context_mut] does not change the variant. *)
Lemma source_kind_context_mut f d : source_kind (context_mut f d) = source_kind d.
Proof. by destruct d. Qed.

Lemma context_context_mut f d : context (context_mut f d) = f (context d).
Proof. by destruct d. Qed.

(** The report of a wrapped domain error reads the fields given to [new]. *)
Lemma from_error_wrapped cause ds c o s m op :
  from_error (EDomain (with_cause cause (set_details ds (new c o s m)))) op =
  {| r_code := c; r_operation := o; r_source := s; r_message := m; r_details := ds |}.
Proof. unfold from_error. rewrite find_domain_error_EDomain. by destruct s. Qed.

Lemma from_error_no_domain e o :
  find_domain_error e = None →
  from_error e o =
  {| r_code := (classify_concrete_source e o).1; r_operation := o;
     r_source := (classify_concrete_source e o).2; r_message := err_chain e;
     r_details := concrete_source_details e |}.
Proof. unfold from_error. intros ->. by destruct (classify_concrete_source e o). Qed.

Lemma ensure_domain_typed o e : is_Some (find_domain_error (ensure_domain o e)).
Proof.
  unfold ensure_domain. destruct (find_domain_error e) eqn:E; [by rewrite E|].
  destruct (classify_concrete_source e o). rewrite find_domain_error_EDomain. eauto.
Qed.

#[export] Hint Resolve ensure_domain_typed find_domain_error_EDomain : nm.

(** Typing an error at an internal boundary does not change what the frontend
    is told about it: whatever operation the boundary reports later, the report
    is the one of the bare error under the operation that typed it; and typing
    it again changes nothing. *)
Theorem ensure_domain_report e o o' :
  from_error (ensure_domain o e) o' = from_error e o ∧
  ensure_domain o' (ensure_domain o e) = ensure_domain o e.
Proof.
  split.
  - unfold ensure_domain. destruct (find_domain_error e) as [d|] eqn:E.
    + unfold from_error. by rewrite E.
    + rewrite (from_error_no_domain e o E).
      destruct (classify_concrete_source e o). apply from_error_wrapped.
  - destruct (ensure_domain_typed o e) as [d Hd].
    unfold ensure_domain at 1. by rewrite Hd.
Qed.

(** A connect failure keeps its reason through the error code and back, also
    when it wraps another error; wrapping keeps the wrapped error's source
    category and details. *)
Theorem connect_reason_roundtrip r m e :
  connect_failure_reason (connect_failure r m) = r ∧
  connect_failure_reason (connect_failure_from_error r e) = r ∧
  r_source (from_error (connect_failure_from_error r e) Op.Connect) =
    r_source (from_error e Op.Connect) ∧
  r_details (from_error (connect_failure_from_error r e) Op.Connect) =
    r_details (from_error e Op.Connect).
Proof.
  unfold connect_failure_reason, connect_failure_from_error, connect_from_error.
  rewrite !from_error_wrapped. unfold connect_failure, connect, from_error at 1.
  rewrite find_domain_error_EDomain. simpl. by destruct r.
Qed.
