(* ===== verification/Values.v ===== *)
(** * JSON values ([serde_json::Value])

    What the daemon uses of [serde_json]: reading a member, and writing one through
    [IndexMut], which turns [null] into an object and panics on any other value that
    is not an object. A panic is [None]. *)
From S2P Require Import Prelude.
From Stdlib Require Import ZArith Lia.
From stdpp Require Import prelude strings list.

(** [Value::get] of a key; [as_array], [is_null]. *)
Definition vget (k : string) (v : json) : option json :=
  match v with JObj m => bt_get k m | _ => None end.
Definition as_array (v : json) : option (list json) :=
  match v with JArr l => Some l | _ => None end.
Definition is_null (v : json) : bool := match v with JNull => true | _ => false end.
Definition is_object (v : json) : bool := match v with JObj _ => true | _ => false end.

(** [f] applied to the place [v[k]]. *)
Definition index_mut (k : string) (f : json → option json) (v : json) : option json :=
  match v with
  | JNull => (λ x, JObj [(k, x)]) <$> f JNull
  | JObj m => (λ x, JObj (bt_insert k x m)) <$> f (unwrap_or (bt_get k m) JNull)
  | _ => None
  end.
Definition index_set (k : string) (x : json) : json → option json := index_mut k (λ _, Some x).

(** [json!] of an [Option]. *)
Definition json_option (o : option json) : json := unwrap_or o JNull.

Lemma vget_index_mut_eq k f v w :
  index_mut k f v = Some w → ∃ x, f (jget v k) = Some x ∧ vget k w = Some x.
Proof.
  destruct v as [| | | | |m]; cbn; try done.
  - destruct (f JNull) as [x|] eqn:E; [|done]. intros [= <-]. exists x. split; [done|].
    exact (bt_get_insert_eq k x []).
  - destruct (f _) as [x|] eqn:E; [|done]. intros [= <-]. exists x.
    split; [done|]. cbn. apply bt_get_insert_eq.
Qed.

Lemma vget_index_mut_ne k j f v w : j ≠ k → index_mut k f v = Some w → vget j w = vget j v.
Proof.
  intros Hne. destruct v as [| | | | |m]; cbn; try done.
  - destruct (f JNull) as [x|]; [|done]. intros [= <-].
    exact (bt_get_insert_ne k j x [] Hne).
  - destruct (f _) as [x|]; [|done]. intros [= <-]. cbn. by apply bt_get_insert_ne.
Qed.

Lemma vget_index_set_eq k x v w : index_set k x v = Some w → vget k w = Some x.
Proof. intros (y & [= <-] & ?)%vget_index_mut_eq. done. Qed.

Lemma index_set_object k x v : is_object v = true → is_Some (index_set k x v).
Proof. destruct v; cbn; by eauto. Qed.

Lemma index_mut_object k f v w : index_mut k f v = Some w → is_object w = true.
Proof. destruct v; cbn; [|done..|]; destruct (f _); cbn; intros; by simplify_eq. Qed.

Lemma vget_object k v x : vget k v = Some x → is_object v = true.
Proof. by destruct v. Qed.

Lemma jget_vget k v : jget v k = unwrap_or (vget k v) JNull.
Proof. by destruct v. Qed.
