(* ===== verification/Text.v ===== *)
(** * Strings and bytes

    A Rust [String] is a Rocq [string] holding its UTF-8 bytes and [Vec<u8>] is a
    [list ascii].  This file has the pieces of [std] the daemon uses on them:
    [chars], [String::from_utf8_lossy], [strip_prefix], [split], ASCII case and
    hexadecimal digits, with the lemmas the components share. *)
From S2P Require Import Prelude.
From Stdlib Require Import ZArith Lia Ascii.
From stdpp Require Import prelude strings list.

Abbreviation u8 := ascii (only parsing).
Abbreviation byte n := (ascii_of_N n) (only parsing).

(** [str::as_bytes] and its inverse on the bytes of a [str]. *)
Definition as_bytes (s : string) : list u8 := String.list_ascii_of_string s.
Definition of_bytes (b : list u8) : string := String.string_of_list_ascii b.

Lemma as_bytes_of_bytes b : as_bytes (of_bytes b) = b.
Proof. apply String.list_ascii_of_string_of_list_ascii. Qed.
Lemma of_bytes_as_bytes s : of_bytes (as_bytes s) = s.
Proof. apply String.string_of_list_ascii_of_string. Qed.
Lemma as_bytes_app s t : as_bytes (s +:+ t) = as_bytes s ++ as_bytes t.
Proof. induction s as [|a s IH]; simpl; [done|]. by f_equal. Qed.
Lemma as_bytes_inj s t : as_bytes s = as_bytes t → s = t.
Proof. intros H. by rewrite <-(of_bytes_as_bytes s), H, of_bytes_as_bytes. Qed.
Lemma as_bytes_cons a s : as_bytes (String.String a s) = a :: as_bytes s.
Proof. done. Qed.
#[export] Hint Rewrite as_bytes_of_bytes of_bytes_as_bytes as_bytes_app : nm.

(** [str::len]. *)
Definition str_len (s : string) : nat := length (as_bytes s).

(** ** UTF-8 *)

(** [char]s are code points. *)
Abbreviation char := N (only parsing).
Definition REPLACEMENT_CHARACTER : char := 65533%N.

(** Continuation bytes, and the width announced by a leading byte ([0] when the
    byte cannot lead). *)
Definition in_range (lo hi : N) (n : N) : bool := ((lo <=? n) && (n <=? hi))%N.
Definition is_continuation (b : u8) : bool := in_range 128 191 (N_of_ascii b).

Definition utf8_char_width (b : u8) : nat :=
  let n := N_of_ascii b in
  if (n <? 128)%N then 1
  else if in_range 194 223 n then 2
  else if in_range 224 239 n then 3
  else if in_range 240 244 n then 4
  else 0.

(** The second byte of three- and four-byte sequences is restricted so that
    overlong forms, surrogates and values past U+10FFFF are rejected. *)
Definition valid_second (b0 b1 : u8) : bool :=
  let n0 := N_of_ascii b0 in
  let n1 := N_of_ascii b1 in
  if (n0 =? 224)%N then in_range 160 191 n1
  else if (n0 =? 237)%N then in_range 128 159 n1
  else if (n0 =? 240)%N then in_range 144 191 n1
  else if (n0 =? 244)%N then in_range 128 143 n1
  else in_range 128 191 n1.

Definition low6 (b : u8) : N := (N_of_ascii b mod 64)%N.

(** One step of the decoder: a code point with the bytes it used, or the length
    of the maximal invalid prefix that [from_utf8_lossy] replaces by one
    U+FFFD. *)
Inductive decoded :=
| Valid (c : char) (used : nat)
| Invalid (used : nat).

Definition decode_one (b0 : u8) (rest : list u8) : decoded :=
  match utf8_char_width b0 with
  | 1 => Valid (N_of_ascii b0) 1
  | 2 =>
    match rest with
    | b1 :: _ =>
      if is_continuation b1
      then Valid (N_of_ascii b0 mod 32 * 64 + low6 b1)%N 2 else Invalid 1
    | [] => Invalid 1
    end
  | 3 =>
    match rest with
    | b1 :: rest' =>
      if valid_second b0 b1 then
        match rest' with
        | b2 :: _ =>
          if is_continuation b2
          then Valid (N_of_ascii b0 mod 16 * 4096 + low6 b1 * 64 + low6 b2)%N 3
          else Invalid 2
        | [] => Invalid 2
        end
      else Invalid 1
    | [] => Invalid 1
    end
  | 4 =>
    match rest with
    | b1 :: rest' =>
      if valid_second b0 b1 then
        match rest' with
        | b2 :: rest'' =>
          if is_continuation b2 then
            match rest'' with
            | b3 :: _ =>
              if is_continuation b3
              then Valid (N_of_ascii b0 mod 8 * 262144 + low6 b1 * 4096
                          + low6 b2 * 64 + low6 b3)%N 4
              else Invalid 3
            | [] => Invalid 3
            end
          else Invalid 2
        | [] => Invalid 2
        end
      else Invalid 1
    | [] => Invalid 1
    end
  | _ => Invalid 1
  end.

(** Walk a byte string; every step uses at least one byte, so its length is
    enough fuel. *)
Fixpoint utf8_steps (fuel : nat) (b : list u8) : list (decoded * list u8) :=
  match fuel, b with
  | S fuel', b0 :: rest =>
    let d := decode_one b0 rest in
    let n := match d with Valid _ n | Invalid n => n end in
    (d, take n b) :: utf8_steps fuel' (drop n b)
  | _, _ => []
  end.

Definition utf8_walk (b : list u8) : list (decoded * list u8) := utf8_steps (length b) b.

Definition is_valid (d : decoded) : bool :=
  match d with Valid _ _ => true | Invalid _ => false end.

(** [str::from_utf8(b).is_ok()]. *)
Definition utf8_valid (b : list u8) : bool := forallb (λ s, is_valid s.1) (utf8_walk b).

(** [str::chars]. *)
Definition chars (s : string) : list char :=
  (λ s, match s.1 with Valid c _ => c | Invalid _ => REPLACEMENT_CHARACTER end)
    <$> utf8_walk (as_bytes s).

(** The bytes EF BF BD of U+FFFD. *)
Definition replacement_bytes : list u8 := [byte 239; byte 191; byte 189].

(** [String::from_utf8_lossy]. *)
Definition from_utf8_lossy (b : list u8) : string :=
  of_bytes (utf8_walk b ≫= λ s,
    match s.1 with Valid _ _ => s.2 | Invalid _ => replacement_bytes end).

(** ** String operations *)

Fixpoint strip_prefix (p s : string) : option string :=
  match p, s with
  | String.EmptyString, _ => Some s
  | String.String a p', String.String b s' =>
    if decide (a = b) then strip_prefix p' s' else None
  | String.String _ _, String.EmptyString => None
  end.

Definition starts_with (p s : string) : bool := bool_decide (is_Some (strip_prefix p s)).

(** [char::is_whitespace] (Unicode White_Space) and [str::trim]. *)
Definition is_whitespace (c : char) : bool :=
  in_range 9 13 c || in_range 8192 8202 c
  || existsb (N.eqb c) [32; 133; 160; 5760; 8232; 8233; 8239; 8287; 12288]%N.
Definition is_blank (s : decoded * list u8) : bool :=
  match s.1 with Valid c _ => is_whitespace c | Invalid _ => false end.
Fixpoint drop_while {A} (p : A → bool) (l : list A) : list A :=
  match l with
  | [] => []
  | a :: l' => if p a then drop_while p l' else l
  end.
Definition trim (s : string) : string :=
  of_bytes (reverse (drop_while is_blank (reverse (drop_while is_blank (utf8_walk (as_bytes s)))))
              ≫= snd).

(** [str::split] with a predicate on ASCII separators; always at least one part. *)
Fixpoint split_bytes (p : u8 → bool) (b : list u8) : list (list u8) :=
  match b with
  | [] => [[]]
  | a :: b' =>
    if p a then [] :: split_bytes p b'
    else match split_bytes p b' with
         | part :: parts => (a :: part) :: parts
         | [] => [[a]]
         end
  end.

Definition is_byte (c : u8) (b : u8) : bool := bool_decide (b = c).

(** [char::is_ascii_digit], [is_ascii_hexdigit] and the ASCII case maps. *)
Definition is_ascii_hexdigit (b : u8) : bool :=
  let n := N_of_ascii b in
  in_range 48 57 n || in_range 65 70 n || in_range 97 102 n.

Definition to_ascii_uppercase_byte (b : u8) : u8 :=
  let n := N_of_ascii b in if in_range 97 122 n then byte (n - 32) else b.
Definition to_ascii_lowercase_byte (b : u8) : u8 :=
  let n := N_of_ascii b in if in_range 65 90 n then byte (n + 32) else b.

Definition map_bytes (f : u8 → u8) (s : string) : string := of_bytes (f <$> as_bytes s).
Definition to_ascii_uppercase : string → string := map_bytes to_ascii_uppercase_byte.
Definition to_ascii_lowercase : string → string := map_bytes to_ascii_lowercase_byte.
Definition eq_ignore_ascii_case (s t : string) : bool :=
  bool_decide (to_ascii_lowercase s = to_ascii_lowercase t).

(** [str::is_ascii]. *)
Definition is_ascii (s : string) : bool :=
  forallb (λ b, (N_of_ascii b <? 128)%N) (as_bytes s).

(** ** Hexadecimal *)

Definition hex_digit (n : N) : u8 := if (n <? 10)%N then byte (48 + n) else byte (87 + n).

(** [format!("{byte:02x}")]. *)
Definition hex_byte (b : u8) : list u8 :=
  let n := N_of_ascii b in [hex_digit (n / 16); hex_digit (n mod 16)].

(** [char::to_digit(16)]. *)
Definition hex_value (b : u8) : option N :=
  let n := N_of_ascii b in
  if in_range 48 57 n then Some (n - 48)%N
  else if in_range 65 70 n then Some (n - 55)%N
  else if in_range 97 102 n then Some (n - 87)%N
  else None.

Fixpoint hex_accumulate (acc : N) (b : list u8) : option N :=
  match b with
  | [] => Some acc
  | d :: b' =>
    match hex_value d with
    | Some v =>
      if (255 <? acc * 16 + v)%N then None else hex_accumulate (acc * 16 + v) b'
    | None => None
    end
  end.

(** [u8::from_str_radix(s, 16)]: a leading plus sign is accepted. *)
Definition u8_from_hex (b : list u8) : option u8 :=
  match b with
  | [] => None
  | d :: b' =>
    let digits := if decide (d = byte 43) then match b' with [] => b | _ => b' end else b in
    (λ n, byte n) <$> hex_accumulate 0 digits
  end.

(** [slice::chunks_exact(2)]; an odd last element is left out. *)
Fixpoint chunks2 (b : list u8) : list (list u8) :=
  match b with
  | x :: y :: b' => [x; y] :: chunks2 b'
  | _ => []
  end.

(** ** Lemmas *)

Lemma strip_prefix_app p s : strip_prefix p (p +:+ s) = Some s.
Proof. induction p as [|a p IH]; simpl; [done|]. by rewrite decide_True. Qed.

Lemma strip_prefix_Some p s t : strip_prefix p s = Some t → s = p +:+ t.
Proof.
  revert s. induction p as [|a p IH]; intros s; simpl; [by intros [= ->]|].
  destruct s as [|b s]; [done|]. case_decide as Hab; [|done]. subst.
  intros H%IH. by rewrite H.
Qed.

Lemma split_bytes_no_sep p b : forallb (λ a, negb (p a)) b = true → split_bytes p b = [b].
Proof.
  induction b as [|a b IH]; simpl; [done|]. intros H. bool_prop. rewrite H.
  by rewrite IH.
Qed.

Lemma split_bytes_sep p b s rest :
  forallb (λ a, negb (p a)) b = true → p s = true →
  split_bytes p (b ++ s :: rest) = b :: split_bytes p rest.
Proof.
  induction b as [|a b IH]; simpl; intros H Hs; [by rewrite Hs|].
  bool_prop. rewrite H. by rewrite IH.
Qed.

Lemma N_of_ascii_lt a : (N_of_ascii a < 256)%N.
Proof. apply N_ascii_bounded. Qed.

Lemma byte_N_of_ascii a : byte (N_of_ascii a) = a.
Proof. apply ascii_N_embedding. Qed.

Lemma N_of_byte n : (n < 256)%N → N_of_ascii (byte n) = n.
Proof. apply N_ascii_embedding. Qed.

(** A statement about every byte, decided by evaluation. *)
Lemma forall_bytes (P : u8 → bool) :
  forallb (λ n, P (ascii_of_nat n)) (seq 0 256) = true → ∀ a, P a = true.
Proof.
  intros H a. rewrite forallb_forall in H.
  rewrite <-(ascii_nat_embedding a). apply H, in_seq.
  pose proof (nat_ascii_bounded a). lia.
Qed.

Lemma hex_byte_value b : u8_from_hex (hex_byte b) = Some b.
Proof.
  eapply bool_decide_eq_true.
  refine (forall_bytes (λ b, bool_decide (u8_from_hex (hex_byte b) = Some b)) _ b).
  vm_compute. reflexivity.
Qed.

Lemma hex_byte_hexdigit b : forallb is_ascii_hexdigit (hex_byte b) = true.
Proof.
  apply (forall_bytes (λ b, forallb is_ascii_hexdigit (hex_byte b))). vm_compute. reflexivity.
Qed.

Lemma hex_byte_inj a b : hex_byte a = hex_byte b → a = b.
Proof. intros H. apply (inj Some). by rewrite <-!hex_byte_value, H. Qed.

Lemma decode_one_used b0 rest :
  1 ≤ match decode_one b0 rest with Valid _ n | Invalid n => n end.
Proof. unfold decode_one. repeat case_match; simplify_eq; lia. Qed.

Lemma decode_one_bound b0 rest :
  match decode_one b0 rest with Valid _ n | Invalid n => n end ≤ S (length rest).
Proof. unfold decode_one. repeat case_match; simplify_eq/=; lia. Qed.

(** The slices of a walk are the byte string. *)
Lemma utf8_steps_slices fuel b :
  length b ≤ fuel → (utf8_steps fuel b ≫= snd) = b.
Proof.
  revert b. induction fuel as [|fuel IH]; intros [|b0 rest] Hlen; simpl in *; try done; [lia|].
  pose proof (decode_one_used b0 rest) as Hused. set (n := match decode_one b0 rest with
    | Valid _ n | Invalid n => n end) in *.
  change (take n (b0 :: rest) ++ (utf8_steps fuel (drop n (b0 :: rest)) ≫= snd) = b0 :: rest).
  rewrite IH; [apply take_drop|]. rewrite length_drop. simpl. lia.
Qed.

(** Decoding text that is UTF-8 loses nothing. *)
Lemma from_utf8_lossy_valid b : utf8_valid b = true → from_utf8_lossy b = of_bytes b.
Proof.
  intros Hv. unfold from_utf8_lossy. f_equal.
  transitivity (utf8_walk b ≫= snd); [|by apply utf8_steps_slices].
  unfold utf8_valid in Hv. rewrite forallb_forall in Hv.
  induction (utf8_walk b) as [|[d s] l IH]; [done|]. rewrite !bind_cons. f_equal.
  - specialize (Hv (d, s) (or_introl eq_refl)). by destruct d.
  - apply IH. intros x Hx. apply Hv. by right.
Qed.

(** ** [trim] is idempotent *)

(** The decoder looks no further than the bytes it uses. *)
Lemma decode_one_take b0 rest m :
  (match decode_one b0 rest with Valid _ n | Invalid n => n end) ≤ S m →
  decode_one b0 (take m rest) = decode_one b0 rest.
Proof.
  unfold decode_one. destruct (utf8_char_width b0) as [|[|[|[|[|w]]]]]; try done;
    destruct rest as [|b1 [|b2 [|b3 r]]]; destruct m as [|[|[|m]]]; cbn;
    repeat case_match; intros; simplify_eq; try lia; done.
Qed.

Lemma utf8_steps_fuel fuel fuel' b :
  length b ≤ fuel → length b ≤ fuel' → utf8_steps fuel b = utf8_steps fuel' b.
Proof.
  revert fuel' b. induction fuel as [|fuel IH]; intros [|fuel'] [|b0 rest] H1 H2; simpl in *; try done; [lia..|].
  pose proof (decode_one_used b0 rest). f_equal. apply IH; rewrite length_drop; cbn; lia.
Qed.

Lemma utf8_walk_cons b0 rest :
  let n := match decode_one b0 rest with Valid _ n | Invalid n => n end in
  utf8_walk (b0 :: rest) = (decode_one b0 rest, take n (b0 :: rest)) :: utf8_walk (drop n (b0 :: rest)).
Proof.
  cbn zeta. unfold utf8_walk at 1. cbn [length utf8_steps]. f_equal.
  pose proof (decode_one_used b0 rest). apply utf8_steps_fuel; [|done]. rewrite length_drop. cbn; lia.
Qed.

(** A suffix of a walk walks the bytes that are left, a prefix the bytes so far. *)
Lemma utf8_walk_suffix l1 l2 b : utf8_walk b = l1 ++ l2 → utf8_walk (l2 ≫= snd) = l2.
Proof.
  revert b. induction l1 as [|s l1 IH]; intros b Hb.
  - cbn in Hb. rewrite <-Hb. f_equal. by apply utf8_steps_slices.
  - destruct b as [|b0 rest]; [done|]. rewrite utf8_walk_cons in Hb. injection Hb as _ Hb. by eapply IH.
Qed.

Lemma utf8_walk_prefix l1 l2 b : utf8_walk b = l1 ++ l2 → utf8_walk (l1 ≫= snd) = l1.
Proof.
  revert b. induction l1 as [|s l1 IH]; intros b Hb; [done|].
  destruct b as [|b0 rest]; [done|]. rewrite utf8_walk_cons in Hb. cbn zeta in Hb.
  pose proof (decode_one_used b0 rest) as Hu. pose proof (decode_one_take b0 rest) as Htake.
  pose proof (decode_one_bound b0 rest) as Hbound.
  set (n := match decode_one b0 rest with Valid _ n | Invalid n => n end) in *.
  cbn [app] in Hb. injection Hb as <- Hb. pose proof (IH _ Hb) as Hw.
  assert (l1 ≫= snd = take (length (l1 ≫= snd)) (drop n (b0 :: rest))) as Hpre.
  { rewrite <-(utf8_steps_slices (length (drop n (b0 :: rest))) (drop n (b0 :: rest)) (le_n _)) at 1.
    change (utf8_steps _ _) with (utf8_walk (drop n (b0 :: rest))).
    rewrite Hb, bind_app, take_app_length. done. }
  rewrite bind_cons. cbn [snd]. rewrite Hpre.
  set (k := length (l1 ≫= snd)) in *.
  assert (take n (b0 :: rest) ++ take k (drop n (b0 :: rest)) = b0 :: take (n + k - 1) rest) as E.
  { rewrite take_take_drop. destruct n; [lia|]. cbn. do 2 f_equal. lia. }
  rewrite E, utf8_walk_cons. cbn zeta. rewrite Htake by lia. fold n.
  rewrite <-E. f_equal.
  - f_equal. rewrite take_app_le by (rewrite length_take; cbn; lia). rewrite take_take. f_equal. lia.
  - rewrite drop_app_le by (rewrite length_take; cbn; lia).
    rewrite drop_ge by (rewrite length_take; cbn; lia). cbn. by rewrite <-Hpre.
Qed.

Lemma drop_while_suffix {A} (p : A → bool) l : ∃ k, l = k ++ drop_while p l.
Proof.
  induction l as [|a l [k IH]]; [by exists []|]. cbn. destruct (p a); [|by exists []].
  exists (a :: k). cbn. by rewrite <-IH.
Qed.

Lemma drop_while_idem {A} (p : A → bool) l : drop_while p (drop_while p l) = drop_while p l.
Proof. induction l as [|a l IH]; [done|]. cbn. destruct (p a) eqn:E; [done|]. cbn. by rewrite E. Qed.

Lemma drop_while_head {A} (p : A → bool) l a k : drop_while p l = a :: k → p a = false.
Proof. induction l as [|b l IH]; [done|]. cbn. destruct (p b) eqn:E; [done|]. by intros [= <- _]. Qed.

Lemma trim_trim s : trim (trim s) = trim s.
Proof.
  unfold trim. set (l := drop_while is_blank (utf8_walk (as_bytes s))).
  set (r := drop_while is_blank (reverse l)). rewrite as_bytes_of_bytes.
  destruct (drop_while_suffix is_blank (utf8_walk (as_bytes s))) as [k1 E1]. fold l in E1.
  destruct (drop_while_suffix is_blank (reverse l)) as [k2 E2]. fold r in E2.
  assert (l = reverse r ++ reverse k2) as E3 by (by rewrite <-reverse_app, <-E2, reverse_involutive).
  pose proof (utf8_walk_suffix k1 l _ E1) as Hl. rewrite E3 in Hl at 2.
  rewrite (utf8_walk_prefix _ _ _ Hl). f_equal. f_equal.
  assert (drop_while is_blank (reverse r) = reverse r) as ->.
  { destruct (reverse r) as [|a t] eqn:Er; [done|]. cbn.
    rewrite (drop_while_head is_blank (utf8_walk (as_bytes s)) a (t ++ reverse k2)); [done|].
    fold l. by rewrite E3. }
  rewrite reverse_involutive. unfold r. by rewrite drop_while_idem.
Qed.
