(* ===== verification/Random.v ===== *)
(** * Generated credentials ([src/random.rs])

    Passphrases and UUIDs made from the bytes of the kernel's generator. The generator is
    the list of blocks it returns (or the errors of reading it); a passphrase draws blocks
    until it has enough characters. *)
From S2P Require Import Prelude Errors Text.
From Stdlib Require Import ZArith Lia Ascii.
From stdpp Require Import prelude strings list.

Definition PASSPHRASE_ALPHABET : list u8 := as_bytes "abcdefghijkmnopqrstuvwxyz23456789".

Definition passphrase_character (b : u8) : option u8 :=
  let alphabet_len := N.of_nat (length PASSPHRASE_ALPHABET) in
  let limit := (255 - 255 mod alphabet_len)%N in
  if (N_of_ascii b <? limit)%N
  then PASSPHRASE_ALPHABET !! N.to_nat (N_of_ascii b mod alphabet_len) else None.

(** [None]: the blocks do not suffice yet. *)
Fixpoint passphrase_loop (blocks : list (result (list u8) Error)) (len : nat) (passphrase : list u8) :
    option (result (list u8) Error) :=
  if (length passphrase <? len)%nat then
    match blocks with
    | [] => None
    | Err e :: _ => Some (Err e)
    | Ok block :: blocks =>
      passphrase_loop blocks len
        (passphrase ++ take (len - length passphrase) (omap passphrase_character block))
    end
  else Some (Ok passphrase).
Definition random_passphrase (blocks : list (result (list u8) Error)) (len : nat) : option (result string Error) :=
  if (len =? 0)%nat then Some (Err (plain "passphrase length must be positive"))
  else result_map of_bytes <$> passphrase_loop blocks len [].

(** Bytes 6 and 8 carry the version and the variant. *)
Definition set_bits (keep set : N) (b : u8) : u8 := byte (N.lor (N.land (N_of_ascii b) keep) set).
Definition random_uuid_v4 (block : result (list u8) Error) : result string Error :=
  let? bytes := block in
  let bytes := alter (set_bits 15 64) 6 bytes in
  let bytes := alter (set_bits 63 128) 8 bytes in
  let hex := bytes ≫= hex_byte in
  let slice a b := of_bytes (take (b - a) (drop a hex)) in
  Ok (slice 0 8 +:+ "-" +:+ slice 8 12 +:+ "-" +:+ slice 12 16 +:+ "-" +:+ slice 16 20 +:+ "-" +:+ slice 20 32).

(** ** Passphrases *)

(** The accepted characters of the blocks that could be read. *)
Definition accepted (blocks : list (list u8)) : list u8 := blocks ≫= omap passphrase_character.

Lemma take_take_app {A} k (l r : list A) : take k (take k l ++ r) = take k (l ++ r).
Proof. rewrite !take_app, take_take, length_take, Nat.min_id. f_equal. f_equal. lia. Qed.
Lemma passphrase_loop_spec blocks len acc :
  length acc ≤ len → len ≤ length (acc ++ accepted blocks) →
  passphrase_loop (Ok <$> blocks) len acc = Some (Ok (take len (acc ++ accepted blocks))).
Proof.
  revert acc. induction blocks as [|b blocks IH]; intros acc Hacc Hlen; cbn [passphrase_loop fmap list_fmap];
    destruct (Nat.ltb_spec (length acc) len) as [Hlt|Hge].
  - unfold accepted in Hlen. cbn in Hlen. rewrite app_nil_r in Hlen. lia.
  - by rewrite take_app_le, take_ge by lia.
  - change (accepted (b :: blocks)) with (omap passphrase_character b ++ accepted blocks) in *.
    rewrite !length_app in Hlen. rewrite IH; rewrite ?length_app, ?length_take; [|lia..].
    rewrite <-app_assoc. do 2 f_equal. rewrite !(take_app acc _ len), take_take_app. done.
  - by rewrite take_app_le, take_ge by lia.
Qed.

Lemma passphrase_character_alphabet b c : passphrase_character b = Some c → c ∈ PASSPHRASE_ALPHABET.
Proof.
  unfold passphrase_character. destruct (_ <? _)%N; [|done]. apply list_elem_of_lookup_2.
Qed.
Lemma accepted_alphabet blocks : Forall (.∈ PASSPHRASE_ALPHABET) (accepted blocks).
Proof.
  unfold accepted. apply Forall_forall. intros c (b & Hb & _)%list_elem_of_bind.
  apply list_elem_of_omap in Hb as (x & _ & Hx). by eapply passphrase_character_alphabet.
Qed.

Lemma random_passphrase_loop blocks len :
  len ≠ 0 → random_passphrase blocks len = result_map of_bytes <$> passphrase_loop blocks len [].
Proof. intros Hl. unfold random_passphrase. by destruct (Nat.eqb_spec len 0). Qed.

(** What is returned has the length asked for. *)
Lemma passphrase_loop_length blocks len acc p :
  length acc ≤ len → passphrase_loop blocks len acc = Some (Ok p) → length p = len.
Proof.
  revert acc. induction blocks as [|[b|e] blocks IH]; intros acc Hacc; cbn [passphrase_loop];
    destruct (Nat.ltb_spec (length acc) len); try discriminate; try (intros [= <-]; lia).
  apply IH. rewrite length_app, length_take. lia.
Qed.
Lemma passphrase_loop_alphabet blocks len acc p :
  Forall (.∈ PASSPHRASE_ALPHABET) acc → passphrase_loop blocks len acc = Some (Ok p) →
  Forall (.∈ PASSPHRASE_ALPHABET) p.
Proof.
  revert acc. induction blocks as [|[b|e] blocks IH]; intros acc Hacc; cbn [passphrase_loop];
    destruct (_ <? _)%nat; try discriminate; try (by intros [= <-]).
  apply IH, Forall_app. split; [done|]. apply Forall_take.
  pose proof (accepted_alphabet [b]) as H. cbn in H. by rewrite app_nil_r in H.
Qed.

(** How many of the 256 bytes become the character. *)
Definition all_bytes : list u8 := (λ n, byte (N.of_nat n)) <$> seq 0 256.
Definition weight (c : u8) : nat := length (filter (λ b, passphrase_character b = Some c) all_bytes).

(** Generated passphrases are unbiased: a passphrase is the first [len] accepted bytes
    of the generator's blocks, whatever their size, as soon as these suffice; every
    character of the alphabet stands for exactly seven of the 256 byte values, and no byte
    becomes a character outside the alphabet. *)
Theorem passphrase_unbiased blocks len :
  0 < len → len ≤ length (accepted blocks) →
  random_passphrase (Ok <$> blocks) len = Some (Ok (of_bytes (take len (accepted blocks)))) ∧
  Forall (.∈ PASSPHRASE_ALPHABET) (take len (accepted blocks)) ∧
  Forall (λ c, weight c = 7) PASSPHRASE_ALPHABET ∧
  ∀ b c, passphrase_character b = Some c → c ∈ PASSPHRASE_ALPHABET.
Proof.
  intros Hpos Hlen. split_and!.
  - rewrite random_passphrase_loop by lia. by rewrite passphrase_loop_spec by (cbn; lia).
  - apply Forall_take, accepted_alphabet.
  - assert (forallb (λ c, (weight c =? 7)%nat) PASSPHRASE_ALPHABET = true) as H by by vm_compute.
    apply Forall_forall. intros c Hc. rewrite forallb_forall in H.
    apply Nat.eqb_eq, H. by apply list_elem_of_In.
  - apply passphrase_character_alphabet.
Qed.

Lemma passphrase_unbiased_witness :
  random_passphrase (Ok <$> [as_bytes "abcdefgh"; as_bytes "ijklmnop"]) 12 = Some (Ok "89abcdefghij").
Proof.
  destruct (passphrase_unbiased [as_bytes "abcdefgh"; as_bytes "ijklmnop"] 12) as [H _];
    [lia|by apply (bool_decide_unpack _); vm_compute|]. rewrite H. by vm_compute.
Defined.

(** ** UUIDs *)

(** The dashes, the version and the variant of a version 4 UUID. *)
Definition is_uuid_v4 (s : string) : bool :=
  let b := as_bytes s in
  (length b =? 36)%nat &&
  forallb (λ i, match b !! i with
                | Some c => if bool_decide (i ∈ [8; 13; 18; 23]) then is_byte "-"%char c else is_ascii_hexdigit c
                | None => false
                end) (seq 0 36) &&
  bool_decide (b !! 14 = Some "4"%char) && bool_decide (b !! 19 ∈ (Some <$> as_bytes "89ab")).

Lemma hex_byte_two b : ∃ x y, hex_byte b = [x; y] ∧ is_ascii_hexdigit x = true ∧ is_ascii_hexdigit y = true.
Proof.
  pose proof (hex_byte_hexdigit b) as H. unfold hex_byte in *. eexists _, _. split; [done|].
  cbn in H. by bool_prop.
Qed.
(** A test of the first digit that holds for every byte. *)
Definition first_digit (f : u8 → bool) (b : u8) : bool := match hex_byte b with x :: _ => f x | [] => false end.
Lemma hex_version b : ∃ y, hex_byte (set_bits 15 64 b) = ["4"%char; y] ∧ is_ascii_hexdigit y = true.
Proof.
  destruct (hex_byte_two (set_bits 15 64 b)) as (x & y & H & _ & Hy). exists y. split; [|done].
  pose proof (forall_bytes (λ b, first_digit (is_byte "4"%char) (set_bits 15 64 b)) ltac:(by vm_compute) b) as Hb.
  unfold first_digit in Hb. rewrite H in *. apply bool_decide_eq_true in Hb. by subst.
Qed.
Lemma hex_variant b : ∃ x y, hex_byte (set_bits 63 128 b) = [x; y] ∧ is_ascii_hexdigit x = true ∧
  is_ascii_hexdigit y = true ∧ Some x ∈ (Some <$> as_bytes "89ab").
Proof.
  destruct (hex_byte_two (set_bits 63 128 b)) as (x & y & H & Hx & Hy). exists x, y. split_and!; [done..|].
  pose proof (forall_bytes (λ b, first_digit (λ x, bool_decide (Some x ∈ (Some <$> as_bytes "89ab")))
    (set_bits 63 128 b)) ltac:(by vm_compute) b) as Hb.
  unfold first_digit in Hb. rewrite H in Hb. by bool_prop.
Qed.

(** A generated identifier is a version 4 UUID in the canonical form, whatever sixteen
    bytes the generator returns. *)
Lemma random_uuid_v4_form bytes :
  length bytes = 16 → ∃ s, random_uuid_v4 (Ok bytes) = Ok s ∧ is_uuid_v4 s = true.
Proof.
  intros Hlen. do 16 (destruct bytes as [|? bytes]; [done|]). destruct bytes; [|done].
  eexists. split; [reflexivity|].
  repeat match goal with
  | |- context [alter (set_bits 15 64) 6 ?l] => change (alter (set_bits 15 64) 6 l)
      with (take 6 l ++ set_bits 15 64 (nth 6 l "0"%char) :: drop 7 l)
  | |- context [alter (set_bits 63 128) 8 ?l] => change (alter (set_bits 63 128) 8 l)
      with (take 8 l ++ set_bits 63 128 (nth 8 l "0"%char) :: drop 9 l)
  end.
  cbn [take drop app nth mbind list_bind].
  repeat match goal with
  | |- context [hex_byte (set_bits 15 64 ?b)] => destruct (hex_version b) as (? & -> & ?)
  | |- context [hex_byte (set_bits 63 128 ?b)] => destruct (hex_variant b) as (? & ? & -> & ? & ? & Hv)
  | |- context [hex_byte ?b] => destruct (hex_byte_two b) as (? & ? & -> & ? & ?)
  end.
  unfold is_uuid_v4. cbv zeta. cbn [take drop app Nat.sub]. rewrite !as_bytes_app, !as_bytes_of_bytes.
  cbn -[is_ascii_hexdigit bool_decide]. 
  repeat match goal with H : is_ascii_hexdigit _ = true |- _ => rewrite H; clear H end.
  rewrite (bool_decide_true (Some _ ∈ _)) by exact Hv. done.
Qed.
