(* ===== verification/Identity.v ===== *)
(** * Validated identifiers ([src/model/identity.rs])

    SSIDs with their exact bytes, BSSIDs, interface names and NetworkManager
    object paths, as the newtypes whose constructors validate them. *)
From S2P Require Import Prelude Errors Text.
From Stdlib Require Import ZArith Lia Ascii.
From stdpp Require Import prelude strings list pretty.

(** ** SSIDs *)

(** [model.rs]: [validate_ssid_bytes], [display_ssid], [ssid_hex]. *)
Definition validate_ssid_bytes (ssid_bytes : list u8) : result unit Error :=
  if bool_decide (ssid_bytes = []) || (32 <? length ssid_bytes)%nat then
    Err (plain ("Wi-Fi SSID must be 1-32 bytes; got " +:+ pretty (length ssid_bytes)
                +:+ " bytes"))
  else Ok tt.

Definition display_ssid (ssid_bytes : list u8) : string := from_utf8_lossy ssid_bytes.

Definition ssid_hex (ssid_bytes : list u8) : string := of_bytes (ssid_bytes ≫= hex_byte).

Record Ssid := { ssid_bytes : list u8; ssid_display : string }.

#[export] Instance ssid_eq_dec : EqDecision Ssid.
Proof. solve_decision. Defined.

Definition ssid_from_bytes (b : list u8) : result Ssid Error :=
  let? _ := validate_ssid_bytes b in
  Ok {| ssid_bytes := b; ssid_display := display_ssid b |}.

Definition ssid_from_display (s : string) : result Ssid Error :=
  ssid_from_bytes (as_bytes s).

(** ** BSSIDs *)

Definition is_separator (b : u8) : bool :=
  is_byte ":"%char b || is_byte "-"%char b.

Definition looks_like_bssid (value : string) : bool :=
  let b := as_bytes value in
  (length (List.filter is_separator b) =? 5)%nat
  && forallb (λ part, (length part =? 2)%nat && forallb is_ascii_hexdigit part)
       (split_bytes is_separator b).

Definition validate_bssid (bssid : string) : result unit Error :=
  if looks_like_bssid bssid then Ok tt
  else Err (plain ("invalid BSSID '" +:+ bssid +:+ "'; expected six hexadecimal octets")).

(** [value.replace('-', ":").to_ascii_uppercase()]. *)
Definition bssid_byte (b : u8) : u8 :=
  to_ascii_uppercase_byte (if is_byte "-"%char b then ":"%char else b).

Record Bssid := { bssid_str : string }.
#[export] Instance bssid_eq_dec : EqDecision Bssid.
Proof. solve_decision. Defined.

Definition bssid_parse (value : string) : result Bssid Error :=
  let? _ := validate_bssid value in Ok {| bssid_str := map_bytes bssid_byte value |}.

(** ** Interface names *)

(** [char::is_whitespace]: the Unicode [White_Space] property. *)
Definition is_whitespace (c : char) : bool :=
  in_range 9 13 c || (c =? 32)%N || (c =? 133)%N || (c =? 160)%N || (c =? 5760)%N
  || in_range 8192 8202 c || (c =? 8232)%N || (c =? 8233)%N || (c =? 8239)%N
  || (c =? 8287)%N || (c =? 12288)%N.

Record InterfaceName := { ifname_str : string }.
#[export] Instance ifname_eq_dec : EqDecision InterfaceName.
Proof. solve_decision. Defined.

Definition ifname_parse (value : string) : result InterfaceName Error :=
  if bool_decide (value = "") || (15 <? str_len value)%nat
     || existsb (λ c, is_whitespace c || (c =? 47)%N || (c =? 0)%N) (chars value)
  then Err (plain ("invalid network interface name '" +:+ value +:+ "'"))
  else Ok {| ifname_str := value |}.

(** ** Object paths *)

Record NmObjectPath := { path_str : string }.
#[export] Instance object_path_eq_dec : EqDecision NmObjectPath.
Proof. solve_decision. Defined.

(** Validation is zvariant's [OwnedObjectPath::try_from]: the parameter answers
    whether a string is a D-Bus object path, or the error. *)
Definition object_path_parse (try_from : string → result unit Error) (value : string) :
    result NmObjectPath Error :=
  result_map (λ _, {| path_str := value |}) (try_from value).

(** ** Lemmas *)

Lemma ssid_from_bytes_Ok b s :
  ssid_from_bytes b = Ok s ↔
  1 ≤ length b ≤ 32 ∧ s = {| ssid_bytes := b; ssid_display := from_utf8_lossy b |}.
Proof.
  unfold ssid_from_bytes, validate_ssid_bytes.
  case_bool_decide as Hb; simpl; [subst; simpl; split; [done|lia]|].
  destruct (Nat.ltb_spec 32 (length b)); simpl.
  - split; [done|lia].
  - assert (length b ≠ 0) by (intros H0%nil_length_inv; done).
    split; [intros [= <-]|intros [_ ->]]; auto with lia.
Qed.

Lemma ssid_hex_cons a b : ssid_hex (a :: b) = of_bytes (hex_byte a) +:+ ssid_hex b.
Proof. done. Qed.

Lemma as_bytes_ssid_hex b : as_bytes (ssid_hex b) = b ≫= hex_byte.
Proof. apply as_bytes_of_bytes. Qed.

Lemma ssid_hex_bytes_hexdigit b : forallb is_ascii_hexdigit (b ≫= hex_byte) = true.
Proof.
  induction b as [|a b IH]; [done|]. rewrite bind_cons, forallb_app, IH, hex_byte_hexdigit.
  done.
Qed.

(** Hexadecimal SSIDs are an injective encoding, decoded byte pair by byte pair. *)
Lemma chunks2_ssid_hex b : chunks2 (b ≫= hex_byte) = hex_byte <$> b.
Proof. induction b as [|a b IH]; [done|]. rewrite bind_cons. simpl. by rewrite IH. Qed.

Lemma ssid_hex_inj b c : ssid_hex b = ssid_hex c → b = c.
Proof.
  intros H. assert ((b ≫= hex_byte) = (c ≫= hex_byte)) as H'
    by by rewrite <-!as_bytes_ssid_hex, H.
  apply (f_equal chunks2) in H'. rewrite !chunks2_ssid_hex in H'.
  clear H. revert c H'. induction b as [|a b IH]; intros [|a' c]; simpl; try done.
  intros [= E1 E2 E3]. f_equal; [|by apply IH].
  apply hex_byte_inj. unfold hex_byte; simpl. by rewrite E1, E2.
Qed.

Lemma split_bytes_map p f (b : list u8) :
  (∀ a, p (f a) = p a) → split_bytes p (f <$> b) = map (fmap f) (split_bytes p b).
Proof.
  intros Hp. induction b as [|a b IH]; csimpl; [done|].
  rewrite Hp, IH. destruct (p a); csimpl; [done|].
  by destruct (split_bytes p b).
Qed.

Lemma filter_map_length {A B} (p : B → bool) (q : A → bool) f (l : list A) :
  (∀ a, p (f a) = q a) →
  length (List.filter p (f <$> l)) = length (List.filter q l).
Proof.
  intros Hp. induction l as [|a l IH]; csimpl; [done|]. rewrite Hp.
  destruct (q a); csimpl; by rewrite IH.
Qed.

Lemma bssid_byte_separator a : is_separator (bssid_byte a) = is_separator a.
Proof.
  apply eqb_prop.
  refine (forall_bytes (λ a, Bool.eqb (is_separator (bssid_byte a)) (is_separator a)) _ a).
  vm_compute. reflexivity.
Qed.

Lemma bssid_byte_hexdigit a : is_ascii_hexdigit (bssid_byte a) = is_ascii_hexdigit a.
Proof.
  apply eqb_prop.
  refine (forall_bytes
    (λ a, Bool.eqb (is_ascii_hexdigit (bssid_byte a)) (is_ascii_hexdigit a)) _ a).
  vm_compute. reflexivity.
Qed.

Lemma bssid_byte_idem a : bssid_byte (bssid_byte a) = bssid_byte a.
Proof.
  eapply bool_decide_eq_true.
  refine (forall_bytes (λ a, bool_decide (bssid_byte (bssid_byte a) = bssid_byte a)) _ a).
  vm_compute. reflexivity.
Qed.

Lemma bssid_byte_upper a :
  negb (is_separator a || is_ascii_hexdigit a) ||
  (is_byte ":"%char (bssid_byte a) || (is_ascii_hexdigit (bssid_byte a) &&
     bool_decide (to_ascii_uppercase_byte (bssid_byte a) = bssid_byte a))) = true.
Proof.
  refine (forall_bytes (λ a, negb (is_separator a || is_ascii_hexdigit a) ||
    (is_byte ":"%char (bssid_byte a) || (is_ascii_hexdigit (bssid_byte a) &&
       bool_decide (to_ascii_uppercase_byte (bssid_byte a) = bssid_byte a)))) _ a).
  vm_compute. reflexivity.
Qed.

(** The canonical spelling is a BSSID exactly when the original was. *)
Lemma looks_like_bssid_canonical v :
  looks_like_bssid (map_bytes bssid_byte v) = looks_like_bssid v.
Proof.
  unfold looks_like_bssid, map_bytes. rewrite as_bytes_of_bytes. f_equal.
  - f_equal. apply filter_map_length, bssid_byte_separator.
  - rewrite split_bytes_map by apply bssid_byte_separator.
    induction (split_bytes is_separator (as_bytes v)) as [|part parts IH]; csimpl; [done|].
    rewrite IH, length_fmap. f_equal. f_equal.
    induction part as [|a part IHp]; csimpl; [done|]. by rewrite bssid_byte_hexdigit, IHp.
Qed.

Lemma split_bytes_parts p b : length (split_bytes p b) = S (length (List.filter p b)).
Proof.
  induction b as [|a b IH]; simpl; [done|]. destruct (p a); simpl; [by rewrite IH|].
  by destruct (split_bytes p b).
Qed.

Lemma split_bytes_sum p b :
  length b = length (List.filter p b) + sum_list (length <$> split_bytes p b).
Proof.
  induction b as [|a b IH]; csimpl; [done|].
  pose proof (split_bytes_parts p b) as Hparts.
  destruct (p a); csimpl; [lia|]. destruct (split_bytes p b); csimpl in *; lia.
Qed.

Lemma split_bytes_elem p b a :
  a ∈ b → p a = true ∨ ∃ part, part ∈ split_bytes p b ∧ a ∈ part.
Proof.
  induction b as [|c b IH]; [by intros ?%elem_of_nil|].
  intros [->|Ha]%elem_of_cons; simpl.
  - destruct (p c) eqn:Hc; [by left|]. right.
    destruct (split_bytes p b) as [|part parts]; eexists; split; by left.
  - destruct (IH Ha) as [?|(part & Hp & Hin)]; [by left|]. right.
    destruct (p c); [exists part; split; [by right|done]|].
    destruct (split_bytes p b) as [|part' parts]; [by apply elem_of_nil in Hp|].
    apply elem_of_cons in Hp as [->|Hp].
    + exists (c :: part'). split; [by left|by right].
    + exists part. split; [by right|done].
Qed.

Lemma sum_list_const (n : nat) (l : list nat) :
  (∀ x, x ∈ l → x = n) → sum_list l = length l * n.
Proof.
  induction l as [|x l IH]; simpl; [done|]. intros Hall.
  rewrite (Hall x) by left. rewrite IH; [lia|]. intros y Hy. apply Hall. by right.
Qed.

Lemma looks_like_bssid_length v : looks_like_bssid v = true → str_len v = 17.
Proof.
  unfold looks_like_bssid. intros H. bool_prop.
  match goal with H : (_ =? 5)%nat = true |- _ => apply Nat.eqb_eq in H as H5 end.
  unfold str_len. rewrite (split_bytes_sum is_separator), H5.
  rewrite (sum_list_const 2), length_fmap, split_bytes_parts, H5; [done|].
  intros x (part & -> & Hin)%list_elem_of_fmap.
  match goal with H : forallb _ (split_bytes _ _) = true |- _ =>
    rewrite forallb_forall in H; specialize (H part) end.
  apply list_elem_of_In in Hin. apply Nat.eqb_eq.
  match goal with H : In part _ → _ |- _ => apply H, andb_true_iff in Hin as [? _] end.
  done.
Qed.

(** The canonical spelling parses to itself. *)
Lemma bssid_parse_again v b : bssid_parse v = Ok b → bssid_parse (bssid_str b) = Ok b.
Proof.
  unfold bssid_parse, validate_bssid. destruct (looks_like_bssid v) eqn:Hv; [|done].
  intros [= <-]. simpl. rewrite looks_like_bssid_canonical, Hv.
  do 2 f_equal. unfold map_bytes. rewrite as_bytes_of_bytes, <-list_fmap_compose.
  f_equal. apply list_fmap_ext. intros i a _. apply bssid_byte_idem.
Qed.

(** Parsing a BSSID yields its canonical spelling: seventeen bytes, five
    colons and upper-case hexadecimal digits only, and parsing the canonical
    spelling returns it unchanged, so equal addresses compare equal however
    they were written. *)
Theorem bssid_parse_canonical v b :
  bssid_parse v = Ok b →
  bssid_parse (bssid_str b) = Ok b ∧ str_len (bssid_str b) = 17 ∧
  length (List.filter (is_byte ":"%char) (as_bytes (bssid_str b))) = 5 ∧
  forallb (λ a, is_byte ":"%char a ||
                (is_ascii_hexdigit a && bool_decide (to_ascii_uppercase_byte a = a)))
    (as_bytes (bssid_str b)) = true.
Proof.
  intros H. split; [by eapply bssid_parse_again|]. revert H.
  unfold bssid_parse, validate_bssid. destruct (looks_like_bssid v) eqn:Hv; [|done].
  intros [= <-]. cbn [bssid_str]. split_and!.
  - apply looks_like_bssid_length. by rewrite looks_like_bssid_canonical.
  - unfold map_bytes. rewrite as_bytes_of_bytes.
    rewrite (filter_map_length _ is_separator bssid_byte).
    + unfold looks_like_bssid in Hv. bool_prop. by apply Nat.eqb_eq.
    + intros a. apply eqb_prop.
      refine (forall_bytes (λ a, Bool.eqb (is_byte ":"%char (bssid_byte a)) (is_separator a))
                _ a).
      vm_compute. reflexivity.
  - unfold map_bytes. rewrite as_bytes_of_bytes. apply forallb_forall.
    intros x Hx. apply list_elem_of_In, list_elem_of_fmap in Hx as (a & -> & Ha).
    assert (is_separator a = true ∨ is_ascii_hexdigit a = true) as Hok.
    { destruct (split_bytes_elem is_separator _ _ Ha) as [?|(part & Hp & Hap)]; [by left|].
      right. unfold looks_like_bssid in Hv. apply andb_true_iff in Hv as [_ Hv].
      rewrite forallb_forall in Hv. apply list_elem_of_In, Hv, andb_true_iff in Hp as [_ Hp].
      rewrite forallb_forall in Hp. by apply Hp, list_elem_of_In. }
    pose proof (bssid_byte_upper a) as Hall.
    by destruct Hok as [Ho|Ho]; rewrite Ho, ?orb_true_r in Hall.
Qed.

Lemma bssid_parse_canonical_witness :
  bssid_parse "00-1a-2b-3c-4d-5e" = Ok {| bssid_str := "00:1A:2B:3C:4D:5E" |} ∧
  bssid_parse "00:1A:2B:3C:4D:5E" = Ok {| bssid_str := "00:1A:2B:3C:4D:5E" |}.
Proof.
  split; [vm_compute; reflexivity|].
  exact (proj1 (bssid_parse_canonical "00-1a-2b-3c-4d-5e" {| bssid_str := "00:1A:2B:3C:4D:5E" |}
    ltac:(vm_compute; reflexivity))).
Defined.
