(* ===== verification/Wifi.v ===== *)
(** * Wi-Fi security and radio facts ([src/model.rs], [src/auth.rs])

    Access-point flags of NetworkManager, the security label and class derived
    from them, the authentication they need, and the channel tables that
    [build.rs] generates from [data/wifi-channels.csv]. Flags are 32-bit words. *)
From S2P Require Import Prelude Errors Text.
From Stdlib Require Import ZArith Lia Ascii.
From stdpp Require Import prelude strings list.

(** ** Flags *)

Abbreviation u32 := N (only parsing).
Definition NM_AP_FLAGS_PRIVACY : u32 := 1.
Definition NM_AP_SEC_PAIR_WEP40 : u32 := 1.
Definition NM_AP_SEC_PAIR_WEP104 : u32 := 2.
Definition NM_AP_SEC_PAIR_TKIP : u32 := 4.
Definition NM_AP_SEC_PAIR_CCMP : u32 := 8.
Definition NM_AP_SEC_GROUP_WEP40 : u32 := 16.
Definition NM_AP_SEC_GROUP_WEP104 : u32 := 32.
Definition NM_AP_SEC_GROUP_TKIP : u32 := 64.
Definition NM_AP_SEC_GROUP_CCMP : u32 := 128.
Definition NM_AP_SEC_KEY_MGMT_PSK : u32 := 256.
Definition NM_AP_SEC_KEY_MGMT_802_1X : u32 := 512.
Definition NM_AP_SEC_KEY_MGMT_SAE : u32 := 1024.
Definition NM_AP_SEC_KEY_MGMT_OWE : u32 := 2048.
Definition NM_AP_SEC_KEY_MGMT_OWE_TM : u32 := 4096.
Definition NM_AP_SEC_KEY_MGMT_EAP_SUITE_B_192 : u32 := 8192.

(** [flags & mask != 0]. *)
Definition has (flags mask : u32) : bool := negb (N.land flags mask =? 0)%N.

(** ** Security labels and classes *)

Inductive Security :=
| Open | Owe | OweTransition | Wpa | Wpa2Or3 | Wep | Enterprise
| Other (value : string).
#[export] Instance security_eq_dec : EqDecision Security.
Proof. solve_decision. Defined.

Definition security_as_str (s : Security) : string :=
  match s with
  | Open => "--" | Owe => "OWE" | OweTransition => "OWE-TM" | Wpa => "WPA"
  | Wpa2Or3 => "WPA2/3" | Wep => "WEP" | Enterprise => "Enterprise"
  | Other value => value
  end.

Definition security_default : Security := Other "".

(** [impl Deserialize for Security], on the decoded string. *)
Definition security_of_str (value : string) : Security :=
  if bool_decide (value ∈ ["--"; "open"; "none"]) then Open
  else if bool_decide (value ∈ ["OWE"; "owe"]) then Owe
  else if bool_decide (value ∈ ["OWE-TM"; "owe-tm"]) then OweTransition
  else if bool_decide (value = "WPA") then Wpa
  else if bool_decide (value = "WPA2/3") then Wpa2Or3
  else if bool_decide (value ∈ ["WEP"; "wep"]) then Wep
  else if bool_decide (value = "Enterprise") then Enterprise
  else Other value.

Module Class.
Inductive SecurityClass := Open | EnhancedOpen | Legacy | Personal | Enterprise | Unknown.
#[global] Instance eq_dec : EqDecision SecurityClass.
Proof. solve_decision. Defined.

(** [#[derive(PartialOrd, Ord)]]: the order of declaration. *)
Definition tag (c : SecurityClass) : N :=
  match c with
  | Open => 0 | EnhancedOpen => 1 | Legacy => 2 | Personal => 3 | Enterprise => 4
  | Unknown => 5
  end.
#[global, refine] Instance ord : Ord SecurityClass := ord_via tag _.
Proof. by intros [] []. Defined.
End Class.
Export Class (SecurityClass).

Definition has_owe (flags : u32) : bool :=
  has flags (N.lor NM_AP_SEC_KEY_MGMT_OWE NM_AP_SEC_KEY_MGMT_OWE_TM).

Definition flags_are_passwordless (flags : u32) : bool :=
  let secret_key_mgmt :=
    N.lor (N.lor (N.lor NM_AP_SEC_KEY_MGMT_PSK NM_AP_SEC_KEY_MGMT_802_1X)
             NM_AP_SEC_KEY_MGMT_SAE) NM_AP_SEC_KEY_MGMT_EAP_SUITE_B_192 in
  (N.land flags secret_key_mgmt =? 0)%N && ((flags =? 0)%N || has_owe flags).

Definition ap_uses_owe (wpa_flags rsn_flags : u32) : bool :=
  has (N.lor wpa_flags rsn_flags) NM_AP_SEC_KEY_MGMT_OWE.

Definition ap_is_passwordless (flags wpa_flags rsn_flags : u32) : bool :=
  let privacy := has flags NM_AP_FLAGS_PRIVACY in
  ap_uses_owe wpa_flags rsn_flags
  || (negb privacy && flags_are_passwordless wpa_flags && flags_are_passwordless rsn_flags).

Definition ap_supports_psk (wpa_flags rsn_flags : u32) : bool :=
  has (N.lor wpa_flags rsn_flags) (N.lor NM_AP_SEC_KEY_MGMT_PSK NM_AP_SEC_KEY_MGMT_SAE).

Definition ap_supports_enterprise (wpa_flags rsn_flags : u32) : bool :=
  has (N.lor wpa_flags rsn_flags)
    (N.lor NM_AP_SEC_KEY_MGMT_802_1X NM_AP_SEC_KEY_MGMT_EAP_SUITE_B_192).

Definition ap_uses_wep (flags wpa_flags rsn_flags : u32) : bool :=
  has flags NM_AP_FLAGS_PRIVACY && (wpa_flags =? 0)%N && (rsn_flags =? 0)%N.

Definition enterprise_key_mgmt (wpa_flags rsn_flags : u32) : string :=
  if has (N.lor wpa_flags rsn_flags) NM_AP_SEC_KEY_MGMT_EAP_SUITE_B_192
  then "wpa-eap-suite-b-192" else "wpa-eap".

Definition passwordless_security (wpa_flags rsn_flags : u32) : Security :=
  let flags := N.lor wpa_flags rsn_flags in
  if has flags NM_AP_SEC_KEY_MGMT_OWE then Owe
  else if has flags NM_AP_SEC_KEY_MGMT_OWE_TM then OweTransition
  else Open.

Definition secured_network_label (wpa_flags rsn_flags : u32) : Security :=
  match negb (rsn_flags =? 0)%N, negb (wpa_flags =? 0)%N with
  | true, _ => Wpa2Or3
  | false, true => Wpa
  | false, false => Wep
  end.

Definition security_label (flags wpa_flags rsn_flags : u32) : Security :=
  if ap_is_passwordless flags wpa_flags rsn_flags
  then passwordless_security wpa_flags rsn_flags
  else secured_network_label wpa_flags rsn_flags.

Definition security_class (flags wpa_flags rsn_flags : u32) : SecurityClass :=
  match security_label flags wpa_flags rsn_flags with
  | Open | OweTransition => Class.Open
  | Owe => Class.EnhancedOpen
  | Wep => Class.Legacy
  | Wpa | Wpa2Or3 =>
    if ap_supports_enterprise wpa_flags rsn_flags then Class.Enterprise
    else if ap_supports_psk wpa_flags rsn_flags then Class.Personal
    else Class.Unknown
  | Enterprise => Class.Enterprise
  | Other _ => Class.Unknown
  end.

Definition security_class_key (c : SecurityClass) : string :=
  match c with
  | Class.Open => "open" | Class.EnhancedOpen => "enhanced-open"
  | Class.Legacy => "legacy" | Class.Personal => "personal"
  | Class.Enterprise => "enterprise" | Class.Unknown => "unknown"
  end.

(** ** Labels *)

Definition flag_labels : list (u32 * string) :=
  [ (NM_AP_SEC_PAIR_WEP40, "pair_wep40"); (NM_AP_SEC_PAIR_WEP104, "pair_wep104")
  ; (NM_AP_SEC_PAIR_TKIP, "pair_tkip"); (NM_AP_SEC_PAIR_CCMP, "pair_ccmp")
  ; (NM_AP_SEC_GROUP_WEP40, "group_wep40"); (NM_AP_SEC_GROUP_WEP104, "group_wep104")
  ; (NM_AP_SEC_GROUP_TKIP, "group_tkip"); (NM_AP_SEC_GROUP_CCMP, "group_ccmp")
  ; (NM_AP_SEC_KEY_MGMT_PSK, "psk"); (NM_AP_SEC_KEY_MGMT_802_1X, "802.1X")
  ; (NM_AP_SEC_KEY_MGMT_SAE, "sae"); (NM_AP_SEC_KEY_MGMT_OWE, "owe")
  ; (NM_AP_SEC_KEY_MGMT_OWE_TM, "owe-tm")
  ; (NM_AP_SEC_KEY_MGMT_EAP_SUITE_B_192, "wpa-eap-suite-b-192") ].

Definition security_flags_label (flags : u32) : string :=
  let value := str_join " " (omap (λ '(bit, label), if has flags bit then Some label else None)
                           flag_labels) in
  if bool_decide (value = "") then "(none)" else value.

Definition wifi_mode_label (mode : u32) : string :=
  if (mode =? 1)%N then "Ad-Hoc" else if (mode =? 2)%N then "Infra"
  else if (mode =? 4)%N then "Mesh" else "N/A".

(** ** Authentication ([src/auth.rs]) *)

Inductive WepKeyType := Key | Phrase.
#[export] Instance wep_key_type_eq_dec : EqDecision WepKeyType.
Proof. solve_decision. Defined.

Definition wep_nm_value (t : WepKeyType) : u32 := match t with Key => 1 | Phrase => 2 end.

Inductive WifiPasswordFormat := WpaPsk | WepFormat (t : WepKeyType).

Definition hex_only (s : string) : bool := forallb is_ascii_hexdigit (as_bytes s).
Definition len_in (lo hi : nat) (s : string) : bool :=
  (lo <=? str_len s)%nat && (str_len s <=? hi)%nat.

Definition password_format_ok (f : WifiPasswordFormat) (value : string) : bool :=
  match f with
  | WpaPsk => len_in 8 63 value || ((str_len value =? 64)%nat && hex_only value)
  | WepFormat Key =>
    (((str_len value =? 5)%nat || (str_len value =? 13)%nat) && is_ascii value)
    || (((str_len value =? 10)%nat || (str_len value =? 26)%nat) && hex_only value)
  | WepFormat Phrase => len_in 8 64 value
  end.

Definition password_format_message (f : WifiPasswordFormat) : string :=
  match f with
  | WpaPsk => "WPA-PSK password must be 8-63 characters, or 64 hexadecimal characters"
  | WepFormat Key =>
    "WEP key must be 5 or 13 ASCII characters, or 10 or 26 hexadecimal characters"
  | WepFormat Phrase => "WEP passphrase must be 8-64 characters"
  end.

(** [WifiPasswordFormat::validate]. *)
Definition validate_password_format (f : WifiPasswordFormat) (value : string)
    (o : ErrorOperation) (field : string) : result unit Error :=
  if password_format_ok f value then Ok tt
  else Err (EDomain (with_detail "field" (JStr field)
              (validation o (password_format_message f)))).

Module Auth.
Inductive WifiAuthentication := Open | Owe | Personal | Wep | Enterprise | Unsupported.
#[global] Instance eq_dec : EqDecision WifiAuthentication.
Proof. solve_decision. Defined.
End Auth.
Export Auth (WifiAuthentication).

Definition classify (flags wpa_flags rsn_flags : u32) : WifiAuthentication :=
  match security_class flags wpa_flags rsn_flags with
  | Class.Open => Auth.Open
  | Class.EnhancedOpen => Auth.Owe
  | Class.Personal => Auth.Personal
  | Class.Legacy => Auth.Wep
  | Class.Enterprise => Auth.Enterprise
  | Class.Unknown => Auth.Unsupported
  end.

Definition personal_key_management (wpa_flags rsn_flags : u32) : string :=
  let flags := N.lor wpa_flags rsn_flags in
  if has flags NM_AP_SEC_KEY_MGMT_SAE && negb (has flags NM_AP_SEC_KEY_MGMT_PSK)
  then "sae" else "wpa-psk".

(** ** Channels and bands *)

Inductive WifiBand := Auto | Ghz2_4 | Ghz5 | Ghz6.
#[export] Instance wifi_band_eq_dec : EqDecision WifiBand.
Proof. solve_decision. Defined.

Definition band_nm_value (b : WifiBand) : option string :=
  match b with Auto => None | Ghz2_4 => Some "bg" | Ghz5 => Some "a" | Ghz6 => Some "6GHz" end.

Definition band_from_nm_value (value : string) : WifiBand :=
  if bool_decide (value = "bg") then Ghz2_4
  else if bool_decide (value = "a") then Ghz5
  else if bool_decide (value = "6GHz") then Ghz6
  else Auto.

Definition band_from_frequency_label (value : string) : option WifiBand :=
  if bool_decide (value = "2.4 GHz") then Some Ghz2_4
  else if bool_decide (value = "5 GHz") then Some Ghz5
  else if bool_decide (value = "6 GHz") then Some Ghz6
  else None.

(** The rows of [data/wifi-channels.csv]: band, frequency in MHz, channel. *)
Definition channel_rows : list (WifiBand * (u32 * u32)) :=
  (map (pair Ghz2_4) [
    (2412, 1); (2417, 2); (2422, 3); (2427, 4); (2432, 5); (2437, 6); (2442, 7); (2447, 8);
    (2452, 9); (2457, 10); (2462, 11); (2467, 12); (2472, 13); (2484, 14) ]%N)
  ++ (map (pair Ghz5) [
    (5160, 32); (5180, 36); (5200, 40); (5220, 44); (5240, 48); (5260, 52); (5280, 56);
    (5300, 60); (5320, 64); (5500, 100); (5520, 104); (5540, 108); (5560, 112);
    (5580, 116); (5600, 120); (5620, 124); (5640, 128); (5660, 132); (5680, 136);
    (5700, 140); (5720, 144); (5745, 149); (5765, 153); (5785, 157); (5805, 161);
    (5825, 165); (4915, 183); (4920, 184); (4925, 185); (4935, 187); (4940, 188);
    (4945, 189); (4960, 192); (4980, 196) ]%N)
  ++ (map (pair Ghz6) [
    (5955, 1); (5975, 5); (5995, 9); (6015, 13); (6035, 17); (6055, 21); (6075, 25);
    (6095, 29); (6115, 33); (6135, 37); (6155, 41); (6175, 45); (6195, 49); (6215, 53);
    (6235, 57); (6255, 61); (6275, 65); (6295, 69); (6315, 73); (6335, 77); (6355, 81);
    (6375, 85); (6395, 89); (6415, 93); (6435, 97); (6455, 101); (6475, 105); (6495, 109);
    (6515, 113); (6535, 117); (6555, 121); (6575, 125); (6595, 129); (6615, 133);
    (6635, 137); (6655, 141); (6675, 145); (6695, 149); (6715, 153); (6735, 157);
    (6755, 161); (6775, 169); (6815, 173); (6835, 177); (6855, 181); (6875, 185);
    (6895, 189); (6915, 193); (6935, 197); (6955, 201); (6975, 205); (6995, 209);
    (7015, 213); (7035, 217); (7055, 221); (7075, 225); (7095, 229); (7115, 233) ]%N).

(** [build.rs], [generate_wifi_channels]: the channel table and the bounds of a
    band, accumulated row by row. *)
Definition generated_channels (rows : list (WifiBand * (u32 * u32))) : list (u32 * u32) :=
  rows.*2.

Definition generated_bounds (band : WifiBand) (rows : list (WifiBand * (u32 * u32))) :
    option (u32 * u32) :=
  foldl (λ acc '(b, (f, _)),
           if decide (b = band) then
             match acc with
             | Some (lo, hi) => Some (N.min lo f, N.max hi f)
             | None => Some (f, f)
             end
           else acc) None rows.

Definition WIFI_CHANNELS : list (u32 * u32) := generated_channels channel_rows.
Definition band_bounds (band : WifiBand) : u32 * u32 :=
  unwrap_or (generated_bounds band channel_rows) (0, 0)%N.
Definition WIFI_BAND_2_4 : u32 * u32 := band_bounds Ghz2_4.
Definition WIFI_BAND_5 : u32 * u32 := band_bounds Ghz5.
Definition WIFI_BAND_6 : u32 * u32 := band_bounds Ghz6.

Definition frequency_channel (frequency : u32) : u32 :=
  unwrap_or (snd <$> find_first (λ r, (r.1 =? frequency)%N) WIFI_CHANNELS) 0%N.

Definition frequency_band (frequency : u32) : string :=
  if in_range WIFI_BAND_2_4.1 WIFI_BAND_2_4.2 frequency then "2.4 GHz"
  else if in_range WIFI_BAND_5.1 WIFI_BAND_5.2 frequency then "5 GHz"
  else if in_range WIFI_BAND_6.1 WIFI_BAND_6.2 frequency then "6 GHz"
  else "".

Definition channel_is_in_band (channel : u32) (band : WifiBand) : bool :=
  let any label :=
    existsb (λ '(f, c), (c =? channel)%N && bool_decide (frequency_band f = label))
      WIFI_CHANNELS in
  match band with
  | Auto => true
  | Ghz2_4 => any "2.4 GHz"
  | Ghz5 => any "5 GHz"
  | Ghz6 => any "6 GHz"
  end.

(** ** Lemmas *)

Lemma has_lor_l a b m : has (N.lor a b) m = has a m || has b m.
Proof.
  unfold has. rewrite N.land_lor_distr_l.
  destruct (N.eqb_spec (N.lor (N.land a m) (N.land b m)) 0) as [E|E].
  - apply N.lor_eq_0_iff in E as [-> ->]. done.
  - destruct (N.eqb_spec (N.land a m) 0) as [Ea|]; [|done].
    destruct (N.eqb_spec (N.land b m) 0) as [Eb|]; [|done].
    by rewrite Ea, Eb in E.
Qed.

Lemma has_lor_r a m n : has a (N.lor m n) = has a m || has a n.
Proof. unfold has. rewrite !(N.land_comm a). apply has_lor_l. Qed.

Lemma has_zero m : has 0 m = false.
Proof. done. Qed.

Lemma flags_are_passwordless_spec flags :
  flags_are_passwordless flags =
  negb (has flags NM_AP_SEC_KEY_MGMT_PSK || has flags NM_AP_SEC_KEY_MGMT_802_1X
        || has flags NM_AP_SEC_KEY_MGMT_SAE
        || has flags NM_AP_SEC_KEY_MGMT_EAP_SUITE_B_192)
  && ((flags =? 0)%N || has flags NM_AP_SEC_KEY_MGMT_OWE
      || has flags NM_AP_SEC_KEY_MGMT_OWE_TM).
Proof.
  unfold flags_are_passwordless, has_owe. rewrite <-!has_lor_r. unfold has at 2.
  by rewrite negb_involutive, has_lor_r, orb_assoc.
Qed.

(** What a class says of the advertised key management [wpa | rsn]. *)
Definition class_evidence (c : SecurityClass) (flags wpa rsn : u32) : Prop :=
  let k := N.lor wpa rsn in
  let secret := has k (N.lor NM_AP_SEC_KEY_MGMT_PSK NM_AP_SEC_KEY_MGMT_SAE) = true ∨
                has k (N.lor NM_AP_SEC_KEY_MGMT_802_1X NM_AP_SEC_KEY_MGMT_EAP_SUITE_B_192)
                  = true in
  match c with
  | Class.Open => has flags NM_AP_FLAGS_PRIVACY = false ∧ ¬ secret ∧
                  has k NM_AP_SEC_KEY_MGMT_OWE = false
  | Class.EnhancedOpen => has k NM_AP_SEC_KEY_MGMT_OWE = true
  | Class.Legacy => has flags NM_AP_FLAGS_PRIVACY = true ∧ wpa = 0%N ∧ rsn = 0%N
  | Class.Personal =>
    ap_supports_psk wpa rsn = true ∧ ap_supports_enterprise wpa rsn = false ∧
    has k NM_AP_SEC_KEY_MGMT_OWE = false
  | Class.Enterprise =>
    ap_supports_enterprise wpa rsn = true ∧ has k NM_AP_SEC_KEY_MGMT_OWE = false
  | Class.Unknown => ¬ secret ∧ has k NM_AP_SEC_KEY_MGMT_OWE = false ∧ k ≠ 0%N
  end.

(** A network that carries key management, but no OWE, is classified by the
    key management it carries. *)
Lemma keyed_class_evidence flags wpa rsn :
  has (N.lor wpa rsn) NM_AP_SEC_KEY_MGMT_OWE = false → N.lor wpa rsn ≠ 0%N →
  class_evidence
    (if ap_supports_enterprise wpa rsn then Class.Enterprise
     else if ap_supports_psk wpa rsn then Class.Personal else Class.Unknown)
    flags wpa rsn.
Proof.
  intros Howe Hk. destruct (ap_supports_enterprise wpa rsn) eqn:He; [done|].
  destruct (ap_supports_psk wpa rsn) eqn:Hp; [done|].
  unfold ap_supports_psk, ap_supports_enterprise in *. simpl. rewrite He, Hp, Howe.
  split_and!; naive_solver.
Qed.

Lemma secured_class_evidence flags wpa rsn :
  has (N.lor wpa rsn) NM_AP_SEC_KEY_MGMT_OWE = false →
  (wpa = 0%N → rsn = 0%N → has flags NM_AP_FLAGS_PRIVACY = true) →
  class_evidence
    match secured_network_label wpa rsn with
    | Open | OweTransition => Class.Open
    | Owe => Class.EnhancedOpen
    | Wep => Class.Legacy
    | Wpa | Wpa2Or3 =>
      if ap_supports_enterprise wpa rsn then Class.Enterprise
      else if ap_supports_psk wpa rsn then Class.Personal else Class.Unknown
    | Enterprise => Class.Enterprise
    | Other _ => Class.Unknown
    end flags wpa rsn.
Proof.
  intros Howe Hwep. unfold secured_network_label.
  destruct (N.eqb_spec rsn 0) as [->|Hr]; [destruct (N.eqb_spec wpa 0) as [->|Hw]|]; simpl.
  - auto.
  - apply keyed_class_evidence; [done|]. by rewrite N.lor_0_r.
  - apply keyed_class_evidence; [done|]. by intros [_ ?]%N.lor_eq_0_iff.
Qed.

Lemma security_class_evidence flags wpa rsn :
  class_evidence (security_class flags wpa rsn) flags wpa rsn.
Proof.
  unfold security_class, security_label, ap_is_passwordless, passwordless_security, ap_uses_owe.
  destruct (has (N.lor wpa rsn) NM_AP_SEC_KEY_MGMT_OWE) eqn:Howe; simpl; [by rewrite Howe|].
  destruct (has flags NM_AP_FLAGS_PRIVACY) eqn:Hpriv; simpl.
  { apply secured_class_evidence; auto. }
  destruct (flags_are_passwordless wpa && flags_are_passwordless rsn) eqn:Hpl.
  2:{ apply secured_class_evidence; [done|]. by intros -> ->. }
  rewrite !flags_are_passwordless_spec in Hpl.
  assert (class_evidence Class.Open flags wpa rsn) as Hopen.
  { unfold class_evidence. rewrite Hpriv, Howe, !has_lor_l, !has_lor_r.
    repeat match goal with |- context [has ?x ?m] => destruct (has x m) end;
      simpl in *; by rewrite ?andb_false_r in Hpl || naive_solver. }
  by destruct (has (N.lor wpa rsn) NM_AP_SEC_KEY_MGMT_OWE_TM).
Qed.

(** The security class is sound for every combination of flags: an open
    network requests no privacy and advertises no pre-shared key, SAE or 802.1X
    key management, enhanced-open is exactly OWE, legacy is WEP, and personal
    and enterprise networks do advertise the key management they are named
    after. *)
Theorem security_class_sound flags wpa rsn :
  class_evidence (security_class flags wpa rsn) flags wpa rsn.
Proof. apply security_class_evidence. Qed.

(** The label [frequency_band] gives the frequencies of a band. *)
Definition band_label (b : WifiBand) : string :=
  match b with Auto => "" | Ghz2_4 => "2.4 GHz" | Ghz5 => "5 GHz" | Ghz6 => "6 GHz" end.

Lemma channel_rows_checked :
  forallb (λ '(b, (f, c)),
    (frequency_channel f =? c)%N && bool_decide (frequency_band f = band_label b)
    && bool_decide (band_from_frequency_label (frequency_band f) = Some b)
    && channel_is_in_band c b) channel_rows = true.
Proof. vm_compute. reflexivity. Qed.

(** The bounds of the three bands as the build script computes them. *)
Lemma band_bounds_values :
  WIFI_BAND_2_4 = (2412, 2484)%N ∧ WIFI_BAND_5 = (4915, 5825)%N ∧ WIFI_BAND_6 = (5955, 7115)%N.
Proof. split_and!; vm_compute; reflexivity. Qed.

Lemma existsb_channel_row p :
  existsb p WIFI_CHANNELS = true → ∃ b f c, (b, (f, c)) ∈ channel_rows ∧ p (f, c) = true.
Proof.
  intros ([f c] & Hin & Hp)%existsb_exists. apply list_elem_of_In in Hin.
  apply list_elem_of_fmap in Hin as ([b [f' c']] & E & Hin).
  simpl in E. simplify_eq. eauto.
Qed.

(** The generated tables agree with each other: a frequency of the table
    resolves to its own row's channel and band, and a fixed band accepts a
    channel exactly when the table has a row with that band and channel, so
    the 2.4 GHz and 6 GHz bands never borrow each other's channel numbers. *)
Theorem channel_in_band_iff_row channel band :
  band ≠ Auto →
  (∀ f c, (band, (f, c)) ∈ channel_rows →
     frequency_channel f = c ∧ band_from_frequency_label (frequency_band f) = Some band) ∧
  (channel_is_in_band channel band = true ↔ ∃ f, (band, (f, channel)) ∈ channel_rows).
Proof.
  intros Hauto. pose proof channel_rows_checked as Hall. rewrite forallb_forall in Hall.
  assert (∀ b f c, (b, (f, c)) ∈ channel_rows → frequency_channel f = c ∧
    frequency_band f = band_label b ∧ band_from_frequency_label (frequency_band f) = Some b ∧
    channel_is_in_band c b = true) as Hrow.
  { intros b f c Hin%list_elem_of_In. specialize (Hall _ Hin). clear -Hall.
    cbv beta iota in Hall. bool_prop. auto. }
  split; [intros f c Hin; by destruct (Hrow _ _ _ Hin) as (? & _ & ? & _)|].
  split; [|intros [f Hin]; by destruct (Hrow _ _ _ Hin) as (_ & _ & _ & ?)].
  intros H. assert (existsb (λ '(f, c), (c =? channel)%N &&
      bool_decide (frequency_band f = band_label band)) WIFI_CHANNELS = true) as Hex
    by (destruct band; [done|exact H..]).
  apply existsb_channel_row in Hex as (b & f & c & Hin & Hp). bool_prop. subst c.
  exists f. destruct (Hrow _ _ _ Hin) as (_ & Hl & Hb & _).
  replace band with b; [done|].
  assert (band_label b = band_label band) as E by congruence. by destruct b, band.
Qed.

Lemma channel_in_band_iff_row_witness :
  channel_is_in_band 14 Ghz2_4 = true ∧ channel_is_in_band 2 Ghz6 = false ∧
  ∃ f, (Ghz2_4, (f, 14%N)) ∈ channel_rows.
Proof.
  split; [vm_compute; reflexivity|]. split; [vm_compute; reflexivity|].
  apply (channel_in_band_iff_row 14 Ghz2_4 ltac:(discriminate)). vm_compute. reflexivity.
Defined.

(** The serialised label reads back as the security it came from, whenever an
    unknown label is not one of the known spellings. *)
Lemma security_label_roundtrip flags wpa rsn :
  security_of_str (security_as_str (security_label flags wpa rsn)) =
  security_label flags wpa rsn.
Proof.
  unfold security_label, passwordless_security, secured_network_label.
  repeat case_match; vm_compute; reflexivity.
Qed.

Lemma band_nm_value_roundtrip b :
  b ≠ Auto → band_from_nm_value <$> band_nm_value b = Some b.
Proof. by destruct b. Qed.
