(* ===== verification/Qr.v ===== *)
(** * Wi-Fi QR payloads ([src/qr.rs])

    Export, intake and validation of [WIFI:] codes. Escaping, splitting and
    quoting only look at ASCII characters, which never occur inside a multi-byte
    UTF-8 sequence, so they are written on bytes; lengths are counted in
    characters, as the source does. The QR encoder is a parameter. *)
From S2P Require Import Prelude Errors Text Identity Wifi.
From Stdlib Require Import ZArith Lia Ascii.
From stdpp Require Import prelude strings list pretty.

Definition MAX_PASSPHRASE_CHARS : nat := 63.
Definition RAW_PSK_CHARS : nat := 64.
Definition MAX_WEP_KEY_CHARS : nat := 58.

Definition quote : u8 := ascii_of_N 34.
Definition backslash : u8 := ascii_of_N 92.
Definition semicolon : u8 := ";"%char.
Definition colon : u8 := ":"%char.
#[global] Arguments quote : simpl never.
#[global] Arguments backslash : simpl never.
#[global] Arguments semicolon : simpl never.
#[global] Arguments colon : simpl never.

(** ** Export *)

Definition needs_escape (b : u8) : bool :=
  is_byte backslash b || is_byte semicolon b || is_byte ","%char b || is_byte colon b
  || is_byte quote b.

Definition escape_bytes (b : list u8) : list u8 :=
  b ≫= λ ch, if needs_escape ch then [backslash; ch] else [ch].

Definition wifi_qr_value (value : string) : string := of_bytes (escape_bytes (as_bytes value)).

Definition wifi_qr_payload (auth_type ssid : string) (password : option string)
    (hidden : bool) : string :=
  let password :=
    unwrap_or ((λ p, ";P:" +:+ wifi_qr_value p) <$> password) "" in
  let hidden := if hidden then ";H:true" else "" in
  "WIFI:T:" +:+ auth_type +:+ ";S:" +:+ wifi_qr_value ssid +:+ password +:+ hidden +:+ ";;".

(** ** Intake *)

Inductive WifiQrAuth := QrOpen | QrWpa | QrSae | QrWep.
#[export] Instance wifi_qr_auth_eq_dec : EqDecision WifiQrAuth.
Proof. solve_decision. Defined.

Definition key_management_hint (a : WifiQrAuth) : option string :=
  match a with
  | QrOpen => None | QrWpa => Some "wpa-psk" | QrSae => Some "sae" | QrWep => Some "wep"
  end.

Record ParsedWifiQr := {
  q_ssid : string;
  q_ssid_bytes : list u8;
  q_ssid_hex : string;
  q_auth : WifiQrAuth;
  q_auth_token : string;
  q_hidden : bool;
  q_has_password : bool;
  q_password : option string;
  q_wep_key_type : option WepKeyType;
}.

Definition qr_error (m field : string) : Error :=
  EDomain (with_detail "field" (JStr field) (validation Op.QrOperation m)).

Definition trailing_backslashes (b : list u8) : nat :=
  (fix go b := match b with
               | a :: b' => if is_byte backslash a then S (go b') else 0
               | [] => 0
               end) (reverse b).

Definition strip_suffix_byte (c : u8) (b : list u8) : option (list u8) :=
  match reverse b with
  | a :: b' => if is_byte c a then Some (reverse b') else None
  | [] => None
  end.

Definition unquote (value : list u8) : list u8 :=
  match value with
  | a :: rest =>
    if is_byte quote a then
      match strip_suffix_byte quote rest with
      | Some inner => if Nat.even (trailing_backslashes inner) then inner else value
      | None => value
      end
    else value
  | [] => value
  end.

Fixpoint unescape_from (escaped : bool) (b : list u8) : list u8 :=
  match b with
  | [] => []
  | ch :: b' =>
    if is_byte backslash ch && negb escaped then unescape_from true b'
    else ch :: unescape_from false b'
  end.

Definition unescape (value : list u8) : string := of_bytes (unescape_from false value).

(** [str::split_once(':')]. *)
Fixpoint split_once (c : u8) (b : list u8) : option (list u8 * list u8) :=
  match b with
  | [] => None
  | a :: b' =>
    if is_byte c a then Some ([], b')
    else (λ kv, (a :: kv.1, kv.2)) <$> split_once c b'
  end.

Definition insert_field (fields : list (string * string)) (field : list u8) :
    result (list (string * string)) Error :=
  if bool_decide (field = []) then Ok fields
  else
    let? kv := ok_or (split_once colon field)
                 (qr_error "payload contains a field without a key" "payload") in
    Ok (bt_insert (unescape kv.1) (unescape (unquote kv.2)) fields).

(** The scan of [split_fields]: [cur] is [body[start..index]]. *)
Fixpoint split_scan (fields : list (string * string)) (cur : list u8) (escaped : bool)
    (body : list u8) : result (list (string * string)) Error :=
  match body with
  | [] =>
    if escaped then Err (qr_error "payload ends with a dangling escape" "payload")
    else insert_field fields cur
  | ch :: body' =>
    if escaped then split_scan fields (cur ++ [ch]) false body'
    else if is_byte backslash ch then split_scan fields (cur ++ [ch]) true body'
    else if is_byte semicolon ch then
      let? fields := insert_field fields cur in split_scan fields [] false body'
    else split_scan fields (cur ++ [ch]) false body'
  end.

Definition split_fields (body : string) : result (list (string * string)) Error :=
  split_scan [] [] false (as_bytes body).

Definition parse_auth (token : string) : result WifiQrAuth Error :=
  let t := to_ascii_uppercase token in
  if bool_decide (t ∈ [""; "NOPASS"]) then Ok QrOpen
  else if bool_decide (t = "WPA2-EAP") then
    Err (qr_error "enterprise Wi-Fi cannot be joined from a QR code" "T")
  else if bool_decide (t ∈ ["WPA"; "WPA2"]) then Ok QrWpa
  else if bool_decide (t ∈ ["SAE"; "WPA3"]) then Ok QrSae
  else if bool_decide (t = "WEP") then Ok QrWep
  else Err (qr_error "unsupported QR authentication type" "T").

Definition char_count (s : string) : nat := length (chars s).

(** [password.chars().all(|c| c.is_ascii_hexdigit())], as in [Wifi.hex_only]. *)
Definition validate_password (auth : WifiQrAuth) (password : option string) :
    result unit Error :=
  let length := match password with Some p => char_count p | None => 0 end in
  match auth, password with
  | QrOpen, None => Ok tt
  | QrOpen, Some _ => Err (qr_error "an open network payload must not carry a password" "P")
  | _, None => Err (qr_error "payload has no password" "P")
  | (QrWpa | QrSae), Some p =>
    if ((8 <=? length)%nat && (length <=? MAX_PASSPHRASE_CHARS)%nat)
       || ((length =? RAW_PSK_CHARS)%nat && hex_only p)
    then Ok tt
    else Err (qr_error "WPA passphrase must be 8-63 characters or a 64-character key" "P")
  | QrWep, Some _ =>
    if (1 <=? length)%nat && (length <=? MAX_WEP_KEY_CHARS)%nat then Ok tt
    else Err (qr_error "WEP key length is not valid" "P")
  end.

Definition wep_key_type_for (password : string) : WepKeyType :=
  let length := char_count password in
  if (hex_only password && existsb (Nat.eqb length) [10; 26; 32; 58])
     || existsb (Nat.eqb length) [5; 13; 16]
  then Key else Phrase.

(** [BTreeMap::remove]. *)
Definition bt_remove (k : string) (m : list (string * string)) :
    option string * list (string * string) :=
  (bt_get k m, List.filter (λ kv, negb (bool_decide (kv.1 = k))) m).

Definition non_empty (o : option string) : option string :=
  match o with Some "" => None | _ => o end.

Definition strip_scheme (payload : string) : option string :=
  match Text.strip_prefix "WIFI:" payload with
  | Some body => Some body
  | None => Text.strip_prefix "wifi:" payload
  end.

Definition parse_wifi_qr (payload : string) : result ParsedWifiQr Error :=
  let? body := ok_or (strip_scheme payload)
                 (qr_error "payload is not a WIFI: code" "payload") in
  let? fields := split_fields body in
  let (s, fields) := bt_remove "S" fields in
  let? ssid := ok_or (non_empty s) (qr_error "payload has no SSID" "S") in
  let ssid_bytes := as_bytes ssid in
  let? _ := result_map_err (λ e, qr_error (display e) "S") (validate_ssid_bytes ssid_bytes) in
  let (t, fields) := bt_remove "T" fields in
  let auth_token := unwrap_or t "" in
  let? auth := parse_auth auth_token in
  let (p, fields) := bt_remove "P" fields in
  let password := non_empty p in
  let? _ := validate_password auth password in
  Ok {| q_ssid := ssid;
        q_ssid_bytes := ssid_bytes;
        q_ssid_hex := ssid_hex ssid_bytes;
        q_auth := auth;
        q_auth_token := auth_token;
        q_hidden :=
          match bt_get "H" fields with
          | Some h => bool_decide (h ∈ ["true"; "TRUE"; "True"; "1"])
          | None => false
          end;
        q_has_password := bool_decide (is_Some password);
        q_password := password;
        q_wep_key_type :=
          if decide (auth = QrWep) then Some (wep_key_type_for (unwrap_or password "")) else None |}.

(** [render_share]; [qrcode] is the encoder and renderer of the [qrcode] crate. *)
Definition render_share (qrcode : string → result string Error) (payload : string) :
    result string Error :=
  let? _ := ensure (str_len payload <=? 1024)%nat (plain "Wi-Fi QR payload is too large") in
  let? _ := parse_wifi_qr payload in
  qrcode payload.

(** ** Lemmas *)

#[local] Arguments escape_bytes : simpl never.

Definition plain_byte (b : u8) : bool := negb (is_byte backslash b) && negb (is_byte semicolon b).

Lemma escape_bytes_cons a v :
  escape_bytes (a :: v) = (if needs_escape a then [backslash; a] else [a]) ++ escape_bytes v.
Proof. done. Qed.

Lemma no_escape_plain a : needs_escape a = false → plain_byte a = true ∧ is_byte quote a = false.
Proof. unfold needs_escape, plain_byte. intros H. bool_prop. by bool_rewrite. Qed.

Lemma unescape_escape_bytes v : unescape_from false (escape_bytes v) = v.
Proof.
  induction v as [|a v IH]; [done|]. rewrite escape_bytes_cons.
  destruct (needs_escape a) eqn:Ha; simpl.
  - rewrite andb_false_r. by rewrite IH.
  - apply no_escape_plain in Ha as [Hp _]. unfold plain_byte in Hp. bool_prop.
    bool_rewrite. simpl. by rewrite IH.
Qed.

Lemma unescape_plain v : forallb plain_byte v = true → unescape_from false v = v.
Proof.
  induction v as [|a v IH]; simpl; [done|]. intros H. unfold plain_byte in H. bool_prop.
  bool_rewrite. simpl. by rewrite IH.
Qed.

Lemma unquote_escape_bytes v : unquote (escape_bytes v) = escape_bytes v.
Proof.
  destruct v as [|a v]; [done|]. rewrite escape_bytes_cons.
  destruct (needs_escape a) eqn:Ha; [done|]. apply no_escape_plain in Ha as [_ Hq].
  simpl. by rewrite Hq.
Qed.

Lemma split_scan_plain v fields cur rest :
  forallb plain_byte v = true →
  split_scan fields cur false (v ++ rest) = split_scan fields (cur ++ v) false rest.
Proof.
  revert cur. induction v as [|a v IH]; intros cur; simpl; [by rewrite app_nil_r|].
  intros H. unfold plain_byte in H. bool_prop. bool_rewrite. rewrite IH by done.
  by rewrite <-app_assoc.
Qed.

Lemma split_scan_escaped v fields cur rest :
  split_scan fields cur false (escape_bytes v ++ rest) =
  split_scan fields (cur ++ escape_bytes v) false rest.
Proof.
  revert cur. induction v as [|a v IH]; intros cur; [by rewrite app_nil_r|].
  rewrite escape_bytes_cons. destruct (needs_escape a) eqn:Ha.
  - simpl. rewrite IH. by rewrite <-!app_assoc.
  - apply no_escape_plain in Ha as [Hp _]. rewrite <-app_assoc, split_scan_plain.
    + by rewrite IH, <-app_assoc.
    + simpl. by rewrite Hp.
Qed.

Lemma split_scan_end fields cur rest :
  split_scan fields cur false (semicolon :: rest) =
  (let? fields := insert_field fields cur in split_scan fields [] false rest).
Proof. done. Qed.

(** A field of the export: a one-letter key, a colon and the value. *)
Lemma insert_field_keyed fields k v :
  plain_byte k = true → is_byte colon k = false →
  insert_field fields (k :: colon :: v) =
  Ok (bt_insert (of_bytes [k]) (unescape (unquote v)) fields).
Proof.
  intros Hk Hc. unfold insert_field. rewrite bool_decide_eq_false_2 by done. simpl.
  rewrite Hc. simpl. unfold unescape at 1. rewrite unescape_plain; [done|].
  simpl. by rewrite Hk.
Qed.

(** Scanning one exported field. *)
Lemma split_scan_field fields k v rest :
  plain_byte k = true → is_byte colon k = false →
  split_scan fields [] false (k :: colon :: escape_bytes v ++ semicolon :: rest) =
  split_scan (bt_insert (of_bytes [k]) (of_bytes v) fields) [] false rest.
Proof.
  intros Hk Hc. change (k :: colon :: escape_bytes v ++ semicolon :: rest)
    with ([k; colon] ++ escape_bytes v ++ semicolon :: rest).
  rewrite split_scan_plain by (simpl; by rewrite Hk).
  rewrite split_scan_escaped, split_scan_end. simpl.
  rewrite insert_field_keyed by done. unfold unescape.
  by rewrite unquote_escape_bytes, unescape_escape_bytes.
Qed.

Lemma uppercase_needs_escape a : needs_escape (to_ascii_uppercase_byte a) = needs_escape a.
Proof.
  apply eqb_prop. refine (forall_bytes (λ a,
    Bool.eqb (needs_escape (to_ascii_uppercase_byte a)) (needs_escape a)) _ a).
  vm_compute. reflexivity.
Qed.

Lemma escape_bytes_id v : forallb (λ a, negb (needs_escape a)) v = true → escape_bytes v = v.
Proof.
  induction v as [|a v IH]; [done|]. simpl. intros H. bool_prop.
  rewrite escape_bytes_cons. bool_rewrite. by rewrite IH.
Qed.

(** A token that names an authentication has nothing to escape. *)
Lemma parse_auth_plain token a :
  parse_auth token = Ok a → escape_bytes (as_bytes token) = as_bytes token.
Proof.
  intros H. apply escape_bytes_id.
  assert (forallb (λ a, negb (needs_escape a)) (as_bytes (to_ascii_uppercase token)) = true)
    as Hup.
  { unfold parse_auth in H. repeat case_bool_decide; try done;
      repeat match goal with
      | H : _ ∈ _ |- _ => apply elem_of_cons in H as [H|H]; [rewrite H; reflexivity|]
      | H : _ ∈ [] |- _ => by apply elem_of_nil in H
      | H : to_ascii_uppercase token = _ |- _ => rewrite H; reflexivity
      end. }
  unfold to_ascii_uppercase, map_bytes in Hup. rewrite as_bytes_of_bytes in Hup.
  induction (as_bytes token) as [|b l IH]; [done|]. csimpl in Hup. bool_prop.
  rewrite uppercase_needs_escape in *. simpl.
  bool_rewrite. auto.
Qed.

Lemma non_empty_Some s : s ≠ "" → non_empty (Some s) = Some s.
Proof. by destruct s. Qed.

(** The fields of an export, in the order they are written. *)
Definition exported_fields (token ssid : string) (password : option string) (hidden : bool) :
    list (u8 * string) :=
  [("T"%char, token); ("S"%char, ssid)]
  ++ match password with Some p => [("P"%char, p)] | None => [] end
  ++ (if hidden then [("H"%char, "true")] else []).

Definition field_bytes (kv : u8 * string) : list u8 :=
  kv.1 :: colon :: escape_bytes (as_bytes kv.2) ++ [semicolon].

Lemma split_scan_fields l fields :
  (∀ kv, kv ∈ l → plain_byte kv.1 = true ∧ is_byte colon kv.1 = false) →
  split_scan fields [] false ((l ≫= field_bytes) ++ [semicolon]) =
  Ok (foldl (λ m kv, bt_insert (of_bytes [kv.1]) kv.2 m) fields l).
Proof.
  revert fields. induction l as [|[k v] l IH]; intros fields Hl; [done|].
  destruct (Hl (k, v)) as [Hk Hc]; [by left|]. simpl in Hk, Hc.
  rewrite bind_cons. unfold field_bytes at 1.
  cbn [fst snd app]. rewrite <-!app_assoc. cbn [app].
  rewrite split_scan_field by done. rewrite of_bytes_as_bytes.
  apply IH. intros kv Hkv. apply Hl. by right.
Qed.

Lemma payload_bytes token ssid password hidden :
  escape_bytes (as_bytes token) = as_bytes token →
  as_bytes (wifi_qr_payload token ssid password hidden) =
  as_bytes "WIFI:" ++ (exported_fields token ssid password hidden ≫= field_bytes)
    ++ [semicolon].
Proof.
  intros Ht. unfold wifi_qr_payload, wifi_qr_value. rewrite !as_bytes_app, <-Ht.
  unfold exported_fields. rewrite as_bytes_of_bytes, !bind_app. unfold field_bytes.
  destruct password as [p|], hidden; cbn [unwrap_or fmap option_fmap option_map];
    rewrite ?as_bytes_app, ?as_bytes_of_bytes; csimpl; rewrite <-?app_assoc; csimpl;
    rewrite <-?app_assoc; reflexivity.
Qed.

Lemma split_fields_export token ssid password hidden a :
  parse_auth token = Ok a →
  ∃ body, strip_scheme (wifi_qr_payload token ssid password hidden) = Some body ∧
  split_fields body =
    Ok (foldl (λ m kv, bt_insert (of_bytes [kv.1]) kv.2 m) []
          (exported_fields token ssid password hidden)).
Proof.
  intros Ht%parse_auth_plain. apply (payload_bytes _ ssid password hidden) in Ht as E.
  set (body := (exported_fields token ssid password hidden ≫= field_bytes) ++ [semicolon]) in E.
  exists (of_bytes body). split.
  - rewrite <-(of_bytes_as_bytes (wifi_qr_payload _ _ _ _)), E. done.
  - unfold split_fields. rewrite as_bytes_of_bytes. apply split_scan_fields.
    unfold exported_fields. intros kv. destruct password, hidden; simpl;
      rewrite !elem_of_cons, elem_of_nil; naive_solver.
Qed.

Lemma validate_password_non_empty a p : validate_password a (Some p) = Ok tt → p ≠ "".
Proof. intros H ->. by destruct a. Qed.

(** What [parse_wifi_qr] removes from the map of an exported code. *)
Lemma exported_reads token ssid password hidden :
  ∃ M1 M2 M3,
    bt_remove "S" (foldl (λ m kv, bt_insert (of_bytes [kv.1]) kv.2 m) []
                     (exported_fields token ssid password hidden)) = (Some ssid, M1) ∧
    bt_remove "T" M1 = (Some token, M2) ∧ bt_remove "P" M2 = (password, M3) ∧
    bt_get "H" M3 = if hidden then Some "true" else None.
Proof. destruct password, hidden; do 3 eexists; split_and!; reflexivity. Qed.

(** Parsing an exported code. *)
Lemma parse_exported token ssid password hidden a :
  parse_auth token = Ok a → validate_ssid_bytes (as_bytes ssid) = Ok tt →
  validate_password a password = Ok tt →
  parse_wifi_qr (wifi_qr_payload token ssid password hidden) =
  Ok {| q_ssid := ssid; q_ssid_bytes := as_bytes ssid; q_ssid_hex := ssid_hex (as_bytes ssid);
        q_auth := a; q_auth_token := token; q_hidden := hidden;
        q_has_password := bool_decide (is_Some password); q_password := password;
        q_wep_key_type :=
          if decide (a = QrWep) then Some (wep_key_type_for (unwrap_or password "")) else None |}.
Proof.
  intros Ha Hs Hp.
  destruct (split_fields_export token ssid password hidden a Ha) as (body & Hb & Hf).
  assert (ssid ≠ "") as Hne by by intros ->.
  assert (non_empty password = password) as Hpne.
  { destruct password as [p|]; [|done].
    apply non_empty_Some. by eapply validate_password_non_empty. }
  destruct (exported_reads token ssid password hidden) as (M1 & M2 & M3 & H1 & H2 & H3 & HH).
  unfold parse_wifi_qr. rewrite Hb. cbn [ok_or]. rewrite Hf, H1.
  rewrite non_empty_Some by done. cbn [ok_or]. rewrite Hs. cbn [result_map_err].
  rewrite H2. cbn [unwrap_or]. rewrite Ha, H3, Hpne, Hp, HH. by destruct hidden.
Qed.

(** C40. What is exported is what is scanned: for every token the intake knows,
    every SSID of 1 to 32 bytes and every password the intake accepts, parsing
    the exported code returns the same SSID, password, authentication and
    hidden flag, whatever reserved characters they contain. *)
Theorem wifi_qr_roundtrip token ssid password hidden a :
  parse_auth token = Ok a → validate_ssid_bytes (as_bytes ssid) = Ok tt →
  validate_password a password = Ok tt →
  parse_wifi_qr (wifi_qr_payload token ssid password hidden) =
  Ok {| q_ssid := ssid; q_ssid_bytes := as_bytes ssid; q_ssid_hex := ssid_hex (as_bytes ssid);
        q_auth := a; q_auth_token := token; q_hidden := hidden;
        q_has_password := bool_decide (is_Some password); q_password := password;
        q_wep_key_type :=
          if decide (a = QrWep) then Some (wep_key_type_for (unwrap_or password "")) else None |}.
Proof. apply parse_exported. Qed.

Lemma wifi_qr_roundtrip_witness :
  parse_wifi_qr (wifi_qr_payload "WPA" "Cafe;Guest" (Some "pass:word1") true) =
  Ok {| q_ssid := "Cafe;Guest"; q_ssid_bytes := as_bytes "Cafe;Guest";
        q_ssid_hex := "436166653b4775657374"; q_auth := QrWpa; q_auth_token := "WPA";
        q_hidden := true; q_has_password := true; q_password := Some "pass:word1";
        q_wep_key_type := None |}.
Proof.
  exact (wifi_qr_roundtrip "WPA" "Cafe;Guest" (Some "pass:word1") true QrWpa
    ltac:(vm_compute; reflexivity) ltac:(vm_compute; reflexivity)
    ltac:(vm_compute; reflexivity)).
Defined.

(** The messages an intake error can carry: constants of the source, and the
    length of an SSID. *)
Definition qr_messages : list (string * string) :=
  [ ("payload is not a WIFI: code", "payload")
  ; ("payload contains a field without a key", "payload")
  ; ("payload ends with a dangling escape", "payload")
  ; ("payload has no SSID", "S")
  ; ("enterprise Wi-Fi cannot be joined from a QR code", "T")
  ; ("unsupported QR authentication type", "T")
  ; ("an open network payload must not carry a password", "P")
  ; ("payload has no password", "P")
  ; ("WPA passphrase must be 8-63 characters or a 64-character key", "P")
  ; ("WEP key length is not valid", "P") ].

Definition silent_error (e : Error) : Prop :=
  (∃ m f, (m, f) ∈ qr_messages ∧ e = qr_error m f) ∨
  (∃ n : nat, e = qr_error ("Wi-Fi SSID must be 1-32 bytes; got " +:+ pretty n +:+ " bytes") "S").

Ltac solve_silent :=
  first [done | left; eexists _, _; split; [|reflexivity];
         apply (bool_decide_unpack _); vm_compute; exact I].

Lemma insert_field_silent fields f e : insert_field fields f = Err e → silent_error e.
Proof.
  unfold insert_field. case_bool_decide; [done|]. destruct (split_once colon f); simpl; [done|].
  intros [= <-]. solve_silent.
Qed.

Lemma split_scan_silent body fields cur esc e :
  split_scan fields cur esc body = Err e → silent_error e.
Proof.
  revert fields cur esc. induction body as [|ch body IH]; intros fields cur esc; simpl.
  - destruct esc; [intros [= <-]; solve_silent|apply insert_field_silent].
  - destruct esc; [apply IH|]. destruct (is_byte backslash ch); [apply IH|].
    destruct (is_byte semicolon ch); [|apply IH].
    destruct (insert_field fields cur) eqn:E; [apply IH|].
    intros [= <-]. by eapply insert_field_silent.
Qed.

(** Intake errors never echo the scanned code, which carries a passphrase:
    every rejection is a validation error with a fixed message naming the
    offending field, or the length of the SSID. *)
Theorem qr_errors_silent payload e : parse_wifi_qr payload = Err e → silent_error e.
Proof.
  unfold parse_wifi_qr. destruct (strip_scheme payload) as [body|]; simpl.
  2: { intros [= <-]. solve_silent. }
  destruct (split_fields body) as [fields|] eqn:E.
  2: { intros [= <-]. by eapply split_scan_silent. }
  destruct (non_empty (bt_get "S" fields)) as [ssid|]; simpl.
  2: { intros [= <-]. solve_silent. }
  unfold validate_ssid_bytes. destruct (bool_decide _ || _); simpl.
  { intros [= <-]. right. by eexists. }
  set (fs := List.filter _ fields). set (fs' := List.filter _ fs).
  destruct (parse_auth (unwrap_or (bt_get "T" fs) "")) as [a|] eqn:Ha.
  2: { intros [= <-]. unfold parse_auth in Ha. repeat case_bool_decide; simplify_eq; solve_silent. }
  unfold validate_password.
  destruct a, (non_empty (bt_get "P" fs')); repeat case_match; intros [= <-]; simplify_eq; solve_silent.
Qed.

Lemma qr_errors_silent_witness :
  silent_error (qr_error "WPA passphrase must be 8-63 characters or a 64-character key" "P").
Proof.
  apply (qr_errors_silent "WIFI:T:WPA;S:Home;P:hunter2;;"). vm_compute. reflexivity.
Defined.
