(* ===== verification/Reasons.v ===== *)
(** * Reason codes ([src/model/reason.rs])

    NetworkManager's numeric reasons as stable names and categories. *)
From S2P Require Import Prelude.
From Stdlib Require Import ZArith Lia.
From stdpp Require Import prelude strings list.

Module C.
Inductive ReasonCategory :=
| None | UserRequested | Authentication | Configuration | Hardware | Carrier
| AddressAssignment | Service | Dependency | Lifecycle | Unknown.
#[global] Instance eq_dec : EqDecision ReasonCategory.
Proof. solve_decision. Defined.
End C.
Export C (ReasonCategory).

Record TypedReason := { tr_code : N; tr_name : string; tr_category : ReasonCategory }.

Definition ReasonSpec : Type := string * ReasonCategory.

Definition DEVICE_REASONS : list ReasonSpec :=
  [ ("none", C.None); ("unknown", C.Unknown); ("now-managed", C.Lifecycle);
    ("now-unmanaged", C.Lifecycle); ("config-failed", C.Configuration);
    ("ip-config-unavailable", C.AddressAssignment); ("ip-config-expired", C.AddressAssignment);
    ("no-secrets", C.Authentication); ("supplicant-disconnect", C.Authentication);
    ("supplicant-config-failed", C.Configuration); ("supplicant-failed", C.Authentication);
    ("supplicant-timeout", C.Authentication); ("ppp-start-failed", C.Service);
    ("ppp-disconnect", C.Service); ("ppp-failed", C.Service);
    ("dhcp-start-failed", C.AddressAssignment); ("dhcp-error", C.AddressAssignment);
    ("dhcp-failed", C.AddressAssignment); ("shared-start-failed", C.Service);
    ("shared-failed", C.Service); ("autoip-start-failed", C.AddressAssignment);
    ("autoip-error", C.AddressAssignment); ("autoip-failed", C.AddressAssignment);
    ("modem-busy", C.Service); ("modem-no-dial-tone", C.Service);
    ("modem-no-carrier", C.Carrier); ("modem-dial-timeout", C.Service);
    ("modem-dial-failed", C.Service); ("modem-init-failed", C.Service);
    ("gsm-apn-failed", C.Configuration); ("gsm-registration-not-searching", C.Service);
    ("gsm-registration-denied", C.Authentication); ("gsm-registration-timeout", C.Service);
    ("gsm-registration-failed", C.Service); ("gsm-pin-check-failed", C.Authentication);
    ("firmware-missing", C.Hardware); ("removed", C.Lifecycle); ("sleeping", C.Lifecycle);
    ("connection-removed", C.Lifecycle); ("user-requested", C.UserRequested);
    ("carrier", C.Carrier); ("connection-assumed", C.None); ("supplicant-available", C.None);
    ("modem-not-found", C.Hardware); ("bluetooth-failed", C.Service);
    ("gsm-sim-not-inserted", C.Hardware); ("gsm-sim-pin-required", C.Authentication);
    ("gsm-sim-puk-required", C.Authentication); ("gsm-sim-wrong", C.Authentication);
    ("infiniband-mode", C.Configuration); ("dependency-failed", C.Dependency);
    ("br2684-failed", C.Service); ("modem-manager-unavailable", C.Service);
    ("ssid-not-found", C.Configuration); ("secondary-connection-failed", C.Dependency);
    ("dcb-fcoe-failed", C.Service); ("teamd-control-failed", C.Service);
    ("modem-failed", C.Hardware); ("modem-available", C.None);
    ("sim-pin-incorrect", C.Authentication); ("new-activation", C.Lifecycle);
    ("parent-changed", C.Dependency); ("parent-managed-changed", C.Dependency);
    ("ovsdb-failed", C.Service); ("ip-address-duplicate", C.AddressAssignment);
    ("ip-method-unsupported", C.Configuration); ("sriov-configuration-failed", C.Configuration);
    ("peer-not-found", C.Dependency); ("device-handler-failed", C.Service);
    ("unmanaged-by-default", C.Lifecycle); ("unmanaged-external-down", C.Lifecycle);
    ("unmanaged-link-not-init", C.Lifecycle); ("unmanaged-quitting", C.Lifecycle);
    ("unmanaged-sleeping", C.Lifecycle); ("unmanaged-user-conf", C.Lifecycle);
    ("unmanaged-user-explicit", C.Lifecycle); ("unmanaged-user-settings", C.Lifecycle);
    ("unmanaged-user-udev", C.Lifecycle); ("networking-off", C.Lifecycle);
    ("modem-no-operator-code", C.Service) ].

Definition ACTIVE_CONNECTION_REASONS : list ReasonSpec :=
  [ ("unknown", C.Unknown); ("none", C.None); ("user-disconnected", C.UserRequested);
    ("device-disconnected", C.Dependency); ("service-stopped", C.Service);
    ("ip-config-invalid", C.AddressAssignment); ("connect-timeout", C.Service);
    ("service-start-timeout", C.Service); ("service-start-failed", C.Service);
    ("no-secrets", C.Authentication); ("login-failed", C.Authentication);
    ("connection-removed", C.Lifecycle); ("dependency-failed", C.Dependency);
    ("device-realize-failed", C.Hardware); ("device-removed", C.Lifecycle) ].

Definition VPN_REASON_COUNT : nat := 12.
Definition VPN_STATE_NAMES : list string :=
  ["unknown"; "prepare"; "need-auth"; "connect"; "ip-config-get"; "activated"; "failed";
   "disconnected"].

Definition typed_reason (code : N) (specs : list ReasonSpec) : TypedReason :=
  let '(name, category) := unwrap_or (specs !! N.to_nat code) ("unknown", C.Unknown) in
  {| tr_code := code; tr_name := name; tr_category := category |}.

Definition device_state_reason (code : N) : TypedReason := typed_reason code DEVICE_REASONS.
Definition active_connection_state_reason (code : N) : TypedReason :=
  typed_reason code ACTIVE_CONNECTION_REASONS.
Definition vpn_state_reason (code : N) : TypedReason :=
  typed_reason code (take VPN_REASON_COUNT ACTIVE_CONNECTION_REASONS).

Definition vpn_state_name (code : N) : string :=
  unwrap_or (VPN_STATE_NAMES !! N.to_nat code) "unknown".

(** [TypedReason::expected]. *)
Definition expected (r : TypedReason) : bool :=
  match tr_category r with C.None | C.UserRequested => true | _ => false end.

(** ** Lemmas *)

(** Every reason of either vocabulary, the unnamed ones included. *)
Definition all_specs : list ReasonSpec :=
  ("unknown", C.Unknown) :: DEVICE_REASONS ++ ACTIVE_CONNECTION_REASONS.

Lemma typed_reason_elem code specs :
  (tr_name (typed_reason code specs), tr_category (typed_reason code specs))
    ∈ ("unknown", C.Unknown) :: specs.
Proof.
  unfold typed_reason. destruct (specs !! N.to_nat code) as [[n c]|] eqn:E; simpl; [|by left].
  right. by eapply list_elem_of_lookup_2.
Qed.

Definition reason_of_any (r : TypedReason) : Prop :=
  ∃ code, r = device_state_reason code ∨ r = active_connection_state_reason code ∨
          r = vpn_state_reason code.

Lemma reason_of_any_elem r : reason_of_any r → (tr_name r, tr_category r) ∈ all_specs.
Proof.
  unfold all_specs. rewrite elem_of_cons, elem_of_app.
  intros (code & [->|[->| ->]]).
  - destruct (proj1 (elem_of_cons _ _ _) (typed_reason_elem code DEVICE_REASONS)); auto.
  - destruct (proj1 (elem_of_cons _ _ _) (typed_reason_elem code ACTIVE_CONNECTION_REASONS));
      auto.
  - destruct (proj1 (elem_of_cons _ _ _) (typed_reason_elem code
      (take VPN_REASON_COUNT ACTIVE_CONNECTION_REASONS))) as [?|Hv]; auto.
    right. right. rewrite <-(take_drop VPN_REASON_COUNT). apply elem_of_app. by left.
Qed.

Lemma all_specs_functional :
  forallb (λ p, forallb (λ q, negb (bool_decide (p.1 = q.1)) || bool_decide (p.2 = q.2)) all_specs)
    all_specs = true.
Proof. vm_compute. reflexivity. Qed.

(** The reason vocabulary is one vocabulary: whichever table a reason comes
    from (device, active connection or VPN), its name determines its category,
    so a client that switches on the name never sees two categories for it; and
    VPN reasons are exactly the first twelve active-connection reasons. *)
Theorem reason_name_determines_category :
  (∀ r r', reason_of_any r → reason_of_any r' → tr_name r = tr_name r' →
     tr_category r = tr_category r' ∧ expected r = expected r') ∧
  (∀ code, vpn_state_reason code =
     if (code <? 12)%N then active_connection_state_reason code
     else {| tr_code := code; tr_name := "unknown"; tr_category := C.Unknown |}).
Proof.
  split.
  - intros r r' Hr%reason_of_any_elem Hr'%reason_of_any_elem E.
    pose proof all_specs_functional as Hall. rewrite forallb_forall in Hall.
    apply list_elem_of_In in Hr, Hr'. specialize (Hall _ Hr). rewrite forallb_forall in Hall.
    specialize (Hall _ Hr'). simpl in Hall. rewrite bool_decide_eq_true_2 in Hall by done.
    simpl in Hall. apply bool_decide_eq_true in Hall. unfold expected. by rewrite Hall.
  - intros code. unfold vpn_state_reason, active_connection_state_reason, typed_reason.
    destruct (N.ltb_spec code 12).
    + rewrite lookup_take_lt by (unfold VPN_REASON_COUNT; lia). done.
    + rewrite lookup_take_ge by (unfold VPN_REASON_COUNT; lia). done.
Qed.
