(* ===== verification/Network.v ===== *)
(** * Network entries ([src/model.rs])

    The data the daemon publishes about visible networks, and the functions that
    build it: access points grouped into networks, the profiles and preferred
    access point of a group, readiness, authentication, prompts, sharing and
    portal hints, network keys and the connect targets made from them. *)
From S2P Require Import Prelude Errors Text Identity Wifi Qr.
From Stdlib Require Import ZArith Lia Ascii.
From stdpp Require Import prelude strings list sorting pretty.

(** ** Data *)

Abbreviation u64 := N (only parsing).
Abbreviation i32 := Z (only parsing).
Abbreviation i64 := Z (only parsing).

Record ProfilePrivacy := {
  mac_address_policy : string;
  randomized_mac : bool;
  send_hostname : bool;
}.
Definition privacy_default : ProfilePrivacy :=
  {| mac_address_policy := "default"; randomized_mac := false; send_hostname := true |}.

Record SavedWifiConnection := {
  sw_path : string;
  sw_id : string;
  sw_ssid : string;
  sw_ssid_bytes : list u8;
  sw_remember : option bool;
  sw_autoconnect : bool;
  sw_casting_enabled : bool;
  sw_privacy : ProfilePrivacy;
}.

Record AccessPoint := {
  ap_ssid : string;
  ap_ssid_bytes : list u8;
  ap_active : bool;
  ap_security : Security;
  ap_strength : N;
  ap_frequency : u32;
  ap_channel : u32;
  ap_band : string;
  ap_mode : string;
  ap_max_bitrate_mbps : u32;
  ap_bandwidth_mhz : u32;
  ap_ssid_hex : string;
  ap_wpa_flags_label : string;
  ap_rsn_flags_label : string;
  ap_bssid : string;
  ap_last_seen : i32;
  ap_last_seen_age_ms : option u64;
  ap_path : string;
  ap_device_path : string;
  ap_device_iface : string;
  ap_flags : u32;
  ap_wpa_flags : u32;
  ap_rsn_flags : u32;
}.

Record EnterpriseAuth := {
  ea_eap : list string;
  ea_identity : option string;
  ea_anonymous_identity : option string;
  ea_password : option string;
  ea_phase2_auth : option string;
  ea_ca_cert : option string;
  ea_ca_path : option string;
  ea_domain_suffix_match : option string;
  ea_subject_match : option string;
  ea_altsubject_matches : list string;
  ea_openssl_ciphers : option string;
  ea_phase1_peapver : option string;
  ea_phase1_peaplabel : option string;
  ea_phase1_fast_provisioning : option string;
  ea_client_cert : option string;
  ea_private_key : option string;
  ea_private_key_password : option string;
  ea_pin : option string;
  ea_pac_file : option string;
  ea_key_mgmt : option string;
  ea_system_ca_certs : option bool;
  ea_password_flags : option u32;
  ea_private_key_password_flags : option u32;
  ea_pin_flags : option u32;
}.

(** [EnterpriseAuth { eap, identity, phase2_auth, key_mgmt, ..Default::default() }]. *)
Definition enterprise_with (eap : list string) (identity phase2 key_mgmt : option string) :
    EnterpriseAuth := {|
  ea_eap := eap; ea_identity := identity; ea_anonymous_identity := None; ea_password := None;
  ea_phase2_auth := phase2; ea_ca_cert := None; ea_ca_path := None;
  ea_domain_suffix_match := None; ea_subject_match := None; ea_altsubject_matches := [];
  ea_openssl_ciphers := None; ea_phase1_peapver := None; ea_phase1_peaplabel := None;
  ea_phase1_fast_provisioning := None; ea_client_cert := None; ea_private_key := None;
  ea_private_key_password := None; ea_pin := None; ea_pac_file := None;
  ea_key_mgmt := key_mgmt; ea_system_ca_certs := None; ea_password_flags := None;
  ea_private_key_password_flags := None; ea_pin_flags := None |}.

(** [enterprise.identity = Some(identity)]. *)
Definition set_identity (identity : string) (e : EnterpriseAuth) : EnterpriseAuth := {|
  ea_eap := ea_eap e; ea_identity := Some identity;
  ea_anonymous_identity := ea_anonymous_identity e; ea_password := ea_password e;
  ea_phase2_auth := ea_phase2_auth e; ea_ca_cert := ea_ca_cert e; ea_ca_path := ea_ca_path e;
  ea_domain_suffix_match := ea_domain_suffix_match e; ea_subject_match := ea_subject_match e;
  ea_altsubject_matches := ea_altsubject_matches e;
  ea_openssl_ciphers := ea_openssl_ciphers e; ea_phase1_peapver := ea_phase1_peapver e;
  ea_phase1_peaplabel := ea_phase1_peaplabel e;
  ea_phase1_fast_provisioning := ea_phase1_fast_provisioning e;
  ea_client_cert := ea_client_cert e; ea_private_key := ea_private_key e;
  ea_private_key_password := ea_private_key_password e; ea_pin := ea_pin e;
  ea_pac_file := ea_pac_file e; ea_key_mgmt := ea_key_mgmt e;
  ea_system_ca_certs := ea_system_ca_certs e; ea_password_flags := ea_password_flags e;
  ea_private_key_password_flags := ea_private_key_password_flags e;
  ea_pin_flags := ea_pin_flags e |}.

Record TargetIpAddress := { ta_address : string; ta_prefix : u32 }.
Record TargetIpRoute := {
  tr_dest : string; tr_prefix : u32; tr_next_hop : option string; tr_metric : option u32;
  tr_table : option u32;
}.
Record TargetIpSettings := {
  ti_method : option string;
  ti_addresses : list TargetIpAddress;
  ti_gateway : option string;
  ti_dns : list string;
  ti_routes : list TargetIpRoute;
  ti_route_metric : option i64;
  ti_ignore_auto_dns : option bool;
  ti_dns_search : list string;
}.
Record TargetProfileSettings := {
  tp_remember : option bool;
  tp_autoconnect : option bool;
  tp_autoconnect_priority : option i32;
  tp_metered : option string;
  tp_cloned_mac_address : option string;
  tp_send_hostname : option bool;
  tp_ipv4 : option TargetIpSettings;
  tp_ipv6 : option TargetIpSettings;
}.
Definition target_profile_default : TargetProfileSettings :=
  {| tp_remember := None; tp_autoconnect := None; tp_autoconnect_priority := None;
     tp_metered := None; tp_cloned_mac_address := None; tp_send_hostname := None;
     tp_ipv4 := None; tp_ipv6 := None |}.

Record WifiConnectTarget := {
  t_ssid : Ssid;
  t_ap_path : option NmObjectPath;
  t_bssid : option Bssid;
  t_ifname : option InterfaceName;
  t_device_path : option NmObjectPath;
  t_connection_name : option string;
  t_private : bool;
  t_hidden : bool;
  t_security : option Security;
  t_key_mgmt : option string;
  t_enterprise : option EnterpriseAuth;
  t_profile : TargetProfileSettings;
}.

Definition has_specific_ap (t : WifiConnectTarget) : bool :=
  bool_decide (is_Some (t_ap_path t)) || bool_decide (is_Some (t_bssid t)).

Definition target_validate (t : WifiConnectTarget) : result unit Error :=
  if t_hidden t && negb (bool_decide (is_Some (t_bssid t)))
     && looks_like_bssid (ssid_display (t_ssid t))
  then Err (plain ("hidden Wi-Fi target must be an SSID, but '" +:+ ssid_display (t_ssid t)
                   +:+ "' looks like a BSSID"))
  else Ok tt.

Inductive ConnectionReadiness :=
| Ready | NeedsPassword | NeedsEnterpriseCredentials
| Unsupported (reason : option string).

Record NetworkCapabilities := {
  readiness : ConnectionReadiness;
  has_profile : bool;
  can_share_qr : bool;
}.

Module Kind.
Inductive AuthKind :=
| SavedProfile | Open | Owe | WpaPersonal | Wep | WpaEnterprise | Unsupported.
#[global] Instance eq_dec : EqDecision AuthKind.
Proof. solve_decision. Defined.
End Kind.
Export Kind (AuthKind).

Record NetworkAuth := {
  na_kind : AuthKind;
  key_management : list string;
  required_fields : list string;
  optional_fields : list string;
  na_note : option string;
}.

(** [NetworkAuth::new] and [NetworkAuth::supported]. *)
Definition new_auth (k : AuthKind) (km req opt : list string) (note : option string) :
    NetworkAuth :=
  {| na_kind := k; key_management := km; required_fields := req; optional_fields := opt;
     na_note := note |}.
Definition auth_supported (a : NetworkAuth) : bool :=
  bool_decide (na_kind a ≠ Kind.Unsupported).

Module Prompt.
Inductive PromptKind := None | Password | Enterprise | Unsupported.
#[global] Instance eq_dec : EqDecision PromptKind.
Proof. solve_decision. Defined.
End Prompt.
Export Prompt (PromptKind).

Record NetworkConnectPrompt := {
  np_kind : PromptKind;
  np_required_fields : list string;
  np_optional_fields : list string;
  np_message : option string;
  np_enterprise_defaults : option EnterpriseAuth;
}.

Record NetworkShareHint := {
  shareable : bool;
  share_reason : option string;
  requires_profile_secret_check : bool;
  share_profile_path : option string;
  share_qr_payload : option string;
}.

Record NetworkPortalHint := { auto_open_on_connect : bool; portal_reason : option string }.

(** Connection details kept with a network; an [f64] is its IEEE bit pattern. *)
Record IpAddressEntry := { ia_address : string; ia_prefix : u32 }.
Record IpRouteEntry := {
  ir_dest : string; ir_prefix : u32; ir_next_hop : option string; ir_metric : option u32;
}.
Record DhcpLeaseStatus := {
  server_identifier : option string; domain_name : option string;
  lease_time_seconds : option u64; expires_at_ms : option u64;
}.
Record IpStatus := {
  ip_address : option string;
  ip_prefix : option u32;
  ip_addresses : list IpAddressEntry;
  ip_gateway : option string;
  ip_dns : list string;
  ip_domains : list string;
  ip_searches : list string;
  ip_routes : list IpRouteEntry;
  ip_dhcp_lease : option DhcpLeaseStatus;
}.
Record WirelessStatus := {
  bitrate_mbps : option u32; tx_bitrate_mbps : option N; rx_bitrate_mbps : option N;
  wl_mac_address : option string;
}.
Record MeteredStatus := {
  ms_code : u32; ms_state : string; ms_metered : option bool; ms_guessed : bool;
}.
Record ConnectionDetails := {
  cd_ip4 : option IpStatus;
  cd_ip6 : option IpStatus;
  cd_wireless : option WirelessStatus;
  cd_metered : option MeteredStatus;
  cd_active_since_ms : option u64;
  cd_updated_at_ms : N;
}.

Record NetworkEntry := {
  ne_access_point : AccessPoint;
  ne_security_class : SecurityClass;
  ne_key : string;
  ne_access_points : list AccessPoint;
  ne_primary_profile : option SavedWifiConnection;
  ne_profiles : list SavedWifiConnection;
  ne_capabilities : NetworkCapabilities;
  ne_auth : NetworkAuth;
  ne_connect_prompt : NetworkConnectPrompt;
  ne_share : NetworkShareHint;
  ne_portal_hint : NetworkPortalHint;
  ne_last_connection : option ConnectionDetails;
}.

(** [MeteredStatus::from_nm_code] and [SecretFlags::from_code]. *)
Definition metered_from_nm_code (code : u32) : MeteredStatus :=
  let '(state, metered, guessed) :=
    match code with
    | 1%N => ("yes", Some true, false)
    | 2%N => ("no", Some false, false)
    | 3%N => ("guess-yes", Some true, true)
    | 4%N => ("guess-no", Some false, true)
    | _ => ("unknown", None, false)
    end in
  {| ms_code := code; ms_state := state; ms_metered := metered; ms_guessed := guessed |}.

Record SecretFlags := {
  sf_code : u32; agent_owned : bool; not_saved : bool; not_required : bool;
}.
Definition secret_flags_from_code (code : u32) : SecretFlags :=
  {| sf_code := code; agent_owned := has code 1; not_saved := has code 2;
     not_required := has code 4 |}.

(** ** Identity of an access point *)

Definition ssid_bytes_or_display (ssid_bytes : list u8) (display_ssid : string) : list u8 :=
  if bool_decide (ssid_bytes = []) then as_bytes display_ssid else ssid_bytes.

(** [AccessPoint::ssid_bytes]. *)
Definition ap_ssid_exact (ap : AccessPoint) : list u8 :=
  ssid_bytes_or_display (ap_ssid_bytes ap) (ap_ssid ap).

Definition ap_class (ap : AccessPoint) : SecurityClass :=
  security_class (ap_flags ap) (ap_wpa_flags ap) (ap_rsn_flags ap).

Definition ap_auth (ap : AccessPoint) : WifiAuthentication :=
  classify (ap_flags ap) (ap_wpa_flags ap) (ap_rsn_flags ap).

Definition access_point_is_passwordless (ap : AccessPoint) : bool :=
  ap_is_passwordless (ap_flags ap) (ap_wpa_flags ap) (ap_rsn_flags ap).

(** ** Grouping *)

(** The key of [grouped_access_points]. *)
Definition group_key (ap : AccessPoint) : list u8 * SecurityClass * string :=
  (ap_ssid_exact ap, ap_class ap, ap_device_iface ap).

(** One iteration: [groups.entry(key).or_default().push(access_point)]. *)
Definition push_group {K A} `{Ord K} (key : A → K) (groups : list (K * list A)) (a : A) :
    list (K * list A) :=
  bt_update (key a) (λ o, unwrap_or o [] ++ [a]) groups.

Definition grouped_access_points (aps : list AccessPoint) : list (list AccessPoint) :=
  (foldl (push_group group_key) [] aps).*2.

Definition preference (ap : AccessPoint) : bool * N := (ap_active ap, ap_strength ap).

Definition preferred_access_point (aps : list AccessPoint) : option AccessPoint :=
  max_by (λ l r, cmp (preference l) (preference r)) aps.

(** [filter(|profile| seen_paths.insert(..))]: the first profile of each path. *)
Fixpoint dedup_paths (seen : list string) (l : list SavedWifiConnection) :
    list SavedWifiConnection :=
  match l with
  | [] => []
  | p :: l' =>
    if bool_decide (sw_path p ∈ seen) then dedup_paths seen l'
    else p :: dedup_paths (sw_path p :: seen) l'
  end.

Definition profiles_for_access_point_group (aps : list AccessPoint)
    (profile_matches_by_ap_path : list (string * list SavedWifiConnection)) :
    list SavedWifiConnection :=
  let ordered := List.filter ap_active aps ++ List.filter (λ ap, negb (ap_active ap)) aps in
  dedup_paths []
    (concat (omap (λ ap, bt_get (ap_path ap) profile_matches_by_ap_path) ordered)).

(** ** Keys *)

Definition network_key_for (ap : AccessPoint) : string :=
  "ssid-hex:" +:+ ssid_hex (ap_ssid_exact ap) +:+ "|security:"
  +:+ security_class_key (ap_class ap) +:+ "|ifname:"
  +:+ ssid_hex (as_bytes (ap_device_iface ap)).

Definition invalid_key : Error := plain "invalid Wi-Fi network key".

(** [str::split('|').next()]. *)
Fixpoint before_byte (c : u8) (b : list u8) : list u8 :=
  match b with
  | [] => []
  | a :: b' => if is_byte c a then [] else a :: before_byte c b'
  end.

Fixpoint collect {A E} (l : list (result A E)) : result (list A) E :=
  match l with
  | [] => Ok []
  | r :: l' => let? a := r in let? l'' := collect l' in Ok (a :: l'')
  end.

Definition ssid_for_network_key (key : string) : result Ssid Error :=
  let? encoded := ok_or (before_byte "|"%char ∘ as_bytes <$> Text.strip_prefix "ssid-hex:" key)
                    invalid_key in
  if negb (Nat.even (length encoded)) then Err invalid_key
  else
    let? bytes := collect ((λ pair,
      if utf8_valid pair then ok_or (u8_from_hex pair) invalid_key
      else Err invalid_key) <$> chunks2 encoded) in
    ssid_from_bytes bytes.

(** ** Readiness *)

Definition unsupported_auth_reason (ap : AccessPoint) : string :=
  "unsupported authentication flags for '" +:+ ap_ssid ap +:+ "': flags="
  +:+ pretty (ap_flags ap) +:+ ", wpa='" +:+ ap_wpa_flags_label ap +:+ "', rsn='"
  +:+ ap_rsn_flags_label ap
  +:+ "'; supported profile creation covers open/OWE, WEP, WPA/SAE-Personal, WPA-Enterprise, and saved profiles".

Definition known_identity_readiness (ap : AccessPoint) (has_profile : bool) :
    ConnectionReadiness :=
  if has_profile then Ready
  else match ap_auth ap with
       | Auth.Open | Auth.Owe => Ready
       | Auth.Personal | Auth.Wep => NeedsPassword
       | Auth.Enterprise => NeedsEnterpriseCredentials
       | Auth.Unsupported => Unsupported (Some (unsupported_auth_reason ap))
       end.

Definition connection_readiness (ap : AccessPoint) (has_profile : bool) :
    ConnectionReadiness :=
  if bool_decide (ap_ssid_exact ap = []) then Unsupported (Some "network has no usable SSID")
  else known_identity_readiness ap has_profile.

Definition network_capabilities (ap : AccessPoint) (has_profile : bool)
    (share : NetworkShareHint) : NetworkCapabilities :=
  {| readiness := connection_readiness ap has_profile;
     has_profile := has_profile;
     can_share_qr := shareable share || requires_profile_secret_check share |}.

(** ** Authentication *)

Definition saved_profile_auth : NetworkAuth :=
  new_auth Kind.SavedProfile [] [] []
    (Some "A compatible saved NetworkManager profile can be activated without collecting new credentials").

Definition passwordless_auth (k : AuthKind) : NetworkAuth := new_auth k [] [] [] None.

Definition personal_auth (ap : AccessPoint) : NetworkAuth :=
  new_auth Kind.WpaPersonal [personal_key_management (ap_wpa_flags ap) (ap_rsn_flags ap)]
    ["password"] [] None.

Definition wep_auth : NetworkAuth :=
  new_auth Kind.Wep ["none"] ["password"] ["wep_key_type"] None.

Definition enterprise_required_fields : list string := ["enterprise.eap"; "enterprise.identity"].
Definition enterprise_optional_fields : list string :=
  ["password"; "enterprise.anonymous_identity"; "enterprise.phase2_auth"; "enterprise.ca_cert";
   "enterprise.domain_suffix_match"; "enterprise.client_cert"; "enterprise.private_key";
   "enterprise.private_key_password"].

Definition enterprise_auth_capability (ap : AccessPoint) : NetworkAuth :=
  new_auth Kind.WpaEnterprise [enterprise_key_mgmt (ap_wpa_flags ap) (ap_rsn_flags ap)]
    enterprise_required_fields enterprise_optional_fields
    (Some "Provide an enterprise credential object to connect-target; password may be supplied with --password-stdin").

Definition unsupported_auth : NetworkAuth :=
  new_auth Kind.Unsupported [] [] []
    (Some "No nm-daemon creation path is known for this visible network yet").

Definition unsaved_auth_capability (ap : AccessPoint) : NetworkAuth :=
  match ap_auth ap with
  | Auth.Open => passwordless_auth Kind.Open
  | Auth.Owe => passwordless_auth Kind.Owe
  | Auth.Personal => personal_auth ap
  | Auth.Wep => wep_auth
  | Auth.Enterprise => enterprise_auth_capability ap
  | Auth.Unsupported => unsupported_auth
  end.

Definition auth_capability_for (ap : AccessPoint) (has_profile : bool) : NetworkAuth :=
  if has_profile then saved_profile_auth else unsaved_auth_capability ap.

(** ** Prompts *)

Definition prompt_from_auth (kind : PromptKind) (auth : NetworkAuth) (message : option string)
    (enterprise_defaults : option EnterpriseAuth) : NetworkConnectPrompt :=
  {| np_kind := kind;
     np_required_fields := if decide (kind = Prompt.None) then [] else required_fields auth;
     np_optional_fields := optional_fields auth;
     np_message := message;
     np_enterprise_defaults := enterprise_defaults |}.

Definition no_credentials_prompt (auth : NetworkAuth) : NetworkConnectPrompt :=
  prompt_from_auth (if auth_supported auth then Prompt.None else Prompt.Unsupported)
    auth (na_note auth) None.

Definition requires_enterprise_fields (auth : NetworkAuth) : bool :=
  existsb (Text.starts_with "enterprise.") (required_fields auth).

Definition requires_password (auth : NetworkAuth) : bool :=
  existsb (λ f, bool_decide (f = "password")) (required_fields auth).

Definition or_message (o : option string) (m : string) : option string :=
  match o with Some _ => o | None => Some m end.

Definition enterprise_prompt (ap : AccessPoint) (auth : NetworkAuth) : NetworkConnectPrompt :=
  prompt_from_auth Prompt.Enterprise auth
    (or_message (na_note auth) "Enter enterprise Wi-Fi credentials.")
    (Some (enterprise_with ["peap"] None (Some "mschapv2")
             (Some (enterprise_key_mgmt (ap_wpa_flags ap) (ap_rsn_flags ap))))).

Definition password_prompt (auth : NetworkAuth) : NetworkConnectPrompt :=
  prompt_from_auth Prompt.Password auth
    (or_message (na_note auth) "Enter the Wi-Fi password, then press Enter.") None.

Definition connect_prompt_for (ap : AccessPoint) (auth : NetworkAuth) (has_profile : bool) :
    NetworkConnectPrompt :=
  if has_profile || bool_decide (required_fields auth = []) then no_credentials_prompt auth
  else if requires_enterprise_fields auth then enterprise_prompt ap auth
  else if requires_password auth then password_prompt auth
  else prompt_from_auth Prompt.Unsupported auth (na_note auth) None.

(** ** Sharing and portal hints *)

Definition is_shareable_passwordless_network (ap : AccessPoint) : bool :=
  negb (bool_decide (ap_ssid_exact ap = [])) && access_point_is_passwordless ap.

Definition passwordless_network_share_hint (ap : AccessPoint) : NetworkShareHint :=
  {| shareable := true; share_reason := None; requires_profile_secret_check := false;
     share_profile_path := None;
     share_qr_payload := Some (wifi_qr_payload "nopass" (ap_ssid ap) None false) |}.

Definition unshareable_hint (reason : string) : NetworkShareHint :=
  {| shareable := false; share_reason := Some reason; requires_profile_secret_check := false;
     share_profile_path := None; share_qr_payload := None |}.

Definition profile_share_hint (profile : SavedWifiConnection) : NetworkShareHint :=
  {| shareable := false;
     share_reason := Some "Saved profile password availability must be checked before sharing";
     requires_profile_secret_check := true;
     share_profile_path := Some (sw_path profile);
     share_qr_payload := None |}.

Definition network_share_hint_for (ap : AccessPoint)
    (primary_profile : option SavedWifiConnection) : NetworkShareHint :=
  if is_shareable_passwordless_network ap then passwordless_network_share_hint ap
  else match primary_profile with
       | Some profile => profile_share_hint profile
       | None => unshareable_hint
           "Wi-Fi QR sharing requires an open network or a saved profile with a readable password."
       end.

Definition portal_hint_for (ap : AccessPoint) : NetworkPortalHint :=
  let auto := ap_is_passwordless (ap_flags ap) (ap_wpa_flags ap) (ap_rsn_flags ap)
              && negb (ap_uses_owe (ap_wpa_flags ap) (ap_rsn_flags ap)) in
  {| auto_open_on_connect := auto;
     portal_reason := if auto then Some "open network may require captive-portal sign-in"
                      else None |}.

(** ** Entries *)

Definition network_entry_with_profiles (aps : list AccessPoint)
    (profiles : list SavedWifiConnection) : option NetworkEntry :=
  match preferred_access_point aps with
  | None => None
  | Some ap =>
    let primary_profile := head profiles in
    let has_profile := bool_decide (is_Some primary_profile) in
    let share := network_share_hint_for ap primary_profile in
    let capabilities := network_capabilities ap has_profile share in
    let auth := auth_capability_for ap has_profile in
    Some {| ne_key := network_key_for ap;
            ne_security_class := ap_class ap;
            ne_connect_prompt := connect_prompt_for ap auth has_profile;
            ne_share := share;
            ne_portal_hint := portal_hint_for ap;
            ne_access_point := ap;
            ne_access_points := aps;
            ne_primary_profile := primary_profile;
            ne_capabilities := capabilities;
            ne_profiles := profiles;
            ne_auth := auth;
            ne_last_connection := None |}
  end.

Definition network_entries_with_profile_matches (aps : list AccessPoint)
    (profile_matches_by_ap_path : list (string * list SavedWifiConnection)) :
    list NetworkEntry :=
  omap (λ group, network_entry_with_profiles group
                   (profiles_for_access_point_group group profile_matches_by_ap_path))
    (grouped_access_points aps).

(** ** Connect targets *)

Definition connect_target_for_ssid (ssid : Ssid) : WifiConnectTarget :=
  {| t_ssid := ssid; t_ap_path := None; t_bssid := None; t_ifname := None;
     t_device_path := None; t_connection_name := None; t_private := false; t_hidden := false;
     t_security := None; t_key_mgmt := None; t_enterprise := None;
     t_profile := target_profile_default |}.

Definition default_enterprise_auth (identity : string) : EnterpriseAuth :=
  enterprise_with ["peap"] (Some identity) (Some "mschapv2") None.

Definition enterprise_auth_for_network (network : NetworkEntry) (identity : option string) :
    option EnterpriseAuth :=
  (λ identity, set_identity identity
     (unwrap_or (np_enterprise_defaults (ne_connect_prompt network))
        (default_enterprise_auth identity))) <$> identity.

(** [(!value.is_empty()).then(|| parse(value)).transpose()]. *)
Definition parse_non_empty {A} (parse : string → result A Error) (value : string) :
    result (option A) Error :=
  transpose (if bool_decide (value = "") then None else Some (parse value)).

(** [try_from] is zvariant's check of object paths. *)
Definition connect_target_for_network_access_point (try_from : string → result unit Error)
    (network : NetworkEntry) (ap : AccessPoint) (enterprise_identity : option string) :
    result WifiConnectTarget Error :=
  let? ssid := ssid_from_bytes (ap_ssid_exact ap) in
  let? ap_path := parse_non_empty (object_path_parse try_from) (ap_path ap) in
  let? bssid := parse_non_empty bssid_parse (ap_bssid ap) in
  let? ifname := parse_non_empty ifname_parse (ap_device_iface ap) in
  let? device_path := parse_non_empty (object_path_parse try_from) (ap_device_path ap) in
  Ok {| t_ssid := ssid; t_ap_path := ap_path; t_bssid := bssid; t_ifname := ifname;
        t_device_path := device_path; t_connection_name := None; t_private := false;
        t_hidden := false; t_security := Some (ap_security ap);
        t_key_mgmt := head (key_management (ne_auth network));
        t_enterprise := enterprise_auth_for_network network enterprise_identity;
        t_profile := target_profile_default |}.

Definition connect_target_for_network (try_from : string → result unit Error)
    (network : NetworkEntry) (enterprise_identity : option string) :
    result WifiConnectTarget Error :=
  connect_target_for_network_access_point try_from network (ne_access_point network)
    enterprise_identity.

Definition connect_target_for_network_key (key : string) (enterprise_identity : option string) :
    result WifiConnectTarget Error :=
  let? ssid := ssid_for_network_key key in
  let target := connect_target_for_ssid ssid in
  Ok match enterprise_identity with
     | None => target
     | Some identity =>
       {| t_ssid := t_ssid target; t_ap_path := t_ap_path target; t_bssid := t_bssid target;
          t_ifname := t_ifname target; t_device_path := t_device_path target;
          t_connection_name := t_connection_name target; t_private := t_private target;
          t_hidden := t_hidden target; t_security := t_security target;
          t_key_mgmt := t_key_mgmt target;
          t_enterprise := Some (default_enterprise_auth identity);
          t_profile := t_profile target |}
     end.

Record ConnectTargetIdentity := {
  ci_network_key : option string;
  ci_ssid : string;
  ci_ssid_bytes : list u8;
  ci_ssid_hex : string;
  ci_device_iface : option string;
  ci_device_path : option string;
  ci_access_point_path : option string;
  ci_bssid : option string;
}.

Definition from_target (t : WifiConnectTarget) (network_key : option string) :
    ConnectTargetIdentity :=
  {| ci_network_key := network_key;
     ci_ssid := ssid_display (t_ssid t);
     ci_ssid_bytes := ssid_bytes (t_ssid t);
     ci_ssid_hex := ssid_hex (ssid_bytes (t_ssid t));
     ci_device_iface := ifname_str <$> t_ifname t;
     ci_device_path := path_str <$> t_device_path t;
     ci_access_point_path := path_str <$> t_ap_path t;
     ci_bssid := bssid_str <$> t_bssid t |}.

(** ** Hidden-network and recovery prompts ([src/model/prompts.rs]) *)

Record Field := { f_key : string; f_required : bool; f_password : bool; f_value : string }.
Record SecurityChoice := {
  sc_id : string;
  sc_security : Security;
  sc_key_mgmt : string;
  sc_wep_key_type : option WepKeyType;
  sc_enterprise : bool;
  sc_required_fields : list string;
}.
Record HiddenPrompt := { hp_fields : list Field; hp_security_modes : list SecurityChoice }.

Definition hidden_prompt_default : HiddenPrompt := {|
  hp_fields := (λ '(k, r, p, v), {| f_key := k; f_required := r; f_password := p; f_value := v |})
    <$> [ ("ssid", true, false, ""); ("security", true, false, "wpa-psk")
        ; ("password", false, true, ""); ("enterprise.eap", false, false, "peap")
        ; ("enterprise.identity", false, false, "")
        ; ("enterprise.anonymous_identity", false, false, "")
        ; ("enterprise.phase2_auth", false, false, "mschapv2")
        ; ("enterprise.ca_cert", false, false, "") ];
  hp_security_modes := (λ '(id, s, km, wep),
    {| sc_id := id; sc_security := s; sc_key_mgmt := km; sc_wep_key_type := wep;
       sc_enterprise := bool_decide (id = "wpa-eap");
       sc_required_fields :=
         if bool_decide (id ∈ ["open"; "owe"]) then []
         else if bool_decide (id = "wpa-eap") then ["enterprise.identity"; "enterprise.eap"]
         else ["password"] |})
    <$> [ ("open", Open, "open", None); ("owe", Owe, "owe", None)
        ; ("wpa-psk", Wpa2Or3, "wpa-psk", None); ("sae", Wpa2Or3, "sae", None)
        ; ("wep-key", Wep, "wep", Some Key); ("wep-phrase", Wep, "wep", Some Phrase)
        ; ("wpa-eap", Enterprise, "wpa-eap", None) ] |}.

Definition recovery (reason : ConnectFailureReason) : option NetworkConnectPrompt :=
  (λ message,
     {| np_kind := Prompt.Password; np_required_fields := ["password"];
        np_optional_fields := []; np_message := Some message; np_enterprise_defaults := None |})
  <$> match reason with
      | Reason.WrongPassword => Some "Wrong password. Enter a new Wi-Fi password."
      | Reason.PasswordUnavailable | Reason.SecretRequired =>
        Some "NetworkManager could not obtain credentials. Connect again or explicitly update the saved credentials."
      | _ => None
      end.

(** ** Connect results *)

Record PrimaryConnectionIdentity := {
  pc_path : string;
  pc_id : string;
  pc_uuid : string;
  pc_connection_type : string;
  pc_type_name : option string;
  pc_device_iface : option string;
}.

Record ConnectivityStatus := {
  cs_code : u32;
  cs_state : string;
  captive_portal : bool;
  cs_full : bool;
  check_uri : option string;
  check_enabled : bool;
  check_available : bool;
  primary_connection : option PrimaryConnectionIdentity;
}.

(** [ConnectivityStatus::from_nm_code] and [with_portal_context]. *)
Definition connectivity_from_nm_code (code : u32) : ConnectivityStatus :=
  {| cs_code := code;
     cs_state := match code with
                 | 1%N => "none" | 2%N => "portal" | 3%N => "limited" | 4%N => "full"
                 | _ => "unknown"
                 end;
     captive_portal := (code =? 2)%N;
     cs_full := (code =? 4)%N;
     check_uri := None; check_enabled := false; check_available := false;
     primary_connection := None |}.

Definition with_portal_context (uri : option string) (enabled available : bool)
    (primary : option PrimaryConnectionIdentity) (s : ConnectivityStatus) :
    ConnectivityStatus :=
  {| cs_code := cs_code s; cs_state := cs_state s; captive_portal := captive_portal s;
     cs_full := cs_full s; check_uri := non_empty uri; check_enabled := enabled;
     check_available := available; primary_connection := primary |}.

Inductive ConnectEnginePath := AlreadyActive | Dbus.

Record ConnectAttemptSummary := {
  cas_attempt : N;
  cas_status : string;
  cas_reason : option ConnectFailureReason;
  cas_bssid : option string;
  cas_band : option string;
  cas_channel : option u32;
  cas_duration_ms : N;
  cas_message : string;
}.

Record ConnectResult := {
  recovery_prompt : option NetworkConnectPrompt;
  cr_status : string;
  cr_reason : option ConnectFailureReason;
  cr_path : option ConnectEnginePath;
  cr_ssid : string;
  cr_message : string;
  connectivity : option ConnectivityStatus;
  suggest_open_portal : bool;
  attempts : list ConnectAttemptSummary;
  fallback_used : bool;
}.

Definition connected (ssid message : string) (path : ConnectEnginePath)
    (c : option ConnectivityStatus) : ConnectResult :=
  {| recovery_prompt := None; cr_status := "connected"; cr_reason := None;
     cr_path := Some path; cr_ssid := ssid; cr_message := message; connectivity := c;
     suggest_open_portal := match c with Some s => captive_portal s | None => false end;
     attempts := []; fallback_used := false |}.

Definition failed (ssid : string) (reason : ConnectFailureReason) (message : string) :
    ConnectResult :=
  {| recovery_prompt := recovery reason; cr_status := "error"; cr_reason := Some reason;
     cr_path := None; cr_ssid := ssid; cr_message := message; connectivity := None;
     suggest_open_portal := false; attempts := []; fallback_used := false |}.

(** ** Sharing a saved profile *)

Record WifiSharePayload := {
  wsp_status : string;
  wsp_shareable : bool;
  wsp_reason : option string;
  wsp_path : string;
  wsp_id : string;
  wsp_ssid : string;
  wsp_auth_type : option string;
  wsp_qr_payload : option string;
  wsp_qr_svg : option string;
  wsp_password : option string;
  wsp_version : option string;
}.

Definition share_payload (qrcode : string → result string Error)
    (profile : SavedWifiConnection) (auth_type : string) (password : option string)
    (hidden : bool) : WifiSharePayload :=
  let payload := wifi_qr_payload auth_type (sw_ssid profile) password hidden in
  let svg := match render_share qrcode payload with Ok s => Some s | Err _ => None end in
  {| wsp_status := "ok";
     wsp_shareable := bool_decide (is_Some svg);
     wsp_reason := if svg then None else Some "QR image could not be generated";
     wsp_path := sw_path profile;
     wsp_id := sw_id profile;
     wsp_ssid := sw_ssid profile;
     wsp_auth_type := Some auth_type;
     wsp_qr_payload := (λ _, payload) <$> svg;
     wsp_password := svg ≫= λ _, password;
     wsp_qr_svg := svg;
     wsp_version := None |}.

(** ** Grouping: lemmas *)

Section Grouping.
Context {K A : Type} `{Ord K} (key : A → K).
Implicit Types (l : list A) (m : list (K * list A)).

(** Elements with a given key, in order. *)
Definition with_key (k : K) (l : list A) : list A :=
  List.filter (λ a, match cmp (key a) k with Eq => true | _ => false end) l.

Lemma with_key_app k l l' : with_key k (l ++ l') = with_key k l ++ with_key k l'.
Proof. apply List.filter_app. Qed.

Lemma with_key_elem k l a : a ∈ with_key k l ↔ a ∈ l ∧ key a = k.
Proof.
  unfold with_key. rewrite !list_elem_of_In, List.filter_In, <-(cmp_eq (key a) k).
  destruct (cmp (key a) k); split; by intros [? ?].
Qed.

(** What [l] pushed one by one leaves in the map. *)
Definition groups_of (l : list A) : list (K * list A) := foldl (push_group key) [] l.

Lemma groups_of_snoc l a : groups_of (l ++ [a]) = push_group key (groups_of l) a.
Proof. unfold groups_of. by rewrite foldl_app. Qed.

Lemma groups_of_sorted l : bt_sorted (groups_of l).
Proof.
  induction l as [|a l IH] using rev_ind; [constructor|].
  rewrite groups_of_snoc. by apply bt_sorted_update.
Qed.

Lemma groups_of_get k l :
  bt_get k (groups_of l) =
  match with_key k l with [] => None | g => Some g end.
Proof.
  induction l as [|a l IH] using rev_ind; [done|].
  rewrite groups_of_snoc, with_key_app. unfold push_group.
  destruct (cmp_eq_dec (key a) k) as [<-|Hne].
  - rewrite bt_get_update_eq, IH. unfold with_key at 3. simpl. rewrite cmp_refl.
    by destruct (with_key (key a) l).
  - rewrite bt_get_update_ne, IH by done. unfold with_key at 3. simpl.
    destruct (cmp (key a) k) eqn:E; [by apply cmp_eq in E| |]; by rewrite app_nil_r.
Qed.

Lemma groups_of_elem k g l :
  (k, g) ∈ groups_of l → g = with_key k l ∧ g ≠ [].
Proof.
  intros Hin. apply bt_elem_get in Hin; [|apply groups_of_sorted].
  rewrite groups_of_get in Hin. destruct (with_key k l); naive_solver.
Qed.

Lemma push_group_perm m a :
  concat (push_group key m a).*2 ≡ₚ a :: concat m.*2.
Proof.
  unfold push_group. induction m as [|[k g] m IH]; [done|]. simpl.
  destruct (cmp (key a) k); csimpl; [|done|].
  - rewrite <-app_assoc. simpl. by rewrite Permutation_middle.
  - rewrite IH. by rewrite Permutation_middle.
Qed.

Lemma groups_of_perm l : concat (groups_of l).*2 ≡ₚ l.
Proof.
  induction l as [|a l IH] using rev_ind; [done|].
  rewrite groups_of_snoc, push_group_perm, IH. by rewrite Permutation_app_comm.
Qed.
End Grouping.

(** Grouping loses and invents nothing, and never mixes networks: the groups
    together are a permutation of the access points, each group is exactly the
    access points with one SSID, security class and interface, in their
    original order, and no two groups share that identity. *)
Theorem grouped_access_points_partition aps :
  concat (grouped_access_points aps) ≡ₚ aps ∧
  ∃ keys, NoDup keys ∧
    grouped_access_points aps = (λ k, with_key group_key k aps) <$> keys ∧
    ∀ k, k ∈ keys ↔ ∃ ap, ap ∈ aps ∧ group_key ap = k.
Proof.
  change (grouped_access_points aps) with ((groups_of group_key aps).*2).
  split; [apply groups_of_perm|]. exists (groups_of group_key aps).*1. split_and!.
  - apply bt_sorted_keys_NoDup, groups_of_sorted.
  - rewrite <-list_fmap_compose. apply Forall_fmap_ext, Forall_forall.
    intros [k g] Hin. by apply groups_of_elem in Hin as [-> _].
  - intros k. rewrite list_elem_of_fmap. split.
    + intros ([k' g] & -> & [-> Hne]%groups_of_elem). simpl.
      destruct (with_key group_key k' aps) as [|ap g] eqn:E; [done|].
      exists ap. apply with_key_elem. rewrite E. by left.
    + intros (ap & Hin & <-).
      destruct (with_key group_key (group_key ap) aps) as [|x g] eqn:E.
      { assert (ap ∈ with_key group_key (group_key ap) aps) as Hx by by apply with_key_elem.
        rewrite E in Hx. by apply elem_of_nil in Hx. }
      exists (group_key ap, x :: g). split; [done|]. apply bt_get_elem.
      by rewrite groups_of_get, E.
Qed.

(** ** Keys: lemmas *)

Lemma before_byte_stop c b rest :
  forallb (λ a, negb (is_byte c a)) b = true → before_byte c (b ++ c :: rest) = b.
Proof.
  induction b as [|a b IH]; simpl.
  - unfold is_byte. by rewrite bool_decide_eq_true_2.
  - intros H. bool_prop. bool_rewrite. by rewrite IH.
Qed.

Lemma hexdigits_no_bar b :
  forallb is_ascii_hexdigit b = true → forallb (λ a, negb (is_byte "|"%char a)) b = true.
Proof.
  rewrite !forallb_forall. intros Hb a Ha. specialize (Hb a Ha).
  assert (negb (is_ascii_hexdigit a) || negb (is_byte "|"%char a) = true) as Hall.
  { refine (forall_bytes (λ a, negb (is_ascii_hexdigit a) || negb (is_byte "|"%char a)) _ a).
    vm_compute. reflexivity. }
  by rewrite Hb in Hall.
Qed.

Lemma network_key_bytes ap :
  as_bytes (network_key_for ap) =
  as_bytes "ssid-hex:" ++ (ap_ssid_exact ap ≫= hex_byte) ++ "|"%char ::
  (as_bytes ("security:" +:+ security_class_key (ap_class ap)) ++ "|"%char ::
   as_bytes ("ifname:" +:+ ssid_hex (as_bytes (ap_device_iface ap)))).
Proof.
  unfold network_key_for. rewrite !as_bytes_app, as_bytes_ssid_hex.
  rewrite <-!app_assoc. done.
Qed.

Lemma security_class_key_inj c d : security_class_key c = security_class_key d → c = d.
Proof. by destruct c, d. Qed.

Lemma security_class_key_no_bar c :
  forallb (λ a, negb (is_byte "|"%char a)) (as_bytes ("security:" +:+ security_class_key c)) = true.
Proof. by destruct c. Qed.

Lemma before_byte_eq c b b' r r' :
  forallb (λ a, negb (is_byte c a)) b = true → forallb (λ a, negb (is_byte c a)) b' = true →
  b ++ c :: r = b' ++ c :: r' → b = b' ∧ r = r'.
Proof.
  intros Hb Hb' E. pose proof (f_equal (before_byte c) E) as E'.
  rewrite !before_byte_stop in E' by done. subst b'. by simplify_list_eq.
Qed.

(** A network key determines the identity that groups access points. *)
Lemma network_key_for_inj ap ap' :
  network_key_for ap = network_key_for ap' → group_key ap = group_key ap'.
Proof.
  intros E%(f_equal as_bytes). rewrite !network_key_bytes in E. simplify_list_eq.
  apply before_byte_eq in E as [E1 E];
    try by apply hexdigits_no_bar, ssid_hex_bytes_hexdigit.
  simplify_list_eq.
  apply before_byte_eq in E as [E2 E3]; [|apply (security_class_key_no_bar (ap_class ap))
                                         |apply (security_class_key_no_bar (ap_class ap'))].
  simplify_list_eq. apply as_bytes_inj, security_class_key_inj in E2.
  apply as_bytes_inj, ssid_hex_inj, as_bytes_inj in E3.
  assert (ap_ssid_exact ap = ap_ssid_exact ap') as E4.
  { apply ssid_hex_inj. unfold ssid_hex. by rewrite E1. }
  unfold group_key. congruence.
Qed.

Lemma collect_hex_pairs b :
  collect ((λ pair, if utf8_valid pair then ok_or (u8_from_hex pair) invalid_key
                    else Err invalid_key) <$> (hex_byte <$> b)) = Ok b.
Proof.
  induction b as [|a b IH]; [done|]. rewrite !fmap_cons. cbn [collect].
  assert (utf8_valid (hex_byte a) = true) as ->.
  { refine (forall_bytes (λ a, utf8_valid (hex_byte a)) _ a). vm_compute. reflexivity. }
  rewrite hex_byte_value. cbn [ok_or]. by rewrite IH.
Qed.

Lemma length_bind_hex b : length (b ≫= hex_byte) = 2 * length b.
Proof. induction b as [|a b IH]; [done|]. rewrite bind_cons, length_app, IH. simpl. lia. Qed.

(** Selection keys round-trip: decoding the key of any access point gives
    back its exact SSID bytes, validated, so a frontend that returns a key
    addresses the network it was shown; and two access points share a key only
    if they have the same SSID bytes, security class and interface. *)
Theorem network_key_roundtrip ap :
  ssid_for_network_key (network_key_for ap) = ssid_from_bytes (ap_ssid_exact ap) ∧
  ∀ ap', network_key_for ap = network_key_for ap' → group_key ap = group_key ap'.
Proof.
  split; [|apply network_key_for_inj]. unfold ssid_for_network_key.
  assert (Text.strip_prefix "ssid-hex:" (network_key_for ap) =
    Some (of_bytes ((ap_ssid_exact ap ≫= hex_byte) ++ "|"%char ::
      (as_bytes ("security:" +:+ security_class_key (ap_class ap)) ++ "|"%char ::
       as_bytes ("ifname:" +:+ ssid_hex (as_bytes (ap_device_iface ap))))))) as ->.
  { unfold network_key_for. rewrite strip_prefix_app. f_equal. apply as_bytes_inj.
    rewrite as_bytes_of_bytes, !as_bytes_app, as_bytes_ssid_hex. done. }
  csimpl. rewrite as_bytes_of_bytes, before_byte_stop
    by apply hexdigits_no_bar, ssid_hex_bytes_hexdigit.
  rewrite length_bind_hex, Nat.even_even, chunks2_ssid_hex, collect_hex_pairs. done.
Qed.

(** ** Entries: lemmas *)

Lemma preferred_access_point_max aps ap :
  preferred_access_point aps = Some ap →
  ap ∈ aps ∧ ∀ x, x ∈ aps → cmp (preference x) (preference ap) ≠ Gt.
Proof.
  unfold preferred_access_point. intros H. split; [by eapply max_by_elem|].
  destruct aps as [|a aps]; [done|]. unfold max_by in H. injection H as <-.
  intros x Hx. exact (foldl_max_by_max preference aps a x Hx).
Qed.

Lemma preferred_access_point_Some aps : aps ≠ [] → is_Some (preferred_access_point aps).
Proof. destruct aps; [done|]. by eexists. Qed.

(** Every entry comes from one identity of the input. *)
Lemma network_entries_elem aps profiles e :
  e ∈ network_entries_with_profile_matches aps profiles →
  ∃ k, ne_access_points e = with_key group_key k aps ∧
       preferred_access_point (ne_access_points e) = Some (ne_access_point e) ∧
       ne_profiles e = profiles_for_access_point_group (ne_access_points e) profiles ∧
       network_entry_with_profiles (ne_access_points e) (ne_profiles e) = Some e.
Proof.
  unfold network_entries_with_profile_matches.
  change (grouped_access_points aps) with ((groups_of group_key aps).*2).
  intros (g & Hg & He)%list_elem_of_omap.
  apply list_elem_of_fmap in Hg as ([k g'] & -> & [-> _]%groups_of_elem). simpl in *.
  exists k. assert (E := He). unfold network_entry_with_profiles in He.
  destruct (preferred_access_point _) eqn:Hp; [|done]. simplify_eq. simpl. auto.
Qed.

Lemma omap_keys_NoDup {A B C D} (f : A → option B) (h : B → C) (k : A → D) (l : list A) :
  (∀ a a' b b', a ∈ l → a' ∈ l → f a = Some b → f a' = Some b' → h b = h b' → k a = k a') →
  NoDup (k <$> l) → NoDup (h <$> omap f l).
Proof.
  induction l as [|a l IH]; csimpl; [constructor|].
  intros Hinj [Hnin Hnd]%NoDup_cons.
  assert (NoDup (h <$> omap f l)) as Hrec.
  { apply IH; [|done]. intros; eapply Hinj; eauto using list_elem_of_further. }
  destruct (f a) as [b|] eqn:Hf; [|done]. csimpl. constructor; [|done].
  intros (b' & Hb & (a' & Ha' & Hf')%list_elem_of_omap)%list_elem_of_fmap.
  apply Hnin, list_elem_of_fmap. exists a'. split; [|done].
  eapply Hinj; eauto using list_elem_of_further, list_elem_of_here.
Qed.

Lemma groups_of_heads aps :
  (λ g, group_key <$> head g) <$> (groups_of group_key aps).*2 =
  Some <$> (groups_of group_key aps).*1.
Proof.
  rewrite <-!list_fmap_compose. apply Forall_fmap_ext, Forall_forall.
  intros [k g] [-> Hne]%groups_of_elem. simpl.
  destruct (with_key group_key k aps) as [|a g'] eqn:E; [done|]. simpl. f_equal.
  apply (with_key_elem group_key k aps a). rewrite E. by left.
Qed.

(** The key of an entry is the key of each of its access points. *)
Lemma network_key_for_group ap ap' :
  group_key ap = group_key ap' →
  network_key_for ap = network_key_for ap' ∧ ap_class ap = ap_class ap'.
Proof. unfold group_key, network_key_for. by intros [= -> -> ->]. Qed.

Lemma network_entry_group k aps profiles e :
  network_entry_with_profiles (with_key group_key k aps) profiles = Some e →
  group_key (ne_access_point e) = k ∧ ne_key e = network_key_for (ne_access_point e) ∧
  ne_security_class e = ap_class (ne_access_point e) ∧
  ne_access_points e = with_key group_key k aps.
Proof.
  unfold network_entry_with_profiles.
  destruct (preferred_access_point _) as [ap|] eqn:Hp; [|done]. intros [= <-]. simpl.
  apply preferred_access_point_max in Hp as [[_ Hk]%with_key_elem _]. auto.
Qed.

(** Entries are keyed faithfully: no two entries of a listing have the same
    key, and every visible access point is listed under exactly the entry whose
    key is its own, so an open twin of a secured network is always a separate
    entry. *)
Theorem network_entries_keys aps profiles :
  let entries := network_entries_with_profile_matches aps profiles in
  NoDup (ne_key <$> entries) ∧
  ∀ ap, ap ∈ aps → ∃ e, e ∈ entries ∧ ap ∈ ne_access_points e ∧
    ne_key e = network_key_for ap ∧ ne_security_class e = ap_class ap.
Proof.
  unfold network_entries_with_profile_matches.
  change (grouped_access_points aps) with ((groups_of group_key aps).*2). split.
  - apply (omap_keys_NoDup _ _ (λ g, group_key <$> head g)).
    2:{ rewrite groups_of_heads. apply NoDup_fmap_2; [apply _|].
        apply bt_sorted_keys_NoDup, groups_of_sorted. }
    intros g g' b b' ([k x] & -> & [-> Hne]%groups_of_elem)%list_elem_of_fmap
      ([k' x'] & -> & [-> Hne']%groups_of_elem)%list_elem_of_fmap Hb Hb'. simpl in *.
    apply network_entry_group in Hb as (<- & -> & _), Hb' as (<- & -> & _).
    intros E%network_key_for_inj. by rewrite E.
  - intros ap Hap. set (k := group_key ap).
    assert (ap ∈ with_key group_key k aps) as Hin by by apply with_key_elem.
    assert (with_key group_key k aps ≠ []) as Hne by by intros E; rewrite E in Hin; apply elem_of_nil in Hin.
    destruct (preferred_access_point_Some _ Hne) as [p Hp].
    set (ps := profiles_for_access_point_group (with_key group_key k aps) profiles).
    assert (is_Some (network_entry_with_profiles (with_key group_key k aps) ps)) as [e He]
      by (unfold network_entry_with_profiles; rewrite Hp; eauto).
    exists e. split.
    + apply list_elem_of_omap. exists (with_key group_key k aps). split; [|done].
      apply list_elem_of_fmap. exists (k, with_key group_key k aps). split; [done|].
      apply bt_get_elem. rewrite groups_of_get. by destruct (with_key group_key k aps).
    + apply network_entry_group in He as (Hk & -> & -> & ->). split; [done|].
      by apply network_key_for_group.
Qed.

Lemma dedup_paths_spec seen l :
  (∀ p, p ∈ dedup_paths seen l → p ∈ l ∧ sw_path p ∉ seen) ∧
  NoDup (sw_path <$> dedup_paths seen l) ∧
  (∀ p, p ∈ l → sw_path p ∈ seen ∨ sw_path p ∈ sw_path <$> dedup_paths seen l).
Proof.
  revert seen. induction l as [|q l IH]; intros seen; simpl.
  - split_and!; [by intros ? ?%elem_of_nil|constructor|by intros ? ?%elem_of_nil].
  - case_bool_decide as Hq.
    + destruct (IH seen) as (H1 & H2 & H3). split_and!; [|done|]; set_solver.
    + destruct (IH (sw_path q :: seen)) as (H1 & H2 & H3). split_and!.
      * intros p [->|Hp]%elem_of_cons; [split; [by left|done]|].
        apply H1 in Hp. set_solver.
      * csimpl. constructor; [|done]. intros (p & E & Hp)%list_elem_of_fmap.
        apply H1 in Hp as [_ Hp]. rewrite <-E in Hp. set_solver.
      * csimpl. intros p [->|Hp]%elem_of_cons; [right; by left|].
        apply H3 in Hp. set_solver.
Qed.

(** The paths listed for a group are those matched to its access points. *)
Lemma profile_paths_elem aps profiles q :
  sw_path q ∈ sw_path <$> profiles_for_access_point_group aps profiles ↔
  ∃ x l q', x ∈ aps ∧ bt_get (ap_path x) profiles = Some l ∧ q' ∈ l ∧ sw_path q' = sw_path q.
Proof.
  unfold profiles_for_access_point_group.
  set (ordered := List.filter ap_active aps ++ _).
  assert (∀ x, x ∈ ordered ↔ x ∈ aps) as Hord.
  { intros x. unfold ordered. rewrite elem_of_app, !list_elem_of_In, !List.filter_In.
    destruct (ap_active x); simpl; naive_solver. }
  destruct (dedup_paths_spec [] (concat (omap (λ ap, bt_get (ap_path ap) profiles) ordered)))
    as (Hin & _ & Hall).
  split.
  - intros (p & E & Hp%Hin)%list_elem_of_fmap. destruct Hp as [Hp _].
    apply list_elem_of_In, in_concat in Hp as (l & Hl & Hp).
    apply list_elem_of_In, list_elem_of_omap in Hl as (x & Hx & Hg).
    exists x, l, p. split_and!; [by apply Hord|done|by apply list_elem_of_In|done].
  - intros (x & l & q' & Hx%Hord & Hg & Hq & <-).
    destruct (Hall q') as [?%elem_of_nil|?]; [|done..].
    apply list_elem_of_In, in_concat. exists l.
    rewrite <-!list_elem_of_In. split; [|done]. apply list_elem_of_omap. eauto.
Qed.

(** The entry of a group is anchored at its best access point and its
    profiles: the preferred access point belongs to the group, is active if any
    of them is, and no access point of the same activity is stronger; the
    profiles are those matched to its access points, each path once, and the
    first of them is the primary one. *)
Theorem network_entry_sound aps profiles e :
  e ∈ network_entries_with_profile_matches aps profiles →
  ne_access_point e ∈ ne_access_points e ∧
  (∀ x, x ∈ ne_access_points e → group_key x = group_key (ne_access_point e) ∧
     (ap_active x = true → ap_active (ne_access_point e) = true) ∧
     (ap_active x = ap_active (ne_access_point e) →
      (ap_strength x <= ap_strength (ne_access_point e))%N)) ∧
  NoDup (sw_path <$> ne_profiles e) ∧
  (∀ q, sw_path q ∈ sw_path <$> ne_profiles e ↔ ∃ x l q',
     x ∈ ne_access_points e ∧ bt_get (ap_path x) profiles = Some l ∧ q' ∈ l ∧
     sw_path q' = sw_path q) ∧
  ne_primary_profile e = head (ne_profiles e).
Proof.
  intros (k & Haps & Hpref & Hps & He)%network_entries_elem.
  apply preferred_access_point_max in Hpref as [Hin Hmax].
  assert (∀ x, x ∈ ne_access_points e → group_key x = k) as Hk.
  { intros x. rewrite Haps. by intros [_ ?]%with_key_elem. }
  split_and!; [done| | | |].
  - intros x Hx. split; [by rewrite !Hk|]. specialize (Hmax x Hx).
    unfold preference in Hmax. simpl in Hmax.
    destruct (ap_active x), (ap_active (ne_access_point e)); simpl in Hmax;
      split; auto; try done; intros _; by apply N.compare_le_iff.
  - rewrite Hps. apply dedup_paths_spec.
  - rewrite Hps. intros q. apply profile_paths_elem.
  - unfold network_entry_with_profiles in He. destruct (preferred_access_point _); [|done].
    by injection He as <-.
Qed.

(** The scan fixture of the repository's tests, and an open twin of it. *)
Definition example_access_point : AccessPoint := {|
  ap_ssid := "Example"; ap_ssid_bytes := as_bytes "Example"; ap_active := false;
  ap_security := Wpa2Or3; ap_strength := 80; ap_frequency := 2412; ap_channel := 1;
  ap_band := "2.4 GHz"; ap_mode := "Infra"; ap_max_bitrate_mbps := 0; ap_bandwidth_mhz := 0;
  ap_ssid_hex := "4578616d706c65"; ap_wpa_flags_label := "(none)";
  ap_rsn_flags_label := "(none)"; ap_bssid := "00:11:22:33:44:55"; ap_last_seen := 0;
  ap_last_seen_age_ms := None; ap_path := "/ap/1"; ap_device_path := "/device/1";
  ap_device_iface := "wlan0"; ap_flags := 0; ap_wpa_flags := 0; ap_rsn_flags := 0 |}.

Definition example_entry : option NetworkEntry :=
  head (network_entries_with_profile_matches [example_access_point] []).

Lemma network_entry_sound_witness :
  ∃ e, example_entry = Some e ∧ ne_access_point e ∈ ne_access_points e ∧
       NoDup (sw_path <$> ne_profiles e).
Proof.
  eexists. split; [reflexivity|].
  refine (match network_entry_sound [example_access_point] [] _ (list_elem_of_here _ _) with
          | conj H1 (conj _ (conj H2 _)) => conj H1 H2 end).
Defined.

(** ** What an entry asks of the user *)

(** The published descriptions of a network agree with each other for every
    access point with an SSID: a network is ready exactly when nothing is asked,
    a password is asked exactly when the authentication requires one and names
    its key management, an enterprise prompt comes with defaults for the same
    key management, and an unsupported network is reported as such by
    readiness, authentication and prompt alike. *)
Theorem network_prompts_coherent ap hp :
  ap_ssid_exact ap ≠ [] →
  let auth := auth_capability_for ap hp in
  let prompt := connect_prompt_for ap auth hp in
  match connection_readiness ap hp with
  | Ready => np_kind prompt = Prompt.None ∧ np_required_fields prompt = [] ∧
             auth_supported auth = true ∧
             (hp = true ∨ ap_auth ap = Auth.Open ∨ ap_auth ap = Auth.Owe)
  | NeedsPassword => np_kind prompt = Prompt.Password ∧
             np_required_fields prompt = ["password"] ∧ auth_supported auth = true ∧
             is_Some (head (key_management auth))
  | NeedsEnterpriseCredentials => np_kind prompt = Prompt.Enterprise ∧
             np_required_fields prompt = enterprise_required_fields ∧
             auth_supported auth = true ∧
             (np_enterprise_defaults prompt ≫= ea_key_mgmt) = head (key_management auth)
  | Unsupported reason => is_Some reason ∧ np_kind prompt = Prompt.Unsupported ∧
             auth_supported auth = false ∧ key_management auth = []
  end.
Proof.
  intros Hs. unfold connection_readiness. rewrite bool_decide_eq_false_2 by done.
  unfold known_identity_readiness, auth_capability_for, unsaved_auth_capability.
  destruct hp; [by vm_compute; auto|].
  destruct (ap_auth ap) eqn:Ha; split_and!; try reflexivity; auto; by eexists.
Qed.

Lemma network_prompts_coherent_witness :
  np_kind (connect_prompt_for example_access_point
             (auth_capability_for example_access_point false) false) = Prompt.None.
Proof.
  exact (proj1 (network_prompts_coherent example_access_point false ltac:(discriminate))).
Defined.

(** ** Targets *)

#[local] Arguments non_empty : simpl never.

Lemma parse_non_empty_Ok {A} (parse : string → result A Error) v o :
  parse_non_empty parse v = Ok o →
  match o with Some a => parse v = Ok a ∧ v ≠ "" | None => v = "" end.
Proof.
  unfold parse_non_empty. case_bool_decide; simpl; [by intros [= <-]|].
  destruct (parse v); simpl; intros [= <-]. auto.
Qed.

(** A connect target made from an entry names the access point it was made
    from: its SSID is the exact SSID of the access point, its BSSID, interface
    and object paths are the validated forms of the access point's non-empty
    fields and absent otherwise, so the target is pinned to that access point
    as far as the scan identified it. *)
Theorem connect_target_pins_access_point try_from network ap identity t :
  connect_target_for_network_access_point try_from network ap identity = Ok t →
  ssid_bytes (t_ssid t) = ap_ssid_exact ap ∧
  (t_bssid t = None ↔ ap_bssid ap = "") ∧
  (∀ b, t_bssid t = Some b → bssid_parse (ap_bssid ap) = Ok b) ∧
  (ifname_str <$> t_ifname t) = non_empty (Some (ap_device_iface ap)) ∧
  (path_str <$> t_ap_path t) = non_empty (Some (ap_path ap)) ∧
  (path_str <$> t_device_path t) = non_empty (Some (ap_device_path ap)) ∧
  (has_specific_ap t = true ↔ ap_path ap ≠ "" ∨ ap_bssid ap ≠ "") ∧
  (ea_identity <$> t_enterprise t) = Some <$> identity.
Proof.
  unfold connect_target_for_network_access_point.
  destruct (ssid_from_bytes _) as [s|] eqn:Hs; [|done].
  destruct (parse_non_empty (object_path_parse try_from) (ap_path ap)) as [p|] eqn:Hp; [|done].
  destruct (parse_non_empty bssid_parse _) as [b|] eqn:Hb; [|done].
  destruct (parse_non_empty ifname_parse _) as [i|] eqn:Hi; [|done].
  destruct (parse_non_empty (object_path_parse try_from) (ap_device_path ap)) as [d|] eqn:Hd;
    [|done].
  intros [= <-]. apply ssid_from_bytes_Ok in Hs as [_ ->].
  apply parse_non_empty_Ok in Hp, Hb, Hi, Hd.
  assert (∀ v q, object_path_parse try_from v = Ok q → path_str q = v) as Hpath.
  { unfold object_path_parse. intros v q. destruct (try_from v); simpl; by intros [= <-]. }
  assert (∀ v q, ifname_parse v = Ok q → ifname_str q = v) as Hif.
  { unfold ifname_parse. intros v q. destruct (_ || existsb _ _); intros E; by simplify_eq. }
  unfold has_specific_ap. simpl. split_and!; [done| | | | | | |].
  - destruct b; naive_solver.
  - destruct b; naive_solver.
  - destruct i as [i|]; [|by rewrite Hi]. destruct Hi as [E ?]. csimpl.
    by rewrite (Hif _ _ E), non_empty_Some.
  - destruct p as [p|]; [|by rewrite Hp]. destruct Hp as [E ?]. csimpl.
    by rewrite (Hpath _ _ E), non_empty_Some.
  - destruct d as [d|]; [|by rewrite Hd]. destruct Hd as [E ?]. csimpl.
    by rewrite (Hpath _ _ E), non_empty_Some.
  - destruct p as [p|], b as [b|]; simpl; naive_solver.
  - unfold enterprise_auth_for_network. by destruct identity.
Qed.

(** Object paths accepted as D-Bus does: an absolute path. *)
Definition absolute_path (v : string) : result unit Error :=
  if Text.starts_with "/" v then Ok tt else Err (plain "invalid object path").

Lemma connect_target_pins_access_point_witness :
  ∃ e t, example_entry = Some e ∧ connect_target_for_network absolute_path e None = Ok t ∧
         has_specific_ap t = true.
Proof.
  do 2 eexists. split; [reflexivity|]. split; [vm_compute; reflexivity|].
  eapply (connect_target_pins_access_point absolute_path _ example_access_point None);
    [|left; discriminate].
  instantiate (1 := ltac:(let e := eval vm_compute in example_entry in
                          match e with Some ?n => exact n end)).
  vm_compute. reflexivity.
Defined.

(** [u8::from_str_radix] takes a sign, so a key may spell an octet with one. *)
Example signed_key_accepted :
  ssid_for_network_key "ssid-hex:+1" = ssid_for_network_key "ssid-hex:01" ∧
  is_ok (ssid_for_network_key "ssid-hex:+1") = true.
Proof. split; vm_compute; reflexivity. Qed.
