(* ===== verification/Variant.v ===== *)
(** * D-Bus values and connection settings ([src/variant.rs])

    A connection's settings are sections of keys with D-Bus values. [value] has the
    types the daemon reads and writes; a dictionary is a list of entries and an
    array or dictionary may wrap its elements in variants, which the readers look
    through once ([Value::downcast_ref]). Encoding these types does not fail. *)
From S2P Require Import Prelude Errors Text.
From Stdlib Require Import ZArith Lia Ascii.
From stdpp Require Import prelude gmap strings list.

Inductive value :=
| VBool (b : bool)
| VByte (b : u8)
| VI32 (z : Z)
| VU32 (n : N)
| VI64 (z : Z)
| VU64 (n : N)
| VStr (s : string)
| VPath (s : string)
| VArray (l : list value)
| VDict (l : list (value * value))
| VVariant (v : value).

(** Decidable equality, through the nested lists. *)
#[export] Instance value_eq_dec : EqDecision value.
Proof.
  refine (fix go (v w : value) := let _ : EqDecision value := @go in
    match v, w return Decision (v = w) with
    | VBool a, VBool b => cast_if (decide (a = b))
    | VByte a, VByte b => cast_if (decide (a = b))
    | VI32 a, VI32 b => cast_if (decide (a = b))
    | VU32 a, VU32 b => cast_if (decide (a = b))
    | VI64 a, VI64 b => cast_if (decide (a = b))
    | VU64 a, VU64 b => cast_if (decide (a = b))
    | VStr a, VStr b => cast_if (decide (a = b))
    | VPath a, VPath b => cast_if (decide (a = b))
    | VArray a, VArray b => cast_if (decide (a = b))
    | VDict a, VDict b => cast_if (decide (a = b))
    | VVariant a, VVariant b => cast_if (decide (a = b))
    | _, _ => right _
    end); abstract congruence.
Defined.

Abbreviation section := (gmap string value).
Abbreviation ConnectionSettings := (gmap string (gmap string value)).

(** ** Reading *)

(** [TryFrom<&OwnedValue>]: exact types. *)
Definition as_bool (v : value) : option bool := match v with VBool b => Some b | _ => None end.
Definition as_byte (v : value) : option u8 := match v with VByte b => Some b | _ => None end.
Definition as_i32 (v : value) : option Z := match v with VI32 z => Some z | _ => None end.
Definition as_u32 (v : value) : option N := match v with VU32 n => Some n | _ => None end.
Definition as_i64 (v : value) : option Z := match v with VI64 z => Some z | _ => None end.
Definition value_string (v : value) : option string := match v with VStr s => Some s | _ => None end.
Definition as_dict (v : value) : option (list (value * value)) :=
  match v with VDict l => Some l | _ => None end.

(** [Value::downcast_ref] of an element. *)
Definition unwrap (v : value) : value := match v with VVariant v => v | _ => v end.

Definition setting {A} (f : value → option A) (s : section) (key : string) : option A := s !! key ≫= f.
Definition setting_string : section → string → option string := setting value_string.

(** One invalid element rejects the whole list. *)
Definition value_list {A} (f : value → option A) (v : value) : option (list A) :=
  match v with VArray l => mapM (λ x, f (unwrap x)) l | _ => None end.
Definition setting_strings (s : section) (key : string) : list string :=
  unwrap_or (s !! key ≫= value_list value_string) [].

Definition string_keys (l : list (value * value)) : bool :=
  forallb (λ kv, bool_decide (is_Some (value_string kv.1))) l.
Definition value_dicts (v : value) : option (list (list (value * value))) :=
  ds ← value_list as_dict v; if forallb string_keys ds then Some ds else None.

(** [Dict::get] and then a typed downcast: [Some None] is an absent key. *)
Definition dict_find (k : string) (l : list (value * value)) : option value :=
  unwrap ∘ snd <$> find_first (λ kv, bool_decide (value_string kv.1 = Some k)) l.
Definition dict_get {A} (f : value → option A) (k : string) (l : list (value * value)) : option A :=
  dict_find k l ≫= f.

Definition value_string_map (v : value) : option (gmap string string) :=
  l ← as_dict v;
  pairs ← mapM (λ kv, k ← value_string (unwrap kv.1); x ← value_string (unwrap kv.2); Some (k, x)) l;
  Some (foldl (λ m kv, <[kv.1 := kv.2]> m) ∅ pairs).

Definition value_bytes (v : value) : option (list u8) := value_list as_byte v.
Definition value_text (v : value) : option string :=
  match value_string v with
  | Some s => Some s
  | None => b ← value_bytes v; if utf8_valid b then Some (of_bytes b) else None
  end.
Definition setting_text (s : section) (key : string) : option string := s !! key ≫= value_text.

Definition i32_fits (z : Z) : bool := ((- 2 ^ 31 <=? z) && (z <=? 2 ^ 31 - 1))%Z.
Definition setting_i32 (s : section) (key : string) : option Z :=
  match setting as_i32 s key with
  | Some z => Some z
  | None =>
    wide ← match setting as_i64 s key with
           | Some z => Some z
           | None => Z.of_N <$> setting as_u32 s key
           end;
    if i32_fits wide then Some wide else None
  end.

(** ** Writing *)

Definition of_strings (l : list string) : value := VArray (VStr <$> l).
Definition of_bytes_value (b : list u8) : value := VArray (VByte <$> b).
Definition of_string_map (m : gmap string string) : value :=
  VDict ((λ kv, (VStr kv.1, VStr kv.2)) <$> map_to_list m).
(** A dictionary of type [a{sv}]. *)
Definition entries (s : section) : list (value * value) :=
  (λ kv, (VStr kv.1, VVariant kv.2)) <$> map_to_list s.
Definition of_section (s : section) : value := VDict (entries s).

(** [Vec<HashMap<String, OwnedValue>>::try_from]. *)
Definition to_section (l : list (value * value)) : option section :=
  pairs ← mapM (λ kv, (λ k, (k, unwrap kv.2)) <$> value_string kv.1) l;
  Some (foldl (λ m kv, <[kv.1 := kv.2]> m) ∅ pairs).
Definition to_sections (v : value) : option (list section) :=
  match v with VArray l => mapM (λ d, as_dict (unwrap d) ≫= to_section) l | _ => None end.

Definition insert_string (key text : string) (s : section) : section := <[key := VStr text]> s.
Definition insert_optional_value (key : string) (v : option value) (s : section) : section :=
  match v with Some v => <[key := v]> s | None => s end.
Definition non_empty (o : option string) : option string :=
  match o with Some t => if bool_decide (t = "") then None else Some t | None => None end.
Definition insert_optional_string (key : string) (text : option string) : section → section :=
  insert_optional_value key (VStr <$> non_empty text).
Definition insert_optional_strings (l : list (string * option string)) (s : section) : section :=
  foldl (λ s kv, insert_optional_string kv.1 kv.2 s) s l.
Definition insert_optional_values (l : list (string * option value)) (s : section) : section :=
  foldl (λ s kv, insert_optional_value kv.1 kv.2 s) s l.

(** [remove] of a list of keys. *)
Definition remove_keys (keys : list string) (s : gmap string value) : gmap string value :=
  foldl (λ s k, delete k s) s keys.

(** [settings.get(name)] and [settings.entry(name).or_default()]. *)
Definition section_of (name : string) (c : ConnectionSettings) : section := unwrap_or (c !! name) ∅.
Definition update_section (name : string) (f : section → section) (c : ConnectionSettings) :
    ConnectionSettings := <[name := f (section_of name c)]> c.

(** ** Facts *)

Lemma foldl_insert_spec {V} (l : list (string * V)) (m : gmap string V) k :
  NoDup l.*1 →
  foldl (λ m kv, <[kv.1 := kv.2]> m) m l !! k =
  match find_first (λ kv, bool_decide (kv.1 = k)) l with Some kv => Some kv.2 | None => m !! k end.
Proof.
  revert m. induction l as [|[j v] l IH]; intros m Hnd; [done|]. cbn in *.
  apply NoDup_cons in Hnd as [Hj Hnd]. rewrite IH by done. case_bool_decide as E.
  - subst. destruct (find_first _ l) as [[i w]|] eqn:Hf; [|by rewrite lookup_insert_eq].
    apply find_first_Some in Hf as (l1 & l2 & -> & Hp & _). bool_prop. cbn in Hp. subst.
    destruct Hj. rewrite fmap_app. set_solver.
  - destruct (find_first _ l); [done|]. by rewrite lookup_insert_ne.
Qed.

Lemma find_first_map {V} (m : gmap string V) k :
  (snd <$> find_first (λ kv, bool_decide (kv.1 = k)) (map_to_list m)) = m !! k.
Proof.
  destruct (find_first _ _) as [[i w]|] eqn:Hf; cbn.
  - apply find_first_Some in Hf as (l1 & l2 & Hl & Hp & _). bool_prop. cbn in Hp. subst.
    symmetry. apply elem_of_map_to_list. rewrite Hl. set_solver.
  - rewrite find_first_None in Hf. destruct (m !! k) as [w|] eqn:Hm; [|done].
    apply elem_of_map_to_list in Hm. specialize (Hf _ Hm). cbn in Hf.
    by rewrite bool_decide_true in Hf.
Qed.

Lemma foldl_insert_map {V} (m : gmap string V) :
  foldl (λ m kv, <[kv.1 := kv.2]> m) ∅ (map_to_list m) = m.
Proof.
  apply map_eq. intros k. rewrite foldl_insert_spec by apply NoDup_fst_map_to_list.
  rewrite <-(find_first_map m k). destruct (find_first _ _); [done|]. by rewrite lookup_empty.
Qed.

Lemma mapM_fmap_Some {A B} (f : A → option B) (g : B → A) (l : list B) :
  (∀ x, f (g x) = Some x) → mapM f (g <$> l) = Some l.
Proof.
  intros Hfg. induction l as [|x l IH]; [done|]. cbn. rewrite Hfg. cbn. by rewrite IH.
Qed.

Lemma value_string_map_of m : value_string_map (of_string_map m) = Some m.
Proof.
  unfold value_string_map, of_string_map. cbn.
  rewrite (mapM_fmap_Some _ (λ kv : string * string, (VStr kv.1, VStr kv.2))) by (by intros [k v]).
  cbn. f_equal. apply foldl_insert_map.
Qed.

Lemma to_section_of (s : section) : to_section (entries s) = Some s.
Proof.
  unfold to_section, entries. rewrite (mapM_fmap_Some _ (λ kv : string * value, (VStr kv.1, VVariant kv.2)))
    by (by intros [k v]). cbn. f_equal. apply foldl_insert_map.
Qed.

Lemma to_sections_of (l : list section) : to_sections (VArray (of_section <$> l)) = Some l.
Proof. cbn. apply mapM_fmap_Some. intros s. cbn. apply to_section_of. Qed.

Lemma value_list_strings l : value_list value_string (of_strings l) = Some l.
Proof. cbn. by apply mapM_fmap_Some. Qed.
Lemma value_list_bytes l : value_list as_byte (of_bytes_value l) = Some l.
Proof. cbn. by apply mapM_fmap_Some. Qed.

#[global] Arguments value_string_map : simpl never.
#[global] Arguments value_list : simpl never.
#[global] Arguments to_sections : simpl never.
#[global] Arguments insert_optional_strings : simpl never.
#[global] Arguments remove_keys : simpl never.
#[global] Arguments of_bytes_value : simpl never.
#[global] Arguments value_text : simpl never.

Lemma value_text_bytes b : utf8_valid b = true → value_text (of_bytes_value b) = Some (of_bytes b).
Proof. intros H. unfold value_text, value_bytes. rewrite value_list_bytes. cbn. by rewrite H. Qed.

(** Reading a key of an encoded section. *)
Lemma dict_find_section (s : section) k : dict_find k (entries s) = s !! k.
Proof.
  rewrite <-(find_first_map s k). unfold dict_find, entries. induction (map_to_list s) as [|[j v] l IH]; [done|].
  cbn. rewrite (bool_decide_ext (Some j = Some k) (j = k)) by naive_solver.
  by case_bool_decide.
Qed.

Lemma dict_get_section {A} (f : value → option A) k s : dict_get f k (entries s) = setting f s k.
Proof. unfold dict_get. by rewrite dict_find_section. Qed.

Lemma value_dicts_sections (l : list section) :
  value_dicts (VArray (of_section <$> l)) = Some (entries <$> l).
Proof.
  unfold value_dicts, value_list.
  assert (Hm : mapM (λ x, as_dict (unwrap x)) (of_section <$> l) = Some (entries <$> l)).
  { induction l as [|p l IH]; [done|]. cbn. by rewrite IH. }
  rewrite Hm. cbn. rewrite (proj2 (forallb_forall _ _)); [done|].
  intros d (p & -> & _)%list_elem_of_In%list_elem_of_fmap. apply forallb_forall.
  intros kv ([k w] & -> & _)%list_elem_of_In%list_elem_of_fmap. by apply bool_decide_eq_true.
Qed.

Lemma section_of_update_eq name f c : section_of name (update_section name f c) = f (section_of name c).
Proof. unfold update_section, section_of at 1. by rewrite lookup_insert_eq. Qed.
Lemma section_of_update_ne name n f c :
  n ≠ name → section_of n (update_section name f c) = section_of n c.
Proof. intros. unfold update_section, section_of at 1. by rewrite lookup_insert_ne. Qed.
Lemma update_section_ne name n f (c : ConnectionSettings) :
  n ≠ name → update_section name f c !! n = c !! n.
Proof. intros. unfold update_section. by rewrite lookup_insert_ne. Qed.

Lemma insert_optional_value_ne key k v (s : section) :
  k ≠ key → insert_optional_value key v s !! k = s !! k.
Proof. intros. destruct v; [|done]. cbn. by rewrite lookup_insert_ne. Qed.
Lemma insert_optional_strings_ne l k (s : section) :
  k ∉ l.*1 → insert_optional_strings l s !! k = s !! k.
Proof.
  revert s. induction l as [|[j v] l IH]; intros s Hk; [done|]. cbn in *.
  unfold insert_optional_strings in *. cbn. rewrite IH by set_solver.
  apply insert_optional_value_ne. set_solver.
Qed.
Lemma insert_optional_value_eq key v (s : section) :
  insert_optional_value key v s !! key = match v with Some x => Some x | None => s !! key end.
Proof. destruct v; [|done]. cbn. by rewrite lookup_insert_eq. Qed.

Lemma lookup_remove_keys ks (s : gmap string value) k :
  remove_keys ks s !! k = if bool_decide (k ∈ ks) then None else s !! k.
Proof.
  unfold remove_keys. revert s. induction ks as [|j ks IH]; intros s; [done|]. cbn. rewrite IH.
  destruct (decide (k = j)) as [->|Hne].
  - rewrite (bool_decide_true (j ∈ j :: ks)) by set_solver. rewrite lookup_delete_eq. by case_bool_decide.
  - rewrite (bool_decide_ext (k ∈ j :: ks) (k ∈ ks)) by set_solver. by rewrite lookup_delete_ne.
Qed.

Lemma remove_keys_insert_in ks (s : gmap string value) k v :
  k ∈ ks → remove_keys ks (<[k := v]> s) = remove_keys ks s.
Proof.
  intros Hk. apply map_eq. intros j. rewrite !lookup_remove_keys. case_bool_decide; [done|].
  rewrite lookup_insert_ne; [done|]. by intros ->.
Qed.

Lemma remove_keys_insert_out ks (s : gmap string value) k v :
  k ∉ ks → remove_keys ks (<[k := v]> s) = <[k := v]> (remove_keys ks s).
Proof.
  intros Hk. apply map_eq. intros j. rewrite lookup_remove_keys.
  destruct (decide (j = k)) as [->|].
  - by rewrite bool_decide_false, !lookup_insert_eq.
  - rewrite !lookup_insert_ne by done. by rewrite lookup_remove_keys.
Qed.
