(* ===== verification/Credentials.v ===== *)
(** * The secret schema of NetworkManager settings ([src/network_credentials.rs])

    Which keys of which sections hold secrets, who owns them (flags), and the
    operations that read, write, strip and merge them. VPN plugins keep secrets in a
    string map, WireGuard a preshared key per peer. Hash maps are visited in the
    order of [map_to_list]. *)
From S2P Require Import Prelude Errors Text Variant.
From Stdlib Require Import ZArith Lia Ascii.
From stdpp Require Import prelude gmap strings list pretty.

Definition AGENT_OWNED : N := 1.
Definition NOT_SAVED : N := 2.

(** ** Schema *)

Definition known_keys (section : string) : list string :=
  if bool_decide (section = "802-11-wireless-security") then
    ["psk"; "wep-key0"; "wep-key1"; "wep-key2"; "wep-key3"; "leap-password"]
  else if bool_decide (section = "802-1x") then
    ["password"; "password-raw"; "private-key-password"; "phase2-private-key-password";
     "ca-cert-password"; "client-cert-password"; "phase2-ca-cert-password";
     "phase2-client-cert-password"; "pin"]
  else if bool_decide (section = "gsm") then ["password"; "pin"]
  else if bool_decide (section ∈ ["cdma"; "ppp"; "adsl"]) then ["password"]
  else if bool_decide (section = "macsec") then ["mka-cak"]
  else if bool_decide (section = "wifi-p2p") then ["wps-pin"]
  else if bool_decide (section = "wireguard") then ["private-key"]
  else [].

Definition default_secret_key_for_setting (section : string) : string :=
  if bool_decide (section = "802-11-wireless-security") then "psk"
  else if bool_decide (section = "wifi-p2p") then "wps-pin"
  else if bool_decide (section = "wireguard") then "private-key"
  else "password".

Definition accepts_plugin_secret_names (section : string) : bool :=
  bool_decide (section ∈ ["vpn"; "wireguard"]).

Definition plugin_hint (section hint : string) : option string :=
  if bool_decide (section = "vpn") && starts_with "x-vpn-message:" hint then None
  else
    let hint := unwrap_or (Text.strip_prefix "vpn.secrets." hint) hint in
    Some (unwrap_or (rest ← Text.strip_prefix section hint; Text.strip_prefix "." rest) hint).

(** [Vec::dedup]. *)
Fixpoint dedup_adjacent (l : list string) : list string :=
  match l with
  | a :: (b :: _) as l' => if bool_decide (a = b) then dedup_adjacent l' else a :: dedup_adjacent l'
  | _ => l
  end.

Definition secret_keys_for (section : string) (hints : list string) : list string :=
  let plugin := accepts_plugin_secret_names section in
  let keys := omap (λ hint,
    hint ← (if plugin then plugin_hint section hint else Some hint); non_empty (Some hint)) hints in
  let keys := if plugin then dedup_adjacent keys else keys in
  if bool_decide (hints = []) || (negb plugin && bool_decide (keys = []))
  then keys ++ [default_secret_key_for_setting section] else keys.

Definition wireless_secret_key (settings : ConnectionSettings) (section : string)
    (hints : list string) : option string :=
  if negb (bool_decide (section = "802-11-wireless-security")) || negb (bool_decide (hints = []))
  then None
  else
    security ← settings !! section;
    if bool_decide (setting value_string security "key-mgmt" = Some "none") then
      Some ("wep-key" +:+ pretty (N.min (unwrap_or (setting as_u32 security "wep-tx-keyidx") 0%N) 3%N))
    else if bool_decide (setting value_string security "auth-alg" = Some "leap")
    then Some "leap-password" else None.

Definition requires_secrets (section : string) (data : gmap string value) : bool :=
  if bool_decide (section = "802-11-wireless-security") then
    bool_decide (setting value_string data "key-mgmt" ∈ [Some "wpa-psk"; Some "sae"; Some "none"])
    || bool_decide (setting value_string data "auth-alg" = Some "leap")
  else negb (bool_decide (known_keys section = [])) || bool_decide (section = "vpn").

Definition flags_key (key : string) : string :=
  if bool_decide (key ∈ ["wep-key0"; "wep-key1"; "wep-key2"; "wep-key3"]) then "wep-key-flags"
  else key +:+ "-flags".

Definition strip_suffix (suffix s : string) : option string :=
  (λ r, of_bytes (reverse (as_bytes r))) <$>
    Text.strip_prefix (of_bytes (reverse (as_bytes suffix))) (of_bytes (reverse (as_bytes s))).
Definition peer_key (key : string) : option string :=
  rest ← Text.strip_prefix "peers." key; strip_suffix ".preshared-key" rest.

(** ** Peers and plugin maps *)

Definition peer_dicts (s : gmap string value) : result (list (list (value * value))) Error :=
  match s !! "peers" with
  | None => Ok []
  | Some v => ok_or (value_dicts v) (plain "invalid WireGuard peers")
  end.

(** An undecodable array is the conversion error of the D-Bus library. *)
Definition peers (s : gmap string value) : result (list (gmap string value)) Error :=
  match s !! "peers" with
  | None => Ok []
  | Some v => ok_or (to_sections v) (plain "incorrect type")
  end.

Definition is_peer (public : string) (peer : gmap string value) : bool :=
  bool_decide (setting value_string peer "public-key" = Some public).

(** [unique_peer] and an update of the peer it returns. *)
Definition update_unique_peer (public : string) (f : gmap string value → gmap string value)
    (ps : list (gmap string value)) : result (list (gmap string value)) Error :=
  if bool_decide (length (List.filter (is_peer public) ps) = 1)
  then Ok ((λ p, if is_peer public p then f p else p) <$> ps)
  else Err (plain "WireGuard peer missing or ambiguous").

Definition of_peers (ps : list (gmap string value)) : value := VArray (of_section <$> ps).

Definition set_peer_value (public key : string) (v : value) (s : gmap string value) :
    result (gmap string value) Error :=
  let? ps := peers s in
  let? ps := update_unique_peer public (λ p, <[key := v]> p) ps in
  Ok (<["peers" := of_peers ps]> s).

Definition extend_vpn_map (key : string) (entries : list (string * string)) (s : gmap string value) :
    gmap string value :=
  let m := unwrap_or (s !! key ≫= value_string_map) ∅ in
  <[key := of_string_map (foldl (λ m kv, <[kv.1 := kv.2]> m) m entries)]> s.

(** ** Flags *)

(** [str::parse::<u32>]. *)
Definition digit (c : u8) : option N :=
  let n := N_of_ascii c in if ((48 <=? n) && (n <=? 57))%N then Some (n - 48)%N else None.
Fixpoint parse_digits (acc : N) (l : list u8) : option N :=
  match l with
  | [] => Some acc
  | c :: l => d ← digit c; let acc := (acc * 10 + d)%N in
              if (acc <? 2 ^ 32)%N then parse_digits acc l else None
  end.
Definition parse_u32 (s : string) : option N :=
  let l := match as_bytes s with
           | c :: l => if bool_decide (c = "+"%char) then l else c :: l
           | [] => []
           end in
  match l with [] => None | _ => parse_digits 0 l end.

Definition flag_value (key : string) (s : gmap string value) : result N Error :=
  match s !! key with
  | None => Ok 0%N
  | Some v => ok_or (as_u32 v) (plain "incorrect type")
  end.

Definition raw_flags (settings : ConnectionSettings) (section key : string) : result N Error :=
  let? values := ok_or (settings !! section) (plain "secret setting missing") in
  if bool_decide (section = "vpn") then
    let? m := ok_or (values !! "data" ≫= value_string_map) (plain "VPN secret policy missing") in
    let? text := ok_or (m !! flags_key key)
                   (plain "VPN secret policy unspecified; refusing automatic persistence") in
    ok_or (parse_u32 text) (plain "invalid digit found in string")
  else
    match (if bool_decide (section = "wireguard") then peer_key key else None) with
    | Some public =>
      let? ps := peers values in
      match List.filter (is_peer public) ps with
      | [p] => flag_value "preshared-key-flags" p
      | _ => Err (plain "WireGuard peer missing or ambiguous")
      end
    | None =>
      let? _ := ensure (bool_decide (key ∈ known_keys section)) (plain "unsupported secret schema") in
      flag_value (flags_key key) values
    end.
Definition flags (settings : ConnectionSettings) (section key : string) : result N Error :=
  let? f := raw_flags settings section key in
  let? _ := ensure (N.ldiff f 7 =? 0)%N (plain "unknown secret flags") in
  Ok f.

Definition set_system_owned (settings : ConnectionSettings) (section key : string) :
    result ConnectionSettings Error :=
  let? f := flags settings section key in
  let? _ := ensure (N.land f NOT_SAVED =? 0)%N (plain "temporary credentials must not be persisted") in
  let? _ := ensure (negb (bool_decide (section = "wifi-p2p"))) (plain "WPS credentials are temporary") in
  let f := N.ldiff f AGENT_OWNED in
  let? values := ok_or (settings !! section) (plain "secret setting missing") in
  let? values :=
    if bool_decide (section = "vpn") then Ok (extend_vpn_map "data" [(flags_key key, pretty f)] values)
    else
      match (if bool_decide (section = "wireguard") then peer_key key else None) with
      | Some public => set_peer_value public "preshared-key-flags" (VU32 f) values
      | None => Ok (<[flags_key key := VU32 f]> values)
      end in
  Ok (<[section := values]> settings).

(** ** Reading and writing a secret *)

Definition set_text (settings : ConnectionSettings) (section key text : string) :
    result ConnectionSettings Error :=
  if bool_decide (section = "vpn") then
    Ok (update_section section (extend_vpn_map "secrets" [(key, text)]) settings)
  else
    match (if bool_decide (section = "wireguard") then peer_key key else None) with
    | Some public =>
      let? values := ok_or (settings !! section) (plain "WireGuard setting missing") in
      let? values := set_peer_value public "preshared-key" (VStr text) values in
      Ok (<[section := values]> settings)
    | None =>
      let? _ := ensure (bool_decide (key ∈ known_keys section)) (plain "unsupported secret schema") in
      let v := if bool_decide (key = "password-raw") then of_bytes_value (as_bytes text) else VStr text in
      Ok (update_section section (λ s, <[key := v]> s) settings)
    end.

Definition text (settings : ConnectionSettings) (section key : string) : option string :=
  values ← settings !! section;
  if bool_decide (section = "vpn") then
    m ← values !! "secrets" ≫= value_string_map; (m : gmap string string) !! key
  else
    match (if bool_decide (section = "wireguard") then peer_key key else None) with
    | Some public =>
      match peer_dicts values with
      | Ok ds =>
        peer ← find_first (λ d, bool_decide (dict_get value_string "public-key" d = Some public)) ds;
        dict_get value_string "preshared-key" peer
      | Err _ => None
      end
    | None => setting_text values key
    end.

(** [values]: every secret with its section and key. *)
Definition section_secrets (section : string) (data : gmap string value) :
    result (list (string * string)) Error :=
  let secrets := omap (λ k, (λ t, (k, t)) <$> setting_text data k) (known_keys section) in
  if bool_decide (section = "vpn") then
    Ok (secrets ++ map_to_list (unwrap_or (data !! "secrets" ≫= value_string_map) ∅))
  else if bool_decide (section = "wireguard") then
    let? ds := peer_dicts data in
    Ok (secrets ++ omap (λ d,
      public ← dict_get value_string "public-key" d;
      psk ← dict_get value_string "preshared-key" d;
      Some ("peers." +:+ public +:+ ".preshared-key", psk)) ds)
  else Ok secrets.
Fixpoint collect_secrets (l : list (string * gmap string value)) :
    result (list (string * string * string)) Error :=
  match l with
  | [] => Ok []
  | (section, data) :: l =>
    let? secrets := section_secrets section data in
    let? rest := collect_secrets l in
    Ok (((λ kv, (section, kv.1, kv.2)) <$>
           List.filter (λ kv, negb (bool_decide (kv.2 = ""))) secrets) ++ rest)
  end.
Definition values (settings : ConnectionSettings) : result (list (string * string * string)) Error :=
  collect_secrets (map_to_list settings).

(** ** Stripping *)

Definition metadata_key (section : string) : list string :=
  if bool_decide (section = "vpn") then ["secrets"]
  else if bool_decide (section = "connection") then ["timestamp"]
  else if bool_decide (section = "802-11-wireless") then ["seen-bssids"] else [].

Definition public_section (section : string) (data : gmap string value) :
    result (gmap string value) Error :=
  let data := remove_keys (known_keys section ++ metadata_key section) data in
  if bool_decide (section = "wireguard") then
    match data !! "peers" with
    | Some v =>
      let? ps := ok_or (to_sections v) (plain "incorrect type") in
      Ok (<["peers" := of_peers (delete "preshared-key" <$> ps)]> (delete "peers" data))
    | None => Ok data
    end
  else Ok data.
Fixpoint public_sections (l : list (string * gmap string value)) (public : ConnectionSettings) :
    result ConnectionSettings Error :=
  match l with
  | [] => Ok public
  | (section, data) :: l =>
    let? data := public_section section data in
    public_sections l (<[section := data]> public)
  end.
Definition public_settings (settings : ConnectionSettings) : result ConnectionSettings Error :=
  public_sections (map_to_list settings) settings.

(** ** Merging *)

Fixpoint merge_peers (incoming target : list (gmap string value)) :
    result (list (gmap string value)) Error :=
  match incoming with
  | [] => Ok target
  | peer :: incoming =>
    match peer !! "preshared-key" with
    | None => merge_peers incoming target
    | Some secret =>
      let? public := ok_or (setting value_string peer "public-key") (plain "peer identity missing") in
      let? target := update_unique_peer public (λ p, <["preshared-key" := secret]> p) target in
      merge_peers incoming target
    end
  end.
Definition merge_peer_secrets (incoming : value) (dest : gmap string value) :
    result (gmap string value) Error :=
  let? target := peers dest in
  let? incoming := ok_or (to_sections incoming) (plain "incorrect type") in
  let? target := merge_peers incoming target in
  Ok (<["peers" := of_peers target]> dest).

Definition merge_value (section key : string) (v : value) (dest : gmap string value) :
    result (gmap string value) Error :=
  if bool_decide ((section, key) = ("vpn", "secrets")) then
    let? incoming := ok_or (value_string_map v) (plain "invalid VPN secrets") in
    Ok (extend_vpn_map "secrets" (map_to_list incoming) dest)
  else if bool_decide ((section, key) = ("wireguard", "peers")) then merge_peer_secrets v dest
  else if bool_decide (key ∈ known_keys section) then Ok (<[key := v]> dest)
  else Ok dest.

Fixpoint merge_section (section : string) (l : list (string * value)) (dest : gmap string value) :
    result (gmap string value) Error :=
  match l with
  | [] => Ok dest
  | (key, v) :: l => let? dest := merge_value section key v dest in merge_section section l dest
  end.
Fixpoint merge_sections (l : list (string * gmap string value)) (target : ConnectionSettings) :
    result ConnectionSettings Error :=
  match l with
  | [] => Ok target
  | (section, values) :: l =>
    match target !! section with
    | None => merge_sections l target
    | Some dest =>
      let? dest := merge_section section (map_to_list values) dest in
      merge_sections l (<[section := dest]> target)
    end
  end.
Definition merge_secrets (target source : ConnectionSettings) : result ConnectionSettings Error :=
  merge_sections (map_to_list source) target.

Definition section_has_secrets (section : string) (data : gmap string value) : bool :=
  existsb (λ k, bool_decide (is_Some (data !! k))) (known_keys section)
  || (bool_decide (section = "vpn")
      && match data !! "secrets" ≫= value_string_map with
         | Some m => negb (bool_decide (m = ∅))
         | None => false
         end)
  || (bool_decide (section = "wireguard")
      && match peer_dicts data with
         | Ok ds => existsb (λ d, bool_decide (is_Some (dict_find "preshared-key" d))) ds
         | Err _ => false
         end).
Definition has_secrets (settings : ConnectionSettings) : bool :=
  existsb (λ kv, section_has_secrets kv.1 kv.2) (map_to_list settings).


(** ** Flag inventory *)

Definition ends_with (suffix s : string) : bool := bool_decide (is_Some (strip_suffix suffix s)).
Definition extend_flags (l : list (string * N)) (m : gmap string N) : gmap string N :=
  foldl (λ m kv, <[kv.1 := kv.2]> m) m l.
Definition section_flags (name : string) (s : gmap string value) : list (string * N) :=
  omap (λ kv, if ends_with "-flags" kv.1 then (λ n, (name +:+ "." +:+ kv.1, n)) <$> as_u32 kv.2 else None)
    (map_to_list s).
Definition vpn_data_flags (m : gmap string string) : list (string * N) :=
  omap (λ kv, if ends_with "-flags" kv.1 then (λ n, ("vpn.data." +:+ kv.1, n)) <$> parse_u32 kv.2 else None)
    (map_to_list m).
Definition peer_flags (ds : list (list (value * value))) : list (string * N) :=
  omap (λ id, (λ n, ("wireguard.peers[" +:+ pretty id.1 +:+ "].preshared-key-flags", n))
                <$> dict_get as_u32 "preshared-key-flags" id.2)
    (imap pair ds).
Definition flag_inventory (settings : ConnectionSettings) : result (gmap string N) Error :=
  let m := extend_flags (flat_map (λ kv, section_flags kv.1 kv.2) (map_to_list settings)) ∅ in
  let data := vpn ← settings !! "vpn"; data ← vpn !! "data"; value_string_map data in
  let m := match data with
           | Some data => extend_flags (vpn_data_flags data) m
           | None => m
           end in
  match settings !! "wireguard" with
  | Some s => let? ds := peer_dicts s in Ok (extend_flags (peer_flags ds) m)
  | None => Ok m
  end.

(** ** Lemmas: stripping *)

Lemma public_sections_Ok l acc p :
  NoDup l.*1 →
  public_sections l acc = Ok p ↔
  (∀ k d, (k, d) ∈ l → ∃ d', public_section k d = Ok d' ∧ p !! k = Some d') ∧
  (∀ k, k ∉ l.*1 → p !! k = acc !! k).
Proof.
  revert acc. induction l as [|[k d] l IH]; intros acc Hnd.
  { cbn. split; [naive_solver set_solver|]. intros [_ H]. f_equal. apply map_eq. intros k.
    symmetry. apply H. set_solver. }
  cbn in *. apply NoDup_cons in Hnd as [Hk Hnd]. split.
  - intros H. unbind_all. apply IH in H as [H1 H2]; [|done]. split.
    + intros k' d' [[= -> ->]|Hin]%elem_of_cons; [|eauto]. eexists. split; [done|].
      rewrite H2 by done. by rewrite lookup_insert_eq.
    + intros k' Hk'. rewrite H2 by set_solver. rewrite lookup_insert_ne; [done|set_solver].
  - intros [H1 H2]. destruct (H1 k d) as (d' & Hd & Hp); [set_solver|]. rewrite Hd. cbn.
    apply IH; [done|]. split; [set_solver|]. intros k' Hk'. destruct (decide (k' = k)) as [->|].
    + by rewrite lookup_insert_eq.
    + rewrite lookup_insert_ne by done. apply H2. set_solver.
Qed.

(** The public snapshot, section by section. *)
Lemma public_settings_Ok (c p : ConnectionSettings) :
  public_settings c = Ok p ↔
  ∀ k, match c !! k with
       | Some d => ∃ d', public_section k d = Ok d' ∧ p !! k = Some d'
       | None => p !! k = None
       end.
Proof.
  unfold public_settings. rewrite public_sections_Ok by apply NoDup_fst_map_to_list. split.
  - intros [H1 H2] k. destruct (c !! k) as [d|] eqn:Hk.
    + apply H1. by apply elem_of_map_to_list.
    + rewrite H2; [done|]. intros ([k' d] & -> & Hin)%list_elem_of_fmap.
      apply elem_of_map_to_list in Hin. cbn in Hk. congruence.
  - intros H. split.
    + intros k d Hin%elem_of_map_to_list. specialize (H k). by rewrite Hin in H.
    + intros k Hk. specialize (H k). destruct (c !! k) eqn:E; [|done].
      destruct Hk. apply list_elem_of_fmap. exists (k, g). split; [done|]. by apply elem_of_map_to_list.
Qed.

(** ** Lemmas: merging *)

Lemma update_unique_peer_public public f ps ps' :
  (∀ p, delete "preshared-key" (f p) = delete "preshared-key" p) →
  update_unique_peer public f ps = Ok ps' →
  delete "preshared-key" <$> ps' = delete "preshared-key" <$> ps.
Proof.
  unfold update_unique_peer. intros Hf H. case_bool_decide; [|done]. simplify_eq.
  rewrite <-list_fmap_compose. apply list_fmap_ext. intros i p _. cbn. by destruct (is_peer _ _).
Qed.

Lemma merge_peers_public incoming target target' :
  merge_peers incoming target = Ok target' →
  delete "preshared-key" <$> target' = delete "preshared-key" <$> target.
Proof.
  revert target. induction incoming as [|p l IH]; intros target; cbn; [naive_solver|].
  destruct (p !! "preshared-key"); [|by apply IH]. intros H. unbind_all.
  rewrite (IH _ H). eapply update_unique_peer_public; [|done]. intros q. apply delete_insert_eq.
Qed.

Lemma merge_value_public section key v dest dest' :
  ((section, key) = ("wireguard", "peers") → is_Some (dest !! "peers")) →
  merge_value section key v dest = Ok dest' →
  public_section section dest' = public_section section dest.
Proof.
  intros Hp. unfold merge_value. case_bool_decide as E1; [|case_bool_decide as E2; [|case_bool_decide as E3]].
  - simplify_eq. intros H. unbind_all. simplify_eq. unfold public_section, extend_vpn_map.
    rewrite remove_keys_insert_in; [done|]. vm_compute. set_solver.
  - simplify_eq. destruct (Hp eq_refl) as [w Hw]. unfold merge_peer_secrets, peers. rewrite Hw.
    intros H. unbind_all. simplify_eq. unfold public_section.
    rewrite remove_keys_insert_out by (vm_compute; set_solver).
    rewrite bool_decide_true by done. rewrite lookup_insert_eq.
    rewrite lookup_remove_keys, bool_decide_false by (vm_compute; set_solver). rewrite Hw.
    unfold of_peers. rewrite to_sections_of.
    destruct (to_sections w); cbn in *; simplify_eq. rewrite delete_insert_eq.
    by erewrite merge_peers_public.
  - intros [= <-]. unfold public_section. rewrite remove_keys_insert_in; [done|]. set_solver.
  - by intros [= <-].
Qed.

Lemma merge_value_peers section key v dest dest' :
  merge_value section key v dest = Ok dest' → is_Some (dest !! "peers") → is_Some (dest' !! "peers").
Proof.
  unfold merge_value, merge_peer_secrets, extend_vpn_map. intros H Hp.
  repeat case_bool_decide; unbind_all; simplify_eq; try done; rewrite lookup_insert_is_Some'; auto.
Qed.

Lemma merge_section_public section l dest dest' :
  (section = "wireguard" → "peers" ∈ l.*1 → is_Some (dest !! "peers")) →
  merge_section section l dest = Ok dest' →
  public_section section dest' = public_section section dest.
Proof.
  revert dest. induction l as [|[k v] l IH]; intros dest Hp; cbn; [naive_solver|]. intros H. unbind_all.
  etrans; [|eapply merge_value_public; [|done]].
  - apply IH; [|done]. intros -> Hin. eapply merge_value_peers; [done|]. apply Hp; set_solver.
  - intros [= -> ->]. apply Hp; set_solver.
Qed.

Definition peers_known (target source : ConnectionSettings) : Prop :=
  ∀ dest, target !! "wireguard" = Some dest →
    is_Some (section_of "wireguard" source !! "peers") → is_Some (dest !! "peers").

Lemma merge_sections_public l target target' :
  (∀ d dest, ("wireguard", d) ∈ l → target !! "wireguard" = Some dest →
     is_Some (d !! "peers") → is_Some (dest !! "peers")) →
  NoDup l.*1 → merge_sections l target = Ok target' →
  ∀ k, match target !! k with
       | Some d => ∃ d', target' !! k = Some d' ∧ public_section k d' = public_section k d
       | None => target' !! k = None
       end.
Proof.
  revert target. induction l as [|[n s] l IH]; intros target Hp Hnd; cbn.
  { intros [= <-] k. destruct (target !! k); eauto. }
  cbn in Hnd. apply NoDup_cons in Hnd as [Hn Hnd].
  destruct (target !! n) as [dest|] eqn:Ht; 
    [|intros H k; apply IH; [|done..]; intros; eapply Hp; [by apply elem_of_cons; right|done..]].
  intros H k. unbind_all.
  match goal with HS : merge_section _ _ _ = Ok ?d |- _ => rename d into dest', HS into HS' end.
  assert (Hpub : public_section n dest' = public_section n dest).
  { eapply merge_section_public; [|done]. intros -> Hin. eapply (Hp s); [by apply elem_of_cons; left|done|].
    apply list_elem_of_fmap in Hin as ([? w] & -> & Hin%elem_of_map_to_list). by exists w. }
  assert (Hp' : ∀ d e, ("wireguard", d) ∈ l → <[n := dest']> target !! "wireguard" = Some e →
    is_Some (d !! "peers") → is_Some (e !! "peers")).
  { intros d e Hin He. destruct (decide (n = "wireguard")) as [->|].
    - destruct Hn. apply list_elem_of_fmap. by exists ("wireguard", d).
    - rewrite lookup_insert_ne in He by done. eapply Hp; [by apply elem_of_cons; right|done]. }
  specialize (IH _ Hp' Hnd H k). destruct (decide (k = n)) as [->|Hk].
  - rewrite Ht. rewrite lookup_insert_eq in IH. naive_solver congruence.
  - by rewrite lookup_insert_ne in IH by done.
Qed.

(** A WireGuard section with a list of peers keeps it. *)
Definition has_peers (c : ConnectionSettings) : Prop :=
  ∀ d, c !! "wireguard" = Some d → is_Some (d !! "peers").

Lemma has_peers_known target source : has_peers target → peers_known target source.
Proof. intros H d Hd _. by apply H. Qed.

Lemma merge_section_peers section l dest dest' :
  merge_section section l dest = Ok dest' → is_Some (dest !! "peers") → is_Some (dest' !! "peers").
Proof.
  revert dest. induction l as [|[k v] l IH]; intros dest; cbn; [naive_solver|]. intros H Hp. unbind_all.
  eapply IH; [done|]. by eapply merge_value_peers.
Qed.

Lemma merge_secrets_peers target source target' :
  merge_secrets target source = Ok target' → has_peers target → has_peers target'.
Proof.
  unfold merge_secrets. generalize (map_to_list source). intros l. revert target.
  induction l as [|[n s] l IH]; intros target; cbn; [naive_solver|]. intros H Hp.
  destruct (target !! n) as [dest|] eqn:Ht; [|by eapply IH]. unbind_all. eapply IH; [done|].
  intros d. destruct (decide (n = "wireguard")) as [->|];
    [rewrite lookup_insert_eq; intros [= <-]|rewrite lookup_insert_ne by done; apply Hp].
  eapply merge_section_peers; [done|]. by apply Hp.
Qed.

(** ** Lemmas: peers *)

Lemma omap_None_nil {A B} (f : A → option B) l : (∀ x, x ∈ l → f x = None) → omap f l = [].
Proof.
  induction l as [|a l IH]; intros H; [done|]. cbn. rewrite H by set_solver. apply IH. set_solver.
Qed.
Lemma existsb_false {A} (f : A → bool) l : (∀ x, x ∈ l → f x = false) → existsb f l = false.
Proof.
  induction l as [|a l IH]; intros H; [done|]. cbn. rewrite H by set_solver. apply IH. set_solver.
Qed.

Lemma peer_dicts_of ps s : peer_dicts (<["peers" := of_peers ps]> s) = Ok (entries <$> ps).
Proof.
  unfold peer_dicts, of_peers. by rewrite lookup_insert_eq, value_dicts_sections.
Qed.

Lemma peers_of ps s : peers (<["peers" := of_peers ps]> s) = Ok ps.
Proof. unfold peers, of_peers. rewrite lookup_insert_eq, to_sections_of. done. Qed.

Lemma update_unique_peer_Ok public f ps ps' :
  (∀ p, is_peer public (f p) = is_peer public p) →
  update_unique_peer public f ps = Ok ps' →
  ∃ p, List.filter (is_peer public) ps = [p] ∧ List.filter (is_peer public) ps' = [f p].
Proof.
  unfold update_unique_peer. intros Hf H. case_bool_decide as Hl; [|done]. simplify_eq.
  destruct (List.filter _ ps) as [|p [|]] eqn:Hp; try done. exists p. split; [done|].
  assert (Hg : List.filter (is_peer public) ((λ p, if is_peer public p then f p else p) <$> ps) =
    f <$> List.filter (is_peer public) ps); [|by rewrite Hg, Hp].
  clear Hl Hp. induction ps as [|q ps IH]; [done|]. cbn.
  destruct (is_peer public q) eqn:E; cbn; rewrite ?Hf, E; cbn; by rewrite IH.
Qed.

(** [find] on the borrowed dictionaries is the first peer of that identity. *)
Lemma find_peer public ps :
  (find_first (λ d, bool_decide (dict_get value_string "public-key" d = Some public))
     (entries <$> ps)) =
  entries <$> head (List.filter (is_peer public) ps).
Proof.
  induction ps as [|p ps IH]; [done|]. cbn.
  unfold is_peer at 1. rewrite <-dict_get_section. by case_bool_decide.
Qed.

(** ** Lemmas: a stripped section *)

Lemma public_section_lookup section d d' k :
  k ∈ known_keys section ++ metadata_key section → public_section section d = Ok d' → d' !! k = None.
Proof.
  intros Hk. unfold public_section. case_bool_decide as E.
  - subst. assert (Hp : "peers" ∉ known_keys "wireguard" ++ metadata_key "wireguard")
      by (vm_compute; set_solver).
    generalize dependent (known_keys "wireguard" ++ metadata_key "wireguard"). intros ks Hk Hp.
    rewrite lookup_remove_keys, bool_decide_false by done.
    destruct (d !! "peers"); [|intros [= E]; rewrite <-E; by rewrite lookup_remove_keys, bool_decide_true].
    intros H. unbind_all. simplify_eq. rewrite lookup_insert_ne, lookup_delete_ne, lookup_remove_keys,
      bool_decide_true; [done..|set_solver|set_solver].
  - intros [= Ed]. rewrite <-Ed. by rewrite lookup_remove_keys, bool_decide_true.
Qed.

Lemma public_section_peers d d' :
  public_section "wireguard" d = Ok d' →
  ∃ ps, peer_dicts d' = Ok (entries <$> (delete "preshared-key" <$> ps)).
Proof.
  unfold public_section. rewrite bool_decide_true by done.
  generalize (remove_keys (known_keys "wireguard" ++ metadata_key "wireguard") d). intros e.
  destruct (e !! "peers") eqn:E.
  - intros H. unbind_all. simplify_eq. eexists. apply peer_dicts_of.
  - intros H. exists []. unfold peer_dicts. injection H as <-. by rewrite E.
Qed.

Lemma stripped_peer_key {A} (f : value → option A) p :
  dict_get f "preshared-key" (entries (delete "preshared-key" p)) = None.
Proof. rewrite dict_get_section. unfold setting. by rewrite lookup_delete_eq. Qed.

Lemma public_section_no_secrets section d d' :
  public_section section d = Ok d' →
  section_has_secrets section d' = false ∧ section_secrets section d' = Ok [].
Proof.
  intros H. assert (Hk := λ k Hk, public_section_lookup section d d' k Hk H).
  assert (Ht : omap (λ k, (λ t, (k, t)) <$> setting_text d' k) (known_keys section) = []).
  { apply omap_None_nil. intros k Hin. unfold setting_text. rewrite Hk; [done|set_solver]. }
  unfold section_has_secrets, section_secrets. rewrite Ht. cbn.
  rewrite (existsb_false _ (known_keys section)); cycle 1.
  { intros k Hin. apply bool_decide_eq_false. rewrite Hk; [|set_solver]. by intros []. }
  cbn. destruct (decide (section = "vpn")) as [->|Hv]; [|destruct (decide (section = "wireguard")) as [->|Hw]].
  - rewrite bool_decide_true by done. rewrite Hk by (vm_compute; set_solver). by cbn.
  - rewrite bool_decide_false, bool_decide_true by done. cbn.
    destruct (public_section_peers _ _ H) as [ps ->]. split.
    + rewrite existsb_false; [done|]. intros x (p & -> & (q & -> & _)%list_elem_of_fmap)%list_elem_of_fmap.
      apply bool_decide_eq_false. assert (E := stripped_peer_key Some q). unfold dict_get in E.
      destruct (dict_find _ _); [done|]. by intros [].
    + f_equal. apply omap_None_nil. intros x (p & -> & (q & -> & _)%list_elem_of_fmap)%list_elem_of_fmap.
      rewrite stripped_peer_key. by destruct (dict_get _ "public-key" _).
  - by rewrite !bool_decide_false by done.
Qed.

Lemma collect_secrets_nil l :
  (∀ k d, (k, d) ∈ l → section_secrets k d = Ok []) → collect_secrets l = Ok [].
Proof.
  induction l as [|[k d] l IH]; intros H; [done|]. cbn. rewrite (H k d) by (by apply elem_of_cons; left).
  rewrite IH; [done|]. intros. apply H. by apply elem_of_cons; right.
Qed.

(** ** Theorems *)

(** A profile as in the tests of the source: Wi-Fi security, a VPN plugin and one peer. *)
Definition example_peer (psk : list (string * value)) : gmap string value :=
  list_to_map ([("public-key", VStr "peer"); ("endpoint", VStr "keep-endpoint");
                ("preshared-key-flags", VU32 1)] ++ psk).
Definition example_settings : ConnectionSettings :=
  list_to_map
    [("802-11-wireless-security", list_to_map [("wep-key-flags", VU32 1); ("psk", VStr "old")]);
     ("vpn", list_to_map [("data", of_string_map (list_to_map [("password-flags", "1"); ("otp-flags", "2")]))]);
     ("wireguard", list_to_map [("private-key", VStr "keep-private"); ("peers", of_peers [example_peer []])])].
Definition example_incoming : ConnectionSettings :=
  list_to_map
    [("vpn", list_to_map [("secrets", of_string_map (list_to_map [("password", "replacement")]))]);
     ("wireguard", list_to_map
        [("endpoint", VStr "wrong"); ("peers", of_peers [example_peer [("preshared-key", VStr "incoming")]])])].

Lemma merge_public target source target' public :
  peers_known target source →
  merge_secrets target source = Ok target' →
  public_settings target = Ok public → public_settings target' = Ok public.
Proof.
  intros Hk Hm. rewrite !public_settings_Ok. intros Hp k. specialize (Hp k).
  eapply merge_sections_public with (k := k) in Hm; [|intros d dest Hin Hd Hs|apply NoDup_fst_map_to_list].
  - destruct (target !! k) as [d|]; [|by rewrite Hm]. by destruct Hm as (d' & -> & ->).
  - eapply Hk; [done|]. unfold section_of. apply elem_of_map_to_list in Hin. by rewrite Hin.
Qed.

(** Merging the answer of [GetSecrets] changes no public setting: whatever the
    answer holds, the public snapshot of the merged profile (all sections and keys
    but credentials and observation metadata, and the peers without their
    preshared keys) is the snapshot of the profile before the merge. *)
Theorem merge_keeps_public target source target' public :
  peers_known target source →
  merge_secrets target source = Ok target' →
  public_settings target = Ok public → public_settings target' = Ok public.
Proof. apply merge_public. Qed.

Lemma merge_keeps_public_witness :
  public_settings (ok_value ∅ (merge_secrets example_settings example_incoming)) =
  public_settings example_settings.
Proof.
  transitivity (Ok (E := Error) (ok_value ∅ (public_settings example_settings))).
  - apply (merge_keeps_public example_settings example_incoming).
    + assert (H : match example_settings !! "wireguard" with
                  | Some d => bool_decide (is_Some (d !! "peers"))
                  | None => true
                  end = true) by (by vm_compute).
      intros dest Hd _. rewrite Hd in H. by apply bool_decide_eq_true in H.
    + apply is_ok_value. by vm_compute.
    + apply is_ok_value. by vm_compute.
  - symmetry. apply is_ok_value. by vm_compute.
Defined.

(** The public snapshot of a profile holds no credential: no section of it has a
    secret, a WireGuard peer of it has no preshared key, and the collection of the
    secrets of the snapshot is empty. *)
Theorem public_has_no_secrets settings public :
  public_settings settings = Ok public →
  has_secrets public = false ∧ values public = Ok [].
Proof.
  rewrite public_settings_Ok. intros Hp.
  assert (H : ∀ k d, (k, d) ∈ map_to_list public →
    section_has_secrets k d = false ∧ section_secrets k d = Ok []).
  { intros k d Hd%elem_of_map_to_list. specialize (Hp k). destruct (settings !! k) as [e|]; [|congruence].
    destruct Hp as (d' & He & Hd'). rewrite Hd' in Hd. injection Hd as ->.
    by eapply public_section_no_secrets. }
  split.
  - apply existsb_false. intros [k d] Hin. by apply H.
  - apply collect_secrets_nil. intros k d Hin. by apply H.
Qed.

Lemma public_has_no_secrets_witness :
  has_secrets example_incoming = true ∧
  has_secrets (ok_value ∅ (public_settings example_incoming)) = false.
Proof.
  split; [by vm_compute|]. apply (public_has_no_secrets example_incoming). apply is_ok_value. by vm_compute.
Defined.

Lemma set_peer_value_text public t s s' :
  set_peer_value public "preshared-key" (VStr t) s = Ok s' →
  ∃ ds peer, peer_dicts s' = Ok ds ∧
    find_first (λ d, bool_decide (dict_get value_string "public-key" d = Some public)) ds = Some peer ∧
    dict_get value_string "preshared-key" peer = Some t.
Proof.
  unfold set_peer_value. intros H. unbind_all. simplify_eq.
  match goal with H : update_unique_peer _ _ _ = Ok ?l |- _ =>
    apply update_unique_peer_Ok in H as (p & _ & Hp) end.
  - eexists _, _. split; [apply peer_dicts_of|]. rewrite find_peer, Hp. split; [done|].
    rewrite dict_get_section. unfold setting. by rewrite lookup_insert_eq.
  - intros p. unfold is_peer, setting. by rewrite lookup_insert_ne.
Qed.

Lemma set_text_reads settings section key t settings' :
  utf8_valid (as_bytes t) = true →
  set_text settings section key t = Ok settings' → text settings' section key = Some t.
Proof.
  intros Hu. unfold set_text, text. case_bool_decide as Ev.
  - intros [= <-]. unfold update_section. rewrite lookup_insert_eq. cbn. unfold extend_vpn_map.
    rewrite lookup_insert_eq. cbn. rewrite value_string_map_of. cbn. by rewrite lookup_insert_eq.
  - destruct (if bool_decide (section = "wireguard") then _ else _) as [public|].
    + intros H. unbind_all. simplify_eq. rewrite lookup_insert_eq. cbn.
      match goal with H : set_peer_value _ _ _ _ = _ |- _ =>
        apply set_peer_value_text in H as (ds & peer & Hd & Hf & Hg) end.
      rewrite Hd, Hf. cbn. by rewrite Hg.
    + intros H. unbind_all. simplify_eq. unfold update_section, setting_text. rewrite lookup_insert_eq. cbn.
      rewrite lookup_insert_eq. cbn. destruct (decide (key = "password-raw")) as [->|];
        [rewrite bool_decide_true by done|by rewrite bool_decide_false by done].
      by rewrite value_text_bytes, of_bytes_as_bytes.
Qed.

(** A secret that was written can be read back: after [set_text] of any text (a
    Rust string is valid UTF-8) under a supported section and key, be it a field of
    the section, an entry of the VPN plugin's map or the preshared key of a peer,
    [text] returns it. *)
Theorem set_text_roundtrip settings section key t settings' :
  utf8_valid (as_bytes t) = true →
  set_text settings section key t = Ok settings' → text settings' section key = Some t.
Proof. apply set_text_reads. Qed.

Lemma set_text_roundtrip_witness :
  text (ok_value ∅ (set_text example_settings "wireguard" "peers.peer.preshared-key" "synthetic"))
    "wireguard" "peers.peer.preshared-key" = Some "synthetic".
Proof.
  apply (set_text_roundtrip example_settings); [by vm_compute|]. apply is_ok_value. by vm_compute.
Defined.

(** Writing a secret touches its section only. *)
Lemma set_text_other c section key t c' n :
  set_text c section key t = Ok c' → n ≠ section → c' !! n = c !! n.
Proof.
  unfold set_text. intros H Hn. destruct (bool_decide (section = "vpn")).
  - simplify_eq. by apply update_section_ne.
  - destruct (if bool_decide (section = "wireguard") then _ else _); unbind_all; simplify_eq;
      [by rewrite lookup_insert_ne|by apply update_section_ne].
Qed.

(** ** Ownership *)

Lemma parse_flags f : (N.ldiff f 7 =? 0)%N = true → parse_u32 (pretty (N.ldiff f AGENT_OWNED)) = Some (N.ldiff f AGENT_OWNED).
Proof.
  intros H%N.eqb_eq. assert (f < 8)%N.
  { assert (E := N.lor_ldiff_and f 7). rewrite H, N.lor_0_l in E. rewrite <-E.
    change 7%N with (N.ones 3). rewrite N.land_ones. apply N.mod_lt. done. }
  assert (f = 0 ∨ f = 1 ∨ f = 2 ∨ f = 3 ∨ f = 4 ∨ f = 5 ∨ f = 6 ∨ f = 7)%N as Hf by lia.
  destruct_or!; by subst.
Qed.

Lemma ldiff_agent f : (N.ldiff f 7 =? 0)%N = true → (N.ldiff (N.ldiff f AGENT_OWNED) 7 =? 0)%N = true.
Proof.
  intros H%N.eqb_eq. apply N.eqb_eq. apply N.bits_inj. intros i.
  apply (f_equal (λ n, N.testbit n i)) in H. rewrite !N.ldiff_spec in *. rewrite N.bits_0 in *.
  destruct (N.testbit f i), (N.testbit 7 i), (N.testbit AGENT_OWNED i); done.
Qed.

Lemma raw_flags_set (settings : ConnectionSettings) section key values values' f :
  settings !! section = Some values → is_ok (raw_flags settings section key) = true →
  (if bool_decide (section = "vpn") then Ok (extend_vpn_map "data" [(flags_key key, pretty f)] values)
   else match (if bool_decide (section = "wireguard") then peer_key key else None) with
        | Some public => set_peer_value public "preshared-key-flags" (VU32 f) values
        | None => Ok (<[flags_key key := VU32 f]> values)
        end) = Ok values' →
  parse_u32 (pretty f) = Some f →
  raw_flags (<[section := values']> settings) section key = Ok f.
Proof.
  intros Hs Hok Hv Hf. unfold raw_flags in *. rewrite Hs in Hok. rewrite lookup_insert_eq. cbn in *.
  destruct (decide (section = "vpn")) as [->|Hn]; [rewrite bool_decide_true in * by done|
    rewrite (bool_decide_false _ Hn) in *].
  - injection Hv as <-. unfold extend_vpn_map. rewrite lookup_insert_eq. cbn.
    rewrite value_string_map_of. cbn. rewrite lookup_insert_eq. cbn. by rewrite Hf.
  - destruct (if bool_decide (section = "wireguard") then _ else _) as [public|].
    + unfold set_peer_value in Hv. unbind_all. simplify_eq. rewrite peers_of.
      match goal with H : update_unique_peer _ _ _ = Ok _ |- _ =>
        apply update_unique_peer_Ok in H as (p & _ & ->) end.
      * unfold flag_value. by rewrite lookup_insert_eq.
      * intros p. unfold is_peer, setting. by rewrite lookup_insert_ne.
    + injection Hv as <-. destruct (ensure _ _); [|done]. unfold flag_value. by rewrite lookup_insert_eq.
Qed.

(** Taking ownership of a secret clears exactly the agent-owned flag: when
    [set_system_owned] succeeds the flags read afterwards are the flags before
    without that bit, and a secret whose flags say it must not be saved is refused,
    whatever its section. *)
Theorem set_system_owned_exact settings section key f :
  flags settings section key = Ok f →
  (N.testbit f 1 = true → is_ok (set_system_owned settings section key) = false) ∧
  (∀ settings', set_system_owned settings section key = Ok settings' →
     flags settings' section key = Ok (N.ldiff f AGENT_OWNED)).
Proof.
  intros Hf. unfold set_system_owned. rewrite Hf. split.
  - intros H1. destruct (N.land f NOT_SAVED =? 0)%N eqn:E; [|done]. apply N.eqb_eq in E.
    apply (f_equal (λ n, N.testbit n 1)) in E. rewrite N.land_spec, H1 in E. done.
  - intros settings' H. unfold flags in Hf. unbind_all.
    match goal with H : Ok _ = Ok settings' |- _ => injection H as <- end. simplify_eq.
    match goal with H : (N.ldiff f 7 =? 0)%N = true |- _ => rename H into H7 end.
    unfold flags. erewrite raw_flags_set; [|done| |done|by apply parse_flags].
    + by rewrite ldiff_agent.
    + match goal with H : raw_flags _ _ _ = Ok _ |- _ => by rewrite H end.
Qed.

Lemma set_system_owned_exact_witness :
  flags (ok_value ∅ (set_system_owned example_settings "vpn" "password")) "vpn" "password" = Ok 0%N.
Proof.
  apply (set_system_owned_exact example_settings "vpn" "password" 1); [by vm_compute|].
  apply is_ok_value. by vm_compute.
Defined.
