(* ===== verification/IpSettings.v ===== *)
(** * IP settings of a profile ([src/nm/ip_settings.rs], [src/nm/settings.rs])

    Writing the requested addresses, DNS servers and routes into the [ipv4] and [ipv6]
    sections of a profile, reading them back for the profile editor, and the validation
    of an update. The grammar of addresses is the one of [std::net::IpAddr::from_str]. *)
From S2P Require Import Prelude Errors Text Identity Wifi Network Variant.
From Stdlib Require Import ZArith Lia Ascii.
From stdpp Require Import prelude gmap strings list pretty.

(** ** [std::net::IpAddr::from_str]

    A parser takes the rest of the input and returns what is left. *)
Module IpAddr.

Definition parser (A : Type) := list u8 → option (A * list u8).

Definition read_given_char (c : u8) : parser unit := λ l,
  match l with a :: l => if bool_decide (a = c) then Some (tt, l) else None | [] => None end.

(** [char::to_digit]. *)
Definition to_digit (radix : N) (c : u8) : option N :=
  let n := N_of_ascii c in
  let d := if ((48 <=? n) && (n <=? 57))%N then Some (n - 48)%N
           else if ((97 <=? n) && (n <=? 122))%N then Some (n - 87)%N
           else if ((65 <=? n) && (n <=? 90))%N then Some (n - 55)%N else None in
  match d with Some d => if (d <? radix)%N then Some d else None | None => None end.

Fixpoint read_digits (radix : N) (l : list u8) : list N * list u8 :=
  match l with
  | [] => ([], [])
  | c :: l' => match to_digit radix c with
               | Some d => let '(ds, rest) := read_digits radix l' in (d :: ds, rest)
               | None => ([], l)
               end
  end.

(** [read_number] with [max_digits]; the result must be below [limit] ([try_into]). *)
Definition read_number (radix : N) (max_digits : nat) (allow_zero_prefix : bool) (limit : N) : parser N :=
  λ l,
  let '(ds, rest) := read_digits radix l in
  let result := foldl (λ acc d, acc * radix + d)%N 0%N ds in
  if bool_decide (max_digits < length ds) then None
  else if negb (result <? limit)%N then None
  else if bool_decide (ds = []) then None
  else if negb allow_zero_prefix && bool_decide (head l = Some "0"%char) && bool_decide (1 < length ds)
  then None else Some (result, rest).

Definition read_separator {A} (sep : u8) (index : nat) (inner : parser A) : parser A := λ l,
  match index with
  | O => inner l
  | S _ => match read_given_char sep l with Some (_, l) => inner l | None => None end
  end.

Fixpoint read_octets (n i : nat) : parser (list N) := λ l,
  match n with
  | O => Some ([], l)
  | S n => match read_separator "."%char i (read_number 10 3 false 256) l with
           | Some (o, l) => match read_octets n (S i) l with
                            | Some (os, l) => Some (o :: os, l)
                            | None => None
                            end
           | None => None
           end
  end.
Definition read_ipv4_addr : parser (list N) := read_octets 4 0.

(** [read_groups]: the groups read (an embedded IPv4 address is two), whether the last
    were an IPv4 address, and the rest. *)
Fixpoint read_groups (left i : nat) (l : list u8) : list N * bool * list u8 :=
  match left with
  | O => ([], false, l)
  | S left' =>
    let ipv4 := if bool_decide (0 < left') then read_separator ":"%char i read_ipv4_addr l else None in
    match ipv4 with
    | Some ([a; b; c; d], l) => ([a * 256 + b; c * 256 + d]%N, true, l)
    | _ =>
      match read_separator ":"%char i (read_number 16 4 true 65536) l with
      | Some (g, l) => let '(gs, v4, l) := read_groups left' (S i) l in (g :: gs, v4, l)
      | None => ([], false, l)
      end
    end
  end.

Definition read_ipv6_addr : parser (list N) := λ l,
  let '(head, head_ipv4, l) := read_groups 8 0 l in
  if bool_decide (length head = 8) then Some (head, l)
  else if head_ipv4 then None
  else
    match read_given_char ":"%char l with
    | Some (_, l) =>
      match read_given_char ":"%char l with
      | Some (_, l) =>
        let '(tail, _, l) := read_groups (8 - (length head + 1)) 0 l in
        Some (head ++ replicate (8 - length head - length tail) 0%N ++ tail, l)
      | None => None
      end
    | None => None
    end.

Inductive t := V4 (octets : list N) | V6 (segments : list N).
Definition is_ipv6 (a : t) : bool := match a with V6 _ => true | V4 _ => false end.

(** [read_ip_addr] over the whole input. *)
Definition parse (s : string) : option t :=
  let result := match read_ipv4_addr (as_bytes s) with
                | Some (a, l) => Some (V4 a, l)
                | None => match read_ipv6_addr (as_bytes s) with
                          | Some (a, l) => Some (V6 a, l)
                          | None => None
                          end
                end in
  match result with Some (a, []) => Some a | _ => None end.
End IpAddr.

(** ** Writing *)

Definition REPLACED_KEYS : list string :=
  ["address-data"; "addresses"; "gateway"; "dns-data"; "dns"; "route-data"; "route-metric";
   "ignore-auto-dns"; "dns-search"].

Definition write_data {A} (key : string) (entries : list A) (encode : list A → value)
    (s : gmap string value) : gmap string value :=
  if bool_decide (length entries = 0) then s else <[key := encode entries]> s.

Definition address_entry (a : TargetIpAddress) : gmap string value :=
  list_to_map [("address", VStr (ta_address a)); ("prefix", VU32 (ta_prefix a))].
Definition address_data (addresses : list TargetIpAddress) : value :=
  VArray (of_section ∘ address_entry <$> addresses).

Definition route_entry (r : TargetIpRoute) : gmap string value :=
  insert_optional_value "table" (VU32 <$> tr_table r)
    (insert_optional_value "metric" (VU32 <$> tr_metric r)
       (insert_optional_string "next-hop" (tr_next_hop r)
          (list_to_map [("dest", VStr (tr_dest r)); ("prefix", VU32 (tr_prefix r))]))).
Definition route_data (routes : list TargetIpRoute) : value :=
  VArray (of_section ∘ route_entry <$> routes).

Definition write_values (update : TargetIpSettings) (replacing : bool) (s : gmap string value) :
    gmap string value :=
  let s := write_data "address-data" (ti_addresses update) address_data s in
  let s := insert_optional_string "gateway" (ti_gateway update) s in
  let s := write_data "dns-data" (ti_dns update) of_strings s in
  let s := write_data "route-data" (ti_routes update) route_data s in
  let s := insert_optional_value "route-metric" (VI64 <$> ti_route_metric update) s in
  let s := insert_optional_value "ignore-auto-dns"
             (VBool <$> (if replacing then Some (unwrap_or (ti_ignore_auto_dns update) false)
                         else ti_ignore_auto_dns update)) s in
  write_data "dns-search" (ti_dns_search update) of_strings s.

Definition overlay (section : string) (update : TargetIpSettings) : ConnectionSettings → ConnectionSettings :=
  update_section section (λ s,
    let method := match non_empty (ti_method update) with
                  | Some m => Some m
                  | None => if bool_decide (length (ti_addresses update) = 0) then None else Some "manual"
                  end in
    write_values update false (insert_optional_value "method" (VStr <$> method) s)).

Definition replace (section : string) (update : TargetIpSettings) : ConnectionSettings → ConnectionSettings :=
  update_section section (λ s,
    write_values update true
      (<["method" := VStr (unwrap_or (ti_method update) "auto")]> (remove_keys REPLACED_KEYS s))).

(** [entry(key).or_insert(value)]. *)
Definition or_insert (key : string) (v : value) (s : gmap string value) : gmap string value :=
  match s !! key with Some _ => s | None => <[key := v]> s end.

Definition set_send_hostname (section : string) (enabled : bool) :
    ConnectionSettings → ConnectionSettings :=
  update_section section (λ s,
    <["dhcp-send-hostname" := VBool enabled]> (or_insert "method" (VStr "auto") s)).

(** ** Reading *)

Record ProfileIpSettings := {
  pi_method : string;
  pi_addresses : list TargetIpAddress;
  pi_gateway : option string;
  pi_dns : list string;
  pi_routes : list TargetIpRoute;
  pi_ignore_auto_dns : bool;
  pi_ignore_auto_routes : bool;
  pi_never_default : bool;
  pi_may_fail : bool;
  pi_dns_search : list string;
  pi_route_metric : option Z;
  pi_dhcp_hostname : option string;
  pi_dhcp_client_id : option string;
  pi_dad_timeout : option Z;
  pi_ip6_privacy : option Z;
}.

Definition address_of (d : list (value * value)) : option TargetIpAddress :=
  address ← dict_get value_text "address" d;
  prefix ← dict_get as_u32 "prefix" d;
  Some {| ta_address := address; ta_prefix := prefix |}.
Definition setting_address_data (v : value) : option (list TargetIpAddress) :=
  (λ ds : list (list (value * value)), omap address_of ds) <$> value_dicts v.

Definition route_of (d : list (value * value)) : option TargetIpRoute :=
  dest ← dict_get value_text "dest" d;
  prefix ← dict_get as_u32 "prefix" d;
  Some {| tr_dest := dest; tr_prefix := prefix;
          tr_next_hop := non_empty (dict_get value_text "next-hop" d);
          tr_metric := dict_get as_u32 "metric" d;
          tr_table := dict_get as_u32 "table" d |}.
Definition setting_route_data (v : value) : option (list TargetIpRoute) :=
  (λ ds : list (list (value * value)), omap route_of ds) <$> value_dicts v.

Definition setting_i64 (v : value) : option Z :=
  match as_i64 v with Some z => Some z | None => Z.of_N <$> as_u32 v end.

Definition profile_ip_settings (settings : ConnectionSettings) (section : string) : ProfileIpSettings :=
  let values := section_of section settings in
  let text key := non_empty (setting_text values key) in
  let family_i32 family key := if bool_decide (section = family) then setting_i32 values key else None in
  {| pi_method := unwrap_or (setting_text values "method") "auto";
     pi_addresses := unwrap_or (values !! "address-data" ≫= setting_address_data) [];
     pi_gateway := text "gateway";
     pi_dns := setting_strings values "dns-data";
     pi_routes := unwrap_or (values !! "route-data" ≫= setting_route_data) [];
     pi_ignore_auto_dns := unwrap_or (setting as_bool values "ignore-auto-dns") false;
     pi_ignore_auto_routes := unwrap_or (setting as_bool values "ignore-auto-routes") false;
     pi_never_default := unwrap_or (setting as_bool values "never-default") false;
     pi_may_fail := unwrap_or (setting as_bool values "may-fail") true;
     pi_dns_search := setting_strings values "dns-search";
     pi_route_metric := values !! "route-metric" ≫= setting_i64;
     pi_dhcp_hostname := text "dhcp-hostname";
     pi_dhcp_client_id := if bool_decide (section = "ipv4") then text "dhcp-client-id" else None;
     pi_dad_timeout := family_i32 "ipv4" "dad-timeout";
     pi_ip6_privacy := family_i32 "ipv6" "ip6-privacy" |}.

(** ** Validation of an update *)

Definition invalid_field (field message : string) : DomainError :=
  with_detail "field" (JStr field) (validation Op.ProfileOperation message).

Definition validate_ip_method (section : string) (s : TargetIpSettings) : result unit Error :=
  let method := unwrap_or (ti_method s) "auto" in
  let? _ := ensure (bool_decide (method ∈ ["auto"; "manual"; "disabled"]))
              (EDomain (invalid_field (section +:+ ".method")
                 (section +:+ " method must be auto, manual, or disabled"))) in
  ensure (negb (bool_decide (method = "manual") && bool_decide (length (ti_addresses s) = 0)))
    (EDomain (invalid_field (section +:+ ".addresses")
       (section +:+ " manual configuration requires an address"))).

Definition validate_ip_value (section field value : string) (ipv6 : bool) : result unit Error :=
  match IpAddr.parse value with
  | None =>
    Err (EDomain (with_cause (plain "invalid IP address syntax")
      (invalid_field (section +:+ "." +:+ field)
         ("invalid " +:+ section +:+ " " +:+ field +:+ ": " +:+ value))))
  | Some parsed =>
    ensure (bool_decide (IpAddr.is_ipv6 parsed = ipv6))
      (EDomain (invalid_field (section +:+ "." +:+ field)
         (section +:+ " " +:+ field +:+ " has the wrong address family")))
  end.

Definition validate_ip_address (section : string) (ipv6 : bool) (a : TargetIpAddress) : result unit Error :=
  let? _ := validate_ip_value section "address" (ta_address a) ipv6 in
  let max_prefix : N := if ipv6 then 128%N else 32%N in
  ensure (ta_prefix a <=? max_prefix)%N
    (EDomain (invalid_field (section +:+ ".prefix")
       (section +:+ " prefix must be between 0 and " +:+ pretty max_prefix))).

(** [Iterator::try_for_each]. *)
Fixpoint try_for_each {A} (f : A → result unit Error) (l : list A) : result unit Error :=
  match l with
  | [] => Ok tt
  | a :: l => let? _ := f a in try_for_each f l
  end.

Definition validate_ip_settings (section : string) (s : TargetIpSettings) (ipv6 : bool) : result unit Error :=
  let? _ := validate_ip_method section s in
  let? _ := try_for_each (validate_ip_address section ipv6) (ti_addresses s) in
  let? _ := match non_empty (ti_gateway s) with
            | Some gateway => validate_ip_value section "gateway" gateway ipv6
            | None => Ok tt
            end in
  try_for_each (λ dns, validate_ip_value section "dns" dns ipv6) (ti_dns s).

(** ** Lemmas *)

Lemma write_data_eq {A} key (l : list A) enc (s : gmap string value) :
  write_data key l enc s !! key = match l with [] => s !! key | _ => Some (enc l) end.
Proof. unfold write_data. destruct l; [done|]. rewrite bool_decide_false by done. apply lookup_insert_eq. Qed.
Lemma write_data_ne {A} key k (l : list A) enc (s : gmap string value) :
  k ≠ key → write_data key l enc s !! k = s !! k.
Proof. intros. unfold write_data. case_bool_decide; [done|]. by rewrite lookup_insert_ne. Qed.

(** Look a literal key up in what was written. *)
Ltac read_written :=
  unfold write_values, insert_optional_string;
  repeat first
    [ rewrite write_data_ne by done
    | rewrite insert_optional_value_ne by done
    | rewrite lookup_insert_ne by done ];
  rewrite ?write_data_eq, ?insert_optional_value_eq, ?lookup_insert_eq;
  repeat first
    [ rewrite write_data_ne by done
    | rewrite insert_optional_value_ne by done
    | rewrite lookup_insert_ne by done ].

Lemma omap_fmap_Some {A B C} (f : B → option C) (g : A → B) (h : A → C) (l : list A) :
  (∀ x, f (g x) = Some (h x)) → omap f (g <$> l) = h <$> l.
Proof. intros H. induction l as [|a l IH]; [done|]. cbn. by rewrite H, <-IH. Qed.

Lemma dict_address a : address_of (entries (address_entry a)) = Some a.
Proof. unfold address_of. rewrite !dict_get_section. by destruct a. Qed.

Definition normal_route (r : TargetIpRoute) : TargetIpRoute :=
  {| tr_dest := tr_dest r; tr_prefix := tr_prefix r; tr_next_hop := non_empty (tr_next_hop r);
     tr_metric := tr_metric r; tr_table := tr_table r |}.

Lemma non_empty_idem o : non_empty (non_empty o) = non_empty o.
Proof. unfold non_empty. destruct o; [|done]. by repeat case_bool_decide. Qed.

Lemma dict_route r : route_of (entries (route_entry r)) = Some (normal_route r).
Proof.
  unfold route_of. rewrite !dict_get_section. unfold setting, route_entry, insert_optional_string.
  repeat (rewrite ?insert_optional_value_eq; rewrite ?insert_optional_value_ne by done).
  unfold normal_route. destruct r as [d p n mt tb]. cbn.
  destruct mt, tb; cbn; (destruct (non_empty n) as [h|] eqn:E; cbn; [|done]);
    by assert (H := non_empty_idem n); rewrite E in H; cbn in H; rewrite <-H.
Qed.

Lemma setting_address_data_of l : setting_address_data (address_data l) = Some l.
Proof.
  unfold setting_address_data, address_data. rewrite list_fmap_compose, value_dicts_sections.
  cbn. f_equal. rewrite <-list_fmap_compose.
  etrans; [apply (omap_fmap_Some _ (λ a, entries (address_entry a)) id), dict_address|apply list_fmap_id].
Qed.
Lemma setting_route_data_of l : setting_route_data (route_data l) = Some (normal_route <$> l).
Proof.
  unfold setting_route_data, route_data. rewrite list_fmap_compose, value_dicts_sections.
  cbn. f_equal. rewrite <-list_fmap_compose. apply (omap_fmap_Some _ (λ r, entries (route_entry r)) _), dict_route.
Qed.

(** What the profile editor shows after an update of the section. *)
Definition edited (u : TargetIpSettings) (old : ProfileIpSettings) : ProfileIpSettings := {|
  pi_method := unwrap_or (ti_method u) "auto";
  pi_addresses := ti_addresses u;
  pi_gateway := non_empty (ti_gateway u);
  pi_dns := ti_dns u;
  pi_routes := normal_route <$> ti_routes u;
  pi_ignore_auto_dns := unwrap_or (ti_ignore_auto_dns u) false;
  pi_ignore_auto_routes := pi_ignore_auto_routes old;
  pi_never_default := pi_never_default old;
  pi_may_fail := pi_may_fail old;
  pi_dns_search := ti_dns_search u;
  pi_route_metric := ti_route_metric u;
  pi_dhcp_hostname := pi_dhcp_hostname old;
  pi_dhcp_client_id := pi_dhcp_client_id old;
  pi_dad_timeout := pi_dad_timeout old;
  pi_ip6_privacy := pi_ip6_privacy old |}.

(** Keys an update of the section leaves alone. *)
Lemma write_values_other u r k s :
  k ∉ REPLACED_KEYS → write_values u r s !! k = s !! k.
Proof.
  intros Hk. unfold write_values, insert_optional_string.
  assert (∀ j, j ∈ REPLACED_KEYS → k ≠ j) as Hne by (intros j Hj ->; done).
  repeat first [ rewrite write_data_ne by (apply Hne; vm_compute; set_solver)
               | rewrite insert_optional_value_ne by (apply Hne; vm_compute; set_solver) ].
  done.
Qed.

(** A key of the section after [replace]. *)
Lemma replaced_other u k s :
  k ∉ REPLACED_KEYS → k ≠ "method" →
  write_values u true (<["method" := VStr (unwrap_or (ti_method u) "auto")]> (remove_keys REPLACED_KEYS s)) !! k
  = s !! k.
Proof.
  intros Hk Hm. rewrite write_values_other by done. rewrite lookup_insert_ne by done.
  by rewrite lookup_remove_keys, bool_decide_false.
Qed.

Lemma removed_key k s : k ∈ REPLACED_KEYS → remove_keys REPLACED_KEYS s !! k = None.
Proof. intros Hk. by rewrite lookup_remove_keys, bool_decide_true. Qed.

Lemma replace_reads settings section update :
  profile_ip_settings (replace section update settings) section =
    edited update (profile_ip_settings settings section) ∧
  ∀ other, other ≠ section → replace section update settings !! other = settings !! other.
Proof.
  split; [|intros other Ho; by apply update_section_ne].
  unfold profile_ip_settings, replace. rewrite section_of_update_eq.
  generalize (section_of section settings). intros s.
  unfold edited, setting_text, setting_strings, setting_i32, setting. cbn [pi_ignore_auto_routes
    pi_never_default pi_may_fail pi_dhcp_hostname pi_dhcp_client_id pi_dad_timeout pi_ip6_privacy].
  rewrite !(replaced_other update "ignore-auto-routes"), !(replaced_other update "never-default"),
    !(replaced_other update "may-fail"), !(replaced_other update "dhcp-hostname"),
    !(replaced_other update "dhcp-client-id"), !(replaced_other update "dad-timeout"),
    !(replaced_other update "ip6-privacy") by (vm_compute; set_solver).
  f_equal; read_written; rewrite ?removed_key by (vm_compute; set_solver).
  - done.
  - destruct (ti_addresses update); [done|]. cbn [mbind option_bind]; by rewrite setting_address_data_of.
  - destruct (ti_gateway update) as [g|]; [|done]. cbn. destruct (decide (g = EmptyString)) as [->|]; [done|].
    cbn. rewrite !bool_decide_false by done. change (non_empty (Some g) = Some g). cbn. by rewrite bool_decide_false by done.
  - destruct (ti_dns update); [done|]. cbn [mbind option_bind]; by rewrite value_list_strings.
  - destruct (ti_routes update); [done|]. cbn [mbind option_bind]; by rewrite setting_route_data_of.
  - done.
  - destruct (ti_dns_search update); [done|]. cbn [mbind option_bind]; by rewrite value_list_strings.
  - by destruct (ti_route_metric update).
Qed.

(** ** Theorems *)

(** Editing the IP settings of a profile is exact: what the profile editor reads
    after [replace] is the update (empty gateways and next hops are absent ones, the
    method and the DNS policy have their defaults), every setting the update does not
    carry is as before, and no other section changes. *)
Theorem replace_roundtrip settings section update :
  profile_ip_settings (replace section update settings) section =
    edited update (profile_ip_settings settings section) ∧
  ∀ other, other ≠ section → replace section update settings !! other = settings !! other.
Proof. apply replace_reads. Qed.

(** An address of the family. *)
Definition in_family (ipv6 : bool) (text : string) : Prop :=
  ∃ a, IpAddr.parse text = Some a ∧ IpAddr.is_ipv6 a = ipv6.

Definition valid_ip_update (ipv6 : bool) (u : TargetIpSettings) : Prop :=
  unwrap_or (ti_method u) "auto" ∈ ["auto"; "manual"; "disabled"] ∧
  (ti_method u = Some "manual" → ti_addresses u ≠ []) ∧
  Forall (λ a, in_family ipv6 (ta_address a) ∧ (ta_prefix a ≤ if ipv6 then 128 else 32)%N) (ti_addresses u) ∧
  (∀ g, non_empty (ti_gateway u) = Some g → in_family ipv6 g) ∧
  Forall (in_family ipv6) (ti_dns u).

(** A validation error of the profile operation that names a field of the section. *)
Definition field_error (section : string) (e : Error) : Prop :=
  ∃ d field, e = EDomain d ∧ code d = Code.ValidationError ∧ operation d = Op.ProfileOperation ∧
    details d = [("field", JStr (section +:+ "." +:+ field))].

(** A check that accepts exactly [P] and fails with a field error. *)
Definition checks (section : string) (r : result unit Error) (P : Prop) : Prop :=
  (r = Ok tt ↔ P) ∧ ∀ e, r = Err e → field_error section e.

#[export] Instance checks_proper section r : Proper (iff ==> iff) (checks section r).
Proof. intros P Q HPQ. unfold checks. by rewrite HPQ. Qed.
Lemma checks_iff section r P Q : (P ↔ Q) → checks section r P → checks section r Q.
Proof. by intros ->. Qed.

Lemma checks_ensure section b P field m :
  (b = true ↔ P) →
  checks section (ensure b (EDomain (invalid_field (section +:+ "." +:+ field) m))) P.
Proof.
  intros HP. split.
  - rewrite <-HP. by destruct b.
  - intros e. destruct b; [done|]. intros [= <-]. by eexists _, field.
Qed.

Lemma checks_and section r s P Q :
  checks section r P → checks section s Q →
  checks section (let? _ := r in s) (P ∧ Q).
Proof.
  intros [HP He] [HQ Hf]. destruct r as [[]|e] eqn:E; split.
  - split; [intros H%HQ; split; [by apply HP|done]|by intros [_ H%HQ]].
  - done.
  - split; [done|]. intros [H%HP _]. done.
  - intros e' [= <-]. by apply He.
Qed.

Lemma checks_each {A} section (f : A → result unit Error) P l :
  (∀ a, checks section (f a) (P a)) → checks section (try_for_each f l) (Forall P l).
Proof.
  intros Hf. induction l as [|a l IH]; [by split|]. cbn. rewrite Forall_cons. by apply checks_and.
Qed.

Lemma checks_ip_value section field text ipv6 :
  checks section (validate_ip_value section field text ipv6) (in_family ipv6 text).
Proof.
  unfold validate_ip_value, in_family. destruct (IpAddr.parse text) as [a|].
  - apply checks_ensure. rewrite bool_decide_eq_true. naive_solver.
  - split; [naive_solver|]. intros e [= <-]. by eexists _, field.
Qed.

Lemma checks_ip_address section ipv6 a :
  checks section (validate_ip_address section ipv6 a)
    (in_family ipv6 (ta_address a) ∧ (ta_prefix a ≤ if ipv6 then 128 else 32)%N).
Proof.
  apply checks_and; [apply checks_ip_value|]. apply (checks_ensure _ _ _ "prefix").
  destruct ipv6; apply N.leb_le.
Qed.

Lemma checks_ip_method section u :
  checks section (validate_ip_method section u)
    (unwrap_or (ti_method u) "auto" ∈ ["auto"; "manual"; "disabled"] ∧
     (ti_method u = Some "manual" → ti_addresses u ≠ [])).
Proof.
  apply checks_and; [apply (checks_ensure _ _ _ "method"), bool_decide_eq_true|].
  apply (checks_ensure _ _ _ "addresses"). rewrite negb_true_iff, andb_false_iff, !bool_decide_eq_false.
  rewrite <-length_zero_iff_nil. destruct (ti_method u) as [m|]; cbn.
  - split; [intros [H|H] E; naive_solver|]. intros H. destruct (decide (m = "manual")); naive_solver.
  - split; [done|]. intros _. by left.
Qed.

(** C30. Validating the IP settings of an update is exact: it accepts precisely the
    updates with a known method (manual only with an address), whose addresses, gateway
    and DNS servers parse in the section's address family with prefixes in range; every
    refusal is a validation error of the profile operation naming a field of the
    section. *)
Theorem validate_ip_settings_exact section update ipv6 :
  (validate_ip_settings section update ipv6 = Ok tt ↔ valid_ip_update ipv6 update) ∧
  ∀ e, validate_ip_settings section update ipv6 = Err e → field_error section e.
Proof.
  change (checks section (validate_ip_settings section update ipv6) (valid_ip_update ipv6 update)).
  unfold valid_ip_update.
  assert (Hg : checks section
    match non_empty (ti_gateway update) with
    | Some gateway => validate_ip_value section "gateway" gateway ipv6
    | None => Ok tt
    end (∀ g, non_empty (ti_gateway update) = Some g → in_family ipv6 g)).
  { destruct (non_empty (ti_gateway update)) as [g|]; [|by split].
    eapply checks_iff; [|apply checks_ip_value]. naive_solver. }
  eapply checks_iff; [|apply checks_and; [apply checks_ip_method|apply checks_and;
    [apply checks_each, checks_ip_address|apply checks_and; [exact Hg|apply checks_each]]];
    intros a; apply checks_ip_value].
  tauto.
Qed.

Definition example_update : TargetIpSettings := {|
  ti_method := Some "manual";
  ti_addresses := [{| ta_address := "192.168.1.10"; ta_prefix := 24 |}];
  ti_gateway := Some "192.168.1.1"; ti_dns := ["1.1.1.1"];
  ti_routes := [{| tr_dest := "10.0.0.0"; tr_prefix := 8; tr_next_hop := Some ""; tr_metric := Some 5%N;
                   tr_table := None |}];
  ti_route_metric := Some (-1)%Z; ti_ignore_auto_dns := None; ti_dns_search := ["lan"] |}.

Lemma validate_ip_settings_exact_witness :
  field_error "ipv6" (EDomain (invalid_field "ipv6.address" "ipv6 address has the wrong address family")).
Proof. apply (proj2 (validate_ip_settings_exact "ipv6" example_update true)). by vm_compute. Defined.

Lemma replace_roundtrip_witness :
  pi_gateway (profile_ip_settings (replace "ipv4" example_update ∅) "ipv4") = Some "192.168.1.1" ∧
  replace "ipv4" example_update ∅ !! "ipv6" = None.
Proof.
  destruct (replace_roundtrip ∅ "ipv4" example_update) as [-> H]. split; [by vm_compute|].
  rewrite H by done. by vm_compute.
Defined.
