(* ===== verification/WifiSettings.v ===== *)
(** * Settings of new Wi-Fi connections ([src/nm/wifi_settings.rs] and its
    [profile.rs], [src/nm/profile_policy.rs])

    The settings the daemon hands to NetworkManager when it activates a network: the
    security sections for a visible access point, for a hidden network and for a saved
    profile, the 802.1X section, the overlay of the requested profile settings and the
    restrictions on private profiles. The environment of the process is an argument. *)
From S2P Require Import Prelude Errors Text Identity Wifi Network Variant Credentials IpSettings.
From Stdlib Require Import ZArith Lia Ascii.
From stdpp Require Import prelude gmap strings list pretty.

Abbreviation SECURITY := "802-11-wireless-security" (only parsing).
Abbreviation WIRELESS := "802-11-wireless" (only parsing).
Abbreviation ENTERPRISE := "802-1x" (only parsing).

(** ** Profile policy *)
Module Policy.

Definition validate_peaplabel (v : option string) (o : ErrorOperation) : result unit Error :=
  ensure (bool_decide (v ∈ [None; Some ""; Some "0"; Some "1"]))
    (EDomain (with_detail "field" (JStr "802-1x.phase1-peaplabel")
       (validation o "phase1_peaplabel must be empty, 0, or 1"))).

Definition has_nul (s : string) : bool := existsb (is_byte (byte 0)) (as_bytes s).

Definition set_certificate_reference (key : string) (v : option string) (o : ErrorOperation)
    (s : gmap string value) : result (gmap string value) Error :=
  match v with
  | None => Ok s
  | Some v =>
    if bool_decide (v = "") then Ok (delete key s)
    else
      let? _ := ensure (negb (has_nul v || negb (starts_with "file://" v || starts_with "pkcs11:" v)))
                  (EDomain (with_detail "field" (JStr ("802-1x." +:+ key))
                     (validation o "certificate references must be a file:// or pkcs11: URI without embedded NULs"))) in
      Ok (<[key := of_bytes_value (as_bytes v ++ [byte 0])]> s)
  end.

Definition is_private (settings : ConnectionSettings) : bool :=
  match section_of "connection" settings !! "permissions" ≫= value_list value_string with
  | Some permissions => negb (bool_decide (permissions = []))
  | None => false
  end.

Fixpoint check_ca_paths (keys : list string) (enterprise : gmap string value) (o : ErrorOperation) :
    result unit Error :=
  match keys with
  | [] => Ok tt
  | key :: keys =>
    let? _ := ensure (negb (bool_decide (is_Some (non_empty (setting value_string enterprise key)))))
                (EDomain (with_detail "field" (JStr ("802-1x." +:+ key))
                   (validation o ("802-1x." +:+ key +:+ " is not supported for private connections; clear the CA directory and use ca-cert/phase2-ca-cert or system-ca-certs instead")))) in
    check_ca_paths keys enterprise o
  end.
Definition validate_private_ca_paths (settings : ConnectionSettings) (o : ErrorOperation) :
    result unit Error :=
  if negb (is_private settings) then Ok tt
  else match settings !! ENTERPRISE with
       | None => Ok tt
       | Some enterprise => check_ca_paths ["ca-path"; "phase2-ca-path"] enterprise o
       end.
End Policy.
Import Policy.

(** ** Sections *)

Definition key_management_section (key_mgmt : string) : gmap string value :=
  list_to_map [("key-mgmt", VStr key_mgmt)].
Definition security_connection_settings (s : gmap string value) : ConnectionSettings :=
  {[ SECURITY := s ]}.

Definition wireless_security_section (key_mgmt password : string) : gmap string value :=
  list_to_map [("key-mgmt", VStr key_mgmt); ("psk", VStr password); ("psk-flags", VU32 0)].

Definition wep_security_section (password : string) (t : WepKeyType) : result (gmap string value) Error :=
  let? _ := validate_password_format (WepFormat t) password Op.Connect "password" in
  Ok (list_to_map [("key-mgmt", VStr "none"); ("wep-key0", VStr password); ("wep-key-flags", VU32 0);
                   ("wep-key-type", VU32 (wep_nm_value t))]).
Definition wep_wifi_connection_settings (password : string) (t : WepKeyType) :
    result ConnectionSettings Error :=
  let? s := wep_security_section password t in Ok (security_connection_settings s).

Definition psk_wifi_connection_settings (ap : AccessPoint) (password : string) :
    result ConnectionSettings Error :=
  let key_mgmt := personal_key_management (ap_wpa_flags ap) (ap_rsn_flags ap) in
  let? _ := if bool_decide (key_mgmt = "wpa-psk")
            then validate_password_format WpaPsk password Op.Connect "password" else Ok tt in
  Ok (security_connection_settings (wireless_security_section key_mgmt password)).

Definition owe_wifi_connection_settings : ConnectionSettings :=
  security_connection_settings (key_management_section "owe").

(** ** 802.1X *)

Definition insert_required_string (key : string) (v : option string) (s : gmap string value) :
    result (gmap string value) Error :=
  match non_empty v with
  | None => Err (EDomain (with_detail "field" (JStr key)
              (validation Op.Connect ("enterprise Wi-Fi field '" +:+ key +:+ "' is required"))))
  | Some v => Ok (insert_string key v s)
  end.

Definition enterprise_eap_methods (e : EnterpriseAuth) : list string :=
  if bool_decide (ea_eap e = []) then ["peap"] else ea_eap e.

(** [Option::or]. *)
Definition opt_or {A} (o o' : option A) : option A := match o with Some a => Some a | None => o' end.

Definition enterprise_dot1x_section (e : EnterpriseAuth) (password : option string) :
    result (gmap string value) Error :=
  let? _ := validate_peaplabel (ea_phase1_peaplabel e) Op.Connect in
  let dot1x : gmap string value := {[ "eap" := of_strings (enterprise_eap_methods e) ]} in
  let? dot1x := insert_required_string "identity" (ea_identity e) dot1x in
  Ok (insert_optional_strings
        [("anonymous-identity", ea_anonymous_identity e);
         ("password", opt_or (ea_password e) password);
         ("phase2-auth", ea_phase2_auth e);
         ("ca-path", ea_ca_path e);
         ("domain-suffix-match", ea_domain_suffix_match e);
         ("subject-match", ea_subject_match e);
         ("openssl-ciphers", ea_openssl_ciphers e);
         ("phase1-peapver", ea_phase1_peapver e);
         ("phase1-peaplabel", ea_phase1_peaplabel e);
         ("phase1-fast-provisioning", ea_phase1_fast_provisioning e)] dot1x).

Fixpoint set_certificates (l : list (string * option string)) (s : gmap string value) :
    result (gmap string value) Error :=
  match l with
  | [] => Ok s
  | (key, v) :: l => let? s := set_certificate_reference key v Op.Connect s in set_certificates l s
  end.
Definition insert_enterprise_certificate_settings (e : EnterpriseAuth) (dot1x : gmap string value) :
    result (gmap string value) Error :=
  let dot1x := if bool_decide (ea_altsubject_matches e = []) then dot1x
               else <["altsubject-matches" := of_strings (ea_altsubject_matches e)]> dot1x in
  let? dot1x := set_certificates [("ca-cert", ea_ca_cert e); ("client-cert", ea_client_cert e);
                                  ("private-key", ea_private_key e)] dot1x in
  let dot1x := insert_optional_strings
                 [("private-key-password", ea_private_key_password e); ("pin", ea_pin e);
                  ("pac-file", ea_pac_file e)] dot1x in
  Ok (insert_optional_value "system-ca-certs" (VBool <$> ea_system_ca_certs e) dot1x).

Fixpoint insert_flags (l : list (string * option N)) (s : gmap string value) :
    result (gmap string value) Error :=
  match l with
  | [] => Ok s
  | (key, Some flags) :: l =>
    let? _ := ensure (N.land flags 1 =? 0)%N
                (plain "agent-owned storage is unsupported for new credentials") in
    insert_flags l (<[key +:+ "-flags" := VU32 flags]> s)
  | (key, None) :: l =>
    insert_flags l (if bool_decide (is_Some (s !! key)) then <[key +:+ "-flags" := VU32 0]> s else s)
  end.
Definition insert_enterprise_flag_settings (e : EnterpriseAuth) :
    gmap string value → result (gmap string value) Error :=
  insert_flags [("password", ea_password_flags e);
                ("private-key-password", ea_private_key_password_flags e);
                ("pin", ea_pin_flags e)].

Definition enterprise_wifi_connection_settings_with_key_mgmt (e : EnterpriseAuth)
    (password : option string) (key_mgmt : string) : result ConnectionSettings Error :=
  let security := key_management_section key_mgmt in
  let? dot1x := enterprise_dot1x_section e password in
  let? dot1x := insert_enterprise_certificate_settings e dot1x in
  let? dot1x := insert_enterprise_flag_settings e dot1x in
  Ok (list_to_map [(SECURITY, security); (ENTERPRISE, dot1x)]).
Definition enterprise_wifi_connection_settings (ap : AccessPoint) (e : EnterpriseAuth)
    (password : option string) : result ConnectionSettings Error :=
  enterprise_wifi_connection_settings_with_key_mgmt e password
    (enterprise_key_mgmt (ap_wpa_flags ap) (ap_rsn_flags ap)).

(** ** Visible access points *)

Definition ap_authentication (ap : AccessPoint) : WifiAuthentication :=
  classify (ap_flags ap) (ap_wpa_flags ap) (ap_rsn_flags ap).

Definition visible_connection_settings (target : WifiConnectTarget) (ap : AccessPoint)
    (password : option string) (wep : option WepKeyType) : result (option ConnectionSettings) Error :=
  match ap_authentication ap with
  | Auth.Open => Ok (Some ∅)
  | Auth.Owe => Ok (Some owe_wifi_connection_settings)
  | Auth.Personal =>
    match password with
    | Some password => result_map Some (psk_wifi_connection_settings ap password)
    | None => Ok (Some (security_connection_settings (key_management_section
                (personal_key_management (ap_wpa_flags ap) (ap_rsn_flags ap)))))
    end
  | Auth.Wep =>
    match password with
    | Some password => result_map Some (wep_wifi_connection_settings password (unwrap_or wep Key))
    | None => Ok (Some (security_connection_settings
                (<["wep-key-type" := VU32 (wep_nm_value (unwrap_or wep Key))]>
                   (key_management_section "none"))))
    end
  | Auth.Enterprise =>
    transpose ((λ e, enterprise_wifi_connection_settings ap e password) <$> t_enterprise target)
  | Auth.Unsupported => Ok None
  end.

Definition security_settings_for_visible_ap (ap : AccessPoint) (target : WifiConnectTarget)
    (password : option string) (wep : option WepKeyType) : result (option ConnectionSettings) Error :=
  match t_enterprise target with
  | Some e => result_map Some (enterprise_wifi_connection_settings ap e password)
  | None =>
    match ap_authentication ap, password with
    | Auth.Owe, _ => Ok (Some owe_wifi_connection_settings)
    | Auth.Wep, Some password => result_map Some (wep_wifi_connection_settings password (unwrap_or wep Key))
    | Auth.Personal, Some password => result_map Some (psk_wifi_connection_settings ap password)
    | _, _ => Ok None
    end
  end.

(** ** Hidden networks *)

Definition normalized_key_mgmt (v : string) : string :=
  let v := to_ascii_lowercase v in
  if bool_decide (v ∈ [""; "--"; "open"]) then "open"
  else if bool_decide (v ∈ ["none"; "wep"]) then "wep"
  else if bool_decide (v ∈ ["psk"; "wpa-personal"; "wpa_psk"; "wpa-psk"]) then "wpa-psk"
  else if bool_decide (v = "sae") then "sae"
  else if bool_decide (v = "owe") then "owe"
  else if bool_decide (v ∈ ["802.1x"; "802-1x"; "enterprise"; "wpa-eap"]) then "wpa-eap"
  else if bool_decide (v ∈ ["suite-b"; "wpa-eap-suite-b-192"]) then "wpa-eap-suite-b-192"
  else v.
Definition target_key_mgmt (target : WifiConnectTarget) : option string :=
  normalized_key_mgmt <$> opt_or (t_key_mgmt target) (t_enterprise target ≫= ea_key_mgmt).

Definition security_settings_without_hint (password : option string) (wep : option WepKeyType) :
    result (option ConnectionSettings) Error :=
  match password, wep with
  | None, _ => Ok None
  | Some password, Some wep => result_map Some (wep_wifi_connection_settings password wep)
  | Some password, None =>
    let? _ := validate_password_format WpaPsk password Op.Connect "password" in
    Ok (Some (security_connection_settings (wireless_security_section "wpa-psk" password)))
  end.
Definition required_hidden_password (password : option string) (message : string) : result string Error :=
  ok_or password (EDomain (Errors.connect Reason.SecretRequired message)).
Definition hidden_wep_settings (password : option string) (wep : option WepKeyType) :
    result (option ConnectionSettings) Error :=
  let? password := required_hidden_password password "hidden WEP network requires a password/key" in
  result_map Some (wep_wifi_connection_settings password (unwrap_or wep Key)).
Definition hidden_personal_settings (key_mgmt : string) (password : option string) :
    result (option ConnectionSettings) Error :=
  let? password := required_hidden_password password "hidden WPA/SAE network requires a password" in
  let? _ := validate_password_format WpaPsk password Op.Connect "password" in
  Ok (Some (security_connection_settings (wireless_security_section key_mgmt password))).

Definition security_settings_for_target_hint (target : WifiConnectTarget) (password : option string)
    (wep : option WepKeyType) : result (option ConnectionSettings) Error :=
  let key_mgmt := target_key_mgmt target in
  match t_enterprise target with
  | Some e => result_map Some
      (enterprise_wifi_connection_settings_with_key_mgmt e password (unwrap_or key_mgmt "wpa-eap"))
  | None =>
    match key_mgmt with
    | None => security_settings_without_hint password wep
    | Some key =>
      if bool_decide (key ∈ ["open"; "none"; "--"]) then Ok None
      else if bool_decide (key = "owe") then Ok (Some owe_wifi_connection_settings)
      else if bool_decide (key = "wep") then hidden_wep_settings password wep
      else if bool_decide (key ∈ ["sae"; "wpa-psk"]) then hidden_personal_settings key password
      else if bool_decide (key ∈ ["wpa-eap"; "wpa-eap-suite-b-192"]) then
        Err (EDomain (Errors.connect Reason.SecretRequired
               "hidden enterprise network requires an enterprise credential object"))
      else Err (EDomain (with_detail "key_management" (JStr key)
                  (Errors.connect Reason.UnsupportedAuth
                     ("unsupported hidden key management '" +:+ key +:+ "'"))))
    end
  end.

(** ** The requested profile settings ([wifi_settings/profile.rs]) *)

Definition metered_code (v : string) : result N Error :=
  if bool_decide (v ∈ ["auto"; "unknown"]) then Ok 0%N
  else if bool_decide (v ∈ ["yes"; "on"; "true"]) then Ok 1%N
  else if bool_decide (v ∈ ["no"; "off"; "false"]) then Ok 2%N
  else Err (EDomain (with_detail "value" (JStr v) (with_detail "field" (JStr "profile.metered")
              (validation Op.Connect "profile.metered must be auto, yes, or no")))).

Definition apply_connection_settings (profile : TargetProfileSettings) (settings : ConnectionSettings) :
    result ConnectionSettings Error :=
  let connection := section_of "connection" settings in
  let connection := if bool_decide (setting as_i32 connection "mdns" ∈ [None; Some (-1)%Z])
                    then <["mdns" := VI32 0]> connection else connection in
  let connection := insert_optional_value "autoconnect" (VBool <$> tp_autoconnect profile) connection in
  let connection := insert_optional_value "autoconnect-priority"
                      (VI32 <$> tp_autoconnect_priority profile) connection in
  let? connection := match non_empty (tp_metered profile) with
                     | Some metered =>
                       let? code := metered_code metered in Ok (<["metered" := VU32 code]> connection)
                     | None => Ok connection
                     end in
  Ok (<["connection" := connection]> settings).

Definition apply_mac_policy (profile : TargetProfileSettings) (settings : ConnectionSettings) :
    ConnectionSettings :=
  match non_empty (tp_cloned_mac_address profile) with
  | None => settings
  | Some v => update_section WIRELESS (insert_string "assigned-mac-address" v) settings
  end.

Definition apply_hostname_policy (profile : TargetProfileSettings) (settings : ConnectionSettings) :
    ConnectionSettings :=
  match tp_send_hostname profile with
  | Some enabled => set_send_hostname "ipv6" enabled (set_send_hostname "ipv4" enabled settings)
  | None => settings
  end.

Definition overlay_optional (section : string) (u : option TargetIpSettings) (c : ConnectionSettings) :
    ConnectionSettings :=
  match u with Some u => overlay section u c | None => c end.

Definition apply_target_profile_settings (target : WifiConnectTarget) (settings : ConnectionSettings) :
    result ConnectionSettings Error :=
  let profile := t_profile target in
  let? settings := apply_connection_settings profile settings in
  Ok (overlay_optional "ipv6" (tp_ipv6 profile)
        (overlay_optional "ipv4" (tp_ipv4 profile)
           (apply_hostname_policy profile (apply_mac_policy profile settings)))).

Definition current_user_name (env : string → option string) : option string :=
  match non_empty (env "USER") with Some u => Some u | None => non_empty (env "LOGNAME") end.

Definition valid_user (user : string) : bool :=
  negb (bool_decide (trim user = ""))
  && forallb (λ b, negb (is_byte ":"%char b || is_byte (byte 10) b || is_byte (byte 13) b || is_byte (byte 0) b))
       (as_bytes user).

Definition private_permissions (private : bool) (user : option string) :
    result (option (list string)) Error :=
  if negb private then Ok None
  else
    let? user := ok_or (match user with Some u => if valid_user u then Some u else None | None => None end)
                   (EDomain (with_detail "field" (JStr "private")
                      (validation Op.Connect
                         "cannot create a private connection without a valid current user name"))) in
    Ok (Some ["user:" +:+ user +:+ ":"]).

Definition apply_private_connection (env : string → option string) (private : bool)
    (settings : ConnectionSettings) : result ConnectionSettings Error :=
  let? permissions := private_permissions private (current_user_name env) in
  match permissions with
  | None => Ok settings
  | Some permissions =>
    Ok (update_section "connection" (λ s, <["permissions" := of_strings permissions]> s) settings)
  end.

Definition apply_connection_name (name : option string) (settings : ConnectionSettings) :
    ConnectionSettings :=
  match non_empty name with
  | None => settings
  | Some name =>
    update_section "connection" (λ s, or_insert "type" (VStr WIRELESS) (<["id" := VStr name]> s)) settings
  end.

Definition apply_target_connection_metadata (env : string → option string) (target : WifiConnectTarget)
    (settings : ConnectionSettings) : result ConnectionSettings Error :=
  let settings := apply_connection_name (t_connection_name target) settings in
  let? settings := apply_private_connection env (t_private target) settings in
  let? _ := validate_private_ca_paths settings Op.Connect in
  Ok settings.

(** ** Whole connections *)

Definition automatic_ip_section : gmap string value := {[ "method" := VStr "auto" ]}.
Definition base_connection_section (ssid : string) : gmap string value :=
  list_to_map [("id", VStr ssid); ("type", VStr WIRELESS)].
Definition base_wireless_section (ssid_bytes : list u8) (hidden : bool) : gmap string value :=
  list_to_map [("ssid", of_bytes_value ssid_bytes); ("mode", VStr "infrastructure"); ("hidden", VBool hidden)].
Definition base_wifi_connection_settings (ssid : string) (ssid_bytes : list u8) (hidden : bool) :
    ConnectionSettings :=
  list_to_map [("connection", base_connection_section ssid);
               (WIRELESS, base_wireless_section ssid_bytes hidden);
               ("ipv4", automatic_ip_section); ("ipv6", automatic_ip_section)].

(** [HashMap::extend]: the sections of [security] replace those of the same name. *)
Definition hidden_wifi_connection_settings (target : WifiConnectTarget) (password : option string)
    (wep : option WepKeyType) : result ConnectionSettings Error :=
  let settings := base_wifi_connection_settings (ssid_display (t_ssid target)) (ssid_bytes (t_ssid target)) true in
  let? security := security_settings_for_target_hint target password wep in
  let settings := match security with Some security => security ∪ settings | None => settings end in
  apply_target_profile_settings target settings.

Definition security_settings_for_saved_profile (settings : ConnectionSettings) (target : WifiConnectTarget)
    (password : option string) (wep : option WepKeyType) : result (option ConnectionSettings) Error :=
  if bool_decide (is_Some (t_enterprise target)) || bool_decide (is_Some (t_key_mgmt target))
  then security_settings_for_target_hint target password wep
  else
    let key_mgmt := unwrap_or (setting value_string (section_of SECURITY settings) "key-mgmt") "" in
    match password with
    | None => Ok None
    | Some p =>
      if bool_decide (key_mgmt ∈ ["wpa-psk"; "sae"]) then
        let? _ := validate_password_format WpaPsk p Op.Connect "password" in
        Ok (Some (security_connection_settings (wireless_security_section key_mgmt p)))
      else if bool_decide (key_mgmt ∈ ["none"; ""]) then
        result_map Some (wep_wifi_connection_settings p (unwrap_or wep Key))
      else security_settings_for_target_hint target password wep
    end.

(** The updates' sections are extended key by key. *)
Definition merge_connection_settings (settings updates : ConnectionSettings) : ConnectionSettings :=
  union_with (λ old new, Some (new ∪ old)) settings updates.

Definition apply_saved_activation_settings (settings : ConnectionSettings) (target : WifiConnectTarget)
    (ap : option AccessPoint) (password : option string) (wep : option WepKeyType) :
    result ConnectionSettings Error :=
  let? credentials := match ap with
                      | Some ap => security_settings_for_visible_ap ap target password wep
                      | None => security_settings_for_saved_profile settings target password wep
                      end in
  let settings := match credentials with
                  | Some credentials => merge_connection_settings settings credentials
                  | None => settings
                  end in
  apply_target_profile_settings target settings.

Definition sanitize_cloned_settings (settings : ConnectionSettings) : ConnectionSettings :=
  update_section "connection"
    (λ s, <["type" := VStr WIRELESS]> (delete "timestamp" (delete "uuid" s))) settings.

Definition ensure_wireless_settings (settings : ConnectionSettings) (target : WifiConnectTarget)
    (hidden : bool) : ConnectionSettings :=
  let settings := update_section "connection"
    (λ s, or_insert "type" (VStr WIRELESS) (or_insert "id" (VStr (ssid_display (t_ssid target))) s)) settings in
  update_section WIRELESS
    (λ s, <["hidden" := VBool hidden]> (<["mode" := VStr "infrastructure"]>
            (<["ssid" := of_bytes_value (ssid_bytes (t_ssid target))]> s))) settings.

Definition cloned_wifi_connection_settings (settings : ConnectionSettings) (target : WifiConnectTarget)
    (ap : AccessPoint) (password : option string) (wep : option WepKeyType) :
    result ConnectionSettings Error :=
  apply_saved_activation_settings
    (ensure_wireless_settings (sanitize_cloned_settings settings) target false)
    target (Some ap) password wep.

(** ** Lemmas: key management *)

Definition key_mgmt_of (s : ConnectionSettings) : option string :=
  setting value_string (section_of SECURITY s) "key-mgmt".

Definition advertises (ap : AccessPoint) (key_mgmt : string) : Prop :=
  let k := N.lor (ap_wpa_flags ap) (ap_rsn_flags ap) in
  (key_mgmt = "owe" ∧ has k NM_AP_SEC_KEY_MGMT_OWE = true) ∨
  (key_mgmt = "wpa-psk" ∧ has k NM_AP_SEC_KEY_MGMT_PSK = true) ∨
  (key_mgmt = "sae" ∧ has k NM_AP_SEC_KEY_MGMT_SAE = true) ∨
  (key_mgmt = "none" ∧ has (ap_flags ap) NM_AP_FLAGS_PRIVACY = true ∧ k = 0%N) ∨
  (key_mgmt = "wpa-eap" ∧ has k NM_AP_SEC_KEY_MGMT_802_1X = true) ∨
  (key_mgmt = "wpa-eap-suite-b-192" ∧ has k NM_AP_SEC_KEY_MGMT_EAP_SUITE_B_192 = true).

Lemma key_mgmt_of_security s :
  key_mgmt_of (security_connection_settings s) = setting value_string s "key-mgmt".
Proof. unfold key_mgmt_of, security_connection_settings, section_of. by rewrite lookup_singleton_eq. Qed.

Lemma personal_advertised ap :
  ap_supports_psk (ap_wpa_flags ap) (ap_rsn_flags ap) = true →
  advertises ap (personal_key_management (ap_wpa_flags ap) (ap_rsn_flags ap)).
Proof.
  unfold ap_supports_psk, personal_key_management, advertises. rewrite has_lor_r.
  intros H. destruct (has _ NM_AP_SEC_KEY_MGMT_PSK), (has _ NM_AP_SEC_KEY_MGMT_SAE); naive_solver.
Qed.

Lemma enterprise_advertised ap :
  ap_supports_enterprise (ap_wpa_flags ap) (ap_rsn_flags ap) = true →
  advertises ap (enterprise_key_mgmt (ap_wpa_flags ap) (ap_rsn_flags ap)).
Proof.
  unfold ap_supports_enterprise, enterprise_key_mgmt, advertises. rewrite has_lor_r.
  intros H. destruct (has _ NM_AP_SEC_KEY_MGMT_802_1X), (has _ NM_AP_SEC_KEY_MGMT_EAP_SUITE_B_192);
    naive_solver.
Qed.

Lemma enterprise_key_mgmt_of e password k s :
  enterprise_wifi_connection_settings_with_key_mgmt e password k = Ok s → key_mgmt_of s = Some k.
Proof.
  unfold enterprise_wifi_connection_settings_with_key_mgmt. intros H. unbind_all. simplify_eq. done.
Qed.

Lemma wep_key_mgmt_of password t s :
  wep_wifi_connection_settings password t = Ok s → key_mgmt_of s = Some "none".
Proof.
  unfold wep_wifi_connection_settings, wep_security_section. intros H. unbind_all. simplify_eq.
  by rewrite key_mgmt_of_security.
Qed.

Lemma psk_key_mgmt_of ap password s :
  psk_wifi_connection_settings ap password = Ok s →
  key_mgmt_of s = Some (personal_key_management (ap_wpa_flags ap) (ap_rsn_flags ap)).
Proof.
  unfold psk_wifi_connection_settings. intros H. unbind_all. simplify_eq. by rewrite key_mgmt_of_security.
Qed.

(** The settings built for a visible access point use key management it
    advertises: a connection without a security section is built only for a network
    that asks for no privacy, and otherwise the section's key management is OWE, PSK,
    SAE, WEP or 802.1X exactly where the access point's flags carry it. *)
Theorem visible_settings_advertised target ap password wep s :
  visible_connection_settings target ap password wep = Ok (Some s) →
  (s = ∅ ∧ has (ap_flags ap) NM_AP_FLAGS_PRIVACY = false) ∨
  ∃ key_mgmt, key_mgmt_of s = Some key_mgmt ∧ advertises ap key_mgmt.
Proof.
  assert (He := security_class_evidence (ap_flags ap) (ap_wpa_flags ap) (ap_rsn_flags ap)).
  unfold visible_connection_settings, ap_authentication, classify.
  destruct (security_class _ _ _) eqn:Ec; unfold class_evidence in He.
  - intros [= <-]. left. split; [done|]. by destruct He.
  - intros [= <-]. right. exists "owe". split; [done|]. left. by split.
  - intros H. right. exists "none". split;
      [|destruct He as (Hp & Hw & Hr); unfold advertises; rewrite Hw, Hr; do 3 right; left; done].
    destruct password; [|injection H as <-; by rewrite key_mgmt_of_security].
    destruct (wep_wifi_connection_settings _ _) eqn:E; [|done]. injection H as <-.
    by eapply wep_key_mgmt_of.
  - intros H. right. eexists. split; [|apply personal_advertised, He].
    destruct password; [|injection H as <-; by rewrite key_mgmt_of_security].
    destruct (psk_wifi_connection_settings _ _) eqn:E; [|done]. injection H as <-.
    by eapply psk_key_mgmt_of.
  - intros H. right. eexists. split; [|apply enterprise_advertised, He].
    destruct (t_enterprise target) as [e|]; cbn in H; [|done].
    destruct (enterprise_wifi_connection_settings _ _ _) eqn:E; [|done]. injection H as <-.
    by eapply enterprise_key_mgmt_of.
  - done.
Qed.

(** ** Lemmas: ownership of the credentials *)

Lemma flags_known s section key f :
  key ∈ known_keys section → flags s section key = Ok f →
  ∃ d, s !! section = Some d ∧ flag_value (flags_key key) d = Ok f.
Proof.
  intros Hk. unfold flags, raw_flags.
  assert (Hv : section ≠ "vpn") by (intros ->; vm_compute in Hk; set_solver).
  destruct (s !! section) as [d|]; [|done]. cbn [ok_or]. rewrite (bool_decide_false _ Hv).
  assert (Hp : (if bool_decide (section = "wireguard") then peer_key key else None) = None).
  { case_bool_decide as E; [|done]. subst. vm_compute in Hk.
    apply list_elem_of_singleton in Hk as ->. by vm_compute. }
  rewrite Hp. rewrite bool_decide_true by done. cbn [ensure]. intros H. unbind_all. simplify_eq. eauto.
Qed.

Lemma flag_value_cases key d f :
  flag_value key d = Ok f → d !! key = Some (VU32 f) ∨ (d !! key = None ∧ f = 0%N).
Proof.
  unfold flag_value. destruct (d !! key) as [v|]; [|naive_solver]. destruct v; naive_solver.
Qed.

Definition flags_even (d : gmap string value) (keys : list string) : Prop :=
  ∀ key v, key ∈ keys → d !! flags_key key = Some (VU32 v) → N.testbit v 0 = false.

(** No secret of the settings is owned by an agent. *)
Definition system_owned (s : ConnectionSettings) : Prop :=
  ∀ section d, s !! section = Some d → flags_even d (known_keys section).

Lemma system_owned_flags s section key f :
  system_owned s → key ∈ known_keys section → flags s section key = Ok f → N.testbit f 0 = false.
Proof.
  intros H Hk Hf. apply flags_known in Hf as (d & Hd & Hf); [|done].
  apply flag_value_cases in Hf as [Hf|[_ ->]]; [|done]. by eapply H.
Qed.

Lemma security_owned s :
  flags_even s (known_keys SECURITY) → system_owned (security_connection_settings s).
Proof.
  intros H. intros section d Hd.
  unfold security_connection_settings in Hd. apply lookup_singleton_Some in Hd as [<- <-]. done.
Qed.

Lemma key_management_even k : flags_even (key_management_section k) (known_keys SECURITY).
Proof.
  intros key v Hk. vm_compute in Hk. unfold key_management_section.
  repeat (apply elem_of_cons in Hk as [->|Hk]); try done. set_solver.
Qed.

Lemma wireless_security_even k p : flags_even (wireless_security_section k p) (known_keys SECURITY).
Proof.
  intros key v Hk. vm_compute in Hk. unfold wireless_security_section.
  repeat (apply elem_of_cons in Hk as [->|Hk]); try done; [|set_solver]. cbn. by intros [= <-].
Qed.

Lemma wep_owned p t s : wep_wifi_connection_settings p t = Ok s → system_owned s.
Proof.
  unfold wep_wifi_connection_settings, wep_security_section. intros H. unbind_all. simplify_eq.
  apply security_owned. intros key v Hk. vm_compute in Hk.
  repeat (apply elem_of_cons in Hk as [->|Hk]); [done| | | | |done|set_solver]; cbn; by intros [= <-].
Qed.

Lemma psk_owned ap p s : psk_wifi_connection_settings ap p = Ok s → system_owned s.
Proof.
  unfold psk_wifi_connection_settings. intros H. unbind_all. simplify_eq.
  apply security_owned, wireless_security_even.
Qed.

(** Before its flags are written the 802.1X section holds no number. *)
Definition no_u32 (s : gmap string value) : Prop := ∀ k v, s !! k ≠ Some (VU32 v).

Lemma no_u32_insert s k x : no_u32 s → (∀ v, x ≠ VU32 v) → no_u32 (<[k := x]> s).
Proof.
  intros H Hx j v. destruct (decide (j = k)) as [->|]; [rewrite lookup_insert_eq|rewrite lookup_insert_ne by done].
  - intros [= E]. by eapply Hx.
  - apply H.
Qed.
Lemma no_u32_optional s k o : no_u32 s → (∀ v, o ≠ Some (VU32 v)) → no_u32 (insert_optional_value k o s).
Proof. intros H Ho. destruct o as [x|]; [|done]. apply no_u32_insert; [done|]. naive_solver. Qed.
Lemma no_u32_strings l s : no_u32 s → no_u32 (insert_optional_strings l s).
Proof.
  unfold insert_optional_strings. revert s. induction l as [|[k o] l IH]; intros s H; [done|]. cbn.
  apply IH. apply no_u32_optional; [done|]. by destruct (non_empty o).
Qed.
Lemma no_u32_certificates l s s' : set_certificates l s = Ok s' → no_u32 s → no_u32 s'.
Proof.
  revert s. induction l as [|[k o] l IH]; intros s; cbn; [naive_solver|].
  intros H Hs. unbind_all. eapply IH; [done|]. unfold set_certificate_reference in *.
  destruct o as [v|]; [|naive_solver]. destruct (bool_decide (v = "")).
  - simplify_eq. intros j w. rewrite lookup_delete. case_decide; [done|]. apply Hs.
  - unbind_all. simplify_eq. by apply no_u32_insert.
Qed.

Lemma insert_flags_even l s s' :
  insert_flags l s = Ok s' →
  (∀ k v, s !! k = Some (VU32 v) → N.testbit v 0 = false) →
  ∀ k v, s' !! k = Some (VU32 v) → N.testbit v 0 = false.
Proof.
  revert s. induction l as [|[k o] l IH]; intros s; cbn; [naive_solver|]. destruct o as [f|].
  - intros H Hs. unbind_all. eapply IH; [done|]. intros j v.
    destruct (decide (j = k +:+ "-flags")) as [->|]; [rewrite lookup_insert_eq|rewrite lookup_insert_ne by done; apply Hs].
    intros [= ->]. match goal with H : (N.land _ _ =? 0)%N = true |- _ => apply N.eqb_eq in H;
      apply (f_equal (λ n, N.testbit n 0)) in H; rewrite N.land_spec in H end.
    by rewrite andb_true_r in *.
  - intros H Hs. eapply IH; [done|]. intros j v. case_bool_decide; [|apply Hs].
    destruct (decide (j = k +:+ "-flags")) as [->|]; [rewrite lookup_insert_eq|rewrite lookup_insert_ne by done; apply Hs].
    by intros [= <-].
Qed.

Lemma enterprise_owned e p k s :
  enterprise_wifi_connection_settings_with_key_mgmt e p k = Ok s → system_owned s.
Proof.
  unfold enterprise_wifi_connection_settings_with_key_mgmt. intros H. unbind_all. simplify_eq.
  match goal with H1 : enterprise_dot1x_section _ _ = Ok ?a, H2 : insert_enterprise_certificate_settings _ _ = Ok ?b,
    H3 : insert_enterprise_flag_settings _ _ = Ok ?c |- _ =>
    assert (Ha : no_u32 a); [|assert (Hb : no_u32 b); [|assert (Hc := insert_flags_even _ _ _ H3)]] end.
  - unfold enterprise_dot1x_section, insert_required_string in *. unbind_all. destruct (non_empty _); [|done].
    simplify_eq. apply no_u32_strings. by repeat apply no_u32_insert.
  - unfold insert_enterprise_certificate_settings in *. unbind_all. simplify_eq.
    apply no_u32_optional; [|by destruct (ea_system_ca_certs e)]. apply no_u32_strings.
    eapply no_u32_certificates; [done|]. case_bool_decide; [done|]. by apply no_u32_insert.
  - intros section d.
    destruct (decide (section = SECURITY)) as [->|]; [|destruct (decide (section = ENTERPRISE)) as [->|]].
    + cbn. intros [= <-]. apply key_management_even.
    + cbn. intros [= <-] key v _. apply Hc. intros k' v' Hv. by destruct (Hb k' v').
    + cbn. rewrite !lookup_insert_ne, lookup_empty by done. done.
Qed.

Create HintDb owned discriminated.
#[export] Hint Resolve wep_owned psk_owned enterprise_owned security_owned key_management_even
  wireless_security_even : owned.

Lemma result_map_Some {A B E} (f : A → B) (r : result A E) b :
  result_map f r = Ok b → ∃ a, r = Ok a ∧ b = f a.
Proof. destruct r; [|done]. intros [= <-]. eauto. Qed.

Lemma empty_owned : system_owned ∅.
Proof. intros section d. by rewrite lookup_empty. Qed.
#[export] Hint Resolve empty_owned : owned.

(** Open the builders of a security section and close with [owned]. *)
Ltac owned_cases :=
  repeat match goal with
  | H : result_map Some _ = Ok (Some _) |- _ => apply result_map_Some in H as (? & ? & ?); simplify_eq
  | H : Ok (Some _) = Ok (Some _) |- _ => injection H as <-
  | H : Ok None = Ok (Some _) |- _ => discriminate H
  | H : Err _ = Ok _ |- _ => discriminate H
  | H : match ?x with Ok _ => _ | Err _ => _ end = Ok _ |- _ => destruct x eqn:?; [|discriminate H]
  | H : (if ?b then _ else _) = Ok (Some _) |- _ => destruct b
  end; eauto with owned.

Lemma hint_owned target password wep s :
  security_settings_for_target_hint target password wep = Ok (Some s) → system_owned s.
Proof.
  unfold security_settings_for_target_hint, security_settings_without_hint, hidden_wep_settings,
    hidden_personal_settings, owe_wifi_connection_settings.
  intros H. destruct (t_enterprise target); [by owned_cases|].
  destruct (target_key_mgmt target); [by owned_cases|]. destruct password, wep; by owned_cases.
Qed.

Lemma wep_type_even t :
  flags_even (<["wep-key-type" := VU32 (wep_nm_value t)]> (key_management_section "none")) (known_keys SECURITY).
Proof.
  intros key v Hk. rewrite lookup_insert_ne; [by apply key_management_even|].
  vm_compute in Hk. repeat (apply elem_of_cons in Hk as [->|Hk]); try done. set_solver.
Qed.
#[export] Hint Resolve wep_type_even : owned.

Lemma visible_owned target ap password wep s :
  visible_connection_settings target ap password wep = Ok (Some s) → system_owned s.
Proof.
  unfold visible_connection_settings, owe_wifi_connection_settings, enterprise_wifi_connection_settings.
  destruct (ap_authentication ap), password; intros H; try (by owned_cases);
    (destruct (t_enterprise target); cbn in H; [by owned_cases|done]).
Qed.

(** ** Lemmas: the overlay of the requested profile *)

Lemma section_of_some n c d : c !! n = Some d → section_of n c = d.
Proof. intros H. unfold section_of. by rewrite H. Qed.

Lemma overlay_ne section u c n : n ≠ section → overlay section u c !! n = c !! n.
Proof. apply update_section_ne. Qed.
Lemma overlay_optional_ne section u c n : n ≠ section → overlay_optional section u c !! n = c !! n.
Proof. intros. destruct u; [by apply overlay_ne|done]. Qed.
Lemma send_hostname_ne section b c n : n ≠ section → set_send_hostname section b c !! n = c !! n.
Proof. apply update_section_ne. Qed.
Lemma hostname_policy_ne p c n : n ≠ "ipv4" → n ≠ "ipv6" → apply_hostname_policy p c !! n = c !! n.
Proof.
  intros. unfold apply_hostname_policy. destruct (tp_send_hostname p); [|done].
  by rewrite !send_hostname_ne.
Qed.
Lemma mac_policy_ne p c n : n ≠ WIRELESS → apply_mac_policy p c !! n = c !! n.
Proof. intros. unfold apply_mac_policy. destruct (non_empty _); [|done]. by apply update_section_ne. Qed.

(** Sections that are neither the connection's, the device's nor an address family's. *)
Definition untouched (section : string) : Prop :=
  section ∉ ["connection"; WIRELESS; "ipv4"; "ipv6"].

Lemma profile_settings_frame target c c' :
  apply_target_profile_settings target c = Ok c' →
  (∀ n, untouched n → c' !! n = c !! n) ∧
  (∃ connection, apply_connection_settings (t_profile target) c = Ok (<["connection" := connection]> c) ∧
     section_of "connection" c' = connection) ∧
  (∀ k, k ≠ "assigned-mac-address" → section_of WIRELESS c' !! k = section_of WIRELESS c !! k).
Proof.
  unfold apply_target_profile_settings. intros H. unbind_all. simplify_eq.
  match goal with H : apply_connection_settings _ _ = Ok ?a |- _ => rename H into Ha, a into a0 end.
  assert (∃ d, a0 = <["connection" := d]> c) as [d ->].
  { unfold apply_connection_settings in Ha. unbind_all. simplify_eq. eauto. }
  split_and!.
  - intros n Hn. unfold untouched in Hn. rewrite !overlay_optional_ne, hostname_policy_ne, mac_policy_ne,
      lookup_insert_ne by set_solver. done.
  - exists d. split; [done|]. apply section_of_some.
    rewrite !overlay_optional_ne, hostname_policy_ne, mac_policy_ne by done. by rewrite lookup_insert_eq.
  - intros k Hk. unfold section_of at 1. rewrite !overlay_optional_ne, hostname_policy_ne by done.
    unfold apply_mac_policy. destruct (non_empty _) as [m|].
    + unfold update_section. rewrite lookup_insert_eq. cbn. unfold insert_string. rewrite lookup_insert_ne by done.
      unfold section_of. by rewrite lookup_insert_ne.
    + rewrite lookup_insert_ne by done. done.
Qed.

(** A section with secrets is not one the overlay or the base settings write. *)
Lemma known_untouched section key : key ∈ known_keys section → untouched section.
Proof.
  intros Hk Hin. repeat (apply elem_of_cons in Hin as [->|Hin]);
    try (by vm_compute in Hk; apply elem_of_nil in Hk). by apply elem_of_nil in Hin.
Qed.

Lemma base_untouched ssid b hidden section :
  untouched section → base_wifi_connection_settings ssid b hidden !! section = None.
Proof.
  unfold untouched. intros Hu. unfold base_wifi_connection_settings. cbn.
  rewrite !lookup_insert_ne by set_solver. done.
Qed.

Lemma hidden_owned target password wep s :
  hidden_wifi_connection_settings target password wep = Ok s → system_owned s.
Proof.
  unfold hidden_wifi_connection_settings. intros H. unbind_all.
  apply profile_settings_frame in H as (Hother & _ & _). intros section d Hd key v Hk.
  assert (Hu := known_untouched section key Hk). rewrite Hother in Hd by done. destruct a as [security|].
  - rewrite lookup_union, base_untouched in Hd by done.
    destruct (security !! section) as [e|] eqn:He; [|done]. cbn in Hd. injection Hd as ->.
    match goal with H : security_settings_for_target_hint _ _ _ = _ |- _ => apply hint_owned in H as Hs end.
    by apply (Hs section d).
  - by rewrite base_untouched in Hd.
Qed.

(** C29. No credential of a new connection is left to an agent: in the settings built
    for a visible access point and for a hidden network (the 802.1X credentials a client
    asked flags for included) no secret's flags have the agent-owned bit. *)
Theorem new_credentials_system_owned target ap password wep s section key f :
  visible_connection_settings target ap password wep = Ok (Some s) ∨
  hidden_wifi_connection_settings target password wep = Ok s →
  key ∈ known_keys section → flags s section key = Ok f → N.testbit f 0 = false.
Proof.
  intros Hs Hk Hf. eapply system_owned_flags; [|done..]. destruct Hs as [H|H]; [by eapply visible_owned|].
  by eapply hidden_owned.
Qed.

(** ** Private profiles *)

Lemma permissions_written c permissions :
  permissions ≠ [] →
  is_private (update_section "connection" (λ s, <["permissions" := of_strings permissions]> s) c) = true.
Proof.
  intros Hp. unfold is_private. rewrite section_of_update_eq, lookup_insert_eq. cbn [mbind option_bind].
  rewrite value_list_strings. by rewrite bool_decide_false.
Qed.

Lemma check_ca_paths_Ok keys e o :
  check_ca_paths keys e o = Ok tt →
  ∀ key, key ∈ keys → non_empty (setting value_string e key) = None.
Proof.
  induction keys as [|k keys IH]; cbn; [set_solver|]. intros H key.
  destruct (bool_decide _) eqn:E; cbn in H; [done|]. apply bool_decide_eq_false in E.
  intros [->|Hin]%elem_of_cons; [|by apply IH]. by apply eq_None_not_Some.
Qed.

(** A connection requested private is never created public: when the metadata of
    such a target could be applied the profile's permissions name exactly one user, the
    current one with a name free of separators, and its 802.1X section uses no CA
    directory; without a valid user name or with a CA directory the request fails. *)
Theorem private_stays_private env target c c' :
  t_private target = true →
  apply_target_connection_metadata env target c = Ok c' →
  is_private c' = true ∧
  (∃ user, current_user_name env = Some user ∧ valid_user user = true ∧
     setting_strings (section_of "connection" c') "permissions" = ["user:" +:+ user +:+ ":"]) ∧
  ∀ key, key ∈ ["ca-path"; "phase2-ca-path"] →
    non_empty (setting value_string (section_of ENTERPRISE c') key) = None.
Proof.
  intros Hp. unfold apply_target_connection_metadata, apply_private_connection, private_permissions.
  rewrite Hp. cbn [negb]. destruct (current_user_name env) as [user|]; [|done].
  destruct (valid_user user) eqn:Hv; [|done]. cbn [ok_or].
  set (c1 := update_section _ _ _). intros H. unbind_all. injection H as <-.
  assert (Hpriv : is_private c1 = true) by (by apply permissions_written).
  split_and!; [done| |].
  - exists user. split_and!; [done..|]. subst c1. rewrite section_of_update_eq. unfold setting_strings.
    rewrite lookup_insert_eq. cbn [mbind option_bind]. by rewrite value_list_strings.
  - intros key Hk. unfold validate_private_ca_paths in *. rewrite Hpriv in *. cbn [negb] in *.
    destruct (c1 !! ENTERPRISE) as [e|] eqn:He.
    + rewrite (section_of_some _ _ _ He). destruct a. by eapply check_ca_paths_Ok.
    + unfold section_of. rewrite He. unfold setting. cbn [unwrap_or]. by rewrite lookup_empty.
Qed.

(** ** Cloned profiles *)

Lemma connection_settings_other p c d k :
  apply_connection_settings p c = Ok (<["connection" := d]> c) →
  k ∉ ["mdns"; "autoconnect"; "autoconnect-priority"; "metered"] →
  d !! k = section_of "connection" c !! k.
Proof.
  unfold apply_connection_settings. intros H Hk. unbind_all. injection H as H.
  apply (f_equal (.!! "connection")) in H. rewrite !lookup_insert_eq in H. injection H as <-.
  assert (Hm : ∀ b : bool, (if b then <["mdns" := VI32 0]> (section_of "connection" c)
    else section_of "connection" c) !! k = section_of "connection" c !! k)
    by (intros []; [rewrite lookup_insert_ne by set_solver|]; done).
  destruct (non_empty (tp_metered p)) as [m|]; [destruct (metered_code m); [|done]|]; simplify_eq;
    rewrite ?lookup_insert_ne, !insert_optional_value_ne by set_solver; apply Hm.
Qed.

Lemma or_insert_ne key k v (s : gmap string value) : k ≠ key → or_insert key v s !! k = s !! k.
Proof. intros. unfold or_insert. destruct (s !! key); [done|]. by rewrite lookup_insert_ne. Qed.
Lemma or_insert_some key v w (s : gmap string value) :
  s !! key = Some v → or_insert key w s !! key = Some v.
Proof. intros H. unfold or_insert. by rewrite H. Qed.

Lemma merge_connection_ne c u n : u !! n = None → merge_connection_settings c u !! n = c !! n.
Proof. intros H. unfold merge_connection_settings. rewrite lookup_union_with, H. by destruct (c !! n). Qed.

(** The credential sections are the only ones an access point's settings have. *)
Lemma visible_ap_sections ap target password wep s n :
  security_settings_for_visible_ap ap target password wep = Ok (Some s) →
  n ∉ [SECURITY; ENTERPRISE] → s !! n = None.
Proof.
  unfold security_settings_for_visible_ap, enterprise_wifi_connection_settings,
    enterprise_wifi_connection_settings_with_key_mgmt, wep_wifi_connection_settings,
    psk_wifi_connection_settings, owe_wifi_connection_settings, security_connection_settings.
  intros H Hn. assert (Hs : ∀ d : section, ({[ SECURITY := d ]} : ConnectionSettings) !! n = None)
    by (intros d; apply lookup_singleton_None; set_solver).
  destruct (t_enterprise target) as [e|].
  - apply result_map_Some in H as (d & H & E). unbind_all. simplify_eq. cbn.
    rewrite !lookup_insert_ne by set_solver. done.
  - destruct (ap_authentication ap), password; try done; try (injection H as <-; apply Hs);
      apply result_map_Some in H as (d & H & E); unbind_all; simplify_eq; apply Hs.
Qed.

(** A profile cloned for another access point is a new profile of that network: its
    UUID and timestamp are gone, its type, SSID and mode are those of the target, and
    apart from the credential sections and the requested overlay every section and every
    key of the original is kept. *)
Theorem cloned_profile_fresh settings target ap password wep c' :
  cloned_wifi_connection_settings settings target ap password wep = Ok c' →
  section_of "connection" c' !! "uuid" = None ∧
  section_of "connection" c' !! "timestamp" = None ∧
  setting_text (section_of "connection" c') "type" = Some WIRELESS ∧
  section_of WIRELESS c' !! "ssid" = Some (of_bytes_value (ssid_bytes (t_ssid target))) ∧
  (∀ n, untouched n → n ∉ [SECURITY; ENTERPRISE] → c' !! n = settings !! n) ∧
  (∀ k, k ∉ ["ssid"; "mode"; "hidden"; "assigned-mac-address"] →
     section_of WIRELESS c' !! k = section_of WIRELESS settings !! k).
Proof.
  unfold cloned_wifi_connection_settings, apply_saved_activation_settings. intros H. unbind_all.
  set (base := ensure_wireless_settings _ _ _) in *.
  match type of H with apply_target_profile_settings _ ?m = _ => set (merged := m) in * end.
  assert (Hm : ∀ n, n ∉ [SECURITY; ENTERPRISE] → merged !! n = base !! n).
  { intros n Hn. subst merged. destruct a as [s|]; [|done].
    apply merge_connection_ne. by eapply visible_ap_sections. }
  apply profile_settings_frame in H as (Hother & (d & Hd & Hc) & Hw).
  assert (Hconn : ∀ k, k ∉ ["mdns"; "autoconnect"; "autoconnect-priority"; "metered"] →
    section_of "connection" c' !! k = section_of "connection" base !! k).
  { intros k Hk. rewrite Hc, (connection_settings_other _ _ _ _ Hd Hk). unfold section_of.
    by rewrite Hm by set_solver. }
  assert (Hwire : ∀ k, k ≠ "assigned-mac-address" → section_of WIRELESS c' !! k = section_of WIRELESS base !! k).
  { intros k Hk. rewrite Hw by done. unfold section_of. by rewrite Hm by set_solver. }
  unfold setting_text. rewrite !Hconn, Hwire by set_solver.
  assert (Hbc : section_of "connection" base = or_insert "type" (VStr WIRELESS)
    (or_insert "id" (VStr (ssid_display (t_ssid target)))
       (<["type" := VStr WIRELESS]> (delete "timestamp" (delete "uuid" (section_of "connection" settings)))))).
  { subst base. unfold ensure_wireless_settings, sanitize_cloned_settings.
    rewrite section_of_update_ne, !section_of_update_eq by done. done. }
  rewrite Hbc. split_and!.
  - rewrite !or_insert_ne, lookup_insert_ne, lookup_delete_ne, lookup_delete_eq by done. done.
  - rewrite !or_insert_ne, lookup_insert_ne, lookup_delete_eq by done. done.
  - rewrite or_insert_some with (v := VStr WIRELESS); [done|]. rewrite or_insert_ne by done. by rewrite lookup_insert_eq.
  - subst base. unfold ensure_wireless_settings. rewrite section_of_update_eq.
    rewrite !lookup_insert_ne, lookup_insert_eq by done. done.
  - intros n Hn Hs. rewrite Hother, Hm by done. subst base. unfold ensure_wireless_settings, sanitize_cloned_settings.
    unfold untouched in Hn. by rewrite !update_section_ne by set_solver.
  - intros k Hk. rewrite Hwire by set_solver. subst base. unfold ensure_wireless_settings, sanitize_cloned_settings.
    rewrite section_of_update_eq, !section_of_update_ne, !lookup_insert_ne by set_solver. done.
Qed.

(** ** Witnesses *)

Definition psk_ap : AccessPoint := {|
  ap_ssid := "Home"; ap_ssid_bytes := as_bytes "Home"; ap_active := false;
  ap_security := Wpa2Or3; ap_strength := 70; ap_frequency := 2412; ap_channel := 1;
  ap_band := "2.4 GHz"; ap_mode := "infrastructure"; ap_max_bitrate_mbps := 54;
  ap_bandwidth_mhz := 20; ap_ssid_hex := "486F6D65"; ap_wpa_flags_label := "";
  ap_rsn_flags_label := ""; ap_bssid := "00:11:22:33:44:55"; ap_last_seen := 1;
  ap_last_seen_age_ms := None; ap_path := "/ap/1"; ap_device_path := "/dev/1";
  ap_device_iface := "wlan0"; ap_flags := 1; ap_wpa_flags := 0; ap_rsn_flags := 256 |}.
Definition home : Ssid := {| ssid_bytes := as_bytes "Home"; ssid_display := "Home" |}.
Definition home_target : WifiConnectTarget := connect_target_for_ssid home.
Definition private_target : WifiConnectTarget :=
  {| t_ssid := home; t_ap_path := None; t_bssid := None; t_ifname := None;
     t_device_path := None; t_connection_name := None; t_private := true; t_hidden := false;
     t_security := None; t_key_mgmt := None; t_enterprise := None; t_profile := target_profile_default |}.
Definition alice (name : string) : option string :=
  if bool_decide (name = "USER") then Some "alice" else None.
Definition saved_home : ConnectionSettings :=
  list_to_map [("connection", list_to_map [("id", VStr "Home"); ("uuid", VStr "u-1")]);
               ("proxy", list_to_map [("method", VI32 1)])].

Lemma visible_settings_advertised_witness :
  ∃ key_mgmt, key_mgmt_of (security_connection_settings (wireless_security_section "wpa-psk" "longenough"))
    = Some key_mgmt ∧ advertises psk_ap key_mgmt.
Proof.
  destruct (visible_settings_advertised home_target psk_ap (Some "longenough") None
    (security_connection_settings (wireless_security_section "wpa-psk" "longenough"))) as [[H _]|H];
    [reflexivity| |exact H]. exfalso. exact (map_non_empty_singleton _ _ H).
Defined.

Lemma new_credentials_system_owned_witness :
  flags (security_connection_settings (wireless_security_section "wpa-psk" "longenough")) SECURITY "psk" = Ok 0%N
  ∧ N.testbit 0 0 = false.
Proof.
  split; [by vm_compute|].
  apply (new_credentials_system_owned home_target psk_ap (Some "longenough") None
    (security_connection_settings (wireless_security_section "wpa-psk" "longenough")) SECURITY "psk").
  - left. reflexivity.
  - vm_compute. left.
  - by vm_compute.
Defined.

Lemma private_stays_private_witness :
  is_private (ok_value ∅ (apply_target_connection_metadata alice private_target saved_home)) = true.
Proof.
  apply (private_stays_private alice private_target saved_home); [done|]. apply is_ok_value. by vm_compute.
Defined.

Lemma cloned_profile_fresh_witness :
  section_of "connection"
    (ok_value ∅ (cloned_wifi_connection_settings saved_home home_target psk_ap None None)) !! "uuid" = None.
Proof.
  apply (cloned_profile_fresh saved_home home_target psk_ap None None). apply is_ok_value. by vm_compute.
Defined.
