(* ===== verification/Profiles.v ===== *)
(** * Saved Wi-Fi profiles ([src/nm/settings.rs] and its [profile_advanced.rs],
    [profile_secrets.rs], [casting.rs])

    What the daemon reads out of the settings of a saved profile (the listing, the
    details for the editor, the restrictions that select a profile for an access point,
    the sharing payload, whether an agent must supply a secret) and how an edit changes
    them. The debug rendering of D-Bus values (zvariant's) is an argument. *)
From S2P Require Import Prelude Errors Text Identity Wifi Qr Network Variant Credentials IpSettings WifiSettings.
From Stdlib Require Import ZArith Lia Ascii.
From stdpp Require Import prelude gmap strings list pretty.
Import Policy.

Definition NM_SECRET_FLAG_AGENT_OWNED : N := 1.
Definition NM_SECRET_FLAG_NOT_SAVED : N := 2.
Definition NM_SECRET_FLAG_NOT_REQUIRED : N := 4.
Definition WEP_KEYS : list string := ["wep-key0"; "wep-key1"; "wep-key2"; "wep-key3"].

(** ** Casting policy *)
Definition NM_MDNS_DISABLED : Z := 0.
Definition NM_MDNS_RESOLVE : Z := 1.
Definition NM_MDNS_YES : Z := 2.

Definition mdns_policy (settings : ConnectionSettings) : option Z :=
  connection ← settings !! "connection"; setting as_i32 connection "mdns".
Definition casting_enabled_from_settings (settings : ConnectionSettings) : bool :=
  bool_decide (mdns_policy settings ∈ [Some NM_MDNS_RESOLVE; Some NM_MDNS_YES]).
Definition set_casting_enabled (enabled : bool) : ConnectionSettings → ConnectionSettings :=
  update_section "connection"
    (λ s, <["mdns" := VI32 (if enabled then NM_MDNS_RESOLVE else NM_MDNS_DISABLED)]> s).

(** ** Reading a profile *)

Definition wifi_settings_section (settings : ConnectionSettings) : option (gmap string value) :=
  wireless ← settings !! WIRELESS;
  let type := connection ← settings !! "connection"; setting_text connection "type" in
  match type with
  | Some t => if bool_decide (t = WIRELESS) then Some wireless else None
  | None => Some wireless
  end.

Definition parse_bssid (s : string) : option (list u8) :=
  bytes ← mapM u8_from_hex (split_bytes is_separator (as_bytes s));
  if bool_decide (length bytes = 6) then Some bytes else None.
Definition bssid_bytes_match (saved : list u8) (ap_bssid : string) : bool :=
  bool_decide (parse_bssid ap_bssid = Some saved).

Definition ap_matches_band_channel (ap : AccessPoint) (band : option string) (channel : N) : bool :=
  let actual_band := band_from_frequency_label (frequency_band (ap_frequency ap)) ≫= band_nm_value in
  match band with Some b => bool_decide (Some b = actual_band) | None => true end
  && ((channel =? 0)%N || (frequency_channel (ap_frequency ap) =? channel)%N).

Record WifiProfileMatch := {
  pm_ssid_bytes : list u8;
  pm_bssid_bytes : option (list u8);
  pm_band : option string;
  pm_channel : N;
}.
Definition match_from_settings (settings : ConnectionSettings) : option WifiProfileMatch :=
  wireless ← wifi_settings_section settings;
  ssid_bytes ← wireless !! "ssid" ≫= value_bytes;
  Some {| pm_ssid_bytes := ssid_bytes;
          pm_bssid_bytes := wireless !! "bssid" ≫= value_bytes;
          pm_band := non_empty (setting_text wireless "band");
          pm_channel := unwrap_or (wireless !! "channel" ≫= as_u32) 0%N |}.
Definition matches_access_point (m : WifiProfileMatch) (ap : AccessPoint) : bool :=
  bool_decide (pm_ssid_bytes m = ssid_bytes_or_display (ap_ssid_bytes ap) (ap_ssid ap))
  && match pm_bssid_bytes m with Some saved => bssid_bytes_match saved (ap_bssid ap) | None => true end
  && ap_matches_band_channel ap (pm_band m) (pm_channel m).
Definition settings_match_access_point (settings : ConnectionSettings) (ap : AccessPoint) : bool :=
  match match_from_settings settings with Some m => matches_access_point m ap | None => false end.
Definition settings_match_wifi_ssid (settings : ConnectionSettings) (bytes : list u8) : bool :=
  match wifi_settings_section settings with
  | Some wireless => bool_decide (wireless !! "ssid" ≫= value_bytes = Some bytes)
  | None => false
  end.

Definition privacy_from_settings (settings : ConnectionSettings) : ProfilePrivacy :=
  let policy := wireless ← settings !! WIRELESS;
                opt_or (setting_text wireless "assigned-mac-address")
                  (setting_text wireless "cloned-mac-address") in
  let mac := unwrap_or policy "default" in
  let send section := unwrap_or (setting as_bool (section_of section settings) "dhcp-send-hostname") true in
  {| mac_address_policy := mac;
     randomized_mac := bool_decide (mac ∈ ["random"; "stable"]);
     send_hostname := send "ipv4" || send "ipv6" |}.

Definition saved_wifi_connection_from_settings (path : string) (settings : ConnectionSettings) :
    option SavedWifiConnection :=
  connection ← settings !! "connection";
  wireless ← settings !! WIRELESS;
  let wifi := match connection !! "type" ≫= value_text with
              | Some t => bool_decide (t = WIRELESS)
              | None => true
              end in
  if negb wifi then None
  else
    let ssid_bytes := unwrap_or (wireless !! "ssid" ≫= value_bytes) [] in
    Some {| sw_path := path;
            sw_id := unwrap_or (setting_text connection "id") path;
            sw_ssid := display_ssid ssid_bytes;
            sw_ssid_bytes := ssid_bytes;
            sw_remember := None;
            sw_autoconnect := unwrap_or (connection !! "autoconnect" ≫= as_bool) true;
            sw_casting_enabled := casting_enabled_from_settings settings;
            sw_privacy := privacy_from_settings settings |}.

Record SavedWifiProfileCandidate := { pc_profile : SavedWifiConnection; pc_matcher : WifiProfileMatch }.
Definition saved_wifi_profile_candidate_from_settings (path : string) (settings : ConnectionSettings) :
    option SavedWifiProfileCandidate :=
  profile ← saved_wifi_connection_from_settings path settings;
  matcher ← match_from_settings settings;
  Some {| pc_profile := profile; pc_matcher := matcher |}.

Definition hidden_from_settings (settings : ConnectionSettings) : bool :=
  unwrap_or (setting as_bool (section_of WIRELESS settings) "hidden") false.
Definition section_has_key (settings : ConnectionSettings) (section key : string) : bool :=
  bool_decide (is_Some (section_of section settings !! key)).

Definition metered_from_settings (connection : gmap string value) : string :=
  let n := unwrap_or (connection !! "metered" ≫= as_u32) 0%N in
  if bool_decide (n ∈ [1; 3]%N) then "yes" else if bool_decide (n ∈ [2; 4]%N) then "no" else "auto".
Definition profile_metered_code (v : string) : result N Error :=
  if bool_decide (v ∈ [""; "auto"; "unknown"]) then Ok 0%N
  else if bool_decide (v ∈ ["yes"; "on"; "true"]) then Ok 1%N
  else if bool_decide (v ∈ ["no"; "off"; "false"]) then Ok 2%N
  else Err (EDomain (with_detail "value" (JStr v) (with_detail "field" (JStr "metered")
              (validation Op.ProfileOperation "metered must be auto, yes, or no")))).

(** ** Secrets of a profile *)

Definition setting_secret_string (settings : ConnectionSettings) (secrets : option ConnectionSettings)
    (setting_name key : string) : option string :=
  let from_secrets := secrets ← secrets; section ← secrets !! setting_name; setting_text section key in
  let from_settings := section ← settings !! setting_name; setting_text section key in
  non_empty (opt_or from_secrets from_settings).
Definition secret_string (settings : ConnectionSettings) (secrets : option ConnectionSettings)
    (key : string) : option string := setting_secret_string settings secrets SECURITY key.

Definition has_wep_settings (settings : ConnectionSettings) (secrets : option ConnectionSettings) : bool :=
  existsb (λ key, bool_decide (is_Some (secret_string settings secrets key))
                  || section_has_key settings SECURITY (key +:+ "-flags")) WEP_KEYS
  || section_has_key settings SECURITY "wep-key-flags"
  || section_has_key settings SECURITY "wep-key-type"
  || section_has_key settings SECURITY "wep-tx-keyidx"
  || section_has_key settings SECURITY "auth-alg"
  || bool_decide (setting value_string (section_of SECURITY settings) "key-mgmt" = Some "none").

(** [str::contains]. *)
Fixpoint bytes_contain (needle : string) (l : list u8) : bool :=
  starts_with needle (of_bytes l) || match l with [] => false | _ :: l => bytes_contain needle l end.
Definition str_contains (needle s : string) : bool := bytes_contain needle (as_bytes s).

Module Kind.
Inductive WifiSecretKind := None | Personal | Leap | Wep | Enterprise.
#[global] Instance eq_dec : EqDecision WifiSecretKind.
Proof. solve_decision. Defined.
End Kind.
Export Kind (WifiSecretKind).

Definition access_point_secret_kind (ap : option AccessPoint) : WifiSecretKind :=
  match (λ ap, security_class (ap_flags ap) (ap_wpa_flags ap) (ap_rsn_flags ap)) <$> ap with
  | Some Class.Personal => Kind.Personal
  | Some Class.Legacy => Kind.Wep
  | Some Class.Enterprise => Kind.Enterprise
  | _ => Kind.None
  end.
Definition wifi_secret_kind (security : gmap string value) (ap : option AccessPoint) : WifiSecretKind :=
  let key_mgmt := unwrap_or (setting_text security "key-mgmt") "" in
  if bool_decide (key_mgmt = "owe") then Kind.None
  else if bool_decide (key_mgmt ∈ ["wpa-psk"; "sae"]) then Kind.Personal
  else if bool_decide (key_mgmt = "ieee8021x") && bool_decide (setting_text security "auth-alg" = Some "leap")
  then Kind.Leap
  else if str_contains "eap" key_mgmt then Kind.Enterprise
  else if bool_decide (key_mgmt ∈ ["none"; ""]) then Kind.Wep
  else access_point_secret_kind ap.

Definition wep_secret_key (security : option (gmap string value)) : string :=
  let index := N.min (unwrap_or (security ≫= λ s, setting as_u32 s "wep-tx-keyidx") 0%N) 3 in
  nth (N.to_nat index) WEP_KEYS "".

Definition secret_flags (settings : ConnectionSettings) (setting_name flags_key : string) : N :=
  unwrap_or (setting as_u32 (section_of setting_name settings) flags_key) 0%N.

Definition required_secret_needs_agent (settings : ConnectionSettings) (secrets : option ConnectionSettings)
    (setting_name secret_key flags_key : string) : bool :=
  let flags := secret_flags settings setting_name flags_key in
  if negb (N.land flags NM_SECRET_FLAG_NOT_REQUIRED =? 0)%N then false
  else if negb (N.land flags (N.lor NM_SECRET_FLAG_AGENT_OWNED NM_SECRET_FLAG_NOT_SAVED) =? 0)%N then true
  else bool_decide (is_Some secrets)
       && negb (bool_decide (is_Some (setting_secret_string settings secrets setting_name secret_key))).

Definition wep_secret_needs_agent (settings : ConnectionSettings) (secrets : option ConnectionSettings)
    (security : gmap string value) : bool :=
  let key := wep_secret_key (Some security) in
  required_secret_needs_agent settings secrets SECURITY key (key +:+ "-flags").

Definition enterprise_secret_needs_agent (settings : ConnectionSettings)
    (secrets : option ConnectionSettings) : bool :=
  match settings !! ENTERPRISE with
  | None => true
  | Some section =>
    let has key := bool_decide (is_Some (section !! key)) in
    let eap := unwrap_or (section !! "eap" ≫= value_list value_string) [] in
    let password_method :=
      bool_decide (eap = [])
      || existsb (λ m, bool_decide (m ∈ ["fast"; "leap"; "peap"; "pwd"; "ttls"])) eap in
    existsb (λ '(secret_key, flags_key, relevant), relevant &&
               required_secret_needs_agent settings secrets ENTERPRISE secret_key flags_key)
      [("password", "password-flags", password_method);
       ("private-key-password", "private-key-password-flags",
        has "private-key-password" || has "private-key-password-flags");
       ("pin", "pin-flags", has "pin" || has "pin-flags")]
  end.

Definition wifi_settings_need_secret_agent (settings : ConnectionSettings)
    (secrets : option ConnectionSettings) (ap : option AccessPoint) : bool :=
  match settings !! SECURITY with
  | None => false
  | Some security =>
    match wifi_secret_kind security ap with
    | Kind.None => false
    | Kind.Personal => required_secret_needs_agent settings secrets SECURITY "psk" "psk-flags"
    | Kind.Leap =>
      required_secret_needs_agent settings secrets SECURITY "leap-password" "leap-password-flags"
    | Kind.Wep => wep_secret_needs_agent settings secrets security
    | Kind.Enterprise => enterprise_secret_needs_agent settings secrets
    end
  end.

(** ** Sharing *)

Definition unshareable_payload (profile : SavedWifiConnection) (reason : string) : WifiSharePayload := {|
  wsp_status := "unavailable"; wsp_shareable := false; wsp_reason := Some reason;
  wsp_path := sw_path profile; wsp_id := sw_id profile; wsp_ssid := sw_ssid profile;
  wsp_auth_type := None; wsp_qr_payload := None; wsp_qr_svg := None; wsp_password := None;
  wsp_version := None |}.

Section Sharing.
(** The QR encoder. *)
Context (qrcode : string → result string Error).

Definition secret_payload (profile : SavedWifiConnection) (auth_type secret_key : string)
    (settings : ConnectionSettings) (secrets : option ConnectionSettings) (hidden : bool) :
    WifiSharePayload :=
  match secret_string settings secrets secret_key with
  | None => unshareable_payload profile
      ("saved " +:+ auth_type +:+ " password is not readable from NetworkManager")
  | Some password => share_payload qrcode profile auth_type (Some password) hidden
  end.

Definition share_payload_for_key_mgmt (profile : SavedWifiConnection) (settings : ConnectionSettings)
    (secrets : option ConnectionSettings) (hidden : bool) (security : option (gmap string value))
    (key_mgmt : string) : WifiSharePayload :=
  if bool_decide (key_mgmt ∈ ["wpa-psk"; "sae"]) then
    secret_payload profile "WPA" "psk" settings secrets hidden
  else if bool_decide (key_mgmt ∈ ["none"; ""]) && has_wep_settings settings secrets then
    secret_payload profile "WEP" (wep_secret_key security) settings secrets hidden
  else if bool_decide (key_mgmt ∈ ["none"; ""]) then share_payload qrcode profile "nopass" None hidden
  else if bool_decide (key_mgmt = "owe") then share_payload qrcode profile "nopass" None hidden
  else if str_contains "eap" key_mgmt then
    unshareable_payload profile "enterprise Wi-Fi QR sharing is not supported"
  else unshareable_payload profile ("unsupported Wi-Fi security type: " +:+ key_mgmt).

Definition wifi_share_payload_for_settings (profile : SavedWifiConnection) (settings : ConnectionSettings)
    (secrets : option ConnectionSettings) : WifiSharePayload :=
  let hidden := hidden_from_settings settings in
  let security := settings !! SECURITY in
  let key_mgmt := unwrap_or (security ≫= λ s, setting_text s "key-mgmt") "" in
  if negb (bool_decide (is_Some security))
     || (bool_decide (key_mgmt = "") && negb (has_wep_settings settings secrets))
  then share_payload qrcode profile "nopass" None hidden
  else share_payload_for_key_mgmt profile settings secrets hidden security key_mgmt.
End Sharing.

Definition security_type_from_settings (settings : ConnectionSettings) : string :=
  match settings !! SECURITY with
  | None => "Open"
  | Some security =>
    let v := unwrap_or (setting_text security "key-mgmt") "" in
    if bool_decide (v = "wpa-psk") then "WPA/WPA2 Personal"
    else if bool_decide (v = "sae") then "WPA3 Personal"
    else if bool_decide (v = "owe") then "Enhanced Open (OWE)"
    else if bool_decide (v ∈ ["none"; ""]) && has_wep_settings settings None then "WEP"
    else if str_contains "eap" v then "WPA Enterprise"
    else if negb (bool_decide (v = "")) then v
    else "Open"
  end.

(** ** The version of a profile *)

(** [{hash:016x}]. *)
Fixpoint hex_digits (n : nat) (v : N) : list u8 :=
  match n with O => [] | S n => hex_digits n (v / 16) ++ [hex_digit (v mod 16)] end.

Definition fnv1a (hash : N) (b : u8) : N := ((N.lxor hash (N_of_ascii b) * 0x100000001b3) mod 2 ^ 64)%N.

Definition VOLATILE_CONNECTION_KEYS : list string := ["timestamp"].

(** [BTreeMap] of a hash map's entries. *)
Definition btree_of {V} (m : gmap string V) : list (string * V) :=
  foldl (λ t kv, bt_insert kv.1 kv.2 t) [] (map_to_list m).

Section Version.
Context (debug : value → string).

Definition canonical_section (name : string) (s : gmap string value) : list (string * string) :=
  btree_of (debug <$> filter (λ kv, negb (bool_decide (name = "connection")
                                          && bool_decide (kv.1 ∈ VOLATILE_CONNECTION_KEYS))) s).
Definition canonical (settings : ConnectionSettings) : list (string * list (string * string)) :=
  btree_of (map_imap (λ name s, Some (canonical_section name s)) settings).

Definition hash_entry (hash : N) (kv : string * string) : N :=
  foldl fnv1a hash (as_bytes kv.1 ++ as_bytes kv.2).
Definition profile_version (settings : ConnectionSettings) : string :=
  of_bytes (hex_digits 16
    (foldl (λ hash ns, foldl hash_entry (foldl fnv1a hash (as_bytes ns.1)) ns.2)
       0xcbf29ce484222325%N (canonical settings))).

Definition check_expected_version (settings : ConnectionSettings) (expected : option string) :
    result unit Error :=
  match expected with
  | None => Ok tt
  | Some expected =>
    let current := profile_version settings in
    ensure (bool_decide (current = expected))
      (EDomain (with_detail "current_version" (JStr current) (with_detail "expected_version" (JStr expected)
         (conflict Op.ProfileOperation
            "the saved profile changed since it was read; reload it and retry"))))
  end.
End Version.

(** ** Editing *)

(** Fields whose default value means clear. *)
Definition set_clearable {A} (key : string) (v : option A) (default : bool) (encode : A → value)
    (s : gmap string value) : gmap string value :=
  match v with
  | None => s
  | Some v => if default then delete key s else <[key := encode v]> s
  end.
Definition clear_text (key : string) (v : option string) : gmap string value → gmap string value :=
  set_clearable key v (bool_decide (v = Some "")) VStr.
Definition clear_strings (key : string) (v : option (list string)) : gmap string value → gmap string value :=
  set_clearable key v (bool_decide (v = Some [])) of_strings.
Definition clear_u32 (key : string) (v : option N) : gmap string value → gmap string value :=
  set_clearable key v (bool_decide (v = Some 0%N)) VU32.

Record ProfileEnterpriseUpdate := {
  pe_eap : option (list string);
  pe_identity : option string;
  pe_anonymous_identity : option string;
  pe_domain_suffix_match : option string;
  pe_domain_match : option string;
  pe_subject_match : option string;
  pe_altsubject_matches : option (list string);
  pe_ca_cert : option string;
  pe_ca_path : option string;
  pe_phase2_ca_path : option string;
  pe_system_ca_certs : option bool;
  pe_client_cert : option string;
  pe_private_key : option string;
  pe_phase1_peapver : option string;
  pe_phase1_peaplabel : option string;
  pe_phase1_fast_provisioning : option string;
  pe_phase1_auth_flags : option N;
  pe_phase2_auth : option string;
  pe_phase2_autheap : option string;
  pe_phase2_ca_cert : option string;
  pe_phase2_client_cert : option string;
  pe_phase2_private_key : option string;
  pe_phase2_domain_suffix_match : option string;
  pe_phase2_subject_match : option string;
  pe_phase2_altsubject_matches : option (list string);
  pe_pac_file : option string;
  pe_password_flags : option N;
  pe_private_key_password_flags : option N;
  pe_phase2_private_key_password_flags : option N;
  pe_ca_cert_password_flags : option N;
  pe_client_cert_password_flags : option N;
  pe_pin_flags : option N;
}.

Record WifiProfileAdvancedUpdate := {
  pa_autoconnect_priority : option Z;
  pa_bssid : option string;
  pa_mac_address : option string;
  pa_cloned_mac_address : option string;
  pa_mtu : option N;
  pa_mode : option string;
  pa_band : option WifiBand;
  pa_channel : option N;
  pa_permissions : option (list string);
  pa_casting_enabled : option bool;
  pa_firewall_zone : option string;
  pa_secondaries : option (list string);
  pa_ipv4_dhcp_client_id : option string;
  pa_ipv4_dhcp_hostname : option string;
  pa_ipv4_dad_timeout : option Z;
  pa_ipv4_never_default : option bool;
  pa_ipv6_never_default : option bool;
  pa_ipv4_ignore_auto_routes : option bool;
  pa_ipv6_ignore_auto_routes : option bool;
  pa_ipv4_may_fail : option bool;
  pa_ipv6_may_fail : option bool;
  pa_ipv6_privacy : option Z;
  pa_enterprise : option ProfileEnterpriseUpdate;
}.

Definition apply_connection_fields (u : WifiProfileAdvancedUpdate) (settings : ConnectionSettings) :
    ConnectionSettings :=
  let settings := update_section "connection" (λ s,
    clear_strings "secondaries" (pa_secondaries u)
      (clear_strings "permissions" (pa_permissions u)
         (clear_text "zone" (pa_firewall_zone u)
            (insert_optional_value "autoconnect-priority" (VI32 <$> pa_autoconnect_priority u) s)))) settings in
  match pa_casting_enabled u with Some enabled => set_casting_enabled enabled settings | None => settings end.

Definition validate_mode (mode : string) : result unit Error :=
  ensure (bool_decide (mode ∈ [""; "infrastructure"; "ap"; "mesh"]))
    (EDomain (with_detail "value" (JStr mode) (invalid_field "advanced.mode"
       "Wi-Fi mode must be infrastructure, ap, or mesh"))).
Definition validate_wireless_update (u : WifiProfileAdvancedUpdate) : result unit Error :=
  let? _ := match pa_mode u with Some mode => validate_mode mode | None => Ok tt end in
  match pa_band u, pa_channel u with
  | Some band, Some channel =>
    ensure (bool_decide (band = Auto) || (channel =? 0)%N || channel_is_in_band channel band)
      (EDomain (invalid_field "advanced.channel" "channel does not belong to the selected band"))
  | _, _ => Ok tt
  end.
Definition apply_cloned_address (cloned : option string) (s : gmap string value) : gmap string value :=
  match cloned with
  | None => s
  | Some _ => clear_text "assigned-mac-address" cloned
                (delete "mac-address-randomization" (delete "cloned-mac-address" s))
  end.
Definition apply_band (band : option WifiBand) (s : gmap string value) : gmap string value :=
  match band with
  | None => s
  | Some band => match band_nm_value band with
                 | Some v => <["band" := VStr v]> s
                 | None => delete "channel" (delete "band" s)
                 end
  end.
Definition apply_wireless_fields (u : WifiProfileAdvancedUpdate) (settings : ConnectionSettings) :
    result ConnectionSettings Error :=
  let? _ := validate_wireless_update u in
  Ok (update_section WIRELESS (λ s,
        let s := clear_text "bssid" (pa_bssid u) s in
        let s := clear_text "mac-address" (pa_mac_address u) s in
        let s := clear_text "mode" (pa_mode u) s in
        let s := apply_cloned_address (pa_cloned_mac_address u) s in
        let s := insert_optional_value "mtu" (VU32 <$> pa_mtu u) s in
        let s := apply_band (pa_band u) s in
        clear_u32 "channel" (pa_channel u) s) settings).

Definition apply_ip_fields (u : WifiProfileAdvancedUpdate) (settings : ConnectionSettings) :
    result ConnectionSettings Error :=
  let settings := update_section "ipv4" (λ s,
    let s := clear_text "dhcp-client-id" (pa_ipv4_dhcp_client_id u) s in
    let s := clear_text "dhcp-hostname" (pa_ipv4_dhcp_hostname u) s in
    let s := insert_optional_values [("never-default", VBool <$> pa_ipv4_never_default u);
               ("ignore-auto-routes", VBool <$> pa_ipv4_ignore_auto_routes u);
               ("may-fail", VBool <$> pa_ipv4_may_fail u)] s in
    insert_optional_value "dad-timeout" (VI32 <$> pa_ipv4_dad_timeout u) s) settings in
  let? _ := match pa_ipv6_privacy u with
            | Some privacy => ensure ((-1 <=? privacy) && (privacy <=? 2))%Z
                (EDomain (invalid_field "advanced.ipv6_privacy" "ipv6_privacy must be -1, 0, 1, or 2"))
            | None => Ok tt
            end in
  Ok (update_section "ipv6" (λ s,
        insert_optional_value "ip6-privacy" (VI32 <$> pa_ipv6_privacy u)
          (insert_optional_values [("never-default", VBool <$> pa_ipv6_never_default u);
             ("ignore-auto-routes", VBool <$> pa_ipv6_ignore_auto_routes u);
             ("may-fail", VBool <$> pa_ipv6_may_fail u)] s)) settings).

Definition SUPPORTED_EAP : list string := ["tls"; "peap"; "ttls"; "pwd"; "leap"; "fast"; "md5"].
Definition validate_eap_methods (eap : option (list string)) : result unit Error :=
  match eap with
  | None => Ok tt
  | Some eap =>
    match find_first (λ m, negb (bool_decide (m ∈ SUPPORTED_EAP))) eap with
    | Some unsupported =>
      Err (EDomain (with_detail "value" (JStr unsupported)
             (invalid_field "advanced.enterprise.eap" "unsupported 802.1X EAP method")))
    | None => Ok tt
    end
  end.
Definition clear_texts (l : list (string * option string)) (s : gmap string value) : gmap string value :=
  foldl (λ s kv, clear_text kv.1 kv.2 s) s l.
Fixpoint set_profile_certificates (l : list (string * option string)) (s : gmap string value) :
    result (gmap string value) Error :=
  match l with
  | [] => Ok s
  | (key, v) :: l =>
    let? s := set_certificate_reference key v Op.ProfileOperation s in set_profile_certificates l s
  end.
Definition apply_enterprise (u : ProfileEnterpriseUpdate) (settings : ConnectionSettings) :
    result ConnectionSettings Error :=
  let? _ := validate_eap_methods (pe_eap u) in
  let? _ := validate_peaplabel (pe_phase1_peaplabel u) Op.ProfileOperation in
  let s := section_of ENTERPRISE settings in
  let s := clear_strings "eap" (pe_eap u) s in
  let s := clear_strings "altsubject-matches" (pe_altsubject_matches u) s in
  let s := clear_strings "phase2-altsubject-matches" (pe_phase2_altsubject_matches u) s in
  let s := clear_texts
    [("identity", pe_identity u); ("anonymous-identity", pe_anonymous_identity u);
     ("domain-suffix-match", pe_domain_suffix_match u); ("domain-match", pe_domain_match u);
     ("subject-match", pe_subject_match u); ("ca-path", pe_ca_path u);
     ("phase2-ca-path", pe_phase2_ca_path u); ("phase1-peapver", pe_phase1_peapver u);
     ("phase1-peaplabel", pe_phase1_peaplabel u);
     ("phase1-fast-provisioning", pe_phase1_fast_provisioning u);
     ("phase2-auth", pe_phase2_auth u); ("phase2-autheap", pe_phase2_autheap u);
     ("phase2-domain-suffix-match", pe_phase2_domain_suffix_match u);
     ("phase2-subject-match", pe_phase2_subject_match u); ("pac-file", pe_pac_file u)] s in
  let? s := set_profile_certificates
    [("ca-cert", pe_ca_cert u); ("client-cert", pe_client_cert u); ("private-key", pe_private_key u);
     ("phase2-ca-cert", pe_phase2_ca_cert u); ("phase2-client-cert", pe_phase2_client_cert u);
     ("phase2-private-key", pe_phase2_private_key u)] s in
  let s := insert_optional_value "system-ca-certs" (VBool <$> pe_system_ca_certs u) s in
  let s := insert_optional_values
    [("phase1-auth-flags", VU32 <$> pe_phase1_auth_flags u); ("password-flags", VU32 <$> pe_password_flags u);
     ("private-key-password-flags", VU32 <$> pe_private_key_password_flags u);
     ("phase2-private-key-password-flags", VU32 <$> pe_phase2_private_key_password_flags u);
     ("ca-cert-password-flags", VU32 <$> pe_ca_cert_password_flags u);
     ("client-cert-password-flags", VU32 <$> pe_client_cert_password_flags u);
     ("pin-flags", VU32 <$> pe_pin_flags u)] s in
  Ok (<[ENTERPRISE := s]> settings).

Definition apply_advanced (u : WifiProfileAdvancedUpdate) (settings : ConnectionSettings) :
    result ConnectionSettings Error :=
  let settings := apply_connection_fields u settings in
  let? settings := apply_wireless_fields u settings in
  let? settings := apply_ip_fields u settings in
  let? settings := match pa_enterprise u with
                   | Some e => apply_enterprise e settings
                   | None => Ok settings
                   end in
  let? _ := validate_private_ca_paths settings Op.ProfileOperation in
  Ok settings.

(** ** Replacing secrets *)

Record ProfileSecretSpec := {
  ps_kind : string;
  ps_setting_name : option string;
  ps_secret_keys : list string;
  ps_primary_secret_key : option string;
}.
Definition profile_secret_spec_for (kind setting_name : string) (secret_keys : list string)
    (primary : string) : ProfileSecretSpec :=
  {| ps_kind := kind; ps_setting_name := Some setting_name; ps_secret_keys := secret_keys;
     ps_primary_secret_key := Some primary |}.
Definition enterprise_profile_secret_spec : ProfileSecretSpec :=
  profile_secret_spec_for "enterprise" ENTERPRISE (known_keys ENTERPRISE) "password".
Definition profile_secret_spec (settings : ConnectionSettings) : ProfileSecretSpec :=
  let security := settings !! SECURITY in
  let rest := if bool_decide (is_Some (settings !! ENTERPRISE)) then enterprise_profile_secret_spec
              else {| ps_kind := "none"; ps_setting_name := None; ps_secret_keys := [];
                      ps_primary_secret_key := None |} in
  match (λ s, wifi_secret_kind s None) <$> security with
  | Some Kind.Personal => profile_secret_spec_for "password" SECURITY ["psk"] "psk"
  | Some Kind.Leap => profile_secret_spec_for "enterprise" SECURITY ["leap-password"] "leap-password"
  | Some Kind.Wep => if has_wep_settings settings None
                     then profile_secret_spec_for "wep-key" SECURITY WEP_KEYS (wep_secret_key security)
                     else rest
  | Some Kind.Enterprise => enterprise_profile_secret_spec
  | _ => rest
  end.

Definition profile_secret_values (settings : ConnectionSettings) (secrets : option ConnectionSettings)
    (spec : ProfileSecretSpec) : list (string * string) :=
  match ps_setting_name spec with
  | None => []
  | Some setting_name =>
    foldl (λ m kv, bt_insert kv.1 kv.2 m) []
      (omap (λ key, (λ v, (key, v)) <$> setting_secret_string settings secrets setting_name key)
         (ps_secret_keys spec))
  end.

Record WifiProfileUpdate := {
  wu_autoconnect : bool;
  wu_metered : string;
  wu_hidden : bool;
  wu_mac_address_policy : string;
  wu_send_hostname : bool;
  wu_ipv4 : TargetIpSettings;
  wu_ipv6 : TargetIpSettings;
  wu_password : option string;
  wu_secrets : list (string * string);
  wu_expected_version : option string;
  wu_advanced : WifiProfileAdvancedUpdate;
}.

Definition secret_replacements (spec : ProfileSecretSpec) (u : WifiProfileUpdate) : list (string * string) :=
  match ps_primary_secret_key spec, non_empty (wu_password u) with
  | Some primary, Some password =>
    if bool_decide (is_Some (bt_get primary (wu_secrets u))) then wu_secrets u
    else wu_secrets u ++ [(primary, password)]
  | _, _ => wu_secrets u
  end.

Definition validate_profile_secret (settings : ConnectionSettings) (spec : ProfileSecretSpec)
    (key v : string) : result unit Error :=
  let field := if bool_decide (ps_kind spec = "password") then "secrets.psk" else "secrets" in
  if bool_decide (ps_kind spec = "password") && bool_decide (key = "psk") then
    validate_password_format WpaPsk v Op.ProfileOperation field
  else if bool_decide (ps_kind spec = "wep-key") && starts_with "wep-key" key then
    let phrase := bool_decide (setting as_u32 (section_of SECURITY settings) "wep-key-type" = Some 2%N) in
    validate_password_format (WepFormat (if phrase then Phrase else Key)) v Op.ProfileOperation field
  else Ok tt.
Definition validate_replacement (settings : ConnectionSettings) (spec : ProfileSecretSpec)
    (kv : string * string) : result unit Error :=
  let? _ := ensure (bool_decide (kv.1 ∈ ps_secret_keys spec))
              (EDomain (with_detail "allowed_secret_keys" (JArr (JStr <$> ps_secret_keys spec))
                 (invalid_field ("secrets." +:+ kv.1)
                    ("secret '" +:+ kv.1 +:+ "' is not valid for this Wi-Fi profile")))) in
  let? _ := ensure (negb (bool_decide (kv.2 = "")))
              (EDomain (invalid_field ("secrets." +:+ kv.1) ("secret '" +:+ kv.1 +:+ "' must not be empty"))) in
  validate_profile_secret settings spec kv.1 kv.2.

Fixpoint replace_secrets (setting_name : string) (l : list (string * string)) (settings : ConnectionSettings) :
    result ConnectionSettings Error :=
  match l with
  | [] => Ok settings
  | (key, v) :: l =>
    let? settings := set_system_owned settings setting_name key in
    let? settings := set_text settings setting_name key v in
    replace_secrets setting_name l settings
  end.
Definition update_profile_secrets (u : WifiProfileUpdate) (settings : ConnectionSettings) :
    result ConnectionSettings Error :=
  let spec := profile_secret_spec settings in
  let replacements := secret_replacements spec u in
  if bool_decide (replacements = []) then
    let? _ := ensure (negb (bool_decide (is_Some (non_empty (wu_password u)))))
                (plain "this Wi-Fi profile has no editable primary secret") in
    Ok settings
  else
    let? setting_name := ok_or (ps_setting_name spec)
                           (EDomain (invalid_field "secrets" "this Wi-Fi profile does not have editable secrets")) in
    let? _ := try_for_each (validate_replacement settings spec) replacements in
    replace_secrets setting_name replacements settings.

(** ** The whole update *)

Definition MAC_POLICIES : list string := ["default"; "stable"; "random"; "permanent"].

Definition validate_profile_update (u : WifiProfileUpdate) : result unit Error :=
  let? _ := ensure (bool_decide (wu_mac_address_policy u ∈ MAC_POLICIES))
              (EDomain (invalid_field "mac_address_policy"
                 "MAC address policy must be default, stable, random, or permanent")) in
  let? _ := profile_metered_code (wu_metered u) in
  let? _ := validate_ip_settings "ipv4" (wu_ipv4 u) false in
  validate_ip_settings "ipv6" (wu_ipv6 u) true.

Definition apply_mac_address_policy (policy : string) : ConnectionSettings → ConnectionSettings :=
  update_section WIRELESS (λ s,
    let s := delete "mac-address-randomization" (delete "cloned-mac-address" (delete "assigned-mac-address" s)) in
    if bool_decide (policy = "default") then s else <["assigned-mac-address" := VStr policy]> s).

(** The edit [update_wifi_profile_by_path] makes under its transaction. *)
Definition apply_profile_update (debug : value → string) (u : WifiProfileUpdate)
    (settings : ConnectionSettings) : result ConnectionSettings Error :=
  let? _ := check_expected_version debug settings (wu_expected_version u) in
  let? code := profile_metered_code (wu_metered u) in
  let settings := update_section "connection"
    (λ s, <["metered" := VU32 code]> (<["autoconnect" := VBool (wu_autoconnect u)]> s)) settings in
  let settings := update_section WIRELESS (λ s, <["hidden" := VBool (wu_hidden u)]> s) settings in
  let settings := apply_mac_address_policy (wu_mac_address_policy u) settings in
  let settings := set_send_hostname "ipv4" (wu_send_hostname u) settings in
  let settings := set_send_hostname "ipv6" (wu_send_hostname u) settings in
  let settings := replace "ipv4" (wu_ipv4 u) settings in
  let settings := replace "ipv6" (wu_ipv6 u) settings in
  let? settings := apply_advanced (wu_advanced u) settings in
  update_profile_secrets u settings.

(** ** The details for the editor *)

Record SecretFlags := { sf_code : N; sf_agent_owned : bool; sf_not_saved : bool; sf_not_required : bool }.
Definition secret_flags_from_code (code : N) : SecretFlags :=
  {| sf_code := code; sf_agent_owned := negb (N.land code 1 =? 0)%N;
     sf_not_saved := negb (N.land code 2 =? 0)%N; sf_not_required := negb (N.land code 4 =? 0)%N |}.

Record ProfileEnterpriseSettings := {
  es_eap : list string;
  es_identity : option string;
  es_anonymous_identity : option string;
  es_domain_suffix_match : option string;
  es_domain_match : option string;
  es_subject_match : option string;
  es_altsubject_matches : list string;
  es_ca_cert : option string;
  es_ca_path : option string;
  es_phase2_ca_path : option string;
  es_system_ca_certs : bool;
  es_client_cert : option string;
  es_private_key : option string;
  es_phase1_peapver : option string;
  es_phase1_peaplabel : option string;
  es_phase1_fast_provisioning : option string;
  es_phase1_auth_flags : option N;
  es_phase2_auth : option string;
  es_phase2_autheap : option string;
  es_phase2_ca_cert : option string;
  es_phase2_client_cert : option string;
  es_phase2_private_key : option string;
  es_phase2_domain_suffix_match : option string;
  es_phase2_subject_match : option string;
  es_phase2_altsubject_matches : list string;
  es_pac_file : option string;
  es_password_flags : SecretFlags;
  es_private_key_password_flags : SecretFlags;
  es_phase2_private_key_password_flags : SecretFlags;
  es_ca_cert_password_flags : SecretFlags;
  es_client_cert_password_flags : SecretFlags;
  es_pin_flags : SecretFlags;
}.

Definition profile_text (s : gmap string value) (key : string) : option string :=
  non_empty (setting_text s key).

(** [bytes.strip_suffix(&[0])]. *)
Definition strip_nul (b : list u8) : list u8 :=
  match reverse b with z :: r => if bool_decide (z = byte 0) then reverse r else b | [] => b end.
Definition blob (s : gmap string value) (key : string) : option string :=
  bytes ← s !! key ≫= value_bytes;
  let bytes := strip_nul bytes in
  if bool_decide (bytes = []) then None
  else if utf8_valid bytes then Some (of_bytes bytes)
  else Some ("blob:" +:+ pretty (length bytes) +:+ " bytes").

Definition read_enterprise (settings : ConnectionSettings) : option ProfileEnterpriseSettings :=
  s ← settings !! ENTERPRISE;
  let flags key := secret_flags_from_code (unwrap_or (setting as_u32 s key) 0%N) in
  Some {|
    es_eap := setting_strings s "eap";
    es_identity := profile_text s "identity";
    es_anonymous_identity := profile_text s "anonymous-identity";
    es_domain_suffix_match := profile_text s "domain-suffix-match";
    es_domain_match := profile_text s "domain-match";
    es_subject_match := profile_text s "subject-match";
    es_altsubject_matches := setting_strings s "altsubject-matches";
    es_ca_cert := blob s "ca-cert";
    es_ca_path := profile_text s "ca-path";
    es_phase2_ca_path := profile_text s "phase2-ca-path";
    es_system_ca_certs := unwrap_or (setting as_bool s "system-ca-certs") false;
    es_client_cert := blob s "client-cert";
    es_private_key := blob s "private-key";
    es_phase1_peapver := profile_text s "phase1-peapver";
    es_phase1_peaplabel := profile_text s "phase1-peaplabel";
    es_phase1_fast_provisioning := profile_text s "phase1-fast-provisioning";
    es_phase1_auth_flags := setting as_u32 s "phase1-auth-flags";
    es_phase2_auth := profile_text s "phase2-auth";
    es_phase2_autheap := profile_text s "phase2-autheap";
    es_phase2_ca_cert := blob s "phase2-ca-cert";
    es_phase2_client_cert := blob s "phase2-client-cert";
    es_phase2_private_key := blob s "phase2-private-key";
    es_phase2_domain_suffix_match := profile_text s "phase2-domain-suffix-match";
    es_phase2_subject_match := profile_text s "phase2-subject-match";
    es_phase2_altsubject_matches := setting_strings s "phase2-altsubject-matches";
    es_pac_file := profile_text s "pac-file";
    es_password_flags := flags "password-flags";
    es_private_key_password_flags := flags "private-key-password-flags";
    es_phase2_private_key_password_flags := flags "phase2-private-key-password-flags";
    es_ca_cert_password_flags := flags "ca-cert-password-flags";
    es_client_cert_password_flags := flags "client-cert-password-flags";
    es_pin_flags := flags "pin-flags" |}.

Record WifiProfileDetails := {
  wd_path : string;
  wd_id : string;
  wd_uuid : string;
  wd_ssid : string;
  wd_version : string;
  wd_autoconnect : bool;
  wd_autoconnect_priority : Z;
  wd_metered : string;
  wd_hidden : bool;
  wd_mac_address_policy : string;
  wd_cloned_mac_address : option string;
  wd_mac_address : option string;
  wd_bssid : option string;
  wd_mtu : option N;
  wd_mode : string;
  wd_band : WifiBand;
  wd_channel : option N;
  wd_send_hostname : bool;
  wd_casting_enabled : bool;
  wd_permissions : list string;
  wd_firewall_zone : option string;
  wd_secondaries : list string;
  wd_security_type : string;
  wd_enterprise : option ProfileEnterpriseSettings;
  wd_ipv4 : ProfileIpSettings;
  wd_ipv6 : ProfileIpSettings;
}.

Definition positive (o : option N) : option N :=
  match o with Some n => if (0 <? n)%N then Some n else None | None => None end.
Definition literal_mac (o : option string) : option string :=
  match o with Some v => if bool_decide (v ∈ MAC_POLICIES) then None else Some v | None => None end.

Definition wifi_profile_details (debug : value → string) (path : string) (settings : ConnectionSettings) :
    result WifiProfileDetails Error :=
  let? profile := ok_or (saved_wifi_connection_from_settings path settings)
                    (EDomain (not_found Op.ProfileOperation
                       ("connection is not a saved Wi-Fi profile: " +:+ path))) in
  let connection := section_of "connection" settings in
  let wireless := section_of WIRELESS settings in
  Ok {|
    wd_path := sw_path profile;
    wd_id := sw_id profile;
    wd_uuid := unwrap_or (setting_text connection "uuid") "";
    wd_ssid := sw_ssid profile;
    wd_version := profile_version debug settings;
    wd_autoconnect := sw_autoconnect profile;
    wd_autoconnect_priority := unwrap_or (setting_i32 connection "autoconnect-priority") 0%Z;
    wd_metered := metered_from_settings connection;
    wd_hidden := unwrap_or (setting as_bool wireless "hidden") false;
    wd_mac_address_policy := mac_address_policy (sw_privacy profile);
    wd_cloned_mac_address := literal_mac (setting_text wireless "assigned-mac-address");
    wd_mac_address := profile_text wireless "mac-address";
    wd_bssid := profile_text wireless "bssid";
    wd_mtu := positive (setting as_u32 wireless "mtu");
    wd_mode := unwrap_or (profile_text wireless "mode") "infrastructure";
    wd_band := unwrap_or (band_from_nm_value <$> profile_text wireless "band") Auto;
    wd_channel := positive (setting as_u32 wireless "channel");
    wd_send_hostname := send_hostname (sw_privacy profile);
    wd_casting_enabled := sw_casting_enabled profile;
    wd_permissions := setting_strings connection "permissions";
    wd_firewall_zone := non_empty (setting_text connection "zone");
    wd_secondaries := setting_strings connection "secondaries";
    wd_security_type := security_type_from_settings settings;
    wd_enterprise := read_enterprise settings;
    wd_ipv4 := profile_ip_settings settings "ipv4";
    wd_ipv6 := profile_ip_settings settings "ipv6" |}.

(** ** Lemmas: what an edit leaves alone *)

Lemma set_clearable_ne {A} key k (v : option A) b enc (s : gmap string value) :
  k ≠ key → set_clearable key v b enc s !! k = s !! k.
Proof.
  intros Hk. unfold set_clearable. destruct v; [|done].
  destruct b; [by rewrite lookup_delete_ne|by rewrite lookup_insert_ne].
Qed.

Lemma insert_optional_values_ne l k (s : gmap string value) :
  k ∉ l.*1 → insert_optional_values l s !! k = s !! k.
Proof.
  unfold insert_optional_values. revert s. induction l as [|[j v] l IH]; intros s Hk; [done|]. cbn in *.
  rewrite IH by set_solver. apply insert_optional_value_ne. set_solver.
Qed.

(** Two settings have the same values under the keys of a section but [except]. *)
Definition agree (section : string) (except : list string) (c c' : ConnectionSettings) : Prop :=
  ∀ k, k ∉ except → section_of section c' !! k = section_of section c !! k.

Lemma agree_same section except c c' : c' !! section = c !! section → agree section except c c'.
Proof. intros H k _. unfold section_of. by rewrite H. Qed.
Lemma agree_trans section except c1 c2 c3 :
  agree section except c1 c2 → agree section except c2 c3 → agree section except c1 c3.
Proof. intros H1 H2 k Hk. by rewrite H2, H1. Qed.
Lemma agree_update section except f c :
  (∀ k s, k ∉ except → f s !! k = s !! k) → agree section except c (update_section section f c).
Proof. intros H k Hk. rewrite section_of_update_eq. by apply H. Qed.
Lemma agree_update_ne section n except f c : section ≠ n → agree section except c (update_section n f c).
Proof. intros H. apply agree_same. by apply update_section_ne. Qed.

Definition CONNECTION_FIELDS : list string :=
  ["autoconnect-priority"; "zone"; "permissions"; "secondaries"; "mdns"].
Definition WIRELESS_FIELDS : list string :=
  ["bssid"; "mac-address"; "mode"; "assigned-mac-address"; "cloned-mac-address"; "mac-address-randomization";
   "mtu"; "band"; "channel"].
Definition IP_FIELDS : list string :=
  ["dhcp-client-id"; "dhcp-hostname"; "never-default"; "ignore-auto-routes"; "may-fail"; "dad-timeout"; "ip6-privacy"].
Definition fields_of (section : string) : list string :=
  if bool_decide (section = "connection") then CONNECTION_FIELDS
  else if bool_decide (section = WIRELESS) then WIRELESS_FIELDS
  else IP_FIELDS.

Ltac other_keys :=
  intros k s Hk; cbv beta zeta; unfold clear_text, clear_strings, clear_u32;
  repeat first
    [ rewrite set_clearable_ne by set_solver
    | rewrite insert_optional_value_ne by set_solver
    | rewrite insert_optional_values_ne by set_solver
    | rewrite lookup_insert_ne by set_solver
    | rewrite lookup_delete_ne by set_solver ]; try done.

Lemma connection_fields_agree u section c :
  agree section (fields_of section) c (apply_connection_fields u c).
Proof.
  unfold apply_connection_fields. cbv zeta.
  match goal with |- context [update_section "connection" ?f c] => set (c1 := update_section "connection" f c) end.
  apply (agree_trans _ _ _ c1).
  - subst c1. destruct (decide (section = "connection")) as [->|]; [apply agree_update|by apply agree_update_ne].
    unfold fields_of. rewrite bool_decide_true by done. unfold CONNECTION_FIELDS. other_keys.
  - destruct (pa_casting_enabled u); [|by apply agree_same]. unfold set_casting_enabled.
    destruct (decide (section = "connection")) as [->|]; [apply agree_update|by apply agree_update_ne].
    unfold fields_of. rewrite bool_decide_true by done. unfold CONNECTION_FIELDS. other_keys.
Qed.

Lemma band_other band k (s : gmap string value) :
  k ∉ WIRELESS_FIELDS → apply_band band s !! k = s !! k.
Proof.
  unfold WIRELESS_FIELDS, apply_band. intros Hk. destruct band as [b|]; [|done]. destruct (band_nm_value b);
    [by rewrite lookup_insert_ne by set_solver|by rewrite !lookup_delete_ne by set_solver].
Qed.
Lemma cloned_other cloned k (s : gmap string value) :
  k ∉ WIRELESS_FIELDS → apply_cloned_address cloned s !! k = s !! k.
Proof.
  unfold WIRELESS_FIELDS, apply_cloned_address, clear_text. intros Hk. destruct cloned; [|done].
  rewrite set_clearable_ne by set_solver. by rewrite !lookup_delete_ne by set_solver.
Qed.

Lemma wireless_fields_agree u section c c' :
  apply_wireless_fields u c = Ok c' → agree section (fields_of section) c c'.
Proof.
  unfold apply_wireless_fields. intros H. unbind_all. simplify_eq.
  destruct (decide (section = WIRELESS)) as [->|]; [apply agree_update|by apply agree_update_ne].
  unfold fields_of. rewrite bool_decide_false, bool_decide_true by done.
  intros k s Hk. cbv beta zeta. unfold clear_u32, clear_text. rewrite set_clearable_ne by (unfold WIRELESS_FIELDS in Hk; set_solver).
  rewrite band_other by done. rewrite insert_optional_value_ne by (unfold WIRELESS_FIELDS in Hk; set_solver).
  rewrite cloned_other by done. unfold WIRELESS_FIELDS in Hk. by rewrite !set_clearable_ne by set_solver.
Qed.

Lemma ip_fields_agree u section c c' :
  apply_ip_fields u c = Ok c' → agree section (fields_of section) c c'.
Proof.
  unfold apply_ip_fields. intros H. unbind_all. injection H as <-.
  match goal with |- context [update_section "ipv4" ?f c] => set (c1 := update_section "ipv4" f c) end.
  apply (agree_trans _ _ _ c1).
  - subst c1. destruct (decide (section = "ipv4")) as [->|]; [apply agree_update|by apply agree_update_ne].
    unfold fields_of. rewrite !bool_decide_false by done. unfold IP_FIELDS. other_keys.
  - destruct (decide (section = "ipv6")) as [->|]; [apply agree_update|by apply agree_update_ne].
    unfold fields_of. rewrite !bool_decide_false by done. unfold IP_FIELDS. other_keys.
Qed.

Lemma enterprise_other u c c' n : apply_enterprise u c = Ok c' → n ≠ ENTERPRISE → c' !! n = c !! n.
Proof. unfold apply_enterprise. intros H Hn. unbind_all. simplify_eq. by rewrite lookup_insert_ne. Qed.

Lemma advanced_agree u section c c' :
  section ≠ ENTERPRISE → apply_advanced u c = Ok c' → agree section (fields_of section) c c'.
Proof.
  unfold apply_advanced. intros Hn H. unbind_all. simplify_eq.
  eapply agree_trans; [apply connection_fields_agree|].
  eapply agree_trans; [by eapply wireless_fields_agree|].
  eapply agree_trans; [by eapply ip_fields_agree|].
  destruct (pa_enterprise u); [|simplify_eq; by apply agree_same].
  apply agree_same. by eapply enterprise_other.
Qed.

(** Replacing secrets touches their section only. *)
Lemma set_system_owned_other c section key c' n :
  set_system_owned c section key = Ok c' → n ≠ section → c' !! n = c !! n.
Proof. unfold set_system_owned. intros H Hn. unbind_all. simplify_eq. by rewrite lookup_insert_ne. Qed.
Lemma replace_secrets_other name l c c' n :
  replace_secrets name l c = Ok c' → n ≠ name → c' !! n = c !! n.
Proof.
  revert c. induction l as [|[k v] l IH]; intros c; cbn; [naive_solver|]. intros H Hn. unbind_all.
  rewrite (IH _ H Hn). etrans; [by eapply set_text_other|by eapply set_system_owned_other].
Qed.
Lemma secret_spec_section c name : ps_setting_name (profile_secret_spec c) = Some name → name ∈ [SECURITY; ENTERPRISE].
Proof.
  unfold profile_secret_spec. intros H.
  destruct (_ <$> _) as [[]|]; repeat case_bool_decide; repeat destruct (has_wep_settings _ _);
    cbn in H; simplify_eq; set_solver.
Qed.
Lemma update_secrets_other u c c' n :
  update_profile_secrets u c = Ok c' → n ∉ [SECURITY; ENTERPRISE] → c' !! n = c !! n.
Proof.
  unfold update_profile_secrets. intros H Hn. destruct (bool_decide _); unbind_all; simplify_eq; [done|].
  eapply replace_secrets_other; [done|]. intros ->. apply Hn. by apply secret_spec_section with (c := c).
Qed.

(** ** Lemmas: reading after an edit *)

Definition ip_view (p : ProfileIpSettings) :=
  (pi_method p, pi_addresses p, pi_gateway p, pi_dns p, pi_routes p, pi_ignore_auto_dns p,
   pi_dns_search p, pi_route_metric p).
(** What an update asks to see of a section. *)
Definition update_view (u : TargetIpSettings) :=
  (unwrap_or (ti_method u) "auto", ti_addresses u, non_empty (ti_gateway u), ti_dns u,
   normal_route <$> ti_routes u, unwrap_or (ti_ignore_auto_dns u) false, ti_dns_search u,
   ti_route_metric u).

Lemma ip_view_agree section c c' :
  agree section IP_FIELDS c c' →
  ip_view (profile_ip_settings c' section) = ip_view (profile_ip_settings c section).
Proof.
  intros H. unfold ip_view, profile_ip_settings, setting_text, setting_strings, setting. cbn.
  rewrite !H by (vm_compute; set_solver). done.
Qed.

Definition normal_metered (v : string) : string :=
  if bool_decide (v ∈ ["yes"; "on"; "true"]) then "yes"
  else if bool_decide (v ∈ ["no"; "off"; "false"]) then "no" else "auto".

Lemma metered_roundtrip v code (s : gmap string value) :
  profile_metered_code v = Ok code → s !! "metered" = Some (VU32 code) →
  metered_from_settings s = normal_metered v.
Proof.
  unfold profile_metered_code, metered_from_settings, normal_metered. intros Hc ->. cbn.
  destruct (bool_decide (v ∈ [""; "auto"; "unknown"])) eqn:E1.
  - simplify_eq. rewrite !bool_decide_false; [done|..]; apply bool_decide_eq_true in E1;
      repeat (apply elem_of_cons in E1 as [->|E1]); try (by vm_compute; set_solver); set_solver.
  - destruct (bool_decide (v ∈ ["yes"; "on"; "true"])); [by simplify_eq|].
    destruct (bool_decide (v ∈ ["no"; "off"; "false"])); by simplify_eq.
Qed.

(** The settings just before the advanced fields. *)
Definition basic_update (u : WifiProfileUpdate) (code : N) (settings : ConnectionSettings) :
    ConnectionSettings :=
  replace "ipv6" (wu_ipv6 u) (replace "ipv4" (wu_ipv4 u)
    (set_send_hostname "ipv6" (wu_send_hostname u) (set_send_hostname "ipv4" (wu_send_hostname u)
      (apply_mac_address_policy (wu_mac_address_policy u)
        (update_section WIRELESS (λ s, <["hidden" := VBool (wu_hidden u)]> s)
          (update_section "connection"
            (λ s, <["metered" := VU32 code]> (<["autoconnect" := VBool (wu_autoconnect u)]> s)) settings)))))).

Lemma basic_connection u code c :
  section_of "connection" (basic_update u code c) =
  <["metered" := VU32 code]> (<["autoconnect" := VBool (wu_autoconnect u)]> (section_of "connection" c)).
Proof.
  unfold basic_update, replace, set_send_hostname, apply_mac_address_policy.
  by rewrite !section_of_update_ne, section_of_update_eq by done.
Qed.
Lemma basic_wireless u code c :
  section_of WIRELESS (basic_update u code c) =
  let s := delete "mac-address-randomization" (delete "cloned-mac-address" (delete "assigned-mac-address"
             (<["hidden" := VBool (wu_hidden u)]> (section_of WIRELESS c)))) in
  if bool_decide (wu_mac_address_policy u = "default") then s
  else <["assigned-mac-address" := VStr (wu_mac_address_policy u)]> s.
Proof.
  unfold basic_update, replace, set_send_hostname, apply_mac_address_policy.
  rewrite !section_of_update_ne by done. rewrite section_of_update_eq. cbv zeta.
  by rewrite section_of_update_eq, section_of_update_ne by done.
Qed.

Lemma replaced_hostname section u c :
  section_of section (replace section u c) !! "dhcp-send-hostname" = section_of section c !! "dhcp-send-hostname".
Proof. unfold replace. rewrite section_of_update_eq. apply replaced_other; [vm_compute; set_solver|done]. Qed.

Lemma basic_hostname u code c section :
  section = "ipv4" ∨ section = "ipv6" →
  section_of section (basic_update u code c) !! "dhcp-send-hostname" = Some (VBool (wu_send_hostname u)).
Proof.
  intros [->| ->]; unfold basic_update.
  - unfold replace at 1. rewrite section_of_update_ne by done. rewrite replaced_hostname.
    unfold set_send_hostname. rewrite section_of_update_ne, section_of_update_eq by done. apply lookup_insert_eq.
  - rewrite replaced_hostname. unfold replace. rewrite section_of_update_ne by done.
    unfold set_send_hostname. rewrite section_of_update_eq. apply lookup_insert_eq.
Qed.

Lemma basic_ip u code c :
  ip_view (profile_ip_settings (basic_update u code c) "ipv4") = update_view (wu_ipv4 u) ∧
  ip_view (profile_ip_settings (basic_update u code c) "ipv6") = update_view (wu_ipv6 u).
Proof.
  unfold basic_update. split.
  - unfold replace at 1. erewrite ip_view_agree; [|by apply agree_update_ne].
    by rewrite (proj1 (replace_reads _ "ipv4" _)).
  - by rewrite (proj1 (replace_reads _ "ipv6" _)).
Qed.

Lemma update_agree debug u c c' :
  apply_profile_update debug u c = Ok c' →
  ∃ code, profile_metered_code (wu_metered u) = Ok code ∧
    ∀ section, section ∉ [SECURITY; ENTERPRISE] →
      agree section (fields_of section) (basic_update u code c) c'.
Proof.
  unfold apply_profile_update. intros H. unbind_all.
  match goal with H : profile_metered_code _ = Ok ?n |- _ => exists n; split; [done|] end.
  intros section Hs.
  eapply agree_trans; [eapply advanced_agree; [set_solver|done]|].
  apply agree_same. by eapply update_secrets_other.
Qed.

(** The fields of the details an update names, by the sections they come from. *)
Lemma details_fields debug path c d :
  wifi_profile_details debug path c = Ok d →
  wd_autoconnect d = unwrap_or (section_of "connection" c !! "autoconnect" ≫= as_bool) true ∧
  wd_metered d = metered_from_settings (section_of "connection" c) ∧
  wd_hidden d = unwrap_or (setting as_bool (section_of WIRELESS c) "hidden") false ∧
  wd_send_hostname d =
    unwrap_or (setting as_bool (section_of "ipv4" c) "dhcp-send-hostname") true
    || unwrap_or (setting as_bool (section_of "ipv6" c) "dhcp-send-hostname") true ∧
  wd_ipv4 d = profile_ip_settings c "ipv4" ∧ wd_ipv6 d = profile_ip_settings c "ipv6".
Proof.
  unfold wifi_profile_details. intros H. unbind_all. injection H as <-.
  match goal with H : saved_wifi_connection_from_settings _ _ = Some ?p |- _ => rename H into Hp end.
  unfold saved_wifi_connection_from_settings in Hp.
  destruct (c !! "connection") as [cs|] eqn:Hcs; [|done]. destruct (c !! WIRELESS) as [ws|] eqn:Hws; [|done].
  cbn in Hp. destruct (negb _); [done|]. injection Hp as Hp. subst.
  rewrite (section_of_some _ _ _ Hcs). done.
Qed.

(** C28. A profile edit is what the editor shows next: after a successful update the
    profile's details have the requested autoconnect, metered (in its normal form),
    hidden and hostname settings, and the requested addresses, gateway, DNS, routes and metrics of both address
    families. *)
Theorem update_shown debug u c c' path d :
  apply_profile_update debug u c = Ok c' →
  wifi_profile_details debug path c' = Ok d →
  wd_autoconnect d = wu_autoconnect u ∧
  wd_metered d = normal_metered (wu_metered u) ∧
  wd_hidden d = wu_hidden u ∧
  wd_send_hostname d = wu_send_hostname u ∧
  ip_view (wd_ipv4 d) = update_view (wu_ipv4 u) ∧
  ip_view (wd_ipv6 d) = update_view (wu_ipv6 u).
Proof.
  intros Hu Hd. apply details_fields in Hd as (Ha & Hm & Hh & Hs & -> & ->).
  destruct (update_agree _ _ _ _ Hu) as (code & Hcode & Hall).
  assert (Hc := Hall "connection" ltac:(set_solver)). assert (Hw := Hall WIRELESS ltac:(set_solver)).
  assert (H4 := Hall "ipv4" ltac:(set_solver)). assert (H6 := Hall "ipv6" ltac:(set_solver)).
  destruct (basic_ip u code c) as [Hv4 Hv6]. split_and!.
  - rewrite Ha, Hc by (vm_compute; set_solver). by rewrite basic_connection, lookup_insert_ne, lookup_insert_eq.
  - rewrite Hm. eapply metered_roundtrip; [done|]. rewrite Hc by (vm_compute; set_solver).
    rewrite basic_connection. apply lookup_insert_eq.
  - rewrite Hh. unfold setting. rewrite Hw by (vm_compute; set_solver). rewrite basic_wireless. cbv zeta.
    case_bool_decide; rewrite ?lookup_insert_ne, !lookup_delete_ne, lookup_insert_eq by done; done.
  - rewrite Hs. unfold setting. rewrite H4, H6 by (vm_compute; set_solver).
    rewrite !basic_hostname by auto. cbn. apply orb_diag.
  - rewrite <-Hv4. by apply ip_view_agree.
  - rewrite <-Hv6. by apply ip_view_agree.
Qed.

(** ** Replaced secrets *)

Lemma known_flags_apart name k k' :
  name ∈ [SECURITY; ENTERPRISE] → k ∈ known_keys name → k' ∈ known_keys name → flags_key k ≠ k'.
Proof.
  intros Hn Hk Hk' E.
  assert (H : forallb (λ name, forallb (λ k, forallb (λ k', negb (bool_decide (flags_key k = k')))
    (known_keys name)) (known_keys name)) [SECURITY; ENTERPRISE] = true) by (by vm_compute).
  rewrite forallb_forall in H. specialize (H name (proj1 (list_elem_of_In _ _) Hn)).
  rewrite forallb_forall in H. specialize (H k (proj1 (list_elem_of_In _ _) Hk)).
  rewrite forallb_forall in H. specialize (H k' (proj1 (list_elem_of_In _ _) Hk')).
  by rewrite bool_decide_true in H.
Qed.

Definition secret_value (key t : string) : value :=
  if bool_decide (key = "password-raw") then of_bytes_value (as_bytes t) else VStr t.

Lemma wifi_section name : name ∈ [SECURITY; ENTERPRISE] → name ≠ "vpn" ∧ name ≠ "wireguard".
Proof. intros H. repeat (apply elem_of_cons in H as [->|H]); try done. set_solver. Qed.

(** One replacement: the flags lose their agent bit and the value is stored. *)
Lemma replace_one name key v c c1 c2 :
  name ∈ [SECURITY; ENTERPRISE] → key ∈ known_keys name →
  set_system_owned c name key = Ok c1 → set_text c1 name key v = Ok c2 →
  ∃ f, N.testbit f 0 = false ∧ N.testbit f 1 = false ∧ (N.ldiff f 7 =? 0)%N = true ∧
    section_of name c2 = <[key := secret_value key v]> (<[flags_key key := VU32 f]> (section_of name c)) ∧
    is_Some (c2 !! name).
Proof.
  intros Hn Hk H1 H2. destruct (wifi_section _ Hn) as [Hv Hw].
  unfold set_system_owned in H1. unbind_all.
  match goal with H : flags c name key = Ok ?f |- _ => rename H into Hf; set (f0 := f) in *; exists (N.ldiff f0 AGENT_OWNED) end.
  rewrite (bool_decide_false _ Hv) in *. rewrite (bool_decide_false _ Hw) in *. simplify_eq.
  unfold set_text in H2. rewrite (bool_decide_false _ Hv), (bool_decide_false _ Hw) in H2.
  rewrite bool_decide_true in H2 by done. cbn [ensure] in H2. injection H2 as <-.
  split_and!.
  - rewrite N.ldiff_spec. apply andb_false_r.
  - rewrite N.ldiff_spec. match goal with H : (N.land _ NOT_SAVED =? 0)%N = true |- _ =>
      apply N.eqb_eq, (f_equal (λ n, N.testbit n 1)) in H; rewrite N.land_spec in H end.
    change (N.testbit NOT_SAVED 1) with true in *. rewrite andb_true_r in *.
    match goal with H : N.testbit _ 1 = N.testbit 0 1 |- _ => rewrite H end. done.
  - apply ldiff_agent. unfold flags in Hf. unbind_all. by injection Hf as <-.
  - rewrite section_of_update_eq. f_equal. unfold section_of at 1. rewrite lookup_insert_eq. cbn.
    f_equal. symmetry. by apply section_of_some.
  - unfold update_section. rewrite lookup_insert_eq. eauto.
Qed.

(** A stored secret that needs no agent and no prompt. *)
Definition stored (name key v : string) (c : ConnectionSettings) : Prop :=
  section_of name c !! key = Some (secret_value key v) ∧
  ∃ f, section_of name c !! flags_key key = Some (VU32 f) ∧
    N.testbit f 0 = false ∧ N.testbit f 1 = false ∧ (N.ldiff f 7 =? 0)%N = true.

Lemma replace_secrets_stored name l c c' :
  name ∈ [SECURITY; ENTERPRISE] → Forall (λ kv, kv.1 ∈ known_keys name) l →
  replace_secrets name l c = Ok c' →
  (∀ key v, key ∈ known_keys name → key ∉ l.*1 → stored name key v c → stored name key v c') ∧
  (NoDup l.*1 → ∀ key v, (key, v) ∈ l → stored name key v c').
Proof.
  intros Hn. revert c. induction l as [|[k x] l IH]; intros c Hl H; cbn in *.
  { simplify_eq. split; [done|]. set_solver. }
  apply Forall_cons in Hl as [Hk Hl]. cbn in Hk. unbind_all.
  match goal with H1 : set_system_owned _ _ _ = Ok _, H2 : set_text _ _ _ _ = Ok ?c2 |- _ =>
    destruct (replace_one _ _ _ _ _ _ Hn Hk H1 H2) as (f & Hf0 & Hf1 & Hf7 & Hs & _) end.
  destruct (IH _ Hl H) as [IH1 IH2]. split.
  - intros key v Hkey Hnot (Hval & f' & Hfl & Hbits). apply IH1; [done|set_solver|].
    assert (Hapart := known_flags_apart name k key Hn Hk Hkey).
    assert (Hapart' := known_flags_apart name key k Hn Hkey Hk). unfold stored. rewrite Hs. split.
    + rewrite !lookup_insert_ne by set_solver. done.
    + rewrite lookup_insert_ne by done. destruct (decide (flags_key key = flags_key k)) as [->|];
        [exists f; by rewrite lookup_insert_eq|exists f'; by rewrite lookup_insert_ne by done].
  - intros Hnd key v Hin. apply NoDup_cons in Hnd as [Hnk Hnd].
    apply elem_of_cons in Hin as [[= -> ->]|Hin]; [|by apply IH2].
    apply IH1; [done..|]. unfold stored. rewrite Hs. split; [apply lookup_insert_eq|]. exists f.
    rewrite lookup_insert_ne by (by apply not_eq_sym, known_flags_apart with (name := name)). by rewrite lookup_insert_eq.
Qed.

Lemma stored_reads name key v c :
  name ∈ [SECURITY; ENTERPRISE] → key ∈ known_keys name → utf8_valid (as_bytes v) = true →
  stored name key v c →
  text c name key = Some v ∧ ∃ f, flags c name key = Ok f ∧ N.testbit f 0 = false ∧ N.testbit f 1 = false.
Proof.
  intros Hn Hk Hu (Hv & f & Hf & Hf0 & Hf1 & Hf7). destruct (wifi_section _ Hn) as [Hnv Hnw].
  destruct (c !! name) as [s|] eqn:Hc; [|unfold section_of in Hv; by rewrite Hc in Hv].
  rewrite (section_of_some _ _ _ Hc) in *. unfold text, flags, raw_flags. rewrite Hc. cbn [mbind option_bind ok_or].
  rewrite (bool_decide_false _ Hnv), (bool_decide_false _ Hnw). split.
  - unfold setting_text. rewrite Hv. cbn [mbind option_bind]. unfold secret_value.
    destruct (bool_decide _); [|done]. by rewrite value_text_bytes, of_bytes_as_bytes.
  - exists f. rewrite bool_decide_true by done. cbn [ensure]. unfold flag_value. rewrite Hf. cbn. by rewrite Hf7.
Qed.

Lemma spec_keys_known c name :
  ps_setting_name (profile_secret_spec c) = Some name →
  ∀ key, key ∈ ps_secret_keys (profile_secret_spec c) → key ∈ known_keys name.
Proof.
  unfold profile_secret_spec. intros H key Hin.
  destruct (_ <$> _) as [[]|]; repeat case_bool_decide; repeat destruct (has_wep_settings _ _);
    cbn in H, Hin; simplify_eq; try done; vm_compute; set_solver.
Qed.

Lemma try_for_each_Ok {A} (f : A → result unit Error) l : try_for_each f l = Ok tt → Forall (λ a, f a = Ok tt) l.
Proof.
  induction l as [|a l IH]; cbn; [done|]. destruct (f a) as [[]|] eqn:E; [|done]. intros H. constructor; auto.
Qed.

Lemma replacements_NoDup spec u : bt_sorted (wu_secrets u) → NoDup (secret_replacements spec u).*1.
Proof.
  intros Hs. assert (Hnd := bt_sorted_keys_NoDup _ Hs). unfold secret_replacements.
  destruct (ps_primary_secret_key spec) as [p|]; [|done]. destruct (non_empty _) as [pw|]; [|done].
  case_bool_decide as E; [done|]. rewrite fmap_app. apply NoDup_app. split; [done|]. split.
  - intros k Hk Hp. cbn in Hp. apply list_elem_of_singleton in Hp. subst k. apply E.
    apply list_elem_of_fmap in Hk as ([k v] & Hk & Hin). cbn in Hk. subst k. exists v. by apply bt_elem_get.
  - cbn. apply NoDup_singleton.
Qed.

(** Replacing the secrets of a profile is effective and keeps their ownership with
    the system: after a successful update each replacement (the named secrets and the
    password, which stands for the primary secret unless that is named) reads back
    unchanged from the profile, and its flags neither leave it to an agent nor forbid
    saving it. *)
Theorem replaced_secrets_stored u c c' key v :
  bt_sorted (wu_secrets u) →
  Forall (λ kv, utf8_valid (as_bytes kv.2) = true) (secret_replacements (profile_secret_spec c) u) →
  update_profile_secrets u c = Ok c' →
  (key, v) ∈ secret_replacements (profile_secret_spec c) u →
  ∃ name, ps_setting_name (profile_secret_spec c) = Some name ∧ text c' name key = Some v ∧
    ∃ f, flags c' name key = Ok f ∧ N.testbit f 0 = false ∧ N.testbit f 1 = false.
Proof.
  intros Hs Hutf Hu Hin. unfold update_profile_secrets in Hu. case_bool_decide as E; [rewrite E in Hin; set_solver|].
  unbind_all. destruct a0.
  match goal with H : ps_setting_name _ = Some ?n |- _ => rename H into Hname; exists n; split; [done|] end. subst.
  match goal with H : try_for_each _ _ = Ok tt |- _ => apply try_for_each_Ok in H as Hall end.
  assert (Hsec := secret_spec_section _ _ Hname).
  assert (Hkeys : Forall (λ kv, kv.1 ∈ known_keys a) (secret_replacements (profile_secret_spec c) u)).
  { eapply Forall_impl; [exact Hall|]. intros [k x] Hx. unfold validate_replacement in Hx. unbind_all.
    eapply spec_keys_known; [done|]. by bool_prop. }
  destruct (replace_secrets_stored _ _ _ _ Hsec Hkeys Hu) as [_ Hst].
  rewrite Forall_forall in Hkeys, Hutf. specialize (Hkeys _ Hin). specialize (Hutf _ Hin).
  apply stored_reads; [done..|]. apply Hst; [|done]. by apply replacements_NoDup.
Qed.

(** ** An update that names nothing *)

Definition no_advanced : WifiProfileAdvancedUpdate := {|
  pa_autoconnect_priority := None; pa_bssid := None; pa_mac_address := None; pa_cloned_mac_address := None;
  pa_mtu := None; pa_mode := None; pa_band := None; pa_channel := None; pa_permissions := None;
  pa_casting_enabled := None; pa_firewall_zone := None; pa_secondaries := None;
  pa_ipv4_dhcp_client_id := None; pa_ipv4_dhcp_hostname := None; pa_ipv4_dad_timeout := None;
  pa_ipv4_never_default := None; pa_ipv6_never_default := None; pa_ipv4_ignore_auto_routes := None;
  pa_ipv6_ignore_auto_routes := None; pa_ipv4_may_fail := None; pa_ipv6_may_fail := None;
  pa_ipv6_privacy := None; pa_enterprise := None |}.

Lemma section_of_update_id name f c section :
  (∀ s, f s = s) → section_of section (update_section name f c) = section_of section c.
Proof.
  intros Hf. destruct (decide (section = name)) as [->|];
    [by rewrite section_of_update_eq, Hf|by rewrite section_of_update_ne].
Qed.

(** Advanced fields that are not sent are not changed. *)
Theorem unsent_fields_kept c c' section :
  apply_advanced no_advanced c = Ok c' → section_of section c' = section_of section c.
Proof.
  unfold apply_advanced, apply_connection_fields, apply_wireless_fields, apply_ip_fields.
  cbn -[validate_private_ca_paths update_section]. intros H. unbind_all. injection H as <-.
  by rewrite !section_of_update_id.
Qed.

(** ** Selecting a profile for an access point *)

Lemma parse_bssid_length s b : parse_bssid s = Some b → length b = 6.
Proof.
  unfold parse_bssid. destruct (mapM _ _) as [l|]; [|done]. cbn. case_bool_decide; [|done]. by intros [= <-].
Qed.

(** The profile listing and the activation select by the same restrictions: a
    candidate of the listing matches an access point exactly when the activation would
    use its settings for it, and then the profile's SSID is the access point's, its
    BSSID restriction (six bytes) is the access point's address, and a channel
    restriction is its channel. *)
Theorem candidate_match_exact path c candidate ap :
  saved_wifi_profile_candidate_from_settings path c = Some candidate →
  matches_access_point (pc_matcher candidate) ap = settings_match_access_point c ap ∧
  (settings_match_access_point c ap = true →
     sw_ssid_bytes (pc_profile candidate) = ssid_bytes_or_display (ap_ssid_bytes ap) (ap_ssid ap) ∧
     settings_match_wifi_ssid c (ssid_bytes_or_display (ap_ssid_bytes ap) (ap_ssid ap)) = true ∧
     (∀ b, pm_bssid_bytes (pc_matcher candidate) = Some b → parse_bssid (ap_bssid ap) = Some b ∧ length b = 6) ∧
     (pm_channel (pc_matcher candidate) ≠ 0%N →
        frequency_channel (ap_frequency ap) = pm_channel (pc_matcher candidate))).
Proof.
  unfold saved_wifi_profile_candidate_from_settings, settings_match_access_point, settings_match_wifi_ssid.
  intros H. destruct (saved_wifi_connection_from_settings path c) as [pr|] eqn:Hp; [|done].
  destruct (match_from_settings c) as [m|] eqn:Hm; [|done]. cbn in H. injection H as <-. cbn.
  split; [done|]. unfold matches_access_point, ap_matches_band_channel, bssid_bytes_match. intros H.
  unfold match_from_settings in Hm. destruct (wifi_settings_section c) as [w|] eqn:Hw; [|done]. cbn in Hm.
  destruct (w !! "ssid" ≫= value_bytes) as [b|] eqn:Hb; [|done]. cbn in Hm. injection Hm as <-. cbn in H.
  bool_prop. split_and!.
  - unfold saved_wifi_connection_from_settings in Hp. unfold wifi_settings_section in Hw.
    destruct (c !! "connection") as [cs|]; [|done]. destruct (c !! WIRELESS) as [ws|]; [|done]. cbn in Hp, Hw.
    destruct (negb _); [done|]. injection Hp as <-. cbn.
    assert (ws = w) as ->.
    { destruct (setting_text cs "type") as [t|]; [destruct (bool_decide (t = WIRELESS)); [|done]|];
        by injection Hw. }
    by rewrite Hb.
  - apply bool_decide_eq_true. congruence.
  - cbn. intros b' Hb'. rewrite Hb' in *. bool_prop. split; [done|].
    match goal with H : parse_bssid _ = Some b' |- _ => by apply parse_bssid_length in H end.
  - cbn. intros Hc. match goal with H : _ || (frequency_channel _ =? _)%N = true |- _ =>
      apply orb_true_iff in H as [H|H]; by apply N.eqb_eq in H end.
Qed.

(** ** Sharing *)

Lemma share_payload_password qrcode profile auth pw hidden p :
  wsp_password (share_payload qrcode profile auth pw hidden) = Some p →
  pw = Some p ∧ wsp_shareable (share_payload qrcode profile auth pw hidden) = true.
Proof. unfold share_payload. cbn. destruct (match _ with Ok _ => _ | Err _ => _ end); [done|done]. Qed.

Lemma secret_payload_password qrcode profile auth key c secrets hidden p :
  wsp_password (secret_payload qrcode profile auth key c secrets hidden) = Some p →
  secret_string c secrets key = Some p ∧
  wsp_shareable (secret_payload qrcode profile auth key c secrets hidden) = true.
Proof.
  unfold secret_payload. destruct (secret_string c secrets key) as [v|]; [|done].
  intros H. apply share_payload_password in H as [[= ->] H]. done.
Qed.

(** Sharing a profile exposes nothing but its Wi-Fi key: a payload carries a
    password only when it is shareable, and then it is the pre-shared key of a personal
    network or the transmit key of a WEP network; an enterprise profile (802.1X key
    management) is never shared. *)
Theorem share_exposes_key qrcode profile c secrets p :
  wsp_password (wifi_share_payload_for_settings qrcode profile c secrets) = Some p →
  wsp_shareable (wifi_share_payload_for_settings qrcode profile c secrets) = true ∧
  ∃ security key_mgmt, c !! SECURITY = Some security ∧
    key_mgmt = unwrap_or (setting_text security "key-mgmt") "" ∧
    ((key_mgmt ∈ ["wpa-psk"; "sae"] ∧ secret_string c secrets "psk" = Some p) ∨
     (key_mgmt ∈ ["none"; ""] ∧ secret_string c secrets (wep_secret_key (Some security)) = Some p)).
Proof.
  unfold wifi_share_payload_for_settings. destruct (c !! SECURITY) as [security|].
  - rewrite bool_decide_true by done. cbn [negb orb mbind option_bind].
    set (key_mgmt := unwrap_or (setting_text security "key-mgmt") "").
    destruct (bool_decide (key_mgmt = "") && _); [by intros [? _]%share_payload_password|].
    unfold share_payload_for_key_mgmt.
    destruct (bool_decide (key_mgmt ∈ ["wpa-psk"; "sae"])) eqn:E1.
    { intros [Hs Hsh]%secret_payload_password. bool_prop. eauto 10. }
    destruct (bool_decide (key_mgmt ∈ ["none"; ""])) eqn:E2; cbn [andb].
    + destruct (has_wep_settings c secrets); [|by intros [? _]%share_payload_password].
      intros [Hs Hsh]%secret_payload_password. bool_prop. eauto 10.
    + destruct (bool_decide (key_mgmt = "owe")); [by intros [? _]%share_payload_password|].
      by destruct (str_contains "eap" key_mgmt).
  - rewrite bool_decide_false by (by intros []). cbn [negb orb]. by intros [? _]%share_payload_password.
Qed.

(** ** The version token *)

Lemma bt_get_foldl {V} (l : list (string * V)) t k :
  NoDup l.*1 →
  bt_get k (foldl (λ t kv, bt_insert kv.1 kv.2 t) t l) =
  match find_first (λ kv, bool_decide (kv.1 = k)) l with Some kv => Some kv.2 | None => bt_get k t end.
Proof.
  revert t. induction l as [|[j v] l IH]; intros t Hnd; [done|]. cbn in *.
  apply NoDup_cons in Hnd as [Hj Hnd]. rewrite IH by done. case_bool_decide as E.
  - subst. destruct (find_first _ l) as [[i w]|] eqn:Hf; [|by rewrite bt_get_insert_eq].
    apply find_first_Some in Hf as (l1 & l2 & -> & Hp & _). bool_prop. cbn in Hp. subst.
    destruct Hj. rewrite fmap_app. set_solver.
  - destruct (find_first _ l); [done|]. rewrite bt_get_insert_ne; [done|]. congruence.
Qed.

Lemma bt_get_btree_of {V} (m : gmap string V) k : bt_get k (btree_of m) = m !! k.
Proof.
  unfold btree_of. rewrite bt_get_foldl by apply NoDup_fst_map_to_list. rewrite <-(find_first_map m k).
  by destruct (find_first _ _).
Qed.
Lemma btree_of_inj {V} (m m' : gmap string V) : btree_of m = btree_of m' → m = m'.
Proof. intros H. apply map_eq. intros k. rewrite <-!bt_get_btree_of. by rewrite H. Qed.

Definition volatile (n k : string) : bool := bool_decide (n = "connection") && bool_decide (k ∈ VOLATILE_CONNECTION_KEYS).

Lemma lookup_kept n (s : gmap string value) k :
  filter (λ kv, negb (bool_decide (n = "connection") && bool_decide (kv.1 ∈ VOLATILE_CONNECTION_KEYS))) s !! k =
  if volatile n k then None else s !! k.
Proof.
  rewrite map_lookup_filter. destruct (s !! k) as [v|]; [|by destruct (volatile n k)]. cbn.
  change (bool_decide (n = "connection") && bool_decide (k ∈ VOLATILE_CONNECTION_KEYS)) with (volatile n k).
  by destruct (volatile n k).
Qed.

Lemma canonical_section_eq debug n s s' :
  canonical_section debug n s = canonical_section debug n s' ↔
  ∀ k, volatile n k = false → debug <$> s !! k = debug <$> s' !! k.
Proof.
  unfold canonical_section. split.
  - intros H%btree_of_inj k Hk. apply (f_equal (.!! k)) in H.
    by rewrite !lookup_fmap, !lookup_kept, Hk in H.
  - intros H. f_equal. apply map_eq. intros k. rewrite !lookup_fmap, !lookup_kept.
    specialize (H k). destruct (volatile n k); [done|]. by apply H.
Qed.

(** The version token stands for the whole public profile: the text that is hashed
    is the same for two settings exactly when they have the same sections and render
    the same under every key but the connection's timestamp, so that only the timestamp
    can change without a new token. *)
Theorem version_covers_profile debug c c' :
  canonical debug c = canonical debug c' ↔
  ∀ n, match c !! n, c' !! n with
       | Some s, Some s' => ∀ k, volatile n k = false → debug <$> s !! k = debug <$> s' !! k
       | None, None => True
       | _, _ => False
       end.
Proof.
  unfold canonical. split.
  - intros H%btree_of_inj n. apply (f_equal (.!! n)) in H. rewrite !map_lookup_imap in H.
    destruct (c !! n), (c' !! n); cbn in H; try done. injection H as H. by apply canonical_section_eq.
  - intros H. f_equal. apply map_eq. intros n. rewrite !map_lookup_imap. specialize (H n).
    destruct (c !! n), (c' !! n); cbn; try done. f_equal. by apply canonical_section_eq.
Qed.

(** ** WEP keys left to an agent *)

Definition wep_profile (flags : N) : ConnectionSettings :=
  {[ SECURITY := list_to_map [("key-mgmt", VStr "none"); ("wep-key-flags", VU32 flags)] ]}.

(** The shared flags of the WEP keys, which the credential schema reads, do not reach the
    decision whether an agent must supply the key. *)
Example wep_agent_flags_ignored :
  flags (wep_profile 1) SECURITY "wep-key0" = Ok 1%N ∧
  wifi_settings_need_secret_agent (wep_profile 1) None None = false.
Proof. split; by vm_compute. Qed.

(** ** Witnesses *)

Definition edit_profile : ConnectionSettings :=
  list_to_map
    [("connection", list_to_map [("id", VStr "Home"); ("uuid", VStr "u-1"); ("timestamp", VU64 7)]);
     (WIRELESS, list_to_map [("ssid", of_bytes_value (as_bytes "Home"));
                             ("bssid", of_bytes_value [byte 0; byte 17; byte 34; byte 51; byte 68; byte 85]);
                             ("channel", VU32 1)]);
     (SECURITY, list_to_map [("key-mgmt", VStr "wpa-psk"); ("psk-flags", VU32 1)])].
Definition auto_ip : TargetIpSettings := {|
  ti_method := None; ti_addresses := []; ti_gateway := None; ti_dns := []; ti_routes := [];
  ti_route_metric := None; ti_ignore_auto_dns := None; ti_dns_search := [] |}.
Definition edit : WifiProfileUpdate := {|
  wu_autoconnect := false; wu_metered := "on"; wu_hidden := true; wu_mac_address_policy := "random";
  wu_send_hostname := false; wu_ipv4 := example_update; wu_ipv6 := auto_ip;
  wu_password := Some "new-secret"; wu_secrets := []; wu_expected_version := None;
  wu_advanced := no_advanced |}.
Definition plain_debug (v : value) : string := match v with VStr s => s | VU32 n => pretty n | _ => "?" end.

Lemma update_shown_witness :
  is_ok (apply_profile_update plain_debug edit edit_profile) = true ∧
  ∀ d, wifi_profile_details plain_debug "/1" (ok_value ∅ (apply_profile_update plain_debug edit edit_profile)) = Ok d →
    wd_metered d = "yes" ∧ wd_hidden d = true.
Proof.
  split; [by vm_compute|]. intros d Hd.
  destruct (update_shown plain_debug edit edit_profile
    (ok_value ∅ (apply_profile_update plain_debug edit edit_profile)) "/1" d) as (_ & -> & -> & _).
  - apply is_ok_value. by vm_compute.
  - exact Hd.
  - split; by vm_compute.
Defined.

Lemma replaced_secrets_stored_witness :
  text (ok_value ∅ (update_profile_secrets edit edit_profile)) SECURITY "psk" = Some "new-secret".
Proof.
  destruct (replaced_secrets_stored edit edit_profile (ok_value ∅ (update_profile_secrets edit edit_profile))
    "psk" "new-secret") as (name & Hn & Ht & _).
  - constructor.
  - by apply Forall_singleton.
  - apply is_ok_value. by vm_compute.
  - vm_compute. left.
  - vm_compute in Hn. injection Hn as <-. exact Ht.
Defined.

Lemma candidate_match_exact_witness :
  ∃ candidate, saved_wifi_profile_candidate_from_settings "/1" edit_profile = Some candidate ∧
    matches_access_point (pc_matcher candidate) psk_ap = true.
Proof.
  eexists. split; [reflexivity|].
  rewrite (proj1 (candidate_match_exact "/1" edit_profile _ psk_ap eq_refl)). by vm_compute.
Defined.

Definition shared_profile : SavedWifiConnection :=
  {| sw_path := "/1"; sw_id := "x"; sw_ssid := "x"; sw_ssid_bytes := as_bytes "x"; sw_remember := None;
     sw_autoconnect := true; sw_casting_enabled := false; sw_privacy := privacy_default |}.
Definition wep_secrets : ConnectionSettings := {[ SECURITY := {[ "wep-key0" := VStr "abcde" ]} ]}.

Lemma share_exposes_key_witness :
  wsp_shareable (wifi_share_payload_for_settings (λ s, Ok s) shared_profile (wep_profile 0) (Some wep_secrets)) = true.
Proof.
  apply (share_exposes_key (λ s, Ok s) shared_profile (wep_profile 0) (Some wep_secrets) "abcde").
  by vm_compute.
Defined.
