(* ===== verification/ProfileWriter.v ===== *)
(** * Profile transactions ([src/nm/credential_writer.rs], [src/nm/settings/retention.rs])

    Edits of a saved profile are optimistic: the daemon takes a snapshot of the
    profile's settings and version, edits a copy, collects the secrets NetworkManager
    keeps apart and writes the whole with the version it expects. Other clients act
    between any two of its D-Bus calls.

    NetworkManager is the class [ProfileService]: what a call returns and how it changes
    the service's state; [ProfileLaws] states what the writer relies on. A run threads the
    number of the next call, the service's state and the log of accepted writes; before
    each call the environment acts ([env]), and the call may fail in transport ([fails]). *)
From S2P Require Import Prelude Errors Text Variant Credentials IpSettings WifiSettings Profiles.
From Stdlib Require Import ZArith Lia Ascii.
From stdpp Require Import prelude gmap strings list pretty.

(** ** The service *)

Class ProfileService (S : Type) := {
  sv_owner : S → string;
  sv_version : S → N;
  sv_settings : S → ConnectionSettings;
  sv_unsaved : S → bool;
  sv_filename : S → string;
  sv_flags : S → N;
  sv_running : S → string;
  sv_listed : S → bool;
  sv_get_secrets : string → S → result ConnectionSettings Error * S;
  sv_update2 : ConnectionSettings → N → N → S → result unit Error * S;
}.

(** [NetworkManager]'s documented behaviour: versions of a profile grow within one run
    of the service and name one settings document; reading secrets is one internal
    update that keeps the public settings; [Update2] refuses a foreign version. *)
Class ProfileLaws (S : Type) `{ProfileService S} (later : relation S) := {
  later_preorder : PreOrder later;
  version_names_settings s s' :
    later s s' → sv_owner s' = sv_owner s →
    (sv_version s ≤ sv_version s')%N ∧
    (sv_version s' = sv_version s → sv_settings s' = sv_settings s);
  get_secrets_once n s r s' :
    sv_get_secrets n s = (r, s') →
    later s s' ∧ (is_ok r = true →
      sv_owner s' = sv_owner s ∧ sv_version s' = (sv_version s + 1)%N ∧ sv_settings s' = sv_settings s);
  update2_checks_version c fl v s r s' :
    sv_update2 c fl v s = (r, s') → later s s' ∧ (is_ok r = true → sv_version s = v);
}.

Section Writer.
Context {S : Type} {SV : ProfileService S}.
(** The owner the connection is pinned to, the other clients, and the transport. *)
Context (destination : string) (env : nat → S → S) (fails : nat → bool).

Record write := { w_before : S; w_settings : ConnectionSettings; w_flags : N; w_version : N }.
Record run := { next : nat; service : S; writes : list write }.

Definition io (A : Type) : Type := run → result A Error * run.
Definition ret {A} (a : A) : io A := λ r, (Ok a, r).
Definition fail {A} (e : Error) : io A := λ r, (Err e, r).
Definition bind {A B} (m : io A) (k : A → io B) : io B := λ r,
  match m r with (Ok a, r') => k a r' | (Err e, r') => (Err e, r') end.
Definition lift {A} (x : result A Error) : io A := λ r, (x, r).
Local Notation "'let*' x ':=' c 'in' k" := (bind c (λ x, k))
  (at level 10, x pattern, c at level 200, k at level 200).
Definition require (b : bool) (m : string) : io unit := lift (ensure b (plain m)).

Definition transport_error : Error := plain "D-Bus call failed".

(** The environment acts, then the property is read through a proxy of the pinned owner. *)
Definition get_property {A} (f : S → A) : io A := λ r,
  let s := env (next r) (service r) in
  let r' := {| next := Datatypes.S (next r); service := s; writes := writes r |} in
  if fails (next r) || negb (bool_decide (sv_owner s = destination)) then (Err transport_error, r')
  else (Ok (f s), r').

Definition current_owner : io string := λ r,
  let s := env (next r) (service r) in
  let r' := {| next := Datatypes.S (next r); service := s; writes := writes r |} in
  if fails (next r) then (Err transport_error, r') else (Ok (sv_owner s), r').

Definition call_get_secrets (section : string) : io ConnectionSettings := λ r,
  let s := env (next r) (service r) in
  let r' s' := {| next := Datatypes.S (next r); service := s'; writes := writes r |} in
  if fails (next r) || negb (bool_decide (sv_owner s = destination)) then (Err transport_error, r' s)
  else let '(x, s') := sv_get_secrets section s in (x, r' s').

Definition call_update2 (c : ConnectionSettings) (fl version : N) : io unit := λ r,
  let s := env (next r) (service r) in
  if fails (next r) || negb (bool_decide (sv_owner s = destination)) then
    (Err transport_error, {| next := Datatypes.S (next r); service := s; writes := writes r |})
  else
    let '(x, s') := sv_update2 c fl version s in
    let log := {| w_before := s; w_settings := c; w_flags := fl; w_version := version |} in
    (x, {| next := Datatypes.S (next r); service := s';
           writes := if is_ok x then writes r ++ [log] else writes r |}).

(** ** Beginning an edit *)

Record ProfileEdit := {
  e_settings : ConnectionSettings;
  e_original : ConnectionSettings;
  e_version : N;
  e_uuid : string;
  e_owner : string;
  e_explicit_remember : bool;
}.

Definition SYSTEM_CONNECTIONS : string := "/etc/NetworkManager/system-connections/".
Definition RUN_CONNECTIONS : string := "/run/NetworkManager/system-connections/".

(** [||] and [&&] of the source read the flags only when they are needed. *)
Definition persistence_allowed (explicit_remember : bool) : io bool :=
  let* unsaved := get_property sv_unsaved in
  let* filename := get_property sv_filename in
  if negb unsaved && starts_with SYSTEM_CONNECTIONS filename then ret true
  else if explicit_remember then
    let* fl := get_property sv_flags in
    ret (negb (N.land fl 4 =? 0)%N && (bool_decide (filename = "") || starts_with RUN_CONNECTIONS filename))
  else ret false.

Definition uuid_of (c : ConnectionSettings) : option string :=
  connection ← c !! "connection"; setting value_string connection "uuid".

Definition begin_profile_edit (explicit_remember : bool) : io ProfileEdit :=
  let* owner := current_owner in
  let* _ := require (bool_decide (destination = owner)) "profile writes require a pinned NM owner" in
  let* version := get_property sv_version in
  let* _ := require (negb (version =? 0)%N) "NetworkManager profile version is unavailable" in
  let* settings := get_property sv_settings in
  let* uuid := lift (ok_or (non_empty (uuid_of settings)) (plain "profile UUID missing")) in
  let* allowed := persistence_allowed explicit_remember in
  let* _ := require allowed
    "refusing implicit persistence of temporary, staged or unsupported-location profiles" in
  let* again := get_property sv_version in
  let* same := if bool_decide (again = version)
               then let* o := current_owner in ret (bool_decide (o = owner)) else ret false in
  let* _ := require same "profile changed during snapshot; retry the explicit edit" in
  ret {| e_settings := settings; e_original := settings; e_version := version; e_uuid := uuid;
         e_owner := owner; e_explicit_remember := explicit_remember |}.
Definition begin_credential_edit : io ProfileEdit := begin_profile_edit false.
Definition begin_remember_edit : io ProfileEdit := begin_profile_edit true.

(** ** Checks of an edit *)

Definition has (f m : N) : bool := negb (N.land f m =? 0)%N.

Definition validate_key_policy (original edited : ConnectionSettings) (section key : string) :
    result unit Error :=
  let? before := flags original section key in
  let? after := flags edited section key in
  let? _ := ensure (negb (has before NOT_SAVED) || has after NOT_SAVED)
              (plain "refusing to make an existing temporary credential persistent") in
  let? _ := ensure (negb (has after AGENT_OWNED) || has before AGENT_OWNED)
              (plain "new agent-owned storage is unsupported") in
  let? _ := ensure (negb (has before 4) || has after 4)
              (plain "NOT_REQUIRED policy must be preserved during credential replacement") in
  if has before AGENT_OWNED && negb (has after AGENT_OWNED) then
    let? _ := ensure (negb (starts_with "wep-key" key))
                (plain "shared WEP agent ownership requires explicit migration") in
    ensure (bool_decide (is_Some (text edited section key)))
      (plain "ownership conversion requires a supplied credential; use explicit migration")
  else Ok tt.
Definition validate_policy_changes (original edited : ConnectionSettings) : result unit Error :=
  try_for_each (λ section, try_for_each (validate_key_policy original edited section) (known_keys section))
    (List.filter (λ s, bool_decide (is_Some (edited !! s))) ((map_to_list original).*1)).

Definition validate_reply_key (section key : string) : result unit Error :=
  ensure (bool_decide (key ∈ known_keys section)
          || (bool_decide (section = "vpn") && bool_decide (key = "secrets"))
          || (bool_decide (section = "wireguard") && bool_decide (key = "peers")))
    (plain "unknown secret schema; no update attempted").
Definition validate_secret_reply (reply : ConnectionSettings) : result unit Error :=
  try_for_each (λ sv, try_for_each (validate_reply_key sv.1) ((map_to_list sv.2).*1)) (map_to_list reply).

(** ** Preserving secrets *)

(** [map_err] of a D-Bus call: the cause is dropped. *)
Definition or_message {A} (m : io A) (message : string) : io A := λ r,
  match m r with (Ok a, r') => (Ok a, r') | (Err _, r') => (Err (plain message), r') end.

Fixpoint collect_existing (sections : list string) (settings : ConnectionSettings) (version : N) :
    io (ConnectionSettings * N) :=
  match sections with
  | [] => ret (settings, version)
  | section :: sections =>
    let* secrets := or_message (call_get_secrets section)
                      "cannot preserve existing credentials; no update attempted" in
    let* expected := lift (ok_or (if (version <? u64_max)%N then Some (version + 1)%N else None)
                             (plain "profile version exhausted")) in
    let* observed := get_property sv_version in
    let* _ := require (bool_decide (observed = expected))
                "profile changed during secret retrieval; no update attempted" in
    let* _ := lift (validate_secret_reply secrets) in
    let* settings := lift (merge_secrets settings secrets) in
    collect_existing sections settings expected
  end.
Definition preserve_secrets (settings : ConnectionSettings) (version : N) : io (ConnectionSettings * N) :=
  let sections := (List.filter (λ sd, requires_secrets sd.1 sd.2) (map_to_list settings)).*1 in
  let* (merged, version) := collect_existing sections settings version in
  let* merged := lift (merge_secrets merged settings) in
  ret (merged, version).

(** Explicitly remembered credentials lose their [NOT_SAVED] flag. *)
Fixpoint retain_credentials (l : list (string * string * string)) (settings : ConnectionSettings) :
    result ConnectionSettings Error :=
  match l with
  | [] => Ok settings
  | (section, key, _) :: l =>
    let? old := flags settings section key in
    let? _ := ensure (negb (has old AGENT_OWNED))
                (plain "agent-owned credentials require explicit migration") in
    let? d := ok_or (settings !! section) (plain "secret setting missing") in
    retain_credentials l (<[section := <[flags_key key := VU32 (N.ldiff old NOT_SAVED)]> d]> settings)
  end.

Definition validated_storage_version (v : string) : bool :=
  bool_decide (v ∈ ["1.56.0"; "1.58.1"; "1.59.2-dev"]).

(** ** Committing *)

Definition TO_DISK : N := 1.
Definition NO_AUTOCONNECT : N := 32.

Definition commit_credential_edit (edit : ProfileEdit) (block_autoconnect : bool) : io unit :=
  let* owner := current_owner in
  let* _ := require (bool_decide (owner = e_owner edit) && bool_decide (destination = e_owner edit))
              "NetworkManager changed; edit cancelled" in
  let* version := get_property sv_version in
  let* _ := require (bool_decide (version = e_version edit)) "profile changed; edit cancelled" in
  let* _ := require (bool_decide (uuid_of (e_settings edit) = Some (e_uuid edit)))
              "profile identity changed; edit cancelled" in
  let* _ := lift (validate_policy_changes (e_original edit) (e_settings edit)) in
  let* (settings, version) :=
    (if has_secrets (e_settings edit) || e_explicit_remember edit then
       let* running := get_property sv_running in
       let* _ := require (validated_storage_version running)
                   "credential writes require a validated NetworkManager version" in
       preserve_secrets (e_settings edit) (e_version edit)
     else ret (e_settings edit, e_version edit)) in
  let* settings := if e_explicit_remember edit
                   then lift (let? l := values settings in retain_credentials l settings)
                   else ret settings in
  let* owner := current_owner in
  let* same := if bool_decide (owner = e_owner edit)
               then let* v := get_property sv_version in ret (bool_decide (v = version)) else ret false in
  let* _ := require same "profile changed while preserving credentials; no update attempted" in
  let* clean := if e_explicit_remember edit then ret true
                else let* unsaved := get_property sv_unsaved in ret (negb unsaved) in
  let* _ := require clean "profile has staged edits; no update attempted" in
  let* _ := or_message (call_update2 settings (N.lor TO_DISK (if block_autoconnect then NO_AUTOCONNECT else 0)) version)
    "NetworkManager did not acknowledge a durable profile update; re-inventory before retrying" in
  let* owner := current_owner in
  require (bool_decide (owner = e_owner edit)) "NetworkManager changed after write; verification required".

(** ** Casting and retention *)

(** [mutate_connection_settings_with_casting], up to the reapplication on live devices,
    which is [reapply]. *)
Definition mutate_connection_settings_with_casting (path : string) (casting : option bool)
    (mutate : ConnectionSettings → result ConnectionSettings Error) (reapply : bool → io unit) : io unit :=
  let* edit := begin_credential_edit in
  let* _ := lift (ensure (negb (bool_decide (is_Some casting))
                          || bool_decide (is_Some (saved_wifi_connection_from_settings path (e_settings edit))))
                    (EDomain (validation Op.ProfileOperation "Cast discovery requires a saved Wi-Fi profile"))) in
  let* settings := lift (mutate (e_settings edit)) in
  let* _ := commit_credential_edit
              {| e_settings := settings; e_original := e_original edit; e_version := e_version edit;
                 e_uuid := e_uuid edit; e_owner := e_owner edit;
                 e_explicit_remember := e_explicit_remember edit |} false in
  match casting with
  | None => ret tt
  | Some enabled => λ r,
    match reapply enabled r with
    | (Ok _, r') => (Ok tt, r')
    | (Err e, r') =>
      (Err (EDomain (with_cause e (with_detail "live_applied" (JBool false) (with_detail "profile_saved" (JBool true)
         (new Code.ActivationFailed Op.ProfileOperation Src.NetworkManager
            ("Profile saved, but live Cast discovery update failed; retry the toggle or reconnect to apply: "
             +:+ err_chain e)))))), r')
    end
  end.

Definition connection_remembered : io bool :=
  let* unsaved := get_property sv_unsaved in
  let* fl := get_property sv_flags in
  ret (negb unsaved && (N.land fl 4 =? 0)%N).

(** Every secret of the profile must be the system's. *)
Definition no_agent_secrets (settings : ConnectionSettings) : result unit Error :=
  try_for_each (λ section, try_for_each (λ key,
      let? f := flags settings section key in
      ensure (N.land f AGENT_OWNED =? 0)%N
        (plain "agent-owned credentials require explicit migration before remembering")) (known_keys section))
    ((map_to_list settings).*1).

Definition set_connection_remember_by_path (path : string) (remember : bool) : io string :=
  let* owner := current_owner in
  let* _ := require (bool_decide (destination = owner)) "retention writes require a pinned NM owner" in
  let* version := get_property sv_version in
  let* _ := require (negb (version =? 0)%N) "NetworkManager profile version is unavailable" in
  let* settings := get_property sv_settings in
  let* _ := lift (ok_or (saved_wifi_connection_from_settings path settings)
                    (EDomain (not_found Op.ProfileOperation
                       ("connection is not a saved Wi-Fi profile: " +:+ path)))) in
  let* filename := get_property sv_filename in
  let* _ := require (bool_decide (filename = "") || starts_with SYSTEM_CONNECTIONS filename
                     || starts_with RUN_CONNECTIONS filename)
              "retention is unavailable for externally managed profiles" in
  let* o := current_owner in
  let* same := if bool_decide (o = owner)
               then let* v := get_property sv_version in ret (bool_decide (v = version)) else ret false in
  let* _ := require same "profile changed; retry the explicit retention change" in
  if remember then
    let* edit := begin_remember_edit in
    let* _ := lift (no_agent_secrets (e_settings edit)) in
    let* _ := commit_credential_edit edit false in
    let* remembered := connection_remembered in
    let* _ := require remembered "NetworkManager did not confirm saved network details" in
    ret "Network details saved for future connections."
  else
    let* _ := call_update2 ∅ 114 version in
    let* o := current_owner in
    let* _ := require (bool_decide (o = owner)) "NetworkManager changed; refresh to verify retention" in
    let* listed := get_property sv_listed in
    if negb listed then ret "Saved network details deleted. Future connections won't be remembered."
    else
      let* fl := get_property sv_flags in
      let* _ := require (negb (N.land fl 4 =? 0)%N) "NetworkManager did not confirm deletion on disconnect" in
      ret "Network details will be deleted when you disconnect.".

(** ** Runs *)

Lemma bind_Ok {A B} (m : io A) (k : A → io B) r b r' :
  bind m k r = (Ok b, r') → ∃ a r1, m r = (Ok a, r1) ∧ k a r1 = (Ok b, r').
Proof. unfold bind. destruct (m r) as [[a|e] r1]; [eauto|done]. Qed.
Lemma lift_Ok {A} (x : result A Error) r a r' : lift x r = (Ok a, r') → x = Ok a ∧ r' = r.
Proof. unfold lift. by intros [= -> ->]. Qed.
Lemma ret_Ok {A} (x : A) r a r' : ret x r = (Ok a, r') → a = x ∧ r' = r.
Proof. unfold ret. by intros [= <- <-]. Qed.
Lemma require_Ok b m r u r' : require b m r = (Ok u, r') → b = true ∧ r' = r.
Proof. unfold require. intros [Hx ->]%lift_Ok. by destruct b. Qed.
Lemma or_message_Ok {A} (m : io A) e r a r' : or_message m e r = (Ok a, r') → m r = (Ok a, r').
Proof. unfold or_message. destruct (m r) as [[x|x] r1]; [done|done]. Qed.

(** Take a successful run apart. *)
Ltac unroll :=
  repeat match goal with
  | H : bind _ _ _ = (Ok _, _) |- _ => apply bind_Ok in H as (? & ? & ? & H)
  | H : lift _ _ = (Ok _, _) |- _ => apply lift_Ok in H as [? ->]
  | H : ret _ _ = (Ok _, _) |- _ => apply ret_Ok in H as [? ->]
  | H : require _ _ _ = (Ok _, _) |- _ => apply require_Ok in H as [? ->]
  | H : or_message _ _ _ = (Ok _, _) |- _ => apply or_message_Ok in H
  end.

Context (later : relation S) {PL : ProfileLaws S later}.
Hypothesis env_later : ∀ n s, later s (env n s).
#[local] Existing Instance later_preorder.

(** One run extends another without writing. *)
Definition extends (r r' : run) : Prop := later (service r) (service r') ∧ writes r' = writes r.
#[local] Instance extends_preorder : PreOrder extends.
Proof.
  split; [by split|]. intros r1 r2 r3 [H1 E1] [H2 E2]. split; [by etrans|congruence].
Qed.

Lemma get_property_Ok {A} (f : S → A) r a r' :
  get_property f r = (Ok a, r') →
  extends r r' ∧ sv_owner (service r') = destination ∧ a = f (service r').
Proof.
  unfold get_property. destruct (fails (next r)); [done|]. cbn. case_bool_decide; [|done].
  intros [= <- <-]. split_and!; [split; [apply env_later|done]|done..].
Qed.
Lemma current_owner_Ok r a r' : current_owner r = (Ok a, r') → extends r r' ∧ a = sv_owner (service r').
Proof.
  unfold current_owner. destruct (fails (next r)); [done|]. intros [= <- <-].
  split; [split; [apply env_later|done]|done].
Qed.
Lemma call_get_secrets_Ok section r a r' :
  call_get_secrets section r = (Ok a, r') →
  extends r r' ∧ ∃ s, later (service r) s ∧ sv_owner s = destination ∧
    sv_owner (service r') = destination ∧
    sv_version (service r') = (sv_version s + 1)%N ∧ sv_settings (service r') = sv_settings s ∧
    sv_get_secrets section s = (Ok a, service r').
Proof.
  unfold call_get_secrets. destruct (fails (next r)); [done|]. cbn. case_bool_decide; [|done].
  destruct (sv_get_secrets _ _) as [x s'] eqn:E. intros [= -> <-].
  destruct (get_secrets_once _ _ _ _ E) as [Hl Hx]. destruct (Hx eq_refl) as (Ho & Hv & Hs). cbn.
  split; [split; [|done]; cbn; etrans; [apply env_later|done]|]. eexists. split_and!; [apply env_later|done| |done..].
  congruence.
Qed.
Lemma call_update2_Ok c fl v r a r' :
  call_update2 c fl v r = (Ok a, r') →
  ∃ s, later (service r) s ∧ sv_owner s = destination ∧ sv_version s = v ∧
    later s (service r') ∧
    writes r' = writes r ++ [{| w_before := s; w_settings := c; w_flags := fl; w_version := v |}].
Proof.
  unfold call_update2. destruct (fails (next r)); [done|]. cbn. case_bool_decide; [|done].
  destruct (sv_update2 _ _ _ _) as [x s'] eqn:E. intros [= -> <-].
  destruct (update2_checks_version _ _ _ _ _ _ E) as [Hl Hx]. eexists.
  split_and!; [apply env_later|done|by apply Hx|done..].
Qed.

(** ** The snapshot *)

(** The service was at version [v] with settings [o] at some point before [s]. *)
Definition snap (o : ConnectionSettings) (v : N) (s : S) : Prop :=
  ∃ a, later a s ∧ sv_owner a = destination ∧ sv_version a = v ∧ sv_settings a = o.

Lemma snap_later o v s s' : snap o v s → later s s' → snap o v s'.
Proof. intros (a & Ha & Hr) Hl. exists a. split; [by etrans|done]. Qed.
Lemma snap_now o v s :
  sv_owner s = destination → sv_version s = v → sv_settings s = o → snap o v s.
Proof. intros. by exists s. Qed.

(** The same version later is the same settings; later versions are not smaller. *)
Lemma snap_read o v s :
  snap o v s → sv_owner s = destination → (v ≤ sv_version s)%N ∧ (sv_version s = v → sv_settings s = o).
Proof.
  intros (a & Hl & Ho & <- & <-) Hs. apply version_names_settings; [done|congruence].
Qed.
Lemma snap_extends o v r r' : snap o v (service r) → extends r r' → snap o v (service r').
Proof. intros Hs [Hl _]. by eapply snap_later. Qed.

(** Facts of the reads of a run, and their composition. *)
Ltac observe :=
  repeat match goal with
  | H : get_property _ _ = (Ok _, _) |- _ => apply get_property_Ok in H as (? & ? & ?)
  | H : current_owner _ = (Ok _, _) |- _ => apply current_owner_Ok in H as (? & ?)
  end.

Lemma persistence_allowed_extends b r a r' : persistence_allowed b r = (Ok a, r') → extends r r'.
Proof.
  unfold persistence_allowed. intros H. unroll. observe.
  destruct (_ && _); unroll; [simplify_eq; by etrans|]. destruct b; unroll; observe; simplify_eq.
  - by do 2 (etrans; [done|]).
  - by etrans.
Qed.

Lemma uuid_non_empty o t : non_empty o = Some t → o = Some t.
Proof. unfold non_empty. destruct o; [|done]. by case_bool_decide. Qed.

Lemma begin_Ok b r e r' :
  begin_profile_edit b r = (Ok e, r') →
  extends r r' ∧ snap (e_original e) (e_version e) (service r') ∧ e_settings e = e_original e ∧
  e_owner e = destination ∧ e_explicit_remember e = b ∧ uuid_of (e_original e) = Some (e_uuid e).
Proof.
  unfold begin_profile_edit. intros H. unroll.
  match goal with H : (if bool_decide (?x = ?y) then _ else _) _ = (Ok _, _) |- _ =>
    destruct (decide (x = y)) as [Hxy|]; [rewrite bool_decide_true in H by done|
      rewrite bool_decide_false in H by done; unroll; simplify_eq] end.
  unroll. match goal with H : persistence_allowed _ _ = _ |- _ => apply persistence_allowed_extends in H as Hallow end.
  observe. subst. cbn. bool_prop.
  match goal with H : ok_or _ _ = Ok ?u |- _ => destruct (non_empty (uuid_of _)) eqn:Hu; [injection H as ->|done] end.
  split_and!; try done.
  - do 5 (etrans; [eassumption|]). done.
  - eapply snap_extends with (r := x8); [|do 2 (etrans; [eassumption|]); done].
    apply snap_now; [done| |done].
    assert (Hl : later (service x8) (service x16)) by (destruct Hallow, H8; by etrans).
    destruct (version_names_settings _ _ (proj1 H4)) as [Hle _]; [congruence|].
    destruct (version_names_settings _ _ Hl) as [Hge _]; [congruence|]. lia.
  - by apply uuid_non_empty in Hu.
Qed.

(** One retrieval of secrets between two reads of the version that differ by one: nobody
    else changed the profile. *)
Lemma get_secrets_snap section o v r a r1 v1 r2 :
  snap o v (service r) →
  call_get_secrets section r = (Ok a, r1) → get_property sv_version r1 = (Ok v1, r2) → v1 = (v + 1)%N →
  extends r r2 ∧ snap o (v + 1) (service r2) ∧
  ∃ s, later (service r) s ∧ sv_owner s = destination ∧ sv_version s = v ∧ sv_settings s = o ∧
    sv_get_secrets section s = (Ok a, service r1).
Proof.
  intros Hs H Hr ->. apply call_get_secrets_Ok in H as (Hex & s & Hl & Ho & Ho' & Hv & Hset & Hg).
  apply get_property_Ok in Hr as (Hex' & Ho2 & Hv2).
  destruct (snap_read o v s) as [Hle Heq]; [by eapply snap_later|done|].
  destruct (version_names_settings _ _ (proj1 Hex')) as [Hge _]; [congruence|].
  assert (sv_version s = v) as Hsv by lia. split_and!; [by etrans| |exists s; split_and!; auto].
  eapply snap_extends; [|done]. apply snap_now; [done|lia|]. rewrite Hset. by apply Heq.
Qed.

(** ** Preserving secrets *)

Lemma collect_Ok sections c v o r c' v' r' :
  collect_existing sections c v r = (Ok (c', v'), r') →
  snap o v (service r) →
  extends r r' ∧ snap o v' (service r') ∧
  (has_peers c → ∀ p, public_settings c = Ok p → has_peers c' ∧ public_settings c' = Ok p).
Proof.
  revert c v r. induction sections as [|n sections IH]; intros c v r; cbn.
  { intros H Hs. unroll. simplify_eq. split_and!; [done..|]. by intros Hp p Hpub. }
  intros H Hs. unroll.
  match goal with H : ok_or _ _ = Ok _ |- _ => destruct (_ <? _)%N; [injection H as <-|done] end. bool_prop.
  match goal with H1 : call_get_secrets _ _ = _, H2 : get_property sv_version _ = _ |- _ =>
    destruct (get_secrets_snap _ _ _ _ _ _ _ _ Hs H1 H2) as (Hex & Hsnap & _); [done|] end.
  destruct (IH _ _ _ H Hsnap) as (Hex' & Hsnap' & Hpub').
  split_and!; [by etrans|done|]. intros Hp p Hpub. apply Hpub'; [by eapply merge_secrets_peers|].
  eapply merge_public; [by apply has_peers_known|done..].
Qed.

Lemma preserve_Ok c v o r c' v' r' :
  preserve_secrets c v r = (Ok (c', v'), r') →
  snap o v (service r) →
  extends r r' ∧ snap o v' (service r') ∧
  (has_peers c → ∀ p, public_settings c = Ok p → public_settings c' = Ok p).
Proof.
  unfold preserve_secrets. intros H Hs. unroll. destruct x as [m w]. unroll. simplify_eq.
  match goal with H : collect_existing _ _ _ _ = _ |- _ =>
    destruct (collect_Ok _ _ _ _ _ _ _ _ H Hs) as (Hex & Hsnap & Hpub) end.
  split_and!; [done..|]. intros Hp p Hc. destruct (Hpub Hp p Hc) as [Hp' Hc'].
  eapply merge_public; [by apply has_peers_known|done..].
Qed.

Lemma prepare_Ok edit o r c v r' :
  (if has_secrets (e_settings edit) || e_explicit_remember edit then
     let* running := get_property sv_running in
     let* _ := require (validated_storage_version running)
                 "credential writes require a validated NetworkManager version" in
     preserve_secrets (e_settings edit) (e_version edit)
   else ret (e_settings edit, e_version edit)) r = (Ok (c, v), r') →
  snap o (e_version edit) (service r) →
  extends r r' ∧ snap o v (service r') ∧
  (has_peers (e_settings edit) → ∀ p, public_settings (e_settings edit) = Ok p → public_settings c = Ok p).
Proof.
  destruct (_ || _); intros H Hs; unroll; observe.
  - eapply preserve_Ok in H as (Hex & Hsnap & Hpub); [|by eapply snap_extends]. split_and!; [by etrans|done..].
  - by simplify_eq.
Qed.

(** ** Committing *)

Lemma commit_Ok edit b r r' :
  commit_credential_edit edit b r = (Ok tt, r') →
  snap (e_original edit) (e_version edit) (service r) →
  e_owner edit = destination ∧ uuid_of (e_settings edit) = Some (e_uuid edit) ∧
  validate_policy_changes (e_original edit) (e_settings edit) = Ok tt ∧
  ∃ w, writes r' = writes r ++ [w] ∧ sv_settings (w_before w) = e_original edit ∧
    sv_owner (w_before w) = destination ∧
    (e_explicit_remember edit = false → has_peers (e_settings edit) →
     ∀ p, public_settings (e_settings edit) = Ok p → public_settings (w_settings w) = Ok p).
Proof.
  unfold commit_credential_edit. intros H Hs. unroll. observe. bool_prop. subst.
  match goal with H : validate_policy_changes _ _ = Ok ?u |- _ => destruct u end. split_and!; [done..|].
  match goal with H : (if has_secrets _ || _ then _ else _) _ = (Ok ?cv, _) |- _ =>
    destruct cv as [c v]; eapply prepare_Ok in H as (Hex & Hsnap & Hpub) end;
    [|eapply snap_extends; [done|]; by etrans].
  unroll. match goal with H : (if bool_decide (?x = ?y) then _ else _) _ = (Ok _, _) |- _ =>
    destruct (decide (x = y)) as [Hxy|]; [rewrite bool_decide_true in H by done|
      rewrite bool_decide_false in H by done; unroll; simplify_eq] end.
  unroll. match goal with H : call_update2 _ _ _ _ = _ |- _ =>
    apply call_update2_Ok in H as (s & Hl & Ho & Hv & _ & Hw) end.
  match goal with H : (if e_explicit_remember edit then ret true else _) ?a = (Ok _, ?a') |- _ =>
    assert (extends a a') by (destruct (e_explicit_remember edit); unroll; observe; by subst) end.
  match goal with H : (if e_explicit_remember edit then lift _ else _) ?a = (Ok ?c', ?a') |- _ =>
    assert (a' = a ∧ (e_explicit_remember edit = false → c' = c)) as [-> Hc']
      by (destruct (e_explicit_remember edit); unroll; done) end.
  observe. assert (Hall : extends r x14) by (do 5 (etrans; [eassumption|]); done).
  eexists. split_and!.
  - rewrite (proj2 H15), Hw, (proj2 Hall). done.
  - cbn. eapply (snap_read (e_original edit) v s); [|done..].
    eapply snap_later; [|exact Hl]. eapply snap_extends; [exact Hsnap|]. do 2 (etrans; [eassumption|]). done.
  - done.
  - cbn. intros Hr Hp p Hc. rewrite (Hc' Hr). by apply Hpub.
Qed.

(** C26. A profile edit loses no concurrent change: whatever other clients do between the
    daemon's D-Bus calls, and whenever those fail, an edit that reports success made
    exactly one accepted write, and the settings the profile had just before that write
    are those of the snapshot the edit started from; the public part of what was written
    is the edit's, the secrets merged into it notwithstanding. *)
Theorem edit_loses_no_update path casting mutate reapply r r' :
  (∀ b r u r', reapply b r = (Ok u, r') → writes r' = writes r) →
  mutate_connection_settings_with_casting path casting mutate reapply r = (Ok tt, r') →
  ∃ original edited w,
    mutate original = Ok edited ∧
    writes r' = writes r ++ [w] ∧ sv_settings (w_before w) = original ∧
    sv_owner (w_before w) = destination ∧
    validate_policy_changes original edited = Ok tt ∧ uuid_of edited = uuid_of original ∧
    (has_peers edited → ∀ p, public_settings edited = Ok p → public_settings (w_settings w) = Ok p).
Proof.
  intros Hre. unfold mutate_connection_settings_with_casting, begin_credential_edit. intros H. unroll.
  match goal with H : begin_profile_edit _ _ = (Ok ?e, _) |- _ =>
    apply begin_Ok in H as (Hex & Hsnap & Hset & Howner & Hrem & Huuid); rename e into edit end.
  match goal with H : commit_credential_edit ?e _ _ = (Ok ?u, _) |- _ => destruct u;
    apply commit_Ok in H as (_ & Hu & Hpol & w & Hw & Hbefore & Hown & Hpub); [|done] end.
  assert (Hlast : writes r' = writes x6).
  { destruct casting as [b|]; [|by unroll; subst].
    destruct (reapply b x6) as [[]] eqn:E; [injection H as <-; by eapply Hre|done]. }
  exists (e_original edit). eexists _, w. rewrite Hset in *. cbn in *. split_and!; try done.
  - by rewrite Hlast, Hw, (proj2 Hex).
  - congruence.
  - by apply Hpub.
Qed.
End Writer.

(** ** A service *)

(** One profile of one service run: reading secrets is an internal update. *)
Record profile_state := {
  ps_version : N;
  ps_settings : ConnectionSettings;
  ps_secrets : ConnectionSettings;
}.
#[local] Instance one_profile : ProfileService profile_state := {|
  sv_owner _ := ":1.7"; sv_version := ps_version; sv_settings := ps_settings;
  sv_unsaved _ := false; sv_filename _ := "/etc/NetworkManager/system-connections/home.nmconnection";
  sv_flags _ := 0%N; sv_running _ := "1.58.1"; sv_listed _ := true;
  sv_get_secrets _ s :=
    (Ok (ps_secrets s), {| ps_version := ps_version s + 1; ps_settings := ps_settings s; ps_secrets := ps_secrets s |});
  sv_update2 c _ v s :=
    if (v =? ps_version s)%N
    then (Ok tt, {| ps_version := ps_version s + 1; ps_settings := c; ps_secrets := ps_secrets s |})
    else (Err (plain "version mismatch"), s);
|}.
Definition profile_later (s s' : profile_state) : Prop :=
  (ps_version s ≤ ps_version s')%N ∧ (ps_version s' = ps_version s → ps_settings s' = ps_settings s).
#[local] Instance one_profile_laws : ProfileLaws profile_state profile_later.
Proof.
  split.
  - split; [by split|]. intros s1 s2 s3 [H1 E1] [H2 E2]. split; [lia|].
    intros E. rewrite E2, E1 by lia. done.
  - by intros s s' [H E] _.
  - intros n s r s' [= <- <-]. split; [split; cbn; lia|done].
  - intros c fl v s r s'. cbn. case_match eqn:E; intros [= <- <-].
    + split; [split; cbn; lia|]. intros _. by apply N.eqb_eq in E.
    + split; [by split|done].
Qed.

Definition home_state : profile_state := {|
  ps_version := 4;
  ps_settings := list_to_map
    [("connection", list_to_map [("id", VStr "Home"); ("uuid", VStr "u-1")]);
     (SECURITY, list_to_map [("key-mgmt", VStr "wpa-psk"); ("psk-flags", VU32 0)])];
  ps_secrets := {[ SECURITY := {[ "psk" := VStr "secret-1" ]} ]} |}.
Definition home_run : result unit Error * run :=
  mutate_connection_settings_with_casting ":1.7" (λ _ s, s) (λ _, false) "/1" None
    (λ c, Ok (set_casting_enabled true c)) (λ _, ret tt) {| next := 0; service := home_state; writes := [] |}.

(** The edit of [home_run] reads the secrets of the profile and writes once. *)
Lemma edit_loses_no_update_witness :
  ∃ w, writes home_run.2 = [w] ∧
    validate_policy_changes (sv_settings (w_before w)) (set_casting_enabled true (sv_settings (w_before w))) = Ok tt.
Proof.
  destruct (edit_loses_no_update ":1.7" (λ _ s, s) (λ _, false) profile_later
    (λ _, @PreOrder_Reflexive _ _ later_preorder)
    "/1" None (λ c, Ok (set_casting_enabled true c)) (λ _, ret tt)
    {| next := 0; service := home_state; writes := [] |} home_run.2) as (o & c & w & Hc & Hw & Ho & _ & Hp & _).
  - intros b r u r' [= _ <-]. done.
  - assert (Hok : is_ok home_run.1 = true) by by vm_compute. fold home_run.
    revert Hok. by destruct home_run as [[[]|] r'].
  - exists w. split; [done|]. rewrite Ho. by injection Hc as ->.
Defined.
