(* ===== verification/Wire.v ===== *)
(** * Protocol v1 shapes ([src/model/wire_v1.rs])

    Three model types are serialised through a wire record that the daemon
    validates again when it reads it: connect targets, network capabilities and
    network authentication. Serde fills the fields of the wire records (missing
    fields by their defaults); validation and conversion are the daemon's. A
    [custom] error carries the text it is given. *)
From S2P Require Import Prelude Errors Text Identity Wifi Network.
From Stdlib Require Import ZArith Lia Ascii.
From stdpp Require Import prelude strings list.

(** [D::Error::custom]. *)
Definition custom (m : string) : Error := plain m.
Definition custom_error (e : Error) : Error := custom (display e).

(** ** Connect targets *)

(** Identity newtypes and [Security] travel as strings. *)
Record WifiConnectTargetV1 := {
  w_ssid : string;
  w_ssid_bytes : list u8;
  w_ap_path : option string;
  w_bssid : option string;
  w_ifname : option string;
  w_device_path : option string;
  w_connection_name : option string;
  w_private : bool;
  w_hidden : bool;
  w_security : option string;
  w_key_mgmt : option string;
  w_enterprise : option EnterpriseAuth;
  w_profile : TargetProfileSettings;
}.

(** [WifiConnectTargetRef::from]. *)
Definition target_to_wire (t : WifiConnectTarget) : WifiConnectTargetV1 := {|
  w_ssid := ssid_display (t_ssid t);
  w_ssid_bytes := ssid_bytes (t_ssid t);
  w_ap_path := path_str <$> t_ap_path t;
  w_bssid := bssid_str <$> t_bssid t;
  w_ifname := ifname_str <$> t_ifname t;
  w_device_path := path_str <$> t_device_path t;
  w_connection_name := t_connection_name t;
  w_private := t_private t;
  w_hidden := t_hidden t;
  w_security := security_as_str <$> t_security t;
  w_key_mgmt := t_key_mgmt t;
  w_enterprise := t_enterprise t;
  w_profile := t_profile t |}.

(** The [Deserialize] of a string identity, on an optional field. *)
Definition read_identity {A} (parse : string → result A Error) (o : option string) :
    result (option A) Error :=
  transpose (result_map_err custom_error ∘ parse <$> o).

(** [impl Deserialize for WifiConnectTarget]. *)
Definition target_of_wire (try_from : string → result unit Error) (w : WifiConnectTargetV1) :
    result WifiConnectTarget Error :=
  let? ap_path := read_identity (object_path_parse try_from) (w_ap_path w) in
  let? bssid := read_identity bssid_parse (w_bssid w) in
  let? ifname := read_identity ifname_parse (w_ifname w) in
  let? device_path := read_identity (object_path_parse try_from) (w_device_path w) in
  let bytes := if bool_decide (w_ssid_bytes w = []) then as_bytes (w_ssid w)
               else w_ssid_bytes w in
  let? ssid := result_map_err custom_error (ssid_from_bytes bytes) in
  if negb (bool_decide (ssid_display ssid = w_ssid w)) then
    Err (custom "ssid display does not match the exact ssid_bytes identity")
  else
    Ok {| t_ssid := ssid; t_ap_path := ap_path; t_bssid := bssid; t_ifname := ifname;
          t_device_path := device_path; t_connection_name := w_connection_name w;
          t_private := w_private w; t_hidden := w_hidden w;
          t_security := security_of_str <$> w_security w; t_key_mgmt := w_key_mgmt w;
          t_enterprise := w_enterprise w; t_profile := w_profile w |}.

(** ** Capabilities *)

Record NetworkCapabilitiesV1 := {
  can_connect : bool;
  can_connect_now : bool;
  can_connect_with_password : bool;
  needs_password : bool;
  can_connect_with_credentials : bool;
  needs_credentials : bool;
  can_forget : bool;
  can_toggle_autoconnect : bool;
  can_set_mac_randomization : bool;
  can_toggle_casting : bool;
  can_set_send_hostname : bool;
  w_can_share_qr : bool;
  supported_auth : bool;
  unsupported_reason : option string;
}.

(** [NetworkCapabilities::v1_readiness]. *)
Definition v1_readiness (c : NetworkCapabilities) :
    bool * bool * bool * bool * bool * bool * bool * option string :=
  match readiness c with
  | Ready => (true, true, false, false, false, false, true, None)
  | NeedsPassword => (true, false, true, true, false, false, true, None)
  | NeedsEnterpriseCredentials => (true, false, false, false, true, true, true, None)
  | Unsupported reason => (false, false, false, false, false, false, false, reason)
  end.

(** [NetworkCapabilitiesRef::from]. *)
Definition capabilities_to_wire (c : NetworkCapabilities) : NetworkCapabilitiesV1 :=
  let '(r0, r1, r2, r3, r4, r5, r6, r7) := v1_readiness c in
  {| can_connect := r0; can_connect_now := r1; can_connect_with_password := r2;
     needs_password := r3; can_connect_with_credentials := r4; needs_credentials := r5;
     supported_auth := r6; unsupported_reason := r7;
     can_forget := has_profile c; can_toggle_autoconnect := has_profile c;
     can_set_mac_randomization := has_profile c; can_toggle_casting := has_profile c;
     can_set_send_hostname := has_profile c; w_can_share_qr := can_share_qr c |}.

Definition wire_readiness (w : NetworkCapabilitiesV1) : result ConnectionReadiness Error :=
  match can_connect w, can_connect_now w, can_connect_with_password w, needs_password w,
        can_connect_with_credentials w, needs_credentials w, supported_auth w with
  | true, true, false, false, false, false, true => Ok Ready
  | true, false, true, true, false, false, true => Ok NeedsPassword
  | true, false, false, false, true, true, true => Ok NeedsEnterpriseCredentials
  | false, false, false, false, false, false, false => Ok (Unsupported (unsupported_reason w))
  | _, _, _, _, _, _, _ => Err (custom "contradictory v1 network readiness capability flags")
  end.

(** [impl Deserialize for NetworkCapabilities]. *)
Definition capabilities_of_wire (w : NetworkCapabilitiesV1) :
    result NetworkCapabilities Error :=
  let profile_flags := [can_forget w; can_toggle_autoconnect w; can_set_mac_randomization w;
                        can_set_send_hostname w] in
  if existsb (λ flag, negb (Bool.eqb flag (can_forget w))) profile_flags then
    Err (custom "profile mutation capability flags must agree")
  else if can_toggle_casting w && negb (can_forget w) then
    Err (custom "Cast discovery cannot be changed without a saved profile")
  else
    let? r := wire_readiness w in
    Ok {| readiness := r; has_profile := can_forget w; can_share_qr := w_can_share_qr w |}.

(** ** Authentication *)

Record NetworkAuthV1 := {
  w_kind : AuthKind;
  w_key_management : list string;
  w_supported : bool;
  w_required_fields : list string;
  w_optional_fields : list string;
  w_note : option string;
}.

Definition auth_to_wire (a : NetworkAuth) : NetworkAuthV1 := {|
  w_kind := na_kind a; w_key_management := key_management a; w_supported := auth_supported a;
  w_required_fields := required_fields a; w_optional_fields := optional_fields a;
  w_note := na_note a |}.

Definition auth_of_wire (w : NetworkAuthV1) : result NetworkAuth Error :=
  if negb (Bool.eqb (w_supported w) (bool_decide (w_kind w ≠ Kind.Unsupported))) then
    Err (custom "authentication kind contradicts supported flag")
  else Ok (new_auth (w_kind w) (w_key_management w) (w_required_fields w)
             (w_optional_fields w) (w_note w)).

(** ** Lemmas *)

(** A target whose parts came from their validating constructors. *)
Record wf_target (try_from : string → result unit Error) (t : WifiConnectTarget) : Prop := {
  wf_ssid : ssid_from_bytes (ssid_bytes (t_ssid t)) = Ok (t_ssid t);
  wf_ap_path : ∀ p, t_ap_path t = Some p → try_from (path_str p) = Ok tt;
  wf_bssid : ∀ b, t_bssid t = Some b → bssid_parse (bssid_str b) = Ok b;
  wf_ifname : ∀ i, t_ifname t = Some i → ifname_parse (ifname_str i) = Ok i;
  wf_device_path : ∀ p, t_device_path t = Some p → try_from (path_str p) = Ok tt;
  wf_security : ∀ s, t_security t = Some s → security_of_str (security_as_str s) = s;
}.

Lemma read_identity_str {A} parse (str : A → string) o :
  (∀ a, o = Some a → parse (str a) = Ok a) →
  read_identity parse (str <$> o) = Ok o.
Proof.
  intros H. destruct o as [a|]; [|done]. unfold read_identity. simpl. by rewrite H.
Qed.

Lemma read_identity_Ok {A} (parse : string → result A Error) w a :
  read_identity parse w = Ok (Some a) → ∃ v, w = Some v ∧ parse v = Ok a.
Proof.
  unfold read_identity. destruct w as [v|]; simpl; [|done].
  destruct (parse v) eqn:E; simpl; intros [= ->]. eauto.
Qed.

Lemma object_path_parse_Ok try_from v p :
  object_path_parse try_from v = Ok p → path_str p = v ∧ try_from v = Ok tt.
Proof. unfold object_path_parse. destruct (try_from v) as [[]|]; simpl; by intros [= <-]. Qed.

Lemma path_again try_from p :
  try_from (path_str p) = Ok tt → object_path_parse try_from (path_str p) = Ok p.
Proof. unfold object_path_parse. intros ->. by destruct p. Qed.

Lemma ifname_parse_Ok v i : ifname_parse v = Ok i → ifname_str i = v ∧ ifname_parse v = Ok i.
Proof.
  intros H. split; [|done]. revert H. unfold ifname_parse.
  destruct (_ || existsb _ _); intros E; by simplify_eq.
Qed.

Lemma security_of_str_fixed s : security_of_str (security_as_str (security_of_str s)) = security_of_str s.
Proof.
  unfold security_of_str at 2 3. repeat case_bool_decide; try reflexivity.
  simpl. unfold security_of_str. by rewrite !bool_decide_eq_false_2.
Qed.

Lemma ssid_from_bytes_again b s : ssid_from_bytes b = Ok s → ssid_from_bytes (ssid_bytes s) = Ok s.
Proof. intros H. assert (H' := H). apply ssid_from_bytes_Ok in H' as [_ ->]. done. Qed.

Lemma target_wire_wf try_from w t : target_of_wire try_from w = Ok t → wf_target try_from t.
Proof.
  unfold target_of_wire.
  destruct (read_identity (object_path_parse try_from) (w_ap_path w)) as [p|] eqn:Hp; [|done].
  destruct (read_identity bssid_parse _) as [b|] eqn:Hb; [|done].
  destruct (read_identity ifname_parse _) as [i|] eqn:Hi; [|done].
  destruct (read_identity (object_path_parse try_from) (w_device_path w)) as [d|] eqn:Hd;
    [|done].
  destruct (ssid_from_bytes _) as [s|] eqn:Hs; simpl; [|done].
  destruct (negb _); [done|]. intros [= <-]. split; simpl.
  - by eapply ssid_from_bytes_again.
  - intros q ->. by apply read_identity_Ok in Hp as (v & _ & [-> ?]%object_path_parse_Ok).
  - intros q ->. apply read_identity_Ok in Hb as (v & _ & ?). by eapply bssid_parse_again.
  - intros q ->. by apply read_identity_Ok in Hi as (v & _ & [-> ?]%ifname_parse_Ok).
  - intros q ->. by apply read_identity_Ok in Hd as (v & _ & [-> ?]%object_path_parse_Ok).
  - intros q (v & _ & ->)%fmap_Some. apply security_of_str_fixed.
Qed.

Lemma target_wire_back try_from t :
  wf_target try_from t → target_of_wire try_from (target_to_wire t) = Ok t.
Proof.
  intros [Hs Hp Hb Hi Hd Hsec]. unfold target_of_wire, target_to_wire. cbn [w_ap_path w_bssid
    w_ifname w_device_path w_ssid w_ssid_bytes w_connection_name w_private w_hidden w_security
    w_key_mgmt w_enterprise w_profile].
  rewrite (read_identity_str _ path_str (t_ap_path t)) by (intros p E; by apply path_again, Hp).
  rewrite (read_identity_str _ bssid_str) by done.
  rewrite (read_identity_str _ ifname_str) by done.
  rewrite (read_identity_str _ path_str (t_device_path t))
    by (intros p E; by apply path_again, Hd).
  assert (Hs' := Hs). apply ssid_from_bytes_Ok in Hs' as [Hlen Heq].
  rewrite bool_decide_eq_false_2 by (intros E; rewrite E in Hlen; simpl in Hlen; lia).
  rewrite Hs. simpl. rewrite bool_decide_eq_true_2 by done. simpl.
  destruct t as [ts ? ? ? ? ? ? ? [s|] ? ? ?]; simpl in *; [|done].
  do 2 f_equal. rewrite Hsec; done.
Qed.

(** Reading a connect target is stable: whatever a client sends, a target
    that is accepted has an SSID of 1 to 32 bytes whose display is the one sent,
    a canonical BSSID, a valid interface name and valid object paths, and what
    the daemon writes back for it is accepted again as the same target. *)
Theorem target_wire_stable try_from w t :
  target_of_wire try_from w = Ok t →
  wf_target try_from t ∧ ssid_display (t_ssid t) = w_ssid w ∧
  1 ≤ length (ssid_bytes (t_ssid t)) ≤ 32 ∧
  target_of_wire try_from (target_to_wire t) = Ok t.
Proof.
  intros H. assert (Hwf := target_wire_wf _ _ _ H). split_and!; [done| | | |by apply target_wire_back].
  - revert H. unfold target_of_wire. cbv zeta. unbind.
    destruct (bool_decide (ssid_display _ = _)) eqn:E; simpl; [|done].
    intros [= <-]. by apply bool_decide_eq_true in E.
  - apply wf_ssid in Hwf. apply ssid_from_bytes_Ok in Hwf. lia.
  - apply wf_ssid in Hwf. apply ssid_from_bytes_Ok in Hwf. lia.
Qed.

Definition example_wire : WifiConnectTargetV1 := {|
  w_ssid := "Example"; w_ssid_bytes := []; w_ap_path := Some "/ap/1";
  w_bssid := Some "00-11-22-33-44-aa"; w_ifname := Some "wlan0"; w_device_path := None;
  w_connection_name := None; w_private := false; w_hidden := false;
  w_security := Some "open"; w_key_mgmt := None; w_enterprise := None;
  w_profile := target_profile_default |}.

Lemma target_wire_stable_witness :
  ∃ t, target_of_wire absolute_path example_wire = Ok t ∧
       target_of_wire absolute_path (target_to_wire t) = Ok t.
Proof.
  eexists. split; [vm_compute; reflexivity|].
  apply (target_wire_stable absolute_path example_wire). vm_compute. reflexivity.
Defined.

(** Capabilities are an exact encoding: every capability value is read back
    unchanged, and every message that is accepted is the encoding of what was
    read from it, except that the casting flag may be missing from an old
    record and the reason is only kept for an unsupported network. *)
Theorem capabilities_wire_exact :
  (∀ c, capabilities_of_wire (capabilities_to_wire c) = Ok c) ∧
  (∀ w c, capabilities_of_wire w = Ok c →
     capabilities_to_wire c =
     {| can_connect := can_connect w; can_connect_now := can_connect_now w;
        can_connect_with_password := can_connect_with_password w;
        needs_password := needs_password w;
        can_connect_with_credentials := can_connect_with_credentials w;
        needs_credentials := needs_credentials w; can_forget := can_forget w;
        can_toggle_autoconnect := can_toggle_autoconnect w;
        can_set_mac_randomization := can_set_mac_randomization w;
        can_toggle_casting := can_toggle_casting w || can_forget w;
        can_set_send_hostname := can_set_send_hostname w; w_can_share_qr := w_can_share_qr w;
        supported_auth := supported_auth w;
        unsupported_reason := if supported_auth w then None else unsupported_reason w |}).
Proof.
  split.
  - intros [[] [] q]; reflexivity.
  - intros [a b c d e f g h i j k l m n] r. unfold capabilities_of_wire, wire_readiness. simpl.
    destruct g, h; simpl; try done; destruct i; simpl; try done; destruct k; simpl; try done;
      destruct j; simpl; try done;
      destruct a, b, c, d, e, f, m; simpl; intros E; simplify_eq; reflexivity.
Qed.

(** Authentication is an exact encoding too. *)
Lemma auth_wire_back a : auth_of_wire (auth_to_wire a) = Ok a.
Proof.
  unfold auth_of_wire, auth_to_wire, auth_supported. simpl. rewrite eqb_reflx. by destruct a.
Qed.

Lemma auth_wire_exact w a : auth_of_wire w = Ok a → auth_to_wire a = w.
Proof.
  unfold auth_of_wire. destruct (Bool.eqb _ _) eqn:E; [|done]. apply eqb_prop in E.
  intros [= <-]. unfold auth_to_wire, auth_supported. simpl. rewrite <-E. by destruct w.
Qed.
