(* ===== verification/Selection.v ===== *)
(** * Connection selectors ([src/model/selection.rs])

    Which of several connections a request names: one preferred key, the first
    match in order, and no fallback to the other key. *)
From S2P Require Import Prelude Errors.
From Stdlib Require Import ZArith Lia.
From stdpp Require Import prelude strings list.

Record ProfileSelector := { ps_uuid : option string; ps_path : option string; ps_device : option string }.
Record ActiveConnectionSelector := { acs_path : option string; acs_uuid : option string }.
Record VpnSelector := { vs_uuid : option string; vs_path : option string }.

Inductive SelectionKind := Profile | Active | Vpn.
Inductive Identity := Uuid (u : string) | Path (p : string).

Definition contract (k : SelectionKind) : ErrorOperation * string * string :=
  match k with
  | Profile => (Op.Connect, "network.activateProfile requires uuid or path",
                "no saved profile matched the request")
  | Active => (Op.Disconnect, "network.deactivate requires path or uuid",
               "no active connection matched the request")
  | Vpn => (Op.VpnOperation, "vpn.connect requires uuid or path",
            "no saved VPN or WireGuard profile matched the request")
  end.

Definition or_else {A} (o : option A) (d : option A) : option A :=
  match o with Some _ => o | None => d end.

Definition identity (k : SelectionKind) (uuid path : option string) : result Identity Error :=
  let i := match k with
           | Active => or_else (Path <$> path) (Uuid <$> uuid)
           | _ => or_else (Uuid <$> uuid) (Path <$> path)
           end in
  let '(operation, required, _) := contract k in
  ok_or i (EDomain (validation operation required)).

Definition validate_selection (k : SelectionKind) (uuid path : option string) :
    result unit Error :=
  result_map (λ _, tt) (identity k uuid path).

(** [fields] reads the uuid and path of an item. *)
Definition matches {T} (fields : T → string * string) (i : Identity) (item : T) : bool :=
  let (uuid, path) := fields item in
  match i with
  | Uuid expected => bool_decide (uuid = expected)
  | Path expected => bool_decide (path = expected)
  end.

Definition select {T} (k : SelectionKind) (items : list T) (uuid path : option string)
    (fields : T → string * string) : result T Error :=
  let? i := identity k uuid path in
  let '(operation, _, missing) := contract k in
  ok_or (find_first (matches fields i) items)
    (EDomain (with_detail "path" (JStr (unwrap_or path ""))
       (with_detail "uuid" (JStr (unwrap_or uuid "")) (not_found operation missing)))).

(** ** Lemmas *)

Lemma identity_Ok k uuid path i :
  identity k uuid path = Ok i →
  i = match k, uuid, path with
      | Active, _, Some p => Path p
      | Active, Some u, None => Uuid u
      | _, Some u, _ => Uuid u
      | _, None, Some p => Path p
      | _, None, None => i
      end ∧ (is_Some uuid ∨ is_Some path).
Proof.
  unfold identity. destruct k, uuid, path; simpl; intros [= <-]; eauto.
Qed.

(** Selection commits to one key: a request without any key is refused, and
    otherwise the preferred key alone decides (the path for an active
    connection, the uuid for a profile or VPN); the item returned is the first
    that has it, and when none has it the answer is not-found even if the other
    key would have matched. *)
Theorem select_commits {T} k (items : list T) uuid path fields :
  match identity k uuid path with
  | Err e => uuid = None ∧ path = None ∧ select k items uuid path fields = Err e
  | Ok i =>
    i = match k, uuid, path with
        | Active, _, Some p => Path p
        | Active, Some u, None => Uuid u
        | _, Some u, _ => Uuid u
        | _, None, Some p => Path p
        | _, None, None => i
        end ∧
    match select k items uuid path fields with
    | Ok item => ∃ before after, items = before ++ item :: after ∧
                   matches fields i item = true ∧
                   ∀ x, x ∈ before → matches fields i x = false
    | Err e => (∀ x, x ∈ items → matches fields i x = false) ∧
               code (match as_domain e with Some d => d | None => not_found Op.Connect "" end)
                 = Code.NotFound
    end
  end.
Proof.
  destruct (identity k uuid path) as [i|e] eqn:Hi.
  - split; [by apply identity_Ok in Hi as [? _]|].
    unfold select. rewrite Hi. destruct (contract k) as [[o req] missing].
    destruct (find_first _ items) as [item|] eqn:Hf; simpl.
    + by apply find_first_Some in Hf.
    + split; [by apply find_first_None|done].
  - unfold select. rewrite Hi. unfold identity in Hi. destruct k, uuid, path; simplify_eq/=; done.
Qed.
