(* ===== verification/Cache.v ===== *)
(** * The runtime cache ([src/cache.rs], [src/cache/merge.rs], [src/cache/storage.rs])

    What the daemon remembers between runs: the last scan, the running scan
    session, the active status and the details of known connections, each a JSON
    file replaced atomically, and the history files with their rotation. A file
    is absent, unreadable as JSON, or holds a record; failures of the file system
    are answered by the [Io] argument, and a failed write leaves its file alone. *)
From S2P Require Import Prelude Errors Text Identity Wifi Qr Reasons Network.
From Stdlib Require Import ZArith Lia Ascii.
From stdpp Require Import prelude strings list gmap pretty.

(** ** Wi-Fi status ([src/model.rs]) *)

Record RadioStatus := {
  wireless_enabled : bool; wireless_hardware_enabled : bool; wireless_available : bool;
  wwan_enabled : bool; wwan_hardware_enabled : bool; wwan_available : bool;
  airplane_mode : bool;
}.

Record LinkStateStatus := {
  device_state : u32;
  device_state_name : string;
  ls_device_state_reason : TypedReason;
  active_connection_state : option u32;
  active_connection_state_name : option string;
  active_connection_state_flags : option u32;
  ls_primary : bool;
  default4 : bool;
  default6 : bool;
}.

Record WifiStatus := {
  ws_hidden_prompt : HiddenPrompt;
  ws_enabled : bool;
  ws_radios : RadioStatus;
  ws_active : bool;
  ws_device_iface : option string;
  ws_device_path : option string;
  ws_active_connection_path : option string;
  ws_access_point : option AccessPoint;
  ws_network : option NetworkEntry;
  ws_profile : option SavedWifiConnection;
  ws_connectivity : option ConnectivityStatus;
  ws_ip4 : option IpStatus;
  ws_ip6 : option IpStatus;
  ws_wireless : option WirelessStatus;
  ws_metered : option MeteredStatus;
  ws_active_since_ms : option u64;
  ws_link : option LinkStateStatus;
}.

(** [WifiStatus::inactive]. *)
Definition inactive (enabled : bool) (radios : RadioStatus) (device_iface : option string)
    (connectivity : option ConnectivityStatus) : WifiStatus :=
  {| ws_hidden_prompt := hidden_prompt_default; ws_enabled := enabled; ws_radios := radios;
     ws_active := false; ws_device_iface := device_iface; ws_device_path := None;
     ws_active_connection_path := None; ws_access_point := None; ws_network := None;
     ws_profile := None; ws_connectivity := connectivity; ws_ip4 := None; ws_ip6 := None;
     ws_wireless := None; ws_metered := None; ws_active_since_ms := None; ws_link := None |}.

(** ** Merging ([src/cache/merge.rs]) *)

Definition set_active (b : bool) (ap : AccessPoint) : AccessPoint := {|
  ap_ssid := ap_ssid ap; ap_ssid_bytes := ap_ssid_bytes ap; ap_active := b;
  ap_security := ap_security ap; ap_strength := ap_strength ap;
  ap_frequency := ap_frequency ap; ap_channel := ap_channel ap; ap_band := ap_band ap;
  ap_mode := ap_mode ap; ap_max_bitrate_mbps := ap_max_bitrate_mbps ap;
  ap_bandwidth_mhz := ap_bandwidth_mhz ap; ap_ssid_hex := ap_ssid_hex ap;
  ap_wpa_flags_label := ap_wpa_flags_label ap; ap_rsn_flags_label := ap_rsn_flags_label ap;
  ap_bssid := ap_bssid ap; ap_last_seen := ap_last_seen ap;
  ap_last_seen_age_ms := ap_last_seen_age_ms ap; ap_path := ap_path ap;
  ap_device_path := ap_device_path ap; ap_device_iface := ap_device_iface ap;
  ap_flags := ap_flags ap; ap_wpa_flags := ap_wpa_flags ap; ap_rsn_flags := ap_rsn_flags ap |}.

Definition set_last_connection (c : option ConnectionDetails) (n : NetworkEntry) :
    NetworkEntry := {|
  ne_access_point := ne_access_point n; ne_security_class := ne_security_class n;
  ne_key := ne_key n; ne_access_points := ne_access_points n;
  ne_primary_profile := ne_primary_profile n; ne_profiles := ne_profiles n;
  ne_capabilities := ne_capabilities n; ne_auth := ne_auth n;
  ne_connect_prompt := ne_connect_prompt n; ne_share := ne_share n;
  ne_portal_hint := ne_portal_hint n; ne_last_connection := c |}.

Definition network_key (ap : AccessPoint) : string :=
  ssid_hex (ap_ssid_exact ap) +:+ "|" +:+ security_as_str (ap_security ap).

(** The networks with their details, and how many have any. *)
Definition merge_connection_details (networks : list NetworkEntry)
    (connections : list (string * ConnectionDetails)) : list NetworkEntry * nat :=
  let networks' :=
    (λ n, set_last_connection (bt_get (network_key (ne_access_point n)) connections) n)
      <$> networks in
  (networks', length (List.filter (λ n, bool_decide (is_Some (ne_last_connection n))) networks')).

Definition mark_inactive (networks : list AccessPoint) : list AccessPoint :=
  set_active false <$> networks.

Definition same_access_point (left right : AccessPoint) : bool :=
  if negb (bool_decide (ap_path left = "")) && negb (bool_decide (ap_path right = ""))
  then bool_decide (ap_path left = ap_path right)
  else if negb (bool_decide (ap_bssid left = "")) && negb (bool_decide (ap_bssid right = ""))
  then eq_ignore_ascii_case (ap_bssid left) (ap_bssid right)
  else bool_decide (ap_ssid_exact left = ap_ssid_exact right)
       && bool_decide (ap_security left = ap_security right).

(** [if let Some(existing) = iter_mut().find(..) { *existing = new }]. *)
Fixpoint replace_first {A} (p : A → bool) (new : A) (l : list A) : option (list A) :=
  match l with
  | [] => None
  | a :: l' => if p a then Some (new :: l') else (a ::.) <$> replace_first p new l'
  end.

Definition upsert_connected_access_point (networks : list AccessPoint)
    (access_point : AccessPoint) : list AccessPoint :=
  let networks := mark_inactive networks in
  let access_point := set_active true access_point in
  match replace_first (λ n, same_access_point n access_point) access_point networks with
  | Some networks' => networks'
  | None => access_point :: networks
  end.

(** ** Records *)

Definition CACHE_VERSION : u32 := 2.
Definition NETWORK_SNAPSHOT_STALE_AFTER : duration := from_millis 30000.

Inductive CacheRead (T : Type) :=
| Missing
| Stale (found_version expected_version : u32)
| Corrupt (message : string)
| Available (value : T).
Arguments Missing {T}.
Arguments Stale {T} _ _.
Arguments Corrupt {T} _.
Arguments Available {T} _.

Definition unavailable_message {T} (subject : string) (r : CacheRead T) : option string :=
  match r with
  | Missing => Some (subject +:+ " is missing")
  | Stale found expected =>
    Some (subject +:+ " uses schema version " +:+ pretty found +:+ "; expected "
          +:+ pretty expected)
  | Corrupt message => Some (subject +:+ " is corrupt: " +:+ message)
  | Available _ => None
  end.

Record CachedSnapshot := {
  sn_version : u32;
  sn_updated_at_ms : N;
  sn_scanning : bool;
  sn_networks_found : nat;
  sn_networks : list AccessPoint;
}.

Inductive NetworkSnapshotSource := SourceCache | SourceNetworkManager | SourceScan.
Record NetworkSnapshotMetadata := {
  md_source : NetworkSnapshotSource;
  md_updated_at_ms : N;
  md_age_ms : u64;
  md_stale : bool;
  md_scanning : bool;
  md_refresh_requested : bool;
}.

Definition metadata (now_ms : N) (s : CachedSnapshot) (refresh_requested : bool) :
    NetworkSnapshotMetadata :=
  let age_ms := N.min (now_ms - sn_updated_at_ms s) u64_max in
  {| md_source := SourceCache;
     md_updated_at_ms := sn_updated_at_ms s;
     md_age_ms := age_ms;
     md_stale := (N.min (as_millis NETWORK_SNAPSHOT_STALE_AFTER) u64_max <? age_ms)%N;
     md_scanning := sn_scanning s;
     md_refresh_requested := refresh_requested |}.

Record CachedStatus := {
  st_version : u32; st_updated_at_ms : N; st_state : string; st_message : string;
  st_timed_out : option bool; st_networks_found : option nat;
}.
Record CachedActiveStatus := {
  as_version : u32; as_updated_at_ms : N; as_active : bool; as_status : WifiStatus;
}.
Record CachedKnownConnections := {
  kc_version : u32; kc_updated_at_ms : N; kc_connections : list (string * ConnectionDetails);
}.

Definition snapshot_record (now_ms : N) (scanning : bool) (networks : list AccessPoint) :
    CachedSnapshot :=
  {| sn_version := CACHE_VERSION; sn_updated_at_ms := now_ms; sn_scanning := scanning;
     sn_networks_found := length networks; sn_networks := networks |}.

Definition active_status_record (now_ms : N) (status : WifiStatus) : CachedActiveStatus :=
  {| as_version := CACHE_VERSION; as_updated_at_ms := now_ms; as_active := ws_active status;
     as_status := status |}.

Definition empty_known_connections (now_ms : N) : CachedKnownConnections :=
  {| kc_version := CACHE_VERSION; kc_updated_at_ms := now_ms; kc_connections := [] |}.

Definition validate_version {T} (state : CacheRead T) (version : T → u32) : CacheRead T :=
  match state with
  | Available value =>
    if (version value =? CACHE_VERSION)%N then Available value
    else Stale (version value) CACHE_VERSION
  | other => other
  end.

(** ** The repository *)

Inductive file (T : Type) := Absent | Unparsable (message : string) | Holds (value : T).
Arguments Absent {T}.
Arguments Unparsable {T} _.
Arguments Holds {T} _.

Record Repo := {
  f_snapshot : file CachedSnapshot;
  f_session : file CachedSnapshot;
  f_status : file CachedStatus;
  f_active : file CachedActiveStatus;
  f_known : file CachedKnownConnections;
}.

Inductive FileName := Snapshot | Session | Status | Active | Known.

(** Outcomes of the file system: taking the lock, reading and writing a file. *)
Record Io := {
  io_lock : result unit Error;
  io_read : FileName → result unit Error;
  io_write : FileName → result unit Error;
}.

Definition read_json {T} (io : Io) (name : FileName) (f : file T) : result (CacheRead T) Error :=
  let? _ := io_read io name in
  Ok match f with
     | Absent => Missing
     | Unparsable m => Corrupt m
     | Holds v => Available v
     end.

(** A step of a transaction: the disk after it, and its result. *)
Definition step (A : Type) : Type := Repo → Repo * result A Error.

Definition write_snapshot_file (io : Io) (v : CachedSnapshot) : step unit := λ r,
  match io_write io Snapshot with
  | Ok _ => ({| f_snapshot := Holds v; f_session := f_session r; f_status := f_status r;
                f_active := f_active r; f_known := f_known r |}, Ok tt)
  | Err e => (r, Err e)
  end.
Definition write_session_file (io : Io) (v : CachedSnapshot) : step unit := λ r,
  match io_write io Session with
  | Ok _ => ({| f_snapshot := f_snapshot r; f_session := Holds v; f_status := f_status r;
                f_active := f_active r; f_known := f_known r |}, Ok tt)
  | Err e => (r, Err e)
  end.
Definition write_status_file (io : Io) (v : CachedStatus) : step unit := λ r,
  match io_write io Status with
  | Ok _ => ({| f_snapshot := f_snapshot r; f_session := f_session r; f_status := Holds v;
                f_active := f_active r; f_known := f_known r |}, Ok tt)
  | Err e => (r, Err e)
  end.
Definition write_active_file (io : Io) (v : file CachedActiveStatus) : step unit := λ r,
  match io_write io Active with
  | Ok _ => ({| f_snapshot := f_snapshot r; f_session := f_session r; f_status := f_status r;
                f_active := v; f_known := f_known r |}, Ok tt)
  | Err e => (r, Err e)
  end.
Definition write_known_file (io : Io) (v : CachedKnownConnections) : step unit := λ r,
  match io_write io Known with
  | Ok _ => ({| f_snapshot := f_snapshot r; f_session := f_session r; f_status := f_status r;
                f_active := f_active r; f_known := Holds v |}, Ok tt)
  | Err e => (r, Err e)
  end.

Definition and_then {A B} (m : step A) (k : A → step B) : step B := λ r,
  let (r', o) := m r in match o with Ok a => k a r' | Err e => (r', Err e) end.
Notation "'let!' x ':=' c 'in' k" := (and_then c (λ x, k))
  (at level 10, x pattern, c at level 200, k at level 200) : nm_scope.
Definition lift {A} (o : result A Error) : step A := λ r, (r, o).
Definition reading {A} (f : Repo → result A Error) : step A := λ r, (r, f r).

(** [Repository::write_transaction]. *)
Definition write_transaction {A} (io : Io) (operation : step A) : step A :=
  let! _ := lift (io_lock io) in operation.

Definition read_snapshot_locked (io : Io) (r : Repo) : result (CacheRead CachedSnapshot) Error :=
  result_map (λ s, validate_version s sn_version) (read_json io Snapshot (f_snapshot r)).

Definition read_known_connections (io : Io) (r : Repo) :
    result (CacheRead CachedKnownConnections) Error :=
  result_map (λ s, validate_version s kc_version) (read_json io Known (f_known r)).

Definition read_known_for_update (io : Io) (now_ms : N) (r : Repo) :
    result CachedKnownConnections Error :=
  let? state := read_known_connections io r in
  match state with
  | Available known => Ok known
  | Missing | Stale _ _ => Ok (empty_known_connections now_ms)
  | Corrupt message =>
    Err (plain ("refusing to overwrite corrupt known-connections cache: " +:+ message))
  end.

Definition update_snapshot (io : Io) (snapshot : CacheRead CachedSnapshot)
    (update : list AccessPoint → list AccessPoint) : step unit :=
  match snapshot with
  | Available s =>
    let networks := update (sn_networks s) in
    write_snapshot_file io {| sn_version := sn_version s; sn_updated_at_ms := sn_updated_at_ms s;
      sn_scanning := false; sn_networks_found := length networks; sn_networks := networks |}
  | Missing | Stale _ _ | Corrupt _ => lift (Ok tt)
  end.

(** ** Operations *)

Section Operations.
Context (io : Io) (now_ms : N).

Definition write_live_scan_snapshot (scanning : bool) (networks : list AccessPoint) : step unit :=
  write_transaction io
    (let! _ := if scanning then lift (Ok tt)
               else write_snapshot_file io (snapshot_record now_ms false networks) in
     write_session_file io (snapshot_record now_ms scanning networks)).

Definition write_snapshot (scanning : bool) (networks : list AccessPoint) : step unit :=
  write_transaction io (write_snapshot_file io (snapshot_record now_ms scanning networks)).

Definition write_status (state message : string) : step unit :=
  write_transaction io (write_status_file io
    {| st_version := CACHE_VERSION; st_updated_at_ms := now_ms; st_state := state;
       st_message := message; st_timed_out := None; st_networks_found := None |}).

Definition write_complete (networks_found : nat) : step unit :=
  write_transaction io (write_status_file io
    {| st_version := CACHE_VERSION; st_updated_at_ms := now_ms; st_state := "complete";
       st_message := "scan complete; " +:+ pretty networks_found +:+ " networks available";
       st_timed_out := Some false; st_networks_found := Some networks_found |}).

(** Reads take no lock: a replacement is atomic. *)
Definition read_snapshot (r : Repo) : result (CacheRead CachedSnapshot) Error :=
  read_snapshot_locked io r.

Definition details_of (status : WifiStatus) : ConnectionDetails :=
  {| cd_ip4 := ws_ip4 status; cd_ip6 := ws_ip6 status; cd_wireless := ws_wireless status;
     cd_metered := ws_metered status; cd_active_since_ms := ws_active_since_ms status;
     cd_updated_at_ms := now_ms |}.

Definition cache_connected_network_status (status : WifiStatus) : step unit :=
  write_transaction io
    (let! snapshot := reading (read_snapshot_locked io) in
     let! known :=
       if ws_active status && bool_decide (is_Some (ws_access_point status))
       then reading (λ r, result_map Some (read_known_for_update io now_ms r))
       else lift (Ok None) in
     let! _ := write_active_file io (Holds (active_status_record now_ms status)) in
     match ws_access_point status, known with
     | Some access_point, Some known =>
       let! _ := write_known_file io
         {| kc_version := kc_version known; kc_updated_at_ms := now_ms;
            kc_connections :=
              bt_insert (network_key access_point) (details_of status) (kc_connections known) |} in
       update_snapshot io snapshot
         (λ networks, upsert_connected_access_point networks access_point)
     | _, _ => update_snapshot io snapshot mark_inactive
     end).

Definition attach_connection_details (networks : list NetworkEntry) (r : Repo) :
    list NetworkEntry * result (CacheRead nat) Error :=
  match read_known_connections io r with
  | Err e => (networks, Err e)
  | Ok (Available known) =>
    let (networks', n) := merge_connection_details networks (kc_connections known) in
    (networks', Ok (Available n))
  | Ok Missing => (networks, Ok Missing)
  | Ok (Stale f e) => (networks, Ok (Stale f e))
  | Ok (Corrupt m) => (networks, Ok (Corrupt m))
  end.

Definition clear_active_connection_cache : step unit :=
  write_transaction io
    (let! snapshot := reading (read_snapshot_locked io) in
     let! _ := write_active_file io Absent in
     update_snapshot io snapshot mark_inactive).
End Operations.

(** ** History files ([src/cache/storage.rs])

    A log and its rotations: index 0 is the log itself, index [i] the file with
    suffix [.i]. A record is a line; a file is its lines, oldest first. *)
Definition HISTORY_MAX_BYTES : N := 524288.
Definition HISTORY_ROTATIONS : nat := 3.

Abbreviation history := (gmap nat (list (list u8))) (only parsing).

Definition file_len (ls : list (list u8)) : N := N.of_nat (length (concat ls)).
Definition file_len_or_zero (h : history) : N :=
  match h !! 0%nat with Some ls => file_len ls | None => 0 end.

Definition rename_if_exists (from to : nat) (h : history) : history :=
  match h !! from with Some ls => <[to := ls]> (delete from h) | None => h end.

(** [for index in (1..rotations).rev()]. *)
Fixpoint shift_rotations (n : nat) (h : history) : history :=
  match n with
  | O => h
  | S n' => shift_rotations n' (rename_if_exists n (S n) h)
  end.

Definition rotate_files (rotations : nat) (h : history) : history :=
  match rotations with
  | O => delete 0%nat h
  | S n => rename_if_exists 0 1 (shift_rotations n (delete rotations h))
  end.

Definition append_private_file (line : list u8) (h : history) : history :=
  <[0%nat := unwrap_or (h !! 0%nat) [] ++ [line]]> h.

(** [line] ends with its newline. *)
Definition append_json_line_with_rotation (max_bytes : N) (rotations : nat) (line : list u8)
    (h : history) : history :=
  let current_bytes := file_len_or_zero h in
  append_private_file line
    (if (0 <? current_bytes)%N
        && (max_bytes <? u64_saturating_add current_bytes (N.of_nat (length line)))%N
     then rotate_files rotations h else h).

Definition append_history : list u8 → history → history :=
  append_json_line_with_rotation HISTORY_MAX_BYTES HISTORY_ROTATIONS.

(** ** Merging: lemmas *)

Lemma set_active_active b ap : ap_active (set_active b ap) = b.
Proof. done. Qed.

Lemma mark_inactive_none l : List.filter ap_active (mark_inactive l) = [].
Proof. induction l; [done|]. simpl. done. Qed.

Lemma replace_first_active p new l l' :
  replace_first p new l = Some l' → List.filter ap_active l = [] → ap_active new = true →
  List.filter ap_active l' = [new] ∧ length l' = length l.
Proof.
  revert l'. induction l as [|a l IH]; intros l' Hr Hl Hn; simpl in *; [done|].
  destruct (ap_active a) eqn:Ha; [done|]. destruct (p a).
  - simplify_eq. simpl. by rewrite Hn, Hl.
  - apply fmap_Some in Hr as (l'' & Hr & ->). simpl. rewrite Ha.
    destruct (IH _ Hr Hl Hn) as [-> ->]. done.
Qed.

Lemma upsert_active l ap :
  List.filter ap_active (upsert_connected_access_point l ap) = [set_active true ap].
Proof.
  unfold upsert_connected_access_point.
  destruct (replace_first _ _ _) as [l'|] eqn:E.
  - eapply replace_first_active in E as [? _]; [done|apply mark_inactive_none|done].
  - simpl. by rewrite mark_inactive_none.
Qed.

Lemma upsert_length l ap :
  length l ≤ length (upsert_connected_access_point l ap) ≤ S (length l).
Proof.
  unfold upsert_connected_access_point. destruct (replace_first _ _ _) as [l'|] eqn:E.
  - eapply replace_first_active in E as [_ ->]; [|apply mark_inactive_none|done].
    unfold mark_inactive. rewrite length_fmap. lia.
  - simpl. unfold mark_inactive. rewrite length_fmap. lia.
Qed.

(** ** The repository: lemmas *)

(** The operations of the cache that write, with the outcomes they meet. *)
Inductive CacheOp :=
| OpLiveScan (scanning : bool) (networks : list AccessPoint)
| OpSnapshot (scanning : bool) (networks : list AccessPoint)
| OpStatus (state message : string)
| OpComplete (networks_found : nat)
| OpConnected (status : WifiStatus)
| OpClear.

Definition run_op (io : Io) (now_ms : N) (op : CacheOp) : step unit :=
  match op with
  | OpLiveScan s l => write_live_scan_snapshot io now_ms s l
  | OpSnapshot s l => write_snapshot io now_ms s l
  | OpStatus s m => write_status io now_ms s m
  | OpComplete n => write_complete io now_ms n
  | OpConnected s => cache_connected_network_status io now_ms s
  | OpClear => clear_active_connection_cache io
  end.

Definition run_ops (ops : list (Io * N * CacheOp)) (r : Repo) : Repo :=
  foldl (λ r '(io, now, op), fst (run_op io now op r)) r ops.

(** Case analysis on the outcomes of a transaction. *)
Ltac run_cases :=
  repeat (cbn in *; first
    [ match goal with
      | |- context [io_lock ?io] => destruct (io_lock io) eqn:?
      | |- context [io_read ?io ?n] => destruct (io_read io n) eqn:?
      | |- context [io_write ?io ?n] => destruct (io_write io n) eqn:?
      | |- context [f_snapshot ?r] => destruct (f_snapshot r) eqn:?
      end ]).

(** A snapshot file counts its networks and has the current version. *)
Definition snapshot_wf (f : file CachedSnapshot) : Prop :=
  match f with
  | Holds s => sn_networks_found s = length (sn_networks s) ∧ sn_version s = CACHE_VERSION
  | _ => True
  end.

Lemma update_snapshot_spec io s upd r :
  let r' := fst (update_snapshot io s upd r) in
  f_known r' = f_known r ∧ f_active r' = f_active r ∧ f_session r' = f_session r ∧
  f_status r' = f_status r ∧
  (f_snapshot r' = f_snapshot r ∨ ∃ v, s = Available v ∧ ∃ v', f_snapshot r' = Holds v' ∧
     sn_version v' = sn_version v ∧ sn_networks v' = upd (sn_networks v) ∧
     sn_networks_found v' = length (sn_networks v') ∧ sn_scanning v' = false).
Proof.
  unfold update_snapshot. destruct s as [| | |v]; simpl; auto 8.
  unfold write_snapshot_file. destruct (io_write io Snapshot); simpl; [|auto 8].
  split_and!; [done..|]. right. exists v. split; [done|]. eexists. split_and!; reflexivity.
Qed.

Lemma run_op_known io now op r m :
  f_known r = Unparsable m → f_known (fst (run_op io now op r)) = Unparsable m.
Proof.
  intros Hk. destruct op; cbn.
  - unfold write_live_scan_snapshot, write_transaction, and_then, lift, write_snapshot_file,
      write_session_file. repeat case_match; simplify_eq/=; done.
  - unfold write_snapshot, write_transaction, and_then, lift, write_snapshot_file.
    repeat case_match; simplify_eq/=; done.
  - unfold write_status, write_transaction, and_then, lift, write_status_file.
    repeat case_match; simplify_eq/=; done.
  - unfold write_complete, write_transaction, and_then, lift, write_status_file.
    repeat case_match; simplify_eq/=; done.
  - unfold cache_connected_network_status, write_transaction, and_then, lift, reading.
    destruct (io_lock io); [|done]. destruct (read_snapshot_locked io r) as [s|]; [|done].
    destruct (ws_active status && _) eqn:Hact.
    + unfold read_known_for_update, read_known_connections, read_json. rewrite Hk. simpl.
      by destruct (io_read io Known).
    + unfold write_active_file. destruct (io_write io Active); [|done].
      destruct (ws_access_point status) as [ap|]; destruct (update_snapshot_spec io s mark_inactive
        {| f_snapshot := f_snapshot r; f_session := f_session r; f_status := f_status r;
           f_active := Holds (active_status_record now status); f_known := f_known r |})
        as [-> _]; done.
  - unfold clear_active_connection_cache, write_transaction, and_then, lift, reading.
    destruct (io_lock io); [|done]. destruct (read_snapshot_locked io r) as [s|]; [|done].
    unfold write_active_file. destruct (io_write io Active); [|done].
    destruct (update_snapshot_spec io s mark_inactive
        {| f_snapshot := f_snapshot r; f_session := f_session r; f_status := f_status r;
           f_active := Absent; f_known := f_known r |}) as [-> _]; done.
Qed.

Lemma run_op_snapshot io now op r :
  snapshot_wf (f_snapshot r) → snapshot_wf (f_snapshot (fst (run_op io now op r))).
Proof.
  intros Hw. assert (∀ s upd r0, read_snapshot_locked io r = Ok s → f_snapshot r0 = f_snapshot r →
    snapshot_wf (f_snapshot (fst (update_snapshot io s upd r0)))) as Hupd.
  { intros s upd r0 Hs Hr0. pose proof (update_snapshot_spec io s upd r0) as (_&_&_&_&H).
    destruct H as [->|(v & -> & v' & -> & Hv & Hn & Hl & _)]; [by rewrite Hr0|].
    split; [done|]. rewrite Hv. unfold read_snapshot_locked, read_json in Hs.
    destruct (io_read io Snapshot); simpl in Hs; [|done]. injection Hs as Hs.
    destruct (f_snapshot r) as [| |x]; simpl in Hs; [done..|].
    destruct (N.eqb_spec (sn_version x) CACHE_VERSION); by simplify_eq. }
  destruct op; cbn.
  - unfold write_live_scan_snapshot, write_transaction, and_then, lift, write_snapshot_file,
      write_session_file. repeat case_match; simplify_eq/=; done.
  - unfold write_snapshot, write_transaction, and_then, lift, write_snapshot_file.
    repeat case_match; simplify_eq/=; done.
  - unfold write_status, write_transaction, and_then, lift, write_status_file.
    repeat case_match; simplify_eq/=; done.
  - unfold write_complete, write_transaction, and_then, lift, write_status_file.
    repeat case_match; simplify_eq/=; done.
  - unfold cache_connected_network_status, write_transaction, and_then, lift, reading,
      write_active_file, write_known_file.
    destruct (io_lock io); [|done]. destruct (read_snapshot_locked io r) as [s|] eqn:Hs; [|done].
    destruct (ws_active status && _), (read_known_for_update io now r), (io_write io Active),
      (io_write io Known), (ws_access_point status); simpl; try done; by apply Hupd.
  - unfold clear_active_connection_cache, write_transaction, and_then, lift, reading,
      write_active_file.
    destruct (io_lock io); [|done]. destruct (read_snapshot_locked io r) as [s|] eqn:Hs; [|done].
    destruct (io_write io Active); [|done]. by apply Hupd.
Qed.


Definition good_io : Io :=
  {| io_lock := Ok tt; io_read := λ _, Ok tt; io_write := λ _, Ok tt |}.
Definition example_radios : RadioStatus := Build_RadioStatus true true true false false false false.
Definition example_status : WifiStatus :=
  {| ws_hidden_prompt := hidden_prompt_default; ws_enabled := true; ws_radios := example_radios;
     ws_active := true; ws_device_iface := Some "wlan0"; ws_device_path := None;
     ws_active_connection_path := None; ws_access_point := Some example_access_point;
     ws_network := None; ws_profile := None; ws_connectivity := None; ws_ip4 := None;
     ws_ip6 := None; ws_wireless := None; ws_metered := None; ws_active_since_ms := Some 5%N;
     ws_link := None |}.


(** What a successful connection stores is what the next listing shows: after
    the status of an active access point is cached, the entries of that network
    carry its connection details, the details of every other network are what
    they were, and a usable snapshot marks that access point, and no other, as
    active. *)
Theorem cached_connection_remembered io now status ap r r' :
  ws_active status = true → ws_access_point status = Some ap →
  cache_connected_network_status io now status r = (r', Ok tt) →
  f_active r' = Holds (active_status_record now status) ∧
  (∃ known, read_known_for_update io now r = Ok known ∧
     f_known r' = Holds {| kc_version := kc_version known; kc_updated_at_ms := now;
       kc_connections := bt_insert (network_key ap) (details_of now status)
                           (kc_connections known) |} ∧
     ∀ n, kc_version known = CACHE_VERSION →
       attach_connection_details good_io [n] r' =
       let d := if bool_decide (network_key (ne_access_point n) = network_key ap)
                then Some (details_of now status)
                else bt_get (network_key (ne_access_point n)) (kc_connections known) in
       ([set_last_connection d n], Ok (Available (if d then 1 else 0)))) ∧
  (∀ s, read_snapshot_locked io r = Ok (Available s) →
     ∃ s', f_snapshot r' = Holds s' ∧
       List.filter ap_active (sn_networks s') = [set_active true ap]).
Proof.
  intros Hact Hap. unfold cache_connected_network_status, write_transaction, and_then, lift,
    reading. rewrite Hact, Hap. simpl.
  destruct (io_lock io); [|done]. destruct (read_snapshot_locked io r) as [s|] eqn:Hs; [|done].
  destruct (read_known_for_update io now r) as [known|] eqn:Hk; simpl; [|done].
  unfold write_active_file. destruct (io_write io Active); [|done].
  unfold write_known_file. destruct (io_write io Known); [|done].
  match goal with |- context [update_snapshot io s ?u ?r0] =>
    pose proof (update_snapshot_spec io s u r0) as (Hk' & Ha' & _ & _ & Hsn);
    destruct (update_snapshot io s u r0) as [r'' o] eqn:Hu end.
  intros [= <- ->]. simpl in *. split; [done|]. split.
  - exists known. split_and!; [done..|]. intros n Hv.
    unfold attach_connection_details, read_known_connections, read_json. rewrite Hk'. simpl.
    rewrite Hv. simpl.
    destruct (decide (network_key (ne_access_point n) = network_key ap)) as [E|E].
    + rewrite (bool_decide_eq_true_2 (_ = network_key ap)) by done.
      by rewrite E, bt_get_insert_eq.
    + rewrite (bool_decide_eq_false_2 (_ = network_key ap)), bt_get_insert_ne by done.
      by destruct (bt_get _ (kc_connections known)).
  - intros v [= ->]. destruct Hsn as [Hsn|(v' & [= <-] & v'' & Hsn & _ & Hn & _)].
    + unfold update_snapshot, write_snapshot_file in Hu. simpl in Hu.
      destruct (io_write io Snapshot); [|done]. injection Hu as <-. simpl.
      eexists. split; [done|]. apply upsert_active.
    + exists v''. split; [done|]. rewrite Hn. apply upsert_active.
Qed.

Definition example_repo : Repo :=
  {| f_snapshot := Holds (snapshot_record 1 false [example_access_point]);
     f_session := Absent; f_status := Absent; f_active := Absent; f_known := Absent |}.

Lemma cached_connection_remembered_witness :
  f_active (fst (cache_connected_network_status good_io 9 example_status example_repo)) =
  Holds (active_status_record 9 example_status).
Proof.
  exact (proj1 (cached_connection_remembered good_io 9 example_status example_access_point
    example_repo (fst (cache_connected_network_status good_io 9 example_status example_repo))
    eq_refl eq_refl ltac:(vm_compute; reflexivity))).
Defined.

(** ** History: lemmas *)

#[local] Arguments rotate_files : simpl never.

Lemma rename_lookup from to (h : history) i :
  from ≠ to → h !! to = None →
  rename_if_exists from to h !! i =
  if decide (i = from) then None else if decide (i = to) then h !! from else h !! i.
Proof.
  intros Hne Hto. unfold rename_if_exists. destruct (h !! from) as [ls|] eqn:Hf.
  - destruct (decide (i = from)) as [->|]; [by rewrite lookup_insert_ne, lookup_delete_eq|].
    destruct (decide (i = to)) as [->|]; [by rewrite lookup_insert_eq|].
    by rewrite lookup_insert_ne, lookup_delete_ne.
  - destruct (decide (i = from)) as [->|]; [done|]. by destruct (decide (i = to)) as [->|].
Qed.

Lemma shift_lookup n (h : history) i :
  h !! S n = None →
  shift_rotations n h !! i =
  if decide (i = 0) then h !! 0 else if decide (i = 1) then None
  else if decide (i ≤ S n) then h !! (i - 1) else h !! i.
Proof.
  revert h. induction n as [|n IH]; intros h Hn; cbn [shift_rotations].
  - repeat case_decide; subst; try done; lia.
  - rewrite IH; rewrite !rename_lookup by (done || lia); [|by rewrite decide_True].
    repeat case_decide; subst; try done; try lia; f_equal; lia.
Qed.

(** Rotation moves every file one step back and drops the last. *)
Lemma rotate_lookup n (h : history) i :
  rotate_files (S n) h !! i =
  if decide (i = 0) then None else if decide (i ≤ S n) then h !! (i - 1) else h !! i.
Proof.
  unfold rotate_files. assert (delete (S n) h !! S n = None) as Hd by apply lookup_delete_eq.
  rewrite rename_lookup; [|done|by rewrite shift_lookup].
  rewrite !shift_lookup by done.
  repeat case_decide; subst; try done; try lia.
  - by rewrite lookup_delete_ne.
  - by rewrite lookup_delete_ne by lia.
  - by rewrite lookup_delete_ne by lia.
Qed.

(** The lines kept, oldest first: rotation [r], ..., rotation 1, the log. *)
Fixpoint kept (r : nat) (h : history) : list (list u8) :=
  match r with
  | O => unwrap_or (h !! 0) []
  | S r' => unwrap_or (h !! r) [] ++ kept r' h
  end.

Lemma kept_ext r (h h' : history) : (∀ i, i ≤ r → h !! i = h' !! i) → kept r h = kept r h'.
Proof.
  induction r as [|r IH]; intros H; simpl; [by rewrite H|]. rewrite H by lia. f_equal.
  apply IH. intros i Hi. apply H. lia.
Qed.

Lemma kept_rotate n (h : history) : unwrap_or (h !! S n) [] ++ kept (S n) (rotate_files (S n) h) = kept (S n) h.
Proof.
  cbn [kept]. f_equal. rewrite rotate_lookup, decide_False, decide_True by lia.
  replace (S n - 1) with n by lia.
  assert (∀ k, k ≤ n → unwrap_or (h !! k) [] ++ kept k (rotate_files (S n) h) = kept k h) as H.
  { induction k as [|k IH]; intros Hk; simpl; rewrite rotate_lookup.
    - rewrite decide_True by done. simpl. by rewrite app_nil_r.
    - rewrite decide_False, decide_True by lia. replace (S k - 1) with k by lia.
      by rewrite IH by lia. }
  by apply H.
Qed.

Lemma kept_append r line (h : history) : kept r (append_private_file line h) = kept r h ++ [line].
Proof.
  unfold append_private_file. induction r as [|r IH]; simpl.
  - by rewrite lookup_insert_eq.
  - rewrite lookup_insert_ne by done. by rewrite IH, app_assoc.
Qed.

(** Files hold at most [max] bytes, and none is kept past rotation [r]. *)
Definition history_bounded (max : N) (r : nat) (h : history) : Prop :=
  (∀ i ls, h !! i = Some ls → (file_len ls <= max)%N ∧ i ≤ r).

Lemma file_len_snoc ls l : file_len (ls ++ [l]) = (file_len ls + N.of_nat (length l))%N.
Proof. unfold file_len. rewrite concat_app, length_app. simpl. rewrite app_nil_r. lia. Qed.

Lemma append_bounded max n line (h : history) :
  (max < u64_max)%N → (N.of_nat (length line) <= max)%N → history_bounded max (S n) h →
  history_bounded max (S n) (append_json_line_with_rotation max (S n) line h).
Proof.
  intros Hmax Hline Hb i ls. unfold append_json_line_with_rotation, append_private_file.
  set (h' := (if (0 <? file_len_or_zero h)%N && (max <? _)%N then rotate_files (S n) h else h)).
  assert (history_bounded max (S n) h' ∧
    (file_len (unwrap_or (h' !! 0%nat) []) + N.of_nat (length line) <= max)%N) as [Hb' H0].
  { unfold h', file_len_or_zero. destruct (_ && _) eqn:E.
    - split; [|rewrite rotate_lookup; simpl; unfold file_len; simpl; lia].
      intros j ls'. rewrite rotate_lookup. repeat case_decide; [done| |].
      + intros [? _]%Hb. split; [done|lia].
      + intros [? ?]%Hb. lia.
    - split; [done|]. destruct (h !! 0%nat) as [ls'|] eqn:Hl; simpl; [|unfold file_len; simpl; lia].
      unfold file_len_or_zero in E. rewrite ?Hl in E.
      apply andb_false_iff in E as [E|E]; bool_prop; [lia|].
      revert E Hmax. unfold u64_saturating_add. lia. }
  destruct (decide (i = 0)) as [->|Hi].
  - rewrite lookup_insert_eq. intros [= <-]. rewrite file_len_snoc. split; [done|lia].
  - rewrite lookup_insert_ne by done. apply Hb'.
Qed.

Lemma append_kept_suffix max n line (h : history) all :
  kept (S n) h `suffix_of` all →
  kept (S n) (append_json_line_with_rotation max (S n) line h) `suffix_of` all ++ [line].
Proof.
  intros [pre ->]. unfold append_json_line_with_rotation. rewrite kept_append.
  destruct (_ && _).
  - exists (pre ++ unwrap_or (h !! S n) []). rewrite <-(kept_rotate n h). by rewrite !app_assoc.
  - exists pre. by rewrite app_assoc.
Qed.


