(* ===== verification/Admission.v ===== *)
(** * Connect admission ([src/daemon_runtime/admission.rs])

    The policy that admits Wi-Fi connect attempts: one running attempt per
    network identity, a ten second window after a wrong password during which
    the same credentials are refused, and identities whose saved credentials
    failed.  Guards ([ConnectAttemptGuard]) release the identity when they are
    finished or dropped; [admission_step] is one locked operation on the shared
    policy and the guards alive. *)
From S2P Require Import Prelude Errors.
From Stdlib Require Import ZArith Lia.
From stdpp Require Import prelude gmap strings list.

Definition WRONG_PASSWORD_RETRY_DELAY : duration := from_secs 10.

Record ConnectAttemptKey := {
  identity : string;
  credential_fingerprint : N;
  supplied_credentials : bool;
}.

#[export] Instance attempt_key_eq_dec : EqDecision ConnectAttemptKey.
Proof. solve_decision. Defined.

(** [ConnectAttemptKey::new]; the hash is [std]'s [DefaultHasher], whose
    algorithm the library leaves unspecified. *)
Definition new_key (default_hash : list Ascii.ascii → N)
    (identity : string) (credential_material : list Ascii.ascii)
    (supplied_credentials : bool) : ConnectAttemptKey :=
  {| identity := identity;
     credential_fingerprint := default_hash credential_material;
     supplied_credentials := supplied_credentials |}.

Record ConnectAttemptPolicy := {
  active_identities : gset string;
  blocked_until : gmap string (gmap N instant);
  stale_credentials : gset string;
}.

Definition default_policy : ConnectAttemptPolicy :=
  {| active_identities := ∅; blocked_until := ∅; stale_credentials := ∅ |}.

Inductive ConnectAdmission :=
| Active
| RetryAfter (delay : duration)
| CredentialsRequired.

#[export] Instance admission_eq_dec : EqDecision ConnectAdmission.
Proof. solve_decision. Defined.

(** [impl From<ConnectAdmission> for DomainError]. *)
Definition domain_error (a : ConnectAdmission) : DomainError :=
  match a with
  | Active =>
    connect Reason.ActivationFailed
      "A connection attempt for this network is already running"
  | CredentialsRequired =>
    connect Reason.SecretRequired
      "The saved Wi-Fi credentials failed; provide replacement credentials"
  | RetryAfter delay =>
    with_detail "retry_after_ms"
      (JNum (Z.of_N (as_millis delay `mod` 2 ^ 64)))
      (connect Reason.WrongPassword
        "NetworkManager is temporarily ignoring this access point after a failed password")
  end.

(** The nested [retain]: expired fingerprints go, then identities without any. *)
Definition live_fingerprints (now : instant) (fps : gmap N instant) : gmap N instant :=
  filter (λ kv, (now < kv.2)%N) fps.

Definition retain_blocked (now : instant) (m : gmap string (gmap N instant)) :
    gmap string (gmap N instant) :=
  omap (λ fps, let fps' := live_fingerprints now fps in
               if decide (fps' = ∅) then None else Some fps') m.

(** The deadline recorded for an identity and a fingerprint. *)
Definition blocked_deadline (m : gmap string (gmap N instant)) (id : string) (fp : N) :
    option instant :=
  m !! id ≫= λ fps, fps !! fp.

Definition admit_attempt (attempt : ConnectAttemptKey) (now : instant)
    (p : ConnectAttemptPolicy) : result unit ConnectAdmission * ConnectAttemptPolicy :=
  let blocked := retain_blocked now (blocked_until p) in
  let p' := {| active_identities := active_identities p; blocked_until := blocked;
               stale_credentials := stale_credentials p |} in
  if decide (identity attempt ∈ active_identities p) then (Err Active, p')
  else if bool_decide (identity attempt ∈ stale_credentials p)
          && negb (supplied_credentials attempt) then (Err CredentialsRequired, p')
  else match blocked_deadline blocked (identity attempt) (credential_fingerprint attempt) with
       | Some deadline => (Err (RetryAfter (deadline - now)%N), p')
       | None =>
         (Ok tt, {| active_identities := {[identity attempt]} ∪ active_identities p;
                    blocked_until := blocked;
                    stale_credentials := stale_credentials p |})
       end.

Definition abandon (attempt : ConnectAttemptKey) (p : ConnectAttemptPolicy) :
    ConnectAttemptPolicy :=
  {| active_identities := active_identities p ∖ {[identity attempt]};
     blocked_until := blocked_until p;
     stale_credentials := stale_credentials p |}.

Definition credential_failure (reason : option ConnectFailureReason) : bool :=
  match reason with
  | Some (Reason.WrongPassword | Reason.PasswordUnavailable | Reason.SecretRequired) => true
  | _ => false
  end.

Definition complete (attempt : ConnectAttemptKey) (reason : option ConnectFailureReason)
    (succeeded : bool) (now : instant) (p : ConnectAttemptPolicy) : ConnectAttemptPolicy :=
  let p := abandon attempt p in
  if succeeded then
    {| active_identities := active_identities p;
       blocked_until := delete (identity attempt) (blocked_until p);
       stale_credentials := stale_credentials p ∖ {[identity attempt]} |}
  else
    {| active_identities := active_identities p;
       blocked_until :=
         if bool_decide (reason = Some Reason.WrongPassword)
         then <[identity attempt :=
                 <[credential_fingerprint attempt := (now + WRONG_PASSWORD_RETRY_DELAY)%N]>
                   (unwrap_or (blocked_until p !! identity attempt) ∅)]> (blocked_until p)
         else blocked_until p;
       stale_credentials :=
         if credential_failure reason
         then {[identity attempt]} ∪ stale_credentials p
         else stale_credentials p |}.

(** ** Guards *)

(** The shared policy with the guards alive, each holding its attempt. *)
Record ConnectAttempts := {
  policy : ConnectAttemptPolicy;
  guards : list ConnectAttemptKey;
}.

Inductive admission_op :=
| Begin (attempt : ConnectAttemptKey)
| Finish (i : nat) (reason : option ConnectFailureReason) (succeeded : bool)
| DropGuard (i : nat).

(** [ConnectAttempts::begin]. *)
Definition begin (attempt : ConnectAttemptKey) (now : instant) (s : ConnectAttempts) :
    result unit DomainError * ConnectAttempts :=
  match admit_attempt attempt now (policy s) with
  | (Ok _, p) => (Ok tt, {| policy := p; guards := guards s ++ [attempt] |})
  | (Err a, p) => (Err (domain_error a), {| policy := p; guards := guards s |})
  end.

(** [ConnectAttemptGuard::finish] consumes the guard, so its [Drop] finds
    [finished] set and does nothing. *)
Definition finish (i : nat) (reason : option ConnectFailureReason) (succeeded : bool)
    (now : instant) (s : ConnectAttempts) : ConnectAttempts :=
  match guards s !! i with
  | Some attempt =>
    {| policy := complete attempt reason succeeded now (policy s);
       guards := delete i (guards s) |}
  | None => s
  end.

(** [Drop for ConnectAttemptGuard] of a guard that was not finished (a panic or
    an early return of the worker). *)
Definition drop_guard (i : nat) (s : ConnectAttempts) : ConnectAttempts :=
  match guards s !! i with
  | Some attempt =>
    {| policy := abandon attempt (policy s); guards := delete i (guards s) |}
  | None => s
  end.

Definition apply_op (op : admission_op) (now : instant) (s : ConnectAttempts) :
    ConnectAttempts :=
  match op with
  | Begin attempt => (begin attempt now s).2
  | Finish i reason succeeded => finish i reason succeeded now s
  | DropGuard i => drop_guard i s
  end.

(** A run: operations with the (monotonic) clock value each one reads. *)
Inductive admission_run : ConnectAttempts → list (admission_op * instant) →
    ConnectAttempts → Prop :=
| run_nil s : admission_run s [] s
| run_snoc s l s' op now :
  admission_run s l s' →
  (∀ op' t, (op', t) ∈ l → t <= now)%N →
  admission_run s (l ++ [(op, now)]) (apply_op op now s').

Definition initial : ConnectAttempts := {| policy := default_policy; guards := [] |}.

(** Operations on the policy alone, in the order the lock serializes them. *)
Inductive policy_op :=
| Admit (attempt : ConnectAttemptKey)
| Complete (attempt : ConnectAttemptKey) (reason : option ConnectFailureReason)
    (succeeded : bool)
| Abandon (attempt : ConnectAttemptKey).

Definition policy_apply (p : ConnectAttemptPolicy) (o : policy_op * instant) :
    ConnectAttemptPolicy :=
  match o with
  | (Admit a, now) => (admit_attempt a now p).2
  | (Complete a reason succeeded, now) => complete a reason succeeded now p
  | (Abandon a, _) => abandon a p
  end.

(** ** Lemmas *)

Lemma blocked_deadline_retain now m id fp d :
  blocked_deadline (retain_blocked now m) id fp = Some d ↔
  blocked_deadline m id fp = Some d ∧ (now < d)%N.
Proof.
  unfold blocked_deadline, retain_blocked. rewrite lookup_omap.
  destruct (m !! id) as [fps|]; simpl; [|naive_solver].
  assert (live_fingerprints now fps !! fp = Some d ↔ fps !! fp = Some d ∧ (now < d)%N)
    as Hlive by (unfold live_fingerprints; by rewrite map_lookup_filter_Some).
  rewrite <-Hlive. case_decide as Hempty; simpl; [|done].
  by rewrite Hempty, lookup_empty.
Qed.

Lemma blocked_deadline_retain_None now m id fp :
  blocked_deadline (retain_blocked now m) id fp = None ↔
  ∀ d, blocked_deadline m id fp = Some d → (d <= now)%N.
Proof.
  rewrite eq_None_not_Some. unfold is_Some.
  setoid_rewrite blocked_deadline_retain. split.
  - intros Hno d Hd. destruct (N.lt_ge_cases now d); [|done]. exfalso. eauto.
  - intros Hall (d & Hd & Hlt). apply Hall in Hd. lia.
Qed.

(** Success of a completion forgets the identity's deadlines; a failure sets or
    keeps them, later deadlines replacing earlier ones. *)
Lemma blocked_deadline_complete a reason succeeded now p id fp :
  blocked_deadline (blocked_until (complete a reason succeeded now p)) id fp =
  if decide (id = identity a) then
    if succeeded then None
    else if decide (reason = Some Reason.WrongPassword ∧ fp = credential_fingerprint a)
         then Some (now + WRONG_PASSWORD_RETRY_DELAY)%N
         else blocked_deadline (blocked_until p) id fp
  else blocked_deadline (blocked_until p) id fp.
Proof.
  unfold complete, blocked_deadline. destruct succeeded; simpl.
  - case_decide as Hid; [subst; by rewrite lookup_delete_eq|by rewrite lookup_delete_ne].
  - case_bool_decide as Hr; simpl; [|by repeat case_decide; naive_solver].
    case_decide as Hid; [subst; rewrite lookup_insert_eq|by rewrite lookup_insert_ne].
    simpl. case_decide as Hfp.
    + destruct Hfp as [_ ->]. by rewrite lookup_insert_eq.
    + rewrite lookup_insert_ne by naive_solver.
      destruct (blocked_until p !! identity a); [done|apply lookup_empty].
Qed.

Lemma admit_blocked_until a now p :
  blocked_until (admit_attempt a now p).2 = retain_blocked now (blocked_until p).
Proof. unfold admit_attempt. repeat case_match; by simplify_eq. Qed.

Lemma admit_stale a now p : stale_credentials (admit_attempt a now p).2 = stale_credentials p.
Proof. unfold admit_attempt. repeat case_match; by simplify_eq. Qed.

(** An open deadline for the attempt's own credentials refuses it. *)
Lemma admit_deadline_refuses a now p d :
  blocked_deadline (blocked_until p) (identity a) (credential_fingerprint a) = Some d →
  (now < d)%N → (admit_attempt a now p).1 ≠ Ok tt.
Proof.
  intros Hd Hlt. unfold admit_attempt. case_decide; [done|].
  destruct (bool_decide _ && _); [done|].
  by rewrite (proj2 (blocked_deadline_retain now _ _ _ d)).
Qed.

(** A recorded deadline survives every operation before it that is not a
    success of the same identity. *)
Lemma policy_apply_keeps_deadline p op t id fp d0 :
  (∃ d, blocked_deadline (blocked_until p) id fp = Some d ∧ d0 <= d)%N →
  (d0 <= t + WRONG_PASSWORD_RETRY_DELAY)%N → (t < d0)%N →
  (∀ b r, op = Complete b r true → identity b ≠ id) →
  (∃ d, blocked_deadline (blocked_until (policy_apply p (op, t))) id fp = Some d
        ∧ d0 <= d)%N.
Proof.
  intros (d & Hd & Hle) Ht0 Ht Hop. destruct op as [a|a r ok|a]; simpl; [| |by eauto].
  - exists d. rewrite admit_blocked_until, blocked_deadline_retain. split_and!; [done|lia..].
  - rewrite blocked_deadline_complete. case_decide as Hid; [|by eauto].
    destruct ok; [by destruct (Hop a r)|]. case_decide; eauto.
Qed.

Lemma policy_apply_keeps_stale p op t id :
  id ∈ stale_credentials p → (∀ b r, op = Complete b r true → identity b ≠ id) →
  id ∈ stale_credentials (policy_apply p (op, t)).
Proof.
  intros Hin Hop. destruct op as [a|a r ok|a]; simpl; [by rewrite admit_stale| |done].
  unfold complete. destruct ok; simpl; [|destruct (credential_failure r); set_solver].
  specialize (Hop a r eq_refl). set_solver.
Qed.

(** ** Theorems *)

(** Admission decides exactly by three independent rules: an attempt is
    admitted if and only if no attempt of the same network is running, it
    brings credentials when the saved ones failed, and no deadline for the same
    network and credential fingerprint lies after [now]. *)
Theorem admit_ok_iff a now p :
  (admit_attempt a now p).1 = Ok tt ↔
  identity a ∉ active_identities p ∧
  (identity a ∈ stale_credentials p → supplied_credentials a = true) ∧
  (∀ d, blocked_deadline (blocked_until p) (identity a) (credential_fingerprint a) = Some d →
        d <= now)%N.
Proof.
  rewrite <-blocked_deadline_retain_None. unfold admit_attempt.
  case_decide as Hact; simpl; [naive_solver|].
  case_bool_decide as Hst; destruct (supplied_credentials a); simpl;
    destruct (blocked_deadline (retain_blocked now (blocked_until p))
                (identity a) (credential_fingerprint a)) eqn:Hd; simpl;
    naive_solver.
Qed.

Section After_wrong_password.
(** A completion with [WrongPassword] at [t0], followed by operations [l] that
    read the clock no earlier than [t0], none of them a success of the same
    network. *)
Context (p : ConnectAttemptPolicy) (a : ConnectAttemptKey) (t0 : instant).
Context (l : list (policy_op * instant)).
Hypothesis Hclock : ∀ op t, (op, t) ∈ l → (t0 <= t)%N.
Hypothesis Hnosuccess :
  ∀ b r t, (Complete b r true, t) ∈ l → identity b ≠ identity a.

Let p' := foldl policy_apply (complete a (Some Reason.WrongPassword) false t0 p) l.

Lemma deadline_survives :
  (∀ op t, (op, t) ∈ l → t < t0 + WRONG_PASSWORD_RETRY_DELAY)%N →
  (∃ d, blocked_deadline (blocked_until p') (identity a) (credential_fingerprint a) = Some d
        ∧ t0 + WRONG_PASSWORD_RETRY_DELAY <= d)%N.
Proof.
  intros Hin. subst p'.
  assert (∃ d, blocked_deadline
      (blocked_until (complete a (Some Reason.WrongPassword) false t0 p))
      (identity a) (credential_fingerprint a) = Some d
      ∧ t0 + WRONG_PASSWORD_RETRY_DELAY <= d)%N as Hstart.
  { rewrite blocked_deadline_complete, !decide_True by done. eauto with lia. }
  revert Hstart Hclock Hnosuccess Hin.
  generalize (complete a (Some Reason.WrongPassword) false t0 p).
  clear p. induction l as [|[op t] l' IH]; intros q Hstart Hc Hn Hi; simpl; [done|].
  apply IH; [|set_solver..].
  apply policy_apply_keeps_deadline; [done| | |].
  - assert (t0 <= t)%N by (apply (Hc op); by left). lia.
  - apply (Hi op). by left.
  - intros b r ->. eapply (Hn b r t). by left.
Qed.

Lemma stale_survives : identity a ∈ stale_credentials p'.
Proof using Hnosuccess.
  clear Hclock. subst p'.
  assert (identity a ∈
    stale_credentials (complete a (Some Reason.WrongPassword) false t0 p)) as Hstart.
  { unfold complete; simpl. set_solver. }
  revert Hstart Hnosuccess.
  generalize (complete a (Some Reason.WrongPassword) false t0 p).
  clear p. induction l as [|[op t] l' IH]; intros q Hstart Hn; simpl; [done|].
  apply IH; [|set_solver].
  apply policy_apply_keeps_stale; [done|]. intros b r ->. eapply (Hn b r t). by left.
Qed.

(** After a wrong password, and whatever happens to other networks in
    between, the same credentials stay refused for ten seconds: an attempt
    with them inside the window is never admitted, and when nothing else
    refuses it the answer carries a wait that reaches the end of the window. *)
Theorem wrong_password_window b now :
  identity b = identity a → credential_fingerprint b = credential_fingerprint a →
  (∀ op t, (op, t) ∈ l → t < t0 + WRONG_PASSWORD_RETRY_DELAY)%N →
  (now < t0 + WRONG_PASSWORD_RETRY_DELAY)%N →
  (admit_attempt b now p').1 ≠ Ok tt ∧
  (identity b ∉ active_identities p' → supplied_credentials b = true →
   ∃ w, (admit_attempt b now p').1 = Err (RetryAfter w) ∧
        (t0 + WRONG_PASSWORD_RETRY_DELAY <= now + w)%N).
Proof.
  intros Hid Hfp Hin Hnow. destruct (deadline_survives Hin) as (d & Hd & Hle).
  rewrite <-Hid, <-Hfp in Hd. split.
  - eapply admit_deadline_refuses; [done|lia].
  - intros Hact Hsup. unfold admit_attempt. rewrite decide_False by done.
    rewrite Hsup, andb_false_r.
    rewrite (proj2 (blocked_deadline_retain now _ _ _ d)) by (split; [done|lia]).
    simpl. eexists. split; [done|]. lia.
Qed.

(** After a wrong password the network's saved credentials count as stale
    until an attempt on it succeeds: an attempt that brings none of its own is
    refused, no matter how much time passes. *)
Theorem stale_until_success b now :
  identity b = identity a → supplied_credentials b = false →
  (admit_attempt b now p').1 = Err Active ∨ (admit_attempt b now p').1 = Err CredentialsRequired.
Proof using Hnosuccess.
  intros Hid Hsup. pose proof stale_survives as Hst. rewrite <-Hid in Hst.
  unfold admit_attempt. case_decide; [by left|]. right.
  by rewrite bool_decide_eq_true_2, Hsup.
Qed.
End After_wrong_password.

(** Removing one occurrence of a duplicate-free list removes the element. *)
Lemma delete_NoDup_elem {A} (l : list A) i x y :
  NoDup l → l !! i = Some x → y ∈ delete i l ↔ y ∈ l ∧ y ≠ x.
Proof.
  intros Hnd Hi. pose proof (delete_Permutation _ _ _ Hi) as Hp.
  rewrite Hp in Hnd. apply NoDup_cons in Hnd as [Hx _].
  assert (y ∈ l ↔ y = x ∨ y ∈ delete i l) as -> by by rewrite <-elem_of_cons, <-Hp.
  naive_solver.
Qed.

Lemma delete_NoDup {A} (l : list A) i x : NoDup l → l !! i = Some x → NoDup (delete i l).
Proof.
  intros Hnd Hi. rewrite (delete_Permutation _ _ _ Hi) in Hnd.
  by apply NoDup_cons in Hnd as [_ Hnd].
Qed.

Definition admission_inv (s : ConnectAttempts) : Prop :=
  NoDup (identity <$> guards s) ∧
  active_identities (policy s) = list_to_set (identity <$> guards s).

Lemma admission_inv_release s i a (p : ConnectAttemptPolicy) :
  admission_inv s → guards s !! i = Some a →
  active_identities p = active_identities (policy s) ∖ {[identity a]} →
  admission_inv {| policy := p; guards := delete i (guards s) |}.
Proof.
  intros [Hnd Hact] Hi Hp. unfold admission_inv; simpl.
  rewrite list_fmap_delete. split.
  - eapply delete_NoDup; [done|]. by rewrite list_lookup_fmap, Hi.
  - rewrite Hp, Hact. apply set_eq. intros x.
    rewrite elem_of_difference, !elem_of_list_to_set, not_elem_of_singleton.
    symmetry. apply delete_NoDup_elem; [done|]. by rewrite list_lookup_fmap, Hi.
Qed.

Lemma admission_inv_step op now s : admission_inv s → admission_inv (apply_op op now s).
Proof.
  intros Hinv. destruct op as [a|i r ok|i]; simpl.
  - destruct Hinv as [Hnd Hact]. unfold begin, admit_attempt.
    case_decide as Hin; [by split|]. destruct (bool_decide _ && _); [by split|].
    destruct (blocked_deadline _ _ _); [by split|]. unfold admission_inv; simpl. rewrite fmap_app; simpl.
    rewrite Hact in Hin |- *. rewrite elem_of_list_to_set in Hin. split.
    + apply NoDup_app. split_and!; [done| |apply NoDup_singleton].
      intros x Hx ->%list_elem_of_singleton. done.
    + rewrite list_to_set_app_L. set_solver.
  - unfold finish. destruct (guards s !! i) eqn:Hi; [|done].
    eapply admission_inv_release; [done..|]. unfold complete. by destruct ok.
  - unfold drop_guard. destruct (guards s !! i) eqn:Hi; [|done].
    by eapply admission_inv_release.
Qed.

(** C8. Mutual exclusion over any interleaving of admissions, completions and
    dropped guards: the running attempts never share a network identity, and
    the policy's set of active identities is exactly the set of networks with a
    guard alive, so no identity stays locked after its attempt is gone. *)
Theorem admission_exclusive l s :
  admission_run initial l s →
  NoDup (identity <$> guards s) ∧
  active_identities (policy s) = list_to_set (identity <$> guards s).
Proof.
  intros Hrun. change (admission_inv s).
  assert (∀ s0, admission_run s0 l s → admission_inv s0 → admission_inv s) as Hgen.
  { clear. induction 1; auto using admission_inv_step. }
  apply (Hgen initial); [done|]. split; [constructor|done].
Qed.

(** ** Witnesses *)

Definition sample_key : ConnectAttemptKey :=
  {| identity := "cafe"; credential_fingerprint := 7; supplied_credentials := true |}.
Definition sample_saved_key : ConnectAttemptKey :=
  {| identity := "cafe"; credential_fingerprint := 1; supplied_credentials := false |}.
Definition sample_other_key : ConnectAttemptKey :=
  {| identity := "office"; credential_fingerprint := 7; supplied_credentials := true |}.
Definition sample_trace : list (policy_op * instant) :=
  [(Admit sample_other_key, from_secs 1); (Complete sample_other_key None true, from_secs 2)].

Lemma wrong_password_window_witness :
  (admit_attempt sample_key (from_secs 3)
     (foldl policy_apply
        (complete sample_key (Some Reason.WrongPassword) false 0 default_policy)
        sample_trace)).1 ≠ Ok tt ∧
  (identity sample_key ∉ active_identities
     (foldl policy_apply
        (complete sample_key (Some Reason.WrongPassword) false 0 default_policy)
        sample_trace) →
   supplied_credentials sample_key = true →
   ∃ w, (admit_attempt sample_key (from_secs 3)
     (foldl policy_apply
        (complete sample_key (Some Reason.WrongPassword) false 0 default_policy)
        sample_trace)).1 = Err (RetryAfter w) ∧
     (0 + WRONG_PASSWORD_RETRY_DELAY <= from_secs 3 + w)%N).
Proof.
  apply (wrong_password_window default_policy sample_key 0 sample_trace).
  - intros op t _. lia.
  - intros b r t Hin. unfold sample_trace in Hin.
    rewrite !elem_of_cons, elem_of_nil in Hin. naive_solver.
  - reflexivity.
  - reflexivity.
  - intros op t Hin. unfold sample_trace in Hin.
    rewrite !elem_of_cons, elem_of_nil in Hin.
    destruct Hin as [[= -> ->]|[[= -> ->]|[]]]; vm_compute; reflexivity.
  - vm_compute; reflexivity.
Defined.

Lemma stale_until_success_witness :
  (admit_attempt sample_saved_key (from_secs 60)
     (foldl policy_apply
        (complete sample_key (Some Reason.WrongPassword) false 0 default_policy)
        sample_trace)).1 = Err Active ∨
  (admit_attempt sample_saved_key (from_secs 60)
     (foldl policy_apply
        (complete sample_key (Some Reason.WrongPassword) false 0 default_policy)
        sample_trace)).1 = Err CredentialsRequired.
Proof.
  apply (stale_until_success default_policy sample_key 0 sample_trace).
  - intros b r t Hin. unfold sample_trace in Hin.
    rewrite !elem_of_cons, elem_of_nil in Hin. naive_solver.
  - reflexivity.
  - reflexivity.
Defined.

Lemma admission_exclusive_witness :
  ∃ s, admission_run initial [(Begin sample_key, from_secs 1)] s ∧
       guards s = [sample_key] ∧
       NoDup (identity <$> guards s) ∧
       active_identities (policy s) = list_to_set (identity <$> guards s).
Proof.
  assert (admission_run initial ([] ++ [(Begin sample_key, from_secs 1)])
    (apply_op (Begin sample_key) (from_secs 1) initial)) as Hrun.
  { apply run_snoc; [apply run_nil|]. intros op t Hin. by apply elem_of_nil in Hin. }
  exists (apply_op (Begin sample_key) (from_secs 1) initial).
  split; [exact Hrun|]. split; [vm_compute; reflexivity|].
  exact (admission_exclusive _ _ Hrun).
Defined.
