(* ===== verification/Ledger.v ===== *)
(** * The captive-portal launch ledger ([src/portal/ledger.rs])

    Episodes of captive connectivity, each with at most one recorded launch that
    moves [Reserved -> Claimed -> Complete].  The ledger is persisted after each
    change; a write that fails may still have reached the disk, so the ledger
    poisons itself instead of rolling back.  [ledger_step] adds the disk, daemon
    restarts and the clock. *)
From S2P Require Import Prelude Errors.
From Stdlib Require Import ZArith Lia.
From stdpp Require Import prelude strings list sorting.

Definition FALLBACKS : list string :=
  [ "http://captive.apple.com/hotspot-detect.html"
  ; "http://www.msftconnecttest.com/connecttest.txt"
  ; "http://nmcheck.gnome.org/check_network_status.txt" ].
Definition LIMIT : nat := 1024.

(** [portal.rs]. *)
Inductive Mode := Automatic | Manual.
#[export] Instance mode_eq_dec : EqDecision Mode.
Proof. solve_decision. Defined.

Record Intent := {
  launch_id : string;
  episode : string;
  url : string;
  reason : Mode;
  expires_at_ms : N;
}.

Definition invalid (m : string) : Error := EDomain (validation Op.Connectivity m).

Inductive Outcome := Opened | Failed | Uncertain.
#[export] Instance outcome_eq_dec : EqDecision Outcome.
Proof. solve_decision. Defined.

Inductive Phase := Reserved | Claimed | Complete.
#[export] Instance phase_eq_dec : EqDecision Phase.
Proof. solve_decision. Defined.

Record Launch := {
  intent : Intent;
  owner : string;
  phase : Phase;
  outcome : option Outcome;
}.

Record Episode := {
  automatic_attempted : bool;
  fallback_index : nat;
  launch : option Launch;
}.
Definition default_episode : Episode :=
  {| automatic_attempted := false; fallback_index := 0; launch := None |}.

Record State := {
  version : N;
  episodes : list (string * Episode);
}.
Definition default_state : State := {| version := 1; episodes := [] |}.

(** The open ledger; its path is the disk of [world] below and the lock it
    holds keeps every other process out. *)
Record Ledger := {
  state : State;
  poisoned : bool;
}.

(** ** Opening *)

(** What the file system answers [Ledger::open]: the directory checks, the lock
    file, and the bounded read with its decoding. *)
Inductive ReadBack :=
| ReadFailed
| Missing
| Decoded (s : State)
| Malformed.

Record OpenEnv := {
  directory_created_or_present : bool;
  directory_private : bool;
  lock_opened : bool;
  lock_is_file : bool;
  lock_acquired : bool;
  contents : ReadBack;
}.

Definition open (env : OpenEnv) : result Ledger Error :=
  let? _ := ensure (directory_created_or_present env) (plain "io") in
  let? _ := ensure (directory_private env)
    (plain "portal ledger directory must be private and owned by this user") in
  let? _ := ensure (lock_opened env) (plain "io") in
  let? _ := ensure (lock_is_file env) (plain "portal lock must be a regular file") in
  let? _ := ensure (lock_acquired env) (plain "io") in
  let? st := match contents env with
             | ReadFailed => Err (plain "io")
             | Missing => Ok default_state
             | Decoded s => Ok s
             | Malformed => Err (plain "serde_json")
             end in
  let? _ := ensure ((version st =? 1)%N && (length (episodes st) <=? LIMIT)%nat)
    (plain "unsupported or oversized portal ledger") in
  Ok {| state := st; poisoned := false |}.

(** ** Persistence *)

(** What [write_json_atomic] answers: success with the new contents on disk, or
    a failure that left the old contents or had already replaced them. *)
Inductive WriteResult := Written | FailedOld | FailedNew.

Section Operations.
(** [serde_json::to_vec_pretty(&state)?.len()]. *)
Context (json_len : State → N).

(** [persist]: the result, the ledger and the disk afterwards. *)
Definition persist (w : WriteResult) (l : Ledger) (disk : option State) :
    result unit Error * Ledger * option State :=
  if poisoned l then
    (Err (plain "portal ledger unavailable after a persistence failure"), l, disk)
  else if (2 * 1024 * 1024 <? json_len (state l))%N then
    (Err (plain "portal ledger byte limit reached for this login session"),
     {| state := state l; poisoned := true |}, disk)
  else match w with
       | Written => (Ok tt, l, Some (state l))
       | FailedOld => (Err (plain "io"), {| state := state l; poisoned := true |}, disk)
       | FailedNew =>
         (Err (plain "io"), {| state := state l; poisoned := true |}, Some (state l))
       end.

Definition pending (now : N) (e : Episode) : bool :=
  match launch e with
  | Some la => negb (bool_decide (phase la = Complete))
               && (now <? expires_at_ms (intent la))%N
  | None => false
  end.

Definition with_url (i : Intent) (u : string) : Intent :=
  {| launch_id := launch_id i; episode := episode i; url := u;
     reason := reason i; expires_at_ms := expires_at_ms i |}.

(** The intent with its fallback address, and the next fallback index. *)
Definition choose_url (fallback : bool) (i : Intent) (index : nat) : Intent * nat :=
  if fallback then
    (with_url i (unwrap_or (FALLBACKS !! (index `mod` length FALLBACKS)) ""),
     ((index `mod` length FALLBACKS + 1) `mod` length FALLBACKS)%nat)
  else (i, index).

Definition set_episodes (f : list (string * Episode) → list (string * Episode))
    (l : Ledger) : Ledger :=
  {| state := {| version := version (state l); episodes := f (episodes (state l)) |};
     poisoned := poisoned l |}.

Definition reserve (w : WriteResult) (i : Intent) (o : string) (fallback : bool)
    (now : N) (l : Ledger) (disk : option State) :
    result (option Intent) Error * Ledger * option State :=
  let eps := episodes (state l) in
  if poisoned l then (Err (plain "portal ledger unavailable"), l, disk)
  else if bool_decide (reason i = Automatic)
          && match bt_get (episode i) eps with
             | Some e => automatic_attempted e
             | None => false
             end then (Ok None, l, disk)
  else if existsb (pending now) eps.*2 then
    (Err (plain "portal launch is busy"), l, disk)
  else if negb (bool_decide (is_Some (bt_get (episode i) eps))
                || (length eps <? LIMIT)%nat) then
    (Err (plain "portal episode limit reached for this login session"), l, disk)
  else
    let entry := unwrap_or (bt_get (episode i) eps) default_episode in
    let '(i', index) := choose_url fallback i (fallback_index entry) in
    let entry' :=
      {| automatic_attempted := automatic_attempted entry
                                || bool_decide (reason i = Automatic);
         fallback_index := index;
         launch := Some {| intent := i'; owner := o; phase := Reserved;
                           outcome := None |} |} in
    match persist w (set_episodes (bt_insert (episode i) entry') l) disk with
    | (Ok _, l', disk') => (Ok (Some i'), l', disk')
    | (Err e, l', disk') => (Err e, l', disk')
    end.

(** [launch]: the first launch, in key order, with this id and owner, given
    with its episode so that the mutable borrow can be written back. *)
Definition matches (id o : string) (e : Episode) : bool :=
  match launch e with
  | Some la => bool_decide (launch_id (intent la) = id) && bool_decide (owner la = o)
  | None => false
  end.

Definition find_launch (id o : string) (l : Ledger) : result (string * Launch) Error :=
  if poisoned l then Err (plain "portal ledger unavailable")
  else
    match find_first (λ ke, matches id o ke.2) (episodes (state l)) with
    | Some (k, e) =>
      match launch e with
      | Some la => Ok (k, la)
      | None => Err (invalid "unknown portal launch for this caller")
      end
    | None => Err (invalid "unknown portal launch for this caller")
    end.

(** Write a launch back through the borrow [find_launch] returned. *)
Definition set_launch (k : string) (la : Launch) (l : Ledger) : Ledger :=
  set_episodes
    (bt_update k (λ o, let e := unwrap_or o default_episode in
       {| automatic_attempted := automatic_attempted e;
          fallback_index := fallback_index e; launch := Some la |})) l.

Definition claim (w : WriteResult) (id o ep : string) (captive : bool) (now : N)
    (l : Ledger) (disk : option State) :
    result Intent Error * Ledger * option State :=
  match find_launch id o l with
  | Err e => (Err e, l, disk)
  | Ok (k, la) =>
    if negb (bool_decide (phase la = Reserved)
             && (now <? expires_at_ms (intent la))%N) then
      (Err (plain "portal launch already claimed or expired"), l, disk)
    else if negb (bool_decide (episode (intent la) = ep)
                  && (bool_decide (reason (intent la) = Manual) || captive)) then
      (Err (plain "portal connection changed or resolved"), l, disk)
    else
      let la' := {| intent := intent la; owner := owner la; phase := Claimed;
                    outcome := outcome la |} in
      match persist w (set_launch k la' l) disk with
      | (Ok _, l', disk') => (Ok (intent la), l', disk')
      | (Err e, l', disk') => (Err e, l', disk')
      end
  end.

Definition complete (w : WriteResult) (id o : string) (out : Outcome)
    (l : Ledger) (disk : option State) :
    result unit Error * Ledger * option State :=
  match find_launch id o l with
  | Err e => (Err e, l, disk)
  | Ok (k, la) =>
    if negb (bool_decide (phase la = Claimed)
             || (bool_decide (phase la = Complete)
                 && bool_decide (outcome la = Some out))) then
      (Err (plain "portal launch was not claimed or outcome conflicts"), l, disk)
    else
      persist w (set_launch k {| intent := intent la; owner := owner la;
                                 phase := Complete; outcome := Some out |} l) disk
  end.
End Operations.

(** ** The ledger with its disk, across restarts *)

Record world := {
  mem : option Ledger;
  disk : option State;
}.

Inductive event :=
| EvOpen
| EvExit
| EvReserve (i : Intent) (o : string) (now : N) (r : result (option Intent) Error)
| EvClaim (id o ep : string) (captive : bool) (now : N) (r : result Intent Error)
| EvComplete (id o : string) (out : Outcome) (r : result unit Error).

(** A decoded read returns what was last written. *)
Definition reads (d : option State) (c : ReadBack) : Prop :=
  match c with
  | Missing => d = None
  | Decoded s => d = Some s
  | ReadFailed | Malformed => True
  end.

Inductive ledger_step (json_len : State → N) : world → event → world → Prop :=
| step_open env l d :
  reads d (contents env) → open env = Ok l →
  ledger_step json_len {| mem := None; disk := d |} EvOpen {| mem := Some l; disk := d |}
| step_exit m d :
  ledger_step json_len {| mem := m; disk := d |} EvExit {| mem := None; disk := d |}
| step_reserve w i o fallback now l d r l' d' :
  reserve json_len w i o fallback now l d = (r, l', d') →
  ledger_step json_len {| mem := Some l; disk := d |} (EvReserve i o now r)
    {| mem := Some l'; disk := d' |}
| step_claim w id o ep captive now l d r l' d' :
  claim json_len w id o ep captive now l d = (r, l', d') →
  ledger_step json_len {| mem := Some l; disk := d |} (EvClaim id o ep captive now r)
    {| mem := Some l'; disk := d' |}
| step_complete w id o out l d r l' d' :
  complete json_len w id o out l d = (r, l', d') →
  ledger_step json_len {| mem := Some l; disk := d |} (EvComplete id o out r)
    {| mem := Some l'; disk := d' |}.

(** Runs from a login session without a ledger file. *)
Inductive ledger_run (json_len : State → N) : list event → world → Prop :=
| lrun_start : ledger_run json_len [] {| mem := None; disk := None |}
| lrun_step tr w ev w' :
  ledger_run json_len tr w → ledger_step json_len w ev w' →
  ledger_run json_len (tr ++ [ev]) w'.

(** The states a later operation can start from: the open ledger's and the one
    on disk. *)
Definition visible (w : world) (s : State) : Prop :=
  (∃ l, mem w = Some l ∧ state l = s) ∨ disk w = Some s.

(** *** How one operation changes the visible states *)

Lemma persist_visible json_len w l d r l' d' :
  persist json_len w l d = (r, l', d') →
  state l' = state l ∧ (d' = d ∨ d' = Some (state l)) ∧
  (is_ok r = true → d' = Some (state l)).
Proof. unfold persist. repeat case_match; naive_solver. Qed.

(** [advance oi s s']: the transition one mutating operation makes on a state;
    [oi] is the intent a reservation records and the time it reads. *)
Inductive advance : option (Intent * N) → State → State → Prop :=
| adv_same oi s : advance oi s s
| adv_reserve s i o f now :
  (reason i = Automatic →
   automatic_attempted (unwrap_or (bt_get (episode i) (episodes s)) default_episode) = false) →
  existsb (pending now) (episodes s).*2 = false →
  advance (Some (i, now)) s
    {| version := version s;
       episodes := bt_insert (episode i)
         {| automatic_attempted :=
              automatic_attempted
                (unwrap_or (bt_get (episode i) (episodes s)) default_episode)
              || bool_decide (reason i = Automatic);
            fallback_index := (choose_url f i (fallback_index
              (unwrap_or (bt_get (episode i) (episodes s)) default_episode))).2;
            launch := Some
              {| intent := (choose_url f i (fallback_index
                   (unwrap_or (bt_get (episode i) (episodes s)) default_episode))).1;
                 owner := o; phase := Reserved; outcome := None |} |}
         (episodes s) |}
| adv_phase oi s k e la la' :
  (k, e) ∈ episodes s → launch e = Some la →
  intent la' = intent la → owner la' = owner la →
  (phase la' = Claimed ∧ phase la = Reserved ∨ phase la' = Complete ∧ phase la ≠ Reserved) →
  advance oi s
    {| version := version s;
       episodes := bt_update k (λ o, let e := unwrap_or o default_episode in
         {| automatic_attempted := automatic_attempted e;
            fallback_index := fallback_index e; launch := Some la' |}) (episodes s) |}.

Lemma find_launch_Ok id o l k la :
  find_launch id o l = Ok (k, la) →
  poisoned l = false ∧ launch_id (intent la) = id ∧ owner la = o ∧
  ∃ e, (k, e) ∈ episodes (state l) ∧ launch e = Some la.
Proof.
  unfold find_launch. destruct (poisoned l) eqn:Hp; [done|].
  destruct (find_first _ _) as [[k' e]|] eqn:Hf; [|done].
  destruct (launch e) as [la'|] eqn:Hl; [|done]. intros [= -> ->].
  apply find_first_Some in Hf as (l1 & l2 & Heps & Hm & _). simpl in Hm.
  unfold matches in Hm. rewrite Hl in Hm. bool_prop.
  split_and!; [done..|]. exists e. split; [|done]. rewrite Heps. set_solver.
Qed.

Lemma reserve_advance json_len w i o f now l d r l' d' :
  reserve json_len w i o f now l d = (r, l', d') →
  advance (Some (i, now)) (state l) (state l') ∧ (d' = d ∨ d' = Some (state l')) ∧
  (∀ i', r = Ok (Some i') →
     d' = Some (state l') ∧
     (reason i = Automatic →
      automatic_attempted
        (unwrap_or (bt_get (episode i) (episodes (state l))) default_episode) = false ∧
      ∃ e, bt_get (episode i) (episodes (state l')) = Some e
           ∧ automatic_attempted e = true)).
Proof.
  unfold reserve. destruct (poisoned l); [intros [= <- <- <-]; repeat split; auto using adv_same; done|].
  destruct (bool_decide _ && _) eqn:Hatt;
    [intros [= <- <- <-]; repeat split; auto using adv_same; done|].
  destruct (existsb _ _) eqn:Hbusy;
    [intros [= <- <- <-]; repeat split; auto using adv_same; done|].
  destruct (negb _); [intros [= <- <- <-]; repeat split; auto using adv_same; done|].
  assert (reason i = Automatic → automatic_attempted
      (unwrap_or (bt_get (episode i) (episodes (state l))) default_episode) = false) as Hauto.
  { intros Hr. rewrite bool_decide_eq_true_2 in Hatt by done. simpl in Hatt.
    by destruct (bt_get _ _). }
  destruct (choose_url _ _ _) as [i' index] eqn:Hc.
  destruct (persist _ _ _ _) as [[[[]|e] lp] dp] eqn:Hp; intros [= <- <- <-];
    apply persist_visible in Hp as (Hst & Hd & Hok); rewrite Hst;
    (split; [|split; [done|]]).
  - pose proof (adv_reserve (state l) i o f now Hauto Hbusy) as Hadv.
    by rewrite Hc in Hadv.
  - intros i'' _. split; [by apply Hok|]. intros Hr. split; [auto|]. simpl.
    rewrite bt_get_insert_eq. eexists; split; [done|]; simpl.
    by rewrite (bool_decide_eq_true_2 (reason i = Automatic)), orb_true_r.
  - pose proof (adv_reserve (state l) i o f now Hauto Hbusy) as Hadv.
    by rewrite Hc in Hadv.
  - done.
Qed.

Lemma claim_advance json_len w id o ep captive now l d r l' d' :
  claim json_len w id o ep captive now l d = (r, l', d') →
  advance None (state l) (state l') ∧ (d' = d ∨ d' = Some (state l')) ∧
  (∀ i, r = Ok i → d' = Some (state l')).
Proof.
  unfold claim. destruct (find_launch id o l) as [[k la]|e] eqn:Hf;
    [|intros [= <- <- <-]; split_and!; auto using adv_same; done].
  apply find_launch_Ok in Hf as (_ & _ & _ & e & Hin & Hla).
  destruct (negb _) eqn:Hg1; [intros [= <- <- <-]; split_and!; auto using adv_same; done|].
  destruct (negb _) eqn:Hg2 in |-*; [intros [= <- <- <-]; split_and!; auto using adv_same; done|].
  bool_prop.
  destruct (persist _ _ _ _) as [[[[]|e'] lp] dp] eqn:Hp; intros [= <- <- <-];
    apply persist_visible in Hp as (Hst & Hd & Hok); rewrite Hst;
    (split; [eapply adv_phase; [done..|by left]|]); split; auto; done.
Qed.

Lemma complete_advance json_len w id o out l d r l' d' :
  complete json_len w id o out l d = (r, l', d') →
  advance None (state l) (state l') ∧ (d' = d ∨ d' = Some (state l')).
Proof.
  unfold complete. destruct (find_launch id o l) as [[k la]|e] eqn:Hf;
    [|intros [= <- <- <-]; split; auto using adv_same].
  apply find_launch_Ok in Hf as (_ & _ & _ & e & Hin & Hla).
  destruct (negb _) eqn:Hg; [intros [= <- <- <-]; split; auto using adv_same|].
  intros Hp. apply persist_visible in Hp as (Hst & Hd & _). rewrite Hst.
  split; [|done]. eapply adv_phase; [done..|]. right; split; [done|].
  apply negb_false_iff, orb_true_iff in Hg as [Hg|Hg]; bool_prop; congruence.
Qed.

Definition event_intent (ev : event) : option (Intent * N) :=
  match ev with EvReserve i _ now _ => Some (i, now) | _ => None end.

(** Every state visible after a step was visible before it, is one [advance]
    away from the open ledger's state, or is the fresh state of a ledger opened
    without a file. *)
Lemma step_visible json_len w ev w' s' :
  ledger_step json_len w ev w' → visible w' s' →
  visible w s' ∨ (∃ l, mem w = Some l ∧ advance (event_intent ev) (state l) s') ∨
  (s' = default_state ∧ disk w = None).
Proof.
  intros Hstep Hvis. unfold visible in *. destruct Hstep as
    [env l d Hr Ho|m d|wr i o f now l d r l' d' H|wr id o ep c now l d r l' d' H
    |wr id o out l d r l' d' H]; simpl in *.
  - destruct Hvis as [(l0 & [= <-] & <-)|Hd]; [|auto].
    unfold open, ensure in Ho. repeat case_match; simplify_eq/=; auto.
  - destruct Hvis as [(l0 & [=] & _)|Hd]; auto.
  - apply reserve_advance in H as (Hadv & Hd' & _).
    destruct Hvis as [(l0 & [= <-] & <-)|Hd]; [by eauto|].
    destruct Hd' as [->| ->]; [by auto|simplify_eq; eauto].
  - apply claim_advance in H as (Hadv & Hd' & _).
    destruct Hvis as [(l0 & [= <-] & <-)|Hd]; [by eauto|].
    destruct Hd' as [->| ->]; [by auto|simplify_eq; eauto].
  - apply complete_advance in H as (Hadv & Hd').
    destruct Hvis as [(l0 & [= <-] & <-)|Hd]; [by eauto|].
    destruct Hd' as [->| ->]; [by auto|simplify_eq; eauto].
Qed.

(** A file, once written, stays. *)
Lemma step_disk json_len w ev w' :
  ledger_step json_len w ev w' → is_Some (disk w) → is_Some (disk w').
Proof.
  intros [env l d Hr Ho|m d|wr i o f now l d r l' d' H|wr id o ep c now l d r l' d' H
    |wr id o out l d r l' d' H] Hd; simpl in *; [done..| | |].
  - apply reserve_advance in H as (_ & [->| ->] & _); eauto.
  - apply claim_advance in H as (_ & [->| ->] & _); eauto.
  - apply complete_advance in H as (_ & [->| ->]); eauto.
Qed.

(** *** Automatic launches *)

Definition attempted (s : State) (e : string) : Prop :=
  ∃ ep, bt_get e (episodes s) = Some ep ∧ automatic_attempted ep = true.

Lemma advance_attempted oi s s' e : advance oi s s' → attempted s e → attempted s' e.
Proof.
  unfold attempted. intros [|? i|oi' ? k e0 la la'] (ep & Hg & Ha); [by eauto| |]; simpl.
  - destruct (decide (e = episode i)) as [->|Hne].
    + rewrite bt_get_insert_eq, Hg. eexists; split; [done|]; simpl. by rewrite Ha.
    + rewrite bt_get_insert_ne by done. eauto.
  - destruct (decide (e = k)) as [->|Hne].
    + rewrite bt_get_update_eq, Hg. eexists; split; [done|]; done.
    + rewrite bt_get_update_ne by done. eauto.
Qed.

(** The event grants an automatic launch in episode [e]. *)
Definition automatic_grant (e : string) (ev : event) : bool :=
  match ev with
  | EvReserve i _ _ (Ok (Some _)) =>
    bool_decide (reason i = Automatic) && bool_decide (episode i = e)
  | _ => false
  end.

Definition count (p : event → bool) (tr : list event) : nat :=
  length (List.filter p tr).

Lemma count_snoc p tr ev : count p (tr ++ [ev]) = count p tr + if p ev then 1 else 0.
Proof.
  unfold count. rewrite List.filter_app, length_app; simpl. by destruct (p ev).
Qed.

Definition automatic_inv (e : string) (tr : list event) (w : world) : Prop :=
  count (automatic_grant e) tr ≤ 1 ∧
  (count (automatic_grant e) tr ≠ 0 →
   is_Some (disk w) ∧ ∀ s, visible w s → attempted s e).

Lemma automatic_inv_keep json_len e tr w ev w' :
  automatic_inv e tr w → ledger_step json_len w ev w' → automatic_grant e ev = false →
  automatic_inv e (tr ++ [ev]) w'.
Proof.
  intros [Hle Hatt] Hstep Hev. unfold automatic_inv. rewrite count_snoc, Hev, Nat.add_0_r.
  split; [done|]. intros Hne. destruct (Hatt Hne) as [Hd Hvis].
  split; [by eapply step_disk|]. intros s Hs.
  destruct (step_visible _ _ _ _ _ Hstep Hs) as [?|[(l & Hl & Hadv)|[_ Hnone]]].
  - auto.
  - eapply advance_attempted; [done|]. apply Hvis. left; eauto.
  - rewrite Hnone in Hd. by destruct Hd.
Qed.

(** Within a login session, over any sequence of reservations, claims,
    completions, write failures (which may or may not have reached the disk) and
    daemon restarts, at most one automatic portal launch is granted for an
    episode of captive connectivity. *)
Theorem automatic_launch_once json_len e tr w :
  ledger_run json_len tr w → count (automatic_grant e) tr ≤ 1.
Proof.
  intros Hrun. cut (automatic_inv e tr w); [by intros []|].
  induction Hrun as [|tr w ev w' Hrun IH Hstep]; [by split; [unfold count; simpl; lia|]|].
  destruct (automatic_grant e ev) eqn:Hev; [|by eapply automatic_inv_keep].
  destruct ev as [| |i o now [[i'|]|]| |]; try done. simpl in Hev. bool_prop.
  inversion Hstep as [| |w0 i0 o0 f now0 l d r l' d' Hres| |]; subst.
  apply reserve_advance in Hres as (_ & _ & Hok).
  destruct (Hok _ eq_refl) as [-> Hauto]. destruct (Hauto ltac:(done)) as [Hno Hyes].
  assert (count (automatic_grant (episode i)) tr = 0) as Hzero.
  { destruct IH as [_ Hatt]. destruct (decide (count (automatic_grant (episode i)) tr = 0))
      as [|Hne]; [done|]. destruct (Hatt Hne) as [_ Hvis].
    destruct (Hvis (state l)) as (ep & Hg & Ha); [left; by eauto|].
    by rewrite Hg in Hno; simpl in Hno; rewrite Ha in Hno. }
  split.
  - rewrite count_snoc, Hzero. by destruct (automatic_grant _ _); lia.
  - intros _. simpl. split; [eauto|]. intros s [(l0 & [= <-] & <-)|[= <-]]; done.
Qed.

(** *** Claims *)

Lemma claim_Ok json_len w id o ep captive now l d i l' d' :
  claim json_len w id o ep captive now l d = (Ok i, l', d') →
  ∃ k la,
    find_launch id o l = Ok (k, la) ∧ i = intent la ∧ poisoned l' = false ∧
    phase la = Reserved ∧ (now < expires_at_ms i)%N ∧ episode i = ep ∧
    (reason i = Manual ∨ captive = true) ∧
    l' = set_launch k {| intent := intent la; owner := owner la; phase := Claimed;
                         outcome := outcome la |} l ∧
    d' = Some (state l').
Proof.
  unfold claim. destruct (find_launch id o l) as [[k la]|e] eqn:Hf; [|done].
  destruct (negb _) eqn:Hg1; [done|]. destruct (negb _) eqn:Hg2 in |-*; [done|].
  destruct (persist _ _ _ _) as [[[[]|e'] lp] dp] eqn:Hp; [|done]. intros [= <- <- <-].
  bool_prop. rewrite orb_true_iff, bool_decide_eq_true in *.
  exists k, la. unfold persist in Hp. repeat case_match; simplify_eq/=.
  split_and!; done.
Qed.

(** Launch ids are recorded reservations, and one id lives in one episode. *)
Record ids_ok (ids : list string) (s : State) : Prop := {
  ids_sorted : bt_sorted (episodes s);
  ids_known k e la :
    (k, e) ∈ episodes s → launch e = Some la → launch_id (intent la) ∈ ids;
  ids_unique k1 e1 la1 k2 e2 la2 :
    (k1, e1) ∈ episodes s → launch e1 = Some la1 →
    (k2, e2) ∈ episodes s → launch e2 = Some la2 →
    launch_id (intent la1) = launch_id (intent la2) → k1 = k2;
}.

Definition new_ids (oi : option (Intent * N)) : list string :=
  match oi with Some (i, _) => [launch_id i] | None => [] end.

Lemma choose_url_id f i n : launch_id (choose_url f i n).1 = launch_id i.
Proof. by destruct f. Qed.

(** The launches of an advanced state: an old one, an old one moved past
    [Reserved], or the reservation. *)
Lemma advance_launches oi s s' k e la :
  bt_sorted (episodes s) → advance oi s s' → (k, e) ∈ episodes s' → launch e = Some la →
  ((k, e) ∈ episodes s) ∨
  (phase la ≠ Reserved ∧
   ∃ e0 la0, (k, e0) ∈ episodes s ∧ launch e0 = Some la0 ∧ intent la = intent la0) ∨
  (∃ i t, oi = Some (i, t) ∧ launch_id (intent la) = launch_id i).
Proof.
  intros Hs [|? i o f now Ha Hb|? ? k0 e0 la0 la' Hin Hla Hi Ho Hph] Hk Hl; [by left| |];
    simpl in Hk; apply bt_update_elem in Hk as [[= -> ->]|Hk]; [|by left| |by left].
  - right; right. exists i, now. simpl in Hl. simplify_eq/=. by rewrite choose_url_id.
  - right; left. simpl in Hl. simplify_eq. split; [by destruct Hph as [[-> _]|[-> _]]|].
    eauto.
Qed.

Lemma ids_ok_advance ids oi s s' :
  ids_ok ids s → advance oi s s' → (∀ i t, oi = Some (i, t) → launch_id i ∉ ids) →
  ids_ok (ids ++ new_ids oi) s'.
Proof.
  intros [Hs Hk Hu] Hadv Hfresh.
  assert (∀ k e la, (k, e) ∈ episodes s' → launch e = Some la →
    (∃ e0 la0, (k, e0) ∈ episodes s ∧ launch e0 = Some la0 ∧
       launch_id (intent la) = launch_id (intent la0)) ∨
    (∃ i t, oi = Some (i, t) ∧ launch_id (intent la) = launch_id i)) as Hcases.
  { intros k e la Hin Hl.
    destruct (advance_launches _ _ _ _ _ _ Hs Hadv Hin Hl)
      as [?|[(_ & e0 & la0 & ? & ? & ->)|?]]; eauto 10. }
  assert (bt_sorted (episodes s')) as Hs' by (destruct Hadv; [done|by apply bt_sorted_update..]).
  assert (∀ k e la, (k, e) ∈ episodes s' → launch e = Some la → ∀ i t, oi = Some (i, t) →
    launch_id (intent la) = launch_id i → k = episode i) as Hnew.
  { clear Hcases Hs'. intros k e la Hin Hl i t Hoi Hid. specialize (Hfresh i t Hoi).
    destruct Hadv as [|? i' o f now Ha Hb|? ? k0 e0 la0 la' Hin0 Hla Hi Ho Hph]; simpl in *.
    - destruct Hfresh. rewrite <-Hid. eauto.
    - apply bt_update_elem in Hin as [[= -> _]|Hin]; [by simplify_eq|].
      destruct Hfresh. rewrite <-Hid. eauto.
    - apply bt_update_elem in Hin as [[= -> ->]|Hin]; destruct Hfresh; rewrite <-Hid;
        simpl in Hl; simplify_eq; rewrite ?Hi; eauto. }
  split; [done| |].
  - intros k e la Hin Hl. apply elem_of_app.
    destruct (Hcases _ _ _ Hin Hl) as [(e0 & la0 & ? & ? & ->)|(i & t & -> & ->)];
      [left; eauto|right; by left].
  - intros k1 e1 la1 k2 e2 la2 Hin1 Hl1 Hin2 Hl2 Heq.
    destruct (Hcases _ _ _ Hin1 Hl1) as [(e1' & la1' & H1 & H1' & E1)|(i & t & -> & E1)].
    + destruct (Hcases _ _ _ Hin2 Hl2) as [(e2' & la2' & H2 & H2' & E2)|(i & t & -> & E2)].
      * eapply (Hu k1 e1' la1' k2 e2' la2'); congruence.
      * destruct (Hfresh i t eq_refl). rewrite <-E2, <-Heq, E1. eauto.
    + rewrite (Hnew _ _ _ Hin1 Hl1 i t eq_refl E1), (Hnew _ _ _ Hin2 Hl2 i t eq_refl); congruence.
Qed.

Lemma ids_ok_weaken ids ids' s : ids_ok ids s → ids ⊆ ids' → ids_ok ids' s.
Proof. intros [? Hk ?] Hsub. split; [done| |done]. eauto. Qed.

Definition reserved_ids (tr : list event) : list string :=
  tr ≫= λ ev, new_ids (event_intent ev).

Lemma reserved_ids_snoc tr ev :
  reserved_ids (tr ++ [ev]) = reserved_ids tr ++ new_ids (event_intent ev).
Proof. unfold reserved_ids. by rewrite bind_app; simpl; rewrite app_nil_r. Qed.

Definition claim_ok (id : string) (ev : event) : bool :=
  match ev with
  | EvClaim id' _ _ _ _ (Ok _) => bool_decide (id' = id)
  | _ => false
  end.

(** No launch of the state with this id can still be claimed. *)
Definition spent (s : State) (id : string) : Prop :=
  ∀ k e la, (k, e) ∈ episodes s → launch e = Some la →
    launch_id (intent la) = id → phase la ≠ Reserved.

Lemma spent_advance ids oi s s' id :
  ids_ok ids s → advance oi s s' → (∀ i t, oi = Some (i, t) → launch_id i ≠ id) →
  spent s id → spent s' id.
Proof.
  intros [Hs _ _] Hadv Hne Hsp k e la Hin Hl Hid.
  destruct (advance_launches _ _ _ _ _ _ Hs Hadv Hin Hl) as [?|[[? _]|(i & t & -> & Hi)]].
  - by eapply Hsp.
  - done.
  - destruct (Hne i t eq_refl). congruence.
Qed.

(** A successful claim spends its id. *)
Lemma claim_spends ids json_len w id o ep captive now l d i l' d' :
  ids_ok ids (state l) → claim json_len w id o ep captive now l d = (Ok i, l', d') →
  d' = Some (state l') ∧ id ∈ ids ∧ spent (state l') id.
Proof.
  intros Hids Hc. pose proof (claim_advance _ _ _ _ _ _ _ _ _ _ _ _ Hc) as (Hadv & _ & _).
  apply claim_Ok in Hc as (k & la & Hf & -> & _ & Hph & _ & _ & _ & -> & ->).
  apply find_launch_Ok in Hf as (_ & Hid & _ & e & Hin & Hla).
  split_and!; [done|subst id; by eapply ids_known|].
  intros k2 e2 la2 Hin2 Hl2 Hid2.
  assert (bt_sorted (episodes (state (set_launch k
    {| intent := intent la; owner := owner la; phase := Claimed; outcome := outcome la |} l))))
    as Hs' by (apply bt_sorted_update, Hids).
  destruct (decide (k2 = k)) as [->|Hne].
  - apply (bt_elem_get _ _ _ Hs') in Hin2. simpl in Hin2.
    rewrite bt_get_update_eq in Hin2. by simplify_eq/=.
  - simpl in Hin2. apply bt_update_elem in Hin2 as [[= ? _]|Hin2]; [done|].
    destruct Hne. eapply ids_unique; [done..|]. congruence.
Qed.

Definition claim_inv (id : string) (tr : list event) (w : world) : Prop :=
  (∀ s, visible w s → ids_ok (reserved_ids tr) s) ∧
  count (claim_ok id) tr ≤ 1 ∧
  (count (claim_ok id) tr ≠ 0 →
   id ∈ reserved_ids tr ∧ is_Some (disk w) ∧ ∀ s, visible w s → spent s id).

Lemma ids_ok_default ids : ids_ok ids default_state.
Proof. split; [constructor|set_solver..]. Qed.

Lemma visible_ids_step json_len tr w ev w' :
  ledger_step json_len w ev w' → NoDup (reserved_ids (tr ++ [ev])) →
  (∀ s, visible w s → ids_ok (reserved_ids tr) s) →
  ∀ s, visible w' s → ids_ok (reserved_ids (tr ++ [ev])) s.
Proof.
  intros Hstep Hnd Hids s Hs. rewrite reserved_ids_snoc in *.
  destruct (step_visible _ _ _ _ _ Hstep Hs) as [Hv|[(l & Hl & Hadv)|[-> _]]].
  - eapply ids_ok_weaken; [by apply Hids|]. set_solver.
  - eapply ids_ok_advance; [|done|].
    + apply Hids. left; eauto.
    + intros i t Hi. rewrite Hi in Hnd. apply NoDup_app in Hnd as (_ & Hdisj & _).
      intros Hin. apply (Hdisj _ Hin). simpl. by left.
  - apply ids_ok_default.
Qed.

Lemma claim_inv_keep json_len id tr w ev w' :
  claim_inv id tr w → ledger_step json_len w ev w' → NoDup (reserved_ids (tr ++ [ev])) →
  claim_ok id ev = false → claim_inv id (tr ++ [ev]) w'.
Proof.
  intros (Hids & Hle & Hsp) Hstep Hnd Hev.
  split; [by eapply visible_ids_step|]. rewrite count_snoc, Hev, Nat.add_0_r.
  split; [done|]. intros Hne. destruct (Hsp Hne) as (Hin & Hd & Hspent).
  rewrite reserved_ids_snoc in *. split_and!; [set_solver|by eapply step_disk|].
  intros s Hs. destruct (step_visible _ _ _ _ _ Hstep Hs) as [?|[(l & Hl & Hadv)|[_ Hnone]]].
  - auto.
  - eapply spent_advance; [apply Hids; left; eauto|done| |apply Hspent; left; eauto].
    intros i t Hi <-. rewrite Hi in Hnd. apply NoDup_app in Hnd as (_ & Hdisj & _).
    apply (Hdisj _ Hin). by left.
  - rewrite Hnone in Hd. by destruct Hd.
Qed.

(** C10. With fresh launch ids, a reserved launch is claimed successfully at most
    once, also when the daemon restarts between claims or a write fails: no
    frontend can open the same launch twice. *)
Theorem claim_at_most_once json_len id tr w :
  ledger_run json_len tr w → NoDup (reserved_ids tr) → count (claim_ok id) tr ≤ 1.
Proof.
  intros Hrun Hnd. cut (claim_inv id tr w); [by intros (? & ? & ?)|].
  induction Hrun as [|tr w ev w' Hrun IH Hstep].
  { split; [by intros s [(? & [=] & _)|[=]]|]. by split; [unfold count; simpl; lia|]. }
  assert (NoDup (reserved_ids tr)) as Hnd'
    by (rewrite reserved_ids_snoc in Hnd; by apply NoDup_app in Hnd as (? & _ & _)).
  specialize (IH Hnd').
  destruct (claim_ok id ev) eqn:Hev; [|by eapply claim_inv_keep].
  assert (∀ s, visible w' s → ids_ok (reserved_ids (tr ++ [ev])) s) as Hids'
    by (eapply visible_ids_step; [done..|apply IH]).
  destruct ev as [| | |id' o ep c now [i|]|]; try done. simpl in Hev. bool_prop; subst id'.
  inversion Hstep as [| | |wr id0 o0 ep0 c0 now0 l d r l' d' Hcl|]; subst.
  destruct IH as (Hids & Hle & Hsp).
  assert (count (claim_ok id) tr = 0) as Hzero.
  { destruct (decide (count (claim_ok id) tr = 0)) as [|Hne]; [done|].
    destruct (Hsp Hne) as (_ & _ & Hspent).
    apply claim_Ok in Hcl as (k & la & Hf & _ & _ & Hph & _).
    apply find_launch_Ok in Hf as (_ & Hid & _ & e & Hin & Hla).
    destruct (Hspent (state l)) with k e la; [left; by eauto|done..]. }
  destruct (claim_spends (reserved_ids tr) _ _ _ _ _ _ _ _ _ _ _ _
    (Hids _ (or_introl (ex_intro _ l (conj eq_refl eq_refl)))) Hcl) as (-> & Hin & Hspent).
  split; [done|]. rewrite count_snoc, Hzero. split; [by destruct (claim_ok _ _); lia|].
  intros _. rewrite reserved_ids_snoc. split_and!; [set_solver|by eauto|].
  intros s [(l0 & [= <-] & <-)|[= <-]]; done.
Qed.

(** *** One launch at a time *)

Lemma pending_mono t t' e : pending t e = true → (t' <= t)%N → pending t' e = true.
Proof.
  unfold pending. destruct (launch e); [|done]. intros H Hle. bool_prop.
  apply andb_true_iff. split; [by apply negb_true_iff, bool_decide_eq_false|].
  apply N.ltb_lt. lia.
Qed.

(** From time [c] on, at most one launch of the state is pending. *)
Definition exclusive (c : N) (s : State) : Prop :=
  bt_sorted (episodes s) ∧
  ∀ t k1 e1 k2 e2, (c <= t)%N →
    (k1, e1) ∈ episodes s → pending t e1 = true →
    (k2, e2) ∈ episodes s → pending t e2 = true → (k1, e1) = (k2, e2).

Lemma exclusive_mono c c' s : exclusive c s → (c <= c')%N → exclusive c' s.
Proof. intros [? Hex] Hle. split; [done|]. intros. eapply (Hex t); by eauto with lia. Qed.

(** Entries of a sorted map are determined by their keys. *)
Lemma sorted_entry_eq {V} (m : list (string * V)) k v v' :
  bt_sorted m → (k, v) ∈ m → (k, v') ∈ m → (k, v) = (k, v').
Proof.
  intros Hs Hv%(bt_elem_get _ _ _ Hs) Hv'%(bt_elem_get _ _ _ Hs). congruence.
Qed.

Lemma exclusive_advance c oi s s' :
  exclusive c s → advance oi s s' → (∀ i t, oi = Some (i, t) → c <= t)%N →
  exclusive (match oi with Some (_, t) => t | None => c end) s'.
Proof.
  intros Hex Hadv Hc. pose proof Hex as [Hs Huniq].
  assert (bt_sorted (episodes s')) as Hs' by (destruct Hadv; [done|by apply bt_sorted_update..]).
  destruct Hadv as [oi s|s i o f now Ha Hb|oi s k e la la' Hin Hla Hi Ho Hph].
  - destruct oi as [[i t]|]; [|done]. eapply exclusive_mono; [done|]. by eapply Hc.
  - split; [done|]. intros t k1 e1 k2 e2 Ht H1 Hp1 H2 Hp2.
    assert (∀ k e, (k, e) ∈ episodes s → pending t e = true → False) as Hnone.
    { intros k e Hin Hp. apply (pending_mono _ now) in Hp; [|done].
      assert (existsb (pending now) (episodes s).*2 = true) as Hx; [|congruence].
      apply existsb_exists. exists e. split; [|done]. apply list_elem_of_In.
      apply list_elem_of_fmap. by exists (k, e). }
    simpl in H1, H2. apply bt_update_elem in H1 as [->|H1]; [|by destruct (Hnone k1 e1)].
    apply bt_update_elem in H2 as [->|H2]; [done|by destruct (Hnone k2 e2)].
  - apply (exclusive_mono c);
      [|by destruct oi as [[i t]|]; [eapply Hc|]; done || lia].
    split; [done|]. intros t k1 e1 k2 e2 Ht H1 Hp1 H2 Hp2.
    assert (∀ k' e', (k', e') ∈ bt_update k (λ o, let e := unwrap_or o default_episode in
         {| automatic_attempted := automatic_attempted e;
            fallback_index := fallback_index e; launch := Some la' |}) (episodes s) →
       pending t e' = true → ∃ e0, (k', e0) ∈ episodes s ∧ pending t e0 = true) as Hold.
    { intros k' e' Hin' Hp. apply bt_update_elem in Hin' as [[= -> ->]|Hin']; [|by eauto].
      exists e. split; [done|]. unfold pending in *. rewrite Hla. simpl in Hp. bool_prop.
      rewrite Hi in *. apply andb_true_iff. split; [|by apply N.ltb_lt].
      apply negb_true_iff, bool_decide_eq_false.
      destruct Hph as [[_ ->]|[? _]]; done. }
    destruct (Hold _ _ H1 Hp1) as (e1' & Hi1 & Hp1').
    destruct (Hold _ _ H2 Hp2) as (e2' & Hi2 & Hp2').
    assert ((k1, e1') = (k2, e2')) as [= -> _] by by eapply Huniq.
    by eapply sorted_entry_eq.
Qed.

Definition reserve_times (tr : list event) : list N := tr ≫= λ ev,
  match event_intent ev with Some (_, t) => [t] | None => [] end.

Lemma exclusive_run json_len tr w c :
  ledger_run json_len tr w → StronglySorted N.le (reserve_times tr) →
  (∀ t, t ∈ reserve_times tr → t <= c)%N →
  ∀ s, visible w s → exclusive c s.
Proof.
  intros Hrun. revert c. induction Hrun as [|tr w ev w' Hrun IH Hstep]; intros c Hmono Hle s Hs.
  { by destruct Hs as [(? & [=] & _)|[=]]. }
  unfold reserve_times in Hmono, Hle. rewrite bind_app in Hmono, Hle; simpl in Hmono, Hle.
  rewrite app_nil_r in Hmono, Hle. apply StronglySorted_app in Hmono as (Hbefore & Hmono & _).
  destruct (step_visible _ _ _ _ _ Hstep Hs) as [Hv|[(l & Hl & Hadv)|[-> _]]].
  - apply IH; [done| |done]. intros t Ht. apply Hle. set_solver.
  - destruct (event_intent ev) as [[i t]|] eqn:Hev.
    + apply (exclusive_mono t); [|apply Hle; set_solver].
      apply (exclusive_advance t _ (state l) s) in Hadv; [done| |].
      * apply IH; [done| |left; by eauto]. intros t' Ht'.
        apply (Hbefore t' t Ht'). by left.
      * by intros i' t' [= -> ->].
    + apply (exclusive_advance c _ (state l) s) in Hadv; [done| |done].
      apply IH; [done| |left; by eauto]. intros t' Ht'. apply Hle. set_solver.
  - split; [constructor|]. intros ????? _ Hin. by apply elem_of_nil in Hin.
Qed.

(** As long as the clock does not run backwards between reservations, at
    any time after the last one at most one launch, of the open ledger or of
    the one a restart would load, is neither complete nor expired. *)
Theorem one_pending_launch json_len tr w t s k1 e1 k2 e2 :
  ledger_run json_len tr w → StronglySorted N.le (reserve_times tr) →
  (∀ t', t' ∈ reserve_times tr → t' <= t)%N → visible w s →
  (k1, e1) ∈ episodes s → pending t e1 = true →
  (k2, e2) ∈ episodes s → pending t e2 = true → (k1, e1) = (k2, e2).
Proof.
  intros Hrun Hmono Hle Hvis. by eapply (exclusive_run _ _ _ t Hrun Hmono Hle s Hvis).
Qed.

(** A claim succeeds only for the owner that reserved the launch, before it
    expires, while the connection is still the episode it was reserved for and
    (unless the user asked) still captive; it returns the reserved intent, and
    claiming the same launch again from the resulting ledger is refused. *)
Theorem claim_fenced json_len w id o ep captive now l d i l' d' :
  claim json_len w id o ep captive now l d = (Ok i, l', d') →
  launch_id i = id ∧ (now < expires_at_ms i)%N ∧ episode i = ep ∧
  (reason i = Manual ∨ captive = true) ∧
  (∃ k e la, (k, e) ∈ episodes (state l) ∧ launch e = Some la ∧ owner la = o ∧
             intent la = i ∧ phase la = Reserved) ∧
  d' = Some (state l') ∧
  (bt_sorted (episodes (state l)) → ∀ w2 ep2 captive2 now2,
     is_ok (claim json_len w2 id o ep2 captive2 now2 l' d').1.1 = false).
Proof.
  intros Hc. apply claim_Ok in Hc as (k & la & Hf & -> & Hpois & Hph & Hnow & Hep & Hr & -> & ->).
  pose proof (find_launch_Ok _ _ _ _ _ Hf) as (Hpl & Hid & Ho & e & Hin & Hla).
  split_and!; [done..|by exists k, e, la|done|]. intros Hs w2 ep2 c2 now2.
  set (l1 := set_launch k _ l). unfold claim.
  destruct (find_launch id o l1) as [[k2 la2]|] eqn:Hf2; [|done].
  enough (phase la2 = Claimed) as -> by done.
  unfold find_launch in Hf, Hf2. simpl in Hf2. rewrite Hpl in Hf, Hf2.
  destruct (find_first _ (episodes (state l))) as [[k' e']|] eqn:Hfirst; [|done].
  destruct (launch e') as [la'|] eqn:Hla'; [|done]. simplify_eq.
  erewrite (find_first_bt_update (matches (launch_id (intent la)) (owner la))) in Hf2;
    [|done..|unfold matches; simpl; by rewrite !bool_decide_eq_true_2].
  by simplify_eq/=.
Qed.

(** Completion is idempotent for the outcome it recorded and rejects any
    other: after a successful completion, repeating it succeeds whenever the
    write does, and a different outcome is refused without touching the ledger
    or the disk. *)
Theorem complete_idempotent json_len w id o out l d l' d' :
  bt_sorted (episodes (state l)) →
  complete json_len w id o out l d = (Ok tt, l', d') →
  complete json_len Written id o out l' d' = (Ok tt, l', Some (state l')) ∧
  (∀ w2 out2, out2 ≠ out →
     ∃ e, complete json_len w2 id o out2 l' d' = (Err e, l', d')).
Proof.
  intros Hs. unfold complete at 1.
  destruct (find_launch id o l) as [[k la]|e] eqn:Hf; [|done].
  destruct (negb _) eqn:Hg; [done|]. intros Hp.
  pose proof (find_launch_Ok _ _ _ _ _ Hf) as (Hpl & Hid & Ho & _).
  set (la1 := {| intent := intent la; owner := owner la; phase := Complete;
                 outcome := Some out |}) in *.
  assert (l' = set_launch k la1 l ∧ d' = Some (state l') ∧
    (2 * 1024 * 1024 <? json_len (state l'))%N = false) as (-> & -> & Hlen).
  { unfold persist in Hp. repeat case_match; by simplify_eq/=. }
  assert (find_launch id o (set_launch k la1 l) = Ok (k, la1)) as Hf'.
  { unfold find_launch in *. simpl. rewrite Hpl in *.
    destruct (find_first _ (episodes (state l))) as [[k' e']|] eqn:Hfirst; [|done].
    destruct (launch e') as [la'|] eqn:Hla'; [|done]. simplify_eq.
    by erewrite (find_first_bt_update (matches (launch_id (intent la)) (owner la)));
      [|done..|unfold matches; simpl; by rewrite !bool_decide_eq_true_2]. }
  unfold complete. rewrite Hf'. simpl. split.
  - assert (set_launch k la1 (set_launch k la1 l) = set_launch k la1 l) as Hfix.
    { unfold set_launch, set_episodes; simpl. f_equal. f_equal.
      apply bt_update_idem. intros [e|]; done. }
    rewrite (bool_decide_eq_true_2 (Some out = Some out)) by done. simpl.
    fold la1. unfold persist. rewrite Hfix. simpl in *. by rewrite Hpl, Hlen.
  - intros w2 out2 Hne. rewrite bool_decide_eq_false_2 by congruence.
    simpl. eauto.
Qed.

(** ** Witnesses *)

Definition sample_intent : Intent :=
  {| launch_id := "launch-1"; episode := "ep"; url := "http://probe.example/";
     reason := Automatic; expires_at_ms := 10000 |}.
Definition sample_env : OpenEnv :=
  {| directory_created_or_present := true; directory_private := true;
     lock_opened := true; lock_is_file := true; lock_acquired := true;
     contents := Missing |}.
Definition sample_len : State → N := λ _, 100%N.
Definition sample_empty : Ledger := {| state := default_state; poisoned := false |}.
Definition sample_reserve :=
  reserve sample_len Written sample_intent "ui" false 0 sample_empty None.
Definition sample_claim :=
  claim sample_len Written "launch-1" "ui" "ep" true 1 sample_reserve.1.2 sample_reserve.2.
Definition sample_complete :=
  complete sample_len Written "launch-1" "ui" Opened sample_claim.1.2 sample_claim.2.
Definition sample_events : list event :=
  [ EvOpen; EvReserve sample_intent "ui" 0 sample_reserve.1.1
  ; EvClaim "launch-1" "ui" "ep" true 1 sample_claim.1.1 ].
Definition sample_world : world :=
  {| mem := Some sample_claim.1.2; disk := sample_claim.2 |}.

Lemma sample_run : ledger_run sample_len sample_events sample_world.
Proof.
  eapply (lrun_step _ [_; _]).
  - eapply (lrun_step _ [_]).
    + eapply (lrun_step _ []); [constructor|].
      apply (step_open _ sample_env sample_empty None); reflexivity.
    + eapply (step_reserve _ Written _ _ false 0). reflexivity.
  - eapply (step_claim _ Written). reflexivity.
Defined.

Lemma automatic_launch_once_witness :
  count (automatic_grant "ep") sample_events = 1 ∧
  count (automatic_grant "ep") sample_events ≤ 1.
Proof.
  split; [vm_compute; reflexivity|].
  exact (automatic_launch_once sample_len "ep" sample_events sample_world sample_run).
Defined.

Lemma claim_at_most_once_witness :
  count (claim_ok "launch-1") sample_events = 1 ∧
  count (claim_ok "launch-1") sample_events ≤ 1.
Proof.
  split; [vm_compute; reflexivity|].
  apply (claim_at_most_once sample_len "launch-1" sample_events sample_world sample_run).
  apply NoDup_singleton.
Defined.

Lemma one_pending_launch_witness :
  ∃ e, ("ep", e) ∈ episodes (state sample_claim.1.2) ∧ pending 5 e = true ∧
       ("ep", e) = ("ep", e).
Proof.
  assert (∃ e, ("ep", e) ∈ episodes (state sample_claim.1.2) ∧ pending 5 e = true)
    as (e & Hin & Hp).
  { eexists. split; [vm_compute; left|vm_compute; reflexivity]. }
  exists e. split; [exact Hin|]. split; [exact Hp|].
  apply (one_pending_launch sample_len sample_events sample_world 5
           (state sample_claim.1.2)); try assumption.
  - exact sample_run.
  - vm_compute. repeat constructor.
  - intros t' Ht'. apply list_elem_of_singleton in Ht' as ->. lia.
  - left. exists sample_claim.1.2. split; reflexivity.
Defined.

Lemma claim_fenced_witness : launch_id sample_intent = "launch-1".
Proof.
  exact (proj1 (claim_fenced sample_len Written "launch-1" "ui" "ep" true 1
    sample_reserve.1.2 sample_reserve.2 sample_intent sample_claim.1.2 sample_claim.2
    ltac:(vm_compute; reflexivity))).
Defined.

Lemma complete_idempotent_witness :
  complete sample_len Written "launch-1" "ui" Opened sample_complete.1.2 sample_complete.2 =
  (Ok tt, sample_complete.1.2, Some (state sample_complete.1.2)).
Proof.
  refine (proj1 (complete_idempotent sample_len Written "launch-1" "ui" Opened
    sample_claim.1.2 sample_claim.2 sample_complete.1.2 sample_complete.2 _ _)).
  - vm_compute. repeat constructor.
  - vm_compute. reflexivity.
Defined.
