(* ===== verification/Scan.v ===== *)
(** * Scan scheduling ([src/nm/scan_schedule.rs], [src/nm/scan.rs], [src/deadline.rs])

    Callers that want a Wi-Fi scan share one in-flight scan per device. The
    scheduler's table is changed only under its mutex, so each critical section
    is one atomic step here; a caller that waits holds a ticket, and the caller
    that scans holds a lease. *)
From S2P Require Import Prelude Errors Text.
From Stdlib Require Import ZArith Lia Ascii.
From stdpp Require Import prelude gmap strings list sorting.

(** ** Deadlines ([src/deadline.rs]) *)

Record Deadline := { at_instant : instant }.
Definition expired (now : instant) (d : Deadline) : bool := (at_instant d <=? now)%N.
Definition wait_at (d : Deadline) (now : instant) (max : duration) : duration :=
  N.min max (at_instant d - now).

(** ** Scopes *)

Definition SCAN_REQUEST_INTERVAL : duration := from_millis 10000.
Definition SCAN_SCHEDULE_POLL_INTERVAL : duration := from_millis 100.

Abbreviation ssid := (list ascii) (only parsing).

Definition leb_of {A} `{Ord A} (a b : A) : bool :=
  match cmp a b with Gt => false | _ => true end.

(** [slice::sort] and [Vec::dedup]. *)
Fixpoint insert_sorted {A} `{Ord A} (a : A) (l : list A) : list A :=
  match l with
  | [] => [a]
  | b :: l' => if leb_of a b then a :: l else b :: insert_sorted a l'
  end.
Definition sort {A} `{Ord A} (l : list A) : list A := foldr insert_sorted [] l.

Fixpoint dedup {A} `{Ord A} (l : list A) : list A :=
  match l with
  | [] => []
  | a :: l' =>
    match dedup l' with
    | b :: r => match cmp a b with Eq => b :: r | _ => a :: b :: r end
    | [] => [a]
    end
  end.

Definition normalized_ssids (ssids : list ssid) : list ssid := dedup (sort ssids).

(** [slice::binary_search]: halve the window until one element is left. *)
Fixpoint bs_window {A} `{Ord A} (fuel : nat) (l : list A) (x : A) (base size : nat) : nat :=
  match fuel with
  | O => base
  | S fuel' =>
    if (1 <? size)%nat then
      let half := size / 2 in
      let mid := base + half in
      let base' := match l !! mid with
                   | Some y => match cmp y x with Gt => base | _ => mid end
                   | None => base
                   end in
      bs_window fuel' l x base' (size - half)
    else base
  end.

Definition binary_search_ok {A} `{Ord A} (l : list A) (x : A) : bool :=
  match l !! bs_window (length l) l x 0 (length l) with
  | Some y => match cmp y x with Eq => true | _ => false end
  | None => false
  end.

Definition is_nil {A} (l : list A) : bool := match l with [] => true | _ => false end.

Definition scan_scope_covers (in_flight requested : list ssid) : bool :=
  if is_nil in_flight || is_nil requested then is_nil in_flight && is_nil requested
  else forallb (binary_search_ok in_flight) requested.

(** ** The scheduler *)

Inductive ScanTurn :=
| Request (generation : N)
| Join (generation : N)
| Wait (generation : N).

Inductive SharedScanOutcome := Succeeded | Failed (report : ErrorReport).

Inductive ScanWait := Completed (o : SharedScanOutcome) | Cancelled | DeadlineExpired.

Definition scan_deadline_expired (message : string) : Error :=
  EDomain (timeout Op.Scan message).

Definition into_result (timeout_message : string) (w : ScanWait) :
    result SharedScanOutcome Error :=
  match w with
  | Completed o => Ok o
  | Cancelled => Err (EDomain (cancelled_operation Op.Scan "Wi-Fi scan cancelled"))
  | DeadlineExpired => Err (scan_deadline_expired timeout_message)
  end.

Record DeviceScanState := {
  in_flight : option (list ssid);
  generation : N;
  waiters : gmap N N;
  completions : gmap N SharedScanOutcome;
  last_request : option instant;
  previous_request : option instant;
}.
Definition device_default : DeviceScanState :=
  {| in_flight := None; generation := 0; waiters := ∅; completions := ∅;
     last_request := None; previous_request := None |}.

Abbreviation ScanScheduler := (gmap string DeviceScanState) (only parsing).

Definition device (s : ScanScheduler) (path : string) : DeviceScanState :=
  unwrap_or (s !! path) device_default.

Definition claim (path : string) (ssids : list ssid) (now : instant) (s : ScanScheduler) :
    ScanScheduler * ScanTurn :=
  let st := device s path in
  match in_flight st with
  | Some scope =>
    let st' := {| in_flight := in_flight st; generation := generation st;
                  waiters := <[generation st := (unwrap_or (waiters st !! generation st) 0 + 1)%N]>
                               (waiters st);
                  completions := completions st; last_request := last_request st;
                  previous_request := previous_request st |} in
    (<[path := st']> s,
     if scan_scope_covers scope ssids then Join (generation st) else Wait (generation st))
  | None =>
    let g := u64_wrapping_add (generation st) 1 in
    (<[path := {| in_flight := Some (normalized_ssids ssids); generation := g;
                  waiters := waiters st; completions := completions st;
                  last_request := Some now; previous_request := last_request st |}]> s,
     Request g)
  end.

Definition complete (path : string) (g : N) (outcome : SharedScanOutcome)
    (s : ScanScheduler) : ScanScheduler :=
  match s !! path with
  | Some st =>
    if (generation st =? g)%N then
      match in_flight st with
      | Some _ =>
        <[path := {| in_flight := None; generation := generation st; waiters := waiters st;
                     completions := if decide (is_Some (waiters st !! g))
                                    then <[g := outcome]> (completions st)
                                    else completions st;
                     last_request := last_request st;
                     previous_request := previous_request st |}]> s
      | None => s
      end
    else s
  | None => s
  end.

(** One turn of the loop of [wait_for_completion]: [None] blocks on the condition
    variable for [deadline.wait(POLL)] and tries again. *)
Definition wait_iteration (cancelled : bool) (deadline : Deadline) (now : instant)
    (path : string) (g : N) (s : ScanScheduler) : option ScanWait :=
  if cancelled then Some Cancelled
  else match s !! path ≫= λ st, completions st !! g with
       | Some o => Some (Completed o)
       | None => if (wait_at deadline now SCAN_SCHEDULE_POLL_INTERVAL =? 0)%N
                 then Some DeadlineExpired else None
       end.

Definition consume_waiter (path : string) (g : N) (s : ScanScheduler) : ScanScheduler :=
  match s !! path with
  | None => s
  | Some st =>
    match waiters st !! g with
    | None => s
    | Some n =>
      let left := (n - 1)%N in
      <[path := {| in_flight := in_flight st; generation := generation st;
                   waiters := if (left =? 0)%N then delete g (waiters st)
                              else <[g := left]> (waiters st);
                   completions := if (left =? 0)%N then delete g (completions st)
                                  else completions st;
                   last_request := last_request st;
                   previous_request := previous_request st |}]> s
    end
  end.

Definition note_request (path : string) (now : instant) (s : ScanScheduler) : ScanScheduler :=
  let st := device s path in
  <[path := {| in_flight := in_flight st; generation := generation st; waiters := waiters st;
               completions := completions st; last_request := Some now;
               previous_request := previous_request st |}]> s.

Definition last_request_before_claim (path : string) (s : ScanScheduler) : option instant :=
  s !! path ≫= previous_request.

(** ** Rate limiting *)

Definition i64_min : Z := -2 ^ 63.
Definition i64_max : Z := 2 ^ 63 - 1.
Definition i64_saturating_sub (a b : Z) : Z := Z.max i64_min (Z.min i64_max (a - b)).

Definition rate_limit_wait (last_scan_ms boottime_ms : Z) (last_request : option instant)
    (now : instant) : duration :=
  let since_scan :=
    if (0 <=? last_scan_ms)%Z then
      let elapsed := i64_saturating_sub boottime_ms last_scan_ms in
      if (0 <=? elapsed)%Z then Some (from_millis (Z.to_N elapsed)) else None
    else None in
  let since_request := (λ at_, (now - at_)%N) <$> last_request in
  foldr N.max 0%N
    ((λ elapsed, (SCAN_REQUEST_INTERVAL - elapsed)%N) <$> omap id [since_scan; since_request]).

(** ** Scanning a device ([src/nm/scan.rs]) *)

Definition scan_completed (after last_scan_before_request : Z)
    (requested_at_boottime_ms : option Z) : bool :=
  (0 <=? after)%Z && negb (after =? last_scan_before_request)%Z
  && match requested_at_boottime_ms with
     | Some requested_at => (requested_at <=? after)%Z
     | None => true
     end.

Definition shared_scan_outcome (r : result unit Error) : SharedScanOutcome :=
  match r with Ok _ => Succeeded | Err e => Failed (from_error e Op.Scan) end.

(** [Drop for ScanLease]: an owner that unwound publishes a failure. *)
Definition lease_outcome (outcome : option SharedScanOutcome) : SharedScanOutcome :=
  unwrap_or outcome
    (Failed (from_error (plain "owned Wi-Fi scan stopped before publishing an outcome") Op.Scan)).

Definition shared_owner_failure_is_retryable (report : ErrorReport) : bool :=
  match r_code report with Code.Cancelled | Code.Timeout => true | _ => false end.

Definition joined_scan_result (outcome : SharedScanOutcome) : result unit Error :=
  match outcome with
  | Succeeded => Ok tt
  | Failed report =>
    Err (EDomain (foldl (λ error '(k, v), with_detail k v error)
      (new (r_code report) (r_operation report) (r_source report) (r_message report))
      (r_details report)))
  end.

(** [wait_for_joined_scan], after the wait. *)
Definition joined_wait (w : ScanWait) (deadline_expired : bool) : result bool Error :=
  let? outcome := into_result "timed out waiting for an in-flight scan on this device" w in
  match outcome with
  | Failed report =>
    if shared_owner_failure_is_retryable report && negb deadline_expired then Ok false
    else result_map (λ _, true) (joined_scan_result outcome)
  | _ => result_map (λ _, true) (joined_scan_result outcome)
  end.

(** ** Scopes: lemmas *)

Section Sorting.
Context {A : Type} `{Ord A}.
Implicit Types (l : list A) (a b x : A).

Definition le (a b : A) : Prop := cmp a b ≠ Gt.

Lemma le_trans a b c : le a b → le b c → le a c.
Proof.
  unfold le. intros Hab Hbc. destruct (cmp a b) eqn:E1; [|destruct (cmp b c) eqn:E2|done].
  - apply cmp_eq in E1 as ->. done.
  - apply cmp_eq in E2 as <-. by rewrite E1.
  - by rewrite (cmp_lt_trans _ _ _ E1 E2).
  - done.
Qed.

Lemma le_antisym a b : le a b → le b a → a = b.
Proof.
  unfold le. intros Hab Hba. destruct (cmp a b) eqn:E; [by apply cmp_eq| |done].
  by rewrite (cmp_lt_gt _ _ E) in Hba.
Qed.

Lemma not_leb_le a b : leb_of a b = false → le b a.
Proof.
  unfold leb_of, le. destruct (cmp a b) eqn:E; [done..|]. intros _.
  by rewrite (cmp_gt_lt _ _ E).
Qed.

Lemma insert_sorted_elem a l x : x ∈ insert_sorted a l ↔ x = a ∨ x ∈ l.
Proof.
  induction l as [|b l IH]; simpl; [set_solver|]. destruct (leb_of a b); set_solver.
Qed.

Lemma insert_sorted_sorted a l : StronglySorted le l → StronglySorted le (insert_sorted a l).
Proof.
  induction 1 as [|b l Hl IH Hall]; simpl; [by repeat constructor|].
  destruct (leb_of a b) eqn:E.
  - assert (le a b) as Hab by by unfold leb_of, le in *; destruct (cmp a b).
    constructor; [by constructor|]. constructor; [done|].
    eapply Forall_impl; [done|]. intros c Hc. by eapply le_trans.
  - constructor; [done|]. apply Forall_forall. intros c [->|Hc]%insert_sorted_elem.
    + by apply not_leb_le.
    + by eapply Forall_forall in Hall.
Qed.

Lemma sort_elem l x : x ∈ sort l ↔ x ∈ l.
Proof. induction l as [|a l IH]; [done|]. simpl. rewrite insert_sorted_elem. set_solver. Qed.

Lemma sort_sorted l : StronglySorted le (sort l).
Proof. induction l as [|a l IH]; [constructor|]. by apply insert_sorted_sorted. Qed.

Lemma dedup_elem l x : x ∈ dedup l ↔ x ∈ l.
Proof.
  induction l as [|a l IH]; [done|]. simpl.
  destruct (dedup l) as [|b r]; [set_solver|].
  destruct (cmp a b) eqn:E; [apply cmp_eq in E as ->| |]; set_solver.
Qed.

Lemma dedup_sorted l : StronglySorted le l → StronglySorted le (dedup l).
Proof.
  induction 1 as [|a l Hl IH Hall]; [constructor|]. simpl.
  assert (Forall (le a) (dedup l)) as Hall'.
  { apply Forall_forall. intros x Hx.
    rewrite dedup_elem in Hx. rewrite Forall_forall in Hall. auto. }
  destruct (dedup l) as [|b r]; [by repeat constructor|].
  destruct (cmp a b); [done| |]; by constructor.
Qed.

Lemma sorted_lookup l i j a b :
  StronglySorted le l → l !! i = Some a → l !! j = Some b → i ≤ j → le a b.
Proof.
  intros Hs. revert i j. induction Hs as [|c l Hs IH Hall]; intros [|i] [|j] Ha Hb Hij;
    simplify_eq/=; [by unfold le; rewrite cmp_refl| |lia|].
  - eapply Forall_forall in Hall; [done|]. by eapply list_elem_of_lookup_2.
  - eapply IH; eauto. lia.
Qed.

Lemma bs_window_spec fuel l x base size i :
  StronglySorted le l → l !! i = Some x → base ≤ i < base + size →
  base + size ≤ length l → size ≤ S fuel →
  l !! bs_window fuel l x base size = Some x.
Proof.
  intros Hs. revert base size i. induction fuel as [|fuel IH]; intros base size i Hi Hw Hlen Hf;
    cbn [bs_window]; cbv zeta; [by replace base with i by lia|].
  destruct (Nat.ltb_spec 1 size); [|by replace base with i by lia].
  assert (1 ≤ size / 2 ∧ size / 2 ≤ size - size / 2) as [H1 H2].
  { split; [apply Nat.div_le_lower_bound; lia|].
    pose proof (Nat.div_mod_eq size 2). lia. }
  set (half := size / 2) in *. set (mid := base + half).
  destruct (lookup_lt_is_Some_2 l mid) as [y Hy]; [lia|]. rewrite Hy.
  destruct (cmp y x) eqn:E.
  - apply cmp_eq in E as ->. apply (IH _ _ mid); try done; lia.
  - destruct (decide (mid ≤ i)); [apply (IH _ _ i); try done; lia|].
    assert (le x y) as Hxy by (eapply sorted_lookup; eauto; lia).
    unfold le in Hxy. by rewrite (cmp_lt_gt _ _ E) in Hxy.
  - destruct (decide (mid ≤ i)); [|apply (IH _ _ i); try done; lia].
    assert (le y x) as Hyx by (eapply sorted_lookup; eauto). by unfold le in Hyx.
Qed.

Lemma binary_search_elem l x : StronglySorted le l → binary_search_ok l x = true ↔ x ∈ l.
Proof.
  intros Hs. unfold binary_search_ok. split.
  - destruct (l !! _) as [y|] eqn:Hy; [|done]. destruct (cmp y x) eqn:E; try done.
    apply cmp_eq in E as ->. intros _. by eapply list_elem_of_lookup_2.
  - intros [i Hi]%list_elem_of_lookup_1. pose proof (lookup_lt_Some _ _ _ Hi).
    rewrite (bs_window_spec _ l x 0 (length l) i) by (done || lia). by rewrite cmp_refl.
Qed.
End Sorting.

Lemma is_nil_spec {A} (l : list A) : is_nil l = true ↔ l = [].
Proof. by destruct l. Qed.

Lemma is_nil_ext {A} (l k : list A) : (∀ x, x ∈ l ↔ x ∈ k) → is_nil l = is_nil k.
Proof.
  intros H. destruct l as [|a l], k as [|b k]; try done; exfalso.
  - specialize (H b). set_solver.
  - specialize (H a). set_solver.
Qed.

(** Joining is exact: whatever order and repetitions the SSIDs come in, a
    caller joins the in-flight scan exactly when both scan everything, or both
    name SSIDs and every SSID it asked for is among those being scanned. *)
Theorem scan_scope_covers_iff owner requested :
  scan_scope_covers (normalized_ssids owner) requested = true ↔
  (owner = [] ∧ requested = []) ∨
  (owner ≠ [] ∧ requested ≠ [] ∧ ∀ s, s ∈ requested → s ∈ owner).
Proof.
  unfold scan_scope_covers.
  assert (∀ x, x ∈ normalized_ssids owner ↔ x ∈ owner) as Hel.
  { intros x. unfold normalized_ssids. by rewrite dedup_elem, sort_elem. }
  rewrite (is_nil_ext _ _ Hel).
  assert (StronglySorted le (normalized_ssids owner)) as Hs
    by apply dedup_sorted, sort_sorted.
  destruct owner as [|o owner], requested as [|r requested]; cbn [is_nil orb andb]; try naive_solver.
  rewrite forallb_forall. split.
  - intros Hall. right. split_and!; [done..|]. intros s Hin.
    apply Hel, binary_search_elem; [done|]. apply Hall. by apply list_elem_of_In.
  - intros [[? _]|(_ & _ & Hall)]; [done|]. intros s Hin.
    apply binary_search_elem; [done|]. apply Hel, Hall. by apply list_elem_of_In.
Qed.

(** ** The protocol

    Leases and tickets are what the callers hold: a lease for each scan that is
    being run, a ticket for each caller inside [wait_for_completion]. [published]
    records every outcome a lease published. *)
Record World := {
  sched : ScanScheduler;
  leases : list (string * N);
  tickets : list (string * N);
  published : list (string * N * SharedScanOutcome);
}.

Definition initial : World := {| sched := ∅; leases := []; tickets := []; published := [] |}.

Inductive scan_step : World → World → Prop :=
| step_claim w path ssids now :
  scan_step w
    (let (s, turn) := claim path ssids now (sched w) in
     match turn with
     | Request g => {| sched := s; leases := (path, g) :: leases w; tickets := tickets w;
                       published := published w |}
     | Join g | Wait g => {| sched := s; leases := leases w; tickets := (path, g) :: tickets w;
                             published := published w |}
     end)
| step_note w path now :
  scan_step w {| sched := note_request path now (sched w); leases := leases w;
                 tickets := tickets w; published := published w |}
| step_publish w path g before after outcome :
  leases w = before ++ (path, g) :: after →
  scan_step w {| sched := complete path g (lease_outcome outcome) (sched w);
                 leases := before ++ after; tickets := tickets w;
                 published := (path, g, lease_outcome outcome) :: published w |}
| step_wake w path g before after cancelled deadline now res :
  tickets w = before ++ (path, g) :: after →
  wait_iteration cancelled deadline now path g (sched w) = Some res →
  scan_step w {| sched := consume_waiter path g (sched w); leases := leases w;
                 tickets := before ++ after; published := published w |}.

Definition count (x : string * N) (l : list (string * N)) : N :=
  N.of_nat (length (List.filter (λ y, bool_decide (y = x)) l)).

Lemma count_cons x y l : count x (y :: l) = (count x l + if bool_decide (y = x) then 1 else 0)%N.
Proof. unfold count. simpl. case_bool_decide; simpl; lia. Qed.

Lemma count_remove x y l k :
  count x (l ++ y :: k) = (count x (l ++ k) + if bool_decide (y = x) then 1 else 0)%N.
Proof.
  induction l as [|z l IH]; [apply count_cons|]. simpl. rewrite !count_cons, IH. lia.
Qed.

Lemma count_pos x l : x ∈ l ↔ (0 < count x l)%N.
Proof.
  induction l as [|y l IH]; [split; [by intros ?%elem_of_nil|done]|].
  rewrite count_cons, elem_of_cons, IH. case_bool_decide; naive_solver lia.
Qed.

Lemma device_insert (s : ScanScheduler) p st q :
  device (<[p := st]> s) q = if decide (q = p) then st else device s q.
Proof.
  unfold device. destruct (decide (q = p)) as [->|]; [by rewrite lookup_insert_eq|].
  by rewrite lookup_insert_ne.
Qed.

Lemma device_lookup (s : ScanScheduler) p st : s !! p = Some st → device s p = st.
Proof. unfold device. by intros ->. Qed.

(** The scan in flight on a device, if any. *)
Definition running (s : ScanScheduler) (path : string) (g : N) : Prop :=
  is_Some (in_flight (device s path)) ∧ generation (device s path) = g.

#[export] Instance running_dec s path g : Decision (running s path g).
Proof. unfold running. apply _. Defined.

Lemma running_insert s path st p g :
  running (<[path := st]> s) p g ↔
  if decide (p = path) then is_Some (in_flight st) ∧ generation st = g else running s p g.
Proof. unfold running. rewrite device_insert. by destruct (decide (p = path)). Qed.

(** What holds between the table and what the callers hold. *)
Record scan_inv (w : World) : Prop := {
  inv_lease : ∀ p g, count (p, g) (leases w) = if decide (running (sched w) p g) then 1%N else 0%N;
  inv_tickets : ∀ p g, waiters (device (sched w) p) !! g =
    if decide ((p, g) ∈ tickets w) then Some (count (p, g) (tickets w)) else None;
  inv_served : ∀ p g, (p, g) ∈ tickets w →
    running (sched w) p g ∨ is_Some (completions (device (sched w) p) !! g);
  inv_kept : ∀ p g o, completions (device (sched w) p) !! g = Some o →
    (p, g) ∈ tickets w ∧ (p, g, o) ∈ published w;
}.

Lemma initial_inv : scan_inv initial.
Proof. split; intros; cbn in *; try done. by apply elem_of_nil in H. Qed.

Lemma inv_running_unique w p g g' :
  scan_inv w → (p, g) ∈ leases w → (p, g') ∈ leases w → g = g'.
Proof.
  intros Hi H1%count_pos H2%count_pos. rewrite inv_lease in H1, H2 by done.
  destruct (decide (running (sched w) p g)) as [[_ <-]|]; [|lia].
  destruct (decide (running (sched w) p g')) as [[_ <-]|]; [done|lia].
Qed.

(** A joining or waiting caller gets a ticket on the scan in flight. *)
Lemma claim_ticket_inv w path st scope :
  scan_inv w → device (sched w) path = st → in_flight st = Some scope →
  scan_inv {| sched := <[path := {| in_flight := in_flight st; generation := generation st;
      waiters := <[generation st := (unwrap_or (waiters st !! generation st) 0 + 1)%N]> (waiters st);
      completions := completions st; last_request := last_request st;
      previous_request := previous_request st |}]> (sched w);
    leases := leases w; tickets := (path, generation st) :: tickets w;
    published := published w |}.
Proof.
  intros Hi Hst Hf. subst st. set (st := device (sched w) path) in *. split; cbn [sched leases tickets published].
  - intros p g. rewrite (inv_lease w Hi). apply decide_ext.
    unfold running. rewrite device_insert. by destruct (decide (p = path)) as [->|].
  - intros p g. rewrite device_insert. pose proof (inv_tickets w Hi p g) as Ht.
    destruct (decide (p = path)) as [->|Hp].
    + fold st in Ht. cbn [waiters].
      destruct (decide (g = generation st)) as [->|Hg].
      * rewrite lookup_insert_eq, decide_True by left. f_equal. rewrite Ht, count_cons.
        rewrite bool_decide_eq_true_2 by done. case_decide as Hin; simpl; [done|].
        destruct (N.eq_0_gt_0_cases (count (path, generation st) (tickets w))) as [->|Hc]; [done|].
        by apply count_pos in Hc.
      * rewrite lookup_insert_ne by done. rewrite Ht, count_cons, bool_decide_eq_false_2 by congruence.
        rewrite N.add_0_r. apply decide_ext. rewrite elem_of_cons. naive_solver.
    + rewrite Ht, count_cons, bool_decide_eq_false_2 by congruence. rewrite N.add_0_r.
      apply decide_ext. rewrite elem_of_cons. naive_solver.
  - intros p g [[= -> ->]|Hin]%elem_of_cons.
    + left. unfold running. rewrite device_insert, decide_True by done. cbn. rewrite Hf. by eexists.
    + pose proof (inv_served w Hi p g Hin) as Hs. unfold running. rewrite device_insert.
      destruct (decide (p = path)) as [->|]; [|done]. done.
  - intros p g o. rewrite device_insert. intros Hc. assert ((p, g) ∈ tickets w ∧ (p, g, o) ∈ published w)
      as [? ?]; [|split; [by right|done]].
    apply (inv_kept w Hi). destruct (decide (p = path)) as [->|]; done.
Qed.

Lemma claim_lease_inv w path scope g now prev :
  scan_inv w → in_flight (device (sched w) path) = None →
  let st := device (sched w) path in
  scan_inv {| sched := <[path := {| in_flight := Some scope; generation := g;
      waiters := waiters st; completions := completions st;
      last_request := now; previous_request := prev |}]> (sched w);
    leases := (path, g) :: leases w; tickets := tickets w; published := published w |}.
Proof.
  intros Hi Hf st. assert (∀ g', ¬ running (sched w) path g') as Hidle.
  { intros g' [[x Hx] _]. by rewrite Hf in Hx. }
  split; cbn [sched leases tickets published].
  - intros p g'. rewrite count_cons, (inv_lease w Hi).
    destruct (decide (running (<[_:=_]> _) p g')) as [Hr|Hr]; rewrite running_insert in Hr;
      destruct (decide (p = path)) as [->|Hp].
    + destruct Hr as [_ Hr]. cbn in Hr. subst g'.
      by rewrite decide_False, bool_decide_eq_true_2 by (done || apply Hidle).
    + rewrite decide_True, bool_decide_eq_false_2 by congruence. done.
    + rewrite decide_False, bool_decide_eq_false_2; [done| |apply Hidle].
      intros [= ->]. apply Hr. by split; [eexists|].
    + rewrite decide_False, bool_decide_eq_false_2 by congruence. done.
  - intros p g'. rewrite device_insert, <-(inv_tickets w Hi p g').
    by destruct (decide (p = path)) as [->|].
  - intros p g' Hin. destruct (inv_served w Hi p g' Hin) as [Hr|Hc].
    + left. unfold running. rewrite device_insert. destruct (decide (p = path)) as [->|]; [|done].
      by apply Hidle in Hr.
    + right. rewrite device_insert. by destruct (decide (p = path)) as [->|].
  - intros p g' o. rewrite device_insert. intros Hc. apply (inv_kept w Hi).
    by destruct (decide (p = path)) as [->|].
Qed.

Lemma publish_inv w path g before after o :
  scan_inv w → leases w = before ++ (path, g) :: after →
  scan_inv {| sched := complete path g o (sched w); leases := before ++ after;
              tickets := tickets w; published := (path, g, o) :: published w |}.
Proof.
  intros Hi Hl. assert (running (sched w) path g) as [[scope Hf] Hg].
  { pose proof (inv_lease w Hi path g) as Hc. rewrite Hl, count_remove in Hc.
    rewrite bool_decide_eq_true_2 in Hc by done. case_decide; [done|lia]. }
  set (st := device (sched w) path) in *.
  assert (sched w !! path = Some st) as Hs.
  { unfold st, device in *. destruct (sched w !! path); [done|]. by simpl in Hf. }
  unfold complete. rewrite Hs, Hg, N.eqb_refl, Hf.
  split; cbn [sched leases tickets published].
  - intros p g'. pose proof (inv_lease w Hi p g') as Hc. rewrite Hl, count_remove in Hc.
    destruct (decide (running (<[_:=_]> _) p g')) as [Hr|Hr]; rewrite running_insert in Hr;
      destruct (decide (p = path)) as [->|Hp].
    + by destruct Hr as [[? ?] _].
    + rewrite decide_True in Hc by done. rewrite bool_decide_eq_false_2 in Hc by congruence. lia.
    + destruct (decide (g = g')) as [->|Hne].
      * rewrite bool_decide_eq_true_2 in Hc by done. case_decide; lia.
      * rewrite decide_False in Hc; [lia|]. intros [_ Hx]. fold st in Hx. congruence.
    + rewrite decide_False, bool_decide_eq_false_2 in Hc by congruence. lia.
  - intros p g'. rewrite device_insert, <-(inv_tickets w Hi p g').
    by destruct (decide (p = path)) as [->|].
  - intros p g' Hin. rewrite device_insert. unfold running. rewrite device_insert.
    destruct (decide (p = path)) as [->|Hp]; [|by apply (inv_served w Hi)].
    right. cbn. pose proof (inv_tickets w Hi path g') as Ht. fold st in Ht.
    rewrite decide_True in Ht by done.
    destruct (decide (g' = g)) as [->|Hne].
    + rewrite decide_True by by rewrite Ht. rewrite lookup_insert_eq. by eexists.
    + assert (is_Some (completions st !! g')) as Hc.
      { destruct (inv_served w Hi path g' Hin) as [[_ Hr]|]; [|done]. fold st in Hr. congruence. }
      case_decide; [by rewrite lookup_insert_ne|done].
  - intros p g' o'. rewrite device_insert. destruct (decide (p = path)) as [->|Hp].
    + cbn. case_decide as Hw.
      * destruct (decide (g' = g)) as [->|Hne].
        -- rewrite lookup_insert_eq. intros [= <-]. split; [|by left].
           pose proof (inv_tickets w Hi path g) as Ht. fold st in Ht.
           case_decide; [done|]. rewrite Ht in Hw. by destruct Hw.
        -- rewrite lookup_insert_ne by done. intros Hc.
           destruct (inv_kept w Hi path g' o' Hc). split; [done|by right].
      * intros Hc. destruct (inv_kept w Hi path g' o' Hc). split; [done|by right].
    + intros Hc. destruct (inv_kept w Hi p g' o' Hc). split; [done|by right].
Qed.

Lemma wake_inv w path g before after :
  scan_inv w → tickets w = before ++ (path, g) :: after →
  scan_inv {| sched := consume_waiter path g (sched w); leases := leases w;
              tickets := before ++ after; published := published w |}.
Proof.
  intros Hi Ht. assert ((path, g) ∈ tickets w) as Hin
    by (rewrite Ht; apply elem_of_app; right; left).
  set (st := device (sched w) path) in *.
  pose proof (inv_tickets w Hi path g) as Hw. rewrite decide_True in Hw by done. fold st in Hw.
  assert (sched w !! path = Some st) as Hs.
  { unfold st, device in *. destruct (sched w !! path); [done|]. by simpl in Hw. }
  unfold consume_waiter. rewrite Hs, Hw.
  assert (∀ x, count x (tickets w) =
    count x (before ++ after) + if bool_decide ((path, g) = x) then 1 else 0)%N as Hcnt
    by (intros x; rewrite Ht; apply count_remove).
  assert (∀ x, x ≠ (path, g) → x ∈ tickets w ↔ x ∈ before ++ after) as Hother.
  { intros x Hx. rewrite !count_pos, Hcnt, bool_decide_eq_false_2 by congruence. by rewrite N.add_0_r. }
  assert (count (path, g) (tickets w) - 1 = count (path, g) (before ++ after))%N as Hleft.
  { rewrite Hcnt, bool_decide_eq_true_2 by done. lia. }
  rewrite Hleft. set (left := count (path, g) (before ++ after)) in *.
  assert ((left =? 0)%N = false ↔ (path, g) ∈ before ++ after) as Hz.
  { rewrite count_pos. unfold left. rewrite N.eqb_neq. lia. }
  split; cbn [sched leases tickets published].
  - intros p g'. rewrite (inv_lease w Hi). apply decide_ext. unfold running.
    rewrite device_insert. by destruct (decide (p = path)) as [->|].
  - intros p g'. pose proof (inv_tickets w Hi p g') as Hp. rewrite device_insert.
    destruct (decide (p = path)) as [->|Hne]; cbn [waiters].
    + fold st in Hp. destruct (decide (g' = g)) as [->|Hg].
      * destruct (left =? 0)%N eqn:E.
        -- rewrite lookup_delete_eq, decide_False; [done|]. intros H%Hz. congruence.
        -- rewrite lookup_insert_eq, decide_True by by apply Hz. done.
      * assert ((path, g') ≠ (path, g)) as Hxn by congruence.
        rewrite Hcnt, bool_decide_eq_false_2, N.add_0_r in Hp by congruence.
        rewrite (decide_ext _ _ _ _ (Hother _ Hxn)) in Hp.
        destruct (left =? 0)%N; [by rewrite lookup_delete_ne|by rewrite lookup_insert_ne].
    + assert ((p, g') ≠ (path, g)) as Hxn by congruence.
      rewrite Hcnt, bool_decide_eq_false_2, N.add_0_r in Hp by congruence.
      by rewrite (decide_ext _ _ _ _ (Hother _ Hxn)) in Hp.
  - intros p g' Hin'. assert ((p, g') ∈ tickets w) as Hold.
    { rewrite Ht. set_solver. }
    pose proof (inv_served w Hi p g' Hold) as Hsv. unfold running in *.
    rewrite device_insert. destruct (decide (p = path)) as [->|Hne]; [|done]. cbn.
    fold st in Hsv. destruct Hsv as [?|Hc]; [by left|]. right.
    destruct (left =? 0)%N eqn:E; [|done]. rewrite lookup_delete_ne; [done|].
    intros ->. apply Hz in Hin'. congruence.
  - intros p g' o. rewrite device_insert. destruct (decide (p = path)) as [->|Hne]; cbn.
    + destruct (left =? 0)%N eqn:E.
      * intros [Hg Hc]%lookup_delete_Some. destruct (inv_kept w Hi path g' o Hc).
        split; [|done]. apply Hother; [congruence|done].
      * intros Hc. destruct (inv_kept w Hi path g' o Hc) as [Hin' ?]. split; [|done].
        destruct (decide (g' = g)) as [->|]; [by apply Hz|]. apply Hother; [congruence|done].
    + intros Hc. destruct (inv_kept w Hi p g' o Hc). split; [|done].
      apply Hother; [congruence|done].
Qed.

Lemma note_inv w path now :
  scan_inv w →
  scan_inv {| sched := note_request path now (sched w); leases := leases w;
              tickets := tickets w; published := published w |}.
Proof.
  intros Hi. unfold note_request. split; cbn [sched leases tickets published];
    intros p g; rewrite ?device_insert, ?running_insert.
  - rewrite (inv_lease w Hi). apply decide_ext. rewrite running_insert.
    by destruct (decide (p = path)) as [->|].
  - rewrite <-(inv_tickets w Hi p g). by destruct (decide (p = path)) as [->|].
  - intros Hin. pose proof (inv_served w Hi p g Hin) as Hs.
    by destruct (decide (p = path)) as [->|].
  - intros o Hc. apply (inv_kept w Hi). by destruct (decide (p = path)) as [->|].
Qed.

Lemma scan_step_inv w w' : scan_step w w' → scan_inv w → scan_inv w'.
Proof.
  destruct 1 as [w path ssids now|w path now|w path g b a o Hl|w path g b a c d now r Ht Hw];
    intros Hi.
  - unfold claim. destruct (in_flight (device (sched w) path)) as [scope|] eqn:Hf.
    + destruct (scan_scope_covers scope ssids); rewrite <-Hf at 1;
        exact (claim_ticket_inv w path _ scope Hi eq_refl Hf).
    + by apply claim_lease_inv.
  - by apply note_inv.
  - by apply publish_inv.
  - by eapply wake_inv.
Qed.

Lemma reachable_inv w : rtc scan_step initial w → scan_inv w.
Proof.
  intros H. assert (∀ a b, rtc scan_step a b → scan_inv a → scan_inv b) as Hr.
  { induction 1; eauto using scan_step_inv. }
  exact (Hr _ _ H initial_inv).
Qed.

(** C6. Scan sharing is safe and loses nothing, over every interleaving of claims,
    requests, publications and wake-ups: a device never has two scans running;
    a caller that waits has its scan still running or an outcome to collect, so
    no wake-up is missed; the outcome it collects is one that the scan it waits
    for published; and when nobody waits on a device its table holds no stale
    outcome. *)
Theorem scan_sharing w :
  rtc scan_step initial w →
  (∀ p g g', (p, g) ∈ leases w → (p, g') ∈ leases w → g = g') ∧
  (∀ p g, (count (p, g) (leases w) <= 1)%N) ∧
  (∀ p g, (p, g) ∈ tickets w → (p, g) ∉ leases w →
     is_Some (sched w !! p ≫= λ st, completions st !! g)) ∧
  (∀ p g cancelled deadline now o, 
     wait_iteration cancelled deadline now p g (sched w) = Some (Completed o) →
     (p, g, o) ∈ published w) ∧
  (∀ p, (∀ g, (p, g) ∉ tickets w) →
     completions (device (sched w) p) = ∅ ∧ waiters (device (sched w) p) = ∅).
Proof.
  intros Hi%reachable_inv.
  assert (∀ p g, (sched w !! p ≫= λ st, completions st !! g) =
                 completions (device (sched w) p) !! g) as Hdev.
  { intros p g. unfold device. by destruct (sched w !! p). }
  split_and!.
  - intros p g g'. by apply inv_running_unique.
  - intros p g. rewrite (inv_lease w Hi). case_decide; lia.
  - intros p g Hin Hl. rewrite Hdev. destruct (inv_served w Hi p g Hin) as [Hr|?]; [|done].
    exfalso. apply Hl, count_pos. rewrite (inv_lease w Hi), decide_True by done. lia.
  - intros p g c d now o. unfold wait_iteration. destruct c; [done|]. rewrite Hdev.
    destruct (completions _ !! g) eqn:Hc; [|by case_match].
    intros [= ->]. by apply (inv_kept w Hi) in Hc as [_ ?].
  - intros p Hno. split; apply map_empty; intros g.
    + destruct (completions _ !! g) eqn:Hc; [|done].
      apply (inv_kept w Hi) in Hc as [Hin _]. by apply Hno in Hin.
    + rewrite (inv_tickets w Hi), decide_False by apply Hno. done.
Qed.

(** One caller scans, a second joins, the first publishes. *)
Definition example_scan_world : World :=
  {| sched := complete "/dev" 1 (lease_outcome (Some Succeeded))
       (fst (claim "/dev" [] 2 (fst (claim "/dev" [] 1 ∅))));
     leases := []; tickets := [("/dev", 1%N)]; published := [("/dev", 1%N, Succeeded)] |}.

Lemma scan_sharing_witness :
  is_Some (sched example_scan_world !! "/dev" ≫= λ st, completions st !! 1%N).
Proof.
  refine (proj1 (proj2 (proj2 (scan_sharing example_scan_world _))) "/dev" 1%N _ _).
  - eapply rtc_l; [apply (step_claim initial "/dev" [] 1)|].
    eapply rtc_l; [apply (step_claim _ "/dev" [] 2)|].
    eapply rtc_l; [|apply rtc_refl].
    exact (step_publish {| sched := fst (claim "/dev" [] 2 (fst (claim "/dev" [] 1 ∅)));
      leases := [("/dev", 1%N)]; tickets := [("/dev", 1%N)]; published := [] |}
      "/dev" 1 [] [] (Some Succeeded) eq_refl).
  - by left.
  - by intros ?%elem_of_nil.
Defined.

(** The rate limit is respected and never over-waited: after the computed wait
    at least the request interval has passed since NetworkManager's last scan
    and since this daemon's last request, the wait never exceeds the interval,
    and with no earlier scan or request there is no wait at all. *)
Theorem rate_limit_wait_sound last_scan boot last now :
  let w := rate_limit_wait last_scan boot last now in
  (w <= SCAN_REQUEST_INTERVAL)%N ∧
  ((0 <= last_scan <= boot)%Z → (boot <= i64_max)%Z →
   (SCAN_REQUEST_INTERVAL <= from_millis (Z.to_N (boot - last_scan)) + w)%N) ∧
  (∀ at_, last = Some at_ → (at_ <= now)%N → (at_ + SCAN_REQUEST_INTERVAL <= now + w)%N) ∧
  ((last_scan < 0 ∨ boot < last_scan)%Z → last = None → w = 0%N).
Proof.
  unfold rate_limit_wait. set (I := SCAN_REQUEST_INTERVAL).
  set (since := if (0 <=? last_scan)%Z then _ else None).
  assert ((0 <= last_scan <= boot)%Z → (boot <= i64_max)%Z →
          since = Some (from_millis (Z.to_N (boot - last_scan)))) as Hsince.
  { intros H1 H2. unfold since. destruct (Z.leb_spec 0 last_scan); [|lia].
    assert (i64_saturating_sub boot last_scan = boot - last_scan)%Z as ->.
    { unfold i64_saturating_sub, i64_min, i64_max in *. lia. }
    destruct (Z.leb_spec 0 (boot - last_scan)); [done|lia]. }
  assert ((last_scan < 0 ∨ boot < last_scan)%Z → since = None) as Hnone.
  { intros H. unfold since. destruct (Z.leb_spec 0 last_scan); [|done].
    destruct (Z.leb_spec 0 (i64_saturating_sub boot last_scan)) as [Hge|]; [|done].
    unfold i64_saturating_sub, i64_min, i64_max in Hge. lia. }
  cbv zeta. split_and!.
  - destruct since, last; cbn [omap list_omap id fmap list_fmap foldr]; simpl; lia.
  - intros H1 H2. rewrite (Hsince H1 H2). destruct last; simpl; lia.
  - intros at_ -> Hat. destruct since; simpl; lia.
  - intros H ->. rewrite (Hnone H). done.
Qed.

(** A caller that joined retries only when the owner was cancelled or timed out,
    and reports every other failure under the owner's code. *)
Lemma joined_wait_report report exp e :
  joined_wait (Completed (Failed report)) exp = Err e →
  r_code (from_error e Op.Scan) = r_code report.
Proof.
  unfold joined_wait. simpl. destruct (_ && _); [done|]. simpl. intros [= <-].
  unfold from_error. rewrite find_domain_error_EDomain. simpl. unfold code.
  assert (∀ l d, ctx_code (context (foldl (λ error '(k, v), with_detail k v error) d l)) =
                 ctx_code (context d)) as H.
  { induction l as [|[k v] l IH]; intros d; simpl; [done|]. rewrite IH.
    unfold with_detail. rewrite context_context_mut. by destruct (context d). }
  rewrite H. unfold new. by destruct (r_source report).
Qed.
