(* ===== verification/Activation.v ===== *)
(** * Activation scopes ([src/activation.rs])

    The registry that ties a secret-agent request to the activation that owns its
    time budget. Shared states live in a heap and are counted: an [Arc] is a strong
    reference, the registry holds weak ones, and [Weak::upgrade] succeeds while a
    strong reference is left. Every operation is atomic, and the instant it reads
    is an argument. *)
From S2P Require Import Prelude Errors.
From Stdlib Require Import ZArith Lia.
From stdpp Require Import prelude gmap strings list.

Definition AUTHENTICATION_RESERVE : duration := from_secs 15.

(** [(owner, identity)]. *)
Abbreviation Key := (prod string string) (only parsing).

Inductive CredentialStop := StopCancelled | StopExpired | StopUnavailable.
#[export] Instance credential_stop_eq_dec : EqDecision CredentialStop.
Proof. solve_decision. Defined.

Definition stop_name (s : CredentialStop) : string :=
  match s with
  | StopCancelled => "cancelled" | StopExpired => "expired"
  | StopUnavailable => "agent-unavailable"
  end.

Record State := {
  deadline : instant;
  finished : bool;
  pending_credentials : N;
  missing_frontend : bool;
  failure : option CredentialStop;
  wakes : N;
}.

Definition with_finished (s : State) : State :=
  {| deadline := deadline s; finished := true; pending_credentials := pending_credentials s;
     missing_frontend := missing_frontend s; failure := failure s; wakes := wakes s |}.

(** ** Operations on one state *)

Definition live (now : instant) (s : State) : bool :=
  negb (finished s) && (now <? deadline s)%N && bool_decide (failure s = None).

(** [Instant::checked_sub]: an instant before the origin is not representable. *)
Definition credential_deadline (s : State) : instant :=
  if (AUTHENTICATION_RESERVE <=? deadline s)%N then (deadline s - AUTHENTICATION_RESERVE)%N
  else deadline s.

Definition note_frontend_availability (available : bool) (s : State) : State :=
  {| deadline := deadline s; finished := finished s;
     pending_credentials := pending_credentials s; missing_frontend := negb available;
     failure := failure s; wakes := wakes s |}.

(** The first reason is kept, and waking happens with it. *)
Definition stop (reason : CredentialStop) (s : State) : State :=
  match failure s with
  | Some _ => s
  | None =>
    {| deadline := deadline s; finished := finished s;
       pending_credentials := pending_credentials s; missing_frontend := missing_frontend s;
       failure := Some reason; wakes := wakes s + 1 |}
  end.

Definition stop_error (reason : CredentialStop) : Error :=
  EDomain (with_detail "credential_outcome" (JStr (stop_name reason))
    match reason with
    | StopCancelled => cancelled "Wi-Fi credential entry cancelled"
    | StopExpired =>
      connect Reason.Timeout "Wi-Fi credential entry expired; connect again to retry"
    | StopUnavailable =>
      connect Reason.PasswordUnavailable
        "No credential frontend is available; open Shelllist and connect again"
    end).

(** [State::error]: enforces the credential budget, then reports. *)
Definition error (now : instant) (s : State) : State * option Error :=
  let s := if negb (finished s) && (0 <? pending_credentials s)%N
              && (credential_deadline s <=? now)%N
           then stop StopExpired s else s in
  (s, stop_error <$> failure s).

Definition missing_credentials (r : ConnectFailureReason) : bool :=
  match r with Reason.PasswordUnavailable | Reason.SecretRequired => true | _ => false end.

Definition activation_error (now : instant) (e : Error) (s : State) : State * Error :=
  let s := if missing_frontend s && missing_credentials (connect_failure_reason e)
           then stop StopUnavailable s else s in
  let (s, o) := error now s in
  (s, unwrap_or o e).

Definition track_credentials (s : State) : State :=
  {| deadline := deadline s; finished := finished s;
     pending_credentials := pending_credentials s + 1; missing_frontend := missing_frontend s;
     failure := failure s; wakes := wakes s |}.

(** [Drop for CredentialGuard]. *)
Definition drop_credentials (s : State) : State :=
  {| deadline := deadline s; finished := finished s;
     pending_credentials := pending_credentials s - 1; missing_frontend := missing_frontend s;
     failure := failure s; wakes := wakes s |}.

(** ** The registry *)

Record World := {
  heap : gmap N State;
  strong : gmap N N;
  active : gmap Key N;
  guards : gmap N Key;
  next : N;
}.

Definition initial_world : World :=
  {| heap := ∅; strong := ∅; active := ∅; guards := ∅; next := 0 |}.

Definition upgradable (w : World) (id : N) : bool :=
  match strong w !! id with Some n => (0 <? n)%N | None => false end.

Definition alter_state (f : State → State) (id : N) (w : World) : World :=
  {| heap := alter f id (heap w); strong := strong w; active := active w; guards := guards w;
     next := next w |}.

(** [Guard::new]: the id of the new state names the guard. *)
Definition guard_new (owner identity : string) (dl : instant) (w : World) : World :=
  let key := (owner, identity) in
  let id := next w in
  let state := {| deadline := dl; finished := false; pending_credentials := 0;
                  missing_frontend := false; failure := None; wakes := 0 |} in
  let retained := filter (λ kv, upgradable w kv.2 = true) (active w) in
  let previous := retained !! key in
  let w := {| heap := <[id := state]> (heap w); strong := <[id := 1%N]> (strong w);
              active := <[key := id]> retained; guards := <[id := key]> (guards w);
              next := (id + 1)%N |} in
  match previous with
  | Some p => if upgradable w p
              then alter_state (λ s, stop StopCancelled (with_finished s)) p w else w
  | None => w
  end.

(** [Drop for Guard], then the release of its strong reference. *)
Definition guard_drop (id : N) (w : World) : World :=
  match guards w !! id with
  | None => w
  | Some key =>
    let w := alter_state with_finished id w in
    let active' := match active w !! key with
                   | Some id' => if (id' =? id)%N && upgradable w id' then delete key (active w)
                                 else active w
                   | None => active w
                   end in
    {| heap := heap w; strong := alter (λ n, n - 1)%N id (strong w); active := active';
       guards := delete id (guards w); next := next w |}
  end.

(** [find]: a strong reference to the state registered under the key. *)
Definition find (owner identity : string) (w : World) : World * option N :=
  match active w !! (owner, identity) with
  | Some id =>
    if upgradable w id then
      ({| heap := heap w; strong := alter (λ n, n + 1)%N id (strong w); active := active w;
          guards := guards w; next := next w |}, Some id)
    else (w, None)
  | None => (w, None)
  end.

(** A reference returned by [find] going out of scope. *)
Definition release (id : N) (w : World) : World :=
  {| heap := heap w; strong := alter (λ n, n - 1)%N id (strong w); active := active w;
     guards := guards w; next := next w |}.

(** ** Lemmas on one state *)

(** What a state may become without its guard: only [finished] and the first
    failure are irrevocable. *)
Definition evolves (s s' : State) : Prop :=
  deadline s' = deadline s ∧ (finished s = true → finished s' = true) ∧
  (∀ r, failure s = Some r → failure s' = Some r).

#[export] Instance evolves_preorder : PreOrder evolves.
Proof.
  split; [by intros s; unfold evolves|]. intros a b c (H1&H2&H3) (H4&H5&H6).
  unfold evolves. split_and!; [congruence|auto..].
Qed.

Lemma stop_evolves r s : evolves s (stop r s).
Proof. unfold stop. destruct (failure s) eqn:E; repeat split; simpl; try done. congruence. Qed.

Lemma stop_failure r s : is_Some (failure (stop r s)).
Proof. unfold stop. destruct (failure s) eqn:E; [by rewrite E|by eexists]. Qed.

Lemma error_evolves now s : evolves s (error now s).1.
Proof. unfold error. simpl. case_match; [apply stop_evolves|reflexivity]. Qed.

Lemma activation_error_evolves now e s : evolves s (activation_error now e s).1.
Proof.
  unfold activation_error.
  set (s' := if missing_frontend s && _ then _ else s).
  pose proof (error_evolves now s') as He. destruct (error now s') as [s'' o]. simpl in *.
  transitivity s'; [|done]. unfold s'. case_match; [apply stop_evolves|reflexivity].
Qed.

Lemma live_evolves now s s' : evolves s s' → live now s' = true → live now s = true.
Proof.
  intros (Hd & Hf & Hs). unfold live. rewrite !andb_true_iff, Hd. intros [[Hf' Ht] Hn].
  split_and!; [|done|].
  - destruct (finished s); [by rewrite Hf in Hf'|done].
  - apply bool_decide_eq_true in Hn. apply bool_decide_eq_true.
    destruct (failure s) as [r|] eqn:E; [|done]. by rewrite (Hs r) in Hn.
Qed.

(** The operations a state can meet. *)
Inductive state_op :=
| ONote (available : bool) | OStop (r : CredentialStop) | OError (now : instant)
| OActivationError (now : instant) (e : Error) | OTrack | ODropCredentials | OFinish.

Definition apply_state_op (s : State) (o : state_op) : State :=
  match o with
  | ONote a => note_frontend_availability a s
  | OStop r => stop r s
  | OError now => (error now s).1
  | OActivationError now e => (activation_error now e s).1
  | OTrack => track_credentials s
  | ODropCredentials => drop_credentials s
  | OFinish => with_finished s
  end.

(** One wake-up when the first reason arrives, none otherwise. *)
Definition woken (s s' : State) : Prop :=
  wakes s' = (wakes s + match failure s, failure s' with None, Some _ => 1 | _, _ => 0 end)%N.

Lemma stop_woken r s : woken s (stop r s).
Proof. unfold woken, stop. destruct (failure s) eqn:E; rewrite ?E; simpl; lia. Qed.

Lemma woken_refl s : woken s s.
Proof. unfold woken. destruct (failure s); lia. Qed.

Lemma woken_trans a b c : evolves a b → evolves b c → woken a b → woken b c → woken a c.
Proof.
  intros (_ & _ & H) (_ & _ & H') H1 H2. unfold woken in *. rewrite H2, H1.
  destruct (failure a) as [r|]; [rewrite (H' r), (H r) by auto; lia|].
  destruct (failure b) as [r|]; [rewrite (H' r) by done; lia|]. destruct (failure c); lia.
Qed.

Lemma error_woken now s : woken s (error now s).1.
Proof. unfold error. simpl. case_match; [apply stop_woken|apply woken_refl]. Qed.

Lemma activation_error_woken now e s : woken s (activation_error now e s).1.
Proof.
  unfold activation_error. set (s' := if missing_frontend s && _ then _ else s).
  assert (evolves s s' ∧ woken s s') as [He Hw].
  { unfold s'. case_match; [split; [apply stop_evolves|apply stop_woken]|].
    split; [reflexivity|apply woken_refl]. }
  pose proof (woken_trans _ _ _ He (error_evolves now s') Hw (error_woken now s')) as H.
  by destruct (error now s').
Qed.

Lemma apply_state_op_spec s o : evolves s (apply_state_op s o) ∧ woken s (apply_state_op s o).
Proof.
  destruct o; cbn [apply_state_op].
  - split; [done|]. exact (woken_refl s).
  - split; [apply stop_evolves|apply stop_woken].
  - split; [apply error_evolves|apply error_woken].
  - split; [apply activation_error_evolves|apply activation_error_woken].
  - split; [done|]. exact (woken_refl s).
  - split; [done|]. exact (woken_refl s).
  - split; [done|]. exact (woken_refl s).
Qed.

Lemma run_state_ops_spec ops s :
  evolves s (foldl apply_state_op s ops) ∧ woken s (foldl apply_state_op s ops).
Proof.
  revert s. induction ops as [|o ops IH]; intros s; simpl; [split; [reflexivity|apply woken_refl]|].
  destruct (apply_state_op_spec s o) as [He Hw], (IH (apply_state_op s o)) as [He' Hw'].
  split; [by transitivity (apply_state_op s o)|exact (woken_trans _ _ _ He He' Hw Hw')].
Qed.

(** C19. Credential outcomes are decided once: whatever is noted, stopped, checked or
    reported on an activation, in any order and at any time, its first stop
    reason is kept, a state that is no longer live never becomes live again, and
    waking happens exactly once, with that first reason. *)
Theorem credential_outcome_once s ops :
  let s' := foldl apply_state_op s ops in
  (∀ r, failure s = Some r → failure s' = Some r) ∧
  (∀ now now', (now <= now')%N → live now s = false → live now' s' = false) ∧
  woken s s'.
Proof.
  cbv zeta. destruct (run_state_ops_spec ops s) as [He Hw]. split_and!; [by apply He| |done].
  intros now now' Hle Hl. destruct (live now' _) eqn:E; [|done].
  apply (live_evolves _ _ _ He) in E. unfold live in *. rewrite !andb_true_iff in E.
  destruct E as [[E1 E2%N.ltb_lt] E3].
  assert ((now <? deadline s)%N = true) as Hx by (apply N.ltb_lt; lia).
  by rewrite E1, Hx, E3 in Hl.
Qed.

(** ** The registry: lemmas *)

Inductive world_step : World → World → Prop :=
| step_guard_new w owner identity dl : world_step w (guard_new owner identity dl w)
| step_guard_drop w id : world_step w (guard_drop id w)
| step_find w owner identity : world_step w (find owner identity w).1
| step_release w id :
  (* a reference other than the guard's own *)
  (match strong w !! id with Some n => 1 + (if guards w !! id then 1 else 0) <= n | None => False end)%N →
  world_step w (release id w)
| step_state w id o : o ≠ OFinish → world_step w (alter_state (λ s, apply_state_op s o) id w).

(** The registry names unfinished guards, and only the newest of each key. *)
Record registry_inv (w : World) : Prop := {
  inv_next : ∀ id, (next w <= id)%N → heap w !! id = None ∧ strong w !! id = None ∧ guards w !! id = None;
  inv_guard : ∀ id key, guards w !! id = Some key →
    is_Some (heap w !! id) ∧ ∃ n, strong w !! id = Some n ∧ (1 <= n)%N;
  inv_active : ∀ key id, active w !! key = Some id →
    guards w !! id = Some key ∧ ∃ s, heap w !! id = Some s ∧ finished s = false;
  inv_superseded : ∀ id key s, guards w !! id = Some key → heap w !! id = Some s →
    active w !! key ≠ Some id → finished s = true ∧ is_Some (failure s);
}.

Lemma initial_registry : registry_inv initial_world.
Proof. split; intros *; cbn; rewrite ?lookup_empty; done. Qed.

Lemma inv_upgradable w id key :
  registry_inv w → guards w !! id = Some key → upgradable w id = true.
Proof.
  intros Hi Hg. destruct (inv_guard w Hi id key Hg) as (_ & n & Hn & Hle).
  unfold upgradable. rewrite Hn. apply N.ltb_lt. lia.
Qed.

(** Nothing in the registry is dropped by [retain]: its guards are alive. *)
Lemma inv_retain w :
  registry_inv w → filter (λ kv, upgradable w kv.2 = true) (active w) = active w.
Proof.
  intros Hi. apply map_filter_id. intros key id Ha.
  eapply inv_upgradable; [done|]. by apply (inv_active w Hi).
Qed.

Lemma find_inv w owner identity : registry_inv w → registry_inv (find owner identity w).1.
Proof.
  intros Hi. unfold find. destruct (active w !! _) as [id|]; [|done].
  destruct (upgradable w id); [|done]. split; cbn.
  - intros id' Hle. destruct (inv_next w Hi id' Hle) as (? & Hs & ?). split_and!; [done| |done].
    destruct (decide (id' = id)) as [->|]; [by rewrite lookup_alter_eq, Hs|by rewrite lookup_alter_ne].
  - intros id' key Hg. destruct (inv_guard w Hi id' key Hg) as (? & n & Hn & Hle). split; [done|].
    destruct (decide (id' = id)) as [->|].
    + exists (n + 1)%N. rewrite lookup_alter_eq, Hn. split; [done|lia].
    + exists n. by rewrite lookup_alter_ne.
  - apply (inv_active w Hi).
  - apply (inv_superseded w Hi).
Qed.

Lemma release_inv w id :
  (match strong w !! id with Some n => 1 + (if guards w !! id then 1 else 0) <= n | None => False end)%N →
  registry_inv w → registry_inv (release id w).
Proof.
  intros Hr Hi. split; cbn.
  - intros id' Hle. destruct (inv_next w Hi id' Hle) as (? & Hs & ?). split_and!; [done| |done].
    destruct (decide (id' = id)) as [->|]; [by rewrite lookup_alter_eq, Hs|by rewrite lookup_alter_ne].
  - intros id' key Hg. destruct (inv_guard w Hi id' key Hg) as (? & n & Hn & Hle). split; [done|].
    destruct (decide (id' = id)) as [->|].
    + rewrite Hn, Hg in Hr. exists (n - 1)%N. rewrite lookup_alter_eq, Hn. split; [done|lia].
    + exists n. by rewrite lookup_alter_ne.
  - apply (inv_active w Hi).
  - apply (inv_superseded w Hi).
Qed.

(** A change of one state that finishes nothing keeps the registry. *)
Lemma state_op_inv w id o :
  o ≠ OFinish → registry_inv w → registry_inv (alter_state (λ s, apply_state_op s o) id w).
Proof.
  intros Ho Hi. assert (∀ s, finished (apply_state_op s o) = finished s) as Hfin.
  { intros s. destruct o; simpl; try done.
    - unfold stop. by destruct (failure s).
    - unfold error, stop. simpl. repeat case_match; done.
    - unfold activation_error, error, stop. simpl. repeat case_match; simplify_eq/=; done. }
  split; cbn.
  - intros id' Hle. destruct (inv_next w Hi id' Hle) as (Hh & ? & ?). split_and!; [|done..].
    destruct (decide (id' = id)) as [->|]; [by rewrite lookup_alter_eq, Hh|by rewrite lookup_alter_ne].
  - intros id' key Hg. destruct (inv_guard w Hi id' key Hg) as ([s Hs] & ?). split; [|done].
    destruct (decide (id' = id)) as [->|]; [rewrite lookup_alter_eq, Hs|rewrite lookup_alter_ne by done];
      eauto.
  - intros key id' Ha. destruct (inv_active w Hi key id' Ha) as (? & s & Hs & Hf). split; [done|].
    destruct (decide (id' = id)) as [->|].
    + rewrite lookup_alter_eq, Hs. eexists. split; [done|]. by rewrite Hfin.
    + rewrite lookup_alter_ne by done. eauto.
  - intros id' key s Hg Hh Ha. destruct (decide (id' = id)) as [->|].
    + rewrite lookup_alter_eq in Hh. apply fmap_Some in Hh as (s0 & Hs & ->).
      destruct (inv_superseded w Hi id key s0 Hg Hs Ha) as [Hf [r Hr]]. rewrite Hfin.
      split; [done|]. destruct (apply_state_op_spec s0 o) as [(_ & _ & Hk) _].
      rewrite (Hk r Hr). by eexists.
    + rewrite lookup_alter_ne in Hh by done. by eapply (inv_superseded w Hi).
Qed.

(** The world after a guard is added, before the one it replaces is stopped. *)
Definition registered (key : Key) (dl : instant) (w : World) : World :=
  {| heap := <[next w := {| deadline := dl; finished := false; pending_credentials := 0;
                            missing_frontend := false; failure := None; wakes := 0 |}]> (heap w);
     strong := <[next w := 1%N]> (strong w); active := <[key := next w]> (active w);
     guards := <[next w := key]> (guards w); next := (next w + 1)%N |}.

Lemma guard_new_unfold w owner identity dl :
  registry_inv w →
  guard_new owner identity dl w =
  match active w !! (owner, identity) with
  | Some p => alter_state (λ s, stop StopCancelled (with_finished s)) p
                (registered (owner, identity) dl w)
  | None => registered (owner, identity) dl w
  end.
Proof.
  intros Hi. unfold guard_new. rewrite inv_retain by done.
  destruct (active w !! (owner, identity)) as [p|] eqn:Hp; [|done].
  destruct (inv_active w Hi _ _ Hp) as [Hg _].
  assert (p ≠ next w) as Hne.
  { intros ->. destruct (inv_next w Hi (next w)) as (_ & _ & Hn); [lia|congruence]. }
  unfold upgradable. cbn [strong]. rewrite lookup_insert_ne by done.
  destruct (inv_guard w Hi p _ Hg) as (_ & n & -> & Hle).
  destruct (N.ltb_spec 0 n); [done|lia].
Qed.

Lemma registered_next w key dl id :
  registry_inv w → (next (registered key dl w) <= id)%N →
  heap (registered key dl w) !! id = None ∧ strong (registered key dl w) !! id = None ∧
  guards (registered key dl w) !! id = None.
Proof.
  intros Hi Hle. cbn in *. rewrite !lookup_insert_ne by lia. apply (inv_next w Hi). lia.
Qed.

Lemma inv_guard_lt w id key : registry_inv w → guards w !! id = Some key → (id < next w)%N.
Proof.
  intros Hi Hg. destruct (decide (next w <= id)%N) as [Hle|]; [|lia].
  destruct (inv_next w Hi id Hle) as (_ & _ & Hn). congruence.
Qed.

Lemma guard_new_inv w owner identity dl :
  registry_inv w → registry_inv (guard_new owner identity dl w).
Proof.
  intros Hi. rewrite guard_new_unfold by done. set (key := (owner, identity)).
  set (w' := registered key dl w).
  set (f := λ s : State, stop StopCancelled (with_finished s)).
  (* the heap of the result, whether or not a guard was replaced *)
  assert (∃ p, active w !! key = p ∧ ∀ id,
    heap match p with Some q => alter_state f q w' | None => w' end !! id =
    if decide (Some id = p) then f <$> (heap w' !! id) else heap w' !! id) as (p & Hp & Hheap).
  { exists (active w !! key). split; [done|]. intros id.
    destruct (active w !! key) as [q|]; cbn [alter_state heap].
    - destruct (decide (Some id = Some q)) as [[= ->]|]; [by rewrite lookup_alter_eq|].
      rewrite lookup_alter_ne by congruence. done.
    - by rewrite decide_False. }
  assert (∀ id, p = Some id → guards w !! id = Some key ∧ id ≠ next w) as Hpg.
  { intros id E. rewrite E in Hp. destruct (inv_active w Hi _ _ Hp) as [Hg _].
    split; [done|]. apply (inv_guard_lt w id) in Hg; [lia|done]. }
  rewrite Hp. set (W := match p with Some q => _ | None => _ end) in *.
  assert (strong W = strong w' ∧ active W = active w' ∧ guards W = guards w' ∧ next W = next w')
    as (HS & HA & HG & HN) by by unfold W; destruct p.
  split; rewrite ?HS, ?HA, ?HG, ?HN.
  - intros id Hle. destruct (registered_next w key dl id Hi Hle) as (H1 & H2 & H3).
    rewrite Hheap. fold w' in H1, H2, H3. rewrite H1. split_and!; [by case_decide|done..].
  - intros id k. rewrite Hheap. cbn. destruct (decide (id = next w)) as [->|Hne].
    + rewrite !lookup_insert_eq. intros _. split; [case_decide; by eexists|]. by exists 1%N.
    + rewrite !lookup_insert_ne by done. intros Hg.
      destruct (inv_guard w Hi id k Hg) as ([s Hs] & ?). rewrite Hs. split; [|done].
      case_decide; by eexists.
  - intros k id. rewrite Hheap. cbn. destruct (decide (k = key)) as [->|Hk].
    + rewrite lookup_insert_eq. intros [= <-]. rewrite !lookup_insert_eq. split; [done|].
      rewrite decide_False; [by eexists|]. intros E. by destruct (Hpg _ (eq_sym E)).
    + rewrite lookup_insert_ne by done. intros Ha.
      destruct (inv_active w Hi k id Ha) as (Hg & s & Hs & Hf).
      assert (id ≠ next w) by (apply (inv_guard_lt w) in Hg; [lia|done]).
      rewrite !lookup_insert_ne by done. split; [done|]. rewrite decide_False; [by eauto|].
      intros E. destruct (Hpg _ (eq_sym E)). congruence.
  - intros id k s Hg. rewrite Hheap. cbn in *. destruct (decide (id = next w)) as [->|Hne].
    + rewrite lookup_insert_eq in Hg. injection Hg as <-. intros _ Ha.
      by rewrite lookup_insert_eq in Ha.
    + rewrite lookup_insert_ne in Hg by done. rewrite lookup_insert_ne by done.
      destruct (decide (Some id = p)) as [E|E].
      * intros (s0 & _ & ->)%fmap_Some _. split; [|apply stop_failure].
        unfold f, stop. by destruct (failure (with_finished s0)).
      * intros Hs Ha. apply (inv_superseded w Hi id k s Hg Hs).
        destruct (decide (k = key)) as [->|Hk]; [congruence|].
        by rewrite lookup_insert_ne in Ha.
Qed.

Lemma guard_drop_inv w id : registry_inv w → registry_inv (guard_drop id w).
Proof.
  intros Hi. unfold guard_drop. destruct (guards w !! id) as [key|] eqn:Hg; [|done].
  assert (upgradable (alter_state with_finished id w) id = true) as Hup
    by exact (inv_upgradable w id key Hi Hg).
  set (active' := match active (alter_state with_finished id w) !! key with
                  | Some _ => _ | None => _ end).
  assert (∀ k i, i ≠ id → active' !! k = Some i ↔ active w !! k = Some i) as Hact.
  { intros k i Hne. unfold active'. cbn. destruct (active w !! key) as [i'|] eqn:Ha; [|done].
    destruct (N.eqb_spec i' id) as [->|]; [|done]. rewrite Hup. cbn.
    destruct (decide (k = key)) as [->|]; [|by rewrite lookup_delete_ne].
    rewrite lookup_delete_eq, Ha. naive_solver. }
  assert (∀ k, active' !! k ≠ Some id) as Hgone.
  { intros k E. unfold active' in E. cbn in E.
    assert (active w !! k = Some id → k = key) as Hk.
    { intros H. destruct (inv_active w Hi k id H). congruence. }
    destruct (active w !! key) as [i'|] eqn:Ha.
    - destruct (N.eqb_spec i' id) as [->|Hne]; cbn in E.
      + rewrite Hup in E. apply lookup_delete_Some in E as [Hkk E]. by apply Hk in E.
      + assert (k = key) as -> by auto. congruence.
    - assert (k = key) as -> by auto. congruence. }
  clearbody active'. split; cbn.
  - intros i Hle. destruct (inv_next w Hi i Hle) as (H1 & H2 & H3).
    assert (i ≠ id) by congruence.
    rewrite !lookup_alter_ne, lookup_delete_ne by done. done.
  - intros i k [Hne Hgi]%lookup_delete_Some. rewrite !lookup_alter_ne by done.
    by apply (inv_guard w Hi i k).
  - intros k i Ha. assert (i ≠ id) as Hne by (intros ->; by apply Hgone in Ha).
    apply Hact in Ha; [|done]. rewrite lookup_alter_ne, lookup_delete_ne by done.
    by apply (inv_active w Hi).
  - intros i k s [Hne Hgi]%lookup_delete_Some Hs Ha. rewrite lookup_alter_ne in Hs by done.
    apply (inv_superseded w Hi i k s Hgi Hs). by rewrite <-Hact.
Qed.

Lemma registry_step w w' : world_step w w' → registry_inv w → registry_inv w'.
Proof.
  destruct 1; auto using guard_new_inv, guard_drop_inv, find_inv, release_inv, state_op_inv.
Qed.

Lemma registry_reachable w : rtc world_step initial_world w → registry_inv w.
Proof.
  intros H. assert (∀ a b, rtc world_step a b → registry_inv a → registry_inv b) as Hr.
  { induction 1; eauto using registry_step. }
  exact (Hr _ _ H initial_registry).
Qed.

(** A secret request is served by the activation that owns it: over every
    history of guards, lookups and state changes, a lookup yields only a state
    whose guard is still held, is registered under exactly that owner and
    identity, and is not finished; at most one guard of a key is unfinished; and
    a guard that was replaced is finished and stopped, so it is live at no time. *)
Theorem activation_lookup_exact w :
  rtc world_step initial_world w →
  (∀ owner identity id, (find owner identity w).2 = Some id →
     guards w !! id = Some (owner, identity) ∧
     ∃ s, heap w !! id = Some s ∧ finished s = false) ∧
  (∀ key id id' s s', guards w !! id = Some key → guards w !! id' = Some key →
     heap w !! id = Some s → heap w !! id' = Some s' →
     finished s = false → finished s' = false → id = id') ∧
  (∀ key id s now, guards w !! id = Some key → heap w !! id = Some s →
     active w !! key ≠ Some id → live now s = false ∧ is_Some (failure s)).
Proof.
  intros Hi%registry_reachable. split_and!.
  - intros owner identity id. unfold find. destruct (active w !! _) as [i|] eqn:Ha; [|done].
    destruct (upgradable w i); [|done]. intros [= ->]. by apply (inv_active w Hi).
  - intros key id id' s s' Hg Hg' Hs Hs' Hf Hf'.
    destruct (decide (active w !! key = Some id)) as [E|E].
    2:{ destruct (inv_superseded w Hi id key s Hg Hs E). congruence. }
    destruct (decide (active w !! key = Some id')) as [E'|E']; [congruence|].
    destruct (inv_superseded w Hi id' key s' Hg' Hs' E'). congruence.
  - intros key id s now Hg Hs Ha. destruct (inv_superseded w Hi id key s Hg Hs Ha) as [Hf ?].
    unfold live. by rewrite Hf.
Qed.

Definition example_activations : World :=
  guard_new "agent" "uuid:1" 200 (guard_new "agent" "uuid:1" 100 initial_world).

Lemma activation_lookup_exact_witness :
  (find "agent" "uuid:1" example_activations).2 = Some 1%N ∧
  guards example_activations !! 1%N = Some ("agent", "uuid:1").
Proof.
  split; [vm_compute; reflexivity|].
  refine (proj1 (proj1 (activation_lookup_exact example_activations _) "agent" "uuid:1" 1%N _)).
  - eapply rtc_l; [apply (step_guard_new _ "agent" "uuid:1" 100)|].
    eapply rtc_l; [apply (step_guard_new _ "agent" "uuid:1" 200)|]. apply rtc_refl.
  - vm_compute. reflexivity.
Defined.
