(* ===== verification/Bus.v ===== *)
(** * NetworkManager on the bus ([src/nm/mod.rs])

    The adapters under [src/nm/] read properties of NetworkManager's objects and call their
    methods. The objects are those of the class [Bus]: an access returns a reply and a new
    state of the world, in which other clients may have acted. A session threads the world
    and records every access with its reply. [quiet] says that a computation makes no access
    that changes NetworkManager; [quiet_tac] proves it by the structure of the computation. *)
From S2P Require Import Prelude Errors Text Variant.
From Stdlib Require Import ZArith Lia.
From stdpp Require Import prelude gmap strings list.

Definition NM_PATH : string := "/org/freedesktop/NetworkManager".
Definition NM_IFACE : string := "org.freedesktop.NetworkManager".
Definition SETTINGS_PATH : string := "/org/freedesktop/NetworkManager/Settings".
Definition SETTINGS_IFACE : string := "org.freedesktop.NetworkManager.Settings".
Definition SETTINGS_CONNECTION_IFACE : string := "org.freedesktop.NetworkManager.Settings.Connection".
Definition DEVICE_IFACE : string := "org.freedesktop.NetworkManager.Device".
Definition WIFI_IFACE : string := "org.freedesktop.NetworkManager.Device.Wireless".
Definition ACTIVE_CONNECTION_IFACE : string := "org.freedesktop.NetworkManager.Connection.Active".
Definition NM_DEVICE_TYPE_WIFI : N := 2.
Definition NM_DEVICE_TYPE_MODEM : N := 8.
Definition NM_ACTIVE_CONNECTION_STATE_ACTIVATED : N := 2.

(** [Context::context]. *)
Definition add_context (m : string) (e : Error) : Error := EForeign NoDowncast m (Some e).

(** ** Values of properties and replies *)

Definition as_path (v : value) : option string := match v with VPath s => Some s | _ => None end.
Definition as_paths (v : value) : option (list string) := value_list as_path v.
Definition as_u64 (v : value) : option N := match v with VU64 n => Some n | _ => None end.
Definition of_settings (c : ConnectionSettings) : value :=
  VDict ((λ kv, (VStr kv.1, of_section kv.2)) <$> map_to_list c).
Definition as_settings (v : value) : option ConnectionSettings :=
  l ← as_dict v;
  pairs ← mapM (λ kv, k ← value_string kv.1; d ← as_dict (unwrap kv.2); s ← to_section d; Some (k, s)) l;
  Some (foldl (λ m kv, <[kv.1 := kv.2]> m) ∅ pairs).

(** A reply of another type than the one asked for. *)
Definition type_error : Error := EForeign (FZbus (OtherZbus "Variant(IncorrectType)")) "incorrect type" None.

(** ** The environment *)

Inductive bus_event :=
| EvGet (path iface property : string) (reply : result value Error)
| EvSet (path iface property : string) (v : value) (reply : result unit Error)
| EvCall (path iface method : string) (args : list value) (reply : result (list value) Error).

(** [bus_destination] and [bus_service] are the peer the adapter is pinned to and the name
    of the service; [bus_build] is the library's check of a proxy's path and interface. *)
Class Bus (W : Type) := {
  bus_destination : string;
  bus_service : string;
  bus_build : string → string → option Error;
  bus_owner : W → result string Error * W;
  bus_get : string → string → string → W → result value Error * W;
  bus_set : string → string → string → value → W → result unit Error * W;
  bus_call : string → string → string → list value → W → result (list value) Error * W;
  bus_now : W → instant;
  bus_pause : duration → W → W;
  bus_cancelled : W → option bool;
}.

Record Session (W : Type) := { world : W; trace : list bus_event }.
Arguments world {W}. Arguments trace {W}.

Section Monad.
Context {W : Type}.

Definition bus (A : Type) : Type := Session W → result A Error * Session W.
Definition ret {A} (a : A) : bus A := λ s, (Ok a, s).
Definition lift {A} (x : result A Error) : bus A := λ s, (x, s).
Definition bind {A B} (m : bus A) (k : A → bus B) : bus B := λ s,
  match m s with (Ok a, s') => k a s' | (Err e, s') => (Err e, s') end.
(** The result as a value: what follows runs in either case. *)
Definition attempt {A} (m : bus A) : bus (result A Error) := λ s, let '(r, s') := m s in (Ok r, s').
Definition with_context {A} (msg : string) (m : bus A) : bus A := λ s,
  let '(r, s') := m s in (result_map_err (add_context msg) r, s').
Definition access {A} (f : W → result A Error * W) (e : result A Error → option bus_event) : bus A := λ s,
  let '(r, w) := f (world s) in
  (r, {| world := w; trace := trace s ++ match e r with Some e => [e] | None => [] end |}).
Definition local {A} (f : W → A * W) : bus A := λ s,
  let '(a, w) := f (world s) in (Ok a, {| world := w; trace := trace s |}).
End Monad.
Arguments bus : clear implicits.

Declare Scope bus_scope.
Notation "'let!' x ':=' c 'in' k" := (bind c (λ x, k))
  (at level 10, x pattern, c at level 200, k at level 200) : bus_scope.
Open Scope bus_scope.

(** [unwrap_or], [ok]. *)
Definition or_default {W A} (d : A) (m : bus W A) : bus W A :=
  let! r := attempt m in ret match r with Ok a => a | Err _ => d end.
Definition ok_opt {W A} (m : bus W A) : bus W (option A) :=
  let! r := attempt m in ret match r with Ok a => Some a | Err _ => None end.

(** [iter().map(f).collect::<Result<Vec<_>>>()], and with [filter_map(..transpose())]. *)
Fixpoint map_bus {W A B} (f : A → bus W B) (l : list A) : bus W (list B) :=
  match l with
  | [] => ret []
  | a :: l => let! b := f a in let! bs := map_bus f l in ret (b :: bs)
  end.
Fixpoint filter_map_bus {W A B} (f : A → bus W (option B)) (l : list A) : bus W (list B) :=
  match l with
  | [] => ret []
  | a :: l =>
    let! b := f a in
    let! bs := filter_map_bus f l in
    ret match b with Some b => b :: bs | None => bs end
  end.
(** A loop that returns at the first item with a result. *)
Fixpoint first_bus {W A B} (f : A → bus W (option B)) (l : list A) : bus W (option B) :=
  match l with
  | [] => ret None
  | a :: l =>
    let! b := f a in
    match b with Some b => ret (Some b) | None => first_bus f l end
  end.

(** ** The adapter *)

Record Proxy := { p_path : string; p_iface : string }.

Section Nm.
Context {W : Type} {B : Bus W}.

Definition current_owner : bus W string :=
  if starts_with ":" bus_service then ret bus_service else access bus_owner (λ _, None).
Definition ensure_current_owner : bus W unit :=
  if starts_with ":" bus_destination then
    let! owner := current_owner in
    lift (ensure (bool_decide (owner = bus_destination))
            (EDomain (cancelled "NetworkManager changed during the operation")))
  else ret tt.
Definition proxy (path iface : string) : bus W Proxy :=
  let! _ := ensure_current_owner in
  match bus_build path iface with
  | None => ret {| p_path := path; p_iface := iface |}
  | Some e => lift (Err e)
  end.
Definition root_proxy : Proxy := {| p_path := NM_PATH; p_iface := NM_IFACE |}.
Definition settings_proxy : Proxy := {| p_path := SETTINGS_PATH; p_iface := SETTINGS_IFACE |}.

Definition get_value (p : Proxy) (property : string) : bus W value :=
  access (bus_get (p_path p) (p_iface p) property) (λ r, Some (EvGet (p_path p) (p_iface p) property r)).
Definition get_property {A} (f : value → option A) (p : Proxy) (property : string) : bus W A :=
  let! v := get_value p property in lift (ok_or (f v) type_error).
Definition set_property (p : Proxy) (property : string) (v : value) : bus W unit :=
  access (bus_set (p_path p) (p_iface p) property v) (λ r, Some (EvSet (p_path p) (p_iface p) property v r)).
Definition call_method (p : Proxy) (method : string) (args : list value) : bus W (list value) :=
  access (bus_call (p_path p) (p_iface p) method args) (λ r, Some (EvCall (p_path p) (p_iface p) method args r)).
(** A call whose reply is one value of a type, and one whose reply is ignored. *)
Definition call_value {A} (f : value → option A) (p : Proxy) (method : string) (args : list value) : bus W A :=
  let! reply := call_method p method args in
  lift (ok_or match reply with [v] => f v | _ => None end type_error).
Definition call_unit (p : Proxy) (method : string) (args : list value) : bus W unit :=
  let! reply := call_method p method args in
  lift (ok_or match reply with [] => Some tt | _ => None end type_error).

Definition now : bus W instant := local (λ w, (bus_now w, w)).
Definition sleep (d : duration) : bus W unit := local (λ w, (tt, bus_pause d w)).
Definition cancellation : bus W (option bool) := local (λ w, (bus_cancelled w, w)).
Definition check_cancelled (o : ErrorOperation) (m : string) : bus W unit :=
  let! c := cancellation in lift (check_cancellation c o m).

(** Missing, malformed and empty values are absent. *)
Definition nonempty_string (p : Proxy) (name : string) : bus W (option string) :=
  let! o := ok_opt (get_property value_string p name) in ret (non_empty o).

Definition version : bus W string :=
  let! _ := ensure_current_owner in
  let! v := get_property value_string root_proxy "Version" in
  let! _ := ensure_current_owner in
  ret v.
End Nm.

(** ** What a computation does to NetworkManager *)

(** The methods that only read. *)
Definition READS : list string := ["GetDevices"; "ListConnections"; "GetSettings"; "GetAccessPoints"; "GetAppliedConnection"].
Definition is_effect (e : bus_event) : bool :=
  match e with
  | EvGet _ _ _ _ => false
  | EvSet _ _ _ _ _ => true
  | EvCall _ _ method _ _ => bool_decide (method ∉ READS)
  end.
Definition effects (l : list bus_event) : list bus_event := List.filter is_effect l.

Lemma effects_app l l' : effects (l ++ l') = effects l ++ effects l'.
Proof. apply List.filter_app. Qed.

Create HintDb bus_quiet.
Create HintDb bus_forward.
Create HintDb bus_succeeds.

Section Reasoning.
Context {W : Type}.
Implicit Types s : Session W.

(** [wp m Q s]: from [s], [m] ends with a result and a session that satisfy [Q]. *)
Definition wp {A} (m : bus W A) (Q : result A Error → Session W → Prop) s : Prop := Q (m s).1 (m s).2.

Lemma wp_then {A B} (m : bus W A) (k : A → bus W B) Q s :
  wp m (λ r s', match r with Ok a => wp (k a) Q s' | Err e => Q (Err e) s' end) s →
  wp (bind m k) Q s.
Proof. unfold wp, bind. by destruct (m s) as [[a|e] s']. Qed.
Lemma wp_try {A} (m : bus W A) Q s : wp m (λ r s', Q (Ok r) s') s → wp (attempt m) Q s.
Proof. unfold wp, attempt. by destruct (m s). Qed.
Lemma wp_weaken {A} (m : bus W A) (P Q : result A Error → Session W → Prop) s :
  wp m P s → (∀ r s', P r s' → Q r s') → wp m Q s.
Proof. unfold wp. eauto. Qed.
Lemma wp_with_context {A} msg (m : bus W A) Q s :
  wp m (λ r s', Q (result_map_err (add_context msg) r) s') s → wp (with_context msg m) Q s.
Proof. unfold wp, with_context. by destruct (m s). Qed.

(** A first step without effects. *)
Lemma wp_quiet_bind {A B} (m : bus W A) (k : A → bus W B) Q s :
  (∀ s, effects (trace (m s).2) = effects (trace s)) →
  (∀ e s', effects (trace s') = effects (trace s) → Q (Err e) s') →
  (∀ a s', m s = (Ok a, s') → effects (trace s') = effects (trace s) → wp (k a) Q s') →
  wp (bind m k) Q s.
Proof.
  intros Hm He Ha. apply wp_then. specialize (Hm s). unfold wp at 1. destruct (m s) as [[a|e] s']; cbn in *; auto.
Qed.

(** Successful runs, taken apart. *)
Lemma then_Ok {A B} (m : bus W A) (k : A → bus W B) s b s' :
  bind m k s = (Ok b, s') → ∃ a s1, m s = (Ok a, s1) ∧ k a s1 = (Ok b, s').
Proof. unfold bind. destruct (m s) as [[a|e] s1]; [eauto|done]. Qed.
Lemma lifted_Ok {A} (x : result A Error) s a s' : lift x s = (Ok a, s') → x = Ok a ∧ s' = s.
Proof. by intros [= -> ->]. Qed.
Lemma done_Ok {A} (x : A) s a s' : ret x s = (Ok a, s') → a = x ∧ s' = s.
Proof. by intros [= -> ->]. Qed.
Lemma context_Ok {A} msg (m : bus W A) s a s' : with_context msg m s = (Ok a, s') → m s = (Ok a, s').
Proof. unfold with_context. by destruct (m s) as [[x|x] s1]; intros [= <- <-]. Qed.
Lemma attempt_Ok {A} (m : bus W A) s r s' : attempt m s = (Ok r, s') → m s = (r, s').
Proof. unfold attempt. by destruct (m s) as [x s1]; intros [= <- <-]. Qed.

(** A run, step by step. *)
Lemma step_Ok {A B} (m : bus W A) (k : A → bus W B) s a s1 : m s = (Ok a, s1) → bind m k s = k a s1.
Proof. unfold bind. by intros ->. Qed.
Lemma step_Err {A B} (m : bus W A) (k : A → bus W B) s e s1 : m s = (Err e, s1) → bind m k s = (Err e, s1).
Proof. unfold bind. by intros ->. Qed.

(** The item a search stopped at, and what it passed over. *)
Lemma first_bus_Some {A B} (f : A → bus W (option B)) l s b s' :
  first_bus f l s = (Ok (Some b), s') → ∃ a s1, a ∈ l ∧ f a s1 = (Ok (Some b), s').
Proof.
  revert s. induction l as [|a l IH]; intros s; cbn; [by intros [= ]|]. intros (o & s1 & Ha & Hr)%then_Ok.
  destruct o as [x|]; [apply done_Ok in Hr as [[= ->] ->]; exists a, s; split; [by left|done]|].
  destruct (IH _ Hr) as (a' & s2 & ? & ?). exists a', s2. split; [by right|done].
Qed.
Lemma first_bus_None {A B} (f : A → bus W (option B)) l s s' :
  first_bus f l s = (Ok None, s') → ∀ a, a ∈ l → ∃ s1 s2, f a s1 = (Ok None, s2).
Proof.
  revert s. induction l as [|a l IH]; intros s; cbn; [by intros _ ? ?%elem_of_nil|].
  intros (o & s1 & Ha & Hr)%then_Ok a' Ha'. destruct o as [x|]; [by apply done_Ok in Hr as [? _]|].
  apply elem_of_cons in Ha' as [->|Ha']; [eauto|by eapply IH].
Qed.

(** An error no step ends with. *)
Lemma bind_not_Err {A B} (m : bus W A) (k : A → bus W B) e s :
  (m s).1 ≠ Err e → (∀ a s1, m s = (Ok a, s1) → (k a s1).1 ≠ Err e) → (bind m k s).1 ≠ Err e.
Proof.
  intros Hm Hk. unfold bind. destruct (m s) as [[a|x] s1] eqn:E; [by apply Hk|]. cbn in *. congruence.
Qed.

(** A result no step ends with. *)
Lemma bind_not_Ok {A B} (m : bus W A) (k : A → bus W B) b s :
  (∀ a s1, m s = (Ok a, s1) → (k a s1).1 ≠ Ok b) → (bind m k s).1 ≠ Ok b.
Proof. intros Hk. unfold bind. destruct (m s) as [[a|x] s1] eqn:E; [by apply Hk|done]. Qed.

(** [grows m Q]: whatever the start, [m] adds accesses that satisfy [Q] with its result. *)
Definition grows {A} (m : bus W A) (Q : result A Error → list bus_event → Prop) : Prop :=
  ∀ s, ∃ l, trace (m s).2 = trace s ++ l ∧ Q (m s).1 l.
Lemma grows_mono {A} (m : bus W A) (P Q : result A Error → list bus_event → Prop) :
  grows m P → (∀ r l, P r l → Q r l) → grows m Q.
Proof. intros Hm HPQ s. destruct (Hm s) as (l & ? & ?). eauto. Qed.
Lemma grows_bind {A B} (m : bus W A) (k : A → bus W B) P (R : A → result B Error → list bus_event → Prop)
    (Q : result B Error → list bus_event → Prop) :
  grows m P → (∀ a, grows (k a) (R a)) →
  (∀ e l, P (Err e) l → Q (Err e) l) → (∀ a l r l', P (Ok a) l → R a r l' → Q r (l ++ l')) → grows (bind m k) Q.
Proof.
  intros Hm Hk He Ha s. destruct (Hm s) as (l & Hl & HP). unfold bind. destruct (m s) as [[a|e] s1]; cbn in *.
  - destruct (Hk a s1) as (l' & Hl' & HR). exists (l ++ l'). rewrite Hl', Hl, app_assoc. eauto.
  - eauto.
Qed.
(** The same with what follows seen after the first step's accesses. *)
Lemma grows_then {A B} (m : bus W A) (k : A → bus W B) P (Q : result B Error → list bus_event → Prop) :
  grows m P → (∀ e l, P (Err e) l → Q (Err e) l) →
  (∀ a l, P (Ok a) l → grows (k a) (λ r l', Q r (l ++ l'))) → grows (bind m k) Q.
Proof.
  intros Hm He Hk s. destruct (Hm s) as (l & Hl & HP). unfold bind. destruct (m s) as [[a|e] s1]; cbn in *; [|eauto].
  destruct (Hk a l HP s1) as (l' & Hl' & HQ). exists (l ++ l'). by rewrite Hl', Hl, app_assoc.
Qed.
Lemma grows_pure {A} (r : result A Error) (Q : result A Error → list bus_event → Prop) : Q r [] → grows (lift r) Q.
Proof. intros HQ s. exists []. by rewrite app_nil_r. Qed.
Lemma grows_ret {A} (a : A) (Q : result A Error → list bus_event → Prop) : Q (Ok a) [] → grows (ret a) Q.
Proof. intros HQ s. exists []. by rewrite app_nil_r. Qed.
Lemma grows_attempt {A} (m : bus W A) Q : grows m (λ r l, Q (Ok r) l) → grows (attempt m) Q.
Proof. intros Hm s. specialize (Hm s) as (l & ? & ?). unfold attempt. destruct (m s). eauto. Qed.
Lemma grows_with_context {A} msg (m : bus W A) Q :
  grows m (λ r l, Q (result_map_err (add_context msg) r) l) → grows (with_context msg m) Q.
Proof. intros Hm s. specialize (Hm s) as (l & ? & ?). unfold with_context. destruct (m s). eauto. Qed.
Lemma grows_access {A} (f : W → result A Error * W) e (Q : result A Error → list bus_event → Prop) :
  (∀ r, Q r match e r with Some x => [x] | None => [] end) → grows (access f e) Q.
Proof. intros HQ s. unfold access. destruct (f (world s)) as [r w]. eexists. split; [done|]. apply HQ. Qed.
Lemma grows_local {A} (f : W → A * W) (Q : result A Error → list bus_event → Prop) :
  (∀ a, Q (Ok a) []) → grows (local f) Q.
Proof. intros HQ s. unfold local. destruct (f (world s)). exists []. rewrite app_nil_r. eauto. Qed.

(** A step without accesses. *)
Lemma grows_local_then {A B} (f : W → A * W) (k : A → bus W B) Q :
  (∀ a, grows (k a) Q) → grows (bind (local f) k) Q.
Proof. intros Hk s. unfold bind, local. destruct (f (world s)) as [a w]. apply (Hk a {| world := w; trace := trace s |}). Qed.

(** The effects of [m] are those it started with. *)
Definition quiet {A} (m : bus W A) : Prop := ∀ s, effects (trace (m s).2) = effects (trace s).

Lemma wp_of_quiet {A} (m : bus W A) Q s :
  quiet m → (∀ r s', effects (trace s') = effects (trace s) → Q r s') → wp m Q s.
Proof. intros Hm HQ. apply HQ, Hm. Qed.

Lemma quiet_done {A} (a : A) : quiet (ret a).
Proof. done. Qed.
Lemma quiet_lift {A} (x : result A Error) : quiet (lift x).
Proof. done. Qed.
Lemma quiet_then {A B} (m : bus W A) (k : A → bus W B) :
  quiet m → (∀ a, quiet (k a)) → quiet (bind m k).
Proof.
  intros Hm Hk s. unfold bind. specialize (Hm s). destruct (m s) as [[a|e] s']; [|done].
  etrans; [apply Hk|done].
Qed.
Lemma quiet_try {A} (m : bus W A) : quiet m → quiet (attempt m).
Proof. intros Hm s. specialize (Hm s). unfold attempt. by destruct (m s). Qed.
Lemma quiet_context {A} msg (m : bus W A) : quiet m → quiet (with_context msg m).
Proof. intros Hm s. specialize (Hm s). unfold with_context. by destruct (m s). Qed.
Lemma quiet_local {A} (f : W → A * W) : quiet (local f).
Proof. intros s. unfold local. by destruct (f (world s)). Qed.
Lemma quiet_access {A} (f : W → result A Error * W) e :
  (∀ r, match e r with Some e => is_effect e = false | None => True end) → quiet (access f e).
Proof.
  intros He s. unfold access. destruct (f (world s)) as [r w]. cbn. rewrite effects_app.
  specialize (He r). destruct (e r) as [x|]; cbn; [rewrite He|]; by rewrite app_nil_r.
Qed.
End Reasoning.

#[export] Hint Resolve quiet_done quiet_lift quiet_then quiet_try quiet_context quiet_local : bus_quiet.

Section Quiet.
Context {W : Type} {B : Bus W}.

Lemma quiet_or_default {A} (d : A) (m : bus W A) : quiet m → quiet (or_default d m).
Proof. unfold or_default. eauto with bus_quiet. Qed.
Lemma quiet_ok_opt {A} (m : bus W A) : quiet m → quiet (ok_opt m).
Proof. unfold ok_opt. eauto with bus_quiet. Qed.
Lemma quiet_map_bus {A C} (f : A → bus W C) l : (∀ a, quiet (f a)) → quiet (map_bus f l).
Proof. intros Hf. induction l; cbn; auto 6 with bus_quiet. Qed.
Lemma quiet_filter_map_bus {A C} (f : A → bus W (option C)) l : (∀ a, quiet (f a)) → quiet (filter_map_bus f l).
Proof. intros Hf. induction l; cbn; auto 6 with bus_quiet. Qed.
Lemma quiet_first_bus {A C} (f : A → bus W (option C)) l : (∀ a, quiet (f a)) → quiet (first_bus f l).
Proof.
  intros Hf. induction l; cbn; [apply quiet_done|]. apply quiet_then; [done|]. intros [b|]; auto with bus_quiet.
Qed.
Lemma quiet_current_owner : quiet (current_owner (W:=W)).
Proof. unfold current_owner. destruct (starts_with _ _); [apply quiet_done|by apply quiet_access]. Qed.
#[local] Hint Resolve quiet_current_owner : bus_quiet.
Lemma quiet_ensure_current_owner : quiet (ensure_current_owner (W:=W)).
Proof. unfold ensure_current_owner. destruct (starts_with _ _); auto with bus_quiet. Qed.
#[local] Hint Resolve quiet_ensure_current_owner : bus_quiet.
Lemma quiet_proxy p i : quiet (proxy (W:=W) p i).
Proof. unfold proxy. apply quiet_then; [auto with bus_quiet|]. intros _. destruct (bus_build p i); auto with bus_quiet. Qed.
Lemma quiet_get_property {A} (f : value → option A) p n : quiet (get_property (W:=W) f p n).
Proof. unfold get_property, get_value. apply quiet_then; [by apply quiet_access|]. auto with bus_quiet. Qed.
Lemma quiet_call_method p m args : bool_decide (m ∉ READS) = false → quiet (call_method (W:=W) p m args).
Proof. intros Hm. by apply quiet_access. Qed.
Lemma quiet_call_value {A} (f : value → option A) p m args :
  bool_decide (m ∉ READS) = false → quiet (call_value (W:=W) f p m args).
Proof. intros Hm. unfold call_value. apply quiet_then; [by apply quiet_call_method|]. auto with bus_quiet. Qed.
Lemma quiet_now : quiet (now (W:=W)).
Proof. apply quiet_local. Qed.
Lemma quiet_sleep d : quiet (sleep (W:=W) d).
Proof. apply quiet_local. Qed.
Lemma quiet_cancel_check o m : quiet (check_cancelled (W:=W) o m).
Proof. unfold check_cancelled, cancellation. auto with bus_quiet. Qed.
Lemma quiet_nonempty_string p n : quiet (nonempty_string (W:=W) p n).
Proof. unfold nonempty_string. apply quiet_then; [apply quiet_ok_opt, quiet_get_property|auto with bus_quiet]. Qed.
End Quiet.

#[export] Hint Resolve quiet_or_default quiet_ok_opt quiet_map_bus quiet_filter_map_bus quiet_first_bus
  quiet_current_owner quiet_ensure_current_owner quiet_proxy quiet_get_property quiet_now quiet_sleep
  quiet_cancel_check quiet_nonempty_string : bus_quiet.

(** What accesses and reads only move one way. *)
Class BusOrder {W : Type} {B : Bus W} (R : W → W → Prop) : Prop := {
  order_pre :: PreOrder R;
  get_order p i n w : R w (bus_get p i n w).2;
  call_order p i m args w : R w (bus_call p i m args w).2;
  owner_order w : R w (bus_owner w).2;
}.

Section Order.
Context {W : Type} {B : Bus W} (R : W → W → Prop) {O : BusOrder R}.
Implicit Types s : Session W.

Definition along {A} (m : bus W A) : Prop := ∀ s, R (world s) (world (m s).2).
Lemma forward_bind {A D} (m : bus W A) (k : A → bus W D) : along m → (∀ a, along (k a)) → along (bind m k).
Proof.
  intros Hm Hk s. unfold bind. specialize (Hm s). destruct (m s) as [[a|e] s1]; cbn in *; [|done].
  etrans; [exact Hm|apply Hk].
Qed.
Lemma forward_lift {A} (x : result A Error) : along (lift x).
Proof. by intros s. Qed.
Lemma forward_ret {A} (x : A) : along (ret x).
Proof. by intros s. Qed.
Lemma forward_attempt {A} (m : bus W A) : along m → along (attempt m).
Proof. intros Hm s. unfold attempt. specialize (Hm s). by destruct (m s). Qed.
Lemma forward_or_default {A} (d : A) (m : bus W A) : along m → along (or_default d m).
Proof.
  intros Hm. unfold or_default. apply forward_bind; [by apply forward_attempt|intros; apply forward_ret].
Qed.
Lemma forward_ok_opt {A} (m : bus W A) : along m → along (ok_opt m).
Proof.
  intros Hm. unfold ok_opt. apply forward_bind; [by apply forward_attempt|intros; apply forward_ret].
Qed.
Lemma forward_peek {A} (f : W → A) : along (local (λ w, (f w, w))).
Proof. by intros s. Qed.
Lemma forward_with_context {A} msg (m : bus W A) : along m → along (with_context msg m).
Proof. intros Hm s. unfold with_context. specialize (Hm s). by destruct (m s). Qed.
Lemma forward_get_property {A} (f : value → option A) p n : along (get_property f p n).
Proof.
  unfold get_property. apply forward_bind; [|intros; apply forward_lift].
  intros s. unfold get_value, access. pose proof (get_order (R := R) (p_path p) (p_iface p) n (world s)).
  by destruct (bus_get _ _ _ _).
Qed.
Lemma forward_proxy p i : along (proxy p i).
Proof.
  assert (along current_owner) as Ho.
  { unfold current_owner. destruct (starts_with _ _); [apply forward_ret|]. intros s. unfold access.
    pose proof (owner_order (R := R) (world s)). by destruct (bus_owner _). }
  unfold proxy. apply forward_bind; [|intros; destruct (bus_build p i); [apply forward_lift|apply forward_ret]].
  unfold ensure_current_owner. destruct (starts_with _ _); [|apply forward_ret].
  apply forward_bind; [done|]. intros. apply forward_lift.
Qed.
Lemma forward_call_value {A} (f : value → option A) p m args : along (call_value f p m args).
Proof.
  unfold call_value. apply forward_bind; [|intros; apply forward_lift].
  intros s. unfold call_method, access. pose proof (call_order (R := R) (p_path p) (p_iface p) m args (world s)).
  by destruct (bus_call _ _ _ _ _).
Qed.
Lemma forward_nonempty_string p n : along (nonempty_string p n).
Proof.
  unfold nonempty_string. apply forward_bind; [apply forward_ok_opt, forward_get_property|intros; apply forward_ret].
Qed.
Lemma forward_filter_map_bus {A C} (f : A → bus W (option C)) l : (∀ a, along (f a)) → along (filter_map_bus f l).
Proof.
  intros Hf. induction l; cbn; [apply forward_ret|]. apply forward_bind; [done|]. intros.
  by apply forward_bind; [|intros; apply forward_ret].
Qed.
Lemma forward_first_bus {A C} (f : A → bus W (option C)) l : (∀ a, along (f a)) → along (first_bus f l).
Proof.
  intros Hf. induction l; cbn; [apply forward_ret|]. apply forward_bind; [done|]. intros [x|]; [apply forward_ret|done].
Qed.
End Order.
#[export] Hint Resolve forward_lift forward_ret forward_peek forward_get_property forward_proxy forward_call_value
  forward_nonempty_string : bus_forward.

(** The clock: a pause lasts at least as long as asked for, nothing turns it back. *)
Class BusClock (W : Type) {B : Bus W} : Prop := {
  pause_lasts d w : (bus_now w + d ≤ bus_now (bus_pause d w))%N;
  get_later p i n w : (bus_now w ≤ bus_now (bus_get p i n w).2)%N;
  call_later p i m args w : (bus_now w ≤ bus_now (bus_call p i m args w).2)%N;
  owner_later w : (bus_now w ≤ bus_now (bus_owner w).2)%N;
}.
Definition clock {W} {B : Bus W} (s : Session W) : instant := bus_now (world s).
#[export] Instance clock_order {W} {B : Bus W} {C : BusClock W} : BusOrder (λ w w' : W, (bus_now w ≤ bus_now w')%N).
Proof.
  split; [|apply get_later|apply call_later|apply owner_later].
  split; [intros w; lia|intros w1 w2 w3; lia].
Qed.
(** Reads take time. *)
Abbreviation forward := (along (λ w w', (bus_now w ≤ bus_now w')%N)).
Ltac forward_tac :=
  repeat match goal with
  | |- ∀ _, _ => intro
  | |- BusOrder _ => typeclasses eauto
  | |- along _ (match ?x with _ => _ end) => destruct x
  | |- along _ (bind _ _) => apply forward_bind
  | |- along _ (attempt _) => apply forward_attempt
  | |- along _ (or_default _ _) => apply forward_or_default
  | |- along _ (ok_opt _) => apply forward_ok_opt
  | |- along _ (with_context _ _) => apply forward_with_context
  | |- along _ (filter_map_bus _ _) => apply forward_filter_map_bus
  | |- along _ (first_bus _ _) => apply forward_first_bus
  | |- along _ _ => solve [eauto 4 with bus_forward typeclass_instances]
  end.

(** A network that answers every access the same way, for examples. *)
Record FixedNetwork := {
  fn_now : instant;
  fn_get : string → string → string → result value Error;
  fn_call : string → string → string → list value → result (list value) Error;
}.
#[export] Instance fixed_bus : Bus FixedNetwork := {|
  bus_destination := "org.freedesktop.NetworkManager";
  bus_service := "org.freedesktop.NetworkManager";
  bus_build p i := None;
  bus_owner w := (Ok ":1.5", w);
  bus_get p i n w := (fn_get w p i n, w);
  bus_set p i n v w := (Ok tt, w);
  bus_call p i m args w := (fn_call w p i m args, w);
  bus_now := fn_now;
  bus_pause d w := {| fn_now := fn_now w + d; fn_get := fn_get w; fn_call := fn_call w |};
  bus_cancelled w := None;
|}.
#[export] Instance fixed_clock : BusClock FixedNetwork.
Proof. split; intros; cbn; lia. Qed.
(** Replies by a table of property or method names. *)
Definition table_reply {A} (l : list (string * A)) (k : string) : result A Error :=
  ok_or (snd <$> find_first (λ kv, bool_decide (kv.1 = k)) l) (plain "UnknownObject").

Section Calls.
Context {W : Type} {B : Bus W}.
Implicit Types s : Session W.

(** One effect is added. *)
Lemma wp_effect p m args Q s :
  bool_decide (m ∉ READS) = true →
  (∀ r s', effects (trace s') = effects (trace s) ++ [EvCall (p_path p) (p_iface p) m args r] → Q r s') →
  wp (call_method p m args) Q s.
Proof.
  intros Hm HQ. unfold wp, call_method, access. destruct (bus_call _ _ _ _ _) as [r w]. cbn.
  apply HQ. cbn. rewrite effects_app. cbn. by rewrite Hm.
Qed.
Lemma wp_effect_unit p m args Q s :
  bool_decide (m ∉ READS) = true →
  (∀ r s' reply, effects (trace s') = effects (trace s) ++ [EvCall (p_path p) (p_iface p) m args reply] →
     (is_ok r = true → reply = Ok []) → Q r s') →
  wp (call_unit p m args) Q s.
Proof.
  intros Hm HQ. unfold call_unit. apply wp_then, wp_effect; [done|]. intros [reply|e] s' Hs.
  - unfold wp, lift. cbn. eapply HQ; [done|]. by destruct reply.
  - by eapply HQ.
Qed.

(** A typed read answers with the value of its last access. *)
Lemma get_property_last {A} (f : value → option A) p n s :
  match (get_property f p n s).1 with
  | Ok a => ∃ v, f v = Some a ∧ last (trace (get_property f p n s).2) = Some (EvGet (p_path p) (p_iface p) n (Ok v))
  | Err _ => True
  end.
Proof.
  unfold get_property, get_value, bind, access, lift.
  destruct (bus_get _ _ _ _) as [[v|e] w]; cbn; [|done]. destruct (f v) as [a|] eqn:Hf; cbn; [|done].
  exists v. split; [done|]. by rewrite last_snoc.
Qed.
End Calls.

(** What a typed read and a call add. *)
Section Grows.
Context {W : Type} {B : Bus W}.

Lemma grows_get_property {A} (f : value → option A) p n :
  grows (get_property (W:=W) f p n) (λ r l, match r with
    | Ok a => ∃ v, f v = Some a ∧ l = [EvGet (p_path p) (p_iface p) n (Ok v)]
    | Err _ => effects l = []
    end).
Proof.
  unfold get_property, get_value. eapply grows_bind.
  - apply grows_access with (Q := λ r l, l = [EvGet (p_path p) (p_iface p) n r]). done.
  - intros v. apply (grows_pure _ (λ r l, l = [] ∧ r = ok_or (f v) type_error)). done.
  - by intros e l ->.
  - intros v l r l' -> [-> ->]. destruct (f v) as [a|] eqn:Hf; cbn; eauto.
Qed.
Lemma grows_call p m args :
  grows (call_method (W:=W) p m args) (λ r l, l = [EvCall (p_path p) (p_iface p) m args r]).
Proof. by apply grows_access. Qed.
Lemma grows_call_unit p m args :
  grows (call_unit (W:=W) p m args) (λ r l, ∃ reply, l = [EvCall (p_path p) (p_iface p) m args reply]).
Proof.
  unfold call_unit. eapply grows_bind; [apply grows_call| | |].
  - intros v. by apply (grows_pure _ (λ r l, l = [])).
  - intros e l ->. eauto.
  - intros v l r l' -> ->. eauto.
Qed.
Lemma grows_call_unit_ok p m args :
  grows (call_unit (W:=W) p m args) (λ r l, ∃ reply, l = [EvCall (p_path p) (p_iface p) m args reply] ∧
    (is_ok r = true ↔ reply = Ok [])).
Proof.
  unfold call_unit. eapply grows_then; [apply grows_call| |].
  - intros e l ->. eexists. by split.
  - intros v l ->. apply grows_pure. eexists. split; [done|]. by destruct v.
Qed.
Lemma grows_proxy p i :
  grows (proxy (W:=W) p i) (λ r l, l = [] ∧ match r with Ok x => x = {| p_path := p; p_iface := i |} | Err _ => True end).
Proof.
  unfold proxy, ensure_current_owner, current_owner.
  apply (grows_bind _ _ (λ _ l, l = []) (λ _ r l, l = [] ∧ match r with Ok x => x = {| p_path := p; p_iface := i |} | Err _ => True end)).
  - destruct (starts_with ":" bus_destination); [|by apply grows_ret].
    apply (grows_bind _ _ (λ _ l, l = []) (λ _ _ l, l = [])).
    + destruct (starts_with ":" bus_service); [by apply grows_ret|by apply grows_access].
    + intros o. by apply grows_pure.
    + done.
    + by intros o l r l' -> ->.
  - intros _. destruct (bus_build p i); [by apply grows_pure|by apply grows_ret].
  - by intros e l ->.
  - by intros _ l r l' -> [-> ?].
Qed.
(** [says m Q]: when [m] ends with [a], it has added accesses that satisfy [Q a]. *)
Definition says {A} (m : bus W A) (Q : A → list bus_event → Prop) : Prop :=
  grows m (λ r l, match r with Ok a => Q a l | Err _ => True end).
Lemma says_mono {A} (m : bus W A) (P Q : A → list bus_event → Prop) :
  says m P → (∀ a l, P a l → Q a l) → says m Q.
Proof. intros Hm HPQ. eapply grows_mono; [exact Hm|]. intros [a|e] l; auto. Qed.
Lemma says_bind {A D} (m : bus W A) (k : A → bus W D) P (Q : D → list bus_event → Prop) :
  says m P → (∀ a l, P a l → says (k a) (λ b l', Q b (l ++ l'))) → says (bind m k) Q.
Proof.
  intros Hm Hk s. destruct (Hm s) as (l & Hl & HP). unfold bind. destruct (m s) as [[a|e] s1]; cbn in *; [|eauto].
  destruct (Hk a l HP s1) as (l' & Hl' & HQ). exists (l ++ l'). by rewrite Hl', Hl, app_assoc.
Qed.
Lemma says_ret {A} (a : A) (Q : A → list bus_event → Prop) : Q a [] → says (ret a) Q.
Proof. intros. by apply grows_ret. Qed.
Lemma says_with_context {A} msg (m : bus W A) Q : says m Q → says (with_context msg m) Q.
Proof. intros Hm. apply grows_with_context. eapply grows_mono; [exact Hm|]. by intros [a|e]. Qed.
Lemma says_attempt {A} (m : bus W A) (Q : A → list bus_event → Prop) :
  says m Q → says (attempt m) (λ r l, match r with Ok a => Q a l | Err _ => True end).
Proof. intros Hm. by apply grows_attempt. Qed.
Lemma says_ok_opt {A} (m : bus W A) (Q : A → list bus_event → Prop) :
  says m Q → says (ok_opt m) (λ o l, match o with Some a => Q a l | None => True end).
Proof.
  intros Hm. unfold ok_opt. eapply says_bind; [apply says_attempt, Hm|]. intros [a|e] l Hl; apply says_ret; [|done].
  by rewrite app_nil_r.
Qed.
Lemma says_get_property {A} (f : value → option A) p n :
  says (get_property (W:=W) f p n) (λ a l, ∃ v, f v = Some a ∧ l = [EvGet (p_path p) (p_iface p) n (Ok v)]).
Proof. eapply grows_mono; [apply grows_get_property|]. by intros [a|e]. Qed.
Lemma says_proxy p i :
  says (proxy (W:=W) p i) (λ x l, l = [] ∧ x = {| p_path := p; p_iface := i |}).
Proof. eapply grows_mono; [apply grows_proxy|]. intros [a|e] l; tauto. Qed.
Lemma says_call_value {A} (f : value → option A) p m args :
  says (call_value (W:=W) f p m args) (λ a l, ∃ v, f v = Some a ∧ l = [EvCall (p_path p) (p_iface p) m args (Ok [v])]).
Proof.
  unfold call_value. eapply grows_bind; [apply grows_call| |done|].
  - intros reply. by apply (grows_pure _ (λ r l, l = [] ∧ r = ok_or match reply with [v] => f v | _ => None end type_error)).
  - intros reply l r l' -> [-> ->]. destruct reply as [|v [|]]; try done. destruct (f v) eqn:Hv; cbn; eauto.
Qed.
(** What [m] adds, when it changes nothing. *)
Lemma quiet_grows {A} (m : bus W A) Q : quiet m → grows m Q → grows m (λ r l, effects l = [] ∧ Q r l).
Proof.
  intros Hm Hg s. specialize (Hm s). destruct (Hg s) as (l & Hl & HQ). exists l. split; [done|]. split; [|done].
  rewrite Hl, effects_app in Hm. by rewrite <-(app_nil_r (effects (trace s))) in Hm at 2; apply app_inv_head in Hm.
Qed.
End Grows.

(** The accesses made stay in the trace. *)
Create HintDb bus_extends.
Section Extends.
Context {W : Type} {B : Bus W}.

Definition extends {A} (m : bus W A) : Prop := grows m (λ _ _, True).
Lemma extends_of_grows {A} (m : bus W A) Q : grows m Q → extends m.
Proof. intros Hm. by eapply grows_mono. Qed.
Lemma extends_ret {A} (a : A) : extends (ret a).
Proof. by apply grows_ret. Qed.
Lemma extends_lift {A} (x : result A Error) : extends (lift x).
Proof. by apply grows_pure. Qed.
Lemma extends_bind {A D} (m : bus W A) (k : A → bus W D) : extends m → (∀ a, extends (k a)) → extends (bind m k).
Proof. intros Hm Hk. eapply grows_then; [exact Hm|done|]. intros a l _. by eapply grows_mono; [apply Hk|]. Qed.
Lemma extends_attempt {A} (m : bus W A) : extends m → extends (attempt m).
Proof. intros Hm. apply grows_attempt with (Q := λ _ _, True), Hm. Qed.
Lemma extends_with_context {A} msg (m : bus W A) : extends m → extends (with_context msg m).
Proof. intros Hm. apply grows_with_context with (Q := λ _ _, True), Hm. Qed.
Lemma extends_or_default {A} (d : A) (m : bus W A) : extends m → extends (or_default d m).
Proof. intros Hm. apply extends_bind; [by apply extends_attempt|intros; apply extends_ret]. Qed.
Lemma extends_ok_opt {A} (m : bus W A) : extends m → extends (ok_opt m).
Proof. intros Hm. apply extends_bind; [by apply extends_attempt|intros; apply extends_ret]. Qed.
Lemma extends_map_bus {A C} (f : A → bus W C) l : (∀ a, extends (f a)) → extends (map_bus f l).
Proof.
  intros Hf. induction l; cbn; [apply extends_ret|]. apply extends_bind; [done|]. intros.
  by apply extends_bind; [|intros; apply extends_ret].
Qed.
Lemma extends_filter_map_bus {A C} (f : A → bus W (option C)) l : (∀ a, extends (f a)) → extends (filter_map_bus f l).
Proof.
  intros Hf. induction l; cbn; [apply extends_ret|]. apply extends_bind; [done|]. intros.
  by apply extends_bind; [|intros; apply extends_ret].
Qed.
Lemma extends_first_bus {A C} (f : A → bus W (option C)) l : (∀ a, extends (f a)) → extends (first_bus f l).
Proof.
  intros Hf. induction l; cbn; [apply extends_ret|]. apply extends_bind; [done|]. intros [x|]; [apply extends_ret|done].
Qed.
Lemma extends_local {A} (f : W → A * W) : extends (local f).
Proof. by apply grows_local. Qed.
Lemma extends_get_property {A} (f : value → option A) p n : extends (get_property (W:=W) f p n).
Proof. eapply extends_of_grows, grows_get_property. Qed.
Lemma extends_proxy p i : extends (proxy (W:=W) p i).
Proof. eapply extends_of_grows, grows_proxy. Qed.
Lemma extends_call_method p m args : extends (call_method (W:=W) p m args).
Proof. eapply extends_of_grows, grows_call. Qed.
Lemma extends_call_value {A} (f : value → option A) p m args : extends (call_value (W:=W) f p m args).
Proof. apply extends_bind; [apply extends_call_method|intros; apply extends_lift]. Qed.
Lemma quiet_grows_nil {A} (m : bus W A) : quiet m → extends m → grows m (λ _ l, effects l = []).
Proof. intros Hq He. eapply grows_mono; [by apply quiet_grows|]. by intros r l [? _]. Qed.
End Extends.
#[export] Hint Resolve extends_ret extends_lift extends_get_property extends_proxy extends_call_method
  extends_call_value extends_local : bus_extends.
Ltac extends_step :=
  match goal with
  | |- ∀ _, _ => intro
  | |- extends (match ?x with _ => _ end) => destruct x
  | |- extends (bind _ _) => apply extends_bind
  | |- extends (attempt _) => apply extends_attempt
  | |- extends (with_context _ _) => apply extends_with_context
  | |- extends (or_default _ _) => apply extends_or_default
  | |- extends (ok_opt _) => apply extends_ok_opt
  | |- extends (map_bus _ _) => apply extends_map_bus
  | |- extends (filter_map_bus _ _) => apply extends_filter_map_bus
  | |- extends (first_bus _ _) => apply extends_first_bus
  | |- extends _ => solve [auto 2 with bus_extends]
  end.
Ltac extends_tac := repeat extends_step.

(** Computations that do not fail. *)
Section Total.
Context {W : Type} {B : Bus W}.

Definition succeeds {A} (m : bus W A) : Prop := ∀ s, is_ok (m s).1 = true.
Lemma succeeds_ret {A} (a : A) : succeeds (ret a).
Proof. done. Qed.
Lemma succeeds_local {A} (f : W → A * W) : succeeds (local f).
Proof. intros s. unfold local. by destruct (f (world s)). Qed.
Lemma succeeds_attempt {A} (m : bus W A) : succeeds (attempt m).
Proof. intros s. unfold attempt. by destruct (m s). Qed.
Lemma succeeds_bind {A D} (m : bus W A) (k : A → bus W D) : succeeds m → (∀ a, succeeds (k a)) → succeeds (bind m k).
Proof. intros Hm Hk s. unfold bind. specialize (Hm s). destruct (m s) as [[a|e] s']; [apply Hk|done]. Qed.
Lemma succeeds_or_default {A} (d : A) (m : bus W A) : succeeds (or_default d m).
Proof. apply succeeds_bind; [apply succeeds_attempt|intros; apply succeeds_ret]. Qed.
Lemma succeeds_ok_opt {A} (m : bus W A) : succeeds (ok_opt m).
Proof. apply succeeds_bind; [apply succeeds_attempt|intros; apply succeeds_ret]. Qed.
Lemma succeeds_nonempty_string p n : succeeds (nonempty_string (W:=W) p n).
Proof. apply succeeds_bind; [apply succeeds_ok_opt|intros; apply succeeds_ret]. Qed.
Lemma succeeds_Ok {A} (m : bus W A) s : succeeds m → ∃ a s', m s = (Ok a, s').
Proof. intros Hm. specialize (Hm s). destruct (m s) as [[a|e] s']; [eauto|done]. Qed.
End Total.
#[export] Hint Resolve succeeds_ret succeeds_local succeeds_attempt succeeds_or_default succeeds_ok_opt succeeds_nonempty_string : bus_succeeds.
Ltac total_tac :=
  repeat match goal with
  | |- ∀ _, _ => intro
  | |- succeeds (match ?x with _ => _ end) => destruct x
  | |- succeeds (bind _ _) => apply succeeds_bind
  | |- succeeds _ => solve [auto 2 with bus_succeeds]
  end.

(** Take a successful run apart. *)
Ltac bus_unroll :=
  repeat match goal with
  | H : bind _ _ _ = (Ok _, _) |- _ => apply then_Ok in H as (? & ? & ? & H)
  | H : lift _ _ = (Ok _, _) |- _ => apply lifted_Ok in H as [? ->]
  | H : ret _ _ = (Ok _, _) |- _ => apply done_Ok in H as [? ->]
  | H : with_context _ _ _ = (Ok _, _) |- _ => apply context_Ok in H
  | H : attempt _ _ = (Ok _, _) |- _ => apply attempt_Ok in H
  end.

(** Prove [quiet] by the structure of the computation. *)
Ltac quiet_step :=
  match goal with
  | |- ∀ _, _ => intro
  | |- quiet (match ?x with _ => _ end) => destruct x
  | |- quiet (bind _ _) => apply quiet_then
  | |- quiet (attempt _) => apply quiet_try
  | |- quiet (with_context _ _) => apply quiet_context
  | |- quiet (or_default _ _) => apply quiet_or_default
  | |- quiet (ok_opt _) => apply quiet_ok_opt
  | |- quiet (map_bus _ _) => apply quiet_map_bus
  | |- quiet (filter_map_bus _ _) => apply quiet_filter_map_bus
  | |- quiet (first_bus _ _) => apply quiet_first_bus
  | |- quiet (call_value _ _ _ _) => apply quiet_call_value; reflexivity
  | |- quiet _ => solve [auto 2 with bus_quiet]
  end.
Ltac quiet_tac := repeat quiet_step.
