(* ===== verification/Events.v ===== *)
(** * Waiting for NetworkManager's signals ([src/nm/mod.rs])

    A thread counts the signals that matter; a wait ends when the count has moved on from the
    one last seen, or after its time. *)
From S2P Require Import Prelude Bus.
From Stdlib Require Import ZArith Lia.
From stdpp Require Import prelude.
Open Scope bus_scope.

Class NetworkEvents (W : Type) := {
  ev_generation : W → N;
  ev_wait : N → duration → W → N * W;
}.

Section Events.
Context {W : Type} {EV : NetworkEvents W}.
Definition event_generation : bus W N := local (λ w, (ev_generation w, w)).
Definition wait_for_event (observed : N) (d : duration) : bus W N := local (ev_wait observed d).
End Events.

(** [ev_left]: how many events are still to end a wait early. A wait that none ends lasts as
    long as asked for; reads take time and bring no event back. *)
Class EventClock (W : Type) {B : Bus W} {EV : NetworkEvents W} := {
  ev_left : W → N;
  moves w w' := (bus_now w ≤ bus_now w')%N ∧ (ev_left w' ≤ ev_left w)%N;
  moves_order :: BusOrder moves;
  wait_moves g d w : let w' := (ev_wait g d w).2 in moves w w' ∧
    ((bus_now w + d ≤ bus_now w')%N ∨ (ev_left w' < ev_left w)%N);
}.

Section Facts.
Context {W : Type} {B : Bus W} {EV : NetworkEvents W}.
Lemma quiet_wait_for_event g d : quiet (wait_for_event g d).
Proof. apply quiet_local. Qed.
Lemma quiet_event_generation : quiet event_generation.
Proof. apply quiet_local. Qed.
Lemma extends_wait_for_event g d : extends (wait_for_event g d).
Proof. apply extends_local. Qed.
Lemma extends_event_generation : extends event_generation.
Proof. apply extends_local. Qed.
End Facts.
#[export] Hint Resolve quiet_wait_for_event quiet_event_generation : bus_quiet.
#[export] Hint Resolve extends_wait_for_event extends_event_generation : bus_extends.
