(* ===== verification/Inventory.v ===== *)
(** * Inventory of NetworkManager ([src/nm/inventory.rs], [src/nm/devices.rs], [src/nm/settings.rs], [src/nm/connectivity.rs])

    The devices, saved connections and active connections NetworkManager lists, the
    activation of a saved profile and the deactivation of an active one. Numbers have the
    names of [src/model/network.rs]. *)
From S2P Require Import Prelude Errors Text Reasons Network Variant WifiSettings Selection Bus.
From Stdlib Require Import ZArith Lia.
From stdpp Require Import prelude gmap strings list.

(** ** Data *)

Record WifiDevice := { wd_path : string; wd_iface : string }.

Record NetworkDeviceSummary := {
  nd_path : string;
  nd_interface : string;
  nd_ip_interface : option string;
  nd_device_type : N;
  nd_type_name : string;
  nd_state : N;
  nd_state_name : string;
  nd_state_reason : TypedReason;
  nd_managed : bool;
  nd_autoconnect : bool;
  nd_driver : option string;
  nd_firmware_version : option string;
  nd_hw_address : option string;
  nd_mtu : option N;
  nd_carrier : option bool;
  nd_speed_mbps : option N;
  nd_active_connection : option string;
  nd_available_connections : list string;
}.
Record NetworkConnectionSummary := {
  nc_path : string;
  nc_id : string;
  nc_uuid : string;
  nc_connection_type : string;
  nc_type_name : string;
  nc_autoconnect : bool;
  nc_autoconnect_priority : Z;
  nc_timestamp_ms : option N;
  nc_interface_name : option string;
  nc_permissions : list string;
  nc_available_devices : list string;
  nc_active_connection : option string;
}.
Record ActiveConnectionSummary := {
  ac_path : string;
  ac_id : string;
  ac_uuid : string;
  ac_connection_type : string;
  ac_state : N;
  ac_state_name : string;
  ac_state_flags : N;
  ac_vpn : bool;
  ac_default4 : bool;
  ac_default6 : bool;
  ac_profile_path : option string;
  ac_specific_object : option string;
  ac_devices : list string;
}.
Record NetworkInventory := {
  ni_networking_enabled : bool;
  ni_primary_connection : option string;
  ni_activating_connection : option string;
  ni_devices : list NetworkDeviceSummary;
  ni_connections : list NetworkConnectionSummary;
  ni_active_connections : list ActiveConnectionSummary;
}.
Record ProfileActivationResult := {
  pr_status : string;
  pr_profile_path : string;
  pr_id : string;
  pr_uuid : string;
  pr_connection_type : string;
  pr_type_name : string;
  pr_active_connection : option string;
  pr_device : option string;
  pr_state : N;
  pr_state_name : string;
  pr_message : string;
}.
Record NetworkDeactivateResult := {
  dr_status : string;
  dr_path : string;
  dr_id : string;
  dr_uuid : string;
  dr_connection_type : string;
  dr_message : string;
}.

(** ** Names *)

Definition name_of {A} `{EqDecision A} (table : list (A * string)) (default : string) (k : A) : string :=
  match find_first (λ kv, bool_decide (kv.1 = k)) table with Some kv => kv.2 | None => default end.

Definition wired_interface (device_type : N) : option string :=
  if (device_type =? 1)%N then Some "org.freedesktop.NetworkManager.Device.Wired"
  else if (device_type =? 13)%N then Some "org.freedesktop.NetworkManager.Device.Bridge"
  else if (device_type =? 10)%N then Some "org.freedesktop.NetworkManager.Device.Bond"
  else if (device_type =? 15)%N then Some "org.freedesktop.NetworkManager.Device.Team"
  else if (device_type =? 11)%N then Some "org.freedesktop.NetworkManager.Device.Vlan"
  else None.
Definition device_type_name : N → string := name_of
  [(1%N, "ethernet"); (2%N, "wifi"); (5%N, "bluetooth"); (8%N, "modem"); (10%N, "bond"); (11%N, "vlan");
   (13%N, "bridge"); (14%N, "generic"); (15%N, "team"); (16%N, "tun"); (17%N, "ip-tunnel"); (18%N, "macvlan");
   (19%N, "vxlan"); (20%N, "veth"); (21%N, "macsec"); (22%N, "dummy"); (23%N, "ppp"); (24%N, "ovs-interface");
   (25%N, "ovs-port"); (26%N, "ovs-bridge"); (27%N, "wpan"); (28%N, "6lowpan"); (29%N, "wireguard");
   (30%N, "wifi-p2p"); (31%N, "vrf"); (32%N, "loopback"); (33%N, "hsr"); (34%N, "ipvlan"); (35%N, "geneve")]
  "unknown".
Definition connection_type_name : string → string := name_of
  [("802-3-ethernet", "ethernet"); ("802-11-wireless", "wifi"); ("bluetooth", "bluetooth"); ("gsm", "cellular");
   ("cdma", "cellular"); ("vpn", "vpn"); ("wireguard", "wireguard"); ("bond", "bond"); ("bridge", "bridge");
   ("vlan", "vlan"); ("team", "team"); ("tun", "tun"); ("loopback", "loopback")] "other".
Definition network_state_name : N → string := name_of
  [(10%N, "asleep"); (20%N, "disconnected"); (30%N, "disconnecting"); (40%N, "connecting");
   (50%N, "connected-local"); (60%N, "connected-site"); (70%N, "connected-global")] "unknown".
Definition device_state_name : N → string := name_of
  [(10%N, "unmanaged"); (20%N, "unavailable"); (30%N, "disconnected"); (40%N, "prepare"); (50%N, "config");
   (60%N, "need-auth"); (70%N, "ip-config"); (80%N, "ip-check"); (90%N, "secondaries"); (100%N, "activated");
   (110%N, "deactivating"); (120%N, "failed")] "unknown".
Definition active_connection_state_name : N → string := name_of
  [(1%N, "activating"); (2%N, "activated"); (3%N, "deactivating"); (4%N, "deactivated")] "unknown".

(** [seconds.saturating_mul(1000)] on [u64]. *)
Definition seconds_to_ms (seconds : N) : N := N.min (seconds * 1000) (2 ^ 64 - 1).

(** [StateReason] is a pair of numbers. *)
Definition as_u32_pair (v : value) : option (N * N) :=
  match v with VArray [VU32 a; VU32 b] => Some (a, b) | _ => None end.

(** An object path that is not ["/"]. *)
Definition real_path (o : option string) : option string :=
  match o with Some p => if bool_decide (p = "/") then None else Some p | None => None end.

Section Inventory.
Context {W : Type} {B : Bus W}.
(** [OwnedObjectPath::try_from]: the D-Bus library's check of an object path. *)
Context (path_error : string → option Error).

Definition object_path (value : string) : result string Error :=
  match path_error value with
  | None => Ok value
  | Some e => Err (add_context ("parse NetworkManager object path " +:+ value) e)
  end.
Definition object_path_property (p : Proxy) (name : string) : bus W (option string) :=
  let! o := ok_opt (get_property as_path p name) in ret (real_path o).
Definition object_path_list_property (p : Proxy) (name : string) : bus W (list string) :=
  let! l := or_default [] (get_property as_paths p name) in
  ret (List.filter (λ p, negb (bool_decide (p = "/"))) l).

(** ** Devices *)

Definition wifi_device (path : string) : bus W (option WifiDevice) :=
  let! device := proxy path DEVICE_IFACE in
  let! device_type := with_context ("read DeviceType for " +:+ path) (get_property as_u32 device "DeviceType") in
  if negb (device_type =? NM_DEVICE_TYPE_WIFI)%N then ret None
  else
    let! iface := or_default path (get_property value_string device "Interface") in
    ret (Some {| wd_path := path; wd_iface := iface |}).
Definition wifi_devices : bus W (list WifiDevice) :=
  let! devices := with_context "GetDevices" (call_value as_paths root_proxy "GetDevices" []) in
  filter_map_bus wifi_device devices.

(** What only wired devices have, on the interface of their type. *)
Definition device_carrier (path : string) (device_type : N) : bus W (option bool) :=
  match wired_interface device_type with
  | None => ret None
  | Some iface => ok_opt (let! p := proxy path iface in get_property as_bool p "Carrier")
  end.
Definition device_speed_mbps (path : string) (device_type : N) : bus W (option N) :=
  match wired_interface device_type with
  | None => ret None
  | Some iface =>
    let! speed := ok_opt (let! p := proxy path iface in get_property as_u32 p "Speed") in
    ret match speed with Some s => if (0 <? s)%N then Some s else None | None => None end
  end.
Definition network_device_summary (path : string) : bus W NetworkDeviceSummary :=
  let! device := proxy path DEVICE_IFACE in
  let! device_type := or_default 0%N (get_property as_u32 device "DeviceType") in
  let! state := or_default 0%N (get_property as_u32 device "State") in
  let! reason := or_default (state, 0%N) (get_property as_u32_pair device "StateReason") in
  let! interface := or_default "" (get_property value_string device "Interface") in
  let! ip_interface := nonempty_string device "IpInterface" in
  let! managed := or_default false (get_property as_bool device "Managed") in
  let! autoconnect := or_default false (get_property as_bool device "Autoconnect") in
  let! driver := nonempty_string device "Driver" in
  let! firmware := nonempty_string device "FirmwareVersion" in
  let! hw_address := nonempty_string device "HwAddress" in
  let! mtu := ok_opt (get_property as_u32 device "Mtu") in
  let! carrier := device_carrier path device_type in
  let! speed := device_speed_mbps path device_type in
  let! active := object_path_property device "ActiveConnection" in
  let! available := object_path_list_property device "AvailableConnections" in
  ret {| nd_path := path; nd_interface := interface; nd_ip_interface := ip_interface;
         nd_device_type := device_type; nd_type_name := device_type_name device_type; nd_state := state;
         nd_state_name := device_state_name state; nd_state_reason := device_state_reason reason.2;
         nd_managed := managed; nd_autoconnect := autoconnect; nd_driver := driver;
         nd_firmware_version := firmware; nd_hw_address := hw_address;
         nd_mtu := match mtu with Some m => if (0 <? m)%N then Some m else None | None => None end;
         nd_carrier := carrier; nd_speed_mbps := speed; nd_active_connection := active;
         nd_available_connections := available |}.
Definition network_devices : bus W (list NetworkDeviceSummary) :=
  let! paths := with_context "GetDevices for network inventory" (call_value as_paths root_proxy "GetDevices" []) in
  map_bus network_device_summary paths.

(** ** Connections *)

Definition saved_connections : bus W (list string) :=
  with_context "ListConnections" (call_value as_paths settings_proxy "ListConnections" []).
Definition connection_settings (path : string) : bus W ConnectionSettings :=
  let! connection := proxy path SETTINGS_CONNECTION_IFACE in
  with_context ("GetSettings for " +:+ path) (call_value as_settings connection "GetSettings" []).

(** A profile that cannot be read is absent when a fresh list does not name it. *)
Definition connection_settings_if_present (path : string) : bus W (option ConnectionSettings) :=
  let! r := attempt (connection_settings path) in
  match r with
  | Ok settings => ret (Some settings)
  | Err e =>
    let! saved := saved_connections in
    if bool_decide (path ∈ saved) then lift (Err e) else ret None
  end.
Definition delete_connection (path : string) : bus W unit :=
  let! connection := proxy path SETTINGS_CONNECTION_IFACE in
  with_context ("Delete connection " +:+ path) (call_unit connection "Delete" []).
Definition delete_connection_by_path (path : string) : bus W unit :=
  let! path := lift match path_error path with
                    | None => Ok path
                    | Some e => Err (add_context "parse connection path" e)
                    end in
  delete_connection path.

Definition available_devices_by_profile (devices : list NetworkDeviceSummary) : gmap string (list string) :=
  foldl (λ m d,
    foldl (λ m profile, <[profile := unwrap_or (m !! profile) [] ++ [nd_path d]]> m) m (nd_available_connections d))
    ∅ devices.
Definition active_by_profile (l : list ActiveConnectionSummary) : gmap string string :=
  foldl (λ m a, match ac_profile_path a with Some p => <[p := ac_path a]> m | None => m end) ∅ l.

Definition connection_summary (path : string) (available : gmap string (list string)) (active : gmap string string)
    (settings : ConnectionSettings) : option NetworkConnectionSummary :=
  connection ← settings !! "connection";
  let id := unwrap_or (setting_string connection "id") "" in
  let uuid := unwrap_or (setting_string connection "uuid") "" in
  let connection_type := unwrap_or (setting_string connection "type") "" in
  if bool_decide (id = "") || bool_decide (uuid = "") || bool_decide (connection_type = "") then None
  else Some
    {| nc_path := path; nc_id := id; nc_uuid := uuid; nc_connection_type := connection_type;
       nc_type_name := connection_type_name connection_type;
       nc_autoconnect := unwrap_or (setting as_bool connection "autoconnect") true;
       nc_autoconnect_priority := unwrap_or (setting as_i32 connection "autoconnect-priority") 0%Z;
       nc_timestamp_ms := seconds_to_ms <$> setting as_u64 connection "timestamp";
       nc_interface_name := non_empty (setting_string connection "interface-name");
       nc_permissions := setting_strings connection "permissions";
       nc_available_devices := unwrap_or (available !! path) [];
       nc_active_connection := active !! path |}.
Definition network_connection_summary (available : gmap string (list string)) (active : gmap string string)
    (path : string) : bus W (option NetworkConnectionSummary) :=
  let! settings := connection_settings_if_present path in
  ret (settings ≫= connection_summary path available active).

Definition active_connection_summary (path : string) : bus W (option ActiveConnectionSummary) :=
  if bool_decide (path = "/") then ret None
  else
    let! active := proxy path ACTIVE_CONNECTION_IFACE in
    let! id := or_default "" (get_property value_string active "Id") in
    let! uuid := or_default "" (get_property value_string active "Uuid") in
    if bool_decide (id = "") && bool_decide (uuid = "") then ret None
    else
      let! state := or_default 0%N (get_property as_u32 active "State") in
      let! connection_type := or_default "" (get_property value_string active "Type") in
      let! state_flags := or_default 0%N (get_property as_u32 active "StateFlags") in
      let! vpn := or_default false (get_property as_bool active "Vpn") in
      let! default4 := or_default false (get_property as_bool active "Default") in
      let! default6 := or_default false (get_property as_bool active "Default6") in
      let! profile_path := object_path_property active "Connection" in
      let! specific_object := object_path_property active "SpecificObject" in
      let! devices := object_path_list_property active "Devices" in
      ret (Some {| ac_path := path; ac_id := id; ac_uuid := uuid; ac_connection_type := connection_type;
                   ac_state := state; ac_state_name := active_connection_state_name state;
                   ac_state_flags := state_flags; ac_vpn := vpn; ac_default4 := default4;
                   ac_default6 := default6; ac_profile_path := profile_path;
                   ac_specific_object := specific_object; ac_devices := devices |}).
Definition network_active_connections : bus W (list ActiveConnectionSummary) :=
  let! paths := or_default [] (get_property as_paths root_proxy "ActiveConnections") in
  filter_map_bus active_connection_summary paths.
Definition network_connections_with (devices : list NetworkDeviceSummary) (active : list ActiveConnectionSummary) :
    bus W (list NetworkConnectionSummary) :=
  let! paths := with_context "ListConnections for network inventory"
                  (call_value as_paths settings_proxy "ListConnections" []) in
  filter_map_bus
    (network_connection_summary (available_devices_by_profile devices) (active_by_profile active)) paths.
Definition network_connections : bus W (list NetworkConnectionSummary) :=
  let! devices := network_devices in
  let! active := network_active_connections in
  network_connections_with devices active.
Definition network_inventory : bus W NetworkInventory :=
  let! devices := network_devices in
  let! active := network_active_connections in
  let! connections := network_connections_with devices active in
  let! enabled := or_default true (get_property as_bool root_proxy "NetworkingEnabled") in
  let! primary := object_path_property root_proxy "PrimaryConnection" in
  let! activating := object_path_property root_proxy "ActivatingConnection" in
  ret {| ni_networking_enabled := enabled; ni_primary_connection := primary;
         ni_activating_connection := activating; ni_devices := devices; ni_connections := connections;
         ni_active_connections := active |}.

(** ** Activating and deactivating *)

Definition activation_device (profile : NetworkConnectionSummary) (devices : list NetworkDeviceSummary)
    (selector : ProfileSelector) : result (option string) Error :=
  match ps_device selector with
  | None => Ok (head (nc_available_devices profile))
  | Some requested =>
    ok_or ((λ d, Some (nd_path d)) <$>
             find_first (λ d, bool_decide (nd_path d = requested) || bool_decide (nd_interface d = requested)) devices)
      (EDomain (with_detail "device" (JStr requested) (not_found Op.Connect "requested device does not exist")))
  end.

Definition activate_network_profile (selector : ProfileSelector) : bus W ProfileActivationResult :=
  let! devices := network_devices in
  let! active := network_active_connections in
  let! connections := network_connections_with devices active in
  let! profile := lift (select Profile connections (ps_uuid selector) (ps_path selector)
                          (λ p, (nc_uuid p, nc_path p))) in
  let! device := lift (activation_device profile devices selector) in
  let! profile_path := lift (object_path (nc_path profile)) in
  let! settings := connection_settings profile_path in
  let! _ := lift (WifiSettings.Policy.validate_private_ca_paths settings Op.Connect) in
  let! device_path := lift (object_path (unwrap_or device "/")) in
  let! specific_object := lift (object_path "/") in
  let! active_path := with_context ("ActivateConnection for profile " +:+ nc_id profile)
    (call_value as_path root_proxy "ActivateConnection" [VPath profile_path; VPath device_path; VPath specific_object]) in
  let! summary := active_connection_summary active_path in
  let state := match summary with Some a => ac_state a | None => 1%N end in
  ret {| pr_status := if (state =? 2)%N then "activated" else "activating";
         pr_profile_path := nc_path profile; pr_id := nc_id profile; pr_uuid := nc_uuid profile;
         pr_connection_type := nc_connection_type profile; pr_type_name := nc_type_name profile;
         pr_active_connection := Some active_path;
         pr_device := or_else (a ← summary; head (ac_devices a)) device;
         pr_state := state; pr_state_name := active_connection_state_name state;
         pr_message := "Activating saved profile " +:+ nc_id profile |}.

Definition deactivate_network_connection (selector : ActiveConnectionSelector) : bus W NetworkDeactivateResult :=
  let! active := network_active_connections in
  let! a := lift (select Active active (acs_uuid selector) (acs_path selector) (λ a, (ac_uuid a, ac_path a))) in
  let! path := lift (object_path (ac_path a)) in
  let! _ := with_context ("DeactivateConnection for " +:+ ac_id a)
              (call_unit root_proxy "DeactivateConnection" [VPath path]) in
  ret {| dr_status := "deactivated"; dr_message := "Deactivated " +:+ ac_id a; dr_path := ac_path a;
         dr_id := ac_id a; dr_uuid := ac_uuid a; dr_connection_type := ac_connection_type a |}.

End Inventory.

(** ** Reading does not change NetworkManager *)

Section Facts.
Context {W : Type} {B : Bus W} (path_error : string → option Error).

Lemma quiet_object_path_property p n : quiet (object_path_property (W:=W) p n).
Proof. unfold object_path_property. quiet_tac. Qed.
Lemma quiet_object_path_list_property p n : quiet (object_path_list_property (W:=W) p n).
Proof. unfold object_path_list_property. quiet_tac. Qed.
#[local] Hint Resolve quiet_object_path_property quiet_object_path_list_property : bus_quiet.
Lemma quiet_wifi_devices : quiet (wifi_devices (W:=W)).
Proof. unfold wifi_devices, wifi_device. quiet_tac. Qed.
Lemma quiet_network_devices : quiet (network_devices (W:=W)).
Proof. unfold network_devices, network_device_summary, device_carrier, device_speed_mbps. quiet_tac. Qed.
Lemma quiet_saved_connections : quiet (saved_connections (W:=W)).
Proof. unfold saved_connections. quiet_tac. Qed.
Lemma quiet_connection_settings p : quiet (connection_settings (W:=W) p).
Proof. unfold connection_settings. quiet_tac. Qed.
#[local] Hint Resolve quiet_saved_connections quiet_connection_settings : bus_quiet.
Lemma quiet_connection_settings_if_present p : quiet (connection_settings_if_present (W:=W) p).
Proof. unfold connection_settings_if_present. quiet_tac. Qed.
#[local] Hint Resolve quiet_connection_settings_if_present : bus_quiet.
Lemma quiet_active_connection_summary p : quiet (active_connection_summary (W:=W) p).
Proof. unfold active_connection_summary. quiet_tac. Qed.
#[local] Hint Resolve quiet_active_connection_summary : bus_quiet.
Lemma quiet_network_active_connections : quiet (network_active_connections (W:=W)).
Proof. unfold network_active_connections. quiet_tac. Qed.
Lemma quiet_network_connections_with d a : quiet (network_connections_with (W:=W) d a).
Proof. unfold network_connections_with, network_connection_summary. quiet_tac. Qed.
#[local] Hint Resolve quiet_network_devices quiet_network_active_connections quiet_network_connections_with : bus_quiet.
Lemma quiet_network_connections : quiet (network_connections (W:=W)).
Proof. unfold network_connections. quiet_tac. Qed.
Lemma quiet_network_inventory : quiet (network_inventory (W:=W)).
Proof. unfold network_inventory. quiet_tac. Qed.
End Facts.

#[export] Hint Resolve quiet_object_path_property quiet_object_path_list_property quiet_wifi_devices
  quiet_network_devices quiet_saved_connections quiet_connection_settings quiet_connection_settings_if_present
  quiet_active_connection_summary quiet_network_active_connections quiet_network_connections_with
  quiet_network_connections quiet_network_inventory : bus_quiet.
