(* ===== verification/Devices.v ===== *)
(** * Wi-Fi devices and access points ([src/nm/devices.rs])

    Reading the access points of the Wi-Fi devices, finding the one a connect target means,
    and the lists of networks: the list of [list_access_points] has one access point for each
    network on each device, that of [list_all_access_points] has all of them. *)
From S2P Require Import Prelude Errors Text Identity Wifi Network Variant Bus Inventory.
From Stdlib Require Import ZArith Lia Ascii Sorting.Sorted.
From stdpp Require Import prelude gmap strings list.

Definition AP_IFACE : string := "org.freedesktop.NetworkManager.AccessPoint".

(** ** Sorting ([slice::sort_by], which is stable) *)
Section SortBy.
Context {A : Type} (c : A → A → comparison).

Fixpoint insert_by (a : A) (l : list A) : list A :=
  match l with
  | [] => [a]
  | b :: l' => match c a b with Gt => b :: insert_by a l' | _ => a :: l end
  end.
Definition sort_by (l : list A) : list A := foldr insert_by [] l.

Lemma insert_by_perm a l : insert_by a l ≡ₚ a :: l.
Proof.
  induction l as [|b l IH]; cbn; [done|]. destruct (c a b); [done..|]. rewrite IH. apply perm_swap.
Qed.
Lemma sort_by_perm l : sort_by l ≡ₚ l.
Proof. induction l as [|a l IH]; cbn; [done|]. by rewrite insert_by_perm, IH. Qed.
Lemma insert_by_sorted a l :
  (∀ a b, c a b = Gt → c b a ≠ Gt) → Sorted (λ a b, c a b ≠ Gt) l → Sorted (λ a b, c a b ≠ Gt) (insert_by a l).
Proof.
  intros Hc. induction l as [|b l IHl]; cbn; intros Hl; [by repeat constructor|].
  destruct (c a b) eqn:E; [constructor; [done|constructor; by rewrite E]..|].
  inversion Hl as [|? ? Hs Hd]; subst. constructor; [by apply IHl|].
  destruct l as [|d l]; cbn; [constructor; by apply Hc|].
  inversion Hd; subst. destruct (c a d); constructor; auto.
Qed.
Lemma sort_by_sorted l : (∀ a b, c a b = Gt → c b a ≠ Gt) → Sorted (λ a b, c a b ≠ Gt) (sort_by l).
Proof. intros Hc. induction l as [|a l IH]; [constructor|]. by apply insert_by_sorted. Qed.
End SortBy.

(** [then_with]. *)
Definition then_with (x y : comparison) : comparison := match x with Eq => y | _ => x end.

(** ** Selecting *)

Definition target_matches_device (target : WifiConnectTarget) (device : WifiDevice) : bool :=
  match t_device_path target with Some p => bool_decide (wd_path device = path_str p) | None => true end
  && match t_ifname target with Some n => bool_decide (wd_iface device = ifname_str n) | None => true end.

Definition access_point_matches (ap : AccessPoint) (ssid_bytes : list u8) (ap_path' bssid : option string) : bool :=
  if negb (bool_decide (ssid_bytes_or_display (ap_ssid_bytes ap) (ap_ssid ap) = ssid_bytes)) then false
  else
    match non_empty ap_path', non_empty bssid with
    | Some p, Some b => bool_decide (ap_path ap = p) && eq_ignore_ascii_case (ap_bssid ap) b
    | Some p, None => bool_decide (ap_path ap = p)
    | None, Some b => eq_ignore_ascii_case (ap_bssid ap) b
    | None, None => true
    end.

(** ** Lists *)

Definition network_of (ap : AccessPoint) : list u8 * SecurityClass * string :=
  (ssid_bytes_or_display (ap_ssid_bytes ap) (ap_ssid ap),
   security_class (ap_flags ap) (ap_wpa_flags ap) (ap_rsn_flags ap), ap_device_iface ap).
(** Whether [ap] replaces the access point kept so far. *)
Definition replaces (ap kept : AccessPoint) : bool :=
  ap_active ap || (negb (ap_active kept) && (ap_strength kept <? ap_strength ap)%N).
Definition merge_access_point (by_network : list (list u8 * SecurityClass * string * AccessPoint)) (ap : AccessPoint) :
    list (list u8 * SecurityClass * string * AccessPoint) :=
  bt_update (network_of ap)
    (λ o, match o with Some kept => if replaces ap kept then ap else kept | None => ap end) by_network.

(** Active first, strongest first, then by name. *)
Definition network_order (to_lowercase : string → string) (a b : AccessPoint) : comparison :=
  then_with (cmp (ap_active b) (ap_active a))
    (then_with (cmp (ap_strength b) (ap_strength a))
       (cmp (to_lowercase (ap_ssid a)) (to_lowercase (ap_ssid b)))).
Definition sorted_access_points (to_lowercase : string → string)
    (by_network : list (list u8 * SecurityClass * string * AccessPoint)) : list AccessPoint :=
  sort_by (network_order to_lowercase) by_network.*2.

Definition wep (ap : AccessPoint) : bool := ap_uses_wep (ap_flags ap) (ap_wpa_flags ap) (ap_rsn_flags ap).
Definition nmcli_order (a b : AccessPoint) : comparison :=
  then_with (cmp (wep a) (wep b))
    (then_with (cmp (ap_strength b) (ap_strength a))
       (then_with (cmp (ap_frequency a) (ap_frequency b))
          (then_with (cmp (ap_max_bitrate_mbps b) (ap_max_bitrate_mbps a)) (cmp (ap_path a) (ap_path b))))).
Definition sort_access_points_nmcli_like : list AccessPoint → list AccessPoint := sort_by nmcli_order.

(** What the adapter asks of the host: the age of a sighting by the kernel's uptime, in
    floating point, and the lower case of a string by Unicode's tables. *)
Class DeviceHost (W : Type) := {
  dh_age_ms : Z → W → option N;
  dh_lowercase : string → string;
}.

Section Devices.
Context {W : Type} {B : Bus W} {D : DeviceHost W}.

Definition access_point_last_seen_age_ms (last_seen_seconds : Z) : bus W (option N) :=
  if (last_seen_seconds <? 0)%Z then ret None else local (λ w, (dh_age_ms last_seen_seconds w, w)).

Definition access_point (device : WifiDevice) (path : string) (active : bool) : bus W AccessPoint :=
  let! ap := proxy path AP_IFACE in
  let! ssid_bytes := with_context ("read Ssid for " +:+ path) (get_property value_bytes ap "Ssid") in
  let! flags := or_default 0%N (get_property as_u32 ap "Flags") in
  let! wpa_flags := or_default 0%N (get_property as_u32 ap "WpaFlags") in
  let! rsn_flags := or_default 0%N (get_property as_u32 ap "RsnFlags") in
  let! frequency := or_default 0%N (get_property as_u32 ap "Frequency") in
  let! mode := or_default 0%N (get_property as_u32 ap "Mode") in
  let! last_seen := or_default (-1)%Z (get_property as_i32 ap "LastSeen") in
  let! strength := or_default Ascii.zero (get_property as_byte ap "Strength") in
  let! bitrate := or_default 0%N (get_property as_u32 ap "MaxBitrate") in
  let! bandwidth := or_default 0%N (get_property as_u32 ap "Bandwidth") in
  let! bssid := or_default "" (get_property value_string ap "HwAddress") in
  let! age := access_point_last_seen_age_ms last_seen in
  ret {| ap_ssid := display_ssid ssid_bytes; ap_ssid_bytes := ssid_bytes; ap_active := active;
         ap_security := security_label flags wpa_flags rsn_flags; ap_strength := N_of_ascii strength;
         ap_frequency := frequency; ap_channel := frequency_channel frequency;
         ap_band := frequency_band frequency; ap_mode := wifi_mode_label mode;
         ap_max_bitrate_mbps := (bitrate / 1000)%N; ap_bandwidth_mhz := bandwidth;
         ap_ssid_hex := ssid_hex ssid_bytes; ap_wpa_flags_label := security_flags_label wpa_flags;
         ap_rsn_flags_label := security_flags_label rsn_flags; ap_bssid := bssid; ap_last_seen := last_seen;
         ap_last_seen_age_ms := age; ap_path := path; ap_device_path := wd_path device;
         ap_device_iface := wd_iface device; ap_flags := flags; ap_wpa_flags := wpa_flags;
         ap_rsn_flags := rsn_flags |}.

(** An access point that cannot be read, or hides its name, is skipped. *)
Definition read_visible_access_point (device : WifiDevice) (path : string) (active : bool) :
    bus W (option AccessPoint) :=
  let! r := attempt (access_point device path active) in
  ret match r with
      | Ok ap => if bool_decide (ap_ssid ap = "") then None else Some ap
      | Err _ => None
      end.

Definition active_access_point (device : WifiDevice) : bus W (option string) :=
  let! wifi := proxy (wd_path device) WIFI_IFACE in
  let! active_path := with_context ("read ActiveAccessPoint for " +:+ wd_iface device)
                        (get_property as_path wifi "ActiveAccessPoint") in
  ret (real_path (Some active_path)).
Definition device_access_points (device : WifiDevice) : bus W (list string) :=
  let! wifi := proxy (wd_path device) WIFI_IFACE in
  with_context ("GetAccessPoints for " +:+ wd_iface device) (call_value as_paths wifi "GetAccessPoints" []).

(** [visible_access_points], whose iterator reads an access point when it is asked for it. *)
Definition visible_access_points (device : WifiDevice) (active_path : option string) : bus W (list AccessPoint) :=
  let! paths := device_access_points device in
  filter_map_bus (λ path, read_visible_access_point device path (bool_decide (active_path = Some path))) paths.
Definition find_visible_access_point (device : WifiDevice) (p : AccessPoint → bool) :
    bus W (option (string * AccessPoint)) :=
  let! paths := device_access_points device in
  first_bus (λ path,
    let! ap := read_visible_access_point device path false in
    ret (ap ← ap; if p ap then Some (path, ap) else None)) paths.

Definition wifi_devices_for_target (target : WifiConnectTarget) : bus W (list WifiDevice) :=
  let! devices := wifi_devices in ret (List.filter (target_matches_device target) devices).

Definition active_ssid_matches_on_device (device : WifiDevice) (target : WifiConnectTarget) : bus W bool :=
  let! active_path := active_access_point device in
  match active_path with
  | None => ret false
  | Some active_path =>
    let! ap := access_point device active_path true in
    ret (bool_decide (ap_ssid_bytes ap = ssid_bytes (t_ssid target)))
  end.
Definition active_target_matches_on_device (device : WifiDevice) (target : WifiConnectTarget) : bus W bool :=
  let! active_path := active_access_point device in
  match active_path with
  | None => ret false
  | Some active_path =>
    let! ap := access_point device active_path true in
    ret (access_point_matches ap (ssid_bytes (t_ssid target)) (path_str <$> t_ap_path target)
           (bssid_str <$> t_bssid target))
  end.
(** [for .. { if f? { return true } } false]. *)
Definition any_device (f : WifiDevice → bus W bool) (devices : list WifiDevice) : bus W bool :=
  let! found := first_bus (λ d, let! b := f d in ret (if b then Some tt else None)) devices in
  ret (bool_decide (is_Some found)).
Definition active_target_matches (target : WifiConnectTarget) : bus W bool :=
  let! devices := wifi_devices_for_target target in
  any_device (λ d, active_target_matches_on_device d target) devices.
Definition active_ssid_matches (target : WifiConnectTarget) : bus W bool :=
  let! devices := wifi_devices_for_target target in
  any_device (λ d, active_ssid_matches_on_device d target) devices.

Definition visible_access_point_matching (devices : list WifiDevice) (target : WifiConnectTarget)
    (ignore_ap_path : bool) : bus W (option (WifiDevice * string * AccessPoint)) :=
  let ap_path := if ignore_ap_path then None else path_str <$> t_ap_path target in
  first_bus (λ device,
    let! found := find_visible_access_point device
      (λ ap, access_point_matches ap (ssid_bytes (t_ssid target)) ap_path (bssid_str <$> t_bssid target)) in
    ret ((λ x, (device, x.1, x.2)) <$> found)) devices.
Definition visible_access_point_for (target : WifiConnectTarget) :
    bus W (option (WifiDevice * string * AccessPoint)) :=
  let! devices := wifi_devices_for_target target in
  let! found := visible_access_point_matching devices target false in
  match found with
  | Some x => ret (Some x)
  | None =>
    if bool_decide (is_Some (t_ap_path target)) then visible_access_point_matching devices target true
    else ret None
  end.
Definition target_access_point_visible (target : WifiConnectTarget) : bus W bool :=
  let! found := visible_access_point_for target in ret (bool_decide (is_Some found)).

(** The visible access points of every device, in the order of the devices. *)
Definition all_visible_access_points : bus W (list AccessPoint) :=
  let! devices := wifi_devices in
  let! aps := map_bus (λ device,
    let! active := active_access_point device in visible_access_points device active) devices in
  ret (concat aps).
Definition list_access_points : bus W (list AccessPoint) :=
  let! aps := all_visible_access_points in
  ret (sorted_access_points dh_lowercase (foldl merge_access_point [] aps)).
Definition list_all_access_points : bus W (list AccessPoint) :=
  let! aps := all_visible_access_points in ret (sort_access_points_nmcli_like aps).
End Devices.

(** ** What the lists hold *)

(** [k] stands for the network of [ap]: it is active when [ap] is, and strongest otherwise. *)
Definition stands_for (k ap : AccessPoint) : Prop :=
  network_of k = network_of ap ∧ (ap_active ap = true → ap_active k = true) ∧
  (ap_active k = false → (ap_strength ap ≤ ap_strength k)%N).

Definition merged (aps : list AccessPoint) := foldl merge_access_point [] aps.
Record merge_inv (aps : list AccessPoint) (m : list (list u8 * SecurityClass * string * AccessPoint)) : Prop := {
  mi_sorted : bt_sorted m;
  mi_key k ap : (k, ap) ∈ m → network_of ap = k ∧ ap ∈ aps;
  mi_stands ap : ap ∈ aps → ∃ k, bt_get (network_of ap) m = Some k ∧ stands_for k ap;
}.

Lemma stands_for_refl ap : stands_for ap ap.
Proof. split_and!; [done|done|intros; lia]. Qed.
Lemma replaces_stands ap kept x :
  network_of kept = network_of ap → stands_for kept x →
  stands_for (if replaces ap kept then ap else kept) x ∧ stands_for (if replaces ap kept then ap else kept) ap.
Proof.
  intros Hn (H1 & H2 & H3). unfold replaces. destruct (ap_active ap) eqn:Ea; cbn.
  - split; split_and!; [congruence|done|by rewrite Ea|done..|by rewrite Ea].
  - destruct (ap_active kept) eqn:Ek; cbn; [by split; split_and!; auto; congruence|].
    specialize (H3 eq_refl).
    assert (ap_active x = false) as Ex by (destruct (ap_active x); [by discriminate H2|done]).
    destruct (N.ltb_spec (ap_strength kept) (ap_strength ap)); cbn; unfold stands_for;
      split_and!; intros; try lia; congruence.
Qed.
Lemma merge_step aps ap m : merge_inv aps m → merge_inv (aps ++ [ap]) (merge_access_point m ap).
Proof.
  intros [Hs Hk Hst]. unfold merge_access_point. split; [by apply bt_sorted_update| |].
  - intros k x [[= -> Hx]|Hx]%bt_update_elem; [|apply Hk in Hx as [? ?]; rewrite elem_of_app; auto].
    destruct (bt_get (network_of ap) m) as [kept|] eqn:Hg; [|subst; rewrite elem_of_app, list_elem_of_singleton; auto].
    apply bt_get_elem, Hk in Hg as [? ?]. rewrite elem_of_app, list_elem_of_singleton.
    destruct (replaces ap kept); subst; auto.
  - intros x Hx. apply elem_of_app in Hx as [Hx|Hx%list_elem_of_singleton].
    + destruct (Hst x Hx) as (k & Hg & Hsf). destruct (decide (network_of x = network_of ap)) as [E|E].
      * rewrite E in *. rewrite bt_get_update_eq, Hg. eexists. split; [done|].
        apply bt_get_elem, Hk in Hg as [Hkn _]. by apply replaces_stands.
      * rewrite bt_get_update_ne by done. eauto.
    + subst x. rewrite bt_get_update_eq. eexists. split; [done|].
      destruct (bt_get (network_of ap) m) as [kept|] eqn:Hg; [|apply stands_for_refl].
      apply bt_get_elem, Hk in Hg as [Hkn _]. by eapply replaces_stands; [|apply stands_for_refl].
Qed.
Lemma merged_inv aps : merge_inv aps (merged aps).
Proof.
  unfold merged. induction aps as [|ap aps IH] using rev_ind; [by split; [constructor| |]; set_solver|].
  rewrite foldl_app. by apply merge_step.
Qed.

Section Facts.
Context {W : Type} {B : Bus W} {D : DeviceHost W}.

Lemma quiet_access_point d p a : quiet (access_point d p a).
Proof. unfold access_point, access_point_last_seen_age_ms. quiet_tac. Qed.
#[local] Hint Resolve quiet_access_point quiet_wifi_devices : bus_quiet.
Lemma quiet_active_access_point d : quiet (active_access_point d).
Proof. unfold active_access_point. quiet_tac. Qed.
Lemma quiet_device_access_points d : quiet (device_access_points d).
Proof. unfold device_access_points. quiet_tac. Qed.
Lemma quiet_read_visible d p a : quiet (read_visible_access_point d p a).
Proof. unfold read_visible_access_point. quiet_tac. Qed.
#[local] Hint Resolve quiet_active_access_point quiet_device_access_points quiet_read_visible : bus_quiet.
Lemma quiet_all_visible : quiet all_visible_access_points.
Proof. unfold all_visible_access_points, visible_access_points. quiet_tac. Qed.
#[local] Hint Resolve quiet_all_visible : bus_quiet.
Lemma quiet_list_all : quiet list_all_access_points.
Proof. unfold list_all_access_points. quiet_tac. Qed.
Lemma quiet_devices_for_target t : quiet (wifi_devices_for_target t).
Proof. unfold wifi_devices_for_target. quiet_tac. Qed.
#[local] Hint Resolve quiet_devices_for_target : bus_quiet.
Lemma quiet_visible_for t : quiet (visible_access_point_for t).
Proof. unfold visible_access_point_for, visible_access_point_matching, find_visible_access_point. quiet_tac. Qed.

Lemma network_order_total a b :
  network_order dh_lowercase a b = Gt → network_order dh_lowercase b a ≠ Gt.
Proof.
  unfold network_order, then_with.
  destruct (cmp (ap_active b) (ap_active a)) eqn:E1; [apply cmp_eq in E1 as ->; rewrite cmp_refl|by rewrite (cmp_lt_gt _ _ E1) || done|].
  - destruct (cmp (ap_strength b) (ap_strength a)) eqn:E2; [apply cmp_eq in E2 as ->; rewrite cmp_refl|done|].
    + intros ->%cmp_gt_lt. done.
    + by rewrite (cmp_gt_lt _ _ E2).
  - by rewrite (cmp_gt_lt _ _ E1).
Qed.

(** The list of networks: reading it changes nothing; each network of each device is
    listed once, by one of its access points that is visible, active if one of them is and
    otherwise with the strongest signal; the active ones are first, then the strongest. *)
Theorem listed_networks_exact s :
  match all_visible_access_points s with
  | (Ok aps, s') =>
    effects (trace s') = effects (trace s) ∧
    ∃ l, list_access_points s = (Ok l, s') ∧ NoDup (network_of <$> l) ∧ (∀ k, k ∈ l → k ∈ aps) ∧
      (∀ ap, ap ∈ aps → ∃ k, k ∈ l ∧ stands_for k ap) ∧
      Sorted (λ a b, network_order dh_lowercase a b ≠ Gt) l
  | (Err e, s') => list_access_points s = (Err e, s')
  end.
Proof.
  pose proof (quiet_all_visible s) as Hq. unfold list_access_points, bind.
  destruct (all_visible_access_points s) as [[aps|e] s']; [|done]. split; [done|]. eexists. split; [done|].
  destruct (merged_inv aps) as [Hs Hk Hst]. fold (merged aps). unfold sorted_access_points.
  set (l := sort_by _ _). assert (l ≡ₚ (merged aps).*2) as Hp by apply sort_by_perm.
  split_and!.
  - rewrite Hp. apply bt_sorted_keys_NoDup in Hs.
    assert (network_of <$> (merged aps).*2 = (merged aps).*1) as ->; [|done].
    rewrite <-list_fmap_compose. apply list_fmap_ext. intros i [k x] Hi. cbn.
    by apply list_elem_of_lookup_2, Hk in Hi as [-> _].
  - intros k. rewrite Hp. intros ([k' x] & -> & Hx)%list_elem_of_fmap. by apply Hk in Hx as [_ ?].
  - intros ap (k & Hg & Hsf)%Hst. exists k. split; [|done]. rewrite Hp. apply list_elem_of_fmap.
    apply bt_get_elem in Hg. by exists (network_of ap, k).
  - apply sort_by_sorted, network_order_total.
Qed.

(** What a search for the access point of a target found: the device, and the access point
    read from the path. *)
Definition target_found (target : WifiConnectTarget) (stale : bool) (x : WifiDevice * string * AccessPoint) : Prop :=
  let '(device, path, ap) := x in
  target_matches_device target device = true ∧ ap_path ap = path ∧ ap_device_path ap = wd_path device ∧
  ap_ssid ap ≠ "" ∧
  access_point_matches ap (ssid_bytes (t_ssid target)) (if stale then None else path_str <$> t_ap_path target)
    (bssid_str <$> t_bssid target) = true.
Lemma access_point_fields d p a s ap s' :
  access_point d p a s = (Ok ap, s') → ap_path ap = p ∧ ap_device_path ap = wd_path d.
Proof. unfold access_point. intros H. bus_unroll. by subst. Qed.
Lemma visible_matching_found devices target ignore s x s' :
  (∀ d, d ∈ devices → target_matches_device target d = true) →
  visible_access_point_matching devices target ignore s = (Ok (Some x), s') → target_found target ignore x.
Proof.
  intros Hd (d & s1 & Hin & H)%first_bus_Some. bus_unroll. subst.
  match goal with H : Some x = _ |- _ => rename H into Hx end.
  destruct x0 as [[p ap]|]; [|done]. cbn in Hx. injection Hx as ->.
  unfold find_visible_access_point in *. bus_unroll.
  match goal with H : first_bus _ _ _ = _ |- _ => apply first_bus_Some in H as (p' & s2 & _ & Hf) end.
  unfold read_visible_access_point in Hf. bus_unroll. subst.
  match goal with H : access_point _ _ _ _ = (?r, _), H' : Some _ = _ |- _ => destruct r as [ap'|]; [|done]; rename H into Hap, H' into Hr end.
  case_bool_decide as Hn; [done|]. cbn in Hr. destruct (access_point_matches _ _ _ _) eqn:Hm; [|done].
  injection Hr as -> ->. apply access_point_fields in Hap as [? ?]. cbn. by auto.
Qed.

Lemma devices_for_target_match target s devices s' d :
  wifi_devices_for_target target s = (Ok devices, s') → d ∈ devices → target_matches_device target d = true.
Proof.
  unfold wifi_devices_for_target. intros H Hd. bus_unroll. subst. apply list_elem_of_In, List.filter_In in Hd. tauto.
Qed.
Lemma visible_for_found target s x s' :
  visible_access_point_for target s = (Ok (Some x), s') →
  target_found target false x ∨ is_Some (t_ap_path target) ∧ target_found target true x ∧
    ∃ devices s1 s2, wifi_devices_for_target target s = (Ok devices, s1) ∧
      visible_access_point_matching devices target false s1 = (Ok None, s2).
Proof.
  intros H. unfold visible_access_point_for in H. bus_unroll.
  match goal with H : wifi_devices_for_target _ _ = (Ok ?l, _) |- _ =>
    assert (∀ d, d ∈ l → target_matches_device target d = true) as Hall by eauto using devices_for_target_match end.
  match goal with H : visible_access_point_matching _ _ _ _ = (Ok ?o, _) |- _ => destruct o as [y|] end.
  - bus_unroll. simplify_eq. left. by eapply visible_matching_found.
  - case_bool_decide; [|by bus_unroll]. right. split_and!; [done|by eapply visible_matching_found|eauto].
Qed.

(** The access point found for a connect target is one that was read on a device the
    target allows; its SSID is the target's byte for byte, its BSSID the target's, and its
    path the target's unless no visible access point had that path. Nothing is changed. *)
Theorem visible_target_sound target s :
  match visible_access_point_for target s with
  | (Ok (Some x), s') =>
    effects (trace s') = effects (trace s) ∧
    (target_found target false x ∨ is_Some (t_ap_path target) ∧ target_found target true x ∧
       ∃ devices s1 s2, wifi_devices_for_target target s = (Ok devices, s1) ∧
         visible_access_point_matching devices target false s1 = (Ok None, s2))
  | (_, s') => effects (trace s') = effects (trace s)
  end.
Proof.
  pose proof (quiet_visible_for target s) as Hq.
  destruct (visible_access_point_for target s) as [[[x|]|e] s'] eqn:H; [|done..]. split; [done|].
  by apply visible_for_found in H.
Qed.
End Facts.
#[export] Hint Resolve quiet_access_point quiet_active_access_point quiet_all_visible quiet_list_all
  quiet_devices_for_target quiet_visible_for : bus_quiet.
