(* ===== verification/Migration.v ===== *)
(** * Legacy credentials ([src/credential_migration.rs])

    The inventory of NetworkManager's profiles and of the credentials an earlier version left
    with the secret service, which reads metadata only, and the disposal of one such item that
    the user named exactly. Both services are peers on a bus (Bus.v): NetworkManager on the
    system bus, the secret service on the session bus. *)
From S2P Require Import Prelude Errors Text Variant Credentials Bus Devices.
From Stdlib Require Import ZArith Lia.
From stdpp Require Import prelude gmap strings list.
Open Scope bus_scope.

Definition SECRETS_PATH : string := "/org/freedesktop/secrets".
Definition SECRET_SERVICE_IFACE : string := "org.freedesktop.Secret.Service".
Definition SECRET_ITEM_IFACE : string := "org.freedesktop.Secret.Item".

Record Profile := {
  mp_uuid : string;
  mp_name : string;
  mp_kind : string;
  mp_path : string;
  mp_filename : string;
  mp_unsaved : bool;
  mp_version : N;
  mp_permissions : list string;
  mp_autoconnect : bool;
  mp_secret_flags : gmap string N;
  mp_legacy_items : list string;
}.
Record LegacyItem := {
  li_path : string;
  li_locked : bool;
  li_attributes_visible : bool;
  li_uuid : option string;
  li_setting : option string;
  li_key : option string;
  li_legacy_path_only : bool;
  li_matched_profiles : list string;
}.
Record Legacy := { lg_available : bool; lg_error : option string; lg_items : list LegacyItem }.
Record CredentialInventory := {
  iv_schema : N;
  iv_read_only : bool;
  iv_secret_values_read : bool;
  iv_networkmanager_version : string;
  iv_profiles : list Profile;
  iv_legacy : Legacy;
}.

(** A reply with two lists of object paths. *)
Definition as_found (reply : list value) : option (list string * list string) :=
  match reply with
  | [u; l] => u ← as_paths u; l ← as_paths l; Some (u, l)
  | _ => None
  end.

(** ** The secret service *)
Section SecretService.
Context {W : Type} {B : Bus W}.

(** [get_name_owner], and a proxy of that owner. *)
Definition name_owner : bus W string := access bus_owner (λ _, None).
Definition owned_proxy (path iface : string) : bus W Proxy :=
  lift match bus_build path iface with None => Ok {| p_path := path; p_iface := iface |} | Some e => Err e end.
Definition search_items (service : Proxy) (attributes : gmap string string) : bus W (list string * list string) :=
  let! reply := call_method service "SearchItems" [of_string_map attributes] in
  lift (ok_or (as_found reply) type_error).

(** *** Disposal of one item *)

Definition expected_attributes (uuid setting key : string) : gmap string string :=
  list_to_map [("application", "nm-daemon"); ("uuid", uuid); ("setting", setting); ("key", key)].
Definition checked_search (service : Proxy) (expected : gmap string string) : bus W (list string * list string) :=
  let! r := attempt (search_items service expected) in
  lift match r with Ok found => Ok found | Err _ => Err (plain "legacy metadata search failed") end.
Definition has_attributes (expected attributes : gmap string string) : bool :=
  forallb (λ kv, bool_decide (attributes !! kv.1 = Some kv.2)) (map_to_list expected).
Definition checked_item (item : Proxy) (expected : gmap string string) : bus W (gmap string string * N) :=
  let! attributes := get_property value_string_map item "Attributes" in
  let! _ := lift (ensure (has_attributes expected attributes)
                    (plain "item ownership/identity mismatch; no deletion attempted")) in
  let! locked := get_property as_bool item "Locked" in
  let! _ := lift (ensure (negb locked) (plain "item is locked; no deletion attempted")) in
  let! modified := get_property as_u64 item "Modified" in
  ret (attributes, modified).
Definition delete_item (item : Proxy) : bus W string :=
  let! r := attempt (call_value as_path item "Delete" []) in
  lift match r with
       | Ok prompt => Ok prompt
       | Err _ => Err (plain "item deletion not acknowledged; re-inventory before retrying")
       end.
Definition discard_on (path uuid setting key : string) : bus W unit :=
  let! _ := lift (ensure (negb (bool_decide (uuid = "")) && negb (bool_decide (setting = "")) && negb (bool_decide (key = "")))
                    (plain "exact item identity is required")) in
  let! owner := name_owner in
  let! service := owned_proxy SECRETS_PATH SECRET_SERVICE_IFACE in
  let expected := expected_attributes uuid setting key in
  let! (unlocked, locked) := checked_search service expected in
  let! _ := lift (ensure (bool_decide (path ∈ unlocked) && negb (bool_decide (path ∈ locked)))
                    (plain "exact item is absent or locked; no deletion attempted")) in
  let! item := owned_proxy path SECRET_ITEM_IFACE in
  let! snapshot := checked_item item expected in
  let! again := checked_item item expected in
  let! still := if bool_decide (again = snapshot) then let! o := name_owner in ret (bool_decide (o = owner)) else ret false in
  let! _ := lift (ensure still (plain "item/provider changed; no deletion attempted")) in
  let! prompt := delete_item item in
  let! _ := lift (ensure (bool_decide (prompt = "/"))
    (plain "deletion requires a provider prompt; completion unconfirmed, no prompt presented or dismissed")) in
  let! (unlocked, locked) := checked_search service expected in
  let! gone := if bool_decide (path ∈ unlocked ++ locked) then ret false
               else let! o := name_owner in ret (bool_decide (o = owner)) in
  lift (ensure gone (plain "deletion outcome unconfirmed; re-inventory before retrying")).

(** *** The inventory of legacy items *)

Definition legacy_item (path : string) (locked : bool) : bus W LegacyItem :=
  let! item := owned_proxy path SECRET_ITEM_IFACE in
  let! attributes := get_property value_string_map item "Attributes" in
  ret {| li_path := path; li_locked := locked; li_attributes_visible := negb (bool_decide (attributes = ∅));
         li_uuid := attributes !! "uuid"; li_setting := attributes !! "setting"; li_key := attributes !! "key";
         li_legacy_path_only := bool_decide (is_Some (attributes !! "connection_path"))
                                && negb (bool_decide (is_Some (attributes !! "uuid")));
         li_matched_profiles := [] |}.
Fixpoint collect_items (found : list (string * bool)) (items : gmap string LegacyItem) : bus W (gmap string LegacyItem) :=
  match found with
  | [] => ret items
  | (path, locked) :: found =>
    let! item := legacy_item path locked in
    let! _ := lift (ensure (bool_decide (items !! path = None)) (plain "duplicate legacy item identity")) in
    collect_items found (<[path := item]> items)
  end.
Definition add_match (uuid : string) (i : LegacyItem) : LegacyItem :=
  {| li_path := li_path i; li_locked := li_locked i; li_attributes_visible := li_attributes_visible i;
     li_uuid := li_uuid i; li_setting := li_setting i; li_key := li_key i; li_legacy_path_only := li_legacy_path_only i;
     li_matched_profiles := li_matched_profiles i ++ [uuid] |}.
Fixpoint match_items (uuid : string) (paths : list string) (items : gmap string LegacyItem) :
    result (gmap string LegacyItem) Error :=
  match paths with
  | [] => Ok items
  | path :: paths =>
    let? item := ok_or (items !! path) (plain "legacy item appeared during inventory") in
    match_items uuid paths (<[path := add_match uuid item]> items)
  end.
Fixpoint associate (service : Proxy) (profiles : list Profile) (items : gmap string LegacyItem) :
    bus W (gmap string LegacyItem * list (list string)) :=
  match profiles with
  | [] => ret (items, [])
  | p :: profiles =>
    let! (unlocked, locked) := search_items service (list_to_map [("application", "nm-daemon"); ("uuid", mp_uuid p)]) in
    let! items := lift (match_items (mp_uuid p) (unlocked ++ locked) items) in
    let! (items, rest) := associate service profiles items in
    ret (items, sort_by cmp (unlocked ++ locked) :: rest)
  end.
Definition with_items (p : Profile) (items : list string) : Profile :=
  {| mp_uuid := mp_uuid p; mp_name := mp_name p; mp_kind := mp_kind p; mp_path := mp_path p; mp_filename := mp_filename p;
     mp_unsaved := mp_unsaved p; mp_version := mp_version p; mp_permissions := mp_permissions p;
     mp_autoconnect := mp_autoconnect p; mp_secret_flags := mp_secret_flags p; mp_legacy_items := items |}.
(** The profiles are linked only when every query and the owner fence succeeded. *)
Definition legacy_inventory_on (profiles : list Profile) : bus W (Legacy * list Profile) :=
  let! owner := name_owner in
  let! service := owned_proxy SECRETS_PATH SECRET_SERVICE_IFACE in
  let! (unlocked, locked) := search_items service (list_to_map [("application", "nm-daemon")]) in
  let! items := collect_items (((λ p, (p, false)) <$> unlocked) ++ ((λ p, (p, true)) <$> locked)) ∅ in
  let! (items, associations) := associate service profiles items in
  let! o := name_owner in
  let! _ := lift (ensure (bool_decide (o = owner)) (plain "provider replaced")) in
  ret ({| lg_available := true; lg_error := None;
          lg_items := sort_by (λ a b, cmp (li_path a) (li_path b)) (map_to_list items).*2 |},
       zip_with with_items profiles associations).
End SecretService.

(** ** NetworkManager's profiles *)
Section Profiles.
Context {W : Type} {B : Bus W}.

Definition metadata_text (metadata : section) (key : string) : string := unwrap_or (setting_string metadata key) "".
Definition profile_entry (path : string) : bus W Profile :=
  let! profile := owned_proxy path SETTINGS_CONNECTION_IFACE in
  let! settings := call_value as_settings profile "GetSettings" [] in
  let! metadata := lift (ok_or (settings !! "connection") (plain "profile has no identity")) in
  let! filename := get_property value_string profile "Filename" in
  let! unsaved := get_property as_bool profile "Unsaved" in
  let! version := get_property as_u64 profile "VersionId" in
  let! flags := lift (flag_inventory settings) in
  ret {| mp_uuid := metadata_text metadata "uuid"; mp_name := metadata_text metadata "id";
         mp_kind := metadata_text metadata "type"; mp_path := path; mp_filename := filename; mp_unsaved := unsaved;
         mp_version := version; mp_permissions := setting_strings metadata "permissions";
         mp_autoconnect := unwrap_or (setting as_bool metadata "autoconnect") true; mp_secret_flags := flags;
         mp_legacy_items := [] |}.
Definition profile_entries : bus W (string * list Profile) :=
  let! root := owned_proxy NM_PATH NM_IFACE in
  let! version := get_property value_string root "Version" in
  let! settings := owned_proxy SETTINGS_PATH SETTINGS_IFACE in
  let! paths := call_value as_paths settings "ListConnections" [] in
  let! profiles := map_bus profile_entry paths in
  ret (version, sort_by (λ a b, cmp (mp_uuid a) (mp_uuid b)) profiles).
End Profiles.

(** ** Both buses *)

(** Connecting to them. *)
Class MigrationHost (W : Type) := {
  mg_system : W → result unit Error;
  mg_session : W → result unit Error;
}.
Definition UNAVAILABLE : string := "Legacy metadata unavailable; inventory is incomplete (no unlock attempted)".

Section Inventory.
Context {W : Type} (SYS SES : Bus W) {M : MigrationHost W}.

Definition legacy_inventory (profiles : list Profile) : bus W (Legacy * list Profile) :=
  let! session := local (λ w, (mg_session w, w)) in
  let! _ := lift session in
  legacy_inventory_on (B := SES) profiles.
Definition inventory : bus W CredentialInventory :=
  let! system := local (λ w, (mg_system w, w)) in
  let! _ := lift (result_map_err (add_context "connect to NetworkManager bus") system) in
  let! owner := name_owner (B := SYS) in
  let! (version, profiles) := profile_entries (B := SYS) in
  let! r := attempt (legacy_inventory profiles) in
  let (legacy, profiles) := match r with
                            | Ok found => found
                            | Err _ => ({| lg_available := false; lg_error := Some UNAVAILABLE; lg_items := [] |}, profiles)
                            end in
  let! o := name_owner (B := SYS) in
  let! _ := lift (ensure (bool_decide (o = owner)) (plain "NetworkManager changed during inventory; retry")) in
  ret {| iv_schema := 1; iv_read_only := true; iv_secret_values_read := false; iv_networkmanager_version := version;
         iv_profiles := profiles; iv_legacy := legacy |}.
Definition discard_legacy (item uuid setting key : string) : bus W unit :=
  let! session := local (λ w, (mg_session w, w)) in
  let! _ := lift session in
  discard_on (B := SES) item uuid setting key.
End Inventory.

(** ** Disposal deletes what was verified *)

(** Accesses other than reads and searches. *)
Definition changes (l : list bus_event) : list bus_event :=
  List.filter (λ e, match e with
                    | EvCall _ _ m _ _ => is_effect e && negb (bool_decide (m = "SearchItems"))
                    | _ => is_effect e
                    end) l.
Lemma changes_app l l' : changes (l ++ l') = changes l ++ changes l'.
Proof. apply List.filter_app. Qed.

Section Disposal.
Context {W : Type} {B : Bus W}.

Lemma grows_owned_proxy p i : grows (owned_proxy (W:=W) p i) (λ r l, l = [] ∧
  match r with Ok x => x = {| p_path := p; p_iface := i |} | Err _ => True end).
Proof. apply grows_pure. by destruct (bus_build p i). Qed.
Lemma grows_name_owner : grows (name_owner (W:=W)) (λ _ l, l = []).
Proof. by apply grows_access. Qed.

(** A search that was answered with these items. *)
Definition searched (attributes : gmap string string) (found : list string * list string) (l : list bus_event) : Prop :=
  ∃ reply, as_found reply = Some found ∧
    EvCall SECRETS_PATH SECRET_SERVICE_IFACE "SearchItems" [of_string_map attributes] (Ok reply) ∈ l.
Definition service_proxy : Proxy := {| p_path := SECRETS_PATH; p_iface := SECRET_SERVICE_IFACE |}.
Lemma grows_search attributes : grows (search_items (W:=W) service_proxy attributes) (λ r l,
  changes l = [] ∧ ∀ found, r = Ok found → searched attributes found l).
Proof.
  unfold search_items. eapply grows_then; [apply grows_call|by intros e l ->|].
  intros reply l ->. apply grows_pure. split; [done|]. intros found Hf. exists reply.
  destruct (as_found reply) as [x|]; [|done]. injection Hf as ->. split; [done|]. set_solver.
Qed.
Lemma grows_checked_search attributes : grows (checked_search (W:=W) service_proxy attributes) (λ r l,
  changes l = [] ∧ ∀ found, r = Ok found → searched attributes found l).
Proof.
  unfold checked_search. eapply grows_then.
  - apply grows_attempt with (Q := λ r l, match r with Ok r => changes l = [] ∧ ∀ found, r = Ok found → searched attributes found l | Err _ => False end).
    apply grows_search.
  - done.
  - intros [found|e] l [Hl Hf]; apply grows_pure; rewrite app_nil_r; (split; [done|]); [|done]. intros x [= <-]. by apply Hf.
Qed.

(** One reading of the item: the metadata, with the identity asked for, unlocked. *)
Definition checked (path : string) (expected : gmap string string) (x : gmap string string * N) (l : list bus_event) : Prop :=
  ∃ v, value_string_map v = Some x.1 ∧ has_attributes expected x.1 = true ∧
    l = [EvGet path SECRET_ITEM_IFACE "Attributes" (Ok v); EvGet path SECRET_ITEM_IFACE "Locked" (Ok (VBool false));
         EvGet path SECRET_ITEM_IFACE "Modified" (Ok (VU64 x.2))].
Lemma quiet_changes l : effects l = [] → changes l = [].
Proof.
  unfold effects, changes. induction l as [|e l IH]; [done|]. cbn. destruct e as [| |p i m a r]; cbn; [done|done|].
  destruct (bool_decide _); [done|apply IH].
Qed.
Lemma grows_ensure b e : grows (lift (W:=W) (ensure b e)) (λ r l, l = [] ∧ (r = Ok tt → b = true)).
Proof. apply grows_pure. by destruct b. Qed.
Lemma as_bool_value v b : as_bool v = Some b → v = VBool b.
Proof. destruct v; try done. by intros [= ->]. Qed.
Lemma as_u64_value v n : as_u64 v = Some n → v = VU64 n.
Proof. destruct v; try done. by intros [= ->]. Qed.
Lemma as_path_value v p : as_path v = Some p → v = VPath p.
Proof. destruct v; try done. by intros [= ->]. Qed.
Lemma grows_checked_item path expected : grows (checked_item (W:=W) {| p_path := path; p_iface := SECRET_ITEM_IFACE |} expected)
  (λ r l, changes l = [] ∧ ∀ x, r = Ok x → checked path expected x l).
Proof.
  unfold checked_item. eapply grows_then; [apply grows_get_property|by intros e l Hl%quiet_changes|].
  intros attributes l (v & Hv & ->). eapply grows_then; [apply grows_ensure|by intros e l [-> _]|].
  intros [] l [-> Ha]. eapply grows_then; [apply grows_get_property|by intros e l Hl%quiet_changes; split; [exact Hl|]|].
  intros locked l (v1 & ->%as_bool_value & ->). eapply grows_then; [apply grows_ensure|by intros e l [-> _]|].
  intros [] l [-> Hk]. eapply grows_then; [apply grows_get_property|by intros e l Hl%quiet_changes; split; [exact Hl|]|].
  intros modified l (v2 & ->%as_u64_value & ->). apply grows_ret. split; [done|]. intros x [= <-]. exists v.
  specialize (Hk eq_refl). destruct locked; [done|]. split; [done|]. by split; [apply Ha|].
Qed.
Definition deletion (path : string) (reply : result (list value) Error) : bus_event :=
  EvCall path SECRET_ITEM_IFACE "Delete" [] reply.
Lemma grows_delete_item path : grows (delete_item (W:=W) {| p_path := path; p_iface := SECRET_ITEM_IFACE |}) (λ r l,
  ∃ reply, l = [deletion path reply] ∧ ∀ prompt, r = Ok prompt → reply = Ok [VPath prompt]).
Proof.
  unfold delete_item. eapply grows_then.
  - apply grows_attempt with (Q := λ r l, match r with
      | Ok r => ∃ reply, l = [deletion path reply] ∧ ∀ prompt, r = Ok prompt → reply = Ok [VPath prompt]
      | Err _ => False end).
    unfold call_value. eapply grows_then; [apply grows_call|intros e l ->; by eexists|].
    intros reply l ->. apply grows_pure. eexists. split; [done|]. intros prompt Hp.
    destruct reply as [|v [|]]; try done. destruct (as_path v) as [x|] eqn:E; [|done]. apply as_path_value in E as ->. by injection Hp as ->.
  - done.
  - intros [prompt|e] l (reply & -> & H); apply grows_pure; eexists; (split; [done|]); [|done]. intros x [= <-]. by apply H.
Qed.

(** Up to the deletion: the item was found unlocked, and read twice alike. *)
Definition verified (path : string) (expected : gmap string string) (l : list bus_event) : Prop :=
  (∃ found, searched expected found l ∧ path ∈ found.1 ∧ path ∉ found.2) ∧
  (∃ x l0 l1 l2, l = l0 ++ l1 ++ l2 ∧ checked path expected x l1 ∧ checked path expected x l2).
Definition discard_settled (path uuid setting key : string) (r : result unit Error) (l : list bus_event) : Prop :=
  let expected := expected_attributes uuid setting key in
  (changes l = [] ∧ is_ok r = false) ∨
  ∃ l1 reply l2, l = l1 ++ deletion path reply :: l2 ∧ changes l1 = [] ∧ changes l2 = [] ∧
    uuid ≠ "" ∧ setting ≠ "" ∧ key ≠ "" ∧ verified path expected l1 ∧
    (r = Ok tt → reply = Ok [VPath "/"] ∧ ∃ found, searched expected found l2 ∧ path ∉ found.1 ++ found.2).

(** From the deletion on. *)
Lemma grows_delete_tail path expected owner : grows
  (let! prompt := delete_item (W:=W) {| p_path := path; p_iface := SECRET_ITEM_IFACE |} in
   let! _ := lift (ensure (bool_decide (prompt = "/"))
     (plain "deletion requires a provider prompt; completion unconfirmed, no prompt presented or dismissed")) in
   let! (unlocked, locked) := checked_search service_proxy expected in
   let! gone := if bool_decide (path ∈ unlocked ++ locked) then ret false
                else let! o := name_owner in ret (bool_decide (o = owner)) in
   lift (ensure gone (plain "deletion outcome unconfirmed; re-inventory before retrying")))
  (λ r l, ∃ reply l', l = deletion path reply :: l' ∧ changes l' = [] ∧
     (r = Ok tt → reply = Ok [VPath "/"] ∧ ∃ found, searched expected found l' ∧ path ∉ found.1 ++ found.2)).
Proof.
  eapply grows_then; [apply grows_delete_item|by intros e l (reply & -> & _); exists reply, []|]. intros prompt l (reply & -> & Hp).
  eapply grows_then; [apply grows_ensure|by intros e l [-> _]; exists reply, []|]. intros [] l [-> H]. specialize (H eq_refl).
  apply bool_decide_eq_true in H as ->. specialize (Hp _ eq_refl).
  eapply grows_then; [apply grows_checked_search|by intros e l [Hl _]; exists reply, l|]. intros [u k] l [Hl S]. specialize (S _ eq_refl).
  eapply grows_then with (P := λ r l, l = [] ∧ (r = Ok true → path ∉ u ++ k)).
  { destruct (bool_decide (path ∈ u ++ k)) eqn:E; [by apply grows_ret|apply bool_decide_eq_false in E].
    eapply grows_then; [apply grows_name_owner|by intros e l' ->|]. intros o l' ->. by apply grows_ret. }
  { intros e l' [-> _]. exists reply, l. by rewrite app_nil_r. }
  intros gone l' [-> Hg]. apply grows_pure. exists reply, l. rewrite app_nil_r. split; [done|]. split; [done|].
  destruct gone; [|done]. intros _. split; [done|]. exists (u, k). split; [done|]. by apply Hg.
Qed.

(** C35. Disposing of a legacy credential deletes nothing, or the one item named, once. The
    item is deleted only after the provider listed it as unlocked for the full identity
    (application, UUID, setting and key) and two readings of its metadata agreed, each with
    that identity, unlocked and with one modification time; no password is read or copied.
    Success means that the provider acknowledged the deletion without a prompt and then no
    longer listed the item; everything else the request does reads metadata. *)
Theorem discard_deletes_only_verified path uuid setting key s :
  ∃ l, trace (discard_on path uuid setting key s).2 = trace s ++ l ∧
    discard_settled path uuid setting key (discard_on path uuid setting key s).1 l.
Proof.
  revert s. change (grows (discard_on (W:=W) path uuid setting key) (discard_settled path uuid setting key)).
  unfold discard_on. eapply grows_then; [apply grows_ensure|by intros e l [-> _]; left|].
  intros [] l [-> Hid]. specialize (Hid eq_refl). rewrite !andb_true_iff, !negb_true_iff, !bool_decide_eq_false in Hid.
  eapply grows_then; [apply grows_name_owner|by intros e l ->; left|]. intros owner l ->.
  eapply grows_then; [apply grows_owned_proxy|by intros e l [-> _]; left|]. intros service l [-> ->].
  eapply grows_then; [apply grows_checked_search|by intros e l [Hl _]; left|]. intros [unlocked locked] l1 [H1 S1]. specialize (S1 _ eq_refl).
  eapply grows_then; [apply grows_ensure|intros e l [-> _]; left; by rewrite app_nil_r|]. intros [] l [-> Hf]. specialize (Hf eq_refl).
  rewrite andb_true_iff, negb_true_iff, bool_decide_eq_true, bool_decide_eq_false in Hf.
  eapply grows_then; [apply grows_owned_proxy|intros e l [-> _]; left; by rewrite !app_nil_r|]. intros item l [-> ->].
  eapply grows_then; [apply grows_checked_item|intros e l [Hl _]; left; cbn [app]; by rewrite changes_app, H1, Hl|].
  intros x l2 [H2 C2]. specialize (C2 _ eq_refl).
  eapply grows_then; [apply grows_checked_item|intros e l [Hl _]; left; cbn [app]; by rewrite !changes_app, H1, H2, Hl|].
  intros y l3 [H3 C3]. specialize (C3 _ eq_refl). cbn [app].
  eapply grows_then with (P := λ r l, l = [] ∧ (r = Ok true → y = x)).
  { destruct (bool_decide (y = x)) eqn:E; [apply bool_decide_eq_true in E|by apply grows_ret].
    eapply grows_then; [apply grows_name_owner|by intros e l ->|]. intros o l ->. by apply grows_ret. }
  { intros e l [-> _]. left. by rewrite !changes_app, H1, H2, H3. }
  intros still l [-> Hstill]. eapply grows_then; [apply grows_ensure|intros e l [-> _]; left; by rewrite !changes_app, H1, H2, H3|].
  intros [] l [-> Hs]. specialize (Hs eq_refl) as ->. specialize (Hstill eq_refl) as ->.
  assert (changes (l1 ++ l2 ++ l3) = [] ∧ verified path (expected_attributes uuid setting key) (l1 ++ l2 ++ l3)) as [H4 V].
  { split; [by rewrite !changes_app, H1, H2, H3|]. split; [|by exists x, l1, l2, l3]. exists (unlocked, locked).
    split; [|exact Hf]. destruct S1 as (reply & ? & ?). exists reply. split; [done|]. set_solver. }
  eapply grows_mono; [apply grows_delete_tail|]. intros r l (reply & l' & -> & Hl' & Hr). right.
  exists (l1 ++ l2 ++ l3), reply, l'. split; [cbn [app]; by rewrite <-!app_assoc|]. naive_solver.
Qed.
End Disposal.

(** ** The inventory reads metadata and links both ways *)

Section Reading.
Context {W : Type}.

Definition reads_metadata (e : bus_event) : Prop :=
  match e with
  | EvGet _ _ _ _ => True
  | EvSet _ _ _ _ _ => False
  | EvCall _ _ m _ _ => m ∈ ["ListConnections"; "GetSettings"; "SearchItems"]
  end.
Definition reading {A} (m : bus W A) : Prop := grows m (λ _ l, Forall reads_metadata l).
Lemma reading_bind {A D} (m : bus W A) (k : A → bus W D) : reading m → (∀ a, reading (k a)) → reading (bind m k).
Proof.
  intros Hm Hk. apply (grows_bind m k (λ _ l, Forall reads_metadata l) (λ _ _ l, Forall reads_metadata l)); [exact Hm|exact Hk|done|].
  intros a l r l' H1 H2. by apply Forall_app.
Qed.
Lemma reading_lift {A} (x : result A Error) : reading (lift x).
Proof. by apply grows_pure. Qed.
Lemma reading_ret {A} (x : A) : reading (ret x).
Proof. by apply grows_ret. Qed.
Lemma reading_attempt {A} (m : bus W A) : reading m → reading (attempt m).
Proof. intros Hm. apply grows_attempt with (Q := λ _ l, Forall reads_metadata l), Hm. Qed.
Lemma reading_local {A} (f : W → A * W) : reading (local f).
Proof. by apply grows_local. Qed.
Lemma reading_owner {B : Bus W} : reading name_owner.
Proof. by apply grows_access. Qed.
Lemma reading_get {B : Bus W} {A} (f : value → option A) p n : reading (get_property f p n).
Proof.
  apply reading_bind; [|intros; apply reading_lift]. apply grows_access with (Q := λ _ l, Forall reads_metadata l).
  intros r. constructor; [exact I|constructor].
Qed.
Lemma reading_call {B : Bus W} p m args : m ∈ ["ListConnections"; "GetSettings"; "SearchItems"] → reading (call_method p m args).
Proof.
  intros Hm. apply grows_access with (Q := λ _ l, Forall reads_metadata l). intros r. constructor; [exact Hm|constructor].
Qed.
Lemma reading_map_bus {A D} (f : A → bus W D) l : (∀ a, reading (f a)) → reading (map_bus f l).
Proof.
  intros Hf. induction l; cbn; [apply reading_ret|]. apply reading_bind; [done|]. intros. by apply reading_bind; [|intros; apply reading_ret].
Qed.
End Reading.
Ltac reading_tac :=
  repeat match goal with
  | |- ∀ _, _ => intro
  | |- reading (match ?x with _ => _ end) => destruct x
  | |- reading (bind _ _) => apply reading_bind
  | |- reading (lift _) => apply reading_lift
  | |- reading (ret _) => apply reading_ret
  | |- reading (attempt _) => apply reading_attempt
  | |- reading (local _) => apply reading_local
  | |- reading name_owner => apply reading_owner
  | |- reading (owned_proxy _ _) => apply reading_lift
  | |- reading (get_property _ _ _) => apply reading_get
  | |- reading (call_value _ _ _ _) => unfold call_value
  | |- reading (call_method _ _ _) => apply reading_call; set_solver
  | |- reading (map_bus _ _) => apply reading_map_bus
  | |- reading _ => assumption
  end.

Section Links.
Context {W : Type}.

Lemma reading_collect {B : Bus W} found : ∀ items, reading (collect_items found items).
Proof. induction found as [|[p k] found IH]; intros items; cbn [collect_items]; unfold legacy_item; reading_tac; apply IH. Qed.
Lemma reading_associate {B : Bus W} service profiles : ∀ items, reading (associate service profiles items).
Proof. induction profiles as [|p profiles IH]; intros items; cbn [associate]; unfold search_items; reading_tac; apply IH. Qed.
Lemma reading_inventory (SYS SES : Bus W) {M : MigrationHost W} : reading (inventory SYS SES).
Proof.
  unfold inventory, profile_entries, profile_entry, legacy_inventory, legacy_inventory_on, search_items.
  reading_tac; first [apply reading_collect|apply reading_associate].
Qed.

(** Items and profiles that name each other. *)
Definition matches (items : gmap string LegacyItem) (path uuid : string) : Prop :=
  ∃ i, items !! path = Some i ∧ uuid ∈ li_matched_profiles i.
Lemma match_items_spec uuid paths : ∀ items items', match_items uuid paths items = Ok items' → ∀ path u,
  matches items' path u ↔ matches items path u ∨ (u = uuid ∧ path ∈ paths).
Proof.
  induction paths as [|p paths IH]; intros items items' H path u; cbn in H.
  { injection H as ->. split; [by left|]. intros [?|[_ ?%elem_of_nil]]; done. }
  destruct (items !! p) as [i|] eqn:E; [|done]. cbn in H. rewrite (IH _ _ H). clear IH H. unfold matches. rewrite elem_of_cons.
  destruct (decide (path = p)) as [->|Hp].
  - rewrite lookup_insert_eq, E. split.
    + intros [(i' & [= <-] & Hu)|[-> Hin]]; [|by right; split; [|right]]. cbn in Hu.
      apply elem_of_app in Hu as [Hu|Hu]; [left; by exists i|]. apply list_elem_of_singleton in Hu as ->. by right; split; [|left].
    + intros [(i' & [= <-] & Hu)|[-> _]]; left; eexists; (split; [done|]); cbn; set_solver.
  - rewrite lookup_insert_ne by done. naive_solver.
Qed.
Lemma match_items_path uuid paths : ∀ items items', match_items uuid paths items = Ok items' →
  (∀ k i, items !! k = Some i → li_path i = k) → ∀ k i, items' !! k = Some i → li_path i = k.
Proof.
  induction paths as [|p paths IH]; intros items items' H Hk; cbn in H; [injection H as ->; exact Hk|].
  destruct (items !! p) as [i|] eqn:E; [|done]. eapply (IH _ _ H). intros k j Hj.
  destruct (decide (k = p)) as [->|Hp]; [|rewrite lookup_insert_ne in Hj by done; by apply Hk].
  rewrite lookup_insert_eq in Hj. injection Hj as <-. exact (Hk _ _ E).
Qed.
Lemma associate_spec {B : Bus W} service profiles : ∀ items items' found s s',
  associate service profiles items s = (Ok (items', found), s') →
  length found = length profiles ∧
  ((∀ k i, items !! k = Some i → li_path i = k) → ∀ k i, items' !! k = Some i → li_path i = k) ∧
  ∀ path u, matches items' path u ↔
    matches items path u ∨ ∃ j p paths, profiles !! j = Some p ∧ found !! j = Some paths ∧ mp_uuid p = u ∧ path ∈ paths.
Proof.
  induction profiles as [|p profiles IH]; intros items items' found s s' H; cbn [associate] in H.
  { apply done_Ok in H as [[= -> ->] ->]. split; [done|]. split; [done|]. intros path u. split; [by left|]. intros [?|(j & q & ps & Hj & _)]; done. }
  apply then_Ok in H as ([u0 l0] & s1 & _ & H). apply then_Ok in H as (items1 & s2 & [Hm ->]%lifted_Ok & H).
  apply then_Ok in H as ([items2 rest] & s3 & Ha & [[= -> ->] ->]%done_Ok).
  destruct (IH _ _ _ _ _ Ha) as (Hlen & Hk & Hiff). split; [cbn; by rewrite Hlen|].
  split; [intros Hi; apply Hk; by eapply match_items_path|]. intros path u. rewrite Hiff, (match_items_spec _ _ _ _ Hm).
  assert (∀ x, x ∈ sort_by cmp (u0 ++ l0) ↔ x ∈ u0 ++ l0) as Hs by (intros x; by rewrite sort_by_perm).
  split.
  - intros [[?|[-> Hin]]|(j & q & ps & H1 & H2 & H3 & H4)]; [by left| |].
    + right. exists 0, p, (sort_by cmp (u0 ++ l0)). rewrite Hs. done.
    + right. by exists (S j), q, ps.
  - intros [?|([|j] & q & ps & H1 & H2 & H3 & H4)]; [by left; left| |].
    + injection H1 as ->. injection H2 as <-. apply Hs in H4. left. right. done.
    + right. by exists j, q, ps.
Qed.
Lemma collect_spec {B : Bus W} found : ∀ items items' s s', collect_items found items s = (Ok items', s') →
  (∀ k i, items !! k = Some i → li_path i = k ∧ li_matched_profiles i = []) →
  ∀ k i, items' !! k = Some i → li_path i = k ∧ li_matched_profiles i = [].
Proof.
  induction found as [|[p b] found IH]; intros items items' s s' H Hi; cbn [collect_items] in H.
  { by apply done_Ok in H as [-> ->]. }
  apply then_Ok in H as (i & s1 & Hl & H). apply then_Ok in H as (? & s2 & [_ ->]%lifted_Ok & H). apply (IH _ _ _ _ H).
  intros k j. destruct (decide (k = p)) as [->|Hp]; [|rewrite lookup_insert_ne by done; apply Hi].
  rewrite lookup_insert_eq. intros [= <-]. unfold legacy_item in Hl. apply then_Ok in Hl as (? & ? & _ & Hl).
  apply then_Ok in Hl as (? & ? & _ & Hl). by apply done_Ok in Hl as [-> _].
Qed.

(** The links of an inventory: both sides name the same pairs. *)
Definition linked (v : Legacy) (profiles : list Profile) : Prop :=
  ∀ path u, (∃ i, i ∈ lg_items v ∧ li_path i = path ∧ u ∈ li_matched_profiles i) ↔
    (∃ p, p ∈ profiles ∧ mp_uuid p = u ∧ path ∈ mp_legacy_items p).
Lemma legacy_linked {B : Bus W} profiles v profiles' s s' : legacy_inventory_on profiles s = (Ok (v, profiles'), s') →
  lg_available v = true ∧ linked v profiles'.
Proof.
  unfold legacy_inventory_on. intros (owner & s1 & _ & H)%then_Ok. apply then_Ok in H as (service & s2 & _ & H).
  apply then_Ok in H as ([u0 l0] & s3 & _ & H). apply then_Ok in H as (items & s4 & Hc & H).
  apply then_Ok in H as ([items' found] & s5 & Ha & H). apply then_Ok in H as (o & s6 & _ & H).
  apply then_Ok in H as (? & s7 & [_ ->]%lifted_Ok & [[= -> ->] ->]%done_Ok). split; [done|].
  pose proof (collect_spec _ _ _ _ _ Hc) as Hi. specialize (Hi ltac:(by intros k i)).
  destruct (associate_spec _ _ _ _ _ _ _ Ha) as (Hlen & Hk & Hiff). specialize (Hk (λ k i H, proj1 (Hi k i H))).
  intros path u. cbn [lg_items].
  assert ((∃ i, i ∈ sort_by (λ a b, cmp (li_path a) (li_path b)) (map_to_list items').*2 ∧ li_path i = path ∧ u ∈ li_matched_profiles i)
    ↔ matches items' path u) as ->.
  { unfold matches. split.
    - intros (i & Hin & <- & Hu). rewrite sort_by_perm in Hin. apply list_elem_of_fmap in Hin as ([k j] & -> & Hkj%elem_of_map_to_list).
      cbn in *. rewrite (Hk _ _ Hkj). by exists j.
    - intros (i & Hp & Hu). exists i. rewrite sort_by_perm. split; [|by split; [by apply Hk|]].
      apply list_elem_of_fmap. exists (path, i). split; [done|]. by apply elem_of_map_to_list. }
  rewrite Hiff. split.
  - intros [(i & Hp & Hu)|(j & p & ps & H1 & H2 & H3 & H4)]; [destruct (Hi _ _ Hp) as [_ E]; rewrite E in Hu; by apply elem_of_nil in Hu|].
    exists (with_items p ps). split; [|done]. apply list_elem_of_lookup. exists j. rewrite lookup_zip_with, H1, H2. done.
  - intros (p & [j Hj]%list_elem_of_lookup & Hu & Hin). right. rewrite lookup_zip_with in Hj.
    destruct (profiles !! j) as [q|] eqn:E1; [|done]. destruct (found !! j) as [ps|] eqn:E2; [|done].
    injection Hj as <-. by exists j, q, ps.
Qed.

(** The inventory does what its flags say: it only reads metadata on either bus, asks for no
    secret and changes nothing. Profiles and legacy items name each other: an item lists the
    UUID of a profile exactly when that profile lists the item; when any of the queries to
    the secret service fails, no item is shown and no profile is linked. *)
Theorem inventory_reads_and_links (SYS SES : Bus W) {M : MigrationHost W} s :
  let '(r, s') := inventory SYS SES s in
  (∃ l, trace s' = trace s ++ l ∧ Forall reads_metadata l) ∧
  ∀ v, r = Ok v →
    (lg_available (iv_legacy v) = true ∧ linked (iv_legacy v) (iv_profiles v)) ∨
    (lg_available (iv_legacy v) = false ∧ lg_items (iv_legacy v) = [] ∧ ∀ p, p ∈ iv_profiles v → mp_legacy_items p = []).
Proof.
  pose proof (reading_inventory SYS SES s) as (l & Hl & Hr). destruct (inventory SYS SES s) as [r s'] eqn:E.
  split; [by exists l|]. intros v ->. unfold inventory in E.
  apply then_Ok in E as (sy & s1 & _ & E). apply then_Ok in E as (? & s2 & _ & E). apply then_Ok in E as (owner & s3 & _ & E).
  apply then_Ok in E as ([version profiles] & s4 & Hp & E). apply then_Ok in E as (r & s5 & Hleg%attempt_Ok & E).
  assert (∀ p, p ∈ profiles → mp_legacy_items p = []) as Hnone.
  { clear -Hp. unfold profile_entries in Hp. do 3 apply then_Ok in Hp as (? & ? & _ & Hp).
    apply then_Ok in Hp as (paths & t2 & _ & Hp). apply then_Ok in Hp as (ps & t3 & Hm & [[= -> ->] _]%done_Ok).
    intros p. rewrite sort_by_perm. revert t2 ps t3 Hm. induction paths as [|path paths IH]; intros t2 ps t3 Hm; cbn [map_bus] in Hm.
    - apply done_Ok in Hm as [-> _]. by intros ?%elem_of_nil.
    - apply then_Ok in Hm as (e & t5 & He & Hm). apply then_Ok in Hm as (es & t6 & Hes & [-> _]%done_Ok).
      intros [->|Hin]%elem_of_cons; [|by eapply IH]. unfold profile_entry in He.
      do 7 apply then_Ok in He as (? & ? & _ & He). by apply done_Ok in He as [-> _]. }
  destruct r as [[legacy linked_profiles]|e]; (apply then_Ok in E as (o & s6 & _ & E);
    apply then_Ok in E as (? & s7 & [_ ->]%lifted_Ok & [-> ->]%done_Ok)); cbn [iv_legacy iv_profiles lg_available lg_items].
  - left. unfold legacy_inventory in Hleg. apply then_Ok in Hleg as (? & ? & _ & H). apply then_Ok in H as (? & ? & _ & H).
    by eapply legacy_linked.
  - right. done.
Qed.
End Links.
