(* ===== verification/Saved.v ===== *)
(** * Saved profiles on the bus ([src/nm/settings.rs], [src/nm/settings/casting.rs])

    The operations on saved profiles that read or change NetworkManager: listing the saved
    Wi-Fi profiles, matching them with access points, choosing what to activate for a connect
    target, editing a profile and applying Cast discovery to live connections. Decoding and
    editing settings is [Profiles]; an edit is a transaction of [ProfileWriter], which runs
    here on the state the class [ProfileStore] keeps for the profile. *)
From S2P Require Import Prelude Errors Text Identity Wifi Network Variant IpSettings Profiles ProfileWriter Bus Inventory Devices.
From Stdlib Require Import ZArith Lia Ascii.
From stdpp Require Import prelude gmap strings list.

(** ** Profile transactions *)

(** The service's state of a profile, how the world goes on from it, what other clients do
    between the calls of a transaction and which calls fail. *)
Class ProfileStore (W S : Type) {SV : ProfileService S} := {
  pf_service : string → W → S;
  pf_after : string → S → W → W;
  pf_others : W → nat → S → S;
  pf_fails : W → nat → bool;
}.

(** Cast discovery's firewall is another system service. *)
Class CastFirewall (W : Type) := { cast_reconcile : W → result unit Error * W }.

Definition set_remember (remember : option bool) (p : SavedWifiConnection) : SavedWifiConnection :=
  {| sw_path := sw_path p; sw_id := sw_id p; sw_ssid := sw_ssid p; sw_ssid_bytes := sw_ssid_bytes p;
     sw_remember := remember; sw_autoconnect := sw_autoconnect p; sw_casting_enabled := sw_casting_enabled p;
     sw_privacy := sw_privacy p |}.

(** What is offered for an access point in use: the profile in use first, or none for
    retention when it is not known which one is. *)
Definition use_profile (in_use : option SavedWifiConnection) (profiles : list SavedWifiConnection) :
    list SavedWifiConnection :=
  match in_use with
  | Some p => p :: List.filter (λ q, negb (bool_decide (sw_path q = sw_path p))) profiles
  | None => set_remember None <$> profiles
  end.

Section Saved.
Context {W S : Type} {B : Bus W} {D : DeviceHost W} {SV : ProfileService S} {PS : ProfileStore W S}.
Context (path_error : string → option Error).

Definition update_event (path : string) (w : write (S:=S)) : bus_event :=
  EvCall path SETTINGS_CONNECTION_IFACE "Update2"
    [of_settings (w_settings w); VU32 (w_flags w);
     VDict [(VStr "version-id", VU64 (w_version w))]]
    (Ok [VDict []]).
(** A transaction on a profile; the trace shows the writes the service accepted. *)
Definition profile_io {A} (path : string)
    (m : string → (nat → S → S) → (nat → bool) → io (S:=S) A) : bus W A := λ s,
  let '(x, r) := m bus_destination (pf_others (world s)) (pf_fails (world s))
                   {| next := 0; service := pf_service path (world s); writes := [] |} in
  (x, {| world := pf_after path (service r) (world s);
         trace := trace s ++ (update_event path <$> writes r) |}).

Definition connection_remembered (path : string) : bus W bool := profile_io path ProfileWriter.connection_remembered.

(** ** Listing *)

Definition saved_wifi_connection (path : string) : bus W (option SavedWifiConnection) :=
  let! settings := connection_settings_if_present path in
  match settings ≫= saved_wifi_connection_from_settings path with
  | None => ret None
  | Some p => let! remember := ok_opt (connection_remembered path) in ret (Some (set_remember remember p))
  end.
Definition by_name (a b : SavedWifiConnection) : comparison :=
  cmp (dh_lowercase (sw_id a)) (dh_lowercase (sw_id b)).
Definition saved_wifi_connections : bus W (list SavedWifiConnection) :=
  let! paths := saved_connections in
  let! connections := filter_map_bus saved_wifi_connection paths in
  ret (sort_by by_name connections).

Definition not_wifi_profile (path : string) : Error :=
  EDomain (not_found Op.ProfileOperation ("connection is not a saved Wi-Fi profile: " +:+ path)).
Definition saved_wifi_connection_by_path (path : string) : bus W SavedWifiConnection :=
  let! settings := connection_settings path in
  lift (ok_or (saved_wifi_connection_from_settings path settings) (not_wifi_profile path)).

Definition parse_connection_path (path : string) : bus W string :=
  lift match path_error path with None => Ok path | Some e => Err (add_context "parse connection path" e) end.
Definition wifi_profile_details_by_path (debug : value → string) (path : string) : bus W WifiProfileDetails :=
  let! path := parse_connection_path path in
  let! settings := connection_settings path in
  lift (wifi_profile_details debug path settings).

(** ** Profiles for access points *)

Definition saved_wifi_profile_candidate (path : string) : bus W (option SavedWifiProfileCandidate) :=
  let! settings := connection_settings_if_present path in
  match settings ≫= saved_wifi_profile_candidate_from_settings path with
  | None => ret None
  | Some c =>
    let! remember := ok_opt (connection_remembered path) in
    ret (Some {| pc_profile := set_remember remember (pc_profile c); pc_matcher := pc_matcher c |})
  end.
Definition candidates_by_path (l : list SavedWifiProfileCandidate) : gmap string SavedWifiProfileCandidate :=
  foldl (λ m c, <[sw_path (pc_profile c) := c]> m) ∅ l.
Definition saved_wifi_profile_candidates_by_path : bus W (gmap string SavedWifiProfileCandidate) :=
  let! paths := saved_connections in
  let! l := filter_map_bus saved_wifi_profile_candidate paths in
  ret (candidates_by_path l).

Definition available_connections (device : WifiDevice) : bus W (list string) :=
  let! p := proxy (wd_path device) DEVICE_IFACE in
  with_context ("read AvailableConnections for " +:+ wd_iface device) (get_property as_paths p "AvailableConnections").
(** The connections a device offers, read once for each device. *)
Definition available_connections_cached (ap : AccessPoint) (device : WifiDevice) (cache : gmap string (list string)) :
    bus W (option (list string) * gmap string (list string)) :=
  match cache !! ap_device_path ap with
  | Some available => ret (Some available, cache)
  | None =>
    let! available := ok_opt (available_connections device) in
    ret match available with
        | Some l => (Some l, <[ap_device_path ap := l]> cache)
        | None => (None, cache)
        end
  end.
Definition wifi_device_for_access_point (ap : AccessPoint) : option WifiDevice :=
  match path_error (ap_device_path ap) with
  | None => Some {| wd_path := ap_device_path ap; wd_iface := ap_device_iface ap |}
  | Some _ => None
  end.

Definition compatible (candidates : gmap string SavedWifiProfileCandidate) (ap : AccessPoint) (path : string) :
    option SavedWifiConnection :=
  c ← candidates !! path;
  if matches_access_point (pc_matcher c) ap then Some (pc_profile c) else None.
Definition active_profile_path (device : WifiDevice) : bus W string :=
  let! p := proxy (wd_path device) DEVICE_IFACE in
  let! active := get_property as_path p "ActiveConnection" in
  let! a := proxy active ACTIVE_CONNECTION_IFACE in
  get_property as_path a "Connection".

(** [matches] maps the paths of access points to profiles. *)
Definition matches : Type := list (string * list SavedWifiConnection).
Definition add_compatible_profile_matches (candidates : gmap string SavedWifiProfileCandidate)
    (acc : gmap string (list string) * matches) (ap : AccessPoint) : bus W (gmap string (list string) * matches) :=
  match wifi_device_for_access_point ap with
  | None => ret acc
  | Some device =>
    let! (available, cache) := available_connections_cached ap device acc.1 in
    match available with
    | None => ret (cache, acc.2)
    | Some available =>
      let extended := unwrap_or (bt_get (ap_path ap) acc.2) [] ++ omap (compatible candidates ap) available in
      if ap_active ap then
        let! active := ok_opt (active_profile_path device) in
        ret (cache, bt_insert (ap_path ap) (use_profile (active ≫= compatible candidates ap) extended) acc.2)
      else ret (cache, bt_insert (ap_path ap) extended acc.2)
    end
  end.
Fixpoint add_all_matches (candidates : gmap string SavedWifiProfileCandidate)
    (acc : gmap string (list string) * matches) (aps : list AccessPoint) : bus W (gmap string (list string) * matches) :=
  match aps with
  | [] => ret acc
  | ap :: aps =>
    let! acc := add_compatible_profile_matches candidates acc ap in add_all_matches candidates acc aps
  end.
Definition compatible_profile_matches_by_ap_path (aps : list AccessPoint) : bus W matches :=
  let! candidates := saved_wifi_profile_candidates_by_path in
  let! acc := add_all_matches candidates (∅, []) aps in
  ret acc.2.
Definition network_entries_for_access_points (aps : list AccessPoint) : bus W (list NetworkEntry) :=
  let! m := compatible_profile_matches_by_ap_path aps in
  ret (network_entries_with_profile_matches aps m).

(** ** What to activate *)

Definition connection_matches_ssid (path : string) (bytes : list u8) : bus W bool :=
  let! settings := connection_settings path in ret (settings_match_wifi_ssid settings bytes).
Definition connection_matches_access_point (path : string) (ap : AccessPoint) : bus W bool :=
  let! settings := connection_settings path in ret (settings_match_access_point settings ap).
(** The first path [f] accepts. *)
Definition find_path (f : string → bus W bool) (paths : list string) : bus W (option string) :=
  first_bus (λ path, let! b := f path in ret (if b then Some path else None)) paths.
Definition saved_wifi_connection_for_ap_on_device (ap : AccessPoint) (device : WifiDevice) : bus W (option string) :=
  let! paths := available_connections device in find_path (λ path, connection_matches_access_point path ap) paths.
Definition saved_wifi_connection_settings_for_ap_on_device (ap : AccessPoint) (device : WifiDevice) :
    bus W (option ConnectionSettings) :=
  let! path := saved_wifi_connection_for_ap_on_device ap device in
  match path with
  | None => ret None
  | Some path => let! settings := connection_settings path in ret (Some settings)
  end.
Definition saved_wifi_connection_for_ssid (bytes : list u8) : bus W (option string) :=
  let! paths := saved_connections in find_path (λ path, connection_matches_ssid path bytes) paths.

Definition visible_saved_activation_target (target : WifiConnectTarget) : bus W (option (string * string * string)) :=
  if t_hidden target then ret None
  else
    let! found := visible_access_point_for target in
    match found with
    | None => ret None
    | Some (device, ap_path, ap) =>
      let! connection_path := saved_wifi_connection_for_ap_on_device ap device in
      ret ((λ path, (path, wd_path device, ap_path)) <$> connection_path)
    end.
Definition generic_saved_activation_target (target : WifiConnectTarget) : bus W (option (string * string * string)) :=
  let! connection_path := saved_wifi_connection_for_ssid (ssid_bytes (t_ssid target)) in
  match connection_path with
  | None => ret None
  | Some path =>
    let! devices := wifi_devices_for_target target in
    match devices with
    | [] => lift (Err (EDomain (not_found Op.Connect "no matching Wi-Fi device found")))
    | device :: _ =>
      let! root := lift (object_path path_error "/") in
      ret (Some (path, wd_path device, root))
    end
  end.
Definition saved_wifi_activation_target_for (target : WifiConnectTarget) : bus W (option (string * string * string)) :=
  let! activation := visible_saved_activation_target target in
  match activation with
  | Some a => ret (Some a)
  | None => if has_specific_ap target then ret None else generic_saved_activation_target target
  end.

(** ** Edits *)

Definition no_reapply {A : Type} : A → io (S:=S) unit := λ _, ProfileWriter.ret tt.
Definition mutate_connection_settings (path : string)
    (mutate : ConnectionSettings → result ConnectionSettings Error) : bus W unit :=
  let! path := parse_connection_path path in
  profile_io path (λ destination env fails,
    mutate_connection_settings_with_casting destination env fails path None mutate no_reapply).
Definition set_connection_autoconnect_by_path (path : string) (autoconnect : bool) : bus W unit :=
  mutate_connection_settings path
    (λ c, Ok (update_section "connection" (λ s, <["autoconnect" := VBool autoconnect]> s) c)).
Definition set_connection_mac_randomization_by_path (path : string) (randomized : bool) : bus W unit :=
  mutate_connection_settings path
    (λ c, Ok (apply_mac_address_policy (if randomized then "stable" else "permanent") c)).
Definition set_connection_send_hostname_by_path (path : string) (enabled : bool) : bus W unit :=
  mutate_connection_settings path (λ c, Ok (set_send_hostname "ipv6" enabled (set_send_hostname "ipv4" enabled c))).

(** ** Secrets and sharing *)

Record WifiProfileSecret := {
  wx_path : string; wx_available : bool; wx_kind : string; wx_setting_name : option string;
  wx_secret_keys : list string; wx_primary_secret_key : option string;
  wx_values : list (string * string); wx_password : option string;
}.
Definition connection_secrets (path setting_name : string) : bus W ConnectionSettings :=
  let! connection := proxy path SETTINGS_CONNECTION_IFACE in
  with_context ("GetSecrets " +:+ setting_name +:+ " for " +:+ path)
    (call_value as_settings connection "GetSecrets" [VStr setting_name]).
Definition wifi_profile_secret_by_path (path : string) : bus W WifiProfileSecret :=
  let! path := parse_connection_path path in
  let! settings := connection_settings path in
  if negb (bool_decide (is_Some (saved_wifi_connection_from_settings path settings)))
  then lift (Err (not_wifi_profile path))
  else
    let spec := profile_secret_spec settings in
    let! secrets := match ps_setting_name spec with
                    | Some setting_name => ok_opt (connection_secrets path setting_name)
                    | None => ret None
                    end in
    let values := profile_secret_values settings secrets spec in
    ret {| wx_path := path; wx_available := negb (bool_decide (values = [])); wx_kind := ps_kind spec;
           wx_setting_name := ps_setting_name spec; wx_secret_keys := ps_secret_keys spec;
           wx_primary_secret_key := ps_primary_secret_key spec; wx_values := values;
           wx_password := ps_primary_secret_key spec ≫= λ key, bt_get key values |}.
Definition with_version (version : string) (p : WifiSharePayload) : WifiSharePayload :=
  {| wsp_status := wsp_status p; wsp_shareable := wsp_shareable p; wsp_reason := wsp_reason p;
     wsp_path := wsp_path p; wsp_id := wsp_id p; wsp_ssid := wsp_ssid p; wsp_auth_type := wsp_auth_type p;
     wsp_qr_payload := wsp_qr_payload p; wsp_qr_svg := wsp_qr_svg p; wsp_password := wsp_password p;
     wsp_version := Some version |}.
(** The settings are read again after the secrets. *)
Definition wifi_share_payload_by_path (debug : value → string) (qrcode : string → result string Error) (path : string) :
    bus W WifiSharePayload :=
  let! path := parse_connection_path path in
  let! settings := connection_settings path in
  match saved_wifi_connection_from_settings path settings with
  | None => lift (Err (EDomain (with_detail "path" (JStr path)
              (not_found Op.ProfileOperation ("connection is not a saved Wi-Fi profile: " +:+ path)))))
  | Some profile =>
    let! secrets := ok_opt (connection_secrets path "802-11-wireless-security") in
    let payload := wifi_share_payload_for_settings qrcode profile settings secrets in
    let! again := connection_settings path in
    let! _ := lift (ensure (bool_decide (profile_version debug again = profile_version debug settings))
      (plain "Wi-Fi profile changed while preparing sharing; request it again")) in
    ret (with_version (profile_version debug settings) payload)
  end.

(** ** Cast discovery on live connections *)

Context {CF : CastFirewall W}.
Definition reconcile_cast_firewall : bus W unit :=
  with_context "apply Cast firewall policy (nm-cast-policy system service required)" (access cast_reconcile (λ _, None)).

Definition as_applied (reply : list value) : option (ConnectionSettings * N) :=
  match reply with
  | [v; VU64 version] => (λ c, (c, version)) <$> as_settings v
  | _ => None
  end.
Definition PRESERVE_EXTERNAL_IP : N := 1.
Definition reapply_device_casting (device_path active_path : string) (enabled : bool) : bus W unit :=
  let! device := proxy device_path DEVICE_IFACE in
  let! (applied, version) := with_context ("read applied settings for " +:+ device_path)
    (let! reply := call_method device "GetAppliedConnection" [VU32 0] in lift (ok_or (as_applied reply) type_error)) in
  let! current_active := get_property as_path device "ActiveConnection" in
  let! _ := lift (ensure (bool_decide (current_active = active_path) && negb (version =? 0)%N)
    (EDomain (conflict Op.ProfileOperation "Active connection changed while applying Cast discovery; retry"))) in
  let desired := if enabled then NM_MDNS_RESOLVE else NM_MDNS_DISABLED in
  if bool_decide (mdns_policy applied = Some desired) then ret tt
  else
    with_context ("reapply Cast discovery on " +:+ device_path)
      (call_unit device "Reapply"
         [of_settings (set_casting_enabled enabled applied); VU64 version; VU32 PRESERVE_EXTERNAL_IP]).
(** [for .. { f? }]. *)
Fixpoint for_each {A} (f : A → bus W unit) (l : list A) : bus W unit :=
  match l with
  | [] => ret tt
  | a :: l => let! _ := f a in for_each f l
  end.
Definition reapply_casting_resolver (profile : string) (enabled : bool) : bus W unit :=
  let! active_paths := with_context "read active connections for Cast discovery"
                         (get_property as_paths root_proxy "ActiveConnections") in
  for_each (λ active_path,
    let! active := proxy active_path ACTIVE_CONNECTION_IFACE in
    let! active_profile := get_property as_path active "Connection" in
    if negb (bool_decide (active_profile = profile)) then ret tt
    else
      let! devices := get_property as_paths active "Devices" in
      for_each (λ device_path, reapply_device_casting device_path active_path enabled) devices) active_paths.

Definition error_of {A} (r : result A Error) : option string :=
  match r with Ok _ => None | Err e => Some (err_chain e) end.
(** The firewall closes before and opens after the resolver's change. *)
Definition reapply_casting (profile : string) (enabled : bool) : bus W unit :=
  let! before := attempt reconcile_cast_firewall in
  let! resolver := attempt (reapply_casting_resolver profile enabled) in
  let! after := attempt reconcile_cast_firewall in
  let failures := omap error_of [before; resolver; after] in
  lift (ensure (bool_decide (failures = [])) (plain (str_join "; " failures))).

Definition casting_error (e : Error) : Error :=
  EDomain (with_cause e (with_detail "live_applied" (JBool false) (with_detail "profile_saved" (JBool true)
    (new Code.ActivationFailed Op.ProfileOperation Src.NetworkManager
       ("Profile saved, but live Cast discovery update failed; retry the toggle or reconnect to apply: "
        +:+ err_chain e))))).
(** [mutate_connection_settings_with_casting]: the transaction, then the live connections. *)
Definition mutate_with_casting (path : string) (casting : option bool)
    (mutate : ConnectionSettings → result ConnectionSettings Error) : bus W unit :=
  let! path := parse_connection_path path in
  let! _ := profile_io path (λ destination env fails,
    mutate_connection_settings_with_casting destination env fails path casting mutate no_reapply) in
  match casting with
  | None => ret tt
  | Some enabled =>
    let! r := attempt (reapply_casting path enabled) in
    lift (result_map_err casting_error r)
  end.
Definition set_connection_casting_by_path (path : string) (enabled : bool) : bus W unit :=
  mutate_with_casting path (Some enabled) (λ c, Ok (set_casting_enabled enabled c)).
Definition update_wifi_profile_by_path (debug : value → string) (path : string) (u : WifiProfileUpdate) : bus W unit :=
  let! _ := lift (validate_profile_update u) in
  mutate_with_casting path (pa_casting_enabled (wu_advanced u)) (apply_profile_update debug u).
End Saved.

(** ** Reading changes nothing *)

Section Facts.
Context {W S : Type} {B : Bus W} {D : DeviceHost W} {SV : ProfileService S} {PS : ProfileStore W S}.
Context (path_error : string → option Error).
Implicit Types s : Session W.

(** A transaction adds the updates it made, of its profile only. *)
Lemma profile_io_trace {A} path (m : string → (nat → S → S) → (nat → bool) → io (S:=S) A) s :
  ∃ l, trace (profile_io path m s).2 = trace s ++ (update_event (S:=S) path <$> l).
Proof. unfold profile_io. destruct (m _ _ _ _) as [x r]. cbn. eauto. Qed.
Lemma quiet_profile_io {A} path (m : string → (nat → S → S) → (nat → bool) → io (S:=S) A) :
  (∀ d e f r, writes (m d e f r).2 = writes r) → quiet (profile_io (W:=W) path m).
Proof.
  intros Hm s. unfold profile_io. specialize (Hm bus_destination (pf_others (world s)) (pf_fails (world s))
    {| next := 0; service := pf_service path (world s); writes := [] |}).
  destruct (m _ _ _ _) as [x r]. cbn in *. by rewrite Hm, app_nil_r.
Qed.
Lemma quiet_remembered path : quiet (connection_remembered (W:=W) (S:=S) path).
Proof.
  apply quiet_profile_io. intros d e f r. unfold ProfileWriter.connection_remembered, ProfileWriter.bind,
    ProfileWriter.get_property. cbn. repeat (case_match; simplify_eq/=); done.
Qed.
Lemma quiet_settings_if_present path : quiet (connection_settings_if_present (W:=W) path).
Proof. unfold connection_settings_if_present. quiet_tac. Qed.
#[local] Hint Resolve quiet_remembered quiet_settings_if_present : bus_quiet.
Lemma quiet_saved_wifi_connections : quiet (saved_wifi_connections (W:=W) (S:=S)).
Proof. unfold saved_wifi_connections, saved_wifi_connection. quiet_tac. Qed.
Lemma quiet_candidates : quiet (saved_wifi_profile_candidates_by_path (W:=W) (S:=S)).
Proof. unfold saved_wifi_profile_candidates_by_path, saved_wifi_profile_candidate. quiet_tac. Qed.
Lemma quiet_available d : quiet (available_connections (W:=W) d).
Proof. unfold available_connections. quiet_tac. Qed.
#[local] Hint Resolve quiet_candidates quiet_available : bus_quiet.
Lemma quiet_active_profile_path d : quiet (active_profile_path (W:=W) d).
Proof. unfold active_profile_path. quiet_tac. Qed.
#[local] Hint Resolve quiet_active_profile_path : bus_quiet.
Lemma quiet_add_matches candidates acc ap : quiet (add_compatible_profile_matches (W:=W) path_error candidates acc ap).
Proof. unfold add_compatible_profile_matches, available_connections_cached. quiet_tac. Qed.
Lemma quiet_add_all candidates aps : ∀ acc, quiet (add_all_matches (W:=W) path_error candidates acc aps).
Proof.
  induction aps as [|ap aps IH]; intros acc; cbn; [apply quiet_done|].
  apply quiet_then; [apply quiet_add_matches|done].
Qed.
#[local] Hint Resolve quiet_add_all : bus_quiet.
Lemma quiet_network_entries aps : quiet (network_entries_for_access_points (W:=W) (S:=S) path_error aps).
Proof. unfold network_entries_for_access_points, compatible_profile_matches_by_ap_path. quiet_tac. Qed.
Lemma quiet_matches_ssid p b : quiet (connection_matches_ssid (W:=W) p b).
Proof. unfold connection_matches_ssid. quiet_tac. Qed.
#[local] Hint Resolve quiet_matches_ssid : bus_quiet.
Lemma quiet_ap_on_device ap d : quiet (saved_wifi_connection_for_ap_on_device (W:=W) ap d).
Proof. unfold saved_wifi_connection_for_ap_on_device, find_path, connection_matches_access_point. quiet_tac. Qed.
#[local] Hint Resolve quiet_ap_on_device : bus_quiet.
Lemma quiet_activation_target t : quiet (saved_wifi_activation_target_for (W:=W) path_error t).
Proof.
  unfold saved_wifi_activation_target_for, visible_saved_activation_target, generic_saved_activation_target,
    saved_wifi_connection_for_ssid, find_path. quiet_tac.
Qed.

(** ** Profiles for an access point *)

Lemma use_profile_elem in_use profiles p :
  p ∈ use_profile in_use profiles →
  in_use = Some p ∨ ∃ q, q ∈ profiles ∧ (p = q ∨ p = set_remember None q).
Proof.
  destruct in_use as [u|]; cbn.
  - intros [->|Hp]%elem_of_cons; [by left|]. right. apply list_elem_of_In, List.filter_In in Hp as [Hp _].
    exists p. split; [by apply list_elem_of_In|by left].
  - intros (q & -> & ?)%list_elem_of_fmap. eauto.
Qed.
Lemma compatible_Some candidates ap path p :
  compatible candidates ap path = Some p →
  ∃ c, candidates !! path = Some c ∧ pc_profile c = p ∧ matches_access_point (pc_matcher c) ap = true.
Proof.
  unfold compatible. destruct (candidates !! path) as [c|]; [|done]. cbn. destruct (matches_access_point _ _) eqn:E; [|done].
  intros [= <-]. eauto.
Qed.

(** What [l] offers for [ap], beyond the profiles [old] found before. *)
Definition offered (candidates : gmap string SavedWifiProfileCandidate) (ap : AccessPoint)
    (old l : list SavedWifiConnection) : Prop :=
  ∀ p, p ∈ l → ∃ q, (p = q ∨ p = set_remember None q) ∧
    (q ∈ old ∨ ∃ path c, candidates !! path = Some c ∧ pc_profile c = q ∧
                         matches_access_point (pc_matcher c) ap = true).

(** The profiles offered for an access point are candidates whose SSID, BSSID, band and
    channel match it; for an access point in use the first is the profile of the device's
    active connection, and when that is not known no profile is offered for retention.
    Matching an access point changes nothing, and leaves the others alone. *)
Theorem profile_in_use_first candidates acc ap s :
  match add_compatible_profile_matches path_error candidates acc ap s with
  | (Ok acc', s') =>
    effects (trace s') = effects (trace s) ∧
    (∀ path, path ≠ ap_path ap → bt_get path acc'.2 = bt_get path acc.2) ∧
    (acc'.2 = acc.2 ∨ ∃ l, bt_get (ap_path ap) acc'.2 = Some l ∧
       offered candidates ap (unwrap_or (bt_get (ap_path ap) acc.2) []) l ∧
       (ap_active ap = true →
          Forall (λ p, sw_remember p = None) l ∨
          ∃ device s1 s2 path p rest, wifi_device_for_access_point path_error ap = Some device ∧
            active_profile_path device s1 = (Ok path, s2) ∧ compatible candidates ap path = Some p ∧
            l = p :: rest ∧ Forall (λ q, sw_path q ≠ sw_path p) rest))
  | (Err _, _) => False
  end.
Proof.
  pose proof (quiet_add_matches candidates acc ap s) as Hq. revert Hq.
  unfold add_compatible_profile_matches. destruct (wifi_device_for_access_point path_error ap) as [device|] eqn:Hd;
    [|cbn; by auto].
  set (m := available_connections_cached ap device acc.1).
  assert (succeeds m) as Hm by (unfold m, available_connections_cached; total_tac).
  destruct (succeeds_Ok m s Hm) as ([[available|] cache] & s1 & E); unfold bind; rewrite E; [|cbn; by auto].
  set (extended := unwrap_or _ [] ++ _).
  assert (offered candidates ap (unwrap_or (bt_get (ap_path ap) acc.2) []) extended) as Hext.
  { intros p [Hp|Hp]%elem_of_app; exists p; (split; [by left|]); [by left|right].
    apply list_elem_of_omap in Hp as (path & _ & (c & ? & ? & ?)%compatible_Some). eauto 6. }
  destruct (ap_active ap) eqn:Ha; [|cbn; intros Hq; split_and!; [done| |right]].
  - destruct (succeeds_Ok (ok_opt (active_profile_path device)) s1) as (active & s2 & E2); [apply succeeds_ok_opt|].
    rewrite E2. cbn. intros Hq. split_and!; [done| |right].
    + intros path Hp. by apply bt_get_insert_ne.
    + eexists. split; [apply bt_get_insert_eq|]. split.
      * intros p Hp. apply use_profile_elem in Hp as [Hp|(q & Hq' & Hpq)].
        -- exists p. split; [by left|]. right. destruct active as [path|]; [|done].
           apply compatible_Some in Hp as (c & ? & ? & ?). eauto 6.
        -- destruct (Hext q Hq') as (x & Hx & ?). exists x. split; [|done].
           destruct Hpq as [->| ->]; [done|]. right. by destruct Hx as [->| ->].
      * intros _. destruct active as [path|]; [destruct (compatible candidates ap path) as [p|] eqn:Hc|]; cbn; rewrite ?Hc.
        -- right. exists device. unfold ok_opt in E2. bus_unroll.
           match goal with H : Some path = match ?r with _ => _ end |- _ => destruct r; [|done]; injection H as -> end.
           do 5 eexists. split_and!; [done|done|done|done|].
           apply Forall_forall. intros q Hq'. apply list_elem_of_In, List.filter_In in Hq' as [_ Hq'].
           by case_bool_decide.
        -- left. by apply Forall_fmap, Forall_forall.
        -- left. by apply Forall_fmap, Forall_forall.
  - intros path Hp. by apply bt_get_insert_ne.
  - eexists. split; [apply bt_get_insert_eq|]. by split.
Qed.

(** ** What is activated for a target *)

Lemma find_path_Some f paths s path s' :
  find_path (W:=W) f paths s = (Ok (Some path), s') → path ∈ paths ∧ ∃ s1, f path s1 = (Ok true, s').
Proof.
  intros (p & s1 & Hin & H)%first_bus_Some. bus_unroll. subst. destruct x; [|done]. simplify_eq. eauto.
Qed.
(** The profile at [path] had settings, when they were read, of which [p] holds. *)
Definition read_as (path : string) (p : ConnectionSettings → bool) : Prop :=
  ∃ s s' settings, connection_settings (W:=W) path s = (Ok settings, s') ∧ p settings = true.

(** The saved profile activated for a connect target: either the target is not hidden,
    and the profile is one the device offers and its SSID, BSSID, band and channel match
    the visible access point found for the target; or the target names no access point and
    the profile's SSID is the target's byte for byte, on a device the target allows, and the
    access point is left open. Choosing changes nothing. *)
Theorem saved_target_exact target s :
  match saved_wifi_activation_target_for path_error target s with
  | (Ok (Some (profile, device, access_point)), s') =>
    effects (trace s') = effects (trace s) ∧
    ((t_hidden target = false ∧ ∃ d ap stale, device = wd_path d ∧ target_found target stale (d, access_point, ap) ∧
        read_as profile (λ c, settings_match_access_point c ap)) ∨
     (has_specific_ap target = false ∧ access_point = "/" ∧
        read_as profile (λ c, settings_match_wifi_ssid c (ssid_bytes (t_ssid target))) ∧
        ∃ d, device = wd_path d ∧ target_matches_device target d = true))
  | (_, s') => effects (trace s') = effects (trace s)
  end.
Proof.
  pose proof (quiet_activation_target target s) as Hq.
  destruct (saved_wifi_activation_target_for path_error target s) as [[[[[profile device] point]|]|e] s'] eqn:H; [|done..].
  split; [done|]. unfold saved_wifi_activation_target_for in H. bus_unroll.
  match goal with H : visible_saved_activation_target _ _ = (Ok ?x, _) |- _ => destruct x as [y|]; rename H into Hv end.
  - left. bus_unroll. simplify_eq. unfold visible_saved_activation_target in Hv.
    destruct (t_hidden target); [by bus_unroll|]. split; [done|]. bus_unroll.
    match goal with H : visible_access_point_for _ _ = (Ok ?x, _) |- _ => destruct x as [[[d path] ap]|]; rename H into Hf end;
      [|by bus_unroll].
    bus_unroll. match goal with H : Some _ = _ <$> ?o |- _ => destruct o as [p|]; [|done]; cbn in H; injection H as -> -> -> end.
    assert (∃ stale, target_found target stale (d, path, ap)) as (stale & Hstale)
      by (apply visible_for_found in Hf as [?|(_ & ? & _)]; eauto).
    exists d, ap, stale. split; [done|]. split; [done|].
    match goal with H : saved_wifi_connection_for_ap_on_device _ _ _ = _ |- _ =>
      unfold saved_wifi_connection_for_ap_on_device in H; bus_unroll end.
    match goal with H : find_path _ _ _ = _ |- _ => apply find_path_Some in H as (_ & s2 & Hm) end.
    unfold connection_matches_access_point in Hm. bus_unroll. do 3 eexists. by split.
  - destruct (has_specific_ap target); [by bus_unroll|]. right. split; [done|].
    unfold generic_saved_activation_target in H. bus_unroll.
    match goal with H : saved_wifi_connection_for_ssid _ _ = (Ok ?x, _) |- _ => destruct x as [p|]; rename H into Hp end;
      [|by bus_unroll].
    bus_unroll. match goal with H : wifi_devices_for_target _ _ = (Ok ?x, _) |- _ => destruct x as [|d ds]; rename H into Hd end;
      [by bus_unroll|].
    bus_unroll. simplify_eq.
    match goal with H : object_path _ _ = _ |- _ => unfold object_path in H; case_match; [done|injection H as <-] end.
    split; [done|]. split.
    + unfold saved_wifi_connection_for_ssid in Hp. bus_unroll.
      match goal with H : find_path _ _ _ = _ |- _ => apply find_path_Some in H as (_ & s2 & Hm) end.
      unfold connection_matches_ssid in Hm. bus_unroll. do 3 eexists. by split.
    + exists d. split; [done|]. eapply devices_for_target_match; [exact Hd|by left].
Qed.

(** ** Cast discovery *)

Context {CF : CastFirewall W}.

(** [e] reapplies to [device] what was read as applied there, changed in its mDNS policy only,
    for the version that was read and while [active] was the device's connection. *)
Definition reapplies (device active : string) (enabled : bool) (l : list bus_event) (e : bus_event) : Prop :=
  ∃ v applied version reply,
    e = EvCall device DEVICE_IFACE "Reapply"
          [of_settings (set_casting_enabled enabled applied); VU64 version; VU32 PRESERVE_EXTERNAL_IP] reply ∧
    EvCall device DEVICE_IFACE "GetAppliedConnection" [VU32 0] (Ok [v; VU64 version]) ∈ l ∧
    as_settings v = Some applied ∧ version ≠ 0%N ∧
    EvGet device DEVICE_IFACE "ActiveConnection" (Ok (VPath active)) ∈ l.
Definition casting_change (profile : string) (enabled : bool) (l : list bus_event) (e : bus_event) : Prop :=
  ∃ device active, reapplies device active enabled l e ∧
    EvGet active ACTIVE_CONNECTION_IFACE "Connection" (Ok (VPath profile)) ∈ l.
Lemma reapplies_mono device active enabled l l' e :
  l ⊆ l' → reapplies device active enabled l e → reapplies device active enabled l' e.
Proof. intros Hl (v & a & n & r & ? & ? & ? & ? & ?). exists v, a, n, r. split_and!; by auto. Qed.
Lemma casting_change_mono profile enabled l l' e :
  l ⊆ l' → casting_change profile enabled l e → casting_change profile enabled l' e.
Proof. intros Hl (d & a & ? & ?). exists d, a. eauto using reapplies_mono. Qed.

Lemma grows_each {A} (f : A → bus W unit) (step : list bus_event → bus_event → Prop) l :
  (∀ l l' e, l ⊆ l' → step l e → step l' e) →
  (∀ a, grows (f a) (λ _ l, ∀ e, e ∈ effects l → step l e)) →
  grows (for_each f l) (λ _ l, ∀ e, e ∈ effects l → step l e).
Proof.
  intros Hstep Hf. induction l as [|a l IH]; cbn; [by apply grows_ret; intros e ?%elem_of_nil|].
  eapply grows_bind; [apply Hf|intros ?; apply IH|done|]. intros ? l1 ? l2 H1 H2 e. rewrite effects_app.
  intros [He|He]%elem_of_app; eapply Hstep; [|by apply H1| |by apply H2]; set_solver.
Qed.
Lemma grows_applied device :
  grows (with_context (W:=W) ("read applied settings for " +:+ p_path device)
           (let! reply := call_method device "GetAppliedConnection" [VU32 0] in lift (ok_or (as_applied reply) type_error)))
    (λ r l, ∃ raw, l = [EvCall (p_path device) (p_iface device) "GetAppliedConnection" [VU32 0] raw] ∧
       match r with Ok x => ∃ v, raw = Ok [v; VU64 x.2] ∧ as_settings v = Some x.1 | Err _ => True end).
Proof.
  apply grows_with_context. eapply grows_bind; [apply grows_call| | |].
  - intros reply. by apply (grows_pure _ (λ r l, l = [] ∧ r = ok_or (as_applied reply) type_error)).
  - intros e l ->. by exists (Err e).
  - intros reply l r l' -> [-> ->]. exists (Ok reply). split; [done|].
    destruct (as_applied reply) as [[c n]|] eqn:E; [|done]. cbn. unfold as_applied in E.
    destruct reply as [|v [|[] [|]]]; try done. destruct (as_settings v) eqn:Hv; [|done]. cbn in E.
    injection E as -> ->. eauto.
Qed.
Lemma reapply_device_grows device active enabled :
  grows (reapply_device_casting (W:=W) device active enabled)
    (λ _ l, ∀ e, e ∈ effects l → reapplies device active enabled l e).
Proof.
  assert (∀ l : list bus_event, effects l = [] → ∀ e, e ∈ effects l → reapplies device active enabled l e) as Hno
    by (intros l -> e ?%elem_of_nil; done).
  intros s. unfold reapply_device_casting, bind.
  destruct (grows_proxy device DEVICE_IFACE s) as (l1 & H1 & -> & Hp).
  destruct (proxy device DEVICE_IFACE s) as [[p|e] s1]; cbn in H1, Hp; [subst p|by exists []; auto].
  rewrite app_nil_r in H1.
  destruct (grows_applied {| p_path := device; p_iface := DEVICE_IFACE |} s1) as (l2 & H2 & raw & Hl2 & Ha).
  cbn [p_path p_iface] in *. unfold bind in *.
  destruct (with_context _ _ s1) as [[[applied version]|e] s2]; cbn in H2, Ha; [|exists l2; cbn; rewrite H2, H1; subst l2; by auto].
  destruct Ha as (v & -> & Hv).
  destruct (grows_get_property as_path {| p_path := device; p_iface := DEVICE_IFACE |} "ActiveConnection" s2) as (l3 & H3 & Hc).
  cbn [p_path p_iface] in *.
  destruct (get_property as_path _ "ActiveConnection" s2) as [[current|e] s3]; cbn in H3, Hc;
    [|exists (l2 ++ l3); cbn; rewrite H3, H2, H1, app_assoc; split; [done|]; apply Hno; rewrite effects_app, Hc; subst l2; done].
  destruct Hc as (w & Hw & Hl3). destruct w; try done. injection Hw as ->.
  assert (∃ l, trace s3 = trace s ++ l ∧ l = l2 ++ l3) as (l & Hl & El) by (exists (l2 ++ l3); by rewrite H3, H2, H1, app_assoc).
  assert (effects l = []) as Hel by (by rewrite El, Hl2, Hl3).
  unfold lift at 1, ensure. destruct (_ && _) eqn:E; [|exists l; cbn; auto].
  apply andb_true_iff in E as [E1%bool_decide_eq_true E2%negb_true_iff%N.eqb_neq]. subst current.
  case_bool_decide; [exists l; cbn; auto|].
  match goal with |- context [call_unit ?p ?m ?a] => destruct (grows_call_unit p m a s3) as (l4 & H4 & reply & Hl4) end.
  unfold with_context. destruct (call_unit _ _ _ s3) as [r s4]. cbn in H4, Hl4 |- *.
  exists (l ++ l4). rewrite H4, Hl, app_assoc. split; [done|]. intros e. rewrite effects_app, Hel, Hl4. cbn.
  intros ->%list_elem_of_singleton. exists v, applied, version, reply.
  rewrite El, Hl2, Hl3. split_and!; [done|set_solver|done|done|set_solver].
Qed.
Lemma resolver_grows profile enabled :
  grows (reapply_casting_resolver (W:=W) profile enabled)
    (λ _ l, ∀ e, e ∈ effects l → casting_change profile enabled l e).
Proof.
  unfold reapply_casting_resolver. eapply grows_bind with (P := λ _ l, effects l = [])
    (R := λ _ _ l, ∀ e, e ∈ effects l → casting_change profile enabled l e).
  - apply grows_with_context. eapply grows_mono; [apply grows_get_property|]. intros [a|e] l; [|done].
    by intros (v & _ & ->).
  - intros paths. apply grows_each; [apply casting_change_mono|]. intros active s. unfold bind.
    destruct (grows_proxy active ACTIVE_CONNECTION_IFACE s) as (l1 & H1 & -> & Hp).
    destruct (proxy active ACTIVE_CONNECTION_IFACE s) as [[p|e] s1]; cbn in H1, Hp; [subst p|by exists []; split; [|intros ? ?%elem_of_nil]].
    rewrite app_nil_r in H1.
    destruct (grows_get_property as_path {| p_path := active; p_iface := ACTIVE_CONNECTION_IFACE |} "Connection" s1) as (l2 & H2 & Hc).
    destruct (get_property as_path _ "Connection" s1) as [[current|e] s2]; cbn in H2, Hc;
      [|exists l2; cbn; rewrite H2, H1, Hc; by split; [|intros ? ?%elem_of_nil]].
    destruct Hc as (w & Hw & Hl2). destruct w; try done. injection Hw as ->.
    case_bool_decide; cbn; [subst current|exists l2; cbn; rewrite H2, H1, Hl2; by split; [|intros ? ?%elem_of_nil]].
    destruct (grows_get_property as_paths {| p_path := active; p_iface := ACTIVE_CONNECTION_IFACE |} "Devices" s2) as (l3 & H3 & Hd).
    destruct (get_property as_paths _ "Devices" s2) as [[devices|e] s3]; cbn in H3, Hd.
    2: { exists (l2 ++ l3). cbn. rewrite H3, H2, H1, app_assoc, effects_app, Hd, Hl2.
         by split; [|intros ? ?%elem_of_nil]. }
    destruct (grows_each (λ d, reapply_device_casting d active enabled)
      (λ l e, ∃ d, reapplies d active enabled l e) devices) with (s := s3) as (l4 & H4 & Hall).
    { intros l l' e Hl (d & ?). exists d. by eapply reapplies_mono. }
    { intros d. eapply grows_mono; [apply reapply_device_grows|]. eauto. }
    exists (l2 ++ l3 ++ l4). rewrite H4, H3, H2, H1, <-!app_assoc. split; [done|].
    destruct Hd as (w & _ & Hl3). rewrite !effects_app, Hl2, Hl3. cbn. intros e (d & He)%Hall.
    exists d, active. split; [eapply reapplies_mono; [|done]; set_solver|set_solver].
  - intros e l ->. by intros ? ?%elem_of_nil.
  - intros a l r l' Hl HR e. rewrite effects_app, Hl. cbn. intros He. eapply casting_change_mono; [|by apply HR]. set_solver.
Qed.

End Facts.
#[export] Hint Resolve quiet_remembered quiet_settings_if_present quiet_saved_wifi_connections quiet_network_entries
  quiet_matches_ssid quiet_ap_on_device quiet_activation_target : bus_quiet.
