(* ===== verification/IpStatus.v ===== *)
(** * IP status of a device ([src/nm/ip_status.rs], [src/command/nmcli.rs])

    Addresses, routes, name servers and the DHCP lease of a device, read from NetworkManager;
    what is missing for IPv4 comes from the terse output of nmcli, whose fields are separated
    by colons and escaped with backslashes. *)
From S2P Require Import Prelude Errors Text Wifi Network Variant IpSettings WifiSettings Bus Inventory.
From Stdlib Require Import ZArith Lia Ascii.
From stdpp Require Import prelude gmap strings list pretty.

(** ** Text *)

(** [str::parse] of an unsigned integer below [limit]. *)
Fixpoint parse_below (limit acc : N) (l : list u8) : option N :=
  match l with
  | [] => Some acc
  | c :: l =>
    d ← Credentials.digit c;
    let acc := (acc * 10 + d)%N in
    if (acc <? limit)%N then parse_below limit acc l else None
  end.
Definition parse_unsigned (limit : N) (s : string) : option N :=
  let l := match as_bytes s with
           | c :: l => if bool_decide (c = "+"%char) then l else c :: l
           | [] => []
           end in
  match l with [] => None | _ => parse_below limit 0 l end.

(** [str::lines]: a line ends with a line feed, or a carriage return and a line feed. *)
Definition line_feed : u8 := byte 10.
Definition strip_cr (l : list u8) : list u8 :=
  match last l with Some c => if bool_decide (c = byte 13) then take (length l - 1) l else l | None => l end.
Fixpoint line_parts (parts : list (list u8)) : list (list u8) :=
  match parts with
  | [] => []
  | [l] => match l with [] => [] | _ => [l] end
  | l :: parts => strip_cr l :: line_parts parts
  end.
Definition lines (s : string) : list string :=
  of_bytes <$> line_parts (split_bytes (is_byte line_feed) (as_bytes s)).

(** [str::split_whitespace]. *)
Definition words (s : string) : list string :=
  let push '(done, current) (step : decoded * list u8) :=
    if is_blank step then (match current with [] => done | _ => done ++ [of_bytes current] end, [])
    else (done, current ++ step.2) in
  let '(done, current) := foldl push ([], []) (utf8_walk (as_bytes s)) in
  match current with [] => done | _ => done ++ [of_bytes current] end.

(** ** nmcli *)

Definition colon : u8 := ":"%char.
Definition backslash : u8 := "\"%char.
Definition field_step (st : list string * list u8 * bool) (c : u8) : list string * list u8 * bool :=
  let '(fields, current, escaped) := st in
  if escaped then (fields, current ++ [c], false)
  else if bool_decide (c = backslash) then (fields, current, true)
  else if bool_decide (c = colon) then (fields ++ [of_bytes current], [], false)
  else (fields, current ++ [c], false).
Definition split_fields (line : string) : list string :=
  let '(fields, current, _) := foldl field_step ([], [], false) (as_bytes line) in
  fields ++ [of_bytes current].
Definition split_key_value (line : string) : option (string * string) :=
  match split_fields line with
  | [] => None
  | k :: l => Some (k, unwrap_or (head l) "")
  end.

Definition split_once (c : u8) (s : string) : option (string * string) :=
  match split_bytes (is_byte c) (as_bytes s) with
  | a :: (_ :: _) as rest => Some (of_bytes a, of_bytes (drop (S (length a)) (as_bytes s)))
  | _ => None
  end.
Definition parse_cidr (v : string) : string * option N :=
  let '(address, prefix) := unwrap_or (split_once "/"%char v) (v, "") in (address, parse_unsigned (2 ^ 32) prefix).

Definition empty_ip : IpStatus :=
  {| ip_address := None; ip_prefix := None; ip_addresses := []; ip_gateway := None; ip_dns := [];
     ip_domains := []; ip_searches := []; ip_routes := []; ip_dhcp_lease := None |}.
Definition with_address (address : option string) (prefix : option N) (addresses : list IpAddressEntry)
    (gateway : option string) (dns : list string) (s : IpStatus) : IpStatus :=
  {| ip_address := address; ip_prefix := prefix; ip_addresses := addresses; ip_gateway := gateway; ip_dns := dns;
     ip_domains := ip_domains s; ip_searches := ip_searches s; ip_routes := ip_routes s;
     ip_dhcp_lease := ip_dhcp_lease s |}.
Definition apply_device_ip4_field (s : IpStatus) (kv : string * string) : IpStatus :=
  let '(key, v) := kv in
  if starts_with "IP4.ADDRESS" key then
    let '(address, prefix) := parse_cidr v in
    let entries := match prefix with Some p => [{| ia_address := address; ia_prefix := p |}] | None => [] end in
    match ip_address s with
    | None => with_address (Some address) prefix (ip_addresses s ++ entries) (ip_gateway s) (ip_dns s) s
    | Some _ => with_address (ip_address s) (ip_prefix s) (ip_addresses s ++ entries) (ip_gateway s) (ip_dns s) s
    end
  else if bool_decide (key = "IP4.GATEWAY") && negb (bool_decide (v = "")) then
    with_address (ip_address s) (ip_prefix s) (ip_addresses s) (Some v) (ip_dns s) s
  else if starts_with "IP4.DNS" key && negb (bool_decide (v = "")) then
    with_address (ip_address s) (ip_prefix s) (ip_addresses s) (ip_gateway s) (ip_dns s ++ [v]) s
  else s.
Definition parse_device_ip4 (output : string) : option IpStatus :=
  let ip4 := foldl apply_device_ip4_field empty_ip (omap split_key_value (lines output)) in
  if bool_decide (is_Some (ip_address ip4)) || bool_decide (is_Some (ip_gateway ip4))
     || negb (bool_decide (ip_dns ip4 = [])) then Some ip4 else None.

Record NmcliWifiRow := {
  nr_ssid : string; nr_bssid : string; nr_signal : option N; nr_security : string;
  nr_frequency_mhz : option N; nr_band : string;
}.
Definition parse_active_wifi_row (line : string) : option NmcliWifiRow :=
  match split_fields line with
  | [active; ssid; bssid; signal; security; frequency] =>
    if negb (bool_decide (active = "*")) then None
    else
      let mhz := head (words frequency) ≫= parse_unsigned (2 ^ 32) in
      Some {| nr_ssid := ssid; nr_bssid := bssid; nr_signal := parse_unsigned (2 ^ 8) signal;
              nr_security := security; nr_frequency_mhz := mhz;
              nr_band := match mhz with Some f => frequency_band f | None => "unknown" end |}
  | _ => None
  end.
Definition active_wifi (output : string) : option NmcliWifiRow := head (omap parse_active_wifi_row (lines output)).

Definition is_ascii_digit (c : u8) : bool := in_range 48 57 (N_of_ascii c).
Definition is_ascii_alphanumeric (c : u8) : bool :=
  is_ascii_digit c || in_range 65 90 (N_of_ascii c) || in_range 97 122 (N_of_ascii c).
Definition version_byte (c : u8) : bool := is_ascii_alphanumeric c || bool_decide (c ∈ as_bytes ".-+_~").
Definition parse_nmcli_version (output : string) : option string :=
  if negb (length (lines (trim output)) =? 1)%nat then None
  else
    version ← last (words output);
    match as_bytes version with
    | c :: l => if is_ascii_digit c && forallb version_byte (c :: l) then Some version else None
    | [] => None
    end.

(** ** Filling in *)

Definition blank_field (o : option string) : bool := match o with Some s => bool_decide (s = "") | None => true end.
Definition ip4_status_needs_nmcli_fill (status : option IpStatus) : bool :=
  match status with
  | None => true
  | Some s => blank_field (ip_address s) || blank_field (ip_gateway s) || bool_decide (ip_dns s = [])
  end.
Definition fill_missing_ip4_fields (dbus fallback : IpStatus) : IpStatus :=
  let fill := blank_field (ip_address dbus) in
  with_address (if fill then ip_address fallback else ip_address dbus)
    (if fill then ip_prefix fallback else ip_prefix dbus) (ip_addresses dbus)
    (if blank_field (ip_gateway dbus) then ip_gateway fallback else ip_gateway dbus)
    (if bool_decide (ip_dns dbus = []) then ip_dns fallback else ip_dns dbus) dbus.
Definition merged_ip4_status (dbus nmcli : option IpStatus) : option IpStatus :=
  match dbus with
  | Some dbus => Some match nmcli with Some n => fill_missing_ip4_fields dbus n | None => dbus end
  | None => nmcli
  end.

(** ** Addresses *)

Definition octets_text (l : list N) : string := str_join "." (pretty <$> l).
(** [Ipv4Addr::from(u32::from_be(value))] on a little-endian machine. *)
Definition legacy_ipv4 (v : N) : string :=
  octets_text [v mod 256; v / 256 mod 256; v / 65536 mod 256; v / 16777216 mod 256]%N.

(** The hexadecimal digits of a segment, without leading zeros. *)
Fixpoint hex_text (fuel : nat) (n : N) : list u8 :=
  match fuel with
  | O => []
  | S fuel => if (n <? 16)%N then [hex_digit n] else hex_text fuel (n / 16) ++ [hex_digit (n mod 16)]
  end.
Definition segment_text (n : N) : string := of_bytes (hex_text 4 n).
Definition segments_text (l : list N) : string := str_join ":" (segment_text <$> l).
(** The first longest run of zeros: where it starts and how long it is. *)
Definition zero_step (st : nat * (nat * nat) * (nat * nat)) (segment : N) : nat * (nat * nat) * (nat * nat) :=
  let '(i, current, longest) := st in
  if (segment =? 0)%N then
    let start := if (current.2 =? 0)%nat then i else current.1 in
    let current := (start, S current.2) in
    (S i, current, if (longest.2 <? current.2)%nat then current else longest)
  else (S i, (0, 0)%nat, longest).
Definition longest_zeros (segments : list N) : nat * nat :=
  (foldl zero_step (0%nat, (0, 0)%nat, (0, 0)%nat) segments).2.
(** [Display for Ipv6Addr]. *)
Definition ipv6_text (segments : list N) : string :=
  match segments with
  | [0%N; 0%N; 0%N; 0%N; 0%N; 65535%N; ab; cd] =>
    "::ffff:" +:+ octets_text [ab / 256; ab mod 256; cd / 256; cd mod 256]%N
  | _ =>
    let '(start, len) := longest_zeros segments in
    if (1 <? len)%nat then
      segments_text (take start segments) +:+ "::" +:+ segments_text (drop (start + len) segments)
    else segments_text segments
  end.
Fixpoint segments_of (bytes : list u8) : list N :=
  match bytes with
  | a :: b :: l => (N_of_ascii a * 256 + N_of_ascii b)%N :: segments_of l
  | _ => []
  end.

(** ** Reading *)

Inductive IpFamily := V4 | V6.
Definition as_sections (v : value) : option (list section) := to_sections v.
Definition as_section (v : value) : option section := as_dict v ≫= to_section.

Definition dhcp_u64 (options : section) (key : string) : option N :=
  v ← options !! key;
  match as_u64 v, as_u32 v with
  | Some n, _ => Some n
  | None, Some n => Some n
  | None, None => value_string v ≫= parse_unsigned (2 ^ 64)
  end.
Definition dhcp_lease_from_options (options : section) : option DhcpLeaseStatus :=
  let text key := non_empty (setting_string options key) in
  let lease :=
    {| server_identifier := opt_or (text "dhcp_server_identifier") (text "dhcp6_server_id");
       domain_name := text "domain_name";
       lease_time_seconds := opt_or (dhcp_u64 options "dhcp_lease_time") (dhcp_u64 options "max_life");
       expires_at_ms := seconds_to_ms <$> dhcp_u64 options "expiry" |} in
  if bool_decide (is_Some (server_identifier lease)) || bool_decide (is_Some (domain_name lease))
     || bool_decide (is_Some (lease_time_seconds lease)) || bool_decide (is_Some (expires_at_ms lease))
  then Some lease else None.

Definition address_entry_of (s : section) : option IpAddressEntry :=
  address ← setting_string s "address";
  prefix ← setting as_u32 s "prefix";
  Some {| ia_address := address; ia_prefix := prefix |}.
Definition route_entry_of (s : section) : option IpRouteEntry :=
  dest ← setting_string s "dest";
  prefix ← setting as_u32 s "prefix";
  Some {| ir_dest := dest; ir_prefix := prefix; ir_next_hop := setting_string s "next-hop";
          ir_metric := setting as_u32 s "metric" |}.
Definition default_route_next_hop (routes : list IpRouteEntry) : option string :=
  non_empty (find_first (λ r, (ir_prefix r =? 0)%N) routes ≫= ir_next_hop).

Section IpStatus.
Context {W : Type} {B : Bus W}.

Definition address_entries (config : Proxy) : bus W (list IpAddressEntry) :=
  let! l := or_default [] (get_property as_sections config "AddressData") in ret (omap address_entry_of l).
Definition route_entries (config : Proxy) : bus W (list IpRouteEntry) :=
  let! l := or_default [] (get_property as_sections config "RouteData") in ret (omap route_entry_of l).
Definition nameserver_entries (config : Proxy) : bus W (option (list string)) :=
  let! l := ok_opt (get_property as_sections config "NameserverData") in
  ret (l ← l; match omap (λ s, setting_string s "address") l with [] => None | entries => Some entries end).
Definition nonempty_list (config : Proxy) (name : string) : bus W (list string) :=
  let! l := or_default [] (get_property (value_list value_string) config name) in
  ret (List.filter (λ s, negb (bool_decide (s = ""))) l).

Definition ip_config_proxy (device_path : string) (property_iface : string * string) : bus W (option Proxy) :=
  let! device := proxy device_path DEVICE_IFACE in
  let! config_path := with_context ("read " +:+ property_iface.1 +:+ " for " +:+ device_path)
                        (get_property as_path device property_iface.1) in
  if bool_decide (config_path = "/") then ret None
  else let! p := proxy config_path property_iface.2 in ret (Some p).
Definition dhcp_lease (device_path : string) (property_iface : string * string) : bus W (option DhcpLeaseStatus) :=
  let! config := ok_opt (ip_config_proxy device_path property_iface) in
  match mjoin config with
  | None => ret None
  | Some config =>
    let! options := ok_opt (get_property as_section config "Options") in
    ret (options ≫= dhcp_lease_from_options)
  end.
Definition ipv4_nameservers (config : Proxy) : bus W (list string) :=
  let! entries := nameserver_entries config in
  match entries with
  | Some l => ret l
  | None =>
    let! l := or_default [] (get_property (value_list as_u32) config "Nameservers") in ret (legacy_ipv4 <$> l)
  end.
Definition ipv6_nameservers (config : Proxy) : bus W (list string) :=
  let! l := or_default [] (get_property (value_list value_bytes) config "Nameservers") in
  ret (omap (λ b, if (length b =? 16)%nat then Some (ipv6_text (segments_of b)) else None) l).

Definition device_ip_status (device_path : string) (family : IpFamily) : bus W (option IpStatus) :=
  let '(ip, dhcp) :=
    match family with
    | V4 => (("Ip4Config", "org.freedesktop.NetworkManager.IP4Config"),
             ("Dhcp4Config", "org.freedesktop.NetworkManager.DHCP4Config"))
    | V6 => (("Ip6Config", "org.freedesktop.NetworkManager.IP6Config"),
             ("Dhcp6Config", "org.freedesktop.NetworkManager.DHCP6Config"))
    end in
  let! config := ip_config_proxy device_path ip in
  match config with
  | None => ret None
  | Some config =>
    let! routes := route_entries config in
    let! addresses := address_entries config in
    let! gateway := nonempty_string config "Gateway" in
    let! dns := match family with V4 => ipv4_nameservers config | V6 => ipv6_nameservers config end in
    let! domains := nonempty_list config "Domains" in
    let! searches := nonempty_list config "Searches" in
    let! lease := dhcp_lease device_path dhcp in
    ret (Some {| ip_address := ia_address <$> head addresses; ip_prefix := ia_prefix <$> head addresses;
                 ip_addresses := addresses; ip_gateway := opt_or gateway (default_route_next_hop routes);
                 ip_dns := dns; ip_domains := domains; ip_searches := searches; ip_routes := routes;
                 ip_dhcp_lease := lease |})
  end.
End IpStatus.

(** ** nmcli's fields *)

(** nmcli's terse output escapes colons and backslashes. *)
Definition escape_byte (c : u8) : list u8 :=
  if bool_decide (c = backslash) || bool_decide (c = colon) then [backslash; c] else [c].
Definition escape_field (s : string) : string := of_bytes (as_bytes s ≫= escape_byte).

Lemma field_steps_escaped fields current l :
  foldl field_step (fields, current, false) (l ≫= escape_byte) = (fields, current ++ l, false).
Proof.
  revert current. induction l as [|c l IH]; intros current; [cbn; by rewrite app_nil_r|].
  rewrite bind_cons, foldl_app. assert (foldl field_step (fields, current, false) (escape_byte c) = (fields, current ++ [c], false)) as ->.
  { unfold escape_byte, field_step. repeat (case_bool_decide; cbn); done. }
  by rewrite IH, <-app_assoc.
Qed.

(** Fields are read back as nmcli wrote them, whatever bytes they hold. *)
Lemma split_fields_escaped f fields : split_fields (str_join ":" (escape_field <$> f :: fields)) = f :: fields.
Proof.
  unfold split_fields. assert (∀ done, (let '(fs, current, _) := foldl field_step (done, [], false)
      (as_bytes (str_join ":" (escape_field <$> f :: fields))) in fs ++ [of_bytes current]) = done ++ f :: fields) as H; [|apply H].
  revert f. induction fields as [|g fields IH]; intros f d.
  - cbn [fmap list_fmap str_join]. unfold escape_field. rewrite as_bytes_of_bytes, field_steps_escaped. cbn.
    by rewrite of_bytes_as_bytes.
  - assert (as_bytes (str_join ":" (escape_field <$> f :: g :: fields)) =
      (as_bytes f ≫= escape_byte) ++ colon :: as_bytes (str_join ":" (escape_field <$> g :: fields))) as ->.
    { cbn [fmap list_fmap str_join]. rewrite as_bytes_app. unfold escape_field at 1. by rewrite as_bytes_of_bytes. }
    rewrite foldl_app, field_steps_escaped. cbn [foldl field_step].
    rewrite bool_decide_eq_false_2, bool_decide_eq_true_2 by done. rewrite IH. cbn. rewrite of_bytes_as_bytes.
    by rewrite <-app_assoc.
Qed.

(** What NetworkManager reports is kept; nmcli only fills in. *)
Lemma merged_keeps dbus nmcli s :
  merged_ip4_status (Some dbus) nmcli = Some s →
  ip_addresses s = ip_addresses dbus ∧ ip_routes s = ip_routes dbus ∧ ip_dhcp_lease s = ip_dhcp_lease dbus ∧
  (blank_field (ip_address dbus) = false → ip_address s = ip_address dbus ∧ ip_prefix s = ip_prefix dbus) ∧
  (blank_field (ip_gateway dbus) = false → ip_gateway s = ip_gateway dbus) ∧
  (ip_dns dbus ≠ [] → ip_dns s = ip_dns dbus).
Proof.
  cbn. intros [= <-]. destruct nmcli as [n|]; [|done]. unfold fill_missing_ip4_fields. cbn. split_and!; try done.
  - by intros ->.
  - by intros ->.
  - intros H. by rewrite bool_decide_eq_false_2.
Qed.

Section Facts.
Context {W : Type} {B : Bus W}.
Lemma quiet_ip_config d p : quiet (ip_config_proxy (W:=W) d p).
Proof. unfold ip_config_proxy. quiet_tac. Qed.
#[local] Hint Resolve quiet_ip_config : bus_quiet.
Lemma quiet_dhcp_lease d p : quiet (dhcp_lease (W:=W) d p).
Proof. unfold dhcp_lease. quiet_tac. Qed.
#[local] Hint Resolve quiet_dhcp_lease : bus_quiet.
Lemma quiet_device_ip_status d f : quiet (device_ip_status (W:=W) d f).
Proof.
  unfold device_ip_status, route_entries, address_entries, ipv4_nameservers, nameserver_entries, ipv6_nameservers,
    nonempty_list. destruct f; quiet_tac.
Qed.
End Facts.
#[export] Hint Resolve quiet_device_ip_status : bus_quiet.
