(* ===== verification/Status.v ===== *)
(** * Wi-Fi status, radios and disconnecting ([src/nm/status.rs], [src/nm/connectivity.rs])

    The radios with airplane mode, whose switches are remembered so that leaving airplane mode
    restores them; the connectivity verdict with what a captive portal needs, and the snapshot
    a browser launch is fenced with; the full status of the Wi-Fi connection; and disconnecting
    the active connections of one SSID. *)
From S2P Require Import Prelude Errors Text Identity Reasons Network Variant Cache Profiles ProfileWriter Bus Inventory Devices Saved IpStatus.
From Stdlib Require Import ZArith Lia.
From stdpp Require Import prelude gmap strings list.

(** ** Airplane mode *)

Record RadioRestoreState := { airplane : bool; restore_wireless : bool; restore_wwan : bool }.
#[export] Instance restore_eq_dec : EqDecision RadioRestoreState.
Proof. solve_decision. Defined.
Inductive Radio := Wireless | Wwan.
Record RadioSwitches := { sw_wireless : bool; sw_wwan : bool }.

Definition record_direct_change (radio : Radio) (enabled : bool) (r : RadioRestoreState) : RadioRestoreState :=
  let remember := negb (airplane r) || enabled in
  {| airplane := airplane r && negb enabled;
     restore_wireless := match radio with
                         | Wireless => if remember then enabled else restore_wireless r
                         | Wwan => restore_wireless r
                         end;
     restore_wwan := match radio with
                     | Wwan => if remember then enabled else restore_wwan r
                     | Wireless => restore_wwan r
                     end |}.
Definition target_switches (enabled : bool) (r : RadioRestoreState) : option RadioSwitches :=
  if negb enabled && negb (airplane r) then None
  else Some (if enabled then {| sw_wireless := false; sw_wwan := false |}
             else {| sw_wireless := restore_wireless r; sw_wwan := restore_wwan r |}).
Definition commit_airplane (enabled : bool) (current target : RadioSwitches) (r : RadioRestoreState) :
    RadioRestoreState :=
  let saved := if enabled && negb (airplane r) then Some current else if negb enabled then Some target else None in
  {| airplane := enabled;
     restore_wireless := match saved with Some s => sw_wireless s | None => restore_wireless r end;
     restore_wwan := match saved with Some s => sw_wwan s | None => restore_wwan r end |}.

(** What the daemon keeps for the radios; the lock is held through each operation. *)
Class RadioHost (W : Type) := {
  rd_restore : W → RadioRestoreState;
  rd_set_restore : RadioRestoreState → W → W;
}.

Record RadioPowerResult := { rp_radios : RadioStatus; rp_message : string }.
Record WifiPowerResult := { wp_enabled : bool; wp_message : string }.
Record DisconnectResult := { dc_status : string; dc_message : string }.

(** What the status asks of other programs: the kernel's link rates and nmcli's output. *)
Class StatusHost (W : Type) := {
  st_bitrates : string → W → option N * option N;
  st_nmcli_device : string → W → option string * W;
}.

Section Radios.
Context {W : Type} {B : Bus W} {R : RadioHost W}.

Definition restore_state : bus W RadioRestoreState := local (λ w, (rd_restore w, w)).
Definition put_restore (r : RadioRestoreState) : bus W unit := local (λ w, (tt, rd_set_restore r w)).

Definition radio_device_availability : bus W (bool * bool) :=
  let! paths := with_context "GetDevices for radio status" (call_value as_paths root_proxy "GetDevices" []) in
  let! types := map_bus (λ path,
    let! device := proxy path DEVICE_IFACE in or_default 0%N (get_property as_u32 device "DeviceType")) paths in
  ret (bool_decide (NM_DEVICE_TYPE_WIFI ∈ types), bool_decide (NM_DEVICE_TYPE_MODEM ∈ types)).
Definition radio_status : bus W RadioStatus :=
  let! wireless := with_context "read NetworkManager WirelessEnabled" (get_property as_bool root_proxy "WirelessEnabled") in
  let! wireless_hardware := or_default true (get_property as_bool root_proxy "WirelessHardwareEnabled") in
  let! wwan := or_default false (get_property as_bool root_proxy "WwanEnabled") in
  let! wwan_hardware := or_default true (get_property as_bool root_proxy "WwanHardwareEnabled") in
  let! (wireless_available', wwan_available') := radio_device_availability in
  let! restore := restore_state in
  let stale := airplane restore && (wireless || wwan) in
  let! _ := if stale then put_restore {| airplane := false; restore_wireless := restore_wireless restore;
                                         restore_wwan := restore_wwan restore |}
            else ret tt in
  ret {| wireless_enabled := wireless; wireless_hardware_enabled := wireless_hardware;
         wireless_available := wireless_available'; wwan_enabled := wwan;
         wwan_hardware_enabled := wwan_hardware; wwan_available := wwan_available';
         airplane_mode := airplane restore && negb stale |}.

Definition set_radio_enabled (radio : Radio) (property : string) (enabled : bool) : bus W unit :=
  let! state := restore_state in
  let! _ := with_context ("set NetworkManager " +:+ property) (set_property root_proxy property (VBool enabled)) in
  put_restore (record_direct_change radio enabled state).
Definition set_wireless_enabled (enabled : bool) : bus W WifiPowerResult :=
  let! _ := set_radio_enabled Wireless "WirelessEnabled" enabled in
  ret {| wp_enabled := enabled; wp_message := "Wi-Fi turned " +:+ (if enabled then "on" else "off") |}.
Definition set_wwan_enabled (enabled : bool) : bus W RadioPowerResult :=
  let! _ := set_radio_enabled Wwan "WwanEnabled" enabled in
  let! radios := radio_status in
  ret {| rp_radios := radios; rp_message := "Mobile data turned " +:+ (if enabled then "on" else "off") |}.

Definition read_radio_switches : bus W RadioSwitches :=
  let! wireless := with_context "read Wi-Fi before airplane-mode change" (get_property as_bool root_proxy "WirelessEnabled") in
  let! wwan := with_context "read WWAN before airplane-mode change" (get_property as_bool root_proxy "WwanEnabled") in
  ret {| sw_wireless := wireless; sw_wwan := wwan |}.
Definition rollback_wireless (enabled : bool) : bus W unit :=
  let! _ := attempt (set_property root_proxy "WirelessEnabled" (VBool enabled)) in ret tt.
Definition apply_radio_switches (current target : RadioSwitches) : bus W unit :=
  let! _ := with_context "set Wi-Fi for airplane mode"
              (set_property root_proxy "WirelessEnabled" (VBool (sw_wireless target))) in
  let! r := attempt (set_property root_proxy "WwanEnabled" (VBool (sw_wwan target))) in
  match r with
  | Ok _ => ret tt
  | Err e =>
    let! _ := rollback_wireless (sw_wireless current) in
    lift (Err (add_context "set WWAN for airplane mode" e))
  end.
(** The part of [set_airplane_mode] under the lock. *)
Definition switch_airplane_mode (enabled : bool) : bus W unit :=
  let! restore := restore_state in
  match target_switches enabled restore with
  | None => ret tt
  | Some target =>
    let! current := read_radio_switches in
    let! _ := apply_radio_switches current target in
    put_restore (commit_airplane enabled current target restore)
  end.
Definition set_airplane_mode (enabled : bool) : bus W RadioPowerResult :=
  let! _ := switch_airplane_mode enabled in
  let! radios := radio_status in
  ret {| rp_radios := radios; rp_message := "Airplane mode " +:+ (if enabled then "enabled" else "disabled") |}.
End Radios.

(** ** Connectivity *)
Section Connectivity.
Context {W : Type} {B : Bus W}.

Definition primary_connection_identity (root : Proxy) : bus W (option PrimaryConnectionIdentity) :=
  let! path := ok_opt (get_property as_path root "PrimaryConnection") in
  match real_path path with
  | None => ret None
  | Some path =>
    let! active := attempt (proxy path ACTIVE_CONNECTION_IFACE) in
    match active with
    | Err _ => ret None
    | Ok active =>
      let! connection_type := or_default "" (get_property value_string active "Type") in
      let! devices := ok_opt (get_property as_paths active "Devices") in
      let! device_iface := match devices ≫= head with
                           | None => ret None
                           | Some device =>
                             let! p := attempt (proxy device DEVICE_IFACE) in
                             match p with Ok p => nonempty_string p "Interface" | Err _ => ret None end
                           end in
      let! id := or_default "" (get_property value_string active "Id") in
      let! uuid := or_default "" (get_property value_string active "Uuid") in
      let! type_name := nonempty_string root "PrimaryConnectionType" in
      ret (Some {| pc_path := path; pc_id := id; pc_uuid := uuid; pc_connection_type := connection_type;
                   pc_type_name := non_empty (Some (unwrap_or type_name connection_type));
                   pc_device_iface := device_iface |})
    end
  end.
Definition portal_context_from (root : Proxy) (status : ConnectivityStatus) : bus W ConnectivityStatus :=
  let! uri := ok_opt (get_property value_string root "ConnectivityCheckUri") in
  let! enabled := or_default false (get_property as_bool root "ConnectivityCheckEnabled") in
  let! available := or_default false (get_property as_bool root "ConnectivityCheckAvailable") in
  let! primary := primary_connection_identity root in
  ret (with_portal_context uri enabled available primary status).
Definition connectivity_snapshot : bus W ConnectivityStatus :=
  let! code := with_context "read NetworkManager Connectivity" (get_property as_u32 root_proxy "Connectivity") in
  portal_context_from root_proxy (connectivity_from_nm_code code).
Definition connectivity_check : bus W ConnectivityStatus :=
  let! code := with_context "CheckConnectivity" (call_value as_u32 root_proxy "CheckConnectivity" []) in
  portal_context_from root_proxy (connectivity_from_nm_code code).

(** The name of the snapshot's owner: the bus and the unique name. *)
Context (server_guid : string).
Definition name_owner : bus W string := access bus_owner (λ _, None).
Definition portal_snapshot : bus W (string * ConnectivityStatus) :=
  let! owner := name_owner in
  let! before := get_property as_path root_proxy "PrimaryConnection" in
  let! code := get_property as_u32 root_proxy "Connectivity" in
  let! status := portal_context_from root_proxy (connectivity_from_nm_code code) in
  let! after := get_property as_path root_proxy "PrimaryConnection" in
  let! final_code := get_property as_u32 root_proxy "Connectivity" in
  let! same :=
    if bool_decide (before = after) && (code =? final_code)%N
       && bool_decide (pc_path <$> primary_connection status = Some before)
    then let! o := name_owner in ret (bool_decide (owner = o)) else ret false in
  let! _ := lift (ensure same (plain "network changed while preparing portal launch")) in
  ret (server_guid +:+ ":" +:+ owner, status).
End Connectivity.

(** ** Leaving airplane mode restores the radios *)

(** The state of the radios is the daemon's own: no access changes it. *)
Class RadioLaws (W : Type) {B : Bus W} {R : RadioHost W} : Prop := {
  restore_put r w : rd_restore (rd_set_restore r w) = r;
  restore_get p i n w : rd_restore (bus_get p i n w).2 = rd_restore w;
  restore_set p i n v w : rd_restore (bus_set p i n v w).2 = rd_restore w;
}.

Section Airplane.
Context {W : Type} {B : Bus W} {R : RadioHost W} {L : RadioLaws W}.
Implicit Types s : Session W.

Definition radios_of s : RadioRestoreState := rd_restore (world s).
Definition set_event (property : string) (v : bool) (reply : result unit Error) : bus_event :=
  EvSet NM_PATH NM_IFACE property (VBool v) reply.

Lemma set_property_spec property v s :
  ∃ reply w, set_property root_proxy property (VBool v) s =
      (reply, {| world := w; trace := trace s ++ [set_event property v reply] |}) ∧ rd_restore w = radios_of s.
Proof.
  unfold set_property, access, radios_of. pose proof (restore_set NM_PATH NM_IFACE property (VBool v) (world s)) as H.
  cbn [root_proxy p_path p_iface]. destruct (bus_set _ _ _ _ _) as [reply w]. eauto.
Qed.
Lemma get_bool_spec msg property s :
  ∃ r s', with_context msg (get_property as_bool root_proxy property) s = (r, s') ∧ radios_of s' = radios_of s ∧
    effects (trace s') = effects (trace s) ∧ (∃ l, trace s' = trace s ++ l) ∧
    match r with Ok b => EvGet NM_PATH NM_IFACE property (Ok (VBool b)) ∈ trace s' | Err _ => True end.
Proof.
  unfold with_context, get_property, get_value, bind, access, lift, radios_of.
  pose proof (restore_get NM_PATH NM_IFACE property (world s)) as H. cbn [root_proxy p_path p_iface].
  destruct (bus_get _ _ _ _) as [[v|e] w]; cbn in *.
  - destruct v; cbn; do 2 eexists; (split; [done|]); cbn; rewrite effects_app, ?app_nil_r; split_and!; eauto; set_solver.
  - do 2 eexists. split; [done|]. cbn. rewrite effects_app, app_nil_r. split_and!; eauto.
Qed.

(** The switches, as they were read. *)
Definition switches_read (c : RadioSwitches) (l : list bus_event) : Prop :=
  EvGet NM_PATH NM_IFACE "WirelessEnabled" (Ok (VBool (sw_wireless c))) ∈ l ∧
  EvGet NM_PATH NM_IFACE "WwanEnabled" (Ok (VBool (sw_wwan c))) ∈ l.
Lemma read_switches_spec s :
  ∃ r s', read_radio_switches s = (r, s') ∧ radios_of s' = radios_of s ∧ effects (trace s') = effects (trace s) ∧
    match r with Ok c => switches_read c (trace s') | Err _ => True end.
Proof.
  unfold read_radio_switches, bind.
  destruct (get_bool_spec "read Wi-Fi before airplane-mode change" "WirelessEnabled" s) as (r1 & s1 & -> & H1 & E1 & _ & G1).
  destruct r1 as [a|e]; [|eauto 6].
  destruct (get_bool_spec "read WWAN before airplane-mode change" "WwanEnabled" s1) as (r2 & s2 & -> & H2 & E2 & (l & Hl) & G2).
  destruct r2 as [b|e]; do 2 eexists; (split; [done|]); (split; [congruence|]); (split; [congruence|]); [|done].
  split; [|done]. rewrite Hl. set_solver.
Qed.

(** What applying the switches [t] did, when [c] were set before. *)
Definition switched (c t : RadioSwitches) (r : result unit Error) (l : list bus_event) : Prop :=
  match r with
  | Ok _ => l = [set_event "WirelessEnabled" (sw_wireless t) (Ok tt); set_event "WwanEnabled" (sw_wwan t) (Ok tt)]
  | Err _ =>
    (∃ e, l = [set_event "WirelessEnabled" (sw_wireless t) (Err e)]) ∨
    ∃ e reply, l = [set_event "WirelessEnabled" (sw_wireless t) (Ok tt); set_event "WwanEnabled" (sw_wwan t) (Err e);
                    set_event "WirelessEnabled" (sw_wireless c) reply]
  end.
Lemma apply_switches_spec c t s :
  ∃ r s' l, apply_radio_switches c t s = (r, s') ∧ radios_of s' = radios_of s ∧
    effects (trace s') = effects (trace s) ++ l ∧ switched c t r l.
Proof.
  unfold apply_radio_switches, rollback_wireless, bind, with_context, attempt.
  destruct (set_property_spec "WirelessEnabled" (sw_wireless t) s) as (r1 & w1 & -> & H1).
  destruct r1 as [[]|e]; cbn.
  - destruct (set_property_spec "WwanEnabled" (sw_wwan t)
      {| world := w1; trace := trace s ++ [set_event "WirelessEnabled" (sw_wireless t) (Ok tt)] |}) as (r2 & w2 & -> & H2).
    destruct r2 as [[]|e].
    + do 3 eexists. split; [done|]. split; [unfold radios_of in *; cbn in *; congruence|].
      split; [cbn; by rewrite <-app_assoc, effects_app|done].
    + match goal with |- context [set_property _ _ _ ?x] => set (s2 := x) end.
      destruct (set_property_spec "WirelessEnabled" (sw_wireless c) s2) as (r3 & w3 & -> & H3).
      do 3 eexists. split; [done|]. split; [unfold radios_of in *; cbn in *; congruence|].
      split; [cbn; by rewrite <-!app_assoc, effects_app|]. right. eauto.
  - do 3 eexists. split; [done|]. split; [done|]. split; [cbn; by rewrite effects_app|]. left. eauto.
Qed.

Lemma grows_apply c t : grows (W:=W) (apply_radio_switches c t) (λ _ _, True).
Proof.
  unfold apply_radio_switches, rollback_wireless.
  eapply grows_bind with (P := λ _ _, True) (R := λ _ _ _, True); [|intros _|done..].
  { apply grows_with_context. by apply grows_access. }
  eapply grows_bind with (P := λ _ _, True) (R := λ _ _ _, True); [|intros r|done..].
  { apply grows_attempt. by apply grows_access. }
  destruct r as [[]|e]; [by apply grows_ret|].
  eapply grows_bind with (P := λ _ _, True) (R := λ _ _ _, True); [|intros ?; by apply grows_pure|done..].
  eapply grows_bind with (P := λ _ _, True) (R := λ _ _ _, True); [|intros ?; by apply grows_ret|done..].
  apply grows_attempt. by apply grows_access.
Qed.
Lemma switch_spec enabled s :
  ∃ r s', switch_airplane_mode enabled s = (r, s') ∧
  match target_switches enabled (radios_of s) with
  | None => r = Ok tt ∧ s' = {| world := world s; trace := trace s |}
  | Some t =>
    match r with
    | Ok _ => ∃ c l, switches_read c (trace s') ∧ effects (trace s') = effects (trace s) ++ l ∧ switched c t r l ∧
                     radios_of s' = commit_airplane enabled c t (radios_of s)
    | Err _ => radios_of s' = radios_of s ∧
               (effects (trace s') = effects (trace s) ∨
                ∃ c l, switches_read c (trace s') ∧ effects (trace s') = effects (trace s) ++ l ∧ switched c t r l)
    end
  end.
Proof.
  unfold switch_airplane_mode, restore_state, local, bind at 1. cbv beta iota. fold (radios_of s).
  destruct (target_switches enabled (radios_of s)) as [t|] eqn:Ht; [|eauto 6].
  set (s0 := {| world := world s; trace := trace s |}). unfold bind.
  destruct (read_switches_spec s0) as (r1 & s1 & -> & H1 & E1 & G1). change (effects (trace s0)) with (effects (trace s)) in E1.
  change (radios_of s0) with (radios_of s) in H1.
  destruct r1 as [c|e]; [|do 2 eexists; split; [done|]; split; [done|by left]].
  destruct (apply_switches_spec c t s1) as (r2 & s2 & l & Hr2 & H2 & E2 & G2). rewrite Hr2, E1 in *.
  assert (switches_read c (trace s2)) as G3.
  { assert (∃ l, trace s2 = trace s1 ++ l) as [l' ->]; [|destruct G1; split; set_solver].
    pose proof (grows_apply c t s1) as (l' & Hl' & _). rewrite Hr2 in Hl'. eauto. }
  destruct r2 as [[]|e].
  - unfold put_restore, local. do 2 eexists. split; [done|]. exists c, l. cbn. split_and!; [done|done|done|].
    unfold radios_of. cbn. rewrite restore_put. congruence.
  - do 2 eexists. split; [done|]. split; [congruence|]. right. eauto.
Qed.

(** C32. Switching airplane mode is all or nothing for what the daemon remembers: on success
    both radios were set to the target (off when it is entered, the remembered state when it
    is left) and the switches read before are remembered; on failure the memory is as it was,
    at most the Wi-Fi switch was touched, and when WWAN refused it was asked back to the value
    read before; leaving airplane mode when it is not on does nothing. *)
Theorem airplane_switch_settles enabled s :
  let '(r, s') := switch_airplane_mode enabled s in
  match target_switches enabled (radios_of s) with
  | None => enabled = false ∧ airplane (radios_of s) = false ∧ r = Ok tt ∧ trace s' = trace s ∧ radios_of s' = radios_of s
  | Some t =>
    (enabled = true → t = {| sw_wireless := false; sw_wwan := false |}) ∧
    (enabled = false → t = {| sw_wireless := restore_wireless (radios_of s); sw_wwan := restore_wwan (radios_of s) |}) ∧
    match r with
    | Ok _ => airplane (radios_of s') = enabled ∧
              ∃ c l, switches_read c (trace s') ∧ effects (trace s') = effects (trace s) ++ l ∧ switched c t r l ∧
                (enabled = true → airplane (radios_of s) = false →
                   radios_of s' = {| airplane := true; restore_wireless := sw_wireless c; restore_wwan := sw_wwan c |})
    | Err _ => radios_of s' = radios_of s ∧
               (effects (trace s') = effects (trace s) ∨
                ∃ c l, switches_read c (trace s') ∧ effects (trace s') = effects (trace s) ++ l ∧ switched c t r l)
    end
  end.
Proof.
  destruct (switch_spec enabled s) as (r & s' & -> & H).
  destruct (target_switches enabled (radios_of s)) as [t|] eqn:Ht; unfold target_switches in Ht.
  - destruct (negb enabled && negb (airplane (radios_of s))); [done|]. injection Ht as <-.
    split; [by intros ->|]. split; [by intros ->|]. destruct r as [[]|e]; [|done].
    destruct H as (c & l & ? & ? & ? & ->). split; [done|]. exists c, l. split_and!; [done..|].
    intros -> Ha. unfold commit_airplane. by rewrite Ha.
  - destruct enabled, (airplane (radios_of s)) eqn:Ha; try done. destruct H as [-> ->]. by rewrite <-Ha.
Qed.

(** What may happen while airplane mode is on: it is switched on again, a radio is switched
    off, or others act without the daemon. *)
Inductive stays_in_airplane : Session W → Session W → Prop :=
| stays_here s : stays_in_airplane s s
| stays_others s s1 s2 : stays_in_airplane s s1 → radios_of s2 = radios_of s1 → stays_in_airplane s s2
| stays_on s s1 : stays_in_airplane s s1 → stays_in_airplane s (switch_airplane_mode true s1).2
| stays_direct s s1 radio property :
    stays_in_airplane s s1 → stays_in_airplane s (set_radio_enabled radio property false s1).2.

Lemma stays_radios s s' : stays_in_airplane s s' → airplane (radios_of s) = true → radios_of s' = radios_of s.
Proof.
  induction 1 as [|s s1 s2 _ IH Ho|s s1 _ IH|s s1 radio property _ IH]; intros Ha; [done|by rewrite Ho, IH| |].
  - specialize (IH Ha). destruct (switch_spec true s1) as (r & s' & -> & H). cbn in H |- *. rewrite IH in H.
    destruct r as [[]|e]; [|by destruct H].
    destruct H as (c & l & _ & _ & _ & ->). unfold commit_airplane. rewrite Ha. cbn.
    destruct (radios_of s) as [a w v]. cbn in *. by subst.
  - specialize (IH Ha). rewrite <-IH. unfold set_radio_enabled, bind, restore_state, local, with_context.
    destruct (set_property_spec property false {| world := world s1; trace := trace s1 |}) as (reply & w & -> & Hw).
    unfold radios_of in *. cbn in Hw. destruct reply as [[]|e]; cbn; [|done]. rewrite restore_put.
    unfold record_direct_change. rewrite IH, Ha. destruct (rd_restore (world s)) as [a x y]; cbn in *; subst.
    by destruct radio.
Qed.

(** Airplane mode gives back what it took: when it was entered, whatever was switched
    off or on again by it since, leaving it sets each radio to the value that was read when
    it was entered, and no other. *)
Theorem airplane_round_trip s s1 s2 s3 :
  airplane (radios_of s) = false →
  switch_airplane_mode true s = (Ok tt, s1) → stays_in_airplane s1 s2 →
  switch_airplane_mode false s2 = (Ok tt, s3) →
  ∃ c, switches_read c (trace s1) ∧
    effects (trace s3) = effects (trace s2) ++
      [set_event "WirelessEnabled" (sw_wireless c) (Ok tt); set_event "WwanEnabled" (sw_wwan c) (Ok tt)] ∧
    radios_of s3 = {| airplane := false; restore_wireless := sw_wireless c; restore_wwan := sw_wwan c |}.
Proof.
  intros Ha H1 Hs H2. destruct (switch_spec true s) as (r & s' & Hr & H). rewrite H1 in Hr. injection Hr as <- <-.
  destruct H as (c & l & Hc & _ & _ & Hr1). unfold commit_airplane in Hr1. rewrite Ha in Hr1. cbn in Hr1.
  assert (radios_of s2 = radios_of s1) as Hr2 by (apply stays_radios; [done|by rewrite Hr1]).
  destruct (switch_spec false s2) as (r & s' & Hr & H). rewrite H2 in Hr. injection Hr as <- <-.
  rewrite Hr2, Hr1 in H. cbn in H. destruct H as (c' & l' & _ & He & Hl & Hr3).
  exists c. split; [done|]. split; [by rewrite He, Hl|]. by rewrite Hr3.
Qed.
End Airplane.

(** A NetworkManager with two radios, whose WWAN may refuse to switch. *)
Record RadioWorld := { rw_wireless : bool; rw_wwan : bool; rw_refuses : bool; rw_saved : RadioRestoreState }.
#[export] Instance radio_bus : Bus RadioWorld := {|
  bus_destination := "org.freedesktop.NetworkManager";
  bus_service := "org.freedesktop.NetworkManager";
  bus_build p i := None;
  bus_owner w := (Ok ":1.5", w);
  bus_get p i n w :=
    (if bool_decide (n = "WirelessEnabled") then Ok (VBool (rw_wireless w))
     else if bool_decide (n = "WwanEnabled") then Ok (VBool (rw_wwan w)) else Err (plain "UnknownProperty"), w);
  bus_set p i n v w :=
    match v with
    | VBool b =>
      if bool_decide (n = "WirelessEnabled") then
        (Ok tt, {| rw_wireless := b; rw_wwan := rw_wwan w; rw_refuses := rw_refuses w; rw_saved := rw_saved w |})
      else if rw_refuses w then (Err (plain "AccessDenied"), w)
      else (Ok tt, {| rw_wireless := rw_wireless w; rw_wwan := b; rw_refuses := rw_refuses w; rw_saved := rw_saved w |})
    | _ => (Err (plain "InvalidArgs"), w)
    end;
  bus_call p i m args w := (Err (plain "UnknownMethod"), w);
  bus_now w := 0%N;
  bus_pause d w := w;
  bus_cancelled w := None;
|}.
#[export] Instance radio_host : RadioHost RadioWorld := {|
  rd_restore := rw_saved;
  rd_set_restore r w := {| rw_wireless := rw_wireless w; rw_wwan := rw_wwan w; rw_refuses := rw_refuses w; rw_saved := r |};
|}.
#[export] Instance radio_laws : RadioLaws RadioWorld.
Proof. split; intros; try done. cbn. by destruct v; repeat case_match. Qed.

Definition radio_session (wireless wwan refuses : bool) : Session RadioWorld :=
  {| world := {| rw_wireless := wireless; rw_wwan := wwan; rw_refuses := refuses;
                 rw_saved := {| airplane := false; restore_wireless := false; restore_wwan := false |} |};
     trace := [] |}.

(** WWAN refuses: Wi-Fi is asked back on and nothing is remembered. *)
Lemma airplane_switch_settles_witness :
  effects (trace (switch_airplane_mode true (radio_session true true true)).2) =
    [set_event "WirelessEnabled" false (Ok tt); set_event "WwanEnabled" false (Err (plain "AccessDenied"));
     set_event "WirelessEnabled" true (Ok tt)] ∧
  (radios_of (switch_airplane_mode true (radio_session true true true)).2 = radios_of (radio_session true true true)).
Proof.
  pose proof (airplane_switch_settles true (radio_session true true true)) as H.
  split; [by vm_compute|]. vm_compute in H |- *. exact (proj1 (proj2 (proj2 H))).
Defined.

(** Wi-Fi on and WWAN off, into airplane mode, Wi-Fi switched off again, and back. *)
Lemma airplane_round_trip_witness :
  ∃ c, sw_wireless c = true ∧ sw_wwan c = false ∧
  effects (trace (switch_airplane_mode false
    (set_radio_enabled Wireless "WirelessEnabled" false (switch_airplane_mode true (radio_session true false false)).2).2).2) =
  effects (trace (set_radio_enabled Wireless "WirelessEnabled" false (switch_airplane_mode true (radio_session true false false)).2).2) ++
      [set_event "WirelessEnabled" (sw_wireless c) (Ok tt); set_event "WwanEnabled" (sw_wwan c) (Ok tt)].
Proof.
  set (s1 := (switch_airplane_mode true (radio_session true false false)).2).
  set (s2 := (set_radio_enabled Wireless "WirelessEnabled" false s1).2).
  destruct (airplane_round_trip (radio_session true false false) s1 s2 (switch_airplane_mode false s2).2) as (c & Hc & He & Hr).
  - reflexivity.
  - by vm_compute.
  - apply stays_direct, stays_here.
  - by vm_compute.
  - exists c. split_and!; [| |exact He].
    + apply (f_equal restore_wireless) in Hr. etrans; [symmetry; exact Hr|by vm_compute].
    + apply (f_equal restore_wwan) in Hr. etrans; [symmetry; exact Hr|by vm_compute].
Defined.
