(* ===== verification/WifiStatus.v ===== *)
(** * Status and disconnection of the Wi-Fi connection ([src/nm/status.rs])

    The status of the active Wi-Fi connection, composed from the reads of the other adapters,
    the state of the network, and the disconnection of the active connection, of all devices
    or of the devices connected to one SSID. *)
From S2P Require Import Prelude Errors Text Identity Reasons Network Variant Cache Profiles WifiSettings ProfileWriter Bus Inventory Devices Saved IpStatus Status.
From Stdlib Require Import ZArith Lia.
From stdpp Require Import prelude gmap strings list.

Section WifiStatus.
Context {W S : Type} {B : Bus W} {D : DeviceHost W} {SV : ProfileService S} {PS : ProfileStore W S}
  {R : RadioHost W} {ST : StatusHost W}.
Context (path_error : string → option Error).

(** [Option] chains that stop at the first failed read. *)
Definition try_opt {A C} (m : bus W A) (k : A → bus W (option C)) : bus W (option C) :=
  let! o := ok_opt m in match o with Some a => k a | None => ret None end.

Definition device_active_connection_path (device_path : string) : bus W (option string) :=
  let! device := proxy device_path DEVICE_IFACE in
  let! path := with_context ("read ActiveConnection for " +:+ device_path)
                 (get_property as_path device "ActiveConnection") in
  ret (real_path (Some path)).
Definition active_connection_profile_path (active_path : string) : bus W (option string) :=
  ok_opt (let! p := proxy active_path ACTIVE_CONNECTION_IFACE in
          with_context "read active profile path" (get_property as_path p "Connection")).
Definition connection_timestamp_ms (path : string) : bus W (option N) :=
  try_opt (proxy path SETTINGS_CONNECTION_IFACE) (λ connection,
    try_opt (call_value as_settings connection "GetSettings" []) (λ settings,
      ret (connection ← settings !! "connection"; v ← connection !! "timestamp"; seconds_to_ms <$> as_u64 v))).
Definition active_connection_profile (path : string) (profiles : list SavedWifiConnection) :
    option SavedWifiConnection :=
  find_first (λ p, bool_decide (sw_path p = path)) profiles.

Definition wireless_status (device : WifiDevice) : bus W WirelessStatus :=
  let! wifi := proxy (wd_path device) WIFI_IFACE in
  let! bitrate := ok_opt (get_property as_u32 wifi "Bitrate") in
  let! directional := local (λ w, (st_bitrates (wd_iface device) w, w)) in
  let! mac := ok_opt (get_property value_string wifi "HwAddress") in
  ret {| bitrate_mbps := (λ b, b / 1000)%N <$> bitrate; tx_bitrate_mbps := directional.1;
         rx_bitrate_mbps := directional.2; wl_mac_address := mac |}.
Definition metered_status (device_path : string) : bus W MeteredStatus :=
  let! device := proxy device_path DEVICE_IFACE in
  let! code := with_context ("read Metered for " +:+ device_path) (get_property as_u32 device "Metered") in
  ret (metered_from_nm_code code).
(** nmcli is asked only when NetworkManager's answer is incomplete. *)
Definition enriched_ip4_status (device : WifiDevice) : bus W (option IpStatus) :=
  let! dbus := ok_opt (device_ip_status (wd_path device) V4) in
  let dbus := mjoin dbus in
  if negb (ip4_status_needs_nmcli_fill dbus) then ret dbus
  else
    let! output := local (st_nmcli_device (wd_iface device)) in
    ret (merged_ip4_status dbus (output ≫= parse_device_ip4)).

Definition link_state_status (device : WifiDevice) (active_path : string) : bus W (option LinkStateStatus) :=
  try_opt (proxy (wd_path device) DEVICE_IFACE) (λ p,
  try_opt (get_property as_u32 p "State") (λ state,
  let! reason := or_default (state, 0%N) (get_property as_u32_pair p "StateReason") in
  let! active := ok_opt (proxy active_path ACTIVE_CONNECTION_IFACE) in
  let read {A} (f : value → option A) (name : string) : bus W (option A) :=
    match active with Some a => ok_opt (get_property f a name) | None => ret None end in
  let! active_state := read as_u32 "State" in
  let! primary := ok_opt (get_property as_path root_proxy "PrimaryConnection") in
  let! flags := read as_u32 "StateFlags" in
  let! default4' := read as_bool "Default" in
  let! default6' := read as_bool "Default6" in
  ret (Some {| device_state := state; Cache.device_state_name := Inventory.device_state_name state;
               ls_device_state_reason := device_state_reason reason.2; active_connection_state := active_state;
               Cache.active_connection_state_name := Inventory.active_connection_state_name <$> active_state;
               active_connection_state_flags := flags; ls_primary := bool_decide (primary = Some active_path);
               default4 := unwrap_or default4' false; default6 := unwrap_or default6' false |}))).

Definition wifi_status_for_device (device : WifiDevice) (profiles : list SavedWifiConnection)
    (connectivity : option ConnectivityStatus) (radios : RadioStatus) : bus W (option WifiStatus) :=
  let! active_connection := device_active_connection_path (wd_path device) in
  match active_connection with
  | None => ret None
  | Some active_connection =>
    let! active_ap := active_access_point device in
    match active_ap with
    | None => ret None
    | Some active_ap =>
      let! ap := access_point device active_ap true in
      let! entries := network_entries_for_access_points path_error [ap] in
      let entry := head entries in
      let! profile_path := active_connection_profile_path active_connection in
      let profile := opt_or (p ← profile_path; active_connection_profile p profiles)
                       (e ← entry; ne_primary_profile e) in
      let! active_since := match profile_path with Some p => connection_timestamp_ms p | None => ret None end in
      let! ip4 := enriched_ip4_status device in
      let! ip6 := ok_opt (device_ip_status (wd_path device) V6) in
      let! wireless := ok_opt (wireless_status device) in
      let! metered := ok_opt (metered_status (wd_path device)) in
      let! link := link_state_status device active_connection in
      ret (Some {| ws_hidden_prompt := hidden_prompt_default; ws_enabled := wireless_enabled radios;
                   ws_radios := radios; ws_active := true; ws_device_iface := Some (wd_iface device);
                   ws_device_path := Some (wd_path device); ws_active_connection_path := Some active_connection;
                   ws_access_point := Some ap; ws_network := entry; ws_profile := profile;
                   ws_connectivity := connectivity; ws_ip4 := ip4; ws_ip6 := mjoin ip6; ws_wireless := wireless;
                   ws_metered := metered; ws_active_since_ms := active_since; ws_link := link |})
    end
  end.
Definition wifi_status : bus W WifiStatus :=
  let! radios := radio_status in
  let! profiles := saved_wifi_connections in
  let! connectivity := ok_opt connectivity_snapshot in
  let! devices := wifi_devices in
  let! found := first_bus (λ d, wifi_status_for_device d profiles connectivity radios) devices in
  ret (unwrap_or found (inactive (wireless_enabled radios) radios None connectivity)).

(** ** The state of the network ([src/nm/inventory.rs]) *)

Record NetworkStateSummary := {
  ns_state : N; ns_state_name : string; ns_networking_enabled : bool; ns_radios : RadioStatus;
  ns_connectivity : ConnectivityStatus; ns_check_uri : option string; ns_check_enabled : bool;
  ns_primary_connection : option ActiveConnectionSummary; ns_primary_connection_type : option string;
  ns_activating_connection : option ActiveConnectionSummary; ns_default4 : option string; ns_default6 : option string;
}.
(** The last of the connections at a path, as collecting them into a map keeps. *)
Definition summary_for (active : list ActiveConnectionSummary) (path : option string) : option ActiveConnectionSummary :=
  path ← path; last (List.filter (λ a, bool_decide (ac_path a = path)) active).
Definition network_state : bus W NetworkStateSummary :=
  let! state := or_default 0%N (get_property as_u32 root_proxy "State") in
  let! code := or_default 0%N (get_property as_u32 root_proxy "Connectivity") in
  let! active := network_active_connections in
  let! primary_path := object_path_property root_proxy "PrimaryConnection" in
  let primary := summary_for active primary_path in
  let! enabled := or_default true (get_property as_bool root_proxy "NetworkingEnabled") in
  let! radios := radio_status in
  let! connectivity := portal_context_from root_proxy (connectivity_from_nm_code code) in
  let! uri := nonempty_string root_proxy "ConnectivityCheckUri" in
  let! check_enabled := or_default false (get_property as_bool root_proxy "ConnectivityCheckEnabled") in
  let! primary_type := nonempty_string root_proxy "PrimaryConnectionType" in
  let! activating_path := object_path_property root_proxy "ActivatingConnection" in
  ret {| ns_state := state; ns_state_name := network_state_name state; ns_networking_enabled := enabled;
         ns_radios := radios; ns_connectivity := connectivity; ns_check_uri := uri;
         ns_check_enabled := check_enabled; ns_primary_connection := primary;
         ns_primary_connection_type := opt_or primary_type (ac_connection_type <$> primary);
         ns_activating_connection := summary_for active activating_path;
         ns_default4 := ac_path <$> find_first ac_default4 active;
         ns_default6 := ac_path <$> find_first ac_default6 active |}.

(** ** Disconnecting *)

Definition deactivate_wifi_connection (path message : string) : bus W DisconnectResult :=
  let! _ := with_context "DeactivateConnection for active Wi-Fi connection"
              (call_unit root_proxy "DeactivateConnection" [VPath path]) in
  ret {| dc_status := "disconnected"; dc_message := message |}.
Definition active_wifi_connection_path : bus W (option string) :=
  let! devices := wifi_devices in first_bus (λ d, device_active_connection_path (wd_path d)) devices.
Definition disconnect_wifi : bus W DisconnectResult :=
  let! active := active_wifi_connection_path in
  match active with
  | None => ret {| dc_status := "noop"; dc_message := "No active Wi-Fi connection" |}
  | Some path => deactivate_wifi_connection path "Disconnected Wi-Fi"
  end.

Definition active_connection_matches_ssid (active_path : string) (ssid : list u8) : bus W bool :=
  let! profile := active_connection_profile_path active_path in
  match profile with None => ret false | Some p => connection_matches_ssid p ssid end.
(** The device's connection, when its profile has the SSID; also while it is activating. *)
Definition device_connection_for_ssid (ssid : list u8) (device : WifiDevice) : bus W (option string) :=
  let! path := device_active_connection_path (wd_path device) in
  match path with
  | None => ret None
  | Some path => let! matches := active_connection_matches_ssid path ssid in ret (if matches then Some path else None)
  end.
Definition wifi_connection_active_for_ssid (ssid : list u8) : bus W bool :=
  let! devices := wifi_devices in
  let! found := first_bus (device_connection_for_ssid ssid) devices in
  ret (bool_decide (is_Some found)).
Fixpoint disconnect_devices (ssid : list u8) (devices : list WifiDevice) (disconnected : option DisconnectResult) :
    bus W (option DisconnectResult) :=
  match devices with
  | [] => ret disconnected
  | d :: devices =>
    let! path := device_connection_for_ssid ssid d in
    match path with
    | None => disconnect_devices ssid devices disconnected
    | Some path =>
      let! r := deactivate_wifi_connection path ("Cancelled connection to " +:+ display_ssid ssid) in
      disconnect_devices ssid devices (Some r)
    end
  end.
Definition disconnect_wifi_for_ssid (ssid : list u8) : bus W DisconnectResult :=
  let! devices := wifi_devices in
  let! r := disconnect_devices ssid devices None in
  ret (unwrap_or r {| dc_status := "noop";
                      dc_message := "Cancelled target " +:+ display_ssid ssid +:+ " is no longer active or activating" |}).
End WifiStatus.

(** ** What disconnecting changes *)

Section Disconnecting.
Context {W : Type} {B : Bus W}.
Implicit Types s : Session W.

Lemma quiet_device_active d : quiet (device_active_connection_path (W:=W) d).
Proof. unfold device_active_connection_path. quiet_tac. Qed.
Lemma quiet_profile_path p : quiet (active_connection_profile_path (W:=W) p).
Proof. unfold active_connection_profile_path. quiet_tac. Qed.
#[local] Hint Resolve quiet_device_active quiet_profile_path : bus_quiet.
Lemma quiet_connection_for_ssid b d : quiet (device_connection_for_ssid (W:=W) b d).
Proof. unfold device_connection_for_ssid, active_connection_matches_ssid. quiet_tac. Qed.
#[local] Hint Resolve quiet_connection_for_ssid : bus_quiet.
Lemma quiet_active_for_ssid b : quiet (wifi_connection_active_for_ssid (W:=W) b).
Proof. unfold wifi_connection_active_for_ssid. quiet_tac. Qed.

(** [path] was read as the connection of a device and its profile as one for the SSID. *)
Definition read_connected (ssid : list u8) (path : string) (l : list bus_event) : Prop :=
  ∃ device profile v c,
    EvGet device DEVICE_IFACE "ActiveConnection" (Ok (VPath path)) ∈ l ∧
    EvGet path ACTIVE_CONNECTION_IFACE "Connection" (Ok (VPath profile)) ∈ l ∧
    EvCall profile SETTINGS_CONNECTION_IFACE "GetSettings" [] (Ok [v]) ∈ l ∧
    as_settings v = Some c ∧ settings_match_wifi_ssid c ssid = true.
Lemma read_connected_mono ssid path l l' : l ⊆ l' → read_connected ssid path l → read_connected ssid path l'.
Proof. intros Hl (d & p & v & c & ? & ? & ? & ? & ?). exists d, p, v, c. split_and!; auto. Qed.

Lemma says_device_active d :
  says (device_active_connection_path (W:=W) d) (λ o l, match o with
    | Some path => EvGet d DEVICE_IFACE "ActiveConnection" (Ok (VPath path)) ∈ l
    | None => True
    end).
Proof.
  unfold device_active_connection_path. eapply says_bind; [apply says_proxy|]. intros p l [-> ->].
  eapply says_bind; [apply says_with_context, says_get_property|]. intros path l (v & Hv & ->). apply says_ret.
  destruct v; try done. injection Hv as ->. cbn. case_bool_decide; [done|]. by left.
Qed.
Lemma says_profile_path a :
  says (active_connection_profile_path (W:=W) a) (λ o l, match o with
    | Some profile => EvGet a ACTIVE_CONNECTION_IFACE "Connection" (Ok (VPath profile)) ∈ l
    | None => True
    end).
Proof.
  unfold active_connection_profile_path. apply says_ok_opt. eapply says_bind; [apply says_proxy|]. intros p l [-> ->].
  eapply says_mono; [apply says_with_context, says_get_property|]. intros path ? (v & Hv & ->).
  destruct v; try done. injection Hv as ->. by left.
Qed.
Lemma says_connection_settings profile :
  says (connection_settings (W:=W) profile) (λ c l, ∃ v, as_settings v = Some c ∧
    l = [EvCall profile SETTINGS_CONNECTION_IFACE "GetSettings" [] (Ok [v])]).
Proof.
  unfold connection_settings. eapply says_bind; [apply says_proxy|]. intros p l [-> ->].
  apply says_with_context, says_call_value.
Qed.
Lemma says_matches_ssid profile b :
  says (connection_matches_ssid (W:=W) profile b) (λ r l, r = true → ∃ v c,
    EvCall profile SETTINGS_CONNECTION_IFACE "GetSettings" [] (Ok [v]) ∈ l ∧ as_settings v = Some c ∧
    settings_match_wifi_ssid c b = true).
Proof.
  unfold connection_matches_ssid. eapply says_bind; [apply says_connection_settings|].
  intros c l (v & Hv & ->). apply says_ret. intros Hm. exists v, c. split_and!; [by left|done..].
Qed.
Lemma says_active_matches path b :
  says (active_connection_matches_ssid (W:=W) path b) (λ r l, r = true → ∃ profile v c,
    EvGet path ACTIVE_CONNECTION_IFACE "Connection" (Ok (VPath profile)) ∈ l ∧
    EvCall profile SETTINGS_CONNECTION_IFACE "GetSettings" [] (Ok [v]) ∈ l ∧
    as_settings v = Some c ∧ settings_match_wifi_ssid c b = true).
Proof.
  unfold active_connection_matches_ssid. eapply says_bind; [apply says_profile_path|].
  intros [profile|] l1 H1; [|by apply says_ret]. eapply says_mono; [apply says_matches_ssid|]. cbn.
  intros r l2 H2 (v & c & ? & ? & ?)%H2. exists profile, v, c. split_and!; [set_solver..|done|done].
Qed.
Lemma says_connection_for_ssid b d :
  says (device_connection_for_ssid (W:=W) b d)
    (λ o l, match o with Some path => read_connected b path l | None => True end).
Proof.
  unfold device_connection_for_ssid. eapply says_bind; [apply says_device_active|]. intros [path|] l Hp; [|by apply says_ret].
  eapply says_bind; [apply says_active_matches|].
  intros [] l1 H1; apply says_ret; [|done]. destruct (H1 eq_refl) as (profile & v & c & ? & ? & ? & ?).
  exists (wd_path d), profile, v, c. split_and!; [set_solver..|done|done].
Qed.

Definition deactivation (path : string) (reply : result (list value) Error) : bus_event :=
  EvCall NM_PATH NM_IFACE "DeactivateConnection" [VPath path] reply.
(** [l] disconnected what was connected to the SSID; with a result, every request was accepted. *)
Definition disconnected_by (ssid : list u8) (accepted : bool) (l : list bus_event) : Prop :=
  ∀ e, e ∈ effects l → ∃ path reply, e = deactivation path reply ∧ read_connected ssid path l ∧
    (accepted = true → reply = Ok []).
Lemma disconnected_app ssid accepted l l' :
  disconnected_by ssid true l → disconnected_by ssid accepted l' → disconnected_by ssid accepted (l ++ l').
Proof.
  intros H H' e. rewrite effects_app. intros [He|He]%elem_of_app;
    [destruct (H e He) as (path & reply & ? & ? & ?)|destruct (H' e He) as (path & reply & ? & ? & ?)];
    (exists path, reply; split_and!; auto; eapply read_connected_mono; [|done]; set_solver).
Qed.
Lemma disconnected_quiet ssid accepted l : effects l = [] → disconnected_by ssid accepted l.
Proof. intros Hl e. rewrite Hl. by intros ?%elem_of_nil. Qed.
Lemma grows_connection_for_ssid b d :
  grows (device_connection_for_ssid (W:=W) b d) (λ r l, effects l = [] ∧
    match r with Ok (Some path) => read_connected b path l | _ => True end).
Proof.
  eapply grows_mono; [apply quiet_grows; [apply quiet_connection_for_ssid|apply says_connection_for_ssid]|].
  cbn. intros [[path|]|e] l [? ?]; auto.
Qed.
Lemma grows_deactivate path message :
  grows (deactivate_wifi_connection (W:=W) path message) (λ r l,
    ∃ reply, l = [deactivation path reply] ∧ (is_ok r = true → reply = Ok []) ∧
      match r with Ok x => dc_status x = "disconnected" | Err _ => True end).
Proof.
  unfold deactivate_wifi_connection.
  apply (grows_then _ _ (λ r l, ∃ reply, l = [deactivation path reply] ∧ (is_ok r = true → reply = Ok []))).
  - apply grows_with_context. eapply grows_mono; [apply grows_call_unit_ok|].
    intros r l (reply & -> & Hr). exists reply. split; [done|]. rewrite <-Hr. by destruct r.
  - intros e l (reply & -> & Hr). exists reply. by split_and!.
  - intros u l (reply & -> & Hr). apply grows_ret. exists reply. rewrite app_nil_r. split_and!; auto.
Qed.
Lemma grows_disconnect_devices ssid devices : ∀ done_before,
  grows (disconnect_devices (W:=W) ssid devices done_before) (λ r l,
    disconnected_by ssid (is_ok r) l ∧
    match r with
    | Ok o => (effects l = [] ∧ o = done_before) ∨ (effects l ≠ [] ∧ ∃ d, o = Some d ∧ dc_status d = "disconnected")
    | Err _ => True
    end).
Proof.
  induction devices as [|d devices IH]; intros before; cbn [disconnect_devices].
  { apply grows_ret. split; [by apply disconnected_quiet|by left]. }
  eapply grows_then; [apply grows_connection_for_ssid| |].
  { intros e l [Hl _]. split; [by apply disconnected_quiet|done]. }
  intros [path|] l [Hl Hp].
  - eapply grows_then with (P := λ r l1, ∃ reply, l1 = [deactivation path reply] ∧ (is_ok r = true → reply = Ok []) ∧
      match r with Ok x => dc_status x = "disconnected" | Err _ => True end).
    { apply grows_deactivate. }
    + intros e l1 (reply & -> & Hr & _). split; [|done]. intros x. rewrite effects_app, Hl. cbn.
      intros ->%list_elem_of_singleton. exists path, reply. split_and!; [done| |done].
      eapply read_connected_mono; [|done]. set_solver.
    + intros x l1 (reply & -> & Hr & Hx). specialize (Hr eq_refl) as ->.
      eapply grows_mono; [apply IH|]. intros r l2 [H2 Hr2]. cbn beta.
      assert (disconnected_by ssid true (l ++ [deactivation path (Ok [])])) as H1.
      { intros y. rewrite effects_app, Hl. cbn. intros ->%list_elem_of_singleton. exists path, (Ok []).
        split_and!; [done| |done]. eapply read_connected_mono; [|done]. set_solver. }
      rewrite (app_assoc l). split; [by apply disconnected_app|]. destruct r as [o|e]; [|done]. right.
      rewrite !effects_app, Hl. cbn. split; [done|]. destruct Hr2 as [[_ ->]|[_ (y & -> & ?)]]; eauto.
  - eapply grows_mono; [apply IH|]. intros r l1 [H1 Hr]. cbn beta. split.
    + apply disconnected_app; [by apply disconnected_quiet|done].
    + destruct r; [|done]. by rewrite effects_app, Hl.
Qed.

Lemma extends_wifi_devices : extends (wifi_devices (W:=W)).
Proof. unfold wifi_devices, wifi_device. extends_tac. Qed.

Definition disconnect_settled (ssid : list u8) (r : result DisconnectResult Error) (l : list bus_event) : Prop :=
  disconnected_by ssid (is_ok r) l ∧
  match r with
  | Ok d => (effects l = [] ∧ dc_status d = "noop") ∨ (effects l ≠ [] ∧ dc_status d = "disconnected")
  | Err _ => True
  end.
Lemma grows_disconnect_for_ssid ssid :
  grows (disconnect_wifi_for_ssid (W:=W) ssid) (disconnect_settled ssid).
Proof.
  apply (grows_then _ _ (λ _ l, effects l = [])).
  - apply quiet_grows_nil; [apply quiet_wifi_devices|apply extends_wifi_devices].
  - intros e l Hl. split; [by apply disconnected_quiet|done].
  - intros devices l Hl. eapply grows_then; [apply grows_disconnect_devices| |].
    + intros e l1 [H1 _]. split; [|done]. apply disconnected_app; [by apply disconnected_quiet|done].
    + intros o l1 [H1 Ho]. apply grows_ret. rewrite app_nil_r. split.
      * apply disconnected_app; [by apply disconnected_quiet|done].
      * rewrite effects_app, Hl. destruct Ho as [[-> ->]|[? (d & -> & ?)]]; [by left|by right].
Qed.

(** Disconnecting from an SSID disconnects nothing else: each request is for a connection
    that was read as a device's and whose profile's SSID was read to be the one asked for,
    byte for byte. The answer is "noop" exactly when nothing was disconnected, and
    "disconnected" when NetworkManager accepted every request. *)
Theorem disconnects_only_ssid ssid s :
  ∃ l, trace (disconnect_wifi_for_ssid ssid s).2 = trace s ++ l ∧
    disconnect_settled ssid (disconnect_wifi_for_ssid ssid s).1 l.
Proof. apply grows_disconnect_for_ssid. Qed.
End Disconnecting.
#[export] Hint Resolve quiet_device_active quiet_profile_path quiet_connection_for_ssid quiet_active_for_ssid : bus_quiet.
#[export] Hint Resolve extends_wifi_devices : bus_extends.

(** ** Reading the status changes nothing *)

Section Facts.
Context {W S : Type} {B : Bus W} {D : DeviceHost W} {SV : ProfileService S} {PS : ProfileStore W S}
  {R : RadioHost W} {ST : StatusHost W}.
Context (path_error : string → option Error).
Implicit Types s : Session W.

Lemma extends_profile_io {A} path (m : string → (nat → S → S) → (nat → bool) → io (S:=S) A) :
  extends (profile_io (W:=W) path m).
Proof. intros s. destruct (profile_io_trace path m s) as (l & Hl). eauto. Qed.
#[local] Hint Resolve extends_profile_io extends_wifi_devices : bus_extends.
Lemma extends_nonempty_string p n : extends (nonempty_string (W:=W) p n).
Proof. unfold nonempty_string. extends_tac. Qed.
Lemma extends_saved_connections : extends (saved_connections (W:=W)).
Proof. unfold saved_connections. extends_tac. Qed.
Lemma extends_connection_settings p : extends (connection_settings (W:=W) p).
Proof. unfold connection_settings. extends_tac. Qed.
#[local] Hint Resolve extends_nonempty_string extends_saved_connections extends_connection_settings : bus_extends.
Lemma extends_settings_if_present p : extends (connection_settings_if_present (W:=W) p).
Proof. unfold connection_settings_if_present. extends_tac. Qed.
#[local] Hint Resolve extends_settings_if_present : bus_extends.
Lemma extends_saved_wifi_connections : extends (saved_wifi_connections (W:=W) (S:=S)).
Proof. unfold saved_wifi_connections, saved_wifi_connection, connection_remembered. extends_tac. Qed.
Lemma extends_active_for_ssid b : extends (wifi_connection_active_for_ssid (W:=W) b).
Proof.
  unfold wifi_connection_active_for_ssid. extends_tac. eapply extends_of_grows, grows_connection_for_ssid.
Qed.
Lemma extends_access_point d p a : extends (access_point (W:=W) d p a).
Proof. unfold access_point, access_point_last_seen_age_ms. extends_tac. Qed.
Lemma extends_add_matches candidates acc ap :
  extends (add_compatible_profile_matches (W:=W) path_error candidates acc ap).
Proof.
  unfold add_compatible_profile_matches, available_connections_cached, available_connections, active_profile_path.
  extends_tac.
Qed.
Lemma extends_add_all candidates aps : ∀ acc, extends (add_all_matches (W:=W) path_error candidates acc aps).
Proof.
  induction aps as [|ap aps IH]; intros acc; cbn; [apply extends_ret|].
  apply extends_bind; [apply extends_add_matches|done].
Qed.
#[local] Hint Resolve extends_saved_wifi_connections extends_access_point extends_add_all : bus_extends.
Lemma extends_network_entries aps : extends (network_entries_for_access_points (W:=W) (S:=S) path_error aps).
Proof.
  unfold network_entries_for_access_points, compatible_profile_matches_by_ap_path,
    saved_wifi_profile_candidates_by_path, saved_wifi_profile_candidate, connection_remembered. extends_tac.
Qed.
Lemma extends_device_ip_status d f : extends (device_ip_status (W:=W) d f).
Proof.
  unfold device_ip_status, dhcp_lease, ip_config_proxy, ipv4_nameservers, ipv6_nameservers, nonempty_list, address_entries,
    route_entries, nameserver_entries. extends_tac.
Qed.
#[local] Hint Resolve extends_network_entries extends_device_ip_status : bus_extends.
Lemma quiet_radio_status : quiet (radio_status (W:=W)).
Proof. unfold radio_status, radio_device_availability, restore_state, put_restore. quiet_tac. Qed.
Lemma extends_radio_status : extends (radio_status (W:=W)).
Proof. unfold radio_status, radio_device_availability, restore_state, put_restore. extends_tac. Qed.
Lemma quiet_connectivity_snapshot : quiet (connectivity_snapshot (W:=W)).
Proof. unfold connectivity_snapshot, portal_context_from, primary_connection_identity. quiet_tac. Qed.
Lemma extends_connectivity_snapshot : extends (connectivity_snapshot (W:=W)).
Proof. unfold connectivity_snapshot, portal_context_from, primary_connection_identity. extends_tac. Qed.
#[local] Hint Resolve quiet_radio_status extends_radio_status quiet_connectivity_snapshot extends_connectivity_snapshot
  quiet_saved_wifi_connections : bus_quiet bus_extends.
Lemma quiet_wifi_status : quiet (wifi_status (W:=W) (S:=S) path_error).
Proof.
  unfold wifi_status, wifi_status_for_device, enriched_ip4_status, wireless_status, metered_status, link_state_status,
    connection_timestamp_ms, try_opt. quiet_tac.
Qed.
Lemma extends_wifi_status : extends (wifi_status (W:=W) (S:=S) path_error).
Proof.
  unfold wifi_status, wifi_status_for_device, enriched_ip4_status, wireless_status, metered_status, link_state_status,
    connection_timestamp_ms, active_connection_profile_path, device_active_connection_path, active_access_point, try_opt. extends_tac.
Qed.
End Facts.
#[export] Hint Resolve quiet_radio_status quiet_connectivity_snapshot quiet_wifi_status : bus_quiet.
#[export] Hint Resolve extends_profile_io extends_nonempty_string extends_saved_connections
  extends_connection_settings extends_saved_wifi_connections extends_active_for_ssid extends_radio_status
  extends_connectivity_snapshot extends_wifi_status : bus_extends.
