(* ===== verification/CacheHost.v ===== *)
(** * The cache beside the bus ([src/cache.rs], as the operations on NetworkManager use it)

    Operations on NetworkManager keep the cached state up to date as well as they can: a
    failure to do so is logged and changes nothing else. *)
From S2P Require Import Prelude Errors Text Cache Bus Status WifiStatus.
From Stdlib Require Import ZArith Ascii.
From stdpp Require Import prelude strings.
Open Scope bus_scope.

(** The file system, wall time and the cache of a world. *)
Class CacheHost (W : Type) := {
  ch_io : W → Io;
  ch_now_ms : W → N;
  ch_repo : W → Repo;
  ch_put_repo : Repo → W → W;
}.

Section CacheHost.
Context {W : Type} {B : Bus W} {CH : CacheHost W}.

(** [operation_result]. *)
Definition operation {A} (o : ErrorOperation) (m : bus W A) : bus W A :=
  let! r := attempt m in lift (operation_result o r).
Definition cache_best_effort (f : Io → N → Cache.step unit) : bus W unit :=
  local (λ w, (tt, ch_put_repo (f (ch_io w) (ch_now_ms w) (ch_repo w)).1 w)).
Definition clear_disconnected_cache (r : DisconnectResult) : bus W unit :=
  if bool_decide (dc_status r = "disconnected") then cache_best_effort (λ io _, clear_active_connection_cache io)
  else ret tt.
(** [Application::disconnect_wifi_for_ssid]. *)
Definition disconnect_and_clear (ssid : list u8) : bus W DisconnectResult :=
  let! r := operation Op.Disconnect (disconnect_wifi_for_ssid ssid) in
  let! _ := clear_disconnected_cache r in
  ret r.

Lemma quiet_cache f : quiet (cache_best_effort f).
Proof. apply quiet_local. Qed.
Lemma extends_cache f : extends (cache_best_effort f).
Proof. apply extends_local. Qed.
Lemma succeeds_cache f : succeeds (cache_best_effort f).
Proof. apply succeeds_local. Qed.
Lemma grows_operation {A} o (m : bus W A) Q :
  grows m Q → grows (operation o m) (λ r l, match r with Ok a => Q (Ok a) l | Err _ => ∃ e, Q (Err e) l end).
Proof.
  intros Hm. eapply grows_then with (P := λ r l, match r with Ok r => Q r l | Err _ => False end).
  - by apply grows_attempt.
  - done.
  - intros [a|e] l Hl; apply grows_pure; rewrite app_nil_r; cbn; eauto.
Qed.
Lemma grows_disconnect_and_clear ssid :
  grows (disconnect_and_clear ssid) (disconnect_settled ssid).
Proof.
  eapply grows_then; [apply grows_operation, grows_disconnect_for_ssid|by intros e l (e' & Hl & _)|]. intros r l Hl.
  eapply grows_then with (P := λ _ l', l' = []).
  - unfold clear_disconnected_cache, cache_best_effort. case_bool_decide; [by apply grows_local|by apply grows_ret].
  - intros e l' ->. rewrite app_nil_r. split; [|done]. destruct Hl as [Hl _].
    intros ev (path & reply & ? & ? & _)%Hl. by exists path, reply.
  - intros [] l' ->. apply grows_ret. by rewrite !app_nil_r.
Qed.
End CacheHost.
#[export] Hint Resolve quiet_cache : bus_quiet.
#[export] Hint Resolve extends_cache : bus_extends.
#[export] Hint Resolve succeeds_cache : bus_succeeds.
