(* ===== verification/Health.v ===== *)
(** * Health of the network ([src/nm/events.rs], [src/nm/health.rs])

    NetworkManager says why a device, a connection or a VPN changed state only in the signal
    of the change. The event monitor keeps the last signal of each object, and the last that
    gave a reason; a signal becomes a health event with a classification, the identity of
    what it is about, and a recommendation to notify the user. *)
From S2P Require Import Prelude Errors Text Reasons Variant Bus Inventory.
From Stdlib Require Import ZArith Lia.
From stdpp Require Import prelude gmap strings list.

(** ** Signals *)

Inductive HealthSubject := SubjectDevice | SubjectActiveConnection | SubjectVpn.
#[export] Instance health_subject_eq_dec : EqDecision HealthSubject.
Proof. solve_decision. Defined.
Definition subject_code (s : HealthSubject) : nat :=
  match s with SubjectDevice => 0 | SubjectActiveConnection => 1 | SubjectVpn => 2 end.
Definition subject_of (n : nat) : option HealthSubject :=
  match n with 0 => Some SubjectDevice | 1 => Some SubjectActiveConnection | _ => Some SubjectVpn end.
#[export] Instance health_subject_countable : Countable HealthSubject.
Proof. refine (inj_countable subject_code subject_of _). by intros []. Defined.
Definition subject_str (s : HealthSubject) : string :=
  match s with SubjectDevice => "device" | SubjectActiveConnection => "connection" | SubjectVpn => "vpn" end.

Record HealthSignal := {
  sg_owner : string;
  sg_subject : HealthSubject;
  sg_path : string;
  sg_state : N;
  sg_previous_state : option N;
  sg_reason : N;
  sg_observed_at : instant;
}.

(** What the monitor shares: the generation of the last change and the signals. *)
Record NetworkEvents := {
  generation : N;
  latest_health : gmap (HealthSubject * string) HealthSignal;
  latest_detailed_health : gmap (HealthSubject * string) HealthSignal;
}.
Definition initial_events : NetworkEvents :=
  {| generation := 0; latest_health := ∅; latest_detailed_health := ∅ |}.
Definition notify (e : NetworkEvents) : NetworkEvents :=
  {| generation := (generation e + 1) mod 2 ^ 64; latest_health := latest_health e;
     latest_detailed_health := latest_detailed_health e |}.
Definition notify_health (signal : HealthSignal) (e : NetworkEvents) : NetworkEvents :=
  let key := (sg_subject signal, sg_path signal) in
  {| generation := generation e; latest_health := <[key := signal]> (latest_health e);
     latest_detailed_health :=
       if (sg_reason signal =? 0)%N then latest_detailed_health e
       else <[key := signal]> (latest_detailed_health e) |}.
Definition clear_health (e : NetworkEvents) : NetworkEvents :=
  notify {| generation := generation e; latest_health := ∅; latest_detailed_health := ∅ |}.
(** A received message: its signal, if it carries one, and the new generation. *)
Definition receive_message (signal : option HealthSignal) (e : NetworkEvents) : NetworkEvents :=
  notify match signal with Some s => notify_health s e | None => e end.

(** The header and the numbers of a signal. *)
Definition VPN_CONNECTION_IFACE : string := "org.freedesktop.NetworkManager.VPN.Connection".
Definition health_signal (interface member sender path : string) (body : list N) (now : instant) :
    option HealthSignal :=
  subject ←
    (if bool_decide (interface = DEVICE_IFACE) && bool_decide (member = "StateChanged") then Some SubjectDevice
     else if bool_decide (interface = ACTIVE_CONNECTION_IFACE) && bool_decide (member = "StateChanged")
     then Some SubjectActiveConnection
     else if bool_decide (interface = VPN_CONNECTION_IFACE) && bool_decide (member = "VpnStateChanged")
     then Some SubjectVpn else None);
  numbers ← match subject, body with
            | SubjectDevice, [state; previous; reason] => Some (state, Some previous, reason)
            | SubjectActiveConnection, [state; reason] | SubjectVpn, [state; reason] => Some (state, None, reason)
            | _, _ => None
            end;
  Some {| sg_owner := sender; sg_subject := subject; sg_path := path; sg_state := numbers.1.1;
          sg_previous_state := numbers.1.2; sg_reason := numbers.2; sg_observed_at := now |}.

(** ** Classification *)

Inductive HealthTransitionKind := Informational | Progress | Success | ExpectedLifecycle | Failure.
#[export] Instance transition_kind_eq_dec : EqDecision HealthTransitionKind.
Proof. solve_decision. Defined.
Inductive HealthSeverity := SevInfo | SevWarning | SevError.

Definition benign_lifecycle_reason (name : string) : bool :=
  bool_decide (name ∈
    ["now-managed"; "now-unmanaged"; "sleeping"; "new-activation"; "unmanaged-by-default";
     "unmanaged-external-down"; "unmanaged-link-not-init"; "unmanaged-quitting"; "unmanaged-sleeping";
     "unmanaged-user-conf"; "unmanaged-user-explicit"; "unmanaged-user-settings"; "unmanaged-user-udev"]).
Definition explicit_failure (reason : TypedReason) : bool :=
  negb (bool_decide (tr_category reason ∈ [C.None; C.Unknown; C.UserRequested]))
  && negb (benign_lifecycle_reason (tr_name reason)).

Definition classify_device_state (state : N) (expected_lifecycle : bool) : option HealthTransitionKind :=
  if ((40 <=? state)%N && (state <=? 90)%N) || (state =? 110)%N then Some Progress
  else if (state =? 100)%N then Some Success
  else if (state =? 120)%N then Some (if expected_lifecycle then ExpectedLifecycle else Failure)
  else if bool_decide (state ∈ [10%N; 20%N; 30%N]) && expected_lifecycle then Some ExpectedLifecycle
  else None.
Definition classify_active_connection_state (state : N) (expected_lifecycle : bool) : option HealthTransitionKind :=
  if (state =? 1)%N || (state =? 3)%N then Some Progress
  else if (state =? 2)%N then Some Success
  else if (state =? 4)%N && expected_lifecycle then Some ExpectedLifecycle
  else None.
Definition classify_vpn_state (state : N) (expected_lifecycle : bool) : option HealthTransitionKind :=
  if (1 <=? state)%N && (state <=? 4)%N then Some Progress
  else if (state =? 5)%N then Some Success
  else if (state =? 6)%N || (state =? 7)%N then Some (if expected_lifecycle then ExpectedLifecycle else Failure)
  else None.
Definition classify_transition (signal : HealthSignal) (reason : TypedReason) : HealthTransitionKind :=
  let expected_lifecycle :=
    bool_decide (tr_category reason = C.UserRequested) || benign_lifecycle_reason (tr_name reason) in
  unwrap_or
    match sg_subject signal with
    | SubjectDevice => classify_device_state (sg_state signal) expected_lifecycle
    | SubjectActiveConnection => classify_active_connection_state (sg_state signal) expected_lifecycle
    | SubjectVpn => classify_vpn_state (sg_state signal) expected_lifecycle
    end
    (if explicit_failure reason then Failure else Informational).
Definition transition_severity (signal : HealthSignal) (kind : HealthTransitionKind) : HealthSeverity :=
  match kind with
  | Failure =>
    match sg_subject signal with
    | SubjectDevice => if (sg_state signal =? 120)%N then SevError else SevWarning
    | SubjectVpn => if (sg_state signal =? 6)%N then SevError else SevWarning
    | SubjectActiveConnection => SevWarning
    end
  | _ => SevInfo
  end.

Definition describe (signal : HealthSignal) : string * option string * TypedReason :=
  match sg_subject signal with
  | SubjectDevice =>
    (device_state_name (sg_state signal), device_state_name <$> sg_previous_state signal,
     device_state_reason (sg_reason signal))
  | SubjectActiveConnection =>
    (active_connection_state_name (sg_state signal), active_connection_state_name <$> sg_previous_state signal,
     active_connection_state_reason (sg_reason signal))
  | SubjectVpn =>
    (vpn_state_name (sg_state signal), vpn_state_name <$> sg_previous_state signal, vpn_state_reason (sg_reason signal))
  end.

(** ** Events *)

Record NetworkHealthEvent := {
  he_subject : string; he_state : N; he_state_name : string; he_previous_state : option N;
  he_previous_state_name : option string; he_reason : TypedReason; he_user_requested : bool; he_unexpected : bool;
  he_transition_kind : HealthTransitionKind; he_notification_recommended : bool; he_severity : HealthSeverity;
  he_message : option string; he_suggested_actions : list string;
  he_device_path : option string; he_device_iface : option string; he_device_type : option N;
  he_active_connection_path : option string; he_profile_path : option string; he_id : option string;
  he_uuid : option string; he_connection_type : option string; he_at_ms : N;
}.

(** The identity of what an event is about. *)
Record Identified := {
  id_device_path : option string; id_device_iface : option string; id_device_type : option N;
  id_active : option string; id_profile : option string; id_id : option string; id_uuid : option string;
  id_type : option string;
}.
Definition unidentified : Identified :=
  {| id_device_path := None; id_device_iface := None; id_device_type := None; id_active := None;
     id_profile := None; id_id := None; id_uuid := None; id_type := None |}.

Definition health_message (id device_iface : option string) (state_name : string) (reason : TypedReason) : string :=
  let subject := unwrap_or id (unwrap_or device_iface "Network connection") in
  match tr_category reason with
  | C.AddressAssignment => subject +:+ " connected to Wi-Fi, but IP address assignment failed"
  | C.Authentication => subject +:+ " could not authenticate with the Wi-Fi access point"
  | C.Carrier => subject +:+ " lost its wireless link"
  | C.Hardware => subject +:+ " failed because the radio is unavailable"
  | C.Configuration =>
    if bool_decide (tr_name reason = "ssid-not-found")
    then subject +:+ " could not find or reach the selected Wi-Fi access point"
    else subject +:+ " failed because its network configuration is incompatible"
  | _ => subject +:+ " changed to " +:+ state_name +:+ " because of " +:+ tr_name reason
  end.
Definition suggested_actions (category : ReasonCategory) : list string :=
  match category with
  | C.AddressAssignment => ["retry"; "try-alternate-band"; "restart-access-point"]
  | C.Authentication => ["check-credentials"; "retry"]
  | C.Carrier => ["retry"; "move-closer"; "try-alternate-band"]
  | C.Hardware => ["enable-wifi"; "check-firmware"]
  | C.Configuration => ["refresh-networks"; "retry"]
  | _ => ["retry"]
  end.

Definition HEALTH_FAILURE_CORRELATION_WINDOW : duration := from_secs 3.
Definition recent_detailed_device_failure (now : instant) (signal : option HealthSignal) : bool :=
  match signal with
  | None => false
  | Some s =>
    if negb (bool_decide (sg_subject s = SubjectDevice))
       || (HEALTH_FAILURE_CORRELATION_WINDOW <? now - sg_observed_at s)%N then false
    else
      let reason := (describe s).2 in
      bool_decide (classify_transition s reason = Failure) && negb (bool_decide (tr_category reason = C.Unknown))
  end.

(** The monitor's state and the wall clock. *)
Class HealthStore (W : Type) := {
  hl_events : W → NetworkEvents;
  hl_now_ms : W → N;
}.

Section Health.
Context {W : Type} {B : Bus W} {H : HealthStore W}.

Definition of_this_owner (s : option HealthSignal) : option HealthSignal :=
  match s with
  | Some s => if bool_decide (sg_owner s = bus_destination) then Some s else None
  | None => None
  end.
Definition latest_health_signal (subject : HealthSubject) (path : string) : bus W (option HealthSignal) :=
  local (λ w, (of_this_owner (latest_health (hl_events w) !! (subject, path)), w)).
Definition latest_detailed_health_signal (subject : HealthSubject) (path : string) : bus W (option HealthSignal) :=
  local (λ w, (of_this_owner (latest_detailed_health (hl_events w) !! (subject, path)), w)).

Definition describe_active_connection (path : string) (i : Identified) : bus W Identified :=
  let! r := attempt (proxy path ACTIVE_CONNECTION_IFACE) in
  match r with
  | Err _ => ret {| id_device_path := id_device_path i; id_device_iface := id_device_iface i;
                    id_device_type := id_device_type i; id_active := Some path; id_profile := id_profile i;
                    id_id := id_id i; id_uuid := id_uuid i; id_type := id_type i |}
  | Ok active =>
    let! id := nonempty_string active "Id" in
    let! uuid := nonempty_string active "Uuid" in
    let! type := nonempty_string active "Type" in
    let! profile := ok_opt (get_property as_path active "Connection") in
    let profile := real_path profile in
    let! devices := or_default [] (get_property as_paths active "Devices") in
    let! (device_path, device_iface) :=
      match id_device_path i, devices with
      | None, device :: _ =>
        let! iface := ok_opt (let! p := proxy device DEVICE_IFACE in get_property value_string p "Interface") in
        ret (Some device, iface)
      | _, _ => ret (id_device_path i, id_device_iface i)
      end in
    let! (id, uuid, type) :=
      match id, profile with
      | None, Some profile =>
        let! settings := ok_opt (connection_settings profile) in
        ret match settings ≫= (.!! "connection") with
            | Some c => (setting_string c "id", setting_string c "uuid", setting_string c "type")
            | None => (id, uuid, type)
            end
      | _, _ => ret (id, uuid, type)
      end in
    ret {| id_device_path := device_path; id_device_iface := device_iface; id_device_type := id_device_type i;
           id_active := Some path; id_profile := profile; id_id := id; id_uuid := uuid; id_type := type |}
  end.
Definition describe_device (path : string) : bus W Identified :=
  let with_device iface type :=
    {| id_device_path := Some path; id_device_iface := iface; id_device_type := type; id_active := None;
       id_profile := None; id_id := None; id_uuid := None; id_type := None |} in
  let! r := attempt (proxy path DEVICE_IFACE) in
  match r with
  | Err _ => ret (with_device None None)
  | Ok device =>
    let! iface := nonempty_string device "Interface" in
    let! type := ok_opt (get_property as_u32 device "DeviceType") in
    let! active := ok_opt (get_property as_path device "ActiveConnection") in
    match real_path active with
    | Some active => describe_active_connection active (with_device iface type)
    | None => ret (with_device iface type)
    end
  end.

(** The generic failure of a connection, after the detailed failure of its device. *)
Definition failure_superseded (signal : HealthSignal) (kind : HealthTransitionKind) (i : Identified) : bus W bool :=
  match sg_subject signal, id_device_path i with
  | SubjectActiveConnection, Some device =>
    if bool_decide (kind = Failure) then
      let! s := latest_detailed_health_signal SubjectDevice device in
      let! now := now in
      ret (recent_detailed_device_failure now s)
    else ret false
  | _, _ => ret false
  end.

Definition network_health_event (signal : HealthSignal) : bus W NetworkHealthEvent :=
  let! _ := lift (ensure (bool_decide (sg_owner signal = bus_destination))
                    (plain "health signal belongs to an old NetworkManager owner")) in
  let '(state_name, previous_state_name, reason) := describe signal in
  let kind := classify_transition signal reason in
  let! at_ms := local (λ w, (hl_now_ms w, w)) in
  let! i := match sg_subject signal with
            | SubjectDevice => describe_device (sg_path signal)
            | _ => describe_active_connection (sg_path signal) unidentified
            end in
  let! superseded := failure_superseded signal kind i in
  let recommended := bool_decide (kind = Failure) && negb superseded in
  ret {| he_subject := subject_str (sg_subject signal); he_state := sg_state signal; he_state_name := state_name;
         he_previous_state := sg_previous_state signal; he_previous_state_name := previous_state_name;
         he_reason := reason;
         he_user_requested := (expected reason && bool_decide (tr_name reason = "user-requested"))
                              || bool_decide (tr_name reason = "user-disconnected");
         he_unexpected := bool_decide (kind = Failure); he_transition_kind := kind;
         he_notification_recommended := recommended; he_severity := transition_severity signal kind;
         he_message := if recommended then Some (health_message (id_id i) (id_device_iface i) state_name reason) else None;
         he_suggested_actions := if recommended then suggested_actions (tr_category reason) else [];
         he_device_path := id_device_path i; he_device_iface := id_device_iface i;
         he_device_type := id_device_type i; he_active_connection_path := id_active i;
         he_profile_path := id_profile i; he_id := id_id i; he_uuid := id_uuid i; he_connection_type := id_type i;
         he_at_ms := at_ms |}.
End Health.

(** ** What a notification means *)

Definition named_user (name : string) : bool := bool_decide (name ∈ ["user-requested"; "user-disconnected"]).
Lemma user_reasons specs code :
  forallb (λ sp : ReasonSpec, negb (named_user sp.1) || bool_decide (sp.2 = C.UserRequested)) specs = true →
  named_user (tr_name (typed_reason code specs)) = true →
  tr_category (typed_reason code specs) = C.UserRequested.
Proof.
  intros Hall. unfold typed_reason. destruct (specs !! N.to_nat code) as [[n c]|] eqn:E; cbn; [|done].
  rewrite forallb_forall in Hall. specialize (Hall (n, c)). rewrite <-list_elem_of_In in Hall.
  intros Hn. specialize (Hall (list_elem_of_lookup_2 _ _ _ E)). cbv beta in Hall. cbn [fst snd] in Hall.
  rewrite Hn in Hall. cbn [negb orb] in Hall. by apply bool_decide_eq_true in Hall.
Qed.
Lemma describe_user signal :
  named_user (tr_name (describe signal).2) = true → tr_category (describe signal).2 = C.UserRequested.
Proof. unfold describe. destruct (sg_subject signal); apply user_reasons; by vm_compute. Qed.

(** A transition that was asked for, or that belongs to the life of a device, is no failure. *)
Lemma expected_not_failure signal reason :
  tr_category reason = C.UserRequested ∨ benign_lifecycle_reason (tr_name reason) = true →
  classify_transition signal reason ≠ Failure.
Proof.
  intros H. unfold classify_transition, explicit_failure.
  assert (bool_decide (tr_category reason = C.UserRequested) || benign_lifecycle_reason (tr_name reason) = true) as ->
    by (apply orb_true_iff; rewrite bool_decide_eq_true; by destruct H; auto).
  assert (negb (bool_decide (tr_category reason ∈ [C.None; C.Unknown; C.UserRequested]))
    && negb (benign_lifecycle_reason (tr_name reason)) = false) as ->.
  { apply andb_false_iff. destruct H as [H|H]; [left|right; by rewrite H].
    rewrite H. by vm_compute. }
  unfold classify_device_state, classify_active_connection_state, classify_vpn_state.
  destruct (sg_subject signal); repeat case_match; simplify_eq/=; done.
Qed.
Lemma failure_severity signal : transition_severity signal Failure ≠ SevInfo.
Proof. unfold transition_severity. by destruct (sg_subject signal); [destruct (_ =? _)%N| |destruct (_ =? _)%N]. Qed.
Lemma actions_given c : suggested_actions c ≠ [].
Proof. by destruct c. Qed.

Section Spec.
Context {W : Type} {B : Bus W} {H : HealthStore W}.

Lemma succeeds_describe_active p i : succeeds (describe_active_connection (W:=W) p i).
Proof. unfold describe_active_connection. total_tac. Qed.
Lemma succeeds_describe_device p : succeeds (describe_device (W:=W) p).
Proof. unfold describe_device. pose proof succeeds_describe_active. total_tac. Qed.
Lemma quiet_describe_active p i : quiet (describe_active_connection (W:=W) p i).
Proof. unfold describe_active_connection. quiet_tac. Qed.
Lemma quiet_describe_device p : quiet (describe_device (W:=W) p).
Proof. unfold describe_device. pose proof quiet_describe_active. quiet_tac. Qed.

(** Why a failure is not announced: the device has just announced it with its reason. *)
Definition superseded (device_path : option string) (w : W) : Prop :=
  ∃ device d, device_path = Some device ∧
    latest_detailed_health (hl_events w) !! (SubjectDevice, device) = Some d ∧ sg_owner d = bus_destination ∧
    (bus_now w - sg_observed_at d ≤ HEALTH_FAILURE_CORRELATION_WINDOW)%N ∧
    classify_transition d (describe d).2 = Failure.

Lemma failure_superseded_spec signal kind i s :
  wp (failure_superseded signal kind i) (λ r s', s' = s ∧ ∃ b, r = Ok b ∧
    (b = true → sg_subject signal = SubjectActiveConnection ∧ superseded (id_device_path i) (world s))) s.
Proof.
  unfold failure_superseded.
  assert (∀ b : bool, b = false → wp (ret b) (λ r s', s' = s ∧ ∃ b, r = Ok b ∧
    (b = true → sg_subject signal = SubjectActiveConnection ∧ superseded (id_device_path i) (world s))) s) as Hno.
  { intros b ->. unfold wp. cbn. split; [done|]. by exists false. }
  destruct (sg_subject signal) eqn:Hs; [by apply Hno| |by apply Hno].
  destruct (id_device_path i) as [device|] eqn:Hdev; [|by apply Hno].
  case_bool_decide; [|by apply Hno]. unfold wp, latest_detailed_health_signal, now, local, bind, ret. cbn.
  split; [by destruct s|]. eexists. split; [done|]. intros Hr. split; [done|].
  unfold of_this_owner in Hr. destruct (latest_detailed_health _ !! _) as [d|] eqn:Hl; [|done].
  case_bool_decide as Ho; [|done]. unfold recent_detailed_device_failure in Hr.
  destruct (negb _ || _) eqn:E; [done|]. apply orb_false_iff in E as [_ E]. apply N.ltb_ge in E.
  apply andb_true_iff in Hr as [Hr _]. apply bool_decide_eq_true in Hr.
  by exists device, d.
Qed.

(** Health events are sound: a signal of another NetworkManager is refused; otherwise an
    event is made without changing anything, a transition the user asked for or that belongs
    to a device's ordinary life is neither a failure nor announced, an announced transition
    is a failure with a severity, a message and actions, and a failure stays unannounced only
    for a connection whose device announced its own failure within the last three seconds. *)
Theorem health_event_sound signal s :
  wp (network_health_event signal) (λ r s', effects (trace s') = effects (trace s) ∧
    match r with
    | Err _ => sg_owner signal ≠ bus_destination
    | Ok e =>
      sg_owner signal = bus_destination ∧
      (he_user_requested e = true ∨ benign_lifecycle_reason (tr_name (he_reason e)) = true →
         he_transition_kind e ≠ Failure) ∧
      (he_notification_recommended e = true →
         he_transition_kind e = Failure ∧ he_severity e ≠ SevInfo ∧ is_Some (he_message e) ∧
         he_suggested_actions e ≠ []) ∧
      (he_transition_kind e = Failure → he_notification_recommended e = false →
         sg_subject signal = SubjectActiveConnection ∧ superseded (he_device_path e) (world s'))
    end) s.
Proof.
  unfold network_health_event. apply wp_then. unfold wp at 1, lift, ensure. cbn.
  case_bool_decide as Ho; [|done]. pose proof (describe_user signal) as Hu.
  destruct (describe signal) as [[sn psn] reason] eqn:Hd. cbn in Hu.
  apply wp_then. unfold wp at 1, local. cbn. apply wp_then.
  set (m := match sg_subject signal with SubjectDevice => _ | _ => _ end).
  assert (quiet m) as Hq by (unfold m; destruct (sg_subject signal); auto using quiet_describe_device, quiet_describe_active).
  assert (succeeds m) as Ht
    by (unfold m; destruct (sg_subject signal); auto using succeeds_describe_device, succeeds_describe_active).
  clearbody m. set (s0 := {| world := world s; trace := trace s |}).
  destruct (succeeds_Ok m s0 Ht) as (i & s1 & Hi). unfold wp at 1. specialize (Hq s0). rewrite Hi in *. cbn in Hq |- *.
  apply wp_then. eapply wp_weaken; [apply failure_superseded_spec|]. intros ? s2 (-> & b & -> & Hb).
  unfold wp. cbn. split_and!; [done..| | |].
  - intros Hx. apply expected_not_failure. destruct Hx as [Hx|Hx]; [left|by right]. apply Hu.
    unfold named_user. apply orb_true_iff in Hx as [[_ Hx]%andb_true_iff|Hx]; apply bool_decide_eq_true in Hx as ->; by vm_compute.
  - intros [Hk Hb']%andb_true_iff. apply bool_decide_eq_true in Hk. rewrite Hk, bool_decide_eq_true_2, Hb' by done. cbn.
    split_and!; [done|apply failure_severity|done|apply actions_given].
  - intros -> Hr. rewrite bool_decide_eq_true_2 in Hr by done. apply Hb. by destruct b.
Qed.
End Spec.
