(* ===== verification/Hotspot.v ===== *)
(** * Wi-Fi hotspots ([src/nm/hotspot.rs], [src/daemon_hotspot.rs])

    Which device can host a hotspot, the profile a hotspot is made of, and the start
    workflow: add and activate a volatile profile, wait until it is active, take everything
    back when it does not get there. *)
From S2P Require Import Prelude Errors Text Random Identity Wifi Qr Variant Bus Inventory.
From Stdlib Require Import ZArith Lia Ascii.
From stdpp Require Import prelude gmap strings list pretty.

Definition CAP_AP : N := 64.
Definition CAP_FREQ_2GHZ : N := 512.
Definition CAP_FREQ_5GHZ : N := 1024.
Definition WIFI_MODE_AP : N := 3.
Definition GENERATED_PASSPHRASE_LEN : nat := 12.
Definition ACTIVATION_TIMEOUT : duration := from_secs 20.
Definition ACTIVATION_POLL : duration := from_millis 200.

(** ** Data *)

Inductive HotspotUnavailableReason := NoWifiDevice | ApModeUnsupported | WifiDisabled | DeviceBusy.
Definition reason_name (r : HotspotUnavailableReason) : string :=
  match r with
  | NoWifiDevice => "no-wifi-device" | ApModeUnsupported => "ap-mode-unsupported"
  | WifiDisabled => "wifi-disabled" | DeviceBusy => "device-busy"
  end.
Inductive HotspotSecurity := WpaPsk | Sae.
Definition key_management (s : HotspotSecurity) : string := match s with WpaPsk => "wpa-psk" | Sae => "sae" end.
Definition qr_auth_type (s : HotspotSecurity) : string := match s with WpaPsk => "WPA" | Sae => "SAE" end.
Definition minimum_passphrase_len (s : HotspotSecurity) : nat := 8.
(** serde's names. *)
Definition band_json (b : WifiBand) : json :=
  JStr match b with Auto => "auto" | Ghz2_4 => "2.4" | Ghz5 => "5" | Ghz6 => "6" end.

Record HotspotDevice := {
  hd_path : string; hd_interface : string; hd_ap_capable : bool; hd_in_use : bool;
  hd_state : N; hd_state_name : string; hd_mode : string; hd_bands : list WifiBand;
}.
Record HotspotCapabilities := {
  hc_supported : bool; hc_unsupported_reason : option HotspotUnavailableReason; hc_message : string;
  hc_devices : list HotspotDevice; hc_recommended_device : option string;
  hc_supported_security : list HotspotSecurity; hc_supported_bands : list WifiBand;
}.
Record HotspotShare := { hsh_ssid : string; hsh_auth_type : string; hsh_hidden : bool; hsh_qr_payload : string }.
Record HotspotStatus := {
  hs_active : bool; hs_device_path : option string; hs_device_iface : option string; hs_ssid : option string;
  hs_ssid_hex : option string; hs_band : option WifiBand; hs_channel : option N;
  hs_security : option HotspotSecurity; hs_hidden : bool; hs_profile_path : option string;
  hs_active_connection : option string; hs_state : option N; hs_state_name : option string;
  hs_share : option HotspotShare;
}.
Definition inactive_hotspot : HotspotStatus :=
  {| hs_active := false; hs_device_path := None; hs_device_iface := None; hs_ssid := None; hs_ssid_hex := None;
     hs_band := None; hs_channel := None; hs_security := None; hs_hidden := false; hs_profile_path := None;
     hs_active_connection := None; hs_state := None; hs_state_name := None; hs_share := None |}.
Record HotspotStartResult := {
  hr_status : string; hr_message : string; hr_generated_passphrase : bool; hr_generated_ssid : bool;
  hr_passphrase : string; hr_hotspot : HotspotStatus;
}.
Record HotspotStopResult := {
  hp_status : string; hp_message : string; hp_ssid : option string; hp_device_iface : option string;
}.
Record HotspotRequest := {
  rq_ssid : option string; rq_passphrase : option string; rq_security : HotspotSecurity; rq_band : WifiBand;
  rq_channel : option N; rq_hidden : bool; rq_device : option string;
}.
(** [HotspotStartParams] and its conversion. *)
Record HotspotStartParams := {
  sp_ssid : option string; sp_passphrase : option string; sp_security : option HotspotSecurity;
  sp_band : option WifiBand; sp_channel : option N; sp_hidden : bool; sp_device : option string;
}.
Definition request_of_params (p : HotspotStartParams) : HotspotRequest :=
  {| rq_ssid := non_empty (sp_ssid p); rq_passphrase := non_empty (sp_passphrase p);
     rq_security := unwrap_or (sp_security p) WpaPsk; rq_band := unwrap_or (sp_band p) Auto;
     rq_channel := match sp_channel p with Some c => if (0 <? c)%N then Some c else None | None => None end;
     rq_hidden := sp_hidden p; rq_device := non_empty (sp_device p) |}.
Record ResolvedHotspot := {
  rh_ssid : string; rh_ssid_bytes : list u8; rh_passphrase : string; rh_generated_passphrase : bool;
  rh_generated_ssid : bool; rh_device : HotspotDevice; rh_band : WifiBand; rh_channel : option N;
}.

(** ** Decisions *)

Definition capability_bands (capabilities : N) : list WifiBand :=
  (if (N.land capabilities CAP_FREQ_2GHZ =? 0)%N then [] else [Ghz2_4]) ++
  (if (N.land capabilities CAP_FREQ_5GHZ =? 0)%N then [] else [Ghz5]).
Definition wifi_mode_name : N → string := name_of
  [(1%N, "adhoc"); (2%N, "infrastructure"); (3%N, "access-point"); (4%N, "mesh")] "unknown".

Definition available_hotspot_device (d : HotspotDevice) : bool := hd_ap_capable d && negb (hd_in_use d).
Definition hotspot_availability (devices : list HotspotDevice) (wireless_enabled has_preferred : bool) :
    option HotspotUnavailableReason * string :=
  match devices with
  | [] => (Some NoWifiDevice, "NetworkManager reports no Wi-Fi device")
  | _ =>
    if negb (existsb hd_ap_capable devices) then
      (Some ApModeUnsupported, "No Wi-Fi device advertises access-point mode")
    else if negb wireless_enabled then (Some WifiDisabled, "The Wi-Fi radio is turned off")
    else if negb has_preferred then
      (Some DeviceBusy, "Every access-point-capable Wi-Fi device is already in use")
    else (None, "A Wi-Fi hotspot can be started")
  end.

Definition select_hotspot_device (devices : list HotspotDevice) (requested : option string) :
    result HotspotDevice Error :=
  match requested with
  | None =>
    ok_or (find_first available_hotspot_device devices)
      (EDomain (not_found Op.HotspotOperation "no unused access-point-capable Wi-Fi device is available"))
  | Some requested =>
    let? device := ok_or
      (find_first (λ d, bool_decide (hd_path d = requested) || bool_decide (hd_interface d = requested)) devices)
      (EDomain (with_detail "device" (JStr requested)
         (not_found Op.HotspotOperation "requested Wi-Fi device does not exist"))) in
    let? _ := ensure (hd_ap_capable device)
      (EDomain (with_detail "unsupported_reason" (JStr (reason_name ApModeUnsupported))
         (validation Op.HotspotOperation (hd_interface device +:+ " does not support access-point mode")))) in
    Ok device
  end.

Definition resolve_band (requested : WifiBand) (device : HotspotDevice) : result WifiBand Error :=
  if bool_decide (requested = Auto) then Ok Auto
  else if bool_decide (requested ∈ hd_bands device) then Ok requested
  else Err (EDomain (with_detail "available_bands" (JArr (band_json <$> hd_bands device))
         (with_detail "requested_band" (band_json requested)
            (validation Op.HotspotOperation
               (hd_interface device +:+ " cannot host a hotspot on the requested band"))))).

Definition validate_passphrase (passphrase : string) (security : HotspotSecurity) : result unit Error :=
  let minimum := minimum_passphrase_len security in
  let length := char_count passphrase in
  ensure (negb ((length <? minimum)%nat || (63 <? length)%nat))
    (EDomain (with_detail "field" (JStr "passphrase")
       (validation Op.HotspotOperation ("hotspot passphrase must be " +:+ pretty minimum +:+ "-63 characters")))).

(** [default_hotspot_ssid], from what [/proc/sys/kernel/hostname] holds. *)
Definition default_hotspot_ssid (hostname : option string) : string :=
  match trim <$> hostname with
  | Some host =>
    if negb (bool_decide (host = "")) && (length (as_bytes host) <=? 24)%nat
    then host +:+ "-hotspot" else "nm-daemon-hotspot"
  | None => "nm-daemon-hotspot"
  end.

Definition hotspot_profile_status (settings : ConnectionSettings) : HotspotStatus :=
  let wireless := section_of "802-11-wireless" settings in
  let ssid_bytes := unwrap_or (wireless !! "ssid" ≫= value_bytes) [] in
  {| hs_active := false; hs_device_path := None; hs_device_iface := None;
     hs_ssid := Some (display_ssid ssid_bytes); hs_ssid_hex := Some (ssid_hex ssid_bytes);
     hs_band := band_from_nm_value <$> setting value_string wireless "band";
     hs_channel := match setting as_u32 wireless "channel" with
                   | Some c => if (0 <? c)%N then Some c else None
                   | None => None
                   end;
     hs_security :=
       match settings !! "802-11-wireless-security" ≫= λ s, setting value_string s "key-mgmt" with
       | Some k => if bool_decide (k = "sae") then Some Sae else if bool_decide (k = "wpa-psk") then Some WpaPsk else None
       | None => None
       end;
     hs_hidden := unwrap_or (setting as_bool wireless "hidden") false;
     hs_profile_path := None; hs_active_connection := None; hs_state := None; hs_state_name := None;
     hs_share := None |}.

Definition hotspot_connection_settings (uuid : string) (resolved : ResolvedHotspot) (request : HotspotRequest) :
    ConnectionSettings :=
  let connection : section := list_to_map
    [("id", VStr (rh_ssid resolved)); ("uuid", VStr uuid); ("type", VStr "802-11-wireless");
     ("autoconnect", VBool false); ("interface-name", VStr (hd_interface (rh_device resolved)))] in
  let wireless : section := list_to_map
    [("ssid", of_bytes_value (rh_ssid_bytes resolved)); ("mode", VStr "ap"); ("hidden", VBool (rq_hidden request))] in
  let wireless := insert_optional_value "band" (VStr <$> band_nm_value (rh_band resolved)) wireless in
  let wireless := insert_optional_value "channel" (VU32 <$> rh_channel resolved) wireless in
  let security : section := list_to_map
    [("key-mgmt", VStr (key_management (rq_security request))); ("psk", VStr (rh_passphrase resolved));
     ("proto", of_strings ["rsn"]); ("pairwise", of_strings ["ccmp"]); ("group", of_strings ["ccmp"])] in
  list_to_map
    [("connection", connection); ("802-11-wireless", wireless); ("802-11-wireless-security", security);
     ("ipv4", {[ "method" := VStr "shared" ]}); ("ipv6", {[ "method" := VStr "ignore" ]})].

(** ** The adapter *)

(** Besides NetworkManager: the host's name and the kernel's random bytes, for a passphrase
    and for a UUID. *)
Class HotspotHost (W : Type) := {
  hh_hostname : W → option string;
  hh_blocks : W → list (result (list u8) Error);
  hh_uuid : W → result (list u8) Error;
}.

Section Hotspot.
Context {W : Type} {B : Bus W} {H : HotspotHost W} (path_error : string → option Error).

Definition hotspot_device (device : WifiDevice) : bus W HotspotDevice :=
  let! device_proxy := proxy (wd_path device) DEVICE_IFACE in
  let! state := or_default 0%N (get_property as_u32 device_proxy "State") in
  let! active := or_default "/" (get_property as_path device_proxy "ActiveConnection") in
  let! wifi := proxy (wd_path device) WIFI_IFACE in
  let! capabilities := or_default 0%N (get_property as_u32 wifi "WirelessCapabilities") in
  let! mode := or_default 0%N (get_property as_u32 wifi "Mode") in
  ret {| hd_path := wd_path device; hd_interface := wd_iface device;
         hd_ap_capable := negb (N.land capabilities CAP_AP =? 0)%N;
         hd_in_use := negb (bool_decide (active = "/")); hd_state := state;
         hd_state_name := device_state_name state; hd_mode := wifi_mode_name mode;
         hd_bands := capability_bands capabilities |}.
Definition hotspot_devices : bus W (list HotspotDevice) :=
  let! devices := wifi_devices in map_bus hotspot_device devices.

Definition hotspot_capabilities : bus W HotspotCapabilities :=
  let! devices := hotspot_devices in
  let! wireless_enabled := or_default false (get_property as_bool root_proxy "WirelessEnabled") in
  let recommended := find_first available_hotspot_device devices in
  let '(unsupported_reason, message) :=
    hotspot_availability devices wireless_enabled (bool_decide (is_Some recommended)) in
  ret {| hc_supported := bool_decide (unsupported_reason = None); hc_unsupported_reason := unsupported_reason;
         hc_message := message; hc_recommended_device := hd_path <$> recommended;
         hc_supported_bands := [Auto; Ghz2_4; Ghz5]; hc_supported_security := [WpaPsk; Sae];
         hc_devices := devices |}.

Definition hotspot_status_for_device (device : HotspotDevice) : bus W (option HotspotStatus) :=
  let! wifi := proxy (hd_path device) WIFI_IFACE in
  let! mode := or_default 0%N (get_property as_u32 wifi "Mode") in
  if negb (mode =? WIFI_MODE_AP)%N then ret None
  else
    let! device_proxy := proxy (hd_path device) DEVICE_IFACE in
    let! active_path := or_default "/" (get_property as_path device_proxy "ActiveConnection") in
    if bool_decide (active_path = "/") then ret None
    else
      let! active := proxy active_path ACTIVE_CONNECTION_IFACE in
      let! state := or_default 0%N (get_property as_u32 active "State") in
      let! profile_path := or_default "/" (get_property as_path active "Connection") in
      let! settings := connection_settings profile_path in
      let s := hotspot_profile_status settings in
      ret (Some
        {| hs_active := true; hs_device_path := Some (hd_path device); hs_device_iface := Some (hd_interface device);
           hs_profile_path := Some profile_path; hs_active_connection := Some active_path; hs_state := Some state;
           hs_state_name := Some (active_connection_state_name state); hs_ssid := hs_ssid s;
           hs_ssid_hex := hs_ssid_hex s; hs_band := hs_band s; hs_channel := hs_channel s;
           hs_security := hs_security s; hs_hidden := hs_hidden s; hs_share := hs_share s |}).
Definition hotspot_status : bus W HotspotStatus :=
  let! devices := hotspot_devices in
  let! status := first_bus hotspot_status_for_device devices in
  ret (unwrap_or status inactive_hotspot).

Definition out_of_blocks : Error := plain "the random generator did not return enough bytes".
Definition generate_passphrase : bus W string := λ s,
  (result_map_err (add_context "generate hotspot passphrase")
     (unwrap_or (random_passphrase (hh_blocks (world s)) GENERATED_PASSPHRASE_LEN) (Err out_of_blocks)), s).
Definition generate_uuid : bus W string := λ s,
  (result_map_err (add_context "generate hotspot profile uuid") (random_uuid_v4 (hh_uuid (world s))), s).

Definition resolve_hotspot (request : HotspotRequest) : bus W ResolvedHotspot :=
  let! capabilities := hotspot_capabilities in
  let! _ := lift match hc_unsupported_reason capabilities with
                 | Some reason => Err (EDomain (with_detail "unsupported_reason" (JStr (reason_name reason))
                                    (validation Op.HotspotOperation (hc_message capabilities))))
                 | None => Ok tt
                 end in
  let! device := lift (select_hotspot_device (hc_devices capabilities) (rq_device request)) in
  let! ssid := match rq_ssid request with
               | Some ssid => ret ssid
               | None => local (λ w, (default_hotspot_ssid (hh_hostname w), w))
               end in
  let! _ := lift (result_map_err
    (λ e, EDomain (with_cause e (with_detail "field" (JStr "ssid") (validation Op.HotspotOperation (display e)))))
    (validate_ssid_bytes (as_bytes ssid))) in
  let! passphrase := match rq_passphrase request with
                     | Some p => let! _ := lift (validate_passphrase p (rq_security request)) in ret p
                     | None => generate_passphrase
                     end in
  let! band := lift (resolve_band (rq_band request) device) in
  ret {| rh_ssid := ssid; rh_ssid_bytes := as_bytes ssid; rh_passphrase := passphrase;
         rh_generated_passphrase := bool_decide (rq_passphrase request = None);
         rh_generated_ssid := bool_decide (rq_ssid request = None); rh_device := device; rh_band := band;
         rh_channel := rq_channel request |}.

Definition VOLATILE : value := of_section {[ "persist" := VStr "volatile" ]}.
Definition as_activation (reply : list value) : option (string * string) :=
  match reply with [VPath profile; VPath active; VDict _] => Some (profile, active) | _ => None end.
Definition add_and_activate_hotspot (resolved : ResolvedHotspot) (settings : ConnectionSettings) :
    bus W (string * string) :=
  let! device_path := lift match path_error (hd_path (rh_device resolved)) with
                           | None => Ok (hd_path (rh_device resolved))
                           | Some e => Err (add_context "parse hotspot device path" e)
                           end in
  with_context ("AddAndActivateConnection2 for hotspot " +:+ rh_ssid resolved)
    (let! reply := call_method root_proxy "AddAndActivateConnection2"
                     [of_settings settings; VPath device_path; VPath "/"; VOLATILE] in
     lift (ok_or (as_activation reply) type_error)).

Definition check_hotspot_cancelled : bus W unit := check_cancelled Op.HotspotOperation "hotspot start was cancelled".

Definition activation_state (active_path : string) : bus W N :=
  or_default 0%N
    (let! p := proxy active_path ACTIVE_CONNECTION_IFACE in
     with_context "read hotspot activation state" (get_property as_u32 p "State")).
Definition out_of_fuel : Error := plain "out of fuel".
Fixpoint await_loop (fuel : nat) (active_path : string) (deadline : instant) : bus W unit :=
  match fuel with
  | O => lift (Err out_of_fuel)
  | S fuel =>
    let! _ := check_hotspot_cancelled in
    let! state := activation_state active_path in
    if (state =? NM_ACTIVE_CONNECTION_STATE_ACTIVATED)%N then ret tt
    else if (3 <=? state)%N then
      lift (Err (EDomain (new Code.ActivationFailed Op.HotspotOperation Src.NetworkManager
        "NetworkManager deactivated the hotspot during activation")))
    else
      let! t := now in
      if (deadline <=? t)%N then
        lift (Err (EDomain (timeout Op.HotspotOperation "timed out waiting for the hotspot to activate")))
      else
        let! _ := sleep ACTIVATION_POLL in
        await_loop fuel active_path deadline
  end.
(** Each round but the last sleeps for [ACTIVATION_POLL]. *)
Definition AWAIT_FUEL : nat := 102.
Definition await_hotspot_activation (active_path : string) : bus W unit :=
  let! t := now in
  await_loop AWAIT_FUEL active_path (t + ACTIVATION_TIMEOUT)%N.

Definition started_hotspot_result (request : HotspotRequest) (resolved : ResolvedHotspot)
    (profile_path active_path : string) : HotspotStartResult :=
  let token := qr_auth_type (rq_security request) in
  let share := {| hsh_ssid := rh_ssid resolved; hsh_auth_type := token; hsh_hidden := rq_hidden request;
                  hsh_qr_payload := wifi_qr_payload token (rh_ssid resolved) (Some (rh_passphrase resolved))
                                      (rq_hidden request) |} in
  {| hr_status := "started"; hr_message := "Hotspot " +:+ rh_ssid resolved +:+ " is running";
     hr_generated_passphrase := rh_generated_passphrase resolved; hr_generated_ssid := rh_generated_ssid resolved;
     hr_passphrase := rh_passphrase resolved;
     hr_hotspot :=
       {| hs_active := true; hs_device_path := Some (hd_path (rh_device resolved));
          hs_device_iface := Some (hd_interface (rh_device resolved)); hs_ssid := Some (rh_ssid resolved);
          hs_ssid_hex := Some (ssid_hex (rh_ssid_bytes resolved)); hs_band := Some (rh_band resolved);
          hs_channel := rh_channel resolved; hs_security := Some (rq_security request);
          hs_hidden := rq_hidden request; hs_profile_path := Some profile_path;
          hs_active_connection := Some active_path; hs_state := Some NM_ACTIVE_CONNECTION_STATE_ACTIVATED;
          hs_state_name := Some "activated"; hs_share := Some share |} |}.

(** Best effort: a profile that is gone already is not an error. *)
Definition remove_hotspot_profile (profile_path : string) : bus W unit :=
  if bool_decide (profile_path = "/") then ret tt
  else let! _ := attempt (delete_connection profile_path) in ret tt.
Definition roll_back_hotspot (profile_path active_path : string) : bus W unit :=
  let! _ := attempt (call_unit root_proxy "DeactivateConnection" [VPath active_path]) in
  remove_hotspot_profile profile_path.

Definition start_hotspot (request : HotspotRequest) : bus W HotspotStartResult :=
  let! status := hotspot_status in
  let! _ := lift match hs_ssid status with
                 | Some active => Err (EDomain (validation Op.HotspotOperation
                                    ("a hotspot is already running for " +:+ active)))
                 | None => Ok tt
                 end in
  let! resolved := resolve_hotspot request in
  let! _ := check_hotspot_cancelled in
  let! uuid := generate_uuid in
  let settings := hotspot_connection_settings uuid resolved request in
  let! (profile_path, active_path) := add_and_activate_hotspot resolved settings in
  let! r := attempt (await_hotspot_activation active_path) in
  match r with
  | Ok _ => ret (started_hotspot_result request resolved profile_path active_path)
  | Err e => let! _ := roll_back_hotspot profile_path active_path in lift (Err e)
  end.

Definition stop_hotspot : bus W HotspotStopResult :=
  let! status := hotspot_status in
  match hs_active_connection status, hs_ssid status with
  | Some active_connection, Some ssid =>
    let! active_path := lift match path_error active_connection with
                             | None => Ok active_connection
                             | Some e => Err (add_context "parse hotspot path" e)
                             end in
    let profile_path := p ← hs_profile_path status; if path_error p then None else Some p in
    let! _ := with_context "DeactivateConnection for hotspot"
                (call_unit root_proxy "DeactivateConnection" [VPath active_path]) in
    let! _ := match profile_path with Some p => remove_hotspot_profile p | None => ret tt end in
    ret {| hp_status := "stopped"; hp_message := "Hotspot " +:+ ssid +:+ " stopped"; hp_ssid := Some ssid;
           hp_device_iface := hs_device_iface status |}
  | _, _ => ret {| hp_status := "noop"; hp_message := "No hotspot is running"; hp_ssid := None;
                   hp_device_iface := None |}
  end.

(** [run_hotspot_worker], up to the events: what the client hears. *)
Inductive HotspotOutcome :=
| HotspotCancelled
| HotspotSucceeded (r : HotspotStartResult)
| HotspotError (e : Error).
Definition run_hotspot_worker (request : HotspotRequest) : bus W HotspotOutcome :=
  let! r := attempt (let! result := start_hotspot request in let! _ := ensure_current_owner in ret result) in
  match r with
  | Ok result =>
    let! cancelled := cancellation in
    if cancellation_requested cancelled then
      let! _ := attempt stop_hotspot in ret HotspotCancelled
    else ret (HotspotSucceeded result)
  | Err e => ret (HotspotError e)
  end.
End Hotspot.

(** ** The pieces *)

(** Characters of an ASCII string are its bytes. *)
Lemma ascii_width b : (N_of_ascii b < 128)%N → utf8_char_width b = 1.
Proof. unfold utf8_char_width. intros Hb. by destruct (N.ltb_spec (N_of_ascii b) 128); [|lia]. Qed.
Lemma ascii_steps b fuel :
  Forall (λ c, (N_of_ascii c < 128)%N) b → length b ≤ fuel → length (utf8_steps fuel b) = length b.
Proof.
  revert fuel. induction b as [|c b IH]; intros fuel Hb Hf; [by destruct fuel|].
  apply Forall_cons in Hb as [Hc Hb]. destruct fuel as [|fuel]; [cbn in Hf; lia|]. cbn [utf8_steps].
  unfold decode_one. rewrite ascii_width by done. cbn [length drop]. by rewrite drop_0, IH by (cbn in Hf; auto with lia).
Qed.
Lemma char_count_ascii s : Forall (λ c, (N_of_ascii c < 128)%N) (as_bytes s) → char_count s = length (as_bytes s).
Proof. intros Hs. unfold char_count, chars, utf8_walk. rewrite length_fmap. by apply ascii_steps. Qed.

Lemma generated_passphrase_length blocks p :
  random_passphrase blocks GENERATED_PASSPHRASE_LEN = Some (Ok p) → char_count p = 12.
Proof.
  unfold random_passphrase. cbn [GENERATED_PASSPHRASE_LEN Nat.eqb].
  destruct (passphrase_loop blocks _ []) as [[b|e]|] eqn:Hl; cbn; [|done..]. intros [= <-].
  rewrite char_count_ascii; rewrite as_bytes_of_bytes.
  - eapply passphrase_loop_length; [|exact Hl]. cbn. lia.
  - apply passphrase_loop_alphabet in Hl; [|done]. eapply Forall_impl; [exact Hl|].
    intros c Hc. assert (forallb (λ c, (N_of_ascii c <? 128)%N) PASSPHRASE_ALPHABET = true) as Ha by by vm_compute.
    rewrite forallb_forall in Ha. apply N.ltb_lt, Ha. by apply list_elem_of_In.
Qed.

(** Any host name gives a valid SSID. *)
Lemma default_ssid_valid hostname : validate_ssid_bytes (as_bytes (default_hotspot_ssid hostname)) = Ok tt.
Proof.
  unfold default_hotspot_ssid. destruct (trim <$> hostname) as [host|]; [|by vm_compute].
  destruct (negb _ && _) eqn:E; [|by vm_compute]. apply andb_true_iff in E as [E1 E2].
  apply Nat.leb_le in E2. unfold validate_ssid_bytes. rewrite as_bytes_app.
  rewrite bool_decide_eq_false_2 by (intros Hn%(f_equal length); rewrite length_app in Hn; cbn in Hn; lia).
  cbn [orb]. destruct (Nat.ltb_spec 32 (length (as_bytes host ++ as_bytes "-hotspot"))) as [Hl|]; [|done].
  rewrite length_app in Hl. cbn in Hl. lia.
Qed.

(** What a hotspot is resolved to. *)
Definition resolved_ok (request : HotspotRequest) (r : ResolvedHotspot) : Prop :=
  rh_ssid_bytes r = as_bytes (rh_ssid r) ∧ validate_ssid_bytes (rh_ssid_bytes r) = Ok tt ∧
  8 ≤ char_count (rh_passphrase r) ≤ 63 ∧ hd_ap_capable (rh_device r) = true ∧
  (∀ p, rq_passphrase request = Some p → rh_passphrase r = p) ∧
  (∀ i, rq_ssid request = Some i → rh_ssid r = i) ∧
  (rh_band r = Auto ∨ rh_band r ∈ hd_bands (rh_device r)).

Lemma select_device_capable devices requested d :
  select_hotspot_device devices requested = Ok d → hd_ap_capable d = true.
Proof.
  unfold select_hotspot_device. destruct requested as [p|].
  - intros H. unbind_all. by simplify_eq.
  - destruct (find_first _ devices) as [x|] eqn:Hf; [|done]. intros [= <-].
    apply find_first_Some in Hf as (_ & _ & _ & Hp & _). unfold available_hotspot_device in Hp. by bool_prop.
Qed.
Lemma validate_passphrase_Ok p s : validate_passphrase p s = Ok tt → 8 ≤ char_count p ≤ 63.
Proof.
  unfold validate_passphrase, ensure, minimum_passphrase_len.
  destruct (Nat.ltb_spec (char_count p) 8), (Nat.ltb_spec 63 (char_count p)); cbn; done.
Qed.
Lemma resolve_band_Ok b d x : resolve_band b d = Ok x → x = Auto ∨ x ∈ hd_bands d.
Proof. unfold resolve_band. repeat case_bool_decide; intros [= <-]; auto. Qed.


Section Spec.
Context {W : Type} {B : Bus W} {H : HotspotHost W} (path_error : string → option Error).

Lemma quiet_hotspot_devices : quiet (hotspot_devices (W:=W)).
Proof. unfold hotspot_devices, hotspot_device. quiet_tac. Qed.
#[local] Hint Resolve quiet_hotspot_devices : bus_quiet.
Lemma quiet_hotspot_status : quiet (hotspot_status (W:=W)).
Proof. unfold hotspot_status, hotspot_status_for_device. quiet_tac. Qed.
Lemma quiet_generate_passphrase : quiet (generate_passphrase (W:=W)).
Proof. done. Qed.
Lemma quiet_generate_uuid : quiet (generate_uuid (W:=W)).
Proof. done. Qed.
#[local] Hint Resolve quiet_hotspot_status quiet_generate_passphrase quiet_generate_uuid : bus_quiet.
Lemma quiet_hotspot_capabilities : quiet (hotspot_capabilities (W:=W)).
Proof. unfold hotspot_capabilities. quiet_tac. Qed.
#[local] Hint Resolve quiet_hotspot_capabilities : bus_quiet.
Lemma quiet_resolve_hotspot request : quiet (resolve_hotspot (W:=W) request).
Proof. unfold resolve_hotspot. quiet_tac. Qed.
Lemma quiet_activation_state a : quiet (activation_state (W:=W) a).
Proof. unfold activation_state. quiet_tac. Qed.
Lemma quiet_await_loop fuel a d : quiet (await_loop (W:=W) fuel a d).
Proof.
  induction fuel as [|fuel IH]; cbn [await_loop]; [apply quiet_lift|].
  unfold check_hotspot_cancelled. pose proof quiet_activation_state. quiet_tac.
Qed.
Lemma quiet_await a : quiet (await_hotspot_activation (W:=W) a).
Proof. unfold await_hotspot_activation. pose proof quiet_await_loop. quiet_tac. Qed.

Lemma generate_passphrase_Ok s p s' : generate_passphrase (W:=W) s = (Ok p, s') → char_count p = 12.
Proof.
  unfold generate_passphrase. destruct (random_passphrase _ _) as [[q|e]|] eqn:Hr; cbn; [|done..].
  intros [= <- _]. by eapply generated_passphrase_length.
Qed.

Lemma resolve_hotspot_sound request s r s' :
  resolve_hotspot (W:=W) request s = (Ok r, s') → resolved_ok request r.
Proof.
  unfold resolve_hotspot, bind, lift, ret. intros Hr.
  destruct (hotspot_capabilities s) as [[caps|e] s1]; [|done].
  destruct (hc_unsupported_reason caps); [done|]. cbn in Hr.
  destruct (select_hotspot_device _ _) as [d|e] eqn:Hd; [|done].
  apply select_device_capable in Hd.
  set (m := match rq_ssid request with Some ssid => _ | None => _ end) in Hr.
  assert (∃ ssid s2, m s1 = (Ok ssid, s2) ∧ (∀ i, rq_ssid request = Some i → ssid = i)) as (ssid & s2 & Hm & Hi).
  { unfold m. destruct (rq_ssid request) as [i|].
    - exists i, s1. split; [done|]. by intros ? [= <-].
    - eexists _, _. split; [done|]. done. }
  rewrite Hm in Hr. destruct (validate_ssid_bytes _) as [[]|e] eqn:Hv; [|done]. cbn in Hr.
  match type of Hr with context [match ?m s2 with _ => _ end] => set (g := m s2) in Hr end.
  assert (∀ p s3, g = (Ok p, s3) → 8 ≤ char_count p ≤ 63 ∧ (∀ q, rq_passphrase request = Some q → p = q)) as Hg.
  { unfold g. intros p s3. destruct (rq_passphrase request) as [q|].
    - destruct (validate_passphrase q _) as [[]|e] eqn:Hp; [|done]. intros [= <- <-].
      split; [by eapply validate_passphrase_Ok|]. by intros ? [= <-].
    - intros Hp%generate_passphrase_Ok. split; [lia|done]. }
  destruct g as [[p|e] s3]; [|done]. destruct (Hg p s3 eq_refl) as [Hc Hp].
  destruct (resolve_band _ _) as [b|e] eqn:Hb; [|done]. injection Hr as <- <-.
  apply resolve_band_Ok in Hb. destruct Hc. unfold resolved_ok. cbn -[char_count]. by split_and!.
Qed.

(** The state found is the one read last, unless it is the default. *)
Lemma activation_state_last a s :
  ∃ n, (activation_state a s).1 = Ok n ∧
    (n ≠ 0%N → last (trace (activation_state a s).2) = Some (EvGet a ACTIVE_CONNECTION_IFACE "State" (Ok (VU32 n)))).
Proof.
  unfold activation_state, or_default, attempt, bind, with_context, ret.
  destruct (proxy a ACTIVE_CONNECTION_IFACE s) as [[p|e] s1] eqn:Hp; [|by exists 0%N].
  assert (p = {| p_path := a; p_iface := ACTIVE_CONNECTION_IFACE |}) as ->.
  { revert Hp. unfold proxy, bind. destruct (ensure_current_owner s) as [[[]|e] s2]; [|done].
    destruct (bus_build _ _); [done|]. by intros [= <- _]. }
  pose proof (get_property_last as_u32 {| p_path := a; p_iface := ACTIVE_CONNECTION_IFACE |} "State" s1) as Hl.
  destruct (get_property _ _ _ s1) as [[n|e] s2]; cbn in *; [|by exists 0%N].
  exists n. split; [done|]. intros _. destruct Hl as (v & Hv & ->). by destruct v; simplify_eq/=.
Qed.

Definition seen_active (a : string) (s : Session W) : Prop :=
  last (trace s) = Some (EvGet a ACTIVE_CONNECTION_IFACE "State" (Ok (VU32 NM_ACTIVE_CONNECTION_STATE_ACTIVATED))).
Lemma await_loop_seen fuel a d s s' : await_loop (W:=W) fuel a d s = (Ok tt, s') → seen_active a s'.
Proof.
  revert s. induction fuel as [|fuel IH]; intros s; cbn [await_loop]; [done|]. intros Hl. bus_unroll.
  destruct (_ =? NM_ACTIVE_CONNECTION_STATE_ACTIVATED)%N eqn:E.
  - apply done_Ok in Hl as [_ ->]. apply N.eqb_eq in E as ->.
    match goal with Hs : activation_state a ?s1 = _ |- _ =>
      destruct (activation_state_last a s1) as (n & Hn & Hlast); rewrite Hs in Hn, Hlast end.
    injection Hn as <-. by apply Hlast.
  - destruct (_ <=? _)%N; [done|]. bus_unroll. destruct (_ <=? _)%N; [done|]. bus_unroll. by eapply IH.
Qed.
Lemma await_seen a s s' : await_hotspot_activation (W:=W) a s = (Ok tt, s') → seen_active a s'.
Proof. unfold await_hotspot_activation. intros Hl. bus_unroll. by eapply await_loop_seen. Qed.

(** ** Effects of a start *)

Definition add_event (c : ConnectionSettings) (device : string) (reply : result (list value) Error) : bus_event :=
  EvCall NM_PATH NM_IFACE "AddAndActivateConnection2" [of_settings c; VPath device; VPath "/"; VOLATILE] reply.
Definition deactivate_event (active : string) (reply : result (list value) Error) : bus_event :=
  EvCall NM_PATH NM_IFACE "DeactivateConnection" [VPath active] reply.
Definition delete_event (profile : string) (reply : result (list value) Error) : bus_event :=
  EvCall profile SETTINGS_CONNECTION_IFACE "Delete" [] reply.

(** The profile is deleted, unless there is none or the daemon cannot reach the
    NetworkManager it started with. *)
Definition removed (profile : string) (l : list bus_event) : Prop :=
  (∃ reply, l = [delete_event profile reply]) ∨
  (l = [] ∧ (profile = "/" ∨ ∃ s : Session W, is_ok (proxy profile SETTINGS_CONNECTION_IFACE s).1 = false)).

Lemma proxy_Ok path iface s p s' : proxy (W:=W) path iface s = (Ok p, s') → p = {| p_path := path; p_iface := iface |}.
Proof.
  unfold proxy. intros Hp. bus_unroll. destruct (bus_build path iface); [done|]. by apply done_Ok in Hp as [-> _].
Qed.
Lemma remove_profile_effects profile s :
  wp (remove_hotspot_profile profile)
    (λ r s', r = Ok tt ∧ ∃ l, effects (trace s') = effects (trace s) ++ l ∧ removed profile l) s.
Proof.
  unfold remove_hotspot_profile. case_bool_decide as E.
  - unfold wp. cbn. split; [done|]. exists []. rewrite app_nil_r. split; [done|]. right. auto.
  - apply wp_then, wp_try. unfold delete_connection. apply wp_then.
    destruct (proxy profile SETTINGS_CONNECTION_IFACE s) as [[p|e] s1] eqn:Hp; unfold wp at 1; rewrite Hp; cbn.
    + pose proof (quiet_proxy profile SETTINGS_CONNECTION_IFACE s) as Hq. rewrite Hp in Hq. cbn in Hq.
      apply proxy_Ok in Hp as ->. apply wp_with_context, wp_effect_unit; [done|]. cbn. intros r s2 reply Hs _.
      unfold wp. cbn. split; [done|]. eexists. rewrite <-Hq. split; [exact Hs|]. left. by eexists.
    + pose proof (quiet_proxy profile SETTINGS_CONNECTION_IFACE s) as Hq. rewrite Hp in Hq. cbn in Hq.
      unfold wp. cbn. split; [done|]. exists []. rewrite app_nil_r. split; [done|]. right. split; [done|].
      right. exists s. by rewrite Hp.
Qed.
Lemma roll_back_effects profile active s :
  wp (roll_back_hotspot profile active)
    (λ r s', r = Ok tt ∧ ∃ reply l, effects (trace s') = effects (trace s) ++ deactivate_event active reply :: l ∧
       removed profile l) s.
Proof.
  unfold roll_back_hotspot. apply wp_then, wp_try, wp_effect_unit; [done|]. cbn. intros r s1 reply Hs _.
  eapply wp_weaken; [apply remove_profile_effects|]. intros ? s2 (-> & l & Hl & Hr). split; [done|].
  exists reply, l. split; [|done]. by rewrite Hl, Hs, <-app_assoc.
Qed.

(** The shared code reads back. *)
Lemma share_reads request resolved profile active :
  resolved_ok request resolved →
  ∃ share q, hs_share (hr_hotspot (started_hotspot_result request resolved profile active)) = Some share ∧
    parse_wifi_qr (hsh_qr_payload share) = Ok q ∧ q_ssid q = rh_ssid resolved ∧
    q_password q = Some (rh_passphrase resolved) ∧ q_hidden q = rq_hidden request ∧
    key_management_hint (q_auth q) = Some (key_management (rq_security request)).
Proof.
  intros (Hb & Hv & [Hc1 Hc2] & _). rewrite Hb in Hv. eexists _, _. split; [reflexivity|].
  set (a := match rq_security request with WpaPsk => QrWpa | Sae => QrSae end).
  split; [apply (parse_exported _ _ _ _ a)|]; [|done| |].
  - unfold a. by destruct (rq_security request); vm_compute.
  - unfold validate_password, MAX_PASSPHRASE_CHARS.
    apply Nat.leb_le in Hc1. apply Nat.leb_le in Hc2. rewrite Hc1, Hc2. unfold a. by destruct (rq_security request).
  - unfold a. split_and!; [done..|]. by destruct (rq_security request).
Qed.

Lemma add_effects resolved c s :
  wp (add_and_activate_hotspot path_error resolved c)
    (λ r s', match r with
             | Ok (profile, active) => ∃ x,
                 effects (trace s') = effects (trace s) ++
                   [add_event c (hd_path (rh_device resolved)) (Ok [VPath profile; VPath active; VDict x])]
             | Err _ =>
                 effects (trace s') = effects (trace s) ∨
                 ∃ reply, effects (trace s') = effects (trace s) ++ [add_event c (hd_path (rh_device resolved)) reply] ∧
                   ∀ a, reply = Ok a → as_activation a = None
             end) s.
Proof.
  unfold add_and_activate_hotspot. apply wp_then. unfold wp at 1, lift. cbn.
  destruct (path_error _); cbn; [by left|].
  apply wp_with_context, wp_then, wp_effect; [done|]. cbn. intros [reply|e] s1 Hs.
  - unfold wp, lift. cbn. destruct (as_activation reply) as [[profile active]|] eqn:Ha; cbn.
    + unfold as_activation in Ha. repeat case_match; simplify_eq. by eexists.
    + right. eexists. split; [exact Hs|]. by intros ? [= <-].
  - right. eexists. split; [exact Hs|]. by intros ? [=].
Qed.

(** How a start ends. *)
Definition start_settled (request : HotspotRequest) (l : list bus_event) (r : result HotspotStartResult Error)
    (s' : Session W) : Prop :=
  match r with
  | Ok res => ∃ uuid resolved profile active x share q,
      resolved_ok request resolved ∧
      l = [add_event (hotspot_connection_settings uuid resolved request) (hd_path (rh_device resolved))
             (Ok [VPath profile; VPath active; VDict x])] ∧
      seen_active active s' ∧ res = started_hotspot_result request resolved profile active ∧
      hs_share (hr_hotspot res) = Some share ∧ parse_wifi_qr (hsh_qr_payload share) = Ok q ∧
      q_ssid q = rh_ssid resolved ∧ q_password q = Some (hr_passphrase res)
  | Err _ =>
      l = [] ∨
      (∃ c device reply, l = [add_event c device reply] ∧ ∀ a, reply = Ok a → as_activation a = None) ∨
      (∃ c device profile active x reply rest,
         l = add_event c device (Ok [VPath profile; VPath active; VDict x]) :: deactivate_event active reply :: rest ∧
         removed profile rest)
  end.

(** ** The wait ends *)

Context {C : BusClock W}.

Lemma forward_activation_state a : forward (activation_state (W:=W) a).
Proof.
  unfold activation_state. forward_tac.
Qed.
Lemma activation_state_total a s : ∃ n, (activation_state (W:=W) a s).1 = Ok n.
Proof. destruct (activation_state_last a s) as (n & Hn & _). eauto. Qed.
Lemma hotspot_loop_ends fuel a d s :
  (d ≤ clock s + N.of_nat fuel * ACTIVATION_POLL)%N → (await_loop (S fuel) a d s).1 ≠ Err out_of_fuel.
Proof.
  revert s. induction fuel as [|fuel IH]; intros s Hd; cbn [await_loop].
  all: apply bind_not_Err; [unfold check_hotspot_cancelled, check_cancelled, cancellation, check_cancellation, bind, local, lift;
    cbn; by destruct (cancellation_requested _)|].
  all: intros u s1 Hc; assert (clock s1 = clock s) as H1
    by (revert Hc; unfold check_hotspot_cancelled, check_cancelled, cancellation, check_cancellation, bind, local, lift; cbn;
        destruct (cancellation_requested _); [done|]; by intros [= <- <-]).
  all: apply bind_not_Err; [destruct (activation_state_total a s1) as (n & ->); done|].
  all: intros n s2 Ha; pose proof (forward_activation_state a s1) as H2; rewrite Ha in H2; cbn in H2.
  all: destruct (_ =? _)%N; [done|]; destruct (3 <=? n)%N; [done|].
  all: apply bind_not_Err; [done|]; intros t s3 [= <- <-]; destruct (N.leb_spec d (bus_now (world s2))) as [Hl|Hl]; [done|].
  - unfold clock in *. lia.
  - apply bind_not_Err; [done|]. intros u2 s4 [= <- <-]. apply IH. cbn -[N.mul].
    pose proof (pause_lasts ACTIVATION_POLL (world s2)). unfold clock in *. cbn. lia.
Qed.

(** Waiting for a hotspot ends: the wait gives its answer within 102 polls, however the
    activation behaves, when a pause lasts as long as asked for. *)
Theorem await_hotspot_ends a s : (await_hotspot_activation (W:=W) a s).1 ≠ Err out_of_fuel.
Proof.
  unfold await_hotspot_activation. apply bind_not_Err; [done|]. intros t s1 [= <- <-].
  apply hotspot_loop_ends. unfold clock. cbn -[N.mul]. unfold ACTIVATION_TIMEOUT, ACTIVATION_POLL, from_secs, from_millis. lia.
Qed.


End Spec.

(** ** A network *)

Definition home_network : FixedNetwork := {|
  fn_now := 0;
  fn_get p i n := table_reply
    [("DeviceType", VU32 2); ("Interface", VStr "wlan0"); ("State", VU32 (if bool_decide (p = "/active") then 2 else 30));
     ("ActiveConnection", VPath "/"); ("WirelessCapabilities", VU32 (64 + 512)); ("Mode", VU32 2);
     ("WirelessEnabled", VBool true)] n;
  fn_call p i m args := table_reply
    [("GetDevices", [VArray [VPath "/dev"]]); ("AddAndActivateConnection2", [VPath "/profile"; VPath "/active"; VDict []])] m;
|}.
#[local] Instance home_host : HotspotHost FixedNetwork := {|
  hh_hostname _ := Some "laptop";
  hh_blocks _ := [Ok (as_bytes "abcdefghijklmnopqrstuvwx")];
  hh_uuid _ := Ok (as_bytes "0123456789abcdef");
|}.
Definition home_request : HotspotRequest :=
  request_of_params {| sp_ssid := None; sp_passphrase := None; sp_security := None; sp_band := Some Ghz2_4;
                       sp_channel := None; sp_hidden := false; sp_device := None |}.

Lemma await_hotspot_ends_witness :
  (await_hotspot_activation "/nowhere" {| world := home_network; trace := [] |}).1 ≠ Err out_of_fuel.
Proof. apply await_hotspot_ends. Defined.

(** A hotspot does start there. *)
Example home_hotspot_starts :
  match (start_hotspot (λ _, None) home_request {| world := home_network; trace := [] |}).1 with
  | Ok r => hs_ssid (hr_hotspot r) = Some "laptop-hotspot" ∧ hr_generated_passphrase r = true
  | Err _ => False
  end.
Proof. by vm_compute. Qed.
