(* ===== verification/Vpn.v ===== *)
(** * VPN connections ([src/nm/vpn.rs])

    The saved VPN and WireGuard profiles with the secrets they refer to, the state of the
    active ones, and the activation of a profile, which waits for the plugin's verdict and
    takes the activation back when there is none. *)
From S2P Require Import Prelude Errors Text Reasons Variant Credentials Selection Bus Inventory Health.
From Stdlib Require Import ZArith Lia Ascii.
From stdpp Require Import prelude gmap strings list.

Definition NM_VPN_STATE_ACTIVATED : N := 5.
Definition NM_VPN_STATE_FAILED : N := 6.
Definition NM_VPN_STATE_DISCONNECTED : N := 7.
Definition NM_ACTIVE_STATE_DEACTIVATING : N := 3.
Definition ACTIVATION_POLL : duration := from_millis 200.

(** ** Data *)

Record VpnProfileSummary := {
  vp_path : string; vp_id : string; vp_uuid : string; vp_connection_type : string; vp_type_name : string;
  vp_service_type : option string; vp_plugin : option string; vp_autoconnect : bool; vp_timestamp_ms : option N;
  vp_permissions : list string; vp_requires_secrets : bool; vp_secret_names : list string;
  vp_active_connection : option string; vp_state : option N; vp_state_name : option string;
}.
Record VpnActiveStatus := {
  va_path : string; va_id : string; va_uuid : string; va_connection_type : string; va_service_type : option string;
  va_plugin : option string; va_banner : option string; va_vpn_state : option N; va_vpn_state_name : option string;
  va_reason : option TypedReason; va_active_state : N; va_active_state_name : string;
  va_profile_path : option string; va_specific_object : option string; va_devices : list string;
  va_activated_at_ms : option N; va_duration_ms : option N; va_default4 : bool; va_default6 : bool;
}.
Record VpnActivationResult := { vr_status : string; vr_message : string; vr_vpn : VpnActiveStatus }.
Record VpnDisconnectResult := {
  vd_status : string; vd_message : string; vd_id : option string; vd_uuid : option string; vd_path : option string;
}.

(** ** Profiles *)

Definition is_vpn_like (connection_type : string) : bool := bool_decide (connection_type ∈ ["vpn"; "wireguard"]).

(** [rsplit('.').next()]: what follows the last dot. *)
Definition dot : u8 := "."%char.
Definition plugin_name (connection_type : string) (service_type : option string) : option string :=
  if bool_decide (connection_type = "wireguard") then Some "wireguard"
  else
    service_type ← service_type;
    non_empty (of_bytes <$> last (split_bytes (is_byte dot) (as_bytes service_type))).

(** Sorted, without duplicates. *)
Definition sort_dedup (names : list string) : list string := (foldl (λ m n, bt_insert n tt m) [] names).*1.

Definition wireguard_secret_names (settings : ConnectionSettings) : list string :=
  match settings !! "wireguard" with
  | None => []
  | Some wireguard =>
    (if bool_decide (is_Some (wireguard !! "private-key")) || bool_decide (is_Some (wireguard !! "private-key-flags"))
     then ["private-key"] else []) ++
    (if bool_decide (is_Some (wireguard !! "peers")) then ["preshared-key"] else [])
  end.
Definition vpn_secret_names (settings : ConnectionSettings) : list string :=
  match settings !! "vpn" with
  | None => wireguard_secret_names settings
  | Some vpn =>
    let names := match vpn !! "secrets" ≫= value_string_map with Some m => (map_to_list m).*1 | None => [] end in
    let flagged := match vpn !! "data" ≫= value_string_map with
                   | Some data => omap (Credentials.strip_suffix "-flags") (map_to_list data).*1
                   | None => []
                   end in
    sort_dedup (names ++ flagged)
  end.

Definition AGENT_OWNED_OR_NOT_SAVED : N := 3.
Definition needs_prompt (flags : N) : bool := negb (N.land flags AGENT_OWNED_OR_NOT_SAVED =? 0)%N.
Definition profile_requires_secrets (settings : ConnectionSettings) : bool :=
  existsb (λ sv, bool_decide (sv.1 ∈ ["vpn"; "wireguard"]) &&
    existsb (λ kv, ends_with "-flags" kv.1 && match as_u32 kv.2 with Some f => needs_prompt f | None => false end)
      (map_to_list sv.2)) (map_to_list settings)
  || match vpn ← settings !! "vpn"; data ← vpn !! "data"; value_string_map data with
     | Some data =>
       existsb (λ kv, ends_with "-flags" kv.1 && match parse_u32 kv.2 with Some f => needs_prompt f | None => false end)
         (map_to_list data)
     | None => false
     end.

(** ** Verdicts *)

(** serde's names. *)
Definition category_name (c : ReasonCategory) : string :=
  match c with
  | C.None => "none" | C.UserRequested => "user-requested" | C.Authentication => "authentication"
  | C.Configuration => "configuration" | C.Hardware => "hardware" | C.Carrier => "carrier"
  | C.AddressAssignment => "address-assignment" | C.Service => "service" | C.Dependency => "dependency"
  | C.Lifecycle => "lifecycle" | C.Unknown => "unknown"
  end.

Definition vpn_is_connected (status : VpnActiveStatus) : bool :=
  match va_vpn_state status with
  | Some state => (state =? NM_VPN_STATE_ACTIVATED)%N
  | None => (va_active_state status =? 2)%N
  end.
Definition vpn_activation_error (id : string) (reason : TypedReason) (state_name : string) : Error :=
  let code := if bool_decide (tr_name reason = "no-secrets") then Code.SecretRequired
              else if bool_decide (tr_name reason = "login-failed") then Code.WrongPassword
              else Code.ActivationFailed in
  EDomain (with_detail "vpn_state" (JStr state_name)
    (with_detail "reason_code" (JNum (Z.of_N (tr_code reason)))
      (with_detail "reason_category" (JStr (category_name (tr_category reason)))
        (with_detail "reason" (JStr (tr_name reason))
          (new code Op.VpnOperation Src.NetworkManager (id +:+ " failed to connect")))))).
Definition vpn_failure (status : VpnActiveStatus) : option Error :=
  let failed := match va_vpn_state status with
                | Some state => (state =? NM_VPN_STATE_FAILED)%N || (state =? NM_VPN_STATE_DISCONNECTED)%N
                | None => (NM_ACTIVE_STATE_DEACTIVATING <=? va_active_state status)%N
                end in
  let reason := unwrap_or (va_reason status) (active_connection_state_reason 0) in
  if negb failed || (bool_decide (va_vpn_state status = Some NM_VPN_STATE_DISCONNECTED) && expected reason) then None
  else Some (vpn_activation_error (va_id status) reason
               (unwrap_or (va_vpn_state_name status) (va_active_state_name status))).

(** ** The adapter *)

Section Vpn.
Context {W : Type} {B : Bus W} {H : HealthStore W} (path_error : string → option Error).

Definition vpn_plugin_state (active_path : string) : bus W (option N * option string) :=
  let! r := attempt (proxy active_path VPN_CONNECTION_IFACE) in
  match r with
  | Err _ => ret (None, None)
  | Ok p =>
    let! state := ok_opt (get_property as_u32 p "VpnState") in
    let! banner := nonempty_string p "Banner" in
    ret (state, banner)
  end.

(** A plugin's reason comes with its signal; without a plugin the device's reason stands in. *)
Definition vpn_reason (active_path : string) (devices : list string) (vpn_state : option N) : bus W TypedReason :=
  match vpn_state with
  | Some _ =>
    let! signal := latest_health_signal SubjectVpn active_path in
    ret match signal with Some s => vpn_state_reason (sg_reason s) | None => vpn_state_reason 0 end
  | None =>
    match devices with
    | [] => ret (active_connection_state_reason 0)
    | device :: _ =>
      let! reason := ok_opt (let! p := proxy device DEVICE_IFACE in get_property as_u32_pair p "StateReason") in
      ret match reason with Some r => device_state_reason r.2 | None => active_connection_state_reason 0 end
    end
  end.

Definition optional_settings (path : option string) : bus W (option ConnectionSettings) :=
  match path with
  | None => ret None
  | Some p => if path_error p then ret None else ok_opt (connection_settings p)
  end.
Definition vpn_active_status (active : ActiveConnectionSummary) : bus W VpnActiveStatus :=
  let! settings := optional_settings (ac_profile_path active) in
  let service_type := s ← settings; vpn ← s !! "vpn"; setting_string vpn "service-type" in
  let activated_at_ms := seconds_to_ms <$> (s ← settings; c ← s !! "connection"; setting as_u64 c "timestamp") in
  let! (vpn_state, banner) := vpn_plugin_state (ac_path active) in
  let! reason := vpn_reason (ac_path active) (ac_devices active) vpn_state in
  let! now_ms := local (λ w, (hl_now_ms w, w)) in
  ret {| va_path := ac_path active; va_id := ac_id active; va_uuid := ac_uuid active;
         va_connection_type := ac_connection_type active;
         va_plugin := plugin_name (ac_connection_type active) service_type; va_service_type := service_type;
         va_banner := banner; va_vpn_state := vpn_state; va_vpn_state_name := vpn_state_name <$> vpn_state;
         va_reason := Some reason; va_active_state := ac_state active;
         va_active_state_name := ac_state_name active; va_profile_path := ac_profile_path active;
         va_specific_object := ac_specific_object active; va_devices := ac_devices active;
         va_activated_at_ms := activated_at_ms;
         va_duration_ms := (λ at_ms, ((now_ms - at_ms) mod 2 ^ 64)%N) <$> activated_at_ms;
         va_default4 := ac_default4 active; va_default6 := ac_default6 active |}.

Definition vpn_profile_summary (profile : NetworkConnectionSummary) : bus W VpnProfileSummary :=
  let! path := lift match path_error (nc_path profile) with
                    | None => Ok (nc_path profile)
                    | Some e => Err (add_context "parse VPN profile path" e)
                    end in
  let! settings := connection_settings path in
  let service_type := vpn ← settings !! "vpn"; setting_string vpn "service-type" in
  let! state := match nc_active_connection profile with
                | None => ret None
                | Some active =>
                  ok_opt (let! p := proxy active ACTIVE_CONNECTION_IFACE in get_property as_u32 p "State")
                end in
  ret {| vp_path := nc_path profile; vp_id := nc_id profile; vp_uuid := nc_uuid profile;
         vp_connection_type := nc_connection_type profile; vp_type_name := nc_type_name profile;
         vp_plugin := plugin_name (nc_connection_type profile) service_type; vp_service_type := service_type;
         vp_autoconnect := nc_autoconnect profile; vp_timestamp_ms := nc_timestamp_ms profile;
         vp_permissions := nc_permissions profile; vp_requires_secrets := profile_requires_secrets settings;
         vp_secret_names := vpn_secret_names settings; vp_active_connection := nc_active_connection profile;
         vp_state := state; vp_state_name := active_connection_state_name <$> state |}.
Definition vpn_profiles : bus W (list VpnProfileSummary) :=
  let! connections := network_connections in
  map_bus vpn_profile_summary (List.filter (λ p, is_vpn_like (nc_connection_type p)) connections).
Definition vpn_status : bus W (list VpnActiveStatus) :=
  let! active := network_active_connections in
  map_bus vpn_active_status (List.filter (λ a, ac_vpn a || is_vpn_like (ac_connection_type a)) active).

(** The path is the one [ActivateConnection] returned. *)
Definition vpn_status_for_active_path (active_path profile_id : string) : bus W VpnActiveStatus :=
  let! summary := active_connection_summary active_path in
  match summary with
  | Some active => vpn_active_status active
  | None =>
    let! signal := latest_health_signal SubjectVpn active_path in
    lift (Err match signal with
              | Some s => vpn_activation_error profile_id (vpn_state_reason (sg_reason s)) (vpn_state_name (sg_state s))
              | None => EDomain (new Code.ActivationFailed Op.VpnOperation Src.NetworkManager
                                   "NetworkManager removed the VPN connection during activation")
              end)
  end.

Definition out_of_fuel : Error := plain "out of fuel".
Fixpoint await_loop (fuel : nat) (active_path profile_id : string) (deadline : instant) : bus W VpnActiveStatus :=
  match fuel with
  | O => lift (Err out_of_fuel)
  | S fuel =>
    let! _ := check_cancelled Op.VpnOperation "VPN activation was cancelled" in
    let! status := vpn_status_for_active_path active_path profile_id in
    match vpn_failure status with
    | Some e => lift (Err e)
    | None =>
      if vpn_is_connected status then ret status
      else
        let! t := now in
        if (deadline <=? t)%N then
          lift (Err (EDomain (with_detail "vpn_state"
            (JStr (unwrap_or (va_vpn_state_name status) (va_active_state_name status)))
            (timeout Op.VpnOperation "timed out waiting for the VPN to connect"))))
        else
          let! _ := sleep ACTIVATION_POLL in
          await_loop fuel active_path profile_id deadline
    end
  end.
(** Each round but the last sleeps for [ACTIVATION_POLL]. *)
Definition await_fuel (timeout : duration) : nat := N.to_nat (timeout / ACTIVATION_POLL) + 2.
Definition await_vpn_activation (active_path profile_id : string) (timeout : duration) : bus W VpnActiveStatus :=
  let! t := now in
  await_loop (await_fuel timeout) active_path profile_id (t + timeout)%N.

Definition deactivate_quietly (active_path : string) : bus W unit :=
  let! _ := attempt (call_unit root_proxy "DeactivateConnection" [VPath active_path]) in ret tt.

Definition activate_vpn (selector : VpnSelector) (timeout : duration) : bus W VpnActivationResult :=
  let! profiles := vpn_profiles in
  let! profile := lift (select Vpn profiles (vs_uuid selector) (vs_path selector) (λ p, (vp_uuid p, vp_path p))) in
  let! profile_path := lift match path_error (vp_path profile) with
                            | None => Ok (vp_path profile)
                            | Some e => Err (add_context "parse VPN profile path" e)
                            end in
  let! root := lift (object_path path_error "/") in
  let! active_path := with_context ("ActivateConnection for VPN profile " +:+ vp_id profile)
    (call_value as_path root_proxy "ActivateConnection" [VPath profile_path; VPath root; VPath root]) in
  let! r := attempt (await_vpn_activation active_path (vp_id profile) timeout) in
  match r with
  | Ok status => ret {| vr_status := "connected"; vr_message := vp_id profile +:+ " is connected"; vr_vpn := status |}
  | Err e => let! _ := deactivate_quietly active_path in lift (Err e)
  end.

Definition vpn_selected (selector : VpnSelector) (active : VpnActiveStatus) : bool :=
  match vs_uuid selector, vs_path selector with
  | Some uuid, _ => bool_decide (va_uuid active = uuid)
  | None, Some path => bool_decide (va_path active = path) || bool_decide (va_profile_path active = Some path)
  | None, None => true
  end.
Definition deactivate_vpn (selector : VpnSelector) : bus W VpnDisconnectResult :=
  let! active := vpn_status in
  match find_first (vpn_selected selector) active with
  | None => ret {| vd_status := "noop"; vd_message := "No matching VPN connection is active"; vd_id := None;
                   vd_uuid := None; vd_path := None |}
  | Some a =>
    let! path := lift (object_path path_error (va_path a)) in
    let! _ := with_context ("DeactivateConnection for VPN " +:+ va_id a)
                (call_unit root_proxy "DeactivateConnection" [VPath path]) in
    ret {| vd_status := "disconnected"; vd_message := va_id a +:+ " disconnected"; vd_id := Some (va_id a);
           vd_uuid := Some (va_uuid a); vd_path := Some (va_path a) |}
  end.
End Vpn.

(** ** Activations *)

Section Spec.
Context {W : Type} {B : Bus W} {H : HealthStore W} (path_error : string → option Error).

Lemma quiet_optional_settings p : quiet (optional_settings (W:=W) path_error p).
Proof. unfold optional_settings. quiet_tac. Qed.
#[local] Hint Resolve quiet_optional_settings : bus_quiet.
Lemma quiet_vpn_active_status a : quiet (vpn_active_status (W:=W) path_error a).
Proof. unfold vpn_active_status, vpn_plugin_state, vpn_reason, latest_health_signal. quiet_tac. Qed.
#[local] Hint Resolve quiet_vpn_active_status : bus_quiet.
Lemma quiet_vpn_status : quiet (vpn_status (W:=W) path_error).
Proof. unfold vpn_status. quiet_tac. Qed.
Lemma quiet_vpn_profiles : quiet (vpn_profiles (W:=W) path_error).
Proof. unfold vpn_profiles, vpn_profile_summary. quiet_tac. Qed.
Lemma quiet_status_for_path a i : quiet (vpn_status_for_active_path (W:=W) path_error a i).
Proof. unfold vpn_status_for_active_path, latest_health_signal. quiet_tac. Qed.
#[local] Hint Resolve quiet_status_for_path : bus_quiet.
Lemma quiet_vpn_loop fuel a i d : quiet (await_loop (W:=W) path_error fuel a i d).
Proof. induction fuel; cbn [await_loop]; quiet_tac. Qed.
Lemma quiet_await_vpn a i t : quiet (await_vpn_activation (W:=W) path_error a i t).
Proof. unfold await_vpn_activation. pose proof quiet_vpn_loop. quiet_tac. Qed.

(** The status of an active connection is about that connection. *)
Lemma active_summary_path a s x s' : active_connection_summary (W:=W) a s = (Ok (Some x), s') → ac_path x = a.
Proof.
  unfold active_connection_summary. case_bool_decide; [done|]. intros Hx. bus_unroll.
  destruct (_ && _); [done|]. bus_unroll. by simplify_eq.
Qed.
Lemma active_status_path a s v s' : vpn_active_status path_error a s = (Ok v, s') → va_path v = ac_path a.
Proof.
  unfold vpn_active_status. intros Hv. bus_unroll.
  repeat match goal with H : context [let '(_, _) := ?x in _] |- _ => destruct x end. bus_unroll. by subst.
Qed.
Lemma await_loop_connected fuel a i d s v s' :
  await_loop path_error fuel a i d s = (Ok v, s') → va_path v = a ∧ vpn_is_connected v = true ∧ vpn_failure v = None.
Proof.
  revert s. induction fuel as [|fuel IH]; intros s; cbn [await_loop]; [done|]. intros Hl. bus_unroll.
  match type of Hl with context [vpn_failure ?x] =>
    destruct (vpn_failure x) eqn:Hf; [done|]; destruct (vpn_is_connected x) eqn:Hc end.
  - apply done_Ok in Hl as [-> ->]. split_and!; [|done..].
    match goal with Hs : vpn_status_for_active_path _ _ _ _ = _ |- _ => unfold vpn_status_for_active_path in Hs end.
    bus_unroll. match goal with Hs : match ?x with Some _ => _ | None => _ end _ = _ |- _ => destruct x end; bus_unroll; [|done].
    match goal with Hs : vpn_active_status _ _ _ = _ |- _ => apply active_status_path in Hs as -> end.
    by eapply active_summary_path.
  - bus_unroll. destruct (_ <=? _)%N; [done|]. bus_unroll. by eapply IH.
Qed.

Definition activate_event (profile : string) (reply : result (list value) Error) : bus_event :=
  EvCall NM_PATH NM_IFACE "ActivateConnection" [VPath profile; VPath "/"; VPath "/"] reply.
Definition deactivate_event (active : string) (reply : result (list value) Error) : bus_event :=
  EvCall NM_PATH NM_IFACE "DeactivateConnection" [VPath active] reply.

(** How an activation ends. *)
Definition activation_settled (selector : VpnSelector) (l : list bus_event) (r : result VpnActivationResult Error) : Prop :=
  match r with
  | Ok res => ∃ profiles profile active,
      select Vpn profiles (vs_uuid selector) (vs_path selector) (λ p, (vp_uuid p, vp_path p)) = Ok profile ∧
      l = [activate_event (vp_path profile) (Ok [VPath active])] ∧ va_path (vr_vpn res) = active ∧
      vpn_is_connected (vr_vpn res) = true ∧ vpn_failure (vr_vpn res) = None
  | Err _ =>
      l = [] ∨
      (∃ profile reply, l = [activate_event profile reply] ∧ ∀ active, reply ≠ Ok [VPath active]) ∨
      (∃ profile active reply, l = [activate_event profile (Ok [VPath active]); deactivate_event active reply])
  end.


(** *** The wait ends *)

Context {C : BusClock W}.

Lemma forward_status_for_path a i : forward (vpn_status_for_active_path (W:=W) path_error a i).
Proof.
  unfold vpn_status_for_active_path, active_connection_summary, vpn_active_status, optional_settings, connection_settings,
    vpn_plugin_state, vpn_reason, latest_health_signal, object_path_property, object_path_list_property.
  forward_tac.
Qed.
Lemma bind_ext {A D} (m : bus W A) (k k' : A → bus W D) s :
  (∀ a s1, m s = (Ok a, s1) → k a s1 = k' a s1) → bind m k s = bind m k' s.
Proof. intros Hk. unfold bind. destruct (m s) as [[a|e] s1] eqn:E; [by apply Hk|done]. Qed.
Lemma await_loop_fuel fuel extra a i d s :
  (d ≤ clock s + N.of_nat fuel * ACTIVATION_POLL)%N →
  await_loop path_error (S fuel + extra) a i d s = await_loop path_error (S fuel) a i d s.
Proof.
  revert s. induction fuel as [|fuel IH]; intros s Hd; cbn [await_loop Nat.add].
  all: apply bind_ext; intros u s1 Hc; assert (clock s1 = clock s) as H1
    by (revert Hc; unfold check_cancelled, cancellation, check_cancellation, bind, local, lift; cbn;
        destruct (cancellation_requested _); [done|]; by intros [= <- <-]).
  all: apply bind_ext; intros v s2 Ha; pose proof (forward_status_for_path a i s1) as H2; rewrite Ha in H2; cbn in H2.
  all: destruct (vpn_failure v); [done|]; destruct (vpn_is_connected v); [done|].
  all: apply bind_ext; intros t s3 [= <- <-]; destruct (N.leb_spec d (bus_now (world s2))) as [Hl|Hl]; [done|].
  - unfold clock in *. lia.
  - apply bind_ext. intros u2 s4 [= <- <-]. apply IH. cbn -[N.mul].
    pose proof (pause_lasts ACTIVATION_POLL (world s2)). unfold clock in *. cbn. lia.
Qed.

(** The wait ends within [await_fuel] polls: more fuel does not change its answer. *)
Theorem await_vpn_ends a i timeout extra s :
  await_loop path_error (await_fuel timeout + extra) a i (clock s + timeout)%N s =
  await_loop path_error (await_fuel timeout) a i (clock s + timeout)%N s.
Proof.
  unfold await_fuel. rewrite (Nat.add_succ_r _ 1). apply await_loop_fuel.
  assert (ACTIVATION_POLL ≠ 0%N) as Hp by done. pose proof (N.div_mod timeout ACTIVATION_POLL Hp).
  pose proof (N.mod_lt timeout ACTIVATION_POLL Hp). rewrite Nat2N.inj_add, N2Nat.id. change (N.of_nat 1) with 1%N. nia.
Qed.
End Spec.

(** ** Secret names *)

Lemma sort_dedup_spec l : (∀ n, n ∈ sort_dedup l ↔ n ∈ l) ∧ NoDup (sort_dedup l).
Proof.
  unfold sort_dedup.
  assert (∀ m : list (string * ()), bt_sorted m →
    bt_sorted (foldl (λ m n, bt_insert n tt m) m l) ∧
    ∀ n, n ∈ (foldl (λ m n, bt_insert n tt m) m l).*1 ↔ n ∈ l ∨ n ∈ m.*1) as H.
  { induction l as [|x l IH]; intros m Hm; cbn.
    - split; [done|]. set_solver.
    - destruct (IH (bt_insert x tt m)) as [Hs He]; [by apply bt_sorted_update|]. split; [done|].
      intros n. rewrite He. unfold bt_insert. rewrite bt_update_keys. set_solver. }
  destruct (H []) as [Hs He]; [constructor|]. split; [|by apply bt_sorted_keys_NoDup].
  intros n. rewrite He. set_solver.
Qed.

(** The names shown for a VPN profile are the keys of its secrets and of its flags. *)
Lemma vpn_secret_names_exact settings vpn secrets data n :
  settings !! "vpn" = Some vpn →
  vpn !! "secrets" ≫= value_string_map = secrets → vpn !! "data" ≫= value_string_map = data →
  n ∈ vpn_secret_names settings ↔
    (∃ m, secrets = Some m ∧ is_Some (m !! n)) ∨
    (∃ m k, data = Some m ∧ is_Some (m !! k) ∧ Credentials.strip_suffix "-flags" k = Some n).
Proof.
  intros Hv <- <-. unfold vpn_secret_names. rewrite Hv, (proj1 (sort_dedup_spec _)), elem_of_app.
  assert (∀ (m : gmap string string) k, k ∈ (map_to_list m).*1 ↔ is_Some (m !! k)) as Hk.
  { intros m k. rewrite list_elem_of_fmap. split.
    - intros ([k' x] & -> & Hx%elem_of_map_to_list). by exists x.
    - intros [x Hx]. exists (k, x). split; [done|]. by apply elem_of_map_to_list. }
  assert (∀ (m : gmap string string) f, n ∈ omap f (map_to_list m).*1 ↔ ∃ k, is_Some (m !! k) ∧ f k = Some n) as Ho.
  { intros m f. rewrite list_elem_of_omap. split; intros (k & Hm & Hf); exists k; by rewrite Hk in *. }
  destruct (vpn !! "secrets" ≫= value_string_map) as [ms|], (vpn !! "data" ≫= value_string_map) as [md|];
    rewrite ?Hk, ?Ho, ?elem_of_nil; naive_solver.
Qed.
