(* ===== verification/SecretRequest.v ===== *)
(** * Secret requests ([src/daemon_secret.rs], [src/daemon_secret/storage.rs], [src/daemon_secret/session.rs])

    What NetworkManager asks the secret agent for, the retention policy of the profile,
    how an answer of a frontend or a value handed over by [SaveSecrets] is written into
    the connection that is returned, and the handoff between [SaveSecrets] and
    [GetSecrets]. The time limit of a prompt is a generated constant, an argument here. *)
From S2P Require Import Prelude Errors Text Variant Credentials Activation.
From Stdlib Require Import ZArith Lia Ascii.
From stdpp Require Import prelude gmap strings list.

(** ** Errors *)

(** The errors of the D-Bus library the agent raises or passes on. *)
Inductive FdoError :=
| FdoAccessDenied (m : string) | FdoFailed (m : string) | FdoNotSupported (m : string)
| FdoNameHasNoOwner.

(** [AgentFdo e] is [Failed] with the D-Bus library's rendering of [e]. *)
Inductive SecretAgentError :=
| UserCanceled (m : string)
| NoSecrets (m : string)
| AccessDenied (m : string)
| AgentFailed (m : string)
| AgentFdo (e : FdoError).

Definition from_fdo (e : FdoError) : SecretAgentError :=
  match e with
  | FdoAccessDenied m => AccessDenied m
  | e => AgentFdo e
  end.

(** ** Retention policy *)

Record Policy := { persistent : gset string; migration_required : bool }.
Definition default_policy : Policy := {| persistent := ∅; migration_required := false |}.

Fixpoint policy_of_keys (settings : ConnectionSettings) (section : string) (keys : list string)
    (policy : Policy) : result Policy Error :=
  match keys with
  | [] => Ok policy
  | key :: keys =>
    let? f := flags settings section key in
    let? _ := ensure (negb (bool_decide (section = "wifi-p2p")) || negb (N.land f NOT_SAVED =? 0)%N)
                (plain "WPS enrollment requires explicit temporary policy") in
    let owner := N.land f (N.lor AGENT_OWNED NOT_SAVED) in
    policy_of_keys settings section keys
      (if (owner =? 0)%N
       then {| persistent := {[ key ]} ∪ persistent policy; migration_required := migration_required policy |}
       else if (owner =? AGENT_OWNED)%N
       then {| persistent := persistent policy; migration_required := true |}
       else policy)
  end.
Definition from_request (settings : ConnectionSettings) (section : string) (keys : list string) :
    result Policy Error :=
  let? _ := ensure (negb (bool_decide (keys = []))) (plain "request has no supported credential names") in
  policy_of_keys settings section keys default_policy.

Definition rejection (policy : Policy) (save : bool) : option string :=
  match save, bool_decide (persistent policy = ∅), migration_required policy with
  | false, false, _ => Some "temporary-activation-required"
  | true, _, true => Some "networkmanager-migration-required"
  | _, _, _ => None
  end.

(** ** Requests *)

Definition ALLOW_INTERACTION : N := 1.
Definition REQUEST_NEW : N := 2.

(** [cancelled] names the request's flag, [activation] the scope that owns its time;
    the connection to the bus is not part of the model's request. *)
Record PendingSecretRequest := {
  rq_deadline : instant;
  rq_activation : option N;
  save_supported : bool;
  policy : Policy;
  cancelled : N;
  nm_owner : option string;
  id : string;
  rq_key : string;
  connection_path : string;
  setting_name : string;
  hints : list string;
  secret_keys : list string;
  rq_flags : N;
}.

Definition newline : ascii := "010".
Definition key_for (connection_path setting_name : string) : string :=
  connection_path +:+ String newline setting_name.

Definition primary_secret_key (r : PendingSecretRequest) : string :=
  match secret_keys r with key :: _ => key | [] => default_secret_key_for_setting (setting_name r) end.

Definition new_request (timeout : duration) (now : instant) (flag : N) (rid path setting : string)
    (hints : list string) (fl : N) : PendingSecretRequest := {|
  rq_deadline := (now + timeout)%N; rq_activation := None; save_supported := true;
  policy := default_policy; cancelled := flag; nm_owner := None; id := rid;
  rq_key := key_for path setting; connection_path := path; setting_name := setting; hints := hints;
  secret_keys := secret_keys_for setting hints; rq_flags := fl |}.

(** [prepare], given what it reads: the scope found for the connection, with its
    credential deadline. *)
Definition request_keys (settings : ConnectionSettings) (r : PendingSecretRequest) : list string :=
  match wireless_secret_key settings (setting_name r) (hints r) with
  | Some key => [key]
  | None => secret_keys r
  end.
Definition request_policy (settings : ConnectionSettings) (r : PendingSecretRequest) :
    result Policy SecretAgentError :=
  result_map_err (λ _, NoSecrets "Unsupported or ambiguous credential retention policy")
    (from_request settings (setting_name r) (request_keys settings r)).
Definition prepared (settings : ConnectionSettings) (owner : string) (p : Policy)
    (scope : option (N * instant)) (r : PendingSecretRequest) : PendingSecretRequest := {|
  rq_deadline := match scope with Some (_, d) => N.min (rq_deadline r) d | None => rq_deadline r end;
  rq_activation := fst <$> scope;
  save_supported := negb (bool_decide (persistent p = ∅)) && negb (migration_required p);
  policy := p; cancelled := cancelled r; nm_owner := Some owner; id := id r; rq_key := rq_key r;
  connection_path := connection_path r; setting_name := setting_name r; hints := hints r;
  secret_keys := request_keys settings r; rq_flags := rq_flags r |}.

(** [activation::identity]. *)
Definition activation_identity (settings : ConnectionSettings) (path : string) : string :=
  match non_empty (connection ← settings !! "connection"; setting value_string connection "uuid") with
  | Some uuid => "uuid:" +:+ uuid
  | None => "path:" +:+ path
  end.

(** ** Writing values *)

Definition secret_value_present (r : PendingSecretRequest) (c : ConnectionSettings) (key : string) : bool :=
  match text c (setting_name r) key with Some v => negb (bool_decide (v = "")) | None => false end.
Definition request_values_complete (r : PendingSecretRequest) (c : ConnectionSettings) : bool :=
  forallb (secret_value_present r c) (secret_keys r).

Definition apply_password (c : ConnectionSettings) (setting_name key password : string) :
    result ConnectionSettings FdoError :=
  result_map_err (λ _, FdoNotSupported "Unsupported secret field or peer identity")
    (set_text c setting_name key password).

Fixpoint fill_missing (r : PendingSecretRequest) (stored : list (string * string)) (c : ConnectionSettings) :
    result ConnectionSettings FdoError :=
  match stored with
  | [] => Ok c
  | (key, password) :: stored =>
    let? c := if secret_value_present r c key then Ok c
              else apply_password c (setting_name r) key password in
    fill_missing r stored c
  end.
Definition apply_stored_values (r : PendingSecretRequest) (c : ConnectionSettings)
    (stored : list (string * string)) : result (ConnectionSettings * bool) FdoError :=
  let? c := fill_missing r stored c in
  Ok (c, request_values_complete r c).

Record SecretResponse := {
  rs_password : option string;
  rs_values : gmap string string;
  rs_save : bool;
  rs_cancelled : bool;
}.
Definition cancelled_response : SecretResponse :=
  {| rs_password := None; rs_values := ∅; rs_save := false; rs_cancelled := true |}.

Definition response_values (r : PendingSecretRequest) (password : option string)
    (values : gmap string string) : gmap string string :=
  match non_empty password with
  | Some password =>
    match values !! primary_secret_key r with
    | Some _ => values
    | None => <[primary_secret_key r := password]> values
    end
  | None => values
  end.

Fixpoint apply_response_values (c : ConnectionSettings) (setting_name : string)
    (values : list (string * string)) : result ConnectionSettings FdoError :=
  match values with
  | [] => Ok c
  | (key, v) :: values =>
    let? c := apply_password c setting_name key v in
    apply_response_values c setting_name values
  end.

Definition reject_cancelled_response (c : bool) : result unit SecretAgentError :=
  ensure (negb c) (UserCanceled "secret request cancelled by frontend").

(** The values of an answer that are written: requested and not empty. *)
Definition retained_values (r : PendingSecretRequest) (response : SecretResponse) : gmap string string :=
  filter (λ kv, kv.1 ∈ secret_keys r ∧ kv.2 ≠ "") (response_values r (rs_password response) (rs_values response)).

(** [apply_secret_response]: the connection to return and, when saving was asked for,
    the values [storage::prepare] is called with. *)
Definition apply_secret_response (c : ConnectionSettings) (r : PendingSecretRequest)
    (response : SecretResponse) :
    result (ConnectionSettings * option (gmap string string)) SecretAgentError :=
  let? _ := reject_cancelled_response (rs_cancelled response) in
  let? _ := match rejection (policy r) (rs_save response) with
            | Some reason => Err (NoSecrets reason)
            | None => Ok tt
            end in
  let values := retained_values r response in
  let? _ := ensure (negb (bool_decide (values = ∅)))
              (NoSecrets "secret request contained no requested values") in
  let? c := result_map_err from_fdo (apply_response_values c (setting_name r) (map_to_list values)) in
  let? _ := ensure (request_values_complete r c) (NoSecrets "not all requested secrets were supplied") in
  Ok (c, if rs_save response then Some values else None).

(** The values [storage::prepare] keeps for confirmation. *)
Definition saveable (r : PendingSecretRequest) (values : gmap string string) : gmap string string :=
  filter (λ kv, kv.1 ∈ persistent (policy r)) values.

(** Secrets of a connection that may be kept. *)
Definition connection_secret_values (c : ConnectionSettings) : list (string * string * string) :=
  List.filter (λ skv, match flags c skv.1.1 skv.1.2 with
                      | Ok f => (N.land f NOT_SAVED =? 0)%N
                      | Err _ => false
                      end)
    (ok_value [] (values c)).

(** ** Lemmas: writing several secrets *)
#[local] Arguments Text.strip_prefix : simpl never.

Lemma peer_key_inj a b p : peer_key a = Some p → peer_key b = Some p → a = b.
Proof.
  unfold peer_key, Credentials.strip_suffix. intros Ha Hb.
  destruct (Text.strip_prefix "peers." a) as [x|] eqn:Ea; [|done].
  destruct (Text.strip_prefix "peers." b) as [y|] eqn:Eb; [|done]. cbn in *.
  apply strip_prefix_Some in Ea as ->. apply strip_prefix_Some in Eb as ->. f_equal.
  destruct (Text.strip_prefix _ (of_bytes (reverse (as_bytes x)))) as [u|] eqn:Eu; [|done].
  destruct (Text.strip_prefix _ (of_bytes (reverse (as_bytes y)))) as [v|] eqn:Ev; [|done].
  cbn in *. simplify_eq. apply strip_prefix_Some in Eu. apply strip_prefix_Some in Ev.
  assert (u = v) as <-.
  { apply as_bytes_inj, (inj reverse). apply (f_equal as_bytes) in Ha. by rewrite !as_bytes_of_bytes in Ha. }
  rewrite <-Ev in Eu. apply as_bytes_inj, (inj reverse). apply (f_equal as_bytes) in Eu.
  by rewrite !as_bytes_of_bytes in Eu.
Qed.

Lemma other_peer public public' f ps ps' :
  public ≠ public' →
  (∀ p, setting value_string (f p) "public-key" = setting value_string p "public-key") →
  update_unique_peer public f ps = Ok ps' →
  List.filter (is_peer public') ps' = List.filter (is_peer public') ps.
Proof.
  unfold update_unique_peer. intros Hne Hf H. case_bool_decide as Hl; [|done]. simplify_eq. clear Hl.
  revert Hf. induction ps as [|p ps IH]; intros Hf; [done|]. cbn.
  assert (Hp : is_peer public' (if is_peer public p then f p else p) = is_peer public' p)
    by (destruct (is_peer public p); [|done]; unfold is_peer; by rewrite Hf).
  rewrite Hp, IH by done. destruct (is_peer public' p) eqn:E; [|done]. f_equal.
  unfold is_peer in *. bool_prop. rewrite bool_decide_false; [done|]. congruence.
Qed.

Definition peer_of (section key : string) : option string :=
  if bool_decide (section = "wireguard") then peer_key key else None.
Definition encoded_peers (c : ConnectionSettings) (section : string) : Prop :=
  ∃ d ps, c !! section = Some d ∧ d !! "peers" = Some (of_peers ps).

(** The secret [v] of [key] was written with [set_text]. *)
Definition written (c : ConnectionSettings) (section key v : string) : Prop :=
  text c section key = Some v ∧
  (section ≠ "vpn" → if peer_of section key then encoded_peers c section else key ∈ known_keys section).

Lemma known_not_peers key section : key ∈ known_keys section → key ≠ "peers".
Proof. unfold known_keys. repeat case_bool_decide; set_solver. Qed.

Lemma set_peer_encoded public v d d' : set_peer_value public "preshared-key" v d = Ok d' →
  ∃ ps, d' !! "peers" = Some (of_peers ps).
Proof. unfold set_peer_value. intros H. unbind_all. simplify_eq. eexists. by rewrite lookup_insert_eq. Qed.

Lemma set_text_written c section key t c' :
  utf8_valid (as_bytes t) = true → set_text c section key t = Ok c' → written c' section key t.
Proof.
  intros Hu H. split; [by eapply set_text_reads|]. intros Hv. unfold set_text, peer_of in *.
  rewrite (bool_decide_false _ Hv) in H.
  destruct (if bool_decide (section = "wireguard") then _ else _) as [public|].
  - unbind_all. simplify_eq. match goal with H : set_peer_value _ _ _ _ = _ |- _ => apply set_peer_encoded in H as [ps Hps] end.
    eexists _, ps. by rewrite lookup_insert_eq.
  - unbind_all. by bool_prop.
Qed.

Lemma peer_text c section key public d ps :
  section ≠ "vpn" → peer_of section key = Some public → c !! section = Some d → d !! "peers" = Some (of_peers ps) →
  text c section key = p ← head (List.filter (is_peer public) ps); setting value_string p "preshared-key".
Proof.
  intros Hv Hp Hd Hps. unfold text, peer_of in *. rewrite Hd. cbn. rewrite (bool_decide_false _ Hv), Hp.
  assert (Hds : peer_dicts d = Ok (entries <$> ps))
    by (rewrite <-(insert_id d "peers" _ Hps); apply peer_dicts_of).
  rewrite Hds, find_peer. destruct (head _); cbn; [|done]. by rewrite dict_get_section.
Qed.

Lemma set_text_keeps c section key t c' k v :
  k ≠ key → written c section k v → set_text c section key t = Ok c' → written c' section k v.
Proof.
  intros Hne [Ht Hw] H. destruct (decide (section = "vpn")) as [->|Hv].
  { split; [|done]. unfold set_text, text in *. injection H as <-. unfold update_section. rewrite lookup_insert_eq. cbn.
    unfold extend_vpn_map. rewrite lookup_insert_eq. cbn. rewrite value_string_map_of. cbn.
    unfold section_of. destruct (c !! "vpn") as [d|]; [|done]. cbn in *.
    destruct (d !! "secrets" ≫= value_string_map) as [m|]; [|done]. cbn in *. by rewrite lookup_insert_ne. }
  specialize (Hw Hv). unfold set_text in H. rewrite (bool_decide_false _ Hv) in H. fold (peer_of section key) in H.
  destruct (peer_of section key) as [public|] eqn:Hk; destruct (peer_of section k) as [public'|] eqn:Hk'.
  - destruct Hw as (d & ps & Hd & Hps). rewrite Hd in H. cbn in H. unbind_all. simplify_eq.
    unfold set_peer_value, peers in *. rewrite Hps in *. unfold of_peers in *. rewrite to_sections_of in *. cbn in *.
    unbind_all. simplify_eq. split; [|intros _; rewrite Hk'; eexists _, _; by rewrite !lookup_insert_eq].
    rewrite (peer_text c section k public' d ps) in Ht by done.
    erewrite (peer_text _ section k public'); [|done..|by rewrite lookup_insert_eq|by rewrite lookup_insert_eq].
    erewrite other_peer; [exact Ht| | |eassumption].
    + intros ->. unfold peer_of in *. case_bool_decide; [|done]. by destruct Hne; eapply peer_key_inj.
    + intros p. unfold setting. by rewrite lookup_insert_ne.
  - unbind_all. simplify_eq. split; [|intros _; by rewrite Hk'].
    unfold text, peer_of, set_peer_value in *. rewrite (bool_decide_false _ Hv), Hk' in *. unbind_all. simplify_eq.
    rewrite Heqo in Ht. rewrite lookup_insert_eq. cbn in *. unfold setting_text in *.
    rewrite lookup_insert_ne; [done|]. symmetry. by eapply known_not_peers.
  - unbind_all. simplify_eq. destruct Hw as (d & ps & Hd & Hps). unfold update_section, section_of. rewrite Hd. cbn.
    assert (Hkey : key ≠ "peers") by (eapply known_not_peers; by bool_prop).
    split; [|intros _; rewrite Hk'; eexists _, ps; rewrite lookup_insert_eq; split; [done|];
             by rewrite lookup_insert_ne].
    rewrite (peer_text c section k public' d ps) in Ht by done.
    erewrite (peer_text _ section k public' _ ps); [done..|by rewrite lookup_insert_eq|by rewrite lookup_insert_ne].
  - unbind_all. simplify_eq. split; [|intros _; by rewrite Hk'].
    unfold text, peer_of in *. rewrite (bool_decide_false _ Hv), Hk' in *. unfold update_section, section_of.
    rewrite lookup_insert_eq. destruct (c !! section) as [d|]; [|done]. cbn in *.
    unfold setting_text in *. by rewrite lookup_insert_ne.
Qed.

Lemma public_settings_section c section d d' p :
  c !! section = Some d → public_section section d' = public_section section d →
  public_settings c = Ok p → public_settings (<[section := d']> c) = Ok p.
Proof.
  intros Hd Hp. rewrite !public_settings_Ok. intros H k. specialize (H k).
  destruct (decide (k = section)) as [->|Hk];
    [rewrite lookup_insert_eq, Hd in *; by rewrite Hp|by rewrite lookup_insert_ne].
Qed.

Lemma set_peer_value_public public t d d' :
  set_peer_value public "preshared-key" t d = Ok d' → public_section "wireguard" d' = public_section "wireguard" d.
Proof.
  unfold set_peer_value. intros H. unbind_all. simplify_eq. unfold public_section.
  rewrite bool_decide_true by done. rewrite remove_keys_insert_out by (vm_compute; set_solver).
  rewrite lookup_insert_eq, lookup_remove_keys, bool_decide_false by (vm_compute; set_solver).
  unfold peers in *. destruct (d !! "peers") as [w|] eqn:Hw.
  - unfold of_peers. rewrite to_sections_of. destruct (to_sections w) as [ps|]; [|done]. cbn in *. simplify_eq.
    rewrite delete_insert_eq. do 3 f_equal. f_equal. eapply update_unique_peer_public; [|eassumption].
    intros q. apply delete_insert_eq.
  - by simplify_eq.
Qed.

(** A secret of a section that exists is no part of the public settings. *)
Lemma set_text_public c section key t c' p :
  is_Some (c !! section) → set_text c section key t = Ok c' →
  public_settings c = Ok p → public_settings c' = Ok p ∧ is_Some (c' !! section).
Proof.
  intros [d Hd] H Hp. unfold set_text in H.
  destruct (decide (section = "vpn")) as [->|Hv]; [rewrite bool_decide_true in H by done|
    rewrite (bool_decide_false _ Hv) in H; destruct (decide (section = "wireguard")) as [->|Hw];
    [rewrite bool_decide_true in H by done; destruct (peer_key key) as [public|]|rewrite (bool_decide_false _ Hw) in H]].
  all: unbind_all; simplify_eq; unfold update_section, section_of; rewrite ?Hd; cbn.
  all: split; [|rewrite lookup_insert_is_Some'; auto].
  all: eapply public_settings_section; [eassumption| |done].
  - unfold public_section, extend_vpn_map. rewrite remove_keys_insert_in; [done|]. vm_compute. set_solver.
  - by eapply set_peer_value_public.
  - unfold public_section. rewrite remove_keys_insert_in; [done|]. bool_prop. set_solver.
  - unfold public_section. rewrite remove_keys_insert_in; [done|]. bool_prop. set_solver.
Qed.

(** [c'] is [c] but for the secrets of [section]. *)
Definition rewritten (section : string) (c c' : ConnectionSettings) : Prop :=
  (∀ n, n ≠ section → c' !! n = c !! n) ∧
  (∀ p, is_Some (c !! section) → public_settings c = Ok p → public_settings c' = Ok p ∧ is_Some (c' !! section)).
#[export] Instance rewritten_preorder section : PreOrder (rewritten section).
Proof.
  split; [by split|]. intros c1 c2 c3 [H1 P1] [H2 P2]. split.
  - intros n Hn. rewrite H2 by done. by apply H1.
  - intros p Hs Hp. destruct (P1 p Hs Hp). by apply P2.
Qed.
Lemma password_rewritten c section key v c' : apply_password c section key v = Ok c' → rewritten section c c'.
Proof.
  unfold apply_password. destruct (set_text c section key v) as [c1|] eqn:E; cbn; [|done]. intros [= <-]. split.
  - intros n Hn. by eapply set_text_other.
  - intros p Hs Hp. by eapply set_text_public.
Qed.
Lemma fill_missing_rewritten r l c c' : fill_missing r l c = Ok c' → rewritten (setting_name r) c c'.
Proof.
  revert c. induction l as [|[key v] l IH]; intros c; cbn; [by intros [= ->]|]. intros H. unbind_all.
  etrans; [|by apply IH]. destruct (secret_value_present r c key); [by simplify_eq|by eapply password_rewritten].
Qed.
Lemma response_rewritten l section c c' : apply_response_values c section l = Ok c' → rewritten section c c'.
Proof.
  revert c. induction l as [|[key v] l IH]; intros c; cbn; [by intros [= ->]|]. intros H. unbind_all.
  etrans; [|by apply IH]. by eapply password_rewritten.
Qed.

Lemma apply_values_Ok l c section c' :
  NoDup l.*1 → Forall (λ kv, utf8_valid (as_bytes kv.2) = true) l →
  apply_response_values c section l = Ok c' →
  (∀ k v, (k, v) ∈ l → written c' section k v) ∧
  (∀ k v, k ∉ l.*1 → written c section k v → written c' section k v).
Proof.
  revert c. induction l as [|[k v] l IH]; intros c Hnd Hu; cbn.
  { intros [= <-]. split; [set_solver|done]. }
  inversion Hnd as [|?? Hk Hnd']. inversion Hu as [|?? Hv Hu']. subst. cbn in *.
  unfold apply_password. destruct (set_text c section k v) as [c1|] eqn:E; cbn; [|done].
  intros H. destruct (IH c1 Hnd' Hu' H) as (Hin & Hout). split.
  - intros k' v' [[= -> ->]|Hkv]%elem_of_cons; [|by apply Hin]. apply Hout; [done|]. by eapply set_text_written.
  - intros k' v' [Hne Hnin]%not_elem_of_cons Hw. apply Hout; [done|]. by eapply set_text_keeps.
Qed.

(** An answer fills exactly what was asked for: when a frontend's answer is accepted,
    every requested secret of the connection returned to NetworkManager has a value, every
    requested and non-empty value of the answer is there as it was given (the single
    password under the primary key), other sections and the public settings are those
    NetworkManager sent, and the retention asked for agrees with the profile: saving is
    never accepted for agent-owned secrets, nor a temporary answer for persistent ones. *)
Theorem response_fills_request c r response c' saved :
  map_Forall (λ _ v, utf8_valid (as_bytes v) = true) (retained_values r response) →
  apply_secret_response c r response = Ok (c', saved) →
  rs_cancelled response = false ∧
  Forall (λ k, ∃ v, text c' (setting_name r) k = Some v ∧ v ≠ "") (secret_keys r) ∧
  map_Forall (λ k v, text c' (setting_name r) k = Some v) (retained_values r response) ∧
  rewritten (setting_name r) c c' ∧
  match saved with
  | Some values => rs_save response = true ∧ values = retained_values r response ∧ migration_required (policy r) = false
  | None => rs_save response = false ∧ persistent (policy r) = ∅
  end.
Proof.
  intros Hu H. unfold apply_secret_response, reject_cancelled_response in H. unbind_all.
  destruct (rejection (policy r) (rs_save response)) eqn:Hrej; [done|].
  match goal with H : result_map_err _ ?x = Ok ?y |- _ => destruct x eqn:Happly; [injection H as ->|done] end.
  assert (Hrew := response_rewritten _ _ _ _ Happly). apply apply_values_Ok in Happly as (Hin & _);
    [|apply NoDup_fst_map_to_list|
     apply Forall_forall; intros [k v] Hkv%elem_of_map_to_list; by apply (Hu k v)]. simplify_eq. split_and!.
  - by destruct (rs_cancelled response).
  - apply Forall_forall. intros k Hk. assert (Hp : secret_value_present r c' k = true)
      by (eapply forallb_forall; [eassumption|by apply list_elem_of_In]).
    unfold secret_value_present in *. destruct (text c' _ k) as [v|]; [|done]. exists v. split; [done|].
    intros ->. by rewrite bool_decide_true in *.
  - intros k v Hkv. apply (Hin k v). by apply elem_of_map_to_list.
  - done.
  - unfold rejection in Hrej. destruct (rs_save response); simplify_eq; split_and?; try done.
    + by destruct (bool_decide _), (migration_required _).
    + destruct (decide (persistent (policy r) = ∅)); [done|]. by rewrite bool_decide_false in Hrej.
Qed.

Definition example_request : PendingSecretRequest :=
  new_request (from_secs 120) 0 0 "secret-1" "/1" "802-11-wireless-security" [] 1.
Definition example_answer : SecretResponse :=
  {| rs_password := Some "synthetic"; rs_values := {[ "other" := "ignored" ]}; rs_save := false; rs_cancelled := false |}.
Definition example_connection : ConnectionSettings :=
  {[ "802-11-wireless-security" := {[ "key-mgmt" := VStr "wpa-psk" ]} ]}.
Definition example_reply : ConnectionSettings :=
  fst (ok_value (∅, None) (apply_secret_response example_connection example_request example_answer)).

Lemma response_fills_request_witness :
  text example_reply "802-11-wireless-security" "psk" = Some "synthetic".
Proof.
  destruct (response_fills_request example_connection example_request example_answer example_reply None)
    as (_ & _ & Hv & _).
  - apply (bool_decide_unpack _). by vm_compute.
  - rewrite (is_ok_value (∅, None) (apply_secret_response _ _ _)) by by vm_compute.
    apply f_equal, injective_projections; [done|by vm_compute].
  - apply (Hv "psk" "synthetic"). by vm_compute.
Defined.
