(* ===== verification/SecretSession.v ===== *)
(** * The handoff between [SaveSecrets] and [GetSecrets] ([src/daemon_secret/session.rs])

    NetworkManager may hand the secrets of a connection to the agent and ask for them
    right after. The agent keeps them for one request, in memory and for the time of one
    prompt. Every operation holds the lock, reads the clock once and first drops what
    has expired. *)
From S2P Require Import Prelude Errors Text Variant Credentials Activation SecretRequest.
From Stdlib Require Import ZArith Lia.
From stdpp Require Import prelude gmap strings list.

Record Entry := { e_deadline : instant; e_values : gmap string (list (string * string)) }.

(** Keyed by owner, path and UUID. *)
Abbreviation Handoff := (gmap (prod (prod string string) string) Entry) (only parsing).

Section Session.
(** [SECRET_TIMEOUT], a generated constant. *)
Context (timeout : duration).

Definition access (now : instant) (h : Handoff) : Handoff := filter (λ ke, (now < e_deadline ke.2)%N) h.

Definition uuid (c : ConnectionSettings) : option string :=
  connection ← c !! "connection"; non_empty (setting value_string connection "uuid").

(** [entry(setting).or_default().push((key, password))]. *)
Definition push_value (values : gmap string (list (string * string))) (skv : string * string * string) :
    gmap string (list (string * string)) :=
  <[skv.1.1 := unwrap_or (values !! skv.1.1) [] ++ [(skv.1.2, skv.2)]]> values.
Definition group_values (l : list (string * string * string)) : gmap string (list (string * string)) :=
  foldl push_value ∅ l.

(** [min_by_key] keeps the first of equal minima. *)
Fixpoint min_from (best : string * string * string) (dl : instant)
    (l : list (string * string * string * Entry)) : string * string * string :=
  match l with
  | [] => best
  | (k, e) :: l => if (e_deadline e <? dl)%N then min_from k (e_deadline e) l else min_from best dl l
  end.
Definition min_by_deadline (l : list (string * string * string * Entry)) : option (string * string * string) :=
  match l with
  | [] => None
  | (k, e) :: l => Some (min_from k (e_deadline e) l)
  end.

Definition CAPACITY : nat := 32.

Definition stage (now : instant) (owner path : string) (c : ConnectionSettings) (h : Handoff) : Handoff :=
  match uuid c with
  | None => h
  | Some u =>
    let values := group_values (connection_secret_values c) in
    let h : Handoff := filter (λ ke, ke.1.1.2 ≠ path) (access now h) in
    if bool_decide (values = ∅) then h
    else
      let h := if (CAPACITY <=? size h)%nat
               then match min_by_deadline (map_to_list h) with Some k => delete k h | None => h end
               else h in
      <[(owner, path, u) := {| e_deadline := (now + timeout)%N; e_values := values |}]> h
  end.

Definition take (now : instant) (r : PendingSecretRequest) (c : ConnectionSettings) (h : Handoff) :
    list (string * string) * Handoff :=
  match uuid c with
  | None => ([], h)
  | Some u =>
    let h := access now h in
    let key := (unwrap_or (nm_owner r) "", connection_path r, u) in
    match h !! key with
    | None => ([], h)
    | Some e =>
      let values := unwrap_or (e_values e !! setting_name r) [] in
      let rest := delete (setting_name r) (e_values e) in
      (List.filter (λ kv, bool_decide (kv.1 ∈ secret_keys r)) values,
       if bool_decide (rest = ∅) then delete key h
       else <[key := {| e_deadline := e_deadline e; e_values := rest |}]> h)
    end
  end.

(** [None] clears everything. *)
Definition clear (now : instant) (path : option string) (h : Handoff) : Handoff :=
  filter (λ ke, match path with Some p => negb (bool_decide (p = ke.1.1.2)) | None => false end = true) (access now h).

(** ** Histories *)

Inductive handoff_op :=
| Stage (owner path : string) (c : ConnectionSettings)
| Take (r : PendingSecretRequest) (c : ConnectionSettings)
| Clear (path : option string)
| Expire.

Definition handoff_step (h : Handoff) (o : instant * handoff_op) : Handoff :=
  match o.2 with
  | Stage owner path c => stage o.1 owner path c h
  | Take r c => (take o.1 r c h).2
  | Clear path => clear o.1 path h
  | Expire => access o.1 h
  end.
Definition handoff_run (l : list (instant * handoff_op)) : Handoff := foldl handoff_step ∅ l.

(** The operation ends the life of a value staged for this owner, profile and setting. *)
Definition retires (owner path u setting : string) (o : handoff_op) : Prop :=
  match o with
  | Stage _ p c => p = path ∧ is_Some (uuid c)
  | Take r c => unwrap_or (nm_owner r) "" = owner ∧ connection_path r = path ∧ uuid c = Some u ∧
                setting_name r = setting
  | Clear (Some p) => p = path
  | Clear None => True
  | Expire => False
  end.

(** The values of [setting] in an entry were staged by an operation of the history and
    nothing retired them since. *)
Definition staged (l : list (instant * handoff_op)) (owner path u setting : string) (dl : instant)
    (vs : list (string * string)) : Prop :=
  ∃ l1 t c l2, l = l1 ++ (t, Stage owner path c) :: l2 ∧ uuid c = Some u ∧ dl = (t + timeout)%N ∧
    (∀ k v, (k, v) ∈ vs → (setting, k, v) ∈ connection_secret_values c) ∧
    Forall (λ o, ¬ retires owner path u setting o.2) l2.

Definition handoff_inv (l : list (instant * handoff_op)) (h : Handoff) : Prop :=
  (size h ≤ CAPACITY)%nat ∧
  ∀ owner path u e, h !! (owner, path, u) = Some e →
    ∀ setting vs, e_values e !! setting = Some vs → staged l owner path u setting (e_deadline e) vs.

Lemma staged_snoc l o owner path u setting dl vs :
  staged l owner path u setting dl vs → ¬ retires owner path u setting o.2 →
  staged (l ++ [o]) owner path u setting dl vs.
Proof.
  intros (l1 & t & c & l2 & -> & Hu & Hd & Hv & Hl) Ho. exists l1, t, c, (l2 ++ [o]).
  split_and!; [by rewrite <-app_assoc|done..|]. apply Forall_app. split; [done|]. by apply Forall_singleton.
Qed.

Lemma group_values_elem l setting vs k v :
  group_values l !! setting = Some vs → (k, v) ∈ vs → (setting, k, v) ∈ l.
Proof.
  revert setting vs. induction l as [|[[s k'] v'] l IH] using rev_ind; intros setting vs; [done|].
  unfold group_values. rewrite foldl_app. cbn. fold (group_values l). unfold push_value. cbn.
  destruct (decide (s = setting)) as [->|Hs].
  - rewrite lookup_insert_eq. intros [= <-]. rewrite elem_of_app, list_elem_of_singleton.
    intros [Hin|[= -> ->]]; [|set_solver]. apply elem_of_app. left.
    destruct (group_values l !! setting) as [ws|] eqn:E; [|by apply elem_of_nil in Hin]. by eapply IH.
  - rewrite lookup_insert_ne by done. intros Hl Hin. apply elem_of_app. left. by eapply IH.
Qed.

Lemma min_from_elem best dl l : min_from best dl l ∈ best :: l.*1.
Proof.
  revert best dl. induction l as [|[k e] l IH]; intros best dl; cbn; [set_solver|].
  destruct (e_deadline e <? dl)%N; [specialize (IH k (e_deadline e))|specialize (IH best dl)]; set_solver.
Qed.
Lemma min_by_deadline_elem l : l ≠ [] → ∃ k, min_by_deadline l = Some k ∧ k ∈ l.*1.
Proof. destruct l as [|[k e] l]; [done|]. intros _. eexists. split; [done|]. apply min_from_elem. Qed.

Lemma insert_size (h : Handoff) k e : (size (<[k := e]> h) ≤ S (size h))%nat.
Proof. rewrite map_size_insert. destruct (h !! k); unfold Datatypes.id; lia. Qed.
Lemma evict_size (h : Handoff) :
  (size h ≤ CAPACITY)%nat →
  (size (if (CAPACITY <=? size h)%nat
         then match min_by_deadline (map_to_list h) with Some k => delete k h | None => h end else h) < CAPACITY)%nat.
Proof.
  intros Hle. destruct (CAPACITY <=? size h)%nat eqn:E; [|by apply Nat.leb_gt in E]. apply Nat.leb_le in E.
  assert (Hne : map_to_list h ≠ []).
  { intros H%map_to_list_empty_iff. apply map_size_empty_iff in H. unfold CAPACITY in *. lia. }
  destruct (min_by_deadline_elem _ Hne) as (k & -> & ([j e] & -> & Hin%elem_of_map_to_list)%list_elem_of_fmap).
  rewrite map_size_delete_Some by eauto. unfold CAPACITY in *. lia.
Qed.

(** Operations that only drop entries. *)
Lemma drop_inv (l : list (instant * handoff_op)) (o : instant * handoff_op) (h h' : Handoff) :
  h' ⊆ h → handoff_inv l h →
  (∀ owner path u e, h' !! (owner, path, u) = Some e → ∀ setting, ¬ retires owner path u setting o.2) →
  handoff_inv (l ++ [o]) h'.
Proof.
  intros Hsub [Hs Hi] Hr. split; [etrans; [by apply map_subseteq_size|done]|].
  intros owner path u e He setting vs Hv. apply staged_snoc; [|by eapply Hr].
  eapply Hi; [by eapply lookup_weaken|done].
Qed.
Lemma access_sub now h : access now h ⊆ h.
Proof. apply map_filter_subseteq. Qed.

Lemma stage_inv l now owner path c h :
  handoff_inv l h → handoff_inv (l ++ [(now, Stage owner path c)]) (stage now owner path c h).
Proof.
  intros Hinv. unfold stage. destruct (uuid c) as [u|] eqn:Hu.
  2:{ apply (drop_inv l _ h); [done..|]. intros. cbn. rewrite Hu. intros [_ []]; done. }
  set (h1 := filter _ (access now h)).
  assert (Hsub : h1 ⊆ h) by (etrans; [apply map_filter_subseteq|apply access_sub]).
  assert (H1 : handoff_inv (l ++ [(now, Stage owner path c)]) h1).
  { apply (drop_inv l _ h); [done..|]. intros o p v e He setting. cbn. intros [-> _].
    apply map_lookup_filter_Some in He as [_ He]. done. }
  case_bool_decide; [done|]. split.
  - etrans; [apply insert_size|]. apply evict_size, H1.
  - intros o p v e. destruct (decide ((o, p, v) = (owner, path, u))) as [[= -> -> ->]|Hne].
    + rewrite lookup_insert_eq. intros [= <-] setting vs Hvs. cbn in *. exists l, now, c, [].
      split_and!; [done..| |constructor]. intros k w Hkw. by eapply group_values_elem.
    + rewrite lookup_insert_ne by done. intros He. apply H1.
      destruct (_ <=? _)%nat; [|done]. destruct (min_by_deadline _); [|done].
      by apply lookup_delete_Some in He as [_ He].
Qed.

Lemma take_inv l now r c h :
  handoff_inv l h → handoff_inv (l ++ [(now, Take r c)]) (take now r c h).2.
Proof.
  intros Hinv. unfold take. destruct (uuid c) as [u|] eqn:Hu.
  2:{ apply (drop_inv l _ h); [done..|]. intros. cbn. rewrite Hu. naive_solver. }
  set (key := (_, _, u)). destruct (access now h !! key) as [e|] eqn:He; cbn.
  - split.
    + destruct Hinv as [Hs _].
      assert (size (access now h) ≤ size h)%nat by (apply map_subseteq_size, access_sub). case_bool_decide.
      * etrans; [apply map_subseteq_size, delete_subseteq|]. lia.
      * rewrite map_size_insert_Some by eauto. lia.
    + intros o p v e'. assert (Hold : ∀ setting vs, (delete (setting_name r) (e_values e)) !! setting = Some vs →
        staged (l ++ [(now, Take r c)]) key.1.1 key.1.2 key.2 setting (e_deadline e) vs).
      { intros setting vs [Hne Hv]%lookup_delete_Some. apply staged_snoc; [|cbn; naive_solver].
        eapply Hinv; [|exact Hv]. eapply lookup_weaken; [exact He|apply access_sub]. }
      assert (Hrest : ∀ e'', (o, p, v) ≠ key → access now h !! (o, p, v) = Some e'' →
        ∀ setting vs, e_values e'' !! setting = Some vs → staged (l ++ [(now, Take r c)]) o p v setting (e_deadline e'') vs).
      { intros e'' Hne He'' setting vs Hv. apply staged_snoc; [|cbn; unfold key in Hne; naive_solver].
        eapply Hinv; [|exact Hv]. eapply lookup_weaken; [exact He''|apply access_sub]. }
      destruct (decide ((o, p, v) = key)) as [E|Hne]; case_bool_decide as Hemp.
      * by rewrite E, lookup_delete_eq.
      * rewrite E, lookup_insert_eq. intros [= <-] setting vs Hv. specialize (Hold setting vs Hv). by rewrite <-E in Hold.
      * rewrite lookup_delete_ne by done. by apply Hrest.
      * rewrite lookup_insert_ne by done. by apply Hrest.
  - apply (drop_inv l _ h); [apply access_sub|done|]. intros o p v e' He' setting. cbn.
    intros (Ho & Hp & Hv & _). unfold key in He. by simplify_eq.
Qed.

Lemma handoff_reachable l : handoff_inv l (handoff_run l).
Proof.
  induction l as [|[now o] l IH] using rev_ind; [split; [vm_compute; lia|done]|].
  unfold handoff_run. rewrite foldl_app. cbn. fold (handoff_run l). destruct o as [owner path c|r c|path|]; cbn.
  - by apply stage_inv.
  - by apply take_inv.
  - apply (drop_inv l _ (handoff_run l)); [etrans; [apply map_filter_subseteq|apply access_sub]|done|].
    intros o p u e He setting. apply map_lookup_filter_Some in He as [_ He]. cbn in *.
    destruct path; [|done]. by case_bool_decide.
  - apply (drop_inv l _ (handoff_run l)); [apply access_sub|done|]. by intros ? ? ? ? ? ? [].
Qed.

(** The handoff is one-shot and bounded: whatever the history of the handoff, a value
    it returns for a request was staged for the same NetworkManager owner, profile path and
    UUID less than the prompt time ago, was not meant to stay unsaved, is one the request asks
    for, and since then the profile was neither cleared nor staged again, nor the same
    setting taken; and no more than 32 entries are kept. *)
Theorem handoff_sound history now r c values h :
  take now r c (handoff_run history) = (values, h) →
  (size (handoff_run history) ≤ CAPACITY)%nat ∧
  ∀ k v, (k, v) ∈ values →
  k ∈ secret_keys r ∧
  ∃ l1 t owner c' l2, history = l1 ++ (t, Stage owner (connection_path r) c') :: l2 ∧
    unwrap_or (nm_owner r) "" = owner ∧ is_Some (uuid c) ∧ uuid c' = uuid c ∧ (now < t + timeout)%N ∧
    (setting_name r, k, v) ∈ connection_secret_values c' ∧
    Forall (λ o, ¬ ∃ u, uuid c = Some u ∧ retires owner (connection_path r) u (setting_name r) o.2) l2.
Proof.
  destruct (handoff_reachable history) as [Hs Hi]. intros Ht. split; [done|]. intros k v Hkv.
  unfold take in Ht. destruct (uuid c) as [u|] eqn:Hu; simplify_eq; [|by apply elem_of_nil in Hkv].
  destruct (access now (handoff_run history) !! _) as [e|] eqn:He; simplify_eq; [|by apply elem_of_nil in Hkv].
  apply list_elem_of_In, List.filter_In in Hkv as [Hkv Hk]. apply list_elem_of_In in Hkv. bool_prop. split; [done|].
  apply map_lookup_filter_Some in He as [He Hd]. cbn in Hd.
  destruct (e_values e !! setting_name r) as [vs|] eqn:Hv; [|by apply elem_of_nil in Hkv].
  destruct (Hi _ _ _ _ He _ _ Hv) as (l1 & t & c' & l2 & -> & Hu' & Hdl & Hin & Hl).
  rewrite Hdl in Hd.
  eexists l1, t, _, c', l2. split_and!; [done..|congruence|done|by apply Hin|].
  eapply Forall_impl; [exact Hl|]. intros o Ho (u' & [= <-] & Hr). by apply Ho.
Qed.
End Session.

(** ** An example *)

Definition staged_connection : ConnectionSettings :=
  {[ "connection" := {[ "uuid" := VStr "u-1" ]};
     "802-11-wireless-security" := {[ "key-mgmt" := VStr "wpa-psk"; "psk" := VStr "synthetic" ]} ]}.
Definition staged_history : list (instant * handoff_op) := [(5%N, Stage "" "/1" staged_connection); (6%N, Expire)].

Lemma handoff_sound_witness :
  (take 7 example_request staged_connection (handoff_run 100 staged_history)).1 = [("psk", "synthetic")] ∧
  ("802-11-wireless-security", "psk", "synthetic") ∈ connection_secret_values staged_connection.
Proof.
  split; [by vm_compute|].
  destruct (handoff_sound 100 staged_history 7 example_request staged_connection _ _ (surjective_pairing _))
    as [_ H].
  destruct (H "psk" "synthetic") as (_ & l1 & t & owner & c' & l2 & Hl & _ & _ & _ & _ & Hin & _).
  - apply (bool_decide_unpack _). by vm_compute.
  - unfold staged_history in Hl. destruct l1 as [|x [|y [|z l1]]]; simplify_eq/=. exact Hin.
Defined.
