(* ===== verification/SecretConfirm.v ===== *)
(** * Confirming that a secret was stored ([src/daemon_secret/storage.rs])

    NetworkManager stores what the agent returned; the agent reports "stored" only after
    it has seen the activation succeed, read the secrets back, and committed the profile
    as it is. The calls are those of [ProfileWriter.v], with other clients acting in
    between; the class [ConfirmService] adds what is read of activations, permissions and
    the clock. [superseded], [retired] and [slow] say, by the number of the next call,
    whether the save was invalidated, whether the request's owner changed, and whether a
    call that fails does so by its time limit. *)
From S2P Require Import Prelude Errors Text Variant Credentials Activation SecretRequest IpSettings WifiSettings Profiles ProfileWriter.
From Stdlib Require Import ZArith Lia.
From stdpp Require Import prelude gmap strings list.

(** What confirmation reads besides the profile: the active connections with their profile
    and state, the caller's permissions, the clock; and a pause of the worker. *)
Class ConfirmService (S : Type) := {
  sv_now : S → instant;
  sv_active : S → list string;
  sv_active_profile : string → S → option string;
  sv_active_state : string → S → option N;
  sv_permissions : S → gmap string string;
  sv_pause : duration → S → S;
}.

Section Confirm.
Context {S : Type} {SV : ProfileService S} {CV : ConfirmService S}.
Context (destination : string) (env : nat → S → S) (fails superseded retired slow : nat → bool).

#[local] Notation io := (@io S).
#[local] Notation run := (@run S).
#[local] Notation get_property := (get_property destination env fails).
#[local] Notation current_owner := (current_owner env fails).
#[local] Notation call_get_secrets := (call_get_secrets destination env fails).
#[local] Notation call_update2 := (call_update2 destination env fails).
#[local] Notation "'let*' x ':=' c 'in' k" := (bind c (λ x, k))
  (at level 10, x pattern, c at level 200, k at level 200).

Definition bounded {A} (m : io A) : io A := λ r,
  match m r with
  | (Ok a, r') => (Ok a, r')
  | (Err _, r') =>
    (Err (plain (if slow (next r) then "NetworkManager confirmation timed out"
                 else "NetworkManager confirmation call failed")), r')
  end.

(** A property of an object that may be gone. *)
Definition object_property {A} (f : S → option A) : io A :=
  let* o := get_property f in lift (ok_or o transport_error).

Definition current : io unit := λ r,
  (let* _ := require (negb (superseded (next r))) "credential confirmation superseded or cancelled" in
   let* _ := require (negb (retired (next r))) "credential request retired" in
   let* owner := bounded current_owner in
   require (bool_decide (owner = destination)) "NetworkManager owner changed") r.

Record ConfirmContext := { public : ConnectionSettings; filename : string; active : string }.

(** The activations of the profile that are pending (state 1). *)
Fixpoint matching_activations (connection_path : string) (paths : list string) : io (list string) :=
  match paths with
  | [] => ret []
  | path :: paths =>
    let* connection := bounded (object_property (sv_active_profile path)) in
    let* hit := if bool_decide (connection = connection_path)
                then let* state := bounded (object_property (sv_active_state path)) in ret (state =? 1)%N
                else ret false in
    let* rest := matching_activations connection_path paths in
    ret (if (hit : bool) then path :: rest else rest)
  end.

Definition capture (request : PendingSecretRequest) (supplied : ConnectionSettings) : io ConfirmContext :=
  let* version := bounded (get_property sv_version) in
  let* _ := require (negb (version =? 0)%N) "profile version unavailable" in
  let* settings := bounded (get_property sv_settings) in
  let* pub := lift (public_settings settings) in
  let* expected := lift (public_settings supplied) in
  let* _ := require (bool_decide (pub = expected)) "profile changed during credential prompting" in
  let* unsaved := bounded (get_property sv_unsaved) in
  let* _ := require (negb unsaved) "profile has staged changes" in
  let* file := bounded (get_property sv_filename) in
  let* _ := require (starts_with SYSTEM_CONNECTIONS file) "profile is not durably file-backed" in
  let* again := bounded (get_property sv_version) in
  let* _ := require (bool_decide (again = version)) "profile changed during confirmation setup" in
  let* running := bounded (get_property sv_running) in
  let* _ := require (validated_storage_version running) "unvalidated NetworkManager storage semantics" in
  let* paths := bounded (get_property sv_active) in
  let* matching := matching_activations (connection_path request) paths in
  match matching with
  | [path] => ret {| public := pub; filename := file; active := path |}
  | _ => fail (plain "no unambiguous pending activation boundary; storage is unconfirmed")
  end.

(** ** Waiting for the activation *)

Definition POLL : duration := from_millis 100.
Definition ACTIVATION_LIMIT : duration := from_secs 30.

(** Reading the clock and sleeping are local: no call, but time passes. *)
Definition clock : io instant := λ r, (Ok (sv_now (service r)), r).
Definition sleep (d : duration) : io unit := λ r,
  (Ok tt, {| next := next r; service := sv_pause d (service r); writes := writes r |}).

Definition out_of_fuel : Error := plain "out of fuel".
Fixpoint await_loop (fuel : nat) (context : ConfirmContext) (deadline : instant) : io unit :=
  match fuel with
  | O => fail out_of_fuel
  | Datatypes.S fuel =>
    let* _ := current in
    let* state := bounded (object_property (sv_active_state (active context))) in
    if (state =? 2)%N then ret tt
    else
      let* _ := require (state =? 1)%N "activation ended before durable storage could be confirmed" in
      let* now := clock in
      let* _ := require (now <? deadline)%N "activation boundary timed out; storage is unconfirmed" in
      let* _ := sleep POLL in
      await_loop fuel context deadline
  end.
(** Each round but the last sleeps for [POLL]. *)
Definition AWAIT_FUEL : nat := 302.
Definition await_activation (context : ConfirmContext) : io unit :=
  let* now := clock in
  await_loop AWAIT_FUEL context (now + ACTIVATION_LIMIT)%N.

(** ** Confirming *)

Definition PERMISSION_OWN : string := "org.freedesktop.NetworkManager.settings.modify.own".
Definition PERMISSION_SYSTEM : string := "org.freedesktop.NetworkManager.settings.modify.system".

Definition authorize_confirmation (settings : ConnectionSettings) : io unit :=
  let* permissions := bounded (get_property sv_permissions) in
  let acl := match settings !! "connection" with Some s => setting_strings s "permissions" | None => [] end in
  let permission := if bool_decide (length acl = 1) then PERMISSION_OWN else PERMISSION_SYSTEM in
  require (bool_decide (permissions !! permission = Some "yes")) "authorization needed for durable confirmation".

Definition checked_succ (v : N) : result N Error :=
  ok_or (if (v <? u64_max)%N then Some (v + 1)%N else None) (plain "profile version exhausted").

Fixpoint retention_unchanged (settings : ConnectionSettings) (setting_name : string) (keys : list string) :
    result unit Error :=
  match keys with
  | [] => Ok tt
  | key :: keys =>
    let? f := flags settings setting_name key in
    let? _ := ensure (N.land f (N.lor AGENT_OWNED NOT_SAVED) =? 0)%N (plain "credential retention changed") in
    retention_unchanged settings setting_name keys
  end.
Definition values_retained (stored : ConnectionSettings) (setting_name : string) (values : gmap string string) : bool :=
  forallb (λ kv, bool_decide (text stored setting_name kv.1 = Some kv.2)) (map_to_list values).

Definition confirm (setting_name : string) (context : ConfirmContext) (values : gmap string string) : io unit :=
  let* _ := await_activation context in
  let* version := bounded (get_property sv_version) in
  let* settings := bounded (get_property sv_settings) in
  let* pub := lift (public_settings settings) in
  let* _ := require (bool_decide (pub = public context)) "profile changed before confirmation" in
  let* unsaved := bounded (get_property sv_unsaved) in
  let* _ := require (negb unsaved) "staged changes must not be flushed by credential confirmation" in
  let* file := bounded (get_property sv_filename) in
  let* _ := require (bool_decide (file = filename context)) "profile storage changed" in
  let* _ := lift (retention_unchanged settings setting_name ((map_to_list values).*1)) in
  let* _ := authorize_confirmation settings in
  let* _ := current in
  let* again := bounded (get_property sv_version) in
  let* _ := require (bool_decide (again = version)) "profile changed before secret verification" in
  let* stored := bounded (call_get_secrets setting_name) in
  let* expected := lift (checked_succ version) in
  let* observed := bounded (get_property sv_version) in
  let* _ := require (bool_decide (observed = expected)) "concurrent edit during secret verification" in
  let* _ := require (values_retained stored setting_name values)
              "credential changed or was not retained by NetworkManager" in
  let* _ := current in
  let* unsaved := bounded (get_property sv_unsaved) in
  let* _ := require (negb unsaved) "profile has staged changes" in
  let* _ := bounded (call_update2 ∅ TO_DISK expected) in
  let* _ := current in
  let* final := bounded (get_property sv_version) in
  let* committed := lift (checked_succ expected) in
  let* _ := require (bool_decide (final = committed))
              "profile changed after commit; storage outcome needs verification" in
  let* unsaved := bounded (get_property sv_unsaved) in
  let* _ := require (negb unsaved) "profile remains unsaved" in
  let* file := bounded (get_property sv_filename) in
  require (bool_decide (file = filename context)) "profile storage changed after commit".

(** ** The save *)

Inductive SecretPersistenceOutcome := Stored | SaveFailed (m : string).

(** [prepare]: the context is captured while NetworkManager waits for the reply; the
    outcome is computed when the save runs. *)
Definition prepare (request : PendingSecretRequest) (settings : ConnectionSettings)
    (values : gmap string string) : io (result ConfirmContext Error * gmap string string) := λ r,
  let values := saveable request values in
  if bool_decide (values = ∅) then (Ok (Err (plain "request contains no saveable credentials"), values), r)
  else let '(c, r') := capture request settings r in (Ok (c, values), r').
Definition save (request : PendingSecretRequest) (captured : result ConfirmContext Error * gmap string string) :
    io SecretPersistenceOutcome := λ r,
  match captured.1 with
  | Err e => (Ok (SaveFailed (display e)), r)
  | Ok context =>
    match confirm (setting_name request) context captured.2 r with
    | (Ok _, r') => (Ok Stored, r')
    | (Err e, r') => (Ok (SaveFailed (display e)), r')
    end
  end.

(** ** Successful confirmations *)

Context (later : relation S) {PL : ProfileLaws S later}.
Hypothesis env_later : ∀ n s, later s (env n s).
Hypothesis pause_later : ∀ d s, later s (sv_pause d s).
#[local] Existing Instances later_preorder extends_preorder.

Lemma bounded_Ok {A} (m : io A) r a r' : bounded m r = (Ok a, r') → m r = (Ok a, r').
Proof. unfold bounded. by destruct (m r) as [[x|e] r1]. Qed.

Ltac unroll :=
  repeat match goal with
  | H : bind _ _ _ = (Ok _, _) |- _ => apply bind_Ok in H as (? & ? & ? & H)
  | H : lift _ _ = (Ok _, _) |- _ => apply lift_Ok in H as [? ->]
  | H : ret _ _ = (Ok _, _) |- _ => apply ret_Ok in H as [? ->]
  | H : require _ _ _ = (Ok _, _) |- _ => apply require_Ok in H as [? ->]
  | H : bounded _ _ = (Ok _, _) |- _ => apply bounded_Ok in H
  end.
#[local] Notation extends := (extends later).
#[local] Notation snap := (snap destination later).

Lemma property_Ok {A} (f : S → A) r a r' :
  get_property f r = (Ok a, r') → extends r r' ∧ sv_owner (service r') = destination ∧ a = f (service r').
Proof. by apply get_property_Ok. Qed.

Lemma current_Ok r u r' : current r = (Ok u, r') →
  extends r r' ∧ superseded (next r) = false ∧ retired (next r) = false ∧ sv_owner (service r') = destination.
Proof.
  unfold current. intros H. unroll. bool_prop.
  match goal with H : ProfileWriter.current_owner _ _ _ = _ |- _ =>
    eapply current_owner_Ok in H as [Hex ->]; [|done] end.
  split_and!; try done; by destruct (_ (next r)).
Qed.

Lemma await_loop_Ok fuel context deadline r u r' :
  await_loop fuel context deadline r = (Ok u, r') →
  extends r r' ∧ sv_active_state (active context) (service r') = Some 2%N.
Proof.
  revert r. induction fuel as [|fuel IH]; intros r; cbn; [done|]. intros H. unroll.
  match goal with H : current _ = _ |- _ => apply current_Ok in H as (Hex & _) end.
  match goal with H : object_property _ _ = _ |- _ => unfold object_property in H; unroll end.
  match goal with H : ProfileWriter.get_property _ _ _ _ _ = _ |- _ => apply property_Ok in H as (Hex' & _ & ->) end.
  destruct (_ =? 2)%N eqn:E2.
  - unroll. apply N.eqb_eq in E2. subst. split; [by etrans|].
    destruct (sv_active_state _ _); cbn in *; by simplify_eq.
  - unroll. unfold clock, sleep in *. simplify_eq. apply IH in H as [Hex2 Hst]. split; [|done].
    etrans; [exact Hex|]. etrans; [exact Hex'|]. etrans; [|exact Hex2]. split; [apply pause_later|done].
Qed.

(** Reads of a run, oldest first. *)
Ltac observe :=
  repeat match goal with
  | H : ProfileWriter.get_property _ _ _ _ _ = (Ok _, _) |- _ => apply property_Ok in H as (? & ? & ?)
  | H : current _ = (Ok _, _) |- _ => apply current_Ok in H as (? & _ & _ & ?)
  end.

Lemma retention_Ok settings section keys u :
  retention_unchanged settings section keys = Ok u →
  Forall (λ k, ∃ f, flags settings section k = Ok f ∧ N.land f (N.lor AGENT_OWNED NOT_SAVED) = 0%N) keys.
Proof.
  induction keys as [|k keys IH]; cbn; [constructor|]. intros H. unbind_all. constructor; [|by apply IH].
  eexists. split; [done|]. by apply N.eqb_eq.
Qed.
Lemma values_retained_Ok stored section vs :
  values_retained stored section vs = true → map_Forall (λ k v, text stored section k = Some v) vs.
Proof.
  unfold values_retained. rewrite forallb_forall. intros H k v Hkv. specialize (H (k, v)).
  cbn in H. apply (bool_decide_eq_true_1 _), H. by apply list_elem_of_In, elem_of_map_to_list.
Qed.
Lemma checked_succ_Ok v w : checked_succ v = Ok w → w = (v + 1)%N.
Proof. unfold checked_succ. destruct (_ <? _)%N; [|done]. by intros [= <-]. Qed.

(** What a successful confirmation has established. *)
Definition confirmed (section : string) (context : ConfirmContext) (vs : gmap string string) (r r' : run) : Prop :=
  ∃ w secrets s0 s1 a b,
    writes r' = writes r ++ [w] ∧ w_settings w = ∅ ∧ w_flags w = TO_DISK ∧ sv_owner (w_before w) = destination ∧
    (later (service r) s0 ∧ sv_get_secrets section s0 = (Ok secrets, s1) ∧ later s1 (w_before w)) ∧
    sv_settings s0 = sv_settings (w_before w) ∧ sv_version (w_before w) = (sv_version s0 + 1)%N ∧
    public_settings (sv_settings (w_before w)) = Ok (public context) ∧
    map_Forall (λ k v, text secrets section k = Some v ∧
      ∃ f, flags (sv_settings (w_before w)) section k = Ok f ∧ N.land f (N.lor AGENT_OWNED NOT_SAVED) = 0%N) vs ∧
    (later (w_before w) a ∧ later a b ∧ later b (service r')) ∧
    sv_version a = (sv_version (w_before w) + 1)%N ∧ sv_unsaved b = false ∧
    sv_filename (service r') = filename context.

(** Settings read between two reads of the same version are those of that version. *)
Lemma snapshot_between s1 s2 s3 :
  later s1 s2 → later s2 s3 → sv_owner s1 = destination → sv_owner s2 = destination → sv_owner s3 = destination →
  sv_version s3 = sv_version s1 → snap (sv_settings s2) (sv_version s1) s3.
Proof.
  intros H12 H23 Ho1 Ho2 Ho3 Hv.
  destruct (version_names_settings _ _ H12) as [Hle _]; [congruence|].
  destruct (version_names_settings _ _ H23) as [Hge _]; [congruence|].
  exists s2. split_and!; [done..|lia|done].
Qed.

Lemma confirm_Ok section context vs r r' :
  confirm section context vs r = (Ok tt, r') → confirmed section context vs r r'.
Proof.
  unfold confirm, authorize_confirmation, await_activation. intros H. unroll. unfold clock in *. simplify_eq.
  match goal with H : await_loop _ _ _ _ = _ |- _ => apply await_loop_Ok in H as [Hawait _] end.
  apply checked_succ_Ok in H15, H25. apply retention_Ok in H9. apply values_retained_Ok in H18.
  apply (call_update2_Ok _ _ _ _ env_later) in H22 as (s & Hl & Ho & Hv & Hs & Hw).
  revert H14 H16. observe. bool_prop. subst. intros Hget Hobs.
  assert (Hsnap : snap (sv_settings (service x4)) (sv_version (service x2)) (service x24)).
  { apply snapshot_between; try done; [apply H2|].
    assert (Hx : extends x4 x24) by (do 4 (etrans; [eassumption|]); done). apply Hx. }
  destruct (get_secrets_snap _ _ _ _ env_later _ _ _ _ _ _ _ _ Hsnap Hget Hobs eq_refl)
    as (Hex & Hsnap' & s0 & Hl0 & Ho0 & Hv0 & Hs0 & Hg).
  apply (get_property_Ok _ _ _ _ env_later) in Hobs as (Hobs & _).
  assert (Hread : extends x62 x24) by (do 7 (etrans; [eassumption|]); done).
  assert (Hpre : extends x32 x40) by (etrans; eassumption).
  assert (Hlater : later (service x32) s) by (etrans; [apply Hpre|done]).
  destruct (snap_read destination later _ _ s (snap_later _ _ _ _ _ _ Hsnap' Hlater) Ho) as [_ Hset].
  specialize (Hset Hv).
  assert (Hpost : extends x44 x48) by (etrans; eassumption).
  eexists {| w_before := s; w_settings := ∅; w_flags := TO_DISK; w_version := _ |}, _, s0,
    (service x28), (service x48), (service x54). cbn. split_and!; try done.
  - assert (Hend : extends x44 x58) by (do 3 (etrans; [eassumption|]); done).
    rewrite (proj2 Hend), Hw, (proj2 Hpre), (proj2 Hex), (proj2 Hread). done.
  - etrans; [apply Hread|done].
  - etrans; [apply Hobs|done].
  - congruence.
  - lia.
  - by rewrite Hset.
  - intros k v Hkv. split; [by apply H18|]. rewrite Hset. rewrite Forall_forall in H9. apply H9.
    apply list_elem_of_fmap. exists (k, v). split; [done|]. by apply elem_of_map_to_list.
  - etrans; [exact Hs|apply Hpost].
  - apply H22.
  - apply H0.
  - lia.
Qed.

Lemma capture_public request supplied r context r' :
  capture request supplied r = (Ok context, r') → public_settings supplied = Ok (public context).
Proof.
  unfold capture. intros H. unroll. bool_prop. subst. destruct x29 as [|path [|]]; try done.
  apply ret_Ok in H as [-> _]. cbn. done.
Qed.

(** C25. A credential is reported stored only when it is: if a save ends with [Stored],
    whatever other clients did between the agent's calls and whenever those failed, then the
    agent made exactly one write, an empty one that makes NetworkManager write the profile
    as it is to disk; just before, the profile had the public settings of the connection
    returned for the request, the secrets NetworkManager returned for that very version hold
    every saved value, none of them left to an agent or forbidden to be saved; afterwards
    the profile advanced by exactly one version, is not unsaved and is in the same file. *)
Theorem stored_is_confirmed request settings values captured r0 r1 r r' :
  prepare request settings values r0 = (Ok captured, r1) →
  save request captured r = (Ok Stored, r') →
  ∃ context, public_settings settings = Ok (public context) ∧
    confirmed (setting_name request) context (saveable request values) r r'.
Proof.
  unfold prepare, save. case_bool_decide; [by intros [= <- <-]|].
  destruct (capture request settings r0) as [[context|e] r2] eqn:Ec; intros [= <- <-]; cbn; [|done].
  destruct (confirm _ _ _ _) as [[[]|] r3] eqn:E; intros [= <-]. exists context.
  split; [by eapply capture_public|]. by apply confirm_Ok.
Qed.

(** ** Waiting ends *)

Section Terminates.
Hypothesis now_later : ∀ s s', later s s' → (sv_now s ≤ sv_now s')%N.
Hypothesis pause_passes : ∀ d s, (sv_now s + d ≤ sv_now (sv_pause d s))%N.

Lemma bounded_error {A} (m : io A) r e r' : bounded m r = (Err e, r') → e ≠ out_of_fuel.
Proof. unfold bounded. destruct (m r) as [[a|x] r1]; [done|]. intros [= <- _]. by destruct (slow _); intros [=]. Qed.
Lemma current_error r e r' : current r = (Err e, r') → e ≠ out_of_fuel.
Proof.
  unfold current, bind, require, lift. destruct (superseded _); cbn; [by intros [= <- _] [=]|].
  destruct (retired _); cbn; [by intros [= <- _] [=]|].
  destruct (bounded current_owner r) as [[o|x] r1] eqn:E; cbn.
  - case_bool_decide; [done|]. by intros [= <- _] [=].
  - intros [= <- _]. by eapply bounded_error.
Qed.

(** A round fails by itself, or the clock is before the deadline and the next round runs
    at least [POLL] later. *)
Lemma await_round fuel context deadline r e r' :
  await_loop (Datatypes.S fuel) context deadline r = (Err e, r') →
  e ≠ out_of_fuel ∨
  (sv_now (service r) < deadline)%N ∧
  ∃ r2, (sv_now (service r) + POLL ≤ sv_now (service r2))%N ∧ await_loop fuel context deadline r2 = (Err e, r').
Proof.
  cbn [await_loop]. unfold bind at 1.
  destruct (current r) as [[u|x] r1] eqn:E1; [|intros [= <- _]; left; by eapply current_error].
  apply current_Ok in E1 as ([Hl1 _] & _). unfold bind at 1.
  destruct (bounded _ r1) as [[st|x] r2] eqn:E2; [|intros [= <- _]; left; by eapply bounded_error].
  apply bounded_Ok in E2. unfold object_property in E2. unroll.
  match goal with H : ProfileWriter.get_property _ _ _ _ _ = _ |- _ => apply property_Ok in H as ([Hl2 _] & _) end.
  destruct (st =? 2)%N; [done|]. unfold bind, require, lift, clock, sleep.
  destruct (st =? 1)%N; cbn; [|intros [= <- _]; left; by intros [=]].
  destruct (sv_now (service x0) <? deadline)%N eqn:En; cbn; [|intros [= <- _]; left; by intros [=]].
  intros H. right. apply N.ltb_lt in En. apply now_later in Hl1, Hl2. split; [lia|]. eexists. split; [|exact H]. cbn.
  assert (Hp := pause_passes POLL (service x0)). lia.
Qed.

Lemma await_loop_ends fuel context deadline r e r' :
  (deadline ≤ sv_now (service r) + N.of_nat fuel * POLL)%N →
  await_loop (Datatypes.S fuel) context deadline r = (Err e, r') → e ≠ out_of_fuel.
Proof.
  revert r. induction fuel as [|fuel IH]; intros r Hd [He|(Hn & r2 & Hr & H)]%await_round; try done; [lia|].
  eapply (IH r2); [|done]. lia.
Qed.

(** C27. Waiting for the activation ends: with a clock that advances with each pause, the
    wait returns a result of the code (the activation finished, failed, was superseded or
    timed out) within its 302 rounds, whatever the service answers. *)
Theorem await_activation_ends context r e r' :
  await_activation context r = (Err e, r') → e ≠ out_of_fuel.
Proof.
  unfold await_activation, bind, clock. apply (await_loop_ends 301).
  assert (ACTIVATION_LIMIT ≤ N.of_nat 301 * POLL)%N by by vm_compute. cbn. lia.
Qed.
End Terminates.
End Confirm.

(** ** A service *)

(** A profile, and a clock that advances with each pause; its activation finishes at once. *)
Record confirm_state := { cf_profile : profile_state; cf_now : instant }.
Definition bump (c : ConnectionSettings) (s : confirm_state) : confirm_state :=
  {| cf_profile := {| ps_version := ps_version (cf_profile s) + 1; ps_settings := c;
                      ps_secrets := ps_secrets (cf_profile s) |};
     cf_now := cf_now s |}.
#[local] Instance timed_profile : ProfileService confirm_state := {|
  sv_owner _ := ":1.7"; sv_version s := ps_version (cf_profile s); sv_settings s := ps_settings (cf_profile s);
  sv_unsaved _ := false; sv_filename _ := "/etc/NetworkManager/system-connections/home.nmconnection";
  sv_flags _ := 0%N; sv_running _ := "1.58.1"; sv_listed _ := true;
  sv_get_secrets _ s := (Ok (ps_secrets (cf_profile s)), bump (ps_settings (cf_profile s)) s);
  sv_update2 c _ v s :=
    if (v =? ps_version (cf_profile s))%N
    then (Ok tt, bump (if bool_decide (c = ∅) then ps_settings (cf_profile s) else c) s)
    else (Err (plain "version mismatch"), s);
|}.
#[local] Instance timed_confirm : ConfirmService confirm_state := {|
  sv_now := cf_now; sv_active _ := ["/a"]; sv_active_profile _ _ := Some "/1";
  sv_active_state _ s := Some (if (cf_now s <? 1)%N then 1%N else 2%N);
  sv_permissions _ := {[ PERMISSION_SYSTEM := "yes" ]};
  sv_pause d s := {| cf_profile := cf_profile s; cf_now := cf_now s + d |};
|}.
Definition confirm_later (s s' : confirm_state) : Prop :=
  profile_later (cf_profile s) (cf_profile s') ∧ (cf_now s ≤ cf_now s')%N.
#[local] Instance timed_laws : ProfileLaws confirm_state confirm_later.
Proof.
  split.
  - split; [intros s; split; [by split|lia]|]. intros s1 s2 s3 [[H1 E1] T1] [[H2 E2] T2]. split; [|lia].
    split; [lia|]. intros E. rewrite E2, E1 by lia. done.
  - by intros s s' [[H E] _] _.
  - intros n s r s' [= <- <-]. split; [split; [split; cbn; lia|cbn; lia]|done].
  - intros c fl v s r s'. cbn. case_match eqn:E; intros [= <- <-].
    + split; [split; [split; cbn; lia|cbn; lia]|]. intros _. by apply N.eqb_eq in E.
    + split; [split; [by split|lia]|done].
Qed.

Definition confirm_start : @run confirm_state :=
  {| next := 0; service := {| cf_profile := home_state; cf_now := 0 |}; writes := [] |}.
Definition save_request : PendingSecretRequest :=
  prepared (ps_settings home_state) ":1.7" {| persistent := {[ "psk" ]}; migration_required := false |} None
    (new_request (from_secs 120) 0 0 "secret-1" "/1" SECURITY [] 1).
Definition never (_ : nat) : bool := false.
Definition home_prepared :=
  prepare ":1.7" (λ _ s, s) never never save_request (ps_settings home_state) {[ "psk" := "secret-1" ]} confirm_start.
Definition home_captured := ok_value (Err (plain ""), ∅) home_prepared.1.
Definition home_saved :=
  save ":1.7" (λ _ s, s) never never never never save_request home_captured home_prepared.2.

Lemma same_later (_ : nat) s : confirm_later s s.
Proof. split; [by split|lia]. Qed.
Lemma pause_is_later d s : confirm_later s (sv_pause d s).
Proof. split; [by split|cbn; lia]. Qed.

Lemma stored_is_confirmed_witness :
  ∃ context, public_settings (ps_settings home_state) = Ok (public context) ∧
    filename context = "/etc/NetworkManager/system-connections/home.nmconnection".
Proof.
  destruct (stored_is_confirmed ":1.7" (λ _ s, s) never never never never confirm_later same_later pause_is_later
    save_request (ps_settings home_state) {[ "psk" := "secret-1" ]} home_captured confirm_start home_prepared.2
    home_prepared.2 home_saved.2) as (context & Hp & w & secrets & s0 & s1 & a & b & H).
  - assert (Hok : is_ok home_prepared.1 = true) by by vm_compute. fold home_prepared. unfold home_captured.
    revert Hok. by destruct home_prepared as [[c|] r].
  - assert (Hok : match home_saved.1 with Ok Stored => true | _ => false end = true) by by vm_compute. fold home_saved.
    revert Hok. by destruct home_saved as [[[]|] r].
  - exists context. split; [done|]. by destruct_and! H.
Defined.

Definition ended_run := await_activation ":1.7" (λ _ s, s) (λ _, true) never never never
  {| public := ∅; filename := ""; active := "/a" |} confirm_start.
Lemma await_activation_ends_witness :
  ∃ e, ended_run.1 = Err e ∧ e ≠ out_of_fuel.
Proof.
  assert (Hok : is_ok ended_run.1 = false) by by vm_compute.
  destruct ended_run as [[u|e] r] eqn:E; [done|]. exists e. split; [done|].
  refine (await_activation_ends ":1.7" (λ _ s, s) (λ _, true) never never never confirm_later same_later
    _ _ {| public := ∅; filename := ""; active := "/a" |} confirm_start e r E).
  - by intros s s' [_ H].
  - intros d s. cbn. lia.
Defined.
