(* ===== verification/SecretAgent.v ===== *)
(** * The secret agent ([src/daemon_secret.rs], [src/daemon_secret/persistence.rs], [src/daemon_secret/lifecycle.rs])

    NetworkManager asks the agent for secrets ([GetSecrets]), may cancel a request, hand
    secrets over or delete them; frontends answer prompts; the watcher follows the owner of
    NetworkManager's bus name. All of this runs concurrently over a registry behind one lock,
    cancellation flags, the handoff, save tickets and the activation scopes.

    An [Agent] is the shared state with the [GetSecrets] calls in progress, each at a [phase]
    between two accesses to shared state. [op] lists the atomic actions: a handler of the
    source is a sequence of them, and a run is any sequence of operations, which contains
    every interleaving of the handlers. A message removed from the registry under the lock is
    sent after it is released: until then it is in [outbox]. *)
From S2P Require Import Prelude Errors Text Values Identity Wifi Network Variant Credentials Activation SecretRequest SecretSession.
From Stdlib Require Import ZArith Lia.
From stdpp Require Import prelude gmap strings list pretty.

(** ** State *)

Record PendingEntry := { pe_request : PendingSecretRequest; pe_owners : gset string; pe_sender : N }.
Record PendingRegistry := {
  inflight : gmap string N;
  reg_owner : option string;
  requests : gmap string PendingEntry;
}.

(** Where a call of [get_secrets] is. [c] is the connection being completed, [save] the
    values whose storage will be confirmed. *)
Inductive phase :=
| Arrived (sender : string)
| Preparing (owner : string)
| Registering
| Resolving
| Clearing
| Taking
| Checked (complete : bool)
| Subscribing
| Announcing (owners : list string)
| Enrolling (owners : list string)
| Refused (registered : bool) (e : SecretAgentError)
| Publishing
| Receiving
| Waiting
| Answered (response : SecretResponse)
| Disconnected
| Removing (e : SecretAgentError)
| Retiring (e : SecretAgentError)
| Applying (response : SecretResponse)
| Closing (res : result (option (gmap string string)) SecretAgentError)
| Leaving (res : result (option (gmap string string)) SecretAgentError)
| Delivering (save : option (gmap string string))
| Withdrawing (e : SecretAgentError)
| Replied (save : option N)
| Queued (ticket : N)
| Permitted (ticket : N)
| Writing (ticket : N)
| Saving (ticket : N)
| Reporting (stored : bool)
| Ended (res : result unit SecretAgentError).

Record call := {
  request : PendingSecretRequest;
  original : ConnectionSettings;
  connection : ConnectionSettings;
  asked : gset string;
  at_phase : phase;
}.

(** A message taken out of the registry and not sent yet. *)
Inductive delivery :=
| CancelPrompt (rid : string) (channel : N)
| AnswerPrompt (rid : string) (channel : N) (client : string) (response : SecretResponse).
Definition prompt_of (d : delivery) : string :=
  match d with CancelPrompt rid _ => rid | AnswerPrompt rid _ _ _ => rid end.

Inductive secret_event := Requested | Cancelled | Delivered | Persistence.
#[export] Instance secret_event_eq_dec : EqDecision secret_event.
Proof. solve_decision. Defined.

(** Prompts: the registry with the messages and events about its requests; [answers] logs
    the answers that reached their request, with the client. *)
Record Prompts := {
  registry : PendingRegistry;
  mailboxes : gmap N (list SecretResponse);
  outbox : list delivery;
  events : list (string * secret_event);
  answers : list (string * string);
}.

(** Saves: tickets by profile path, the tickets that were invalidated, the permits in use
    and the holder of the writer's lock. *)
Record Saves := {
  tickets : gmap string (list N);
  voided : gset N;
  permits : nat;
  writer : option N;
}.

Record Agent := {
  now : instant;
  bus_owner : option string;
  registered : bool;
  subscribers : list string;
  raised : gset N;
  scopes : World;
  handoff : gmap (string * string * string) Entry;
  prompts : Prompts;
  saves : Saves;
  calls : gmap N call;
  next_call : N;
}.

Definition with_raised (f : gset N) (a : Agent) : Agent :=
  {| now := now a; bus_owner := bus_owner a; registered := registered a; subscribers := subscribers a;
     raised := f; scopes := scopes a; handoff := handoff a; prompts := prompts a; saves := saves a;
     calls := calls a; next_call := next_call a |}.
Definition with_scopes (w : World) (a : Agent) : Agent :=
  {| now := now a; bus_owner := bus_owner a; registered := registered a; subscribers := subscribers a;
     raised := raised a; scopes := w; handoff := handoff a; prompts := prompts a; saves := saves a;
     calls := calls a; next_call := next_call a |}.
Definition with_handoff (h : gmap (string * string * string) Entry) (a : Agent) : Agent :=
  {| now := now a; bus_owner := bus_owner a; registered := registered a; subscribers := subscribers a;
     raised := raised a; scopes := scopes a; handoff := h; prompts := prompts a; saves := saves a;
     calls := calls a; next_call := next_call a |}.
Definition with_prompts (p : Prompts) (a : Agent) : Agent :=
  {| now := now a; bus_owner := bus_owner a; registered := registered a; subscribers := subscribers a;
     raised := raised a; scopes := scopes a; handoff := handoff a; prompts := p; saves := saves a;
     calls := calls a; next_call := next_call a |}.
Definition with_saves (s : Saves) (a : Agent) : Agent :=
  {| now := now a; bus_owner := bus_owner a; registered := registered a; subscribers := subscribers a;
     raised := raised a; scopes := scopes a; handoff := handoff a; prompts := prompts a; saves := s;
     calls := calls a; next_call := next_call a |}.
Definition with_calls (c : gmap N call) (a : Agent) : Agent :=
  {| now := now a; bus_owner := bus_owner a; registered := registered a; subscribers := subscribers a;
     raised := raised a; scopes := scopes a; handoff := handoff a; prompts := prompts a; saves := saves a;
     calls := c; next_call := next_call a |}.
Definition with_requests (m : gmap string PendingEntry) (p : Prompts) : Prompts :=
  {| registry := {| inflight := inflight (registry p); reg_owner := reg_owner (registry p); requests := m |};
     mailboxes := mailboxes p; outbox := outbox p; events := events p; answers := answers p |}.
Definition with_inflight (m : gmap string N) (p : Prompts) : Prompts :=
  {| registry := {| inflight := m; reg_owner := reg_owner (registry p); requests := requests (registry p) |};
     mailboxes := mailboxes p; outbox := outbox p; events := events p; answers := answers p |}.
Definition post (l : list delivery) (p : Prompts) : Prompts :=
  {| registry := registry p; mailboxes := mailboxes p; outbox := outbox p ++ l; events := events p;
     answers := answers p |}.

(** [emit_secret_event]: what the runtime is asked to publish. *)
Definition emit (rid : string) (e : secret_event) (p : Prompts) : Prompts :=
  {| registry := registry p; mailboxes := mailboxes p; outbox := outbox p;
     events := events p ++ [(rid, e)]; answers := answers p |}.

(** ** The registry *)

Definition is_current_owner (owner : option string) (p : Prompts) : bool :=
  bool_decide (reg_owner (registry p) = owner).

(** [Sender::send] succeeds while the receiver lives: from the registration of the call
    to the end of its wait. *)
Definition listening (ph : phase) : bool :=
  match ph with
  | Refused reg _ => reg
  | Publishing | Receiving | Waiting | Answered _ | Disconnected | Removing _ | Retiring _ | Applying _
  | Closing _ => true
  | _ => false
  end.
Definition receiver_alive (cs : gmap N call) (channel : N) : bool :=
  match cs !! channel with Some c => listening (at_phase c) | None => false end.
Definition send (cs : gmap N call) (channel : N) (response : SecretResponse) (p : Prompts) : Prompts :=
  if receiver_alive cs channel then
    {| registry := registry p;
       mailboxes := <[channel := unwrap_or (mailboxes p !! channel) [] ++ [response]]> (mailboxes p);
       outbox := outbox p; events := events p; answers := answers p |}
  else p.

Definition remove (rid : string) (p : Prompts) : Prompts := with_requests (delete rid (requests (registry p))) p.

(** [find_map] over the map: the first entry with the key. *)
Definition find_by_key (key : string) (p : Prompts) : option (string * N) :=
  (λ ie, (ie.1, pe_sender ie.2)) <$>
    find_first (λ ie, bool_decide (rq_key (pe_request ie.2) = key)) (map_to_list (requests (registry p))).
Definition remove_by_key (key : string) (p : Prompts) : option (string * N) * Prompts :=
  match find_by_key key p with
  | Some (rid, channel) => (Some (rid, channel), remove rid p)
  | None => (None, p)
  end.

(** [cancel_by_key]: the flag in flight is raised, the prompt removed. *)
Definition raise_inflight (key : string) (p : Prompts) (f : gset N) : gset N :=
  match inflight (registry p) !! key with Some flag => {[ flag ]} ∪ f | None => f end.

Definition queue_cancel (o : option (string * N)) (p : Prompts) : Prompts :=
  match o with Some (rid, channel) => post [CancelPrompt rid channel] p | None => p end.

(** The prompt of [key] is cancelled; its message is queued. *)
Definition cancel_by_key (key : string) (a : Agent) : Agent :=
  let '(o, p) := remove_by_key key (prompts a) in
  with_prompts (queue_cancel o p) (with_raised (raise_inflight key (prompts a) (raised a)) a).

(** [split_once] on the newline of the key. *)
Definition key_path (key : string) : option string :=
  let bytes := as_bytes key in
  if existsb (λ b, bool_decide (b = newline)) bytes
  then Some (of_bytes (before_byte newline bytes)) else None.

Definition cancel_connection (path : string) (a : Agent) : Agent :=
  let raised' := foldl (λ f kf, if bool_decide (key_path kf.1 = Some path) then {[ kf.2 ]} ∪ f else f)
                   (raised a) (map_to_list (inflight (registry (prompts a)))) in
  let keys := (λ ie, rq_key (pe_request ie.2)) <$>
    List.filter (λ ie, bool_decide (connection_path (pe_request ie.2) = path))
      (map_to_list (requests (registry (prompts a)))) in
  foldl (λ a key, cancel_by_key key a) (with_raised raised' a) keys.

(** ** Liveness *)

Definition scope_live (r : PendingSecretRequest) (a : Agent) : bool :=
  match rq_activation r with
  | None => true
  | Some i => match heap (scopes a) !! i with Some s => Activation.live (now a) s | None => false end
  end.
Definition flag_raised (r : PendingSecretRequest) (a : Agent) : bool := bool_decide (cancelled r ∈ raised a).

(** [PendingSecretRequest::live]. *)
Definition request_live (r : PendingSecretRequest) (a : Agent) : bool :=
  negb (flag_raised r a) && (now a <? rq_deadline r)%N && scope_live r a.

Definition stop_request (r : PendingSecretRequest) (reason : CredentialStop) (a : Agent) : Agent :=
  match rq_activation r with
  | Some i => with_scopes (alter_state (Activation.stop reason) i (scopes a)) a
  | None => a
  end.

Definition ensure_secret_owner (owner : option string) (a : Agent) : result unit FdoError :=
  ensure (is_current_owner owner (prompts a)) (FdoFailed "NetworkManager changed during the secret request").
Definition ensure_request_owner (r : PendingSecretRequest) (a : Agent) : result unit SecretAgentError :=
  let? _ := ensure (negb (flag_raised r a)) (UserCanceled "NetworkManager cancelled the secret request") in
  result_map_err from_fdo (ensure_secret_owner (nm_owner r) a).

Definition ensure_delivery_live (r : PendingSecretRequest) (a : Agent) : result unit SecretAgentError * Agent :=
  match ensure_request_owner r a with
  | Err e => (Err e, a)
  | Ok _ =>
    if (rq_deadline r <=? now a)%N then
      (Err (NoSecrets "Credential entry deadline expired"), stop_request r StopExpired a)
    else if negb (scope_live r a) then (Err (UserCanceled "The owning activation ended"), a)
    else (Ok tt, a)
  end.

(** ** Tickets *)

(** The phases that hold a strong reference to their ticket. *)
Definition ticket_of (ph : phase) : option N :=
  match ph with
  | Replied (Some t) | Queued t | Permitted t | Writing t | Saving t => Some t
  | _ => None
  end.
Definition ticket_alive (cs : gmap N call) (t : N) : bool :=
  match cs !! t with Some c => bool_decide (ticket_of (at_phase c) = Some t) | None => false end.

(** [ticket]: dead tickets are dropped, the new one is registered. *)
Definition register_ticket (cs : gmap N call) (path : string) (t : N) (s : Saves) : Saves :=
  let alive := omap (λ l, let l := List.filter (ticket_alive cs) l in
                          if bool_decide (l = []) then None else Some l) (tickets s) in
  {| tickets := <[path := unwrap_or (alive !! path) [] ++ [t]]> alive; voided := voided s;
     permits := permits s; writer := writer s |}.
Definition invalidate (cs : gmap N call) (path : string) (s : Saves) : Saves :=
  {| tickets := delete path (tickets s);
     voided := list_to_set (List.filter (ticket_alive cs) (unwrap_or (tickets s !! path) [])) ∪ voided s;
     permits := permits s; writer := writer s |}.

Definition CONFIRMATIONS : nat := 8.
Definition with_permits (n : nat) (s : Saves) : Saves :=
  {| tickets := tickets s; voided := voided s; permits := n; writer := writer s |}.
Definition with_writer (w : option N) (s : Saves) : Saves :=
  {| tickets := tickets s; voided := voided s; permits := permits s; writer := w |}.

(** ** A call *)

Section Agent.
(** [SECRET_TIMEOUT] is generated; request ids come from a sequence that does not repeat. *)
Context (timeout : duration) (request_id : N → string) {request_id_inj : Inj (=) (=) request_id}.

Definition authorize (sender : string) (a : Agent) : result string FdoError :=
  let? owner := ok_or (bus_owner a) FdoNameHasNoOwner in
  let? _ := ensure (bool_decide (sender = owner) && is_current_owner (Some owner) (prompts a))
              (FdoAccessDenied "SecretAgent caller is not the current NetworkManager owner") in
  Ok owner.

Definition to_phase (n : N) (ph : phase) (a : Agent) : Agent :=
  with_calls (alter (λ c, {| request := request c; original := original c; connection := connection c;
                             asked := asked c; at_phase := ph |}) n (calls a)) a.
Definition with_request (n : N) (r : PendingSecretRequest) (a : Agent) : Agent :=
  with_calls (alter (λ c, {| request := r; original := original c; connection := connection c;
                             asked := asked c; at_phase := at_phase c |}) n (calls a)) a.
Definition with_connection (n : N) (s : ConnectionSettings) (a : Agent) : Agent :=
  with_calls (alter (λ c, {| request := request c; original := original c; connection := s;
                             asked := asked c; at_phase := at_phase c |}) n (calls a)) a.
Definition with_asked (n : N) (o : gset string) (a : Agent) : Agent :=
  with_calls (alter (λ c, {| request := request c; original := original c; connection := connection c;
                             asked := o; at_phase := at_phase c |}) n (calls a)) a.

(** [get_secrets] is entered. *)
Definition arrive (sender path setting : string) (hs : list string) (fl : N) (c : ConnectionSettings)
    (a : Agent) : Agent :=
  let n := next_call a in
  let r := new_request timeout (now a) n (request_id n) path setting hs fl in
  {| now := now a; bus_owner := bus_owner a; registered := registered a; subscribers := subscribers a;
     raised := raised a; scopes := scopes a; handoff := handoff a; prompts := prompts a; saves := saves a;
     calls := <[n := {| request := r; original := c; connection := c; asked := ∅; at_phase := Arrived sender |}]> (calls a);
     next_call := (n + 1)%N |}.

(** [prepare], after the policy was accepted: saves of the profile are invalidated, the
    activation is found and tracks the request. *)
Definition bind_request (n : N) (c : call) (owner : string) (p : Policy) (a : Agent) : Agent :=
  let r := request c in
  let a := with_saves (invalidate (calls a) (connection_path r) (saves a)) a in
  let '(w, scope) := Activation.find owner (activation_identity (original c) (connection_path r)) (scopes a) in
  let found := i ← scope; s ← heap w !! i; Some (i, credential_deadline s) in
  let w := match scope with Some i => alter_state track_credentials i w | None => w end in
  with_request n (prepared (original c) owner p found r) (with_scopes w a).

(** The guard on the activation counts the request; the request holds a reference to it. *)
Definition drop_guard (c : call) (a : Agent) : Agent :=
  match rq_activation (request c) with
  | Some i => with_scopes (alter_state drop_credentials i (scopes a)) a
  | None => a
  end.
Definition release_scope (c : call) (a : Agent) : Agent :=
  match rq_activation (request c) with
  | Some i => with_scopes (release i (scopes a)) a
  | None => a
  end.

(** A call that fails drops both. *)
Definition finish (n : N) (c : call) (e : SecretAgentError) (a : Agent) : Agent :=
  to_phase n (Ended (Err e)) (release_scope c (drop_guard c a)).

(** Continue with [k] when the delivery is live, with [fail] otherwise. *)
Definition when_live (r : PendingSecretRequest) (a : Agent) (fail : SecretAgentError → Agent → Agent)
    (k : Agent → Agent) : Agent :=
  match ensure_delivery_live r a with
  | (Ok _, a) => k a
  | (Err e, a) => fail e a
  end.

Definition register_inflight (n : N) (c : call) (a : Agent) : Agent :=
  let r := request c in
  if negb (is_current_owner (nm_owner r) (prompts a)) then
    finish n c (AgentFailed "NetworkManager changed before lookup") a
  else
    let '(o, p) := remove_by_key (rq_key r) (prompts a) in
    let p := match o with
             | Some (rid, channel) => emit rid Cancelled (send (calls a) channel cancelled_response p)
             | None => p
             end in
    let p := with_inflight (<[rq_key r := cancelled r]> (inflight (registry p))) p in
    to_phase n Resolving (with_prompts p (with_raised (raise_inflight (rq_key r) (prompts a) (raised a)) a)).

(** [register_pending]: the registry's [insert] and the message to the displaced prompt. *)
Definition register_pending (n : N) (r : PendingSecretRequest) (owners : list string) (a : Agent) : Agent :=
  if negb (is_current_owner (nm_owner r) (prompts a)) then
    to_phase n (Refused false (AgentFailed "NetworkManager changed before secret registration")) a
  else if flag_raised r a then
    to_phase n (Refused false (UserCanceled "secret request cancelled during lookup")) a
  else if negb (request_live r a) then
    to_phase n (Refused false (NoSecrets "Credential request no longer belongs to a live activation")) a
  else
    let '(o, p) := remove_by_key (rq_key r) (prompts a) in
    let entry := {| pe_request := r; pe_owners := list_to_set owners; pe_sender := n |} in
    let collided := requests (registry p) !! id r in
    let p := with_requests (<[id r := entry]> (requests (registry p))) p in
    let p := match collided with Some e => send (calls a) (pe_sender e) cancelled_response p | None => p end in
    to_phase n Publishing (with_prompts (queue_cancel o p) a).

Definition has_sender (n : N) (p : Prompts) : bool :=
  existsb (λ ie, bool_decide (pe_sender ie.2 = n)) (map_to_list (requests (registry p)))
  || existsb (λ d, match d with CancelPrompt _ c | AnswerPrompt _ c _ _ => bool_decide (c = n) end) (outbox p).

Definition set_mailbox (n : N) (l : list SecretResponse) (p : Prompts) : Prompts :=
  {| registry := registry p; mailboxes := <[n := l]> (mailboxes p); outbox := outbox p; events := events p;
     answers := answers p |}.

(** [recv_timeout]: a message, a closed channel, or another round. *)
Definition receive (n : N) (a : Agent) : Agent :=
  match mailboxes (prompts a) !! n with
  | Some (response :: l) => to_phase n (Answered response) (with_prompts (set_mailbox n l (prompts a)) a)
  | _ => if has_sender n (prompts a) then to_phase n Receiving a else to_phase n Disconnected a
  end.

(** The interaction with a frontend, and the lookup before it. *)
Definition apply_answer (n : N) (c : call) (response : SecretResponse) (a : Agent) : Agent :=
  let a := if rs_cancelled response then stop_request (request c) StopCancelled a else a in
  match apply_secret_response (connection c) (request c) response with
  | Ok (s, values) => to_phase n (Closing (Ok values)) (with_connection n s a)
  | Err e => to_phase n (Closing (Err e)) a
  end.
Definition take_stored (n : N) (c : call) (a : Agent) : Agent :=
  let '(values, h) := SecretSession.take (now a) (request c) (connection c) (handoff a) in
  let a := with_handoff h a in
  match apply_stored_values (request c) (connection c) values with
  | Ok (s, complete) => to_phase n (Checked complete) (with_connection n s a)
  | Err e => to_phase n (Leaving (Err (from_fdo e))) a
  end.

Definition leave_inflight (n : N) (c : call) (res : result (option (gmap string string)) SecretAgentError)
    (a : Agent) : Agent :=
  let p := prompts a in
  let p := if bool_decide (inflight (registry p) !! rq_key (request c) = Some (cancelled (request c)))
           then with_inflight (delete (rq_key (request c)) (inflight (registry p))) p else p in
  let a := with_prompts p a in
  match res with
  | Ok values => to_phase n (Delivering values) a
  | Err e => finish n c e a
  end.

(** The reply: a save gets its ticket before the reply is dispatched, and holds the
    request until it has run. *)
Definition reply (n : N) (c : call) (values : option (gmap string string)) (a : Agent) : Agent :=
  let a := drop_guard c a in
  match values with
  | Some _ =>
    to_phase n (Replied (Some n))
      (with_saves (register_ticket (calls a) (connection_path (request c)) n (saves a)) a)
  | None => to_phase n (Replied None) (release_scope c a)
  end.
Definition settle (n : N) (ticket : option N) (c : call) (a : Agent) : Agent :=
  to_phase n (Ended (Ok tt)) (if ticket then release_scope c a else a).

Definition remove_entry (r : PendingSecretRequest) (a : Agent) : Agent := with_prompts (remove (id r) (prompts a)) a.
Definition emit_event (r : PendingSecretRequest) (e : secret_event) (a : Agent) : Agent :=
  with_prompts (emit (id r) e (prompts a)) a.
Definition leave (n : N) (e : SecretAgentError) : Agent → Agent := to_phase n (Leaving (Err e)).
Definition retire (n : N) (e : SecretAgentError) : Agent → Agent := to_phase n (Removing e).

(** The next action of call [n] at phase [ph], by the function of the source it is in. *)
Definition resolve_secret_request (n : N) (c : call) (ph : phase) (a : Agent) : Agent :=
  let r := request c in
  match ph with
  | Resolving =>
    when_live r a (leave n) (to_phase n (if (N.land (rq_flags r) REQUEST_NEW =? 0)%N then Taking else Clearing))
  | Clearing => to_phase n (Checked false) (with_handoff (clear (now a) (Some (connection_path r)) (handoff a)) a)
  | Taking => take_stored n c a
  | Checked complete =>
    when_live r a (leave n) (λ a,
      if complete then to_phase n (Leaving (Ok None)) a
      else if (N.land (rq_flags r) ALLOW_INTERACTION =? 0)%N
      then leave n (NoSecrets "no usable stored secret and interaction is prohibited") a
      else to_phase n Subscribing a)
  | _ => a
  end.

Definition wait_for_secret_response (n : N) (c : call) (ph : phase) (a : Agent) : Agent :=
  let r := request c in
  match ph with
  | Subscribing => to_phase n (Announcing (subscribers a)) (with_asked n (list_to_set (subscribers a)) a)
  | Announcing owners =>
    when_live r a (leave n) (λ a,
      let available := negb (bool_decide (owners = [])) in
      let a := match rq_activation r with
               | Some i => with_scopes (alter_state (note_frontend_availability available) i (scopes a)) a
               | None => a
               end in
      if available then to_phase n (Enrolling owners) a
      else leave n (NoSecrets "no frontend is subscribed to secret requests") a)
  | Enrolling owners => register_pending n r owners a
  | Refused reg e =>
    let ends e := to_phase n (if reg then Closing (Err e) else Leaving (Err e)) in
    when_live r a ends (ends e)
  | Publishing =>
    if bool_decide (is_Some (requests (registry (prompts a)) !! id r)) && request_live r a
    then to_phase n Receiving (emit_event r Requested a)
    else to_phase n (Refused true (UserCanceled "secret request cancelled before prompting")) a
  | Removing e => to_phase n (Retiring e) (remove_entry r a)
  | Retiring e => to_phase n (Closing (Err e)) (emit_event r Cancelled a)
  | Applying response => apply_answer n c response a
  | Closing res => to_phase n (Leaving res) (remove_entry r a)
  | _ => a
  end.

Definition receive_live_response (n : N) (c : call) (ph : phase) (a : Agent) : Agent :=
  let r := request c in
  match ph with
  | Receiving => when_live r a (retire n) (to_phase n Waiting)
  | Waiting => receive n a
  | Answered response => when_live r a (retire n) (to_phase n (Applying response))
  | Disconnected => when_live r a (retire n) (retire n (UserCanceled "Credential request retired"))
  | _ => a
  end.

Definition after_reply (n : N) (c : call) (ph : phase) (a : Agent) : Agent :=
  let r := request c in
  match ph with
  | Replied ticket =>
    match ensure_secret_owner (nm_owner r) a with
    | Err _ => settle n ticket c a
    | Ok _ =>
      let a := emit_event r Delivered a in
      match ticket with Some t => to_phase n (Queued t) a | None => settle n ticket c a end
    end
  | Reporting _ => settle n (Some n) c (emit_event r Persistence a)
  | _ => a
  end.

(** [outcome] is what the save reports if it runs now, [expired] whether the wait for the
    writer's lock ran out. *)
Definition persist (outcome expired : bool) (n : N) (c : call) (ph : phase) (a : Agent) : Agent :=
  let free := with_permits (permits (saves a) - 1) (saves a) in
  match ph with
  | Queued t =>
    if (permits (saves a) <? CONFIRMATIONS)%nat
    then to_phase n (Permitted t) (with_saves (with_permits (permits (saves a) + 1) (saves a)) a)
    else to_phase n (Reporting false) a
  | Permitted t =>
    match writer (saves a) with
    | None => to_phase n (Writing t) (with_saves (with_writer (Some n) (saves a)) a)
    | Some _ => if expired then to_phase n (Reporting false) (with_saves free a) else a
    end
  | Writing t =>
    if bool_decide (t ∉ voided (saves a)) && is_ok (ensure_secret_owner (nm_owner (request c)) a)
    then to_phase n (Saving t) a
    else to_phase n (Reporting false) (with_saves (with_writer None free) a)
  | Saving t => to_phase n (Reporting outcome) (with_saves (with_writer None free) a)
  | _ => a
  end.

Definition get_secrets (n : N) (c : call) (ph : phase) (a : Agent) : Agent :=
  let r := request c in
  match ph with
  | Arrived sender =>
    match authorize sender a with
    | Ok owner => to_phase n (Preparing owner) a
    | Err e => to_phase n (Ended (Err (from_fdo e))) a
    end
  | Preparing owner =>
    match request_policy (original c) r with
    | Ok p => to_phase n Registering (bind_request n c owner p a)
    | Err e => to_phase n (Ended (Err e)) a
    end
  | Registering => register_inflight n c a
  | Leaving res => leave_inflight n c res a
  | Delivering values => when_live r a (λ e, to_phase n (Withdrawing e)) (reply n c values)
  | Withdrawing e => finish n c e (emit_event r Cancelled a)
  | _ => a
  end.

Definition advance (outcome expired : bool) (n : N) (c : call) (a : Agent) : Agent :=
  let ph := at_phase c in
  match ph with
  | Resolving | Clearing | Taking | Checked _ => resolve_secret_request n c ph a
  | Subscribing | Announcing _ | Enrolling _ | Refused _ _ | Publishing | Removing _ | Retiring _ | Applying _
  | Closing _ => wait_for_secret_response n c ph a
  | Receiving | Waiting | Answered _ | Disconnected => receive_live_response n c ph a
  | Replied _ | Reporting _ => after_reply n c ph a
  | Queued _ | Permitted _ | Writing _ | Saving _ => persist outcome expired n c ph a
  | Arrived _ | Preparing _ | Registering | Leaving _ | Delivering _ | Withdrawing _ | Ended _ => get_secrets n c ph a
  end.
(** The actions of a call, in one match. *)
Ltac unfold_advance :=
  unfold advance, get_secrets, resolve_secret_request, wait_for_secret_response, receive_live_response, after_reply,
    persist, retire, leave, remove_entry, emit_event; cbv zeta.

(** ** Operations *)

Inductive op :=
| Tick (d : duration)
| BusOwner (o : option string)
| Subscribe (l : list string)
| Scopes (w : World)
| Registration (owner : option string)
| Arrive (sender path setting : string) (hs : list string) (fl : N) (c : ConnectionSettings)
| Advance (outcome expired : bool) (n : N)
| OwnerChanged (o : option string)
| ClearSession (path : option string)
| Invalidate (path : string)
| CancelKey (key : string)
| CancelConnection (owner path : string)
| StageSecrets (owner path : string) (c : ConnectionSettings)
| Answer (client rid : string) (response : SecretResponse)
| Deliver (i : nat).

(** [change_network_manager_owner], under the lock. *)
Definition owner_changed (o : option string) (a : Agent) : Agent :=
  let p := prompts a in
  let cancelled := (λ ie, CancelPrompt ie.1 (pe_sender ie.2)) <$> map_to_list (requests (registry p)) in
  let flags := list_to_set ((map_to_list (inflight (registry p))).*2) in
  let p := {| registry := {| inflight := ∅; reg_owner := o; requests := ∅ |}; mailboxes := mailboxes p;
              outbox := outbox p ++ cancelled; events := events p; answers := answers p |} in
  {| now := now a; bus_owner := bus_owner a; registered := false; subscribers := subscribers a;
     raised := flags ∪ raised a; scopes := scopes a; handoff := handoff a; prompts := p; saves := saves a;
     calls := calls a; next_call := next_call a |}.

(** [remove_for_owner], with the message that is sent after it. *)
Definition answer (client rid : string) (response : SecretResponse) (a : Agent) : Agent :=
  match requests (registry (prompts a)) !! rid with
  | Some e =>
    if bool_decide (client ∈ pe_owners e) then
      let p := remove rid (prompts a) in
      with_prompts (if request_live (pe_request e) a then post [AnswerPrompt rid (pe_sender e) client response] p else p) a
    else a
  | None => a
  end.

Definition drop_outbox (i : nat) (p : Prompts) : Prompts :=
  {| registry := registry p; mailboxes := mailboxes p; outbox := base.delete i (outbox p); events := events p;
     answers := answers p |}.
Definition log_answer (rid client : string) (p : Prompts) : Prompts :=
  {| registry := registry p; mailboxes := mailboxes p; outbox := outbox p; events := events p;
     answers := answers p ++ [(rid, client)] |}.
Definition deliver (i : nat) (a : Agent) : Agent :=
  match outbox (prompts a) !! i with
  | None => a
  | Some d =>
    let p := drop_outbox i (prompts a) in
    with_prompts
      match d with
      | CancelPrompt rid channel => emit rid Cancelled (send (calls a) channel cancelled_response p)
      | AnswerPrompt rid channel client response =>
        let p' := send (calls a) channel response p in
        if receiver_alive (calls a) channel then log_answer rid client p' else p'
      end a
  end.

Definition apply_op (o : op) (a : Agent) : Agent :=
  let env now' bus reg subs :=
    {| now := now'; bus_owner := bus; registered := reg; subscribers := subs; raised := raised a;
       scopes := scopes a; handoff := handoff a; prompts := prompts a; saves := saves a; calls := calls a;
       next_call := next_call a |} in
  match o with
  | Tick d => env (now a + d)%N (bus_owner a) (registered a) (subscribers a)
  | BusOwner o => env (now a) o (registered a) (subscribers a)
  | Subscribe l => env (now a) (bus_owner a) (registered a) l
  | Registration owner =>
    env (now a) (bus_owner a) (is_current_owner owner (prompts a) || registered a) (subscribers a)
  | Scopes w => with_scopes w a
  | Arrive sender path setting hs fl c => arrive sender path setting hs fl c a
  | Advance outcome expired n =>
    match calls a !! n with Some c => advance outcome expired n c a | None => a end
  | OwnerChanged o => owner_changed o a
  | ClearSession path => with_handoff (clear (now a) path (handoff a)) a
  | Invalidate path => with_saves (invalidate (calls a) path (saves a)) a
  | CancelKey key => cancel_by_key key a
  | CancelConnection owner path =>
    if is_ok (ensure_secret_owner (Some owner) a) then cancel_connection path a else a
  | StageSecrets owner path c => with_handoff (stage timeout (now a) owner path c (handoff a)) a
  | Answer client rid response => answer client rid response a
  | Deliver i => deliver i a
  end.
Definition run_ops (l : list op) (a : Agent) : Agent := foldl (λ a o, apply_op o a) a l.

Lemma run_ops_app l l' a : run_ops (l ++ l') a = run_ops l' (run_ops l a).
Proof. apply foldl_app. Qed.
Lemma run_snoc l o a : run_ops (l ++ [o]) a = apply_op o (run_ops l a).
Proof. apply run_ops_app. Qed.

Definition initial_agent : Agent := {|
  now := 0; bus_owner := None; registered := false; subscribers := []; raised := ∅; scopes := initial_world;
  handoff := ∅;
  prompts := {| registry := {| inflight := ∅; reg_owner := None; requests := ∅ |}; mailboxes := ∅; outbox := [];
                events := []; answers := [] |};
  saves := {| tickets := ∅; voided := ∅; permits := 0; writer := None |}; calls := ∅; next_call := 0 |}.

(** ** Handlers: the sequences of operations they perform *)

Definition cancel_get_secrets (sender path setting : string) (a : Agent) : result (list op) FdoError :=
  let? _ := authorize sender a in
  Ok [ClearSession (Some path); Invalidate path; CancelKey (key_for path setting)].
(** The reply of [save_secrets] is always that durable storage is not supported. *)
Definition save_secrets (sender path : string) (c : ConnectionSettings) (a : Agent) : result (list op) FdoError :=
  let? owner := authorize sender a in
  let? _ := ensure_secret_owner (Some owner) a in
  Ok [StageSecrets owner path c].
Definition delete_secrets (sender path : string) (a : Agent) : result (list op) FdoError :=
  let? owner := authorize sender a in
  Ok [ClearSession (Some path); Invalidate path; CancelConnection owner path].
Definition change_network_manager_owner (o : option string) : list op := [OwnerChanged o; ClearSession None].

(** [provide]: a frontend answers. Only the client's own live prompt is checked against the
    retention policy; whether the answer was accepted shows when it is sent. *)
Definition provide_rejection (client : option string) (rid : string) (save : bool) (a : Agent) : option string :=
  e ← requests (registry (prompts a)) !! rid;
  owner ← client;
  if bool_decide (owner ∈ pe_owners e) && request_live (pe_request e) a
  then rejection (policy (pe_request e)) save else None.
Definition provide (client : option string) (rid : string) (response : SecretResponse) (a : Agent) :
    result (list op) Error :=
  let? _ := match (if rs_cancelled response then None else provide_rejection client rid (rs_save response) a) with
            | Some reason =>
              Err (EDomain (with_detail "delivered" (JBool false) (with_detail "reason" (JStr reason)
                (validation Op.SecretOperation
                   "This retention choice cannot be honored by the current profile; use a temporary connection or explicit migration"))))
            | None => Ok tt
            end in
  Ok (match client with Some owner => [Answer owner rid response] | None => [] end).
Definition provide_status (accepted cancel : bool) : string :=
  if accepted && cancel then "cancelled" else if accepted then "accepted" else "unavailable".
Definition persistence_status (accepted cancel save : bool) : string :=
  match accepted, cancel, save with
  | true, true, _ => "not_requested"
  | true, false, true => "pending"
  | true, false, false => "not_requested"
  | false, _, _ => "not_started"
  end.

(** ** Prompts: the invariant *)

(** How far a call has come, as far as its prompt is concerned. *)
Definition rank (ph : phase) : nat :=
  match ph with
  | Arrived _ | Preparing _ | Registering | Resolving | Clearing | Taking | Checked _ | Subscribing
  | Announcing _ | Enrolling _ => 0
  | Publishing => 1
  | Refused true _ | Receiving | Waiting | Answered _ | Disconnected | Removing _ | Retiring _ | Applying _
  | Closing _ => 2
  | Refused false _ | Leaving _ | Delivering _ | Withdrawing _ | Replied _ | Ended (Err _) => 4
  | Queued _ | Permitted _ | Writing _ | Saving _ | Reporting _ | Ended (Ok _) => 5
  end.

(** What the log, the queue and the answers say about a request, as a lower bound of its rank. *)
Definition evidence (p : Prompts) (rid : string) (m : nat) : Prop :=
  (m = 1 ∧ (rid ∈ prompt_of <$> outbox p ∨ rid ∈ (answers p).*1 ∨ rid ∈ (events p).*1)) ∨
  (m = 2 ∧ (rid, Requested) ∈ events p) ∨
  (m = 5 ∧ ((rid, Delivered) ∈ events p ∨ (rid, Persistence) ∈ events p)).

Definition settled (p : Prompts) (rid : string) : Prop :=
  rid ∈ prompt_of <$> outbox p ∨ rid ∈ (answers p).*1 ∨ (rid, Cancelled) ∈ events p.

Record prompts_inv (cs : gmap N call) (nc : N) (p : Prompts) : Prop := {
  inv_calls n c : cs !! n = Some c → (n < nc)%N ∧ id (request c) = request_id n;
  inv_requests rid e : requests (registry p) !! rid = Some e →
    ∃ c, cs !! pe_sender e = Some c ∧ rid = request_id (pe_sender e) ∧
      (1 ≤ rank (at_phase c) ≤ 2)%nat ∧ pe_owners e = asked c;
  inv_evidence rid m : evidence p rid m →
    ∃ n c, cs !! n = Some c ∧ rid = request_id n ∧ (m ≤ rank (at_phase c))%nat;
  inv_settled rid : settled p rid → requests (registry p) !! rid = None;
  inv_retiring n c e : cs !! n = Some c → at_phase c = Retiring e → requests (registry p) !! request_id n = None;
  inv_owners n c : cs !! n = Some c →
    match at_phase c with Announcing owners | Enrolling owners => asked c = list_to_set owners | _ => True end;
  inv_once : NoDup ((prompt_of <$> outbox p) ++ (answers p).*1);
  inv_asked rid client :
    (∃ ch response, AnswerPrompt rid ch client response ∈ outbox p) ∨ (rid, client) ∈ answers p →
    ∃ n c, cs !! n = Some c ∧ rid = request_id n ∧ client ∈ asked c ∧ (1 ≤ rank (at_phase c))%nat;
  inv_first l1 rid l2 : events p = l1 ++ (rid, Requested) :: l2 → rid ∉ l1.*1;
  inv_delivered l1 rid l2 : events p = l1 ++ (rid, Delivered) :: l2 → (rid, Delivered) ∉ l1;
}.

(** The parts of the prompts the invariant reads. *)
Definition same_prompts (p p' : Prompts) : Prop :=
  requests (registry p') = requests (registry p) ∧ outbox p' = outbox p ∧ events p' = events p ∧ answers p' = answers p.
Lemma inv_same cs nc p p' : same_prompts p p' → prompts_inv cs nc p → prompts_inv cs nc p'.
Proof.
  intros (Hr & Ho & He & Ha) [H1 H2 H3 H4 H5 H0 H6 H7 H8 H9].
  split; unfold evidence, settled in *; rewrite ?Hr, ?Ho, ?He, ?Ha; done.
Qed.

Definition is_retiring (ph : phase) : bool := match ph with Retiring _ => true | _ => false end.

(** A call moves on. *)
Lemma inv_move cs nc p n c c' :
  cs !! n = Some c → id (request c') = id (request c) → (rank (at_phase c) = 0%nat ∨ asked c' = asked c) →
  (rank (at_phase c) ≤ rank (at_phase c'))%nat →
  ((2 < rank (at_phase c'))%nat ∨ is_retiring (at_phase c') = true →
    requests (registry p) !! request_id n = None) →
  match at_phase c' with Announcing owners | Enrolling owners => asked c' = list_to_set owners | _ => True end →
  prompts_inv cs nc p → prompts_inv (<[n := c']> cs) nc p.
Proof.
  intros Hn Hid Hask Hrank Hent Hown [H1 H2 H3 H4 H5 H0 H6 H7 H8 H9].
  assert (Hlift : ∀ rid m (P : call → Prop), (P c → P c' ∨ rank (at_phase c) = 0%nat) → (1 ≤ m)%nat →
    (∃ j d, cs !! j = Some d ∧ rid = request_id j ∧ P d ∧ (m ≤ rank (at_phase d))%nat) →
    ∃ j d, <[n := c']> cs !! j = Some d ∧ rid = request_id j ∧ P d ∧ (m ≤ rank (at_phase d))%nat).
  { intros rid m P HP Hm (j & d & Hj & -> & HPd & Hd). destruct (decide (j = n)) as [->|Hne].
    - exists n, c'. rewrite lookup_insert_eq. simplify_eq. destruct (HP HPd); [|lia]. split_and!; [done..|lia].
    - exists j, d. rewrite lookup_insert_ne by done. done. }
  split; try done.
  - intros j d. destruct (decide (j = n)) as [->|Hne];
      [rewrite lookup_insert_eq; intros [= <-]; rewrite Hid; by apply H1|rewrite lookup_insert_ne by done; apply H1].
  - intros rid e He. destruct (H2 _ _ He) as (d & Hd & -> & Hr & Ho). destruct (decide (pe_sender e = n)) as [En|Hne].
    + exists c'. rewrite En in *. rewrite lookup_insert_eq. simplify_eq. split_and!; [done..|lia| |].
      * destruct (decide (2 < rank (at_phase c'))%nat); [|lia]. rewrite Hent in He by auto. done.
      * destruct Hask as [Hask|Hask]; [lia|congruence].
    + exists d. rewrite lookup_insert_ne by done. done.
  - intros rid m Hm. destruct (H3 _ _ Hm) as (j & d & Hj & Hrid & Hd).
    destruct (Hlift rid m (λ _, True)) as (j' & d' & ? & ? & _ & ?); [auto| |by exists j, d|by exists j', d'].
    unfold evidence in Hm. lia.
  - intros j d e. destruct (decide (j = n)) as [->|Hne]; [|rewrite lookup_insert_ne by done; apply H5].
    rewrite lookup_insert_eq. intros [= <-] E. apply Hent. right. by rewrite E.
  - intros j d. destruct (decide (j = n)) as [->|Hne]; [|rewrite lookup_insert_ne by done; apply H0].
    rewrite lookup_insert_eq. by intros [= <-].
  - intros rid client Hc. destruct (H7 _ _ Hc) as (j & d & Hj & Hrid & Hd & Hr).
    destruct (Hlift rid 1%nat (λ x, client ∈ asked x)) as (j' & d' & ? & ? & ? & ?);
      [destruct Hask as [|E]; [auto|rewrite E; auto]|lia|by exists j, d|by exists j', d'].
Qed.

Lemma inv_arrive cs nc p c :
  id (request c) = request_id nc → rank (at_phase c) = 0%nat →
  match at_phase c with Announcing _ | Enrolling _ => False | _ => True end →
  prompts_inv cs nc p → prompts_inv (<[nc := c]> cs) (nc + 1) p.
Proof.
  intros Hid Hr Hph [H1 H2 H3 H4 H5 H0 H6 H7 H8 H9].
  assert (Hnew : cs !! nc = None).
  { destruct (cs !! nc) as [d|] eqn:E; [|done]. destruct (H1 _ _ E). lia. }
  split; try done.
  - intros j d. destruct (decide (j = nc)) as [->|Hne];
      [rewrite lookup_insert_eq; intros [= <-]; split; [lia|done]|rewrite lookup_insert_ne by done].
    intros Hd. destruct (H1 _ _ Hd). split; [lia|done].
  - intros rid e He. destruct (H2 _ _ He) as (d & Hd & ?). exists d. rewrite lookup_insert_ne; [done|congruence].
  - intros rid m Hm. destruct (H3 _ _ Hm) as (j & d & Hd & ?). exists j, d. rewrite lookup_insert_ne; [done|congruence].
  - intros j d e. destruct (decide (j = nc)) as [->|Hne]; [|rewrite lookup_insert_ne by done; apply H5].
    rewrite lookup_insert_eq. intros [= <-] E. by rewrite E in Hr.
  - intros j d. destruct (decide (j = nc)) as [->|Hne]; [|rewrite lookup_insert_ne by done; apply H0].
    rewrite lookup_insert_eq. intros [= <-]. by destruct (at_phase c).
  - intros rid client Hc. destruct (H7 _ _ Hc) as (j & d & Hd & ?). exists j, d. rewrite lookup_insert_ne; [done|congruence].
Qed.

Lemma inv_drop cs nc p (m : gmap string PendingEntry) :
  m ⊆ requests (registry p) → prompts_inv cs nc p → prompts_inv cs nc (with_requests m p).
Proof.
  intros Hm [H1 H2 H3 H4 H5 H0 H6 H7 H8 H9].
  assert (Hnone : ∀ rid, requests (registry p) !! rid = None → m !! rid = None).
  { intros rid Hr. destruct (m !! rid) as [e|] eqn:E; [|done]. eapply lookup_weaken in E; [|done]. congruence. }
  split; try done; cbn.
  - intros rid e He. apply H2. by eapply lookup_weaken.
  - intros rid Hs. by apply Hnone, H4.
  - intros n c e Hn E. apply Hnone. by eapply H5.
Qed.
Lemma inv_remove cs nc p rid : prompts_inv cs nc p → prompts_inv cs nc (remove rid p).
Proof. apply inv_drop, delete_subseteq. Qed.

Lemma elem_fmap_snoc {A B} (f : A → B) l x y : y ∈ f <$> (l ++ [x]) ↔ y ∈ f <$> l ∨ y = f x.
Proof. rewrite fmap_app, elem_of_app. cbn. by rewrite list_elem_of_singleton. Qed.
Lemma elem_snoc {A} (l : list A) x y : y ∈ l ++ [x] ↔ y ∈ l ∨ y = x.
Proof. by rewrite elem_of_app, list_elem_of_singleton. Qed.
Lemma snoc_split {A} (l : list A) x l1 y l2 :
  l ++ [x] = l1 ++ y :: l2 → (l = l1 ∧ x = y) ∨ ∃ l3, l = l1 ++ y :: l3.
Proof.
  destruct l2 as [|z l2] using rev_ind.
  - intros [-> [= ->]]%app_inj_tail. by left.
  - rewrite app_comm_cons, app_assoc. intros [-> _]%app_inj_tail. right. eauto.
Qed.

(** A prompt is taken out of the registry and its message queued. *)
Lemma inv_post cs nc p rid e d :
  requests (registry p) !! rid = Some e → prompt_of d = rid →
  match d with AnswerPrompt _ _ client _ => client ∈ pe_owners e | _ => True end →
  prompts_inv cs nc p → prompts_inv cs nc (post [d] (remove rid p)).
Proof.
  intros He Hd Hc Hinv. assert (Hinv' := inv_remove _ _ _ rid Hinv). destruct Hinv' as [H1 H2 H3 H4 H5 H0 H6 H7 H8 H9].
  destruct (inv_requests _ _ _ Hinv _ _ He) as (c & Hn & Hrid & Hr & Ho).
  split; try done; cbn in *.
  - intros r m Hm. destruct (decide (r = rid)) as [->|Hne].
    + destruct Hm as [[-> _]|Hm]; [exists (pe_sender e), c; split_and!; [done..|lia]|]. apply H3. by right.
    + apply H3. unfold evidence in *. cbn in *. rewrite elem_fmap_snoc, Hd in Hm. naive_solver.
  - intros r Hs. destruct (decide (r = rid)) as [->|Hne]; [by rewrite lookup_delete_eq|]. apply H4.
    unfold settled in *. cbn in *. rewrite elem_fmap_snoc, Hd in Hs. naive_solver.
  - rewrite fmap_app, <-app_assoc. cbn. rewrite Hd. apply (NoDup_Permutation_proper _ _ (Permutation_middle _ _ _)).
    constructor; [|done]. rewrite elem_of_app. intros Hin. assert (Hs : settled p rid) by (destruct Hin; unfold settled; auto).
    apply (inv_settled _ _ _ Hinv) in Hs. congruence.
  - intros r client Hcl. setoid_rewrite elem_snoc in Hcl. destruct Hcl as [(ch & resp & [Hin|<-])|Hin]; [apply H7; by eauto| |apply H7; by auto].
    cbn in *. subst r. exists (pe_sender e), c. rewrite <-Ho. split_and!; [done..|lia].
Qed.

(** An event of call [n] is emitted. *)
Lemma inv_emit cs nc p n c e :
  cs !! n = Some c →
  match e with
  | Requested => rank (at_phase c) = 2%nat ∧ request_id n ∉ (events p).*1
  | Cancelled => (1 ≤ rank (at_phase c))%nat ∧ requests (registry p) !! request_id n = None
  | Delivered => rank (at_phase c) = 5%nat ∧ (request_id n, Delivered) ∉ events p
  | Persistence => rank (at_phase c) = 5%nat
  end → prompts_inv cs nc p → prompts_inv cs nc (emit (request_id n) e p).
Proof.
  intros Hn He [H1 H2 H3 H4 H5 H0 H6 H7 H8 H9]. split; try done; cbn in *.
  - intros r m Hm. unfold evidence in Hm. cbn in Hm. rewrite elem_fmap_snoc, !elem_snoc in Hm.
    destruct (decide (evidence p r m)) as [Hold|Hnew]; [by apply H3|]. exists n, c. unfold evidence in Hnew.
    destruct e; naive_solver lia.
  - intros r Hs. unfold settled in Hs. cbn in Hs. rewrite elem_snoc in Hs.
    destruct Hs as [Hs|[Hs|[Hs|Hs]]]; [apply H4; unfold settled; auto..|]. injection Hs as -> <-. apply He.
  - intros l1 r l2 E. apply snoc_split in E as [[<- [= <- ->]]|[l3 E]]; [apply He|by eapply H8].
  - intros l1 r l2 E. apply snoc_split in E as [[<- [= <- ->]]|[l3 E]]; [apply He|by eapply H9].
Qed.

(** A queued message is sent. *)
Lemma outbox_split i p d :
  outbox p !! i = Some d → outbox p ≡ₚ d :: outbox (drop_outbox i p).
Proof. intros Hi. cbn. rewrite <-(delete_Permutation _ _ _ Hi). done. Qed.

Lemma inv_drop_outbox cs nc p i d :
  outbox p !! i = Some d → prompts_inv cs nc p → prompts_inv cs nc (drop_outbox i p).
Proof.
  intros Hi [H1 H2 H3 H4 H5 H0 H6 H7 H8 H9]. assert (Hp := outbox_split _ _ _ Hi).
  assert (Hin : ∀ x, x ∈ prompt_of <$> outbox (drop_outbox i p) → x ∈ prompt_of <$> outbox p)
    by (intros x Hx; rewrite Hp; by right).
  split; try done.
  - intros r m Hm. apply H3. unfold evidence in *. cbn in *. naive_solver.
  - intros r Hs. apply H4. unfold settled in *. cbn in *. naive_solver.
  - rewrite Hp in H6. cbn in H6. by apply NoDup_cons in H6 as [_ H6].
  - intros r client Hc. apply H7. destruct Hc as [(ch & resp & Hc)|Hc]; [left; exists ch, resp; rewrite Hp; by right|by right].
Qed.

Lemma inv_log_answer cs nc p i rid ch client response :
  outbox p !! i = Some (AnswerPrompt rid ch client response) →
  prompts_inv cs nc p → prompts_inv cs nc (log_answer rid client (drop_outbox i p)).
Proof.
  intros Hi Hinv. assert (Hp := outbox_split _ _ _ Hi). assert (Hinv' := inv_drop_outbox _ _ _ _ _ Hi Hinv).
  assert (Hout : AnswerPrompt rid ch client response ∈ outbox p) by (rewrite Hp; left).
  assert (Hrid : rid ∈ prompt_of <$> outbox p) by (apply list_elem_of_fmap; by eexists (AnswerPrompt _ _ _ _)).
  destruct Hinv' as [H1 H2 H3 H4 H5 H0 H6 H7 H8 H9]. split; try done; cbn in *.
  - intros r m Hm. destruct (decide (r = rid)) as [->|Hne].
    + destruct Hm as [[-> _]|Hm]; [apply (inv_evidence _ _ _ Hinv); left; auto|apply H3; by right].
    + apply H3. unfold evidence in *. cbn in *. rewrite elem_fmap_snoc in Hm. cbn in Hm. naive_solver.
  - intros r Hs. destruct (decide (r = rid)) as [->|Hne]; [apply (inv_settled _ _ _ Hinv); by left|].
    apply H4. unfold settled in *. cbn in *. rewrite elem_fmap_snoc in Hs. cbn in Hs. naive_solver.
  - assert (Hnd := inv_once _ _ _ Hinv). rewrite Hp in Hnd. cbn in Hnd. rewrite fmap_app, app_assoc. cbn.
    by rewrite <-Permutation_cons_append.
  - intros r cl [Hc|Hc]; [by apply H7; left|]. apply elem_snoc in Hc as [Hc|[= -> ->]]; [by apply H7; right|].
    apply (inv_asked _ _ _ Hinv). left. by exists ch, response.
Qed.

(** The call registers its prompt. *)
Lemma inv_register cs nc p n c c' r :
  cs !! n = Some c → rank (at_phase c) = 0%nat → at_phase c' = Publishing → id (request c') = id (request c) →
  asked c' = asked c → prompts_inv cs nc p →
  prompts_inv (<[n := c']> cs) nc
    (with_requests (<[request_id n := {| pe_request := r; pe_owners := asked c; pe_sender := n |}]> (requests (registry p))) p).
Proof.
  intros Hn Hr Hph Hid Hask Hinv.
  assert (Hfree : ∀ m, (1 ≤ m)%nat → ¬ ∃ j d, cs !! j = Some d ∧ request_id n = request_id j ∧ (m ≤ rank (at_phase d))%nat).
  { intros m Hm (j & d & Hj & E & Hd). apply (inj request_id) in E as <-. simplify_eq. lia. }
  assert (Hmove : prompts_inv (<[n := c']> cs) nc p).
  { apply (inv_move cs nc p n c); try done; [by right|rewrite Hph; cbn; lia| |by rewrite Hph].
    intros _. destruct (requests (registry p) !! request_id n) as [e|] eqn:E; [|done].
    destruct (inv_requests _ _ _ Hinv _ _ E) as (d & Hd & Hi & Hd' & _). destruct (Hfree 1%nat); [lia|].
    exists (pe_sender e), d. split_and!; [done..|lia]. }
  assert (Hno : ∀ m, evidence p (request_id n) m → False).
  { intros m Hm. apply (Hfree m); [unfold evidence in Hm; lia|]. by apply (inv_evidence _ _ _ Hinv). }
  destruct Hmove as [H1 H2 H3 H4 H5 H0 H6 H7 H8 H9]. split; try done; cbn in *.
  - intros rid e. destruct (decide (rid = request_id n)) as [->|Hne].
    + rewrite lookup_insert_eq. intros [= <-]. exists c'. rewrite lookup_insert_eq. cbn. rewrite Hph. cbn.
      split_and!; [done..|lia|lia|done].
    + rewrite lookup_insert_ne by done. apply H2.
  - intros rid Hs. destruct (decide (rid = request_id n)) as [->|Hne]; [|rewrite lookup_insert_ne by done; by apply H4].
    exfalso. apply (Hno 1%nat). left. split; [done|]. destruct Hs as [?|[?|Hs]]; [auto..|]. do 2 right.
    apply list_elem_of_fmap. by exists (request_id n, Cancelled).
  - intros j d e Hj E. destruct (decide (j = n)) as [->|Hne].
    + rewrite lookup_insert_eq in Hj. simplify_eq. congruence.
    + rewrite lookup_insert_ne; [by eapply H5|]. intros [= ?%(inj request_id)]. done.
Qed.

(** ** Prompts: the operations *)

Definition agent_inv (a : Agent) : Prop := prompts_inv (calls a) (next_call a) (prompts a).

(** What else changes does not matter. *)
Definition same_agent (a a' : Agent) : Prop :=
  calls a' = calls a ∧ next_call a' = next_call a ∧ same_prompts (prompts a) (prompts a').
Lemma same_agent_inv a a' : same_agent a a' → agent_inv a → agent_inv a'.
Proof. intros (Hc & Hn & Hp). unfold agent_inv. rewrite Hc, Hn. by apply inv_same. Qed.
Lemma same_agent_refl a : same_agent a a.
Proof. by split_and!. Qed.
Lemma same_agent_trans a1 a2 a3 : same_agent a1 a2 → same_agent a2 a3 → same_agent a1 a3.
Proof. unfold same_agent, same_prompts. intros H1 H2. destruct_and!. split_and!; congruence. Qed.

Definition set_phase (c : call) (ph : phase) : call :=
  {| request := request c; original := original c; connection := connection c; asked := asked c; at_phase := ph |}.
Lemma alter_Some {V} (f : V → V) n (m : gmap N V) v : m !! n = Some v → alter f n m = <[n := f v]> m.
Proof. intros Hn. apply map_eq. intros j. destruct (decide (j = n)) as [->|];
  [by rewrite lookup_alter_eq, lookup_insert_eq, Hn|by rewrite lookup_alter_ne, lookup_insert_ne]. Qed.

Lemma entry_rank a n c e :
  agent_inv a → calls a !! n = Some c → requests (registry (prompts a)) !! request_id n = Some e →
  (1 ≤ rank (at_phase c) ≤ 2)%nat.
Proof.
  intros Hinv Hn He. destruct (inv_requests _ _ _ Hinv _ _ He) as (d & Hd & E & Hr & _).
  apply (inj request_id) in E. rewrite <-E in Hd. by simplify_eq.
Qed.

(** A call reaches another phase; its record may change before its prompt is registered. *)
Lemma move_call a a' n c c' :
  calls a !! n = Some c → calls a' = <[n := c']> (calls a) → next_call a' = next_call a →
  same_prompts (prompts a) (prompts a') → id (request c') = id (request c) →
  (rank (at_phase c) = 0%nat ∨ asked c' = asked c) → (rank (at_phase c) ≤ rank (at_phase c'))%nat →
  ((rank (at_phase c') ≤ 2)%nat ∧ is_retiring (at_phase c') = false ∨
   ¬ (1 ≤ rank (at_phase c) ≤ 2)%nat ∨ requests (registry (prompts a)) !! request_id n = None) →
  match at_phase c' with Announcing owners | Enrolling owners => asked c' = list_to_set owners | _ => True end →
  agent_inv a → agent_inv a'.
Proof.
  intros Hn Hc Hnc Hp Hid Hask Hr Hcond Hown Hinv. unfold agent_inv. rewrite Hc, Hnc. eapply inv_same; [done|].
  eapply inv_move; try done. intros Hgo. destruct (requests _ !! _) as [e|] eqn:He; [|done].
  assert (Hrank := entry_rank a n c e Hinv Hn He).
  destruct Hcond as [[Hle Hret]|[Hn12|?]]; [|done..]. destruct Hgo as [?|Hgo]; [lia|congruence].
Qed.

Lemma to_phase_inv a a' n c ph :
  calls a !! n = Some c → same_agent a a' → (rank (at_phase c) ≤ rank ph)%nat →
  ((rank ph ≤ 2)%nat ∧ is_retiring ph = false ∨
   ¬ (1 ≤ rank (at_phase c) ≤ 2)%nat ∨ requests (registry (prompts a)) !! request_id n = None) →
  match ph with Announcing owners | Enrolling owners => asked c = list_to_set owners | _ => True end →
  agent_inv a → agent_inv (to_phase n ph a').
Proof.
  intros Hn (Hc & Hnc & Hp) Hr Hcond Hown. apply (move_call a _ n c (set_phase c ph)); try done; [|by right].
  cbn. rewrite Hc. by rewrite (alter_Some _ n _ c).
Qed.

Lemma find_by_key_Some key p rid ch :
  find_by_key key p = Some (rid, ch) → ∃ e, requests (registry p) !! rid = Some e ∧ pe_sender e = ch.
Proof.
  unfold find_by_key. destruct (find_first _ _) as [[r e]|] eqn:E; [|done]. intros [= <- <-]. exists e. split; [|done].
  apply find_first_Some in E as (l1 & l2 & Hl & _). apply elem_of_map_to_list. rewrite Hl. set_solver.
Qed.
Lemma same_send cs ch response p : same_prompts p (send cs ch response p).
Proof. unfold send. by destruct (receiver_alive cs ch). Qed.
Lemma same_emit rid e p p' : same_prompts p p' → same_prompts (emit rid e p) (emit rid e p').
Proof. intros (Hr & Ho & He & Ha). split_and!; cbn; congruence. Qed.

(** A prompt removed by its key, its message queued or sent at once. *)
Lemma queue_cancel_inv cs nc p key :
  prompts_inv cs nc p → prompts_inv cs nc (queue_cancel (remove_by_key key p).1 (remove_by_key key p).2).
Proof.
  intros Hinv. unfold remove_by_key. destruct (find_by_key key p) as [[rid ch]|] eqn:E; [|done]. cbn.
  apply find_by_key_Some in E as (e & He & <-). by eapply inv_post.
Qed.
Lemma cancel_by_key_inv key a : agent_inv a → agent_inv (cancel_by_key key a).
Proof.
  unfold agent_inv, cancel_by_key. intros Hinv%(queue_cancel_inv _ _ _ key). by destruct (remove_by_key key (prompts a)).
Qed.
Lemma cancel_connection_inv path a : agent_inv a → agent_inv (cancel_connection path a).
Proof.
  intros Hinv. unfold cancel_connection. set (a0 := with_raised _ a). assert (Ha : agent_inv a0) by done.
  clearbody a0. generalize ((λ ie, rq_key (pe_request ie.2)) <$>
    List.filter (λ ie, bool_decide (connection_path (pe_request ie.2) = path)) (map_to_list (requests (registry (prompts a))))).
  intros l. revert a0 Ha. induction l as [|key l IH]; intros a0 Ha; [done|]. cbn. by apply IH, cancel_by_key_inv.
Qed.

Lemma drain_inv cs nc p (l : list (string * PendingEntry)) :
  NoDup l.*1 → (∀ rid e, (rid, e) ∈ l → requests (registry p) !! rid = Some e) → prompts_inv cs nc p →
  ∃ m, prompts_inv cs nc (post ((λ ie, CancelPrompt ie.1 (pe_sender ie.2)) <$> l) (with_requests m p)).
Proof.
  revert p. induction l as [|[rid e] l IH]; intros p Hnd Hl Hinv.
  { exists (requests (registry p)). eapply inv_same; [|done]. split_and!; cbn; [done| |done..]. by rewrite app_nil_r. }
  apply NoDup_cons in Hnd as [Hrid Hnd].
  destruct (IH (post [CancelPrompt rid (pe_sender e)] (remove rid p))) as [m Hm]; [done| | |].
  - intros r e' Hin. cbn. rewrite lookup_delete_ne; [apply Hl; by right|]. intros <-. apply Hrid.
    apply list_elem_of_fmap. by exists (rid, e').
  - eapply inv_post; [apply Hl; by left|done..].
  - exists m. eapply inv_same; [|exact Hm]. split_and!; cbn; [done| |done..]. by rewrite <-app_assoc.
Qed.
Lemma owner_changed_inv o a : agent_inv a → agent_inv (owner_changed o a).
Proof.
  intros Hinv. destruct (drain_inv _ _ _ (map_to_list (requests (registry (prompts a)))) (NoDup_fst_map_to_list _)
    (λ rid e, proj1 (elem_of_map_to_list _ _ _)) Hinv) as [m Hm].
  apply (inv_drop _ _ _ ∅) in Hm; [|apply map_empty_subseteq]. eapply inv_same; [|exact Hm]. by split_and!.
Qed.

Lemma answer_inv client rid response a : agent_inv a → agent_inv (answer client rid response a).
Proof.
  intros Hinv. unfold answer. destruct (requests _ !! rid) as [e|] eqn:He; [|done].
  case_bool_decide; [|done]. destruct (request_live _ a); [|by apply inv_remove]. by eapply inv_post.
Qed.

Lemma deliver_inv i a : agent_inv a → agent_inv (deliver i a).
Proof.
  intros Hinv. unfold deliver. destruct (outbox (prompts a) !! i) as [d|] eqn:Hi; [|done].
  assert (Hin : prompt_of d ∈ prompt_of <$> outbox (prompts a)) by (by eapply list_elem_of_fmap_2, list_elem_of_lookup_2).
  destruct d as [rid ch|rid ch client response]; unfold agent_inv; cbn in *.
  - eapply inv_same; [apply same_emit, same_send|].
    destruct (inv_evidence _ _ _ Hinv rid 1%nat) as (n & c & Hn & -> & Hr); [left; auto|].
    eapply inv_emit; [done| |by eapply inv_drop_outbox]. split; [done|]. apply (inv_settled _ _ _ Hinv). by left.
  - destruct (receiver_alive _ _) eqn:E.
    + eapply inv_same; [|by eapply inv_log_answer]. unfold send. rewrite E. by split_and!.
    + eapply inv_same; [apply same_send|]. by eapply inv_drop_outbox.
Qed.

Lemma same_live r a : same_agent a (ensure_delivery_live r a).2.
Proof.
  unfold ensure_delivery_live. destruct (ensure_request_owner r a); [|apply same_agent_refl].
  destruct (_ <=? _)%N; [|by destruct (negb _); apply same_agent_refl].
  unfold stop_request. by destruct (rq_activation r).
Qed.
Lemma when_live_inv r a fail k :
  (∀ e a', same_agent a a' → agent_inv (fail e a')) → (∀ a', same_agent a a' → agent_inv (k a')) →
  agent_inv (when_live r a fail k).
Proof.
  intros Hf Hk. unfold when_live. assert (Hs := same_live r a).
  destruct (ensure_delivery_live r a) as [[u|e] a']; [by apply Hk|by apply Hf].
Qed.
Lemma same_drop_guard c a a' : same_agent a a' → same_agent a (drop_guard c a').
Proof. unfold drop_guard. by destruct (rq_activation _). Qed.
Lemma same_release c a a' : same_agent a a' → same_agent a (release_scope c a').
Proof. unfold release_scope. by destruct (rq_activation _). Qed.
Lemma same_handoff h a a' : same_agent a a' → same_agent a (with_handoff h a').
Proof. done. Qed.
Lemma same_saves s a a' : same_agent a a' → same_agent a (with_saves s a').
Proof. done. Qed.
Lemma same_scopes w a a' : same_agent a a' → same_agent a (with_scopes w a').
Proof. done. Qed.
Lemma same_raised f a a' : same_agent a a' → same_agent a (with_raised f a').
Proof. done. Qed.

(** A step of call [n] that only moves it on. *)
Ltac forward :=
  eapply to_phase_inv; [eassumption| | | | |eassumption];
  [repeat first [assumption|apply same_agent_refl|apply same_drop_guard|apply same_release|apply same_handoff|
                 apply same_saves|apply same_scopes|apply same_raised]
  |match goal with H : at_phase _ = _ |- _ => rewrite H; cbn; lia end
  |match goal with H : at_phase _ = _ |- _ => rewrite H; cbn; solve [left; split; [lia|done]|right; left; lia] end
  |try exact I].

Lemma bind_request_calls n c owner p a :
  calls a !! n = Some c →
  ∃ r, calls (bind_request n c owner p a) = <[n := {| request := r; original := original c;
    connection := connection c; asked := asked c; at_phase := at_phase c |}]> (calls a) ∧ id r = id (request c) ∧
  setting_name r = setting_name (request c) ∧ connection_path r = connection_path (request c) ∧
  next_call (bind_request n c owner p a) = next_call a ∧ prompts (bind_request n c owner p a) = prompts a.
Proof.
  intros Hn. unfold bind_request. cbn. destruct (Activation.find _ _ _) as [w scope]. cbn.
  eexists. by rewrite (alter_Some _ n _ c).
Qed.

Lemma register_inflight_inv n c a :
  agent_inv a → calls a !! n = Some c → at_phase c = Registering → agent_inv (register_inflight n c a).
Proof.
  intros Hinv Hn Hph. unfold register_inflight. destruct (negb _); [unfold finish; forward|].
  unfold remove_by_key. destruct (find_by_key _ _) as [[rid ch]|] eqn:E; cbn -[to_phase]; [|forward; by split_and!].
  apply find_by_key_Some in E as (e & He & <-).
  set (p := emit rid Cancelled (send (calls a) (pe_sender e) cancelled_response (remove rid (prompts a)))).
  assert (Hp : prompts_inv (calls a) (next_call a) p).
  { destruct (inv_requests _ _ _ Hinv _ _ He) as (d & Hd & -> & Hr & _). unfold p.
    eapply inv_same; [apply same_emit, same_send|]. eapply inv_emit; [done| |by apply inv_remove].
    cbn. rewrite lookup_delete_eq. split; [lia|done]. }
  apply (to_phase_inv (with_prompts p a) _ n c); [done|by split_and!|by rewrite Hph|left; by split; [cbn; lia|]|done|done].
Qed.

Lemma register_pending_inv n c owners a :
  agent_inv a → calls a !! n = Some c → at_phase c = Enrolling owners →
  agent_inv (register_pending n (request c) owners a).
Proof.
  intros Hinv Hn Hph. unfold register_pending. destruct (negb _); [forward|]. destruct (flag_raised _ _); [forward|].
  destruct (negb _); [forward|]. assert (Hq := queue_cancel_inv _ _ _ (rq_key (request c)) Hinv).
  destruct (remove_by_key _ _) as [o p]. cbn [fst snd] in Hq.
  destruct (inv_calls _ _ _ Hinv _ _ Hn) as [_ Hid]. assert (Hown := inv_owners _ _ _ Hinv _ _ Hn). rewrite Hph in Hown.
  unfold agent_inv. cbn [calls next_call prompts to_phase with_prompts with_calls]. rewrite (alter_Some _ n _ c) by done.
  eapply inv_same; [|eapply (inv_register (calls a) _ (queue_cancel o p) n c _ (request c))]; [|done|by rewrite Hph|done..].
  rewrite Hid, Hown. destruct (requests (registry p) !! _) as [e|]; destruct o as [[rid ch]|]; cbn; unfold send;
    try destruct (receiver_alive _ _); by split_and!.
Qed.

Lemma prompt_publish_inv n c a a' :
  agent_inv a → calls a !! n = Some c → at_phase c = Publishing →
  is_Some (requests (registry (prompts a)) !! request_id n) →
  a' = to_phase n Receiving (with_prompts (emit (request_id n) Requested (prompts a)) a) → agent_inv a'.
Proof.
  intros Hinv Hn Hph [e He] ->.
  assert (Hm : agent_inv (to_phase n Receiving a)) by forward.
  eapply (inv_emit _ _ _ n (set_phase c Receiving)); [|split; [done|]|exact Hm].
  { cbn. by rewrite (alter_Some _ n _ c), lookup_insert_eq. }
  assert (Hno : ∀ m, (2 ≤ m)%nat → ¬ evidence (prompts a) (request_id n) m).
  { intros m Hm2 Hev. destruct (inv_evidence _ _ _ Hinv _ _ Hev) as (j & d & Hd & E & Hr).
    apply (inj request_id) in E as <-. simplify_eq. rewrite Hph in Hr. cbn in Hr. lia. }
  intros ([r ev] & E & Hin)%list_elem_of_fmap. cbn in E. subst r. destruct ev.
  - apply (Hno 2%nat); [lia|]. right. by left.
  - assert (Hs : settled (prompts a) (request_id n)) by (unfold settled; auto).
    apply (inv_settled _ _ _ Hinv) in Hs. congruence.
  - apply (Hno 5%nat); [lia|]. do 2 right. by auto.
  - apply (Hno 5%nat); [lia|]. do 2 right. by auto.
Qed.

(** Emitting an event of the call, then moving it on. *)
Lemma emit_move_inv n c e ph a a' :
  agent_inv a → calls a !! n = Some c →
  same_agent (to_phase n ph (with_prompts (emit (request_id n) e (prompts a)) a)) a' →
  (rank (at_phase c) ≤ rank ph)%nat → (2 ≤ rank (at_phase c))%nat →
  match e with
  | Cancelled => requests (registry (prompts a)) !! request_id n = None
  | Delivered => rank (at_phase c) = 4%nat ∧ rank ph = 5%nat
  | Persistence => rank ph = 5%nat
  | Requested => False
  end → is_retiring ph = false → (rank ph ≤ 2 ∨ 2 < rank (at_phase c))%nat →
  match ph with Announcing _ | Enrolling _ => False | _ => True end → agent_inv a'.
Proof.
  intros Hinv Hn Hs Hr H2 He Hret Hle Hph. eapply same_agent_inv; [exact Hs|]. clear Hs.
  assert (Hm : agent_inv (to_phase n ph a)).
  { eapply to_phase_inv; [done|apply same_agent_refl|done| | |done]; [|by destruct ph].
    destruct Hle; [by left|right; left; lia]. }
  eapply (inv_emit _ _ _ n (set_phase c ph)); [| |exact Hm].
  { cbn. by rewrite (alter_Some _ n _ c), lookup_insert_eq. }
  destruct e; [done| | |done].
  - cbn. split; [lia|done].
  - destruct He as [Hr4 Hr5]. split; [done|]. cbn. intros Hin.
    destruct (inv_evidence _ _ _ Hinv (request_id n) 5%nat) as (j & d & Hd & E & Hr'); [do 2 right; auto|].
    apply (inj request_id) in E as <-. simplify_eq. lia.
Qed.

(** A step that also changes the connection or the clients asked. *)
Lemma with_connection_move n c s ph a a' :
  agent_inv a → calls a !! n = Some c → same_agent a a' → (rank (at_phase c) ≤ rank ph ≤ 2)%nat →
  match ph with Retiring _ | Announcing _ | Enrolling _ => False | _ => True end →
  agent_inv (to_phase n ph (with_connection n s a')).
Proof.
  intros Hinv Hn (Hc & Hnc & Hp) Hr Hph.
  eapply (move_call a _ n c {| request := request c; original := original c; connection := s; asked := asked c; at_phase := ph |});
    try done; [|by right|cbn; lia|left; split; [cbn; lia|by destruct ph]|by destruct ph].
  cbn. rewrite Hc, (alter_Some _ n (calls a) c) by done. rewrite (alter_Some _ n _ _ (lookup_insert_eq _ _ _)).
  by rewrite insert_insert_eq.
Qed.

Lemma take_stored_inv n c a :
  agent_inv a → calls a !! n = Some c → at_phase c = Taking → agent_inv (take_stored n c a).
Proof.
  intros Hinv Hn Hph. unfold take_stored. destruct (SecretSession.take _ _ _ _) as [vs h].
  destruct (apply_stored_values _ _ _) as [[s b]|e]; [|forward].
  eapply with_connection_move; [done..|by apply same_handoff, same_agent_refl|rewrite Hph; cbn; lia|done].
Qed.
Lemma apply_answer_inv n c response a :
  agent_inv a → calls a !! n = Some c → at_phase c = Applying response → agent_inv (apply_answer n c response a).
Proof.
  intros Hinv Hn Hph. unfold apply_answer.
  set (a' := if rs_cancelled response then _ else a).
  assert (Hs : same_agent a a')
    by (unfold a', stop_request; destruct (rs_cancelled _); [destruct (rq_activation _)|]; by split_and!).
  destruct (apply_secret_response _ _ _) as [[s vs]|e]; [|forward].
  eapply with_connection_move; [done..|rewrite Hph; cbn; lia|done].
Qed.
Lemma subscribe_inv n c a :
  agent_inv a → calls a !! n = Some c → at_phase c = Subscribing →
  agent_inv (to_phase n (Announcing (subscribers a)) (with_asked n (list_to_set (subscribers a)) a)).
Proof.
  intros Hinv Hn Hph.
  eapply (move_call a _ n c {| request := request c; original := original c; connection := connection c;
    asked := list_to_set (subscribers a); at_phase := Announcing (subscribers a) |}); try done;
    try (left; by rewrite Hph); try (rewrite Hph; cbn; lia); try (left; by split; [cbn; lia|]).
  cbn. rewrite (alter_Some _ n (calls a) c) by done. rewrite (alter_Some _ n _ _ (lookup_insert_eq _ _ _)).
  by rewrite insert_insert_eq.
Qed.
Lemma bind_request_inv n c owner p a :
  agent_inv a → calls a !! n = Some c → at_phase c = Preparing owner →
  agent_inv (to_phase n Registering (bind_request n c owner p a)).
Proof.
  intros Hinv Hn Hph. destruct (bind_request_calls n c owner p a Hn) as (r & Hc & Hid & _ & _ & Hnc & Hp).
  eapply (move_call a _ n c {| request := r; original := original c; connection := connection c;
    asked := asked c; at_phase := Registering |}); try done;
    try (by right); try (rewrite Hph; cbn; lia); try (left; by split; [cbn; lia|]).
  - cbn. rewrite Hc, (alter_Some _ n _ _ (lookup_insert_eq _ _ _)). by rewrite insert_insert_eq.
  - cbn. by rewrite Hp.
Qed.
Lemma leave_inflight_inv n c res a :
  agent_inv a → calls a !! n = Some c → at_phase c = Leaving res → agent_inv (leave_inflight n c res a).
Proof.
  intros Hinv Hn Hph. unfold leave_inflight.
  set (a' := with_prompts (if bool_decide _ then _ else _) a).
  assert (Hs : same_agent a a') by (unfold a'; case_bool_decide; by split_and!). clearbody a'.
  destruct res; [forward|unfold finish; forward].
Qed.
Lemma receive_inv n c a :
  agent_inv a → calls a !! n = Some c → at_phase c = Waiting → agent_inv (receive n a).
Proof.
  intros Hinv Hn Hph. unfold receive.
  destruct (mailboxes _ !! n) as [[|response l]|]; [|forward; by split_and!|]; destruct (has_sender _ _); forward.
Qed.

Lemma same_finish n c e a : same_agent (to_phase n (Ended (Err e)) a) (finish n c e a).
Proof. unfold finish, release_scope, drop_guard. by destruct (rq_activation _). Qed.
Lemma same_settle n t c a : same_agent (to_phase n (Ended (Ok tt)) a) (settle n t c a).
Proof. unfold settle, release_scope. destruct t; [|done]. by destruct (rq_activation _). Qed.

Lemma remove_move_inv n c ph a :
  agent_inv a → calls a !! n = Some c → (rank (at_phase c) ≤ rank ph)%nat →
  match ph with Announcing _ | Enrolling _ => False | _ => True end →
  agent_inv (to_phase n ph (with_prompts (remove (request_id n) (prompts a)) a)).
Proof.
  intros Hinv Hn Hr Hph.
  apply (to_phase_inv (with_prompts (remove (request_id n) (prompts a)) a) _ n c); [done|apply same_agent_refl|done| |by destruct ph|].
  - do 2 right. cbn. by rewrite lookup_delete_eq.
  - by apply inv_remove.
Qed.

Lemma advance_inv outcome expired n c a :
  agent_inv a → calls a !! n = Some c → agent_inv (advance outcome expired n c a).
Proof.
  intros Hinv Hn. destruct (inv_calls _ _ _ Hinv _ _ Hn) as [_ Hid]. unfold_advance. rewrite !Hid.
  destruct (at_phase c) eqn:Hph; try solve [apply when_live_inv; intros; forward].
  - destruct (authorize _ _); forward.
  - destruct (request_policy _ _); [by apply bind_request_inv|forward].
  - by apply register_inflight_inv.
  - apply when_live_inv; intros; [forward|]. destruct (_ =? _)%N; forward.
  - forward.
  - by apply take_stored_inv.
  - apply when_live_inv; intros; [forward|]. destruct complete; [forward|]. destruct (_ =? _)%N; forward.
  - by eapply subscribe_inv.
  - apply when_live_inv; intros; [forward|]. destruct (rq_activation _), (negb _); forward;
      by assert (Hown := inv_owners _ _ _ Hinv _ _ Hn); rewrite Hph in Hown.
  - by apply register_pending_inv.
  - apply when_live_inv; intros; destruct registered0; forward.
  - case_bool_decide; [|forward]. destruct (request_live _ _); [|forward]. by eapply prompt_publish_inv.
  - by eapply receive_inv.
  - apply (remove_move_inv n c); [done|done|rewrite Hph; cbn; lia|done].
  - eapply (emit_move_inv n c Cancelled); try done; try apply same_agent_refl; try (rewrite Hph; cbn; lia).
    by eapply inv_retiring.
  - by apply apply_answer_inv.
  - apply (remove_move_inv n c); [done|done|rewrite Hph; cbn; lia|done].
  - by apply leave_inflight_inv.
  - apply when_live_inv; intros; [forward|]. unfold reply. destruct save; forward.
  - eapply (emit_move_inv n c Cancelled); try apply same_finish; try done; try (rewrite Hph; cbn; lia).
    destruct (requests _ !! _) eqn:E; [|done]. eapply entry_rank in E; [|done..]. rewrite Hph in E. cbn in E. lia.
  - destruct (ensure_secret_owner _ _); [|unfold settle; destruct save; forward].
    destruct save; (eapply (emit_move_inv n c Delivered); [done|done|..]);
      try apply same_settle; try apply same_agent_refl; try done; rewrite Hph; cbn; lia.
  - destruct (_ <? _)%nat; forward.
  - destruct (writer _); [destruct expired; [forward|done]|forward].
  - destruct (_ && _); forward.
  - forward.
  - eapply (emit_move_inv n c Persistence); [done|done|apply same_settle|..]; try done; rewrite Hph; cbn; lia.
  - done.
Qed.

Lemma apply_op_inv o a : agent_inv a → agent_inv (apply_op o a).
Proof.
  intros Hinv. destruct o; cbn; try done.
  - by apply inv_arrive.
  - destruct (calls a !! n) eqn:E; [by apply advance_inv|done].
  - by apply owner_changed_inv.
  - by apply cancel_by_key_inv.
  - destruct (is_ok _); [by apply cancel_connection_inv|done].
  - by apply answer_inv.
  - by apply deliver_inv.
Qed.
Lemma agent_initial_inv : agent_inv initial_agent.
Proof.
  split; cbn; try done.
  - intros rid m Hm. exfalso. unfold evidence in Hm. cbn in Hm. set_solver.
  - constructor.
  - intros rid client [(ch & r & H)|H]; by apply elem_of_nil in H.
  - by intros [|? ?].
  - by intros [|? ?].
Qed.
Lemma agent_reachable_inv ops : agent_inv (run_ops ops initial_agent).
Proof.
  unfold run_ops. induction ops as [|o ops IH] using rev_ind; [apply agent_initial_inv|].
  rewrite foldl_app. by apply apply_op_inv.
Qed.

(** C22. The protocol of a secret prompt: in every run of the agent, that is under every
    interleaving of requests, cancellations, deletions, owner changes, answers and time, the
    request to prompt is the first event of its request, so that no prompt is shown after
    its cancellation; a prompt in the registry has not been cancelled; at most one answer
    reaches a request, from a client that was subscribed when the request was made; and
    secrets are reported delivered at most once. *)
Theorem prompt_protocol ops :
  let p := prompts (run_ops ops initial_agent) in
  (∀ l1 rid l2, events p = l1 ++ (rid, Requested) :: l2 → rid ∉ l1.*1) ∧
  (∀ rid, is_Some (requests (registry p) !! rid) → (rid, Cancelled) ∉ events p) ∧
  NoDup (answers p).*1 ∧
  (∀ rid client, (rid, client) ∈ answers p → ∃ n c, calls (run_ops ops initial_agent) !! n = Some c ∧
    id (request c) = rid ∧ client ∈ asked c) ∧
  (∀ l1 rid l2, events p = l1 ++ (rid, Delivered) :: l2 → (rid, Delivered) ∉ l1).
Proof.
  assert (Hinv := agent_reachable_inv ops). cbn. split_and!.
  - by apply (inv_first _ _ _ Hinv).
  - intros rid [e He] Hc. rewrite (inv_settled _ _ _ Hinv) in He; [done|]. unfold settled. auto.
  - assert (Hnd := inv_once _ _ _ Hinv). by apply NoDup_app in Hnd as (_ & _ & Hnd).
  - intros rid client Hin. destruct (inv_asked _ _ _ Hinv rid client (or_intror Hin)) as (n & c & Hn & -> & Hcl & _).
    exists n, c. split_and!; [done| |done]. by apply (inv_calls _ _ _ Hinv).
  - by apply (inv_delivered _ _ _ Hinv).
Qed.

(** ** Replies: the invariant *)

(** The phases in which the connection is complete. *)
Definition complete (ph : phase) : bool :=
  match ph with
  | Checked b => b
  | Closing (Ok _) | Leaving (Ok _) | Delivering _ | Replied _ | Queued _ | Permitted _ | Writing _ | Saving _
  | Reporting _ | Ended (Ok _) => true
  | _ => false
  end.

(** The connection is NetworkManager's, but for the secrets of the requested setting. *)
Definition faithful (c : call) : Prop := rewritten (setting_name (request c)) (original c) (connection c).
Definition good (c : call) : Prop :=
  faithful c ∧ (complete (at_phase c) = true → request_values_complete (request c) (connection c) = true).
Definition all_good (cs : gmap N call) : Prop := map_Forall (λ _ c, good c) cs.

Lemma good_put n c cs : all_good cs → good c → all_good (<[n := c]> cs).
Proof. intros Hall Hc. by apply map_Forall_insert_2. Qed.
Lemma good_to_phase a a' n c ph :
  calls a !! n = Some c → calls a' = calls a → (complete ph = true → complete (at_phase c) = true) →
  all_good (calls a) → all_good (calls (to_phase n ph a')).
Proof.
  intros Hn Hc Hph Hall. cbn. rewrite Hc, (alter_Some _ n _ c) by done. apply good_put; [done|].
  destruct (Hall _ _ Hn) as [Hf Hg]. split; [done|]. cbn. intros H. by apply Hg, Hph.
Qed.
Lemma good_record n c s ph a a' :
  calls a !! n = Some c → calls a' = calls a → all_good (calls a) →
  good {| request := request c; original := original c; connection := s; asked := asked c; at_phase := ph |} →
  all_good (calls (to_phase n ph (with_connection n s a'))).
Proof.
  intros Hn Hc Hall Hg. cbn. rewrite Hc, (alter_Some _ n (calls a) c) by done.
  rewrite (alter_Some _ n _ _ (lookup_insert_eq _ _ _)), insert_insert_eq. by apply good_put.
Qed.

Ltac calls_same :=
  unfold finish, settle, release_scope, drop_guard, stop_request;
  repeat match goal with
  | |- context [match rq_activation ?r with _ => _ end] => destruct (rq_activation r)
  | H : same_agent _ _ |- _ => destruct H as (H & _)
  end; cbn; first [done|assumption].
(** A step of call [n] that keeps its connection. *)
Ltac good_forward :=
  eapply good_to_phase; [eassumption|calls_same|
    match goal with H : at_phase _ = _ |- _ => rewrite H; cbn; done end|eassumption].
Lemma when_live_calls (P : gmap N call → Prop) r a fail k :
  (∀ e a', same_agent a a' → P (calls (fail e a'))) → (∀ a', same_agent a a' → P (calls (k a'))) →
  P (calls (when_live r a fail k)).
Proof.
  intros Hf Hk. unfold when_live. assert (Hs := same_live r a).
  destruct (ensure_delivery_live r a) as [[u|e] a']; [by apply Hk|by apply Hf].
Qed.

Lemma advance_good outcome expired n c a :
  calls a !! n = Some c → all_good (calls a) → all_good (calls (advance outcome expired n c a)).
Proof.
  intros Hn Hall. destruct (Hall _ _ Hn) as [Hf Hg]. unfold_advance.
  destruct (at_phase c) eqn:Hph; try solve [apply when_live_calls; intros; good_forward]; try good_forward.
  - destruct (authorize _ _); good_forward.
  - destruct (request_policy _ _); [|good_forward].
    destruct (bind_request_calls n c owner a0 a Hn) as (r & Hc & _ & Hs & _). cbn. rewrite Hc.
    rewrite (alter_Some _ n _ _ (lookup_insert_eq _ _ _)), insert_insert_eq. apply good_put; [done|].
    split; [|done]. unfold faithful in *. cbn. by rewrite Hs.
  - unfold register_inflight. destruct (negb _); [good_forward|]. destruct (remove_by_key _ _) as [[[rid ch]|] p]; good_forward.
  - apply when_live_calls; intros; [good_forward|]. destruct (_ =? _)%N; good_forward.
  - unfold take_stored. destruct (SecretSession.take _ _ _ _) as [vs h].
    destruct (apply_stored_values _ _ _) as [[t b]|e] eqn:E; [|good_forward].
    unfold apply_stored_values in E. unbind_all. simplify_eq.
    eapply good_record; [done..|]. split; [|done]. unfold faithful in *. cbn. etrans; [done|by eapply fill_missing_rewritten].
  - apply when_live_calls; intros; [good_forward|]. destruct complete0; [good_forward|]. destruct (_ =? _)%N; good_forward.
  - cbn. rewrite (alter_Some _ n (calls a) c) by done.
    rewrite (alter_Some _ n _ _ (lookup_insert_eq _ _ _)), insert_insert_eq. apply good_put; [done|]. by split.
  - apply when_live_calls; intros; [good_forward|]. destruct (negb _); good_forward.
  - unfold register_pending. destruct (negb _); [good_forward|]. destruct (flag_raised _ _); [good_forward|].
    destruct (negb _); [good_forward|]. destruct (remove_by_key _ _) as [o p]. good_forward.
  - apply when_live_calls; intros; destruct registered0; good_forward.
  - destruct (_ && _); good_forward.
  - unfold receive. destruct (mailboxes _ !! n) as [[|response l]|]; [|good_forward|]; destruct (has_sender _ _); good_forward.
  - unfold apply_answer. set (a' := if rs_cancelled response then _ else a).
    assert (Hs : calls a' = calls a)
      by (unfold a', stop_request; destruct (rs_cancelled _); [destruct (rq_activation _)|]; done). clearbody a'.
    destruct (apply_secret_response _ _ _) as [[t vs]|e] eqn:E; [|good_forward].
    unfold apply_secret_response in E. unbind_all. simplify_eq.
    match goal with H : result_map_err _ ?x = Ok _ |- _ => destruct x eqn:Happly; [injection H as ->|done] end.
    eapply good_record; [done..|]. split; [|done]. unfold faithful in *. cbn. etrans; [done|by eapply response_rewritten].
  - unfold leave_inflight. destruct (bool_decide _), res; good_forward.
  - apply when_live_calls; intros; [good_forward|]. unfold reply. destruct save; good_forward.
  - destruct (ensure_secret_owner _ _); destruct save; good_forward.
  - destruct (_ <? _)%nat; good_forward.
  - destruct (writer _); [destruct expired; [good_forward|done]|good_forward].
  - destruct (_ && _); good_forward.
  - done.
Qed.

(** ** Replies: the step that replies *)

Definition replied (ph : phase) : bool :=
  match ph with
  | Replied _ | Queued _ | Permitted _ | Writing _ | Saving _ | Reporting _ | Ended (Ok _) => true
  | _ => false
  end.

Lemma to_phase_at n ph a c : calls (to_phase n ph a) !! n = Some c → at_phase c = ph.
Proof. cbn. rewrite lookup_alter_eq. destruct (calls a !! n); [|done]. by intros [= <-]. Qed.

(** [advance] leaves the other calls alone. *)
Definition others_same (n : N) (a a' : Agent) : Prop := ∀ j, j ≠ n → calls a' !! j = calls a !! j.
Lemma others_to_phase n ph a a' : others_same n a a' → others_same n a (to_phase n ph a').
Proof. intros H j Hj. cbn. rewrite lookup_alter_ne by done. by apply H. Qed.
Lemma others_connection n s a a' : others_same n a a' → others_same n a (with_connection n s a').
Proof. intros H j Hj. cbn. rewrite lookup_alter_ne by done. by apply H. Qed.
Lemma others_asked n s a a' : others_same n a a' → others_same n a (with_asked n s a').
Proof. intros H j Hj. cbn. rewrite lookup_alter_ne by done. by apply H. Qed.
Lemma others_request n r a a' : others_same n a a' → others_same n a (with_request n r a').
Proof. intros H j Hj. cbn. rewrite lookup_alter_ne by done. by apply H. Qed.
Lemma others_calls n a a' : calls a' = calls a → others_same n a a'.
Proof. by intros H j _; rewrite H. Qed.
Lemma when_live_others n r a fail k :
  (∀ e a', same_agent a a' → others_same n a (fail e a')) → (∀ a', same_agent a a' → others_same n a (k a')) →
  others_same n a (when_live r a fail k).
Proof.
  intros Hf Hk. unfold when_live. assert (Hs := same_live r a).
  destruct (ensure_delivery_live r a) as [[u|e] a']; [by apply Hk|by apply Hf].
Qed.

Ltac others :=
  repeat first [apply others_to_phase|apply others_connection|apply others_asked|apply others_request];
  apply others_calls; calls_same.
Lemma advance_others outcome expired n c a :
  calls a !! n = Some c → others_same n a (advance outcome expired n c a).
Proof.
  intros Hn. unfold_advance.
  destruct (at_phase c) eqn:Hph; try (apply when_live_others; intros);
    unfold bind_request, register_inflight, take_stored, register_pending, receive, apply_answer, leave_inflight, reply, settle;
    repeat (solve [others] || match goal with |- context [match ?x with _ => _ end] => destruct x end).
Qed.

Lemma live_facts r a u :
  (ensure_delivery_live r a).1 = Ok u →
  flag_raised r a = false ∧ reg_owner (registry (prompts a)) = nm_owner r ∧ (now a < rq_deadline r)%N ∧ scope_live r a = true.
Proof.
  unfold ensure_delivery_live, ensure_request_owner, ensure_secret_owner, is_current_owner. cbn.
  destruct (flag_raised r a); cbn; [done|]. case_bool_decide; cbn; [|done].
  destruct (_ <=? _)%N eqn:E; cbn; [done|]. apply N.leb_gt in E. destruct (scope_live r a); cbn; [|done]. done.
Qed.

Lemma advance_replied outcome expired n c a c' :
  calls a !! n = Some c → replied (at_phase c) = false →
  calls (advance outcome expired n c a) !! n = Some c' → replied (at_phase c') = true →
  (∃ vs, at_phase c = Delivering vs) ∧ (ensure_delivery_live (request c) a).1 = Ok tt ∧
  request c' = request c ∧ original c' = original c ∧ connection c' = connection c.
Proof.
  intros Hn Hr. unfold_advance.
  destruct (at_phase c) eqn:Hph; try done; try (unfold when_live; assert (Hs := same_live (request c) a);
    destruct (ensure_delivery_live (request c) a) as [[[]|e'] a']; cbn [fst snd] in *);
    unfold bind_request, register_inflight, take_stored, register_pending, receive, apply_answer, leave_inflight, finish, reply;
    repeat match goal with
    | |- context [calls (match ?x with _ => _ end)] => destruct x
    | |- context [at_phase] => intros Hc'; apply to_phase_at in Hc' as Hph'; rewrite Hph'; cbn; intros Hrep; try done
    end.
  - by destruct (_ =? _)%N.
  - by destruct registered0.
  - by destruct registered0.
  - split; [by eexists|]. split; [done|]. revert Hc'. destruct Hs as (Hc & _).
    unfold drop_guard. destruct (rq_activation _); cbn; rewrite lookup_alter_eq, Hc, Hn; by intros [= <-].
  - split; [by eexists|]. split; [done|]. revert Hc'. destruct Hs as (Hc & _).
    unfold drop_guard, release_scope. destruct (rq_activation _); cbn; rewrite lookup_alter_eq, Hc, Hn; by intros [= <-].
  - intros Hc'. simplify_eq. rewrite Hph. congruence.
  - intros Hc'. simplify_eq. rewrite Hph. congruence.
Qed.

Lemma cancel_connection_calls path a : calls (cancel_connection path a) = calls a.
Proof.
  unfold cancel_connection. match goal with |- calls (foldl _ ?a0 ?l) = _ => generalize l; intros l';
    change (calls a) with (calls a0); generalize a0; clear end.
  induction l' as [|key l IH]; intros a0; [done|]. cbn. rewrite IH. unfold cancel_by_key. by destruct (remove_by_key _ _).
Qed.

Lemma cancel_connection_saves path a : saves (cancel_connection path a) = saves a.
Proof.
  unfold cancel_connection. match goal with |- saves (foldl _ ?a0 ?l) = _ => generalize l; intros l';
    change (saves a) with (saves a0); generalize a0; clear end.
  induction l' as [|key l IH]; intros a0; [done|]. cbn. rewrite IH. unfold cancel_by_key. by destruct (remove_by_key _ _).
Qed.

(** Only its own steps change a call. *)
Lemma apply_op_call o a n :
  agent_inv a → is_Some (calls a !! n) →
  calls (apply_op o a) !! n = calls a !! n ∨ ∃ outcome expired, o = Advance outcome expired n.
Proof.
  intros Hinv [c Hn]. destruct o; cbn; auto.
  - left. rewrite lookup_insert_ne; [done|]. destruct (inv_calls _ _ _ Hinv _ _ Hn). lia.
  - destruct (calls a !! n0) as [d|] eqn:E; [|by left]. destruct (decide (n0 = n)) as [->|Hne]; [right; eauto|].
    left. by apply (advance_others _ _ _ _ _ E).
  - left. unfold cancel_by_key. by destruct (remove_by_key _ _).
  - left. destruct (is_ok _); [by rewrite cancel_connection_calls|done].
  - left. unfold answer. destruct (requests _ !! _); [|done]. by case_bool_decide.
  - left. unfold deliver. by destruct (outbox _ !! _).
Qed.

Lemma apply_op_good o a : agent_inv a → all_good (calls a) → all_good (calls (apply_op o a)).
Proof.
  intros Hinv Hall. destruct o; cbn; try done.
  - apply good_put; [done|]. split; [|done]. unfold faithful. cbn. reflexivity.
  - destruct (calls a !! n) eqn:E; [by apply advance_good|done].
  - unfold cancel_by_key. by destruct (remove_by_key _ _).
  - destruct (is_ok _); [|done]. by rewrite cancel_connection_calls.
  - unfold answer. destruct (requests _ !! _); [|done]. by case_bool_decide.
  - unfold deliver. by destruct (outbox _ !! _).
Qed.
Lemma reachable_good ops : all_good (calls (run_ops ops initial_agent)).
Proof.
  unfold run_ops. induction ops as [|o ops IH] using rev_ind; [apply map_Forall_empty|].
  rewrite foldl_app. apply apply_op_good; [apply agent_reachable_inv|done].
Qed.

(** C23. Secrets are returned fresh and complete: the step in which a call replies to
    NetworkManager happens only while the request is not cancelled, its owner is the current
    one, its time has not run out and its activation is live; the connection it returns has
    a value for every requested secret and is otherwise the one NetworkManager sent. *)
Theorem reply_fresh ops o n c c' :
  let a := run_ops ops initial_agent in
  calls a !! n = Some c → replied (at_phase c) = false →
  calls (apply_op o a) !! n = Some c' → replied (at_phase c') = true →
  flag_raised (request c') a = false ∧ reg_owner (registry (prompts a)) = nm_owner (request c') ∧
  (now a < rq_deadline (request c'))%N ∧ scope_live (request c') a = true ∧
  Forall (λ k, ∃ v, text (connection c') (setting_name (request c')) k = Some v ∧ v ≠ "") (secret_keys (request c')) ∧
  rewritten (setting_name (request c')) (original c') (connection c').
Proof.
  intros a Hn Hr Hn' Hr'. assert (Hinv := agent_reachable_inv ops : agent_inv a).
  assert (Hgood := reachable_good ops : all_good (calls a)).
  assert (Hgood' := apply_op_good o a Hinv Hgood _ _ Hn'). destruct Hgood' as [Hf Hg].
  destruct (apply_op_call o a n Hinv) as [E|(outcome & expired & ->)]; [by rewrite Hn| |].
  { rewrite E in Hn'. congruence. }
  cbn in Hn'. rewrite Hn in Hn'. destruct (advance_replied _ _ _ _ _ _ Hn Hr Hn' Hr') as (_ & Hl & Hreq & _).
  apply live_facts in Hl as (H1 & H2 & H3 & H4). rewrite Hreq. split_and!; try done; rewrite <-Hreq; [|done].
  apply Forall_forall. intros k Hk. assert (Hc : complete (at_phase c') = true) by (by destruct (at_phase c') as [| | | | | | | | | | | | | | | | | | | | | | | | | | | | |[]]).
  assert (Hp : secret_value_present (request c') (connection c') k = true)
    by (eapply forallb_forall; [by apply Hg|by apply list_elem_of_In]).
  unfold secret_value_present in *. destruct (text _ _ k) as [v|]; [|done]. exists v. split; [done|].
  intros ->. by rewrite bool_decide_true in *.
Qed.

(** ** Tickets *)

(** A save that may still run has its own ticket, invalidated or registered under the
    path of its profile. *)
Definition tickets_inv (cs : gmap N call) (s : Saves) : Prop :=
  ∀ n c t, cs !! n = Some c → ticket_of (at_phase c) = Some t →
    t = n ∧ (n ∈ voided s ∨ n ∈ unwrap_or (tickets s !! connection_path (request c)) []).
Definition tickets_ok (a : Agent) : Prop := tickets_inv (calls a) (saves a).

Lemma alive_ticket cs n c t : cs !! n = Some c → ticket_of (at_phase c) = Some t → t = n → ticket_alive cs n = true.
Proof. intros Hn Ht ->. unfold ticket_alive. rewrite Hn. by rewrite bool_decide_true. Qed.

Lemma invalidate_inv cs s path : tickets_inv cs s → tickets_inv cs (invalidate cs path s).
Proof.
  intros Hok n c t Hn Ht. destruct (Hok n c t Hn Ht) as [Hnt Hin]. split; [done|]. cbn.
  destruct Hin as [Hv|Hin]; [left; set_solver|]. destruct (decide (connection_path (request c) = path)) as [<-|Hne].
  - left. apply elem_of_union_l, elem_of_list_to_set, list_elem_of_In, List.filter_In.
    split; [by apply list_elem_of_In|]. by eapply alive_ticket.
  - right. by rewrite lookup_delete_ne.
Qed.
Lemma invalidate_voids cs s path n c t :
  tickets_inv cs s → cs !! n = Some c → ticket_of (at_phase c) = Some t → connection_path (request c) = path →
  n ∈ voided (invalidate cs path s).
Proof.
  intros Hok Hn Ht Hp. destruct (invalidate_inv cs s path Hok n c t Hn Ht) as [_ [Hv|Hin]]; [done|].
  cbn in Hin. rewrite Hp, lookup_delete_eq in Hin. by apply elem_of_nil in Hin.
Qed.

Lemma alive_lookup cs (m : gmap string (list N)) path n :
  ticket_alive cs n = true → n ∈ unwrap_or (m !! path) [] →
  n ∈ unwrap_or (omap (λ l, let l := List.filter (ticket_alive cs) l in
                            if bool_decide (l = []) then None else Some l) m !! path) [].
Proof.
  intros Ha Hin. rewrite lookup_omap. destruct (m !! path) as [l|]; cbn in *; [|done].
  assert (Hf : n ∈ List.filter (ticket_alive cs) l).
  { apply list_elem_of_In, List.filter_In. split; [by apply list_elem_of_In|done]. }
  case_bool_decide as E; [rewrite E in Hf; by apply elem_of_nil in Hf|done].
Qed.
Lemma register_ticket_inv cs s n c c' :
  tickets_inv cs s → cs !! n = Some c → connection_path (request c') = connection_path (request c) →
  ticket_of (at_phase c') = Some n →
  tickets_inv (<[n := c']> cs) (register_ticket cs (connection_path (request c)) n s).
Proof.
  intros Hok Hn Hp Hc' j d t Hj Ht. cbn. destruct (decide (j = n)) as [->|Hne].
  - rewrite lookup_insert_eq in Hj. simplify_eq. split; [done|]. right. rewrite Hp, lookup_insert_eq. cbn. set_solver.
  - rewrite lookup_insert_ne in Hj by done. destruct (Hok j d t Hj Ht) as [Hjt [Hv|Hin]]; (split; [done|]); [by left|right].
    assert (Ha := alive_ticket _ _ _ _ Hj Ht Hjt).
    destruct (decide (connection_path (request d) = connection_path (request c))) as [E|Hpath].
    + rewrite E in *. rewrite lookup_insert_eq. cbn. apply elem_of_app. left. by apply alive_lookup.
    + rewrite lookup_insert_ne by done. by apply alive_lookup.
Qed.

Lemma tickets_put cs s s' n c c' :
  tickets_inv cs s → cs !! n = Some c → tickets s' = tickets s → voided s' = voided s →
  connection_path (request c') = connection_path (request c) →
  (∀ t, ticket_of (at_phase c') = Some t → ticket_of (at_phase c) = Some t) →
  tickets_inv (<[n := c']> cs) s'.
Proof.
  intros Hok Hn Ht Hv Hp Hph j d t Hj Hd. rewrite Ht, Hv. destruct (decide (j = n)) as [->|Hne].
  - rewrite lookup_insert_eq in Hj. simplify_eq. rewrite Hp. eapply Hok; [done|]. by apply Hph.
  - rewrite lookup_insert_ne in Hj by done. by eapply Hok.
Qed.
Lemma tickets_to_phase a a' n c ph :
  calls a !! n = Some c → calls a' = calls a → tickets (saves a') = tickets (saves a) →
  voided (saves a') = voided (saves a) → (∀ t, ticket_of ph = Some t → ticket_of (at_phase c) = Some t) →
  tickets_ok a → tickets_ok (to_phase n ph a').
Proof.
  intros Hn Hc Ht Hv Hph Hok. unfold tickets_ok. cbn. rewrite Hc, (alter_Some _ n _ c) by done. by eapply tickets_put.
Qed.

Lemma live_saves r a : saves (ensure_delivery_live r a).2 = saves a.
Proof.
  unfold ensure_delivery_live. destruct (ensure_request_owner r a); [|done].
  destruct (_ <=? _)%N; [|by destruct (negb _)]. unfold stop_request. by destruct (rq_activation r).
Qed.
Lemma when_live_tickets r a fail k :
  (∀ e a', calls a' = calls a → saves a' = saves a → tickets_ok (fail e a')) →
  (∀ a', calls a' = calls a → saves a' = saves a → tickets_ok (k a')) →
  tickets_ok (when_live r a fail k).
Proof.
  intros Hf Hk. unfold when_live. destruct (same_live r a) as (Hc & _). assert (Hs := live_saves r a).
  destruct (ensure_delivery_live r a) as [[u|e] a']; [by apply Hk|by apply Hf].
Qed.

Ltac saves_same :=
  unfold finish, settle, release_scope, drop_guard, stop_request;
  repeat match goal with
  | |- context [match rq_activation ?r with _ => _ end] => destruct (rq_activation r)
  | H : saves _ = saves _ |- _ => rewrite H; clear H
  end; cbn; first [done|assumption|congruence].
Ltac tickets_forward :=
  eapply tickets_to_phase; [eassumption|calls_same|saves_same|saves_same|
    match goal with H : at_phase _ = _ |- _ => rewrite H; cbn; solve [done|intros ? [= <-]; done] end|eassumption].

Lemma tickets_record n c t ph a a' :
  calls a !! n = Some c → calls a' = calls a → saves a' = saves a → tickets_ok a → ticket_of ph = None →
  tickets_ok (to_phase n ph (with_connection n t a')).
Proof.
  intros Hn Hc Hs Hok Hph. unfold tickets_ok. cbn. rewrite Hc, Hs, (alter_Some _ n (calls a) c) by done.
  rewrite (alter_Some _ n _ _ (lookup_insert_eq _ _ _)), insert_insert_eq. eapply tickets_put; [done..|].
  cbn. by rewrite Hph.
Qed.

Lemma advance_tickets outcome expired n c a :
  calls a !! n = Some c → tickets_ok a → tickets_ok (advance outcome expired n c a).
Proof.
  intros Hn Hok. unfold_advance.
  destruct (at_phase c) eqn:Hph; try (apply when_live_tickets; intros);
    unfold register_inflight, register_pending, receive, leave_inflight, reply, settle;
    repeat (solve [tickets_forward|assumption] || match goal with |- context [match ?x with _ => _ end] =>
      lazymatch x with context [bind_request] => fail | _ => destruct x end end).
  - destruct (bind_request_calls n c owner a0 a Hn) as (r & Hc & _ & _ & Hpath & _). unfold tickets_ok. cbn. rewrite Hc.
    rewrite (alter_Some _ n _ _ (lookup_insert_eq _ _ _)), insert_insert_eq.
    assert (Hs : saves (bind_request n c owner a0 a) = invalidate (calls a) (connection_path (request c)) (saves a))
      by (unfold bind_request; cbn; by destruct (Activation.find _ _ _)).
    rewrite Hs. eapply tickets_put; [by apply invalidate_inv|done..].
  - unfold take_stored. destruct (SecretSession.take _ _ _ _) as [vs h].
    destruct (apply_stored_values _ _ _) as [[t b]|e]; [|tickets_forward]. by eapply tickets_record.
  - unfold tickets_ok. cbn. rewrite (alter_Some _ n (calls a) c) by done.
    rewrite (alter_Some _ n _ _ (lookup_insert_eq _ _ _)), insert_insert_eq. by eapply tickets_put.
  - unfold apply_answer. set (a' := if rs_cancelled response then _ else a).
    assert (calls a' = calls a ∧ saves a' = saves a) as [Hc Hs]
      by (unfold a', stop_request; destruct (rs_cancelled _); [destruct (rq_activation _)|]; done). clearbody a'.
    destruct (apply_secret_response _ _ _) as [[t vs]|e]; [|tickets_forward]. by eapply tickets_record.
  - assert (calls (drop_guard c a') = calls a ∧ saves (drop_guard c a') = saves a) as [Hc Hs]
      by (unfold drop_guard; by destruct (rq_activation _)).
    unfold tickets_ok. cbn. rewrite Hc, Hs, (alter_Some _ n _ c) by done. by apply register_ticket_inv.
Qed.

Lemma apply_op_tickets o a : agent_inv a → tickets_ok a → tickets_ok (apply_op o a).
Proof.
  intros Hinv Hok. destruct o; try done; cbn.
  - intros j d t Hj Ht. cbn in Hj. destruct (decide (j = next_call a)) as [->|Hne];
      [rewrite lookup_insert_eq in Hj; by simplify_eq|rewrite lookup_insert_ne in Hj by done; by eapply Hok].
  - destruct (calls a !! n) eqn:E; [by apply advance_tickets|done].
  - by apply invalidate_inv.
  - unfold cancel_by_key. by destruct (remove_by_key _ _).
  - destruct (is_ok _); [|done]. unfold tickets_ok. by rewrite cancel_connection_calls, cancel_connection_saves.
  - unfold answer. destruct (requests _ !! _); [|done]. by case_bool_decide.
  - unfold deliver. by destruct (outbox _ !! _).
Qed.
Lemma reachable_tickets ops : tickets_ok (run_ops ops initial_agent).
Proof.
  unfold run_ops. induction ops as [|o ops IH] using rev_ind; [done|].
  rewrite foldl_app. apply apply_op_tickets; [apply agent_reachable_inv|done].
Qed.

(** A save whose ticket was invalidated before it ran. *)
Definition doomed (n : N) (a : Agent) : Prop :=
  n ∈ voided (saves a) ∧ ∃ c, calls a !! n = Some c ∧
    match at_phase c with
    | Replied (Some t) | Queued t | Permitted t | Writing t => t = n
    | Reporting _ | Ended _ => True
    | _ => False
    end.

Lemma advance_voided outcome expired n c a : voided (saves a) ⊆ voided (saves (advance outcome expired n c a)).
Proof.
  assert (Hsame : ∀ a', saves a' = saves a → voided (saves a) ⊆ voided (saves a')) by (by intros a' ->).
  unfold_advance. destruct (at_phase c) eqn:Hph;
    try (unfold when_live; assert (Hs := live_saves (request c) a);
         destruct (ensure_delivery_live (request c) a) as [[[]|e'] a']; cbn [fst snd] in *);
    unfold bind_request, register_inflight, take_stored, register_pending, receive, apply_answer, leave_inflight,
      finish, reply, settle, release_scope, drop_guard, stop_request;
    repeat (solve [apply Hsame; cbn; assumption || reflexivity|cbn; set_solver]
            || match goal with |- context [match ?x with _ => _ end] => destruct x end).
Qed.

Lemma advance_doomed outcome expired n c a :
  calls a !! n = Some c → doomed n a → doomed n (advance outcome expired n c a).
Proof.
  intros Hn (Hv & c0 & Hc0 & Hph0). simplify_eq. split; [by apply advance_voided|].
  assert (Hgo : ∀ a' ph, calls a' = calls a → ∃ c', calls (to_phase n ph a') !! n = Some c' ∧ at_phase c' = ph).
  { intros a' ph Hc. exists (set_phase c ph). cbn. rewrite Hc, (alter_Some _ n _ c) by done. by rewrite lookup_insert_eq. }
  unfold_advance. destruct (at_phase c) eqn:Hph; try done; try (destruct save as [t|]; [|done]); subst;
    unfold settle, release_scope; rewrite ?bool_decide_false by (intros Hnot; by apply Hnot); cbn [andb];
    repeat match goal with |- context [calls (match ?x with _ => _ end)] => destruct x end;
    try (destruct (rq_activation _));
    try (match goal with |- context [to_phase n ?ph ?a'] => destruct (Hgo a' ph eq_refl) as (c' & Hc' & Hp') end;
         exists c'; rewrite Hp'; done); by exists c; rewrite Hph.
Qed.

Lemma apply_op_voided o a : voided (saves a) ⊆ voided (saves (apply_op o a)).
Proof.
  destruct o; cbn; try done.
  - destruct (calls a !! n); [apply advance_voided|done].
  - set_solver.
  - unfold cancel_by_key. by destruct (remove_by_key _ _).
  - destruct (is_ok _); [by rewrite cancel_connection_saves|done].
  - unfold answer. destruct (requests _ !! _); [|done]. by case_bool_decide.
  - unfold deliver. by destruct (outbox _ !! _).
Qed.
Lemma apply_op_doomed o n a : agent_inv a → doomed n a → doomed n (apply_op o a).
Proof.
  intros Hinv Hd. destruct Hd as (Hv & c & Hc & Hph) eqn:E. clear E.
  destruct (apply_op_call o a n Hinv) as [E|(outcome & expired & ->)]; [by rewrite Hc|..].
  - split; [by apply apply_op_voided|]. exists c. by rewrite E.
  - cbn. rewrite Hc. by apply advance_doomed.
Qed.

(** C24. A deleted or replaced credential is not saved afterwards: once the saves of a
    profile are invalidated (NetworkManager deletes or cancels its secrets, or asks for new
    ones), a save of that profile that has not started yet never starts, whatever happens
    later. *)
Theorem invalidated_save_never_runs ops1 ops2 path n c t :
  let a := run_ops ops1 initial_agent in
  calls a !! n = Some c → connection_path (request c) = path → ticket_of (at_phase c) = Some t →
  at_phase c ≠ Saving t →
  ∃ c', calls (run_ops (Invalidate path :: ops2) a) !! n = Some c' ∧ ∀ t', at_phase c' ≠ Saving t'.
Proof.
  intros a Hn Hp Ht Hs. assert (Hinv : agent_inv (apply_op (Invalidate path) a)) by apply apply_op_inv, agent_reachable_inv.
  assert (Hd : doomed n (apply_op (Invalidate path) a)).
  { destruct (reachable_tickets ops1 n c t Hn Ht) as [-> _]. split.
    - cbn. eapply invalidate_voids; [apply (reachable_tickets ops1)|done..].
    - exists c. split; [done|]. destruct (at_phase c) as [| | | | | | | | | | | | | | | | | | | | | | |[]| | | | | |];
        cbn in Ht; simplify_eq; done. }
  change (run_ops (Invalidate path :: ops2) a) with (run_ops ops2 (apply_op (Invalidate path) a)).
  revert Hinv Hd. generalize (apply_op (Invalidate path) a). clear -request_id_inj. unfold run_ops.
  induction ops2 as [|o ops IH]; intros a0 Hinv Hd.
  - destruct Hd as (_ & d & Hc & Hph). exists d. split; [done|]. intros t' E. by rewrite E in Hph.
  - cbn. apply IH; [by apply apply_op_inv|by apply apply_op_doomed].
Qed.
End Agent.

(** ** A run *)

Definition secret_id (n : N) : string := "secret-" +:+ pretty n.
#[local] Instance secret_id_inj : Inj (=) (=) secret_id.
Proof. intros a b H. unfold secret_id in H. by apply (inj _), (inj pretty) in H. Qed.

Definition wpa_connection : ConnectionSettings :=
  {[ "802-11-wireless-security" := {[ "key-mgmt" := VStr "wpa-psk" ]} ]}.
Definition wpa_answer : SecretResponse :=
  {| rs_password := Some "synthetic"; rs_values := ∅; rs_save := true; rs_cancelled := false |}.
Definition steps (k : nat) : list op := replicate k (Advance true false 0).

(** NetworkManager [:1.7] asks for a key, the client [:2.1] supplies it. *)
Definition prompt_ops : list op :=
  [BusOwner (Some ":1.7"); OwnerChanged (Some ":1.7"); Subscribe [":2.1"];
   Arrive ":1.7" "/1" "802-11-wireless-security" [] 1 wpa_connection] ++ steps 11 ++
  [Answer ":2.1" "secret-0" wpa_answer; Deliver 0] ++ steps 5.
Definition prompt_run (ops : list op) : Agent := run_ops (from_secs 120) secret_id ops initial_agent.

Lemma prompt_protocol_witness :
  events (prompts (prompt_run prompt_ops)) = [("secret-0", Requested)] ∧
  answers (prompts (prompt_run prompt_ops)) = [("secret-0", ":2.1")] ∧
  NoDup (answers (prompts (prompt_run prompt_ops))).*1.
Proof.
  split_and!; [by vm_compute|by vm_compute|]. apply (prompt_protocol (from_secs 120) secret_id prompt_ops).
Defined.

Definition call_is (f : phase → bool) (ops : list op) : bool :=
  match calls (prompt_run ops) !! 0%N with Some c => f (at_phase c) | None => false end.
Lemma call_is_Some f ops : call_is f ops = true → ∃ c, calls (prompt_run ops) !! 0%N = Some c ∧ f (at_phase c) = true.
Proof. unfold call_is. destruct (calls _ !! _) as [c|]; [eauto|done]. Qed.

#[local] Opaque run_ops.
Lemma prompt_snoc l o : prompt_run (l ++ [o]) = apply_op (from_secs 120) secret_id o (prompt_run l).
Proof. apply run_snoc. Qed.

Lemma reply_fresh_witness :
  ∃ c', calls (prompt_run (prompt_ops ++ [Advance true false 0])) !! 0%N = Some c' ∧ replied (at_phase c') = true ∧
    reg_owner (registry (prompts (prompt_run prompt_ops))) = nm_owner (request c').
Proof.
  destruct (call_is_Some (λ ph, negb (replied ph)) prompt_ops) as (c & Hc & Hr); [by vm_compute|].
  destruct (call_is_Some replied (prompt_ops ++ [Advance true false 0])) as (c' & Hc' & Hr'); [by vm_compute|].
  exists c'. split_and!; [exact Hc'|exact Hr'|]. apply negb_true_iff in Hr. rewrite prompt_snoc in Hc'.
  exact (proj1 (proj2 (reply_fresh (from_secs 120) secret_id prompt_ops (Advance true false 0) 0 c c' Hc Hr Hc' Hr'))).
Defined.

Definition waiting_save : list op := prompt_ops ++ [Advance true false 0].
Lemma invalidated_save_never_runs_witness :
  ∃ c', calls (run_ops (from_secs 120) secret_id (Invalidate "/1" :: steps 6) (prompt_run waiting_save)) !! 0%N = Some c' ∧
    ∀ t, at_phase c' ≠ Saving t.
Proof.
  assert (Hp : match calls (prompt_run waiting_save) !! 0%N with
    | Some c => bool_decide (connection_path (request c) = "/1") && bool_decide (ticket_of (at_phase c) = Some 0%N)
                && negb match at_phase c with Saving _ => true | _ => false end
    | None => false end = true) by by vm_compute.
  destruct (calls (prompt_run waiting_save) !! 0%N) as [c|] eqn:Hc; [|done].
  apply andb_prop in Hp as [Hp Hs]. apply andb_prop in Hp as [Hp Ht].
  apply bool_decide_eq_true in Hp. apply bool_decide_eq_true in Ht.
  apply (invalidated_save_never_runs (from_secs 120) secret_id waiting_save (steps 6) "/1" 0 c 0 Hc Hp Ht).
  intros E. by rewrite E in Hs.
Defined.
