(* ===== verification/SecretWatch.v ===== *)
(** * Registration of the secret agent ([src/daemon_secret/lifecycle.rs])

    The agent registers with whoever owns NetworkManager's bus name. The watcher wakes for
    owner signals, ticks and the end of a registration in flight, reads the current owner,
    and adopts a new one before anything else. [accepted] logs the owners that accepted a
    registration, by the number of the watcher's adoption of an owner: an owner that goes
    and returns is another adoption. *)
From S2P Require Import Prelude Errors.
From Stdlib Require Import ZArith Lia.
From stdpp Require Import prelude strings list.

Definition RETRY : duration := from_secs 2.

Record Watcher := {
  w_owner : option string;
  registration : option string;
  retry_at : instant;
  nm_owner : option string;
  registered : bool;
  adoption : nat;
  accepted : list (nat * string);
}.

Definition initial_watcher : Watcher := {|
  w_owner := None; registration := None; retry_at := 0; nm_owner := None; registered := false;
  adoption := 0; accepted := [] |}.

(** What the agent's registry keeps of [change_network_manager_owner]. *)
Definition change_owner (o : option string) (w : Watcher) : Watcher := {|
  w_owner := w_owner w; registration := registration w; retry_at := retry_at w; nm_owner := o;
  registered := false; adoption := S (adoption w); accepted := accepted w |}.

Definition registration_finished (owner : option string) (result : result bool Error) (w : Watcher) : Watcher :=
  match result with
  | Ok _ => {|
      w_owner := w_owner w; registration := registration w; retry_at := retry_at w; nm_owner := nm_owner w;
      registered := registered w || bool_decide (nm_owner w = owner); adoption := adoption w;
      accepted := accepted w |}
  | Err _ => w
  end.

Definition with_watch (o : option string) (r : option string) (t : instant) (w : Watcher) : Watcher := {|
  w_owner := o; registration := r; retry_at := t; nm_owner := nm_owner w; registered := registered w;
  adoption := adoption w; accepted := accepted w |}.
Definition log_accepted (o : string) (w : Watcher) : Watcher := {|
  w_owner := w_owner w; registration := registration w; retry_at := retry_at w; nm_owner := nm_owner w;
  registered := registered w; adoption := adoption w; accepted := accepted w ++ [(adoption w, o)] |}.

(** A registration starts when an owner is known, none is in flight, the agent is not
    registered and the retry time has come. *)
Definition start_registration (now : instant) (w : Watcher) : Watcher :=
  match w_owner w with
  | Some o =>
    if bool_decide (registration w = None) && negb (registered w) && (retry_at w <=? now)%N
    then with_watch (Some o) (Some o) (retry_at w) w else w
  | None => w
  end.

(** One round of the loop: [completed] is the result of the registration in flight when
    that woke the watcher, [current] the owner it reads. *)
Definition round (completed : option (result bool Error)) (current : option string) (now : instant)
    (w : Watcher) : Watcher :=
  let w := match completed with
           | Some _ => with_watch (w_owner w) None (retry_at w) w
           | None => w
           end in
  let w := if negb (bool_decide (current = w_owner w))
           then with_watch current None now (change_owner current w)
           else match completed with
                | Some result =>
                  let w := registration_finished (w_owner w) result w in
                  with_watch (w_owner w) (registration w) (now + RETRY)%N w
                | None => w
                end in
  start_registration now w.

(** The loop ends with an error: the owner is forgotten and the watch starts again. *)
Definition restart (now : instant) (w : Watcher) : Watcher := with_watch None None now (change_owner None w).

(** [register_for_owner]: [first] is the answer to [RegisterWithCapabilities] ([None] when
    the method is unknown), [second] the answer to [Register]. *)
Definition register_for_owner (first : option (result unit Error)) (second : result unit Error) :
    result bool Error :=
  match first with
  | Some (Ok _) => Ok true
  | None => let? _ := second in Ok false
  | Some (Err e) => Err (EForeign NoDowncast "register NetworkManager SecretAgent" (Some e))
  end.

(** ** Steps *)

(** A registration ends only when one is in flight, and an accepted one was accepted by
    the owner it was sent to. *)
Inductive watch_step : Watcher → Watcher → Prop :=
| step_wake current now w : watch_step w (round None current now w)
| step_finished o r current now w : registration w = Some o →
    watch_step w (round (Some r) current now (if is_ok r then log_accepted o w else w))
| step_restart now w : watch_step w (restart now w).

Record watch_inv (w : Watcher) : Prop := {
  watch_same : nm_owner w = w_owner w;
  watch_flight o : registration w = Some o → w_owner w = Some o;
  watch_registered : registered w = true → ∃ o, w_owner w = Some o ∧ (adoption w, o) ∈ accepted w;
}.

Lemma start_inv now w : watch_inv w → watch_inv (start_registration now w).
Proof.
  intros [H1 H2 H3]. unfold start_registration. destruct (w_owner w) as [o|] eqn:E; [|by split; rewrite ?E].
  destruct (_ && _); [|by split; rewrite ?E]. split; cbn; [congruence|by intros ? [= <-]|].
  intros Hg. destruct (H3 Hg) as (o' & Ho & Hin). exists o'. split; [congruence|done].
Qed.
Lemma adopt_inv current now w : watch_inv (with_watch current None now (change_owner current w)).
Proof. by split. Qed.
Lemma landed_inv w : watch_inv w → watch_inv (with_watch (w_owner w) None (retry_at w) w).
Proof. by intros [H1 H2 H3]. Qed.

Lemma watch_step_inv w w' : watch_step w w' → watch_inv w → watch_inv w'.
Proof.
  intros [current now v|o r current now v Hr|now v] Hinv; [| |by split].
  - unfold round. apply start_inv. destruct (negb _); [apply adopt_inv|done].
  - unfold round. apply start_inv. set (v1 := if is_ok r then log_accepted o v else v).
    assert (Hw : w_owner v1 = w_owner v ∧ nm_owner v1 = nm_owner v ∧ registered v1 = registered v ∧
      adoption v1 = adoption v ∧ (is_ok r = true → (adoption v, o) ∈ accepted v1) ∧ accepted v ⊆ accepted v1).
    { unfold v1. destruct (is_ok r); cbn; split_and!; try done; set_solver. }
    clearbody v1. destruct Hw as (H1 & H2 & H3 & H4 & H5 & H6). destruct Hinv as [I1 I2 I3].
    destruct (negb _); [apply adopt_inv|]. cbn. specialize (I2 _ Hr).
    assert (Hreg : registered v1 = true → ∃ o, w_owner v1 = Some o ∧ (adoption v1, o) ∈ accepted v1).
    { rewrite H1, H3, H4. intros Hg. destruct (I3 Hg) as (o' & Ho' & Hin). exists o'. split; [done|]. by apply H6. }
    destruct r as [b|e]; cbn in *.
    + split; cbn; [congruence|done|]. intros _. exists o. rewrite H1, H4, I2. split; [done|]. by apply H5.
    + by split; cbn; [congruence|done|].
Qed.

Lemma reachable_watch w : rtc watch_step initial_watcher w → watch_inv w.
Proof.
  apply (rtc_ind_r (λ w, watch_inv w)); [by split|]. intros v v' _ Hs Hi. by eapply watch_step_inv.
Qed.

(** The agent counts as registered only with NetworkManager's present owner: whatever
    the order of owner changes, ticks, completions and failures of the watch, when the
    registered flag is set the owner the registry serves is the one the watcher adopted last,
    and that owner accepted the registration after it was adopted. *)
Theorem registered_with_owner w :
  rtc watch_step initial_watcher w → registered w = true →
  ∃ o, nm_owner w = Some o ∧ w_owner w = Some o ∧ (adoption w, o) ∈ accepted w.
Proof.
  intros [H1 H2 H3]%reachable_watch Hreg. destruct (H3 Hreg) as (o & Ho & Hin). exists o. split_and!; [congruence|done..].
Qed.

(** ** Progress *)

Lemma round_pending o now w :
  watch_inv w → (retry_at w ≤ now)%N →
  let w' := round None (Some o) now w in
  w_owner w' = Some o ∧ (registered w' = true ∨ registration w' = Some o).
Proof.
  intros [H1 H2 H3] Hn w'. unfold w', round. clear w'. cbn [with_watch].
  assert (Hstart : ∀ v, w_owner v = Some o → (retry_at v ≤ now)%N →
    (∀ x, registration v = Some x → x = o) →
    w_owner (start_registration now v) = Some o ∧
    (registered (start_registration now v) = true ∨ registration (start_registration now v) = Some o)).
  { intros v Ho Hv Hx. unfold start_registration. rewrite Ho. case_bool_decide as En; cbn.
    - destruct (registered v) eqn:Eg; cbn; [by rewrite Eg; auto|].
      assert ((retry_at v <=? now)%N = true) as -> by (by apply N.leb_le). cbn. auto.
    - destruct (registration v) as [x|]; [|done]. rewrite (Hx x eq_refl). auto. }
  case_bool_decide as E; cbn [negb].
  - apply Hstart; [done|done|]. intros x Hx. specialize (H2 _ Hx). congruence.
  - apply Hstart; cbn; [done|lia|done].
Qed.

(** Registration is retried until it succeeds: once the watcher wakes at or after its
    retry time and reads an owner, it is registered with that owner or a registration with it
    is in flight; if that one is accepted while the owner stays, the agent is registered, and
    if it fails the next attempt is at most the retry interval away. *)
Theorem registration_progress w o now1 now2 r :
  rtc watch_step initial_watcher w → (retry_at w ≤ now1)%N →
  let w1 := round None (Some o) now1 w in
  w_owner w1 = Some o ∧
  (registered w1 = true ∨
   registration w1 = Some o ∧
   let w2 := round (Some r) (Some o) now2 (if is_ok r then log_accepted o w1 else w1) in
   if is_ok r then registered w2 = true
   else w_owner w2 = Some o ∧ (retry_at w2 ≤ now2 + RETRY)%N ∧ watch_step w1 w2).
Proof.
  intros Hinv%reachable_watch Hn w1.
  assert (Hinv1 : watch_inv w1) by (eapply watch_step_inv; [apply step_wake|done]).
  assert (Hp := round_pending o now1 w Hinv Hn). cbv zeta in Hp. fold w1 in Hp.
  destruct Hp as [Ho [Hg|Hf]]; (split; [done|]); [by left|right]. split; [done|]. clearbody w1.
  destruct Hinv1 as [I1 I2 I3]. destruct r as [b|e]; cbn [is_ok].
  - unfold round. cbn. rewrite Ho, bool_decide_true by done. cbn. unfold start_registration. cbn.
    rewrite bool_decide_true by congruence. rewrite orb_true_r. done.
  - assert (Hs : watch_step w1 (round (Some (Err e)) (Some o) now2 w1)) by (by apply (step_finished o (Err e))).
    split_and!; [| |done]; unfold round; cbn; rewrite Ho, bool_decide_true by done; cbn; unfold start_registration; cbn;
      by destruct (_ && _).
Qed.

(** ** A run *)

(** The owner [:1.7] appears and accepts the registration. *)
Definition adopted : Watcher := round None (Some ":1.7") 5 initial_watcher.
Definition watched : Watcher := round (Some (Ok true)) (Some ":1.7") 6 (log_accepted ":1.7" adopted).
Lemma adopted_reachable : rtc watch_step initial_watcher adopted.
Proof. by apply rtc_once, step_wake. Qed.

Lemma registered_with_owner_witness :
  registered watched = true ∧ ∃ o, nm_owner watched = Some o ∧ (adoption watched, o) ∈ accepted watched.
Proof.
  split; [done|]. destruct (registered_with_owner watched) as (o & Ho & _ & Hin); [|done|by exists o].
  eapply rtc_r; [exact adopted_reachable|]. by apply (step_finished ":1.7" (Ok true)).
Defined.
Lemma registration_progress_witness : w_owner (round None (Some ":1.8") 9 adopted) = Some ":1.8".
Proof.
  apply (registration_progress adopted ":1.8" 9 10 (Ok true)); [exact adopted_reachable|by vm_compute].
Defined.
