(* ===== verification/ConnectWait.v ===== *)
(** * Waiting for an activation ([src/connect_wait.rs])

    After NetworkManager accepted an activation the daemon watches the device
    until the target is active, the activation failed for longer than a grace
    period, it is cancelled, its credentials are refused, or its deadline passes.
    The loop is run on the list of what each round observes; a round that reaches
    the end of its body blocks for [next_wake] before the next one. *)
From S2P Require Import Prelude Errors Text Identity Wifi Reasons Network Scan Activation.
From Stdlib Require Import ZArith Lia Ascii.
From stdpp Require Import prelude strings list pretty.

Definition ACTIVATION_TIMEOUT : duration := from_millis 90000.
Definition ACTIVATION_FAILURE_GRACE : duration := from_millis 3000.
Definition WPA_WRONG_KEY_RETRY_DELAY : duration := from_millis 10000.
Definition DURATION_MAX : duration := (2 ^ 64 * 1000000000 - 1)%N.

Definition NM_DEVICE_STATE_DISCONNECTED : u32 := 30.
Definition NM_DEVICE_STATE_ACTIVATED : u32 := 100.
Definition NM_ACTIVE_CONNECTION_STATE_ACTIVATED : u32 := 2.

(** ** Status of the device ([src/nm/mod.rs]) *)

Record WifiActivationStatus := {
  iface : string;
  device_state : u32;
  device_state_reason_codes : u32 * u32;
  active_connection_path : option string;
  active_connection_state : option u32;
}.

Definition activated (s : WifiActivationStatus) : bool :=
  (device_state s =? NM_DEVICE_STATE_ACTIVATED)%N
  && bool_decide (active_connection_state s = Some NM_ACTIVE_CONNECTION_STATE_ACTIVATED).

Definition terminal_failure_after_progress (s : WifiActivationStatus) : bool :=
  (device_state s <=? NM_DEVICE_STATE_DISCONNECTED)%N.

(** The second component of the reason pair. *)
Definition reason_code (s : WifiActivationStatus) : u32 := (device_state_reason_codes s).2.

(** ** Classification *)

(** [src/connect_error.rs]. *)
Definition target_appears_to_need_secret (t : WifiConnectTarget) : bool :=
  match t_security t with
  | Some (Wpa | Wpa2Or3 | Wep) => true
  | Some _ => false
  | None => t_hidden t
  end.

Definition requested_activation_stopped (path : option string) (state : option u32) : bool :=
  bool_decide (is_Some path) && match state with Some s => (3 <=? s)%N | None => true end.

Definition activation_failure_reason (t : WifiConnectTarget) (s : WifiActivationStatus) :
    ConnectFailureReason :=
  match reason_code s with
  | 7%N => Reason.PasswordUnavailable
  | 5%N | 6%N | 15%N | 16%N | 17%N => Reason.DhcpFailed
  | 53%N => Reason.NotFound
  | 11%N => Reason.Timeout
  | 8%N | 9%N | 10%N =>
    if target_appears_to_need_secret t then Reason.WrongPassword else Reason.ActivationFailed
  | _ => Reason.ActivationFailed
  end.

Definition timeout_failure_reason (t : WifiConnectTarget) (s : WifiActivationStatus) :
    ConnectFailureReason :=
  match activation_failure_reason t s with
  | Reason.ActivationFailed => Reason.Timeout
  | reason => reason
  end.

(** ** Messages *)

Definition target_radio_details (t : WifiConnectTarget) : string :=
  unwrap_or ((λ b, " (BSSID " +:+ bssid_str b +:+ ")") <$> t_bssid t) "".

(** [{:?}] of a pair and of an option. *)
Definition debug_pair (p : u32 * u32) : string :=
  "(" +:+ pretty p.1 +:+ ", " +:+ pretty p.2 +:+ ")".
Definition debug_option (o : option u32) : string :=
  match o with Some n => "Some(" +:+ pretty n +:+ ")" | None => "None" end.

Definition activation_failure_message (t : WifiConnectTarget) (s : WifiActivationStatus)
    (reason : ConnectFailureReason) : string :=
  let ssid := ssid_display (t_ssid t) in
  match reason with
  | Reason.WrongPassword =>
    "wrong password for " +:+ ssid +:+ target_radio_details t
    +:+ "; wpa_supplicant may ignore this AP for about "
    +:+ pretty (WPA_WRONG_KEY_RETRY_DELAY / 1000000000)%N
    +:+ " seconds before retrying is useful"
  | Reason.PasswordUnavailable =>
    "saved password unavailable for " +:+ ssid +:+ target_radio_details t
    +:+ "; NetworkManager requested secrets but no usable secret was provided"
  | Reason.DhcpFailed =>
    "connected to Wi-Fi network " +:+ ssid +:+ target_radio_details t
    +:+ " but DHCP/IP configuration failed on " +:+ iface s
  | _ =>
    "connection activation failed for " +:+ ssid +:+ target_radio_details t +:+ " on "
    +:+ iface s +:+ ": device state " +:+ pretty (device_state s) +:+ ", reason "
    +:+ debug_pair (device_state_reason_codes s) +:+ ", active connection state "
    +:+ debug_option (active_connection_state s)
  end.

Definition activation_timeout_message (t : WifiConnectTarget) (s : WifiActivationStatus)
    (reason : ConnectFailureReason) : string :=
  let ssid := ssid_display (t_ssid t) in
  match reason with
  | Reason.DhcpFailed =>
    "connected to Wi-Fi network " +:+ ssid +:+ target_radio_details t
    +:+ " but timed out waiting for DHCP/IP configuration on " +:+ iface s
  | _ =>
    "timed out waiting for " +:+ ssid +:+ target_radio_details t +:+ " to become active on "
    +:+ iface s
    +:+ "; the AP may be unreachable or signal may be weak: device state "
    +:+ pretty (device_state s) +:+ ", reason " +:+ debug_pair (device_state_reason_codes s)
    +:+ ", active connection state " +:+ debug_option (active_connection_state s)
  end.

(** [#[serde(rename_all = "kebab-case")]] on [ReasonCategory]. *)
Definition category_json (c : ReasonCategory) : json :=
  JStr match c with
       | C.None => "none" | C.UserRequested => "user-requested"
       | C.Authentication => "authentication" | C.Configuration => "configuration"
       | C.Hardware => "hardware" | C.Carrier => "carrier"
       | C.AddressAssignment => "address-assignment" | C.Service => "service"
       | C.Dependency => "dependency" | C.Lifecycle => "lifecycle" | C.Unknown => "unknown"
       end.

Definition json_u32 (n : u32) : json := JNum (Z.of_N n).

Definition activation_failed (t : WifiConnectTarget) (s : WifiActivationStatus)
    (reason : ConnectFailureReason) (m : string) : Error :=
  let typed := Reasons.device_state_reason (reason_code s) in
  let e := connect reason m in
  let e := with_detail "ssid" (JStr (ssid_display (t_ssid t))) e in
  let e := with_detail "device_iface" (JStr (iface s)) e in
  let e := with_detail "device_state" (json_u32 (device_state s)) e in
  let e := with_detail "reason" (JStr (tr_name typed)) e in
  let e := with_detail "reason_category" (category_json (tr_category typed)) e in
  let e := with_detail "reason_code" (json_u32 (tr_code typed)) e in
  let e := match active_connection_state s with
           | Some state => with_detail "active_connection_state" (json_u32 state) e
           | None => e
           end in
  EDomain match t_bssid t with
          | Some b => with_detail "bssid" (JStr (bssid_str b)) e
          | None => e
          end.

(** ** The wait *)

Record PendingFailure := { since : instant; pf_status : WifiActivationStatus }.

Record ActivationWait := {
  saw_progress : bool;
  has_current_status : bool;
  pending_failure : option PendingFailure;
  last_status : option WifiActivationStatus;
}.
Definition wait_default : ActivationWait :=
  {| saw_progress := false; has_current_status := false; pending_failure := None;
     last_status := None |}.

Definition latch_pending_failure (pending : option PendingFailure)
    (s : WifiActivationStatus) (now : instant) : PendingFailure :=
  let p := unwrap_or pending {| since := now; pf_status := s |} in
  if (reason_code (pf_status p) =? 0)%N && negb (reason_code s =? 0)%N
  then {| since := since p; pf_status := s |} else p.

(** What one round sees of the device. *)
Record Observation := {
  o_status : option WifiActivationStatus;
  o_ssid_matches : bool;
  o_requested_state : option u32;
  o_now : instant;
}.

Section Wait.
Context (target : WifiConnectTarget) (path : option string).

(** [self.saw_progress && (terminal || stopped)]. *)
Definition failing (progress : bool) (s : WifiActivationStatus) (requested : option u32) : bool :=
  progress && (terminal_failure_after_progress s || requested_activation_stopped path requested).

Definition check_terminal_failure (w : ActivationWait) (s : WifiActivationStatus)
    (requested : option u32) (now : instant) : ActivationWait * result unit Error :=
  let set p := {| saw_progress := saw_progress w; has_current_status := has_current_status w;
                  pending_failure := p; last_status := last_status w |} in
  if negb (failing (saw_progress w) s requested) then (set None, Ok tt)
  else
    let p := latch_pending_failure (pending_failure w) s now in
    (set (Some p),
     if (now - since p <? ACTIVATION_FAILURE_GRACE)%N then Ok tt
     else
       let reason := activation_failure_reason target (pf_status p) in
       Err (activation_failed target (pf_status p) reason
              (activation_failure_message target (pf_status p) reason))).

Definition observe (o : Observation) (w : ActivationWait) : ActivationWait * result bool Error :=
  match o_status o with
  | None =>
    ({| saw_progress := saw_progress w; has_current_status := false;
        pending_failure := pending_failure w; last_status := last_status w |},
     Ok (o_ssid_matches o))
  | Some s =>
    let w := {| saw_progress := saw_progress w || (30 <? device_state s)%N
                                || bool_decide (is_Some path);
                has_current_status := true; pending_failure := pending_failure w;
                last_status := last_status w |} in
    if o_ssid_matches o && activated s then (w, Ok true)
    else
      let (w, r) := check_terminal_failure w s (o_requested_state o) (o_now o) in
      match r with
      | Err e => (w, Err e)
      | Ok _ =>
        ({| saw_progress := saw_progress w; has_current_status := has_current_status w;
            pending_failure := pending_failure w; last_status := Some s |}, Ok false)
      end
  end.

Definition next_wake (w : ActivationWait) (deadline : Deadline) (now : instant) : duration :=
  let grace_wait :=
    match pending_failure w with
    | Some p =>
      let remaining := (ACTIVATION_FAILURE_GRACE - (now - since p))%N in
      if has_current_status w || negb (remaining =? 0)%N then remaining else DURATION_MAX
    | None => DURATION_MAX
    end in
  wait_at deadline now grace_wait.

Definition timeout_error (w : ActivationWait) : Error :=
  match last_status w with
  | None => connect_failure Reason.Timeout
              ("timed out waiting for " +:+ ssid_display (t_ssid target) +:+ " to become active")
  | Some s =>
    let reason := timeout_failure_reason target s in
    activation_failed target s reason (activation_timeout_message target s reason)
  end.

(** ** The loop *)

(** Requests sent to NetworkManager, best effort. *)
Inductive Effect := AbortActivation (ssid : list ascii) | AbortRequested (path : string).

Definition abort_requested : list Effect :=
  match path with Some p => [AbortRequested p] | None => [] end.

(** One round: whether cancellation was requested, what others did to the scope before it
    is checked and the instant of that check, the instant of the deadline check, and the
    observation. When the observation is a failure: what others did to the scope before the
    failure is attributed and the instant of that, and the same for the last check. *)
Record Round := {
  r_cancelled : bool;
  r_scope_ops : list state_op;
  r_checked : instant;
  r_now : instant;
  r_observation : result Observation Error;
  r_late_ops : list state_op;
  r_failed : instant;
  r_last_ops : list state_op;
  r_still : instant;
}.

Inductive RoundResult :=
| Continue (w : ActivationWait) (scope : option State)
| Return (r : result unit Error) (effects : list Effect) (scope : option State).

Definition others (ops : list state_op) (s : State) : State := foldl apply_state_op s ops.

(** [activation_scope_error]. *)
Definition activation_scope_error (r : Round) (scope : option State) (e : Error) :
    option State * Error * list Effect :=
  match scope with
  | None => (None, e, [])
  | Some s =>
    let (s, e) := activation_error (r_failed r) e (others (r_late_ops r) s) in
    let (s, still) := error (r_still r) (others (r_last_ops r) s) in
    (Some s, e, match still with Some _ => abort_requested | None => [] end)
  end.

Definition cancelled_error : Error := EDomain (cancelled "connection attempt cancelled").

Definition run_round (dl : Deadline) (r : Round) (scope : option State) (w : ActivationWait) :
    RoundResult :=
  if r_cancelled r then
    Return (Err cancelled_error) [AbortActivation (ssid_bytes (t_ssid target))] scope
  else
    let checked := error (r_checked r) <$> (others (r_scope_ops r) <$> scope) in
    let scope := fst <$> checked in
    match checked ≫= snd with
    | Some e => Return (Err e) abort_requested scope
    | None =>
      if expired (r_now r) dl then Return (Err (timeout_error w)) abort_requested scope
      else
        match r_observation r with
        | Err e => Return (Err e) [] scope
        | Ok o =>
          let (w, res) := observe o w in
          match res with
          | Ok true => Return (Ok tt) [] scope
          | Ok false => Continue w scope
          | Err e =>
            let '(scope, e, effects) := activation_scope_error r scope e in
            Return (Err e) effects scope
          end
        end
    end.

(** [None] while the rounds given have not ended the wait. *)
Fixpoint wait_loop (dl : Deadline) (rounds : list Round) (scope : option State)
    (w : ActivationWait) : option (result unit Error * list Effect) :=
  match rounds with
  | [] => None
  | r :: rounds' =>
    match run_round dl r scope w with
    | Continue w' scope' => wait_loop dl rounds' scope' w'
    | Return res effects _ => Some (res, effects)
    end
  end.

(** [wait_for_active_target_path]: the scope's deadline, or the default timeout.
    [device] is the outcome of looking up the activation device. *)
Definition wait_for_active_target_path (device : result unit Error) (start : instant)
    (scope : option State) (rounds : list Round) : option (result unit Error * list Effect) :=
  match device with Err e => Some (Err e, []) | Ok _ =>
  let dl := match scope with
            | Some s => {| at_instant := Activation.deadline s |}
            | None => {| at_instant := (start + ACTIVATION_TIMEOUT)%N |}
            end in
  wait_loop dl rounds scope wait_default
  end.

(** ** Lemmas *)

(** What an observation of a failing activation is, once progress was seen. *)
Definition failing_observation (o : Observation) : bool :=
  match o_status o with
  | Some s => failing true s (o_requested_state o)
  | None => false
  end.

(** A pending failure was first seen at its instant, and every later observation
    failed too or had no status. *)
Definition pending_since (w : ActivationWait) (history : list Observation) : Prop :=
  match pending_failure w with
  | None => True
  | Some p => ∃ before first after, history = before ++ first :: after ∧
      failing_observation first = true ∧ o_now first = since p ∧
      ∀ o, o ∈ after → o_status o = None ∨ failing_observation o = true
  end.

Lemma latch_since pending s now :
  since (latch_pending_failure pending s now) = match pending with Some p => since p | None => now end.
Proof. unfold latch_pending_failure. destruct pending; simpl; by case_match. Qed.

Lemma failing_progress b s q : failing b s q = true → failing true s q = true.
Proof. by destruct b. Qed.

(** [observe] in one equation: the wait it leaves and when it fails. *)
Lemma observe_pending o w w' r history :
  observe o w = (w', r) → pending_since w history → r ≠ Ok true →
  pending_since w' (history ++ [o]).
Proof.
  unfold observe. destruct (o_status o) as [s|] eqn:Hs.
  - destruct (o_ssid_matches o && activated s); [by intros [= <- <-]|].
    unfold check_terminal_failure. cbn [saw_progress has_current_status pending_failure last_status].
    destruct (failing _ s (o_requested_state o)) eqn:Hf; cbn [negb].
    + apply failing_progress in Hf. intros Hobs Hw _.
      assert (pending_failure w' = Some (latch_pending_failure (pending_failure w) s (o_now o)))
        as Hp by (destruct (_ <? _)%N in Hobs; by simplify_eq).
      unfold pending_since. rewrite Hp, latch_since. unfold pending_since in Hw.
      destruct (pending_failure w) as [p|].
      * destruct Hw as (b & f & a & -> & Hff & Hn & Ha).
        exists b, f, (a ++ [o]). rewrite <-app_assoc. split_and!; [done..|].
        intros o' [?|E%list_elem_of_singleton]%elem_of_app; [by apply Ha|]. subst o'.
        right. unfold failing_observation. by rewrite Hs.
      * exists history, o, []. split_and!; [done| |done|by intros ? ?%elem_of_nil].
        unfold failing_observation. by rewrite Hs.
    + by intros [= <- <-].
  - intros [= <- <-] Hw _. unfold pending_since in *. simpl.
    destruct (pending_failure w) as [p|]; [|done].
    destruct Hw as (b & f & a & -> & Hff & Hn & Ha). exists b, f, (a ++ [o]).
    rewrite <-app_assoc. split_and!; [done..|].
    intros o' [?|E%list_elem_of_singleton]%elem_of_app; [by apply Ha|subst; by left].
Qed.

Lemma observe_err o w w' e :
  observe o w = (w', Err e) →
  ∃ p s, pending_failure w' = Some p ∧ o_status o = Some s ∧
    failing true s (o_requested_state o) = true ∧
    (ACTIVATION_FAILURE_GRACE <= o_now o - since p)%N ∧
    e = activation_failed target (pf_status p) (activation_failure_reason target (pf_status p))
          (activation_failure_message target (pf_status p)
             (activation_failure_reason target (pf_status p))).
Proof.
  unfold observe. destruct (o_status o) as [s|] eqn:Hs; [|done].
  destruct (o_ssid_matches o && activated s); [done|].
  unfold check_terminal_failure. cbn [saw_progress has_current_status pending_failure last_status].
  destruct (failing _ s (o_requested_state o)) eqn:Hf; cbn [negb]; [|done].
  destruct (N.ltb_spec (o_now o - since (latch_pending_failure (pending_failure w) s (o_now o)))
              ACTIVATION_FAILURE_GRACE); [done|].
  intros [= <- <-]. eexists _, _. split_and!; [done..| |done|done].
  by apply failing_progress in Hf.
Qed.

(** All observations of a wait, the last one included. *)
Fixpoint observe_all (os : list Observation) (w : ActivationWait) :
    ActivationWait * result bool Error :=
  match os with
  | [] => (w, Ok false)
  | o :: os' =>
    match observe o w with
    | (w', Ok false) => observe_all os' w'
    | other => other
    end
  end.

Lemma observe_all_pending os w w' r history :
  observe_all os w = (w', r) → pending_since w history → r ≠ Ok true →
  ∃ seen rest, os = seen ++ rest ∧ pending_since w' (history ++ seen) ∧
    (r = Ok false → rest = []) ∧
    (∀ e, r = Err e → ∃ pre o w0, seen = pre ++ [o] ∧ observe o w0 = (w', Err e)).
Proof.
  revert w history. induction os as [|o os IH]; intros w history; simpl.
  - intros [= <- <-] Hw _. exists [], []. rewrite (app_nil_r history). split_and!; done.
  - destruct (observe o w) as [w1 [[]|e]] eqn:Ho; intros Hall Hw Hr.
    + by injection Hall as <- <-.
    + apply (observe_pending _ _ _ _ history) in Ho; [|done..].
      destruct (IH _ _ Hall Ho Hr) as (seen & rest & -> & Hp & Hf & He).
      exists (o :: seen), rest. rewrite <-app_assoc in Hp. split_and!; [done..|].
      intros e E. destruct (He e E) as (pre & o' & w0 & -> & ?). by exists (o :: pre), o', w0.
    + injection Hall as <- <-. exists [o], os. split_and!; [done| |done|].
      * eapply observe_pending; eauto.
      * intros e' [= <-]. by exists [], o, w.
Qed.
End Wait.

(** An activation is given up only after it has failed for the whole grace
    period: when the observations of a wait end in a failure, there is a moment
    at least three seconds before the last observation at which the failure was
    first seen, and from then on no observation showed a healthy device; the
    failure reported is the one of a status seen in that period. *)
Theorem activation_failure_after_grace target path os w e :
  observe_all target path os wait_default = (w, Err e) →
  ∃ before first between last rest,
    os = before ++ first :: between ++ rest ∧
    head (reverse (first :: between)) = Some last ∧
    (o_now first + ACTIVATION_FAILURE_GRACE <= o_now last)%N ∧
    failing_observation path first = true ∧
    (∀ o, o ∈ between → o_status o = None ∨ failing_observation path o = true).
Proof.
  intros H. eapply observe_all_pending in H as (seen & rest & -> & Hp & _ & He); [|done..].
  instantiate (1 := []) in Hp. simpl in Hp.
  destruct (He e eq_refl) as (pre & o & w0 & Hseen & Ho).
  destruct (observe_err target path o w0 w e Ho) as (p & s & Hpw & Hs & Hf & Hg & _).
  unfold pending_since in Hp. rewrite Hpw in Hp.
  destruct Hp as (b & f & a & E & Hff & Hn & Ha).
  exists b, f, a, o, rest. split_and!; [by rewrite E, <-app_assoc| | |done|done].
  - assert (last seen = Some o) as Hl by (rewrite Hseen; apply last_snoc).
    rewrite E, last_app_cons in Hl. by rewrite <-last_reverse, reverse_involutive.
  - rewrite Hn. unfold ACTIVATION_FAILURE_GRACE, from_millis in *. lia.
Qed.


(** ** Examples *)

Definition example_target : WifiConnectTarget :=
  connect_target_for_ssid {| ssid_bytes := as_bytes "Example"; ssid_display := "Example" |}.

Definition disconnected_status : WifiActivationStatus :=
  {| iface := "wlan0"; device_state := 30; device_state_reason_codes := (30, 53);
     active_connection_path := None; active_connection_state := None |}%N.

Definition failing_at (now : instant) : Observation :=
  {| o_status := Some disconnected_status; o_ssid_matches := false; o_requested_state := None;
     o_now := now |}.

Lemma activation_failure_after_grace_witness :
  ∃ first last, (o_now first + ACTIVATION_FAILURE_GRACE <= o_now last)%N ∧
    failing_observation (Some "/a/1") first = true.
Proof.
  destruct (activation_failure_after_grace example_target (Some "/a/1")
    [failing_at 0; failing_at 1000; failing_at 3000000000] _ _
    ltac:(vm_compute; reflexivity)) as (_ & f & _ & l & _ & _ & _ & H1 & H2 & _).
  exists f, l. exact (conj H1 H2).
Defined.

(** ** The loop *)

Section Loop.
Context (target : WifiConnectTarget) (path : option string) (dl : Deadline).

(** How a round can end the wait. *)
Lemma run_round_return r scope w res effects scope' :
  run_round target path dl r scope w = Return res effects scope' →
  match res with
  | Ok _ => r_cancelled r = false ∧ (r_now r < at_instant dl)%N ∧
      ∃ o, r_observation r = Ok o ∧ o_ssid_matches o = true ∧
           (o_status o = None ∨ ∃ s, o_status o = Some s ∧ activated s = true)
  | Err e => r_cancelled r = true ∨ (at_instant dl <= r_now r)%N ∨ is_Some scope ∨
      (∃ e', r_observation r = Err e' ∧ e = e') ∨
      (∃ o w', r_observation r = Ok o ∧ observe target path o w = (w', Err e))
  end.
Proof.
  unfold run_round. destruct (r_cancelled r) eqn:Hc; [by intros [= <- <- <-]; left|].
  destruct ((error (r_checked r) <$> _) ≫= snd) as [e|] eqn:Hs.
  { intros [= <- <- <-]. right. right. left. destruct scope; [by eexists|done]. }
  unfold expired. destruct (N.leb_spec (at_instant dl) (r_now r)); [by intros [= <- <- <-]; auto|].
  destruct (r_observation r) as [o|e'] eqn:Ho; [|intros [= <- <- <-]; right; right; right; left; eauto].
  destruct (observe target path o w) as [w' [[]|e]] eqn:Hw; [| done |].
  - intros [= <- <- <-]. split_and!; [done..|]. exists o. split; [done|].
    unfold observe in Hw. destruct (o_status o) as [s|] eqn:Hst.
    + destruct (o_ssid_matches o), (activated s) eqn:Ha; simpl in Hw; eauto;
        destruct (check_terminal_failure _ _ _ _ _ _) as [? []]; done.
    + simplify_eq. auto.
  - destruct scope as [sc|].
    + destruct (activation_scope_error _ _ _ _) as [[scope1 e1] effects1]. intros [= <- <- <-].
      right. right. left. by eexists.
    + cbn. intros [= <- <- <-]. do 4 right. eauto.
Qed.

Lemma run_round_expired r scope w :
  (at_instant dl <= r_now r)%N →
  ∃ e effects scope', run_round target path dl r scope w = Return (Err e) effects scope' ∧
    (r_cancelled r = false → effects = abort_requested path).
Proof.
  intros Hle. unfold run_round. destruct (r_cancelled r); [by do 3 eexists|].
  destruct ((error (r_checked r) <$> _) ≫= snd) as [e|]; [by do 3 eexists|].
  unfold expired. destruct (N.leb_spec (at_instant dl) (r_now r)); [by do 3 eexists|lia].
Qed.

Lemma wait_loop_ends rounds scope w r :
  r ∈ rounds → (at_instant dl <= r_now r)%N → is_Some (wait_loop target path dl rounds scope w).
Proof.
  revert scope w. induction rounds as [|r' rounds IH]; intros scope w Hin Hle;
    [by apply elem_of_nil in Hin|]. cbn [wait_loop].
  apply elem_of_cons in Hin as [<-|Hin].
  - destruct (run_round_expired r scope w Hle) as (e & eff & sc & -> & _). by eexists.
  - destruct (run_round target path dl r' scope w); [by apply IH|by eexists].
Qed.

Lemma wait_loop_last rounds scope w res effects :
  wait_loop target path dl rounds scope w = Some (res, effects) →
  ∃ r scope0 w0 scope', r ∈ rounds ∧
    run_round target path dl r scope0 w0 = Return res effects scope'.
Proof.
  revert scope w. induction rounds as [|r rounds IH]; intros scope w; cbn [wait_loop]; [done|].
  destruct (run_round target path dl r scope w) as [w' s'|res' eff' s'] eqn:Hr.
  - intros (r0 & s0 & w0 & s1 & Hin & ?)%IH. exists r0, s0, w0, s1. split; [by right|done].
  - intros [= <- <-]. exists r, scope, w, s'. split; [by left|done].
Qed.
End Loop.


(** The wait does not spin: after a round that ends neither way, the time until
    the next round, reckoned at the instant of the observation, is zero only if
    the deadline has been reached. *)
Theorem next_wake_progress target path o w w' dl :
  observe target path o w = (w', Ok false) →
  next_wake w' dl (o_now o) = 0%N → (at_instant dl <= o_now o)%N.
Proof.
  intros Ho. unfold next_wake, wait_at.
  assert (∀ d, (0 < d)%N → N.min d (at_instant dl - o_now o) = 0%N → (at_instant dl <= o_now o)%N)
    as Hmin by (intros; lia).
  destruct (pending_failure w') as [p|] eqn:Hw; [|apply Hmin; done].
  destruct (_ || negb _) eqn:Hb; [|apply Hmin; done]. apply Hmin.
  apply orb_true_iff in Hb as [Hcur|Hz].
  - unfold observe in Ho. destruct (o_status o) as [s|]; [|by simplify_eq].
    destruct (o_ssid_matches o && activated s); [done|].
    unfold check_terminal_failure in Ho.
    destruct (failing _ _ _ _); cbn [negb] in Ho; [|by simplify_eq].
    destruct (_ <? ACTIVATION_FAILURE_GRACE)%N eqn:Hlt in Ho; [|done].
    simplify_eq. cbn in Hw. simplify_eq. apply N.ltb_lt in Hlt. cbn in *. lia.
  - apply negb_true_iff, N.eqb_neq in Hz. lia.
Qed.

Lemma next_wake_progress_witness :
  let w := (observe example_target (Some "/a/1") (failing_at 5) wait_default).1 in
  next_wake w {| at_instant := 3 |} 5 = 0%N ∧ (3 <= 5)%N.
Proof.
  split; [vm_compute; reflexivity|].
  refine (next_wake_progress example_target (Some "/a/1") (failing_at 5) wait_default
    (observe example_target (Some "/a/1") (failing_at 5) wait_default).1
    {| at_instant := 3 |} _ _); vm_compute; reflexivity.
Defined.
