(* ===== verification/CastPolicy.v ===== *)
(** * The firewall companion for Cast discovery ([src/cast_policy/])

    The system service that keeps Cast discovery closed on Wi-Fi, except on the interfaces
    whose connection has it enabled in the saved profile and in what NetworkManager applied.
    The batch for nft is text; a reconciliation is one read of NetworkManager, pinned to its
    owner, and one batch. *)
From S2P Require Import Prelude Errors Text Variant Wifi Network Profiles ConnectWait Bus Inventory Devices Saved.
From Stdlib Require Import ZArith Lia Ascii.
From stdpp Require Import prelude gmap strings list pretty.
Open Scope bus_scope.

(** ** The batch ([firewall.rs]) *)

Definition PERMISSION_LEASE_SECONDS : N := 10.
Definition quote : u8 := ascii_of_N 34.
Definition quoted (name : string) : string := of_bytes [quote] +:+ name +:+ of_bytes [quote].
Definition interface_byte (c : u8) : bool :=
  let n := N_of_ascii c in
  ((48 <=? n) && (n <=? 57) || (65 <=? n) && (n <=? 90) || (97 <=? n) && (n <=? 122)
   || (n =? 95) || (n =? 46) || (n =? 58) || (n =? 45))%N.
Definition validate_interface (interface : string) : result unit Error :=
  ensure (negb (bool_decide (interface = "")) && (length (as_bytes interface) <=? 15)%nat
          && forallb interface_byte (as_bytes interface))
    (plain "unsupported Wi-Fi interface name").
Definition elements (interfaces : list string) : result string Error :=
  let? names := collect ((λ name, let? _ := validate_interface name in Ok (quoted name)) <$> interfaces) in
  Ok match names with
     | [] => ""
     | _ => "elements = { " +:+ str_join ", " names +:+ " };"
     end.
Definition batch (wifi enabled : string) : string :=
"add table inet nm_cast_policy
delete table inet nm_cast_policy
table inet nm_cast_policy {
    set wifi { type ifname; " +:+ wifi +:+ " }
    set enabled { type ifname; flags timeout; timeout " +:+ pretty PERMISSION_LEASE_SECONDS +:+ "s; " +:+ enabled +:+ " }
    chain input {
        type filter hook input priority -10; policy accept;
        iifname @wifi iifname != @enabled udp sport { 1900, 5353 } counter drop
        iifname @wifi iifname != @enabled udp dport { 1900, 5353 } counter drop
        iifname @wifi iifname != @enabled tcp sport { 8008, 8009, 8443 } counter drop
    }
    chain output {
        type filter hook output priority -10; policy accept;
        oifname @wifi oifname != @enabled udp sport { 1900, 5353 } counter drop
        oifname @wifi oifname != @enabled udp dport { 1900, 5353 } counter drop
        oifname @wifi oifname != @enabled tcp dport { 8008, 8009, 8443 } counter drop
    }
}
".
Definition rules (wifi enabled : list string) : result string Error :=
  let? _ := ensure (forallb (λ name, bool_decide (name ∈ wifi)) enabled) (plain "enabled interface is not Wi-Fi") in
  let? wifi := elements wifi in
  let? enabled := elements enabled in
  Ok (batch wifi enabled).

(** ** Reading the policy ([network.rs]) *)

(** A [BTreeSet] of names. *)
Definition names (m : list (string * unit)) : list string := m.*1.
Definition insert_name (name : string) (m : list (string * unit)) : list (string * unit) := bt_insert name tt m.

Definition mdns_enabled (settings : ConnectionSettings) : bool :=
  match c ← settings !! "connection"; v ← c !! "mdns"; as_i32 v with
  | Some value => bool_decide (value ∈ [1; 2]%Z)
  | None => false
  end.
Definition policy_enabled (saved applied : ConnectionSettings) (state version current_version : N) (same_active : bool) : bool :=
  (state =? NM_DEVICE_STATE_ACTIVATED)%N && negb (version =? 0)%N && (version =? current_version)%N && same_active
  && mdns_enabled saved && mdns_enabled applied.

(** Besides NetworkManager: the entries of /sys/class/net with a name that may not be UTF-8
    and whether they are wireless, the lock of the policy, the time limit of a snapshot, and
    the run of the nft executable on a batch. *)
Class CastHost (W : Type) := {
  cw_net : W → result (list (result (option string * bool) Error)) Error;
  cw_lock : W → result unit Error;
  cw_late : W → option Error;
  cw_nft : string → string → W → result unit Error * W;
}.

Section CastPolicy.
Context {W : Type} {B : Bus W} {CW : CastHost W}.
Context (nft : string).

Definition wifi_entry (wifi : list (string * unit)) (entry : result (option string * bool) Error) :
    result (list (string * unit)) Error :=
  let? entry := entry in
  let (name, wireless) := entry : option string * bool in
  if wireless then
    let? interface := ok_or name (plain "Wi-Fi interface name is not valid UTF-8") in
    let? _ := validate_interface interface in
    Ok (insert_name interface wifi)
  else Ok wifi.
Fixpoint wifi_entries (entries : list (result (option string * bool) Error)) (wifi : list (string * unit)) :
    result (list (string * unit)) Error :=
  match entries with
  | [] => Ok wifi
  | entry :: entries => let? wifi := wifi_entry wifi entry in wifi_entries entries wifi
  end.
Definition wifi_interfaces_of (entries : result (list (result (option string * bool) Error)) Error) :
    result (list string) Error :=
  let? entries := result_map_err (add_context "enumerate network interfaces") entries in
  let? interfaces := wifi_entries entries [] in
  let? _ := ensure (length interfaces <=? 64)%nat (plain "too many Wi-Fi interfaces") in
  Ok (names interfaces).
Definition wifi_interfaces : bus W (list string) :=
  let! entries := local (λ w, (cw_net w, w)) in lift (wifi_interfaces_of entries).

(** Proxies of the policy's own connection: without a check of the owner before each call,
    since they are made for the unique owner of the snapshot. *)
Definition cast_proxy (path iface : string) : bus W Proxy :=
  match bus_build path iface with
  | None => ret {| p_path := path; p_iface := iface |}
  | Some e => lift (Err e)
  end.
Definition applied_connection (device : Proxy) : bus W (ConnectionSettings * N) :=
  let! reply := call_method device "GetAppliedConnection" [VU32 0] in lift (ok_or (as_applied reply) type_error).
Definition device_enabled (device : Proxy) : bus W bool :=
  let! state := get_property as_u32 device "State" in
  if negb (state =? NM_DEVICE_STATE_ACTIVATED)%N then ret false
  else
    let! active_path := get_property as_path device "ActiveConnection" in
    if bool_decide (active_path = "/") then ret false
    else
      let! (applied, version) := applied_connection device in
      let! active := cast_proxy active_path ACTIVE_CONNECTION_IFACE in
      let! profile := get_property as_path active "Connection" in
      let! p := cast_proxy profile SETTINGS_CONNECTION_IFACE in
      let! saved := call_value as_settings p "GetSettings" [] in
      let! (_, current_version) := applied_connection device in
      let! current_active := get_property as_path device "ActiveConnection" in
      let! state := get_property as_u32 device "State" in
      ret (policy_enabled saved applied state version current_version (bool_decide (active_path = current_active))).
Fixpoint enabled_devices (wifi : list string) (paths : list string) (enabled : list (string * unit)) :
    bus W (list (string * unit)) :=
  match paths with
  | [] => ret enabled
  | path :: paths =>
    let! device := cast_proxy path DEVICE_IFACE in
    let! interface := get_property value_string device "Interface" in
    let! on := if bool_decide (interface ∈ wifi) then device_enabled device else ret false in
    enabled_devices wifi paths (if on then insert_name interface enabled else enabled)
  end.
Definition enabled_interfaces (wifi : list string) : bus W (list string) :=
  let! _ := access bus_owner (λ _, None) in
  let! manager := cast_proxy NM_PATH NM_IFACE in
  let! devices := call_value as_paths manager "GetDevices" [] in
  let! enabled := enabled_devices wifi devices [] in
  ret (names enabled).

(** ** Reconciliation ([mod.rs]) *)

Definition NFT : string := "nft".
(** A batch given to nft is shown in the trace as a call. *)
Definition nft_event (batch : string) (r : result unit Error) : bus_event :=
  EvCall nft NFT "-f" [VStr batch] (result_map (λ _, []) r).
Definition run_nft (batch : string) : bus W unit := access (cw_nft nft batch) (λ r, Some (nft_event batch r)).
Definition apply_rules (wifi enabled : list string) : bus W unit :=
  let! _ := lift (ensure (starts_with "/" nft) (plain "nft executable path must be absolute")) in
  let! batch := lift (rules wifi enabled) in
  run_nft batch.
Definition snapshot (wifi : list string) : bus W (result (list string) Error) :=
  let! r := attempt (enabled_interfaces wifi) in
  let! late := local (λ w, (cw_late w, w)) in
  ret match late with
      | Some e => Err (add_context "timed out reading NetworkManager Cast policy" e)
      | None => r
      end.
Definition reconcile : bus W unit :=
  let! lock := local (λ w, (cw_lock w, w)) in
  let! _ := with_context "Cast policy reconciliation is busy; retry" (lift lock) in
  let! wifi := wifi_interfaces in
  let! snap := snapshot wifi in
  let! _ := apply_rules wifi (match snap with Ok enabled => enabled | Err _ => [] end) in
  lift (result_map (λ _, tt) snap).
(** The method of the service, with the signature of the request's body. *)
Definition reconcile_request (unit_signature : bool) (invalid : Error) : bus W unit :=
  if unit_signature then reconcile else lift (Err invalid).
(** Before the service is announced, and when it stops. *)
Definition close : bus W unit :=
  let! wifi := wifi_interfaces in apply_rules wifi [].
Definition serve_start : bus W unit :=
  let! _ := lift (ensure (starts_with "/" nft) (plain "--nft must be an absolute executable path")) in close.
End CastPolicy.

(** ** What the batch says *)

(** The quoted names of a batch, in order. *)
Fixpoint scan (inside : option (list u8)) (l : list u8) : list string :=
  match l with
  | [] => []
  | c :: l =>
    match inside with
    | None => scan (if bool_decide (c = quote) then Some [] else None) l
    | Some name => if bool_decide (c = quote) then of_bytes name :: scan None l else scan (Some (name ++ [c])) l
    end
  end.
Definition quoted_names (s : string) : list string := scan None (as_bytes s).

Definition unquoted (l : list u8) : bool := forallb (λ c, bool_decide (c ≠ quote)) l.
Lemma scan_outside a b : unquoted a = true → scan None (a ++ b) = scan None b.
Proof.
  induction a as [|c a IH]; [done|]. cbn -[quote]. intros [Hc Ha]%andb_true_iff. apply bool_decide_eq_true in Hc.
  rewrite bool_decide_false by done. by apply IH.
Qed.
Lemma scan_inside a b : ∀ acc, unquoted a = true → scan (Some acc) (a ++ quote :: b) = of_bytes (acc ++ a) :: scan None b.
Proof.
  induction a as [|c a IH]; intros acc; cbn -[quote].
  - intros _. by rewrite bool_decide_true, app_nil_r.
  - intros [Hc Ha]%andb_true_iff. apply bool_decide_eq_true in Hc. rewrite bool_decide_false by done.
    rewrite IH by done. by rewrite <-app_assoc.
Qed.
Lemma valid_interface name : validate_interface name = Ok tt →
  name ≠ "" ∧ length (as_bytes name) ≤ 15 ∧ unquoted (as_bytes name) = true.
Proof.
  unfold validate_interface, ensure. destruct (_ && _) eqn:E; [|done]. intros _.
  apply andb_true_iff in E as [[Hn Hl]%andb_true_iff Hb]. split_and!.
  - intros ->. done.
  - by apply Nat.leb_le.
  - clear Hn Hl. revert Hb. generalize (as_bytes name) as l. induction l as [|c l IH]; [done|]. cbn -[quote interface_byte]. intros [Hc Hl']%andb_true_iff.
    apply andb_true_iff. split; [apply bool_decide_eq_true; intros ->; by vm_compute in Hc|by apply IH].
Qed.
Lemma scan_quoted name b : unquoted (as_bytes name) = true →
  scan None (as_bytes (quoted name) ++ b) = name :: scan None b.
Proof.
  intros Hn. unfold quoted. autorewrite with nm. rewrite <-!app_assoc. cbn [app scan]. rewrite bool_decide_true by done.
  rewrite scan_inside by done. cbn [app]. by autorewrite with nm.
Qed.
Lemma scan_joined l b : Forall (λ n, unquoted (as_bytes n) = true) l →
  scan None (as_bytes (str_join ", " (quoted <$> l)) ++ b) = l ++ scan None b.
Proof.
  induction l as [|n l IH]; [done|]. intros [Hn Hl]%Forall_cons. destruct l as [|n' l].
  - cbn. by rewrite scan_quoted.
  - change (str_join ", " (quoted <$> n :: n' :: l)) with (quoted n +:+ ", " +:+ str_join ", " (quoted <$> n' :: l)).
    autorewrite with nm. rewrite <-!app_assoc, scan_quoted by done. rewrite (scan_outside (as_bytes ", ")) by done. by rewrite IH.
Qed.
Lemma collect_quoted l r :
  collect ((λ name, let? _ := validate_interface name in Ok (quoted name)) <$> l) = Ok r →
  r = quoted <$> l ∧ Forall (λ n, validate_interface n = Ok tt) l.
Proof.
  revert r. induction l as [|n l IH]; intros r; cbn [fmap list_fmap collect]; [by intros [= <-]|].
  destruct (validate_interface n) as [[]|] eqn:Hn; [|done]. cbn. destruct (collect _) as [r'|] eqn:Hc; [|done]. cbn. intros [= <-].
  destruct (IH r' eq_refl) as [-> Hl]. by split; [|constructor].
Qed.
Lemma elements_scan l s b : elements l = Ok s → scan None (as_bytes s ++ b) = l ++ scan None b ∧ Forall (λ n, validate_interface n = Ok tt) l.
Proof.
  unfold elements. destruct (collect _) as [r|] eqn:Hc; [|done]. apply collect_quoted in Hc as [-> Hl]. intros [= <-]. split; [|done].
  destruct l as [|n l]; [done|]. set (names := n :: l) in *.
  change (match quoted <$> names with [] => "" | _ => "elements = { " +:+ str_join ", " (quoted <$> names) +:+ " };" end)
    with ("elements = { " +:+ (str_join ", " (quoted <$> names) +:+ " };")).
  rewrite !as_bytes_app, <-!app_assoc. rewrite (scan_outside (as_bytes "elements = { ")) by done. rewrite scan_joined.
  - done.
  - eapply Forall_impl; [exact Hl|]. intros x Hx. by apply valid_interface.
Qed.
Lemma rules_names wifi enabled s : rules wifi enabled = Ok s →
  quoted_names s = wifi ++ enabled ∧ enabled ⊆ wifi ∧ Forall (λ n, validate_interface n = Ok tt) wifi.
Proof.
  unfold rules, ensure. destruct (forallb _ enabled) eqn:Hs; [|done]. cbn -[batch].
  destruct (elements wifi) as [sw|] eqn:Hw; [|done]. cbn -[batch]. destruct (elements enabled) as [se|] eqn:He; [|done]. intros [= <-].
  split_and!; [|intros n Hn; rewrite forallb_forall in Hs; apply list_elem_of_In, Hs, bool_decide_eq_true in Hn; done|by eapply (elements_scan _ _ [])].
  unfold quoted_names, batch. autorewrite with nm. rewrite <-?app_assoc.
  rewrite scan_outside by done. rewrite (proj1 (elements_scan _ _ _ Hw)). f_equal. rewrite scan_outside by done.
  rewrite (scan_outside (as_bytes (pretty _))) by done. rewrite scan_outside by done. rewrite (proj1 (elements_scan _ _ _ He)).
  etrans; [|apply app_nil_r]. f_equal.
Qed.

(** The firewall and the profile editor read the same setting. *)
Lemma mdns_is_casting settings : mdns_enabled settings = casting_enabled_from_settings settings.
Proof.
  unfold mdns_enabled, casting_enabled_from_settings, mdns_policy, setting. destruct (settings !! "connection") as [c|]; [cbn|done].
  destruct (c !! "mdns" ≫= as_i32) as [z|]; [|done]. apply bool_decide_ext. unfold NM_MDNS_RESOLVE, NM_MDNS_YES. set_solver.
Qed.

(** ** What a reconciliation opens *)

Section Facts.
Context {W : Type} {B : Bus W} {CW : CastHost W}.
Context (nft : string).
Implicit Types s : Session W.

(** The interface was read as one of a device whose connection has Cast discovery enabled,
    in the profile and as applied, at one version, and which is activated. *)
Definition enabled_by (name device : string) (l : list bus_event) : Prop :=
  ∃ active profile v c v' c' version version' x,
    EvGet device DEVICE_IFACE "Interface" (Ok (VStr name)) ∈ l ∧
    EvGet device DEVICE_IFACE "State" (Ok (VU32 NM_DEVICE_STATE_ACTIVATED)) ∈ l ∧
    EvGet device DEVICE_IFACE "ActiveConnection" (Ok (VPath active)) ∈ l ∧
    EvCall device DEVICE_IFACE "GetAppliedConnection" [VU32 0] (Ok [v; VU64 version]) ∈ l ∧
    EvCall device DEVICE_IFACE "GetAppliedConnection" [VU32 0] (Ok [x; VU64 version']) ∈ l ∧
    EvGet active ACTIVE_CONNECTION_IFACE "Connection" (Ok (VPath profile)) ∈ l ∧
    EvCall profile SETTINGS_CONNECTION_IFACE "GetSettings" [] (Ok [v']) ∈ l ∧
    version ≠ 0%N ∧ version' = version ∧
    as_settings v = Some c ∧ casting_enabled_from_settings c = true ∧ as_settings v' = Some c' ∧ casting_enabled_from_settings c' = true.
Lemma enabled_by_mono name device l l' : l ⊆ l' → enabled_by name device l → enabled_by name device l'.
Proof.
  intros Hl (a & p & v & c & v' & c' & n & n' & x & ? & ? & ? & ? & ? & ? & ? & ?). exists a, p, v, c, v', c', n, n', x.
  split_and!; auto; tauto.
Qed.
Lemma says_cast_proxy p i : says (cast_proxy (W:=W) p i) (λ x l, l = [] ∧ x = {| p_path := p; p_iface := i |}).
Proof. unfold cast_proxy. destruct (bus_build p i); [by apply grows_pure|by apply grows_ret]. Qed.
Lemma says_applied p :
  says (applied_connection (W:=W) p) (λ a l, ∃ v, as_settings v = Some a.1 ∧
    l = [EvCall (p_path p) (p_iface p) "GetAppliedConnection" [VU32 0] (Ok [v; VU64 a.2])]).
Proof.
  unfold applied_connection. eapply says_bind; [eapply grows_mono; [apply grows_call|intros [a|e] l H; [exact H|done]]|].
  intros reply l ->. apply grows_pure. destruct (as_applied reply) as [[c n]|] eqn:E; [|done]. cbn. unfold as_applied in E.
  destruct reply as [|v [|[] [|]]]; try done. destruct (as_settings v) as [c'|] eqn:Ev; [|done]. injection E as -> ->. by exists v.
Qed.
Lemma says_device_enabled path :
  says (device_enabled (W:=W) {| p_path := path; p_iface := DEVICE_IFACE |}) (λ on l, on = true → ∀ name l0,
    EvGet path DEVICE_IFACE "Interface" (Ok (VStr name)) ∈ l0 → enabled_by name path (l0 ++ l)).
Proof.
  unfold device_enabled. eapply says_bind; [apply says_get_property|]. intros state l1 (v1 & Hv1 & ->).
  destruct (N.eqb_spec state NM_DEVICE_STATE_ACTIVATED) as [->|]; cbn [negb]; [|by apply says_ret].
  eapply says_bind; [apply says_get_property|]. intros active l2 (v2 & Hv2 & ->).
  case_bool_decide; [by apply says_ret|].
  eapply says_bind; [apply says_applied|]. intros [c n] l3 (v3 & Hv3 & ->).
  eapply says_bind; [apply says_cast_proxy|]. intros p4 l4 [-> ->].
  eapply says_bind; [apply says_get_property|]. intros profile l5 (v5 & Hv5 & ->).
  eapply says_bind; [apply says_cast_proxy|]. intros p6 l6 [-> ->].
  eapply says_bind; [apply says_call_value|]. intros c' l7 (v7 & Hv7 & ->).
  eapply says_bind; [apply says_applied|]. intros [c8 n'] l8 (v8 & Hv8 & ->).
  eapply says_bind; [apply says_get_property|]. intros a9 l9 (v9 & Hv9 & ->).
  eapply says_bind; [apply says_get_property|]. intros st l10 (v10 & Hv10 & ->).
  apply says_ret. unfold policy_enabled. rewrite !andb_true_iff, !mdns_is_casting.
  intros [[[[[_ Hn%negb_true_iff%N.eqb_neq] Hnn%N.eqb_eq] _] Hs] Ha] name l0 Hname. cbn [p_path p_iface fst snd] in *.
  destruct v1; try done. destruct v2; try done. destruct v5; try done. cbn in Hv1, Hv2, Hv5. simplify_eq.
  exists active, profile, v3, c, v7, c', n', n', v8. cbn. split_and!; try done; set_solver.
Qed.
Definition justified (wifi : list string) (l : list bus_event) (l' : list string) : Prop :=
  ∀ name, name ∈ l' → name ∈ wifi ∧ ∃ device, enabled_by name device l.
Lemma justified_mono wifi l l' k : l ⊆ l' → justified wifi l k → justified wifi l' k.
Proof. intros Hl Hk name [? (d & ?)]%Hk. split; [done|]. exists d. by eapply enabled_by_mono. Qed.
Lemma insert_name_elem n m x : x ∈ names (insert_name n m) → x = n ∨ x ∈ names m.
Proof.
  unfold names, insert_name, bt_insert. intros ([k u] & -> & Hk)%list_elem_of_fmap.
  apply bt_update_elem in Hk as [[= ->]|Hk]; [by left|right]. by apply (list_elem_of_fmap_2 fst) in Hk.
Qed.
Lemma says_enabled_devices wifi paths : ∀ enabled l0, justified wifi l0 (names enabled) →
  says (enabled_devices (W:=W) wifi paths enabled) (λ r l, justified wifi (l0 ++ l) (names r)).
Proof.
  induction paths as [|path paths IH]; intros enabled l0 Hj; cbn [enabled_devices]; [apply says_ret; by rewrite app_nil_r|].
  eapply says_bind; [apply says_cast_proxy|]. intros p l1 [-> ->].
  eapply says_bind; [apply says_get_property|]. intros name l2 (v & Hv & ->). cbn [p_path p_iface app].
  destruct v; try done. injection Hv as ->.
  eapply says_bind with (P := λ on l, on = true → name ∈ wifi ∧ ∀ l0,
    EvGet path DEVICE_IFACE "Interface" (Ok (VStr name)) ∈ l0 → enabled_by name path (l0 ++ l)).
  { case_bool_decide; [|by apply says_ret]. eapply says_mono; [apply says_device_enabled|]. intros on l Hon Ht. split; [done|]. by apply Hon. }
  intros on l3 Hon. set (l4 := l0 ++ [EvGet path DEVICE_IFACE "Interface" (Ok (VStr name))] ++ l3).
  assert (justified wifi l4 (names enabled)) as Hj4 by (eapply justified_mono; [|exact Hj]; set_solver).
  eapply says_mono; [apply (IH _ l4)|intros r l; unfold l4; by rewrite <-!app_assoc].
  destruct on; [|done]. intros x [->|Hx]%insert_name_elem; [|by apply Hj4]. destruct (Hon eq_refl) as [Hw He]. split; [done|].
  exists path. unfold l4. rewrite app_assoc. apply He. set_solver.
Qed.
Lemma says_enabled_interfaces wifi :
  says (enabled_interfaces (W:=W) wifi) (λ r l, justified wifi l r).
Proof.
  unfold enabled_interfaces. eapply says_bind; [by apply grows_access with (Q := λ r l, match r with Ok _ => True | Err _ => True end); intros []|].
  intros o l1 _. eapply says_bind; [apply says_cast_proxy|]. intros m l2 [-> ->].
  eapply says_bind; [apply says_call_value|]. intros paths l3 _.
  eapply says_bind; [apply (says_enabled_devices wifi paths [] (l1 ++ [] ++ l3))|].
  - by intros x ?%elem_of_nil.
  - intros r l4 Hr. apply says_ret. eapply justified_mono; [|exact Hr]. set_solver.
Qed.
Lemma quiet_enabled_interfaces wifi : quiet (enabled_interfaces (W:=W) wifi).
Proof.
  unfold enabled_interfaces. apply quiet_then; [by apply quiet_access|]. unfold cast_proxy. intros _.
  assert (∀ p, quiet (applied_connection (W:=W) p)) as Ha by (intros p; unfold applied_connection; apply quiet_then; [by apply quiet_call_method|quiet_tac]).
  assert (∀ p, quiet (device_enabled (W:=W) p)) as Hd by (intros p; unfold device_enabled, cast_proxy; quiet_tac).
  assert (∀ paths e, quiet (enabled_devices (W:=W) wifi paths e)) as He.
  { induction paths as [|path paths IH]; intros e; cbn [enabled_devices]; unfold cast_proxy; quiet_tac. }
  quiet_tac.
Qed.

(** What reconciling the firewall does: at most one batch. *)
Inductive reconciled : result unit Error → list bus_event → Prop :=
  | NotReconciled e l : effects l = [] → reconciled (Err e) l
  | Reconciled r wifi enabled text reply l :
      effects l = [nft_event nft text reply] → quoted_names text = wifi ++ enabled →
      (∀ n, n ∈ wifi → validate_interface n = Ok tt) → justified wifi l enabled →
      (r = Ok tt → reply = Ok tt) → (is_ok r = false → is_ok reply = false ∨ enabled = []) →
      reconciled r l.

Lemma wifi_interfaces_valid entries l : wifi_interfaces_of entries = Ok l → ∀ n, n ∈ l → validate_interface n = Ok tt.
Proof.
  unfold wifi_interfaces_of. destruct entries as [es|]; [|done]. cbn.
  assert (∀ es m m', (∀ n, n ∈ names m → validate_interface n = Ok tt) → wifi_entries es m = Ok m' →
    ∀ n, n ∈ names m' → validate_interface n = Ok tt) as H.
  { clear. induction es as [|e es IH]; intros m m' Hm; cbn; [by intros [= <-]|].
    destruct e as [[name w]|]; [|done]. cbn. destruct w; [|by apply IH]. destruct name as [name|]; [|done]. cbn.
    destruct (validate_interface name) as [[]|] eqn:Hv; [|done]. cbn. apply IH. intros n [->|Hn]%insert_name_elem; auto. }
  destruct (wifi_entries es []) as [m|] eqn:E; [|done]. cbn. destruct (length m <=? 64)%nat; [|done]. cbn. intros [= <-].
  eapply H; [|exact E]. by intros n ?%elem_of_nil.
Qed.
(** A snapshot, when there is one, is justified by what it read. *)
Lemma grows_snapshot wifi :
  grows (snapshot (W:=W) wifi) (λ r l, effects l = [] ∧ match r with Ok (Ok e) => justified wifi l e | _ => True end).
Proof.
  unfold snapshot. eapply grows_then with (P := λ r l, effects l = [] ∧ match r with Ok (Ok e) => justified wifi l e | _ => True end).
  - apply grows_attempt. apply quiet_grows; [apply quiet_enabled_interfaces|]. eapply grows_mono; [apply says_enabled_interfaces|].
    by intros [e|e] l.
  - by intros e l [? _].
  - intros r l [Hl Hr]. apply grows_local_then. intros [e|]; apply grows_ret; rewrite app_nil_r; by split.
Qed.
Lemma grows_apply_rules wifi enabled :
  grows (apply_rules (W:=W) nft wifi enabled) (λ r l, (effects l = [] ∧ is_ok r = false) ∨
    ∃ text, rules wifi enabled = Ok text ∧ effects l = [nft_event nft text r]).
Proof.
  unfold apply_rules. eapply grows_then with (P := λ _ l, l = []); [by apply grows_pure|by intros e l ->; left|].
  intros u l ->. destruct (rules wifi enabled) as [text|e] eqn:Er; [|apply grows_pure; by left].
  apply (grows_then _ _ (λ r l, l = [] ∧ r = Ok text)); [by apply grows_pure|by intros e l [_ ?]|]. intros t l [-> [= ->]].
  apply grows_access. intros r. right. by exists text.
Qed.

End Facts.
