(* ===== verification/Activate.v ===== *)
(** * Activating Wi-Fi connections ([src/nm/activate.rs])

    What connecting asks of NetworkManager: activating a saved profile, after storing a new
    credential in it, or adding a profile for a visible or hidden network and activating it,
    for good or for this connection only. An activation scope is registered first, so that
    the secret agent can answer for the activation. *)
From S2P Require Import Prelude Errors Text Identity Wifi Network Variant Credentials WifiSettings Profiles ProfileWriter Activation ConnectWait Bus Inventory Devices Saved WifiStatus.
From Stdlib Require Import ZArith Lia Ascii.
From stdpp Require Import prelude gmap strings list.
Open Scope bus_scope.

Record WifiActivation := { profile_path : string; active_path : string; scope : N }.

(** ** Settings *)

(** A secret that is kept for this activation only. *)
Definition not_saved (name : string) (s : section) : section :=
  foldl (λ s key,
    let flag_key := flags_key key in
    let old := unwrap_or (setting as_u32 s flag_key) 0%N in
    <[flag_key := VU32 (N.lor (N.ldiff old 1) 2)]> s) s (known_keys name).
Definition make_temporary (settings : ConnectionSettings) : ConnectionSettings :=
  let settings := update_section "connection" (λ s, <["autoconnect" := VBool false]> (delete "uuid" s)) settings in
  alter (not_saved "802-1x") "802-1x"
    (alter (not_saved "802-11-wireless-security") "802-11-wireless-security" settings).
(** [entry("uuid").or_insert]. *)
Definition with_uuid (uuid : string) (settings : ConnectionSettings) : ConnectionSettings :=
  update_section "connection" (λ s, match s !! "uuid" with Some _ => s | None => <["uuid" := VStr uuid]> s end) settings.
(** [activation::identity]. *)
Definition scope_identity (settings : ConnectionSettings) (path : string) : string :=
  match non_empty (c ← settings !! "connection"; setting_string c "uuid") with
  | Some uuid => "uuid:" +:+ uuid
  | None => "path:" +:+ path
  end.

(** Besides NetworkManager: the registry of activation scopes, new UUIDs, the variables of
    the environment and the signature of a scan's options. *)
Class ActivationHost (W : Type) := {
  ah_scopes : W → Activation.World;
  ah_put_scopes : Activation.World → W → W;
  ah_uuid : W → string * W;
  ah_env : W → string → option string;
}.

Section Activate.
Context {W V : Type} {B : Bus W} {D : DeviceHost W} {SV : ProfileService V} {PS : ProfileStore W V}
  {AH : ActivationHost W}.
Context (path_error : string → option Error).

(** ** Scopes *)

Definition activation_scope (settings : ConnectionSettings) (path : string) : bus W N :=
  let! owner := current_owner in
  let! t := now in
  local (λ w, (Activation.next (ah_scopes w),
    ah_put_scopes (guard_new owner (scope_identity settings path) (t + ACTIVATION_TIMEOUT)%N (ah_scopes w)) w)).
(** [state.activation_error]. *)
Definition scope_error (id : N) (e : Error) : bus W Error :=
  let! t := now in
  local (λ w, match heap (ah_scopes w) !! id with
              | Some s => let (s, e) := activation_error t e s in
                          (e, ah_put_scopes (alter_state (λ _, s) id (ah_scopes w)) w)
              | None => (e, w)
              end).
Definition drop_scope (id : N) : bus W unit :=
  local (λ w, (tt, ah_put_scopes (guard_drop id (ah_scopes w)) w)).
(** A request made under a scope, which a failure ends. *)
Definition scoped_request {A} (id : N) (m : bus W A) : bus W A :=
  let! r := attempt m in
  match r with
  | Ok a => ret a
  | Err e => let! e := scope_error id e in let! _ := drop_scope id in lift (Err e)
  end.

(** ** Saved profiles *)

Definition environment : bus W (string → option string) := local (λ w, (ah_env w, w)).
Definition with_settings (edit : ProfileEdit) (settings : ConnectionSettings) : ProfileEdit :=
  {| e_settings := settings; e_original := e_original edit; e_version := e_version edit; e_uuid := e_uuid edit;
     e_owner := e_owner edit; e_explicit_remember := e_explicit_remember edit |}.
Definition store_credential (path : string) (mutate : ConnectionSettings → result ConnectionSettings Error) : bus W unit :=
  profile_io path (λ destination env fails r,
    ProfileWriter.bind (begin_credential_edit destination env fails) (λ edit,
      ProfileWriter.bind (ProfileWriter.lift (mutate (e_settings edit))) (λ settings,
        commit_credential_edit destination env fails (with_settings edit settings) true)) r).
Definition prepare_saved_activation (connection_path : string) (target : WifiConnectTarget)
    (password : option string) (wep : option WepKeyType) : bus W unit :=
  if bool_decide (is_Some password) || bool_decide (is_Some (t_enterprise target)) then
    let! visible := visible_access_point_for target in
    let! env := environment in
    store_credential connection_path (λ settings,
      let? settings := apply_saved_activation_settings settings target (snd <$> visible) password wep in
      apply_target_connection_metadata env target settings)
  else
    let! settings := connection_settings connection_path in
    lift (Policy.validate_private_ca_paths settings Op.Connect).

Definition temporary (target : WifiConnectTarget) : bool := bool_decide (tp_remember (t_profile target) = Some false).
Definition as_one_path (reply : list value) : option string := match reply with [VPath p] => Some p | _ => None end.
Definition activate_saved_wifi_connection_for (target : WifiConnectTarget) (password : option string)
    (wep : option WepKeyType) : bus W (option WifiActivation) :=
  if temporary target then ret None
  else
    let! found := saved_wifi_activation_target_for path_error target in
    match found with
    | None => ret None
    | Some (connection_path, device_path, specific_object) =>
      let! _ := prepare_saved_activation connection_path target password wep in
      let! settings := connection_settings connection_path in
      let! id := activation_scope settings connection_path in
      let! active := scoped_request id
        (with_context ("ActivateConnection for saved Wi-Fi profile " +:+ ssid_display (t_ssid target))
           (let! reply := call_method root_proxy "ActivateConnection"
                            [VPath connection_path; VPath device_path; VPath specific_object] in
            lift (ok_or (as_one_path reply) type_error))) in
      ret (Some {| profile_path := connection_path; active_path := active; scope := id |})
    end.

(** ** New profiles *)

Definition VOLATILE : value := of_section {[ "persist" := VStr "volatile" ]}.
Definition as_two_paths (reply : list value) : option (string * string) :=
  match reply with [VPath profile; VPath active] => Some (profile, active) | _ => None end.
Definition as_activation_reply (reply : list value) : option (string * string) :=
  match reply with [VPath profile; VPath active; VDict _] => Some (profile, active) | _ => None end.
Definition new_uuid : bus W string := local ah_uuid.
Definition add_and_activate (target : WifiConnectTarget) (settings : ConnectionSettings)
    (device_path specific_object : string) : bus W WifiActivation :=
  let ssid := ssid_display (t_ssid target) in
  let settings := if temporary target then make_temporary settings else settings in
  let! uuid := new_uuid in
  let settings := with_uuid uuid settings in
  let! id := activation_scope settings "/" in
  let! (profile, active) :=
    (if temporary target then
       scoped_request id (with_context ("temporary activation for Wi-Fi network " +:+ ssid)
         (let! reply := call_method root_proxy "AddAndActivateConnection2"
                          [of_settings settings; VPath device_path; VPath specific_object; VOLATILE] in
          lift (ok_or (as_activation_reply reply) type_error)))
     else
       scoped_request id (with_context ("AddAndActivateConnection for Wi-Fi network " +:+ ssid)
         (let! reply := call_method root_proxy "AddAndActivateConnection"
                          [of_settings settings; VPath device_path; VPath specific_object] in
          lift (ok_or (as_two_paths reply) type_error)))) in
  ret {| profile_path := profile; active_path := active; scope := id |}.

Definition visible_activation_settings (device : WifiDevice) (target : WifiConnectTarget) (ap : AccessPoint)
    (password : option string) (wep : option WepKeyType) : bus W (option ConnectionSettings) :=
  let! saved :=
    if temporary target || bool_decide (is_Some password) || bool_decide (is_Some (t_enterprise target))
    then saved_wifi_connection_settings_for_ap_on_device ap device
    else ret None in
  match saved with
  | Some saved =>
    let! settings := lift (cloned_wifi_connection_settings saved target ap password wep) in ret (Some settings)
  | None =>
    let! settings := lift (visible_connection_settings target ap password wep) in
    match settings with
    | None => ret None
    | Some settings =>
      let! settings := lift (apply_target_profile_settings target settings) in ret (Some settings)
    end
  end.

(** [RequestScan] of [src/nm/scan.rs]. *)
Definition request_scan_for_ssids (device : WifiDevice) (ssids : list (list u8)) : bus W unit :=
  let! wifi := proxy (wd_path device) WIFI_IFACE in
  let options := match ssids with
                 | [] => VDict []
                 | _ => VDict [(VStr "ssids", VVariant (VArray (of_bytes_value <$> ssids)))]
                 end in
  with_context "RequestScan" (call_unit wifi "RequestScan" [options]).
Definition request_hidden_scan (device : WifiDevice) (ssid : list u8) : bus W unit :=
  with_context ("RequestScan hidden SSID on " +:+ wd_iface device) (request_scan_for_ssids device [ssid]).

Definition root_object_path : result string Error :=
  match path_error "/" with None => Ok "/" | Some e => Err (add_context "create root object path" e) end.
Definition add_and_activate_hidden_wifi_connection (target : WifiConnectTarget) (password : option string)
    (wep : option WepKeyType) : bus W (option WifiActivation) :=
  let! devices := wifi_devices_for_target target in
  match devices with
  | [] => ret None
  | device :: _ =>
    let! _ := request_hidden_scan device (ssid_bytes (t_ssid target)) in
    let! settings := lift (hidden_wifi_connection_settings target password wep) in
    let! env := environment in
    let! settings := lift (apply_target_connection_metadata env target settings) in
    let! root := lift root_object_path in
    let! activation := add_and_activate target settings (wd_path device) root in
    ret (Some activation)
  end.
Definition add_and_activate_wifi_connection_for (target : WifiConnectTarget) (password : option string)
    (wep : option WepKeyType) : bus W (option WifiActivation) :=
  if t_hidden target then add_and_activate_hidden_wifi_connection target password wep
  else
    let! found := visible_access_point_for target in
    match found with
    | None => ret None
    | Some (device, ap_path, ap) =>
      let! settings := visible_activation_settings device target ap password wep in
      match settings with
      | None => ret None
      | Some settings =>
        let! env := environment in
        let! settings := lift (apply_target_connection_metadata env target settings) in
        let! activation := add_and_activate target settings (wd_path device) ap_path in
        ret (Some activation)
      end
    end.

(** ** Watching *)

Definition abort_requested_activation (path : string) : bus W unit :=
  let! _ := ensure_current_owner in
  with_context "abort owned Wi-Fi activation" (call_unit root_proxy "DeactivateConnection" [VPath path]).
Definition active_connection_state (path : string) : bus W (option N) :=
  if bool_decide (path = "/") then ret None
  else ok_opt (let! p := proxy path ACTIVE_CONNECTION_IFACE in
               with_context "read ActiveConnection State" (get_property as_u32 p "State")).
Definition wifi_activation_status_for_device (device : WifiDevice) : bus W WifiActivationStatus :=
  let! p := proxy (wd_path device) DEVICE_IFACE in
  let! state := with_context ("read State for " +:+ wd_iface device) (get_property as_u32 p "State") in
  let! reason := with_context ("read StateReason for " +:+ wd_iface device) (get_property as_u32_pair p "StateReason") in
  let! active := with_context ("read ActiveConnection for " +:+ wd_iface device) (get_property as_path p "ActiveConnection") in
  let! active_state := active_connection_state active in
  ret {| ConnectWait.iface := wd_iface device; ConnectWait.device_state := state;
         device_state_reason_codes := reason; active_connection_path := real_path (Some active);
         ConnectWait.active_connection_state := active_state |}.
Definition wifi_activation_device_for_target (target : WifiConnectTarget) : bus W (option WifiDevice) :=
  let! found := visible_access_point_for target in
  match found with
  | Some (device, _, _) => ret (Some device)
  | None => let! devices := wifi_devices_for_target target in ret (head devices)
  end.
Definition wifi_activation_status_for (target : WifiConnectTarget) : bus W (option WifiActivationStatus) :=
  let! device := wifi_activation_device_for_target target in
  match device with
  | None => ret None
  | Some device => let! status := wifi_activation_status_for_device device in ret (Some status)
  end.
End Activate.

(** ** What is added *)

Definition unsaved_flags (s : section) (key : string) : Prop :=
  ∃ f, s !! flags_key key = Some (VU32 f) ∧ N.testbit f 1 = true ∧ N.testbit f 0 = false.
(** Nothing of a temporary connection outlives it: it does not connect by itself, and no
    secret is stored, neither by NetworkManager nor by an agent. *)
Definition volatile_settings (c : ConnectionSettings) : Prop :=
  (∃ s, c !! "connection" = Some s ∧ s !! "autoconnect" = Some (VBool false)) ∧
  ∀ name s key, name ∈ ["802-11-wireless-security"; "802-1x"] → c !! name = Some s → key ∈ known_keys name →
    unsaved_flags s key.

Lemma unsaved_bits old : N.testbit (N.lor (N.ldiff old 1) 2) 1 = true ∧ N.testbit (N.lor (N.ldiff old 1) 2) 0 = false.
Proof.
  rewrite !N.lor_spec, !N.ldiff_spec. change (N.testbit 2 1) with true. change (N.testbit 1 0) with true.
  by rewrite orb_true_r, andb_false_r.
Qed.
Lemma not_saved_keeps keys key s : unsaved_flags s key →
  unsaved_flags (foldl (λ s key,
    let flag_key := flags_key key in
    let old := unwrap_or (setting as_u32 s flag_key) 0%N in
    <[flag_key := VU32 (N.lor (N.ldiff old 1) 2)]> s) s keys) key.
Proof.
  revert s. induction keys as [|k keys IH]; intros s Hs; cbn; [done|]. apply IH.
  destruct (decide (flags_key k = flags_key key)) as [E|E].
  - unfold unsaved_flags. rewrite E, lookup_insert_eq. eexists. split; [done|]. apply unsaved_bits.
  - destruct Hs as (f & Hf & Hb). exists f. by rewrite lookup_insert_ne.
Qed.
Lemma not_saved_unsaved name s key : key ∈ known_keys name → unsaved_flags (not_saved name s) key.
Proof.
  unfold not_saved. generalize (known_keys name) as keys. intros keys. revert s.
  induction keys as [|k keys IH]; intros s; [by intros ?%elem_of_nil|]. cbn.
  intros [->|Hk]%elem_of_cons; [|by apply IH]. apply not_saved_keeps. unfold unsaved_flags.
  rewrite lookup_insert_eq. eexists. split; [done|]. apply unsaved_bits.
Qed.
Lemma make_temporary_volatile c : volatile_settings (make_temporary c).
Proof.
  unfold make_temporary, update_section. split.
  - eexists. rewrite !lookup_alter_ne by done. rewrite lookup_insert_eq. split; [done|]. by rewrite lookup_insert_eq.
  - intros name s key Hn Hs Hk. apply elem_of_cons in Hn as [->|Hn%list_elem_of_singleton]; [|subst name].
    + rewrite lookup_alter_ne, lookup_alter_eq in Hs by done. destruct (_ !! _); [|done]. injection Hs as <-.
      by apply not_saved_unsaved.
    + rewrite lookup_alter_eq in Hs. destruct (alter _ _ _ !! _); [|done]. injection Hs as <-. by apply not_saved_unsaved.
Qed.
Lemma with_uuid_volatile u c : volatile_settings c → volatile_settings (with_uuid u c).
Proof.
  intros [(s & Hs & Ha) Hn]. unfold with_uuid, update_section, section_of. rewrite Hs. cbn. split.
  - eexists. rewrite lookup_insert_eq. split; [done|]. destruct (s !! "uuid"); [done|]. by rewrite lookup_insert_ne.
  - intros name s' key Hin. rewrite lookup_insert_ne; [by apply Hn|].
    intros <-. apply elem_of_cons in Hin as [?|?%list_elem_of_singleton]; done.
Qed.
Lemma with_uuid_named u c : is_Some (section_of "connection" (with_uuid u c) !! "uuid").
Proof.
  unfold with_uuid, update_section, section_of at 1. rewrite lookup_insert_eq. cbn.
  destruct (section_of "connection" c !! "uuid") eqn:E; [by rewrite E|]. by rewrite lookup_insert_eq.
Qed.

Section Facts.
Context {W V : Type} {B : Bus W} {D : DeviceHost W} {SV : ProfileService V} {PS : ProfileStore W V}
  {AH : ActivationHost W}.
Context (path_error : string → option Error).
Implicit Types s : Session W.

(** The two ways to ask for a connection to be added, and what the reply says. *)
Definition add_request (volatile : bool) (c : ConnectionSettings) (device_path object : string)
    (reply : result (list value) Error) : bus_event :=
  if volatile
  then EvCall NM_PATH NM_IFACE "AddAndActivateConnection2"
         [of_settings c; VPath device_path; VPath object; VOLATILE] reply
  else EvCall NM_PATH NM_IFACE "AddAndActivateConnection" [of_settings c; VPath device_path; VPath object] reply.
Definition reply_paths (volatile : bool) (reply : result (list value) Error) : option (string * string) :=
  match reply with Ok l => if volatile then as_activation_reply l else as_two_paths l | Err _ => None end.
Definition new_connection (target : WifiConnectTarget) (c : ConnectionSettings) : Prop :=
  is_Some (section_of "connection" c !! "uuid") ∧ (temporary target = true → volatile_settings c).
Definition added (target : WifiConnectTarget) (device_path object : string) (r : result WifiActivation Error)
    (l : list bus_event) : Prop :=
  (effects l = [] ∧ is_ok r = false) ∨
  ∃ c reply, new_connection target c ∧
    effects l = [add_request (temporary target) c device_path object reply] ∧
    match r with
    | Ok a => reply_paths (temporary target) reply = Some (profile_path a, active_path a)
    | Err _ => reply_paths (temporary target) reply = None
    end.

Definition requested (target : WifiConnectTarget) (r : result (option WifiActivation) Error)
    (reply : result (list value) Error) : Prop :=
  match r with
  | Ok (Some a) => reply_paths (temporary target) reply = Some (profile_path a, active_path a)
  | Ok None => False
  | Err _ => reply_paths (temporary target) reply = None
  end.

Lemma grows_scoped {A} id (m : bus W A) (Q : list bus_event → Prop) (P : A → list bus_event → Prop) :
  grows m (λ r l, match r with Ok a => P a l | Err _ => Q l end) →
  grows (scoped_request id m) (λ r l, match r with Ok a => P a l | Err _ => Q l end).
Proof.
  intros Hm. unfold scoped_request. eapply grows_then; [apply grows_attempt with
    (Q := λ r l, match r with Ok (Ok a) => P a l | Ok (Err _) => Q l | Err _ => False end), Hm|done|].
  intros [a|e] l Hl; [by apply grows_ret; rewrite app_nil_r|].
  eapply grows_then with (P := λ _ l', l' = []).
  - unfold scope_error. eapply grows_then with (P := λ _ l', l' = []); [by apply grows_local|done|].
    intros t l' ->. by apply grows_local.
  - intros e' l' ->. by rewrite app_nil_r.
  - intros e' l' ->. eapply grows_then with (P := λ _ l', l' = []); [by apply grows_local|intros; subst; by rewrite !app_nil_r|].
    intros _ l' ->. apply grows_pure. by rewrite !app_nil_r.
Qed.
Lemma quiet_activation_scope c p : quiet (activation_scope (W:=W) c p).
Proof. unfold activation_scope. quiet_tac. Qed.
Lemma extends_current_owner : extends (current_owner (W:=W)).
Proof. unfold current_owner. destruct (starts_with _ _); [extends_tac|by apply grows_access]. Qed.
Lemma extends_activation_scope c p : extends (activation_scope (W:=W) c p).
Proof. unfold activation_scope, now. extends_tac. apply extends_current_owner. Qed.
(** A request whose reply is decoded, under a scope. *)
Lemma grows_scoped_call {A} id msg p method args (f : list value → option A) :
  grows (scoped_request id (with_context msg
    (let! reply := call_method (W:=W) p method args in lift (ok_or (f reply) type_error))))
    (λ r l, ∃ reply, l = [EvCall (p_path p) (p_iface p) method args reply] ∧
       match r with
       | Ok a => ∃ v, reply = Ok v ∧ f v = Some a
       | Err _ => match reply with Ok v => f v = None | Err _ => True end
       end).
Proof.
  eapply grows_mono; [apply (grows_scoped id _
    (λ l, ∃ reply, l = [EvCall (p_path p) (p_iface p) method args reply] ∧
       match reply with Ok v => f v = None | Err _ => True end)
    (λ a l, ∃ reply, l = [EvCall (p_path p) (p_iface p) method args reply] ∧ ∃ v, reply = Ok v ∧ f v = Some a))|by intros [a|e]].
  apply grows_with_context. eapply grows_then; [apply grows_call| |].
  - intros e l ->. eexists. by split.
  - intros v l ->. apply grows_pure. destruct (f v) eqn:E; (eexists; split; [done|]); [|exact E]. by exists v.
Qed.

Lemma grows_add_and_activate target c device_path object :
  grows (add_and_activate target c device_path object) (added target device_path object).
Proof.
  unfold add_and_activate. eapply grows_then with (P := λ _ l, l = []); [by apply grows_local|by intros e l ->; left|].
  intros uuid l ->. set (c' := with_uuid uuid _).
  assert (new_connection target c') as Hc.
  { split; [apply with_uuid_named|]. intros Ht. apply with_uuid_volatile. rewrite Ht. apply make_temporary_volatile. }
  clearbody c'. eapply grows_then; [apply quiet_grows_nil; [apply quiet_activation_scope|apply extends_activation_scope]|by left|].
  intros id l Hl.
  eapply grows_then with (P := λ r l, ∃ reply, l = [add_request (temporary target) c' device_path object reply] ∧
    match r with Ok a => reply_paths (temporary target) reply = Some a | Err _ => reply_paths (temporary target) reply = None end).
  - destruct (temporary target); (eapply grows_mono; [apply grows_scoped_call|]);
      intros [a|e] l' (reply & -> & Hr); exists reply; (split; [done|]); cbn;
      first [by destruct Hr as (v & -> & Hr)|by destruct reply].
  - intros e l' (reply & -> & Hr). right. exists c', reply. split; [done|].
    rewrite !effects_app, Hl. split; [by destruct (temporary target)|done].
  - intros [profile active] l' (reply & -> & Hr). apply grows_ret. right. exists c', reply. split; [done|].
    rewrite app_nil_r, !effects_app, Hl. split; [by destruct (temporary target)|done].
Qed.

Definition scan_request (device_path : string) (ssid : list u8) (reply : result (list value) Error) : bus_event :=
  EvCall device_path WIFI_IFACE "RequestScan" [VDict [(VStr "ssids", VVariant (VArray [of_bytes_value ssid]))]] reply.
(** What connecting to a network without a usable profile does: nothing when it does not
    lead to a request, a scan for the SSID and then the connection, on the same device,
    when the network is hidden, and otherwise the connection alone. *)
Inductive connects (target : WifiConnectTarget) : result (option WifiActivation) Error → list bus_event → Prop :=
  | ConnectsNothing r : r = Ok None ∨ is_ok r = false → connects target r []
  | ConnectsScan e device_path reply : t_hidden target = true →
      connects target (Err e) [scan_request device_path (ssid_bytes (t_ssid target)) reply]
  | ConnectsHidden r c device_path reply : t_hidden target = true → new_connection target c →
      requested target r reply →
      connects target r [scan_request device_path (ssid_bytes (t_ssid target)) (Ok []);
                         add_request (temporary target) c device_path "/" reply]
  | ConnectsVisible r c device_path object reply : t_hidden target = false → new_connection target c →
      requested target r reply →
      connects target r [add_request (temporary target) c device_path object reply].

Lemma grows_request_scan device ssid :
  grows (request_scan_for_ssids (W:=W) device [ssid]) (λ r l,
    (effects l = [] ∧ is_ok r = false) ∨
    ∃ reply, effects l = [scan_request (wd_path device) ssid reply] ∧ (is_ok r = true ↔ reply = Ok [])).
Proof.
  unfold request_scan_for_ssids. eapply grows_then; [apply grows_proxy|by intros e l [-> _]; left|].
  intros p l [-> ->]. apply grows_with_context. eapply grows_mono; [apply grows_call_unit_ok|].
  intros r l (reply & -> & Hr). right. exists reply. split; [done|]. by destruct r.
Qed.
Lemma grows_hidden_scan device ssid :
  grows (request_hidden_scan (W:=W) device ssid) (λ r l,
    (effects l = [] ∧ is_ok r = false) ∨
    ∃ reply, effects l = [scan_request (wd_path device) ssid reply] ∧ (is_ok r = true ↔ reply = Ok [])).
Proof.
  apply grows_with_context. eapply grows_mono; [apply grows_request_scan|]. by intros [a|e] l.
Qed.
Lemma quiet_settings_for_ap_on_device ap device :
  quiet (saved_wifi_connection_settings_for_ap_on_device (W:=W) ap device).
Proof. unfold saved_wifi_connection_settings_for_ap_on_device. quiet_tac. Qed.
#[local] Hint Resolve quiet_settings_for_ap_on_device quiet_visible_for quiet_devices_for_target : bus_quiet.
Lemma extends_devices_for_target t : extends (wifi_devices_for_target (W:=W) t).
Proof. unfold wifi_devices_for_target. extends_tac. Qed.
#[local] Hint Resolve extends_devices_for_target extends_access_point extends_connection_settings extends_nonempty_string : bus_extends.
Lemma extends_visible_for t : extends (visible_access_point_for (W:=W) t).
Proof.
  unfold visible_access_point_for, visible_access_point_matching, find_visible_access_point, device_access_points,
    read_visible_access_point. extends_tac.
Qed.
Lemma extends_settings_for_ap_on_device ap device :
  extends (saved_wifi_connection_settings_for_ap_on_device (W:=W) ap device).
Proof.
  unfold saved_wifi_connection_settings_for_ap_on_device, saved_wifi_connection_for_ap_on_device, find_path,
    available_connections, connection_matches_access_point. extends_tac.
Qed.
#[local] Hint Resolve extends_visible_for extends_settings_for_ap_on_device : bus_extends.
Lemma nil_visible_settings device target ap password wep :
  grows (visible_activation_settings (W:=W) device target ap password wep) (λ _ l, effects l = []).
Proof. apply quiet_grows_nil; unfold visible_activation_settings; [quiet_tac|extends_tac]. Qed.

(** A step without effects before a computation whose effects are described. *)
Lemma grows_after_quiet {A C} (m : bus W A) (k : A → bus W C) (Q : result C Error → list bus_event → Prop) :
  grows m (λ _ l, effects l = []) → (∀ e, Q (Err e) []) → (∀ a, grows (k a) (λ r l, Q r (effects l))) →
  grows (bind m k) (λ r l, Q r (effects l)).
Proof.
  intros Hm He Hk. eapply grows_then; [exact Hm|by intros e l ->|]. intros a l Hl. eapply grows_mono; [apply Hk|].
  intros r l'. by rewrite effects_app, Hl.
Qed.
Lemma grows_lift_bind {A C} (x : result A Error) (k : A → bus W C) (Q : result C Error → list bus_event → Prop) :
  (∀ e, Q (Err e) []) → (∀ a, x = Ok a → grows (k a) Q) → grows (bind (lift x) k) Q.
Proof. intros He Hk. destruct x as [a|e]; [apply (Hk a eq_refl)|by apply grows_pure]. Qed.

Lemma added_connects target device_path object r l :
  added target device_path object r l → t_hidden target = false →
  connects target (result_map Some r) (effects l).
Proof.
  intros [[-> Hr]|(c & reply & Hc & -> & Hr)] Hh; [apply ConnectsNothing; right; by destruct r|].
  apply ConnectsVisible; [done|done|by destruct r].
Qed.
Lemma grows_hidden target password wep : t_hidden target = true →
  grows (add_and_activate_hidden_wifi_connection path_error target password wep) (λ r l, connects target r (effects l)).
Proof.
  intros Hh. unfold add_and_activate_hidden_wifi_connection.
  apply grows_after_quiet; [apply quiet_grows_nil; [quiet_tac|extends_tac]|by intros; apply ConnectsNothing; right|].
  intros [|device rest]; [apply grows_ret, ConnectsNothing; by left|].
  eapply grows_then; [apply grows_hidden_scan| |].
  { intros e l [[-> _]|(reply & -> & _)]; [apply ConnectsNothing; by right|by apply ConnectsScan]. }
  intros u l [[_ [=]]|(reply & Hl & Hok)]. apply proj1 in Hok. specialize (Hok eq_refl). subst reply.
  set (Q := λ (r : result (option WifiActivation) Error) l', connects target r (effects (l ++ l'))).
  assert (∀ e, Q (Err e) []) as He by (intros e; unfold Q; rewrite app_nil_r, Hl; by apply ConnectsScan).
  apply grows_lift_bind; [done|]. intros c _. apply grows_local_then. intros env.
  apply grows_lift_bind; [done|]. intros c' _. apply grows_lift_bind; [done|].
  intros root Hroot. assert (root = "/") as -> by (unfold root_object_path in Hroot; destruct (path_error "/"); congruence).
  eapply grows_then; [apply grows_add_and_activate| |].
  - intros e l' [[Hl' _]|(c1 & reply1 & Hc & Hl' & Hr)]; unfold Q; rewrite effects_app, Hl, Hl'.
    + by apply ConnectsScan.
    + by apply ConnectsHidden.
  - intros a l' [[_ [=]]|(c1 & reply1 & Hc & Hl' & Hr)]. apply grows_ret. unfold Q.
    rewrite app_nil_r, effects_app, Hl, Hl'. by apply ConnectsHidden.
Qed.
Lemma grows_visible target password wep : t_hidden target = false →
  grows (add_and_activate_wifi_connection_for path_error target password wep) (λ r l, connects target r (effects l)).
Proof.
  intros Hh. unfold add_and_activate_wifi_connection_for. rewrite Hh.
  assert (∀ (r : result (option WifiActivation) Error), r = Ok None ∨ is_ok r = false → connects target r []) as Hnone
    by (intros; by apply ConnectsNothing).
  apply grows_after_quiet; [apply quiet_grows_nil; [quiet_tac|extends_tac]|by intros; apply Hnone; right|].
  intros [[[device ap_path] ap]|]; [|apply grows_ret, Hnone; by left].
  apply grows_after_quiet; [apply nil_visible_settings|by intros; apply Hnone; right|].
  intros [c|]; [|apply grows_ret, Hnone; by left].
  apply grows_local_then. intros env. apply grows_lift_bind; [intros; apply Hnone; by right|]. intros c' _.
  eapply grows_then; [apply grows_add_and_activate| |].
  - intros e l' Ha%added_connects; done.
  - intros a l' Ha%added_connects; [|done]. apply grows_ret. by rewrite app_nil_r.
Qed.

(** C15. Connecting to a network that needs a new profile: nothing is changed, or one
    connection is added and activated, which carries a UUID. Only for a hidden network is anything asked before, a scan for exactly its
    SSID, on the device the connection is then activated on, and no connection is added
    unless that request is accepted. A connection that is not to be remembered is added as
    volatile, does not connect by itself, and has the flags of every known secret set so
    that neither NetworkManager nor an agent stores it. The result has the paths of the
    reply, and a failure, no result, when the reply had none. *)
Theorem new_connection_exact target password wep s :
  ∃ l, trace (add_and_activate_wifi_connection_for path_error target password wep s).2 = trace s ++ l ∧
    connects target (add_and_activate_wifi_connection_for path_error target password wep s).1 (effects l).
Proof.
  destruct (t_hidden target) eqn:Hh; [|by apply grows_visible].
  unfold add_and_activate_wifi_connection_for. rewrite Hh. by apply grows_hidden.
Qed.

(** ** What activating a saved profile does *)

Definition activate_request (path device_path object : string) (reply : result (list value) Error) : bus_event :=
  EvCall NM_PATH NM_IFACE "ActivateConnection" [VPath path; VPath device_path; VPath object] reply.
Definition credentials_given (target : WifiConnectTarget) (password : option string) : bool :=
  bool_decide (is_Some password) || bool_decide (is_Some (t_enterprise target)).
(** What preparing the profile at [path] did: it was only ever updated, and only to store
    credentials that were given. *)
Definition prepared (target : WifiConnectTarget) (password : option string) (path : string) (l : list bus_event) : Prop :=
  ∃ ws : list (write (S:=V)), l = update_event path <$> ws ∧ (credentials_given target password = false → ws = []).
Definition activated (target : WifiConnectTarget) (password : option string) (path device_path object : string)
    (r : result (option WifiActivation) Error) (l : list bus_event) : Prop :=
  (is_ok r = false ∧ prepared target password path l) ∨
  ∃ p reply, prepared target password path p ∧ l = p ++ [activate_request path device_path object reply] ∧
    match r with
    | Ok (Some a) => profile_path a = path ∧ reply = Ok [VPath (active_path a)]
    | Ok None => False
    | Err _ => ∀ active, reply ≠ Ok [VPath active]
    end.

Lemma effects_updates path (ws : list (write (S:=V))) : effects (update_event path <$> ws) = update_event path <$> ws.
Proof. induction ws as [|w ws IH]; [done|]. exact (f_equal (cons _) IH). Qed.
Lemma grows_prepare path target password wep :
  grows (prepare_saved_activation (V:=V) path target password wep) (λ _ l, prepared target password path (effects l)).
Proof.
  unfold prepare_saved_activation. fold (credentials_given target password).
  assert (prepared target password path []) as Hnil by (by exists []).
  destruct (credentials_given target password) eqn:Hg.
  - eapply grows_then; [apply quiet_grows_nil; [quiet_tac|extends_tac]|by intros e l ->|]. intros visible l Hl.
    apply grows_local_then. intros env s.
    unfold store_credential. match goal with |- context [profile_io path ?m s] => destruct (profile_io_trace path m s) as (ws & Hws) end.
    exists (update_event path <$> ws). split; [exact Hws|]. rewrite effects_app, Hl, effects_updates.
    exists ws. by rewrite Hg.
  - eapply grows_then; [apply quiet_grows_nil; [quiet_tac|extends_tac]|by intros e l ->|].
    intros c l Hl. apply grows_pure. by rewrite effects_app, Hl.
Qed.
Lemma extends_activation_target t : extends (saved_wifi_activation_target_for (W:=W) path_error t).
Proof.
  unfold saved_wifi_activation_target_for, visible_saved_activation_target, generic_saved_activation_target,
    saved_wifi_connection_for_ssid, connection_matches_ssid, saved_wifi_connection_for_ap_on_device, find_path, available_connections,
    connection_matches_access_point. extends_tac.
Qed.
Lemma as_one_path_reply reply : match as_one_path reply with Some p => reply = [VPath p] | None => ∀ p, reply ≠ [VPath p] end.
Proof. by destruct reply as [|[] []]. Qed.

End Facts.
