(* ===== verification/Await.v ===== *)
(** * Waiting for an activation on the bus ([src/connect_wait.rs], [src/connect_cancel.rs])

    The loop of [wait_for_active_target_path] with its reads of NetworkManager: what each
    round reads, and the requests that abort an activation. The decisions are those of
    ConnectWait.v, and the loop is shown to run its rounds. *)
From S2P Require Import Prelude Errors Text Identity Network Variant Scan Bus Events Inventory Devices Saved Status WifiStatus CacheHost Activation ConnectWait Activate.
From Stdlib Require Import ZArith Lia Ascii.
From stdpp Require Import prelude gmap strings list.
Open Scope bus_scope.

Section Await.
Context {W : Type} {B : Bus W} {D : DeviceHost W} {AH : ActivationHost W} {EV : NetworkEvents W} {CH : CacheHost W}.

(** [abort_activation], and [abort_requested]: best effort. *)
Definition abort_activation (target : WifiConnectTarget) : bus W unit :=
  let! _ := attempt (disconnect_and_clear (ssid_bytes (t_ssid target))) in ret tt.
Definition abort_path (path : option string) : bus W unit :=
  match path with
  | Some p => let! _ := attempt (abort_requested_activation p) in ret tt
  | None => ret tt
  end.
Definition check_cancelled_and_abort (target : WifiConnectTarget) : bus W unit :=
  let! c := cancellation in
  if cancellation_requested c then
    let! _ := abort_activation target in lift (Err cancelled_error)
  else ret tt.

(** [state.error()]. *)
Definition scope_failure (id : N) : bus W (option Error) :=
  let! t := now in
  local (λ w, match heap (ah_scopes w) !! id with
              | Some s => let (s, e) := error t s in (e, ah_put_scopes (alter_state (λ _, s) id (ah_scopes w)) w)
              | None => (None, w)
              end).
Definition check_scope (scope : option N) : bus W (option Error) :=
  match scope with Some id => scope_failure id | None => ret None end.
Definition scoped_failure (path : option string) (scope : option N) (e : Error) : bus W Error :=
  match scope with
  | None => ret e
  | Some id =>
    let! e := scope_error id e in
    let! still := scope_failure id in
    let! _ := if bool_decide (is_Some still) then abort_path path else ret tt in
    ret e
  end.

Definition activation_observation (device : option WifiDevice) (target : WifiConnectTarget) :
    bus W (bool * option WifiActivationStatus) :=
  match device with
  | Some device =>
    let! matches := active_ssid_matches_on_device device target in
    let! status := wifi_activation_status_for_device device in
    ret (matches, Some status)
  | None =>
    let! matches := active_ssid_matches target in
    let! status := wifi_activation_status_for target in
    ret (matches, status)
  end.

Section Loop.
Context (target : WifiConnectTarget) (path : option string) (scope : option N) (device : option WifiDevice) (dl : Deadline).

Definition read_observation : bus W Observation :=
  let! requested := match path with Some p => active_connection_state p | None => ret None end in
  let! (matches, status) := activation_observation device target in
  let! t := now in
  ret {| o_status := status; o_ssid_matches := matches; o_requested_state := requested; o_now := t |}.
(** One round: [None] when the target is active. *)
Definition await_round (w : ActivationWait) : bus W (option ActivationWait) :=
  let! _ := check_cancelled_and_abort target in
  let! stopped := check_scope scope in
  match stopped with
  | Some e => let! _ := abort_path path in lift (Err e)
  | None =>
    let! t := now in
    if expired t dl then let! _ := abort_path path in lift (Err (timeout_error target w))
    else
      let! o := read_observation in
      let (w, r) := observe target path o w in
      match r with
      | Ok true => ret None
      | Ok false => ret (Some w)
      | Err e => let! e := scoped_failure path scope e in lift (Err e)
      end
  end.
(** [None] when the rounds are used up. *)
Fixpoint await_rounds (rounds : nat) (w : ActivationWait) (generation : N) : bus W (option unit) :=
  match rounds with
  | O => ret None
  | S rounds =>
    let! next := await_round w in
    match next with
    | None => ret (Some tt)
    | Some w =>
      let! t := now in
      let! generation := wait_for_event generation (next_wake w dl t) in
      await_rounds rounds w generation
    end
  end.
End Loop.

Definition deadline_of (scope : option N) : bus W Deadline :=
  let! t := now in
  local (λ w, ({| at_instant := match scope ≫= λ id, heap (ah_scopes w) !! id with
                                | Some s => Activation.deadline s
                                | None => t + ACTIVATION_TIMEOUT
                                end |}, w)).
Definition wait_for_active_target_path (rounds : nat) (target : WifiConnectTarget) (path : option string)
    (scope : option N) : bus W (option unit) :=
  let! device := wifi_activation_device_for_target target in
  let! dl := deadline_of scope in
  let! generation := event_generation in
  await_rounds target path scope device dl rounds wait_default generation.
Definition wait_for_active_target (rounds : nat) (target : WifiConnectTarget) : bus W (option unit) :=
  wait_for_active_target_path rounds target None None.
End Await.

(** ** What a wait does to NetworkManager *)

Section Effects.
Context {W : Type} {B : Bus W} {D : DeviceHost W} {AH : ActivationHost W} {EV : NetworkEvents W} {CH : CacheHost W}.
Implicit Types s : Session W.

Definition aborted (path : string) (l : list bus_event) : Prop :=
  effects l = [] ∨ ∃ reply, effects l = [EvCall NM_PATH NM_IFACE "DeactivateConnection" [VPath path] reply].
Definition carried_out (e : Effect) (l : list bus_event) : Prop :=
  match e with
  | AbortActivation ssid => disconnected_by ssid false l
  | AbortRequested path => aborted path l
  end.
(** What is asked of NetworkManager carries out the effects decided on: none or one. *)
Definition does (fx : list Effect) (l : list bus_event) : Prop :=
  match fx with [] => effects l = [] | [e] => carried_out e l | _ => False end.

Lemma does_after fx l l' : effects l = [] → does fx l' → does fx (l ++ l').
Proof.
  intros Hl. destruct fx as [|[ssid|path] [|]]; cbn; try done.
  - by rewrite effects_app, Hl.
  - intros Hd. apply disconnected_app; [by apply disconnected_quiet|exact Hd].
  - unfold aborted. by rewrite effects_app, Hl.
Qed.
Lemma extends_now' : extends (now (W:=W)).
Proof. apply extends_local. Qed.
Lemma grows_abort_path path : grows (abort_path (W:=W) path) (λ r l, r = Ok tt ∧ does (abort_requested path) l).
Proof.
  destruct path as [p|]; [|by apply grows_ret]. unfold abort_path. eapply grows_then with (P := λ r l, is_ok r = true ∧ aborted p l).
  - apply grows_attempt. unfold abort_requested_activation. eapply grows_then.
    + apply quiet_grows_nil; [apply quiet_ensure_current_owner|]. unfold ensure_current_owner.
      destruct (starts_with _ _); [|extends_tac]. apply extends_bind; [apply extends_current_owner|extends_tac].
    + intros e l Hl. split; [done|]. by left.
    + intros [] l Hl. apply grows_with_context. eapply grows_mono; [apply grows_call_unit|].
      intros r l' (reply & ->). split; [by destruct r|]. right. exists reply. by rewrite effects_app, Hl.
  - by intros e l [? _].
  - intros r l [_ Hl]. apply grows_ret. by rewrite app_nil_r.
Qed.
Lemma grows_abort_activation target :
  grows (abort_activation (W:=W) target) (λ r l, r = Ok tt ∧ does [AbortActivation (ssid_bytes (t_ssid target))] l).
Proof.
  unfold abort_activation.
  eapply grows_then with (P := λ r l, is_ok r = true ∧ disconnected_by (ssid_bytes (t_ssid target)) false l).
  - apply grows_attempt. eapply grows_mono; [apply grows_disconnect_and_clear|]. intros r l [Hl _]. split; [done|].
    intros e (path & reply & ? & ? & _)%Hl. by exists path, reply.
  - by intros e l [? _].
  - intros r l [_ Hl]. apply grows_ret. by rewrite app_nil_r.
Qed.
Lemma quiet_ssid_on_device d t : quiet (active_ssid_matches_on_device (W:=W) d t).
Proof.
  pose proof (quiet_active_access_point (W:=W)). pose proof (quiet_access_point (W:=W)).
  unfold active_ssid_matches_on_device. quiet_tac.
Qed.
Lemma extends_ssid_on_device d t : extends (active_ssid_matches_on_device (W:=W) d t).
Proof.
  pose proof (extends_access_point (W:=W)). unfold active_ssid_matches_on_device, active_access_point. extends_tac.
Qed.
Lemma quiet_read_observation target path device : quiet (read_observation (W:=W) target path device).
Proof.
  pose proof (quiet_visible_for (W:=W)). pose proof (quiet_devices_for_target (W:=W)). pose proof quiet_ssid_on_device.
  unfold read_observation, activation_observation, active_ssid_matches, any_device,
    wifi_activation_status_for, wifi_activation_status_for_device, wifi_activation_device_for_target, active_connection_state.
  quiet_tac.
Qed.
Lemma extends_read_observation target path device : extends (read_observation (W:=W) target path device).
Proof.
  pose proof (extends_visible_for (W:=W)). pose proof (extends_devices_for_target (W:=W)). pose proof extends_ssid_on_device.
  pose proof extends_now'.
  unfold read_observation, activation_observation, active_ssid_matches, any_device,
    wifi_activation_status_for, wifi_activation_status_for_device, wifi_activation_device_for_target, active_connection_state.
  extends_tac.
Qed.
Lemma quiet_activation_device t : quiet (wifi_activation_device_for_target (W:=W) t).
Proof.
  pose proof (quiet_visible_for (W:=W)). pose proof (quiet_devices_for_target (W:=W)).
  unfold wifi_activation_device_for_target. quiet_tac.
Qed.
Lemma extends_activation_device t : extends (wifi_activation_device_for_target (W:=W) t).
Proof.
  pose proof (extends_visible_for (W:=W)). pose proof (extends_devices_for_target (W:=W)).
  unfold wifi_activation_device_for_target. extends_tac.
Qed.
End Effects.

(** What is read moves the world only the way accesses do. *)
Section Order.
Context {W : Type} {B : Bus W} {D : DeviceHost W} {AH : ActivationHost W} (R : W → W → Prop) {O : BusOrder R}.
Lemma forward_ssid_on_device d t : along R (active_ssid_matches_on_device (W:=W) d t).
Proof. unfold active_ssid_matches_on_device, active_access_point, access_point, access_point_last_seen_age_ms. forward_tac. Qed.
Lemma forward_read_visible d p a : along R (read_visible_access_point (W:=W) d p a).
Proof. unfold read_visible_access_point, access_point, access_point_last_seen_age_ms. forward_tac. Qed.
Lemma forward_devices t : along R (wifi_devices_for_target (W:=W) t).
Proof. unfold wifi_devices_for_target, wifi_devices, wifi_device. forward_tac. Qed.
Lemma forward_visible_for t : along R (visible_access_point_for (W:=W) t).
Proof.
  pose proof forward_read_visible. pose proof forward_devices.
  unfold visible_access_point_for, visible_access_point_matching, find_visible_access_point, device_access_points. forward_tac.
Qed.
Lemma forward_activation_device t : along R (wifi_activation_device_for_target (W:=W) t).
Proof.
  pose proof forward_visible_for. pose proof forward_devices. unfold wifi_activation_device_for_target. forward_tac.
Qed.
Lemma forward_observation target path device : along R (read_observation (W:=W) target path device).
Proof.
  pose proof forward_activation_device. pose proof forward_devices. pose proof forward_ssid_on_device.
  unfold read_observation, activation_observation, active_ssid_matches, any_device, now,
    wifi_activation_status_for, wifi_activation_status_for_device, active_connection_state. forward_tac.
Qed.
End Order.

(** ** The rounds of the loop *)

(** Others change the state of an activation by its operations only. *)
Definition scopes_evolve {W} {AH : ActivationHost W} (w w' : W) : Prop :=
  ∀ id st, heap (ah_scopes w) !! id = Some st → ∃ ops, heap (ah_scopes w') !! id = Some (others ops st).
Class ScopeLaws (W : Type) {B : Bus W} {AH : ActivationHost W} {EV : NetworkEvents W} : Prop := {
  scopes_order :: BusOrder (scopes_evolve (W:=W));
  scopes_put a w : ah_scopes (ah_put_scopes a w) = a;
  scopes_wait g d w : scopes_evolve w (ev_wait g d w).2;
}.

Section Refinement.
Context {W : Type} {B : Bus W} {D : DeviceHost W} {AH : ActivationHost W} {EV : NetworkEvents W} {CH : CacheHost W}.
Context {SL : ScopeLaws W}.
Implicit Types s : Session W.

(** The state of the scope, as the loop last knew it, and what others did to it since. *)
Definition scope_seen (scope : option N) (st : option State) (w : W) : Prop :=
  match scope, st with
  | None, None => True
  | Some id, Some st => ∃ ops, heap (ah_scopes w) !! id = Some (others ops st)
  | _, _ => False
  end.
Lemma others_app a b st : others b (others a st) = others (a ++ b) st.
Proof. unfold others. by rewrite foldl_app. Qed.
Lemma scope_seen_evolves scope st w w' : scopes_evolve w w' → scope_seen scope st w → scope_seen scope st w'.
Proof.
  intros Hw. destruct scope as [id|], st as [st|]; cbn; try done. intros (ops & (ops' & Ho)%Hw).
  exists (ops ++ ops'). by rewrite <-others_app.
Qed.
Lemma scope_seen_others scope st w ops :
  scope_seen scope (others ops <$> st) w → scope_seen scope st w.
Proof.
  destruct scope, st as [st|]; cbn; try done. intros (ops' & H). exists (ops ++ ops'). by rewrite <-others_app.
Qed.

(** Checking the scope is the check of the state it has by then. *)
Lemma check_scope_run scope st s : scope_seen scope st (world s) →
  ∃ ops o s', check_scope scope s = (Ok o, s') ∧ trace s' = trace s ∧
    let checked := error (bus_now (world s)) <$> (others ops <$> st) in
    o = checked ≫= snd ∧ scope_seen scope (fst <$> checked) (world s').
Proof.
  destruct scope as [id|], st as [st|]; try done; [|by exists [], None, s].
  intros (ops & Hst). unfold check_scope, scope_failure. rewrite (step_Ok now _ s (bus_now (world s)) s) by (by destruct s).
  unfold local. rewrite Hst.
  destruct (error (bus_now (world s)) (others ops st)) as [st' o] eqn:E. exists ops, o. eexists. split; [done|].
  split; [done|]. cbn -[error activation_error]. rewrite E. split; [done|]. exists [].
  rewrite scopes_put. unfold alter_state. cbn -[error activation_error]. by rewrite lookup_alter_eq, Hst.
Qed.
Lemma scope_error_run id st e s : scope_seen (Some id) (Some st) (world s) →
  ∃ ops e' s', scope_error id e s = (Ok e', s') ∧ trace s' = trace s ∧
    let failed := activation_error (bus_now (world s)) e (others ops st) in
    e' = failed.2 ∧ scope_seen (Some id) (Some failed.1) (world s').
Proof.
  intros (ops & Hst). unfold scope_error. rewrite (step_Ok now _ s (bus_now (world s)) s) by (by destruct s).
  unfold local. rewrite Hst.
  destruct (activation_error (bus_now (world s)) e (others ops st)) as [st' o] eqn:E. exists ops, o. eexists. split; [done|].
  split; [done|]. cbn -[error activation_error]. rewrite E. split; [done|]. exists [].
  rewrite scopes_put. unfold alter_state. cbn -[error activation_error]. by rewrite lookup_alter_eq, Hst.
Qed.
Lemma scoped_failure_run path scope st e s : scope_seen scope st (world s) →
  ∃ late t3 last t4, ∀ c ops t1 t2 o,
    let r := {| r_cancelled := c; r_scope_ops := ops; r_checked := t1; r_now := t2; r_observation := o;
                r_late_ops := late; r_failed := t3; r_last_ops := last; r_still := t4 |} in
    ∃ st' e' fx l, activation_scope_error path r st e = (st', e', fx) ∧
      (scoped_failure path scope e s).1 = Ok e' ∧
      trace (scoped_failure path scope e s).2 = trace s ++ l ∧ does fx l.
Proof.
  intros Hs. destruct scope as [id|], st as [st|]; try done.
  - destruct (scope_error_run id st e s Hs) as (late & e' & s1 & E1 & T1 & He & Hs1). cbv zeta in He, Hs1.
    destruct (check_scope_run (Some id) (Some _) s1 Hs1) as (last & still & s2 & E2 & T2 & Hstill & _). cbn [check_scope] in E2.
    exists late, (bus_now (world s)), last, (bus_now (world s1)). intros c ops t1 t2 o r.
    unfold activation_scope_error, scoped_failure, r. cbn [r_failed r_late_ops r_still r_last_ops].
    rewrite (step_Ok _ _ _ _ _ E1), (step_Ok _ _ _ _ _ E2). cbn [fmap option_fmap option_map option_bind mbind] in Hstill.
    destruct (activation_error (bus_now (world s)) e (others late st)) as [st1 e1]. cbn [fst snd] in *. subst e'.
    destruct (error (bus_now (world s1)) (others last st1)) as [st2 o2]. cbn [fst snd] in Hstill. subst still.
    case_bool_decide as Ho; do 3 eexists.
    + destruct Ho as [x ->]. destruct (grows_abort_path path s2) as (l & Hl & Hok & Hd).
      destruct (abort_path path s2) as [r2 s3] eqn:E3. cbn [fst snd] in *. subst r2.
      exists l. rewrite (step_Ok _ _ _ _ _ E3). cbn [ret fst snd]. split; [done|]. split; [done|].
      rewrite Hl, T2, T1. by split.
    + destruct o2 as [x|]; [destruct Ho; eauto|]. exists []. rewrite (step_Ok _ _ s2 tt s2 eq_refl), app_nil_r. cbn [ret fst snd].
      split_and!; [done|done|congruence|done].
  - exists [], 0%N, [], 0%N. intros. exists None, e, [], []. by rewrite app_nil_r.
Qed.

Lemma abort_then_fail {A} path (e : Error) s :
  ∃ l s', (let! _ := abort_path path in lift (Err e)) s = (@Err A Error e, s') ∧ trace s' = trace s ++ l ∧
    does (abort_requested path) l.
Proof.
  destruct (grows_abort_path path s) as (l & Hl & Hok & Hd). destruct (abort_path path s) as [r s1] eqn:E.
  cbn [fst snd] in *. subst r. exists l, s1. by rewrite (step_Ok _ _ _ _ _ E).
Qed.

(** What is read of NetworkManager in a round, and what follows from it. *)
Definition decide_on (target : WifiConnectTarget) (path : option string) (scope : option N) (device : option WifiDevice)
    (w : ActivationWait) : bus W (option ActivationWait) :=
  let! o := read_observation target path device in
  let (w, r) := observe target path o w in
  match r with
  | Ok true => ret None
  | Ok false => ret (Some w)
  | Err e => let! e := scoped_failure path scope e in lift (Err e)
  end.
Definition decided (target : WifiConnectTarget) (path : option string) (scope : option N) (w : ActivationWait) (st : option State)
    (result : result (option ActivationWait) Error) (s' : Session W) (l : list bus_event) (r : Round) : Prop :=
  match r_observation r with
  | Err e => result = Err e ∧ effects l = []
  | Ok o =>
    let (w', x) := observe target path o w in
    match x with
    | Ok true => result = Ok None ∧ effects l = []
    | Ok false => result = Ok (Some w') ∧ scope_seen scope st (world s') ∧ effects l = []
    | Err e => let '(_, e', fx) := activation_scope_error path r st e in result = Err e' ∧ does fx l
    end
  end.
Lemma decide_refines target path scope device w st s : scope_seen scope st (world s) →
  ∃ obs late t3 last t4 l, trace (decide_on target path scope device w s).2 = trace s ++ l ∧
    ∀ c ops t1 t2, decided target path scope w st (decide_on target path scope device w s).1
      (decide_on target path scope device w s).2 l
      {| r_cancelled := c; r_scope_ops := ops; r_checked := t1; r_now := t2; r_observation := obs;
         r_late_ops := late; r_failed := t3; r_last_ops := last; r_still := t4 |}.
Proof.
  intros Hs. unfold decide_on, decided.
  destruct (quiet_grows_nil _ (quiet_read_observation target path device) (extends_read_observation target path device) s)
    as (l & Hl & Hn).
  apply (scope_seen_evolves scope st (world s) _ (forward_observation scopes_evolve target path device s)) in Hs.
  destruct (read_observation target path device s) as [[o|e] s1] eqn:E1; cbn [fst snd] in Hl, Hs.
  2: { exists (Err e), [], 0%N, [], 0%N, l. rewrite (step_Err _ _ _ _ _ E1). by split. }
  rewrite (step_Ok _ _ _ _ _ E1). destruct (observe target path o w) as [w' [[]|e]] eqn:Eo.
  - exists (Ok o), [], 0%N, [], 0%N, l. split; [done|]. intros. cbn [r_observation]. rewrite Eo. by split.
  - exists (Ok o), [], 0%N, [], 0%N, l. split; [done|]. intros. cbn [r_observation]. rewrite Eo. by split.
  - destruct (scoped_failure_run path scope st e s1 Hs) as (late & t3 & last & t4 & Hf).
    destruct (Hf false [] 0%N 0%N (Ok o)) as (st0 & e' & fx & l' & _ & He & Hl' & _).
    destruct (scoped_failure path scope e s1) as [r2 s2] eqn:E2. cbn [fst snd] in He, Hl'. subst r2.
    rewrite (step_Ok _ _ _ _ _ E2). exists (Ok o), late, t3, last, t4, (l ++ l'). split; [by rewrite app_assoc, <-Hl|].
    intros c ops t1 t2. cbn [r_observation]. rewrite Eo. specialize (Hf c ops t1 t2 (Ok o)) as (st1 & e1 & fx1 & l1 & -> & He & Hl1 & Hd).
    cbn [fst snd] in He, Hl1. injection He as <-. rewrite Hl' in Hl1. apply app_inv_head in Hl1 as <-.
    split; [done|]. by apply does_after.
Qed.
(** What a round of the loop does is what [run_round] says of what it read. *)
Definition as_round (target : WifiConnectTarget) (path scope : option _) (dl : Deadline) (w : ActivationWait) (st : option State)
    (result : result (option ActivationWait) Error) (s' : Session W) (l : list bus_event) (r : Round) : Prop :=
  match run_round target path dl r st w with
  | Continue w' st' => result = Ok (Some w') ∧ scope_seen scope st' (world s') ∧ effects l = []
  | Return x fx st' => result = result_map (λ _, None) x ∧ does fx l
  end.
Lemma await_round_refines target path scope device dl w st s : scope_seen scope st (world s) →
  ∃ r l, trace (await_round target path scope device dl w s).2 = trace s ++ l ∧
    as_round target path scope dl w st (await_round target path scope device dl w s).1
      (await_round target path scope device dl w s).2 l r.
Proof.
  intros Hs. unfold await_round, check_cancelled_and_abort.
  destruct (cancellation_requested (bus_cancelled (world s))) eqn:Hc.
  { destruct (grows_abort_activation target s) as (l & Hl & Hok & Hd).
    destruct (abort_activation target s) as [r1 s1] eqn:E1. cbn [fst snd] in *. subst r1.
    exists {| r_cancelled := true; r_scope_ops := []; r_checked := 0; r_now := 0; r_observation := Err cancelled_error;
              r_late_ops := []; r_failed := 0; r_last_ops := []; r_still := 0 |}, l.
    assert (∀ (k : option bool → bus W unit), bind cancellation k s = k (bus_cancelled (world s)) s) as Hcan by (by destruct s).
    erewrite step_Err; [cbn [snd]; split; [exact Hl|by split]|].
    rewrite Hcan, Hc, (step_Ok _ _ _ _ _ E1). done. }
  erewrite step_Ok; [|unfold bind, cancellation, local; cbn; rewrite Hc; by destruct s].
  destruct (check_scope_run scope st s Hs) as (ops & stopped & s1 & E1 & T1 & Hstop & Hs1). cbv zeta in Hstop, Hs1.
  rewrite (step_Ok _ _ _ _ _ E1). unfold as_round, run_round. destruct stopped as [e|].
  { destruct (abort_then_fail (A:=option ActivationWait) path e s1) as (l & s2 & -> & Hl & Hd).
    exists {| r_cancelled := false; r_scope_ops := ops; r_checked := bus_now (world s); r_now := 0;
              r_observation := Err cancelled_error; r_late_ops := []; r_failed := 0; r_last_ops := []; r_still := 0 |}, l.
    cbn -[error]. rewrite <-Hstop. cbn. by rewrite Hl, T1. }
  rewrite (step_Ok now _ s1 (bus_now (world s1)) s1) by (by destruct s1).
  destruct (expired (bus_now (world s1)) dl) eqn:Hx.
  { destruct (abort_then_fail (A:=option ActivationWait) path (timeout_error target w) s1) as (l & s2 & -> & Hl & Hd).
    exists {| r_cancelled := false; r_scope_ops := ops; r_checked := bus_now (world s); r_now := bus_now (world s1);
              r_observation := Err cancelled_error; r_late_ops := []; r_failed := 0; r_last_ops := []; r_still := 0 |}, l.
    cbn -[error expired]. rewrite <-Hstop, Hx. cbn. by rewrite Hl, T1. }
  destruct (decide_refines target path scope device w _ s1 Hs1) as (obs & late & t3 & last & t4 & l & Hl & Hd).
  exists {| r_cancelled := false; r_scope_ops := ops; r_checked := bus_now (world s); r_now := bus_now (world s1);
            r_observation := obs; r_late_ops := late; r_failed := t3; r_last_ops := last; r_still := t4 |}, l.
  specialize (Hd false ops (bus_now (world s)) (bus_now (world s1))).
  fold (decide_on target path scope device w). rewrite Hl, T1. split; [done|]. revert Hd. unfold decided.
  cbn [r_cancelled r_checked r_scope_ops r_now r_observation]. rewrite <-Hstop, Hx. destruct obs as [o|e]; [|done].
  destruct (observe target path o w) as [w' [[]|e]]; [done|done|].
  destruct (activation_scope_error _ _ _ _) as [[st' e'] fx]. by intros [-> Hd].
Qed.

Lemma await_rounds_refines target path scope device dl rounds : ∀ w g st s, scope_seen scope st (world s) →
  (await_rounds target path scope device dl rounds w g s).1 = Ok None ∨
  ∃ rs x fx l, wait_loop target path dl rs st w = Some (x, fx) ∧
    (await_rounds target path scope device dl rounds w g s).1 = result_map Some x ∧
    trace (await_rounds target path scope device dl rounds w g s).2 = trace s ++ l ∧ does fx l.
Proof.
  induction rounds as [|rounds IH]; intros w g st s Hs; cbn [await_rounds]; [by left|].
  destruct (await_round_refines target path scope device dl w st s Hs) as (r & l & Hl & Hr).
  unfold as_round in Hr. destruct (await_round target path scope device dl w s) as [res s1] eqn:E1. cbn [fst snd] in Hl, Hr.
  destruct (run_round target path dl r st w) as [w' st'|x fx st'] eqn:Er.
  - destruct Hr as (-> & Hs1 & Hn). rewrite (step_Ok _ _ _ _ _ E1), (step_Ok now _ s1 (bus_now (world s1)) s1) by (by destruct s1).
    set (d := next_wake w' dl (bus_now (world s1))). destruct (wait_for_event g d s1) as [[g'|e] s2] eqn:E2;
      [|unfold wait_for_event, local in E2; by destruct (ev_wait _ _ _)].
    rewrite (step_Ok _ _ _ _ _ E2). pose proof (scopes_wait g d (world s1)) as Hw. unfold wait_for_event, local in E2.
    destruct (ev_wait g d (world s1)) as [g2 w2]. injection E2 as -> <-. cbn [snd] in Hw.
    destruct (IH w' g' st' {| world := w2; trace := trace s1 |}) as [H|(rs & x & fx & l' & Hloop & Hx & Hl' & Hd)];
      [by eapply scope_seen_evolves|by left|]. right. exists (r :: rs), x, fx, (l ++ l'). cbn [wait_loop]. rewrite Er.
    split; [done|]. split; [done|]. cbn [trace] in Hl'. rewrite Hl', Hl, app_assoc. split; [done|]. by apply does_after.
  - destruct Hr as [-> Hd]. right. exists [r], x, fx, l. cbn [wait_loop]. rewrite Er. split; [done|].
    destruct x as [[]|e]; cbn [result_map] in E1 |- *; [rewrite (step_Ok _ _ _ _ _ E1)|rewrite (step_Err _ _ _ _ _ E1)]; by split_and!.
Qed.

(** The wait is that of ConnectWait.v, unless the rounds are used up. *)
Lemma wait_refines_rounds rounds target path scope st s :
  scope_seen scope st (world s) →
  let '(r, s') := wait_for_active_target_path rounds target path scope s in
  r = Ok None ∨
  ∃ device start rs x fx l,
    ConnectWait.wait_for_active_target_path target path device start st rs = Some (x, fx) ∧
    r = result_map Some x ∧ trace s' = trace s ++ l ∧ does fx l.
Proof.
  intros Hs. destruct (quiet_grows_nil _ (quiet_activation_device target) (extends_activation_device target) s) as (l & Hl & Hn).
  apply (scope_seen_evolves scope st (world s) _ (forward_activation_device scopes_evolve target s)) in Hs.
  destruct (wifi_activation_device_for_target target s) as [[device|e] s1] eqn:E1; cbn [snd] in Hl, Hs; unfold wait_for_active_target_path;
    [rewrite (step_Ok _ _ _ _ _ E1)|rewrite (step_Err _ _ _ _ _ E1); right; exists (Err e), 0%N, [], (Err e), [], l; by split_and!].
  set (dl := {| at_instant := match st with Some st => Activation.deadline st | None => bus_now (world s1) + ACTIVATION_TIMEOUT end |}).
  assert (deadline_of scope s1 = (Ok dl, s1)) as E2.
  { unfold deadline_of, bind, now, local, dl. cbn. destruct s1 as [w1 tr1], scope as [id|], st as [st|]; try done.
    destruct Hs as (ops & Ho). cbn [world] in Ho. cbn [option_bind mbind world fst snd]. rewrite Ho.
    destruct (proj1 (run_state_ops_spec ops st)) as [Hd _]. unfold others. by rewrite Hd. }
  rewrite (step_Ok _ _ _ _ _ E2), (step_Ok event_generation _ s1 (ev_generation (world s1)) s1) by (by destruct s1).
  destruct (await_rounds_refines target path scope device dl rounds wait_default (ev_generation (world s1)) st s1 Hs)
    as [H|(rs & x & fx & l' & Hloop & Hx & Hl' & Hd)];
    destruct (await_rounds _ _ _ _ _ _ _ _ _) as [r s2]; cbn [fst snd] in *; [by left|]. right.
  exists (Ok tt), (bus_now (world s1)), rs, x, fx, (l ++ l'). unfold ConnectWait.wait_for_active_target_path.
  split; [by destruct st|]. split; [done|]. rewrite Hl', Hl, app_assoc. split; [done|]. by apply does_after.
Qed.
End Refinement.

(** ** The wait ends *)

(** Storing the state of a scope takes no time and brings no event. *)
Class ScopeClock (W : Type) {B : Bus W} {AH : ActivationHost W} {EV : NetworkEvents W} {EC : EventClock W} : Prop := {
  scopes_put_moves a w : moves w (ah_put_scopes a w);
}.

Section Termination.
Context {W : Type} {B : Bus W} {D : DeviceHost W} {AH : ActivationHost W} {EV : NetworkEvents W} {CH : CacheHost W}.
Context {EC : EventClock W} {SC : ScopeClock W}.
Implicit Types s : Session W.

(** The grace of a failure is over. *)
Definition grace_over (w : ActivationWait) (t : instant) : Prop :=
  ∃ p, pending_failure w = Some p ∧ (since p + ACTIVATION_FAILURE_GRACE ≤ t)%N.
Definition begun (w : ActivationWait) (t : instant) : Prop :=
  ∀ p, pending_failure w = Some p → (since p ≤ t)%N.

Lemma observe_continue target path o w w' : observe target path o w = (w', Ok false) → begun w (o_now o) →
  begun w' (o_now o) ∧
  (grace_over w (o_now o) → pending_failure w' = None ∨ (has_current_status w' = false ∧ pending_failure w' = pending_failure w)).
Proof.
  unfold observe, begun. intros Ho Hb. destruct (o_status o) as [st|].
  2: { injection Ho as <- _. cbn. auto. }
  destruct (o_ssid_matches o && ConnectWait.activated st); [done|]. unfold check_terminal_failure in Ho. cbn [pending_failure saw_progress] in Ho.
  destruct (failing _ _ _ _); cbn [negb] in Ho.
  2: { injection Ho as <-. cbn. by split; [|left]. }
  destruct (N.ltb_spec (o_now o - since (latch_pending_failure (pending_failure w) st (o_now o))) ACTIVATION_FAILURE_GRACE) as [Hlt|];
    [|done].
  injection Ho as <-. cbn [pending_failure has_current_status] in *.
  assert (since (latch_pending_failure (pending_failure w) st (o_now o)) =
    match pending_failure w with Some p => since p | None => o_now o end) as Hsince.
  { unfold latch_pending_failure. destruct (pending_failure w) as [p|]; cbn; [by case_match|by destruct (_ && _)]. }
  split.
  - intros p [= <-]. rewrite Hsince. destruct (pending_failure w); [by apply Hb|done].
  - intros (p & Hp & Hle). rewrite Hsince, Hp in Hlt. lia.
Qed.

Lemma next_wake_reaches w dl t t' : begun w t → (at_instant dl ≤ t + DURATION_MAX)%N →
  (t + next_wake w dl t ≤ t')%N → (at_instant dl ≤ t')%N ∨ grace_over w t'.
Proof.
  unfold begun, grace_over, next_wake, wait_at. intros Hb Hd Hw. destruct (pending_failure w) as [p|]; [|left; lia].
  specialize (Hb p eq_refl). destruct (_ || _); [|left; lia].
  destruct (N.le_gt_cases (at_instant dl) t'); [by left|right]. exists p. split; [done|]. lia.
Qed.
Lemma next_wake_deadline w dl t t' :
  pending_failure w = None ∨ (has_current_status w = false ∧ grace_over w t) → (at_instant dl ≤ t + DURATION_MAX)%N →
  (t + next_wake w dl t ≤ t')%N → (at_instant dl ≤ t')%N.
Proof.
  unfold next_wake, wait_at. intros [->|[-> (p & -> & Hle)]] Hd Hw; [lia|].
  replace (_ - (t - since p))%N with 0%N in Hw by lia. cbn in Hw. lia.
Qed.

Lemma check_scope_moves scope : along moves (check_scope (W:=W) scope).
Proof.
  destruct scope as [id|]; cbn; [|apply forward_ret; typeclasses eauto]. unfold scope_failure, now.
  apply forward_bind; [typeclasses eauto|apply forward_peek; typeclasses eauto|]. intros t s. unfold local.
  destruct (heap _ !! id) as [st|]; [|by apply moves_order]. destruct (error t st). apply scopes_put_moves.
Qed.
Lemma await_round_continue target path scope device dl w s w' s1 :
  await_round target path scope device dl w s = (Ok (Some w'), s1) →
  moves (world s) (world s1) ∧ (clock s < at_instant dl)%N ∧
  ∃ o, observe target path o w = (w', Ok false) ∧ (clock s ≤ o_now o)%N ∧ o_now o = clock s1.
Proof.
  unfold await_round, check_cancelled_and_abort, cancellation. intros H.
  apply then_Ok in H as ([] & s2 & Hc & H). apply then_Ok in Hc as (c & s3 & Hc & Hc').
  assert (s3 = s) as -> by (unfold local in Hc; destruct s; by injection Hc). clear Hc.
  assert (s2 = s) as ->.
  { destruct (cancellation_requested c); [|by injection Hc']. unfold bind in Hc'. by destruct (abort_activation target s) as [[]]. }
  apply then_Ok in H as (stopped & s2 & E2 & H). pose proof (check_scope_moves scope s) as M2. rewrite E2 in M2. cbn [snd] in M2.
  destruct stopped as [e|]; [unfold bind in H; by destruct (abort_path path s2) as [[]]|].
  apply then_Ok in H as (t & s3 & Ht & H). assert (t = clock s2 ∧ s3 = s2) as [-> ->] by (destruct s2; by injection Ht).
  unfold expired in H. destruct (N.leb_spec (at_instant dl) (clock s2)) as [|Hlt];
    [unfold bind in H; by destruct (abort_path path s2) as [[]]|].
  apply then_Ok in H as (o & s3 & E3 & H). pose proof (forward_observation moves target path device s2) as M3. rewrite E3 in M3.
  assert (o_now o = clock s3) as Ho.
  { clear -E3. unfold read_observation in E3. apply then_Ok in E3 as (? & s4 & _ & E3). apply then_Ok in E3 as ([m st] & s5 & _ & E3).
    apply then_Ok in E3 as (t & s6 & Ht & E3). apply done_Ok in E3 as [-> ->]. destruct s5; by injection Ht as <- <-. }
  destruct (observe target path o w) as [w1 [[]|e]] eqn:Eo; [by injection H| |unfold bind in H; by destruct (scoped_failure _ _ _ _) as [[]]].
  injection H as -> ->. destruct M2 as [M2 M2'], M3 as [M3 M3']. cbn [snd] in *. unfold clock in *.
  split; [split; lia|]. split; [lia|]. exists o. split; [done|]. split; lia.
Qed.
Lemma begun_later w t t' : (t ≤ t')%N → begun w t → begun w t'.
Proof. intros Ht Hb p Hp. specialize (Hb p Hp). lia. Qed.

(** An event can end a wait early; a wait that none ends reaches the deadline, or the end of
    a grace, and what follows the end of a grace reaches the deadline. *)
Lemma await_rounds_answers target path scope device dl rounds : ∀ w g s, begun w (clock s) →
  (at_instant dl ≤ clock s + DURATION_MAX)%N →
  (2 * ev_left (world s) + 3 ≤ N.of_nat rounds)%N ∨
  (grace_over w (clock s) ∧ (2 * ev_left (world s) + 2 ≤ N.of_nat rounds)%N) ∨
  ((at_instant dl ≤ clock s)%N ∧ (1 ≤ N.of_nat rounds)%N) →
  (await_rounds target path scope device dl rounds w g s).1 ≠ Ok None.
Proof.
  induction rounds as [|rounds IH]; intros w g s Hb Hd Hn; [lia|]. cbn [await_rounds].
  apply bind_not_Ok. intros [w'|] s1 E1; [|done].
  apply await_round_continue in E1 as ([Mt Me] & Hlt & o & Ho & Hto & Eto). fold (clock s) (clock s1) in Mt.
  destruct (observe_continue _ _ _ _ _ Ho) as [Hb' Hg]; [by eapply begun_later|]. rewrite Eto in Hb', Hg.
  apply bind_not_Ok. intros t s2 [= <- <-]. fold (clock s1). apply bind_not_Ok. unfold wait_for_event, local. intros g' s2.
  pose proof (wait_moves g (next_wake w' dl (clock s1)) (world s1)) as [[Hc2 Hw2] Hor].
  destruct (ev_wait _ _ _) as [g2 w2]. cbn [fst snd] in *. intros [= <- <-]. unfold clock in *.
  apply IH; unfold clock; cbn [world]; [by eapply begun_later|lia|].
  destruct Hor as [Hor|Hor]; [|left; lia].
  destruct Hn as [Hn|[[Hgr Hn]|[? _]]]; [| |lia].
  - destruct (next_wake_reaches w' dl _ (bus_now w2) Hb' ltac:(lia) Hor) as [?|?]; [right; right; lia|right; left; split; [done|lia]].
  - right. right. split; [|lia]. apply (next_wake_deadline w' dl (bus_now (world s1))); [|lia|done].
    assert (grace_over w (bus_now (world s1))) as Hg' by (destruct Hgr as (p & ? & ?); exists p; split; [done|lia]).
    destruct (Hg Hg') as [?|[? Hp]]; [by left|right]. split; [done|]. destruct Hg' as (p & ? & ?). exists p. by rewrite Hp.
Qed.

Context {SL : ScopeLaws W}.
Lemma wait_answers events target path scope st s : scope_seen scope st (world s) →
  (ev_left (world s) ≤ N.of_nat events)%N →
  (∀ x, st = Some x → (Activation.deadline x ≤ clock s + DURATION_MAX)%N) →
  (wait_for_active_target_path (2 * events + 3) target path scope s).1 ≠ Ok None.
Proof.
  intros Hs He Hd. unfold wait_for_active_target_path. apply bind_not_Ok. intros device s1 E1.
  pose proof (forward_activation_device moves target s) as [M1 M2].
  apply (scope_seen_evolves scope st (world s) _ (forward_activation_device scopes_evolve target s)) in Hs.
  rewrite E1 in M1, M2, Hs. cbn [snd] in M1, M2, Hs.
  apply bind_not_Ok. unfold deadline_of. intros dl s2 E2. apply then_Ok in E2 as (t & s3 & Et & E2).
  assert (t = clock s1 ∧ s3 = s1) as [-> ->] by (destruct s1; by injection Et as <- <-). unfold local in E2. injection E2 as <- <-.
  apply bind_not_Ok. intros g s2 [= <- <-]. apply await_rounds_answers; unfold clock in *; cbn [world]; [done| |left; lia].
  cbn [at_instant]. assert (bus_now (world s1) + ACTIVATION_TIMEOUT ≤ bus_now (world s1) + DURATION_MAX)%N as Hmax
    by (unfold ACTIVATION_TIMEOUT, DURATION_MAX, from_millis; lia).
  destruct scope as [id|], st as [st|]; try done. destruct Hs as (ops & Ho). cbn [option_bind mbind]. rewrite Ho.
  destruct (proj1 (run_state_ops_spec ops st)) as [He' _]. unfold others. rewrite He'. specialize (Hd st eq_refl). lia.
Qed.

End Termination.

(** A NetworkManager without Wi-Fi devices, where no event ends a wait. *)
Record WaitWorld := { ww_now : instant; ww_scopes : Activation.World }.
#[export] Instance wait_bus : Bus WaitWorld := {|
  bus_destination := "org.freedesktop.NetworkManager";
  bus_service := "org.freedesktop.NetworkManager";
  bus_build p i := None;
  bus_owner w := (Ok ":1.5", w);
  bus_get p i n w := (Err (plain "UnknownProperty"), w);
  bus_set p i n v w := (Ok tt, w);
  bus_call p i m args w :=
    (if bool_decide (m = "GetDevices") then Ok [VArray []] else if bool_decide (m = "DeactivateConnection") then Ok []
     else Err (plain "UnknownMethod"), w);
  bus_now := ww_now;
  bus_pause d w := {| ww_now := ww_now w + d; ww_scopes := ww_scopes w |};
  bus_cancelled w := Some false;
|}.
#[export] Instance wait_devices : DeviceHost WaitWorld := {| dh_age_ms z w := None; dh_lowercase s := s |}.
#[export] Instance wait_activations : ActivationHost WaitWorld := {|
  ah_scopes := ww_scopes;
  ah_put_scopes a w := {| ww_now := ww_now w; ww_scopes := a |};
  ah_uuid w := ("6d6e7e1c-0000-4000-8000-000000000001", w);
  ah_env w v := None;
|}.
#[export] Instance wait_events : NetworkEvents WaitWorld := {|
  ev_generation w := 0%N;
  ev_wait g d w := (g, {| ww_now := ww_now w + d; ww_scopes := ww_scopes w |});
|}.
#[export] Instance wait_cache : CacheHost WaitWorld := {|
  ch_io w := {| Cache.io_lock := Ok tt; Cache.io_read _ := Ok tt; Cache.io_write _ := Ok tt |};
  ch_now_ms w := 0%N;
  ch_repo w := {| Cache.f_snapshot := Cache.Absent; Cache.f_session := Cache.Absent; Cache.f_status := Cache.Absent;
                  Cache.f_active := Cache.Absent; Cache.f_known := Cache.Absent |};
  ch_put_repo r w := w;
|}.
Lemma wait_order (R : WaitWorld → WaitWorld → Prop) : PreOrder R → BusOrder R.
Proof. intros H. split; [exact H|..]; intros; cbn; reflexivity. Qed.
Lemma scopes_evolve_pre : PreOrder (scopes_evolve (W:=WaitWorld)).
Proof.
  split.
  - intros w id st Hst. by exists [].
  - intros w1 w2 w3 H1 H2 id st (ops & (ops' & ?)%H2)%H1. exists (ops ++ ops'). by rewrite <-others_app.
Qed.
#[export] Instance wait_scopes : ScopeLaws WaitWorld.
Proof. split; [apply wait_order, scopes_evolve_pre|done|intros g d w id st Hst; by exists []]. Qed.
#[export] Program Instance wait_clock : EventClock WaitWorld := {| ev_left w := 0%N |}.
Next Obligation.
  apply wait_order. split; [intros w; split; reflexivity|intros w1 w2 w3 [? ?] [? ?]; split; etrans; eassumption].
Qed.
Next Obligation. intros g d w. cbn. lia. Qed.
#[export] Instance wait_scope_clock : ScopeClock WaitWorld.
Proof. split. intros a w. unfold moves. cbn. lia. Qed.

Definition wait_session : Session WaitWorld :=
  {| world := {| ww_now := 0; ww_scopes := guard_new ":1.5" "path:/" ACTIVATION_TIMEOUT initial_world |}; trace := [] |}.
Definition waiting : State :=
  {| Activation.deadline := ACTIVATION_TIMEOUT; finished := false; pending_credentials := 0; missing_frontend := false;
     failure := None; wakes := 0 |}.

