(* ===== verification/Band.v ===== *)
(** * Wi-Fi bands of a connection ([src/nm/band.rs])

    The band a profile is bound to and those its network is heard on, and changing it: the
    profile is edited, the connection activated again and awaited; a failure writes the band
    back, and nothing but the band, on the profile as it then is. *)
From S2P Require Import Prelude Errors Text Identity Wifi Network Variant Credentials Scan Profiles ProfileWriter Bus Events Inventory Devices Saved Status WifiStatus CacheHost Hotspot Activation ConnectWait Activate Await.
From Stdlib Require Import ZArith Lia Ascii.
From stdpp Require Import prelude gmap strings list.
Open Scope bus_scope.

Record WifiBandStatus := {
  bs_path : string; bs_id : string; bs_ssid : string; bs_device_iface : string;
  bs_current : WifiBand; bs_selected : WifiBand; bs_available : list WifiBand;
}.
Record WifiBandSelectionResult := {
  br_status : string; br_changed : bool; br_band : WifiBandStatus; br_message : string;
}.
Record BandChange := {
  bc_profile_path : string; bc_device : WifiDevice; bc_before : WifiBandStatus; bc_ssid_bytes : list u8;
  bc_original : ConnectionSettings;
}.

(** ** Settings *)

Definition field_of (name key : string) (c : ConnectionSettings) : option value := c !! name ≫= λ s, s !! key.
Definition selected_band (settings : ConnectionSettings) : WifiBand :=
  match field_of "802-11-wireless" "band" settings ≫= value_string with Some v => band_from_nm_value v | None => Auto end.
Definition set_selected_band (band : WifiBand) (settings : ConnectionSettings) : ConnectionSettings :=
  update_section "802-11-wireless" (λ s,
    match band_nm_value band with Some v => <["band" := VStr v]> s | None => delete "band" s end) settings.
Definition ensure_same_band_target (current original : ConnectionSettings) : result unit Error :=
  let check name key := ensure (bool_decide (field_of name key current = field_of name key original))
    (plain "profile identity changed; band operation cancelled") in
  let? _ := check "connection" "uuid" in
  check "802-11-wireless" "ssid".
Definition restore_band_fields (original : ConnectionSettings) (applied : WifiBand) (current : ConnectionSettings) :
    result ConnectionSettings Error :=
  let? _ := ensure (bool_decide (selected_band current = applied)) (plain "band changed externally; recovery cancelled") in
  Ok (update_section "802-11-wireless" (λ s,
        match field_of "802-11-wireless" "band" original with Some v => <["band" := v]> s | None => delete "band" s end) current).

(** ** Requests *)

(** [BTreeSet<WifiBand>], in the order of the variants. *)
Definition band_set (l : list WifiBand) : list WifiBand :=
  List.filter (λ b, bool_decide (b ∈ l)) [Auto; Ghz2_4; Ghz5; Ghz6].
Definition validate_requested_band (before : WifiBandStatus) (requested : WifiBand) : result unit Error :=
  ensure (bool_decide (requested = Auto) || bool_decide (requested ∈ bs_available before))
    (EDomain (with_detail "available" (JArr (band_json <$> bs_available before))
       (with_detail "requested" (band_json requested) (with_detail "path" (JStr (bs_path before))
          (validation Op.BandOperation ("requested Wi-Fi band is not available for " +:+ bs_ssid before)))))).
Definition band_selection_is_unchanged (before : WifiBandStatus) (requested : WifiBand) : bool :=
  bool_decide (bs_selected before = requested) &&
  (bool_decide (requested = Auto) || bool_decide (bs_current before = requested)).
Definition unchanged_band_selection (before : WifiBandStatus) : WifiBandSelectionResult :=
  {| br_status := "unchanged"; br_changed := false;
     br_message := "Wi-Fi band selection for " +:+ bs_ssid before +:+ " is unchanged"; br_band := before |}.
Definition band_cancelled : string := "Wi-Fi band selection cancelled".

Section Band.
Context {W V : Type} {B : Bus W} {D : DeviceHost W} {SV : ProfileService V} {PS : ProfileStore W V}
  {AH : ActivationHost W} {EV : NetworkEvents W} {CH : CacheHost W}.
Context (path_error : string → option Error).

Definition check_band_cancelled : bus W unit := check_cancelled Op.BandOperation band_cancelled.
Definition normalize_band_change_error (e : Error) : bus W Error :=
  let! c := cancellation in
  ret (if cancellation_requested c then EDomain (cancelled_operation Op.BandOperation band_cancelled) else e).
Definition parse_profile_path (path : string) : bus W string :=
  lift match path_error path with None => Ok path | Some e => Err (add_context "parse Wi-Fi profile path" e) end.

(** [Some] of what was read when the device has the profile active. *)
Definition active_wifi_device_for_profile (profile_path : string) : bus W (option WifiDevice) :=
  let! devices := wifi_devices in
  first_bus (λ device,
    let! p := proxy (wd_path device) DEVICE_IFACE in
    let! active_path := with_context ("read ActiveConnection for " +:+ wd_iface device) (get_property as_path p "ActiveConnection") in
    if bool_decide (active_path = "/") then ret None
    else
      let! active := proxy active_path ACTIVE_CONNECTION_IFACE in
      let! connection_path := with_context ("read active profile for " +:+ wd_iface device)
                                (get_property as_path active "Connection") in
      ret (if bool_decide (connection_path = profile_path) then Some device else None)) devices.

Definition wifi_band_status (path : string) : bus W WifiBandStatus :=
  let! path := parse_profile_path path in
  let! profile := saved_wifi_connection_by_path path in
  let! device := active_wifi_device_for_profile path in
  let! device := lift (ok_or device (EDomain (with_detail "path" (JStr (sw_path profile))
                   (not_found Op.BandOperation ("Wi-Fi profile " +:+ sw_id profile +:+ " is not active"))))) in
  let! active_ap_path := active_access_point device in
  let! active_ap_path := lift (ok_or active_ap_path (EDomain (not_found Op.BandOperation
                           ("active access point is unavailable for " +:+ sw_id profile)))) in
  let! active_ap := access_point device active_ap_path true in
  let! current := lift (ok_or (band_from_frequency_label (ap_band active_ap))
                    (EDomain (new Code.Unknown Op.BandOperation Src.NetworkManager
                       ("unsupported active Wi-Fi band: " +:+ ap_band active_ap)))) in
  let! settings := connection_settings path in
  let! aps := list_all_access_points in
  let available := omap (λ ap,
    if bool_decide (ap_device_iface ap = wd_iface device) && bool_decide (ap_ssid_exact ap = sw_ssid_bytes profile)
       && bool_decide (ap_class ap = ap_class active_ap)
    then band_from_frequency_label (ap_band ap) else None) aps in
  ret {| bs_path := sw_path profile; bs_id := sw_id profile; bs_ssid := sw_ssid profile; bs_device_iface := wd_iface device;
         bs_current := current; bs_selected := selected_band settings; bs_available := band_set (current :: available) |}.

(** ** Changing the band *)

Definition prepare_band_change (path : string) (before : WifiBandStatus) : bus W BandChange :=
  let! profile_path := parse_profile_path path in
  let! devices := wifi_devices in
  let! device := lift (ok_or (find_first (λ d, bool_decide (wd_iface d = bs_device_iface before)) devices)
                   (EDomain (not_found Op.BandOperation
                      ("active Wi-Fi device " +:+ bs_device_iface before +:+ " disappeared")))) in
  let! profile := saved_wifi_connection_by_path profile_path in
  let! edit := profile_io profile_path begin_credential_edit in
  ret {| bc_profile_path := profile_path; bc_device := device; bc_before := before; bc_ssid_bytes := sw_ssid_bytes profile;
         bc_original := e_settings edit |}.

(** An edit of the profile of a change, as it is by now. *)
Definition edit_band (mutate : ConnectionSettings → result ConnectionSettings Error) (original : ConnectionSettings)
    (destination : string) (others : nat → V → V) (fails : nat → bool) : io (S:=V) unit :=
  ProfileWriter.bind (begin_credential_edit destination others fails) (λ edit,
    ProfileWriter.bind (ProfileWriter.lift (let? _ := ensure_same_band_target (e_settings edit) original in mutate (e_settings edit)))
      (λ settings, commit_credential_edit destination others fails (with_settings edit settings) false)).
Definition select_in (original : ConnectionSettings) (requested : WifiBand) (settings : ConnectionSettings) :
    result ConnectionSettings Error :=
  let? _ := ensure (bool_decide (selected_band settings = selected_band original))
              (plain "band changed before update; retry explicitly") in
  Ok (set_selected_band requested settings).

Definition activate_band (profile_path : string) (device : WifiDevice) : bus W string :=
  let! reply := call_method root_proxy "ActivateConnection" [VPath profile_path; VPath (wd_path device); VPath "/"] in
  lift (ok_or (as_one_path reply) type_error).
Definition on_device (ifname : InterfaceName) (device_path : NmObjectPath) (t : WifiConnectTarget) : WifiConnectTarget :=
  {| t_ssid := t_ssid t; t_ap_path := t_ap_path t; t_bssid := t_bssid t; t_ifname := Some ifname;
     t_device_path := Some device_path; t_connection_name := t_connection_name t; t_private := t_private t;
     t_hidden := t_hidden t; t_security := t_security t; t_key_mgmt := t_key_mgmt t; t_enterprise := t_enterprise t;
     t_profile := t_profile t |}.
Definition band_target (device : WifiDevice) (ssid : list u8) : result WifiConnectTarget Error :=
  let? target := connect_target_for_network_key ("ssid-hex:" +:+ ssid_hex ssid) None in
  let? ifname := ifname_parse (wd_iface device) in
  let? device_path := object_path_parse (λ p, match path_error p with None => Ok tt | Some e => Err e end) (wd_path device) in
  Ok (on_device ifname device_path target).
Definition different_band (requested : WifiBand) (status : WifiBandStatus) : Error :=
  EDomain (with_detail "current" (band_json (bs_current status)) (with_detail "requested" (band_json requested)
    (new Code.ActivationFailed Op.BandOperation Src.NetworkManager
       ("NetworkManager reconnected " +:+ bs_ssid status +:+ " on a different band")))).
Definition out_of_waits : Error := plain "out of rounds".
Definition reactivate_band (rounds : nat) (change : BandChange) (requested : WifiBand) : bus W unit :=
  let! _ := check_band_cancelled in
  let! _ := lift (root_object_path path_error) in
  let! _ := with_context ("reactivate " +:+ bs_ssid (bc_before change) +:+ " after Wi-Fi band selection")
              (activate_band (bc_profile_path change) (bc_device change)) in
  let! target := lift (band_target (bc_device change) (bc_ssid_bytes change)) in
  let! done := wait_for_active_target rounds target in
  let! _ := lift (ok_or done out_of_waits) in
  let! status := wifi_band_status (bc_profile_path change) in
  lift (ensure (bool_decide (requested = Auto) || bool_decide (bs_current status = requested)) (different_band requested status)).
Definition rollback_band_change (change : BandChange) (requested : WifiBand) : bus W unit :=
  let! _ := profile_io (bc_profile_path change)
              (edit_band (restore_band_fields (bc_original change) requested) (bc_original change)) in
  let! device := proxy (wd_path (bc_device change)) DEVICE_IFACE in
  let! active := get_property as_path device "ActiveConnection" in
  let! _ := if bool_decide (active = "/") then ret tt
            else
              let! p := proxy active ACTIVE_CONNECTION_IFACE in
              let! current := get_property as_path p "Connection" in
              lift (ensure (bool_decide (current = bc_profile_path change))
                      (plain "another profile is active; recovery will not reconnect it")) in
  let! _ := lift match path_error "/" with None => Ok tt | Some e => Err e end in
  let! _ := activate_band (bc_profile_path change) (bc_device change) in
  ret tt.
Definition not_recovered (rollback : Error) (e : Error) : Error :=
  add_context ("Band recovery was not confirmed; inspect the current connection before retrying: " +:+ display rollback) e.
Definition commit_band_change (rounds : nat) (change : BandChange) (requested : WifiBand) : bus W unit :=
  let! _ := profile_io (bc_profile_path change) (edit_band (select_in (bc_original change) requested) (bc_original change)) in
  let! r := attempt (let! _ := reactivate_band rounds change requested in check_band_cancelled) in
  match r with
  | Ok _ => ret tt
  | Err e =>
    let! rolled := attempt (rollback_band_change change requested) in
    match rolled with
    | Err rollback => lift (Err (not_recovered rollback e))
    | Ok _ => let! e := normalize_band_change_error e in lift (Err e)
    end
  end.
Definition select_wifi_band (rounds : nat) (path : string) (requested : WifiBand) : bus W WifiBandSelectionResult :=
  let! _ := check_band_cancelled in
  let! _ := check_band_cancelled in
  let! before := wifi_band_status path in
  let! _ := lift (validate_requested_band before requested) in
  if band_selection_is_unchanged before requested then ret (unchanged_band_selection before)
  else
    let! change := prepare_band_change path before in
    let! _ := commit_band_change rounds change requested in
    let! after := wifi_band_status path in
    ret {| br_status := "selected"; br_changed := true;
           br_message := "Wi-Fi band selection updated for " +:+ bs_ssid after; br_band := after |}.
End Band.

(** ** Nothing but the band *)

Definition band_field (c : ConnectionSettings) : option value := field_of "802-11-wireless" "band" c.
Definition only_band (c c' : ConnectionSettings) : Prop :=
  ∀ name key, (name, key) ≠ ("802-11-wireless", "band") → field_of name key c' = field_of name key c.

Lemma update_band_only (o : option value) c :
  let c' := update_section "802-11-wireless" (λ s, match o with Some v => <["band" := v]> s | None => delete "band" s end) c in
  band_field c' = o ∧ only_band c c'.
Proof.
  unfold band_field, only_band, field_of, update_section, section_of. split.
  - rewrite lookup_insert_eq. cbn. destruct o; [by rewrite lookup_insert_eq|by rewrite lookup_delete_eq].
  - intros name key Hne. destruct (decide (name = "802-11-wireless")) as [->|Hn]; [|by rewrite lookup_insert_ne].
    assert (key ≠ "band") as Hk by congruence. rewrite lookup_insert_eq. cbn.
    assert (∀ s : section, match o with Some v => <["band" := v]> s | None => delete "band" s end !! key = s !! key) as ->.
    { intros s. destruct o; [by rewrite lookup_insert_ne|by rewrite lookup_delete_ne]. }
    by destruct (c !! "802-11-wireless"); [|cbn; rewrite lookup_empty].
Qed.
Lemma set_selected_only b c : band_field (set_selected_band b c) = VStr <$> band_nm_value b ∧ only_band c (set_selected_band b c).
Proof.
  unfold set_selected_band. destruct (band_nm_value b) as [v|]; [apply (update_band_only (Some (VStr v)))|apply (update_band_only None)].
Qed.
Lemma selected_set b c : selected_band (set_selected_band b c) = b.
Proof.
  unfold selected_band. fold (band_field (set_selected_band b c)). rewrite (proj1 (set_selected_only b c)). by destruct b.
Qed.
Lemma restore_only original applied c c' : restore_band_fields original applied c = Ok c' →
  selected_band c = applied ∧ band_field c' = band_field original ∧ only_band c c'.
Proof.
  unfold restore_band_fields. case_bool_decide; [|done]. cbn. intros [= <-]. split; [done|]. apply update_band_only.
Qed.

Section Profile.
Context {S : Type} {SV : ProfileService S}.
Context (destination : string) (env : nat → S → S) (fails : nat → bool).
Context (later : relation S) {PL : ProfileLaws S later}.
Context (env_later : ∀ n s, later s (env n s)).
Implicit Types r : run (S:=S).

Lemma edit_band_Ok mutate original r r' :
  edit_band mutate original destination env fails r = (Ok tt, r') →
  ∃ w edited, writes r' = writes r ++ [w] ∧ sv_owner (w_before w) = destination ∧
    let c := sv_settings (w_before w) in
    field_of "connection" "uuid" c = field_of "connection" "uuid" original ∧
    field_of "802-11-wireless" "ssid" c = field_of "802-11-wireless" "ssid" original ∧
    mutate c = Ok edited ∧
    (has_peers edited → ∀ p, public_settings edited = Ok p → public_settings (w_settings w) = Ok p).
Proof.
  unfold edit_band, begin_credential_edit. intros H. apply ProfileWriter.bind_Ok in H as (edit & r1 & Hb & H).
  apply (begin_Ok _ _ _ later env_later) in Hb as (Hex & Hsnap & Hset & Howner & Hrem & Huuid).
  apply ProfileWriter.bind_Ok in H as (settings & r2 & Hm & H). apply ProfileWriter.lift_Ok in Hm as [Hm ->].
  apply (commit_Ok _ _ _ later env_later) in H as (_ & Hu & Hpol & w & Hw & Hbefore & Hown & Hpub); [|done].
  cbn [e_original with_settings] in Hbefore. rewrite Hset in Hm. unfold ensure_same_band_target in Hm.
  do 2 (match type of Hm with context [bool_decide ?P] =>
          destruct (decide P); [rewrite bool_decide_true in Hm by done; cbn in Hm|by rewrite bool_decide_false in Hm by done] end).
  exists w, settings. rewrite Hbefore. split_and!; try done; [by rewrite Hw, (proj2 Hex)|]. by apply Hpub.
Qed.

(** C18. Taking a band change back restores the band and nothing else. Whatever others did to
    the profile since, an accepted compensation makes one write, of the profile as it is just
    before: still the profile and network the change was made to, still with the band the
    change set. The public part of what is written has the band from before the change, and
    every other field as the profile has it then. *)
Theorem band_compensation_exact original applied r r' :
  edit_band (restore_band_fields original applied) original destination env fails r = (Ok tt, r') →
  ∃ w edited, writes r' = writes r ++ [w] ∧
    let c := sv_settings (w_before w) in
    field_of "connection" "uuid" c = field_of "connection" "uuid" original ∧
    field_of "802-11-wireless" "ssid" c = field_of "802-11-wireless" "ssid" original ∧
    selected_band c = applied ∧ band_field edited = band_field original ∧ only_band c edited ∧
    (has_peers edited → ∀ p, public_settings edited = Ok p → public_settings (w_settings w) = Ok p).
Proof.
  intros (w & edited & Hw & _ & Hu & Hs & Hm & Hpub)%edit_band_Ok. apply restore_only in Hm as (? & ? & ?).
  exists w, edited. by split_and!.
Qed.
End Profile.

(** ** What a change of band asks of NetworkManager *)

Section Effects.
Context {W V : Type} {B : Bus W} {D : DeviceHost W} {SV : ProfileService V} {PS : ProfileStore W V}
  {AH : ActivationHost W} {EV : NetworkEvents W} {CH : CacheHost W}.
Context (path_error : string → option Error).
Implicit Types s : Session W.

Definition updates (path : string) (l : list bus_event) : Prop :=
  ∃ ws : list (write (S:=V)), l = update_event path <$> ws.
Definition activation (path : string) (device : WifiDevice) (reply : result (list value) Error) : bus_event :=
  activate_request path (wd_path device) "/" reply.
Definition at_most_once (path : string) (device : WifiDevice) (l : list bus_event) : Prop :=
  l = [] ∨ ∃ reply, l = [activation path device reply].
Definition accepted_once (path : string) (device : WifiDevice) (l : list bus_event) : Prop :=
  ∃ active, l = [activation path device (Ok [VPath active])].
Definition deactivations (l : list bus_event) : Prop :=
  ∀ e, e ∈ l → ∃ p reply, e = EvCall NM_PATH NM_IFACE "DeactivateConnection" [VPath p] reply.
(** The band of the profile's connection was read to be the one asked for. *)
Definition band_read (path : string) (requested : WifiBand) : Prop :=
  ∃ s s' status, wifi_band_status path_error path s = (Ok status, s') ∧ (requested = Auto ∨ bs_current status = requested).

Inductive band_settled (path : string) (requested : WifiBand) : result WifiBandSelectionResult Error → list bus_event → Prop :=
  | BandKept r : (∀ b, r = Ok b → br_changed b = false) → band_settled path requested r []
  | BandNotStored e us : updates path us → band_settled path requested (Err e) us
  | BandSelected r device us act : updates path us → accepted_once path device act → band_read path requested →
      (∀ b, r = Ok b → br_changed b = true) → band_settled path requested r (us ++ act)
  | BandNotRecovered rollback e device us first ended us' second : updates path us → at_most_once path device first →
      deactivations ended → updates path us' → at_most_once path device second →
      band_settled path requested (Err (not_recovered rollback e)) (us ++ first ++ ended ++ us' ++ second)
  | BandRecovered e device us first ended us' second : updates path us → at_most_once path device first →
      deactivations ended → updates path us' → accepted_once path device second →
      band_settled path requested (Err e) (us ++ first ++ ended ++ us' ++ second).

Definition ends_only (r : bool) (l : list bus_event) : Prop := deactivations (effects l) ∧ (r = true → effects l = []).
Lemma ends_nil r l : effects l = [] → ends_only r l.
Proof. intros Hl. split; [rewrite Hl; by intros e ?%elem_of_nil|done]. Qed.
Lemma ends_after r l l' : effects l = [] → ends_only r l' → ends_only r (l ++ l').
Proof. intros Hl [H1 H2]. unfold ends_only. rewrite effects_app, Hl. by split. Qed.
Lemma grows_await_round target device dl w :
  grows (await_round (W:=W) target None None device dl w) (λ r l, ends_only (is_ok r) l).
Proof.
  unfold await_round. eapply grows_then with (P := λ r l, ends_only (is_ok r) l).
  - unfold check_cancelled_and_abort. apply grows_local_then. intros c.
    destruct (cancellation_requested c); [|by apply grows_ret, ends_nil].
    eapply grows_then; [apply grows_abort_activation|by intros e l [? _]|]. intros u l [_ Hl]. apply grows_pure. split; [|done].
    rewrite app_nil_r. intros e (p & reply & -> & _)%Hl. by exists p, reply.
  - done.
  - intros u l [_ Hl]. specialize (Hl eq_refl). eapply grows_mono; [|intros r l'; by apply ends_after].
    apply (grows_then _ _ (λ r l, l = [] ∧ r = Ok None)); [by apply grows_ret|by intros e l' [_ ?]|].
    intros o l' [-> [= ->]]. cbn [app]. apply grows_local_then. intros t.
    destruct (expired t dl).
    { unfold abort_path. apply (grows_then _ _ (λ _ l, l = [])); [by apply grows_ret|by intros e l' ->; apply ends_nil|].
      intros u' l' ->. by apply grows_pure, ends_nil. }
    eapply grows_then; [apply quiet_grows_nil; [apply quiet_read_observation|apply extends_read_observation]|by intros; apply ends_nil|].
    intros o' l' Hl'. eapply grows_mono; [|intros r l2; by apply ends_after].
    destruct (observe target None o' w) as [w' [[]|e]]; [by apply grows_ret, ends_nil..|].
    apply (grows_then _ _ (λ _ l, l = [])); [by apply grows_ret|by intros e' l2 ->; apply ends_nil|].
    intros e' l2 ->. by apply grows_pure, ends_nil.
Qed.
Lemma grows_wait target rounds :
  grows (wait_for_active_target (W:=W) rounds target) (λ r l, ends_only (is_ok r) l).
Proof.
  unfold wait_for_active_target, wait_for_active_target_path.
  eapply grows_then; [apply quiet_grows_nil; [apply quiet_activation_device|apply extends_activation_device]|by intros; apply ends_nil|].
  intros device l Hl. eapply grows_mono; [|intros r l'; by apply ends_after].
  apply (grows_then _ _ (λ _ l, l = [])).
  { unfold deadline_of. apply grows_local_then. intros t. by apply grows_local. }
  { by intros e l' ->; apply ends_nil. }
  intros dl l' ->. cbn [app]. apply grows_local_then. intros g. generalize wait_default as w. revert g.
  clear l Hl. induction rounds as [|rounds IH]; intros g w; cbn [await_rounds]; [by apply grows_ret, ends_nil|].
  eapply grows_then; [apply grows_await_round|done|]. intros [w'|] l [_ Hl]; specialize (Hl eq_refl).
  - apply grows_local_then. intros t. apply grows_local_then. intros g'. eapply grows_mono; [apply IH|]. intros r l'. by apply ends_after.
  - apply grows_ret, ends_nil. by rewrite app_nil_r.
Qed.

Lemma quiet_active_device p : quiet (active_wifi_device_for_profile (W:=W) p).
Proof. unfold active_wifi_device_for_profile. quiet_tac. Qed.
Lemma extends_active_device p : extends (active_wifi_device_for_profile (W:=W) p).
Proof. unfold active_wifi_device_for_profile. extends_tac. Qed.
Lemma quiet_band_status path : quiet (wifi_band_status (W:=W) path_error path).
Proof.
  pose proof quiet_active_device. pose proof (quiet_list_all (W:=W)). pose proof (quiet_active_access_point (W:=W)).
  pose proof (quiet_access_point (W:=W)). unfold wifi_band_status, parse_profile_path, saved_wifi_connection_by_path. quiet_tac.
Qed.
Lemma extends_list_all : extends (list_all_access_points (W:=W)).
Proof.
  pose proof (extends_access_point (W:=W)).
  unfold list_all_access_points, all_visible_access_points, visible_access_points, read_visible_access_point, device_access_points,
    active_access_point. extends_tac.
Qed.
Lemma extends_band_status path : extends (wifi_band_status (W:=W) path_error path).
Proof.
  pose proof extends_active_device. pose proof extends_list_all. pose proof (extends_access_point (W:=W)).
  pose proof (extends_connection_settings (W:=W)).
  unfold wifi_band_status, parse_profile_path, saved_wifi_connection_by_path, active_access_point. extends_tac.
Qed.
Lemma grows_band_status path :
  grows (wifi_band_status (W:=W) path_error path) (λ r l, effects l = [] ∧
    match r with Ok st => ∃ s s', wifi_band_status path_error path s = (Ok st, s') | Err _ => True end).
Proof.
  apply quiet_grows; [apply quiet_band_status|]. intros s. destruct (extends_band_status path s) as (l & Hl & _).
  exists l. split; [done|]. destruct (wifi_band_status path_error path s) as [[st|e] s'] eqn:E; [by exists s, s'|done].
Qed.
Lemma quiet_check_band : quiet (check_band_cancelled (W:=W)).
Proof. unfold check_band_cancelled. quiet_tac. Qed.
Lemma extends_check_band : extends (check_band_cancelled (W:=W)).
Proof. unfold check_band_cancelled, check_cancelled, cancellation. extends_tac. Qed.
Lemma nil_check_band : grows (check_band_cancelled (W:=W)) (λ _ l, effects l = []).
Proof. apply quiet_grows_nil; [apply quiet_check_band|apply extends_check_band]. Qed.
(** A first step without effects, of which something is known. *)
Lemma grows_quiet_then {A C} (m : bus W A) (k : A → bus W C) (P : result A Error → Prop)
    (Q : result C Error → list bus_event → Prop) :
  grows m (λ r l, effects l = [] ∧ P r) → (∀ e, P (Err e) → Q (Err e) []) →
  (∀ a, P (Ok a) → grows (k a) (λ r l, Q r (effects l))) → grows (bind m k) (λ r l, Q r (effects l)).
Proof.
  intros Hm He Hk. eapply grows_then; [exact Hm|intros e l [-> HP]; by apply He|]. intros a l [Hl HP].
  eapply grows_mono; [by apply Hk|]. intros r l'. by rewrite effects_app, Hl.
Qed.

Lemma grows_edit {A} path (m : string → (nat → V → V) → (nat → bool) → io (S:=V) A) :
  grows (profile_io (W:=W) path m) (λ _ l, updates path (effects l)).
Proof.
  intros s. destruct (profile_io_trace path m s) as (ws & Hws). exists (update_event path <$> ws). split; [done|].
  exists ws. apply effects_updates.
Qed.
Lemma grows_activate_band path device :
  grows (activate_band (W:=W) path device) (λ r l, ∃ reply, effects l = [activation path device reply] ∧
    (is_ok r = true → ∃ active, reply = Ok [VPath active])).
Proof.
  unfold activate_band. eapply grows_then; [apply grows_call|intros e l ->; by eexists|]. intros v l ->. apply grows_pure.
  exists (Ok v). rewrite app_nil_r. split; [done|]. pose proof (as_one_path_reply v) as Hv.
  destruct (as_one_path v) as [p|]; [intros _; exists p; by rewrite Hv|done].
Qed.

(** Activating again and waiting: at most one request, and none more when all went well. *)
Definition reactivated (path : string) (device : WifiDevice) (requested : WifiBand) (ok : bool) (fx : list bus_event) : Prop :=
  ∃ first ended, fx = first ++ ended ∧ at_most_once path device first ∧ deactivations ended ∧
    (ok = true → accepted_once path device first ∧ ended = [] ∧ band_read path requested).
Lemma reactivated_none path device requested : reactivated path device requested false [].
Proof. exists [], []. split_and!; [done|by left|by intros e ?%elem_of_nil|done]. Qed.
Lemma grows_reactivate rounds change requested :
  grows (reactivate_band (W:=W) path_error rounds change requested)
    (λ r l, reactivated (bc_profile_path change) (bc_device change) requested (is_ok r) (effects l)).
Proof.
  set (path := bc_profile_path change). set (device := bc_device change). unfold reactivate_band. fold path device.
  apply (grows_after_quiet _ _ (λ r, reactivated path device requested (is_ok r))); [apply nil_check_band|intros; apply reactivated_none|].
  intros _.
  apply grows_lift_bind; [intros; apply reactivated_none|]. intros _ _.
  eapply grows_then with (P := λ r l, ∃ reply, effects l = [activation path device reply] ∧
    (is_ok r = true → ∃ active, reply = Ok [VPath active])).
  { apply grows_with_context. eapply grows_mono; [apply grows_activate_band|]. by intros [a|e]. }
  { intros e l (reply & -> & _). exists [activation path device reply], []. split_and!; [done|right; eauto|by intros e' ?%elem_of_nil|done]. }
  intros a l (reply & Hl & (active & ->)); [done|].
  assert (∀ l', deactivations (effects l') → reactivated path device requested false (effects (l ++ l'))) as Hfail.
  { intros l' Hd. exists (effects l), (effects l'). rewrite effects_app. split_and!; [done|right; eauto|done|done]. }
  assert (∀ l', effects l' = [] → reactivated path device requested false (effects (l ++ l'))) as Hnil.
  { intros l' Hd. apply Hfail. rewrite Hd. by intros e ?%elem_of_nil. }
  apply grows_lift_bind; [intros; by apply Hnil|]. intros target _.
  eapply grows_then; [apply grows_wait|by intros e l' [? _]; apply Hfail|]. intros o l' [_ Hl']. specialize (Hl' eq_refl).
  apply grows_lift_bind; [intros; rewrite app_nil_r; by apply Hnil|]. intros _ _.
  eapply grows_then; [apply grows_band_status|intros e l2 [Hl2 _]; apply Hnil; by rewrite effects_app, Hl', Hl2|].
  intros status l2 [Hl2 (s1 & s2 & Hst)]. apply grows_pure. rewrite app_nil_r.
  assert (effects (l' ++ l2) = []) as Hn by (by rewrite effects_app, Hl', Hl2).
  destruct (bool_decide (requested = Auto) || bool_decide (bs_current status = requested)) eqn:Hb; [|by apply Hnil].
  exists (effects l), []. rewrite effects_app, Hn. split_and!; [done|right; eauto|by intros e ?%elem_of_nil|].
  intros _. split; [by exists active|]. split; [done|]. exists s1, s2, status. split; [done|].
  apply orb_true_iff in Hb as [?%bool_decide_eq_true|?%bool_decide_eq_true]; auto.
Qed.

Definition rolled_back (path : string) (device : WifiDevice) (ok : bool) (fx : list bus_event) : Prop :=
  ∃ us second, fx = us ++ second ∧ updates path us ∧ at_most_once path device second ∧
    (ok = true → accepted_once path device second).
Lemma grows_rollback change requested :
  grows (rollback_band_change (W:=W) (V:=V) path_error change requested)
    (λ r l, rolled_back (bc_profile_path change) (bc_device change) (is_ok r) (effects l)).
Proof.
  set (path := bc_profile_path change). set (device := bc_device change). unfold rollback_band_change. fold path device.
  assert (∀ us, updates path us → rolled_back path device false us) as Hus.
  { intros us Hu. exists us, []. rewrite app_nil_r. split_and!; [done|done|by left|done]. }
  eapply grows_then; [apply grows_edit|intros e l Hu; by apply Hus|]. intros u l Hu.
  apply (grows_then _ _ (λ _ l', effects l' = [])); [apply quiet_grows_nil; [quiet_tac|extends_tac]|..].
  { intros e l' Hl'. apply Hus. by rewrite effects_app, Hl', app_nil_r. }
  intros p l1 H1. apply (grows_then _ _ (λ _ l', effects l' = [])); [apply quiet_grows_nil; [quiet_tac|extends_tac]|..].
  { intros e l' Hl'. apply Hus. by rewrite !effects_app, H1, Hl', !app_nil_r. }
  intros active l2 H2. apply (grows_then _ _ (λ _ l', effects l' = [])).
  { case_bool_decide; apply quiet_grows_nil; [quiet_tac|extends_tac|quiet_tac|extends_tac]. }
  { intros e l' Hl'. apply Hus. by rewrite !effects_app, H1, H2, Hl', !app_nil_r. }
  intros _ l3 H3. apply grows_lift_bind; [intros; apply Hus; by rewrite !effects_app, H1, H2, H3, !app_nil_r|]. intros _ _.
  eapply grows_then; [apply grows_activate_band|..].
  - intros e l4 (reply & H4 & _). exists (effects l), [activation path device reply].
    rewrite !effects_app, H1, H2, H3, H4. split_and!; [done|done|right; eauto|done].
  - intros a l4 (reply & H4 & (active' & ->)); [done|]. apply grows_ret. exists (effects l), [activation path device (Ok [VPath active'])].
    rewrite !effects_app, H1, H2, H3, H4. split_and!; [done|done|right; eauto|by exists active'].
Qed.

(** What committing a change does: [None] for a change that was made. *)
Definition committed (path : string) (requested : WifiBand) (r : result unit Error) (fx : list bus_event) : Prop :=
  match r with
  | Ok _ => ∃ device us act, fx = us ++ act ∧ updates path us ∧ accepted_once path device act ∧ band_read path requested
  | Err e => band_settled path requested (Err e) fx
  end.
Lemma grows_commit rounds change requested :
  grows (commit_band_change (W:=W) (V:=V) path_error rounds change requested)
    (λ r l, committed (bc_profile_path change) requested r (effects l)).
Proof.
  set (path := bc_profile_path change). set (device := bc_device change). unfold commit_band_change. fold path.
  eapply grows_then; [apply grows_edit|intros e l Hu; by apply BandNotStored|]. intros u l Hu.
  eapply grows_then with (P := λ r l', match r with
    | Ok r => reactivated path device requested (is_ok r) (effects l') | Err _ => False end); [|done|].
  { apply grows_attempt. eapply grows_then; [apply grows_reactivate|by intros e l'|]. intros [] l' Hr.
    eapply grows_mono; [apply nil_check_band|]. intros [[]|e] l2 Hl2; rewrite effects_app, Hl2, app_nil_r; [done|].
    destruct Hr as (first & ended & -> & Ho & Hd & _). by exists first, ended. }
  intros [[]|e] l' (first & ended & Hl' & Ho & Hd & Hok).
  { apply grows_ret. rewrite app_nil_r, effects_app, Hl'. destruct (Hok eq_refl) as (Ha & -> & Hb).
    exists device, (effects l), first. rewrite app_nil_r. by split_and!. }
  eapply grows_then with (P := λ r l2, match r with
    | Ok r => rolled_back path device (is_ok r) (effects l2) | Err _ => False end);
    [apply grows_attempt, grows_rollback|done|].
  intros [[]|rollback] l2 (us & second & Hl2 & Hus & Hs & Hok2).
  - eapply grows_then with (P := λ r l3, l3 = [] ∧ is_ok r = true);
      [apply grows_local_then; intros c; by apply grows_ret|by intros e' l3 [_ ?]|].
    intros e' l3 [-> _]. apply grows_pure. rewrite !app_nil_r, !effects_app, Hl', Hl2, <-!app_assoc.
    by eapply BandRecovered; [..|apply Hok2].
  - apply grows_pure. rewrite app_nil_r, !effects_app, Hl', Hl2, <-!app_assoc. by eapply BandNotRecovered.
Qed.

Lemma prepare_path path before change s s' :
  prepare_band_change (W:=W) (V:=V) path_error path before s = (Ok change, s') → bc_profile_path change = path.
Proof.
  unfold prepare_band_change, parse_profile_path. intros H. bus_unroll. subst. cbn. by destruct (path_error path); simplify_eq.
Qed.
Lemma begin_writes (d : string) (e : nat → V → V) f r : writes (begin_credential_edit (S:=V) d e f r).2 = writes r.
Proof.
  unfold begin_credential_edit, begin_profile_edit, persistence_allowed, ProfileWriter.current_owner, ProfileWriter.get_property,
    ProfileWriter.bind, ProfileWriter.require, ProfileWriter.lift, ProfileWriter.ret. cbn.
  repeat (case_match; simplify_eq/=); done.
Qed.
Lemma grows_prepare_change path before :
  grows (prepare_band_change (W:=W) (V:=V) path_error path before) (λ r l, effects l = [] ∧
    match r with Ok c => bc_profile_path c = path | Err _ => True end).
Proof.
  pose proof (extends_connection_settings (W:=W)). apply quiet_grows.
  - unfold prepare_band_change, parse_profile_path, saved_wifi_connection_by_path.
    assert (∀ p, quiet (profile_io (W:=W) (S:=V) p begin_credential_edit)) as Hb by (intros p; apply quiet_profile_io, begin_writes).
    quiet_tac.
  - intros s. assert (extends (prepare_band_change (W:=W) (V:=V) path_error path before)) as He.
    { unfold prepare_band_change, parse_profile_path, saved_wifi_connection_by_path.
      assert (∀ p, extends (profile_io (W:=W) (S:=V) p begin_credential_edit)) as Hb by (intros p; apply extends_profile_io). extends_tac. }
    destruct (He s) as (l & Hl & _). exists l. split; [done|].
    destruct (prepare_band_change path_error path before s) as [[c|e] s'] eqn:E; [by eapply prepare_path|done].
Qed.

End Effects.

(** A profile whose band was set to 5 GHz, and which others renamed since. *)
Definition home_settings (id : string) (band : option string) : ConnectionSettings := list_to_map
  [("connection", list_to_map [("id", VStr id); ("uuid", VStr "u-1")]);
   ("802-11-wireless", list_to_map (("ssid", VArray [VByte "a"%char]) :: match band with Some b => [("band", VStr b)] | None => [] end))].
Definition banded_run : run (S:=profile_state) :=
  {| ProfileWriter.next := 0; writes := [];
     service := {| ps_version := 4; ps_settings := home_settings "Renamed" (Some "a"); ps_secrets := ∅ |} |}.
Definition compensation : result unit Error * run (S:=profile_state) :=
  @edit_band _ one_profile (restore_band_fields (home_settings "Home" None) Ghz5) (home_settings "Home" None) ":1.7" (λ _ s, s)
    (λ _, false) banded_run.
Lemma band_compensation_exact_witness :
  compensation.1 = Ok tt ∧ ∃ w edited, writes compensation.2 = [w] ∧
    band_field edited = None ∧ only_band (sv_settings (ProfileService := one_profile) (w_before w)) edited.
Proof.
  split; [by vm_compute|].
  destruct (@band_compensation_exact _ one_profile ":1.7" (λ _ s, s) (λ _, false) profile_later one_profile_laws
    (λ _, @PreOrder_Reflexive _ _ (@later_preorder _ one_profile _ one_profile_laws)) (home_settings "Home" None) Ghz5 banded_run compensation.2)
    as (w & edited & Hw & _ & _ & _ & Hb & Ho & _).
  - assert (Hok : compensation.1 = Ok tt) by by vm_compute. fold compensation. revert Hok. by destruct compensation as [[[]|] r'].
  - exists w, edited. split; [exact Hw|]. split; [rewrite Hb; by vm_compute|exact Ho].
Defined.
