(* ===== verification/Connect.v ===== *)
(** * A connection attempt ([src/connect.rs])

    [ConnectionMachine] drives NetworkManager from "is the target active?" through
    saved-profile activation, profile creation and one rescan to verification. The
    adapters under [src/nm/] and the caller's [progress] callback are operations of a
    world, given by the class [NetworkManager]; the attempt threads that world, the
    cache files and the machine's fields, and records its calls in a trace. *)
From S2P Require Import Prelude Errors Text Identity Wifi Network Cache Scan Activation ConnectWait.
From Stdlib Require Import ZArith Lia Ascii.
From stdpp Require Import prelude strings list.

Definition NOT_FOUND_RESCAN_TIMEOUT : duration := from_millis 8000.
Definition POST_CONNECT_STATUS_WAIT : duration := from_millis 1000.

(** ** Data *)

Module Phase.
(** [ConnectPhase] of [src/model.rs]. *)
Inductive ConnectPhase :=
| Starting | TryingAccessPoint | CheckingActive | ActivatingSavedProfile | CreatingProfile
| Rescanning | Verifying | RetryingAlternative | Connected | Failed | Cancelled.
End Phase.
Abbreviation ConnectPhase := Phase.ConnectPhase.

Inductive ProfileKind := Saved | Created.

Module Conn.
Inductive ConnectionState :=
| AlreadyActive | SavedProfile | CreateProfile | Rescan | Verify (kind : ProfileKind).
End Conn.
Abbreviation ConnectionState := Conn.ConnectionState.

Definition phase (s : ConnectionState) : ConnectPhase :=
  match s with
  | Conn.AlreadyActive => Phase.CheckingActive
  | Conn.SavedProfile => Phase.ActivatingSavedProfile
  | Conn.CreateProfile => Phase.CreatingProfile
  | Conn.Rescan => Phase.Rescanning
  | Conn.Verify _ => Phase.Verifying
  end.

Record ActivationOutcome := { ao_message : string; ao_path : ConnectEnginePath }.

Inductive StateTransition := Next (s : ConnectionState) | Connected (o : ActivationOutcome).

(** [WifiActivation] of [src/nm/activate.rs]. *)
Record WifiActivation := {
  wa_profile_path : string;
  wa_active_path : string;
  wa_scope : State;
}.

(** [ScanRequestOptions] of [src/model.rs]. *)
Record ScanRequestOptions := {
  so_timeout : duration;
  so_ifname : option InterfaceName;
  so_ssid_bytes : list (list u8);
}.

(** [ConnectAttemptRecord] of [src/cache.rs]. *)
Record ConnectAttemptRecord := {
  car_version : u32;
  car_timestamp_ms : N;
  car_duration_ms : N;
  car_status : string;
  car_reason : option ConnectFailureReason;
  car_path : option ConnectEnginePath;
  car_ssid : string;
  car_ssid_bytes : list u8;
  car_bssid : option string;
  car_ap_path : option string;
  car_device_iface : option string;
  car_device_path : option string;
  car_message : string;
}.

Definition attempt_record (timestamp_ms : N) (t : WifiConnectTarget) (status : string)
    (reason : option ConnectFailureReason) (path : option ConnectEnginePath)
    (message : string) (duration_ms : N) : ConnectAttemptRecord :=
  {| car_version := CACHE_VERSION; car_timestamp_ms := timestamp_ms;
     car_duration_ms := duration_ms; car_status := status; car_reason := reason;
     car_path := path; car_ssid := ssid_display (t_ssid t);
     car_ssid_bytes := ssid_bytes (t_ssid t); car_bssid := bssid_str <$> t_bssid t;
     car_ap_path := path_str <$> t_ap_path t; car_device_iface := ifname_str <$> t_ifname t;
     car_device_path := path_str <$> t_device_path t; car_message := message |}.

(** *** Events of a request ([ConnectCandidateInfo] of [src/model.rs],
    [ConnectOutcome] and [ConnectEvent] of [src/application.rs]) *)

Record ConnectCandidateInfo := {
  cc_attempt : N;
  cc_total : N;
  cc_bssid : option string;
  cc_band : option string;
  cc_channel : option u32;
  cc_strength : option N;
}.

Module Outcome.
Inductive ConnectOutcome :=
| Succeeded (result : ConnectResult)
| Failed (result : ConnectResult) (error : ErrorReport)
| Cancelled (message : string).
End Outcome.
Abbreviation ConnectOutcome := Outcome.ConnectOutcome.

Inductive ConnectEvent :=
| Started (p : ConnectPhase) (target : ConnectTargetIdentity) (message : string)
| Progress (p : ConnectPhase) (target : ConnectTargetIdentity) (message : string)
    (candidate : option ConnectCandidateInfo) (previous_reason : option ConnectFailureReason)
| Finished (p : ConnectPhase) (target : ConnectTargetIdentity) (outcome : ConnectOutcome)
| CancelledEvent (p : ConnectPhase) (target : ConnectTargetIdentity) (message : string).

(** One round of the wait for IP details after the activation. *)
Record StatusRound := {
  sr_cancelled : option bool;
  sr_status : result WifiStatus Error;
  sr_now : instant;
}.

(** ** The environment *)

(** What the attempt asks of its environment. [nm_wait] gives the device lookup,
    the start and the rounds of a wait for an activation whose scope has the given
    deadline; [nm_status_rounds] the rounds of the status wait up to a deadline. *)
Class NetworkManager (W : Type) := {
  nm_cancellation : W → W * option bool;
  nm_now : W → W * instant;
  nm_cache_io : W → W * (Io * N);
  nm_active_target_matches : WifiConnectTarget → W → W * result bool Error;
  nm_activate_saved : WifiConnectTarget → option string → option WepKeyType →
    W → W * result (option WifiActivation) Error;
  nm_add_and_activate : WifiConnectTarget → option string → option WepKeyType →
    W → W * result (option WifiActivation) Error;
  nm_target_visible : WifiConnectTarget → W → W * result bool Error;
  nm_scan_with_options : ScanRequestOptions → W → W * result unit Error;
  nm_wait : WifiConnectTarget → option string → option instant →
    W → W * (result unit Error * instant * list Round);
  nm_delete_connection : string → W → W * result unit Error;
  nm_list_access_points : W → W * result (list AccessPoint) Error;
  nm_status_rounds : instant → W → W * list StatusRound;
  nm_connectivity_snapshot : W → W * result ConnectivityStatus Error;
}.

(** Time passes: the rounds of a wait reach its deadline. *)
Class NetworkManagerClock (W : Type) `{NetworkManager W} : Prop := {
  wait_reaches_deadline target path scope w :
    let '(_, start, rounds) := (nm_wait target path scope w).2 in
    ∃ r, r ∈ rounds ∧
      (match scope with Some d => d | None => start + ACTIVATION_TIMEOUT end <= r_now r)%N;
  status_reaches_deadline d w :
    ∃ r, r ∈ (nm_status_rounds d w).2 ∧ (d <= sr_now r)%N;
}.

(** Calls of an attempt and their answers. *)
Inductive Event :=
| EvProgress (p : ConnectPhase)
| EvActive (r : result bool Error)
| EvSaved (r : result (option WifiActivation) Error)
| EvCreate (r : result (option WifiActivation) Error)
| EvScan (r : result unit Error)
| EvWait (path : option string) (effects : list Effect) (r : result unit Error)
| EvDropScope
| EvDelete (path : string)
| EvRecord (r : ConnectAttemptRecord)
| EvEmit (e : ConnectEvent).

Record Machine (W : Type) := {
  m_world : W;
  m_repo : Repo;
  m_trace : list Event;
  rescanned : bool;
  created_connection : option string;
  activation_path : option string;
  activation_scope : option State;
}.
Arguments m_world {W}.
Arguments m_repo {W}.
Arguments m_trace {W}.
Arguments rescanned {W}.
Arguments created_connection {W}.
Arguments activation_path {W}.
Arguments activation_scope {W}.
Arguments Build_Machine {W}.

(** ** The monad of an attempt: [None] when a wait has run out of rounds *)

Section Monad.
Context {W : Type}.

Definition M (A : Type) : Type := Machine W → option (Machine W * result A Error).

Definition ret {A} (a : A) : M A := λ m, Some (m, Ok a).
Definition throw {A} (e : Error) : M A := λ m, Some (m, Err e).
Definition mbind {A B} (c : M A) (k : A → M B) : M B := λ m,
  match c m with
  | None => None
  | Some (m', Err e) => Some (m', Err e)
  | Some (m', Ok a) => k a m'
  end.

(** The outcome as a value, for [match] on a [Result]. *)
Definition attempt {A} (c : M A) : M (result A Error) := λ m,
  match c m with None => None | Some (m', r) => Some (m', Ok r) end.

Definition of_result {A} (r : result A Error) : M A := λ m, Some (m, r).
Definition of_option {A} (o : option A) : M A := λ m,
  match o with None => None | Some a => Some (m, Ok a) end.

Definition ask {A} (op : W → W * A) : M A := λ m,
  let (w, a) := op (m_world m) in
  Some (Build_Machine w (m_repo m) (m_trace m) (rescanned m) (created_connection m)
          (activation_path m) (activation_scope m), Ok a).

Definition log (e : Event) : M unit := λ m,
  Some (Build_Machine (m_world m) (m_repo m) (m_trace m ++ [e]) (rescanned m)
          (created_connection m) (activation_path m) (activation_scope m), Ok tt).

(** The machine's fields. *)
Definition new_machine : M unit := λ m,
  Some (Build_Machine (m_world m) (m_repo m) (m_trace m) false None None None, Ok tt).
Definition get {A} (f : Machine W → A) : M A := λ m, Some (m, Ok (f m)).
Definition set_rescanned : M unit := λ m,
  Some (Build_Machine (m_world m) (m_repo m) (m_trace m) true (created_connection m)
          (activation_path m) (activation_scope m), Ok tt).
Definition set_created (c : option string) : M unit := λ m,
  Some (Build_Machine (m_world m) (m_repo m) (m_trace m) (rescanned m) c
          (activation_path m) (activation_scope m), Ok tt).
Definition set_activation (path : string) (scope : State) : M unit := λ m,
  Some (Build_Machine (m_world m) (m_repo m) (m_trace m) (rescanned m) (created_connection m)
          (Some path) (Some scope), Ok tt).
(** [self.activation_scope.take()]: dropping the guard retires its prompts. *)
Definition take_scope : M unit := λ m,
  Some (Build_Machine (m_world m) (m_repo m)
          (m_trace m ++ match activation_scope m with Some _ => [EvDropScope] | None => [] end)
          (rescanned m) (created_connection m) (activation_path m) None, Ok tt).
Definition in_repo {A} (f : Cache.step A) : M A := λ m,
  let (repo, r) := f (m_repo m) in
  Some (Build_Machine (m_world m) repo (m_trace m) (rescanned m) (created_connection m)
          (activation_path m) (activation_scope m), r).
End Monad.
Arguments M W A : clear implicits.

Notation "'let*' x ':=' c 'in' k" := (mbind c (λ x, k))
  (at level 10, x pattern, c at level 200, k at level 200) : nm_scope.

(** ** The machine *)

Section Machine.
Context {W : Type} `{NetworkManager W}.
Context (target : WifiConnectTarget) (password : option string)
  (wep_key_type : option WepKeyType) (progress : ConnectPhase → W → W * result unit Error).

Let name : string := ssid_display (t_ssid target).

(** [src/connect_cancel.rs]. *)
Definition check_cancelled : M W unit :=
  let* c := ask nm_cancellation in
  if cancellation_requested c then throw cancelled_error else ret tt.

(** A cache operation at some instant, its failure only logged. *)
Definition cache_best_effort {A} (f : Io → N → Cache.step A) : M W (option A) :=
  let* env := ask nm_cache_io in
  let* r := attempt (in_repo (f env.1 env.2)) in
  ret (best_effort r).

Definition check_already_active : M W StateTransition :=
  let* r := ask (nm_active_target_matches target) in
  let* _ := log (EvActive r) in
  match r with
  | Ok true =>
    if bool_decide (password = None) && negb (bool_decide (is_Some (t_enterprise target)))
    then ret (Connected {| ao_message := "Already connected to " +:+ name;
                           ao_path := AlreadyActive |})
    else ret (Next Conn.SavedProfile)
  | Ok false | Err _ => ret (Next Conn.SavedProfile)
  end.

(** [finish_dbus_failure] only logs. *)
Definition finish_dbus_failure (kind : ProfileKind) (e : Error) : M W StateTransition := throw e.

Definition activate_saved_profile : M W StateTransition :=
  let* r := ask (nm_activate_saved target password wep_key_type) in
  let* _ := log (EvSaved r) in
  match r with
  | Ok (Some activation) =>
    let* _ := set_activation (wa_active_path activation) (wa_scope activation) in
    ret (Next (Conn.Verify Saved))
  | Ok None => ret (Next Conn.CreateProfile)
  | Err e => finish_dbus_failure Saved e
  end.

Definition target_visibility : M W (option bool) :=
  if t_hidden target then ret (Some false)
  else
    let* r := ask (nm_target_visible target) in
    ret (match r with Ok visible => Some visible | Err _ => None end).

Definition should_rescan (target_visible : option bool) : M W bool :=
  let* rescanned := get rescanned in
  ret (negb rescanned && negb (t_hidden target) && negb (bool_decide (target_visible = Some true))).

Definition unavailable_activation_error (target_visible : option bool) : Error :=
  let reason := if negb (t_hidden target) && bool_decide (target_visible = Some true)
                then Reason.UnsupportedAuth else Reason.NotFound in
  connect_failure reason ("no supported D-Bus activation path is available for " +:+ name).

Definition create_profile : M W StateTransition :=
  let* r := ask (nm_add_and_activate target password wep_key_type) in
  let* _ := log (EvCreate r) in
  match r with
  | Ok (Some activation) =>
    let* _ := set_created (Some (wa_profile_path activation)) in
    let* _ := set_activation (wa_active_path activation) (wa_scope activation) in
    ret (Next (Conn.Verify Created))
  | Ok None =>
    let* target_visible := target_visibility in
    let* again := should_rescan target_visible in
    if again : bool then ret (Next Conn.Rescan)
    else throw (unavailable_activation_error target_visible)
  | Err e => finish_dbus_failure Created e
  end.

Definition rescan : M W StateTransition :=
  let* _ := set_rescanned in
  let* r := ask (nm_scan_with_options
    {| so_timeout := NOT_FOUND_RESCAN_TIMEOUT; so_ifname := t_ifname target;
       so_ssid_bytes := [ssid_bytes (t_ssid target)] |}) in
  let* _ := log (EvScan r) in
  let* _ := of_result r in
  ret (Next Conn.SavedProfile).

Definition verify (kind : ProfileKind) : M W StateTransition :=
  let* path := get activation_path in
  let* scope := get activation_scope in
  let* (device, start, rounds) :=
    ask (nm_wait target path (Activation.deadline <$> scope)) in
  let* (r, effects) :=
    of_option (wait_for_active_target_path target path device start scope rounds) in
  let* _ := log (EvWait path effects r) in
  let* _ := of_result r in
  let* _ := take_scope in
  let* network := match kind with
                  | Saved => ret "saved network"
                  | Created => let* _ := set_created None in ret "Wi-Fi network"
                  end in
  ret (Connected {| ao_message := "Connected to " +:+ network +:+ " " +:+ name +:+ " via D-Bus";
                    ao_path := Dbus |}).

Definition step (s : ConnectionState) : M W StateTransition :=
  match s with
  | Conn.AlreadyActive => check_already_active
  | Conn.SavedProfile => activate_saved_profile
  | Conn.CreateProfile => create_profile
  | Conn.Rescan => rescan
  | Conn.Verify kind => verify kind
  end.

(** The loop of [run_states]; [MAX_STATES] bounds the states it visits. *)
Fixpoint run_states (fuel : nat) (s : ConnectionState) : M W ActivationOutcome :=
  match fuel with
  | O => of_option None
  | S fuel =>
    let* _ := check_cancelled in
    let* _ := log (EvProgress (phase s)) in
    let* r := ask (progress (phase s)) in
    let* _ := of_result r in
    let* t := step s in
    match t with
    | Next next => run_states fuel next
    | Connected outcome => ret outcome
    end
  end.
Definition MAX_STATES : nat := 7.

Definition cleanup_created_connection : M W unit :=
  let* c := get created_connection in
  match c with
  | None => ret tt
  | Some path =>
    let* _ := set_created None in
    let* _ := log (EvDelete path) in
    let* _ := ask (nm_delete_connection path) in
    ret tt
  end.

(** ** Finishing *)

Definition record_connect_attempt (result : ConnectResult) (started_at : instant) : M W unit :=
  let* now := ask nm_now in
  let* env := ask nm_cache_io in
  log (EvRecord (attempt_record env.2 target (cr_status result) (cr_reason result)
         (cr_path result) (cr_message result) ((now - started_at) / 1000000)%N)).

Definition status_has_network_details (s : WifiStatus) : bool :=
  match ws_ip4 s with
  | Some ip4 => match ip_address ip4 with Some a => negb (bool_decide (a = "")) | None => false end
  | None => false
  end.

Fixpoint status_loop (dl : Deadline) (rounds : list StatusRound) :
    option (result WifiStatus Error) :=
  match rounds with
  | [] => None
  | r :: rounds' =>
    if cancellation_requested (sr_cancelled r) then Some (Err cancelled_error)
    else match sr_status r with
         | Err e => Some (Err e)
         | Ok s => if status_has_network_details s || expired (sr_now r) dl then Some (Ok s)
                   else status_loop dl rounds'
         end
  end.

Definition read_active_status_after_connect : M W WifiStatus :=
  let* start := ask nm_now in
  let dl := {| at_instant := (start + POST_CONNECT_STATUS_WAIT)%N |} in
  let* rounds := ask (nm_status_rounds (at_instant dl)) in
  let* r := of_option (status_loop dl rounds) in
  of_result r.

Definition cache_active_status : M W (option WifiStatus) :=
  let* status := attempt read_active_status_after_connect in
  match best_effort status with
  | None => ret None
  | Some status =>
    let* _ := cache_best_effort (λ io now, cache_connected_network_status io now status) in
    ret (Some status)
  end.

Definition refresh_cached_networks : M W unit :=
  let* r := ask nm_list_access_points in
  let* networks := of_result r in
  let* env := ask nm_cache_io in
  let* _ := in_repo (write_snapshot env.1 env.2 false networks) in
  let* env := ask nm_cache_io in
  in_repo (write_complete env.1 env.2 (length networks)).

Definition finish_success (outcome : ActivationOutcome) (started_at : instant) :
    M W ConnectResult :=
  let* _ := cache_best_effort (λ io now, write_status io now "connected" (ao_message outcome)) in
  let* _ := attempt refresh_cached_networks in
  let* _ := check_cancelled in
  let* active_status := cache_active_status in
  let* connectivity :=
    match active_status ≫= ws_connectivity with
    | Some c => ret (Some c)
    | None => let* r := ask nm_connectivity_snapshot in ret (best_effort r)
    end in
  let result := connected name (ao_message outcome) (ao_path outcome) connectivity in
  let* _ := record_connect_attempt result started_at in
  ret result.

Definition publish_final_connect_failure (e : Error) : M W unit :=
  let* _ := cache_best_effort (λ io now, write_status io now "error"
    ("Connection failed for " +:+ name +:+ ": " +:+ err_chain e)) in
  ret tt.

Definition failed_result (e : Error) : ConnectResult :=
  failed name (connect_failure_reason e) (err_chain e).

Definition finish_failure (e : Error) (started_at : instant) (publish_failure : bool) :
    M W ConnectResult :=
  let e := ensure_domain Op.Connect e in
  let* _ := if publish_failure then publish_final_connect_failure e else ret tt in
  let* _ := record_connect_attempt (failed_result e) started_at in
  throw e.

Definition run (finalize_failure : bool) : M W ConnectResult :=
  let* _ := check_cancelled in
  let* _ := of_result (result_map_err (connect_failure_from_error Reason.ValidationError)
                         (target_validate target)) in
  let* _ := cache_best_effort (λ io now,
    write_status io now "connecting" ("Connecting to " +:+ name +:+ "…")) in
  let* started_at := ask nm_now in
  let* r := attempt (run_states MAX_STATES Conn.AlreadyActive) in
  match r with
  | Ok outcome => finish_success outcome started_at
  | Err e =>
    let* _ := take_scope in
    let* _ := cleanup_created_connection in
    finish_failure e started_at finalize_failure
  end.

Definition connect_target (publish_failure : bool) : M W ConnectResult :=
  let* _ := new_machine in
  run publish_failure.
End Machine.

(** ** Weakest preconditions

    [wp c Q m]: from [m] the computation ends, in a state and with a result that
    satisfy [Q]. *)

Section Wp.
Context {W : Type}.
Implicit Types m : Machine W.

Definition wp {A} (c : M W A) (Q : result A Error → Machine W → Prop) (m : Machine W) : Prop :=
  match c m with None => False | Some (m', r) => Q r m' end.

Lemma wp_bind {A B} (c : M W A) (k : A → M W B) Q m :
  wp c (λ r m', match r with Ok a => wp (k a) Q m' | Err e => Q (Err e) m' end) m →
  wp (mbind c k) Q m.
Proof. unfold wp, mbind. by destruct (c m) as [[m' [a|e]]|]. Qed.

Lemma wp_mono {A} (c : M W A) (P Q : result A Error → Machine W → Prop) m :
  wp c P m → (∀ r m', P r m' → Q r m') → wp c Q m.
Proof. unfold wp. destruct (c m) as [[m' r]|]; eauto. Qed.

Lemma wp_attempt {A} (c : M W A) Q m :
  wp c (λ r m', Q (Ok r) m') m → wp (attempt c) Q m.
Proof. unfold wp, attempt. by destruct (c m) as [[m' r]|]. Qed.

(** The fields of a machine and its trace. *)
Definition core m :=
  (m_trace m, rescanned m, created_connection m, activation_path m, activation_scope m).

(** A computation that ends and changes only the world and the cache files. *)
Definition quiet {A} (c : M W A) : Prop := ∀ m, wp c (λ _ m', core m' = core m) m.

Lemma wp_quiet {A} (c : M W A) Q m :
  quiet c → (∀ r m', core m' = core m → Q r m') → wp c Q m.
Proof. intros Hc HQ. eapply wp_mono; [apply Hc|exact HQ]. Qed.

Lemma quiet_bind {A B} (c : M W A) (k : A → M W B) : quiet c → (∀ a, quiet (k a)) → quiet (mbind c k).
Proof.
  intros Hc Hk m. apply wp_bind. eapply wp_mono; [apply Hc|].
  intros [a|e] m' E; [|done]. eapply wp_mono; [apply Hk|]. by intros ? ? ->.
Qed.

Lemma quiet_attempt {A} (c : M W A) : quiet c → quiet (attempt c).
Proof. intros Hc m. apply wp_attempt, Hc. Qed.

Lemma quiet_ret {A} (a : A) : quiet (ret a).
Proof. done. Qed.
Lemma quiet_throw {A} (e : Error) : quiet (@throw W A e).
Proof. done. Qed.
Lemma quiet_of_result {A} (r : result A Error) : quiet (of_result r).
Proof. done. Qed.
Lemma quiet_get {A} (f : Machine W → A) : quiet (get f).
Proof. done. Qed.
Lemma quiet_ask {A} (op : W → W * A) : quiet (ask op).
Proof. intros m. unfold wp, ask. by destruct (op (m_world m)). Qed.
Lemma quiet_in_repo {A} (f : Cache.step A) : quiet (in_repo f).
Proof. intros m. unfold wp, in_repo. by destruct (f (m_repo m)). Qed.
End Wp.

Lemma wp_ask {W A} (op : W → W * A) Q m :
  (∀ a m', core m' = core m → Q (Ok a) m') → wp (ask op) Q m.
Proof. intros HQ. unfold wp, ask. destruct (op (m_world m)). by apply HQ. Qed.

Create HintDb quiet discriminated.
#[export] Hint Resolve quiet_bind quiet_attempt quiet_ret quiet_throw quiet_of_result quiet_get
  quiet_ask quiet_in_repo : quiet.

(** Quietness follows the structure of a computation. *)
Ltac solve_quiet :=
  repeat first
    [ progress eauto with quiet
    | apply quiet_bind; [|intros ?]
    | apply quiet_attempt
    | case_match ].

(** ** What a trace says *)

Definition phases : list Event → list ConnectPhase :=
  omap (λ e, match e with EvProgress p => Some p | _ => None end).
Definition created : list Event → list string :=
  omap (λ e, match e with EvCreate (Ok (Some a)) => Some (wa_profile_path a) | _ => None end).
Definition deleted : list Event → list string :=
  omap (λ e, match e with EvDelete p => Some p | _ => None end).
(** What leaves the attempt: history records and frontend events. *)
Definition reports : list Event → list Event :=
  omap (λ e, match e with EvRecord _ | EvEmit _ => Some e | _ => None end).
Definition records : list Event → list ConnectAttemptRecord :=
  omap (λ e, match e with EvRecord r => Some r | _ => None end).
Definition emitted : list Event → list ConnectEvent :=
  omap (λ e, match e with EvEmit e => Some e | _ => None end).
Definition verified : list Event → bool :=
  existsb (λ e, match e with EvWait _ _ (Ok _) => true | _ => false end).
Definition already_active : list Event → bool :=
  existsb (λ e, match e with EvActive (Ok true) => true | _ => false end).

Lemma phases_app l k : phases (l ++ k) = phases l ++ phases k.
Proof. apply omap_app. Qed.
Lemma created_app l k : created (l ++ k) = created l ++ created k.
Proof. apply omap_app. Qed.
Lemma deleted_app l k : deleted (l ++ k) = deleted l ++ deleted k.
Proof. apply omap_app. Qed.
Lemma reports_app l k : reports (l ++ k) = reports l ++ reports k.
Proof. apply omap_app. Qed.
Lemma emitted_app l k : emitted (l ++ k) = emitted l ++ emitted k.
Proof. apply omap_app. Qed.
Lemma records_reports l : records l = records (reports l).
Proof. induction l as [|[] l IH]; cbn; rewrite ?IH; done. Qed.
Lemma emitted_reports l : emitted l = emitted (reports l).
Proof. induction l as [|[] l IH]; cbn; rewrite ?IH; done. Qed.
Lemma verified_app l k : verified (l ++ k) = verified l || verified k.
Proof. apply existsb_app. Qed.
Lemma already_active_app l k : already_active (l ++ k) = already_active l || already_active k.
Proof. apply existsb_app. Qed.

(** The orders in which an attempt reports its phases. *)
Definition complete_runs : list (list ConnectPhase) :=
  let check := [Phase.CheckingActive] in
  let saved := [Phase.ActivatingSavedProfile] in
  let create := [Phase.CreatingProfile] in
  let rescan := [Phase.Rescanning] in
  let verify := [Phase.Verifying] in
  [ check ++ saved ++ verify;
    check ++ saved ++ create ++ verify;
    check ++ saved ++ create ++ rescan ++ saved ++ verify;
    check ++ saved ++ create ++ rescan ++ saved ++ create ++ verify ].

(** The phases reported before a state is entered. *)
Definition trail (s : ConnectionState) (again : bool) : list ConnectPhase :=
  let start := [Phase.CheckingActive] ++
    (if again then [Phase.ActivatingSavedProfile; Phase.CreatingProfile; Phase.Rescanning] else []) in
  match s with
  | Conn.AlreadyActive => []
  | Conn.SavedProfile => start
  | Conn.CreateProfile | Conn.Verify Saved => start ++ [Phase.ActivatingSavedProfile]
  | Conn.Rescan => start ++ [Phase.ActivatingSavedProfile; Phase.CreatingProfile]
  | Conn.Verify Created => start ++ [Phase.ActivatingSavedProfile; Phase.CreatingProfile]
  end.

(** States entered before any rescan. *)
Definition first_pass (s : ConnectionState) : bool :=
  match s with Conn.AlreadyActive | Conn.Rescan => true | _ => false end.

Definition ordered (ps : list ConnectPhase) : Prop :=
  Exists (λ run, ps `prefix_of` run) complete_runs.

Lemma trail_ordered s again :
  (first_pass s = true → again = false) → ordered (trail s again ++ [phase s]).
Proof.
  intros Hf. unfold ordered, complete_runs.
  destruct s as [| | | |[]], again; try (by specialize (Hf eq_refl)); cbn;
    repeat first [ by (apply Exists_cons_hd; eexists; reflexivity) | apply Exists_cons_tl ].
Qed.

Lemma ordered_prefix ps qs : ordered (ps ++ qs) → ordered ps.
Proof. intros Hex. eapply Exists_impl; [exact Hex|]. intros run. apply prefix_app_l. Qed.

Section Correct.
Context {W : Type} `{NetworkManagerClock W}.
Context (target : WifiConnectTarget) (password : option string)
  (wep_key_type : option WepKeyType) (progress : ConnectPhase → W → W * result unit Error).
Implicit Types m : Machine W.

(** *** Quiet parts *)

Lemma quiet_check_cancelled : quiet check_cancelled.
Proof. unfold check_cancelled. solve_quiet. Qed.
Lemma quiet_cache_best_effort {A} (f : Io → N → Cache.step A) : quiet (cache_best_effort f).
Proof. unfold cache_best_effort. solve_quiet. Qed.
Lemma quiet_target_visibility : quiet (target_visibility target).
Proof. unfold target_visibility. solve_quiet. Qed.
Lemma quiet_should_rescan v : quiet (W:=W) (should_rescan target v).
Proof. unfold should_rescan. solve_quiet. Qed.
Lemma quiet_refresh : quiet refresh_cached_networks.
Proof. unfold refresh_cached_networks. solve_quiet. Qed.
Lemma quiet_publish e : quiet (publish_final_connect_failure target e).
Proof. unfold publish_final_connect_failure. eauto using quiet_cache_best_effort with quiet. Qed.

Lemma status_loop_ends dl rounds r :
  r ∈ rounds → (at_instant dl <= sr_now r)%N → is_Some (status_loop dl rounds).
Proof.
  intros Hin Hle. induction Hin as [r rs|r r' rs Hin IH]; cbn [status_loop].
  - repeat case_match; try by eexists. bool_prop. unfold expired in *. bool_prop. lia.
  - repeat case_match; eauto.
Qed.

Lemma quiet_read_active_status : quiet read_active_status_after_connect.
Proof.
  unfold read_active_status_after_connect. apply quiet_bind; [solve_quiet|intros start m].
  apply wp_bind. unfold wp at 1, ask.
  pose proof (status_reaches_deadline (start + POST_CONNECT_STATUS_WAIT)%N (m_world m)) as (r & Hr & Hle).
  cbn [at_instant]. destruct (nm_status_rounds _ _) as [w rounds]. cbn in *.
  destruct (status_loop_ends {| at_instant := (start + POST_CONNECT_STATUS_WAIT)%N |} rounds r Hr Hle)
    as [r' ->]. done.
Qed.

Lemma quiet_cache_active_status : quiet cache_active_status.
Proof.
  unfold cache_active_status.
  apply quiet_bind; [apply quiet_attempt, quiet_read_active_status|intros r].
  destruct (best_effort r); eauto using quiet_cache_best_effort with quiet.
Qed.

(** *** Where an attempt stands *)

(** In state [s] since the trace was [tr0], having reported the phases [ps]. *)
Definition at_state (s : ConnectionState) (ps : list ConnectPhase) (tr0 : list Event) m : Prop :=
  ∃ ev, m_trace m = tr0 ++ ev ∧ phases ev = ps ∧ (first_pass s = true → rescanned m = false) ∧
    deleted ev = [] ∧ reports ev = [] ∧ verified ev = false ∧
    match s with
    | Conn.Verify Saved => created_connection m = None ∧ created ev = []
    | Conn.Verify Created => ∃ p, created_connection m = Some p ∧ created ev = [p]
    | _ => created_connection m = None ∧ created ev = [] ∧ activation_scope m = None
    end.

Definition entering s tr0 m : Prop := at_state s (trail s (rescanned m)) tr0 m.
Definition inside s tr0 m : Prop := at_state s (trail s (rescanned m) ++ [phase s]) tr0 m.

Definition gave_up (tr0 : list Event) m : Prop :=
  ∃ ev, m_trace m = tr0 ++ ev ∧ ordered (phases ev) ∧ deleted ev = [] ∧ reports ev = [] ∧
    verified ev = false ∧ created ev = option_list (created_connection m).

(** The evidence behind a connected outcome. *)
Definition evidence (path : ConnectEnginePath) (ev : list Event) : Prop :=
  match path with
  | AlreadyActive => already_active ev = true ∧ verified ev = false ∧ created ev = [] ∧
      password = None ∧ t_enterprise target = None
  | Dbus => verified ev = true
  end.

Definition succeeded (o : ActivationOutcome) (tr0 : list Event) m : Prop :=
  ∃ ev, m_trace m = tr0 ++ ev ∧ ordered (phases ev) ∧ deleted ev = [] ∧ reports ev = [] ∧
    created_connection m = None ∧ activation_scope m = None ∧ length (created ev) <= 1 ∧
    evidence (ao_path o) ev.

(** These facts see only the machine's fields and its trace. *)
Lemma at_state_core s ps tr0 m m' : core m' = core m → at_state s ps tr0 m → at_state s ps tr0 m'.
Proof. intros [= E1 E2 E3 E4 E5]. unfold at_state. by rewrite E1, E2, E3, E5. Qed.

Lemma inside_core s tr0 m m' : core m' = core m → inside s tr0 m → inside s tr0 m'.
Proof. intros E. unfold inside. replace (rescanned m') with (rescanned m) by (by injection E).
  by apply at_state_core. Qed.

Lemma at_state_ordered s ps qs tr0 m : ordered (ps ++ qs) → at_state s ps tr0 m → gave_up tr0 m.
Proof.
  intros Ho (ev & Ht & Hp & Hf & Hd & Hr & Hv & Hs). exists ev. split_and!; [done| |done..|].
  - rewrite Hp. by eapply ordered_prefix.
  - assert (∃ o, created_connection m = o ∧ created ev = option_list o) as (o & -> & ->);
      [|done]. destruct s as [| | | |[]]; naive_solver.
Qed.

Lemma at_state_first_pass s ps tr0 m :
  at_state s ps tr0 m → first_pass s = true → rescanned m = false.
Proof. by intros (ev & _ & _ & ? & _). Qed.

Lemma inside_gave_up s tr0 m : inside s tr0 m → gave_up tr0 m.
Proof.
  intros Hin. eapply (at_state_ordered s _ []); [|exact Hin]. rewrite app_nil_r.
  apply trail_ordered. by eapply at_state_first_pass.
Qed.

Lemma entering_gave_up s tr0 m : entering s tr0 m → gave_up tr0 m.
Proof.
  intros Hin. eapply (at_state_ordered s _ [phase s]); [|exact Hin].
  apply trail_ordered. by eapply at_state_first_pass.
Qed.

(** What a step may leave. *)
Definition stepped (tr0 : list Event) (rank : nat) (r : result StateTransition Error) m : Prop :=
  match r with
  | Ok (Next s) => entering s tr0 m ∧ length (trail s (rescanned m)) = S rank
  | Ok (Connected o) => succeeded o tr0 m
  | Err _ => gave_up tr0 m
  end.

(** Facts about a trace after one more event. *)
Ltac trace_simpl :=
  rewrite ?phases_app, ?created_app, ?deleted_app, ?reports_app, ?verified_app,
    ?already_active_app; cbn; rewrite ?app_nil_r, ?orb_false_r.

Ltac wp_ask := apply wp_bind, wp_ask; intros ? ? ?.

Lemma wp_log e Q m :
  (∀ m', m_trace m' = m_trace m ++ [e] → rescanned m' = rescanned m →
     created_connection m' = created_connection m → activation_scope m' = activation_scope m →
     Q (Ok tt) m') → wp (log e) Q m.
Proof. intros HQ. by apply HQ. Qed.

(** An answer that says nothing about phases, deletions, reports or verification. *)
Definition plain_answer (e : Event) : Prop :=
  match e with
  | EvActive _ | EvSaved _ | EvCreate _ | EvScan _ | EvWait _ _ (Err _) => True
  | _ => False
  end.

Lemma plain_answer_facts e : plain_answer e →
  phases [e] = [] ∧ deleted [e] = [] ∧ reports [e] = [] ∧ verified [e] = false.
Proof. by destruct e as [| | | | |? ? []| | | |]. Qed.

(** The profile a state owns, given what the answer that led to it created. *)
Definition owns (s : ConnectionState) (e : Event) m : Prop :=
  match s with
  | Conn.Verify Saved => created_connection m = None ∧ created [e] = []
  | Conn.Verify Created => ∃ p, created_connection m = Some p ∧ created [e] = [p]
  | _ => created_connection m = None ∧ created [e] = [] ∧ activation_scope m = None
  end.

Lemma advance s s' e tr0 m m2 :
  inside s tr0 m → match s with Conn.Verify _ => False | _ => True end →
  m_trace m2 = m_trace m ++ [e] → plain_answer e →
  trail s' (rescanned m2) = trail s (rescanned m) ++ [phase s] →
  (first_pass s' = true → rescanned m2 = false) → owns s' e m2 →
  stepped tr0 (length (trail s (rescanned m))) (Ok (Next s')) m2.
Proof.
  intros (ev & Ht & Hp & _ & Hd & Hr & Hv & Hs) Hnv Ht2 (Ep & Ed & Er & Ev)%plain_answer_facts
    Htr Hf Ho.
  assert (created ev = []) as Hc by (destruct s; naive_solver).
  split; [|rewrite Htr, length_app; simpl; lia].
  exists (ev ++ [e]). rewrite Ht2, Ht, app_assoc, phases_app, deleted_app, reports_app, verified_app,
    created_app, Hp, Hd, Hr, Hv, Hc, Ep, Ed, Er, Ev, Htr, app_nil_r.
  by split_and!.
Qed.

Lemma retreat s e tr0 m m2 :
  inside s tr0 m → m_trace m2 = m_trace m ++ [e] → plain_answer e → created [e] = [] →
  created_connection m2 = created_connection m → gave_up tr0 m2.
Proof.
  intros (ev & Ht & Ho & Hd & Hr & Hv & Hc)%inside_gave_up Ht2
    (Ep & Ed & Er & Ev)%plain_answer_facts Ec Hcc.
  exists (ev ++ [e]). rewrite Ht2, Ht, app_assoc, phases_app, deleted_app, reports_app, verified_app,
    created_app, Hd, Hr, Hv, Hc, Ep, Ed, Er, Ev, Ec, Hcc, !app_nil_r.
  by split_and!.
Qed.

(** The fields before any verification. *)
Lemma inside_fields s tr0 m :
  inside s tr0 m → match s with Conn.Verify _ => False | _ => True end →
  created_connection m = None ∧ activation_scope m = None ∧
  (first_pass s = true → rescanned m = false).
Proof. intros (ev & _ & _ & Hf & _ & _ & _ & Hs) ?. destruct s; naive_solver. Qed.

Lemma check_already_active_spec tr0 m :
  inside Conn.AlreadyActive tr0 m →
  wp (check_already_active target password)
    (stepped tr0 (length (trail Conn.AlreadyActive (rescanned m)))) m.
Proof.
  intros Hin. unfold check_already_active. wp_ask.
  eapply inside_core in Hin; [|done].
  destruct (inside_fields _ _ _ Hin I) as (Hc & Hs & Hf).
  apply wp_bind, wp_log. intros m2 Ht2 Hr2 Hc2 Hs2.
  assert (stepped tr0 0 (Ok (Next Conn.SavedProfile)) m2).
  { eapply (advance Conn.AlreadyActive _ (EvActive a)); try done.
    - by rewrite Hr2, Hf.
    - split_and!; [congruence|done|congruence]. }
  destruct a as [[]|e]; try done. destruct (_ && _) eqn:Hcond; [|done]. bool_prop.
  destruct Hin as (ev & Ht & Hp & _ & Hd & Hrec & Hv & _ & Hcr & _).
  exists (ev ++ [EvActive (Ok true)]). rewrite Ht2, Ht, app_assoc. trace_simpl. rewrite Hp, Hcr.
  split_and!; try congruence; try done; trace_simpl.
  - by apply (trail_ordered Conn.AlreadyActive false).
  - simpl. lia.
  - by rewrite orb_true_r.
  - by rewrite Hv.
  - by rewrite Hcr.
  - by apply eq_None_not_Some.
Qed.

Lemma activate_saved_profile_spec tr0 m :
  inside Conn.SavedProfile tr0 m →
  wp (activate_saved_profile target password wep_key_type)
    (stepped tr0 (length (trail Conn.SavedProfile (rescanned m)))) m.
Proof.
  intros Hin. unfold activate_saved_profile. wp_ask.
  assert (rescanned m' = rescanned m) as Hr by (unfold core in *; congruence).
  eapply inside_core in Hin; [|done]. rewrite <-Hr.
  destruct (inside_fields _ _ _ Hin I) as (Hc & Hs & _).
  apply wp_bind, wp_log. intros m2 Ht2 Hr2 Hc2 Hs2.
  destruct a as [[a|]|e].
  - eapply (advance Conn.SavedProfile _ (EvSaved (Ok (Some a)))); try done.
    + cbn. by rewrite Hr2.
    + split; cbn; [congruence|done].
  - eapply (advance Conn.SavedProfile _ (EvSaved (Ok None))); try done.
    + by rewrite Hr2.
    + split_and!; [congruence|done|congruence].
  - by eapply (retreat Conn.SavedProfile).
Qed.

Lemma stepped_core tr0 rank r m m' :
  core m' = core m → stepped tr0 rank r m → stepped tr0 rank r m'.
Proof.
  intros [= E1 E2 E3 E4 E5]. destruct r as [[]|]; simpl;
    unfold entering, at_state, succeeded, gave_up; by rewrite ?E1, ?E2, ?E3, ?E5.
Qed.

Lemma wp_should_rescan v Q m :
  (∀ b : bool, (b = true → rescanned m = false) → Q (Ok b) m) → wp (should_rescan target v) Q m.
Proof. intros HQ. apply HQ. by destruct (rescanned m). Qed.

Lemma create_profile_spec tr0 m :
  inside Conn.CreateProfile tr0 m →
  wp (create_profile target password wep_key_type)
    (stepped tr0 (length (trail Conn.CreateProfile (rescanned m)))) m.
Proof.
  intros Hin. unfold create_profile. wp_ask.
  assert (rescanned m' = rescanned m) as Hr by (unfold core in *; congruence).
  eapply inside_core in Hin; [|done]. rewrite <-Hr.
  destruct (inside_fields _ _ _ Hin I) as (Hc & Hs & _).
  apply wp_bind, wp_log. intros m2 Ht2 Hr2 Hc2 Hs2.
  destruct a as [[a|]|e]; [| |by eapply (retreat Conn.CreateProfile)].
  - eapply (advance Conn.CreateProfile _ (EvCreate (Ok (Some a)))); try done.
    + cbn. by rewrite Hr2, <-!app_assoc.
    + by exists (wa_profile_path a).
  - apply wp_bind, wp_quiet; [apply quiet_target_visibility|]. intros [v|e] m3 H3.
    2:{ eapply stepped_core; [done|]. by eapply (retreat Conn.CreateProfile). }
    assert (rescanned m3 = rescanned m') as Hr3 by (unfold core in *; congruence).
    apply wp_bind, wp_should_rescan. intros [] Hagain; (eapply stepped_core; [done|]);
      [|by eapply (retreat Conn.CreateProfile)].
    specialize (Hagain eq_refl). rewrite Hr3 in Hagain.
    eapply (advance Conn.CreateProfile _ (EvCreate (Ok None))); try done; rewrite ?Hr2, ?Hagain; try done.
    split_and!; [congruence|done|congruence].
Qed.

Lemma rescan_spec tr0 m :
  inside Conn.Rescan tr0 m →
  wp (rescan target) (stepped tr0 (length (trail Conn.Rescan (rescanned m)))) m.
Proof.
  intros Hin. destruct (inside_fields _ _ _ Hin I) as (Hc & Hs & Hf).
  unfold rescan. apply wp_bind. unfold wp at 1, set_rescanned. wp_ask.
  assert (m_trace m' = m_trace m ∧ created_connection m' = created_connection m ∧
    activation_scope m' = activation_scope m ∧ rescanned m' = true) as (Ht' & Hc' & Hs' & Hr')
    by (unfold core in *; cbn in *; by simplify_eq).
  apply wp_bind, wp_log. intros m2 Ht2 Hr2 Hc2 Hs2.
  apply wp_bind. unfold wp at 1, of_result. rewrite Ht' in Ht2. destruct a as [[]|e].
  - eapply (advance Conn.Rescan _ (EvScan (Ok ()))); try done.
    + by rewrite Hr2, Hr', Hf.
    + split_and!; [congruence|done|congruence].
  - eapply (retreat Conn.Rescan); [done..|congruence].
Qed.

Lemma verify_spec kind tr0 m :
  inside (Conn.Verify kind) tr0 m →
  wp (verify target kind) (stepped tr0 (length (trail (Conn.Verify kind) (rescanned m)))) m.
Proof.
  intros Hin. unfold verify.
  apply wp_bind. unfold wp at 1, get. apply wp_bind. unfold wp at 1, get.
  pose proof (wait_reaches_deadline target (activation_path m)
    (Activation.deadline <$> activation_scope m) (m_world m)) as Hclock.
  apply wp_bind. unfold wp at 1, ask.
  destruct (nm_wait _ _ _ _) as [w [[device start] rounds]]. cbn in Hclock.
  destruct Hclock as (r & Hr & Hle).
  set (m1 := Build_Machine w _ _ _ _ _ _).
  assert (is_Some (wait_for_active_target_path target (activation_path m) device start
    (activation_scope m) rounds)) as [[res effects] ->].
  { unfold wait_for_active_target_path. destruct device; [|by eexists].
    eapply wait_loop_ends; [done|]. by destruct (activation_scope m). }
  apply wp_bind. unfold wp at 1, of_option. apply wp_bind, wp_log. intros m2 Ht2 Hr2 Hc2 Hs2.
  assert (core m1 = core m) as Hm1 by done.
  eapply inside_core in Hin; [|exact Hm1]. clearbody m1.
  apply wp_bind. unfold wp at 1, of_result.
  destruct res as [[]|e]; [|by eapply (retreat (Conn.Verify kind))].
  apply wp_bind. unfold wp at 1, take_scope. apply wp_bind.
  pose proof (inside_gave_up _ _ _ Hin) as (ev & Ht & Ho & Hd & Hrec & Hv & Hcr).
  assert (created_connection m1 = None ∨ kind = Created) as Hk.
  { destruct Hin as (? & _ & _ & _ & _ & _ & _ & Hkind). destruct kind; naive_solver. }
  set (ev' := ev ++ [EvWait (activation_path m) effects (Ok ())] ++
    match activation_scope m2 with Some _ => [EvDropScope] | None => [] end).
  assert (m_trace m2 ++ match activation_scope m2 with Some _ => [EvDropScope] | None => [] end
    = tr0 ++ ev') as Htr by (unfold ev'; by rewrite Ht2, Ht, <-!app_assoc).
  assert (phases ev' = phases ev ∧ deleted ev' = [] ∧ reports ev' = [] ∧ verified ev' = true ∧
    created ev' = created ev) as (Ep & Ed & Er & Ev & Ec).
  { unfold ev'. destruct (activation_scope m2); trace_simpl; by rewrite Hd, Hrec, Hv. }
  clearbody ev'.
  assert (length (created ev') <= 1) by (rewrite Ec, Hcr; destruct (created_connection m1); simpl; lia).
  rewrite <-Ep in Ho.
  destruct kind; exists ev'; split_and!; try done; cbn. destruct Hk; congruence.
Qed.

Lemma step_spec s tr0 m :
  inside s tr0 m →
  wp (step target password wep_key_type s) (stepped tr0 (length (trail s (rescanned m)))) m.
Proof.
  destruct s; [apply check_already_active_spec|apply activate_saved_profile_spec
    |apply create_profile_spec|apply rescan_spec|apply verify_spec].
Qed.

Definition ran (tr0 : list Event) (r : result ActivationOutcome Error) m : Prop :=
  match r with Ok o => succeeded o tr0 m | Err _ => gave_up tr0 m end.

Lemma run_states_spec fuel s tr0 m :
  entering s tr0 m → length (trail s (rescanned m)) + fuel = MAX_STATES →
  wp (run_states target password wep_key_type progress fuel s) (ran tr0) m.
Proof.
  revert s m. induction fuel as [|fuel IH]; intros s m Hin Hfuel.
  { exfalso. unfold MAX_STATES in *.
    destruct s as [| | | |[]], (rescanned m); cbn in Hfuel; lia. }
  cbn [run_states]. apply wp_bind, wp_quiet; [apply quiet_check_cancelled|]. intros r m1 H1.
  assert (rescanned m1 = rescanned m) as Hr1 by (unfold core in *; congruence).
  assert (entering s tr0 m1) as Hin1 by (unfold entering; rewrite Hr1; by eapply at_state_core).
  destruct r as [[]|e]; [|by eapply entering_gave_up].
  apply wp_bind, wp_log. intros m2 Ht2 Hr2 Hc2 Hs2.
  assert (inside s tr0 m2) as Hin2.
  { destruct Hin1 as (ev & Ht & Hp & Hf & Hd & Hr & Hv & Hs).
    exists (ev ++ [EvProgress (phase s)]). trace_simpl.
    rewrite Ht2, Ht, Hr2, Hc2, Hs2, Hp, app_assoc. split_and!; try done. }
  apply wp_bind, wp_ask. intros a m3 H3.
  assert (rescanned m3 = rescanned m2) as Hr3 by (unfold core in *; congruence).
  eapply inside_core in Hin2; [|done].
  apply wp_bind. unfold wp at 1, of_result. destruct a as [[]|e]; [|by eapply inside_gave_up].
  apply wp_bind. eapply wp_mono; [by apply step_spec|]. intros [[s'|o]|e] m4; [|done..].
  intros [Hent Hlen]. apply IH; [done|]. rewrite Hlen, Hr3, Hr2, Hr1. lia.
Qed.

(** *** The whole attempt *)

(** An attempt that owns nothing any more: what it created was verified or deleted. *)
Definition settled (tr0 ev : list Event) m : Prop :=
  m_trace m = tr0 ++ ev ∧ ordered (phases ev) ∧ created_connection m = None ∧
  activation_scope m = None ∧ length (created ev) <= 1 ∧
  deleted ev = if verified ev then [] else created ev.

(** What the result says. *)
Definition reported (r : result ConnectResult Error) (ev : list Event) : Prop :=
  match r with
  | Ok res =>
    ∃ path rec, cr_path res = Some path ∧ evidence path ev ∧ cr_status res = "connected" ∧
      cr_reason res = None ∧ reports ev = [EvRecord rec] ∧ car_status rec = "connected" ∧
      car_reason rec = None ∧ car_path rec = Some path
  | Err e =>
    is_Some (find_domain_error e) ∧
    ((reports ev = [] ∧ (ev = [] ∨ e = cancelled_error)) ∨
     (∃ rec, reports ev = [EvRecord rec] ∧ verified ev = false ∧ car_status rec = "error" ∧
        car_reason rec = Some (connect_failure_reason e)))
  end.

Definition attempt_finished tr0 (r : result ConnectResult Error) m : Prop :=
  ∃ ev, settled tr0 ev m ∧ reported r ev.

Lemma settled_core tr0 ev m m' : core m' = core m → settled tr0 ev m → settled tr0 ev m'.
Proof. intros [= E1 E2 E3 E4 E5]. unfold settled. by rewrite E1, E3, E5. Qed.

Lemma settled_record tr0 ev rec m m' :
  m_trace m' = m_trace m ++ [EvRecord rec] → created_connection m' = created_connection m →
  activation_scope m' = activation_scope m → settled tr0 ev m →
  settled tr0 (ev ++ [EvRecord rec]) m'.
Proof.
  intros Ht Hc Hs. unfold settled. rewrite Ht, Hc, Hs, app_assoc. trace_simpl.
  intros (-> & ? & ? & ? & ? & ?). done.
Qed.

(** Recording an attempt appends one record with the fields of its result. *)
Lemma wp_record result started tr0 ev Q m :
  settled tr0 ev m →
  (∀ rec m', car_status rec = cr_status result → car_reason rec = cr_reason result →
     car_path rec = cr_path result → settled tr0 (ev ++ [EvRecord rec]) m' → Q (Ok tt) m') →
  wp (record_connect_attempt target result started) Q m.
Proof.
  intros Hset HQ. unfold record_connect_attempt. wp_ask. wp_ask. apply wp_log.
  intros m2 Ht Hr Hc Hs.
  refine (HQ _ m2 _ _ _ (settled_record _ _ _ _ _ Ht Hc Hs _)); try done.
  eapply settled_core; [done|]. by eapply settled_core.
Qed.

Lemma cancelled_is_domain : is_Some (find_domain_error cancelled_error).
Proof. unfold cancelled_error. rewrite find_domain_error_EDomain. by eexists. Qed.

Lemma wp_check_cancelled Q m :
  (∀ m', core m' = core m → Q (Ok tt) m') → (∀ m', core m' = core m → Q (Err cancelled_error) m') →
  wp check_cancelled Q m.
Proof.
  intros H1 H2. unfold check_cancelled. wp_ask. destruct (cancellation_requested a); [by apply H2|by apply H1].
Qed.

Lemma wp_attempt_quiet {A} (c : M W A) Q m :
  quiet c → (∀ r m', core m' = core m → Q (Ok r) m') → wp (attempt c) Q m.
Proof. intros Hc HQ. apply wp_attempt. by apply wp_quiet. Qed.

Lemma wp_cache_best_effort {A} (f : Io → N → Cache.step A) Q m :
  (∀ o m', core m' = core m → Q (Ok o) m') → wp (cache_best_effort f) Q m.
Proof.
  intros HQ. unfold cache_best_effort. wp_ask. apply wp_bind, wp_attempt_quiet; [solve_quiet|].
  intros r m2 E. apply HQ. congruence.
Qed.

Lemma wp_cache_active_status Q m :
  (∀ o m', core m' = core m → Q (Ok o) m') → wp cache_active_status Q m.
Proof.
  intros HQ. unfold cache_active_status.
  apply wp_bind, wp_attempt_quiet; [apply quiet_read_active_status|]. intros r m1 E1.
  destruct (best_effort r); [|by apply HQ].
  apply wp_bind, wp_cache_best_effort. intros ? m2 E2. apply HQ. congruence.
Qed.

Lemma finish_success_spec o started tr0 m :
  succeeded o tr0 m → wp (finish_success target o started) (attempt_finished tr0) m.
Proof.
  intros (ev & Ht & Ho & Hd & Hr & Hc & Hs & Hlen & Hev).
  assert (settled tr0 ev m) as Hset.
  { split_and!; try done. rewrite Hd. destruct (ao_path o); [destruct Hev as (_ & -> & -> & _)
      |rewrite Hev]; done. }
  unfold finish_success. apply wp_bind, wp_cache_best_effort. intros _ m1 E1.
  eapply settled_core in Hset; [|done].
  apply wp_bind, wp_attempt_quiet; [apply quiet_refresh|]. intros _ m2 E2.
  eapply settled_core in Hset; [|done].
  apply wp_bind, wp_check_cancelled; intros m3 E3; (eapply settled_core in Hset; [|done]).
  2:{ exists ev. split; [done|]. split; [apply cancelled_is_domain|auto]. }
  apply wp_bind, wp_cache_active_status. intros st m4 E4. eapply settled_core in Hset; [|done].
  apply wp_bind.
  assert (∀ c m5, core m5 = core m4 → wp
    (mbind (record_connect_attempt target
       (connected (ssid_display (t_ssid target)) (ao_message o) (ao_path o) c) started)
     (λ _, ret (connected (ssid_display (t_ssid target)) (ao_message o) (ao_path o) c)))
    (attempt_finished tr0) m5) as Hrec.
  { intros c m5 E5. eapply settled_core in Hset; [|done].
    apply wp_bind. eapply wp_record; [done|]. intros rec m6 Hst Hre Hpa Hset6.
    eexists. split; [done|]. exists (ao_path o), rec. trace_simpl. rewrite Hr.
    split_and!; try done. destruct (ao_path o); cbn in *; trace_simpl; done. }
  destruct (st ≫= ws_connectivity).
  - by apply Hrec.
  - wp_ask. by apply Hrec.
Qed.

Lemma finish_failure_spec e started publish tr0 ev m :
  settled tr0 ev m → reports ev = [] → verified ev = false →
  wp (finish_failure target e started publish) (attempt_finished tr0) m.
Proof.
  intros Hset Hr Hv. unfold finish_failure. set (e' := ensure_domain Op.Connect e).
  apply wp_bind.
  assert (∀ m1, core m1 = core m → wp (mbind (record_connect_attempt target
    (failed_result target e') started) (λ _, throw e')) (attempt_finished tr0) m1) as Hrec.
  { intros m1 E1. eapply settled_core in Hset; [|done].
    apply wp_bind. eapply wp_record; [done|]. intros rec m2 Hst Hre Hpa Hset2.
    eexists. split; [done|]. split; [apply ensure_domain_typed|]. right. exists rec. trace_simpl.
    by rewrite Hr, Hv. }
  destruct publish; [|by apply Hrec]. unfold publish_final_connect_failure.
  apply wp_bind, wp_cache_best_effort. intros _ m1 E1. by apply Hrec.
Qed.

(** After a failed run the scope is retired and the profile it created deleted. *)
Lemma cleanup_spec tr0 m :
  gave_up tr0 m →
  wp (mbind take_scope (λ _, cleanup_created_connection)) (λ r m', r = Ok tt ∧
    ∃ ev, settled tr0 ev m' ∧ reports ev = [] ∧ verified ev = false) m.
Proof.
  intros (ev & Ht & Ho & Hd & Hr & Hv & Hcr). apply wp_bind. unfold wp at 1, take_scope.
  unfold wp at 1, cleanup_created_connection, mbind, get. cbn [created_connection].
  set (drop := match activation_scope m with Some _ => [EvDropScope] | None => [] end).
  assert (phases drop = [] ∧ deleted drop = [] ∧ reports drop = [] ∧ verified drop = false ∧
    created drop = []) as (Ep & Ed & Er & Ev & Ec) by (unfold drop; by destruct (activation_scope m)).
  destruct (created_connection m) as [p|].
  - unfold set_created, log, ask. cbn. destruct (nm_delete_connection p _) as [w r]. split; [done|].
    exists (ev ++ drop ++ [EvDelete p]). unfold settled. cbn. trace_simpl.
    rewrite Ht, Hd, Hr, Hcr, Hv, Ep, Ed, Er, Ec, Ev, <-!app_assoc.
    trace_simpl. split_and!; try done; lia.
  - split; [done|]. exists (ev ++ drop). unfold settled. cbn. trace_simpl.
    rewrite Ht, Hd, Hr, Hcr, Hv, Ep, Ed, Er, Ec, Ev, <-!app_assoc.
    trace_simpl. split_and!; try done; simpl; lia.
Qed.

Lemma wp_bind_assoc {A B C} (c : M W A) (k : A → M W B) (l : B → M W C) Q m :
  wp (mbind (mbind c k) l) Q m → wp (mbind c (λ a, mbind (k a) l)) Q m.
Proof. unfold wp, mbind. by destruct (c m) as [[m' [a|e]]|]. Qed.

Lemma run_spec publish tr0 m :
  entering Conn.AlreadyActive tr0 m → m_trace m = tr0 →
  wp (run target password wep_key_type progress publish) (attempt_finished tr0) m.
Proof.
  intros Hin Ht.
  assert (settled tr0 [] m) as Hset.
  { destruct Hin as (ev & _ & _ & _ & _ & _ & _ & Hc & _ & Hs).
    unfold settled. rewrite app_nil_r. split_and!; try done; [|simpl; lia].
    by apply (ordered_prefix [] [Phase.CheckingActive]), (trail_ordered Conn.AlreadyActive false). }
  unfold run. apply wp_bind, wp_check_cancelled; intros m1 E1.
  2:{ exists []. split; [by eapply settled_core|]. split; [apply cancelled_is_domain|auto]. }
  apply wp_bind. unfold wp at 1, of_result.
  destruct (target_validate target) as [[]|e]; cbn [result_map_err].
  2:{ exists []. split; [by eapply settled_core|]. split; [|auto].
      unfold connect_failure_from_error. rewrite find_domain_error_EDomain. by eexists. }
  apply wp_bind, wp_cache_best_effort. intros _ m2 E2. wp_ask.
  assert (core m' = core m) as E by congruence.
  assert (entering Conn.AlreadyActive tr0 m') as Hin'.
  { unfold entering. eapply at_state_core; [done|]. exact Hin. }
  apply wp_bind, wp_attempt. eapply wp_mono.
  { apply (run_states_spec MAX_STATES Conn.AlreadyActive tr0); [exact Hin'|done]. }
  intros [o|e] m3; [apply finish_success_spec|].
  intros Hg. apply (wp_bind_assoc take_scope (λ _, cleanup_created_connection)), wp_bind.
  eapply wp_mono; [by apply cleanup_spec|].
  intros r m4 [-> (ev4 & Hset4 & Hr4 & Hv4)]. by eapply finish_failure_spec.
Qed.

Lemma connect_target_spec publish m :
  wp (connect_target target password wep_key_type progress publish) (attempt_finished (m_trace m)) m.
Proof.
  unfold connect_target. apply wp_bind. unfold wp at 1, new_machine. apply run_spec; [|done].
  exists []. cbn. by rewrite app_nil_r.
Qed.
End Correct.

(** C2. An attempt never leaves a profile it did not verify: for every behaviour of
    NetworkManager the attempt ends; it creates at most one profile, deletes
    nothing else, and deletes it exactly when the activation was not verified; and
    at its end it owns no profile and no credential scope. *)
Theorem connect_target_rolls_back {W} `{NetworkManagerClock W} target password wep_key_type
    progress publish (m : Machine W) :
  ∃ m' r ev,
    connect_target target password wep_key_type progress publish m = Some (m', r) ∧
    m_trace m' = m_trace m ++ ev ∧
    length (created ev) <= 1 ∧
    deleted ev = (if verified ev then [] else created ev) ∧
    created_connection m' = None ∧ activation_scope m' = None.
Proof.
  pose proof (connect_target_spec target password wep_key_type progress publish m) as Hwp.
  unfold wp in Hwp. destruct (connect_target _ _ _ _ _ m) as [[m' r]|]; [|done].
  destruct Hwp as (ev & (? & ? & ? & ? & ? & ?) & _). by exists m', r, ev.
Qed.

(** The phases an attempt reports are a prefix of one of four runs: check, saved
    profile, then verification, or creation and verification, or one rescan after
    which the saved profile and creation are tried once more; so an attempt
    rescans at most once and reports at most seven phases. *)
Theorem connect_phases_ordered {W} `{NetworkManagerClock W} target password wep_key_type
    progress publish (m : Machine W) :
  ∃ m' r ev run,
    connect_target target password wep_key_type progress publish m = Some (m', r) ∧
    m_trace m' = m_trace m ++ ev ∧
    run ∈ complete_runs ∧ phases ev `prefix_of` run ∧ length (phases ev) <= MAX_STATES.
Proof.
  pose proof (connect_target_spec target password wep_key_type progress publish m) as Hwp.
  unfold wp in Hwp. destruct (connect_target _ _ _ _ _ m) as [[m' r]|]; [|done].
  destruct Hwp as (ev & (? & Ho & _) & _). apply Exists_exists in Ho as (run & Hrun & Hpre).
  exists m', r, ev, run. split_and!; try done.
  apply prefix_length in Hpre. unfold MAX_STATES.
  assert (Forall (λ l, length l <= 7) complete_runs) as Hall by (repeat constructor).
  rewrite Forall_forall in Hall. specialize (Hall run Hrun). lia.
Qed.

(** C3. The result of an attempt is truthful: it reports a connection only when
    NetworkManager said the target was already active and no credential was
    supplied, or when the wait for the activation succeeded; exactly that is
    appended to the history; and a failure is a domain error whose reason is the
    one recorded, recorded always unless the attempt never began or was cancelled. *)
Theorem connect_result_truthful {W} `{NetworkManagerClock W} target password wep_key_type
    progress publish (m : Machine W) :
  ∃ m' r ev,
    connect_target target password wep_key_type progress publish m = Some (m', r) ∧
    m_trace m' = m_trace m ++ ev ∧
    match r with
    | Ok res =>
      cr_status res = "connected" ∧ cr_reason res = None ∧
      (cr_path res = Some AlreadyActive ∧ already_active ev = true ∧ created ev = [] ∧
         password = None ∧ t_enterprise target = None ∨
       cr_path res = Some Dbus ∧ verified ev = true) ∧
      ∃ rec, records ev = [rec] ∧ car_status rec = "connected" ∧ car_reason rec = None ∧
             car_path rec = cr_path res
    | Err e =>
      is_Some (find_domain_error e) ∧
      (records ev = [] ∧ (ev = [] ∨ e = cancelled_error) ∨
       ∃ rec, records ev = [rec] ∧ verified ev = false ∧ car_status rec = "error" ∧
              car_reason rec = Some (connect_failure_reason e))
    end.
Proof.
  pose proof (connect_target_spec target password wep_key_type progress publish m) as Hwp.
  unfold wp in Hwp. destruct (connect_target _ _ _ _ _ m) as [[m' r]|]; [|done].
  destruct Hwp as (ev & (? & _) & Hrep). exists m', r, ev. split_and!; [done..|].
  rewrite records_reports. destruct r as [res|e].
  2:{ destruct Hrep as [? [[-> ?]|(rec & -> & ?)]]; split; eauto. }
  destruct Hrep as (path & rec & Hp & Hev & ? & ? & -> & ? & ? & ?). split_and!; [done..| |].
  - destruct path; [left|by right]. destruct Hev as (? & _ & ? & ? & ?). done.
  - exists rec. by rewrite Hp.
Qed.

(** ** Examples

    A network whose profile is created but never becomes active. *)

Definition example_activation : WifiActivation :=
  {| wa_profile_path := "/org/freedesktop/NetworkManager/Settings/7";
     wa_active_path := "/org/freedesktop/NetworkManager/ActiveConnection/3";
     wa_scope := {| deadline := 90; finished := false; pending_credentials := 0;
                    missing_frontend := false; failure := None; wakes := 0 |} |}.

Definition late_round (d : instant) : Round :=
  {| r_cancelled := false; r_scope_ops := []; r_checked := d; r_now := d; r_observation := Err cancelled_error;
     r_late_ops := []; r_failed := d; r_last_ops := []; r_still := d |}.

#[export] Instance example_nm : NetworkManager unit := {|
  nm_cancellation w := (w, Some false);
  nm_now w := (w, 5%N);
  nm_cache_io w := (w, (good_io, 5%N));
  nm_active_target_matches _ w := (w, Ok false);
  nm_activate_saved _ _ _ w := (w, Ok None);
  nm_add_and_activate _ _ _ w := (w, Ok (Some example_activation));
  nm_target_visible _ w := (w, Ok true);
  nm_scan_with_options _ w := (w, Ok tt);
  nm_wait _ _ d w :=
    (w, (Ok tt, 5%N, [late_round (match d with Some d => d | None => 5 + ACTIVATION_TIMEOUT end)%N]));
  nm_delete_connection _ w := (w, Ok tt);
  nm_list_access_points w := (w, Ok []);
  nm_status_rounds d w :=
    (w, [{| sr_cancelled := None; sr_status := Err cancelled_error; sr_now := d |}]);
  nm_connectivity_snapshot w := (w, Ok (connectivity_from_nm_code 4));
|}.

#[export] Instance example_nm_clock : NetworkManagerClock unit.
Proof.
  split.
  - intros target path scope w. cbn. eexists. split; [by left|]. by destruct scope.
  - intros d w. cbn. eexists. split; [by left|]. done.
Qed.

Definition example_machine : Machine unit :=
  {| m_world := tt; m_repo := example_repo; m_trace := []; rescanned := false;
     created_connection := None; activation_path := None; activation_scope := None |}.

Definition no_progress (p : ConnectPhase) (w : unit) : unit * result unit Error := (w, Ok tt).

Lemma connect_target_rolls_back_witness :
  ∃ m' r ev,
    connect_target example_target None None no_progress true example_machine = Some (m', r) ∧
    m_trace m' = ev ∧ deleted ev = ["/org/freedesktop/NetworkManager/Settings/7"] ∧
    created_connection m' = None.
Proof.
  destruct (connect_target_rolls_back example_target None None no_progress true example_machine)
    as (m' & r & ev & Hrun & Htr & _ & _ & Hc & _).
  exists m', r, ev. split_and!; [exact Hrun|exact Htr| |exact Hc].
  rewrite <-(Htr : m_trace m' = ev). clear Htr.
  replace m' with (default example_machine
    (fst <$> connect_target example_target None None no_progress true example_machine)).
  - vm_compute. reflexivity.
  - rewrite Hrun. reflexivity.
Defined.

Lemma connect_phases_ordered_witness :
  ∃ m' r ev run,
    connect_target example_target None None no_progress true example_machine = Some (m', r) ∧
    m_trace m' = ev ∧ run ∈ complete_runs ∧ phases ev `prefix_of` run.
Proof.
  destruct (connect_phases_ordered example_target None None no_progress true example_machine)
    as (m' & r & ev & run & Hrun & Htr & Hin & Hp & _).
  exists m', r, ev, run. exact (conj Hrun (conj Htr (conj Hin Hp))).
Defined.

Lemma connect_result_truthful_witness :
  ∃ m' r, connect_target example_target None None no_progress true example_machine = Some (m', r) ∧
    match r with Ok _ => False | Err e => is_Some (find_domain_error e) end.
Proof.
  destruct (connect_result_truthful example_target None None no_progress true example_machine)
    as (m' & r & ev & Hrun & _ & Hres).
  exists m', r. split; [exact Hrun|].
  destruct r as [res|e]; [|exact (proj1 Hres)].
  apply (f_equal (fmap (M := option) snd)) in Hrun. vm_compute in Hrun. discriminate Hrun.
Defined.
