(* ===== verification/ScanRun.v ===== *)
(** * Scanning on the bus ([src/nm/scan.rs], [src/nm/scan_schedule.rs])

    The callers of Scan.v's scheduler: waiting for a Wi-Fi device, taking a turn on it,
    asking NetworkManager for a scan within its rate limit, and waiting until it is done.
    Each lock of the scheduler's table is one step, before which other callers may have
    acted; the run is shown to be one of the protocol of Scan.v. *)
From S2P Require Import Prelude Errors Text Identity Network Connect Variant Profiles ConnectWait Scan Bus Events Inventory Devices Activate.
From Stdlib Require Import ZArith Lia Ascii.
From stdpp Require Import prelude gmap strings list.
Open Scope bus_scope.

Definition SCAN_RETRY_DELAY : duration := from_millis 1000.
(** The last [Instant]: seconds of an [i64]. *)
Definition INSTANT_MAX : instant := (2 ^ 63 - 1) * 10 ^ 9 + 999999999.

(** [is_transient_scan_rejection]. *)
Definition is_transient_scan_rejection (e : Error) : bool :=
  let rendered := to_ascii_lowercase (err_chain e) in
  str_contains "scanning not allowed" rendered || str_contains "device.notallowed" rendered
  || str_contains "not allowed while unavailable" rendered || str_contains "too soon" rendered.

(** The scheduler's table with its lock: acquiring it, leaving a new table on release, and
    waiting for a publication; and the kernel's uptime, in floating point. *)
Class ScanHost (W : Type) := {
  sc_sched : W → ScanScheduler;
  sc_lock : W → W;
  sc_put : ScanScheduler → W → W;
  sc_block : duration → W → W;
  sc_boottime : W → option Z;
}.

Section ScanRun.
Context {W : Type} {B : Bus W} {EV : NetworkEvents W} {SC : ScanHost W}.

Definition critical {A} (f : instant → ScanScheduler → ScanScheduler * A) : bus W A := local (λ w,
  let w := sc_lock w in
  let (s, a) := f (bus_now w) (sc_sched w) in (a, sc_put s w)).
Definition check_scan_cancelled : bus W unit := check_cancelled Op.Scan "Wi-Fi scan cancelled".
Definition ensure_scan_deadline (dl : Deadline) (message : string) : bus W unit :=
  let! t := now in lift (ensure (negb (expired t dl)) (EDomain (timeout Op.Scan message))).
(** [Deadline::from_now]. *)
Definition from_now (timeout : duration) : bus W Deadline :=
  let! t := now in
  lift (if (t + timeout <=? INSTANT_MAX)%N then Ok {| at_instant := t + timeout |}
        else Err (plain "timeout is too large to represent as a monotonic deadline")).
Definition boottime_ms : bus W (option Z) := local (λ w, (sc_boottime w, w)).

(** ** Devices *)

Definition scan_devices (ifname : option InterfaceName) : bus W (list WifiDevice) :=
  let! devices := wifi_devices in
  ret (List.filter (λ d, match ifname with None => true | Some i => bool_decide (wd_iface d = ifname_str i) end) devices).
(** [None] when the rounds are used up, here and below. *)
Fixpoint device_rounds (rounds : nat) (ifname : option InterfaceName) (dl : Deadline) (generation : N) :
    bus W (option (list WifiDevice)) :=
  match rounds with
  | O => ret None
  | S rounds =>
    let! _ := check_scan_cancelled in
    let! devices := scan_devices ifname in
    match devices with
    | _ :: _ => ret (Some devices)
    | [] =>
      let! _ := ensure_scan_deadline dl "timed out waiting for a matching Wi-Fi device" in
      let! t := now in
      let! generation := wait_for_event generation (wait_at dl t DURATION_MAX) in
      device_rounds rounds ifname dl generation
    end
  end.
Definition wait_for_scan_devices (rounds : nat) (ifname : option InterfaceName) (dl : Deadline) :
    bus W (option (list WifiDevice)) :=
  let! generation := event_generation in device_rounds rounds ifname dl generation.

(** ** Turns *)

(** [wait_for_completion]; the last look and [consume_waiter] are under one lock. *)
Fixpoint completion_rounds (rounds : nat) (path : string) (g : N) (dl : Deadline) : bus W (option ScanWait) :=
  match rounds with
  | O => ret None
  | S rounds =>
    let! r := local (λ w,
      let w := sc_lock w in
      match wait_iteration (cancellation_requested (bus_cancelled w)) dl (bus_now w) path g (sc_sched w) with
      | Some r => (Some r, sc_put (consume_waiter path g (sc_sched w)) w)
      | None => (None, sc_block (wait_at dl (bus_now w) SCAN_SCHEDULE_POLL_INTERVAL) w)
      end) in
    match r with
    | Some r => ret (Some r)
    | None => completion_rounds rounds path g dl
    end
  end.
(** Whether the joined scan served this caller. *)
Definition wait_for_joined_scan (rounds : nat) (path : string) (g : N) (dl : Deadline) : bus W (option bool) :=
  let! outcome := completion_rounds rounds path g dl in
  match outcome with
  | None => ret None
  | Some w =>
    let! t := now in
    let! served := lift (joined_wait w (expired t dl)) in
    ret (Some served)
  end.
(** [Some None]: a scan that was joined served the caller. *)
Fixpoint claim_rounds (rounds turns : nat) (path : string) (ssids : list (list u8)) (dl : Deadline) :
    bus W (option (option N)) :=
  match turns with
  | O => ret None
  | S turns =>
    let! turn := critical (λ t, claim path ssids t) in
    match turn with
    | Request g => ret (Some (Some g))
    | Scan.Join g =>
      let! served := wait_for_joined_scan rounds path g dl in
      match served with
      | None => ret None
      | Some true => ret (Some None)
      | Some false => claim_rounds rounds turns path ssids dl
      end
    | Wait g =>
      let! outcome := completion_rounds rounds path g dl in
      match outcome with
      | None => ret None
      | Some w =>
        let! _ := lift (into_result "timed out waiting to schedule a targeted scan" w) in
        claim_rounds rounds turns path ssids dl
      end
    end
  end.
Definition claim_scan_turn (rounds : nat) (device : WifiDevice) (ssids : list (list u8)) (dl : Deadline) :
    bus W (option (option N)) :=
  claim_rounds rounds rounds (wd_path device) ssids dl.

(** ** The scan of the caller's own turn *)

Record ScanCompletionToken := { last_scan_before_request : Z; requested_at_boottime_ms : option Z }.

Definition last_scan (device : WifiDevice) : bus W Z :=
  or_default (-1)%Z (let! wifi := proxy (wd_path device) WIFI_IFACE in
                     with_context "read LastScan" (get_property as_i64 wifi "LastScan")).
Definition rate_limit_wait_for (device : WifiDevice) (last_scan : Z) : bus W duration :=
  let! boottime := boottime_ms in
  match boottime with
  | None => ret 0%N
  | Some boottime =>
    let! last_request := critical (λ _ s, (s, last_request_before_claim (wd_path device) s)) in
    let! t := now in
    ret (rate_limit_wait last_scan boottime last_request t)
  end.
Definition try_scan_request (device : WifiDevice) (ssids : list (list u8)) (dl : Deadline) :
    bus W (option ScanCompletionToken) :=
  let! before := last_scan device in
  let! requested_at := boottime_ms in
  let! r := attempt (request_scan_for_ssids device ssids) in
  match r with
  | Ok _ =>
    let! _ := critical (λ t s, (note_request (wd_path device) t s, tt)) in
    ret (Some {| last_scan_before_request := before; requested_at_boottime_ms := requested_at |})
  | Err e =>
    let! t := now in
    if is_transient_scan_rejection e && negb (expired t dl) then ret None else lift (Err e)
  end.

(** [sleep_within_deadline], one slice at a time; every slice but the last two takes the poll
    interval. *)
Fixpoint sleep_slices (slices : nat) (until : instant) (dl : Deadline) : bus W (option bool) :=
  match slices with
  | O => ret None
  | S slices =>
    let! t := now in
    if (until <=? t)%N then ret (Some true)
    else
      let! _ := check_scan_cancelled in
      let! t := now in
      if expired t dl then ret (Some false)
      else
        let! t := now in
        let slice := N.min (N.min SCAN_SCHEDULE_POLL_INTERVAL (until - t)) (wait_at dl t SCAN_SCHEDULE_POLL_INTERVAL) in
        if (slice =? 0)%N then let! t := now in ret (Some (negb (expired t dl)))
        else let! _ := sleep slice in sleep_slices slices until dl
  end.
Definition slices_of (wait : duration) : nat := N.to_nat (wait / SCAN_SCHEDULE_POLL_INTERVAL) + 3.
Definition sleep_within_deadline (wait : duration) (dl : Deadline) : bus W (option bool) :=
  let! t := now in sleep_slices (slices_of wait) (t + wait)%N dl.

Fixpoint request_rounds (rounds : nat) (device : WifiDevice) (ssids : list (list u8)) (dl : Deadline) (wait : duration) :
    bus W (option ScanCompletionToken) :=
  match rounds with
  | O => ret None
  | S rounds =>
    let! _ := check_scan_cancelled in
    let! slept := if (wait =? 0)%N then ret (Some true) else sleep_within_deadline wait dl in
    match slept with
    | None => ret None
    | Some false =>
      lift (Err (scan_deadline_expired "timed out waiting for NetworkManager's scan request interval"))
    | Some true =>
      let! _ := check_scan_cancelled in
      let! token := try_scan_request device ssids dl in
      match token with
      | Some token => ret (Some token)
      | None => request_rounds rounds device ssids dl SCAN_RETRY_DELAY
      end
    end
  end.
Definition request_scan_within_deadline (rounds : nat) (device : WifiDevice) (ssids : list (list u8)) (last : Z)
    (dl : Deadline) : bus W (option ScanCompletionToken) :=
  let! wait := rate_limit_wait_for device last in
  request_rounds rounds device ssids dl wait.

Fixpoint finish_rounds (rounds : nat) (device : WifiDevice) (token : ScanCompletionToken) (dl : Deadline)
    (generation : N) : bus W (option unit) :=
  match rounds with
  | O => ret None
  | S rounds =>
    let! t := now in
    if expired t dl then lift (Err (EDomain (timeout Op.Scan "timed out waiting for LastScan to change")))
    else
      let! _ := check_scan_cancelled in
      let! after := last_scan device in
      if scan_completed after (last_scan_before_request token) (requested_at_boottime_ms token) then ret (Some tt)
      else
        let! t := now in
        let! generation := wait_for_event generation (wait_at dl t DURATION_MAX) in
        finish_rounds rounds device token dl generation
  end.
Definition wait_for_scan_completion (rounds : nat) (device : WifiDevice) (token : ScanCompletionToken)
    (dl : Deadline) : bus W (option unit) :=
  let! generation := event_generation in finish_rounds rounds device token dl generation.

Definition run_owned_scan (rounds : nat) (device : WifiDevice) (dl : Deadline) (ssids : list (list u8)) :
    bus W (option unit) :=
  let! last := last_scan device in
  let! token := request_scan_within_deadline rounds device ssids last dl in
  match token with
  | None => ret None
  | Some token => wait_for_scan_completion rounds device token dl
  end.

(** The lease publishes the outcome however the scan ends. *)
Definition scan_device (rounds : nat) (device : WifiDevice) (dl : Deadline) (ssids : list (list u8)) :
    bus W (option unit) :=
  let! _ := check_scan_cancelled in
  let! _ := ensure_scan_deadline dl "timed out waiting for LastScan to change" in
  let! turn := claim_scan_turn rounds device ssids dl in
  match turn with
  | None => ret None
  | Some None => ret (Some tt)
  | Some (Some g) =>
    let! r := attempt (run_owned_scan rounds device dl ssids) in
    match r with
    | Ok None => ret None
    | _ =>
      let outcome := shared_scan_outcome (result_map (λ _, tt) r) in
      let! _ := critical (λ _ s, (complete (wd_path device) g (lease_outcome (Some outcome)) s, tt)) in
      lift r
    end
  end.

Fixpoint scan_each (rounds : nat) (devices : list WifiDevice) (dl : Deadline) (ssids : list (list u8)) :
    bus W (option unit) :=
  match devices with
  | [] => ret (Some tt)
  | device :: devices =>
    let! r := with_context ("scan " +:+ wd_iface device) (scan_device rounds device dl ssids) in
    match r with None => ret None | Some _ => scan_each rounds devices dl ssids end
  end.
Definition scan_with_options (rounds : nat) (options : ScanRequestOptions) : bus W (option unit) :=
  let! dl := from_now (so_timeout options) in
  let! devices := wait_for_scan_devices rounds (so_ifname options) dl in
  match devices with
  | None => ret None
  | Some devices => scan_each rounds devices dl (so_ssid_bytes options)
  end.
End ScanRun.

(** ** The other callers *)

(** An outcome is kept of the scan in flight: its number came round while a caller still
    waited, 2^64 scans of the device earlier. *)
Definition clash (s : ScanScheduler) (p : string) (g : N) : Prop :=
  is_Some (completions (device s p) !! g) ∧ running s p g.
Definition settled (s : ScanScheduler) : Prop := ∀ p g, ¬ clash s p g.

(** What this caller holds: nothing, a ticket, or the lease of a scan. *)
Inductive Stake := Free | Waits (path : string) (g : N) | Scans (path : string) (g : N).
Definition stake_leases (k : Stake) : list (string * N) := match k with Scans p g => [(p, g)] | _ => [] end.
Definition stake_tickets (k : Stake) : list (string * N) := match k with Waits p g => [(p, g)] | _ => [] end.

(** [se_leases] and [se_tickets] are what the other callers hold, [se_left] how many scans
    they still end. Whenever others may act they do what Scan.v's protocol allows with what
    they hold, and their scans do not come round. *)
Class ScanEnv (W : Type) {B : Bus W} {EV : NetworkEvents W} {EC : EventClock W} {SC : ScanHost W} := {
  se_leases : W → list (string * N);
  se_tickets : W → list (string * N);
  se_left : W → N;
  theirs w pub := {| sched := sc_sched w; leases := se_leases w; tickets := se_tickets w; published := pub |};
  env w w' := moves w w' ∧ (se_left w' ≤ se_left w)%N ∧ (∀ p g, clash (sc_sched w') p g → clash (sc_sched w) p g) ∧
    (∀ pub, ∃ pub', rtc scan_step (theirs w pub) (theirs w' pub')) ∧
    (∀ p g, running (sc_sched w) p g → ¬ running (sc_sched w') p g → (se_left w' < se_left w)%N);
  env_get p i n w : env w (bus_get p i n w).2;
  env_call p i m args w : env w (bus_call p i m args w).2;
  env_owner w : env w (bus_owner w).2;
  env_lock w : env w (sc_lock w);
  env_pause d w : env w (bus_pause d w) ∧ (bus_now w + d ≤ bus_now (bus_pause d w))%N;
  env_wait g d w : env w (ev_wait g d w).2;
  env_block d w : let w' := sc_block d w in
    env w w' ∧ ((bus_now w + d ≤ bus_now w')%N ∨ (ev_left w' < ev_left w)%N);
  put_sched s w : sc_sched (sc_put s w) = s;
  put_leases s w : se_leases (sc_put s w) = se_leases w;
  put_tickets s w : se_tickets (sc_put s w) = se_tickets w;
  put_left s w : se_left (sc_put s w) = se_left w;
  put_now s w : bus_now (sc_put s w) = bus_now w;
  put_events s w : ev_left (sc_put s w) = ev_left w;
}.

(** *** Runs of the protocol with this caller in them *)

Definition alike (v v' : Scan.World) : Prop :=
  sched v' = sched v ∧ leases v' ≡ₚ leases v ∧ tickets v' ≡ₚ tickets v ∧ published v' = published v.
Definition joined_by (k : Stake) (v : Scan.World) : Scan.World :=
  {| sched := sched v; leases := stake_leases k ++ leases v; tickets := stake_tickets k ++ tickets v;
     published := published v |}.

Lemma remove_alike {A} (x : A) mine l before after l' :
  l = before ++ x :: after → l' ≡ₚ mine ++ l → ∃ b a, l' = b ++ x :: a ∧ b ++ a ≡ₚ mine ++ before ++ after.
Proof.
  intros -> Hp. assert (x ∈ l') as (b & a & ->)%list_elem_of_split by (rewrite Hp; set_solver).
  exists b, a. split; [done|]. apply (Permutation_cons_inv (a := x)). rewrite Permutation_middle, Hp. by solve_Permutation.
Qed.
Lemma frame_step k v v' u : scan_step v v' → alike (joined_by k v) u →
  ∃ u', scan_step u u' ∧ alike (joined_by k v') u'.
Proof.
  intros Hs (Hsch & Hl & Ht & Hp). destruct u as [us ul ut up]. cbn in *. subst us up. destruct Hs.
  - eexists. split; [apply (step_claim _ path ssids now)|]. cbn. destruct (claim path ssids now (sched w)) as [s [g|g|g]];
      (split_and!; cbn; [done| | |done]); rewrite ?Hl, ?Ht; solve_Permutation.
  - eexists. split; [apply (step_note _ path now)|]. by split_and!.
  - destruct (remove_alike _ _ _ _ _ _ H Hl) as (b & a & -> & Hba).
    eexists. split; [by apply (step_publish _ path g b a outcome)|]. by split_and!.
  - destruct (remove_alike _ _ _ _ _ _ H Ht) as (b & a & -> & Hba).
    eexists. split; [by apply (step_wake _ path g b a cancelled deadline now res)|]. by split_and!.
Qed.
Lemma frame_run k v v' u : rtc scan_step v v' → alike (joined_by k v) u →
  ∃ u', rtc scan_step u u' ∧ alike (joined_by k v') u'.
Proof.
  intros Hs. revert u. induction Hs as [v|v v1 v2 Hs _ IH]; intros u Hu; [eauto using rtc_refl|].
  destruct (frame_step _ _ _ _ Hs Hu) as (u1 & Hs1 & Hu1). destruct (IH _ Hu1) as (u' & ? & ?).
  exists u'. split; [by eapply rtc_l|done].
Qed.
Lemma run_inv v v' : rtc scan_step v v' → scan_inv v → scan_inv v'.
Proof. induction 1; eauto using scan_step_inv. Qed.
Lemma run_published v v' : rtc scan_step v v' → published v ⊆ published v'.
Proof.
  assert (∀ v v', scan_step v v' → published v ⊆ published v') as H.
  { destruct 1; cbn; [by destruct (claim _ _ _ _) as [s []]|done|set_solver|done]. }
  induction 1 as [|v1 v2 v3 H12 _ IH]; [done|]. etrans; [by apply H|done].
Qed.

Section Protocol.
Context {W : Type} {B : Bus W} {EV : NetworkEvents W} {EC : EventClock W} {SC : ScanHost W} {SE : ScanEnv W}.
Implicit Types (s : Session W) (w : W) (facts : list (string * N * SharedScanOutcome)).

(** A world of the protocol with the table of [w], what the others hold and [k]. *)
Definition standing (k : Stake) w (v : Scan.World) : Prop := alike (joined_by k (theirs w (published v))) v.
(** From every such world the protocol runs to one of [w'] with [k']; [facts] were published. *)
Definition reach (k : Stake) facts w (k' : Stake) facts' w' : Prop :=
  ∀ v, standing k w v → scan_inv v → facts ⊆ published v →
  ∃ v', rtc scan_step v v' ∧ standing k' w' v' ∧ facts' ⊆ published v'.

Lemma reach_trans k1 f1 w1 k2 f2 w2 k3 f3 w3 :
  reach k1 f1 w1 k2 f2 w2 → reach k2 f2 w2 k3 f3 w3 → reach k1 f1 w1 k3 f3 w3.
Proof.
  intros H1 H2 v Hv Hi Hf. destruct (H1 v Hv Hi Hf) as (v1 & R1 & Hv1 & Hf1).
  destruct (H2 v1 Hv1 (run_inv _ _ R1 Hi) Hf1) as (v2 & R2 & ? & ?). exists v2. split; [by etrans|done].
Qed.
Lemma reach_refl k f w : reach k f w k f w.
Proof. intros v ? _ ?. exists v. by split; [apply rtc_refl|]. Qed.
Lemma reach_env k f w w' : env w w' → reach k f w k f w'.
Proof.
  intros (_ & _ & _ & Ho & _) v Hv _ Hf. destruct (Ho (published v)) as (pub & Hr).
  destruct (frame_run k _ _ v Hr Hv) as (v' & R & Hv'). exists v'. split; [done|].
  split; [|etrans; [exact Hf|by apply run_published]].
  destruct Hv' as (H1 & H2 & H3 & H4). unfold standing. cbn in *. by split_and!.
Qed.
(** One step of this caller under the lock. *)
Lemma reach_put k f w k' f' sch :
  (∀ v, standing k w v → scan_inv v → f ⊆ published v →
     ∃ v', scan_step v v' ∧ sched v' = sch ∧ leases v' ≡ₚ stake_leases k' ++ se_leases w ∧
       tickets v' ≡ₚ stake_tickets k' ++ se_tickets w ∧ f' ⊆ published v') →
  reach k f w k' f' (sc_put sch w).
Proof.
  intros H v Hv Hi Hf. destruct (H v Hv Hi Hf) as (v' & Hs & H1 & H2 & H3 & H4). exists v'.
  split; [by apply rtc_once|]. split; [|done]. unfold standing, alike, theirs. cbn. rewrite put_sched, put_leases, put_tickets.
  by split_and!.
Qed.

(** What every step of a caller keeps, whatever it holds. *)
Definition prog w w' : Prop :=
  moves w w' ∧ (se_left w' ≤ se_left w)%N ∧ (∀ p g, clash (sc_sched w') p g → clash (sc_sched w) p g) ∧
  ∀ k f, reach k f w k f w'.
Lemma prog_env w w' : env w w' → prog w w'.
Proof. intros He. pose proof He as (? & ? & ? & _). repeat (split; [done|]). intros k f. by apply reach_env. Qed.
Lemma moves_refl w : moves w w.
Proof. apply moves_order. Qed.
Lemma moves_trans w1 w2 w3 : moves w1 w2 → moves w2 w3 → moves w1 w3.
Proof. intros [? ?] [? ?]. split; etrans; eassumption. Qed.
Lemma put_moves sch w : moves w (sc_put sch w).
Proof. unfold moves. by rewrite put_now, put_events. Qed.
Lemma env_refl w : env w w.
Proof. split_and!; try done. intros pub. exists pub. apply rtc_refl. Qed.
Lemma env_trans w1 w2 w3 : env w1 w2 → env w2 w3 → env w1 w3.
Proof.
  intros (M1 & L1 & S1 & R1 & E1) (M2 & L2 & S2 & R2 & E2). split; [by eapply moves_trans|]. split; [lia|]. split; [auto|]. split.
  - intros pub. destruct (R1 pub) as (p1 & H1), (R2 p1) as (p2 & H2). exists p2. by etrans.
  - intros p g H1 H3. destruct (decide (running (sc_sched w2) p g)) as [H2|H2].
    + specialize (E2 p g H2 H3). lia.
    + specialize (E1 p g H1 H2). lia.
Qed.
Lemma prog_trans w1 w2 w3 : prog w1 w2 → prog w2 w3 → prog w1 w3.
Proof.
  intros (M1 & L1 & S1 & R1) (M2 & L2 & S2 & R2). split; [by eapply moves_trans|]. split; [lia|]. split; [auto|].
  intros k f. by eapply reach_trans.
Qed.
#[local] Instance prog_order : BusOrder prog.
Proof.
  split; [|intros; apply prog_env, env_get|intros; apply prog_env, env_call|intros; apply prog_env, env_owner].
  split; [intros w; apply prog_env, env_refl|intros w1 w2 w3; apply prog_trans].
Qed.
End Protocol.

(** *** Steps of this caller *)

Lemma clash_claim path ssids t (sch sch' : ScanScheduler) turn p g : claim path ssids t sch = (sch', turn) →
  clash sch' p g → clash sch p g ∨ (p = path ∧ turn = Request g).
Proof.
  unfold claim, clash, running. destruct (in_flight (device sch path)) as [scope|] eqn:E; intros [= <- <-];
    rewrite device_insert; (destruct (decide (p = path)) as [->|]; [|by left]); cbn.
  - rewrite E. by left.
  - intros (_ & _ & <-). by right.
Qed.
Lemma clash_consume path g (sch : ScanScheduler) p g' : clash (consume_waiter path g sch) p g' → clash sch p g'.
Proof.
  unfold consume_waiter. destruct (sch !! path) as [st|] eqn:E; [|done]. destruct (waiters st !! g) as [n|]; [|done].
  unfold clash, running. rewrite device_insert. destruct (decide (p = path)) as [->|]; [|done]. rewrite (device_lookup _ _ _ E). cbn.
  intros [Hg Hr]. split; [|done]. destruct (_ =? 0)%N; [|done]. rewrite lookup_delete_is_Some in Hg. tauto.
Qed.
Lemma clash_note path t (sch : ScanScheduler) p g : clash (note_request path t sch) p g → clash sch p g.
Proof. unfold note_request, clash, running. rewrite device_insert. by destruct (decide (p = path)) as [->|]. Qed.
Lemma clash_complete path g o (sch : ScanScheduler) p g' : clash (complete path g o sch) p g' →
  clash sch p g' ∧ (p, g') ≠ (path, g).
Proof.
  unfold complete, clash. destruct (sch !! path) as [st|] eqn:E.
  2: { intros [H1 H2]. split; [done|]. intros [= -> ->]. unfold running, device in H2. rewrite E in H2. by destruct H2 as [[]]. }
  destruct (N.eqb_spec (generation st) g) as [Hg|Hg]; [destruct (in_flight st) as [x|] eqn:Ef|].
  - unfold running. rewrite device_insert. destruct (decide (p = path)) as [->|Hp]; [by intros (_ & [[]] & _)|].
    intros H. split; [done|congruence].
  - intros [H1 H2]. split; [done|]. intros [= -> ->]. unfold running in H2. rewrite (device_lookup _ _ _ E), Ef in H2. by destruct H2 as [[]].
  - intros [H1 H2]. split; [done|]. intros [= -> ->]. unfold running in H2. rewrite (device_lookup _ _ _ E) in H2. by destruct H2.
Qed.
Lemma settled_from (sch sch' : ScanScheduler) : (∀ p g, clash sch' p g → clash sch p g) → settled sch → settled sch'.
Proof. intros H Hs p g Hc. by apply (Hs p g), H. Qed.

(** The ticket or lease of a turn. *)
Definition stake_of (path : string) (t : ScanTurn) : Stake :=
  match t with Request g => Scans path g | Scan.Join g | Wait g => Waits path g end.
Lemma claim_running path ssids t (sch sch' : ScanScheduler) turn : claim path ssids t sch = (sch', turn) →
  match turn with Request _ => True | Scan.Join g | Wait g => running sch' path g end.
Proof.
  unfold claim, running. destruct (in_flight _) as [scope|]; [|by intros [= <- <-]].
  destruct (scan_scope_covers scope ssids); intros [= <- <-]; rewrite device_insert, decide_True by done; split; [by eexists|done|by eexists|done].
Qed.
Lemma joined_wait_done o late b : joined_wait o late = Ok b → ∃ x, o = Completed x.
Proof. destruct o; [eauto|done..]. Qed.
(** Joining is served by a success only. *)
Lemma joined_wait_true o late : joined_wait o late = Ok true → o = Completed Succeeded.
Proof.
  unfold joined_wait. destruct o as [[|r]| |]; cbn; [done| |done..]. by destruct (_ && _).
Qed.

Section Steps.
Context {W : Type} {B : Bus W} {EV : NetworkEvents W} {EC : EventClock W} {SC : ScanHost W} {SE : ScanEnv W}.
Implicit Types (s : Session W) (w : W) (facts : list (string * N * SharedScanOutcome)).
#[local] Existing Instance prog_order.

Lemma reach_weaken k f w k' f' f'' w' : reach k f w k' f' w' → f'' ⊆ f' → reach k f w k' f'' w'.
Proof.
  intros H Hf v Hv Hi Hp. destruct (H v Hv Hi Hp) as (v' & ? & ? & ?). exists v'.
  split; [done|]. split; [done|]. by etrans.
Qed.
Lemma put_rest sch w : moves w (sc_put sch w) ∧ (se_left (sc_put sch w) ≤ se_left w)%N.
Proof. split; [apply put_moves|]. by rewrite put_left. Qed.
Lemma prog_put_same w : prog w (sc_put (sc_sched w) w).
Proof.
  destruct (put_rest (sc_sched w) w). split; [done|]. split; [done|]. rewrite put_sched. split; [done|].
  intros k f v Hv _ Hf. exists v. split; [apply rtc_refl|]. split; [|done].
  unfold standing, theirs. by rewrite put_sched, put_leases, put_tickets.
Qed.
Lemma prog_note path t w : prog w (sc_put (note_request path t (sc_sched w)) w).
Proof.
  destruct (put_rest (note_request path t (sc_sched w)) w). split; [done|]. split; [done|]. rewrite put_sched.
  split; [intros p g; apply clash_note|]. intros k f. apply reach_put. intros v (Hsch & Hl & Ht & _) _ Hf. cbn in *.
  eexists. split; [apply (step_note v path t)|]. cbn. by rewrite Hsch.
Qed.

Lemma along_local {A} (R : W → W → Prop) (f : W → A * W) : (∀ w, R w (f w).2) → along R (local f).
Proof. intros H s. unfold local. specialize (H (world s)). by destruct (f (world s)). Qed.
Lemma along_critical {A} (f : instant → ScanScheduler → ScanScheduler * A) :
  (∀ w, prog w (sc_put (f (bus_now w) (sc_sched w)).1 w)) → along prog (critical f).
Proof.
  intros H. apply along_local. intros w. specialize (H (sc_lock w)). cbv zeta. destruct (f _ _) as [sch a]. cbn in *.
  eapply prog_trans; [apply prog_env, env_lock|exact H].
Qed.

(** Taking a turn. *)
Lemma critical_claim path ssids f s : ∃ turn s1, critical (λ t, claim path ssids t) s = (Ok turn, s1) ∧
  trace s1 = trace s ∧ moves (world s) (world s1) ∧ (se_left (world s1) ≤ se_left (world s))%N ∧
  (∀ p g, clash (sc_sched (world s1)) p g → clash (sc_sched (world s)) p g ∨ (p = path ∧ turn = Request g)) ∧
  reach Free f (world s) (stake_of path turn) f (world s1) ∧
  match turn with Request _ => True | Scan.Join g | Wait g => running (sc_sched (world s1)) path g end.
Proof.
  unfold critical, local. set (w := sc_lock (world s)). destruct (claim path ssids (bus_now w) (sc_sched w)) as [sch turn] eqn:E.
  exists turn, {| world := sc_put sch w; trace := trace s |}. cbn [world trace].
  destruct (env_lock (world s)) as (M & L & S & R). fold w in M, L, S. destruct (put_rest sch w).
  split; [done|]. split; [done|]. split; [by eapply moves_trans|]. split; [lia|]. rewrite put_sched.
  split; [|split; [|by eapply claim_running]].
  - intros p g Hc. destruct (clash_claim _ _ _ _ _ _ _ _ E Hc) as [Hc1|Hc1]; [left; by apply S|by right].
  - eapply reach_trans; [apply reach_env, env_lock|]. fold w. apply reach_put. intros v (Hsch & Hl & Ht & Hp) _ Hf. cbn in *.
    eexists. split; [apply (step_claim v path ssids (bus_now w))|]. rewrite Hsch, E.
    destruct turn; cbn; split_and!; try done; by f_equiv.
Qed.

(** Waiting for the outcome of a turn. *)
Definition told (path : string) (g : N) (r : ScanWait) facts : list (string * N * SharedScanOutcome) :=
  match r with Completed o => (path, g, o) :: facts | _ => facts end.
Lemma completion_rounds_spec path g dl f rounds : ∀ s, ∃ r s1, completion_rounds rounds path g dl s = (Ok r, s1) ∧
  trace s1 = trace s ∧ moves (world s) (world s1) ∧ (se_left (world s1) ≤ se_left (world s))%N ∧
  (∀ p g', clash (sc_sched (world s1)) p g' → clash (sc_sched (world s)) p g') ∧
  match r with
  | None => True
  | Some r => reach (Waits path g) f (world s) Free (told path g r f) (world s1) ∧
    (∀ o, r = Completed o → settled (sc_sched (world s)) → running (sc_sched (world s)) path g →
       (se_left (world s1) < se_left (world s))%N)
  end.
Proof.
  induction rounds as [|rounds IH]; intros s.
  { exists None, s. by split_and!. }
  cbn [completion_rounds]. unfold bind, local. set (w := sc_lock (world s)).
  pose proof (env_lock (world s)) as He. pose proof He as (M & L & S & _ & E). fold w in He, M, L, S, E.
  destruct (wait_iteration _ _ _ _ _ _) as [r|] eqn:Ew; cbn.
  - exists (Some r), {| world := sc_put (consume_waiter path g (sc_sched w)) w; trace := trace s |}. cbn [world trace].
    destruct (put_rest (consume_waiter path g (sc_sched w)) w) as [M' L'].
    split; [done|]. split; [done|]. split; [by eapply moves_trans|]. split; [lia|]. rewrite put_sched.
    split; [intros p g' Hc; by eapply S, clash_consume|]. split.
    + eapply reach_trans; [apply (reach_env _ _ _ _ He)|]. apply reach_put. intros v (Hsch & Hl & Ht & Hp) Hi Hf. cbn in *.
      assert ((path, g) ∈ tickets v) as (b & a & Hba)%list_elem_of_split by (rewrite Ht; set_solver).
      eexists. split; [eapply (step_wake v path g b a); [done|rewrite Hsch; exact Ew]|]. cbn. rewrite Hsch.
      split; [done|]. split; [done|]. rewrite Hba in Ht. split.
      { apply (Permutation_cons_inv (a := (path, g))). by rewrite Permutation_middle. }
      destruct r as [o| |]; cbn; [|done..]. enough ((path, g, o) ∈ published v) by set_solver.
      apply (inv_kept v Hi). rewrite Hsch. unfold wait_iteration in Ew. destruct (cancellation_requested _); [done|]. unfold device.
      destruct (sc_sched w !! path) as [st|]; cbn in *; [|by case_match]. destruct (completions st !! g); [congruence|by case_match].
    + intros o -> Hs Hr. rewrite put_left. apply (E path g Hr). intros Hr'. apply (Hs path g), S. split; [|done]. unfold wait_iteration in Ew.
      destruct (cancellation_requested _); [done|]. unfold device.
      destruct (sc_sched w !! path) as [st|]; cbn in *; [|by case_match]. destruct (completions st !! g); [done|by case_match].
  - set (w1 := sc_block _ _). destruct (env_block (wait_at dl (bus_now w) SCAN_SCHEDULE_POLL_INTERVAL) w) as [He1 _]. fold w1 in He1.
    pose proof (env_trans _ _ _ He He1) as He2. pose proof He2 as (M2 & L2 & S2 & _ & E2).
    destruct (IH {| world := w1; trace := trace s |}) as (r & s1 & -> & Ht & M3 & L3 & S3 & Hr). cbn in *.
    exists r, s1. split; [done|]. split; [done|]. split; [by eapply moves_trans|]. split; [lia|]. split; [auto|].
    destruct r as [r|]; [|done]. destruct Hr as [Hr Ho]. split.
    + eapply reach_trans; [by apply reach_env|done].
    + intros o -> Hs Hrun. destruct (decide (running (sc_sched w1) path g)) as [H1|H1].
      * specialize (Ho o eq_refl (settled_from _ _ S2 Hs) H1). lia.
      * specialize (E2 _ _ Hrun H1). lia.
Qed.

(** Out of rounds, failed with nothing held, served by a scan that was joined, or with a lease. *)
Definition turned (path : string) facts w (r : result (option (option N)) Error) w' : Prop :=
  match r with
  | Ok None => True
  | Err _ => reach Free facts w Free facts w'
  | Ok (Some None) => ∃ g, reach Free facts w Free ((path, g, Succeeded) :: facts) w'
  | Ok (Some (Some g)) => reach Free facts w (Scans path g) facts w'
  end.
Lemma turned_after path f w1 r w2 w' : reach Free f w1 Free f w2 → turned path f w2 r w' → turned path f w1 r w'.
Proof.
  intros H1. destruct r as [[[g|]|]|e]; cbn; [by apply reach_trans| |done|by apply reach_trans].
  intros (g & H2). exists g. by eapply reach_trans.
Qed.
Lemma told_weaken k f w path g o w' : reach k f w Free (told path g o f) w' → reach k f w Free f w'.
Proof. intros H. eapply reach_weaken; [exact H|]. destruct o; cbn; set_solver. Qed.

(** *** Rounds *)

(** How many poll intervals are left. *)
Definition ticks (dl : Deadline) (t : instant) : N :=
  ((at_instant dl - t + (SCAN_SCHEDULE_POLL_INTERVAL - 1)) / SCAN_SCHEDULE_POLL_INTERVAL)%N.
Lemma poll_value : SCAN_SCHEDULE_POLL_INTERVAL = 100000000%N.
Proof. done. Qed.
Lemma ticks_later dl t t' : (t ≤ t')%N → (ticks dl t' ≤ ticks dl t)%N.
Proof. intros. unfold ticks. rewrite poll_value. apply N.Div0.div_le_mono. lia. Qed.
Lemma ticks_drop dl t t' : (0 < at_instant dl - t)%N →
  (t + N.min SCAN_SCHEDULE_POLL_INTERVAL (at_instant dl - t) ≤ t')%N → (ticks dl t' + 1 ≤ ticks dl t)%N.
Proof.
  intros H H'. unfold ticks. set (p := SCAN_SCHEDULE_POLL_INTERVAL) in *. assert (0 < p)%N as Hp by done.
  destruct (N.le_gt_cases (at_instant dl - t) p).
  - rewrite (N.div_small _ p) by lia. pose proof (N.Div0.div_le_mono p (at_instant dl - t + (p - 1)) p ltac:(lia)) as Hm.
    rewrite N.div_same in Hm by lia. exact Hm.
  - rewrite <-N.div_add with (b := 1%N) by lia. apply N.Div0.div_le_mono. lia.
Qed.
Lemma ticks_bound t d : (ticks {| at_instant := t + d |} t ≤ d / SCAN_SCHEDULE_POLL_INTERVAL + 1)%N.
Proof.
  unfold ticks. cbn [at_instant]. set (p := SCAN_SCHEDULE_POLL_INTERVAL). assert (p ≠ 0)%N as Hp by done.
  rewrite <-N.div_add with (b := 1%N) by done. apply N.Div0.div_le_mono. lia.
Qed.

(** Enough rounds for waits on others until [dl]. *)
Definition ample (rounds : nat) (dl : Deadline) w : Prop :=
  (ticks dl (bus_now w) + ev_left w + 2 ≤ N.of_nat rounds)%N.
Lemma ample_moves rounds dl w w' : moves w w' → ample rounds dl w → ample rounds dl w'.
Proof. intros [Ht He]. unfold ample. pose proof (ticks_later dl _ _ Ht). lia. Qed.

Lemma completion_answers path g dl rounds : ∀ s,
  (ticks dl (clock s) + ev_left (world s) + 1 ≤ N.of_nat rounds)%N → (completion_rounds rounds path g dl s).1 ≠ Ok None.
Proof.
  induction rounds as [|rounds IH]; intros s Hn; [lia|]. cbn [completion_rounds]. unfold clock in *.
  destruct (env_lock (world s)) as ([Mt Me] & _). unfold bind, local. cbv zeta. set (w := sc_lock (world s)) in *.
  destruct (wait_iteration _ _ _ _ _ _) as [r|] eqn:Ew; [done|]. cbn [fst snd].
  assert (0 < at_instant dl - bus_now w)%N as Hpos.
  { unfold wait_iteration, wait_at in Ew. destruct (cancellation_requested _); [done|]. destruct (_ ≫= _); [done|].
    destruct (N.eqb_spec (N.min SCAN_SCHEDULE_POLL_INTERVAL (at_instant dl - bus_now w)) 0); [done|lia]. }
  destruct (env_block (wait_at dl (bus_now w) SCAN_SCHEDULE_POLL_INTERVAL) w) as [([Mt' Me'] & _) Hor].
  apply IH. cbn [world]. pose proof (ticks_later dl _ _ Mt). pose proof (ticks_later dl _ _ Mt').
  destruct Hor as [Hor|Hor]; [|lia]. pose proof (ticks_drop dl _ _ Hpos Hor). lia.
Qed.

(** Waiting with a ticket just taken. *)
Lemma ticket_spec rounds path g dl f s s1 : moves (world s) (world s1) →
  reach Free f (world s) (Waits path g) f (world s1) →
  ∃ r s2, completion_rounds rounds path g dl s1 = (Ok r, s2) ∧ trace s2 = trace s1 ∧ moves (world s) (world s2) ∧
    (se_left (world s2) ≤ se_left (world s1))%N ∧ (∀ p g', clash (sc_sched (world s2)) p g' → clash (sc_sched (world s1)) p g') ∧
    match r with
    | None => ¬ ample rounds dl (world s)
    | Some r => reach Free f (world s) Free (told path g r f) (world s2) ∧
      (∀ o, r = Completed o → settled (sc_sched (world s1)) → running (sc_sched (world s1)) path g →
         (se_left (world s2) < se_left (world s1))%N)
    end.
Proof.
  intros M R. destruct (completion_rounds_spec path g dl f rounds s1) as (r & s2 & E2 & Ht2 & M2 & L2 & S2 & Hr).
  exists r, s2. split; [done|]. split; [done|]. split; [by eapply moves_trans|]. split; [done|]. split; [done|].
  destruct r as [r|]; [destruct Hr; split; [by eapply reach_trans|done]|]. intros Ham%(ample_moves _ _ _ _ M).
  apply (completion_answers path g dl rounds s1); [unfold ample, clock in *; lia|by rewrite E2].
Qed.
Definition claim_post (rounds turns : nat) (path : string) (dl : Deadline) facts s (r : result (option (option N)) Error) s' : Prop :=
  trace s' = trace s ∧ moves (world s) (world s') ∧ (se_left (world s') ≤ se_left (world s))%N ∧
  (∀ p g, clash (sc_sched (world s')) p g → p = path ∧ r = Ok (Some (Some g))) ∧ turned path facts (world s) r (world s') ∧
  (ample rounds dl (world s) → (se_left (world s) < N.of_nat turns)%N → r ≠ Ok None).
(** A turn that others' scan took, and what follows. *)
Lemma claim_again rounds turns path dl f s r s1 s' : trace s1 = trace s → moves (world s) (world s1) →
  (se_left (world s1) < se_left (world s))%N → reach Free f (world s) Free f (world s1) →
  claim_post rounds turns path dl f s1 r s' → claim_post rounds (S turns) path dl f s r s'.
Proof.
  intros Ht M L R (Ht' & M' & L' & S' & T' & N'). split; [by rewrite Ht'|]. split; [by eapply moves_trans|].
  split; [lia|]. split; [done|]. split; [by eapply turned_after|]. intros Ha Hl. apply N'; [by eapply ample_moves|lia].
Qed.

Lemma claim_rounds_spec rounds path ssids dl f turns : ∀ s r s', settled (sc_sched (world s)) →
  claim_rounds rounds turns path ssids dl s = (r, s') → claim_post rounds turns path dl f s r s'.
Proof.
  induction turns as [|turns IH]; intros s r0 s' Hs Hrun.
  { injection Hrun as <- <-. split; [done|]. split; [apply moves_refl|]. split; [done|]. split; [by intros p g ?%Hs|]. split; [done|]. lia. }
  cbn [claim_rounds] in Hrun.
  destruct (critical_claim path ssids f s) as (turn & s1 & E & Ht & M & L & S & R & Hr0). rewrite (step_Ok _ _ _ _ _ E) in Hrun.
  destruct turn as [g|g|g]; cbn [stake_of] in R;
    [injection Hrun as <- <-; do 3 (split; [done|]); split; [|done]; intros p g' [?%Hs|[-> [= ->]]]%S; by try split| |];
    (assert (settled (sc_sched (world s1))) as S' by (intros p g' [?%Hs|[_ ?]]%S; done));
    destruct (ticket_spec rounds path g dl f s s1 M R) as (r & s2 & E2 & Ht2 & M2 & L2 & S2 & Hr); rewrite Ht in Ht2;
    pose proof (settled_from _ _ S2 S') as S2'.
  - unfold wait_for_joined_scan in Hrun. unfold bind at 1 2 in Hrun. rewrite E2 in Hrun. destruct r as [o|].
    2: { injection Hrun as <- <-. split; [done|]. split; [done|]. split; [lia|]. split; [by intros p g' ?%S2'|]. by repeat (split; [done|]). }
    destruct Hr as [Hr Ho]. unfold bind, now, local, lift in Hrun. destruct s2 as [w2 tr2]. cbn [world trace] in *.
    destruct (joined_wait o (expired (bus_now w2) dl)) as [[|]|e] eqn:Ej; cbn [fst snd] in Hrun.
    + injection Hrun as <- <-. pose proof (joined_wait_true _ _ Ej) as ->. split; [done|]. split; [done|].
      split; [cbn; lia|]. split; [by intros p g' ?%S2'|]. split; [by exists g|done].
    + destruct (joined_wait_done _ _ _ Ej) as (x & ->). specialize (Ho x eq_refl S' Hr0).
      apply told_weaken in Hr. by eapply claim_again; [| | | |eapply IH; [|exact Hrun]]; cbn; try done; lia.
    + injection Hrun as <- <-. apply told_weaken in Hr. split; [done|]. split; [done|]. split; [cbn; lia|].
      split; [by intros p g' ?%S2'|]. by repeat (split; [done|]).
  - unfold bind at 1 in Hrun. rewrite E2 in Hrun. destruct r as [o|].
    2: { injection Hrun as <- <-. split; [done|]. split; [done|]. split; [lia|]. split; [by intros p g' ?%S2'|]. by repeat (split; [done|]). }
    destruct Hr as [Hr Ho]. unfold bind, lift in Hrun. destruct (into_result _ o) as [x|e] eqn:Ej; cbn [fst snd] in Hrun.
    + destruct o as [x'| |]; [|done..]. specialize (Ho x' eq_refl S' Hr0).
      apply told_weaken in Hr. by eapply claim_again; [| | | |eapply IH; [|exact Hrun]]; cbn; try done; lia.
    + injection Hrun as <- <-. apply told_weaken in Hr. split; [done|]. split; [done|]. split; [lia|].
      split; [by intros p g' ?%S2'|]. by repeat (split; [done|]).
Qed.
End Steps.

(** *** The scan itself *)

Section Owned.
Context {W : Type} {B : Bus W} {EV : NetworkEvents W} {SC : ScanHost W}.

Definition scan_ask (device : WifiDevice) (ssids : list (list u8)) (reply : result (list value) Error) : bus_event :=
  EvCall (wd_path device) WIFI_IFACE "RequestScan"
    [match ssids with [] => VDict [] | _ => VDict [(VStr "ssids", VVariant (VArray (of_bytes_value <$> ssids)))] end] reply.
Definition asks (device : WifiDevice) (ssids : list (list u8)) (e : bus_event) : Prop := ∃ reply, e = scan_ask device ssids reply.
Definition read_last (device : WifiDevice) (z : Z) (l : list bus_event) : Prop :=
  EvGet (wd_path device) WIFI_IFACE "LastScan" (Ok (VI64 z)) ∈ l.
(** A request that was accepted, after [LastScan] read [before] or nothing. *)
Definition accepted (device : WifiDevice) (ssids : list (list u8)) (before : Z) (l : list bus_event) : Prop :=
  ∃ l1 l2, l = l1 ++ scan_ask device ssids (Ok []) :: l2 ∧ (before = (-1)%Z ∨ read_last device before l1).
(** ... and a later scan time that was read afterwards. *)
Definition scanned (device : WifiDevice) (ssids : list (list u8)) (l : list bus_event) : Prop :=
  ∃ before after l1 l2, l = l1 ++ l2 ∧ accepted device ssids before l1 ∧ read_last device after l2 ∧
    (0 ≤ after)%Z ∧ after ≠ before.

Lemma accepted_app d ssids z l l' : accepted d ssids z l → accepted d ssids z (l ++ l').
Proof. intros (l1 & l2 & -> & H). exists l1, (l2 ++ l'). by rewrite <-app_assoc. Qed.
Lemma accepted_after d ssids z l l' : accepted d ssids z l → accepted d ssids z (l' ++ l).
Proof.
  intros (l1 & l2 & -> & H). exists (l' ++ l1), l2. rewrite app_assoc. split; [done|].
  destruct H as [->|H]; [by left|right]. unfold read_last in *. set_solver.
Qed.
Lemma scanned_after d ssids l l' : scanned d ssids l → scanned d ssids (l' ++ l).
Proof.
  intros (b & a & l1 & l2 & -> & H & ?). exists b, a, (l' ++ l1), l2. rewrite app_assoc.
  split; [done|]. split; [by apply accepted_after|done].
Qed.
Lemma scanned_app d ssids l l' : scanned d ssids l → scanned d ssids (l ++ l').
Proof.
  intros (b & a & l1 & l2 & -> & H & Ha & ?). exists b, a, l1, (l2 ++ l'). rewrite app_assoc.
  split; [done|]. split; [done|]. split; [unfold read_last in *; set_solver|done].
Qed.

Lemma grows_last_scan d : grows (last_scan d) (λ r l, effects l = [] ∧ ∃ z, r = Ok z ∧ (z = (-1)%Z ∨ read_last d z l)).
Proof.
  unfold last_scan, or_default. eapply grows_then.
  - apply (grows_attempt _ (λ r l, effects l = [] ∧ ∃ x, r = Ok x ∧ ∀ z, x = Ok z → read_last d z l)).
    eapply grows_then; [apply grows_proxy|intros e l [-> _]; split; [done|]; by eexists|].
    intros p l [-> ->]. apply grows_with_context. eapply grows_mono; [apply grows_get_property|].
    intros [z|e] l; cbn; [|intros; split; [done|]; by eexists]. intros (v & Hv & ->). split; [done|]. eexists. split; [done|].
    intros z' [= <-]. unfold read_last. destruct v; try done. injection Hv as ->. set_solver.
  - by intros e l (_ & x & ? & _).
  - intros r l (Hl & x & [= ->] & H). apply grows_ret. rewrite app_nil_r. split; [done|].
    destruct x as [z|e]; eexists; (split; [done|]); [by right; apply H|by left].
Qed.
Lemma grows_critical {A} (f : instant → ScanScheduler → ScanScheduler * A) :
  grows (critical f) (λ r l, l = [] ∧ is_ok r = true).
Proof. by apply grows_local. Qed.
Lemma grows_request_for d ssids :
  grows (request_scan_for_ssids (W:=W) d ssids) (λ r l,
    (l = [] ∨ ∃ reply, l = [scan_ask d ssids reply]) ∧ (is_ok r = true → l = [scan_ask d ssids (Ok [])])).
Proof.
  unfold request_scan_for_ssids. eapply grows_then; [apply grows_proxy|intros e l [-> _]; split; [by left|done]|].
  intros p l [-> ->]. apply grows_with_context. eapply grows_mono; [apply grows_call_unit_ok|].
  intros r l (reply & -> & Hr). cbn [app]. split; [right; by eexists|]. intros Hok. rewrite (proj1 Hr) by by destruct r. done.
Qed.

Definition requested_scan (d : WifiDevice) (ssids : list (list u8)) (r : result (option ScanCompletionToken) Error)
    (l : list bus_event) : Prop :=
  Forall (asks d ssids) (effects l) ∧
  match r with Ok (Some token) => accepted d ssids (last_scan_before_request token) l | _ => True end.
Lemma requested_after d ssids r l l' : Forall (asks d ssids) (effects l') → requested_scan d ssids r l →
  requested_scan d ssids r (l' ++ l).
Proof.
  intros Hl [H1 H2]. split; [rewrite effects_app; by apply Forall_app|]. destruct r as [[t|]|]; [by apply accepted_after|done..].
Qed.
Lemma quiet_asks d ssids l : effects l = [] → Forall (asks d ssids) (effects l).
Proof. by intros ->. Qed.

Lemma grows_try_scan d ssids dl : grows (try_scan_request d ssids dl) (requested_scan d ssids).
Proof.
  unfold try_scan_request. eapply grows_then; [apply grows_last_scan|by intros e l (_ & z & ? & _)|].
  intros before l (Hl & z & [= ->] & Hz). apply grows_local_then. intros at_.
  eapply grows_then; [apply grows_attempt with (Q := λ r l', match r with
      | Ok r => (l' = [] ∨ ∃ reply, l' = [scan_ask d ssids reply]) ∧ (is_ok r = true → l' = [scan_ask d ssids (Ok [])])
      | Err _ => False end); eapply grows_mono; [apply grows_request_for|by intros r l']|done|].
  intros [[]|e] l' [Hl' Hok].
  - rewrite (Hok eq_refl). eapply grows_then; [apply grows_critical|by intros e l2 [_ ?]|].
    intros _ l2 [-> _]. apply grows_ret. split.
    + rewrite !effects_app, Hl. cbn. constructor; [by eexists|done].
    + cbn. exists l, []. by split.
  - assert (Forall (asks d ssids) (effects (l ++ l'))) as Ha.
    { rewrite effects_app, Hl. destruct Hl' as [->|(reply & ->)]; cbn; [done|]. constructor; [by eexists|done]. }
    apply grows_local_then. intros t. case_match; [apply grows_ret|apply grows_pure]; cbn beta; rewrite app_nil_r; by split.
Qed.
Lemma grows_sleep_slices n until dl : grows (sleep_slices n until dl) (λ _ l, l = []).
Proof.
  induction n as [|n IH]; cbn [sleep_slices]; [by apply grows_ret|]. apply grows_local_then. intros t.
  destruct (until <=? t)%N; [by apply grows_ret|]. unfold check_scan_cancelled, check_cancelled.
  eapply grows_then; [apply grows_local_then; intros c; by apply (grows_pure _ (λ _ l, l = []))|done|]. intros _ l ->.
  apply grows_local_then. intros t1. destruct (expired t1 dl); [by apply grows_ret|]. apply grows_local_then. intros t2.
  case_match; apply grows_local_then; intros t3; [by apply grows_ret|exact IH].
Qed.
Lemma grows_cancel_check : grows (check_scan_cancelled (W:=W)) (λ _ l, l = []).
Proof. apply grows_local_then. intros c. by apply grows_pure. Qed.
Lemma grows_request_rounds d ssids dl rounds : ∀ wait, grows (request_rounds rounds d ssids dl wait) (requested_scan d ssids).
Proof.
  induction rounds as [|rounds IH]; intros wait; cbn [request_rounds]; [apply grows_ret; by split|].
  eapply grows_then; [apply grows_cancel_check|by intros e l ->|]. intros _ l ->.
  apply (grows_then _ _ (λ _ l, l = [])).
  { case_match; [by apply grows_ret|]. apply grows_local_then. intros t. apply grows_sleep_slices. }
  { by intros e l ->. }
  intros [[|]|] l ->; [|apply grows_pure; by split|apply grows_ret; by split].
  eapply grows_then; [apply grows_cancel_check|by intros e l ->|]. intros _ l ->.
  eapply grows_then; [apply grows_try_scan|by intros e l H|]. intros [token|] l H; [apply grows_ret; by rewrite app_nil_r|].
  eapply grows_mono; [apply IH|]. intros r l' H'. cbn [app]. apply requested_after; [apply H|done].
Qed.
Lemma grows_finish_rounds d token dl rounds : ∀ g, grows (finish_rounds rounds d token dl g) (λ r l,
  effects l = [] ∧ (r = Ok (Some tt) → ∃ z, read_last d z l ∧ (0 ≤ z)%Z ∧ z ≠ last_scan_before_request token)).
Proof.
  induction rounds as [|rounds IH]; intros g; cbn [finish_rounds]; [by apply grows_ret|]. apply grows_local_then. intros t.
  destruct (expired t dl); [by apply grows_pure|]. eapply grows_then; [apply grows_cancel_check|by intros e l ->|]. intros _ l ->.
  eapply grows_then; [apply grows_last_scan|by intros e l (_ & z & ? & _)|]. intros after l (Hl & z & [= ->] & Hz). cbn [app].
  destruct (scan_completed _ _ _) eqn:Ec.
  - apply grows_ret. rewrite app_nil_r. split; [done|]. intros _. unfold scan_completed in Ec. exists z.
    destruct (Z.leb_spec 0 z); [|done]. destruct (Z.eqb_spec z (last_scan_before_request token)); [done|].
    destruct Hz as [->|Hz]; [lia|done].
  - apply grows_local_then. intros t1. apply grows_local_then. intros g'. eapply grows_mono; [apply IH|].
    intros r l' [Hl' Hr]. split; [by rewrite effects_app, Hl, Hl'|]. intros E. destruct (Hr E) as (z' & ? & ?).
    exists z'. split; [unfold read_last in *; set_solver|done].
Qed.
Lemma grows_run_owned rounds d dl ssids : grows (run_owned_scan rounds d dl ssids) (λ r l,
  Forall (asks d ssids) (effects l) ∧ (r = Ok (Some tt) → scanned d ssids l)).
Proof.
  unfold run_owned_scan. eapply grows_then; [apply grows_last_scan|by intros e l (_ & z & ? & _)|]. intros last l (Hl & _).
  unfold request_scan_within_deadline. eapply grows_then with (P := requested_scan d ssids).
  - apply (grows_then _ _ (λ _ l, l = [])).
    + unfold rate_limit_wait_for. apply grows_local_then. intros [b|]; [|by apply grows_ret].
      eapply grows_then; [apply grows_critical|by intros e l' [-> _]|]. intros last' l' [-> _]. apply grows_local_then. intros t. by apply grows_ret.
    + by intros e l' ->.
    + intros wait l' ->. apply grows_request_rounds.
  - intros e l' [H _]. split; [|done]. rewrite effects_app, Hl. done.
  - intros [token|] l' [H1 H2]; [|apply grows_ret; rewrite app_nil_r; split; [by rewrite effects_app, Hl|done]].
    unfold wait_for_scan_completion. apply grows_local_then. intros g. eapply grows_mono; [apply grows_finish_rounds|].
    intros r l2 [Hl2 Hr]. split; [by rewrite !effects_app, Hl, Hl2, app_nil_r|]. intros E. destruct (Hr E) as (z & ? & ? & ?).
    rewrite app_assoc. exists (last_scan_before_request token), z, (l ++ l'), l2.
    split; [done|]. split; [by apply accepted_after|done].
Qed.
End Owned.

Section Settles.
Context {W : Type} {B : Bus W} {EV : NetworkEvents W} {EC : EventClock W} {SC : ScanHost W} {SE : ScanEnv W}.
Implicit Types (s : Session W) (w : W) (facts : list (string * N * SharedScanOutcome)).
#[local] Existing Instance prog_order.

(** *** What the caller's own steps keep *)

Lemma along_now : along prog (now (W:=W)).
Proof. apply (forward_peek prog). Qed.
Lemma along_cancel : along prog (check_scan_cancelled (W:=W)).
Proof. unfold check_scan_cancelled, check_cancelled, cancellation. forward_tac. Qed.
Lemma along_event g d : along prog (wait_for_event (W:=W) g d).
Proof. apply along_local. intros w. apply prog_env, env_wait. Qed.
Lemma along_sleep d : along prog (sleep (W:=W) d).
Proof. apply along_local. intros w. apply prog_env, env_pause. Qed.
Lemma along_call_unit p m args : along prog (call_unit (W:=W) p m args).
Proof.
  unfold call_unit. apply forward_bind; [typeclasses eauto| |intros; apply forward_lift; typeclasses eauto].
  intros s. unfold call_method, access. pose proof (env_call (p_path p) (p_iface p) m args (world s)) as H.
  destruct (bus_call _ _ _ _ _). by apply prog_env.
Qed.
Lemma along_last_scan d : along prog (last_scan (W:=W) d).
Proof. unfold last_scan. forward_tac. Qed.
Lemma along_try_scan d ssids dl : along prog (try_scan_request (W:=W) d ssids dl).
Proof.
  pose proof along_last_scan. pose proof along_now. pose proof along_call_unit.
  assert (∀ p, along prog (critical (λ t sch, (note_request p t sch, tt)))) by (intros p; apply along_critical; intros w; apply prog_note).
  unfold try_scan_request, request_scan_for_ssids, boottime_ms. forward_tac.
Qed.
Lemma along_sleep_slices n until dl : along prog (sleep_slices (W:=W) n until dl).
Proof.
  pose proof along_now. pose proof along_cancel. pose proof along_sleep. induction n; cbn [sleep_slices]; forward_tac.
Qed.
Lemma along_request_rounds d ssids dl rounds : ∀ wait, along prog (request_rounds (W:=W) rounds d ssids dl wait).
Proof.
  pose proof along_now. pose proof along_cancel. pose proof along_sleep_slices. pose proof along_try_scan.
  induction rounds; intros wait; cbn [request_rounds]; unfold sleep_within_deadline; forward_tac.
Qed.
Lemma along_finish_rounds d token dl rounds : ∀ g, along prog (finish_rounds (W:=W) rounds d token dl g).
Proof.
  pose proof along_now. pose proof along_cancel. pose proof along_last_scan. pose proof along_event.
  induction rounds; intros g; cbn [finish_rounds]; forward_tac.
Qed.
Lemma along_rate_limit d last : along prog (rate_limit_wait_for (W:=W) d last).
Proof.
  pose proof along_now. unfold rate_limit_wait_for, boottime_ms.
  assert (along prog (critical (λ _ sch, (sch, last_request_before_claim (wd_path d) sch))))
    by (apply along_critical; intros w; apply prog_put_same). forward_tac.
Qed.
Lemma along_run_owned rounds d dl ssids : along prog (run_owned_scan (W:=W) rounds d dl ssids).
Proof.
  pose proof along_last_scan. pose proof along_request_rounds. pose proof along_finish_rounds. pose proof along_rate_limit.
  unfold run_owned_scan, request_scan_within_deadline, wait_for_scan_completion, event_generation. forward_tac.
Qed.
Lemma along_device_rounds ifname dl rounds : ∀ g, along prog (device_rounds (W:=W) rounds ifname dl g).
Proof.
  pose proof along_now. pose proof along_cancel. pose proof along_event.
  induction rounds; intros g; cbn [device_rounds]; unfold scan_devices, wifi_devices, wifi_device, ensure_scan_deadline; forward_tac.
Qed.

(** *** The scan ends *)

Lemma now_Ok s t s' : now s = (Ok t, s') → t = clock s ∧ s' = s.
Proof. destruct s. by intros [= <- <-]. Qed.
Lemma cancel_Ok s u s' : check_scan_cancelled s = (Ok u, s') → s' = s.
Proof.
  unfold check_scan_cancelled, check_cancelled, cancellation. intros (c & s1 & E & H)%then_Ok.
  apply lifted_Ok in H as [_ ->]. destruct s. by injection E.
Qed.

(** A sleep ends within its slices: at the end asked for, or at the deadline. *)
Lemma sleep_slices_spec until dl slices : ∀ s r s', sleep_slices slices until dl s = (Ok r, s') →
  (ticks {| at_instant := until |} (clock s) + 2 ≤ N.of_nat slices)%N →
  ∃ b, r = Some b ∧ (b = true → (until ≤ clock s')%N).
Proof.
  induction slices as [|slices IH]; intros s r s' H Hn; [lia|]. cbn [sleep_slices] in H.
  apply then_Ok in H as (t & s1 & [-> ->]%now_Ok & H). destruct (N.leb_spec until (clock s)) as [|Hu].
  { apply done_Ok in H as [-> ->]. by exists true. }
  apply then_Ok in H as ([] & s1 & ->%cancel_Ok & H). apply then_Ok in H as (t & s1 & [-> ->]%now_Ok & H).
  unfold expired in H. destruct (N.leb_spec (at_instant dl) (clock s)) as [|Hd].
  { apply done_Ok in H as [-> ->]. by exists false. }
  apply then_Ok in H as (t & s1 & [-> ->]%now_Ok & H). unfold wait_at in H. rewrite poll_value in H.
  destruct (N.eqb_spec (N.min (N.min 100000000 (until - clock s)) (N.min 100000000 (at_instant dl - clock s))) 0); [lia|].
  set (slice := N.min (N.min 100000000 _) _) in *.
  apply then_Ok in H as (? & s1 & E & H). assert (clock s + slice ≤ clock s1)%N as Hs.
  { unfold sleep, local in E. destruct (env_pause slice (world s)) as [_ Hp]. by injection E as _ <-. }
  destruct (N.le_gt_cases (clock s + (at_instant dl - clock s)) (clock s1)) as [Hd1|Hd1].
  - destruct slices as [|slices]; [lia|]. cbn [sleep_slices] in H.
    apply then_Ok in H as (t & s2 & [-> ->]%now_Ok & H). destruct (N.leb_spec until (clock s1)) as [|Hu1].
    { apply done_Ok in H as [-> ->]. by exists true. }
    apply then_Ok in H as ([] & s2 & ->%cancel_Ok & H). apply then_Ok in H as (t & s2 & [-> ->]%now_Ok & H).
    unfold expired in H. destruct (N.leb_spec (at_instant dl) (clock s1)); [|lia].
    apply done_Ok in H as [-> ->]. by exists false.
  - apply (IH _ _ _ H). pose proof (ticks_drop {| at_instant := until |} (clock s) (clock s1)) as Ht. cbn [at_instant] in Ht.
    rewrite poll_value in Ht. lia.
Qed.
Lemma sleep_within_spec wait dl s r s' : sleep_within_deadline wait dl s = (Ok r, s') →
  ∃ b, r = Some b ∧ (b = true → (clock s + wait ≤ clock s')%N).
Proof.
  unfold sleep_within_deadline. intros (t & s1 & [-> ->]%now_Ok & H)%then_Ok. eapply sleep_slices_spec; [exact H|].
  pose proof (ticks_bound (clock s) wait). unfold slices_of. lia.
Qed.

Lemma try_scan_none d ssids dl s s' : try_scan_request d ssids dl s = (Ok None, s') → (clock s' < at_instant dl)%N.
Proof.
  unfold try_scan_request. intros H. apply then_Ok in H as (? & s1 & _ & H). apply then_Ok in H as (? & s2 & _ & H).
  apply then_Ok in H as (r & s3 & _ & H). destruct r as [[]|e].
  - apply then_Ok in H as (? & s4 & _ & H). by apply done_Ok in H as [? _].
  - apply then_Ok in H as (t & s4 & [-> ->]%now_Ok & H). unfold expired in H.
    destruct (is_transient_scan_rejection e); [|by apply lifted_Ok in H as [? _]]. cbn in H.
    destruct (N.leb_spec (at_instant dl) (clock s3)); [by apply lifted_Ok in H as [? _]|by apply done_Ok in H as [_ ->]].
Qed.
Lemma along_time {A} (m : bus W A) s a s' : along prog m → m s = (Ok a, s') → moves (world s) (world s').
Proof. intros Hm E. destruct (Hm s) as [M _]. by rewrite E in M. Qed.

(** A retry follows a pause of ten poll intervals. *)
Lemma retry_answers d ssids dl rounds : ∀ s, (clock s < at_instant dl)%N → (ticks dl (clock s) + 1 ≤ N.of_nat rounds)%N →
  (request_rounds rounds d ssids dl SCAN_RETRY_DELAY s).1 ≠ Ok None.
Proof.
  induction rounds as [|rounds IH]; intros s Hlt Hn; [lia|]. cbn [request_rounds].
  apply bind_not_Ok. intros ? s1 ->%cancel_Ok. apply bind_not_Ok. intros r s1 Er. change (SCAN_RETRY_DELAY =? 0)%N with false in Er.
  destruct (sleep_within_spec _ _ _ _ _ Er) as (b & -> & Hb). destruct b; [|done]. specialize (Hb eq_refl).
  apply bind_not_Ok. intros ? s2 ->%cancel_Ok. apply bind_not_Ok. intros [token|] s2 Et; [done|].
  pose proof (try_scan_none _ _ _ _ _ Et). destruct (along_time _ _ _ _ (along_try_scan d ssids dl) Et) as [Mt _].
  apply IH; [done|]. pose proof (ticks_drop dl (clock s) (clock s2)) as Ht. unfold clock in *. rewrite poll_value in Ht.
  change SCAN_RETRY_DELAY with 1000000000%N in Hb. lia.
Qed.
Lemma request_answers d ssids dl rounds wait s : (ticks dl (clock s) + 2 ≤ N.of_nat rounds)%N →
  (request_rounds rounds d ssids dl wait s).1 ≠ Ok None.
Proof.
  destruct rounds as [|rounds]; intros Hn; [lia|]. cbn [request_rounds].
  apply bind_not_Ok. intros ? s1 ->%cancel_Ok. apply bind_not_Ok. intros r s1 Er.
  assert (moves (world s) (world s1) ∧ ∃ b, r = Some b) as [[M1 _] [b ->]].
  { destruct (wait =? 0)%N; [apply done_Ok in Er as [-> ->]; split; [apply moves_refl|by exists true]|].
    split; [eapply along_time; [|exact Er]; unfold sleep_within_deadline; pose proof along_now; pose proof along_sleep_slices; forward_tac|].
    destruct (sleep_within_spec _ _ _ _ _ Er) as (b & -> & _). by exists b. }
  destruct b; [|done]. apply bind_not_Ok. intros ? s2 ->%cancel_Ok. apply bind_not_Ok. intros [token|] s2 Et; [done|].
  destruct (along_time _ _ _ _ (along_try_scan d ssids dl) Et) as [M2 _]. apply retry_answers; [by eapply try_scan_none|].
  unfold clock in *. pose proof (ticks_later dl _ _ M1). pose proof (ticks_later dl _ _ M2). lia.
Qed.

(** A wait that no event ends lasts until the deadline. *)
Lemma event_Ok g dl s g' s' : (at_instant dl ≤ clock s + DURATION_MAX)%N →
  wait_for_event g (wait_at dl (clock s) DURATION_MAX) s = (Ok g', s') →
  moves (world s) (world s') ∧ ((at_instant dl ≤ clock s')%N ∨ (ev_left (world s') < ev_left (world s))%N).
Proof.
  intros Hd. unfold wait_for_event, local, clock. pose proof (wait_moves g (wait_at dl (bus_now (world s)) DURATION_MAX) (world s)) as [M H].
  destruct (ev_wait _ _ _) as [g1 w1]. cbn in *. intros [= _ <-]. split; [done|]. cbn. unfold wait_at in H. unfold clock in Hd.
  destruct H; [left; lia|by right].
Qed.
(** Enough rounds for a loop that waits for events. *)
Definition lasting (rounds : nat) (dl : Deadline) s : Prop :=
  (ev_left (world s) + 2 ≤ N.of_nat rounds)%N ∨ ((at_instant dl ≤ clock s)%N ∧ (1 ≤ N.of_nat rounds)%N).
Lemma lasting_next rounds dl s s1 s' : (clock s < at_instant dl)%N → lasting (S rounds) dl s → moves (world s) (world s1) →
  moves (world s1) (world s') →
  (at_instant dl ≤ clock s')%N ∨ (ev_left (world s') < ev_left (world s1))%N → lasting rounds dl s'.
Proof. unfold lasting, clock. intros Hlt Hl [Ht He] [Ht' He'] H. lia. Qed.

Lemma finish_answers d token dl rounds : ∀ g s, (at_instant dl ≤ clock s + DURATION_MAX)%N → lasting rounds dl s →
  (finish_rounds rounds d token dl g s).1 ≠ Ok None.
Proof.
  induction rounds as [|rounds IH]; intros g s Hd Hl; [destruct Hl; lia|]. cbn [finish_rounds].
  apply bind_not_Ok. intros t s1 [-> ->]%now_Ok. unfold expired. destruct (N.leb_spec (at_instant dl) (clock s)) as [|Hlt]; [done|].
  apply bind_not_Ok. intros ? s1 ->%cancel_Ok. apply bind_not_Ok. intros after s1 E1. destruct (scan_completed _ _ _); [done|].
  pose proof (along_time _ _ _ _ (along_last_scan d) E1) as M1. pose proof M1 as [Mt _].
  apply bind_not_Ok. intros t s2 [-> ->]%now_Ok. apply bind_not_Ok. intros g' s2 E2. unfold clock in *.
  apply event_Ok in E2 as [M2 H]; [|unfold clock in *; lia]. pose proof M2 as [Mt2 _]. apply IH; [unfold clock; lia|by eapply lasting_next].
Qed.
Lemma device_answers ifname dl rounds : ∀ g s, (at_instant dl ≤ clock s + DURATION_MAX)%N → lasting rounds dl s →
  (device_rounds rounds ifname dl g s).1 ≠ Ok None.
Proof.
  induction rounds as [|rounds IH]; intros g s Hd Hl; [destruct Hl; lia|]. cbn [device_rounds].
  apply bind_not_Ok. intros ? s1 ->%cancel_Ok. apply bind_not_Ok. intros [|d ds] s1 E1; [|done].
  assert (along prog (scan_devices (W:=W) ifname)) as Ha by (unfold scan_devices, wifi_devices, wifi_device; forward_tac).
  pose proof (along_time _ _ _ _ Ha E1) as M1. pose proof M1 as [Mt _].
  apply bind_not_Ok. unfold ensure_scan_deadline. intros [] s2 E2. apply then_Ok in E2 as (t & s3 & [-> ->]%now_Ok & [E2 ->]%lifted_Ok).
  unfold expired in E2. destruct (N.leb_spec (at_instant dl) (clock s1)) as [|Hlt]; [done|].
  apply bind_not_Ok. intros t s2 [-> ->]%now_Ok. apply bind_not_Ok. intros g' s2 E3.
  apply event_Ok in E3 as [M2 H]; [|unfold clock in *; lia]. pose proof M2 as [Mt2 _]. unfold clock in *.
  apply IH; [unfold clock; lia|]. eapply lasting_next; [|exact Hl|exact M1|exact M2|exact H]. unfold clock in *. lia.
Qed.
Lemma owned_answers rounds d dl ssids s : ample rounds dl (world s) → (at_instant dl ≤ clock s + DURATION_MAX)%N →
  (run_owned_scan rounds d dl ssids s).1 ≠ Ok None.
Proof.
  intros Ha Hd. unfold run_owned_scan. apply bind_not_Ok. intros last s1 E1.
  pose proof (along_time _ _ _ _ (along_last_scan d) E1) as M1. apply bind_not_Ok. intros token s2 E2.
  unfold request_scan_within_deadline in E2. apply then_Ok in E2 as (wait & s3 & E3 & E2).
  pose proof (along_time _ _ _ _ (along_rate_limit d last) E3) as M3.
  pose proof (along_time _ _ _ _ (along_request_rounds d ssids dl rounds wait) E2) as M2.
  pose proof (moves_trans _ _ _ M1 M3) as M13. pose proof (moves_trans _ _ _ M13 M2) as M12.
  destruct token as [token|].
  - unfold wait_for_scan_completion. apply bind_not_Ok. intros g s4 [= <- <-]. destruct s2 as [w2 tr2]. cbn [world trace] in *.
    destruct M12 as [Mt Me]. unfold ample in Ha. apply finish_answers; unfold lasting, clock in *; cbn [world] in *; [lia|left; lia].
  - pose proof (request_answers d ssids dl rounds wait s3) as Hr. rewrite E2 in Hr. apply (ample_moves _ _ _ _ M13) in Ha.
    destruct Hr; [unfold ample, clock in *; lia|done].
Qed.

(** *** A device, and all of them *)

Lemma critical_complete p g o f s : ∃ s1, critical (λ _ sch, (complete p g (lease_outcome (Some o)) sch, tt)) s = (Ok tt, s1) ∧
  trace s1 = trace s ∧ moves (world s) (world s1) ∧ (se_left (world s1) ≤ se_left (world s))%N ∧
  (∀ p' g', clash (sc_sched (world s1)) p' g' → clash (sc_sched (world s)) p' g' ∧ (p', g') ≠ (p, g)) ∧
  reach (Scans p g) f (world s) Free f (world s1).
Proof.
  unfold critical, local. set (w := sc_lock (world s)). cbv zeta.
  set (sch := complete p g (lease_outcome (Some o)) (sc_sched w)).
  exists {| world := sc_put sch w; trace := trace s |}. cbn [world trace].
  destruct (env_lock (world s)) as (M & L & S & _). fold w in M, L, S. destruct (put_rest sch w).
  split; [done|]. split; [done|]. split; [by eapply moves_trans|]. split; [lia|]. rewrite put_sched.
  split; [intros p' g' [Hc Hne]%clash_complete; split; [by apply S|done]|].
  eapply reach_trans; [apply reach_env, env_lock|]. fold w. apply reach_put. intros v (Hsch & Hl & Ht & Hp) _ Hf. cbn in *.
  assert ((p, g) ∈ leases v) as (b & a & Hba)%list_elem_of_split by (rewrite Hl; set_solver).
  eexists. split; [by apply (step_publish v p g b a (Some o))|]. cbn. rewrite Hsch. split; [done|].
  split; [|split; [done|set_solver]]. rewrite Hba in Hl. apply (Permutation_cons_inv (a := (p, g))). by rewrite Permutation_middle.
Qed.

Definition served (d : WifiDevice) (ssids : list (list u8)) (l : list bus_event) facts : Prop :=
  scanned d ssids l ∨ ∃ g, (wd_path d, g, Succeeded) ∈ facts.
Definition timely (rounds : nat) (dl : Deadline) s : Prop :=
  ample rounds dl (world s) ∧ (se_left (world s) < N.of_nat rounds)%N ∧ (at_instant dl ≤ clock s + DURATION_MAX)%N.
(** How a scan of [ds] ends: what it asked, what it kept and left, and that it was served. *)
Record scan_post (rounds : nat) (dl : Deadline) (ds : list WifiDevice) (ssids : list (list u8)) facts s
    (r : result (option unit) Error) s' (l : list bus_event) facts' : Prop := {
  post_trace : trace s' = trace s ++ l;
  post_asks : ∀ e, e ∈ effects l → ∃ d, d ∈ ds ∧ asks d ssids e;
  post_moves : moves (world s) (world s');
  post_left : (se_left (world s') ≤ se_left (world s))%N;
  post_settled : r ≠ Ok None → settled (sc_sched (world s'));
  post_answer : timely rounds dl s → r ≠ Ok None;
  post_facts : facts ⊆ facts';
  post_reach : r ≠ Ok None → reach Free facts (world s) Free facts' (world s');
  post_served : r = Ok (Some tt) → ∀ d, d ∈ ds → served d ssids l facts';
}.

Lemma timely_later rounds dl s s' : moves (world s) (world s') → (se_left (world s') ≤ se_left (world s))%N →
  timely rounds dl s → timely rounds dl s'.
Proof.
  intros M L (Ha & Hl & Hd). pose proof M as [Mt _]. split; [by eapply ample_moves|]. unfold clock in *. split; lia.
Qed.
Lemma asks_of d ssids l : Forall (asks d ssids) (effects l) → ∀ e, e ∈ effects l → ∃ d', d' ∈ [d] ∧ asks d' ssids e.
Proof. intros H e He. exists d. split; [by left|]. by eapply Forall_forall in H. Qed.

Lemma refused_post rounds dl d ssids f s e : settled (sc_sched (world s)) →
  scan_post rounds dl [d] ssids f s (Err e) s [] f.
Proof.
  intros Hs. split; [by rewrite app_nil_r|by intros ? ?%elem_of_nil|apply moves_refl|done|done|done|done| |done].
  intros _. apply reach_refl.
Qed.
Lemma ensure_Ok dl m s u s' : ensure_scan_deadline dl m s = (u, s') → s' = s ∧ (u = Ok tt ∨ ∃ e, u = Err e).
Proof.
  unfold ensure_scan_deadline, bind, now, local, lift. destruct s as [w tr]. cbn. intros [= <- <-]. split; [done|].
  destruct (ensure _ _) as [[]|e]; [by left|right; by eexists].
Qed.
Lemma cancel_run s u s' : check_scan_cancelled s = (u, s') → s' = s ∧ (u = Ok tt ∨ ∃ e, u = Err e).
Proof.
  unfold check_scan_cancelled, check_cancelled, cancellation, bind, local, lift. destruct s as [w tr]. cbn.
  intros [= <- <-]. split; [done|]. destruct (check_cancellation _ _ _) as [[]|e]; [by left|right; by eexists].
Qed.

Lemma scan_device_spec rounds d dl ssids f s r s' : settled (sc_sched (world s)) →
  scan_device rounds d dl ssids s = (r, s') → ∃ l f', scan_post rounds dl [d] ssids f s r s' l f'.
Proof.
  intros Hs Hrun. unfold scan_device in Hrun. unfold bind at 1 in Hrun.
  destruct (check_scan_cancelled s) as [u s1] eqn:E. apply cancel_run in E as [-> [->|[e ->]]];
    [|injection Hrun as <- <-; exists [], f; by apply refused_post].
  unfold bind at 1 in Hrun. destruct (ensure_scan_deadline _ _ s) as [u s1] eqn:E. apply ensure_Ok in E as [-> [->|[e ->]]];
    [|injection Hrun as <- <-; exists [], f; by apply refused_post].
  unfold bind at 1 in Hrun. destruct (claim_scan_turn _ _ _ _ s) as [turn s1] eqn:E.
  apply (claim_rounds_spec _ _ _ _ f) in E as (Ht & M & L & S & R & A); [|done].
  destruct turn as [[[g|]|]|e]; cbn [turned] in R.
  - unfold bind at 1, attempt in Hrun. pose proof (along_run_owned rounds d dl ssids s1) as (M2 & L2 & S2 & R2).
    pose proof (grows_run_owned rounds d dl ssids s1) as (l & Hl & Hq & Hsc). pose proof (owned_answers rounds d dl ssids s1) as Ha.
    destruct (run_owned_scan rounds d dl ssids s1) as [x s2]. cbn [fst snd] in *. rewrite Ht in Hl.
    pose proof (moves_trans _ _ _ M M2) as M3. exists l, f.
    destruct x as [[[]|]|e].
    1, 3: unfold bind at 1 in Hrun;
      match type of Hrun with context [shared_scan_outcome ?x] =>
        destruct (critical_complete (wd_path d) g (shared_scan_outcome x) f s2) as (s3 & E3 & Ht3 & M4 & L4 & S4 & R4) end;
      rewrite E3 in Hrun;
      injection Hrun as <- <-; (split; [by rewrite Ht3|by apply asks_of|by eapply moves_trans|lia| |done|done| |]);
      [by intros _ p g' [[-> [= ->]]%S2%S Hne]%S4| |];
      [intros _; eapply reach_trans; [exact R|]; eapply reach_trans; [apply R2|exact R4]|].
    + intros _ d' ->%list_elem_of_singleton. left. by apply Hsc.
    + done.
    + injection Hrun as <- <-. split; [done|by apply asks_of|done|lia|done| |done|done|done].
      intros Hti. pose proof (timely_later _ _ _ _ M L Hti) as (Ha1 & _ & Hd1). intros _. by apply Ha.
  - injection Hrun as <- <-. destruct R as (g & R). exists [], ((wd_path d, g, Succeeded) :: f).
    split; [by rewrite Ht, app_nil_r|by intros ? ?%elem_of_nil|done|done|by intros _ p g' [_ ?]%S|done|set_solver|done|].
    intros _ d' ->%list_elem_of_singleton. right. exists g. set_solver.
  - injection Hrun as <- <-. exists [], f.
    split; [by rewrite Ht, app_nil_r|by intros ? ?%elem_of_nil|done|done|done| |done|done|done].
    intros (Ha & Hl & _) _. by apply A.
  - injection Hrun as <- <-. exists [], f.
    split; [by rewrite Ht, app_nil_r|by intros ? ?%elem_of_nil|done|done|by intros _ p g' [_ ?]%S|done..].
Qed.

Lemma scan_each_spec rounds dl ssids ds : ∀ f s r s', settled (sc_sched (world s)) →
  scan_each rounds ds dl ssids s = (r, s') → ∃ l f', scan_post rounds dl ds ssids f s r s' l f'.
Proof.
  induction ds as [|d ds IH]; intros f s r s' Hs Hrun; cbn [scan_each] in Hrun.
  { injection Hrun as <- <-. exists [], f.
    split; [by rewrite app_nil_r|by intros ? ?%elem_of_nil|apply moves_refl|done|done|done|done| |by intros _ ? ?%elem_of_nil].
    intros _. apply reach_refl. }
  unfold bind, with_context in Hrun. destruct (scan_device rounds d dl ssids s) as [x s1] eqn:E.
  destruct (scan_device_spec _ _ _ _ f _ _ _ Hs E) as (l1 & f1 & [T1 Q1 M1 L1 S1 A1 F1 R1 V1]).
  assert (∀ e, e ∈ effects l1 → ∃ d', d' ∈ d :: ds ∧ asks d' ssids e) as Q1'.
  { intros e He. destruct (Q1 e He) as (d' & ->%list_elem_of_singleton & ?). exists d. split; [by left|done]. }
  destruct x as [[[]|]|e]; cbn [result_map_err] in Hrun.
  - destruct (IH f1 s1 r s' (S1 ltac:(done)) Hrun) as (l2 & f2 & [T2 Q2 M2 L2 S2 A2 F2 R2 V2]). exists (l1 ++ l2), f2. split.
    + by rewrite T2, T1, app_assoc.
    + intros e. rewrite effects_app. intros [He|He]%elem_of_app; [by apply Q1'|]. destruct (Q2 e He) as (d' & ? & ?). exists d'. split; [by right|done].
    + by eapply moves_trans.
    + lia.
    + done.
    + intros Hti. apply A2. by eapply timely_later.
    + by etrans.
    + intros Hn. eapply reach_trans; [by apply R1|by apply R2].
    + intros -> d' [->|Hd]%elem_of_cons.
      * destruct (V1 eq_refl d) as [H|[g H]]; [by left|left; by apply scanned_app|right; exists g; by apply F2].
      * destruct (V2 eq_refl d' Hd) as [H|H]; [left; by apply scanned_after|by right].
  - injection Hrun as <- <-. exists l1, f1. by split.
  - injection Hrun as <- <-. exists l1, f1. split; try done; intros _; [by apply S1|by apply R1].
Qed.

(** *** A request to scan *)

Lemma grows_device_rounds ifname dl rounds : ∀ g, grows (device_rounds (W:=W) rounds ifname dl g) (λ r l, effects l = [] ∧
  ∀ ds, r = Ok (Some ds) → ds ≠ [] ∧ ∃ s1 s2, scan_devices ifname s1 = (Ok ds, s2)).
Proof.
  induction rounds as [|rounds IH]; intros g; cbn [device_rounds]; [by apply grows_ret|].
  eapply grows_then; [apply grows_cancel_check|by intros e l ->|]. intros _ l ->.
  apply (grows_then _ _ (λ r l, effects l = [] ∧ ∀ ds, r = Ok ds → ∃ s1 s2, scan_devices ifname s1 = (Ok ds, s2))).
  { intros s. assert (grows (scan_devices (W:=W) ifname) (λ _ l, effects l = [])) as Hg
      by (apply quiet_grows_nil; unfold scan_devices; [quiet_tac|unfold wifi_devices, wifi_device; extends_tac]).
    destruct (Hg s) as (l & Hl & Hq). exists l. split; [done|]. split; [done|]. intros ds E.
    exists s, (scan_devices ifname s).2. by rewrite <-E, <-surjective_pairing. }
  { by intros e l [? _]. }
  intros ds l [Hl Hds]. destruct ds as [|d ds].
  - eapply grows_then; [unfold ensure_scan_deadline; apply grows_local_then; intros t; by apply (grows_pure _ (λ _ l, l = []))|by intros e l' ->; rewrite app_nil_r|].
    intros _ l' ->. apply grows_local_then. intros t. apply grows_local_then. intros g'.
    eapply grows_mono; [apply IH|]. intros r l' [Hl' H]. split; [by rewrite !effects_app, Hl, Hl'|done].
  - apply grows_ret. rewrite app_nil_r. split; [done|]. intros ds' [= <-]. split; [done|]. by apply Hds.
Qed.
Lemma from_now_Ok d s r s' : from_now d s = (r, s') → s' = s ∧
  (r = Ok {| at_instant := clock s + d |} ∧ (clock s + d ≤ INSTANT_MAX)%N ∨ ∃ e, r = Err e).
Proof.
  unfold from_now, bind, now, local, lift, clock. destruct s as [w tr]. cbn. intros [= <- <-]. split; [done|].
  destruct (N.leb_spec (bus_now w + d) INSTANT_MAX); [by left|right; by eexists].
Qed.

End Settles.

(** *** An example: another caller scans the first of two devices *)

Record ScanSite := { ss_now : instant; ss_sched : ScanScheduler; ss_other : option (string * N); ss_last : Z }.
Definition site_pause (d : duration) (w : ScanSite) : ScanSite :=
  {| ss_now := ss_now w + d; ss_sched := ss_sched w; ss_other := ss_other w; ss_last := ss_last w |}.
(** The other caller's scan succeeds while this one waits. *)
Definition site_block (d : duration) (w : ScanSite) : ScanSite :=
  match ss_other w with
  | None => site_pause d w
  | Some (p, g) => {| ss_now := ss_now w + d; ss_sched := complete p g (lease_outcome (Some Succeeded)) (ss_sched w);
                      ss_other := None; ss_last := ss_last w |}
  end.
#[export] Instance site_bus : Bus ScanSite := {|
  bus_destination := "org.freedesktop.NetworkManager";
  bus_service := "org.freedesktop.NetworkManager";
  bus_build p i := None;
  bus_owner w := (Ok ":1.5", w);
  bus_get p i n w :=
    (if bool_decide (n = "DeviceType") then Ok (VU32 2) else if bool_decide (n = "Interface") then Ok (VStr ("wl" +:+ p))
     else if bool_decide (n = "LastScan") then Ok (VI64 (ss_last w)) else Err (plain "UnknownProperty"), w);
  bus_set p i n v w := (Ok tt, w);
  bus_call p i m args w :=
    if bool_decide (m = "GetDevices") then (Ok [VArray [VPath "/d/1"; VPath "/d/2"]], w)
    else if bool_decide (m = "RequestScan") then
      (Ok [], {| ss_now := ss_now w; ss_sched := ss_sched w; ss_other := ss_other w; ss_last := 60000 |})
    else (Err (plain "UnknownMethod"), w);
  bus_now := ss_now;
  bus_pause := site_pause;
  bus_cancelled w := Some false;
|}.
#[export] Instance site_events : NetworkEvents ScanSite := {|
  ev_generation w := 0%N;
  ev_wait g d w := (g, site_pause d w);
|}.
#[export] Instance site_scans : ScanHost ScanSite := {|
  sc_sched := ss_sched;
  sc_lock w := w;
  sc_put sch w := {| ss_now := ss_now w; ss_sched := sch; ss_other := ss_other w; ss_last := ss_last w |};
  sc_block := site_block;
  sc_boottime w := Some 50000%Z;
|}.
#[export] Program Instance site_clock : EventClock ScanSite := {| ev_left w := 0%N |}.
Next Obligation.
  split; [split; [intros w; split; reflexivity|intros w1 w2 w3 [? ?] [? ?]; split; etrans; eassumption]|..];
    intros; try (split; reflexivity). cbn. repeat case_bool_decide; split; reflexivity.
Qed.
Next Obligation. intros g d w. cbn. lia. Qed.

Definition site_left (w : ScanSite) : N := match ss_other w with Some _ => 1 | None => 0 end.
Definition site_leases (w : ScanSite) : list (string * N) := option_list (ss_other w).
Definition site_theirs (w : ScanSite) (pub : list (string * N * SharedScanOutcome)) : Scan.World :=
  {| sched := ss_sched w; leases := site_leases w; tickets := []; published := pub |}.
Definition site_env (w w' : ScanSite) : Prop :=
  moves w w' ∧ (site_left w' ≤ site_left w)%N ∧
  (∀ p g, clash (ss_sched w') p g → clash (ss_sched w) p g) ∧
  (∀ pub, ∃ pub', rtc scan_step (site_theirs w pub) (site_theirs w' pub')) ∧
  (∀ p g, running (ss_sched w) p g → ¬ running (ss_sched w') p g → (site_left w' < site_left w)%N).
Lemma site_same w w' : (ss_now w ≤ ss_now w')%N → ss_sched w' = ss_sched w → ss_other w' = ss_other w → site_env w w'.
Proof.
  intros Ht Hs Ho. unfold site_env, site_theirs, site_left, site_leases. rewrite Hs, Ho.
  split; [by split|]. split; [done|]. split; [done|]. split; [|done]. intros pub. exists pub. apply rtc_refl.
Qed.
Lemma site_blocks d w : site_env w (site_block d w) ∧ (ss_now w + d ≤ ss_now (site_block d w))%N.
Proof.
  unfold site_block. destruct (ss_other w) as [[p g]|] eqn:E; [|split; [apply site_same; cbn; [lia|done..]|done]].
  split; [|done]. unfold site_env, site_theirs, site_left, site_leases. cbn. rewrite E. split; [split; cbn; lia|]. split; [lia|].
  split; [intros p' g' [? _]%clash_complete; done|]. split; [|lia]. intros pub. eexists.
  apply rtc_once, (step_publish {| sched := ss_sched w; leases := [(p, g)]; tickets := []; published := pub |}
    p g [] [] (Some Succeeded)). done.
Qed.
#[export] Program Instance site_scan_env : ScanEnv ScanSite :=
  {| se_leases := site_leases; se_tickets w := []; se_left := site_left |}.
Next Obligation. intros p i n w. by apply site_same. Qed.
Next Obligation. intros p i m args w. cbn. repeat case_bool_decide; by apply site_same. Qed.
Next Obligation. intros w. by apply site_same. Qed.
Next Obligation. intros w. by apply site_same. Qed.
Next Obligation. intros d w. split; [apply site_same; cbn; [lia|done..]|done]. Qed.
Next Obligation. intros g d w. apply site_same; cbn; [lia|done..]. Qed.
Next Obligation. intros d w. destruct (site_blocks d w) as [H1 H2]. split; [exact H1|by left]. Qed.
Solve All Obligations with done.

(** The other caller has begun its scan of the first device. *)
Definition site_table : ScanScheduler := (claim "/d/1" [] 1 ∅).1.
Definition site_session : Session ScanSite :=
  {| world := {| ss_now := 10; ss_sched := site_table; ss_other := Some ("/d/1", 1%N); ss_last := 1000 |}; trace := [] |}.
Definition site_world : Scan.World :=
  {| sched := site_table; leases := [("/d/1", 1%N)]; tickets := []; published := [] |}.
Definition site_options : ScanRequestOptions :=
  {| so_timeout := from_millis 1000; so_ifname := None; so_ssid_bytes := [] |}.

Lemma site_settled : settled site_table.
Proof.
  intros p g [[o Ho] _]. destruct (decide (p = "/d/1")) as [->|Hp].
  - assert (completions (device site_table "/d/1") = ∅) as E by (by vm_compute). by rewrite E in Ho.
  - unfold site_table, claim in Ho. destruct (in_flight _); cbn in Ho; rewrite device_insert, decide_False in Ho by done;
      unfold device in Ho; by rewrite lookup_empty in Ho.
Qed.

