(* ===== verification/Application.v ===== *)
(** * Connect and scan requests ([src/application.rs])

    The transport-neutral layer: candidate selection for a network, the loop that
    tries a candidate and at most one alternative, the events a request emits, and
    the scan and network-list requests over the cache. *)
From S2P Require Import Prelude Errors Text Identity Wifi Network Cache Scan Activation ConnectWait Connect.
From Stdlib Require Import ZArith Lia Ascii.
From stdpp Require Import prelude strings list sorting pretty.

Definition REQUEST_TIMEOUT_MAX : duration := from_millis 120000.

(** ** Requests *)

Definition as_millis (d : duration) : N := (d / 1000000)%N.

Definition validate_request_timeout (timeout : duration) (operation : ErrorOperation)
    (field : string) : result unit Error :=
  if (timeout =? 0)%N || (REQUEST_TIMEOUT_MAX <? timeout)%N then
    Err (EDomain (with_detail "max_ms" (JNum (Z.of_N (as_millis REQUEST_TIMEOUT_MAX)))
      (with_detail "field" (JStr field)
        (validation operation (field +:+ " must be between 1 ms and "
           +:+ pretty (as_millis REQUEST_TIMEOUT_MAX) +:+ " ms")))))
  else Ok tt.

Definition validated_ssids (ssids : list string) : result (list (list u8)) Error :=
  collect ((λ ssid,
    let bytes := as_bytes ssid in
    let? _ := validate_ssid_bytes bytes in
    Ok bytes) <$> ssids).

Record ScanRequest := {
  sq_timeout : duration;
  sq_strict : bool;
  sq_cache : bool;
  sq_ifname : option InterfaceName;
  sq_ssids : list string;
}.
Record PreparedScanRequest := {
  ps_timeout : duration;
  ps_strict : bool;
  ps_cache : bool;
  ps_ifname : option InterfaceName;
  ps_ssid_bytes : list (list u8);
}.

Definition prepare (r : ScanRequest) : result PreparedScanRequest Error :=
  let? _ := validate_request_timeout (sq_timeout r) Op.Scan "timeout" in
  let? ssid_bytes := result_map_err
    (λ e, EDomain (with_cause e (validation Op.Scan (display e)))) (validated_ssids (sq_ssids r)) in
  Ok {| ps_timeout := sq_timeout r; ps_strict := sq_strict r; ps_cache := sq_cache r;
        ps_ifname := sq_ifname r; ps_ssid_bytes := ssid_bytes |}.

(** ** Candidates *)

Record ConnectCandidate := {
  ca_target : WifiConnectTarget;
  ca_band : option string;
  ca_channel : option u32;
  ca_strength : option N;
}.

Definition non_blank (s : string) : option string := if bool_decide (s = "") then None else Some s.
Definition non_zero (n : N) : option N := if (n =? 0)%N then None else Some n.

Definition from_access_point (target : WifiConnectTarget) (ap : AccessPoint) : ConnectCandidate :=
  {| ca_target := target; ca_band := non_blank (ap_band ap);
     ca_channel := non_zero (ap_channel ap); ca_strength := Some (ap_strength ap) |}.

Definition candidate_from_target (target : WifiConnectTarget) : ConnectCandidate :=
  {| ca_target := target; ca_band := None; ca_channel := None; ca_strength := None |}.

Definition info (c : ConnectCandidate) (attempt total : N) : ConnectCandidateInfo :=
  {| cc_attempt := attempt; cc_total := total; cc_bssid := bssid_str <$> t_bssid (ca_target c);
     cc_band := ca_band c; cc_channel := ca_channel c; cc_strength := ca_strength c |}.

Record ConnectRequest := {
  q_network_key : option string;
  q_password : option string;
  q_wep_key_type : option WepKeyType;
  q_candidate : ConnectCandidate;
  q_alternatives : list ConnectCandidate;
}.

Definition single (target : WifiConnectTarget) (password : option string)
    (wep_key_type : option WepKeyType) : ConnectRequest :=
  {| q_network_key := None; q_password := password; q_wep_key_type := wep_key_type;
     q_candidate := candidate_from_target target; q_alternatives := [] |}.

Definition identity (r : ConnectRequest) : ConnectTargetIdentity :=
  from_target (ca_target (q_candidate r)) (q_network_key r).

Definition request_validate (r : ConnectRequest) : result unit Error :=
  result_map_err (λ e, EDomain (with_cause e (validation Op.Connect (display e))))
    (target_validate (ca_target (q_candidate r))).

(** [std::cmp::Reverse]. *)
Record Reverse := { reversed : N }.
#[export, refine] Instance reverse_ord : Ord Reverse :=
  {| cmp a b := cmp (reversed b) (reversed a) |}.
Proof.
  - intros [a] [b]. cbn [reversed]. rewrite cmp_eq. split; congruence.
  - intros [a] [b]. apply cmp_antisym.
  - intros [a] [b] [c]. cbn [reversed]. intros H1 H2. by eapply cmp_lt_trans.
Defined.

(** Another band first, then the stronger signal, then the BSSID. *)
Definition alternative_key (primary ap : AccessPoint) : bool * (Reverse * string) :=
  (bool_decide (ap_band ap = ap_band primary), ({| reversed := ap_strength ap |}, ap_bssid ap)).

(** [sort_by_key], which is stable. *)
Section SortByKey.
Context {A K : Type} `{Ord K} (key : A → K).

Fixpoint insert_by_key (a : A) (l : list A) : list A :=
  match l with
  | [] => [a]
  | b :: l' => if leb_of (key a) (key b) then a :: l else b :: insert_by_key a l'
  end.
Definition sort_by_key (l : list A) : list A := foldr insert_by_key [] l.

Lemma insert_by_key_perm a l : insert_by_key a l ≡ₚ a :: l.
Proof.
  induction l as [|b l IH]; simpl; [done|]. case_match; [done|]. rewrite IH. constructor.
Qed.

Lemma sort_by_key_perm l : sort_by_key l ≡ₚ l.
Proof. induction l as [|a l IH]; [done|]. simpl. by rewrite insert_by_key_perm, IH. Qed.

Lemma insert_by_key_sorted a l :
  StronglySorted (λ x y, Scan.le (key x) (key y)) l →
  StronglySorted (λ x y, Scan.le (key x) (key y)) (insert_by_key a l).
Proof.
  induction 1 as [|b l Hl IH Hall]; simpl; [by repeat constructor|].
  destruct (leb_of (key a) (key b)) eqn:E.
  - assert (Scan.le (key a) (key b)) as Hab by (unfold leb_of, Scan.le in *; by destruct (cmp (key a) (key b))).
    constructor; [by constructor|]. constructor; [done|].
    eapply Forall_impl; [done|]. intros c Hc. by eapply Scan.le_trans.
  - constructor; [done|]. rewrite insert_by_key_perm. constructor; [|done].
    by apply not_leb_le.
Qed.

Lemma sort_by_key_sorted l : StronglySorted (λ x y, Scan.le (key x) (key y)) (sort_by_key l).
Proof. induction l as [|a l IH]; [constructor|]. by apply insert_by_key_sorted. Qed.
End SortByKey.

Definition other_access_point (primary ap : AccessPoint) : bool :=
  negb (bool_decide (ap_path ap = ap_path primary))
  || negb (eq_ignore_ascii_case (ap_bssid ap) (ap_bssid primary)).

Definition ranked_alternatives (primary : AccessPoint) (aps : list AccessPoint) : list AccessPoint :=
  sort_by_key (alternative_key primary) (List.filter (other_access_point primary) aps).

(** [str::contains] of a character. *)
Definition contains_char (c : ascii) (s : string) : bool :=
  existsb (Ascii.eqb c) (String.list_ascii_of_string s).

Definition resolve_connect_candidates (try_from : string → result unit Error)
    (network : option NetworkEntry) (key : string) (enterprise_identity : option string) :
    result (ConnectCandidate * list ConnectCandidate) Error :=
  match network with
  | None =>
    if negb (contains_char "|" key) then
      let? target := connect_target_for_network_key key enterprise_identity in
      Ok (candidate_from_target target, [])
    else
      Err (EDomain (with_detail "network_key" (JStr key) (validation Op.Connect
        "selected Wi-Fi network is no longer available; refresh the network list")))
  | Some network =>
    let? target := connect_target_for_network try_from network enterprise_identity in
    let? alternatives := collect ((λ ap,
      let? t := connect_target_for_network_access_point try_from network ap enterprise_identity in
      Ok (from_access_point t ap)) <$>
      ranked_alternatives (ne_access_point network) (ne_access_points network)) in
    Ok (from_access_point target (ne_access_point network), alternatives)
  end.

(** The restrictions of a saved profile ([WifiProfileDetails] of [src/model.rs]). *)
Record ProfileRestrictions := {
  pr_bssid : option string;
  pr_band : WifiBand;
  pr_channel : option u32;
}.

Definition candidate_matches_profile_restrictions (candidate : ConnectCandidate)
    (profile : ProfileRestrictions) : bool :=
  match pr_bssid profile with
  | None => true
  | Some bssid =>
    match t_bssid (ca_target candidate) with
    | Some b => eq_ignore_ascii_case (bssid_str b) bssid
    | None => false
    end
  end
  && (bool_decide (pr_band profile = Auto)
      || bool_decide ((ca_band candidate ≫= band_from_frequency_label) = Some (pr_band profile)))
  && match pr_channel profile with
     | None => true
     | Some channel => bool_decide (ca_channel candidate = Some channel)
     end.

(** [details]: reading the primary profile, [None] when the network has none. *)
Definition constrain_alternatives_to_saved_profile
    (details : option (result ProfileRestrictions Error))
    (alternatives : list ConnectCandidate) : list ConnectCandidate :=
  match details with
  | None => alternatives
  | Some (Err _) => []
  | Some (Ok details) =>
    List.filter (λ c, candidate_matches_profile_restrictions c details) alternatives
  end.

(** ** Messages *)

Definition connect_phase_message (p : ConnectPhase) : string :=
  match p with
  | Phase.Starting => "starting Wi-Fi connection"
  | Phase.TryingAccessPoint => "trying Wi-Fi access point"
  | Phase.CheckingActive => "checking current Wi-Fi connection"
  | Phase.ActivatingSavedProfile => "activating saved NetworkManager profile"
  | Phase.CreatingProfile => "creating NetworkManager Wi-Fi profile"
  | Phase.Rescanning => "rescanning for selected Wi-Fi network"
  | Phase.Verifying => "verifying Wi-Fi activation"
  | Phase.RetryingAlternative => "retrying an alternate Wi-Fi access point"
  | Phase.Connected => "Wi-Fi connection succeeded"
  | Phase.Failed => "Wi-Fi connection failed"
  | Phase.Cancelled => "Wi-Fi connection cancelled"
  end.

Definition candidate_message (action : string) (c : ConnectCandidateInfo) : string :=
  let attempt := " (attempt " +:+ pretty (cc_attempt c) +:+ "/" +:+ pretty (cc_total c) +:+ ")" in
  match cc_band c, cc_channel c with
  | Some band, Some channel =>
    action +:+ " " +:+ band +:+ " access point on channel " +:+ pretty channel +:+ attempt
  | Some band, None => action +:+ " " +:+ band +:+ " access point" +:+ attempt
  | None, _ => action +:+ " Wi-Fi access point" +:+ attempt
  end.

Definition retry_message (previous next : ConnectCandidateInfo) (reason : ConnectFailureReason) :
    string :=
  let previous_band := unwrap_or (cc_band previous) "selected" in
  let next_band := unwrap_or (cc_band next) "alternate" in
  let failure := match reason with
                 | Reason.DhcpFailed => "connected but did not receive an IP address"
                 | Reason.NotFound => "became unavailable"
                 | Reason.Timeout => "timed out"
                 | _ => "failed"
                 end in
  previous_band +:+ " access point " +:+ failure +:+ "; trying " +:+ next_band.

Definition recovery_message (ssid : string) (attempts : list ConnectAttemptSummary) : string :=
  let failed_band := unwrap_or
    (List.find (λ a, bool_decide (cas_status a = "failed")) attempts ≫= cas_band)
    "first access point" in
  let connected_band := unwrap_or (last attempts ≫= cas_band) "alternate access point" in
  "Connected to " +:+ ssid +:+ " on " +:+ connected_band +:+ " after " +:+ failed_band +:+ " failed".

Definition retryable_candidate_failure (reason : ConnectFailureReason) : bool :=
  match reason with
  | Reason.DhcpFailed | Reason.NotFound | Reason.Timeout | Reason.ActivationFailed => true
  | _ => false
  end.

Definition connect_error (target : WifiConnectTarget) (error : ErrorReport) : ConnectResult :=
  failed (ssid_display (t_ssid target)) (unwrap_or (Code.connect_reason (r_code error)) Reason.Unknown)
    (r_message error).

Definition connect_attempt_summary (c : ConnectCandidateInfo) (status : string)
    (reason : option ConnectFailureReason) (duration_ms : N) (message : string) :
    ConnectAttemptSummary :=
  {| cas_attempt := cc_attempt c; cas_status := status; cas_reason := reason;
     cas_bssid := cc_bssid c; cas_band := cc_band c; cas_channel := cc_channel c;
     cas_duration_ms := duration_ms; cas_message := message |}.

(** ** The environment of requests *)

Class Frontend (W : Type) := {
  nm_emit : ConnectEvent → W → W * result unit Error;
  nm_wifi_status : W → W * result WifiStatus Error;
  nm_network_entries : W → W * result (list NetworkEntry) Error;
  nm_profile_restrictions : string → W → W * result ProfileRestrictions Error;
  nm_try_from : string → result unit Error;
}.

Inductive LoopExit := ReturnOutcome (o : ConnectOutcome) | BreakOutcome (o : ConnectOutcome).

Section Requests.
Context {W : Type} `{NetworkManager W} `{Frontend W}.

Definition operation_result_m {A} (o : ErrorOperation) (c : M W A) : M W A :=
  let* r := attempt c in
  of_result (operation_result o r).

Definition emit (e : ConnectEvent) : M W unit :=
  let* _ := log (EvEmit e) in
  let* r := ask (nm_emit e) in
  of_result r.

Definition connect_request_for_key (key : string) (password : option string)
    (wep_key_type : option WepKeyType) (enterprise_identity : option string) : M W ConnectRequest :=
  operation_result_m Op.Connect
    (let* r := ask nm_network_entries in
     let* networks := of_result r in
     let network := List.find (λ n, bool_decide (ne_key n = key)) networks in
     let* (candidate, alternatives) :=
       of_result (resolve_connect_candidates nm_try_from network key enterprise_identity) in
     let* details :=
       match network ≫= ne_primary_profile with
       | Some profile => let* d := ask (nm_profile_restrictions (sw_path profile)) in ret (Some d)
       | None => ret None
       end in
     let request := {| q_network_key := Some key; q_password := password;
       q_wep_key_type := wep_key_type; q_candidate := candidate;
       q_alternatives := constrain_alternatives_to_saved_profile details alternatives |} in
     let* _ := of_result (request_validate request) in
     ret request).

Section Connecting.
Context (request : ConnectRequest).

Definition cancelled_connect (message : string) : M W ConnectOutcome :=
  let* _ := emit (CancelledEvent Phase.Cancelled (identity request) message) in
  ret (Outcome.Cancelled message).

Definition start_connect : M W (option ConnectOutcome) :=
  let* _ := emit (Started Phase.Starting (identity request) "starting Wi-Fi connection") in
  let* c := ask nm_cancellation in
  if cancellation_requested c then
    let* o := cancelled_connect "cancelled before connection attempt started" in
    ret (Some o)
  else ret None.

Definition emit_trying_candidate (c : ConnectCandidateInfo) : M W unit :=
  emit (Progress Phase.TryingAccessPoint (identity request) (candidate_message "trying" c)
          (Some c) None).

Definition emit_retry (previous next : ConnectCandidateInfo) (reason : ConnectFailureReason) :
    M W unit :=
  emit (Progress Phase.RetryingAlternative (identity request) (retry_message previous next reason)
          (Some next) (Some reason)).

Definition finish_connect_cancellation : M W (option ConnectOutcome) :=
  let* c := ask nm_cancellation in
  if cancellation_requested c then
    let* o := cancelled_connect "connection attempt was cancelled" in
    ret (Some o)
  else ret None.

Definition emit_finished_connect (outcome : ConnectOutcome) : M W unit :=
  let p := match outcome with
           | Outcome.Succeeded _ => Phase.Connected
           | Outcome.Failed _ _ => Phase.Failed
           | Outcome.Cancelled _ => Phase.Cancelled
           end in
  emit (Finished p (identity request) outcome).

Definition run_connect_candidate (candidate : ConnectCandidate) (publish_failure : bool)
    (i : ConnectCandidateInfo) : M W ConnectResult :=
  connect_target (ca_target candidate) (q_password request) (q_wep_key_type request)
    (λ p, nm_emit (Progress p (identity request) (connect_phase_message p) (Some i) None))
    publish_failure.

Definition active_candidate_info (attempt total : N) : M W (option ConnectCandidateInfo) :=
  let* r := ask nm_wifi_status in
  ret (match r with
       | Err _ => None
       | Ok status =>
         (λ ap, {| cc_attempt := attempt; cc_total := total; cc_bssid := non_blank (ap_bssid ap);
                   cc_band := non_blank (ap_band ap); cc_channel := non_zero (ap_channel ap);
                   cc_strength := Some (ap_strength ap) |}) <$> ws_access_point status
       end).

Definition elapsed_ms (started_at : instant) : M W N :=
  let* now := ask nm_now in
  ret ((now - started_at) / 1000000)%N.

Definition with_attempts (r : ConnectResult) (attempts : list ConnectAttemptSummary)
    (fallback : bool) (message : string) : ConnectResult :=
  {| recovery_prompt := recovery_prompt r; cr_status := cr_status r; cr_reason := cr_reason r;
     cr_path := cr_path r; cr_ssid := cr_ssid r; cr_message := message;
     connectivity := connectivity r; suggest_open_portal := suggest_open_portal r;
     attempts := attempts; fallback_used := fallback |}.

Definition successful_connect_outcome (result : ConnectResult) (candidate : ConnectCandidateInfo)
    (started_at : instant) (attempts : list ConnectAttemptSummary) : M W ConnectOutcome :=
  let* active := active_candidate_info (cc_attempt candidate) (cc_total candidate) in
  let actual := unwrap_or active candidate in
  let* duration := elapsed_ms started_at in
  let attempts := attempts ++
    [connect_attempt_summary actual "connected" None duration (cr_message result)] in
  let fallback := (1 <? cc_attempt actual)%N in
  if fallback then
    let message := recovery_message (cr_ssid result) attempts in
    let* _ := cache_best_effort (λ io now, write_status io now "connected" message) in
    ret (Outcome.Succeeded (with_attempts result attempts fallback message))
  else ret (Outcome.Succeeded (with_attempts result attempts fallback (cr_message result))).

Definition record_failed_attempt (attempts : list ConnectAttemptSummary)
    (candidate : ConnectCandidateInfo) (started_at : instant) (report : ErrorReport) :
    M W (list ConnectAttemptSummary * ConnectFailureReason) :=
  let reason := unwrap_or (Code.connect_reason (r_code report)) Reason.Unknown in
  let* duration := elapsed_ms started_at in
  ret (attempts ++
    [connect_attempt_summary candidate "failed" (Some reason) duration (r_message report)], reason).

Definition final_failed_connect_outcome (error : Error) (attempts : list ConnectAttemptSummary)
    (publish_failure : bool) : M W ConnectOutcome :=
  let target := ca_target (q_candidate request) in
  let* _ := if publish_failure then publish_final_connect_failure target error else ret tt in
  let report := from_error error Op.Connect in
  let result := connect_error target report in
  ret (Outcome.Failed (with_attempts result attempts (1 <? length attempts)%nat (cr_message result))
         report).

(** The loop of [connect_inner]; each round but the first uses up the alternative. *)
Fixpoint connect_loop (fuel : nat) (total : N) (candidate : ConnectCandidate)
    (alternative : option ConnectCandidate) (n : N) (attempts : list ConnectAttemptSummary) :
    M W LoopExit :=
  match fuel with
  | O => of_option None
  | S fuel =>
    let candidate_info := info candidate n total in
    let* _ := emit_trying_candidate candidate_info in
    let* started_at := ask nm_now in
    let* result := attempt (run_connect_candidate candidate (total =? 1)%N candidate_info) in
    let* cancelled := finish_connect_cancellation in
    match cancelled with
    | Some outcome => ret (ReturnOutcome outcome)
    | None =>
      match result with
      | Ok result =>
        let* o := successful_connect_outcome result candidate_info started_at attempts in
        ret (BreakOutcome o)
      | Err error =>
        let report := from_error error Op.Connect in
        if bool_decide (r_code report = Code.Cancelled) then
          let* o := cancelled_connect (r_message report) in
          ret (ReturnOutcome o)
        else
          let credential_failure :=
            bool_decide (is_Some (bt_get "credential_outcome" (r_details report))) in
          let* (attempts, reason) := record_failed_attempt attempts candidate_info started_at report in
          match (if negb credential_failure && retryable_candidate_failure reason
                 then alternative else None) with
          | Some next =>
            let* _ := emit_retry candidate_info (info next 2 total) reason in
            connect_loop fuel total next None (n + 1) attempts
          | None =>
            let* o := final_failed_connect_outcome error attempts (1 <? total)%N in
            ret (BreakOutcome o)
          end
      end
    end
  end.

Definition connect_inner : M W ConnectOutcome :=
  let* started := start_connect in
  match started with
  | Some outcome => ret outcome
  | None =>
    let alternative := head (q_alternatives request) in
    let total := match alternative with Some _ => 2 | None => 1 end%N in
    let* exit := connect_loop 2 total (q_candidate request) alternative 1 [] in
    match exit with
    | ReturnOutcome outcome => ret outcome
    | BreakOutcome outcome =>
      let* _ := emit_finished_connect outcome in
      ret outcome
    end
  end.

Definition connect : M W ConnectOutcome := operation_result_m Op.Connect connect_inner.
End Connecting.
End Requests.

(** ** Lemmas *)

(** Events the frontend sees: phases of an attempt and emitted events, marked by
    whether they end the request. *)
Definition terminal (e : ConnectEvent) : bool :=
  match e with Finished _ _ _ | CancelledEvent _ _ _ => true | Started _ _ _ | Progress _ _ _ _ _ => false end.
Definition signals : list Event → list bool :=
  omap (λ e, match e with EvProgress _ => Some false | EvEmit e => Some (terminal e) | _ => None end).

Definition announces (e : ConnectEvent) (o : ConnectOutcome) : Prop :=
  match e with
  | Finished _ _ o' => o' = o
  | CancelledEvent _ _ message => o = Outcome.Cancelled message
  | Started _ _ _ | Progress _ _ _ _ _ => False
  end.

(** The outcome is announced once, by the last event. *)
Definition announced (o : ConnectOutcome) (ev : list Event) : Prop :=
  ∃ before e, signals ev = before ++ [true] ∧ Forall (eq false) before ∧
    last (emitted ev) = Some e ∧ announces e o.

(** Profiles created, deleted, and [kept]. *)
Definition keeps (kept : list string) (ev : list Event) : Prop :=
  created ev = deleted ev ++ kept ∧ length kept <= 1.

Definition numbered (l : list ConnectAttemptSummary) : Prop :=
  ∀ i a, l !! i = Some a → cas_attempt a = (N.of_nat i + 1)%N.

Definition retried (a : ConnectAttemptSummary) : Prop :=
  cas_status a = "failed" ∧ ∃ reason, cas_reason a = Some reason ∧ retryable_candidate_failure reason = true.

(** The attempts a result lists: failures worth a retry, then the last one. *)
Definition attempts_end (r : ConnectResult) (status : string) (reason : option ConnectFailureReason) :
    Prop :=
  ∃ failures final, attempts r = failures ++ [final] ∧ length failures <= 1 ∧ Forall retried failures ∧
    cas_status final = status ∧ cas_reason final = reason ∧ numbered (attempts r) ∧
    fallback_used r = bool_decide (failures ≠ []).

Definition attempts_listed (o : ConnectOutcome) : Prop :=
  match o with
  | Outcome.Succeeded r => attempts_end r "connected" None
  | Outcome.Failed r _ => attempts_end r "failed" (cr_reason r)
  | Outcome.Cancelled _ => True
  end.

Lemma signals_app l k : signals (l ++ k) = signals l ++ signals k.
Proof. apply omap_app. Qed.

Lemma signals_silent l : emitted l = [] → Forall (eq false) (signals l).
Proof. induction l as [|[] l IH]; cbn; try done; auto. Qed.

Lemma numbered_snoc l a : numbered l → cas_attempt a = (N.of_nat (length l) + 1)%N → numbered (l ++ [a]).
Proof.
  intros Hl Ha i b [Hi|[Hi Hb]]%lookup_app_Some; [by apply Hl|].
  apply list_lookup_singleton_Some in Hb as [? <-]. rewrite Ha. f_equal. f_equal. lia.
Qed.

Section Proofs.
Context {W : Type} `{NetworkManagerClock W} `{Frontend W} (request : ConnectRequest).
Implicit Types m : Machine W.

Lemma wp_emit e Q m :
  (∀ r m', m_trace m' = m_trace m ++ [EvEmit e] → Q r m') → wp (emit e) Q m.
Proof.
  intros HQ. unfold emit. apply wp_bind, wp_log. intros m1 Ht _ _ _.
  apply wp_bind, wp_ask. intros r m2 E. unfold wp, of_result. apply HQ.
  unfold core in E. congruence.
Qed.

(** What one candidate leaves: no terminal event, and a profile only if it
    connected or was cancelled. *)
Definition tried (tr0 : list Event) (r : result ConnectResult Error) m : Prop :=
  ∃ ev kept, m_trace m = tr0 ++ ev ∧ Forall (eq false) (signals ev) ∧ emitted ev = [] ∧ keeps kept ev ∧
    match r with Ok _ => True | Err e => kept = [] ∨ e = cancelled_error end.

Lemma run_connect_candidate_spec candidate publish i m :
  wp (run_connect_candidate request candidate publish i) (tried (m_trace m)) m.
Proof.
  unfold run_connect_candidate. eapply wp_mono; [apply connect_target_spec|].
  intros r m' (ev & (Ht & _ & _ & _ & Hlen & Hdel) & Hrep).
  assert (emitted ev = []) as He.
  { rewrite emitted_reports. destruct r; cbn in Hrep.
    - destruct Hrep as (? & ? & _ & _ & _ & _ & -> & _). done.
    - by destruct Hrep as [_ [[-> _]|(? & -> & _)]]. }
  exists ev, (if verified ev then created ev else []). split_and!; try done.
  - by apply signals_silent.
  - unfold keeps. rewrite Hdel. destruct (verified ev); [done|]. rewrite app_nil_r. split; [done|simpl; lia].
  - destruct r as [|e]; [done|]. destruct Hrep as [_ [[_ [->| ->]]|(? & _ & -> & _)]]; auto.
Qed.

Lemma cancelled_report : r_code (from_error cancelled_error Op.Connect) = Code.Cancelled.
Proof. reflexivity. Qed.

(** What the loop leaves. *)
Definition loop_left (tr0 : list Event) (r : result LoopExit Error) m : Prop :=
  ∃ ev kept, m_trace m = tr0 ++ ev ∧ keeps kept ev ∧
    match r with
    | Err _ => True
    | Ok (ReturnOutcome o) => announced o ev ∧ ∃ msg, o = Outcome.Cancelled msg
    | Ok (BreakOutcome o) =>
      Forall (eq false) (signals ev) ∧ attempts_listed o ∧
      match o with
      | Outcome.Succeeded _ => True
      | Outcome.Failed _ _ => kept = []
      | Outcome.Cancelled _ => False
      end
    end.

(** Cancelling ends the loop with an announcement. *)
Lemma wp_cancelled tr0 ev kept msg m (Q : result ConnectOutcome Error → Machine W → Prop) :
  m_trace m = tr0 ++ ev → keeps kept ev → Forall (eq false) (signals ev) →
  (∀ r m', loop_left tr0 (result_map ReturnOutcome r) m' → Q r m') →
  wp (cancelled_connect request msg) Q m.
Proof.
  intros Ht Hk Hs HQ. unfold cancelled_connect. apply wp_bind, wp_emit. intros r m' Ht'.
  set (e := CancelledEvent _ _ _) in *.
  assert (m_trace m' = tr0 ++ (ev ++ [EvEmit e])) as Ht2 by (by rewrite Ht', Ht, <-app_assoc).
  assert (keeps kept (ev ++ [EvEmit e])) as Hk2.
  { unfold keeps in *. rewrite created_app, deleted_app. cbn. by rewrite !app_nil_r. }
  destruct r as [[]|err]; apply HQ; exists (ev ++ [EvEmit e]), kept; split_and!; try done.
  split; [|by eexists]. exists (signals ev), e. rewrite signals_app, emitted_app.
  split_and!; try done. apply last_snoc.
Qed.

(** Between two candidates. *)
Definition loop_ready (tr0 : list Event) m : Prop :=
  ∃ ev, m_trace m = tr0 ++ ev ∧ keeps [] ev ∧ Forall (eq false) (signals ev).

Lemma keeps_app kept ev ev' : keeps [] ev → keeps kept ev' → keeps kept (ev ++ ev').
Proof.
  unfold keeps. rewrite created_app, deleted_app, app_nil_r. intros [-> _] [-> ?].
  by rewrite <-app_assoc.
Qed.

Lemma loop_ready_emit tr0 e m m' :
  loop_ready tr0 m → terminal e = false → m_trace m' = m_trace m ++ [EvEmit e] → loop_ready tr0 m'.
Proof.
  intros (ev & Ht & Hk & Hs) He Ht'. exists (ev ++ [EvEmit e]). rewrite Ht', Ht, <-app_assoc.
  split_and!; [done| |].
  - apply keeps_app; [done|]. split; [done|simpl; lia].
  - rewrite signals_app. apply Forall_app. split; [done|]. cbn. by rewrite He; constructor.
Qed.

Lemma loop_ready_failed tr0 e m : loop_ready tr0 m → loop_left tr0 (Err e) m.
Proof. intros (ev & Ht & Hk & Hs). by exists ev, []. Qed.

Lemma loop_ready_core tr0 m m' : core m' = core m → loop_ready tr0 m → loop_ready tr0 m'.
Proof. intros [= E _ _ _ _]. unfold loop_ready. by rewrite E. Qed.

(** The attempts listed by a final outcome. *)
Lemma attempts_end_snoc r failures final fallback msg status reason :
  length failures <= 1 → Forall retried failures → numbered failures →
  cas_attempt final = (N.of_nat (length failures) + 1)%N →
  cas_status final = status → cas_reason final = reason →
  fallback = bool_decide (failures ≠ []) →
  attempts_end (with_attempts r (failures ++ [final]) fallback msg) status reason.
Proof.
  intros. exists failures, final. split_and!; try done. by apply numbered_snoc.
Qed.

Lemma wp_successful_outcome result i started failures m Q :
  length failures <= 1 → Forall retried failures → numbered failures →
  cc_attempt i = (N.of_nat (length failures) + 1)%N →
  (∀ res m', core m' = core m → attempts_end res "connected" None → Q (Ok (Outcome.Succeeded res)) m') →
  wp (successful_connect_outcome result i started failures) Q m.
Proof.
  intros Hlen Hret Hnum Hi HQ. unfold successful_connect_outcome, active_candidate_info, elapsed_ms.
  apply wp_bind, wp_bind, wp_ask. intros st m1 E1. unfold wp at 1, ret.
  apply wp_bind, wp_bind, wp_ask. intros now m2 E2. unfold wp at 1, ret.
  set (actual := unwrap_or _ i).
  assert (cc_attempt actual = (N.of_nat (length failures) + 1)%N) as Ha.
  { unfold actual. destruct st as [st|]; [|done]. by destruct (ws_access_point st). }
  assert ((1 <? cc_attempt actual)%N = bool_decide (failures ≠ [])) as Hf.
  { rewrite Ha. destruct failures as [|a l]; [done|]. rewrite bool_decide_true by done.
    apply N.ltb_lt. cbn [length]. lia. }
  rewrite Hf. destruct (bool_decide (failures ≠ [])) eqn:Hb.
  - apply wp_bind, wp_cache_best_effort. intros _ m3 E3. apply HQ; [congruence|].
    by apply attempts_end_snoc.
  - apply HQ; [congruence|]. by apply attempts_end_snoc.
Qed.

Lemma wp_final_failed e failures final publish m Q :
  length failures <= 1 → Forall retried failures → numbered failures →
  cas_attempt final = (N.of_nat (length failures) + 1)%N → cas_status final = "failed" →
  cas_reason final = Some (unwrap_or (Code.connect_reason (r_code (from_error e Op.Connect))) Reason.Unknown) →
  (∀ res rep m', core m' = core m → attempts_end res "failed" (cr_reason res) →
     Q (Ok (Outcome.Failed res rep)) m') →
  wp (final_failed_connect_outcome request e (failures ++ [final]) publish) Q m.
Proof.
  intros Hlen Hret Hnum Hi Hst Hre HQ. unfold final_failed_connect_outcome.
  assert (∀ m1, core m1 = core m → Q (Ok (Outcome.Failed
    (with_attempts (connect_error (ca_target (q_candidate request)) (from_error e Op.Connect))
      (failures ++ [final]) (1 <? length (failures ++ [final]))%nat
      (cr_message (connect_error (ca_target (q_candidate request)) (from_error e Op.Connect))))
    (from_error e Op.Connect))) m1) as HQ'.
  { intros m1 E1. apply HQ; [done|]. apply attempts_end_snoc; try done.
    rewrite length_app. cbn [length]. destruct failures as [|a l]; [done|].
    rewrite bool_decide_true by done. apply Nat.ltb_lt. cbn [length]. lia. }
  apply wp_bind. destruct publish; [|by apply HQ'].
  unfold publish_final_connect_failure. apply wp_bind, wp_cache_best_effort. intros _ m1 E1.
  by apply HQ'.
Qed.

(** After a candidate: what the events so far keep. *)
Definition loop_after (tr0 : list Event) (kept : list string) m : Prop :=
  ∃ ev, m_trace m = tr0 ++ ev ∧ keeps kept ev ∧ Forall (eq false) (signals ev).

Lemma loop_after_tried tr0 r m m' :
  loop_ready tr0 m → tried (m_trace m) r m' →
  ∃ kept, loop_after tr0 kept m' ∧ match r with Ok _ => True | Err e => kept = [] ∨ e = cancelled_error end.
Proof.
  intros (ev & Ht & Hk & Hs) (ev' & kept & Ht' & Hs' & _ & Hk' & Hr).
  exists kept. split; [|done]. exists (ev ++ ev'). rewrite Ht', Ht, <-app_assoc.
  split_and!; [done|by apply keeps_app|]. rewrite signals_app. by apply Forall_app.
Qed.

Lemma loop_after_core tr0 kept m m' : core m' = core m → loop_after tr0 kept m → loop_after tr0 kept m'.
Proof. intros [= E _ _ _ _]. unfold loop_after. by rewrite E. Qed.

Lemma wp_cancelled_exit {A} tr0 kept msg m (k : ConnectOutcome → A) (Q : result A Error → Machine W → Prop) :
  loop_after tr0 kept m →
  (∀ e m', loop_left tr0 (Err e) m' → Q (Err e) m') →
  (∀ o m', loop_left tr0 (Ok (ReturnOutcome o)) m' → Q (Ok (k o)) m') →
  wp (Connect.mbind (cancelled_connect request msg) (λ o, ret (k o))) Q m.
Proof.
  intros (ev & Ht & Hk & Hs) He Ho. apply wp_bind. eapply wp_cancelled; [done..|].
  intros [o|e] m' Hl; cbn in Hl; [by apply Ho|by apply He].
Qed.

Lemma wp_finish_cancellation tr0 kept m (Q : result (option ConnectOutcome) Error → Machine W → Prop) :
  loop_after tr0 kept m →
  (∀ e m', loop_left tr0 (Err e) m' → Q (Err e) m') →
  (∀ o m', loop_left tr0 (Ok (ReturnOutcome o)) m' → Q (Ok (Some o)) m') →
  (∀ m', core m' = core m → Q (Ok None) m') →
  wp (finish_connect_cancellation request) Q m.
Proof.
  intros Ha He Ho Hn. unfold finish_connect_cancellation. apply wp_bind, wp_ask. intros c m1 E1.
  destruct (cancellation_requested c); [|by apply Hn].
  eapply (wp_cancelled_exit _ _ _ _ Some); [by eapply loop_after_core|done..].
Qed.

Lemma connect_loop_spec fuel total candidate alternative n failures tr0 m :
  loop_ready tr0 m → length (option_list alternative) < fuel →
  length failures + length (option_list alternative) <= 1 →
  Forall retried failures → numbered failures → n = (N.of_nat (length failures) + 1)%N →
  wp (connect_loop request fuel total candidate alternative n failures) (loop_left tr0) m.
Proof.
  revert candidate alternative n failures m.
  induction fuel as [|fuel IH]; intros candidate alternative n failures m Hready Hfuel Hlen Hret Hnum Hn;
    [lia|]. cbn [connect_loop]. set (i := info candidate n total).
  apply wp_bind, wp_emit. intros r m1 Ht1. eapply loop_ready_emit in Hready; [| |exact Ht1]; [|done].
  destruct r as [[]|e]; [|by apply loop_ready_failed].
  apply wp_bind, wp_ask. intros started m2 E2. eapply loop_ready_core in Hready; [|done].
  apply wp_bind, wp_attempt. eapply wp_mono; [apply run_connect_candidate_spec|].
  intros r m3 Htried. destruct (loop_after_tried _ _ _ _ Hready Htried) as (kept & Hafter & Hkept).
  apply wp_bind. eapply wp_finish_cancellation; [done|done|done|]. intros m4 E4.
  eapply loop_after_core in Hafter; [|done].
  destruct r as [result|e].
  - apply wp_bind. eapply (wp_successful_outcome result i); [lia|done..|]. intros res m5 E5 Hend.
    eapply loop_after_core in Hafter; [|done]. destruct Hafter as (ev & Ht & Hk & Hs).
    by exists ev, kept.
  - destruct (bool_decide (r_code (from_error e Op.Connect) = Code.Cancelled)) eqn:Hc.
    { eapply (wp_cancelled_exit _ _ _ _ ReturnOutcome); [done..|]. by intros o m'. }
    bool_prop. destruct Hkept as [->| ->]; [|by destruct Hc].
    apply wp_bind. unfold record_failed_attempt, elapsed_ms. apply wp_bind, wp_bind, wp_ask.
    intros now m5 E5. unfold wp at 1, ret. unfold wp at 1.
    assert (loop_ready tr0 m5) as Hready5 by exact (loop_after_core _ _ _ _ E5 Hafter).
    set (reason := unwrap_or _ Reason.Unknown). set (final := connect_attempt_summary _ _ _ _ _).
    destruct (if _ && _ then alternative else None) as [next|] eqn:Hnext.
    + destruct (_ && _) eqn:Hcond in Hnext; [|done]. subst alternative. bool_prop. cbn in *.
      apply wp_bind, wp_emit. intros r m6 Ht6.
      eapply loop_ready_emit in Hready5; [| |exact Ht6]; [|done].
      destruct r as [[]|e']; [|by apply loop_ready_failed].
      apply IH; try done; try (cbn; lia).
      * rewrite length_app. cbn. lia.
      * apply Forall_app. split; [done|]. constructor; [|done]. split; [done|]. by exists reason.
      * by apply numbered_snoc.
      * rewrite length_app. cbn. lia.
    + apply wp_bind. eapply wp_final_failed; [lia|done..|]. intros res rep m6 E6 Hend.
      destruct (loop_ready_core _ _ _ E6 Hready5) as (ev & Ht & Hk & Hs). by exists ev, [].
Qed.

(** What a request leaves. *)
Definition request_left (tr0 : list Event) (r : result ConnectOutcome Error) m : Prop :=
  ∃ ev kept, m_trace m = tr0 ++ ev ∧ keeps kept ev ∧
    match r with
    | Ok o => announced o ev ∧ attempts_listed o ∧
              match o with Outcome.Failed _ _ => kept = [] | _ => True end
    | Err _ => True
    end.

Lemma loop_left_error tr0 e m : loop_left tr0 (Err e) m → request_left tr0 (Err e) m.
Proof. intros (ev & kept & ? & ? & _). by exists ev, kept. Qed.

Lemma loop_left_return tr0 o m : loop_left tr0 (Ok (ReturnOutcome o)) m → request_left tr0 (Ok o) m.
Proof. intros (ev & kept & ? & ? & ? & msg & ->). by exists ev, kept. Qed.

Lemma wp_finished tr0 o m :
  loop_left tr0 (Ok (BreakOutcome o)) m →
  wp (Connect.mbind (emit_finished_connect request o) (λ _, ret o)) (request_left tr0) m.
Proof.
  intros (ev & kept & Ht & Hk & Hs & Hl & Ho). unfold emit_finished_connect.
  set (e := Finished _ _ _). apply wp_bind, wp_emit. intros r m' Ht'.
  assert (m_trace m' = tr0 ++ (ev ++ [EvEmit e])) as Ht2 by (by rewrite Ht', Ht, <-app_assoc).
  assert (keeps kept (ev ++ [EvEmit e])) as Hk2.
  { unfold keeps in *. rewrite created_app, deleted_app. cbn. by rewrite !app_nil_r. }
  destruct r as [[]|err]; exists (ev ++ [EvEmit e]), kept; [|done].
  split_and!; try done.
  - exists (signals ev), e. rewrite signals_app, emitted_app. split_and!; try done. apply last_snoc.
  - by destruct o.
Qed.

Lemma connect_inner_spec m : wp (connect_inner request) (request_left (m_trace m)) m.
Proof.
  assert (loop_ready (m_trace m) m) as Hready.
  { exists []. rewrite app_nil_r. split_and!; [done| |done]. split; [done|simpl; lia]. }
  unfold connect_inner, start_connect. apply wp_bind, wp_bind, wp_emit. intros r m1 Ht1.
  eapply loop_ready_emit in Hready; [| |exact Ht1]; [|done].
  destruct r as [[]|e]; [|by apply loop_left_error, loop_ready_failed].
  apply wp_bind, wp_ask. intros c m2 E2. eapply loop_ready_core in Hready; [|done].
  destruct (cancellation_requested c).
  - eapply (wp_cancelled_exit _ [] _ _ Some); [exact Hready|by intros; apply loop_left_error|].
    intros o m' Hl. by apply loop_left_return.
  - unfold wp at 1, ret. apply wp_bind. eapply wp_mono.
    + apply (connect_loop_spec 2 _ _ (head (q_alternatives request)) 1 []); [exact Hready|..]; try done;
        destruct (head _); cbn; lia.
    + intros [[o|o]|e] m3 Hl; [by apply loop_left_return|by apply wp_finished|by apply loop_left_error].
Qed.

Lemma connect_spec m : wp (connect request) (request_left (m_trace m)) m.
Proof.
  unfold connect, operation_result_m. apply wp_bind, wp_attempt.
  eapply wp_mono; [apply connect_inner_spec|]. intros [o|e] m' Hr; [done|].
  destruct Hr as (ev & kept & ? & ? & _). by exists ev, kept.
Qed.
End Proofs.


(** The attempts a request reports are those it made: at most one failed
    candidate, with a reason worth a retry, before the last one; numbered from one
    in the order they were tried; the last is the connected one of a success and
    has the reason of a failure; and a fallback is reported exactly when there was
    more than one. *)
Theorem connect_attempts_truthful {W} `{NetworkManagerClock W} `{Frontend W} request (m : Machine W) :
  ∃ m' r, connect request m = Some (m', r) ∧
    match r with
    | Ok (Outcome.Succeeded res) => attempts_end res "connected" None
    | Ok (Outcome.Failed res _) => attempts_end res "failed" (cr_reason res)
    | Ok (Outcome.Cancelled _) | Err _ => True
    end.
Proof.
  pose proof (connect_spec request m) as Hwp. unfold wp in Hwp.
  destruct (connect request m) as [[m' r]|]; [|done].
  destruct Hwp as (ev & kept & _ & _ & Hr). exists m', r. split; [done|].
  destruct r as [[]|]; [by destruct Hr as (_ & ? & _)..|done].
Qed.

(** The alternative of a network is the best of its other access points: the
    ranking lists them all and nothing else; the first of them is on another band
    than the primary whenever any is, and among those of its kind none is stronger,
    with equal strength going to the smaller BSSID. *)
Theorem best_alternative_first primary aps best rest :
  ranked_alternatives primary aps = best :: rest →
  (best :: rest) ≡ₚ List.filter (other_access_point primary) aps ∧
  ∀ ap, ap ∈ aps → other_access_point primary ap = true →
    (ap_band best = ap_band primary → ap_band ap = ap_band primary) ∧
    ((ap_band best = ap_band primary ↔ ap_band ap = ap_band primary) →
     (ap_strength ap <= ap_strength best)%N ∧
     (ap_strength ap = ap_strength best → cmp (ap_bssid best) (ap_bssid ap) ≠ Gt)).
Proof.
  intros Hr. assert ((best :: rest) ≡ₚ List.filter (other_access_point primary) aps) as Hperm
    by (rewrite <-Hr; apply sort_by_key_perm).
  split; [done|]. intros ap Hin Ho.
  assert (ap ∈ best :: rest) as Hap.
  { rewrite Hperm. apply list_elem_of_In, filter_In. by rewrite <-list_elem_of_In. }
  pose proof (sort_by_key_sorted (alternative_key primary)
    (List.filter (other_access_point primary) aps)) as Hsorted.
  fold (ranked_alternatives primary aps) in Hsorted. rewrite Hr in Hsorted.
  apply StronglySorted_inv in Hsorted as [_ Hall].
  assert (Scan.le (alternative_key primary best) (alternative_key primary ap)) as Hle.
  { apply elem_of_cons in Hap as [->|Hap]; [|by eapply Forall_forall in Hall].
    unfold Scan.le. by rewrite (proj2 (cmp_eq _ _) eq_refl). }
  unfold Scan.le, alternative_key in Hle. cbn in Hle.
  destruct (bool_decide (ap_band best = _)) eqn:Hb, (bool_decide (ap_band ap = _)) eqn:Ha; bool_prop;
    cbn in Hle; try done; (split; [done|]); try (intros [? ?]; tauto);
    intros _; destruct (N.compare_spec (ap_strength ap) (ap_strength best)); try done;
    (split; [lia|]); try (by intros ?); intros ?; lia.
Qed.

(** ** Examples *)

Definition radio (path bssid band : string) (strength : N) (ap : AccessPoint) : AccessPoint := {|
  ap_ssid := ap_ssid ap; ap_ssid_bytes := ap_ssid_bytes ap; ap_active := ap_active ap;
  ap_security := ap_security ap; ap_strength := strength; ap_frequency := ap_frequency ap;
  ap_channel := ap_channel ap; ap_band := band; ap_mode := ap_mode ap;
  ap_max_bitrate_mbps := ap_max_bitrate_mbps ap; ap_bandwidth_mhz := ap_bandwidth_mhz ap;
  ap_ssid_hex := ap_ssid_hex ap; ap_wpa_flags_label := ap_wpa_flags_label ap;
  ap_rsn_flags_label := ap_rsn_flags_label ap; ap_bssid := bssid; ap_last_seen := ap_last_seen ap;
  ap_last_seen_age_ms := ap_last_seen_age_ms ap; ap_path := path;
  ap_device_path := ap_device_path ap; ap_device_iface := ap_device_iface ap;
  ap_flags := ap_flags ap; ap_wpa_flags := ap_wpa_flags ap; ap_rsn_flags := ap_rsn_flags ap |}.

Definition radio_a := radio "/ap/1" "00:00:00:00:00:01" "2.4 GHz" 90 example_access_point.
Definition radio_b := radio "/ap/2" "00:00:00:00:00:02" "2.4 GHz" 80 example_access_point.
Definition radio_c := radio "/ap/3" "00:00:00:00:00:03" "5 GHz" 40 example_access_point.

Lemma best_alternative_first_witness :
  ranked_alternatives radio_a [radio_a; radio_b; radio_c] = [radio_c; radio_b] ∧
  (ap_band radio_c = ap_band radio_a → ap_band radio_b = ap_band radio_a).
Proof.
  split; [vm_compute; reflexivity|].
  refine (proj1 (proj2 (best_alternative_first radio_a [radio_a; radio_b; radio_c] radio_c [radio_b] _)
    radio_b _ _)); [vm_compute; reflexivity| |vm_compute; reflexivity].
  right. left.
Defined.

(** Both candidates are tried; each created profile times out. *)
#[export] Instance example_frontend : Frontend unit := {|
  nm_emit _ w := (w, Ok tt);
  nm_wifi_status w := (w, Err cancelled_error);
  nm_network_entries w := (w, Ok []);
  nm_profile_restrictions _ w := (w, Err cancelled_error);
  nm_try_from _ := Ok tt;
|}.

Definition example_request : ConnectRequest :=
  {| q_network_key := None; q_password := None; q_wep_key_type := None;
     q_candidate := from_access_point example_target radio_a;
     q_alternatives := [from_access_point example_target radio_c] |}.

Definition outcome_failed (r : result ConnectOutcome Error) : bool :=
  match r with Ok (Outcome.Failed _ _) => true | _ => false end.

Example example_request_fails_twice :
  match connect example_request example_machine with
  | Some (m, r) => outcome_failed r = true ∧ length (created (m_trace m)) = 2 ∧
      signals (m_trace m) = replicate 12 false ++ [true]
  | None => False
  end.
Proof. vm_compute. split_and!; reflexivity. Qed.


Lemma connect_attempts_truthful_witness :
  ∃ m' res rep, connect example_request example_machine = Some (m', Ok (Outcome.Failed res rep)) ∧
    attempts_end res "failed" (cr_reason res).
Proof.
  destruct (connect_attempts_truthful example_request example_machine) as (m' & r & Hrun & Hres).
  assert (outcome_failed r = true) as Hf.
  { replace r with (default (Ok (Outcome.Cancelled "")) (snd <$> connect example_request example_machine)).
    - vm_compute. reflexivity.
    - rewrite Hrun. reflexivity. }
  destruct r as [[res|res rep|]|]; try discriminate Hf.
  exists m', res, rep. exact (conj Hrun Hres).
Defined.
