(* ===== verification/Deltas.v ===== *)
(** * Network deltas of a subscription ([src/daemon_status/network_updates.rs])

    A subscriber of [wifi.networks] receives the collection once and deltas after
    it. [NetworkUpdates] keeps the collection last sent with a cursor (epoch and
    revision); fresh epochs are random UUIDs, given as arguments. The specification
    is a client that folds the deltas it accepts. *)
From S2P Require Import Prelude Values.
From Stdlib Require Import ZArith Lia.
From stdpp Require Import prelude gmap strings list sorting.

Definition MAX_REVISION : N := (2 ^ 53 - 1)%N.

Definition network_key (network : json) : option string := vget "key" network ≫= jstr.

(** [networks_by_key]: of equal keys the last stays. *)
Definition by_key_insert (m : gmap string json) (network : json) : gmap string json :=
  match network_key network with Some k => <[k := network]> m | None => m end.
Definition networks_by_key (networks : list json) : gmap string json :=
  foldl by_key_insert ∅ networks.

Definition AGE : string := "last_seen_age_ms".
Definition stable_fields (object : list (string * json)) : list (string * json) :=
  List.filter (λ kv, negb (bool_decide (kv.1 = AGE))) object.

Definition equal_network_fields (equal : string → json → json → bool) (previous current : json) :
    bool :=
  match previous, current with
  | JObj previous, JObj current =>
    (length (stable_fields previous) =? length (stable_fields current))%nat
    && forallb (λ kv, match bt_get kv.1 current with
                      | Some c => equal kv.1 kv.2 c
                      | None => false
                      end) (stable_fields previous)
  | _, _ => json_eqb previous current
  end.

(** [zip] and [all]. *)
Fixpoint all2 (f : json → json → bool) (l k : list json) : bool :=
  match l, k with
  | a :: l', b :: k' => f a b && all2 f l' k'
  | _, _ => true
  end.

Definition network_entry_changed (previous current : json) : bool :=
  negb (equal_network_fields (λ key previous current,
    match previous, current with
    | JArr p, JArr c =>
      if bool_decide (key = "access_points") then
        (length p =? length c)%nat
        && all2 (equal_network_fields (λ _ a b, json_eqb a b)) p c
      else json_eqb previous current
    | _, _ => json_eqb previous current
    end) previous current).

Definition insert_some (k : string) (v : option json) (m : list (string * json)) :
    list (string * json) :=
  match v with Some v => bt_insert k v m | None => m end.

Definition networks_in (payload : json) : option (list json) := vget "networks" payload ≫= as_array.

(** The three parts of a delta. *)
Definition absent_from (previous_by_key : gmap string json) (current : list json) : list json :=
  List.filter (λ n, match network_key n with
    | Some k => negb (bool_decide (is_Some (previous_by_key !! k)))
    | None => false
    end) current.
Definition changed_in (previous_by_key : gmap string json) (current : list json) : list json :=
  List.filter (λ n, match network_key n ≫= (λ k, previous_by_key !! k) with
    | Some p => network_entry_changed p n
    | None => false
    end) current.

Definition network_delta (previous : option json) (current : json) :
    option (list (string * json)) :=
  match networks_in current with
  | None => None
  | Some current_networks =>
    let previous_networks := unwrap_or (previous ≫= networks_in) [] in
    let previous_by_key := networks_by_key previous_networks in
    let current_by_key := networks_by_key current_networks in
    let added := absent_from previous_by_key current_networks in
    let changed := changed_in previous_by_key current_networks in
    let removed := absent_from current_by_key previous_networks in
    if bool_decide (is_Some previous) && bool_decide (added = []) && bool_decide (removed = [])
       && bool_decide (changed = []) then None
    else
      Some (insert_some "warning"
              (match vget "warning" current with
               | Some w => if is_null w then None else Some w
               | None => None
               end)
           (insert_some "snapshot" (vget "snapshot" current)
           (bt_insert "changed" (JArr changed)
           (bt_insert "removed" (JArr removed)
           (bt_insert "added" (JArr added) [])))))
  end.

Record NetworkUpdates := {
  epoch : string;
  revision : N;
  last_sent : option json;
}.
Definition fresh_updates (uuid : string) : NetworkUpdates :=
  {| epoch := uuid; revision := 0; last_sent := None |}.

(** [uuid]: the epoch used if the cursor is exhausted. *)
Definition project (uuid : string) (current : json) (u : NetworkUpdates) :
    NetworkUpdates * option json :=
  let u := if (revision u =? MAX_REVISION)%N then fresh_updates uuid else u in
  match network_delta (last_sent u) current with
  | None => (u, None)
  | Some delta =>
    let delta := bt_insert "initial" (JBool (negb (bool_decide (is_Some (last_sent u))))) delta in
    let delta := bt_insert "epoch" (JStr (epoch u)) delta in
    let delta := bt_insert "base_revision" (JNum (Z.of_N (revision u))) delta in
    let next := (revision u + 1)%N in
    let delta := bt_insert "revision" (JNum (Z.of_N next)) delta in
    ({| epoch := epoch u; revision := next; last_sent := Some current |}, Some (JObj delta))
  end.

(** ** The specification: a client of the stream *)

Record Client := {
  cl_epoch : string;
  cl_revision : Z;
  cl_networks : gmap string json;
}.

Definition networks_of (field : string) (delta : json) : list json :=
  unwrap_or (vget field delta ≫= as_array) [].

(** Fold a delta: drop what was removed, take what was added or changed. A delta
    whose base is not the client's cursor is a gap. *)
Definition accept (delta : json) (c : option Client) : option Client :=
  match vget "epoch" delta, vget "base_revision" delta, vget "revision" delta,
        vget "initial" delta with
  | Some (JStr e), Some (JNum base), Some (JNum r), Some (JBool initial) =>
    let start :=
      if initial then Some ∅
      else match c with
           | Some c => if bool_decide (cl_epoch c = e ∧ cl_revision c = base)
                       then Some (cl_networks c) else None
           | None => None
           end in
    (λ networks, {| cl_epoch := e; cl_revision := r;
       cl_networks :=
         foldl by_key_insert
           (foldl by_key_insert
             (foldl (λ m n, match network_key n with Some k => delete k m | None => m end)
                networks (networks_of "removed" delta))
             (networks_of "added" delta))
           (networks_of "changed" delta) |}) <$> start
  | _, _, _, _ => None
  end.

(** ** Comparing without copying

    The reference: two entries are the same when they are equal after the age is
    taken out of the entry and of its access points. *)

Definition strip_object (v : json) : json :=
  match v with JObj m => JObj (stable_fields m) | _ => v end.
Definition strip_value (k : string) (v : json) : json :=
  match v with
  | JArr l => if bool_decide (k = "access_points") then JArr (strip_object <$> l) else v
  | _ => v
  end.
Definition strip_fields (m : list (string * json)) : list (string * json) :=
  (λ kv, (kv.1, strip_value kv.1 kv.2)) <$> stable_fields m.
Definition strip_entry (v : json) : json :=
  match v with JObj m => JObj (strip_fields m) | _ => v end.

(** Objects have their keys in order, as serde_json keeps them. *)
Definition wf_object (v : json) : Prop := match v with JObj m => bt_sorted m | _ => True end.
Definition wf_entry (v : json) : Prop :=
  wf_object v ∧ ∀ l, vget "access_points" v = Some (JArr l) → Forall wf_object l.

Lemma stable_fields_elem k v m : (k, v) ∈ stable_fields m ↔ (k, v) ∈ m ∧ k ≠ AGE.
Proof.
  unfold stable_fields. rewrite list_elem_of_In, filter_In, <-list_elem_of_In. cbn.
  rewrite negb_true_iff, bool_decide_eq_false. done.
Qed.

Lemma bt_sorted_filter (f : string * json → bool) m : bt_sorted m → bt_sorted (List.filter f m).
Proof.
  induction 1 as [|kv m Hm IH Hall]; simpl; [constructor|]. destruct (f kv); [|done].
  constructor; [done|]. apply Forall_forall. intros x Hx.
  eapply Forall_forall in Hall; [done|]. apply list_elem_of_In, filter_In in Hx as [Hx _].
  by apply list_elem_of_In.
Qed.

(** Sorted objects with as many fields, each field of one matched in the other,
    have equal images. *)
Lemma sorted_fields_eq (f : string → json → json) p c :
  bt_sorted p → bt_sorted c → length p = length c →
  (∀ k v, (k, v) ∈ p → ∃ w, (k, w) ∈ c ∧ f k v = f k w) →
  (λ kv, (kv.1, f kv.1 kv.2)) <$> p = (λ kv, (kv.1, f kv.1 kv.2)) <$> c.
Proof.
  intros Hp. revert c. induction Hp as [|[k v] p Hp IH Hall]; intros c Hc Hlen Hsub;
    [by destruct c|]. destruct c as [|[j w] c]; [done|].
  apply StronglySorted_inv in Hc as [Hc Hallc]. injection Hlen as Hlen.
  assert (∀ k' v', (k', v') ∈ p → cmp k k' = Lt) as Hlt
    by (intros k' v' Hin; by eapply Forall_forall in Hin; [|exact Hall]).
  assert (∀ k' v', (k', v') ∈ c → cmp j k' = Lt) as Hltc
    by (intros k' v' Hin; by eapply Forall_forall in Hin; [|exact Hallc]).
  destruct (Hsub k v) as (w0 & [[= -> ->]|Hin]%elem_of_cons & Hf); [by left| |].
  - cbn. rewrite Hf. f_equal. apply IH; [done..|]. intros k' v' Hin'.
    destruct (Hsub k' v') as (w' & [[= -> ->]|?]%elem_of_cons & ?); [by right| |by exists w'].
    apply Hlt in Hin'. by rewrite cmp_refl in Hin'.
  - exfalso. assert (((k, v) :: p).*1 ⊆ c.*1) as Hincl.
    { intros k' ([k'' v'] & -> & Hin')%list_elem_of_fmap. cbn.
      destruct (Hsub k'' v' Hin') as (w' & [[= -> ->]|Hw]%elem_of_cons & _);
        [|by apply (list_elem_of_fmap_2 fst) in Hw].
      apply Hltc in Hin. apply elem_of_cons in Hin' as [[= <- _]|Hin'].
      - by rewrite cmp_refl in Hin.
      - apply Hlt in Hin'. apply cmp_lt_gt in Hin'. congruence. }
    assert (NoDup ((k, v) :: p).*1) as Hnd by (apply bt_sorted_keys_NoDup; by constructor).
    pose proof (submseteq_length _ _ (NoDup_submseteq _ _ Hnd Hincl)) as Hle.
    rewrite !length_fmap in Hle. cbn in Hle. lia.
Qed.

Lemma equal_fields_spec (equal : string → json → json → bool) (f : string → json → json) p c :
  bt_sorted p → bt_sorted c →
  (∀ k a b, (k, a) ∈ p → (k, b) ∈ c → equal k a b = true ↔ f k a = f k b) →
  equal_network_fields equal (JObj p) (JObj c) = true ↔
  (λ kv, (kv.1, f kv.1 kv.2)) <$> stable_fields p = (λ kv, (kv.1, f kv.1 kv.2)) <$> stable_fields c.
Proof.
  intros Hp Hc Heq. cbn. rewrite andb_true_iff, Nat.eqb_eq, forallb_forall. split.
  - intros [Hlen Hall]. apply sorted_fields_eq; [by apply bt_sorted_filter..|done|].
    intros k v Hin. specialize (Hall (k, v) (proj1 (list_elem_of_In _ _) Hin)). cbn in Hall.
    apply stable_fields_elem in Hin as [Hin Hk].
    destruct (bt_get k c) as [w|] eqn:Hw; [|done]. apply bt_get_elem in Hw.
    exists w. rewrite stable_fields_elem. split; [done|]. by apply Heq.
  - intros E. split; [by apply (f_equal length) in E; rewrite !length_fmap in E|].
    intros [k v] Hin%list_elem_of_In. cbn.
    assert ((k, f k v) ∈ (λ kv, (kv.1, f kv.1 kv.2)) <$> stable_fields c) as Hw.
    { rewrite <-E. apply (list_elem_of_fmap_2 (λ kv, (kv.1, f kv.1 kv.2)) _ (k, v)). done. }
    apply list_elem_of_fmap in Hw as ([k' w] & [= -> Hf] & Hw). cbn in Hf.
    apply stable_fields_elem in Hw as [Hw _]. apply stable_fields_elem in Hin as [Hin _].
    rewrite (bt_elem_get _ _ _ Hc Hw). by apply Heq.
Qed.

Lemma pair_fmap_id (l : list (string * json)) : (λ kv, (kv.1, kv.2)) <$> l = l.
Proof. induction l as [|[k v] l IH]; [done|]. cbn. by rewrite IH. Qed.

Lemma object_equal_spec a b :
  wf_object a → wf_object b →
  equal_network_fields (λ _, json_eqb) a b = true ↔ strip_object a = strip_object b.
Proof.
  intros Ha Hb. destruct a as [| | | | |p], b as [| | | | |c];
    try (cbn [equal_network_fields strip_object]; rewrite json_eqb_eq; done).
  rewrite (equal_fields_spec (λ _, json_eqb) (λ _ v, v)) by (done || intros; apply json_eqb_eq).
  rewrite !pair_fmap_id. cbn. split; [by intros ->|by intros [= ->]].
Qed.

Lemma all2_spec p c :
  Forall wf_object p → Forall wf_object c →
  ((length p =? length c)%nat && all2 (equal_network_fields (λ _, json_eqb)) p c = true ↔
   strip_object <$> p = strip_object <$> c).
Proof.
  intros Hp. revert c. induction Hp as [|a p Ha Hp IH]; intros [|b c] Hc; try done.
  apply Forall_cons in Hc as [Hb Hc]. specialize (IH c Hc). cbn.
  rewrite andb_true_iff in IH. rewrite !andb_true_iff, object_equal_spec by done.
  split; [intros (? & -> & ?); f_equal; tauto|intros [= -> ?]; tauto].
Qed.

Lemma entry_changed_spec p c :
  wf_entry p → wf_entry c → (network_entry_changed p c = false ↔ strip_entry p = strip_entry c).
Proof.
  intros [Hp Hpa] [Hc Hca]. unfold network_entry_changed. rewrite negb_false_iff.
  destruct p as [| | | | |p], c as [| | | | |c];
    try (cbn [equal_network_fields strip_entry]; rewrite json_eqb_eq; done).
  rewrite (equal_fields_spec _ strip_value); [|done..|].
  - unfold strip_entry, strip_fields. split; [by intros ->|by intros [= ->]].
  - intros k a b Ha Hb.
    destruct a as [| | | |la|], b as [| | | |lb|]; cbn [strip_value];
      try (rewrite json_eqb_eq; repeat case_bool_decide; done).
    case_bool_decide; [|by rewrite json_eqb_eq]. subst k.
    rewrite all2_spec; [split; [by intros ->|by intros [= ->]]| |].
    + apply Hpa. cbn. by apply bt_elem_get.
    + apply Hca. cbn. by apply bt_elem_get.
Qed.

(** ** Collections by key *)

Definition keys_of (l : list json) : list string := omap network_key l.
Definition lookup_in (l : list json) (k : string) : option json :=
  List.find (λ n, bool_decide (network_key n = Some k)) l.

Lemma lookup_in_Some l k n : lookup_in l k = Some n → n ∈ l ∧ network_key n = Some k.
Proof.
  intros [Hin Hk]%List.find_some. bool_prop. by rewrite list_elem_of_In.
Qed.

Lemma lookup_in_elem l k n :
  NoDup (keys_of l) → n ∈ l → network_key n = Some k → lookup_in l k = Some n.
Proof.
  unfold keys_of, lookup_in. induction l as [|a l IH]; [by intros _ ?%elem_of_nil|].
  cbn. destruct (network_key a) as [j|] eqn:Ha.
  - intros [Hj Hnd]%NoDup_cons Hin Hk. case_bool_decide as Hjk.
    + apply elem_of_cons in Hin as [->|Hin]; [done|]. simplify_eq. destruct Hj.
      apply list_elem_of_omap. by exists n.
    + apply elem_of_cons in Hin as [->|Hin]; [congruence|]. by apply IH.
  - intros Hnd Hin Hk. rewrite bool_decide_false by congruence.
    apply elem_of_cons in Hin as [->|Hin]; [congruence|]. by apply IH.
Qed.

Lemma lookup_in_None l k : lookup_in l k = None ↔ ∀ n, n ∈ l → network_key n ≠ Some k.
Proof.
  unfold lookup_in. split.
  - intros Hf n Hin Hk. apply list_elem_of_In in Hin.
    pose proof (List.find_none _ _ Hf n Hin) as E. cbn in E. by bool_prop.
  - intros Hn. destruct (List.find _ l) as [n|] eqn:Hf; [|done].
    apply List.find_some in Hf as [Hin Hk]. bool_prop. apply list_elem_of_In in Hin. by apply Hn in Hin.
Qed.

(** Inserting a list of entries with distinct keys. *)
Lemma insert_all_lookup l m k :
  NoDup (keys_of l) →
  foldl by_key_insert m l !! k = match lookup_in l k with Some n => Some n | None => m !! k end.
Proof.
  revert m. induction l as [|a l IH]; intros m; [done|]. unfold keys_of, lookup_in. cbn.
  unfold by_key_insert at 2. destruct (network_key a) as [j|] eqn:Ha; intros Hnd.
  - apply NoDup_cons in Hnd as [Hj Hnd]. rewrite IH by done. case_bool_decide as Hjk.
    + simplify_eq. rewrite (proj2 (lookup_in_None l k)); [by rewrite lookup_insert_eq|].
      intros n Hin Hk. destruct Hj. apply list_elem_of_omap. by exists n.
    + rewrite lookup_insert_ne by congruence. done.
  - rewrite bool_decide_false by done. by apply IH.
Qed.

Lemma networks_by_key_lookup l k : NoDup (keys_of l) → networks_by_key l !! k = lookup_in l k.
Proof.
  intros Hnd. unfold networks_by_key. rewrite insert_all_lookup by done.
  rewrite lookup_empty. by destruct (lookup_in l k).
Qed.

Lemma delete_all_lookup l (m : gmap string json) k :
  foldl (λ m n, match network_key n with Some k => delete k m | None => m end) m l !! k =
  match lookup_in l k with Some _ => None | None => m !! k end.
Proof.
  revert m. induction l as [|a l IH]; intros m; [done|]. unfold lookup_in. cbn. rewrite IH.
  fold (lookup_in l k). destruct (network_key a) as [j|]; case_bool_decide; simplify_eq.
  - rewrite lookup_delete_eq. by destruct (lookup_in l k).
  - rewrite lookup_delete_ne by congruence. done.
  - done.
Qed.

Lemma keys_of_filter (f : json → bool) l : NoDup (keys_of l) → NoDup (keys_of (List.filter f l)).
Proof.
  unfold keys_of. induction l as [|a l IH]; [done|]. cbn. destruct (network_key a) as [j|] eqn:Ha.
  - intros [Hj Hnd]%NoDup_cons. destruct (f a); cbn; [|by apply IH]. rewrite Ha.
    apply NoDup_cons. split; [|by apply IH]. intros (n & Hin & Hk)%list_elem_of_omap.
    apply list_elem_of_In, filter_In in Hin as [Hin _]. apply list_elem_of_In in Hin.
    destruct Hj. apply list_elem_of_omap. by exists n.
  - intros Hnd. destruct (f a); cbn; rewrite ?Ha; by apply IH.
Qed.

Lemma filter_lookup_in (f : json → bool) l k :
  NoDup (keys_of l) →
  lookup_in (List.filter f l) k =
  match lookup_in l k with Some n => if f n then Some n else None | None => None end.
Proof.
  intros Hnd. destruct (lookup_in l k) as [n|] eqn:Hn.
  - apply lookup_in_Some in Hn as [Hin Hk]. destruct (f n) eqn:Hf.
    + apply lookup_in_elem; [by apply keys_of_filter| |done].
      apply list_elem_of_In, filter_In. by rewrite <-list_elem_of_In.
    + apply lookup_in_None. intros n' Hin' Hk'.
      apply list_elem_of_In, filter_In in Hin' as [Hin' Hf']. apply list_elem_of_In in Hin'.
      pose proof (lookup_in_elem l k n' Hnd Hin' Hk').
      pose proof (lookup_in_elem l k n Hnd Hin Hk). congruence.
  - rewrite lookup_in_None in Hn. apply lookup_in_None. intros n Hin.
    apply list_elem_of_In, filter_In in Hin as [Hin _]. apply Hn. by apply list_elem_of_In.
Qed.

(** ** One delta *)

Definition wf_networks (l : list json) : Prop := Forall wf_entry l ∧ NoDup (keys_of l).

(** A collection that shows the networks of a list, up to ages. *)
Definition shows (m : gmap string json) (l : list json) : Prop :=
  ∀ k, strip_entry <$> m !! k = strip_entry <$> lookup_in l k.

Definition patch (removed added changed : list json) (m : gmap string json) : gmap string json :=
  foldl by_key_insert (foldl by_key_insert
    (foldl (λ m n, match network_key n with Some k => delete k m | None => m end) m removed)
    added) changed.

Lemma patch_shows m prev cur :
  wf_networks prev → wf_networks cur → shows m prev →
  shows (patch (absent_from (networks_by_key cur) prev) (absent_from (networks_by_key prev) cur)
           (changed_in (networks_by_key prev) cur) m) cur.
Proof.
  intros [Hwp Hnp] [Hwc Hnc] Hm k. unfold patch, absent_from, changed_in.
  rewrite !insert_all_lookup, delete_all_lookup, !filter_lookup_in by (try apply keys_of_filter; done).
  destruct (lookup_in cur k) as [n|] eqn:Hn.
  - pose proof (lookup_in_Some _ _ _ Hn) as [Hnin Hnk]. rewrite Hnk. cbn.
    rewrite networks_by_key_lookup by done.
    destruct (lookup_in prev k) as [p|] eqn:Hp; cbn; [|done].
    pose proof (lookup_in_Some _ _ _ Hp) as [Hpin Hpk]. rewrite Hpk.
    destruct (network_entry_changed p n) eqn:Hch; [done|].
    rewrite networks_by_key_lookup, Hn by done. cbn.
    rewrite Hm, Hp. cbn. f_equal. apply entry_changed_spec; [| |done].
    + rewrite Forall_forall in Hwp. by apply Hwp.
    + rewrite Forall_forall in Hwc. by apply Hwc.
  - destruct (lookup_in prev k) as [p|] eqn:Hp.
    + pose proof (lookup_in_Some _ _ _ Hp) as [_ Hpk].
      by rewrite Hpk, networks_by_key_lookup, Hn by done.
    + by rewrite Hm, Hp.
Qed.

(** ** The stream *)

(** A payload, the epoch drawn if the cursor is exhausted, and whether a delta for
    it is delivered. *)
Definition stream_step (s : NetworkUpdates * option Client) (e : json * string * bool) :
    NetworkUpdates * option Client :=
  let '(payload, uuid, delivered) := e in
  match project uuid payload s.1 with
  | (u, None) => (u, s.2)
  | (u, Some delta) =>
    (u, if delivered : bool then match accept delta s.2 with Some c => Some c | None => s.2 end
        else s.2)
  end.

Definition synchronised (u : NetworkUpdates) (c : option Client) : Prop :=
  ∃ cl, c = Some cl ∧ cl_epoch cl = epoch u ∧ cl_revision cl = Z.of_N (revision u).

Definition sent_networks (u : NetworkUpdates) : list json :=
  unwrap_or (last_sent u ≫= networks_in) [].

Record stream_inv (future : list string) (u : NetworkUpdates) (c : option Client) : Prop := {
  si_bound : (revision u <= MAX_REVISION)%N;
  si_first : revision u = 0%N ↔ last_sent u = None;
  si_sent : wf_networks (sent_networks u);
  si_epoch : epoch u ∉ future;
  si_client : ∀ cl, c = Some cl →
    cl_epoch cl ∉ future ∧ (0 < cl_revision cl)%Z ∧
    (cl_epoch cl = epoch u → (cl_revision cl <= Z.of_N (revision u))%Z ∧
       (cl_revision cl = Z.of_N (revision u) → shows (cl_networks cl) (sent_networks u)));
}.

Lemma insert_some_get k j v d : j ≠ k → bt_get j (insert_some k v d) = bt_get j d.
Proof. intros. destruct v; [by apply bt_get_insert_ne|done]. Qed.

Lemma network_delta_Some previous current cur d :
  networks_in current = Some cur → network_delta previous current = Some d →
  let prev := unwrap_or (previous ≫= networks_in) [] in
  bt_get "added" d = Some (JArr (absent_from (networks_by_key prev) cur)) ∧
  bt_get "removed" d = Some (JArr (absent_from (networks_by_key cur) prev)) ∧
  bt_get "changed" d = Some (JArr (changed_in (networks_by_key prev) cur)).
Proof.
  unfold network_delta. intros ->. case_match; [done|]. intros [= <-]. cbv zeta.
  rewrite !insert_some_get by done.
  rewrite !(bt_get_insert_ne "changed"), !(bt_get_insert_ne "removed"), !bt_get_insert_eq by done.
  done.
Qed.

Lemma network_delta_None previous current cur :
  networks_in current = Some cur → network_delta previous current = None →
  let prev := unwrap_or (previous ≫= networks_in) [] in
  is_Some previous ∧ absent_from (networks_by_key prev) cur = [] ∧
  absent_from (networks_by_key cur) prev = [] ∧ changed_in (networks_by_key prev) cur = [].
Proof. unfold network_delta. intros ->. case_match; [|done]. intros _. by bool_prop. Qed.

(** What a client reads from a projected delta. *)
Lemma accept_project current cur d u c :
  networks_in current = Some cur → network_delta (last_sent u) current = Some d →
  accept (JObj (bt_insert "revision" (JNum (Z.of_N (revision u + 1)))
          (bt_insert "base_revision" (JNum (Z.of_N (revision u)))
          (bt_insert "epoch" (JStr (epoch u))
          (bt_insert "initial" (JBool (negb (bool_decide (is_Some (last_sent u))))) d))))) c =
  (λ networks, {| cl_epoch := epoch u; cl_revision := Z.of_N (revision u + 1);
     cl_networks := patch (absent_from (networks_by_key cur) (sent_networks u))
       (absent_from (networks_by_key (sent_networks u)) cur)
       (changed_in (networks_by_key (sent_networks u)) cur) networks |}) <$>
  (match last_sent u with
   | None => Some ∅
   | Some _ => match c with
     | Some c => if bool_decide (cl_epoch c = epoch u ∧ cl_revision c = Z.of_N (revision u))
                 then Some (cl_networks c) else None
     | None => None
     end
   end).
Proof.
  intros Hcur Hd. destruct (network_delta_Some _ _ _ _ Hcur Hd) as (Ha & Hr & Hc).
  unfold accept, networks_of. cbn [vget].
  rewrite !bt_get_insert_eq.
  repeat (rewrite bt_get_insert_ne by done; rewrite ?bt_get_insert_eq).
  rewrite Ha, Hr, Hc. unfold sent_networks. by destruct (last_sent u).
Qed.

Lemma exhausted_inv uuid future u c :
  stream_inv (uuid :: future) u c →
  let u' := if (revision u =? MAX_REVISION)%N then fresh_updates uuid else u in
  uuid ∉ future → stream_inv future u' c ∧ (revision u' < MAX_REVISION)%N.
Proof.
  intros [Hb Hf Hs He Hc] u' Hu. unfold u'. destruct (N.eqb_spec (revision u) MAX_REVISION) as [E|E].
  - split; [|done]. split; cbn; try done.
    + split; [constructor|constructor].
    + intros cl Hcl. destruct (Hc cl Hcl) as (Hne & Hpos & _).
      split_and!; [set_solver|done|]. intros E'. destruct Hne. rewrite E'. by left.
  - split; [|lia]. split; try done; [set_solver|].
    intros cl Hcl. destruct (Hc cl Hcl) as (Hne & Hpos & Hsync). split_and!; [set_solver|done|done].
Qed.

Lemma shows_empty : shows ∅ [].
Proof. intros k. by rewrite lookup_empty. Qed.

(** What is known of a client just after a delta for [cur] was sent. *)
Definition client_ok (future : list string) (u : NetworkUpdates) (cur : list json)
    (c : option Client) : Prop :=
  ∀ cl, c = Some cl → cl_epoch cl ∉ future ∧ (0 < cl_revision cl)%Z ∧
    (cl_epoch cl = epoch u → (cl_revision cl <= Z.of_N (revision u))%Z ∨
       cl_revision cl = Z.of_N (revision u + 1) ∧ shows (cl_networks cl) cur).

Lemma client_ok_keep future u c cur : stream_inv future u c → client_ok future u cur c.
Proof.
  intros [_ _ _ _ Hc] cl Hcl. destruct (Hc cl Hcl) as (? & ? & Hcase). split_and!; [done..|].
  intros ?%Hcase. tauto.
Qed.

Lemma sent_inv future payload cur u c c' :
  stream_inv future u c → (revision u < MAX_REVISION)%N →
  networks_in payload = Some cur → wf_networks cur → client_ok future u cur c' →
  stream_inv future {| epoch := epoch u; revision := revision u + 1; last_sent := Some payload |} c' ∧
  (∀ cl, c' = Some cl → cl_epoch cl = epoch u → cl_revision cl = Z.of_N (revision u + 1) →
     shows (cl_networks cl) cur).
Proof.
  intros [Hb Hf Hs He Hc] Hlt Hcur Hwf Hc'. split.
  - assert (sent_networks {| epoch := epoch u; revision := revision u + 1; last_sent := Some payload |}
      = cur) as Hsent by (unfold sent_networks; cbn; by rewrite Hcur).
    split; rewrite ?Hsent; cbn; [lia|by split; [lia|]|done|done|].
    intros cl Hcl. destruct (Hc' cl Hcl) as (? & ? & Hcase). split_and!; [done..|].
    intros [?|[? ?]]%Hcase; split; [lia|lia|lia|done].
  - intros cl Hcl E1 E2. destruct (Hc' cl Hcl) as (_ & _ & Hcase).
    destruct (Hcase E1) as [?|[? ?]]; [lia|done].
Qed.

(** The collection a client applies a delta to shows what the daemon sent last. *)
Definition base_of (u : NetworkUpdates) (c : option Client) : option (gmap string json) :=
  match last_sent u with
  | None => Some ∅
  | Some _ => match c with
    | Some c => if bool_decide (cl_epoch c = epoch u ∧ cl_revision c = Z.of_N (revision u))
                then Some (cl_networks c) else None
    | None => None
    end
  end.

Lemma base_shows future u c n :
  stream_inv future u c → base_of u c = Some n → shows n (sent_networks u).
Proof.
  intros [_ _ _ _ Hc]. unfold base_of. destruct (last_sent u) as [p|] eqn:Hl.
  - destruct c as [cl|]; [|done]. case_bool_decide as E; [|done]. intros [= <-].
    destruct (Hc cl eq_refl) as (_ & _ & Hcase). destruct E as [E1 E2].
    destruct (Hcase E1) as [_ Hsh]. by apply Hsh.
  - intros [= <-]. unfold sent_networks. rewrite Hl. apply shows_empty.
Qed.

Lemma base_synchronised u c :
  last_sent u = None ∨ synchronised u c → is_Some (base_of u c).
Proof.
  unfold base_of. intros [->|(cl & -> & E1 & E2)]; [by eexists|].
  destruct (last_sent u); [|by eexists]. rewrite bool_decide_true by done. by eexists.
Qed.

(** A delta is sent, delivered or not. *)
Lemma delta_step_inv future payload cur d delivered u c :
  stream_inv future u c → (revision u < MAX_REVISION)%N →
  networks_in payload = Some cur → wf_networks cur → network_delta (last_sent u) payload = Some d →
  let u' := {| epoch := epoch u; revision := revision u + 1; last_sent := Some payload |} in
  let delta := JObj (bt_insert "revision" (JNum (Z.of_N (revision u + 1)))
    (bt_insert "base_revision" (JNum (Z.of_N (revision u)))
    (bt_insert "epoch" (JStr (epoch u))
    (bt_insert "initial" (JBool (negb (bool_decide (is_Some (last_sent u))))) d)))) in
  let c' := if delivered : bool then match accept delta c with Some c => Some c | None => c end else c in
  stream_inv future u' c' ∧
  (∀ cl, c' = Some cl → cl_epoch cl = epoch u' → cl_revision cl = Z.of_N (revision u') →
     shows (cl_networks cl) cur) ∧
  (delivered = true → last_sent u = None ∨ synchronised u c → synchronised u' c').
Proof.
  intros Hinv Hlt Hcur Hwf Hd u' delta c'.
  destruct (sent_inv future payload cur u c c Hinv Hlt Hcur Hwf (client_ok_keep _ _ _ _ Hinv)) as [Hk1 Hk2].
  unfold c'. destruct delivered; [|by split_and!].
  unfold delta. rewrite (accept_project payload cur d u c Hcur Hd). fold (base_of u c).
  destruct (base_of u c) as [n|] eqn:Hb; cbn [fmap option_fmap option_map].
  - match goal with |- stream_inv _ _ (Some ?x) ∧ _ => set (cl' := x) end.
    assert (client_ok future u cur (Some cl')) as Hok.
    { intros cl [= <-]. cbn. split_and!; [by destruct Hinv|lia|]. intros _. right. split; [done|].
      apply patch_shows; [by destruct Hinv|done|]. by eapply base_shows. }
    destruct (sent_inv future payload cur u c _ Hinv Hlt Hcur Hwf Hok) as [H1 H2].
    split_and!; [exact H1|exact H2|]. intros _ _. by exists cl'.
  - split_and!; [done|exact Hk2|]. intros _ Hs. apply base_synchronised in Hs. rewrite Hb in Hs.
    by destruct Hs.
Qed.

(** The invariant is kept, and a synchronised client shows the payload. *)
Lemma stream_step_inv future payload cur uuid delivered u c :
  stream_inv (uuid :: future) u c → uuid ∉ future →
  networks_in payload = Some cur → wf_networks cur →
  let s := stream_step (u, c) (payload, uuid, delivered) in
  stream_inv future s.1 s.2 ∧
  (∀ cl, s.2 = Some cl → cl_epoch cl = epoch s.1 → cl_revision cl = Z.of_N (revision s.1) →
     shows (cl_networks cl) cur) ∧
  (delivered = true → last_sent u = None ∨ synchronised u c → synchronised s.1 s.2).
Proof.
  intros Hinv Hu Hcur Hwf. unfold stream_step, project. cbv zeta. cbn [fst snd].
  destruct (exhausted_inv _ _ _ _ Hinv Hu) as [Hinv' Hlt].
  set (v := if (revision u =? MAX_REVISION)%N then fresh_updates uuid else u) in *.
  assert (last_sent u = None ∨ synchronised u c → last_sent v = None ∨ synchronised v c) as Hsync
    by (unfold v; destruct (_ =? _)%N; auto).
  destruct (network_delta (last_sent v) payload) as [d|] eqn:Hd.
  - destruct (delta_step_inv future payload cur d delivered v c Hinv' Hlt Hcur Hwf Hd) as (H1 & H2 & H3).
    split_and!; [exact H1|exact H2|]. intros Hdel Hs. exact (H3 Hdel (Hsync Hs)).
  - destruct (network_delta_None _ _ _ Hcur Hd) as (Hsome & Ha & Hr & Hch). cbn [fst snd].
    split_and!; [done|..].
    + intros cl -> E1 E2. destruct Hinv' as [_ _ Hs _ Hc]. destruct (Hc cl eq_refl) as (_ & _ & Hcase).
      destruct (Hcase E1) as [_ Hsh].
      pose proof (patch_shows _ _ _ Hs Hwf (Hsh E2)) as Hpatch.
      unfold sent_networks in Hpatch. by rewrite Ha, Hr, Hch in Hpatch.
    + intros _ Hs. apply Hsync in Hs as [Hl|?]; [|done]. rewrite Hl in Hsome. by destruct Hsome.
Qed.

(** A run of the stream from a fresh subscription. *)
Definition run_stream (uuid : string) (events : list (json * string * bool)) :
    NetworkUpdates * option Client :=
  foldl stream_step (fresh_updates uuid, None) events.

Definition wf_payload (payload : json) : Prop :=
  ∃ l, networks_in payload = Some l ∧ wf_networks l.

Lemma run_stream_inv uuid events future :
  NoDup (uuid :: (events.*1).*2 ++ future) → Forall (λ e, wf_payload e.1.1) events →
  let s := run_stream uuid events in
  stream_inv future s.1 s.2 ∧
  (Forall (λ e, e.2 = true) events → last_sent s.1 = None ∨ synchronised s.1 s.2).
Proof.
  revert future. induction events as [|[[payload u] delivered] events IH] using rev_ind; intros future Hnd Hwf.
  - cbn in Hnd |- *. apply NoDup_cons in Hnd as [Hu _]. split; [|by left].
    split; cbn; [apply N.le_0_l|done|split; constructor|done|done].
  - unfold run_stream in *. rewrite foldl_snoc. rewrite !fmap_app in Hnd. cbn in Hnd.
    rewrite <-app_assoc in Hnd. cbn in Hnd.
    apply Forall_app in Hwf as [Hwf Hp]. apply Forall_singleton in Hp as (l & Hl & Hwl). cbn in Hl.
    destruct (IH (u :: future) Hnd Hwf) as [Hinv Hall].
    assert (u ∉ future) as Hu.
    { apply NoDup_cons in Hnd as [_ Hnd]. apply NoDup_app in Hnd as (_ & _ & Hnd).
      by apply NoDup_cons in Hnd as [? _]. }
    destruct (foldl stream_step _ events) as [v c]. cbn [fst snd] in *.
    destruct (stream_step_inv future payload l u delivered v c Hinv Hu Hl Hwl) as (H1 & H2 & H3).
    split; [exact H1|]. intros Hd. apply Forall_app in Hd as [Hd Hlast].
    rewrite Forall_singleton in Hlast. right. apply H3; [exact Hlast|exact (Hall Hd)].
Qed.

(** C9. The deltas of a subscription refine the full listing: whatever deltas are
    lost on the way, a client that holds the daemon's cursor shows exactly the
    networks of the latest payload, up to the ages of last sightings; a client that
    received every delta holds it; and the cursor stays below 2^53, starting a new
    epoch with a full listing when it is exhausted. *)
Theorem delta_stream_refines uuid events payload fresh delivered networks :
  NoDup (uuid :: (events.*1).*2 ++ [fresh]) →
  Forall (λ e, wf_payload e.1.1) events →
  networks_in payload = Some networks → wf_networks networks →
  let (u, c) := run_stream uuid (events ++ [(payload, fresh, delivered)]) in
  (revision u <= MAX_REVISION)%N ∧
  (∀ cl, c = Some cl → cl_epoch cl = epoch u → cl_revision cl = Z.of_N (revision u) →
     shows (cl_networks cl) networks) ∧
  (delivered = true → Forall (λ e, e.2 = true) events → synchronised u c).
Proof.
  intros Hnd Hwf Hn Hwn. unfold run_stream. rewrite foldl_snoc.
  destruct (run_stream_inv uuid events [fresh] Hnd Hwf) as [Hinv Hall]. unfold run_stream in *.
  destruct (foldl stream_step _ events) as [v c]. cbn [fst snd] in *.
  destruct (stream_step_inv [] payload networks fresh delivered v c Hinv (not_elem_of_nil _) Hn Hwn)
    as (H1 & H2 & H3).
  destruct (stream_step (v, c) (payload, fresh, delivered)) as [u c']. cbn [fst snd] in *.
  split_and!; [by destruct H1|exact H2|]. auto.
Qed.

(** C36. Deciding whether an entry changed, without copying either tree, is the
    comparison of the entries with the ages taken out: in the entry and in its
    access points, and nowhere else. *)
Theorem entry_comparison_exact previous current :
  wf_entry previous → wf_entry current →
  network_entry_changed previous current = negb (bool_decide (strip_entry previous = strip_entry current)).
Proof.
  intros Hp Hc. pose proof (entry_changed_spec previous current Hp Hc) as H.
  destruct (network_entry_changed previous current); case_bool_decide; naive_solver.
Qed.

(** ** Examples *)

Definition entry (key : string) (strength age : Z) : json :=
  JObj [("key", JStr key); ("last_seen_age_ms", JNum age); ("strength", JNum strength)].
Definition listing (l : list json) : json := JObj [("networks", JArr l)].

Lemma entry_wf key strength age : wf_entry (entry key strength age).
Proof. split; [by repeat constructor|done]. Qed.

(** The delta to strength 60 is lost; the next one is refused. *)
Example lost_delta_is_noticed :
  let s := run_stream "e1" [(listing [entry "a" 50 1], "e2", true);
                            (listing [entry "a" 60 1], "e3", false);
                            (listing [entry "a" 60 1; entry "b" 70 1], "e4", true)] in
  revision s.1 = 3%N ∧ cl_revision <$> s.2 = Some 1%Z.
Proof. vm_compute. done. Qed.

Lemma delta_stream_refines_witness :
  let s := run_stream "e1" ([(listing [entry "a" 50 1], "e2", true)] ++
                            [(listing [entry "a" 50 9; entry "b" 70 1], "e3", true)]) in
  synchronised s.1 s.2.
Proof.
  assert (wf_networks [entry "a" 50 1]) by (split; [repeat constructor; done|vm_compute; apply NoDup_singleton]).
  assert (wf_networks [entry "a" 50 9; entry "b" 70 1]) as Hwf.
  { split; [repeat constructor; done|]. apply (bool_decide_unpack _). vm_compute. done. }
  assert (NoDup ("e1" :: ([(listing [entry "a" 50 1], "e2", true)].*1).*2 ++ ["e3"])) as Hnd
    by (apply (bool_decide_unpack _); vm_compute; done).
  assert (Forall (λ e : json * string * bool, wf_payload e.1.1) [(listing [entry "a" 50 1], "e2", true)])
    as Hpay by (apply Forall_singleton; by exists [entry "a" 50 1]).
  pose proof (delta_stream_refines "e1" [(listing [entry "a" 50 1], "e2", true)]
    (listing [entry "a" 50 9; entry "b" 70 1]) "e3" true _ Hnd Hpay eq_refl Hwf) as H1.
  destruct (run_stream _ _) as [u c]. destruct H1 as (_ & _ & H1). cbn [fst snd].
  apply H1; [reflexivity|]. apply Forall_singleton. reflexivity.
Defined.

Lemma entry_comparison_exact_witness :
  network_entry_changed (entry "a" 50 1) (entry "a" 50 9) = false ∧
  network_entry_changed (entry "a" 50 1) (entry "a" 60 1) = true.
Proof.
  split.
  - rewrite (entry_comparison_exact _ _ (entry_wf "a" 50 1) (entry_wf "a" 50 9)). reflexivity.
  - rewrite (entry_comparison_exact _ _ (entry_wf "a" 50 1) (entry_wf "a" 60 1)). reflexivity.
Defined.
