(* ===== verification/Observation.v ===== *)
(** * Status observations ([src/daemon_status/observation.rs])

    One owner of the observed Wi-Fi status, shared by reads and watches.
    [observe] holds the capture mutex while it reads NetworkManager; the state is
    behind a mutex of its own, so invalidations run between the two critical
    sections of [observe]. Each critical section is one step here. *)
From S2P Require Import Prelude Errors Values.
From Stdlib Require Import ZArith Lia.
From stdpp Require Import prelude strings list sorting.

Definition MAX_REVISION : N := (2 ^ 53 - 1)%N.

Record State := {
  generation : N;
  epoch : string;
  previous_epoch : option string;
  revision : N;
  value : option json;
}.

(** [capture]: the generation recorded by the holder of the capture mutex. *)
Record StatusObservations := {
  capture : option N;
  state : State;
}.

Definition default_observations (uuid : string) : StatusObservations :=
  {| capture := None;
     state := {| generation := 0; epoch := uuid; previous_epoch := None; revision := 0;
                 value := None |} |}.

(** [checked_add] with [expect]: a panic leaves the state as it is. *)
Definition invalidate (s : State) : option State :=
  if (generation s =? u64_max)%N then None
  else Some {| generation := generation s + 1; epoch := epoch s; previous_epoch := previous_epoch s;
               revision := revision s; value := value s |}.

(** What was read; a failed read is an observation too. *)
Definition observed (read : result json Error) : option json :=
  let v := match read with Ok v => v | Err _ => JObj [("available", JBool false)] end in
  match vget "available" v with
  | Some _ => Some v
  | None => index_set "available" (JBool true) v
  end.

(** The revision moves with the value; an exhausted one starts a new epoch. *)
Definition commit (uuid : string) (v : json) (s : State) : State :=
  if bool_decide (value s = Some v) then s
  else
    let s :=
      if (revision s =? MAX_REVISION)%N then
        {| generation := generation s; epoch := uuid; previous_epoch := Some (epoch s);
           revision := 0; value := value s |}
      else s in
    {| generation := generation s; epoch := epoch s; previous_epoch := previous_epoch s;
       revision := revision s + 1; value := Some v |}.

Definition publication (s : State) : json :=
  JObj (match previous_epoch s with
        | Some previous => bt_insert "previous_epoch" (JStr previous)
        | None => id
        end [("epoch", JStr (epoch s)); ("revision", JNum (Z.of_N (revision s)))]).

Inductive Outcome :=
| Published (v : json)
| Refused (e : Error)
| Panicked.

Definition status_changed : Error :=
  EDomain (conflict Op.Status "Wi-Fi status changed during observation; read current state again").

(** The second critical section of [observe]. *)
Definition publish (recorded : N) (uuid : string) (read : result json Error) (s : State) :
    State * Outcome :=
  match observed read with
  | None => (s, Panicked)
  | Some v =>
    if negb (recorded =? generation s)%N then (s, Refused status_changed)
    else
      let s' := commit uuid v s in
      match index_set "_publication" (publication s') v with
      | Some v' => (s', Published v')
      | None => (s', Panicked)
      end
  end.

(** ** Interleavings *)

Inductive Event :=
| Invalidate
| Begin
| Finish (read : result json Error) (uuid : string).

(** [None]: the step waits for the capture mutex, or has not got it. *)
Definition step (o : StatusObservations) (e : Event) :
    option (StatusObservations * option Outcome) :=
  match e, capture o with
  | Invalidate, c =>
    Some (match invalidate (state o) with
          | Some s => ({| capture := c; state := s |}, None)
          | None => (o, Some Panicked)
          end)
  | Begin, None => Some ({| capture := Some (generation (state o)); state := state o |}, None)
  | Finish read uuid, Some g =>
    let (s, r) := publish g uuid read (state o) in
    Some ({| capture := None; state := s |}, Some r)
  | _, _ => None
  end.

Definition published (r : option Outcome) : list json :=
  match r with Some (Published v) => [v] | _ => [] end.

(** The publications of a run, newest first. *)
Fixpoint run (o : StatusObservations) (log : list json) (es : list Event) :
    option (StatusObservations * list json) :=
  match es with
  | [] => Some (o, log)
  | e :: es => match step o e with
               | Some (o', r) => run o' (published r ++ log) es
               | None => None
               end
  end.

Definition uuid_of (e : Event) : list string := match e with Finish _ u => [u] | _ => [] end.

(** The identity a client compares. *)
Definition identity (v : json) : option (string * Z) :=
  match vget "_publication" v with
  | Some p => match vget "epoch" p, vget "revision" p with
              | Some (JStr e), Some (JNum r) => Some (e, r)
              | _, _ => None
              end
  | None => None
  end.

Definition ordered (new old : json) : Prop :=
  ∀ e r r', identity new = Some (e, r) → identity old = Some (e, r') →
  (r' <= r)%Z ∧ (r' = r → old = new).

Lemma publication_fields s :
  vget "epoch" (publication s) = Some (JStr (epoch s)) ∧
  vget "revision" (publication s) = Some (JNum (Z.of_N (revision s))).
Proof. unfold publication. by destruct (previous_epoch s). Qed.

Lemma stamped_identity s v w :
  index_set "_publication" (publication s) v = Some w →
  identity w = Some (epoch s, Z.of_N (revision s)).
Proof.
  intros E%vget_index_set_eq. unfold identity. rewrite E.
  by destruct (publication_fields s) as [-> ->].
Qed.

(** What the state and the log have in common. *)
Record obs_inv (future : list string) (s : State) (log : list json) : Prop := {
  oi_revision : (revision s <= MAX_REVISION)%N;
  oi_epoch : epoch s ∉ future;
  oi_sorted : StronglySorted ordered log;
  oi_log : Forall (λ w, ∃ e r, identity w = Some (e, r) ∧ e ∉ future ∧
     (1 <= r <= Z.of_N MAX_REVISION)%Z ∧
     (e = epoch s → (r <= Z.of_N (revision s))%Z ∧
        (r = Z.of_N (revision s) → ∃ v, value s = Some v ∧
           index_set "_publication" (publication s) v = Some w))) log;
  oi_value : is_Some (value s) → (1 <= revision s)%N;
}.

Lemma obs_inv_weaken us future s log : obs_inv (us ++ future) s log → obs_inv future s log.
Proof.
  intros [H1 H2 H3 H4 H5]. split; [done| |done| |done]; [set_solver|].
  eapply Forall_impl; [exact H4|]. intros w (e & r & ? & ? & ?). exists e, r. set_solver.
Qed.

(** The value and the revision change together, and the epoch stays or is new. *)
Lemma commit_inv future uuid v s log :
  obs_inv (uuid :: future) s log → uuid ∉ future →
  obs_inv future (commit uuid v s) log ∧ value (commit uuid v s) = Some v.
Proof.
  intros Hinv Hu. unfold commit. case_bool_decide as Hv.
  - split; [|done]. by apply (obs_inv_weaken [uuid]).
  - split; [|done]. destruct Hinv as [H1 H2 H3 H4 H5]. case (N.eqb_spec (revision s) MAX_REVISION) as [E|E].
    + split; cbn [revision epoch value]; [done|done|done| |done].
      eapply Forall_impl; [exact H4|]. intros w (e & r & ? & He & Hr & _). exists e, r.
      apply not_elem_of_cons in He as [He1 He2]. split_and!; try done; lia.
    + split; cbn [revision epoch value]; [lia|set_solver|done| |intros; lia].
      eapply Forall_impl; [exact H4|]. intros w (e & r & ? & He & Hr & Hc). exists e, r.
      apply not_elem_of_cons in He as [He1 He2]. split_and!; try done; [lia..|].
      intros ->. destruct (Hc eq_refl) as [Hle _]. split; [lia|]. intros. lia.
Qed.

(** The next publication extends the log. *)
Lemma log_publication future s v w log :
  obs_inv future s log → value s = Some v →
  index_set "_publication" (publication s) v = Some w → obs_inv future s (w :: log).
Proof.
  intros [H1 H2 H3 H4 H5] Hv Hw. pose proof (stamped_identity _ _ _ Hw) as Hid.
  split; [done..| | |done].
  - constructor; [done|]. eapply Forall_impl; [exact H4|].
    intros old (e' & r' & Hold & _ & _ & Hc) e r r0 Hn Ho. simplify_eq.
    destruct (Hc eq_refl) as [Hle Heq]. split; [done|]. intros E.
    destruct (Heq E) as (v' & Hv' & Hw'). congruence.
  - constructor; [|done]. exists (epoch s), (Z.of_N (revision s)). split_and!; [done..| |lia|].
    + assert (1 <= revision s)%N by (apply H5; by rewrite Hv). lia.
    + intros _. split; [done|]. intros _. by exists v.
Qed.

Lemma published_inv future g uuid read s s' r log :
  obs_inv (uuid :: future) s log → uuid ∉ future → publish g uuid read s = (s', r) →
  obs_inv future s' (published (Some r) ++ log).
Proof.
  intros Hinv Hu. pose proof (obs_inv_weaken [uuid] _ _ _ Hinv) as Hkeep. unfold publish.
  destruct (observed read) as [v|]; [|by intros [= <- <-]].
  destruct (negb _); [by intros [= <- <-]|].
  destruct (commit_inv future uuid v s log Hinv Hu) as [Hc Hv].
  destruct (index_set _ _ v) as [w|] eqn:Hw; intros [= <- <-]; [|done].
  cbn. by eapply log_publication.
Qed.

Lemma observation_step_inv future o e o' r log :
  obs_inv (uuid_of e ++ future) (state o) log → NoDup (uuid_of e ++ future) →
  step o e = Some (o', r) → obs_inv future (state o') (published r ++ log).
Proof.
  destruct e as [| |read uuid]; cbn [uuid_of app].
  - intros Hinv _. cbn. unfold invalidate. destruct (_ =? _)%N; intros [= <- <-]; [done|].
    destruct Hinv. by split.
  - intros Hinv _. cbn. destruct (capture o); [done|]. by intros [= <- <-].
  - intros Hinv [Hu _]%NoDup_cons. cbn. destruct (capture o) as [g|]; [|done].
    destruct (publish g uuid read (state o)) as [s r'] eqn:Hp. intros [= <- <-].
    by eapply published_inv.
Qed.

Lemma observation_run_inv es o log o' log' future :
  obs_inv ((es ≫= uuid_of) ++ future) (state o) log → NoDup ((es ≫= uuid_of) ++ future) →
  run o log es = Some (o', log') → obs_inv future (state o') log'.
Proof.
  revert o log. induction es as [|e es IH]; intros o log Hinv Hnd; [by intros [= <- <-]|].
  cbn. destruct (step o e) as [[o1 r]|] eqn:Hs; [|done]. cbn in Hinv, Hnd.
  rewrite <-app_assoc in Hinv, Hnd. apply IH.
  - by eapply observation_step_inv.
  - by apply NoDup_app in Hnd as (_ & _ & ?).
Qed.

Lemma run_app es es' o log :
  run o log (es ++ es') = match run o log es with
                          | Some (o', log') => run o' log' es'
                          | None => None
                          end.
Proof.
  revert o log. induction es as [|e es IH]; intros o log; [done|]. cbn.
  destruct (step o e) as [[o1 r]|]; [apply IH|done].
Qed.

(** Ordered publications with one identity are one document. *)
Lemma ordered_same log v w e r :
  StronglySorted ordered log → v ∈ log → w ∈ log →
  identity v = Some (e, r) → identity w = Some (e, r) → v = w.
Proof.
  induction 1 as [|x log Hs IH Hall]; [by intros ?%elem_of_nil|].
  intros [->|Hv]%elem_of_cons [->|Hw]%elem_of_cons E1 E2; [done| | |by apply IH].
  - eapply Forall_forall in Hall; [|exact Hw]. symmetry. by eapply Hall.
  - eapply Forall_forall in Hall; [|exact Hv]. by eapply Hall.
Qed.

(** C20. A publication identity names one status: over every interleaving of reads,
    invalidations and failures, two publications with the same epoch and revision
    are the same document; within an epoch the later one never has the smaller
    revision; and revisions stay between 1 and 2^53 - 1. *)
Theorem status_identity_sound uuid es o log :
  NoDup (uuid :: (es ≫= uuid_of)) →
  run (default_observations uuid) [] es = Some (o, log) →
  StronglySorted ordered log ∧
  (∀ v w i, v ∈ log → w ∈ log → identity v = Some i → identity w = Some i → v = w) ∧
  Forall (λ v, ∃ e r, identity v = Some (e, r) ∧ (1 <= r <= 2 ^ 53 - 1)%Z) log.
Proof.
  intros [Hu Hnd]%NoDup_cons Hrun.
  assert (obs_inv [] (state o) log) as [_ _ Hsort Hlog _].
  { eapply observation_run_inv; [| |exact Hrun]; rewrite app_nil_r; [|done].
    split; cbn; [done|done|constructor|constructor|by intros []]. }
  split_and!; [done| |].
  - intros v w [e r]. by apply ordered_same.
  - eapply Forall_impl; [exact Hlog|]. intros v (e & r & ? & _ & ? & _). by exists e, r.
Qed.

(** Invalidations while a read is in flight. *)
Lemma run_invalidations n o log :
  (generation (state o) + N.of_nat n <= u64_max)%N →
  run o log (replicate n Invalidate) =
  Some ({| capture := capture o;
           state := {| generation := generation (state o) + N.of_nat n; epoch := epoch (state o);
                       previous_epoch := previous_epoch (state o); revision := revision (state o);
                       value := value (state o) |} |}, log).
Proof.
  revert o. induction n as [|n IH]; intros [c [g e p r v]] Hg; cbn [generation state] in Hg.
  - cbn. by rewrite N.add_0_r.
  - cbn [replicate run step state capture]. unfold invalidate. cbn [generation].
    destruct (N.eqb_spec g u64_max); [lia|]. cbn [published app]. rewrite IH by (cbn [generation state]; lia).
    cbn [capture state generation epoch previous_epoch revision value].
    by replace (g + 1 + N.of_nat n)%N with (g + N.of_nat (S n))%N by lia.
Qed.

(** A read that was invalidated in flight is never published: whatever it
    returned, [observe] fails with a conflict (or panics on a value that is no
    object) and the published status, its revision and its epoch stay. Generations
    do not wrap, so no number of invalidations hides. *)
Theorem invalidated_read_refused n o log read uuid :
  capture o = None → (generation (state o) + N.of_nat (S n) <= u64_max)%N →
  ∃ o', run o log (Begin :: replicate (S n) Invalidate ++ [Finish read uuid]) = Some (o', log) ∧
    capture o' = None ∧
    value (state o') = value (state o) ∧ revision (state o') = revision (state o) ∧
    epoch (state o') = epoch (state o) ∧
    (is_Some (observed read) → ∀ s, generation s ≠ generation (state o) →
       (publish (generation (state o)) uuid read s).2 = Refused status_changed).
Proof.
  intros Hc Hg. destruct o as [c s]. cbn in Hc. subst c. cbn [run step capture state published app].
  rewrite run_app, run_invalidations by done. cbn [capture state run step].
  assert (∀ s', generation s' ≠ generation s →
    publish (generation s) uuid read s' = (s', match observed read with
      | Some _ => Refused status_changed | None => Panicked end)) as Hpub.
  { intros s' Hne. unfold publish. destruct (observed read) as [v|]; [|done].
    by destruct (N.eqb_spec (generation s) (generation s')). }
  rewrite Hpub by (cbn [generation]; lia). destruct (observed read) as [v|] eqn:Ho; cbn;
    (eexists; split_and!; [reflexivity..|]); [|by intros []].
  intros _ s' Hne. by rewrite Hpub.
Qed.

(** ** Examples *)

Definition status (active : bool) : result json Error := Ok (JObj [("active", JBool active)]).

(** An unchanged read keeps its identity; an unavailable status is ordered. *)
Example unchanged_then_unavailable :
  match run (default_observations "e") []
    [Begin; Finish (status true) "u1"; Begin; Finish (status true) "u2";
     Begin; Finish (Err (plain "down")) "u3"] with
  | Some (_, log) => identity <$> log = [Some ("e", 2%Z); Some ("e", 1%Z); Some ("e", 1%Z)]
  | None => False
  end.
Proof. reflexivity. Qed.

Lemma status_identity_sound_witness :
  ∃ o log, run (default_observations "e") []
      [Begin; Finish (status true) "u1"; Begin; Invalidate; Finish (status false) "u2";
       Begin; Finish (status true) "u3"] = Some (o, log) ∧
    length log = 2 ∧ StronglySorted ordered log.
Proof.
  eexists _, _. split; [reflexivity|]. split; [reflexivity|].
  eapply (status_identity_sound "e" [Begin; Finish (status true) "u1"; Begin; Invalidate;
    Finish (status false) "u2"; Begin; Finish (status true) "u3"]); [|reflexivity].
  apply (bool_decide_unpack _). vm_compute. done.
Defined.

Lemma invalidated_read_refused_witness :
  ∃ o', run (default_observations "e") [] (Begin :: replicate 2 Invalidate ++ [Finish (status true) "u"])
    = Some (o', []) ∧ revision (state o') = 0%N.
Proof.
  destruct (invalidated_read_refused 1 (default_observations "e") [] (status true) "u")
    as (o' & Hrun & _ & _ & Hr & _); [reflexivity|vm_compute; discriminate|].
  exists o'. split; [exact Hrun|exact Hr].
Defined.
