(* ===== verification/Protocol.v ===== *)
(** * The protocol: registries, events and dispatch
    ([src/protocol.rs], [src/daemon_event.rs], [src/daemon_dispatch.rs],
    [src/daemon_dispatch/immediate.rs], [src/output.rs])

    The method and stream registries, the events of a stream with the check that
    an event is registered for it, and the dispatch of a method call. The envelope
    format is the [shelllist_daemon_core] crate's and a class here; the handlers and
    the deserializers of their parameters are arguments of the dispatcher. *)
From S2P Require Import Prelude Errors Values Text.
From Stdlib Require Import ZArith Lia Ascii.
From stdpp Require Import prelude strings list.

(** ** Streams *)

Module St.
Inductive Stream :=
| WifiStatus | NetworkConnectivity | NetworkInventory | NetworkStatistics | Hotspot | Vpn
| NetworkHealth | WifiNetworks | WifiScan | WifiConnect | WifiBand | WifiSecret
| DaemonRequest | DaemonSubscription.
#[global] Instance eq_dec : EqDecision Stream.
Proof. solve_decision. Defined.
#[global] Instance inhabited : Inhabited Stream := populate WifiStatus.

(** [self as usize]. *)
Definition index (s : Stream) : nat :=
  match s with
  | WifiStatus => 0 | NetworkConnectivity => 1 | NetworkInventory => 2
  | NetworkStatistics => 3 | Hotspot => 4 | Vpn => 5 | NetworkHealth => 6
  | WifiNetworks => 7 | WifiScan => 8 | WifiConnect => 9 | WifiBand => 10
  | WifiSecret => 11 | DaemonRequest => 12 | DaemonSubscription => 13
  end.
Definition all : list Stream :=
  [WifiStatus; NetworkConnectivity; NetworkInventory; NetworkStatistics; Hotspot;
   Vpn; NetworkHealth; WifiNetworks; WifiScan; WifiConnect;
   WifiBand; WifiSecret; DaemonRequest; DaemonSubscription].
End St.
Export St (Stream).

Module Delivery.
Inductive StreamDelivery :=
| Continuous | Operation | External | Internal.
#[global] Instance eq_dec : EqDecision StreamDelivery.
Proof. solve_decision. Defined.
End Delivery.
Export Delivery (StreamDelivery).

Record StreamSpec := {
  st_stream : Stream;
  st_name : string;
  st_subscribable : bool;
  st_default : bool;
  st_delivery : StreamDelivery;
  st_events : list string;
  st_description : string;
}.

Definition STREAM_REGISTRY : list StreamSpec := [
  {| st_stream := St.WifiStatus; st_name := "wifi.status";
     st_subscribable := true; st_default := true; st_delivery := Delivery.Continuous;
     st_events := ["subscribed"; "changed"];
     st_description := "Full Wi-Fi status replacement sharing available/_publication with wifi.status reads, including unavailability." |};
  {| st_stream := St.NetworkConnectivity; st_name := "network.connectivity";
     st_subscribable := true; st_default := true; st_delivery := Delivery.Continuous;
     st_events := ["subscribed"; "changed"];
     st_description := "Connectivity and portal state, emitted immediately and on change." |};
  {| st_stream := St.NetworkInventory; st_name := "network.inventory";
     st_subscribable := true; st_default := false; st_delivery := Delivery.Continuous;
     st_events := ["subscribed"; "changed"];
     st_description := "Cross-type device, profile, and active-connection inventory emitted on local NetworkManager changes." |};
  {| st_stream := St.NetworkStatistics; st_name := "network.statistics";
     st_subscribable := true; st_default := false; st_delivery := Delivery.Operation;
     st_events := ["subscribed"; "started"; "sample"; "failed"; "cancelled"];
     st_description := "Device transfer counters and derived rates for a network.statistics.watch request id." |};
  {| st_stream := St.Hotspot; st_name := "hotspot";
     st_subscribable := true; st_default := false; st_delivery := Delivery.Operation;
     st_events := ["subscribed"; "started"; "progress"; "succeeded"; "failed"; "cancelled"];
     st_description := "Events associated with a hotspot.start request id." |};
  {| st_stream := St.Vpn; st_name := "vpn";
     st_subscribable := true; st_default := false; st_delivery := Delivery.Operation;
     st_events := ["subscribed"; "started"; "progress"; "succeeded"; "failed"; "cancelled"];
     st_description := "VPN and WireGuard activation state and typed failure reasons for a vpn.connect request id." |};
  {| st_stream := St.NetworkHealth; st_name := "network.health";
     st_subscribable := true; st_default := false; st_delivery := Delivery.External;
     st_events := ["subscribed"; "device"; "connection"; "vpn"];
     st_description := "Typed device, active-connection, and VPN state transitions with NetworkManager's reason. Presentation stays with the frontend." |};
  {| st_stream := St.WifiNetworks; st_name := "wifi.networks";
     st_subscribable := true; st_default := false; st_delivery := Delivery.Continuous;
     st_events := ["subscribed"; "changed"];
     st_description := "Added, removed, and changed visible networks emitted from local NetworkManager state without requesting scans." |};
  {| st_stream := St.WifiScan; st_name := "wifi.scan";
     st_subscribable := true; st_default := true; st_delivery := Delivery.Operation;
     st_events := ["subscribed"; "status"; "warning"; "snapshot"; "complete"; "cancelled"; "failed"];
     st_description := "Events associated with a wifi.scan request id." |};
  {| st_stream := St.WifiConnect; st_name := "wifi.connect";
     st_subscribable := true; st_default := false; st_delivery := Delivery.Operation;
     st_events := ["subscribed"; "started"; "progress"; "succeeded"; "failed"; "cancelled"];
     st_description := "Events associated with a wifi.connectTarget request id." |};
  {| st_stream := St.WifiBand; st_name := "wifi.band";
     st_subscribable := true; st_default := false; st_delivery := Delivery.Operation;
     st_events := ["subscribed"; "started"; "progress"; "succeeded"; "failed"; "cancelled"];
     st_description := "Events associated with a transactional wifi.band.set request id." |};
  {| st_stream := St.WifiSecret; st_name := "wifi.secret";
     st_subscribable := true; st_default := false; st_delivery := Delivery.External;
     st_events := ["subscribed"; "requested"; "cancelled"; "delivered"; "persistence"];
     st_description := "SecretAgent prompt, cancellation, and NetworkManager persistence events." |};
  {| st_stream := St.DaemonRequest; st_name := "daemon.request";
     st_subscribable := false; st_default := false; st_delivery := Delivery.Internal;
     st_events := ["cancelled"];
     st_description := "Internal request-cancellation acknowledgements." |};
  {| st_stream := St.DaemonSubscription; st_name := "daemon.subscription";
     st_subscribable := false; st_default := false; st_delivery := Delivery.Internal;
     st_events := ["cancelled"];
     st_description := "Internal subscription-cancellation acknowledgements." |}
].

(** ** Methods *)

Module Meth.
Inductive Method :=
| WifiStatus | WifiSetEnabled | RadioSetWwanEnabled | RadioSetAirplaneMode
| NetworkConnectivity | NetworkPortalPrepare | NetworkPortalClaim | NetworkPortalComplete
| NetworkInventory | NetworkDevices | NetworkConnections | NetworkState
| NetworkActivateProfile | NetworkDeactivate | NetworkStatisticsWatch | HotspotCapabilities
| HotspotStatus | HotspotStart | HotspotStop | VpnList | VpnStatus | VpnConnect
| VpnDisconnect | WifiQrParse | WifiQrRender | WifiQrConnect | WifiNetworks
| WifiBandStatus | WifiBandSet | WifiSaved | WifiScan | WifiConnectTarget | WifiDisconnect
| WifiProfileOperation | WifiSecretCapabilities | WifiSecretProvide | DiscoveryServices
| OperationStatus.
#[global] Instance eq_dec : EqDecision Method.
Proof. solve_decision. Defined.
#[global] Instance inhabited : Inhabited Method := populate WifiStatus.

(** [self as usize]. *)
Definition index (m : Method) : nat :=
  match m with
  | WifiStatus => 0 | WifiSetEnabled => 1 | RadioSetWwanEnabled => 2
  | RadioSetAirplaneMode => 3 | NetworkConnectivity => 4 | NetworkPortalPrepare => 5
  | NetworkPortalClaim => 6 | NetworkPortalComplete => 7 | NetworkInventory => 8
  | NetworkDevices => 9 | NetworkConnections => 10 | NetworkState => 11
  | NetworkActivateProfile => 12 | NetworkDeactivate => 13 | NetworkStatisticsWatch => 14
  | HotspotCapabilities => 15 | HotspotStatus => 16 | HotspotStart => 17
  | HotspotStop => 18 | VpnList => 19 | VpnStatus => 20 | VpnConnect => 21
  | VpnDisconnect => 22 | WifiQrParse => 23 | WifiQrRender => 24 | WifiQrConnect => 25
  | WifiNetworks => 26 | WifiBandStatus => 27 | WifiBandSet => 28 | WifiSaved => 29
  | WifiScan => 30 | WifiConnectTarget => 31 | WifiDisconnect => 32
  | WifiProfileOperation => 33 | WifiSecretCapabilities => 34 | WifiSecretProvide => 35
  | DiscoveryServices => 36 | OperationStatus => 37
  end.
Definition all : list Method :=
  [WifiStatus; WifiSetEnabled; RadioSetWwanEnabled; RadioSetAirplaneMode;
   NetworkConnectivity; NetworkPortalPrepare; NetworkPortalClaim; NetworkPortalComplete;
   NetworkInventory; NetworkDevices; NetworkConnections; NetworkState;
   NetworkActivateProfile; NetworkDeactivate; NetworkStatisticsWatch; HotspotCapabilities;
   HotspotStatus; HotspotStart; HotspotStop; VpnList;
   VpnStatus; VpnConnect; VpnDisconnect; WifiQrParse;
   WifiQrRender; WifiQrConnect; WifiNetworks; WifiBandStatus;
   WifiBandSet; WifiSaved; WifiScan; WifiConnectTarget;
   WifiDisconnect; WifiProfileOperation; WifiSecretCapabilities; WifiSecretProvide;
   DiscoveryServices; OperationStatus].
End Meth.
Export Meth (Method).

Module Param.
Inductive ParameterKind :=
| Empty | PortalPrepare | PortalClaim | PortalComplete | Enabled | ActivateProfile
| Deactivate | StatisticsWatch | HotspotStart | VpnSelect | VpnConnect | QrPayload
| QrConnect | Networks | BandStatus | BandSet | Scan | ConnectTarget | ProfileOperation
| SecretCapabilities | SecretProvide | DiscoveryServices | RequestStatus.
#[global] Instance eq_dec : EqDecision ParameterKind.
Proof. solve_decision. Defined.

(** [{:?}] and [#[serde(rename_all = "kebab-case")]]. *)
Definition debug (p : ParameterKind) : string :=
  match p with
  | Empty => "Empty" | PortalPrepare => "PortalPrepare" | PortalClaim => "PortalClaim"
  | PortalComplete => "PortalComplete" | Enabled => "Enabled"
  | ActivateProfile => "ActivateProfile" | Deactivate => "Deactivate"
  | StatisticsWatch => "StatisticsWatch" | HotspotStart => "HotspotStart"
  | VpnSelect => "VpnSelect" | VpnConnect => "VpnConnect" | QrPayload => "QrPayload"
  | QrConnect => "QrConnect" | Networks => "Networks" | BandStatus => "BandStatus"
  | BandSet => "BandSet" | Scan => "Scan" | ConnectTarget => "ConnectTarget"
  | ProfileOperation => "ProfileOperation" | SecretCapabilities => "SecretCapabilities"
  | SecretProvide => "SecretProvide" | DiscoveryServices => "DiscoveryServices"
  | RequestStatus => "RequestStatus"
  end.
Definition name (p : ParameterKind) : string :=
  match p with
  | Empty => "empty" | PortalPrepare => "portal-prepare" | PortalClaim => "portal-claim"
  | PortalComplete => "portal-complete" | Enabled => "enabled"
  | ActivateProfile => "activate-profile" | Deactivate => "deactivate"
  | StatisticsWatch => "statistics-watch" | HotspotStart => "hotspot-start"
  | VpnSelect => "vpn-select" | VpnConnect => "vpn-connect" | QrPayload => "qr-payload"
  | QrConnect => "qr-connect" | Networks => "networks" | BandStatus => "band-status"
  | BandSet => "band-set" | Scan => "scan" | ConnectTarget => "connect-target"
  | ProfileOperation => "profile-operation" | SecretCapabilities => "secret-capabilities"
  | SecretProvide => "secret-provide" | DiscoveryServices => "discovery-services"
  | RequestStatus => "request-status"
  end.
End Param.
Export Param (ParameterKind).

Record MethodSpec := {
  m_method : Method;
  m_name : string;
  m_parameters : ParameterKind;
  m_params_example : string;
  m_response_key : string;
  m_stream : option Stream;
  m_operation : ErrorOperation;
  m_description : string;
}.

(** A raw string of the source: an apostrophe stands for its double quote. *)
Fixpoint raw (s : string) : string :=
  match s with
  | EmptyString => EmptyString
  | String c s => String (if bool_decide (c = "'"%char) then ascii_of_nat 34 else c) (raw s)
  end.

Definition METHOD_REGISTRY : list MethodSpec := [
  {| m_method := Meth.WifiStatus; m_name := "wifi.status"; m_parameters := Param.Empty;
     m_params_example := "{}";
     m_response_key := "status"; m_stream := Some St.WifiStatus; m_operation := Op.Status;
     m_description := "Authoritative Wi-Fi status with available and atomic _publication epoch/revision; unavailable is not inactive." |};
  {| m_method := Meth.WifiSetEnabled; m_name := "wifi.setEnabled"; m_parameters := Param.Enabled;
     m_params_example := raw "{'enabled':true}";
     m_response_key := "result"; m_stream := None; m_operation := Op.Status;
     m_description := "Enables or disables the NetworkManager Wi-Fi radio." |};
  {| m_method := Meth.RadioSetWwanEnabled; m_name := "radio.setWwanEnabled"; m_parameters := Param.Enabled;
     m_params_example := raw "{'enabled':true}";
     m_response_key := "result"; m_stream := None; m_operation := Op.Status;
     m_description := "Enables or disables NetworkManager mobile-data radios." |};
  {| m_method := Meth.RadioSetAirplaneMode; m_name := "radio.setAirplaneMode"; m_parameters := Param.Enabled;
     m_params_example := raw "{'enabled':true}";
     m_response_key := "result"; m_stream := None; m_operation := Op.Status;
     m_description := "Disables or restores NetworkManager Wi-Fi and mobile-data radios." |};
  {| m_method := Meth.NetworkConnectivity; m_name := "network.connectivity"; m_parameters := Param.Empty;
     m_params_example := "{}";
     m_response_key := "connectivity"; m_stream := Some St.NetworkConnectivity; m_operation := Op.Connectivity;
     m_description := "NetworkManager connectivity and captive-portal state." |};
  {| m_method := Meth.NetworkPortalPrepare; m_name := "network.portalPrepare"; m_parameters := Param.PortalPrepare;
     m_params_example := raw "{'mode':'manual','fallback':false}";
     m_response_key := "portal"; m_stream := None; m_operation := Op.Connectivity;
     m_description := "Prepare a short-lived portal launch intent for the current primary connection; never opens a browser." |};
  {| m_method := Meth.NetworkPortalClaim; m_name := "network.portalClaim"; m_parameters := Param.PortalClaim;
     m_params_example := raw "{'launch_id':'opaque-launch-id'}";
     m_response_key := "portal"; m_stream := None; m_operation := Op.Connectivity;
     m_description := "Revalidate and claim a portal intent exactly once before frontend browser execution." |};
  {| m_method := Meth.NetworkPortalComplete; m_name := "network.portalComplete"; m_parameters := Param.PortalComplete;
     m_params_example := raw "{'launch_id':'opaque-launch-id','outcome':'opened'}";
     m_response_key := "portal"; m_stream := None; m_operation := Op.Connectivity;
     m_description := "Acknowledge frontend execution as opened, failed (no effect), or uncertain; never retries an automatic launch." |};
  {| m_method := Meth.NetworkInventory; m_name := "network.inventory"; m_parameters := Param.Empty;
     m_params_example := "{}";
     m_response_key := "inventory"; m_stream := Some St.NetworkInventory; m_operation := Op.Inventory;
     m_description := "Devices, saved profiles, and active connections across NetworkManager connection types." |};
  {| m_method := Meth.NetworkDevices; m_name := "network.devices"; m_parameters := Param.Empty;
     m_params_example := "{}";
     m_response_key := "devices"; m_stream := Some St.NetworkInventory; m_operation := Op.Inventory;
     m_description := "All NetworkManager devices with type, state, reason, and availability details." |};
  {| m_method := Meth.NetworkConnections; m_name := "network.connections"; m_parameters := Param.Empty;
     m_params_example := "{}";
     m_response_key := "connections"; m_stream := Some St.NetworkInventory; m_operation := Op.Inventory;
     m_description := "All saved NetworkManager profiles of every connection type with availability and activation state." |};
  {| m_method := Meth.NetworkState; m_name := "network.status"; m_parameters := Param.Empty;
     m_params_example := "{}";
     m_response_key := "network"; m_stream := Some St.NetworkInventory; m_operation := Op.Inventory;
     m_description := "Overall NetworkManager state, radios, connectivity, and primary/activating connection identity." |};
  {| m_method := Meth.NetworkActivateProfile; m_name := "network.activateProfile"; m_parameters := Param.ActivateProfile;
     m_params_example := raw "{'uuid':'0f6c...','path':null,'device':null}";
     m_response_key := "result"; m_stream := Some St.NetworkInventory; m_operation := Op.Connect;
     m_description := "Activates one saved profile of any connection type on a compatible device." |};
  {| m_method := Meth.NetworkDeactivate; m_name := "network.deactivate"; m_parameters := Param.Deactivate;
     m_params_example := raw "{'path':'/org/freedesktop/NetworkManager/ActiveConnection/1','uuid':null}";
     m_response_key := "result"; m_stream := Some St.NetworkInventory; m_operation := Op.Disconnect;
     m_description := "Deactivates one active connection by active-connection path or profile UUID." |};
  {| m_method := Meth.NetworkStatisticsWatch; m_name := "network.statistics.watch"; m_parameters := Param.StatisticsWatch;
     m_params_example := raw "{'device':'wlan0','interval_ms':1000}";
     m_response_key := "result"; m_stream := Some St.NetworkStatistics; m_operation := Op.Statistics;
     m_description := "Starts an owner-scoped device transfer-counter watch and returns its request id." |};
  {| m_method := Meth.HotspotCapabilities; m_name := "hotspot.capabilities"; m_parameters := Param.Empty;
     m_params_example := "{}";
     m_response_key := "hotspot"; m_stream := None; m_operation := Op.HotspotOperation;
     m_description := "Reports whether a Wi-Fi hotspot can be started, and why not when it cannot." |};
  {| m_method := Meth.HotspotStatus; m_name := "hotspot.status"; m_parameters := Param.Empty;
     m_params_example := "{}";
     m_response_key := "hotspot"; m_stream := None; m_operation := Op.HotspotOperation;
     m_description := "Reports the running Wi-Fi hotspot, if any." |};
  {| m_method := Meth.HotspotStart; m_name := "hotspot.start"; m_parameters := Param.HotspotStart;
     m_params_example := raw "{'ssid':null,'passphrase':null,'security':'wpa-psk','band':'auto','channel':null,'hidden':false,'device':null}";
     m_response_key := "result"; m_stream := Some St.Hotspot; m_operation := Op.HotspotOperation;
     m_description := "Starts a volatile Wi-Fi hotspot and returns a cancellable request id." |};
  {| m_method := Meth.HotspotStop; m_name := "hotspot.stop"; m_parameters := Param.Empty;
     m_params_example := "{}";
     m_response_key := "result"; m_stream := None; m_operation := Op.HotspotOperation;
     m_description := "Stops the running Wi-Fi hotspot and removes its volatile profile." |};
  {| m_method := Meth.VpnList; m_name := "vpn.list"; m_parameters := Param.Empty;
     m_params_example := "{}";
     m_response_key := "vpns"; m_stream := None; m_operation := Op.VpnOperation;
     m_description := "Saved VPN and WireGuard profiles with plugin, secret, and activation details." |};
  {| m_method := Meth.VpnStatus; m_name := "vpn.status"; m_parameters := Param.Empty;
     m_params_example := "{}";
     m_response_key := "vpn"; m_stream := None; m_operation := Op.VpnOperation;
     m_description := "Active VPN and WireGuard connections with plugin state, banner, and duration." |};
  {| m_method := Meth.VpnConnect; m_name := "vpn.connect"; m_parameters := Param.VpnConnect;
     m_params_example := raw "{'uuid':'0a1c...','path':null,'timeout':45}";
     m_response_key := "result"; m_stream := Some St.Vpn; m_operation := Op.VpnOperation;
     m_description := "Activates a saved VPN or WireGuard profile and returns a cancellable request id." |};
  {| m_method := Meth.VpnDisconnect; m_name := "vpn.disconnect"; m_parameters := Param.VpnSelect;
     m_params_example := raw "{'uuid':null,'path':null}";
     m_response_key := "result"; m_stream := None; m_operation := Op.VpnOperation;
     m_description := "Deactivates one active VPN or WireGuard connection, or the only active one." |};
  {| m_method := Meth.WifiQrParse; m_name := "wifi.qr.parse"; m_parameters := Param.QrPayload;
     m_params_example := raw "{'payload':'WIFI:T:WPA;S:Example;P:...;;'}";
     m_response_key := "qr"; m_stream := None; m_operation := Op.QrOperation;
     m_description := "Validates a scanned Wi-Fi QR payload without logging it or echoing its secret." |};
  {| m_method := Meth.WifiQrRender; m_name := "wifi.qr.render"; m_parameters := Param.QrPayload;
     m_params_example := raw "{'payload':'WIFI:T:nopass;S:Guest;;'}";
     m_response_key := "result"; m_stream := None; m_operation := Op.QrOperation;
     m_description := "Explicitly renders a validated Wi-Fi payload in memory; response contains credentials." |};
  {| m_method := Meth.WifiQrConnect; m_name := "wifi.qr.connect"; m_parameters := Param.QrConnect;
     m_params_example := raw "{'payload':'WIFI:T:WPA;S:Example;P:...;;','ifname':null}";
     m_response_key := "result"; m_stream := Some St.WifiConnect; m_operation := Op.QrOperation;
     m_description := "Connects to the network in a scanned Wi-Fi QR payload and returns a connect request id." |};
  {| m_method := Meth.WifiNetworks; m_name := "wifi.networks"; m_parameters := Param.Networks;
     m_params_example := raw "{'cached':false,'refresh_cache':false,'refresh_timeout':20}";
     m_response_key := "networks"; m_stream := Some St.WifiNetworks; m_operation := Op.Networks;
     m_description := "Visible networks enriched with saved-profile, capability, and snapshot freshness details; optionally emits local change deltas." |};
  {| m_method := Meth.WifiBandStatus; m_name := "wifi.band.status"; m_parameters := Param.BandStatus;
     m_params_example := raw "{'path':'/org/freedesktop/NetworkManager/Settings/1'}";
     m_response_key := "band"; m_stream := None; m_operation := Op.BandOperation;
     m_description := "Reports the active, selected, and available bands for an active Wi-Fi profile." |};
  {| m_method := Meth.WifiBandSet; m_name := "wifi.band.set"; m_parameters := Param.BandSet;
     m_params_example := raw "{'path':'/org/freedesktop/NetworkManager/Settings/1','band':'5'}";
     m_response_key := "result"; m_stream := Some St.WifiBand; m_operation := Op.BandOperation;
     m_description := "Transactionally changes an active Wi-Fi profile band and returns a request id." |};
  {| m_method := Meth.WifiSaved; m_name := "wifi.saved"; m_parameters := Param.Empty;
     m_params_example := "{}";
     m_response_key := "profiles"; m_stream := None; m_operation := Op.ProfileOperation;
     m_description := "All saved Wi-Fi NetworkManager profiles." |};
  {| m_method := Meth.WifiScan; m_name := "wifi.scan"; m_parameters := Param.Scan;
     m_params_example := raw "{'timeout':20,'strict':false,'cache':false,'ifname':null,'ssids':[]}";
     m_response_key := "result"; m_stream := Some St.WifiScan; m_operation := Op.Scan;
     m_description := "Starts an event-driven scan and returns its request id." |};
  {| m_method := Meth.WifiConnectTarget; m_name := "wifi.connectTarget"; m_parameters := Param.ConnectTarget;
     m_params_example := raw "{'key':'ssid-hex:4578616d706c65|security:personal|ifname:776c616e30','password':null,'enterprise_identity':null,'enterprise':null,'wep_key_type':null}";
     m_response_key := "result"; m_stream := Some St.WifiConnect; m_operation := Op.Connect;
     m_description := "Starts an event-driven Wi-Fi connection by opaque network key and returns its request id; legacy target requests remain accepted." |};
  {| m_method := Meth.WifiDisconnect; m_name := "wifi.disconnect"; m_parameters := Param.Empty;
     m_params_example := "{}";
     m_response_key := "result"; m_stream := None; m_operation := Op.Disconnect;
     m_description := "Disconnects the active Wi-Fi connection." |};
  {| m_method := Meth.WifiProfileOperation; m_name := "wifi.profile.operation"; m_parameters := Param.ProfileOperation;
     m_params_example := raw "{'operation':'set-casting','path':'/org/freedesktop/NetworkManager/Settings/1','enabled':true}";
     m_response_key := "result"; m_stream := None; m_operation := Op.ProfileOperation;
     m_description := "Mutates or builds a share payload for one saved Wi-Fi profile." |};
  {| m_method := Meth.WifiSecretCapabilities; m_name := "wifi.secret.capabilities"; m_parameters := Param.SecretCapabilities;
     m_params_example := "{}";
     m_response_key := "secret_agent"; m_stream := Some St.WifiSecret; m_operation := Op.SecretOperation;
     m_description := "Reports SecretAgent and NetworkManager credential storage capabilities." |};
  {| m_method := Meth.WifiSecretProvide; m_name := "wifi.secret.provide"; m_parameters := Param.SecretProvide;
     m_params_example := raw "{'request_id':'...','values':{'psk':'...'},'save':false,'cancel':false}";
     m_response_key := "result"; m_stream := Some St.WifiSecret; m_operation := Op.SecretOperation;
     m_description := "Answers a pending SecretAgent request." |};
  {| m_method := Meth.DiscoveryServices; m_name := "discovery.services"; m_parameters := Param.DiscoveryServices;
     m_params_example := raw "{'service_type':'_googlecast._tcp','name':null,'interface_index':null,'family':'any'}";
     m_response_key := "discovery"; m_stream := None; m_operation := Op.Discovery;
     m_description := "Browses or resolves one local DNS-SD service type through systemd-resolved." |};
  {| m_method := Meth.OperationStatus; m_name := "operation.status"; m_parameters := Param.RequestStatus;
     m_params_example := raw "{'request_id':'connect-1'}";
     m_response_key := "result"; m_stream := None; m_operation := Op.Status;
     m_description := "Reports whether an owner-scoped operation is running and replays a cached Wi-Fi connect terminal event when available." |}
].

(** ** Lookup in the registries *)

Definition stream_spec (s : Stream) : StreamSpec :=
  nth (St.index s) STREAM_REGISTRY
    {| st_stream := s; st_name := ""; st_subscribable := false; st_default := false;
       st_delivery := Delivery.Internal; st_events := []; st_description := "" |}.
Definition stream_name (s : Stream) : string := st_name (stream_spec s).
Definition parse_stream (value : string) : option Stream :=
  st_stream <$> find_first (λ spec, bool_decide (st_name spec = value)) STREAM_REGISTRY.
Definition parse_subscription (value : string) : option Stream :=
  match parse_stream value with
  | Some s => if st_subscribable (stream_spec s) then Some s else None
  | None => None
  end.
Definition default_streams : list Stream :=
  st_stream <$> List.filter st_default STREAM_REGISTRY.

Definition method_spec (m : Method) : MethodSpec :=
  nth (Meth.index m) METHOD_REGISTRY
    {| m_method := m; m_name := ""; m_parameters := Param.Empty; m_params_example := "";
       m_response_key := ""; m_stream := None; m_operation := Op.Unknown; m_description := "" |}.
Definition method_name (m : Method) : string := m_name (method_spec m).
Definition parse_method (value : string) : option Method :=
  m_method <$> find_first (λ spec, bool_decide (m_name spec = value)) METHOD_REGISTRY.

(** ** Subscriptions ([normalized_streams] of [src/daemon_dispatch.rs]) *)

Definition supported_stream_names : list string :=
  st_name <$> List.filter st_subscribable STREAM_REGISTRY.

Definition unsupported_streams_error (unsupported : list string) : Error :=
  EDomain (with_detail "supported_streams" (JArr (JStr <$> supported_stream_names))
    (with_detail "unsupported_streams" (JArr (JStr <$> unsupported))
      (validation Op.Subscribe "subscription contains unsupported event streams"))).

Definition collect_stream (acc : list Stream * list string) (name : string) :
    list Stream * list string :=
  let (normalized, unsupported) := acc in
  match parse_subscription name with
  | Some s => (if bool_decide (s ∈ normalized) then normalized else normalized ++ [s], unsupported)
  | None => (normalized, unsupported ++ [name])
  end.

Definition normalized_streams (streams : list string) : result (list Stream) Error :=
  match streams with
  | [] => Ok default_streams
  | _ =>
    let (normalized, unsupported) := foldl collect_stream ([], []) streams in
    match unsupported with
    | [] => Ok normalized
    | _ => Err (unsupported_streams_error unsupported)
    end
  end.

(** ** Envelopes *)

(** [#[serde(rename_all = "kebab-case")]] of [ErrorCode]. *)
Definition code_name (c : ErrorCode) : string :=
  match c with
  | Code.ValidationError => "validation-error"
  | Code.NetworkmanagerUnavailable => "networkmanager-unavailable"
  | Code.Conflict => "conflict" | Code.AuthorizationRequired => "authorization-required"
  | Code.NotFound => "not-found" | Code.Timeout => "timeout"
  | Code.OutcomeUnknown => "outcome-unknown" | Code.Cancelled => "cancelled"
  | Code.SecretRequired => "secret-required" | Code.WrongPassword => "wrong-password"
  | Code.PasswordUnavailable => "password-unavailable"
  | Code.UnsupportedAuth => "unsupported-auth" | Code.DhcpFailed => "dhcp-failed"
  | Code.ActivationFailed => "activation-failed" | Code.SubprocessFailed => "subprocess-failed"
  | Code.InternalError => "internal-error" | Code.Unknown => "unknown"
  end.

(** [ApiError] and [Correlation] of the envelope crate. *)
Record ApiError := { api_code : string; api_message : string; api_error_details : option json }.
Inductive Correlation := NoCorrelation | Request (id : string) | Subscription (id : string).

(** What the daemon relies on: an event envelope is an object that names its event
    and carries its data, and a response is an object that carries its data. *)
Class Envelopes := {
  event_envelope : string → string → Correlation → json → option ApiError → json;
  success : json → json;
  error_envelope : ApiError → json;
  event_envelope_object s e c d err : is_object (event_envelope s e c d err) = true;
  event_envelope_event s e c d err : jget (event_envelope s e c d err) "event" = JStr e;
  event_envelope_data s e c d err : jget (event_envelope s e c d err) "data" = d;
  success_data d : vget "data" (success d) = Some d;
  error_envelope_object err : is_object (error_envelope err) = true;
}.

Definition remove_field (k : string) (m : list (string * json)) : list (string * json) :=
  List.filter (λ kv, negb (bool_decide (kv.1 = k))) m.

Section Events.
Context `{Envelopes}.

(** [api_data_value] of a value that serializes. *)
Definition api_data_value (key : string) (v : json) : json := success (JObj [(key, v)]).

(** [envelope["data"] = json!({})] of an object. *)
Definition api_error_value_for (r : ErrorReport) : option json :=
  index_set "data" (JObj [])
    (error_envelope {| api_code := code_name (r_code r); api_message := r_message r;
                       api_error_details := Some (api_details r) |}).

Definition event_value (stream : Stream) (request_id : option string) (event : string)
    (data : json) : json :=
  let error :=
    match vget "code" data ≫= jstr with
    | Some c => Some {| api_code := c;
                        api_message := unwrap_or (jstr (jget data "message")) "Operation failed";
                        api_error_details := Some (jget data "details") |}
    | None => None
    end in
  let data := match data with JObj m => JObj (remove_field "request_id" m) | _ => data end in
  event_envelope (stream_name stream) event
    (match request_id with Some id => Request id | None => NoCorrelation end) data error.

Definition subscription_event_value (stream : Stream) (subscription_id event : string)
    (data : json) : json :=
  event_envelope (stream_name stream) event (Subscription subscription_id) data None.

Definition event_of (value : json) : string := unwrap_or (jstr (jget value "event")) "".

Definition unregistered_event (stream : Stream) (event : string) : Error :=
  EDomain (with_detail "event" (JStr event)
    (with_detail "stream" (JStr (stream_name stream))
      (internal Op.EmitEvent ("event '" +:+ event +:+ "' is not registered for stream '"
                              +:+ stream_name stream +:+ "'")))).

(** [emit]: [emit_event_signal], the transport. *)
Context (emit : Stream → json → result unit Error).

Definition emit_prepared_event (stream : Stream) (value : json) : result unit Error :=
  let event := event_of value in
  if bool_decide (event ∈ st_events (stream_spec stream)) then emit stream value
  else Err (unregistered_event stream event).

Definition emit_json_event (stream : Stream) (request_id : option string) (event : string)
    (data : json) : result unit Error :=
  emit_prepared_event stream (event_value stream request_id event data).

(** The ..._nonfatal variants log a failure. *)
Definition emit_json_event_nonfatal (stream : Stream) (request_id : option string)
    (event : string) (data : json) : option unit :=
  best_effort (emit_json_event stream request_id event data).
Definition emit_subscription_event_nonfatal (stream : Stream) (subscription_id event : string)
    (data : json) : option unit :=
  best_effort (emit_prepared_event stream (subscription_event_value stream subscription_id event data)).

Definition started_response (m : Method) (stream : Stream) (request_id message : string)
    (details : json) : result json Error :=
  match details with
  | JObj object =>
    let object := bt_insert "status" (JStr "started") object in
    let object := bt_insert "request_id" (JStr request_id) object in
    let object := bt_insert "stream" (JStr (stream_name stream)) object in
    let object := bt_insert "message" (JStr message) object in
    Ok (api_data_value (m_response_key (method_spec m)) (JObj object))
  | _ => Err (EDomain (internal Op.SerializeResponse
                "operation start response details must be a JSON object"))
  end.

(** *** [OperationEvents]: the event and data of each kind of report *)

Definition phase_data (request_id phase : string) : json :=
  JObj (bt_insert "phase" (JStr phase) (bt_insert "request_id" (JStr request_id) [])).
Definition succeeded_data (request_id : string) (result : json) : json :=
  JObj (bt_insert "result" result (bt_insert "phase" (JStr "complete")
    (bt_insert "request_id" (JStr request_id) []))).
Definition cancelled_data (request_id message : string) : json :=
  JObj (bt_insert "message" (JStr message) (bt_insert "phase" (JStr "cancelled")
    (bt_insert "request_id" (JStr request_id) []))).
Definition failed_data (request_id : string) (r : ErrorReport) : json :=
  JObj (bt_insert "details" (api_details r) (bt_insert "message" (JStr (r_message r))
    (bt_insert "code" (JStr (code_name (r_code r))) (bt_insert "phase" (JStr "failed")
      (bt_insert "request_id" (JStr request_id) []))))).

Definition operation_event (stream : Stream) (request_id event : string) (data : json) :
    option unit :=
  emit_json_event_nonfatal stream (Some request_id) event data.
Definition operation_error (stream : Stream) (request_id : string) (e : Error)
    (o : ErrorOperation) (cancellation_message : string) : option unit :=
  let report := from_error e o in
  if bool_decide (r_code report = Code.Cancelled) then
    operation_event stream request_id "cancelled" (cancelled_data request_id cancellation_message)
  else operation_event stream request_id "failed" (failed_data request_id report).

End Events.

(** ** Dispatch of a call *)

Definition wrong_dispatch_group (m : Method) : Error :=
  EDomain (internal (m_operation (method_spec m))
    ("method " +:+ method_name m +:+ " entered the wrong immediate dispatch group")).

Definition unsupported_method_error (method : string) : Error :=
  EDomain (with_detail "method" (JStr method)
    (validation Op.ParseRequest ("unsupported D-Bus method key: " +:+ method))).

Section Dispatch.
Context `{Envelopes}.
(** The parameters of the methods with their deserializers, the text of a
    deserialization error, and the handlers. *)
Context (params : Type) (default_params : Method → params).
Context (decode : Method → string → result params JsonError) (json_text : JsonError → string).
Context (handler : Method → option string → params → result json Error).

Definition parameter_error (e : JsonError) : Error :=
  EDomain (with_cause (EForeign (FJson e) (json_text e) None)
    (with_detail "transport" (JStr "dbus") (validation Op.ParseRequest (json_text e)))).

Definition parse_required_params (m : Method) (params_json : string) : result params Error :=
  result_map_err parameter_error (decode m (trim params_json)).

Definition parse_params (m : Method) (params_json : string) : result params Error :=
  let params_json := trim params_json in
  if bool_decide (params_json = "") then Ok (default_params m)
  else parse_required_params m params_json.

Definition dispatch_params (m : Method) (params_json : string) (owner : option string) :
    result json Error :=
  match m with
  | Meth.NetworkPortalPrepare | Meth.NetworkPortalClaim | Meth.NetworkPortalComplete
  | Meth.WifiQrRender | Meth.WifiQrParse | Meth.NetworkActivateProfile
  | Meth.NetworkDeactivate | Meth.DiscoveryServices | Meth.WifiBandStatus
  | Meth.WifiProfileOperation | Meth.WifiSecretProvide | Meth.OperationStatus =>
    let? p := parse_required_params m params_json in handler m owner p
  | Meth.VpnDisconnect | Meth.WifiNetworks | Meth.WifiSecretCapabilities =>
    let? p := parse_params m params_json in handler m owner p
  | _ => Err (wrong_dispatch_group m)
  end.

Definition dispatch_empty (m : Method) (params_json : string) (owner : option string) :
    result json Error :=
  let? p := parse_params m params_json in
  match m with
  | Meth.WifiStatus | Meth.NetworkConnectivity | Meth.NetworkInventory | Meth.NetworkDevices
  | Meth.NetworkConnections | Meth.NetworkState | Meth.HotspotCapabilities
  | Meth.HotspotStatus | Meth.HotspotStop | Meth.VpnList | Meth.VpnStatus
  | Meth.WifiDisconnect | Meth.WifiSaved => handler m owner p
  | _ => Err (wrong_dispatch_group m)
  end.

Definition dispatch_radio (m : Method) (params_json : string) (owner : option string) :
    result json Error :=
  let? p := parse_required_params m params_json in
  match m with
  | Meth.WifiSetEnabled | Meth.RadioSetWwanEnabled | Meth.RadioSetAirplaneMode =>
    handler m owner p
  | _ => Err (wrong_dispatch_group m)
  end.

Definition dispatch_immediate (m : Method) (params_json : string) (owner : option string) :
    result json Error :=
  match m_parameters (method_spec m) with
  | Param.Empty => dispatch_empty m params_json owner
  | Param.Enabled => dispatch_radio m params_json owner
  | _ => dispatch_params m params_json owner
  end.

Definition dispatch_method (m : Method) (params_json : string) (owner : option string) :
    result json Error :=
  match m with
  | Meth.WifiScan | Meth.NetworkStatisticsWatch | Meth.HotspotStart =>
    let? p := parse_params m params_json in handler m owner p
  | Meth.WifiConnectTarget | Meth.WifiQrConnect | Meth.VpnConnect | Meth.WifiBandSet =>
    let? p := parse_required_params m params_json in handler m owner p
  | _ => dispatch_immediate m params_json owner
  end.

(** [None]: a panic while the error envelope is built. *)
Definition unsupported_method_value (method : string) : option json :=
  api_error_value_for (from_error (unsupported_method_error method) Op.ParseRequest).

Definition dispatch_call (method params_json : string) (owner : option string) :
    option (result json Error) :=
  match parse_method method with
  | None => Ok <$> unsupported_method_value method
  | Some m => Some (operation_result (m_operation (method_spec m))
                      (dispatch_method m params_json owner))
  end.

(** [json_response] before the value is printed. *)
Definition response_value (r : result json Error) : option json :=
  match r with
  | Ok v => Some v
  | Err e => api_error_value_for (from_error e Op.Unknown)
  end.

(** Each method is handled by its own handler. *)
Definition handled (m : Method) (params_json : string) (owner : option string)
    (r : result json Error) : Prop :=
  (∃ p, (decode m (trim params_json) = Ok p ∨ (trim params_json = "" ∧ p = default_params m)) ∧
        r = handler m owner p) ∨
  (∃ e, decode m (trim params_json) = Err e ∧ r = Err (parameter_error e)).

End Dispatch.

(** ** The registries *)

Lemma stream_spec_stream s : st_stream (stream_spec s) = s.
Proof. by destruct s. Qed.
Lemma method_spec_method m : m_method (method_spec m) = m.
Proof. by destruct m. Qed.

Lemma parse_stream_name s : parse_stream (stream_name s) = Some s.
Proof. by destruct s. Qed.
Lemma parse_method_name m : parse_method (method_name m) = Some m.
Proof. by destruct m. Qed.

Lemma parse_stream_Some value s : parse_stream value = Some s → stream_name s = value.
Proof.
  unfold parse_stream. destruct (find_first _ _) as [spec|] eqn:Hf; [|done]. intros [= <-].
  apply find_first_Some in Hf as (l1 & l2 & Hl & Hp & _). bool_prop. subst value.
  assert (spec ∈ STREAM_REGISTRY) as Hin by (rewrite Hl; set_solver).
  repeat (apply elem_of_cons in Hin as [->|Hin]; [done|]). by apply elem_of_nil in Hin.
Qed.

Lemma parse_method_Some value m : parse_method value = Some m → method_name m = value.
Proof.
  unfold parse_method. destruct (find_first _ _) as [spec|] eqn:Hf; [|done]. intros [= <-].
  apply find_first_Some in Hf as (l1 & l2 & Hl & Hp & _). bool_prop. subst value.
  assert (spec ∈ METHOD_REGISTRY) as Hin by (rewrite Hl; set_solver).
  repeat (apply elem_of_cons in Hin as [->|Hin]; [done|]). by apply elem_of_nil in Hin.
Qed.

(** ** Dispatch: lemmas *)

Section Dispatch_facts.
Context `{Envelopes} (params : Type) (default_params : Method → params).
Context (decode : Method → string → result params JsonError) (json_text : JsonError → string).
Context (handler : Method → option string → params → result json Error).

Lemma required_handled m s owner :
  handled params default_params decode json_text handler m s owner
    (let? p := parse_required_params params decode json_text m s in handler m owner p).
Proof.
  unfold parse_required_params, handled. destruct (decode m (trim s)) as [p|e]; cbn; eauto.
Qed.

Lemma optional_handled m s owner :
  handled params default_params decode json_text handler m s owner
    (let? p := parse_params params default_params decode json_text m s in handler m owner p).
Proof.
  unfold parse_params, parse_required_params, handled. rewrite trim_trim.
  case_bool_decide as E; cbn; [|destruct (decode m (trim s)) as [p|e]; cbn; eauto].
  left. exists (default_params m). auto.
Qed.

Lemma dispatch_method_handled m s owner :
  handled params default_params decode json_text handler m s owner
    (dispatch_method params default_params decode json_text handler m s owner).
Proof.
  pose proof (required_handled m s owner). pose proof (optional_handled m s owner).
  destruct m; assumption.
Qed.

Lemma parameter_error_report e o :
  let r := from_error (parameter_error json_text e) o in
  r_code r = Code.ValidationError ∧ r_operation r = Op.ParseRequest ∧ r_message r = json_text e.
Proof. done. Qed.

End Dispatch_facts.

Lemma api_error_value_object `{Envelopes} r : is_Some (api_error_value_for r).
Proof. apply index_set_object, error_envelope_object. Qed.

Lemma event_value_event `{Envelopes} stream id event data :
  event_of (event_value stream id event data) = event.
Proof. unfold event_of, event_value. by rewrite event_envelope_event. Qed.

(** ** Normalizing subscriptions *)

Lemma collect_streams names normalized unsupported :
  NoDup normalized →
  let r := foldl collect_stream (normalized, unsupported) names in
  NoDup r.1 ∧
  (∀ s, s ∈ r.1 ↔ s ∈ normalized ∨ ∃ name, name ∈ names ∧ parse_subscription name = Some s) ∧
  r.2 = unsupported ++ List.filter (λ name, bool_decide (parse_subscription name = None)) names.
Proof.
  revert normalized unsupported. induction names as [|name names IH]; intros normalized unsupported Hnd.
  - cbn. rewrite app_nil_r. split_and!; [done| |done]. intros s. split; [by left|].
    intros [?|(? & ?%elem_of_nil & _)]; done.
  - cbn [foldl List.filter]. unfold collect_stream at 2 4 6.
    destruct (parse_subscription name) as [s0|] eqn:Hp.
    + destruct (IH (if bool_decide (s0 ∈ normalized) then normalized else normalized ++ [s0]) unsupported)
        as (H1 & H2 & H3).
      { case_bool_decide; [done|]. apply NoDup_app. split_and!; [done|set_solver|apply NoDup_singleton]. }
      split_and!; [done| |done]. intros s. rewrite H2. setoid_rewrite elem_of_cons.
      case_bool_decide; [|rewrite elem_of_app, list_elem_of_singleton]; naive_solver.
    + destruct (IH normalized (unsupported ++ [name]) Hnd) as (H1 & H2 & H3).
      split_and!; [done| |]; [|cbn; by rewrite H3, <-app_assoc].
      intros s. rewrite H2. setoid_rewrite elem_of_cons. naive_solver.
Qed.

(** ** Theorems *)

(** The registries are exact: the name of a method or stream parses back to it
    and no other text does, and the row found by its number is its own row. *)
Theorem registry_roundtrip :
  (∀ m value, parse_method value = Some m ↔ value = method_name m) ∧
  (∀ s value, parse_stream value = Some s ↔ value = stream_name s) ∧
  (∀ m, m_method (method_spec m) = m) ∧ (∀ s, st_stream (stream_spec s) = s) ∧
  (∀ m s, m_stream (method_spec m) = Some s → parse_subscription (stream_name s) = Some s).
Proof.
  split_and!.
  - intros m value. split; [intros E; symmetry; by apply parse_method_Some|intros ->; apply parse_method_name].
  - intros s value. split; [intros E; symmetry; by apply parse_stream_Some|intros ->; apply parse_stream_name].
  - exact method_spec_method.
  - exact stream_spec_stream.
  - intros m s E. destruct m; cbn in E; try done; by injection E as <-.
Qed.

(** Every method of the registry reaches its own handler: a call runs the
    handler of the method it names on the decoded parameters (on the defaults when
    none were given), or fails as a parse-request validation error when they do not
    decode; no method falls into a wrong dispatch group. Any other name is answered
    with a validation error, and every error that leaves is typed. *)
Theorem dispatch_exact `{Envelopes} (params : Type) default_params decode json_text
    (handler : Method → option string → params → result json Error) name s owner :
  match parse_method name with
  | Some m => ∃ r, handled params default_params decode json_text handler m s owner r ∧
      dispatch_call params default_params decode json_text handler name s owner =
        Some (operation_result (m_operation (method_spec m)) r)
  | None => ∃ v, unsupported_method_value name = Some v ∧
      r_code (from_error (unsupported_method_error name) Op.ParseRequest) = Code.ValidationError ∧
      dispatch_call params default_params decode json_text handler name s owner = Some (Ok v)
  end ∧
  (∀ e, dispatch_call params default_params decode json_text handler name s owner = Some (Err e) →
     is_Some (find_domain_error e)).
Proof.
  unfold dispatch_call. destruct (parse_method name) as [m|] eqn:Hp.
  - split.
    + eexists. split; [apply dispatch_method_handled|reflexivity].
    + intros e [= E]. unfold operation_result in E.
      destruct (dispatch_method _ _ _ _ _ _ _ _) as [v|e']; [done|]. injection E as <-.
      apply ensure_domain_typed.
  - destruct (api_error_value_object (from_error (unsupported_method_error name) Op.ParseRequest))
      as [v Hv]. unfold unsupported_method_value. rewrite Hv. split; [|done]. by exists v.
Qed.

(** The end of a failed operation is always reported: on every operation stream
    the events [cancelled] and [failed] are registered, so exactly one of them is
    handed to the transport, [cancelled] when the error is a cancellation and
    [failed] with the error's code otherwise. *)
Theorem operation_error_reported `{Envelopes} emit stream id e o message :
  st_delivery (stream_spec stream) = Delivery.Operation →
  operation_error emit stream id e o message =
  best_effort (emit stream
    (if bool_decide (r_code (from_error e o) = Code.Cancelled)
     then event_value stream (Some id) "cancelled" (cancelled_data id message)
     else event_value stream (Some id) "failed" (failed_data id (from_error e o)))).
Proof.
  intros Hd. unfold operation_error, operation_event, emit_json_event_nonfatal, emit_json_event,
    emit_prepared_event.
  case_bool_decide; rewrite !event_value_event, bool_decide_true; try done;
    destruct stream; try done; apply (bool_decide_unpack _); vm_compute; done.
Qed.

(** A subscription lists each stream once, in the order of first mention and
    only those asked for; a single unknown or internal name refuses the request and
    the error lists exactly the names at fault. *)
Theorem normalized_streams_exact names :
  names ≠ [] →
  let bad := List.filter (λ name, bool_decide (parse_subscription name = None)) names in
  match normalized_streams names with
  | Ok l => bad = [] ∧ NoDup l ∧
      ∀ s, s ∈ l ↔ ∃ name, name ∈ names ∧ parse_subscription name = Some s
  | Err e => bad ≠ [] ∧ e = unsupported_streams_error bad
  end.
Proof.
  intros Hne bad. destruct (collect_streams names [] [] NoDup_nil_2) as (H1 & H2 & H3).
  assert (normalized_streams names =
    let (normalized, unsupported) := foldl collect_stream ([], []) names in
    match unsupported with [] => Ok normalized | _ => Err (unsupported_streams_error unsupported) end)
    as -> by (by destruct names).
  destruct (foldl collect_stream ([], []) names) as [l u]. cbn in H1, H2, H3. fold bad in H3. subst u.
  destruct bad as [|b bad']; [|done]. split_and!; [done..|]. intros s. rewrite H2. set_solver.
Qed.

(** ** Examples *)

(** A plain envelope: the fields the daemon reads. *)
Definition plain_event (stream event : string) (c : Correlation) (data : json)
    (err : option ApiError) : json :=
  JObj [("data", data); ("event", JStr event); ("stream", JStr stream)].
Definition plain_envelopes : Envelopes.
Proof.
  refine {| event_envelope := plain_event;
            success := λ d, JObj [("data", d)];
            error_envelope := λ e, JObj [("error", JStr (api_code e))] |}; intros; reflexivity.
Defined.

Lemma operation_error_reported_witness :
  let _ := plain_envelopes in
  operation_error (λ _ v, if bool_decide (event_of v = "failed") then Ok tt else Err (plain "other"))
    St.WifiScan "scan-1" (plain "broken") Op.Scan "Scan cancelled" = Some tt.
Proof.
  intros E. rewrite (@operation_error_reported E) by reflexivity. reflexivity.
Defined.

Lemma normalized_streams_exact_witness :
  normalized_streams ["wifi.scan"; "daemon.request"; "vpn"; "wifi.scan"]
    = Err (unsupported_streams_error ["daemon.request"]) ∧
  normalized_streams ["vpn"; "wifi.scan"; "vpn"] = Ok [St.Vpn; St.WifiScan].
Proof.
  split; [|reflexivity].
  pose proof (normalized_streams_exact ["wifi.scan"; "daemon.request"; "vpn"; "wifi.scan"]
    ltac:(discriminate)) as H1.
  destruct (normalized_streams _) as [l|e] eqn:E; [vm_compute in E; discriminate|].
  destruct H1 as [_ ->]. reflexivity.
Defined.
