(* ===== verification/Runtime.v ===== *)
(** * The task table of the daemon ([src/daemon_runtime.rs], [src/daemon_runtime/lanes.rs])

    Operations that a client can observe or cancel are tasks. The task table is
    behind one mutex, the retained terminal results behind another that is only
    taken under the first, so each operation is one atomic step here. A cancellation
    flag is shared between the table and the worker (an [Arc<AtomicBool>]): flags
    live in a store, and a handle and its registration name one by its address.
    [RecentResults] of the [shelllist_daemon_core] crate is a class. *)
From S2P Require Import Prelude Errors Text Values Scan Protocol.
From Stdlib Require Import ZArith Lia Ascii.
From stdpp Require Import prelude gmap strings list.

Inductive TaskKind := Connect | Scan | Band | Statistics | Hotspot | Vpn.
#[export] Instance task_kind_eq_dec : EqDecision TaskKind.
Proof. solve_decision. Defined.

Definition stream (k : TaskKind) : Stream :=
  match k with
  | Connect => St.WifiConnect | Scan => St.WifiScan | Band => St.WifiBand
  | Statistics => St.NetworkStatistics | Hotspot => St.Hotspot | Vpn => St.Vpn
  end.
Definition operation (k : TaskKind) : ErrorOperation :=
  match k with
  | Connect => Op.Connect | Scan => Op.Scan | Band => Op.BandOperation
  | Statistics => Op.Statistics | Hotspot => Op.HotspotOperation | Vpn => Op.VpnOperation
  end.

(** ** Queues *)

Inductive LaneError := Full | Closed | Panicked.
Definition lane_error (name : string) (o : ErrorOperation) (e : LaneError) : Error :=
  EDomain (with_detail "queue" (JStr name) (internal o
    match e with
    | Full => "daemon work queue is full"
    | Closed => "daemon runtime has stopped"
    | Panicked => "daemon blocking job panicked"
    end)).

(** [TrySendError] of the control queue. *)
Inductive TrySendError := SendFull | SendClosed.
Definition tokio_queue_error (o : ErrorOperation) (queue : string) (e : TrySendError) : Error :=
  EDomain (with_detail "queue" (JStr queue) (internal o
    match e with
    | SendFull => "daemon work queue is full"
    | SendClosed => "daemon runtime has stopped"
    end)).
Definition runtime_stopped (o : ErrorOperation) : Error :=
  EDomain (internal o "daemon runtime stopped before replying").

(** ** Tasks *)

(** [nm]: the NetworkManager scope, by the unique name it is bound to. *)
Record TaskHandle := {
  nm : string;
  started : instant;
  progress : option json;
  observation_revision : N;
  terminal : bool;
  timed_out : bool;
  kind : TaskKind;
  owner : option string;
  target_ssid : option (list ascii);
  cancellation : N;
}.

Record TerminalRequestResult := {
  tr_stream : Stream;
  tr_event : json;
  tr_revision : N;
}.

Record CancelledTask := {
  ct_nm : string;
  ct_kind : TaskKind;
  ct_ssid : option (list ascii);
}.

Record CancelOutcome := { co_task : bool; co_subscription : bool }.
Definition found (o : CancelOutcome) : bool := co_task o || co_subscription o.

(** The retained results: [holds] says what can still be read. Reading may drop
    expired results and never changes one; recording replaces the result of the
    same request and owner and may evict others. *)
Class RecentResults := {
  recent : Type;
  get_owned : instant → string → option string → recent → recent * option TerminalRequestResult;
  record : instant → string → option string → TerminalRequestResult → recent → recent;
  holds : recent → string → option string → TerminalRequestResult → Prop;
  get_owned_kept now id o r i p t : holds (get_owned now id o r).1 i p t → holds r i p t;
  get_owned_held now id o r t : (get_owned now id o r).2 = Some t → holds r id o t;
  record_held now id o t r i p t' :
    holds (record now id o t r) i p t' →
    (i = id ∧ p = o ∧ t' = t) ∨ ((i, p) ≠ (id, o) ∧ holds r i p t');
}.

Section Runtime.
Context `{RecentResults}.

Record Runtime := {
  tasks : gmap string TaskHandle;
  flags : gmap N bool;
  next_flag : N;
  results : recent;
}.

Definition with_tasks (m : gmap string TaskHandle) (s : Runtime) : Runtime :=
  {| tasks := m; flags := flags s; next_flag := next_flag s; results := results s |}.
Definition with_flags (f : gmap N bool) (s : Runtime) : Runtime :=
  {| tasks := tasks s; flags := f; next_flag := next_flag s; results := results s |}.
Definition with_results (r : recent) (s : Runtime) : Runtime :=
  {| tasks := tasks s; flags := flags s; next_flag := next_flag s; results := r |}.

(** [cancellation.load] and [cancellation.store(true)]. *)
Definition load (flag : N) (s : Runtime) : bool := unwrap_or (flags s !! flag) false.
Definition store_true (flag : N) (s : Runtime) : Runtime := with_flags (<[flag := true]> (flags s)) s.

Definition request_cancel (t : TaskHandle) (s : Runtime) : Runtime * CancelledTask :=
  (store_true (cancellation t) s,
   {| ct_nm := nm t; ct_kind := kind t; ct_ssid := target_ssid t |}).

(** [TaskRegistration::new]; the registration is the identifier with the flag. *)
Definition register (now : instant) (id : string) (k : TaskKind) (o : option string)
    (ssid : option (list ascii)) (scope : string) (s : Runtime) : Runtime * (string * N) :=
  let flag := next_flag s in
  ({| tasks := <[id := {| nm := scope; started := now; progress := None; observation_revision := 1;
                          terminal := false; timed_out := false; kind := k; owner := o;
                          target_ssid := ssid; cancellation := flag |}]> (tasks s);
      flags := <[flag := false]> (flags s); next_flag := flag + 1; results := results s |},
   (id, flag)).

(** [Drop for TaskRegistration]: only its own handle is removed. *)
Definition deregister (registration : string * N) (s : Runtime) : Runtime :=
  let (id, flag) := registration in
  match tasks s !! id with
  | Some t => if (cancellation t =? flag)%N then with_tasks (delete id (tasks s)) s else s
  | None => s
  end.

(** [get_owned] under the results mutex. *)
Definition look_up (now : instant) (id : string) (o : option string) (s : Runtime) :
    Runtime * option TerminalRequestResult :=
  let (r, t) := get_owned now id o (results s) in (with_results r s, t).

(** *** Terminal results *)

Inductive Outcome (A : Type) := Panicking | Returned (a : A).
Arguments Panicking {A}.
Arguments Returned {A} a.

Definition is_event (event : json) (name : string) : bool :=
  bool_decide (jget event "event" = JStr name).

(** [bound_nm] and [owner_changed], read before the critical section; [current]
    is [ensure_current_owner]. *)
Definition owner_changed (current : string → bool) (id : string) (event : json) (s : Runtime) : bool :=
  is_event event "succeeded"
  && match tasks s !! id with Some t => negb (current (nm t)) | None => false end.

Definition cancel_success (timed : bool) (event : json) : option json :=
  event ← index_set "event" (JStr "cancelled") event;
  event ← index_mut "data" (index_set "phase" (JStr "cancelled")) event;
  event ← index_mut "data" (index_set "message" (JStr
            (if timed then "Connection attempt timed out and was cancelled"
             else "Connection cancelled"))) event;
  index_mut "data" (λ d, Some match d with
                              | JObj m => JObj (remove_field "result" m)
                              | _ => d
                              end) event.

Definition owned_task (id : string) (o : option string) (s : Runtime) : option TaskHandle :=
  match tasks s !! id with
  | Some t => if bool_decide (owner t = o) then Some t else None
  | None => None
  end.

Definition set_terminal (t : TaskHandle) : TaskHandle := {|
  nm := nm t; started := started t; progress := progress t;
  observation_revision := u64_saturating_add (observation_revision t) 1; terminal := true;
  timed_out := timed_out t; kind := kind t; owner := owner t; target_ssid := target_ssid t;
  cancellation := cancellation t |}.

Definition settle_task (id : string) (st : Stream) (task : option TaskHandle) (s : Runtime) :
    Runtime * N :=
  match task with
  | Some t =>
    if bool_decide (stream (kind t) = st) then
      (with_tasks (<[id := set_terminal t]> (tasks s)) s, observation_revision (set_terminal t))
    else (s, 1%N)
  | None => (s, 1%N)
  end.

Definition terminal_event (changed : bool) (event : json) (task : option TaskHandle) (s : Runtime) :
    option json :=
  match task with
  | Some t =>
    if bool_decide (kind t = Connect) && (changed || load (cancellation t) s)
       && is_event event "succeeded"
    then cancel_success (timed_out t) event else Some event
  | None => Some event
  end.

Definition store_terminal_result (now : instant) (id : string) (o : option string) (st : Stream)
    (event : json) (changed : bool) (s : Runtime) : Runtime * Outcome (option json) :=
  let (s, held) := look_up now id o s in
  match held with
  | Some r => (s, Returned (Some (tr_event r)))
  | None =>
    let task := owned_task id o s in
    if match task with Some t => terminal t | None => false end then (s, Returned None)
    else
      match terminal_event changed event task s with
      | None => (s, Panicking)
      | Some event =>
        let (s, revision) := settle_task id st task s in
        match index_set "operation_revision" (JNum (Z.of_N revision)) event with
        | None => (s, Panicking)
        | Some event =>
          (with_results (record now id o {| tr_stream := st; tr_event := event; tr_revision := revision |}
                           (results s)) s,
           Returned (Some event))
        end
      end
  end.

(** *** Status *)

Definition terminal_request_status (id : string) (r : TerminalRequestResult) : json :=
  JObj (bt_insert "operation_revision" (JNum (Z.of_N (tr_revision r)))
    (bt_insert "event" (tr_event r) (bt_insert "stream" (JStr (stream_name (tr_stream r)))
      (bt_insert "status" (JStr "finished") (bt_insert "request_id" (JStr id) []))))).

Definition running_status (now : instant) (id : string) (t : TaskHandle) (s : Runtime) : json :=
  JObj (bt_insert "timed_out" (JBool (timed_out t))
    (bt_insert "cancellation_requested" (JBool (load (cancellation t) s))
      (bt_insert "operation_revision" (JNum (Z.of_N (observation_revision t)))
        (bt_insert "event" (json_option (progress t))
          (bt_insert "elapsed_ms" (JNum (Z.of_N (as_millis (now - started t) mod 2 ^ 64)))
            (bt_insert "stream" (JStr (stream_name (stream (kind t))))
              (bt_insert "status" (JStr "running") (bt_insert "request_id" (JStr id) [])))))))).

Definition unknown_status (id : string) : json :=
  JObj (bt_insert "status" (JStr "unknown") (bt_insert "request_id" (JStr id) [])).

Definition request_status (now : instant) (id : string) (o : option string) (s : Runtime) :
    Runtime * json :=
  let (s, held) := look_up now id o s in
  (s, match held with
      | Some r => terminal_request_status id r
      | None =>
        match owned_task id o s with
        | Some t => if terminal t then unknown_status id else running_status now id t s
        | None => unknown_status id
        end
      end).

Definition owner_is_connecting (o : string) (s : Runtime) : bool :=
  existsb (λ kv, bool_decide (kind kv.2 = Connect) && bool_decide (owner kv.2 = Some o))
    (map_to_list (tasks s)).

(** *** Progress and deadlines *)

Definition set_progress (event : json) (t : TaskHandle) : TaskHandle := {|
  nm := nm t; started := started t; progress := Some event;
  observation_revision := u64_saturating_add (observation_revision t) 1; terminal := terminal t;
  timed_out := timed_out t; kind := kind t; owner := owner t; target_ssid := target_ssid t;
  cancellation := cancellation t |}.
Definition advance_revision (t : TaskHandle) : TaskHandle := {|
  nm := nm t; started := started t; progress := progress t;
  observation_revision := u64_saturating_add (observation_revision t) 1; terminal := terminal t;
  timed_out := timed_out t; kind := kind t; owner := owner t; target_ssid := target_ssid t;
  cancellation := cancellation t |}.
Definition set_timed_out (t : TaskHandle) : TaskHandle := {|
  nm := nm t; started := started t; progress := progress t;
  observation_revision := observation_revision t; terminal := terminal t;
  timed_out := true; kind := kind t; owner := owner t; target_ssid := target_ssid t;
  cancellation := cancellation t |}.

Definition store_connect_progress (now : instant) (id : string) (o : option string) (event : json)
    (s : Runtime) : Runtime * Outcome (option json) :=
  match owned_task id o s with
  | Some t =>
    if bool_decide (kind t = Connect) then
      let (s, held) := look_up now id o s in
      match held with
      | Some r => (s, Returned (Some (tr_event r)))
      | None =>
        if terminal t then (s, Returned None)
        else
          match index_set "operation_revision"
                  (JNum (Z.of_N (observation_revision (advance_revision t)))) event with
          | Some event => (with_tasks (<[id := set_progress event t]> (tasks s)) s,
                           Returned (Some event))
          | None => (with_tasks (<[id := advance_revision t]> (tasks s)) s, Panicking)
          end
      end
    else (s, Returned None)
  | None => (s, Returned None)
  end.

Definition expire_connect (now : instant) (id : string) (s : Runtime) :
    Runtime * option CancelledTask :=
  match tasks s !! id with
  | Some t =>
    if bool_decide (kind t = Connect) && negb (terminal t) then
      let (s, held) := look_up now id (owner t) s in
      match held with
      | Some _ => (s, None)
      | None =>
        let t := set_timed_out t in
        let (s, c) := request_cancel t (with_tasks (<[id := t]> (tasks s)) s) in (s, Some c)
      end
    else (s, None)
  | None => (s, None)
  end.

(** *** Cancellation *)

Definition cancel_task (now : instant) (id : string) (o : option string) (s : Runtime) :
    Runtime * option CancelledTask :=
  match owned_task id o s with
  | Some t =>
    if terminal t then (s, None)
    else
      let (s, held) := look_up now id (owner t) s in
      match held with
      | Some _ => (s, None)
      | None => let (s, c) := request_cancel t s in (s, Some c)
      end
  | None => (s, None)
  end.

(** The activation abort that is queued on the fast lane. *)
Definition abort_cancelled_connect (task : option CancelledTask) : option (list ascii * string) :=
  match task with
  | Some c => if bool_decide (ct_kind c = Connect)
              then (λ ssid, (ssid, ct_nm c)) <$> ct_ssid c else None
  | None => None
  end.

(** In the unspecified order of the hash map. *)
Definition cancel_owned (now : instant) (o : string) (acc : Runtime * list (string * CancelledTask))
    (entry : string * TaskHandle) : Runtime * list (string * CancelledTask) :=
  let (s, cancelled) := acc in
  let (id, t) := entry in
  if bool_decide (owner t = Some o) && negb (terminal t) then
    let (s, held) := look_up now id (Some o) s in
    match held with
    | Some _ => (s, cancelled)
    | None => let (s, c) := request_cancel t s in (s, cancelled ++ [(id, c)])
    end
  else (s, cancelled).
Definition cancel_tasks_for_owner (now : instant) (o : string) (s : Runtime) :
    Runtime * list (string * CancelledTask) :=
  foldl (cancel_owned now o) (s, []) (map_to_list (tasks s)).

Definition store_all (p : TaskHandle → bool) (s : Runtime) : Runtime :=
  foldl (λ s kv, if p kv.2 then store_true (cancellation kv.2) s else s) s (map_to_list (tasks s)).

Definition targets (ssid : list ascii) (t : TaskHandle) : bool :=
  bool_decide (kind t = Connect) && bool_decide (target_ssid t = Some ssid).
Definition cancel_connects_for_ssid (ssid : list ascii) (s : Runtime) : Runtime * list string :=
  (store_all (targets ssid) s,
   Scan.sort (fst <$> List.filter (λ kv, targets ssid kv.2) (map_to_list (tasks s)))).

Definition network_manager_owner_changed (new_owner : option string) (s : Runtime) : Runtime :=
  store_all (λ t, negb (bool_decide (Some (nm t) = new_owner))) s.
Definition shutdown (s : Runtime) : Runtime := store_all (λ _, true) s.

Definition pending_task_ids (s : Runtime) (ids : list string) : list string :=
  Scan.sort (List.filter (λ id, bool_decide (is_Some (tasks s !! id))) ids).

(** Names on the bus, not sockets; subscribers' owners are an argument. *)
Definition dbus_owner_names (subscribers : list string) (s : Runtime) : gset string :=
  list_to_set (List.filter (Text.starts_with ":")
    (subscribers ++ omap (λ kv, owner kv.2) (map_to_list (tasks s)))).

(** ** Steps *)

Inductive Event :=
| ERegister (now : instant) (id : string) (k : TaskKind) (o : option string)
    (ssid : option (list ascii)) (scope : string)
| EDeregister (registration : string * N)
| EWorkerCancelled (flag : N)
| ETerminal (now : instant) (id : string) (o : option string) (st : Stream) (event : json)
    (changed : bool)
| EProgress (now : instant) (id : string) (o : option string) (event : json)
| EStatus (now : instant) (id : string) (o : option string)
| EExpire (now : instant) (id : string)
| ECancel (now : instant) (id : string) (o : option string)
| EDropOwner (now : instant) (o : string)
| ECancelSsid (ssid : list ascii)
| EOwnerChanged (new_owner : option string)
| EShutdown.

Inductive Reply :=
| RNone
| REvent (r : Outcome (option json))
| RStatus (v : json)
| RCancel (c : option CancelledTask).

Definition step (e : Event) (s : Runtime) : Runtime * Reply :=
  match e with
  | ERegister now id k o ssid scope => ((register now id k o ssid scope s).1, RNone)
  | EDeregister registration => (deregister registration s, RNone)
  | EWorkerCancelled flag => (store_true flag s, RNone)
  | ETerminal now id o st event changed =>
    let (s, r) := store_terminal_result now id o st event changed s in (s, REvent r)
  | EProgress now id o event =>
    let (s, r) := store_connect_progress now id o event s in (s, REvent r)
  | EStatus now id o => let (s, v) := request_status now id o s in (s, RStatus v)
  | EExpire now id => let (s, c) := expire_connect now id s in (s, RCancel c)
  | ECancel now id o => let (s, c) := cancel_task now id o s in (s, RCancel c)
  | EDropOwner now o => ((cancel_tasks_for_owner now o s).1, RNone)
  | ECancelSsid ssid => ((cancel_connects_for_ssid ssid s).1, RNone)
  | EOwnerChanged new_owner => (network_manager_owner_changed new_owner s, RNone)
  | EShutdown => (shutdown s, RNone)
  end.

(** ** The specification: the life of one request

    A request runs with a revision that counts its reports, settles once, and is
    then only ever seen with its terminal event, or not at all. *)

Inductive Phase :=
| Running (revision : N) (cancelled : bool)
| Done (event : json)
| Gone.

(** What the owner of the request observes of a step. *)
Inductive Obs :=
| Silent
| CancelAccepted
| Reported (v : json)
| Settled (v : json)
| Seen (v : json)
| SeenRunning (revision : json) (cancelled : json)
| Suppressed.

Definition next_revision (r : N) : N := u64_saturating_add r 1.

Inductive life (k : TaskKind) : Phase → Obs → Phase → Prop :=
| life_silent r c c' : (c = true → c' = true) → life k (Running r c) Silent (Running r c')
| life_gone r c : life k (Running r c) Silent Gone
| life_cancel r c : life k (Running r c) CancelAccepted (Running r true)
| life_report r c v :
    jget v "operation_revision" = JNum (Z.of_N (next_revision r)) →
    life k (Running r c) (Reported v) (Running (next_revision r) c)
| life_unreported r c : k ≠ Connect → life k (Running r c) Suppressed (Running r c)
| life_running r c :
    life k (Running r c) (SeenRunning (JNum (Z.of_N r)) (JBool c)) (Running r c)
| life_settle r c v :
    jget v "operation_revision" = JNum (Z.of_N (next_revision r)) →
    (k = Connect → c = true → jget v "event" ≠ JStr "succeeded") →
    life k (Running r c) (Settled v) (Done v)
| life_done v b : b ∈ [Silent; Reported v; Settled v; Seen v; Suppressed] → life k (Done v) b (Done v)
| life_lost b : b ∈ [Silent; Suppressed] → life k Gone b Gone.

Inductive life_run (k : TaskKind) : Phase → list Obs → Phase → Prop :=
| life_run_nil p : life_run k p [] p
| life_run_cons p b p' l q : life k p b p' → life_run k p' l q → life_run k p (b :: l) q.

Definition status_obs (v : json) : Obs :=
  if bool_decide (jget v "status" = JStr "finished") then Seen (jget v "event")
  else if bool_decide (jget v "status" = JStr "running")
  then SeenRunning (jget v "operation_revision") (jget v "cancellation_requested")
  else Suppressed.

Definition event_obs (f : json → Obs) (r : Outcome (option json)) : Obs :=
  match r with Returned (Some v) => f v | _ => Suppressed end.

Definition observe (id : string) (o : option string) (e : Event) (r : Reply) : Obs :=
  match e, r with
  | ETerminal _ i p _ _ _, REvent r => if bool_decide ((i, p) = (id, o)) then event_obs Settled r else Silent
  | EProgress _ i p _, REvent r => if bool_decide ((i, p) = (id, o)) then event_obs Reported r else Silent
  | EStatus _ i p, RStatus v => if bool_decide ((i, p) = (id, o)) then status_obs v else Silent
  | EExpire _ i, RCancel (Some _) | ECancel _ i _, RCancel (Some _) =>
    if bool_decide (i = id) then CancelAccepted else Silent
  | _, _ => Silent
  end.

(** The steps the daemon takes: identifiers are not reused; the worker of a request
    reports with its owner, on the stream of its kind, with an envelope whose data
    is an object, and before its registration ends. *)
Definition envelope (event : json) : Prop :=
  is_object event = true ∧ ∃ data, vget "data" event = Some data ∧ is_object data = true.

Definition permitted (id : string) (o : option string) (k : TaskKind) (s : Runtime) (e : Event) : Prop :=
  match e with
  | ERegister _ i _ _ _ _ => i ≠ id
  | ETerminal _ i p st event _ =>
    i = id → p = o ∧ st = stream k ∧ envelope event ∧ is_Some (tasks s !! id)
  | EProgress _ i _ event => i = id → envelope event
  | _ => True
  end.

Inductive runs (id : string) (o : option string) (k : TaskKind) :
    Runtime → list Event → list Obs → Runtime → Prop :=
| runs_nil s : runs id o k s [] [] s
| runs_cons s e es b bs s' r s'' :
    permitted id o k s e → step e s = (s', r) → observe id o e r = b →
    runs id o k s' es bs s'' → runs id o k s (e :: es) (b :: bs) s''.

(** The observations of a sequence of steps. *)
Fixpoint trace (id : string) (o : option string) (es : list Event) (s : Runtime) : list Obs * Runtime :=
  match es with
  | [] => ([], s)
  | e :: es =>
    let (s, r) := step e s in
    let (bs, s) := trace id o es s in (observe id o e r :: bs, s)
  end.
Fixpoint all_permitted (id : string) (o : option string) (k : TaskKind) (es : list Event) (s : Runtime) : Prop :=
  match es with
  | [] => True
  | e :: es => permitted id o k s e ∧ all_permitted id o k es (step e s).1
  end.

Lemma trace_runs id o k es s :
  all_permitted id o k es s → runs id o k s es (trace id o es s).1 (trace id o es s).2.
Proof.
  revert s. induction es as [|e es IH]; intros s; [constructor|]. cbn. intros [Hp Hall].
  destruct (step e s) as [s1 r] eqn:E. cbn in Hall. specialize (IH s1 Hall).
  destruct (trace id o es s1) as [bs s2]. by econstructor.
Qed.

(** ** Refinement *)

Definition unheld (s : Runtime) (id : string) (o : option string) : Prop :=
  ∀ t, ~ holds (results s) id o t.

Definition related (id : string) (o : option string) (k : TaskKind) (s : Runtime) (p : Phase) : Prop :=
  match p with
  | Running r c =>
    ∃ t, tasks s !! id = Some t ∧ owner t = o ∧ kind t = k ∧ terminal t = false ∧
      observation_revision t = r ∧ load (cancellation t) s = c ∧ (cancellation t < next_flag s)%N ∧
      unheld s id o
  | Done v =>
    (∀ x, holds (results s) id o x → tr_event x = v) ∧
    match tasks s !! id with Some t => owner t = o ∧ terminal t = true | None => True end
  | Gone => tasks s !! id = None ∧ unheld s id o
  end.

(** A step that leaves the request alone, up to cancellation and lost results. *)
Record quiet (id : string) (o : option string) (s s' : Runtime) : Prop := {
  q_task : tasks s' !! id = tasks s !! id;
  q_next : (next_flag s <= next_flag s')%N;
  q_flags f : (f < next_flag s)%N → load f s = true → load f s' = true;
  q_held t : holds (results s') id o t → holds (results s) id o t;
}.

#[export] Instance quiet_preorder id o : PreOrder (quiet id o).
Proof.
  split.
  - intros s. by split.
  - intros s1 s2 s3 [] []. split; [congruence|lia|eauto with lia|eauto].
Qed.

Lemma quiet_related id o k s s' p :
  related id o k s p → quiet id o s s' → ∃ p', related id o k s' p' ∧ life k p Silent p'.
Proof.
  intros Hr [Ht Hn Hf Hh]. destruct p as [r c|v|].
  - destruct Hr as (t & Hid & Ho & Hk & Hterm & Hrev & Hc & Hlt & Hun).
    exists (Running r (load (cancellation t) s')). split.
    + exists t. rewrite Ht. split_and!; [done..|lia|]. intros x Hx. by eapply Hun, Hh.
    + constructor. intros ->. by apply Hf.
  - exists (Done v). split; [|constructor; set_solver]. destruct Hr as [Hev Htask].
    split; [eauto|]. by rewrite Ht.
  - exists Gone. split; [|constructor; set_solver]. destruct Hr as [Hnone Hun].
    split; [congruence|]. intros x Hx. by eapply Hun, Hh.
Qed.

Lemma store_true_quiet id o f s : quiet id o s (store_true f s).
Proof.
  split; [done|done| |done]. intros g _. unfold load, store_true. cbn.
  destruct (decide (f = g)) as [->|]; [by rewrite lookup_insert_eq|by rewrite lookup_insert_ne].
Qed.

Lemma look_up_spec now id o s s' r :
  look_up now id o s = (s', r) →
  tasks s' = tasks s ∧ flags s' = flags s ∧ next_flag s' = next_flag s ∧
  (∀ i p t, holds (results s') i p t → holds (results s) i p t) ∧
  (∀ t, r = Some t → holds (results s) id o t).
Proof.
  unfold look_up. pose proof (get_owned_kept now id o (results s)) as Hk.
  pose proof (get_owned_held now id o (results s)) as Hh.
  destruct (get_owned now id o (results s)) as [rs t]. intros [= <- <-]. by cbn in *.
Qed.

Lemma look_up_quiet now id o s s' r i p : look_up now id o s = (s', r) → quiet i p s s'.
Proof.
  intros (E1 & E2 & E3 & E4 & _)%look_up_spec. split; [by rewrite E1|by rewrite E3| |by apply E4].
  intros f _. unfold load. by rewrite E2.
Qed.

Lemma request_cancel_quiet i p t s : quiet i p s (request_cancel t s).1.
Proof. apply store_true_quiet. Qed.

Lemma foldl_quiet {A} i p (f : Runtime → A → Runtime) l s :
  (∀ s a, quiet i p s (f s a)) → quiet i p s (foldl f s l).
Proof.
  intros Hf. revert s. induction l as [|a l IH]; intros s; [done|]. cbn. etrans; [apply Hf|apply IH].
Qed.

Lemma store_all_quiet i p f s : quiet i p s (store_all f s).
Proof. apply foldl_quiet. intros s' kv. destruct (f kv.2); [apply store_true_quiet|done]. Qed.

Lemma cancel_owned_quiet i p now o acc kv : quiet i p acc.1 (cancel_owned now o acc kv).1.
Proof.
  destruct acc as [s l], kv as [id t]. cbn. destruct (_ && _); [|done].
  destruct (look_up now id (Some o) s) as [s' r] eqn:E. apply (look_up_quiet _ _ _ _ _ _ i p) in E.
  destruct r; [done|]. cbn. etrans; [exact E|apply store_true_quiet].
Qed.

Lemma cancel_tasks_for_owner_quiet i p now o s : quiet i p s (cancel_tasks_for_owner now o s).1.
Proof.
  unfold cancel_tasks_for_owner. generalize (map_to_list (tasks s)). intros l.
  change s with (s, @nil (string * CancelledTask)).1 at 1. generalize (s, @nil (string * CancelledTask)).
  induction l as [|kv l IH]; intros acc; [done|]. cbn. etrans; [apply cancel_owned_quiet|apply IH].
Qed.

(** *** Each operation, on other requests and on this one *)

Lemma insert_task_quiet i p id t s : id ≠ i → quiet i p s (with_tasks (<[id := t]> (tasks s)) s).
Proof. intros. split; [cbn; by rewrite lookup_insert_ne|done|done|done]. Qed.

Lemma register_quiet i p now id k o ssid scope s :
  id ≠ i → quiet i p s (register now id k o ssid scope s).1.
Proof.
  intros. split; cbn; [by rewrite lookup_insert_ne|lia| |done].
  intros f Hf. unfold load. cbn. rewrite lookup_insert_ne by lia. done.
Qed.

Lemma record_quiet i p now id o t s :
  id ≠ i → quiet i p s (with_results (record now id o t (results s)) s).
Proof. intros Hne. split; [done..|]. cbn. intros x [(-> & _)|[_ ?]]%record_held; done. Qed.

Lemma settle_task_quiet i p id st task s : id ≠ i → quiet i p s (settle_task id st task s).1.
Proof.
  intros. unfold settle_task. destruct task as [t|]; [|done]. case_bool_decide; [|done].
  by apply insert_task_quiet.
Qed.

Lemma store_terminal_quiet i p now id o st event changed s :
  id ≠ i → quiet i p s (store_terminal_result now id o st event changed s).1.
Proof.
  intros Hne. unfold store_terminal_result. destruct (look_up now id o s) as [s1 held] eqn:E.
  apply (look_up_quiet _ _ _ _ _ _ i p) in E. destruct held; [done|]. case_match; [done|].
  destruct (terminal_event _ _ _ _) as [ev|]; [|done].
  pose proof (settle_task_quiet i p id st (owned_task id o s1) s1 Hne) as Hs.
  destruct (settle_task _ _ _ _) as [s2 rev]. destruct (index_set _ _ ev) as [ev'|]; cbn in *.
  - etrans; [exact E|]. etrans; [exact Hs|]. by apply record_quiet.
  - by etrans.
Qed.

Lemma store_progress_quiet i p now id o event s :
  id ≠ i → quiet i p s (store_connect_progress now id o event s).1.
Proof.
  intros Hne. unfold store_connect_progress. destruct (owned_task id o s) as [t|]; [|done].
  case_bool_decide; [|done]. destruct (look_up now id o s) as [s1 held] eqn:E.
  apply (look_up_quiet _ _ _ _ _ _ i p) in E. destruct held; [done|]. destruct (terminal t); [done|].
  destruct (index_set _ _ event); cbn; (etrans; [exact E|by apply insert_task_quiet]).
Qed.

Lemma expire_quiet i p now id s : id ≠ i → quiet i p s (expire_connect now id s).1.
Proof.
  intros Hne. unfold expire_connect. destruct (tasks s !! id) as [t|]; [|done].
  destruct (_ && _); [|done]. destruct (look_up now id _ s) as [s1 held] eqn:E.
  apply (look_up_quiet _ _ _ _ _ _ i p) in E. destruct held; [done|]. cbn.
  etrans; [exact E|]. etrans; [by apply insert_task_quiet|apply store_true_quiet].
Qed.

Lemma cancel_quiet i p now id o s : quiet i p s (cancel_task now id o s).1.
Proof.
  unfold cancel_task. destruct (owned_task id o s) as [t|]; [|done]. destruct (terminal t); [done|].
  destruct (look_up now id _ s) as [s1 held] eqn:E. apply (look_up_quiet _ _ _ _ _ _ i p) in E.
  destruct held; [done|]. cbn. etrans; [exact E|apply store_true_quiet].
Qed.

Lemma owned_task_Some id o s t : owned_task id o s = Some t ↔ tasks s !! id = Some t ∧ owner t = o.
Proof. unfold owned_task. destruct (tasks s !! id); [case_bool_decide|]; naive_solver. Qed.

Lemma envelope_index_mut k f ev : envelope ev →
  (∀ d, is_object d = true → ∃ d', f d = Some d' ∧ (k = "data" → is_object d' = true)) →
  k = "data" ∨ (∀ d, is_Some (f d)) → ∃ ev', index_mut k f ev = Some ev' ∧ envelope ev'.
Proof.
  intros (Ho & data & Hd & Hdo) Hf Hk.
  assert (∃ ev', index_mut k f ev = Some ev') as [ev' E].
  { destruct ev as [| | | | |m]; try done. cbn in *. destruct Hk as [->|Hk].
    - rewrite Hd. cbn. destruct (Hf data Hdo) as (d' & -> & _). by eexists.
    - destruct (Hk (unwrap_or (bt_get k m) JNull)) as [x ->]. by eexists. }
  exists ev'. split; [done|]. split; [by eapply index_mut_object|].
  destruct (decide (k = "data")) as [->|Hne].
  - destruct (vget_index_mut_eq _ _ _ _ E) as (x & Hx & Hv). exists x. split; [done|].
    rewrite jget_vget, Hd in Hx. cbn in Hx. destruct (Hf data Hdo) as (d' & E' & Hob).
    rewrite E' in Hx. injection Hx as <-. by apply Hob.
  - exists data. split; [|done]. rewrite (vget_index_mut_ne _ _ _ _ _ (not_eq_sym Hne) E). done.
Qed.

Lemma envelope_set k x ev : envelope ev → k ≠ "data" →
  ∃ ev', index_set k x ev = Some ev' ∧ envelope ev' ∧ jget ev' k = x ∧
    ∀ j, j ≠ k → jget ev' j = jget ev j.
Proof.
  intros Hev Hk. destruct (envelope_index_mut k (λ _, Some x) ev Hev) as (ev' & E & Hev');
    [intros; by eexists|right; by eexists|].
  exists ev'. split_and!; [done|done| |].
  - by rewrite jget_vget, (vget_index_set_eq _ _ _ _ E).
  - intros j Hj. by rewrite !jget_vget, (vget_index_mut_ne _ _ _ _ _ Hj E).
Qed.

Lemma envelope_data_mut f ev : envelope ev →
  (∀ d, is_object d = true → ∃ d', f d = Some d' ∧ is_object d' = true) →
  ∃ ev', index_mut "data" f ev = Some ev' ∧ envelope ev' ∧ jget ev' "event" = jget ev "event".
Proof.
  intros Hev Hf. destruct (envelope_index_mut "data" f ev Hev) as (ev' & E & Hev').
  - intros d Hd. destruct (Hf d Hd) as (d' & ? & ?). by exists d'.
  - by left.
  - exists ev'. split_and!; [done..|]. by rewrite !jget_vget, (vget_index_mut_ne "data" "event" f ev ev').
Qed.

Lemma object_set_total k x d : is_object d = true → ∃ d', index_set k x d = Some d' ∧ is_object d' = true.
Proof. intros Hd. destruct (index_set_object k x d Hd) as [d' E]. exists d'. split; [done|]. by eapply index_mut_object. Qed.

(** A success that lost to a cancellation is rewritten without a panic. *)
Lemma cancel_success_spec timed ev : envelope ev →
  ∃ ev', cancel_success timed ev = Some ev' ∧ envelope ev' ∧ jget ev' "event" = JStr "cancelled".
Proof.
  intros Hev. unfold cancel_success.
  destruct (envelope_set "event" (JStr "cancelled") ev Hev ltac:(done)) as (e1 & -> & H1 & Hc & _). cbn.
  destruct (envelope_data_mut (index_set "phase" (JStr "cancelled")) e1 H1) as (e2 & -> & H2 & Hc2);
    [intros; by apply object_set_total|]. cbn.
  destruct (envelope_data_mut (index_set "message" (JStr
      (if timed then "Connection attempt timed out and was cancelled" else "Connection cancelled"))) e2 H2)
    as (e3 & -> & H3 & Hc3); [intros; by apply object_set_total|]. cbn.
  destruct (envelope_data_mut (λ d, Some match d with
      | JObj m => JObj (remove_field "result" m) | _ => d end) e3 H3) as (e4 & -> & H4 & Hc4).
  { intros [| | | | |m] Hd; try done. by eexists. }
  exists e4. split_and!; [done..|]. by rewrite Hc4, Hc3, Hc2, Hc.
Qed.

Lemma terminal_event_spec changed ev t s : envelope ev →
  ∃ ev', terminal_event changed ev (Some t) s = Some ev' ∧ envelope ev' ∧
    (kind t = Connect → load (cancellation t) s = true → jget ev' "event" ≠ JStr "succeeded").
Proof.
  intros Hev. unfold terminal_event. destruct (_ && _ && _) eqn:Hb.
  - destruct (cancel_success_spec (timed_out t) ev Hev) as (ev' & -> & H1 & H2).
    exists ev'. split_and!; [done..|]. intros _ _. by rewrite H2.
  - exists ev. split_and!; [done..|]. intros Hk Hl Hs. unfold is_event in Hb.
    by rewrite Hk, Hl, !bool_decide_true, orb_true_r in Hb.
Qed.

(** *** Each operation refines the life of the request *)

Definition refines (id : string) (o : option string) (k : TaskKind) (p : Phase) (b : Obs) (s' : Runtime) :
    Prop := ∃ p', related id o k s' p' ∧ life k p b p'.

Lemma silent_refines id o k s s' p :
  related id o k s p → quiet id o s s' → refines id o k p Silent s'.
Proof. apply quiet_related. Qed.

Lemma running_lookup now id o k s s' held r c :
  related id o k s (Running r c) → look_up now id o s = (s', held) →
  held = None ∧ related id o k s' (Running r c).
Proof.
  intros (t & Hid & Ho & Hk & Hterm & Hrev & Hc & Hlt & Hun) E.
  apply look_up_spec in E as (E1 & E2 & E3 & E4 & E5). split.
  - destruct held as [x|]; [|done]. by destruct (Hun x (E5 x eq_refl)).
  - exists t. unfold load. rewrite E1, E2, E3. split_and!; try done. intros x Hx. by eapply Hun, E4.
Qed.

Lemma done_lookup now id o k s s' held v :
  related id o k s (Done v) → look_up now id o s = (s', held) →
  related id o k s' (Done v) ∧ ∀ x, held = Some x → tr_event x = v.
Proof.
  intros [Hev Ht] E. apply look_up_spec in E as (E1 & E2 & E3 & E4 & E5). split.
  - split; [eauto|]. by rewrite E1.
  - intros x ->. eauto.
Qed.

Lemma gone_lookup now id o k s s' held :
  related id o k s Gone → look_up now id o s = (s', held) → related id o k s' Gone ∧ held = None.
Proof.
  intros [Hn Hun] E. apply look_up_spec in E as (E1 & E2 & E3 & E4 & E5). split.
  - split; [congruence|]. intros x Hx. by eapply Hun, E4.
  - destruct held as [x|]; [|done]. by destruct (Hun x (E5 x eq_refl)).
Qed.

Lemma life_done_obs k v b : b ∈ [Silent; Reported v; Settled v; Seen v; Suppressed] →
  life k (Done v) b (Done v).
Proof. by constructor. Qed.

(** The first result settles the request. *)
Lemma settle_refines now id o k s t ev :
  tasks s !! id = Some t → owner t = o → kind t = k → envelope ev → unheld s id o →
  (k = Connect → load (cancellation t) s = true → jget ev "event" ≠ JStr "succeeded") →
  ∃ ev', index_set "operation_revision" (JNum (Z.of_N (next_revision (observation_revision t)))) ev = Some ev' ∧
    refines id o k (Running (observation_revision t) (load (cancellation t) s)) (Settled ev')
      (let s := with_tasks (<[id := set_terminal t]> (tasks s)) s in
       with_results (record now id o {| tr_stream := stream k; tr_event := ev';
         tr_revision := next_revision (observation_revision t) |} (results s)) s).
Proof.
  intros Hid Ho Hk Hev Hun Hsuc.
  destruct (envelope_set "operation_revision" (JNum (Z.of_N (next_revision (observation_revision t)))) ev Hev ltac:(done))
    as (ev' & E & Hev' & Hrev & Hkeep).
  exists ev'. split; [done|]. exists (Done ev'). split.
  - split; cbn.
    + by intros x [(_ & _ & ->)|[Hne _]]%record_held.
    + by rewrite lookup_insert_eq.
  - constructor; [done|]. intros Hc Hl. rewrite Hkeep by done. by apply Hsuc.
Qed.

Lemma terminal_refines now id o k s s' r event changed p :
  related id o k s p → envelope event → is_Some (tasks s !! id) →
  store_terminal_result now id o (stream k) event changed s = (s', r) →
  refines id o k p (event_obs Settled r) s'.
Proof.
  intros Hrel Hev Hsome. unfold store_terminal_result.
  destruct (look_up now id o s) as [s1 held] eqn:E. destruct p as [rev c|v|].
  - destruct (running_lookup _ _ _ _ _ _ _ _ _ Hrel E)
      as [-> (t & Hid & Ho & Hk & Hterm & Hrev & Hc & Hlt & Hun)].
    rewrite (proj2 (owned_task_Some id o s1 t)), Hterm by done.
    destruct (terminal_event_spec changed event t s1 Hev) as (ev & -> & Hev1 & Hsuc). cbn [settle_task].
    rewrite Hk, bool_decide_true by done. rewrite Hk in Hsuc.
    destruct (settle_refines now id o k s1 t ev Hid Ho Hk Hev1 Hun Hsuc) as (ev' & E' & Hr).
    cbn [set_terminal observation_revision]. unfold next_revision in E'. rewrite E'.
    intros [= <- <-]. rewrite <-Hrev, <-Hc. exact Hr.
  - destruct (done_lookup _ _ _ _ _ _ _ _ Hrel E) as [Hrel1 Hheld]. destruct held as [x|].
    + intros [= <- <-]. exists (Done v). split; [done|]. cbn. rewrite (Hheld x eq_refl).
      apply life_done_obs. set_solver.
    + assert (tasks s1 = tasks s) as Et by by apply look_up_spec in E as [].
      destruct Hsome as [t Hid]. destruct Hrel as [_ Ht]. rewrite Hid in Ht. destruct Ht as [Ho Hterm].
      rewrite (proj2 (owned_task_Some id o s1 t)), Hterm by (by rewrite Et).
      intros [= <- <-]. exists (Done v). split; [done|]. apply life_done_obs. set_solver.
  - destruct Hrel as [Hn _]. rewrite Hn in Hsome. by destruct Hsome.
Qed.

(** A report of a running request has the next revision. *)
Lemma report_refines id o k s t ev :
  related id o k s (Running (observation_revision t) (load (cancellation t) s)) →
  tasks s !! id = Some t → envelope ev →
  ∃ ev', index_set "operation_revision" (JNum (Z.of_N (next_revision (observation_revision t)))) ev = Some ev' ∧
    refines id o k (Running (observation_revision t) (load (cancellation t) s)) (Reported ev')
      (with_tasks (<[id := set_progress ev' t]> (tasks s)) s).
Proof.
  intros (t' & Hid & Ho & Hk & Hterm & Hrev & Hc & Hlt & Hun) Hid' Hev. simplify_eq.
  destruct (envelope_set "operation_revision" (JNum (Z.of_N (next_revision (observation_revision t')))) ev Hev ltac:(done))
    as (ev' & E & _ & Hr & _).
  exists ev'. split; [done|]. exists (Running (next_revision (observation_revision t')) (load (cancellation t') s)).
  split; [|by constructor]. exists (set_progress ev' t'). cbn. rewrite lookup_insert_eq. by split_and!.
Qed.

Lemma progress_refines now id o k s s' r event p :
  related id o k s p → envelope event →
  store_connect_progress now id o event s = (s', r) → refines id o k p (event_obs Reported r) s'.
Proof.
  intros Hrel Hev. unfold store_connect_progress. destruct p as [rev c|v|].
  - pose proof Hrel as (t & Hid & Ho & Hk & Hterm & Hrev & Hc & _).
    rewrite (proj2 (owned_task_Some id o s t)) by done. case_bool_decide as Hkc.
    + destruct (look_up now id o s) as [s1 held] eqn:E.
      destruct (running_lookup _ _ _ _ _ _ _ _ _ Hrel E) as [-> Hrel1]. rewrite Hterm.
      apply look_up_spec in E as (E1 & E2 & _).
      assert (load (cancellation t) s1 = c) as Hc1 by (unfold load in *; by rewrite E2).
      rewrite <-Hrev, <-Hc1 in Hrel1.
      destruct (report_refines id o k s1 t event Hrel1 ltac:(by rewrite E1) Hev) as (ev' & E' & Hr).
      cbn [advance_revision observation_revision]. unfold next_revision in E'. rewrite E'.
      intros [= <- <-]. rewrite <-Hrev, <-Hc1. exact Hr.
    + intros [= <- <-]. exists (Running rev c). split; [done|]. constructor. congruence.
  - destruct (owned_task id o s) as [t|] eqn:Ho.
    + apply owned_task_Some in Ho as [Hid Ho]. pose proof Hrel as [_ Ht]. rewrite Hid in Ht.
      case_bool_decide.
      * destruct (look_up now id o s) as [s1 held] eqn:E.
        destruct (done_lookup _ _ _ _ _ _ _ _ Hrel E) as [Hrel1 Hheld]. destruct held as [x|].
        -- intros [= <- <-]. exists (Done v). split; [done|]. cbn. rewrite (Hheld x eq_refl).
           apply life_done_obs. set_solver.
        -- destruct Ht as [_ ->]. intros [= <- <-]. exists (Done v). split; [done|].
           apply life_done_obs. set_solver.
      * intros [= <- <-]. exists (Done v). split; [done|]. apply life_done_obs. set_solver.
    + intros [= <- <-]. exists (Done v). split; [done|]. apply life_done_obs. set_solver.
  - assert (owned_task id o s = None) as -> by (unfold owned_task; by destruct Hrel as [-> _]).
    intros [= <- <-]. exists Gone. split; [done|]. constructor. set_solver.
Qed.

Lemma status_refines now id o k s s' v p :
  related id o k s p → request_status now id o s = (s', v) → refines id o k p (status_obs v) s'.
Proof.
  intros Hrel. unfold request_status. destruct (look_up now id o s) as [s1 held] eqn:E. destruct p as [rev c|w|].
  - destruct (running_lookup _ _ _ _ _ _ _ _ _ Hrel E) as [-> Hrel1].
    pose proof Hrel1 as (t & Hid & Ho & Hk & Hterm & Hrev & Hc & _).
    rewrite (proj2 (owned_task_Some id o s1 t)), Hterm by done. intros [= <- <-].
    exists (Running rev c). split; [done|]. rewrite <-Hrev, <-Hc. constructor.
  - destruct (done_lookup _ _ _ _ _ _ _ _ Hrel E) as [Hrel1 Hheld].
    intros [= <- <-]. exists (Done w). split; [done|]. apply life_done_obs. destruct held as [x|].
    + rewrite <-(Hheld x eq_refl). change (status_obs _) with (Seen (tr_event x)). set_solver.
    + destruct Hrel1 as [_ Ht]. unfold owned_task. destruct (tasks s1 !! id) as [t|];
        [case_bool_decide; [destruct Ht as [_ ->]|]|]; change (status_obs _) with Suppressed; set_solver.
  - destruct (gone_lookup _ _ _ _ _ _ _ Hrel E) as [Hrel1 ->]. intros [= <- <-]. exists Gone.
    split; [done|]. constructor. destruct Hrel1 as [Hn _]. unfold owned_task. rewrite Hn.
    change (status_obs _) with Suppressed. set_solver.
Qed.

Lemma deregister_refines id o k s registration p :
  related id o k s p → refines id o k p Silent (deregister registration s).
Proof.
  intros Hrel. destruct registration as [i flag]. unfold deregister.
  destruct (tasks s !! i) as [t|] eqn:Hi; [|by eapply silent_refines].
  destruct (_ =? _)%N; [|by eapply silent_refines].
  destruct (decide (i = id)) as [->|Hne].
  - destruct p as [r c|v|].
    + exists Gone. split; [|constructor]. destruct Hrel as (? & _ & _ & _ & _ & _ & _ & _ & Hun).
      split; [cbn; by rewrite lookup_delete_eq|done].
    + exists (Done v). split; [|apply life_done_obs; set_solver]. destruct Hrel as [Hev _].
      split; [done|]. cbn. by rewrite lookup_delete_eq.
    + destruct Hrel. congruence.
  - eapply silent_refines; [done|]. split; [cbn; by rewrite lookup_delete_ne|done..].
Qed.

(** Raising the flag of a running request. *)
Lemma running_cancelled id o k s t r c :
  related id o k s (Running r c) → tasks s !! id = Some t →
  related id o k (store_true (cancellation t) s) (Running r true).
Proof.
  intros (t' & Hid & Ho & Hk & Hterm & Hrev & Hc & Hlt & Hun) Hid'. simplify_eq.
  exists t'. split_and!; try done. unfold load. cbn. by rewrite lookup_insert_eq.
Qed.

Lemma running_timed_out id o k s t r c :
  related id o k s (Running r c) → tasks s !! id = Some t →
  related id o k (with_tasks (<[id := set_timed_out t]> (tasks s)) s) (Running r c).
Proof.
  intros (t' & Hid & Ho & Hk & Hterm & Hrev & Hc & Hlt & Hun) Hid'. simplify_eq.
  exists (set_timed_out t'). cbn. rewrite lookup_insert_eq. by split_and!.
Qed.

Definition cancel_obs (c : option CancelledTask) : Obs :=
  match c with Some _ => CancelAccepted | None => Silent end.

Lemma expire_refines now id o k s s' c p :
  related id o k s p → expire_connect now id s = (s', c) → refines id o k p (cancel_obs c) s'.
Proof.
  intros Hrel. unfold expire_connect. destruct p as [r b|v|].
  - pose proof Hrel as (t & Hid & Ho & Hk & Hterm & _). rewrite Hid, Hterm, Ho.
    destruct (_ && _); [|intros [= <- <-]; by eapply silent_refines].
    destruct (look_up now id o s) as [s1 held] eqn:E.
    destruct (running_lookup _ _ _ _ _ _ _ _ _ Hrel E) as [-> Hrel1].
    apply look_up_spec in E as [E1 _]. intros [= <- <-]. exists (Running r true).
    split; [|constructor].
    apply (running_cancelled _ _ _ (with_tasks (<[id := set_timed_out t]> (tasks s1)) s1) (set_timed_out t) r b).
    + apply running_timed_out; [done|by rewrite E1].
    + cbn. by rewrite lookup_insert_eq.
  - pose proof Hrel as [_ Ht]. destruct (tasks s !! id) as [t|].
    + destruct Ht as [_ ->]. rewrite andb_false_r. intros [= <- <-]. by eapply silent_refines.
    + intros [= <- <-]. by eapply silent_refines.
  - pose proof Hrel as [-> _]. intros [= <- <-]. by eapply silent_refines.
Qed.

Lemma cancel_refines now id p o k s s' c ph :
  related id o k s ph → cancel_task now id p s = (s', c) → refines id o k ph (cancel_obs c) s'.
Proof.
  intros Hrel. unfold cancel_task. destruct (owned_task id p s) as [t|] eqn:Ht;
    [|intros [= <- <-]; by eapply silent_refines].
  apply owned_task_Some in Ht as [Hid Hp]. destruct ph as [r b|v|].
  - pose proof Hrel as (t' & Hid' & Ho & Hk & Hterm & _).
    rewrite Hid in Hid'. injection Hid' as <-. rewrite Hterm, Ho.
    destruct (look_up now id o s) as [s1 held] eqn:E.
    destruct (running_lookup _ _ _ _ _ _ _ _ _ Hrel E) as [-> Hrel1].
    apply look_up_spec in E as [E1 _]. intros [= <- <-]. exists (Running r true).
    split; [|constructor]. eapply running_cancelled; [exact Hrel1|by rewrite E1].
  - pose proof Hrel as [_ Ht]. rewrite Hid in Ht. destruct Ht as [_ ->]. intros [= <- <-].
    by eapply silent_refines.
  - destruct Hrel. congruence.
Qed.

(** A report or a query of another owner changes nothing. *)
Lemma foreign_progress_quiet now id o p k s ph event :
  related id o k s ph → p ≠ o →
  quiet id o s (store_connect_progress now id p event s).1.
Proof.
  intros Hrel Hne. unfold store_connect_progress.
  destruct (owned_task id p s) as [t|] eqn:E; [|done]. apply owned_task_Some in E as [Hid Ho].
  exfalso. destruct ph as [r c|v|]; cbn in Hrel.
  - destruct Hrel as (t' & ? & ? & _). congruence.
  - destruct Hrel as [_ Ht]. rewrite Hid in Ht. destruct Ht. congruence.
  - destruct Hrel. congruence.
Qed.

Ltac solve_silent := intros [= <- <-]; cbn; eapply silent_refines; [eassumption|].

Lemma step_refines id o k s e s' r p :
  related id o k s p → permitted id o k s e → step e s = (s', r) →
  refines id o k p (observe id o e r) s'.
Proof.
  intros Hrel Hperm. destruct e as [now i ki oi ssid scope|reg|flag|now i oi st event changed
    |now i oi event|now i oi|now i|now i oi|now oi|ssid|no|]; cbn [step].
  - solve_silent. by apply register_quiet.
  - intros [= <- <-]. by apply deregister_refines.
  - solve_silent. apply store_true_quiet.
  - pose proof (store_terminal_quiet id o now i oi st event changed s) as Hq.
    destruct (store_terminal_result _ _ _ _ _ _ _) as [s1 r1] eqn:E. intros [= <- <-]. cbn [observe].
    case_bool_decide as Hi; simplify_eq.
    + destruct (Hperm eq_refl) as (_ & -> & Hev & Hs). by eapply terminal_refines.
    + eapply silent_refines; [done|]. apply Hq. intros ->. destruct (Hperm eq_refl). congruence.
  - pose proof (store_progress_quiet id o now i oi event s) as Hq.
    pose proof (foreign_progress_quiet now id o oi k s p event Hrel) as Hf.
    destruct (store_connect_progress _ _ _ _ _) as [s1 r1] eqn:E. intros [= <- <-]. cbn [observe].
    case_bool_decide as Hi; simplify_eq.
    + eapply progress_refines; [done| |done]. by apply Hperm.
    + eapply silent_refines; [done|]. destruct (decide (i = id)) as [->|]; [|by apply Hq].
      rewrite E in Hf. apply Hf. congruence.
  - destruct (request_status now i oi s) as [s1 v] eqn:E. intros [= <- <-]. cbn [observe].
    case_bool_decide as Hi; simplify_eq; [by eapply status_refines|].
    eapply silent_refines; [done|]. unfold request_status in E.
    destruct (look_up now i oi s) as [s2 h] eqn:El. injection E as <- _. by eapply look_up_quiet.
  - pose proof (expire_quiet id o now i s) as Hq.
    destruct (expire_connect now i s) as [s1 c] eqn:E. intros [= <- <-]. cbn [observe].
    destruct (decide (i = id)) as [->|Hne].
    + apply (expire_refines _ _ _ _ _ _ _ _ Hrel) in E. destruct c; [by rewrite bool_decide_true|done].
    + destruct c; [rewrite bool_decide_false by done|]; (eapply silent_refines; [done|by apply Hq]).
  - pose proof (cancel_quiet id o now i oi s) as Hq.
    destruct (cancel_task now i oi s) as [s1 c] eqn:E. intros [= <- <-]. cbn [observe].
    destruct (decide (i = id)) as [->|Hne].
    + apply (cancel_refines _ _ _ _ _ _ _ _ _ Hrel) in E. destruct c; [by rewrite bool_decide_true|done].
    + destruct c; [rewrite bool_decide_false by done|]; (eapply silent_refines; [done|by apply Hq]).
  - solve_silent. apply cancel_tasks_for_owner_quiet.
  - solve_silent. apply store_all_quiet.
  - solve_silent. apply store_all_quiet.
  - solve_silent. apply store_all_quiet.
Qed.

Lemma runs_refine id o k s es bs s' p :
  related id o k s p → runs id o k s es bs s' →
  ∃ p', related id o k s' p' ∧ life_run k p bs p'.
Proof.
  intros Hrel Hrun. revert p Hrel. induction Hrun as [s|s e es b bs s1 r s2 Hp Hs Hb Hr IH]; intros p Hrel.
  - exists p. split; [done|constructor].
  - destruct (step_refines _ _ _ _ _ _ _ _ Hrel Hp Hs) as (p1 & Hrel1 & Hl).
    destruct (IH p1 Hrel1) as (p2 & Hrel2 & Hl2). exists p2. split; [done|]. subst b. by econstructor.
Qed.

Lemma registered_related now id k o ssid scope s :
  unheld s id o → related id o k (register now id k o ssid scope s).1 (Running 1 false).
Proof.
  intros Hun. cbn. eexists. rewrite lookup_insert_eq. split_and!; [reflexivity|done..| |cbn; lia|done].
  unfold load. cbn. by rewrite lookup_insert_eq.
Qed.

(** ** The specification's own facts *)

Lemma life_run_app k p l l' q :
  life_run k p (l ++ l') q → ∃ m, life_run k p l m ∧ life_run k m l' q.
Proof.
  revert p. induction l as [|b l IH]; intros p Hrun; [exists p; split; [constructor|done]|].
  cbn in Hrun. inversion Hrun; subst. destruct (IH p' ltac:(done)) as (m & H1 & H2).
  exists m. split; [by econstructor|done].
Qed.

Definition final_obs (v : json) (b : Obs) : Prop :=
  b ∈ [Silent; Reported v; Settled v; Seen v; Suppressed].

Lemma done_forever k v l q : life_run k (Done v) l q → q = Done v ∧ Forall (final_obs v) l.
Proof.
  remember (Done v) as p eqn:E. induction 1 as [|p b p' l q Hl Hr IH]; [done|]. subst p.
  inversion Hl; subst. destruct (IH eq_refl) as [-> Hall]. split; [done|]. by constructor.
Qed.

Lemma gone_forever k l q : life_run k Gone l q → q = Gone ∧ Forall (λ b, b = Silent ∨ b = Suppressed) l.
Proof.
  remember Gone as p eqn:E. induction 1 as [|p b p' l q Hl Hr IH]; [done|]. subst p.
  inversion Hl; subst. destruct (IH eq_refl) as [-> Hall]. split; [done|]. constructor; [|done].
  set_solver.
Qed.

Definition is_report (b : Obs) : bool := match b with Reported _ => true | _ => false end.
Definition is_settled (b : Obs) : bool := match b with Settled _ => true | _ => false end.
Definition reports (l : list Obs) : N := N.of_nat (length (List.filter is_report l)).

(** Up to its end a request counts its reports and keeps a cancellation. *)
Lemma unsettled_run k l r c q :
  life_run k (Running r c) l q → existsb is_settled l = false → (r <= u64_max)%N →
  q = Gone ∨ ∃ c', q = Running (N.min (r + reports l) u64_max) c' ∧
    (c = true ∨ CancelAccepted ∈ l → c' = true).
Proof.
  revert r c. induction l as [|b l IH]; intros r c Hrun Hns Hr.
  - inversion Hrun; subst. right. exists c. split; [f_equal; unfold reports; cbn; lia|]. set_solver.
  - inversion Hrun as [|? ? p' ? ? Hl Hr']; subst. cbn in Hns. apply orb_false_iff in Hns as [Hb Hns].
    inversion Hl; subst; try done; try (by apply gone_forever in Hr' as [-> _]; left);
    (destruct (IH _ _ Hr' Hns) as [->|(c'' & -> & Hc)];
     [unfold next_revision, u64_saturating_add; lia|by left|]; right; exists c''; split;
     [f_equal; unfold reports, next_revision, u64_saturating_add; cbn; lia|]);
    intros [?|[?|?]%elem_of_cons]; simplify_eq; auto.
Qed.

(** ** Theorems *)

(** C5. The task table implements the life of a request: whatever the order of
    reports, queries, cancellations, deadlines, owner changes, evictions and other
    requests, what the owner observes is a run of the specification: revisions
    count its reports, it settles once, a settled request is only seen with its
    terminal event or not at all, and never as running. *)
Theorem request_lifecycle now id k o ssid scope s es bs s' :
  unheld s id o →
  runs id o k (register now id k o ssid scope s).1 es bs s' →
  ∃ p, related id o k s' p ∧ life_run k (Running 1 false) bs p.
Proof. intros Hun. by apply runs_refine, registered_related. Qed.

(** C12. Terminal evidence is immutable: once a request settled with an event, every
    later answer to its owner is that event or none; and a connection whose
    cancellation was accepted before never settles as succeeded. *)
Theorem terminal_evidence_immutable now id k o ssid scope s es b1 v b2 s' :
  unheld s id o →
  runs id o k (register now id k o ssid scope s).1 es (b1 ++ Settled v :: b2) s' →
  Forall (final_obs v) b2 ∧
  (k = Connect → CancelAccepted ∈ b1 → existsb is_settled b1 = false →
   jget v "event" ≠ JStr "succeeded").
Proof.
  intros Hun Hrun.
  destruct (runs_refine _ _ _ _ _ _ _ _ (registered_related now id k o ssid scope s Hun) Hrun)
    as (p & _ & Hl).
  apply life_run_app in Hl as (m & H1 & H2). inversion H2 as [|? ? p' ? ? Hs Hr]; subst. split.
  - assert (p' = Done v) as -> by (inversion Hs; subst; [done|set_solver|set_solver]).
    by apply done_forever in Hr as [_ ?].
  - intros -> Hc Hns. apply unsettled_run in H1 as [->|(c' & -> & Hc')]; [..|done|vm_compute; done].
    + inversion Hs; subst. set_solver.
    + inversion Hs; subst. auto.
Qed.

(** A report carries the number of reports before it: the n-th report of a
    request has revision n + 1 (the terminal event one more than the last report),
    up to the largest 64-bit number, where it stays. *)
Theorem report_revisions_exact now id k o ssid scope s es b1 v b2 s' :
  unheld s id o →
  runs id o k (register now id k o ssid scope s).1 es (b1 ++ Reported v :: b2) s' ∨
  runs id o k (register now id k o ssid scope s).1 es (b1 ++ Settled v :: b2) s' →
  existsb is_settled b1 = false →
  jget v "operation_revision" = JNum (Z.of_N (N.min (2 + reports b1) u64_max)).
Proof.
  intros Hun Hrun Hns.
  assert (∃ b p, (b = Reported v ∨ b = Settled v) ∧ life_run k (Running 1 false) (b1 ++ b :: b2) p)
    as (b & p & Hb & Hl).
  { pose proof (registered_related now id k o ssid scope s Hun) as Hreg.
    destruct Hrun as [Hrun|Hrun]; destruct (runs_refine _ _ _ _ _ _ _ _ Hreg Hrun) as (p & _ & Hl);
      eauto. }
  apply life_run_app in Hl as (m & H1 & H2). inversion H2 as [|? ? p' ? ? Hs Hr]; subst.
  apply unsettled_run in H1 as [->|(c' & -> & Hc')]; [..|done|vm_compute; done].
  - inversion Hs; set_solver.
  - destruct Hb as [-> | ->]; inversion Hs; subst;
      match goal with E : jget v _ = _ |- _ => rewrite E end;
      unfold next_revision, u64_saturating_add; do 2 f_equal; lia.
Qed.

(** A request belongs to its owner: to anyone else it is unknown, reports
    under another name are dropped, and a cancellation by another client is
    refused without any effect. *)
Theorem foreign_owner_refused now id p s event :
  (∀ t, tasks s !! id = Some t → owner t ≠ p) → unheld s id p →
  (request_status now id p s).2 = unknown_status id ∧
  cancel_task now id p s = (s, None) ∧
  store_connect_progress now id p event s = (s, Returned None).
Proof.
  intros Ho Hun.
  assert (∀ s1, tasks s1 = tasks s → owned_task id p s1 = None) as Hnone.
  { intros s1 E. destruct (owned_task id p s1) as [t|] eqn:Ht; [|done].
    apply owned_task_Some in Ht as [Ht1 Ht2]. rewrite E in Ht1. by destruct (Ho t Ht1). }
  unfold request_status, cancel_task, store_connect_progress.
  destruct (look_up now id p s) as [s1 held] eqn:E. apply look_up_spec in E as (E1 & _ & _ & _ & E5).
  rewrite !Hnone by done. destruct held as [x|]; [|done]. by destruct (Hun x (E5 x eq_refl)).
Qed.

End Runtime.
Arguments Panicking {A}.
Arguments Returned {A} a.

(** ** Examples *)

(** Results that are never dropped. *)
Definition unbounded_results : RecentResults.
Proof.
  refine {| recent := gmap (string * option string) TerminalRequestResult;
            get_owned := λ _ id o r, (r, r !! (id, o));
            record := λ _ id o t r, <[(id, o) := t]> r;
            holds := λ r id o t, r !! (id, o) = Some t |}.
  - done.
  - done.
  - intros now id o t r i p t' Hl. destruct (decide ((i, p) = (id, o))) as [E|Hne].
    + injection E as -> ->. rewrite lookup_insert_eq in Hl. left. split_and!; congruence.
    + rewrite lookup_insert_ne in Hl by done. by right.
Defined.

Definition idle : @Runtime unbounded_results :=
  @Build_Runtime unbounded_results ∅ ∅ 0%N (∅ : gmap (string * option string) TerminalRequestResult).

Definition message (event : string) : json :=
  JObj [("data", JObj [("message", JStr "m")]); ("event", JStr event)].

Lemma message_envelope event : envelope (message event).
Proof. split; [done|]. eexists. split; [vm_compute; reflexivity|done]. Qed.

(** A report, an accepted cancellation, then a success that came too late. *)
Definition late_success : list Event :=
  [EProgress 1 "connect-1" (Some ":1.7") (message "progress"); ECancel 2 "connect-1" (Some ":1.7");
   ETerminal 3 "connect-1" (Some ":1.7") St.WifiConnect (message "succeeded") false;
   EStatus 4 "connect-1" (Some ":1.7")].

Definition reported : json :=
  JObj [("data", JObj [("message", JStr "m")]); ("event", JStr "progress"); ("operation_revision", JNum 2)].
Definition settled : json :=
  JObj [("data", JObj [("message", JStr "Connection cancelled"); ("phase", JStr "cancelled")]);
        ("event", JStr "cancelled"); ("operation_revision", JNum 3)].

Definition connecting : @Runtime unbounded_results :=
  (@register unbounded_results 0 "connect-1" Connect (Some ":1.7") None ":1.2" idle).1.

Lemma late_success_runs :
  ∃ s', @runs unbounded_results "connect-1" (Some ":1.7") Connect connecting late_success
    ([Reported reported; CancelAccepted] ++ Settled settled :: [Seen settled]) s'.
Proof.
  eexists. cbn [app].
  assert ((@trace unbounded_results "connect-1" (Some ":1.7") late_success connecting).1
    = [Reported reported; CancelAccepted; Settled settled; Seen settled]) as <- by (vm_compute; reflexivity).
  apply trace_runs. split; [intros _; apply message_envelope|]. split; [exact I|].
  split; [|split; exact I]. intros _. split_and!; [reflexivity|reflexivity|apply message_envelope|].
  apply (bool_decide_unpack _). vm_compute. exact I.
Qed.

Lemma idle_unheld id o : @unheld unbounded_results idle id o.
Proof. intros t. by vm_compute. Qed.

Lemma request_lifecycle_witness :
  ∃ p, life_run Connect (Running 1 false)
    [Reported reported; CancelAccepted; Settled settled; Seen settled] p.
Proof.
  destruct late_success_runs as (s' & Hrun).
  destruct (@request_lifecycle unbounded_results _ _ _ _ _ _ _ _ _ _ (idle_unheld _ _) Hrun)
    as (p & _ & Hl). exists p. exact Hl.
Defined.

Lemma terminal_evidence_immutable_witness :
  jget settled "event" ≠ JStr "succeeded" ∧ Forall (final_obs settled) [Seen settled].
Proof.
  destruct late_success_runs as (s' & Hrun).
  destruct (@terminal_evidence_immutable unbounded_results _ _ _ _ _ _ _ _ _ _ _ _
    (idle_unheld _ _) Hrun) as [H1 H2]. split; [|exact H1].
  apply H2; [reflexivity|right; left|reflexivity].
Defined.

Lemma report_revisions_exact_witness : jget settled "operation_revision" = JNum 3.
Proof.
  destruct late_success_runs as (s' & Hrun).
  rewrite (@report_revisions_exact unbounded_results _ _ _ _ _ _ _ _ _ _ _ _
    (idle_unheld _ _) (or_intror Hrun) eq_refl). vm_compute. reflexivity.
Defined.

Lemma foreign_owner_refused_witness :
  let s := (@register unbounded_results 0 "connect-1" Connect (Some ":1.7") None ":1.2" idle).1 in
  @cancel_task unbounded_results 1 "connect-1" (Some ":1.8") s = (s, None).
Proof.
  intros s. destruct (@foreign_owner_refused unbounded_results 1 "connect-1" (Some ":1.8") s (message "x"))
    as (_ & H & _); [|by vm_compute|exact H].
  intros t Ht. vm_compute in Ht. injection Ht as <-. discriminate.
Defined.
