(* ===== verification/Portal.v ===== *)
(** * Captive-portal launches ([src/portal.rs])

    Preparing, claiming and completing the launch of a browser: the proof of the caller's
    successful connect among the daemon's results (Runtime.v), the snapshot of the current
    connection (Status.v), the address that may be opened, and the ledger (Ledger.v) that is
    opened at the first use. *)
From S2P Require Import Prelude Errors Values Text Random Identity Network Variant Protocol Runtime Bus Status Ledger.
From Stdlib Require Import ZArith Lia Ascii.
From stdpp Require Import prelude gmap strings list.
Open Scope bus_scope.

Record PrepareParams := { pp_mode : Mode; pp_connect_request_id : option string; pp_fallback : bool }.

(** ** Addresses *)

(** What [url::Url::parse] answers, and the text of the parsed address. *)
Record ParsedUrl := { host_str : option string; username : string; url_password : option string; url_text : string }.

Definition is_control (c : char) : bool := in_range 0 31 c || in_range 127 159 c.
Definition BACKSLASH : char := 92%N.
Definition NEVERSSL : string := "http://neverssl.com/".

Section Portal.
(** [Url::parse] and [serde_json::to_string]. *)
Context (url_parse : string → option ParsedUrl) (json_text : json → string) `{Env : Envelopes}.

Definition safe_url (value : string) : option string :=
  if (4096 <? str_len value)%nat
     || existsb (λ c, is_control c || is_whitespace c || bool_decide (c = BACKSLASH)) (chars value)
  then None
  else if negb (starts_with "http://" value) then None
  else
    parsed ← url_parse value;
    if bool_decide (host_str parsed = None) || negb (bool_decide (username parsed = ""))
       || bool_decide (is_Some (url_password parsed)) then None
    else Some (url_text parsed).

(** ** Episodes *)

Definition episode_text (nm_owner path uuid : string) : string :=
  json_text (JArr [JStr nm_owner; JStr path; JStr uuid]).
Definition episode_context (nm_owner : string) (status : ConnectivityStatus) :
    result (string * PrimaryConnectionIdentity) Error :=
  let? primary := ok_or (primary_connection status) (invalid "no primary connection") in
  if bool_decide (nm_owner = "") || bool_decide (pc_path primary = "/") || bool_decide (pc_uuid primary = "") then
    Err (invalid "primary connection identity is unavailable")
  else Ok (episode_text nm_owner (pc_path primary) (pc_uuid primary), primary).
Definition portal_episode (nm_owner : string) (status : ConnectivityStatus) : result string Error :=
  result_map fst (episode_context nm_owner status).

(** What is wrong with the proof of an automatic launch. *)
Definition unproved (params : PrepareParams) (status : ConnectivityStatus) (current : PrimaryConnectionIdentity)
    (proof : json) : bool :=
  let res := jget (jget (jget proof "event") "data") "result" in
  let previous := jget (jget res "connectivity") "primary_connection" in
  pp_fallback params || negb (captive_portal status)
  || bool_decide (jget proof "status" ≠ JStr "finished")
  || bool_decide (jget proof "stream" ≠ JStr "wifi.connect")
  || bool_decide (jget (jget proof "event") "event" ≠ JStr "succeeded")
  || bool_decide (jget res "suggest_open_portal" ≠ JBool true)
  || bool_decide (jget previous "path" ≠ JStr (pc_path current))
  || bool_decide (jget previous "uuid" ≠ JStr (pc_uuid current)).
(** [uuid] is the result of [random_uuid_v4]. *)
Definition validate (uuid : result string Error) (params : PrepareParams) (nm_owner : string) (status : ConnectivityStatus)
    (proof : json) (now : N) : result Intent Error :=
  let? (ep, current) := episode_context nm_owner status in
  let? _ :=
    match pp_mode params with
    | Automatic =>
      if unproved params status current proof then
        Err (invalid "automatic portal launch requires this caller's successful connect on the current captive connection")
      else Ok tt
    | Manual =>
      if bool_decide (is_Some (pp_connect_request_id params)) then
        Err (invalid "manual portal launch does not take a connect request")
      else Ok tt
    end in
  let? id := uuid in
  Ok {| launch_id := id; episode := ep; url := unwrap_or (check_uri status ≫= safe_url) NEVERSSL;
        reason := pp_mode params; expires_at_ms := u64_saturating_add now 10000 |}.

(** ** Replies *)

Definition mode_name (m : Mode) : string := match m with Automatic => "automatic" | Manual => "manual" end.
Definition outcome_name (o : Ledger.Outcome) : string :=
  match o with Opened => "opened" | Ledger.Failed => "failed" | Uncertain => "uncertain" end.
Definition intent_json (i : Intent) : json :=
  JObj (bt_insert "launch_id" (JStr (launch_id i)) (bt_insert "episode" (JStr (episode i))
    (bt_insert "url" (JStr (url i)) (bt_insert "reason" (JStr (mode_name (reason i)))
      (bt_insert "expires_at_ms" (JNum (Z.of_N (expires_at_ms i))) []))))).
Definition prepare_reply (i : option Intent) : json :=
  api_data_value "portal" (JObj (bt_insert "decision" (JStr (if i then "launch" else "suppressed"))
    (bt_insert "intent" (json_option (intent_json <$> i)) []))).
Definition claim_reply (i : Intent) : json := api_data_value "portal" (JObj (bt_insert "intent" (intent_json i) [])).
Definition complete_reply (id : string) (o : Ledger.Outcome) : json :=
  api_data_value "portal" (JObj (bt_insert "launch_id" (JStr id) (bt_insert "outcome" (JStr (outcome_name o)) []))).

(** ** The daemon's state *)

(** The task table; the queue of reads; the ledger once it was opened, its lock, its file,
    and what writing it answers; the wall clock and the random bytes. *)
Class PortalHost (W : Type) `{RecentResults} := {
  ph_runtime : W → Runtime;
  ph_put_runtime : Runtime → W → W;
  ph_queue : W → option LaneError;
  ph_ledger : W → option (result Ledger string);
  ph_put_ledger : result Ledger string → W → W;
  ph_locked : W → bool;
  ph_env : W → option OpenEnv;
  ph_disk : W → option Ledger.State;
  ph_put_disk : option Ledger.State → W → W;
  ph_write : W → WriteResult;
  ph_json_len : Ledger.State → N;
  ph_now_ms : W → N;
  ph_random : W → result (list u8) Error;
}.

Context {W : Type} {B : Bus W} `{RR : RecentResults} {PH : PortalHost W} (server_guid : string).

Definition request_status (id : string) (owner : option string) : bus W json :=
  let! t := now in
  local (λ w, let (r, v) := Runtime.request_status t id owner (ph_runtime w) in (v, ph_put_runtime r w)).
(** A read bound to NetworkManager's owner. *)
Definition call_read {A} (o : ErrorOperation) (task : bus W A) : bus W A :=
  let! _ := current_owner in
  let! queue := local (λ w, (ph_queue w, w)) in
  match queue with
  | Some e => lift (Err (lane_error "read-work" o e))
  | None => let! a := task in let! _ := ensure_current_owner in ret a
  end.
Definition open_ledger (env : option OpenEnv) : result Ledger string :=
  result_map_err display
    (let? env := ok_or env (invalid "XDG_RUNTIME_DIR required for portal launch policy") in Ledger.open env).
(** The ledger is opened at the first use, and [action] runs on it under its lock. *)
Definition with_ledger {A} (action : W → Ledger → option Ledger.State → result A Error * Ledger * option Ledger.State) : bus W A :=
  let! r := local (λ w,
    let opened := match ph_ledger w with Some l => l | None => open_ledger (ph_env w) end in
    let w := ph_put_ledger opened w in
    if negb (ph_locked w) then (Err (invalid "portal ledger poisoned"), w)
    else match opened with
         | Ok l => let '(r, l, d) := action w l (ph_disk w) in (r, ph_put_disk d (ph_put_ledger (Ok l) w))
         | Err e => (Err (invalid e), w)
         end) in
  lift r.

(** ** The operations *)

Definition proof_of (owner : string) (params : PrepareParams) : bus W json :=
  match pp_mode params, pp_connect_request_id params with
  | Automatic, Some id =>
    if negb (bool_decide (id = "")) && (str_len id <=? 256)%nat then request_status id (Some owner)
    else lift (Err (invalid "automatic portal launch requires a connect request"))
  | Automatic, None => lift (Err (invalid "automatic portal launch requires a connect request"))
  | Manual, _ => ret JNull
  end.
Definition prepare_intent (owner : string) (params : PrepareParams) : bus W (option Intent) :=
  let! proof := proof_of owner params in
  let! (nm_owner, status) := call_read Op.Connectivity (portal_snapshot server_guid) in
  let! now := local (λ w, (ph_now_ms w, w)) in
  let! uuid := local (λ w, (random_uuid_v4 (ph_random w), w)) in
  let! intent := lift (validate uuid params nm_owner status proof now) in
  with_ledger (λ w, reserve ph_json_len (ph_write w) intent owner (pp_fallback params) now).
Definition prepare (owner : option string) (params : PrepareParams) : bus W json :=
  let! owner := lift (ok_or owner (invalid "portal launch requires a transport owner")) in
  let! intent := prepare_intent owner params in
  ret (prepare_reply intent).
Definition claim_intent (owner : string) (id : string) : bus W Intent :=
  let! (nm_owner, status) := call_read Op.Connectivity (portal_snapshot server_guid) in
  let! ep := lift (portal_episode nm_owner status) in
  with_ledger (λ w, claim ph_json_len (ph_write w) id owner ep (captive_portal status) (ph_now_ms w)).
Definition portal_claim (owner : option string) (id : string) : bus W json :=
  let! owner := lift (ok_or owner (invalid "portal claim requires a transport owner")) in
  let! intent := claim_intent owner id in
  ret (claim_reply intent).
Definition portal_complete (owner : option string) (id : string) (o : Ledger.Outcome) : bus W json :=
  let! owner := lift (ok_or owner (invalid "portal completion requires a transport owner")) in
  let! _ := with_ledger (λ w, complete ph_json_len (ph_write w) id owner o) in
  ret (complete_reply id o).
End Portal.

(** ** What a launch rests on *)

Section Facts.
Context (url_parse : string → option ParsedUrl) (json_text : json → string) `{Env : Envelopes}.
Context {W : Type} {B : Bus W} `{RR : RecentResults} {PH : PortalHost W} (server_guid : string).
Implicit Types s : Session W.

(** Only plain HTTP with a host and without credentials, or one of the fixed addresses. *)
Definition may_open (u : string) : Prop :=
  u ∈ NEVERSSL :: FALLBACKS ∨
  ∃ value parsed, starts_with "http://" value = true ∧ (str_len value ≤ 4096)%nat ∧
    (∀ c, c ∈ chars value → is_control c = false ∧ is_whitespace c = false ∧ c ≠ BACKSLASH) ∧
    url_parse value = Some parsed ∧ is_Some (host_str parsed) ∧ username parsed = "" ∧
    url_password parsed = None ∧ u = url_text parsed.
Lemma safe_url_opens value u : safe_url url_parse value = Some u → may_open u.
Proof.
  unfold safe_url. destruct (_ || _) eqn:E; [done|]. apply orb_false_iff in E as [El Ec].
  destruct (starts_with _ _) eqn:Es; [|done]. cbn. destruct (url_parse value) as [p|] eqn:Ep; [|done]. cbn.
  destruct (_ || _) eqn:E; [done|]. intros [= <-]. rewrite !orb_false_iff, negb_false_iff in E. bool_prop. right.
  exists value, p. destruct E as [[Eh%bool_decide_eq_false Eu%bool_decide_eq_true] Ew%bool_decide_eq_false].
  split; [done|]. split; [by apply Nat.ltb_ge in El|]. split.
  - intros c Hc. destruct (is_control c || is_whitespace c || bool_decide (c = BACKSLASH)) eqn:Ex.
    + exfalso. apply not_true_iff_false in Ec. apply Ec, existsb_exists. exists c. split; [by apply list_elem_of_In|done].
    + rewrite !orb_false_iff, bool_decide_eq_false in Ex. naive_solver.
  - split; [done|]. split; [by apply not_eq_None_Some|]. split; [done|]. split; [by apply eq_None_not_Some|done].
Qed.

Lemma episode_context_Ok nm_owner status ep c : episode_context json_text nm_owner status = Ok (ep, c) →
  primary_connection status = Some c ∧ nm_owner ≠ "" ∧ pc_path c ≠ "/" ∧ pc_uuid c ≠ "" ∧
  ep = episode_text json_text nm_owner (pc_path c) (pc_uuid c).
Proof.
  unfold episode_context. destruct (primary_connection status) as [p|]; [|done]. cbn.
  destruct (_ || _) eqn:E; [done|]. intros [= <- <-]. rewrite !orb_false_iff, !bool_decide_eq_false in E. naive_solver.
Qed.

(** The daemon holds a successful connect of this caller on this connection. *)
Definition connected (o : string) (params : PrepareParams) (c : PrimaryConnectionIdentity) (w : W) : Prop :=
  ∃ id r, pp_connect_request_id params = Some id ∧ holds (results (ph_runtime w)) id (Some o) r ∧
    tr_stream r = St.WifiConnect ∧ jget (tr_event r) "event" = JStr "succeeded" ∧
    let res := jget (jget (tr_event r) "data") "result" in
    jget res "suggest_open_portal" = JBool true ∧
    jget (jget (jget res "connectivity") "primary_connection") "path" = JStr (pc_path c) ∧
    jget (jget (jget res "connectivity") "primary_connection") "uuid" = JStr (pc_uuid c).
Lemma wifi_connect_stream st : stream_name st = "wifi.connect" → st = St.WifiConnect.
Proof. by destruct st. Qed.
Lemma finished_held t id o r v r' : Runtime.request_status t id o r = (r', v) → jget v "status" = JStr "finished" →
  ∃ x, holds (results r) id o x ∧ v = terminal_request_status id x.
Proof.
  unfold Runtime.request_status, look_up. pose proof (get_owned_held t id o (results r)) as H.
  destruct (get_owned t id o (results r)) as [rs [x|]]; cbn in H; intros [= <- <-]; [by eauto|].
  destruct (owned_task _ _ _) as [k|]; [|done]. by destruct (terminal k).
Qed.
Lemma terminal_status_fields id x : jget (terminal_request_status id x) "event" = tr_event x ∧
  jget (terminal_request_status id x) "stream" = JStr (stream_name (tr_stream x)).
Proof.
  unfold terminal_request_status, jget. cbn. done.
Qed.

(** What the ledger records of a launch. *)
Lemma choose_url_spec fb i n : let i' := (choose_url fb i n).1 in
  launch_id i' = launch_id i ∧ episode i' = episode i ∧ reason i' = reason i ∧ expires_at_ms i' = expires_at_ms i ∧
  (url i' = url i ∨ url i' ∈ FALLBACKS).
Proof.
  unfold choose_url. destruct fb; cbn; [|by split_and!; [..|left]]. split_and!; [done..|right].
  destruct (lookup_lt_is_Some_2 FALLBACKS (n mod length FALLBACKS)) as [u Hu]; [by apply Nat.mod_upper_bound|].
  cbn in Hu. rewrite Hu. cbn. by eapply list_elem_of_lookup_2.
Qed.
Definition reserved (o : string) (i : Intent) (st : Ledger.State) : Prop :=
  ∃ e, bt_get (episode i) (episodes st) = Some e ∧
    launch e = Some {| intent := i; owner := o; phase := Reserved; outcome := None |} ∧
    (reason i = Automatic → automatic_attempted e = true).
Lemma reserve_Ok len w i o fb now l d i' l' d' : reserve len w i o fb now l d = (Ok (Some i'), l', d') →
  d' = Some (state l') ∧ reserved o i' (state l') ∧
  launch_id i' = launch_id i ∧ episode i' = episode i ∧ reason i' = reason i ∧ expires_at_ms i' = expires_at_ms i ∧
  (url i' = url i ∨ url i' ∈ FALLBACKS) ∧
  (reason i = Automatic → ∀ e, bt_get (episode i) (episodes (state l)) = Some e → automatic_attempted e = false).
Proof.
  intros H. pose proof (reserve_advance _ _ _ _ _ _ _ _ _ _ _ H) as (_ & _ & Hok). destruct (Hok _ eq_refl) as [-> Hauto].
  unfold reserve in H. destruct (poisoned l); [done|]. destruct (_ && _); [done|]. destruct (existsb _ _); [done|].
  destruct (negb _); [done|].
  pose proof (choose_url_spec fb i (fallback_index (unwrap_or (bt_get (episode i) (episodes (state l))) default_episode))) as Hc.
  destruct (choose_url _ _ _) as [i2 index]. cbn in Hc. destruct Hc as (H1 & H2 & H3 & H4 & H5).
  destruct (persist _ _ _ _) as [[[[]|e] lp] dp] eqn:Hp; [|done]. injection H as -> -> ->.
  apply persist_visible in Hp as (Hst & _ & _).
  split; [done|]. split.
  - rewrite Hst. eexists. cbn. rewrite H2, bt_get_insert_eq. split; [done|]. split; [done|]. cbn. rewrite H3. intros ->. apply orb_true_r.
  - split_and!; try done. intros Ha e He. destruct (Hauto Ha) as [Hno _]. by rewrite He in Hno.
Qed.

(** ** The theorem *)

Lemma with_ledger_Ok {A} (action : W → Ledger → option Ledger.State → result A Error * Ledger * option Ledger.State) s a s' :
  with_ledger action s = (Ok a, s') → ∃ w l l' d, action w l (ph_disk w) = (Ok a, l', d) ∧
    Bus.world s' = ph_put_disk d (ph_put_ledger (Ok l') w).
Proof.
  unfold with_ledger. intros (r & s1 & E & [-> ->]%lifted_Ok)%then_Ok. unfold local in E. destruct s as [w tr]. cbn in E.
  set (opened := match ph_ledger w with Some l => l | None => open_ledger (ph_env w) end) in *.
  destruct (ph_locked _); [|done]. cbn in E. destruct opened as [l|e]; [|done]. set (w1 := ph_put_ledger (Ok l) w) in *.
  destruct (action w1 l (ph_disk w1)) as [[r l'] d] eqn:Ea. injection E as -> <-. exists w1, l, l', d. done.
Qed.

(** The snapshot of the current connection that was taken. *)
Definition snapshot (nm_owner : string) (status : ConnectivityStatus) (c : PrimaryConnectionIdentity) : Prop :=
  (∃ sa sb, call_read Op.Connectivity (portal_snapshot server_guid) sa = (Ok (nm_owner, status), sb)) ∧
  primary_connection status = Some c ∧ nm_owner ≠ "" ∧ pc_path c ≠ "/" ∧ pc_uuid c ≠ "".
(** The ledger and its file hold [st]. *)
Definition recorded s (st : Ledger.State) : Prop :=
  ∃ w l, Bus.world s = ph_put_disk (Some st) (ph_put_ledger (Ok l) w) ∧ state l = st.

Definition prepared (o : string) (params : PrepareParams) (i : Intent) (w0 : W) s' : Prop :=
  ∃ nm_owner status c st, snapshot nm_owner status c ∧
    episode i = episode_text json_text nm_owner (pc_path c) (pc_uuid c) ∧ reason i = pp_mode params ∧ may_open (url i) ∧
    recorded s' st ∧ reserved o i st ∧
    (pp_mode params = Automatic → pp_fallback params = false ∧ captive_portal status = true ∧ connected o params c w0).
Definition claimed (o id : string) (i : Intent) s' : Prop :=
  ∃ nm_owner status c w l k la, snapshot nm_owner status c ∧
    episode i = episode_text json_text nm_owner (pc_path c) (pc_uuid c) ∧
    (reason i = Manual ∨ captive_portal status = true) ∧ launch_id i = id ∧ (ph_now_ms w < expires_at_ms i)%N ∧
    (∃ e, (k, e) ∈ episodes (state l) ∧ launch e = Some la) ∧
    la = {| intent := i; owner := o; phase := Reserved; outcome := Ledger.outcome la |} ∧
    recorded s' (state (set_launch k {| intent := i; owner := o; phase := Claimed; outcome := Ledger.outcome la |} l)).

Lemma proof_connected o params c s proof s' nm_owner status ep :
  pp_mode params = Automatic → proof_of o params s = (Ok proof, s') →
  episode_context json_text nm_owner status = Ok (ep, c) → unproved params status c proof = false →
  pp_fallback params = false ∧ captive_portal status = true ∧ connected o params c (Bus.world s).
Proof.
  intros Hm Hp Hc Hu. unfold unproved in Hu. rewrite !orb_false_iff, !bool_decide_eq_false, negb_false_iff in Hu.
  destruct Hu as [[[[[[[Hf Hcap] H1] H2] H3] H4] H5] H6]. apply dec_stable in H1, H2, H3, H4, H5, H6.
  split; [done|]. split; [done|]. unfold proof_of in Hp. rewrite Hm in Hp. destruct (pp_connect_request_id params) as [id|] eqn:Ei; [|done].
  destruct (_ && _); [|done]. unfold request_status, now, bind, local in Hp. destruct s as [w tr]. cbn [Bus.world trace] in *.
  destruct (Runtime.request_status (bus_now w) id (Some o) (ph_runtime w)) as [r v] eqn:Er. injection Hp as -> _.
  destruct (finished_held _ _ _ _ _ _ Er H1) as (x & Hx & ->). destruct (terminal_status_fields id x) as [Fe Fs].
  rewrite Fe in *. rewrite Fs in H2. injection H2 as H2. exists id, x. split_and!; try done. by apply wifi_connect_stream.
Qed.
Lemma prepare_intent_Ok o params s i s' : prepare_intent url_parse json_text server_guid o params s = (Ok (Some i), s') →
  prepared o params i (Bus.world s) s'.
Proof.
  unfold prepare_intent. intros (proof & s1 & Ep & H)%then_Ok. apply then_Ok in H as ([nm_owner status] & s2 & Es & H).
  apply then_Ok in H as (t & s3 & Et & H). apply then_Ok in H as (uuid & s4 & _ & H).
  apply then_Ok in H as (i0 & s5 & [Ev ->]%lifted_Ok & H).
  apply with_ledger_Ok in H as (w & l & l' & d & Er & Hw).
  apply reserve_Ok in Er as (-> & Hres & _ & He & Hr & _ & Hu & _).
  unfold validate in Ev. destruct (episode_context json_text nm_owner status) as [[ep c]|e] eqn:Ec; [|done]. cbn in Ev.
  pose proof (episode_context_Ok _ _ _ _ Ec) as (H1 & H2 & H3 & H4 & ->).
  assert (∃ id, uuid = Ok id ∧ i0 = {| launch_id := id; episode := episode_text json_text nm_owner (pc_path c) (pc_uuid c);
    url := unwrap_or (check_uri status ≫= safe_url url_parse) NEVERSSL; reason := pp_mode params;
    expires_at_ms := u64_saturating_add t 10000 |} ∧ (pp_mode params = Automatic → unproved params status c proof = false)) as (id & -> & -> & Hun).
  { destruct (pp_mode params).
    - destruct (unproved params status c proof); [done|]. cbn in Ev. destruct uuid as [id|e]; [|done]. injection Ev as <-. by exists id.
    - destruct (bool_decide _); [done|]. cbn in Ev. destruct uuid as [id|e]; [|done]. injection Ev as <-. by exists id. }
  cbn in He, Hr, Hu. exists nm_owner, status, c, (state l'). split; [by split; [eauto|]|]. split; [done|]. split; [done|]. split.
  { destruct Hu as [->|Hu]; [|left; set_solver]. destruct (check_uri status) as [v|]; cbn; [|left; set_solver].
    destruct (safe_url url_parse v) as [u|] eqn:Esafe; cbn; [by eapply safe_url_opens|left; set_solver]. }
  split; [by exists w, l'|]. split; [done|]. intros Ha. by eapply proof_connected; eauto.
Qed.
(** Only an automatic launch is suppressed. *)
Lemma prepare_intent_none o params s s' : prepare_intent url_parse json_text server_guid o params s = (Ok None, s') →
  pp_mode params = Automatic.
Proof.
  unfold prepare_intent. intros (proof & s1 & Ep & H)%then_Ok. apply then_Ok in H as ([nm_owner status] & s2 & Es & H).
  apply then_Ok in H as (t & s3 & Et & H). apply then_Ok in H as (uuid & s4 & _ & H).
  apply then_Ok in H as (i0 & s5 & [Ev ->]%lifted_Ok & H). apply with_ledger_Ok in H as (w & l & l' & d & Er & _).
  assert (reason i0 = pp_mode params) as <-.
  { unfold validate in Ev. destruct (episode_context _ _ _) as [[ep c]|]; [|done]. cbn in Ev.
    destruct (match pp_mode params with Automatic => _ | Manual => _ end); [|done]. cbn in Ev.
    destruct uuid as [id|]; [|done]. by injection Ev as <-. }
  unfold reserve in Er. destruct (poisoned l); [done|]. destruct (bool_decide (reason i0 = Automatic)) eqn:Ea; [by apply bool_decide_eq_true in Ea|].
  cbn in Er. destruct (existsb _ _); [done|]. destruct (negb _); [done|]. destruct (choose_url _ _ _).
  by destruct (persist _ _ _ _) as [[[[]|e] lp] dp].
Qed.
Lemma claim_intent_Ok o id s i s' : claim_intent json_text server_guid o id s = (Ok i, s') → claimed o id i s'.
Proof.
  unfold claim_intent. intros ([nm_owner status] & s1 & Es & H)%then_Ok. apply then_Ok in H as (ep & s2 & [Ep ->]%lifted_Ok & H).
  apply with_ledger_Ok in H as (w & l & l' & d & Er & Hw).
  apply Ledger.claim_Ok in Er as (k & la & Hf & Hi & Hp & Hph & Hlt & He & Hc & -> & ->). subst i.
  apply find_launch_Ok in Hf as (_ & Hid & Ho & e & Hin & Hla).
  unfold portal_episode in Ep. destruct (episode_context json_text nm_owner status) as [[ep' c]|x] eqn:Ec; [|done]. injection Ep as ->.
  pose proof (episode_context_Ok _ _ _ _ Ec) as (H1 & H2 & H3 & H4 & ->).
  exists nm_owner, status, c, w, l, k, la. split; [by split; [eauto|]|]. split; [done|]. split; [done|]. split; [done|]. split; [done|].
  split; [by exists e|]. split; [destruct la; cbn in *; by subst|]. rewrite Ho in *. by eexists w, _.
Qed.

(** C11. A browser is launched only where it was asked for. A launch that is prepared carries
    the identity of NetworkManager's owner and of the connection that are current, and an
    address that is plain HTTP without credentials or one of the fixed ones, and it is in
    the ledger and its file, reserved for the caller; an automatic one needs, besides, that
    the daemon itself holds the success of this caller's connect request, which suggested a
    portal on this very connection, and that the connection is captive now. A claim is
    granted only for a launch reserved by the same caller, before it expires, while that
    connection is still the current one and, unless the user asked, still captive; and it is
    on disk as claimed before the browser may start. *)
Theorem portal_launch_fenced caller params id s t :
  match prepare url_parse json_text server_guid caller params s with
  | (Ok v, s') => ∃ o i, caller = Some o ∧ v = prepare_reply i ∧
      match i with
      | Some i => prepared o params i (Bus.world s) s'
      | None => pp_mode params = Automatic
      end
  | _ => True
  end ∧
  match portal_claim json_text server_guid caller id t with
  | (Ok v, t') => ∃ o i, caller = Some o ∧ v = claim_reply i ∧ claimed o id i t'
  | _ => True
  end.
Proof.
  split.
  - destruct (prepare _ _ _ _ _ _) as [[v|e] s'] eqn:E; [|done]. unfold prepare in E.
    apply then_Ok in E as (o & s1 & [Ho ->]%lifted_Ok & E). apply then_Ok in E as (i & s2 & Ei & [-> ->]%done_Ok).
    destruct caller as [x|]; [injection Ho as ->|done]. exists o, i. split; [done|]. split; [done|].
    destruct i as [i|]; [by apply prepare_intent_Ok|]. by eapply prepare_intent_none.
  - destruct (portal_claim _ _ _ _ _) as [[v|e] s'] eqn:E; [|done]. unfold portal_claim in E.
    apply then_Ok in E as (o & s1 & [Ho ->]%lifted_Ok & E). apply then_Ok in E as (i & s2 & Ei & [-> ->]%done_Ok).
    destruct caller as [x|]; [injection Ho as ->|done]. exists o, i. split; [done|]. split; [done|]. by eapply claim_intent_Ok.
Qed.
End Facts.
