(* ===== verification/Subscriptions.v ===== *)
(** * Subscriptions ([src/daemon_runtime/subscriptions.rs], [src/daemon_status.rs],
      [src/daemon_runtime/health_feedback.rs])

    One actor owns the subscriptions, the gate of the shared refresh, the health
    feedback and the deadline that debounces network changes; it handles one control
    message at a time. A refresh runs on the fast lane and comes back as the message
    [Refreshed]. The hash maps are iterated in the order of [map_to_list]. What the
    actor hands to a subscription's emitter is its output. *)
From S2P Require Import Prelude Errors Values Deltas Protocol.
From Stdlib Require Import ZArith Lia.
From stdpp Require Import prelude gmap strings list.

Definition NETWORK_CHANGE_DEBOUNCE : duration := from_millis 75.

(** ** Health feedback *)

Module Health.

Abbreviation HealthFeedback := (gmap string (string * instant)) (only parsing).

Definition drop_owner (owner : string) (h : HealthFeedback) : HealthFeedback := delete owner h.

Definition IDENTITY_KEYS : list string :=
  ["device_path"; "active_connection_path"; "profile_path"; "uuid"; "id"; "device_iface";
   "connection_type"].

Definition non_empty_str (v : json) : option string :=
  match v with JStr s => if bool_decide (s = "") then None else Some s | _ => None end.

Fixpoint find_map {A B} (f : A → option B) (l : list A) : option B :=
  match l with
  | [] => None
  | a :: l => match f a with Some b => Some b | None => find_map f l end
  end.

Definition feedback_key (health : json) : string :=
  unwrap_or (find_map (λ k, non_empty_str (jget health k)) IDENTITY_KEYS) "network"
  +:+ "|" +:+ unwrap_or (jstr (jget health "state_name")) "unknown"
  +:+ "|" +:+ unwrap_or (jstr (jget (jget health "reason") "name")) "unknown".

Definition recommended (data : json) : bool :=
  bool_decide (jget (jget data "health") "notification_recommended" = JBool true).

Definition duplicate (owner key : string) (now : instant) (h : HealthFeedback) : bool :=
  match h !! owner with
  | Some (old, at_) => bool_decide (old = key) && (now - at_ <? from_secs 3)%N
  | None => false
  end.

(** [data["health"]] through [IndexMut]; [None] is its panic. *)
Definition project (owner : string) (data : json) (connecting : bool) (now : instant)
    (h : HealthFeedback) : option (HealthFeedback * json) :=
  match index_mut "health" Some data with
  | None => None
  | Some data =>
    if negb (recommended data) then Some (h, data)
    else
      let key := feedback_key (jget data "health") in
      if connecting || duplicate owner key now h then
        (λ data, (h, data)) <$>
          index_mut "health" (index_set "notification_recommended" (JBool false)) data
      else Some (<[owner := (key, now)]> h, data)
  end.

End Health.

(** ** Subscriptions *)

Record SharedPayloads := {
  p_status : option json;
  p_connectivity : option json;
  p_inventory : option json;
  p_networks : option json;
}.
Definition no_payloads : SharedPayloads :=
  {| p_status := None; p_connectivity := None; p_inventory := None; p_networks := None |}.

(** [closed]: what [emitter.is_closed()] answers. *)
Record SubscriptionState := {
  sub_id : string;
  sub_owner : option string;
  streams : list Stream;
  closed : bool;
  last : SharedPayloads;
  networks : NetworkUpdates;
}.
Definition new_subscription (id : string) (owner : option string) (sts : list Stream)
    (uuid : string) : SubscriptionState :=
  {| sub_id := id; sub_owner := owner; streams := sts; closed := false; last := no_payloads;
     networks := fresh_updates uuid |}.

Definition contains (s : Stream) (sub : SubscriptionState) : bool := bool_decide (s ∈ streams sub).
Definition watches (s : Stream) (sub : SubscriptionState) : bool :=
  negb (closed sub) && contains s sub.

(** An event handed to the emitter of a subscription. *)
Record Emission := {
  em_subscription : string;
  em_owner : option string;
  em_stream : Stream;
  em_value : json;
}.

Section Subscriptions.
Context `{Envelopes}.

(** The registry check of [emit_prepared_event]. *)
Definition deliver (sub : SubscriptionState) (s : Stream) (value : json) : list Emission :=
  if bool_decide (event_of value ∈ st_events (stream_spec s))
  then [{| em_subscription := sub_id sub; em_owner := sub_owner sub; em_stream := s;
           em_value := value |}]
  else [].

Definition emit_external (sub : SubscriptionState) (s : Stream) (request_id event : string)
    (data : json) : list Emission :=
  deliver sub s (event_value s (Some request_id) event data).

Definition changed_event (sub : SubscriptionState) (s : Stream) (data : json) : list Emission :=
  deliver sub s (subscription_event_value s (sub_id sub) "changed" data).

Definition emit_on_change (sub : SubscriptionState) (s : Stream) (m : Method)
    (previous : option json) (value : json) : option json * list Emission :=
  if bool_decide (previous = Some value) then (previous, [])
  else (Some value, changed_event sub s (JObj [(m_response_key (method_spec m), value)])).

(** One row of the table in [emit_changes]. *)
Definition emit_row (sub : SubscriptionState) (s : Stream) (m : Method)
    (previous value : option json) : option json * list Emission :=
  match value with
  | Some v => if contains s sub then emit_on_change sub s m previous v else (previous, [])
  | None => (previous, [])
  end.

Definition emit_network_changes (uuid : string) (sub : SubscriptionState) (value : json) :
    NetworkUpdates * list Emission :=
  let (u, payload) := project uuid value (networks sub) in
  (u, match payload with Some d => changed_event sub St.WifiNetworks d | None => [] end).

Definition emit_changes (uuid : string) (p : SharedPayloads) (sub : SubscriptionState) :
    SubscriptionState * list Emission :=
  if closed sub then (sub, [])
  else
    let (status, e1) := emit_row sub St.WifiStatus Meth.WifiStatus (p_status (last sub)) (p_status p) in
    let (connectivity, e2) := emit_row sub St.NetworkConnectivity Meth.NetworkConnectivity
                                (p_connectivity (last sub)) (p_connectivity p) in
    let (inventory, e3) := emit_row sub St.NetworkInventory Meth.NetworkInventory
                             (p_inventory (last sub)) (p_inventory p) in
    let (nets, e4) :=
      match p_networks p with
      | Some v => if watches St.WifiNetworks sub then emit_network_changes uuid sub v
                  else (networks sub, [])
      | None => (networks sub, [])
      end in
    ({| sub_id := sub_id sub; sub_owner := sub_owner sub; streams := streams sub; closed := closed sub;
        last := {| p_status := status; p_connectivity := connectivity; p_inventory := inventory;
                   p_networks := p_networks (last sub) |};
        networks := nets |}, e1 ++ e2 ++ e3 ++ e4).

(** ** The gate of the shared refresh *)

Record RefreshGate := { in_flight : bool; dirty : bool }.
Definition open_gate : RefreshGate := {| in_flight := false; dirty := false |}.
Definition invalidate (g : RefreshGate) : RefreshGate * bool :=
  if in_flight g then ({| in_flight := true; dirty := true |}, false) else (g, true).
Definition started (g : RefreshGate) : RefreshGate := {| in_flight := true; dirty := dirty g |}.
Definition complete (g : RefreshGate) : RefreshGate * bool :=
  ({| in_flight := false; dirty := false |}, dirty g).

Record SharedPayloadDemand := {
  d_status : bool;
  d_connectivity : bool;
  d_inventory : bool;
  d_networks : bool;
}.
Definition demand_any (d : SharedPayloadDemand) : bool :=
  d_status d || d_connectivity d || d_inventory d || d_networks d.

(** ** The actor *)

(** [outstanding]: refreshes on the lane whose [Refreshed] was not handled yet. *)
Record Actor := {
  subscriptions : gmap string SubscriptionState;
  refresh : RefreshGate;
  feedback : Health.HealthFeedback;
  deadline : option instant;
  outstanding : list SharedPayloadDemand;
}.
Definition fresh_actor : Actor :=
  {| subscriptions := ∅; refresh := open_gate; feedback := ∅; deadline := None; outstanding := [] |}.

Definition with_subscriptions (m : gmap string SubscriptionState) (a : Actor) : Actor :=
  {| subscriptions := m; refresh := refresh a; feedback := feedback a; deadline := deadline a;
     outstanding := outstanding a |}.
Definition with_refresh (g : RefreshGate) (a : Actor) : Actor :=
  {| subscriptions := subscriptions a; refresh := g; feedback := feedback a; deadline := deadline a;
     outstanding := outstanding a |}.
Definition with_feedback (h : Health.HealthFeedback) (a : Actor) : Actor :=
  {| subscriptions := subscriptions a; refresh := refresh a; feedback := h; deadline := deadline a;
     outstanding := outstanding a |}.
Definition with_deadline (d : option instant) (a : Actor) : Actor :=
  {| subscriptions := subscriptions a; refresh := refresh a; feedback := feedback a; deadline := d;
     outstanding := outstanding a |}.

Definition values (a : Actor) : list SubscriptionState := (map_to_list (subscriptions a)).*2.
Definition watched (s : Stream) (a : Actor) : bool := existsb (watches s) (values a).

Definition required_shared_payloads (a : Actor) : SharedPayloadDemand :=
  {| d_status := watched St.WifiStatus a; d_connectivity := watched St.NetworkConnectivity a;
     d_inventory := watched St.NetworkInventory a; d_networks := watched St.WifiNetworks a |}.

(** [accepts]: [try_submit] of the fast lane. *)
Definition submit_shared_refresh (accepts : bool) (needs : SharedPayloadDemand) (a : Actor) : Actor :=
  if accepts then
    {| subscriptions := subscriptions a; refresh := started (refresh a); feedback := feedback a;
       deadline := deadline a; outstanding := outstanding a ++ [needs] |}
  else a.

Definition request_shared_refresh (accepts : bool) (a : Actor) : Actor :=
  let (g, go) := invalidate (refresh a) in
  let a := with_refresh g a in
  if negb go || bool_decide (subscriptions a = ∅) then a
  else
    let needs := required_shared_payloads a in
    if negb (demand_any needs) then a else submit_shared_refresh accepts needs a.

Definition add_subscription (accepts : bool) (sub : SubscriptionState) (a : Actor) : Actor :=
  request_shared_refresh accepts (with_subscriptions (<[sub_id sub := sub]> (subscriptions a)) a).

Definition remove_subscription (id : string) (owner : option string) (a : Actor) : Actor * bool :=
  match subscriptions a !! id with
  | Some sub => if bool_decide (sub_owner sub = owner)
                then (with_subscriptions (delete id (subscriptions a)) a, true) else (a, false)
  | None => (a, false)
  end.

Definition drop_subscriptions_for_owner (owner : string) (a : Actor) : Actor :=
  with_subscriptions (filter (λ kv, sub_owner kv.2 ≠ Some owner) (subscriptions a)) a.

Definition subscriber_owners (s : Stream) (a : Actor) : gset string :=
  list_to_set (omap sub_owner (List.filter (watches s) (values a))).
Definition owners (a : Actor) : list string := omap sub_owner (values a).

(** The filter of [emit_external_to_subscribers]: the first subscription of each
    owner that watches the stream. *)
Fixpoint first_per_owner (seen : gset string) (l : list SubscriptionState) :
    list (string * SubscriptionState) :=
  match l with
  | [] => []
  | sub :: l =>
    match sub_owner sub with
    | Some o => if bool_decide (o ∈ seen) then first_per_owner seen l
                else (o, sub) :: first_per_owner ({[o]} ∪ seen) l
    | None => first_per_owner seen l
    end
  end.

(** [None]: a panic of the projection. *)
Definition emit_one (s : Stream) (request_id event : string) (data : json) (connecting : string → bool)
    (now : instant) (acc : option (Health.HealthFeedback * list Emission))
    (target : string * SubscriptionState) : option (Health.HealthFeedback * list Emission) :=
  match acc with
  | None => None
  | Some (h, es) =>
    let (o, sub) := target in
    if bool_decide (s = St.NetworkHealth) then
      match Health.project o data (connecting o) now h with
      | Some (h, projected) => Some (h, es ++ emit_external sub s request_id event projected)
      | None => None
      end
    else Some (h, es ++ emit_external sub s request_id event data)
  end.
Definition emit_external_to_subscribers (s : Stream) (request_id event : string) (data : json)
    (connecting : string → bool) (now : instant) (a : Actor) : option (Actor * list Emission) :=
  match foldl (emit_one s request_id event data connecting now) (Some (feedback a, []))
          (first_per_owner ∅ (List.filter (watches s) (values a))) with
  | Some (h, es) => Some (with_feedback h a, es)
  | None => None
  end.

(** [uuids]: the fresh epochs of exhausted network cursors, per subscription. *)
Definition emit_all (uuids : string → string) (p : SharedPayloads) (a : Actor) : Actor * list Emission :=
  (with_subscriptions
     (map_imap (λ id sub, Some (emit_changes (uuids id) p sub).1) (subscriptions a)) a,
   map_to_list (subscriptions a) ≫= λ kv, (emit_changes (uuids kv.1) p kv.2).2).

Definition complete_shared_refresh (accepts : bool) (uuids : string → string) (p : SharedPayloads)
    (a : Actor) : Actor * list Emission :=
  let (g, again) := complete (refresh a) in
  let (a, es) := emit_all uuids p (with_refresh g a) in
  (if again then request_shared_refresh accepts a else a, es).

(** [publish_health_signal]: whether the description of the transition is queued. *)
Definition publish_health_signal (accepts : bool) (a : Actor) : bool :=
  watched St.NetworkHealth a && accepts.

Inductive Control :=
| Subscribe (sub : SubscriptionState)
| CancelSubscription (id : string) (owner : option string)
| SubscriberOwners (s : Stream)
| Owners
| ExternalEvent (s : Stream) (request_id event : string) (data : json)
| DropOwner (owner : string)
| HealthSignal
| NetworkChanged
| Refreshed (p : SharedPayloads)
| Shutdown.

(** What the environment decides at a step. *)
Record Env := {
  now : instant;
  accepts : bool;
  connecting : string → bool;
  uuids : string → string;
}.

Inductive Event :=
| Message (c : Control)
| DeadlineReached
| EmitterClosed (id : string).

(** [None]: the step cannot happen (or panics): a [Refreshed] comes from a refresh
    that is outstanding, the deadline from one that is set. *)
Definition step (env : Env) (e : Event) (a : Actor) : option (Actor * list Emission) :=
  match e with
  | Message (Subscribe sub) => Some (add_subscription (accepts env) sub a, [])
  | Message (CancelSubscription id owner) => Some ((remove_subscription id owner a).1, [])
  | Message (SubscriberOwners _) | Message Owners | Message HealthSignal => Some (a, [])
  | Message Shutdown => Some (with_subscriptions ∅ a, [])
  | Message (ExternalEvent s id event data) =>
    emit_external_to_subscribers s id event data (connecting env) (now env) a
  | Message (DropOwner owner) =>
    Some (drop_subscriptions_for_owner owner
            (with_feedback (Health.drop_owner owner (feedback a)) a), [])
  | Message NetworkChanged =>
    Some (with_deadline (match deadline a with
                         | Some d => Some d
                         | None => Some (now env + NETWORK_CHANGE_DEBOUNCE)%N
                         end) a, [])
  | Message (Refreshed p) =>
    match outstanding a with
    | _ :: rest =>
      Some (complete_shared_refresh (accepts env) (uuids env) p
              {| subscriptions := subscriptions a; refresh := refresh a; feedback := feedback a;
                 deadline := deadline a; outstanding := rest |})
    | [] => None
    end
  | DeadlineReached =>
    match deadline a with
    | Some _ => Some (request_shared_refresh (accepts env) (with_deadline None a), [])
    | None => None
    end
  | EmitterClosed id =>
    match subscriptions a !! id with
    | Some sub =>
      Some (with_subscriptions
        (<[id := {| sub_id := sub_id sub; sub_owner := sub_owner sub; streams := streams sub;
                    closed := true; last := last sub; networks := networks sub |}]>
           (subscriptions a)) a, [])
    | None => None
    end
  end.

(** ** No change is lost *)

Definition is_change (e : Event) : bool :=
  match e with Message NetworkChanged | Message (Subscribe _) => true | _ => false end.
Definition is_refreshed (e : Event) : bool :=
  match e with Message (Refreshed _) => true | _ => false end.

(** Whether the step from [a] to [a'] submitted a refresh. *)
Definition submitted (e : Event) (a a' : Actor) : bool :=
  (length (outstanding a) <? length (outstanding a') + (if is_refreshed e then 1 else 0))%nat.

(** A run, with whether anything changed since a refresh was last submitted. *)
Fixpoint run (es : list (Env * Event)) (a : Actor) (pending : bool) : option (Actor * bool) :=
  match es with
  | [] => Some (a, pending)
  | (env, e) :: es =>
    match step env e a with
    | Some (a', _) => run es a' (if submitted e a a' then false else pending || is_change e)
    | None => None
    end
  end.

Record actor_inv (a : Actor) (pending : bool) : Prop := {
  ai_one : length (outstanding a) = if in_flight (refresh a) then 1 else 0;
  ai_dirty : dirty (refresh a) = true → in_flight (refresh a) = true;
  ai_pending : pending = true → is_Some (deadline a) ∨ dirty (refresh a) = true ∨
    demand_any (required_shared_payloads a) = false;
}.

Lemma watched_spec s a :
  watched s a = true ↔ ∃ id sub, subscriptions a !! id = Some sub ∧ watches s sub = true.
Proof.
  unfold watched, values. rewrite existsb_exists. split.
  - intros (sub & Hin & Hw). apply list_elem_of_In, list_elem_of_fmap in Hin as ([id sub'] & -> & Hin).
    apply elem_of_map_to_list in Hin. eauto.
  - intros (id & sub & Hin & Hw). exists sub. split; [|done]. apply list_elem_of_In, list_elem_of_fmap.
    exists (id, sub). split; [done|]. by apply elem_of_map_to_list.
Qed.

(** No demand before and no new watcher: no demand after. *)
Lemma no_demand_mono a a' :
  (∀ s id sub, subscriptions a' !! id = Some sub → watches s sub = true →
     ∃ id' sub', subscriptions a !! id' = Some sub' ∧ watches s sub' = true) →
  demand_any (required_shared_payloads a) = false → demand_any (required_shared_payloads a') = false.
Proof.
  intros Hsub. assert (∀ s, watched s a = false → watched s a' = false) as Hw.
  { intros s Hf. destruct (watched s a') eqn:E; [|done]. apply watched_spec in E as (id & sub & Hin & Hw).
    rewrite <-Hf. symmetry. apply watched_spec. by eapply Hsub. }
  unfold demand_any. cbn. rewrite !orb_false_iff. intros [[[H1 H2] H3] H4]. by rewrite !Hw.
Qed.

Lemma no_subscriptions_no_demand a :
  subscriptions a = ∅ → demand_any (required_shared_payloads a) = false.
Proof.
  intros E. unfold demand_any. cbn. assert (∀ s, watched s a = false) as Hw.
  { intros s. destruct (watched s a) eqn:Hw; [|done]. apply watched_spec in Hw as (id & sub & Hin & _).
    by rewrite E, lookup_empty in Hin. }
  by rewrite !Hw.
Qed.

(** A request of a refresh submits one, or marks the one in flight, or nobody watches. *)
Lemma request_refresh_spec a :
  length (outstanding a) = (if in_flight (refresh a) then 1 else 0) →
  (dirty (refresh a) = true → in_flight (refresh a) = true) →
  let a' := request_shared_refresh true a in
  length (outstanding a') = (if in_flight (refresh a') then 1 else 0) ∧
  (dirty (refresh a') = true → in_flight (refresh a') = true) ∧
  subscriptions a' = subscriptions a ∧ deadline a' = deadline a ∧
  (length (outstanding a') = S (length (outstanding a)) ∨
   outstanding a' = outstanding a ∧
   (dirty (refresh a') = true ∨ demand_any (required_shared_payloads a') = false)).
Proof.
  intros Hone Hd a'. subst a'. unfold request_shared_refresh, invalidate.
  destruct (in_flight (refresh a)) eqn:Hf; cbn [negb orb].
  - cbn. split_and!; try done. right. split; [done|by left].
  - case_bool_decide as He.
    + cbn in *. rewrite Hf. split_and!; [done|by intros ?%Hd|done..|]. right. split; [done|].
      right. by apply no_subscriptions_no_demand.
    + destruct (demand_any _) eqn:Hdem; cbn [negb submit_shared_refresh].
      * cbn. rewrite length_app, Hone. cbn. split_and!; try done. left. lia.
      * cbn in *. rewrite Hf. split_and!; [done|by intros ?%Hd|done..|]. right. split; [done|by right].
Qed.

Lemma emit_all_watches uuids p a s id sub :
  subscriptions (emit_all uuids p a).1 !! id = Some sub → watches s sub = true →
  ∃ sub', subscriptions a !! id = Some sub' ∧ watches s sub' = true.
Proof.
  cbn. rewrite map_lookup_imap. destruct (subscriptions a !! id) as [sub'|]; [|done]. cbn.
  intros [= <-] Hw. exists sub'. split; [done|]. rewrite <-Hw. unfold emit_changes, watches, contains.
  destruct (closed sub') eqn:Hc; [cbn; by rewrite ?Hc|].
  by repeat match goal with |- context [let (_, _) := ?x in _] => destruct x end.
Qed.

(** The invariant after a step that requests a refresh. *)
Lemma request_inv a a0 pending (n : nat) :
  length (outstanding a) = (if in_flight (refresh a) then 1 else 0) →
  (dirty (refresh a) = true → in_flight (refresh a) = true) →
  length (outstanding a0) = n + length (outstanding a) →
  actor_inv (request_shared_refresh true a)
    (if (length (outstanding a0) <? length (outstanding (request_shared_refresh true a)) + n)%nat
     then false else pending).
Proof.
  intros Hone Hd Hn. destruct (request_refresh_spec a Hone Hd) as (H1 & H2 & H3 & H4 & H5).
  split; [done..|]. destruct H5 as [H5|[H5 H6]].
  - rewrite (proj2 (Nat.ltb_lt _ _)); [done|lia].
  - intros _. by right.
Qed.

(** The invariant after a step that leaves gate and queue alone. *)
Lemma unrequested_inv a a' pending pending' :
  actor_inv a pending → outstanding a' = outstanding a → refresh a' = refresh a →
  (is_Some (deadline a) → is_Some (deadline a')) →
  (pending' = true → pending = true ∨ is_Some (deadline a')) →
  (∀ s id sub, subscriptions a' !! id = Some sub → watches s sub = true →
     ∃ id' sub', subscriptions a !! id' = Some sub' ∧ watches s sub' = true) →
  actor_inv a' (if (length (outstanding a) <? length (outstanding a') + 0)%nat then false else pending').
Proof.
  intros [H1 H2 H3] Ho Hr Hd Hp Hw. rewrite Ho, Nat.add_0_r, Nat.ltb_irrefl. split; [by rewrite Ho, Hr|by rewrite Hr|].
  rewrite Hr. intros Hpend. destruct (Hp Hpend) as [Hpe|?]; [|by left].
  destruct (H3 Hpe) as [?|[?|Hn]]; [left; auto|by right; left|].
  right. right. by eapply no_demand_mono.
Qed.

Lemma external_same s id event data connecting now a a' es :
  emit_external_to_subscribers s id event data connecting now a = Some (a', es) →
  subscriptions a' = subscriptions a ∧ refresh a' = refresh a ∧ deadline a' = deadline a ∧
  outstanding a' = outstanding a.
Proof.
  unfold emit_external_to_subscribers. destruct (foldl _ _ _) as [[h l]|]; [|done]. by intros [= <- <-].
Qed.

Lemma refreshed_inv env p a d rest pending :
  actor_inv a pending → accepts env = true → outstanding a = d :: rest →
  let a1 := {| subscriptions := subscriptions a; refresh := refresh a; feedback := feedback a;
               deadline := deadline a; outstanding := rest |} in
  let a' := (complete_shared_refresh (accepts env) (uuids env) p a1).1 in
  actor_inv a' (if (length (outstanding a) <? length (outstanding a') + 1)%nat then false else pending).
Proof.
  intros [H1 H2 H3] Hacc Ho a1. rewrite Hacc, Ho in *. cbn in H1.
  assert (in_flight (refresh a) = true ∧ rest = []) as [Hf ->]
    by (destruct (in_flight (refresh a)), rest; done).
  set (a2 := (emit_all (uuids env) p (with_refresh {| in_flight := false; dirty := false |} a1)).1).
  assert ((complete_shared_refresh true (uuids env) p a1).1 =
    if dirty (refresh a) then request_shared_refresh true a2 else a2) as -> by reflexivity.
  cbv zeta. destruct (dirty (refresh a)) eqn:Hdirty.
  - rewrite <-Ho. apply (request_inv a2 a pending 1); [done..|by rewrite Ho].
  - cbn [length outstanding a2 emit_all fst with_subscriptions with_refresh a1].
    split; [done..|]. cbn. intros Hp. destruct (H3 Hp) as [?|[?|Hn]]; [by left|done|].
    right. right. eapply (no_demand_mono a); [|done]. intros s id sub Hin Hw.
    destruct (emit_all_watches _ _ _ s id sub Hin Hw) as (sub' & ? & ?). by exists id, sub'.
Qed.

Lemma actor_step_inv env e a a' es pending :
  actor_inv a pending → accepts env = true → step env e a = Some (a', es) →
  actor_inv a' (if submitted e a a' then false else pending || is_change e).
Proof.
  intros Hinv Hacc. unfold submitted.
  destruct e as [[sub|id owner| | |s id event data|owner| | |p|]| |id]; cbn [step is_refreshed is_change];
    rewrite ?orb_false_r, ?orb_true_r.
  - rewrite Hacc. intros [= <- <-]. destruct Hinv as [H1 H2 H3]. by apply (request_inv _ a true 0).
  - intros [= <- <-]. unfold remove_subscription.
    destruct (subscriptions a !! id) as [sub|]; [case_bool_decide|];
      (eapply unrequested_inv; [exact Hinv|done|done|done|by left|]); eauto.
    cbn. intros s i x [_ Hx]%lookup_delete_Some. eauto.
  - intros [= <- <-]. eapply unrequested_inv; eauto.
  - intros [= <- <-]. eapply unrequested_inv; eauto.
  - intros (E1 & E2 & E3 & E4)%external_same. eapply unrequested_inv; rewrite ?E1, ?E3; eauto.
  - intros [= <- <-]. eapply unrequested_inv; [exact Hinv|done..|by left|].
    cbn. intros s i x [Hx _]%map_lookup_filter_Some. eauto.
  - intros [= <- <-]. eapply unrequested_inv; eauto.
  - intros [= <- <-]. eapply unrequested_inv; [exact Hinv|done|done|cbn; by destruct (deadline a)|right|eauto].
    cbn. by destruct (deadline a).
  - destruct (outstanding a) as [|d rest] eqn:Ho; [done|]. rewrite <-Ho. intros E. apply (inj Some) in E.
    pose proof (refreshed_inv env p a d rest pending Hinv Hacc Ho) as Hr. cbn zeta in Hr.
    rewrite E in Hr. exact Hr.
  - intros [= <- <-]. eapply unrequested_inv; [exact Hinv|done..|by left|].
    cbn. intros s i x Hx. by rewrite lookup_empty in Hx.
  - destruct (deadline a); [|done]. rewrite Hacc. intros [= <- <-]. destruct Hinv as [H1 H2 H3].
    by apply (request_inv _ a pending 0).
  - destruct (subscriptions a !! id) as [sub|] eqn:Hs; [|done]. intros [= <- <-].
    eapply unrequested_inv; [exact Hinv|done..|by left|]. cbn. intros s i x Hx Hw.
    destruct (decide (i = id)) as [->|]; [rewrite lookup_insert_eq in Hx|rewrite lookup_insert_ne in Hx by done; eauto].
    injection Hx as <-. by cbn in Hw.
Qed.


(** ** Fan-out *)

Lemma first_per_owner_spec seen l :
  let r := first_per_owner seen l in
  NoDup r.*1 ∧ (∀ o, o ∈ r.*1 ↔ o ∉ seen ∧ Some o ∈ sub_owner <$> l) ∧
  Forall (λ os, sub_owner os.2 = Some os.1) r.
Proof.
  revert seen. induction l as [|sub l IH]; intros seen.
  - cbn. split_and!; [constructor| |constructor]. set_solver.
  - cbn. destruct (sub_owner sub) as [o'|] eqn:Ho; [case_bool_decide as Hs|].
    + destruct (IH seen) as (H1 & H2 & H3). split_and!; [done| |done]. intros o. rewrite H2. set_solver.
    + destruct (IH ({[o']} ∪ seen)) as (H1 & H2 & H3). cbn. split_and!.
      * constructor; [|done]. rewrite H2. set_solver.
      * intros o. rewrite elem_of_cons, H2. destruct (decide (o = o')); set_solver.
      * by constructor.
    + destruct (IH seen) as (H1 & H2 & H3). split_and!; [done| |done]. intros o. rewrite H2. set_solver.
Qed.

Lemma emit_external_owner sub s id event data :
  event ∈ st_events (stream_spec s) →
  em_owner <$> emit_external sub s id event data = [sub_owner sub].
Proof.
  intros Hev. unfold emit_external, deliver. rewrite event_value_event, bool_decide_true by done. done.
Qed.

Lemma emit_fold_None s id event data connecting now l :
  foldl (emit_one s id event data connecting now) None l = None.
Proof. induction l; [done|]. by cbn. Qed.

Lemma emit_fold_owners s id event data connecting now l h es h' es' :
  event ∈ st_events (stream_spec s) → Forall (λ os, sub_owner os.2 = Some os.1) l →
  foldl (emit_one s id event data connecting now) (Some (h, es)) l = Some (h', es') →
  em_owner <$> es' = (em_owner <$> es) ++ (Some <$> l.*1).
Proof.
  intros Hev Hall. revert h es. induction Hall as [|[o sub] l Ho Hall IH]; intros h es; cbn.
  - intros [= <- <-]. by rewrite app_nil_r.
  - cbn in Ho. case_bool_decide as Hs;
      [destruct (Health.project _ _ _ _ _) as [[h1 d]|]; [|by rewrite emit_fold_None]|];
      intros E%IH; rewrite E, fmap_app, emit_external_owner, Ho, <-app_assoc by done; done.
Qed.

(** An external event (a secret request, a health transition) reaches every
    client that watches its stream exactly once, however many subscriptions the
    client holds, and nobody else. *)
Theorem external_event_once_per_owner s id event data connecting now a a' es :
  event ∈ st_events (stream_spec s) →
  emit_external_to_subscribers s id event data connecting now a = Some (a', es) →
  NoDup (em_owner <$> es) ∧
  ∀ o, o ∈ em_owner <$> es ↔
    ∃ i sub, subscriptions a !! i = Some sub ∧ watches s sub = true ∧ sub_owner sub = o ∧ is_Some o.
Proof.
  intros Hev. unfold emit_external_to_subscribers.
  destruct (first_per_owner_spec ∅ (List.filter (watches s) (values a))) as (H1 & H2 & H3).
  destruct (foldl _ _ _) as [[h l]|] eqn:E; [|done]. intros [= _ <-].
  rewrite (emit_fold_owners _ _ _ _ _ _ _ _ _ _ _ Hev H3 E). cbn. split; [by apply (NoDup_fmap_2 Some)|].
  intros o. rewrite list_elem_of_fmap. setoid_rewrite H2. setoid_rewrite list_elem_of_fmap.
  setoid_rewrite list_elem_of_In. setoid_rewrite filter_In. unfold values.
  setoid_rewrite <-list_elem_of_In. setoid_rewrite list_elem_of_fmap. split.
  - intros (o' & -> & _ & sub & Hsub & ([i sub'] & -> & Hin) & Hw).
    apply elem_of_map_to_list in Hin. exists i, sub'. split_and!; [done..|]. by eexists.
  - intros (i & sub & Hin & Hw & Hsub & [o' ->]). exists o'. split; [done|]. split; [set_solver|].
    exists sub. split; [done|]. split; [|done]. exists (i, sub). split; [done|]. by apply elem_of_map_to_list.
Qed.

(** ** Changes of the shared payloads *)

(** The values of a list, without those equal to the one before. *)
Fixpoint destutter (previous : option json) (l : list json) : list json :=
  match l with
  | [] => []
  | v :: l => if bool_decide (previous = Some v) then destutter previous l
              else v :: destutter (Some v) l
  end.

Definition status_of (e : Emission) : option json :=
  if bool_decide (em_stream e = St.WifiStatus) then vget "status" (jget (em_value e) "data") else None.

Fixpoint emit_run (ps : list (string * SharedPayloads)) (sub : SubscriptionState) : list Emission :=
  match ps with
  | [] => []
  | (uuid, p) :: ps => let (sub, es) := emit_changes uuid p sub in es ++ emit_run ps sub
  end.

Lemma changed_event_status sub s data :
  omap status_of (changed_event sub s data) =
  if bool_decide (s = St.WifiStatus) then omap (vget "status") [data] else [].
Proof.
  unfold changed_event, deliver. case_bool_decide as Hev; cbn.
  - unfold status_of at 1. cbn. case_bool_decide as Hs; [|done].
    unfold subscription_event_value. by rewrite event_envelope_data.
  - case_bool_decide as Hs; [|done]. subst s. destruct Hev. unfold event_of, subscription_event_value.
    rewrite event_envelope_event. cbn. set_solver.
Qed.

Lemma emit_row_status sub s m previous value :
  omap status_of (emit_row sub s m previous value).2 =
  match value with
  | Some v => if contains s sub && negb (bool_decide (previous = Some v)) && bool_decide (s = St.WifiStatus)
              then omap (vget "status") [JObj [(m_response_key (method_spec m), v)]] else []
  | None => []
  end.
Proof.
  unfold emit_row, emit_on_change. destruct value as [v|]; [|done]. destruct (contains s sub); [|done].
  case_bool_decide; [done|]. cbn [snd]. rewrite changed_event_status. done.
Qed.

(** One refresh: the status is sent if it changed, and remembered. *)
Lemma emit_changes_status uuid p sub :
  closed sub = false → contains St.WifiStatus sub = true →
  let (sub', es) := emit_changes uuid p sub in
  closed sub' = false ∧ contains St.WifiStatus sub' = true ∧
  p_status (last sub') = match p_status p with Some v => Some v | None => p_status (last sub) end ∧
  omap status_of es = destutter (p_status (last sub)) (omap id [p_status p]).
Proof.
  intros Hc Hw. unfold emit_changes. rewrite Hc.
  assert ((emit_row sub St.WifiStatus Meth.WifiStatus (p_status (last sub)) (p_status p)).1 =
    match p_status p with Some v => Some v | None => p_status (last sub) end) as Hlast.
  { unfold emit_row, emit_on_change. destruct (p_status p) as [v|]; [|done]. rewrite Hw.
    by case_bool_decide. }
  pose proof (emit_row_status sub St.WifiStatus Meth.WifiStatus (p_status (last sub)) (p_status p)) as H1.
  pose proof (emit_row_status sub St.NetworkConnectivity Meth.NetworkConnectivity
    (p_connectivity (last sub)) (p_connectivity p)) as H2.
  pose proof (emit_row_status sub St.NetworkInventory Meth.NetworkInventory
    (p_inventory (last sub)) (p_inventory p)) as H3.
  destruct (emit_row _ St.WifiStatus _ _ _) as [st e1], (emit_row _ St.NetworkConnectivity _ _ _) as [co e2],
    (emit_row _ St.NetworkInventory _ _ _) as [inv e3].
  set (nets := match p_networks p with Some _ => _ | None => _ end).
  assert (omap status_of nets.2 = []) as H4.
  { subst nets. destruct (p_networks p) as [v|]; [|done]. destruct (watches _ _); [|done].
    unfold emit_network_changes. destruct (project _ _ _) as [u [d|]]; [|done].
    cbn [snd]. by rewrite changed_event_status. }
  destruct nets as [nets e4]. cbn [fst snd closed contains last p_status] in *.
  split_and!; [done|done|done|]. rewrite !omap_app, H1, H2, H3, H4. clear H1 H2 H3 H4.
  destruct (p_connectivity p), (p_inventory p); rewrite ?andb_false_r; cbn;
    (destruct (p_status p) as [v|]; [|done]); rewrite Hw; cbn; by case_bool_decide.
Qed.

(** A subscriber of the Wi-Fi status receives exactly the sequence of observed
    statuses without repetitions: a change is never skipped, an unchanged status is
    never sent again. *)
Theorem status_stream_destutters ps sub :
  closed sub = false → contains St.WifiStatus sub = true →
  omap status_of (emit_run ps sub) = destutter (p_status (last sub)) (omap (λ up, p_status up.2) ps).
Proof.
  revert sub. induction ps as [|[uuid p] ps IH]; intros sub Hc Hw; [done|]. cbn [emit_run].
  pose proof (emit_changes_status uuid p sub Hc Hw) as H1.
  destruct (emit_changes uuid p sub) as [sub' es]. destruct H1 as (Hc' & Hw' & Hl & He).
  rewrite omap_app, He, (IH sub' Hc' Hw'), Hl. cbn. destruct (p_status p) as [v|]; [|done]. cbn.
  case_bool_decide as Hv; [by rewrite Hv|done].
Qed.

End Subscriptions.

(** ** Health notifications *)

(** Feedback calls of any clients, and clients that left. *)
Inductive FeedbackEvent :=
| Feedback (owner : string) (data : json) (connecting : bool) (now : instant)
| Left (owner : string).

(** The feedback after some events; [None] when one of them notifies [me] or panics,
    or when [me] leaves. *)
Fixpoint feedback_run (me : string) (es : list FeedbackEvent) (h : Health.HealthFeedback) :
    option Health.HealthFeedback :=
  match es with
  | [] => Some h
  | Feedback o data connecting now :: es =>
    match Health.project o data connecting now h with
    | Some (h', out) =>
      if bool_decide (o = me) && Health.recommended out then None else feedback_run me es h'
    | None => None
    end
  | Left o :: es =>
    if bool_decide (o = me) then None else feedback_run me es (Health.drop_owner o h)
  end.

(** A recommended notification is remembered; anything else leaves the memory. *)
Lemma project_memory o data connecting now h h' out :
  Health.project o data connecting now h = Some (h', out) →
  if Health.recommended out then
    h' = <[o := (Health.feedback_key (jget out "health"), now)]> h ∧ connecting = false ∧
    Health.duplicate o (Health.feedback_key (jget out "health")) now h = false
  else h' = h.
Proof.
  unfold Health.project. destruct (index_mut "health" Some data) as [d|]; [|done].
  destruct (Health.recommended d) eqn:Hr; cbn [negb]; [|intros [= <- <-]; by rewrite Hr].
  destruct (connecting || _) eqn:Hc.
  - destruct (index_mut _ _ d) as [d'|] eqn:E; [|done]. intros [= <- <-].
    apply vget_index_mut_eq in E as (health & Hh & E). apply vget_index_set_eq in Hh.
    assert (Health.recommended d' = false) as ->; [|done].
    unfold Health.recommended. rewrite (jget_vget "health" d'), E. cbn [unwrap_or].
    by rewrite (jget_vget _ health), Hh.
  - intros [= <- <-]. rewrite Hr. by apply orb_false_iff in Hc.
Qed.

Lemma feedback_run_keeps me es h h' : feedback_run me es h = Some h' → h' !! me = h !! me.
Proof.
  revert h. induction es as [|[o data connecting now|o] es IH]; intros h; cbn; [by intros [= ->]| |].
  - destruct (Health.project o data connecting now h) as [[h1 out]|] eqn:E; [|done].
    apply project_memory in E. case_bool_decide as Ho; cbn.
    + destruct (Health.recommended out); [done|]. subst. apply IH.
    + intros ->%IH. destruct (Health.recommended out); [|by subst].
      destruct E as [-> _]. by rewrite lookup_insert_ne.
  - case_bool_decide as Ho; [done|]. intros ->%IH. unfold Health.drop_owner. by rewrite lookup_delete_ne.
Qed.

(** A client is never told twice in a row of the same health transition within
    three seconds, and never while it is connecting itself: if two recommended
    notifications with the same key follow each other for a client, the second
    comes at least three seconds after the first, whatever happened to the others
    in between. *)
Theorem health_notifications_spaced me data1 c1 t1 h0 h1 out1 es h2 data2 c2 t2 h3 out2 :
  Health.project me data1 c1 t1 h0 = Some (h1, out1) → Health.recommended out1 = true →
  feedback_run me es h1 = Some h2 →
  Health.project me data2 c2 t2 h2 = Some (h3, out2) → Health.recommended out2 = true →
  Health.feedback_key (jget out1 "health") = Health.feedback_key (jget out2 "health") →
  (t1 + from_secs 3 <= t2)%N ∧ c2 = false.
Proof.
  intros H1 R1 Hrun H2 R2 Hkey. apply project_memory in H1, H2. rewrite R1 in H1. rewrite R2 in H2.
  destruct H1 as [-> _], H2 as (_ & -> & Hdup). split; [|done].
  apply feedback_run_keeps in Hrun. rewrite lookup_insert_eq in Hrun.
  unfold Health.duplicate in Hdup. rewrite Hrun, bool_decide_true in Hdup by done. cbn [andb] in Hdup.
  apply N.ltb_ge in Hdup. unfold from_secs in *. lia.
Qed.

(** ** Examples *)

Definition failed_device (state : string) : json :=
  JObj [("health", JObj [("device_path", JStr "/device/1"); ("notification_recommended", JBool true);
                         ("reason", JObj [("name", JStr "no-secrets")]); ("state_name", JStr state)])].

(** Two seconds later the repetition is suppressed; another key goes through. *)
Example health_duplicate_suppressed :
  match Health.project "a" (failed_device "failed") false 0 ∅ with
  | Some (h, _) =>
    (Health.recommended ∘ snd <$> Health.project "a" (failed_device "failed") false (from_secs 2) h,
     Health.recommended ∘ snd <$> Health.project "a" (failed_device "ok") false (from_secs 2) h,
     Health.recommended ∘ snd <$> Health.project "b" (failed_device "failed") false (from_secs 2) h)
    = (Some false, Some true, Some true)
  | None => False
  end.
Proof. vm_compute. reflexivity. Qed.

Definition untold : gmap string (string * instant) := ∅.
Definition told (o : string) (now : instant) (h : gmap string (string * instant)) :
    gmap string (string * instant) :=
  match Health.project o (failed_device "failed") false now h with Some (h', _) => h' | None => h end.

Lemma health_notifications_spaced_witness : (0 + from_secs 3 <= from_secs 4)%N.
Proof.
  exact (proj1 (health_notifications_spaced "a" (failed_device "failed") false 0 untold
    (told "a" 0 untold) (failed_device "failed")
    [Feedback "b" (failed_device "failed") false (from_secs 1)] (told "b" (from_secs 1) (told "a" 0 untold))
    (failed_device "failed") false (from_secs 4)
    (told "a" (from_secs 4) (told "b" (from_secs 1) (told "a" 0 untold))) (failed_device "failed")
    ltac:(vm_compute; reflexivity) ltac:(vm_compute; reflexivity) ltac:(vm_compute; reflexivity)
    ltac:(vm_compute; reflexivity) ltac:(vm_compute; reflexivity) eq_refl)).
Defined.

Definition env : Env :=
  {| now := 0; accepts := true; connecting := λ _, false; uuids := λ id, id |}.
Definition watcher (id : string) : SubscriptionState :=
  new_subscription id (Some ":1.7") [St.WifiStatus; St.NetworkHealth] id.


Lemma external_event_once_per_owner_witness :
  let a := {| subscriptions := <["s1" := watcher "s1"]> (<["s2" := watcher "s2"]> ∅);
              refresh := open_gate; feedback := ∅; deadline := None; outstanding := [] |} in
  ∃ a' es, @emit_external_to_subscribers plain_envelopes St.NetworkHealth "health-1" "device"
    (failed_device "failed") (λ _, false) 0 a = Some (a', es) ∧
    NoDup (em_owner <$> es) ∧ length es = 1.
Proof.
  intros a. destruct (@emit_external_to_subscribers plain_envelopes St.NetworkHealth "health-1" "device"
    (failed_device "failed") (λ _, false) 0 a) as [[a' es]|] eqn:E; [|vm_compute in E; discriminate].
  exists a', es. split; [reflexivity|]. split.
  - eapply (@external_event_once_per_owner plain_envelopes); [|exact E].
    apply (bool_decide_unpack _). vm_compute. exact I.
  - vm_compute in E. by injection E as _ <-.
Defined.

Lemma status_stream_destutters_witness :
  let p b := ("u", {| p_status := Some (JBool b); p_connectivity := None; p_inventory := None;
                      p_networks := None |}) in
  omap status_of (@emit_run plain_envelopes [p true; p true; p false; p true] (watcher "s1"))
    = [JBool true; JBool false; JBool true].
Proof.
  intros p. rewrite (@status_stream_destutters plain_envelopes) by reflexivity. vm_compute. reflexivity.
Defined.
