(* ===== verification/Forget.v ===== *)
(** * Forgetting a network ([src/forget.rs])

    The workflow that disconnects from a network and deletes its saved profiles: connection
    attempts to the network are cancelled first, its profiles stop connecting by themselves,
    and no profile is deleted before NetworkManager says that the network is not connected. *)
From S2P Require Import Prelude Errors Text Identity Network Variant Scan Runtime Cache Profiles ProfileWriter Bus Events Inventory Devices Saved IpStatus Status WifiStatus CacheHost.
From Stdlib Require Import ZArith Lia Ascii.
From stdpp Require Import prelude gmap strings list pretty.
Open Scope bus_scope.

Definition FORGET_CANCELLATION_TIMEOUT : duration := from_millis 10000.
Definition FORGET_DEACTIVATION_TIMEOUT : duration := from_millis 10000.
Definition FORGET_EVENT_POLL_INTERVAL : duration := from_millis 500.
Definition PORTAL_NOTE : string :=
  "The hotspot may continue to recognize this device until its captive-portal session expires.".

(** ** Results *)

Inductive ForgetStatus := Forgotten | Partial | Failed | NotSaved | DisconnectPending | CancellationPending.
Record ForgetProfile := { fp_id : string; fp_path : string }.
Record ForgetProfileFailure := { ff_id : string; ff_path : string; ff_message : string }.
Record ForgetResult := {
  fr_operation : string; fr_status : ForgetStatus; fr_request_id : string; fr_ssid : string; fr_message : string;
  fr_was_active : bool; fr_disconnected : bool; fr_profiles_found : nat;
  fr_deleted_profiles : list ForgetProfile; fr_failed_profiles : list ForgetProfileFailure;
  fr_cancelled_connect_requests : list string; fr_pending_connect_requests : list string;
  fr_warnings : list string; fr_portal_session_reset : bool; fr_portal_note : string;
}.
Record ForgetCompletion := {
  fc_request_id : string; fc_ssid : string; fc_was_active : bool; fc_disconnected : bool;
  fc_cancelled_connect_requests : list string; fc_deleted_profiles : list ForgetProfile;
  fc_failed_profiles : list ForgetProfileFailure; fc_warnings : list string;
}.
Definition forget_profile (p : SavedWifiConnection) : ForgetProfile := {| fp_id := sw_id p; fp_path := sw_path p |}.

Definition no_profiles_message (c : ForgetCompletion) : string :=
  if fc_disconnected c then "Disconnected from " +:+ fc_ssid c +:+ "; no saved profile remained"
  else fc_ssid c +:+ " has no saved profiles to forget".
Definition successful_forget_message (c : ForgetCompletion) (deleted : nat) : string :=
  let action := if fc_was_active c && fc_disconnected c then "Disconnected and forgot" else "Forgot" in
  if (deleted =? 1)%nat then action +:+ " " +:+ fc_ssid c
  else action +:+ " " +:+ pretty deleted +:+ " saved profiles for " +:+ fc_ssid c.
Definition completion_message (c : ForgetCompletion) : string :=
  let deleted := length (fc_deleted_profiles c) in
  let failed := length (fc_failed_profiles c) in
  match deleted, failed with
  | O, O => no_profiles_message c
  | _, O => successful_forget_message c deleted
  | _, _ => "Forgot " +:+ pretty deleted +:+ " of " +:+ pretty (deleted + failed)%nat +:+ " saved profiles for " +:+
            fc_ssid c +:+ "; " +:+ pretty failed +:+ " failed"
  end.

Definition forget_base (status : ForgetStatus) (request_id ssid message : string) : ForgetResult :=
  {| fr_operation := "forget"; fr_status := status; fr_request_id := request_id; fr_ssid := ssid;
     fr_message := message; fr_was_active := false; fr_disconnected := false; fr_profiles_found := 0;
     fr_deleted_profiles := []; fr_failed_profiles := []; fr_cancelled_connect_requests := [];
     fr_pending_connect_requests := []; fr_warnings := []; fr_portal_session_reset := false;
     fr_portal_note := PORTAL_NOTE |}.
Definition completion_status (found failed : nat) : ForgetStatus :=
  match found, failed with
  | O, _ => NotSaved
  | _, O => Forgotten
  | _, _ => if (found =? failed)%nat then Failed else Partial
  end.
Definition completed (c : ForgetCompletion) : ForgetResult :=
  let found := (length (fc_deleted_profiles c) + length (fc_failed_profiles c))%nat in
  {| fr_operation := "forget"; fr_status := completion_status found (length (fc_failed_profiles c));
     fr_request_id := fc_request_id c; fr_ssid := fc_ssid c; fr_message := completion_message c;
     fr_was_active := fc_was_active c; fr_disconnected := fc_disconnected c; fr_profiles_found := found;
     fr_deleted_profiles := fc_deleted_profiles c; fr_failed_profiles := fc_failed_profiles c;
     fr_cancelled_connect_requests := fc_cancelled_connect_requests c; fr_pending_connect_requests := [];
     fr_warnings := fc_warnings c; fr_portal_session_reset := false; fr_portal_note := PORTAL_NOTE |}.
Definition cancellation_pending (request_id ssid : string) (cancelled pending : list string) : ForgetResult :=
  {| fr_operation := "forget"; fr_status := CancellationPending; fr_request_id := request_id; fr_ssid := ssid;
     fr_message := "Connection cancellation is still pending; try Forget again when the connection action finishes";
     fr_was_active := false; fr_disconnected := false; fr_profiles_found := 0;
     fr_deleted_profiles := []; fr_failed_profiles := []; fr_cancelled_connect_requests := cancelled;
     fr_pending_connect_requests := pending; fr_warnings := []; fr_portal_session_reset := false;
     fr_portal_note := PORTAL_NOTE |}.
Definition disconnect_pending (request_id ssid : string) (found : nat) (cancelled warnings : list string) : ForgetResult :=
  {| fr_operation := "forget"; fr_status := DisconnectPending; fr_request_id := request_id; fr_ssid := ssid;
     fr_message := "Could not confirm disconnection from " +:+ ssid +:+ "; no saved profiles were deleted";
     fr_was_active := true; fr_disconnected := false; fr_profiles_found := found;
     fr_deleted_profiles := []; fr_failed_profiles := []; fr_cancelled_connect_requests := cancelled;
     fr_pending_connect_requests := []; fr_warnings := warnings; fr_portal_session_reset := false;
     fr_portal_note := PORTAL_NOTE |}.

(** ** The workflow *)

(** Besides NetworkManager and the cache: the task table and waiting for it to change (other threads run then), the next
    request id, the queue of blocking work and the audit log, whose lines serde writes. *)
Class ForgetHost (W : Type) `{RecentResults} := {
  fh_wake : W → W;
  fh_runtime : W → Runtime;
  fh_put_runtime : Runtime → W → W;
  fh_wait_tasks : duration → W → W;
  fh_next_id : string → W → string * W;
  fh_queue : W → option LaneError;
  fh_line : ForgetResult → W → option (list u8);
  fh_history : W → history;
  fh_put_history : history → W → W;
}.

Section Forget.
Context {W V : Type} {B : Bus W} {D : DeviceHost W} {SV : ProfileService V} {PS : ProfileStore W V}
  {R : RadioHost W} {ST : StatusHost W} `{RR : RecentResults} {EV : NetworkEvents W} {CH : CacheHost W} {FH : ForgetHost W}.
Context (path_error : string → option Error).

Definition profiles_for (ssid : list u8) : bus W (list SavedWifiConnection) :=
  let! profiles := saved_wifi_connections in
  ret (List.filter (λ p, bool_decide (sw_ssid_bytes p = ssid)) profiles).

Fixpoint disable_autoconnect (profiles : list SavedWifiConnection) : bus W (list string) :=
  match profiles with
  | [] => ret []
  | p :: profiles =>
    let! r := attempt (set_connection_autoconnect_by_path path_error (sw_path p) false) in
    let! warnings := disable_autoconnect profiles in
    ret match r with
        | Ok _ => warnings
        | Err e => ("Could not disable autoconnect for '" +:+ sw_id p +:+ "': " +:+ err_chain e) :: warnings
        end
  end.

Definition out_of_rounds : Error := plain "out of rounds".
(** [None] when the rounds are used up. *)
Fixpoint confirm_loop (rounds : nat) (ssid : list u8) (deadline : instant) (generation : N) : bus W (option bool) :=
  match rounds with
  | O => ret None
  | S rounds =>
    let! t := now in
    if (deadline <=? t)%N then ret (Some false)
    else
      let! active := wifi_connection_active_for_ssid ssid in
      if negb active then ret (Some true)
      else
        let! t := now in
        let! generation := wait_for_event generation (wait_at {| at_instant := deadline |} t FORGET_EVENT_POLL_INTERVAL) in
        confirm_loop rounds ssid deadline generation
  end.
Definition not_confirmed : string :=
  "NetworkManager did not confirm disconnection within 10 seconds; no profiles were deleted.".
(** Whether the disconnection is confirmed, and the warnings. *)
Definition disconnect_and_confirm (rounds : nat) (ssid : list u8) : bus W (bool * list string) :=
  let! _ := disconnect_wifi_for_ssid ssid in
  let! t := now in
  let! generation := event_generation in
  let! confirmed := confirm_loop rounds ssid (t + FORGET_DEACTIVATION_TIMEOUT)%N generation in
  let! confirmed := lift (ok_or confirmed out_of_rounds) in
  ret (confirmed, if confirmed then [] else [not_confirmed]).

Fixpoint delete_profiles (profiles : list SavedWifiConnection) :
    bus W (list ForgetProfile * list ForgetProfileFailure) :=
  match profiles with
  | [] => ret ([], [])
  | p :: profiles =>
    let! r := attempt (delete_connection_by_path path_error (sw_path p)) in
    let! (deleted, failed) := delete_profiles profiles in
    ret match r with
        | Ok _ => (forget_profile p :: deleted, failed)
        | Err e => (deleted, {| ff_id := sw_id p; ff_path := sw_path p; ff_message := err_chain e |} :: failed)
        end
  end.

Definition refresh_caches (disconnected : bool) : bus W unit :=
  let! _ := if disconnected then cache_best_effort (λ io _, clear_active_connection_cache io) else ret tt in
  let! status := ok_opt (wifi_status path_error) in
  match status with
  | Some status => cache_best_effort (λ io now, cache_connected_network_status io now status)
  | None => ret tt
  end.

(** [ForgetService::run]. *)
Definition run (rounds : nat) (request_id : string) (target : WifiConnectTarget) (cancelled : list string) :
    bus W ForgetResult :=
  let ssid := ssid_bytes (t_ssid target) in
  let name := ssid_display (t_ssid target) in
  let! profiles := profiles_for ssid in
  let! was_active := wifi_connection_active_for_ssid ssid in
  let! warnings := disable_autoconnect (List.filter sw_autoconnect profiles) in
  let! (disconnected, more) := if was_active then disconnect_and_confirm rounds ssid else ret (false, []) in
  let warnings := warnings ++ more in
  if was_active && negb disconnected then
    ret (disconnect_pending request_id name (length profiles) cancelled warnings)
  else
    let! (deleted, failed) := delete_profiles profiles in
    let! _ := refresh_caches disconnected in
    ret (completed
      {| fc_request_id := request_id; fc_ssid := name; fc_was_active := was_active; fc_disconnected := disconnected;
         fc_cancelled_connect_requests := cancelled; fc_deleted_profiles := deleted; fc_failed_profiles := failed;
         fc_warnings := warnings |}).

(** ** The request ([forget::execute], with what it asks of the runtime) *)

Definition cancel_connects_for_ssid (ssid : list u8) : bus W (list string) := local (λ w,
  let (rt, ids) := Runtime.cancel_connects_for_ssid ssid (fh_runtime w) in
  let w := fh_put_runtime rt w in
  (ids, if bool_decide (ids = []) then w else fh_wake w)).
Definition pending_tasks (ids : list string) : bus W (list string) :=
  local (λ w, (pending_task_ids (fh_runtime w) ids, w)).
Fixpoint wait_tasks_loop (rounds : nat) (ids : list string) (deadline : instant) : bus W (list string) :=
  match rounds with
  | O => lift (Err out_of_rounds)
  | S rounds =>
    let! pending := pending_tasks ids in
    let! t := now in
    if bool_decide (pending = []) || (deadline <=? t)%N then ret pending
    else
      let! _ := local (λ w, (tt, fh_wait_tasks (deadline - t) w)) in
      wait_tasks_loop rounds ids deadline
  end.
Definition wait_for_tasks (rounds : nat) (ids : list string) (timeout : duration) : bus W (list string) :=
  match ids with
  | [] => ret []
  | _ => let! t := now in wait_tasks_loop rounds ids (t + timeout)%N
  end.
(** A job of the queue of blocking work, bound to NetworkManager's owner. *)
Definition call_work {A} (o : ErrorOperation) (task : bus W A) : bus W A :=
  let! _ := current_owner in
  let! queue := local (λ w, (fh_queue w, w)) in
  match queue with
  | Some e => lift (Err (lane_error "work" o e))
  | None => let! a := task in let! _ := ensure_current_owner in ret a
  end.
Definition normalized_request_id (request_id : string) : bus W string :=
  if bool_decide (trim request_id = "") then local (fh_next_id "forget") else ret request_id.
Definition audit (result : ForgetResult) : bus W unit := local (λ w,
  (tt, match fh_line result w with
       | Some line => fh_put_history (append_history line (fh_history w)) w
       | None => w
       end)).
Definition execute (rounds : nat) (request_id : string) (target : WifiConnectTarget) : bus W ForgetResult :=
  let! _ := lift (result_map_err (λ e, EDomain (with_cause e (validation Op.ProfileOperation (display e))))
                    (target_validate target)) in
  let! request_id := normalized_request_id request_id in
  let ssid := ssid_bytes (t_ssid target) in
  let! cancelled := cancel_connects_for_ssid ssid in
  let! pending := wait_for_tasks rounds cancelled FORGET_CANCELLATION_TIMEOUT in
  if negb (bool_decide (pending = [])) then
    let result := cancellation_pending request_id (ssid_display (t_ssid target)) cancelled pending in
    let! _ := audit result in ret result
  else
    let! result := call_work Op.ProfileOperation (run rounds request_id target cancelled) in
    let! _ := audit result in ret result.
End Forget.

(** ** What forgetting changes *)

Section Facts.
Context {W V : Type} {B : Bus W} {D : DeviceHost W} {SV : ProfileService V} {PS : ProfileStore W V}
  {R : RadioHost W} {ST : StatusHost W} `{RR : RecentResults} {EV : NetworkEvents W} {CH : CacheHost W} {FH : ForgetHost W}.
Context (path_error : string → option Error).
Implicit Types s : Session W.

Definition autoconnect_update (profiles : list SavedWifiConnection) (e : bus_event) : Prop :=
  ∃ p w, p ∈ profiles ∧ e = update_event (S:=V) (sw_path p) w.
Definition deletion (path : string) (reply : result (list value) Error) : bus_event :=
  EvCall path SETTINGS_CONNECTION_IFACE "Delete" [] reply.
Definition failure (p : SavedWifiConnection) (message : string) : ForgetProfileFailure :=
  {| ff_id := sw_id p; ff_path := sw_path p; ff_message := message |}.

(** Each profile in turn is deleted, or NetworkManager refuses, or the request is not sent. *)
Inductive deletions : list SavedWifiConnection → list bus_event → list ForgetProfile → list ForgetProfileFailure → Prop :=
| deletions_nil : deletions [] [] [] []
| deletions_deleted p ps es ds fs :
    deletions ps es ds fs → deletions (p :: ps) (deletion (sw_path p) (Ok []) :: es) (forget_profile p :: ds) fs
| deletions_refused p ps reply message es ds fs :
    reply ≠ Ok [] → deletions ps es ds fs →
    deletions (p :: ps) (deletion (sw_path p) reply :: es) ds (failure p message :: fs)
| deletions_unsent p ps message es ds fs :
    deletions ps es ds fs → deletions (p :: ps) es ds (failure p message :: fs).
Lemma deletions_found ps es ds fs : deletions ps es ds fs → (length ds + length fs)%nat = length ps.
Proof. induction 1; cbn in *; lia. Qed.

Lemma grows_set_autoconnect path b :
  grows (set_connection_autoconnect_by_path (W:=W) (S:=V) path_error path b)
    (λ _ l, ∀ e, e ∈ l → ∃ w, e = update_event (S:=V) path w).
Proof.
  unfold set_connection_autoconnect_by_path, Saved.mutate_connection_settings, parse_connection_path.
  eapply grows_then with (P := λ r l, l = [] ∧ ∀ x, r = Ok x → x = path).
  - apply grows_pure. split; [done|]. by destruct (path_error path); intros x [= <-].
  - by intros e l [-> _] ? ?%elem_of_nil.
  - intros x l [-> Hx]. rewrite (Hx x eq_refl). intros s.
    destruct (profile_io_trace path (λ destination env fails, mutate_connection_settings_with_casting destination env fails
      path None (λ c, Ok (update_section "connection" (λ c, <["autoconnect" := VBool b]> c) c)) no_reapply) s) as (ws & Hw).
    exists (update_event (S:=V) path <$> ws). split; [exact Hw|]. intros e (w & -> & _)%list_elem_of_fmap. eauto.
Qed.
Lemma grows_disable profiles :
  grows (disable_autoconnect (V:=V) path_error profiles)
    (λ r l, is_ok r = true ∧ ∀ e, e ∈ effects l → autoconnect_update profiles e).
Proof.
  induction profiles as [|p ps IH]; cbn; [apply grows_ret; split; [done|by intros ? ?%elem_of_nil]|].
  eapply grows_then.
  - apply grows_attempt with (Q := λ r l, is_ok r = true ∧ ∀ e, e ∈ l → ∃ w, e = update_event (S:=V) (sw_path p) w).
    eapply grows_mono; [apply grows_set_autoconnect|]. by intros r l Hl.
  - by intros e l [? _].
  - intros r l [_ Hl]. eapply grows_then; [exact IH|by intros e l1 [? _]|].
    intros ws l1 [_ H1]. apply grows_ret. split; [done|]. intros e. rewrite app_nil_r, effects_app.
    intros [He|He]%elem_of_app.
    + apply list_elem_of_In, List.filter_In in He as [He%list_elem_of_In _]. apply Hl in He as (w & ->).
      exists p, w. split; [by left|done].
    + destruct (H1 e He) as (q & w & ? & ?). exists q, w. split; [by right|done].
Qed.

Lemma grows_delete path :
  grows (delete_connection_by_path (W:=W) path_error path) (λ r l,
    (effects l = [] ∧ is_ok r = false) ∨ ∃ reply, effects l = [deletion path reply] ∧ (is_ok r = true ↔ reply = Ok [])).
Proof.
  unfold delete_connection_by_path, delete_connection.
  eapply grows_then with (P := λ r l, l = [] ∧ ∀ x, r = Ok x → x = path).
  - apply grows_pure. split; [done|]. by destruct (path_error path); intros x [= <-].
  - intros e l [-> _]. by left.
  - intros x l [-> Hx]. rewrite (Hx x eq_refl). eapply grows_then; [apply grows_proxy| |].
    + intros e l [-> _]. by left.
    + intros p l [-> ->]. apply grows_with_context. eapply grows_mono; [apply grows_call_unit_ok|].
      intros r l (reply & -> & Hr). right. exists reply. split; [done|]. rewrite <-Hr. by destruct r.
Qed.
Lemma grows_deletes profiles :
  grows (delete_profiles (W:=W) path_error profiles)
    (λ r l, match r with Ok (ds, fs) => deletions profiles (effects l) ds fs | Err _ => False end).
Proof.
  induction profiles as [|p ps IH]; cbn; [apply grows_ret; constructor|].
  eapply grows_then; [apply grows_attempt with (Q := λ r l, match r with
    | Ok r => (effects l = [] ∧ is_ok r = false) ∨
        ∃ reply, effects l = [deletion (sw_path p) reply] ∧ (is_ok r = true ↔ reply = Ok [])
    | Err _ => False end); apply grows_delete|done|].
  intros r l Hl. eapply grows_then; [exact IH|done|]. intros [ds fs] l1 H1. apply grows_ret.
  rewrite app_nil_r, effects_app. destruct Hl as [[-> Hr]|(reply & -> & Hr)]; destruct r as [u|e]; try done; cbn.
  - by constructor.
  - assert (reply = Ok []) as -> by (by apply Hr). by constructor.
  - constructor; [|done]. intros ->. by destruct Hr as [_ Hr]; specialize (Hr eq_refl).
Qed.

(** ** Confirmation *)

Lemma quiet_confirm rounds ssid deadline : ∀ g, quiet (confirm_loop (W:=W) rounds ssid deadline g).
Proof. induction rounds; intros g; cbn [confirm_loop]; quiet_tac. Qed.
Lemma extends_now : extends (now (W:=W)).
Proof. apply extends_local. Qed.
#[local] Hint Resolve extends_now : bus_extends.
Lemma extends_confirm rounds ssid deadline : ∀ g, extends (confirm_loop (W:=W) rounds ssid deadline g).
Proof. induction rounds; intros g; cbn [confirm_loop]; extends_tac. Qed.
Lemma confirm_true rounds ssid deadline g s s' :
  confirm_loop rounds ssid deadline g s = (Ok (Some true), s') →
  ∃ sc, wifi_connection_active_for_ssid ssid sc = (Ok false, s').
Proof.
  revert g s. induction rounds as [|rounds IH]; intros g s; cbn [confirm_loop]; [done|]. intros H.
  apply then_Ok in H as (t & s1 & _ & H). destruct (deadline <=? t)%N; [by apply done_Ok in H as [? _]|].
  apply then_Ok in H as ([] & s2 & Ha & H); cbn [negb] in H.
  - bus_unroll. by eapply IH.
  - apply done_Ok in H as [_ ->]. eauto.
Qed.
Lemma disconnected_weaken ssid l : disconnected_by ssid true l → disconnected_by ssid false l.
Proof. intros H e (path & reply & ? & ? & _)%H. by exists path, reply. Qed.
Lemma grows_confirm rounds ssid :
  grows (disconnect_and_confirm (W:=W) rounds ssid) (λ _ l, disconnected_by ssid false l).
Proof.
  unfold disconnect_and_confirm. eapply grows_then; [apply grows_disconnect_for_ssid| |].
  - intros e l [H _]. exact H.
  - intros d l [H%disconnected_weaken _].
    assert (∀ l1, effects l1 = [] → disconnected_by ssid false (l ++ l1)) as Hq.
    { intros l1 H1 e. rewrite effects_app, H1, app_nil_r. intros (path & reply & -> & ? & ?)%H. exists path, reply.
      split_and!; [done| |done]. eapply read_connected_mono; [|done]. set_solver. }
    eapply grows_mono; [apply quiet_grows_nil|intros r l1; apply Hq].
    + pose proof quiet_confirm. quiet_tac.
    + pose proof extends_confirm. extends_tac.
Qed.
Lemma confirmed_seen rounds ssid s ws s' :
  disconnect_and_confirm rounds ssid s = (Ok (true, ws), s') →
  ∃ sc, wifi_connection_active_for_ssid ssid sc = (Ok false, s').
Proof.
  unfold disconnect_and_confirm. intros H. bus_unroll. simplify_eq.
  match goal with H : ok_or ?o _ = Ok true |- _ => destruct o; [injection H as ->|done] end. by eapply confirm_true.
Qed.

(** ** The workflow settles *)

(** Before deletion the only changes are these. *)
Definition prepares (ssid : list u8) (profiles : list SavedWifiConnection) (l : list bus_event) : Prop :=
  ∀ e, e ∈ effects l → autoconnect_update profiles e ∨
    ∃ path reply, e = deactivation path reply ∧ read_connected ssid path l.
Lemma prepares_app ssid profiles l l' : prepares ssid profiles l → prepares ssid profiles l' → prepares ssid profiles (l ++ l').
Proof.
  intros H H' e. rewrite effects_app. intros [He|He]%elem_of_app;
    [destruct (H e He) as [?|(path & reply & ? & ?)]|destruct (H' e He) as [?|(path & reply & ? & ?)]];
    try (by left); right; exists path, reply; (split; [done|]); (eapply read_connected_mono; [|done]; set_solver).
Qed.
Lemma prepares_quiet ssid profiles l : effects l = [] → prepares ssid profiles l.
Proof. intros Hl e. rewrite Hl. by intros ?%elem_of_nil. Qed.
Lemma prepares_disconnect ssid profiles l : disconnected_by ssid false l → prepares ssid profiles l.
Proof. intros H e (path & reply & ? & ? & _)%H. right. eauto. Qed.

Definition of_ssid (ssid : list u8) (profiles : list SavedWifiConnection) : Prop :=
  ∀ p, p ∈ profiles → sw_ssid_bytes p = ssid.
(** NetworkManager was asked after [from] and before [upto] and said the SSID is not connected. *)
Definition confirmed_off (ssid : list u8) (upto : list bus_event) : Prop :=
  ∃ sc sd, wifi_connection_active_for_ssid (W:=W) ssid sc = (Ok false, sd) ∧ trace sd `prefix_of` upto.
Definition forget_settled (ssid : list u8) (start : list bus_event) (r : result ForgetResult Error)
    (l : list bus_event) : Prop :=
  ∃ profiles l1 l2, of_ssid ssid profiles ∧ l = l1 ++ l2 ∧ prepares ssid profiles l1 ∧
  match r with
  | Err _ => l2 = []
  | Ok res =>
    fr_profiles_found res = length profiles ∧
    ((fr_status res = DisconnectPending ∧ fr_was_active res = true ∧ fr_disconnected res = false ∧ l2 = [] ∧
        fr_deleted_profiles res = [] ∧ fr_failed_profiles res = []) ∨
     (confirmed_off ssid (start ++ l1) ∧ fr_disconnected res = fr_was_active res ∧
        deletions profiles (effects l2) (fr_deleted_profiles res) (fr_failed_profiles res) ∧
        fr_status res = completion_status (length profiles) (length (fr_failed_profiles res))))
  end.

Lemma profiles_for_exact ssid s ps s' : profiles_for ssid s = (Ok ps, s') → of_ssid ssid ps.
Proof.
  unfold profiles_for. intros H. bus_unroll. subst. intros p Hp.
  apply list_elem_of_In, List.filter_In in Hp as [_ ?%bool_decide_eq_true]. done.
Qed.
Lemma quiet_refresh_caches b : quiet (refresh_caches (W:=W) (V:=V) path_error b).
Proof. unfold refresh_caches. quiet_tac. Qed.
Lemma extends_refresh b : extends (refresh_caches (W:=W) (V:=V) path_error b).
Proof. unfold refresh_caches. extends_tac. Qed.
Lemma succeeds_refresh b : succeeds (refresh_caches (W:=W) (V:=V) path_error b).
Proof. unfold refresh_caches. total_tac. Qed.
Lemma grows_profiles_for ssid : grows (profiles_for (W:=W) (V:=V) ssid) (λ _ l, effects l = []).
Proof. apply quiet_grows_nil; unfold profiles_for; [quiet_tac|extends_tac]. Qed.
Lemma grows_active ssid : grows (wifi_connection_active_for_ssid (W:=W) ssid) (λ _ l, effects l = []).
Proof. apply quiet_grows_nil; auto with bus_quiet bus_extends. Qed.
(** The deletions and what follows. *)
Lemma grows_finish profiles disconnected (k : list ForgetProfile → list ForgetProfileFailure → ForgetResult) :
  grows (let! (ds, fs) := delete_profiles (W:=W) path_error profiles in
         let! _ := refresh_caches (V:=V) path_error disconnected in ret (k ds fs))
    (λ r l, ∃ ds fs, r = Ok (k ds fs) ∧ deletions profiles (effects l) ds fs).
Proof.
  eapply grows_then; [apply grows_deletes|done|]. intros [ds fs] l Hl.
  eapply grows_then with (P := λ r l, effects l = [] ∧ is_ok r = true).
  - intros s. destruct (quiet_grows_nil _ (quiet_refresh_caches disconnected) (extends_refresh disconnected) s) as (l1 & H1 & Hq).
    exists l1. split; [done|]. split; [done|apply succeeds_refresh].
  - by intros e l1 [_ ?].
  - intros u l1 [Hq _]. apply grows_ret. exists ds, fs. split; [done|]. by rewrite app_nil_r, effects_app, Hq, app_nil_r.
Qed.

Lemma settled_early ssid profiles start e l :
  of_ssid ssid profiles → prepares ssid profiles l → forget_settled ssid start (Err e) l.
Proof. intros Hps Hp. exists profiles, l, []. by rewrite app_nil_r. Qed.
Lemma settled_finish ssid profiles disconnected (k : list ForgetProfile → list ForgetProfileFailure → ForgetResult) m s sf l :
  m = (let! (ds, fs) := delete_profiles (W:=W) path_error profiles in
       let! _ := refresh_caches (V:=V) path_error disconnected in ret (k ds fs)) →
  of_ssid ssid profiles → trace sf = trace s ++ l → prepares ssid profiles l → confirmed_off ssid (trace s ++ l) →
  (∀ ds fs, fr_deleted_profiles (k ds fs) = ds ∧ fr_failed_profiles (k ds fs) = fs ∧
     fr_profiles_found (k ds fs) = (length ds + length fs)%nat ∧
     fr_status (k ds fs) = completion_status (length ds + length fs) (length fs) ∧
     fr_disconnected (k ds fs) = fr_was_active (k ds fs)) →
  ∃ l', trace (m sf).2 = trace s ++ l' ∧ forget_settled ssid (trace s) (m sf).1 l'.
Proof.
  intros -> Hps Hl Hp Hc Hk. destruct (grows_finish profiles disconnected k sf) as (l2 & H2 & ds & fs & -> & Hd).
  exists (l ++ l2). rewrite H2, Hl, <-app_assoc. split; [done|]. exists profiles, l, l2.
  destruct (Hk ds fs) as (-> & -> & -> & -> & ->). rewrite (deletions_found _ _ _ _ Hd).
  split_and!; [done..|]. right. by split_and!.
Qed.

Lemma run_settles rounds request_id target cancelled s :
  ∃ l, trace (run (V:=V) path_error rounds request_id target cancelled s).2 = trace s ++ l ∧
    forget_settled (ssid_bytes (t_ssid target)) (trace s)
      (run (V:=V) path_error rounds request_id target cancelled s).1 l.
Proof.
  set (ssid := ssid_bytes (t_ssid target)). unfold run. fold ssid.
  destruct (grows_profiles_for ssid s) as (l1 & H1 & Q1).
  destruct (profiles_for ssid s) as [[profiles|e] s1] eqn:E1; cbn [fst snd] in H1.
  2: { rewrite (step_Err _ _ _ _ _ E1). exists l1. split; [done|].
       apply (settled_early ssid []); [by intros ? ?%elem_of_nil|by apply prepares_quiet]. }
  rewrite (step_Ok _ _ _ _ _ E1). apply profiles_for_exact in E1 as Hps.
  destruct (grows_active ssid s1) as (l2 & H2 & Q2).
  destruct (wifi_connection_active_for_ssid ssid s1) as [[active|e] s2] eqn:E2; cbn [fst snd] in H2.
  2: { rewrite (step_Err _ _ _ _ _ E2). exists (l1 ++ l2). rewrite app_assoc, <-H1. split; [done|].
       apply (settled_early ssid []); [by intros ? ?%elem_of_nil|]. apply prepares_quiet. by rewrite effects_app, Q1, Q2. }
  rewrite (step_Ok _ _ _ _ _ E2).
  destruct (grows_disable (List.filter sw_autoconnect profiles) s2) as (l3 & H3 & Q3 & U3).
  destruct (disable_autoconnect path_error _ s2) as [[warnings|e] s3] eqn:E3; cbn [fst snd] in H3, Q3; [|done].
  rewrite (step_Ok _ _ _ _ _ E3). clear E3 Q3.
  assert (∃ l, trace s3 = trace s ++ l ∧ trace s2 `prefix_of` trace s ++ l ∧ prepares ssid profiles l) as (l & Hl & Hpre & Hp).
  { exists (l1 ++ l2 ++ l3). rewrite H3, H2, H1, <-!app_assoc. split_and!; [done|exists l3; by rewrite <-!app_assoc|].
    intros e. rewrite !effects_app, Q1, Q2. cbn. intros He. left. destruct (U3 e He) as (p & w & Hin & ->).
    exists p, w. split; [|done]. apply list_elem_of_In, List.filter_In in Hin as [? _]. by apply list_elem_of_In. }
  clear H1 Q1 H2 Q2 H3 U3 l1 l2 l3. destruct active.
  - destruct (grows_confirm rounds ssid s3) as (l4 & H4 & Q4).
    destruct (disconnect_and_confirm rounds ssid s3) as [[[[] more]|e] s4] eqn:E4; cbn [fst snd] in H4.
    + rewrite (step_Ok _ _ _ _ _ E4). cbn [andb negb]. apply confirmed_seen in E4 as (sc & Hsc).
      eapply (settled_finish ssid profiles true (λ ds fs, completed _) _ s s4 (l ++ l4));
        [reflexivity|done|by rewrite H4, Hl, <-app_assoc| | |done].
      * apply prepares_app; [done|by apply prepares_disconnect].
      * exists sc, s4. split; [exact Hsc|]. by rewrite H4, Hl, <-app_assoc.
    + rewrite (step_Ok _ _ _ _ _ E4). cbn [andb negb]. exists (l ++ l4). cbn. rewrite H4, Hl, <-app_assoc.
      split; [done|]. exists profiles, (l ++ l4), []. rewrite app_nil_r. split_and!; [done|done| |done|by left].
      apply prepares_app; [done|by apply prepares_disconnect].
    + rewrite (step_Err _ _ _ _ _ E4). exists (l ++ l4). cbn. rewrite H4, Hl, <-app_assoc. split; [done|].
      apply (settled_early ssid profiles); [done|]. apply prepares_app; [done|by apply prepares_disconnect].
  - rewrite (step_Ok _ _ _ _ _ (eq_refl : ret (false, []) s3 = (Ok (false, []), s3))). cbn [andb negb].
    eapply (settled_finish ssid profiles false (λ ds fs, completed _) _ s s3 l); [reflexivity|done..| |done].
    by exists s1, s2.
Qed.

(** ** The request settles *)

(** Steps that leave NetworkManager alone. *)
Definition untraced {A} (m : bus W A) : Prop := ∀ s, trace (m s).2 = trace s.
Lemma untraced_bind {A C} (m : bus W A) (k : A → bus W C) : untraced m → (∀ a, untraced (k a)) → untraced (bind m k).
Proof.
  intros Hm Hk s. unfold bind. specialize (Hm s). destruct (m s) as [[a|e] s1]; [|done]. rewrite (Hk a). exact Hm.
Qed.
Lemma untraced_local {A} (f : W → A * W) : untraced (local f).
Proof. intros s. unfold local. by destruct (f (world s)). Qed.
Lemma untraced_wait rounds ids deadline : untraced (wait_tasks_loop (W:=W) rounds ids deadline).
Proof.
  induction rounds as [|rounds IH]; cbn [wait_tasks_loop]; [done|].
  apply untraced_bind; [apply untraced_local|]. intros pending. apply untraced_bind; [apply untraced_local|]. intros t.
  case_match; [done|]. apply untraced_bind; [apply untraced_local|done].
Qed.
Lemma untraced_wait_for rounds ids d : untraced (wait_for_tasks (W:=W) rounds ids d).
Proof.
  unfold wait_for_tasks. destruct ids; [done|]. apply untraced_bind; [apply untraced_local|]. intros. apply untraced_wait.
Qed.
Lemma untraced_owner : untraced (current_owner (W:=W)).
Proof.
  unfold current_owner. case_match; [done|]. intros s. unfold access. destruct (bus_owner _). cbn. apply app_nil_r.
Qed.
Lemma untraced_ensure : untraced (ensure_current_owner (W:=W)).
Proof. unfold ensure_current_owner. case_match; [|done]. by apply untraced_bind; [apply untraced_owner|]. Qed.
Lemma untraced_request_id id : untraced (normalized_request_id (W:=W) id).
Proof. unfold normalized_request_id. case_match; [apply untraced_local|done]. Qed.
Lemma untraced_cancel ssid : untraced (cancel_connects_for_ssid (W:=W) ssid).
Proof. apply untraced_local. Qed.
(** What the wait reports: the tasks that were in the table when it looked last. *)
Lemma wait_loop_pending rounds ids deadline s pending s' :
  wait_tasks_loop (W:=W) rounds ids deadline s = (Ok pending, s') →
  ∃ w, pending = pending_task_ids (fh_runtime w) ids.
Proof.
  revert s. induction rounds as [|rounds IH]; intros s; cbn [wait_tasks_loop]; [done|]. intros H.
  apply then_Ok in H as (p & s1 & [= <- <-] & H). apply then_Ok in H as (t & s2 & _ & H).
  case_match; [apply done_Ok in H as [-> _]; eauto|]. apply then_Ok in H as (u & s3 & _ & H). by eapply IH.
Qed.
Lemma wait_pending rounds ids d s pending s' :
  wait_for_tasks (W:=W) rounds ids d s = (Ok pending, s') → ∃ w, pending = pending_task_ids (fh_runtime w) ids.
Proof.
  unfold wait_for_tasks. destruct ids; [intros [-> _]%done_Ok; by exists (world s)|].
  intros H. apply then_Ok in H as (t & s1 & _ & H). by eapply wait_loop_pending.
Qed.
Lemma ret_audit_settled (res : ForgetResult) s :
  trace ((let! _ := audit (W:=W) res in ret res) s).2 = trace s ∧ ((let! _ := audit (W:=W) res in ret res) s).1 = Ok res.
Proof. split; [|done]. apply (untraced_bind (audit res)); [apply untraced_local|done]. Qed.

(** The connection attempts a request cancelled, [w] being the state it found. *)
Definition cancelled_in (ssid : list u8) (w : W) : list string :=
  (Runtime.cancel_connects_for_ssid ssid (fh_runtime w)).2.
Definition request_settled (ssid : list u8) (start : list bus_event) (r : result ForgetResult Error)
    (l : list bus_event) : Prop :=
  (l = [] ∧ match r with
    | Ok res => fr_status res = CancellationPending ∧ fr_pending_connect_requests res ≠ [] ∧ ∃ w w',
        fr_cancelled_connect_requests res = cancelled_in ssid w ∧
        fr_pending_connect_requests res = pending_task_ids (fh_runtime w') (cancelled_in ssid w)
    | Err _ => True
    end) ∨
  (∃ w w' r', pending_task_ids (fh_runtime w') (cancelled_in ssid w) = [] ∧ forget_settled ssid start r' l ∧
     (r = r' ∨ is_ok r = false)).

Lemma call_work_run rounds id target ids s :
  ∃ l, trace (call_work Op.ProfileOperation (run (V:=V) path_error rounds id target ids) s).2 = trace s ++ l ∧
    let r := (call_work Op.ProfileOperation (run (V:=V) path_error rounds id target ids) s).1 in
    (l = [] ∧ is_ok r = false) ∨
    ∃ r', forget_settled (ssid_bytes (t_ssid target)) (trace s) r' l ∧ (r = r' ∨ is_ok r = false).
Proof.
  unfold call_work. pose proof (untraced_owner s) as T1.
  destruct (current_owner s) as [[o|e] s1] eqn:E1; cbn [snd] in T1;
    [rewrite (step_Ok _ _ _ _ _ E1)|rewrite (step_Err _ _ _ _ _ E1); exists []; rewrite app_nil_r; by split; [|left]].
  destruct s1 as [w1 tr1]. cbn [trace] in T1. subst tr1. set (s2 := {| world := w1; trace := trace s |}) in *.
  rewrite (step_Ok (local (λ w, (fh_queue w, w))) _ s2 (fh_queue w1) s2 eq_refl).
  destruct (fh_queue w1); [exists []; rewrite app_nil_r; by split; [|left]|].
  destruct (run_settles rounds id target ids s2) as (l & Hl & Hs). change (trace s2) with (trace s) in Hl, Hs. exists l.
  destruct (run path_error rounds id target ids s2) as [[res|e] s3] eqn:E2; cbn [fst snd] in Hl, Hs.
  - rewrite (step_Ok _ _ _ _ _ E2). pose proof (untraced_ensure s3) as T3.
    unfold bind, ret. destruct (ensure_current_owner s3) as [[u|e] s4]; cbn [fst snd] in *.
    + split; [congruence|]. right. exists (Ok res). split; [done|]. by left.
    + split; [congruence|]. right. exists (Ok res). split; [done|]. by right.
  - rewrite (step_Err _ _ _ _ _ E2). cbn. split; [done|]. right. exists (Err e). by split; [|left].
Qed.


(** ** The wait ends *)

Context {EC : EventClock W}.
Lemma forward_active_for_ssid ssid : along moves (wifi_connection_active_for_ssid (W:=W) ssid).
Proof.
  unfold wifi_connection_active_for_ssid, device_connection_for_ssid, active_connection_matches_ssid,
    device_active_connection_path, active_connection_profile_path, connection_matches_ssid, connection_settings,
    wifi_devices, wifi_device. forward_tac.
Qed.
Lemma confirm_answers ssid deadline n : ∀ polls events g s, n = (polls + events)%nat →
  (deadline ≤ clock s + N.of_nat polls * FORGET_EVENT_POLL_INTERVAL)%N → (ev_left (world s) ≤ N.of_nat events)%N →
  (confirm_loop (S n) ssid deadline g s).1 ≠ Ok None.
Proof.
  induction n as [|n IH]; intros polls events g s Hn Hd He; cbn [confirm_loop].
  all: apply bind_not_Ok; intros t s1 [= <- <-]; fold (clock s).
  all: destruct (N.leb_spec deadline (clock s)) as [Hl|Hl]; [done|].
  { assert (polls = 0%nat) as -> by lia. cbn in Hd. lia. }
  apply bind_not_Ok. intros active s1 Ha. destruct s as [w tr]. cbn [world trace] in *.
  pose proof (forward_active_for_ssid ssid {| world := w; trace := tr |}) as [Hc Hw]. rewrite Ha in Hc, Hw.
  cbn [snd] in Hc, Hw. destruct active; [cbn [negb]|done].
  apply bind_not_Ok. intros t s2 [= <- <-]. apply bind_not_Ok. intros g' s2. unfold wait_for_event, local.
  pose proof (wait_moves g (wait_at {| at_instant := deadline |} (bus_now (world s1)) FORGET_EVENT_POLL_INTERVAL) (world s1))
    as [[Hc2 Hw2] Hor].
  destruct (ev_wait _ _ _) as [g2 w2]. cbn [fst snd] in *. intros [= <- <-].
  unfold clock in *. unfold wait_at in Hor. cbn [world at_instant] in *. destruct Hor as [Hor|Hor].
  - destruct polls as [|polls]; [cbn in Hd; lia|]. apply (IH polls events); [lia| |cbn [world]; lia].
    cbn [world]. unfold FORGET_EVENT_POLL_INTERVAL in *. lia.
  - destruct events as [|events]; [lia|]. apply (IH polls events); [lia|cbn [world]; lia|cbn [world]; lia].
Qed.
(** Waiting for the disconnection ends within 21 rounds and one for each event. *)
Theorem confirm_ends events ssid g s :
  (ev_left (world s) ≤ N.of_nat events)%N →
  (confirm_loop (S (20 + events)) ssid (clock s + FORGET_DEACTIVATION_TIMEOUT)%N g s).1 ≠ Ok None.
Proof.
  intros He. apply (confirm_answers ssid _ _ 20 events); [done| |done].
  unfold FORGET_DEACTIVATION_TIMEOUT, FORGET_EVENT_POLL_INTERVAL, from_millis. lia.
Qed.
End Facts.
